(* ===== verification/_CoqProject ===== *)
-Q . S2P
Prelude.v
Util.v
GoStrings.v
Store.v
Dec.v
Types.v
Params.v
Wire.v
WireLemmas.v
Pulsar.v
PulsarLemmas.v
Reflect.v
ReflectLemmas.v
ApiOracle.v
ApiTx.v
ApiQuery.v
ApiMultisig.v
ReflectOracle.v
ReflectTx.v
ReflectQuery.v
ReflectMultisig.v
ReflectSample.v
ApiTwin.v
OracleProto.v
WireSample.v
Bech32.v
Ballot.v
Votes.v
World.v
State.v
Subspace.v
Keeper.v
HistoricPrice.v
ParamPlan.v
Averages.v
Msgs.v
MsgServer.v
Rewards.v
EndBlock.v
Chain.v
Genesis.v
Abci.v
GenesisProto.v
TxProto.v
Codec.v
Migrations.v
Simulation.v
Query.v
QueryProto.v
QueryService.v
Multisig.v
MultisigProto.v
Client.v
Modules.v
Gateway.v
OracleTwins.v
MultisigTwins.v
Grpc.v
GrpcOracle.v
GrpcMultisig.v
ApiSample.v
MultisigService.v
App.v
Application.v
Export.v
Liveness.v
Sample.v
VotingTheorems.v
ParamsTheorems.v
TallyTheorems.v
RewardTheorems.v
PriceTheorems.v
InterfaceTheorems.v
MultisigTheorems.v
ProtoTheorems.v
MigrationTheorems.v
SystemTheorems.v
ApiTheorems.v
ReflectTheorems.v
GatewayTheorems.v
