(* ===== verification/Prelude.v ===== *)
(** * DMChain: a verification development of the oracle and multisig modules

    DMChain is a Cosmos SDK chain written in Go.  Its own logic is two modules:
    [src/x/oracle], a price oracle in which validators commit to exchange
    rates, reveal them one voting period later, and are tallied, rewarded and
    slashed at the end of blocks; and [src/x/multisig], accounts with several
    signers.  This library models both as executable definitions and proves
    what makes them correct, and where they are not, what they do instead.

    ** The parts of the program and how they interact

    A block is proposed with the vote extensions of the previous one
    ([x/oracle/abci/proposal.go], [voteextension.go]); its transactions reach
    the message server ([x/oracle/keeper/msg_server.go]), which stores prevotes,
    votes, feeder delegations and scheduled parameter plans through the keeper;
    at its end [EndBlocker] ([x/oracle/abci/endblocker.go]) executes due plans,
    and at the last block of a voting period computes the prices: it organises
    the votes into ballots, tallies them, stores exchange rates and price
    stamps, counts misses, rewards the winners and clears the period; at the
    last block of a slash window it slashes, and it prunes old stamps.  The
    multisig module stands alone.  Both call other modules of the SDK.

    Around them: the protobuf code of the messages exists twice, for the node
    under [src/x] and for its clients under [src/api], where it also has
    reflection, gRPC stubs and a table of proposals; queries are answered over
    gRPC and over HTTP; and commands, genesis documents, migrations and the
    application tie the modules together.

    ** How code becomes definitions

    - A Go call is an [outcome]: a value, an error or a panic.  A method that
      writes is [M S A := S -> outcome A * S], with the writes made before an
      error kept, as in the code; the router of [Chain.deliver] drops them.
      Loops are folds ([foldM], [forM], [loopM]) or walks over a collection.
    - [uint64] and [int64] are [Z] with the wrap-around, the clamping
      conversions of [util] and the division by zero written out (Util).
    - [LegacyDec] is its integer of 10^-18 units; arithmetic that can panic is
      the class [DecOps] with the laws [DecLaws] and the instance [FixedDec]
      (Dec).
    - A [collections.Map] is a [gmap], walked in the order of its encoded keys
      (Store).  The order of a Go map iteration is an argument, and the
      theorems do not depend on it; [sort.Slice] and [sort.Sort] are a merge
      sort, with the uniqueness of the result where ties could show.
    - In-place changes of shared slices are written out: the deletion loops of
      [RemovePair] (Types), the buffer of [ConcatBytes] (Util), the normalized
      lists a plan shares with its message (ParamPlan).
    - Code that is not under [src/] is a class with documented laws, and every
      class has a concrete instance that the witnesses evaluate on: address
      codec (Bech32), SHA-256 and the coin syntax (Votes), YAML text of denoms
      (Types), staking, distribution, bank, auth and the price feeder (World),
      CometBFT's checks and the codec of its commits (Abci), floats (Rewards),
      blake2b (Multisig), the ORM library (Multisig), the codec of governance
      proposals (Migrations), gov's table of proposal types (Codec), the casts of application options (App), the random
      source, the accounts and the bank of a simulation (Simulation), coins (World,
      with the laws of RewardTheorems), the calls that construct the application
      (Application), the keepers that are exported (Export), the machine that a
      test network is written to (Client), the runtime of the generated API (Pulsar,
      Reflect), a gRPC connection (Grpc), the runtime of grpc-gateway (Gateway)
      and JSON (Modules).
    - Generated protobuf code is not such code: it is in the repository, and is
      modelled as it is written, from the back of the buffer for the writers
      and with an index into the slice for the readers, where an index or a
      slice expression out of range is a panic (Wire).  Only the text
      of a [LegacyDec] ([DecCodec]), [sdk.DecCoin] and [Any], which the SDK
      generates, are classes, with the instances of WireSample.  The code of
      [src/api] is modelled the same way: pointers to messages are options, and
      the fields that a message does not know are kept (Pulsar); its reflection
      is a record of operations per message over fields of a common type of
      values (Reflect).

    ** Files

    Foundations: Prelude (outcomes, the state monad, its Hoare-style frame
    [keeps], tactics); Util ([util/int_convert.go], [bytes.go], [strings.go],
    [genmap]); GoStrings (Go's [strings], [encoding/hex] and
    [strconv]); Store; Dec (with [util/decmath]).
    Data: Types ([x/oracle/types]: records, lists, errors, stamps, store keys); Params
    ([types/params.go], [plan.go]); Bech32; Ballot ([types/ballot.go]); Votes
    ([types/vote.go], [hash.go]); Msgs
    ([types/msgs.go], [util/checkers]).
    Wire format: Wire (varints, tags, the readers and writers that generated
    code repeats, [skip], the class [ProtoMessage] of a message and [ProtoLaws]
    of its reference encoding); WireLemmas (their lemmas, and the tactics that
    derive the laws of a message from its tables); OracleProto
    ([types/oracle.pb.go], [abci.pb.go]); GenesisProto
    ([genesis.pb.go]); TxProto ([tx.pb.go]); QueryProto ([query.pb.go],
    [events.pb.go]); MultisigProto ([x/multisig/types], the four [.pb.go]
    files); Codec, QueryService and MultisigService (the services: names of
    messages and methods, from bytes to handlers; the old proposal interface of
    [types/proposal.go]); WireSample (a concrete text
    of decimals, coins and [Any]).
    Generated API ([src/api]): Pulsar and PulsarLemmas (the parts of [size],
    [marshal] and [unmarshal]); ApiOracle, ApiTx, ApiQuery and ApiMultisig (the
    structs and closures of 96 messages); Reflect and ReflectLemmas (the parts
    of the reflection methods and the contract of a field); ReflectOracle,
    ReflectTx, ReflectQuery and ReflectMultisig (the methods, list wrappers and
    getters of the messages); ApiTwin, OracleTwins and MultisigTwins (each
    message against its twin under [src/x]); Grpc, GrpcOracle and GrpcMultisig
    (the four services); the end of Multisig (the table of proposals); ApiSample
    and ReflectSample (concrete runtimes).
    State: World (what the keeper calls); State (the keeper's collections);
    Subspace ([keeper/params.go]); Keeper ([keeper/keeper.go],
    [miss_counter.go], [alias_functions.go]).
    Operations: HistoricPrice ([keeper/historic_price.go], [end_blocker.go],
    [genesis.go]); ParamPlan ([keeper/param_update_plan.go]); Averages
    ([keeper/averages.go]); MsgServer ([keeper/msg_server.go]); Rewards
    ([keeper/ballot.go], [slash.go], [reward.go]); EndBlock
    ([abci/endblocker.go]); Liveness (when no step of a
    price computation can fail); Chain (transactions and blocks as a step
    relation);
    Genesis ([x/oracle/genesis.go]); Abci ([abci/proposal.go],
    [voteextension.go]); Query ([keeper/grpc_query.go]); Multisig
    ([x/multisig/keeper], [types]); Gateway ([types/query.pb.gw.go] of
    both); Modules ([module.go] of both); Migrations ([keeper/migrations.go],
    [migrate_proposal.go]); Client ([client/cli] of both,
    [x/multisig/types/msgs.go], [cmd/simd/testnet.go]); Simulation
    ([x/oracle/simulations], [util/sim], [util/coin]).
    Application: App ([src/app]: the message filter, the ante chain, upgrades;
    [src/pricefeeder]); Application ([app/app.go] with the commands of
    [cmd/simd] that construct it); Export ([app/export.go]).
    Theorems: Sample holds the concrete surroundings of the witnesses;
    VotingTheorems, ParamsTheorems, TallyTheorems, RewardTheorems,
    PriceTheorems, InterfaceTheorems, MultisigTheorems, ProtoTheorems,
    MigrationTheorems, SystemTheorems, ApiTheorems, ReflectTheorems and
    GatewayTheorems hold the properties over several files, with a witness where
    they have hypotheses; Params, Ballot, Votes, Codec, Application and Export hold their own.

    ** What the theorems show

    - Voting: when a prevote and a vote are accepted and their whole effect;
      that an honest feeder gets through and no reveal is replayed; that every
      reachable state is well-formed; that only the authority changes
      parameters or plans.
    - Parameters: [Validate] against its conditions; scheduling and execution
      of plans, the plan loop against its specification; the plans the denom
      messages build; and that two accepted plans together may leave invalid
      parameters.
    - Tally: the ballots of a period, with every vote as often as it was cast,
      the weighted median, who is credited, what a completed price computation
      leaves, and which prevotes it keeps for too long; slashing exactly below
      the minimum; that no minority of the power can stop a price computation or
      move a rate out of the range of the honest votes; that a denom whose
      symbol the SDK's expression refuses is never priced, in any reachable
      state; and the parameters and the keeper
      construction that stop the chain: medians stamped in blocks that stamp no
      price, a listed denom without a reward band.
    - Rewards: what a distribution is about to move is, in every denom, at
      least zero and at most the balance of the pool.
    - Prices: retention bounds, stamped medians as the middle of the newest
      prices and their deviations, bounds of moving averages; and
      the readers that look at the wrong key or collection.
    - Interfaces: an honest proposal is accepted, an accepted block carries the
      votes of its commit, a sent extension carries the accepted rates of the
      price feeder and is accepted; genesis restores every collection it
      exports, vote strings and store keys round trip.
    - Wire format: each [Marshal] is the reference encoding of its message and
      never fails on a message that fits a slice; [Unmarshal] reads that
      encoding back, ends on every input without an index out of the slice, and
      returns integers of their types; so the messages of both modules, the stored votes, the
      vote extensions and the injected transaction survive their encoding, and
      a query is answered over the wire as the querier answers it, without a
      write.
    - Generated API: the client's code writes and reads the same bytes as the
      node's for every message, keeps unknown fields, and gets over gRPC what
      the querier answers; the reflection methods of a message agree with the
      struct, its closures and each other; the generated table keeps the promises the handlers
      rely on.
    - Gateway and commands: every documented path reaches its query and no
      other, and writes its answer or its error; weights are parsed as they
      were printed; with the keeper that dependency injection builds, every
      block of the oracle module panics.
    - Migrations, client and application: what the migration leaves of each
      stored proposal, that converted updates are refused when they execute,
      that the commands of the client commit and reveal successfully, that a
      disallowed message is rejected however deep it is nested, and that
      simulated reveals are refused.
    - Application: whatever the SDK does, constructing the application panics,
      because the account permissions lack the oracle, so no command of the
      binary starts; otherwise the wiring is complete: every keeper is built once
      and before it is used, no old proposal of the oracle has a route, every store key is mounted, every subspace is
      registered.  A preparation for height zero keeps every redelegation,
      unbonding delegation and signing info, at height zero, and jails the
      validators that are not allowed.
    - Multisig: creation on every branch; that no proposal can ever be opened
      or dispatched, and that the module stays without proposals.

    ** Bounds and fuel

    [remove_loop] takes the length of the list as fuel: each iteration raises
    the index or shortens the list.  The loops of [Unmarshal], of [skip], of
    packed fields and of the varints in them take the length of the slice: each
    iteration consumes a byte or fails, and the round trips and
    [decoding_terminates] show that the fuel is never what ends them: running
    out of it would be a panic.  Writing a varint has ten rounds, as its value
    is below 2^64.  The dispatch of a multisig proposal calls its own handler through
    the router: it takes fuel, running out is the crash of the Go program, and
    the theorems hold for every fuel.  Heights stay below 2^63, where the code
    converts them; slices are shorter than 2^63 bytes, where the wire theorems
    say so.  Strings are taken to be ASCII where the code changes their case.

    ** What is not modelled

    The subcommands and the configuration of the node ([src/cmd]), its in-process
    test network, the interchain tests: they only call the SDK.  Of the
    application, the getters of its fields and the services it registers for
    clients.  Of the modules, the registration of types, services and options of
    commands.  Protobuf
    descriptors and [String]: bytes and text that only libraries read; the
    reflection of a descriptor ([slowProtoReflect]) is the library's.  Under
    [src/x], the nine responses of the oracle that have no fields.
    Telemetry, logs and gas.  The oracle inside the price feeder, which fetches
    the prices, is third-party code: its options and its start are modelled, and
    of its process what the end blocker and the vote extension read. *)
From Stdlib Require Export Ascii.
From stdpp Require Export base tactics numbers list option strings gmap sorting.
From Stdlib Require Export ZArith Lia.

(** ** Go values: errors and outcomes *)

(** An [error] value.  [Registered m n] is the sentinel made by
    [errors.Register(m, n, ...)]; [Sdk s] is the sentinel named [s] of the
    Cosmos SDK; [Errorf s] is a [fmt.Errorf]/[errors.New] value with constant
    format text [s].  [Wrap] keeps the sentinel, which is what [errors.Is]
    looks at; the formatted message text is not kept. *)
Inductive error : Type :=
  | Registered (codespace : string) (code : Z)
  | Sdk (name : string)
  | Errorf (text : string).

#[export] Instance error_eq_dec : EqDecision error.
Proof. solve_decision. Defined.

(** What a Go call does: return a value with a nil error, return a non-nil
    error, or panic. *)
Inductive outcome (A : Type) : Type :=
  | Ok (a : A)
  | Err (e : error)
  | Panic.
Arguments Ok {A} a.
Arguments Err {A} e.
Arguments Panic {A}.

#[export] Instance outcome_eq_dec `{EqDecision A} : EqDecision (outcome A).
Proof. solve_decision. Defined.

#[export] Instance outcome_ret : MRet outcome := λ A, Ok.
#[export] Instance outcome_bind : MBind outcome := λ A B f m,
  match m with Ok a => f a | Err e => Err e | Panic => Panic end.

(** A call that can only panic (third-party arithmetic, slice indexing). *)
Definition or_panic {A} (o : option A) : outcome A :=
  match o with Some a => Ok a | None => Panic end.

(** Lift a boolean guard to an early return of [e]. *)
Definition fail_if (b : bool) (e : error) : outcome unit :=
  if b then Err e else Ok tt.

(** A loop whose body can stop with an error or a panic. *)
Fixpoint foldM {A B} (f : B → A → outcome B) (l : list A) (b : B) : outcome B :=
  match l with
  | [] => Ok b
  | a :: l' => b' ← f b a; foldM f l' b'
  end.

(** ** Stateful Go code

    [M S A] is a call that reads and writes a state [S].  The state survives
    an error and a panic, as the writes that a Go function made before it
    returned do; undoing them is the caller's choice. *)
Definition M (S A : Type) : Type := S → outcome A * S.

#[export] Instance M_ret {S} : MRet (M S) := λ A a s, (Ok a, s).
#[export] Instance M_bind {S} : MBind (M S) := λ A B f m s,
  match m s with
  | (Ok a, s') => f a s'
  | (Err e, s') => (Err e, s')
  | (Panic, s') => (Panic, s')
  end.

Definition gets {S A} (f : S → A) : M S A := λ s, (Ok (f s), s).
Definition modify {S} (f : S → S) : M S unit := λ s, (Ok tt, f s).
Definition lift {S A} (o : outcome A) : M S A := λ s, (o, s).
Definition throw {S A} (e : error) : M S A := lift (Err e).
Definition panic {S A} : M S A := lift Panic.

Fixpoint forM {S A} (f : A → M S unit) (l : list A) : M S unit :=
  match l with
  | [] => mret tt
  | a :: l' => f a ;; forM f l'
  end.

(** [if err != nil { panic(err) }] after a call. *)
Definition must_ok {A} (o : outcome A) : outcome A := match o with Ok a => Ok a | _ => Panic end.
Definition must_run {S A} (m : M S A) : M S A := λ s, let '(r, s') := m s in (must_ok r, s').

(** A call whose error is dropped. *)
Definition ignore_error {S} (m : M S unit) : M S unit := λ s,
  match m s with (Err _, s') => (Ok tt, s') | r => r end.

(** A loop that threads a local variable. *)
Fixpoint loopM {S A B} (f : B → A → M S B) (l : list A) (b : B) : M S B :=
  match l with
  | [] => mret b
  | a :: l' => b' ← f b a; loopM f l' b'
  end.

(** ** Tactics *)

(** Split the conditions and matches a Go control flow is made of. *)
Ltac go_case :=
  match goal with
  | H : context [ match ?x with _ => _ end ] |- _ =>
      lazymatch x with context [ match _ with _ => _ end ] => fail | _ => destruct x eqn:? end
  | |- context [ match ?x with _ => _ end ] =>
      lazymatch x with context [ match _ with _ => _ end ] => fail | _ => destruct x eqn:? end
  end.

Ltac go_step := first [ progress simplify_eq/= | go_case ].
Ltac go_simpl := repeat go_step.

(** Expose the state-monad plumbing. *)
Ltac unfold_M :=
  unfold gets, modify, throw, panic, lift, mbind, M_bind, mret, M_ret,
    outcome_bind, outcome_ret, fail_if, or_panic in *.

(** Boolean tests on [Z] as propositions. *)
Ltac zify_bool :=
  repeat match goal with
  | H : (_ <? _)%Z = true |- _ => apply Z.ltb_lt in H
  | H : (_ <? _)%Z = false |- _ => apply Z.ltb_ge in H
  | H : (_ <=? _)%Z = true |- _ => apply Z.leb_le in H
  | H : (_ <=? _)%Z = false |- _ => apply Z.leb_gt in H
  | H : (_ =? _)%Z = true |- _ => apply Z.eqb_eq in H
  | H : (_ =? _)%Z = false |- _ => apply Z.eqb_neq in H
  | H : negb _ = true |- _ => apply negb_true_iff in H
  | H : negb _ = false |- _ => apply negb_false_iff in H
  | H : (_ && _) = true |- _ => apply andb_true_iff in H as [? ?]
  | H : (_ || _) = false |- _ => apply orb_false_iff in H as [? ?]
  end.

Create HintDb go discriminated.

(** ** Generic lemmas *)

Lemma bind_Ok {A B} (m : outcome A) (f : A → outcome B) (b : B) :
  m ≫= f = Ok b ↔ ∃ a, m = Ok a ∧ f a = Ok b.
Proof.
  destruct m as [a| |]; simpl; split.
  - intros ?. by exists a.
  - intros (a' & [= ->] & ?). done.
  - done.
  - intros (? & ? & ?). done.
  - done.
  - intros (? & ? & ?). done.
Qed.

Lemma fail_if_Ok b e u : fail_if b e = Ok u ↔ b = false.
Proof. destruct b, u; naive_solver. Qed.

Lemma or_panic_Ok {A} (o : option A) a : or_panic o = Ok a ↔ o = Some a.
Proof. destruct o; naive_solver. Qed.

Lemma or_panic_not_Err {A} (o : option A) e : or_panic o ≠ Err e.
Proof. by destruct o. Qed.

Lemma M_bind_Ok {S A B} (m : M S A) (f : A → M S B) s b s' :
  (m ≫= f) s = (Ok b, s') ↔ ∃ a s1, m s = (Ok a, s1) ∧ f a s1 = (Ok b, s').
Proof.
  unfold mbind, M_bind. destruct (m s) as [[a| |] s1]; split.
  - intros ?. by exists a, s1.
  - intros (? & ? & [= <- <-] & ?). done.
  - done.
  - intros (? & ? & ? & ?). done.
  - done.
  - intros (? & ? & ? & ?). done.
Qed.

(** The bind of a computation that does not touch the state, and of one that
    panics on [None]. *)
Lemma M_bind_lift_Ok {S A B} (o : outcome A) (f : A → M S B) s b s' :
  (lift o ≫= f) s = (Ok b, s') ↔ ∃ a, o = Ok a ∧ f a s = (Ok b, s').
Proof.
  rewrite M_bind_Ok. split; [|intros (a & -> & ?); by exists a, s].
  intros (a & s1 & [= -> <-] & ?). by exists a.
Qed.

Lemma M_bind_or_panic_Ok {S A B} (o : option A) (f : A → M S B) s b s' :
  (lift (or_panic o) ≫= f) s = (Ok b, s') ↔ ∃ a, o = Some a ∧ f a s = (Ok b, s').
Proof. rewrite M_bind_lift_Ok. by setoid_rewrite or_panic_Ok. Qed.

(** Running the first call of a sequence. *)
Lemma M_bind_run {S A B} (m : M S A) (f : A → M S B) s a s' :
  m s = (Ok a, s') → (m ≫= f) s = f a s'.
Proof. intros Hm. unfold mbind, M_bind. by rewrite Hm. Qed.

Lemma M_bind_Err {S A B} (m : M S A) (f : A → M S B) s e s' :
  m s = (Err e, s') → (m ≫= f) s = (Err e, s').
Proof. intros Hm. unfold mbind, M_bind. by rewrite Hm. Qed.

Lemma M_bind_Panic {S A B} (m : M S A) (f : A → M S B) s s' :
  m s = (Panic, s') → (m ≫= f) s = (Panic, s').
Proof. intros Hm. unfold mbind, M_bind. by rewrite Hm. Qed.

Lemma foldM_app {A B} (f : B → A → outcome B) l1 l2 b :
  foldM f (l1 ++ l2) b = foldM f l1 b ≫= foldM f l2.
Proof. revert b. induction l1 as [|a l1 IH]; intros b; [done|]. simpl. destruct (f b a); simpl; [apply IH|done|done]. Qed.

(** An invariant of the loop body is an invariant of the loop. *)
Lemma foldM_ind {A B} (f : B → A → outcome B) (P : B → Prop) l b b' :
  P b → (∀ x y z, x ∈ l → P y → f y x = Ok z → P z) → foldM f l b = Ok b' → P b'.
Proof.
  revert b. induction l as [|a l IH]; intros b Hb Hstep Hf; simplify_eq/=; [done|].
  apply bind_Ok in Hf as (b1 & H1 & H2). eapply IH; [|..|exact H2].
  - eapply (Hstep a); eauto. by left.
  - intros ????. apply Hstep. by right.
Qed.

(** ** Frames

    [keeps R m]: however [m] ends, [R] relates its first and last state. *)
Definition keeps {S A} (R : S → S → Prop) (m : M S A) : Prop :=
  ∀ s r s', m s = (r, s') → R s s'.

Section keeps.
Context {S : Type} (R : S → S → Prop) `{!PreOrder R}.

Lemma keeps_ret {A} (a : A) : keeps R (mret a).
Proof. by intros s r s' [= _ <-]. Qed.

Lemma keeps_gets {A} (f : S → A) : keeps R (gets f).
Proof. by intros s r s' [= _ <-]. Qed.

Lemma keeps_lift {A} (o : outcome A) : keeps R (lift o).
Proof. by intros s r s' [= _ <-]. Qed.

Lemma keeps_throw {A} (e : error) : keeps R (throw (A := A) e).
Proof. apply keeps_lift. Qed.

Lemma keeps_panic {A} : keeps R (panic (A := A)).
Proof. apply keeps_lift. Qed.

Lemma keeps_modify f : (∀ s, R s (f s)) → keeps R (modify f).
Proof. intros Hf s r s' [= _ <-]. apply Hf. Qed.

(** A call whose rest is only followed from the states it can reach. *)
Lemma keeps_bind_run {A B} (m : M S A) (f : A → M S B) :
  keeps R m → (∀ s a s1, m s = (Ok a, s1) → ∀ r s', f a s1 = (r, s') → R s1 s') → keeps R (m ≫= f).
Proof.
  intros Hm Hf s r s'. unfold mbind, M_bind. destruct (m s) as [[a|e|] s1] eqn:Hs.
  - intros ?. transitivity s1; [by eapply Hm|by eapply Hf].
  - intros [= _ <-]. by eapply Hm.
  - intros [= _ <-]. by eapply Hm.
Qed.

Lemma keeps_bind {A B} (m : M S A) (f : A → M S B) :
  keeps R m → (∀ a, keeps R (f a)) → keeps R (m ≫= f).
Proof. intros Hm Hf. apply keeps_bind_run; [done|]. intros ? a ? _ ??. by apply Hf. Qed.

Lemma keeps_forM {A} (f : A → M S unit) l : (∀ a, keeps R (f a)) → keeps R (forM f l).
Proof.
  intros Hf. induction l; cbn [forM]; [apply keeps_ret|]. apply keeps_bind; auto.
Qed.

Lemma keeps_loopM_in {A B} (f : B → A → M S B) l b :
  (∀ b a, a ∈ l → keeps R (f b a)) → keeps R (loopM f l b).
Proof.
  intros Hf. revert b. induction l as [|a l IH]; intros b; cbn [loopM]; [apply keeps_ret|].
  apply keeps_bind; [apply Hf; by left|]. intros b'. apply IH. intros ???. apply Hf. by right.
Qed.

Lemma keeps_loopM {A B} (f : B → A → M S B) l b : (∀ b a, keeps R (f b a)) → keeps R (loopM f l b).
Proof. intros Hf. apply keeps_loopM_in. auto. Qed.
End keeps.

Create HintDb keeps discriminated.
#[export] Hint Resolve keeps_ret keeps_gets keeps_lift keeps_throw keeps_panic : keeps.

(** Take a call apart down to its reads and writes. *)
Ltac keeps_step :=
  first
    [ solve [eauto with keeps typeclass_instances]
    | eapply keeps_bind; [typeclasses eauto| |intros]
    | eapply keeps_forM; [typeclasses eauto|intros]
    | eapply keeps_loopM; [typeclasses eauto|intros]
    | match goal with
      | |- keeps _ (match ?x with _ => _ end) => destruct x
      | |- keeps _ (let '_ := ?x in _) => destruct x
      end ].
Ltac keeps_tac := repeat keeps_step.

#[export] Hint Rewrite @fail_if_Ok @or_panic_Ok : go.

Lemma Forall_filter_2 {A} (Q P : A → Prop) `{∀ a, Decision (P a)} (l : list A) :
  Forall Q l → Forall Q (filter P l).
Proof. rewrite !Forall_forall. intros HQ a [_ ?]%list_elem_of_filter. by apply HQ. Qed.
