(* ===== verification/Util.v ===== *)
(** * Util: machine integers and the helpers of [src/util]

    Go integers are [Z] with the wrap-around written out; this file has the
    wrap functions, the saturating conversions of [util/int_convert.go], the
    byte helpers of [util/bytes.go], [AppendUniqueString] of
    [util/strings.go] and the generic helpers of [util/genmap]. *)
From S2P Require Import Prelude.
Local Open Scope Z_scope.

(** ** Machine integers *)

Definition MaxUint32 : Z := 2 ^ 32 - 1.
Definition MaxInt64 : Z := 2 ^ 63 - 1.
Definition MaxUint64 : Z := 2 ^ 64 - 1.

(** The two's-complement and the modular wrap-around of 64-bit operations. *)
Definition wrap_u64 (z : Z) : Z := z mod 2 ^ 64.
Definition wrap_i64 (z : Z) : Z := (z + 2 ^ 63) mod 2 ^ 64 - 2 ^ 63.

Definition is_u64 (z : Z) : Prop := 0 ≤ z < 2 ^ 64.
Definition is_i64 (z : Z) : Prop := - 2 ^ 63 ≤ z < 2 ^ 63.

(** Go's [/] and [%]: truncated, and a panic on a zero divisor. *)
Definition go_div (a b : Z) : outcome Z := if b =? 0 then Panic else Ok (Z.quot a b).
Definition go_rem (a b : Z) : outcome Z := if b =? 0 then Panic else Ok (Z.rem a b).

Lemma wrap_u64_id z : is_u64 z → wrap_u64 z = z.
Proof. intros ?. by apply Z.mod_small. Qed.

Lemma wrap_u64_range z : is_u64 (wrap_u64 z).
Proof. apply Z.mod_pos_bound. lia. Qed.

Lemma wrap_i64_id z : is_i64 z → wrap_i64 z = z.
Proof. intros [? ?]. unfold wrap_i64. rewrite Z.mod_small; lia. Qed.

Lemma wrap_i64_range z : is_i64 (wrap_i64 z).
Proof.
  unfold is_i64, wrap_i64.
  pose proof (Z.mod_pos_bound (z + 2 ^ 63) (2 ^ 64) ltac:(lia)). lia.
Qed.

Lemma go_rem_pos a b : 0 ≤ a → 0 < b → go_rem a b = Ok (a mod b).
Proof.
  intros. unfold go_rem. destruct (Z.eqb_spec b 0); [lia|].
  by rewrite Z.rem_mod_nonneg by lia.
Qed.

Lemma go_div_pos a b : 0 ≤ a → 0 < b → go_div a b = Ok (a / b).
Proof.
  intros. unfold go_div. destruct (Z.eqb_spec b 0); [lia|].
  by rewrite Z.quot_div_nonneg by lia.
Qed.

#[export] Hint Resolve wrap_u64_range wrap_i64_range : go.
#[export] Hint Rewrite wrap_u64_id wrap_i64_id using (unfold is_u64, is_i64; lia) : wrap.

(** ** [util/int_convert.go] *)

Definition SafeIntToUint32 (i : Z) : Z :=
  if i <? 0 then 0 else if MaxUint32 <? i then MaxUint32 else i.

Definition SafeIntToUint64 (i : Z) : Z :=
  if i <? 0 then 0 else i.

Definition SafeInt64ToUint64 (i : Z) : Z :=
  if i <? 0 then 0 else i.

Definition SafeUint64ToUint32 (i : Z) : Z :=
  if MaxUint32 <? i then MaxUint32 else i.

Definition SafeUint64ToInt64 (i : Z) : Z :=
  if MaxInt64 <? i then MaxInt64 else i.

(** ** [util/strings.go] *)

(** The loop sets a flag and the append happens after it. *)
Definition AppendUniqueString (keys : list string) (key : string) : list string :=
  let duplicate := foldl (λ duplicate v, if decide (key = v) then true else duplicate) false keys in
  if negb duplicate then keys ++ [key] else keys.

(** ** [util/bytes.go] *)

(** A byte slice.  [copy_at out off bz] is [copy(out[off:], bz)]: it
    overwrites as many bytes as fit. *)
Abbreviation bytes := (list ascii) (only parsing).
Abbreviation zero_byte := (Ascii.zero).

Definition copy_at (out : bytes) (off : nat) (bz : bytes) : bytes :=
  take off out ++ take (length out - off) bz ++ drop (off + length bz) out.

Definition ConcatBytes (margin : nat) (bzs : list bytes) : bytes :=
  let l := foldl (λ l bz, (l + length bz)%nat) 0%nat bzs in
  let out := replicate (l + margin) zero_byte in
  (foldl (λ '(out, offset) bz, (copy_at out offset bz, (offset + length bz)%nat))
    (out, 0%nat) bzs).1.

(** [binary.LittleEndian.PutUint64] and [Uint64] on [n] bytes. *)
Fixpoint le_bytes (n : nat) (z : Z) : bytes :=
  match n with
  | O => []
  | S n' => ascii_of_N (Z.to_N (z mod 256)) :: le_bytes n' (z / 256)
  end.

Fixpoint le_value (bz : bytes) : Z :=
  match bz with
  | [] => 0
  | b :: bz' => Z.of_N (N_of_ascii b) + 256 * le_value bz'
  end.

Definition UintWithNullPrefix (n : Z) : bytes := zero_byte :: le_bytes 8 n.

(** ** [util/genmap] *)

Definition Contains {T} `{EqDecision T} (x : T) (ls : list T) : bool :=
  existsb (λ y, bool_decide (y = x)) ls.

Definition Pick {K V} `{Countable K} (m : gmap K V) (keys : list K) : gmap K V :=
  foldl (λ picked k, match m !! k with Some v => <[k := v]> picked | None => picked end) ∅ keys.

(** ** Lemmas *)

Lemma SafeInt64ToUint64_spec i : SafeInt64ToUint64 i = Z.max 0 i.
Proof. unfold SafeInt64ToUint64. destruct (Z.ltb_spec i 0); lia. Qed.

Lemma SafeIntToUint64_spec i : SafeIntToUint64 i = Z.max 0 i.
Proof. apply SafeInt64ToUint64_spec. Qed.

Lemma SafeUint64ToInt64_spec i : SafeUint64ToInt64 i = Z.min MaxInt64 i.
Proof. unfold SafeUint64ToInt64. destruct (Z.ltb_spec MaxInt64 i); lia. Qed.

Lemma SafeUint64ToUint32_spec i : SafeUint64ToUint32 i = Z.min MaxUint32 i.
Proof. unfold SafeUint64ToUint32. destruct (Z.ltb_spec MaxUint32 i); lia. Qed.

Lemma SafeIntToUint32_spec i : SafeIntToUint32 i = Z.max 0 (Z.min MaxUint32 i).
Proof.
  unfold SafeIntToUint32, MaxUint32.
  destruct (Z.ltb_spec i 0); [lia|]. destruct (Z.ltb_spec (2 ^ 32 - 1) i); lia.
Qed.

Lemma dup_flag (keys : list string) key b :
  foldl (λ duplicate v, if decide (key = v) then true else duplicate) b keys =
  b || bool_decide (key ∈ keys).
Proof.
  revert b. induction keys as [|k keys IH]; intros b; cbn [foldl].
  - rewrite bool_decide_eq_false_2 by set_solver. by rewrite orb_false_r.
  - rewrite IH. destruct (decide (key = k)) as [->|Hne].
    + rewrite (bool_decide_eq_true_2 (k ∈ k :: keys)) by set_solver. by rewrite orb_true_r.
    + f_equal. apply bool_decide_ext. set_solver.
Qed.

Lemma AppendUniqueString_in keys key : key ∈ keys → AppendUniqueString keys key = keys.
Proof.
  intros ?. unfold AppendUniqueString. rewrite dup_flag.
  by rewrite bool_decide_eq_true_2.
Qed.

Lemma AppendUniqueString_notin keys key :
  key ∉ keys → AppendUniqueString keys key = keys ++ [key].
Proof.
  intros ?. unfold AppendUniqueString. rewrite dup_flag.
  by rewrite bool_decide_eq_false_2.
Qed.

Lemma AppendUniqueString_elem keys key k :
  k ∈ AppendUniqueString keys key ↔ k ∈ keys ∨ k = key.
Proof.
  destruct (decide (key ∈ keys)).
  - rewrite AppendUniqueString_in by done. naive_solver.
  - rewrite AppendUniqueString_notin by done. set_solver.
Qed.

Lemma AppendUniqueString_NoDup keys key : NoDup keys → NoDup (AppendUniqueString keys key).
Proof.
  intros. destruct (decide (key ∈ keys)).
  - by rewrite AppendUniqueString_in.
  - rewrite AppendUniqueString_notin by done. apply NoDup_app. repeat split; [done| |].
    + set_solver.
    + apply NoDup_singleton.
Qed.

Lemma Contains_spec {T} `{EqDecision T} (x : T) ls : Contains x ls = true ↔ x ∈ ls.
Proof.
  unfold Contains. rewrite existsb_exists. setoid_rewrite bool_decide_eq_true.
  setoid_rewrite <-list_elem_of_In. naive_solver.
Qed.

Lemma Pick_lookup {K V} `{Countable K} (m : gmap K V) keys k :
  Pick m keys !! k = if decide (k ∈ keys) then m !! k else None.
Proof.
  unfold Pick.
  enough (∀ acc : gmap K V,
    foldl (λ picked k, match m !! k with Some v => <[k := v]> picked | None => picked end) acc keys !! k
    = if decide (k ∈ keys) then match m !! k with Some v => Some v | None => acc !! k end
      else acc !! k) as ->.
  { rewrite lookup_empty. repeat case_decide; [by destruct (m !! k)|done]. }
  induction keys as [|k0 keys IH]; intros acc; cbn [foldl].
  - rewrite decide_False by set_solver. done.
  - rewrite IH. destruct (decide (k = k0)) as [->|Hne].
    + rewrite (decide_True (P:=k0 ∈ k0 :: keys)) by set_solver.
      case_decide; destruct (m !! k0) eqn:?; by simplify_map_eq.
    + destruct (decide (k ∈ keys)).
      * rewrite decide_True by set_solver. destruct (m !! k) eqn:?; [done|].
        destruct (m !! k0); by simplify_map_eq.
      * rewrite decide_False by set_solver. destruct (m !! k0); by simplify_map_eq.
Qed.

Lemma length_le_bytes n z : length (le_bytes n z) = n.
Proof. revert z. induction n; intros; simpl; auto. Qed.

Lemma le_value_bytes n z : 0 ≤ z < 256 ^ Z.of_nat n → le_value (le_bytes n z) = z.
Proof.
  revert z. induction n as [|n IH]; intros z Hz.
  - change (256 ^ Z.of_nat 0) with 1 in Hz. simpl. lia.
  - simpl le_bytes. cbn [le_value]. rewrite IH.
    + pose proof (Z.mod_pos_bound z 256 ltac:(lia)).
      rewrite N_ascii_embedding by lia. rewrite Z2N.id by lia.
      pose proof (Z.div_mod z 256 ltac:(lia)). lia.
    + rewrite Nat2Z.inj_succ, Z.pow_succ_r in Hz by lia.
      split; [apply Z.div_pos; lia|]. apply Z.div_lt_upper_bound; lia.
Qed.

Lemma length_UintWithNullPrefix n : length (UintWithNullPrefix n) = 9%nat.
Proof. done. Qed.

Lemma sum_lengths bzs n :
  foldl (λ l (bz : bytes), (l + length bz)%nat) n bzs = (n + length (concat bzs))%nat.
Proof.
  revert n. induction bzs as [|bz bzs IH]; intros n; simpl; [lia|].
  rewrite IH, length_app. lia.
Qed.

Lemma copy_at_replicate (pre bz : bytes) k :
  (length bz ≤ k)%nat →
  copy_at (pre ++ replicate k zero_byte) (length pre) bz =
  (pre ++ bz) ++ replicate (k - length bz) zero_byte.
Proof.
  intros. unfold copy_at. rewrite take_app_length, length_app, length_replicate.
  replace (length pre + k - length pre)%nat with k by lia.
  rewrite take_ge by lia. rewrite drop_app_add, drop_replicate. by rewrite app_assoc.
Qed.

(** The copying loop of [ConcatBytes] is concatenation with a zero margin. *)
Lemma ConcatBytes_concat margin bzs :
  ConcatBytes margin bzs = concat bzs ++ replicate margin zero_byte.
Proof.
  unfold ConcatBytes. rewrite sum_lengths, Nat.add_0_l.
  enough (∀ pre k, (length (concat bzs) ≤ k)%nat →
    (foldl (λ '(out, offset) bz, (copy_at out offset bz, (offset + length bz)%nat))
      (pre ++ replicate k zero_byte, length pre) bzs).1 =
    pre ++ concat bzs ++ replicate (k - length (concat bzs)) zero_byte) as Hgen.
  { specialize (Hgen [] (length (concat bzs) + margin)%nat ltac:(lia)). simpl in Hgen.
    rewrite Hgen. do 2 f_equal. lia. }
  induction bzs as [|bz bzs IH]; intros pre k Hk; simpl in *.
  { by rewrite Nat.sub_0_r. }
  rewrite length_app in Hk. rewrite copy_at_replicate by lia.
  rewrite <-length_app, IH by lia. rewrite <-!app_assoc, length_app.
  do 4 f_equal. lia.
Qed.

Lemma ConcatBytes_0 bzs : ConcatBytes 0 bzs = concat bzs.
Proof. by rewrite ConcatBytes_concat, app_nil_r. Qed.

(** Distinct integers of an interval are at most its length. *)
Lemma NoDup_range_length (l : list Z) lo hi :
  NoDup l → Forall (λ z, lo ≤ z < hi) l → Z.of_nat (length l) ≤ Z.max 0 (hi - lo).
Proof.
  intros Hnd Hall. assert (l ⊆+ seqZ lo (hi - lo)) as Hsub.
  { apply NoDup_submseteq; [done|]. intros z Hz. rewrite Forall_forall in Hall.
    apply elem_of_seqZ. specialize (Hall z Hz). lia. }
  apply submseteq_length in Hsub. rewrite length_seqZ in Hsub. lia.
Qed.

#[export] Hint Rewrite SafeInt64ToUint64_spec SafeIntToUint64_spec SafeUint64ToInt64_spec
  SafeUint64ToUint32_spec SafeIntToUint32_spec : safe.
