(* ===== verification/GoStrings.v ===== *)
(** * GoStrings: the string functions of the Go standard library

    Go strings are byte strings; denoms, symbols, keys and hex texts are taken
    to be ASCII, where [strings.ToUpper] and [strings.EqualFold] act byte by
    byte.  [Split] is [strings.Split] for a one-byte separator, and
    [hex_EncodeToString] and [hex_DecodeString] are [encoding/hex].  The last
    part is [strconv]: [ParseInt] and [ParseUint] in base ten and [ParseBool],
    with [strings.TrimSpace]; the text that [strconv.FormatInt] writes is
    stdpp's [pretty]. *)
From stdpp Require Export pretty.
From S2P Require Import Prelude Util.
Local Open Scope Z_scope.

(** ** Upper case *)

Definition upper_ascii (c : ascii) : ascii :=
  let n := N_of_ascii c in
  if (97 <=? n)%N && (n <=? 122)%N then ascii_of_N (n - 32) else c.

Fixpoint ToUpper (s : string) : string :=
  match s with
  | EmptyString => EmptyString
  | String c s' => String (upper_ascii c) (ToUpper s')
  end.

Definition EqualFold (s t : string) : bool := bool_decide (ToUpper s = ToUpper t).

Lemma upper_ascii_idemp c : upper_ascii (upper_ascii c) = upper_ascii c.
Proof. destruct c as [[] [] [] [] [] [] [] []]; reflexivity. Qed.

Lemma ToUpper_idemp s : ToUpper (ToUpper s) = ToUpper s.
Proof. induction s; simpl; [done|]. by rewrite upper_ascii_idemp, IHs. Qed.

Lemma ToUpper_length s : String.length (ToUpper s) = String.length s.
Proof. induction s; simpl; congruence. Qed.

Lemma ToUpper_empty s : ToUpper s = EmptyString ↔ s = EmptyString.
Proof. by destruct s. Qed.

Lemma EqualFold_refl s : EqualFold s s = true.
Proof. by apply bool_decide_eq_true. Qed.

Lemma EqualFold_sym s t : EqualFold s t = EqualFold t s.
Proof. unfold EqualFold. apply bool_decide_ext. split; congruence. Qed.

Lemma EqualFold_true s t : EqualFold s t = true ↔ ToUpper s = ToUpper t.
Proof. apply bool_decide_eq_true. Qed.

Lemma EqualFold_ToUpper_l s t : EqualFold (ToUpper s) t = EqualFold s t.
Proof. unfold EqualFold. by rewrite ToUpper_idemp. Qed.

Lemma EqualFold_ToUpper_r s t : EqualFold s (ToUpper t) = EqualFold s t.
Proof. unfold EqualFold. by rewrite ToUpper_idemp. Qed.

#[export] Hint Rewrite ToUpper_idemp EqualFold_refl EqualFold_ToUpper_l EqualFold_ToUpper_r : gostr.

(** ** Split *)

(** The fields of [s] between occurrences of [c]; never an empty list. *)
Fixpoint Split (c : ascii) (s : string) : list string :=
  match s with
  | EmptyString => [EmptyString]
  | String a s' =>
      let rest := Split c s' in
      if decide (a = c) then EmptyString :: rest
      else match rest with
           | [] => [String a EmptyString]
           | f :: fs => String a f :: fs
           end
  end.

(** [strings.Join] with a one-byte separator. *)
Fixpoint Join (c : ascii) (l : list string) : string :=
  match l with
  | [] => EmptyString
  | [f] => f
  | f :: fs => (f +:+ String c (Join c fs))%string
  end.

Fixpoint str_contains (c : ascii) (s : string) : bool :=
  match s with
  | EmptyString => false
  | String a s' => bool_decide (a = c) || str_contains c s'
  end.

Lemma str_contains_app c s t :
  str_contains c (s +:+ t)%string = str_contains c s || str_contains c t.
Proof. induction s as [|a s IH]; simpl; [done|]. by rewrite IH, orb_assoc. Qed.

Lemma app_cons_length (s t : string) c : String.length (s +:+ String c t)%string ≠ 0%nat.
Proof. by destruct s. Qed.

Lemma Split_not_nil c s : Split c s ≠ [].
Proof. induction s as [|a s IH]; simpl; [done|]. case_decide; [done|]. by destruct (Split c s). Qed.

Lemma Split_app c f s :
  str_contains c f = false → Split c (f +:+ String c s) = f :: Split c s.
Proof.
  induction f as [|a f IH]; simpl; intros Hf.
  - by rewrite decide_True.
  - apply orb_false_iff in Hf as [Ha%bool_decide_eq_false Hf].
    by rewrite decide_False, IH.
Qed.

Lemma Split_single c f : str_contains c f = false → Split c f = [f].
Proof.
  induction f as [|a f IH]; simpl; intros Hf; [done|].
  apply orb_false_iff in Hf as [Ha%bool_decide_eq_false Hf].
  by rewrite decide_False, IH.
Qed.

(** Splitting what was joined gives the fields back. *)
Lemma Split_Join c l :
  l ≠ [] → Forall (λ f, str_contains c f = false) l → Split c (Join c l) = l.
Proof.
  intros Hne Hl. induction Hl as [|f l Hf Hl IH]; [done|].
  destruct l as [|g l]; [by apply Split_single|].
  change (Join c (f :: g :: l)) with (f +:+ String c (Join c (g :: l)))%string.
  by rewrite Split_app, IH.
Qed.

(** ** Hexadecimal *)

Definition hex_digit (n : N) : ascii :=
  if (n <? 10)%N then ascii_of_N (n + 48) else ascii_of_N (n + 87).

(** [fromHexChar]: both cases are accepted. *)
Definition hex_value (c : ascii) : option N :=
  let n := N_of_ascii c in
  if (48 <=? n)%N && (n <=? 57)%N then Some (n - 48)%N
  else if (97 <=? n)%N && (n <=? 102)%N then Some (n - 87)%N
  else if (65 <=? n)%N && (n <=? 70)%N then Some (n - 55)%N
  else None.

Fixpoint hex_EncodeToString (bz : bytes) : string :=
  match bz with
  | [] => EmptyString
  | b :: bz' =>
      let n := N_of_ascii b in
      String (hex_digit (n / 16)) (String (hex_digit (n mod 16)) (hex_EncodeToString bz'))
  end.

Definition hex_error : error := Errorf "encoding/hex".

Fixpoint hex_DecodeString (s : string) : outcome bytes :=
  match s with
  | EmptyString => Ok []
  | String a EmptyString => Err hex_error
  | String a (String b s') =>
      match hex_value a, hex_value b with
      | Some x, Some y => rest ← hex_DecodeString s'; Ok (ascii_of_N (16 * x + y) :: rest)
      | _, _ => Err hex_error
      end
  end.

Lemma hex_byte_roundtrip b :
  let n := N_of_ascii b in
  ∃ x y, hex_value (hex_digit (n / 16)) = Some x ∧ hex_value (hex_digit (n mod 16)) = Some y ∧
    ascii_of_N (16 * x + y) = b.
Proof.
  intros n. exists (n / 16)%N, (n mod 16)%N. subst n.
  destruct b as [[] [] [] [] [] [] [] []]; split_and!; reflexivity.
Qed.

Lemma hex_Decode_Encode bz : hex_DecodeString (hex_EncodeToString bz) = Ok bz.
Proof.
  induction bz as [|b bz IH]; [done|].
  destruct (hex_byte_roundtrip b) as (x & y & Hx & Hy & Hb).
  cbn [hex_EncodeToString hex_DecodeString]. rewrite Hx, Hy, IH. simpl. by rewrite Hb.
Qed.

Lemma hex_Encode_length bz :
  String.length (hex_EncodeToString bz) = (2 * length bz)%nat.
Proof. induction bz; cbn -[hex_digit]; [done|]. rewrite IHbz. lia. Qed.

Lemma hex_Encode_inj bz1 bz2 : hex_EncodeToString bz1 = hex_EncodeToString bz2 → bz1 = bz2.
Proof.
  intros H. apply (f_equal hex_DecodeString) in H. rewrite !hex_Decode_Encode in H. congruence.
Qed.

(** ** Integers and booleans as text *)

Definition ErrSyntax : error := Errorf "invalid syntax".
Definition ErrRange : error := Errorf "value out of range".

(** The loop of [ParseUint(s, 10, 64)]: the digits from the left, and the
    first one that does not fit 64 bits ends it. *)
Fixpoint parse_uint (n : Z) (s : string) : outcome Z :=
  match s with
  | EmptyString => Ok n
  | String c s' =>
      let d := Z.of_N (N_of_ascii c) - 48 in
      if (0 <=? d) && (d <? 10)
      then if 10 * n + d <? 2 ^ 64 then parse_uint (10 * n + d) s' else Err ErrRange
      else Err ErrSyntax
  end.

(** [ParseUint(s, 10, bits)]. *)
Definition ParseUint (s : string) (bits : Z) : outcome Z :=
  if String.eqb s "" then Err ErrSyntax else
  n ← parse_uint 0 s; if n <? 2 ^ bits then Ok n else Err ErrRange.

(** [ParseInt(s, 10, 64)]: a sign, then an unsigned number. *)
Definition parse_magnitude (neg : bool) (s : string) : outcome Z :=
  n ← ParseUint s 64;
  if negb neg && (2 ^ 63 <=? n) then Err ErrRange else
  if neg && (2 ^ 63 <? n) then Err ErrRange else Ok (if neg then - n else n).

Definition ParseInt (s : string) : outcome Z :=
  match s with
  | String "-"%char s' => parse_magnitude true s'
  | String "+"%char s' => parse_magnitude false s'
  | _ => parse_magnitude false s
  end.

Definition ParseBool (s : string) : outcome bool :=
  if bool_decide (s ∈ ["1"; "t"; "T"; "TRUE"; "true"; "True"]%string) then Ok true else
  if bool_decide (s ∈ ["0"; "f"; "F"; "FALSE"; "false"; "False"]%string) then Ok false else
  Err ErrSyntax.

(** ASCII white space. *)
Definition is_space (c : ascii) : bool :=
  let n := N_of_ascii c in (n =? 32)%N || ((9 <=? n)%N && (n <=? 13)%N).

Fixpoint TrimLeft (s : string) : string :=
  match s with
  | String c s' => if is_space c then TrimLeft s' else s
  | EmptyString => EmptyString
  end.
Fixpoint TrimRight (s : string) : string :=
  match s with
  | String c s' =>
      match TrimRight s' with
      | EmptyString => if is_space c then EmptyString else String c EmptyString
      | t => String c t
      end
  | EmptyString => EmptyString
  end.
Definition TrimSpace (s : string) : string := TrimRight (TrimLeft s).

(** *** Printed integers are read back *)

Lemma pretty_char_digit (d : N) :
  (d < 10)%N → Z.of_N (N_of_ascii (pretty_N_char d)) - 48 = Z.of_N d.
Proof.
  intros Hd.
  assert (d = 0 ∨ d = 1 ∨ d = 2 ∨ d = 3 ∨ d = 4 ∨ d = 5 ∨ d = 6 ∨ d = 7 ∨ d = 8 ∨ d = 9)%N
    as Hc by lia.
  by repeat destruct Hc as [->|Hc]; [..|subst d].
Qed.

Lemma parse_uint_digit n d s :
  (d < 10)%N → 10 * n + Z.of_N d < 2 ^ 64 →
  parse_uint n (String (pretty_N_char d) s) = parse_uint (10 * n + Z.of_N d) s.
Proof.
  intros Hd Hn. cbn [parse_uint]. rewrite pretty_char_digit by done.
  rewrite (proj2 (Z.leb_le _ _)), (proj2 (Z.ltb_lt (Z.of_N d) 10)), (proj2 (Z.ltb_lt _ _)) by lia.
  done.
Qed.

Lemma parse_uint_pretty n s :
  Z.of_N n < 2 ^ 64 → parse_uint 0 (pretty_N_go n s) = parse_uint (Z.of_N n) s.
Proof.
  revert s. induction (N.lt_wf_0 n) as [n _ IH]. intros s Hn.
  destruct (decide (n = 0)%N) as [->|Hpos]; [done|].
  rewrite pretty_N_go_step by lia.
  pose proof (N.div_mod n 10 ltac:(done)) as Hd. pose proof (N.mod_lt n 10 ltac:(done)) as Hm.
  pose proof (N.div_lt n 10 ltac:(lia) ltac:(lia)) as Hlt.
  set (q := (n `div` 10)%N) in *. set (r := (n `mod` 10)%N) in *.
  rewrite IH, parse_uint_digit by lia. f_equal. lia.
Qed.

(** The first digit. *)
Lemma pretty_go_head n s :
  (0 < n)%N → ∃ d t, (d < 10)%N ∧ pretty_N_go n s = String (pretty_N_char d) t.
Proof.
  revert s. induction (N.lt_wf_0 n) as [n _ IH]. intros s Hn.
  rewrite pretty_N_go_step by done.
  destruct (decide (n < 10)%N) as [Hlt|Hge].
  - rewrite N.div_small, pretty_N_go_0 by done.
    eexists _, _. split; [|done]. by apply N.mod_lt.
  - apply IH; [by apply N.div_lt|]. apply N.div_str_pos. lia.
Qed.

Lemma pretty_N_head (n : N) : ∃ d t, (d < 10)%N ∧ pretty n = String (pretty_N_char d) t.
Proof.
  unfold pretty, pretty_N. case_decide as Hn.
  - by exists 0%N, ""%string.
  - apply pretty_go_head. lia.
Qed.

Lemma pretty_Z_of_N (n : N) : pretty (Z.of_N n) = pretty n.
Proof. by destruct n. Qed.

Lemma ParseUint_pretty z bits :
  bits ≤ 64 → 0 ≤ z < 2 ^ bits → ParseUint (pretty z) bits = Ok z.
Proof.
  intros Hb Hz. rewrite <- (Z2N.id z) in * by lia. set (n := Z.to_N z) in *.
  assert (2 ^ bits ≤ 2 ^ 64) as Hle by (apply Z.pow_le_mono_r; lia).
  rewrite pretty_Z_of_N. unfold ParseUint.
  destruct (String.eqb_spec (pretty n) "") as [He|_].
  { destruct (pretty_N_head n) as (d & t & _ & Ht). by rewrite Ht in He. }
  assert (parse_uint 0 (pretty n) = Ok (Z.of_N n)) as ->.
  { unfold pretty, pretty_N. case_decide as Hn; [by rewrite Hn|]. rewrite parse_uint_pretty by lia. done. }
  cbn [mbind outcome_bind]. by rewrite (proj2 (Z.ltb_lt _ _)) by lia.
Qed.

Lemma ParseInt_pretty z : - 2 ^ 63 ≤ z < 2 ^ 63 → ParseInt (pretty z) = Ok z.
Proof.
  intros Hz. destruct (decide (0 ≤ z)) as [Hpos|Hneg].
  - assert (ParseInt (pretty z) = parse_magnitude false (pretty z)) as ->.
    { rewrite <- (Z2N.id z), pretty_Z_of_N by done.
      destruct (pretty_N_head (Z.to_N z)) as (d & t & Hd & ->).
      assert (d = 0 ∨ d = 1 ∨ d = 2 ∨ d = 3 ∨ d = 4 ∨ d = 5 ∨ d = 6 ∨ d = 7 ∨ d = 8 ∨ d = 9)%N
        as Hc by lia.
      by repeat destruct Hc as [->|Hc]; [..|subst d]. }
    unfold parse_magnitude. rewrite ParseUint_pretty by lia. cbn [mbind outcome_bind negb andb].
    by rewrite (proj2 (Z.leb_gt _ _)) by lia.
  - destruct z as [|p|p]; [lia..|].
    assert (ParseInt (pretty (Z.neg p)) = parse_magnitude true (pretty (Z.pos p))) as -> by done.
    unfold parse_magnitude. rewrite ParseUint_pretty by lia. cbn [mbind outcome_bind negb andb].
    by rewrite (proj2 (Z.ltb_ge _ _)) by lia.
Qed.

(** A command reads back what its user printed. *)
Lemma ParseInt_range s z : ParseInt s = Ok z → - 2 ^ 63 ≤ z < 2 ^ 63.
Proof.
  assert (∀ neg s' z', parse_magnitude neg s' = Ok z' → - 2 ^ 63 ≤ z' < 2 ^ 63) as Hm.
  { intros neg s' z'. unfold parse_magnitude, ParseUint.
    destruct (String.eqb s' ""); [done|].
    assert (∀ t n m, 0 ≤ n → parse_uint n t = Ok m → 0 ≤ m) as Hu.
    { intros t. induction t as [|c t IH]; cbn [parse_uint]; cbv zeta; intros n m Hn; [by intros [= <-]|].
      destruct ((0 <=? _) && _) eqn:Hd; [|discriminate].
      destruct (10 * n + _ <? 2 ^ 64); [|discriminate]. apply IH. zify_bool. lia. }
    destruct (parse_uint 0 s') as [m| |] eqn:Em; [|done..]. apply Hu in Em; [|done].
    cbn [mbind outcome_bind]. destruct (m <? 2 ^ 64); [|done]. cbn [mbind outcome_bind].
    destruct neg; cbn [negb andb].
    - destruct (Z.ltb_spec (2 ^ 63) m); [done|]. intros [= <-]. lia.
    - destruct (Z.leb_spec (2 ^ 63) m); [done|]. intros [= <-]. lia. }
  unfold ParseInt. intros Hp. repeat case_match; by eapply Hm.
Qed.

(** *** The characters of printed integers *)

Fixpoint str_all (p : ascii → bool) (s : string) : bool :=
  match s with
  | EmptyString => true
  | String c s' => p c && str_all p s'
  end.

Lemma pretty_go_all p n s :
  (∀ d, p (pretty_N_char d) = true) → str_all p s = true → str_all p (pretty_N_go n s) = true.
Proof.
  intros Hp. revert s. induction (N.lt_wf_0 n) as [n _ IH]. intros s Hs.
  destruct (decide (n = 0)%N) as [->|Hn]; [done|].
  rewrite pretty_N_go_step by lia. apply IH; [apply N.div_lt; lia|]. cbn. by rewrite Hp.
Qed.

Lemma pretty_N_all p (n : N) : (∀ d, p (pretty_N_char d) = true) → str_all p (pretty n) = true.
Proof.
  intros Hp. unfold pretty, pretty_N. case_decide; [|by apply pretty_go_all].
  pose proof (Hp 0%N : p "0"%char = true) as Hz. cbn. by rewrite Hz.
Qed.

Lemma pretty_Z_all p (z : Z) :
  (∀ d, p (pretty_N_char d) = true) → p "-"%char = true → str_all p (pretty z) = true.
Proof.
  intros Hp Hm. destruct z as [|q|q].
  - apply (pretty_N_all p 0 Hp).
  - apply (pretty_N_all p (N.pos q) Hp).
  - change (p "-"%char && str_all p (pretty (N.pos q)) = true). rewrite Hm.
    apply (pretty_N_all p (N.pos q) Hp).
Qed.

Lemma pretty_char_not_space d : negb (is_space (pretty_N_char d)) = true.
Proof. by destruct d as [|[[[[]|[]|]|[[]|[]|]|]|[[[]|[]|]|[[]|[]|]|]|]]. Qed.

Lemma TrimSpace_id s : str_all (λ c, negb (is_space c)) s = true → TrimSpace s = s.
Proof.
  intros Hs. unfold TrimSpace.
  assert (TrimLeft s = s) as ->.
  { destruct s as [|c s]; [done|]. cbn in *. by destruct (is_space c). }
  induction s as [|c s IH]; [done|]. cbn in Hs. apply andb_true_iff in Hs as [Hc Hs].
  cbn. rewrite IH by done. destruct s; [|done]. by destruct (is_space c).
Qed.

Lemma TrimSpace_pretty (z : Z) : TrimSpace (pretty z) = pretty z.
Proof. apply TrimSpace_id, pretty_Z_all; [apply pretty_char_not_space|done]. Qed.

Lemma str_all_no c s :
  str_all (λ d, negb (bool_decide (d = c))) s = true → str_contains c s = false.
Proof.
  induction s as [|d s IH]; [done|]. cbn. rewrite andb_true_iff, negb_true_iff.
  intros [-> Hs]. by apply IH.
Qed.
