(* ===== verification/Store.v ===== *)
(** * Store: the key-value collections of the keepers

    A [collections.Map] is a [gmap]; [Get] is lookup, [Set] is insert,
    [Remove] is delete, [Clear] is the empty map.  [Walk] visits the entries
    that are in the map when the walk starts in the order of the encoded keys,
    so keys come with that order: byte order for strings and addresses,
    numeric order for [uint64], lexicographic order for pairs.  [walk_fold]
    runs the callback of a walk, which may stop it. *)
From S2P Require Import Prelude Util.
Local Open Scope Z_scope.

(** ** The order of encoded keys *)

Class KeyOrder (K : Type) := {
  key_le : K → K → Prop;
  key_le_dec :: RelDecision key_le;
  key_le_po :: PartialOrder key_le;
  key_le_total :: Total key_le;
}.

#[export] Instance string_key_order : KeyOrder string := {| key_le := String.le |}.

#[export] Program Instance Z_key_order : KeyOrder Z := {| key_le := Z.le |}.

Section pair_order.
Context {K1 K2 : Type} `{EqDecision K1, KeyOrder K1, KeyOrder K2}.

Definition pair_le (p q : K1 * K2) : Prop :=
  (p.1 = q.1 ∧ key_le p.2 q.2) ∨ (p.1 ≠ q.1 ∧ key_le p.1 q.1).

#[local] Instance pair_le_dec : RelDecision pair_le.
Proof. intros p q. unfold pair_le. apply _. Defined.

#[local] Instance pair_le_po : PartialOrder pair_le.
Proof.
  split; [split|].
  - intros p. by left.
  - intros [p1 p2] [q1 q2] [r1 r2]. unfold pair_le; simpl.
    intros [[-> H1]|[Hn1 H1]] [[-> H2]|[Hn2 H2]].
    + left. split; [done|]. by etrans.
    + by right.
    + by right.
    + destruct (decide (p1 = r1)) as [->|].
      * exfalso. apply Hn1. by apply (anti_symm key_le).
      * right. split; [done|]. by etrans.
  - intros [p1 p2] [q1 q2]. unfold pair_le; simpl.
    intros [[-> H1]|[Hn1 H1]] [[? H2]|[Hn2 H2]]; try congruence.
    + f_equal. by apply (anti_symm key_le).
    + exfalso. apply Hn1. by apply (anti_symm key_le).
Qed.

#[local] Instance pair_le_total : Total pair_le.
Proof.
  intros [p1 p2] [q1 q2]. unfold pair_le; simpl.
  destruct (decide (p1 = q1)) as [->|].
  - destruct (total key_le p2 q2); naive_solver.
  - destruct (total key_le p1 q1); naive_solver.
Qed.

#[export] Instance pair_key_order : KeyOrder (K1 * K2) := {| key_le := pair_le |}.
End pair_order.

(** ** Walks *)

Section walk.
Context {K V : Type} `{Countable K, KeyOrder K}.

Definition entry_le (p q : K * V) : Prop := key_le p.1 q.1.

#[export] Instance entry_le_dec : RelDecision entry_le.
Proof. intros p q. unfold entry_le. apply _. Defined.

#[export] Instance entry_le_trans : Transitive entry_le.
Proof. intros p q r. unfold entry_le. apply transitivity. Qed.

#[export] Instance entry_le_total : Total entry_le.
Proof. intros p q. apply (total key_le). Qed.

(** The entries a walk over the whole map visits, in order. *)
Definition Walk (m : gmap K V) : list (K * V) := merge_sort entry_le (map_to_list m).

Lemma Walk_perm m : Walk m ≡ₚ map_to_list m.
Proof. apply merge_sort_Permutation. Qed.

Lemma elem_of_Walk m k v : (k, v) ∈ Walk m ↔ m !! k = Some v.
Proof. by rewrite Walk_perm, elem_of_map_to_list. Qed.

Lemma NoDup_Walk m : NoDup (Walk m).*1.
Proof. rewrite Walk_perm. apply NoDup_fst_map_to_list. Qed.

Lemma Walk_sorted m : StronglySorted entry_le (Walk m).
Proof. apply StronglySorted_merge_sort; apply _. Qed.

Lemma Walk_empty : Walk ∅ = [].
Proof. unfold Walk. by rewrite map_to_list_empty. Qed.

Lemma Walk_nil m : Walk m = [] ↔ m = ∅.
Proof.
  split; [|intros ->; apply Walk_empty].
  intros Hw. apply map_empty. intros k. apply eq_None_not_Some. intros [v Hv].
  apply elem_of_Walk in Hv. rewrite Hw in Hv. by apply not_elem_of_nil in Hv.
Qed.

(** Any enumeration of the entries sorted by key is the walk: the order in
    which a hash map or a sort routine produced them does not matter. *)
Lemma Walk_unique m l :
  l ≡ₚ map_to_list m → StronglySorted entry_le l → l = Walk m.
Proof.
  intros Hp Hs. apply (StronglySorted_unique_strong entry_le); [|done|apply Walk_sorted|by rewrite Walk_perm].
  intros [k1 v1] [k2 v2] H1 H2 ? ?.
  assert (k1 = k2) as -> by (by apply (anti_symm key_le)).
  rewrite Hp, elem_of_map_to_list in H1. apply elem_of_Walk in H2. congruence.
Qed.

Lemma Walk_list_to_map m : list_to_map (Walk m) = m.
Proof.
  rewrite (list_to_map_proper _ (map_to_list m)).
  - apply list_to_map_to_list.
  - apply NoDup_Walk.
  - apply Walk_perm.
Qed.
End walk.

(** The callback loop of a walk: the callback returns whether to stop. *)
Fixpoint walk_fold {K V A} (handler : K → V → A → bool * A) (l : list (K * V)) (a : A) : A :=
  match l with
  | [] => a
  | (k, v) :: l' =>
      let '(stop, a') := handler k v a in
      if stop then a' else walk_fold handler l' a'
  end.

(** Only the first component of pairs starting at [k1], newest first:
    [NewPrefixedPairRange(k1).Descending()]. *)
Definition WalkPrefixDesc {K1 K2 V} `{Countable K1, Countable K2, KeyOrder K1, KeyOrder K2}
    (m : gmap (K1 * K2) V) (k1 : K1) : list ((K1 * K2) * V) :=
  reverse (filter (λ e, e.1.1 = k1) (Walk m)).

(** [Range[uint64].EndInclusive(h)]. *)
Definition WalkUpTo {V} (m : gmap Z V) (h : Z) : list (Z * V) :=
  filter (λ e, e.1 ≤ h) (Walk m).

Lemma walk_fold_nostop {K V A} (f : K → V → A → A) (l : list (K * V)) (a : A) :
  walk_fold (λ k v a, (false, f k v a)) l a = foldl (λ a e, f e.1 e.2 a) a l.
Proof. revert a. induction l as [|[k v] l IH]; intros a; simpl; [done|apply IH]. Qed.

Lemma walk_fold_collect {K V B} (g : K → V → B) (l : list (K * V)) (acc : list B) :
  walk_fold (λ k v acc, (false, acc ++ [g k v])) l acc = acc ++ map (λ e, g e.1 e.2) l.
Proof.
  rewrite (walk_fold_nostop (λ k v acc, acc ++ [g k v])).
  revert acc. induction l as [|[k v] l IH]; intros acc; simpl.
  - by rewrite app_nil_r.
  - by rewrite IH, <-app_assoc.
Qed.

(** A walk that deletes the entries it selects leaves the others. *)
Lemma foldl_delete_lookup {K V} `{Countable K} (P : K → V → Prop) `{∀ k v, Decision (P k v)}
    (l : list (K * V)) (m : gmap K V) k :
  foldl (λ m e, if decide (P e.1 e.2) then delete e.1 m else m) m l !! k =
  if decide (Exists (λ e, e.1 = k ∧ P e.1 e.2) l) then None else m !! k.
Proof.
  revert m. induction l as [|[k0 v0] l IH]; intros m; cbn [foldl fst snd].
  - rewrite decide_False; [done|]. by intros ?%Exists_nil.
  - rewrite IH. destruct (decide (Exists _ l)) as [He|He].
    + rewrite decide_True; [done|]. by right.
    + destruct (decide (P k0 v0)); destruct (decide (k0 = k)) as [->|].
      * rewrite decide_True by (by left). apply lookup_delete_eq.
      * rewrite decide_False by (rewrite Exists_cons; naive_solver). by apply lookup_delete_ne.
      * rewrite decide_False by (rewrite Exists_cons; naive_solver). done.
      * rewrite decide_False by (rewrite Exists_cons; naive_solver). done.
Qed.

Lemma foldl_delete_walk {K V} `{Countable K, KeyOrder K} (P : K → V → Prop)
    `{∀ k v, Decision (P k v)} (m : gmap K V) :
  foldl (λ m e, if decide (P e.1 e.2) then delete e.1 m else m) m (Walk m) =
  filter (λ e, ¬ P e.1 e.2) m.
Proof.
  apply map_eq. intros k. rewrite foldl_delete_lookup.
  destruct (decide (Exists _ _)) as [He|He].
  - symmetry. apply map_lookup_filter_None. right.
    apply Exists_exists in He as ([k' v'] & Hin & <- & HP).
    apply elem_of_Walk in Hin. simpl in *. intros x Hx. naive_solver.
  - destruct (m !! k) as [v|] eqn:Hk.
    + symmetry. apply map_lookup_filter_Some. split; [done|]. simpl. intros HP. apply He.
      apply Exists_exists. exists (k, v). by rewrite elem_of_Walk.
    + symmetry. apply map_lookup_filter_None. by left.
Qed.

(** ** Walks with effects

    A callback that reads and writes the keeper's state and threads a captured
    variable [a]; [true] stops the walk. *)
Fixpoint walkM {St K V A} (handler : K → V → A → M St (bool * A)) (l : list (K * V)) (a : A) :
    M St A :=
  match l with
  | [] => mret a
  | (k, v) :: l' =>
      r ← handler k v a;
      if r.1 : bool then mret r.2 else walkM handler l' r.2
  end.

(** One entry whose callback goes on. *)
Lemma walkM_next {St K V A} (handler : K → V → A → M St (bool * A)) k v l a a' s s' :
  handler k v a s = (Ok (false, a'), s') →
  walkM handler ((k, v) :: l) a s = walkM handler l a' s'.
Proof. intros Hh. simpl. unfold mbind, M_bind. by rewrite Hh. Qed.

(** A callback that only collects. *)
Lemma walkM_collect {St K V B} (g : K → V → B) (l : list (K * V)) (acc : list B) (s : St) :
  walkM (λ k v acc, mret (false, acc ++ [g k v])) l acc s = (Ok (acc ++ map (λ e, g e.1 e.2) l), s).
Proof.
  revert acc. induction l as [|[k v] l IH]; intros acc; simpl.
  - by rewrite app_nil_r.
  - unfold mbind, M_bind. simpl. by rewrite IH, <-app_assoc.
Qed.

(** A callback that changes the state and never stops nor fails. *)
Lemma walkM_update {St K V A} (handler : K → V → A → M St (bool * A)) (g : K → V → St → St)
    (l : list (K * V)) (a : A) (s : St) :
  (∀ k v s, handler k v a s = (Ok (false, a), g k v s)) →
  walkM handler l a s = (Ok a, foldl (λ s e, g e.1 e.2 s) s l).
Proof.
  intros Hh. revert s. induction l as [|[k v] l IH]; intros s; simpl; [done|].
  unfold mbind, M_bind. rewrite Hh. simpl. apply IH.
Qed.

Lemma keeps_walkM {St K V A} (R : St → St → Prop) `{!PreOrder R}
    (handler : K → V → A → M St (bool * A)) l a :
  (∀ k v a, keeps R (handler k v a)) → keeps R (walkM handler l a).
Proof.
  intros Hh. revert a. induction l as [|[k v] l IH]; intros a; cbn [walkM]; [apply keeps_ret, _|].
  apply keeps_bind; [done|apply Hh|]. intros [[] ?]; [apply keeps_ret, _|apply IH].
Qed.
