(* ===== verification/Dec.v ===== *)
(** * Dec: the interface of [cosmossdk.io/math.LegacyDec]

    [LegacyDec] is a third-party fixed-point type: an arbitrary-precision
    integer that counts units of 10^-18.  A value is modelled by that integer
    (what [BigInt()] returns), so comparisons are integer comparisons; the
    arithmetic is the class [DecOps], one field per method the repository
    calls, [None] standing for the method's panic (overflow or a zero
    divisor).  [DecLaws] states the documented behaviour the theorems use.
    [FixedDec] is a concrete implementation that satisfies the laws; the
    witnesses evaluate on it.

    The second part is [src/util/decmath/decmath.go]: median, standard deviation
    around the median, average, maximum and minimum of a list of decimals.
    [Median] sorts its argument in place; [sort_decs] is that effect, and
    callers that go on using the slice see the sorted one. *)
From S2P Require Import Prelude Util.
Local Open Scope Z_scope.

Abbreviation LegacyDec := Z (only parsing).

(** 10^18, the number of units in one. *)
Definition precision : Z := 10 ^ 18.

(** [LegacyNewDecWithPrec(i, prec)], [LegacyNewDec(i)]. *)
Definition LegacyNewDecWithPrec (i prec : Z) : LegacyDec := i * 10 ^ (18 - prec).
Definition LegacyNewDec (i : Z) : LegacyDec := i * precision.
Definition LegacyZeroDec : LegacyDec := 0.
Definition LegacyOneDec : LegacyDec := precision.

Class DecOps := {
  dec_max_bits : Z;
  LegacyDecimalPrecisionBits : Z;
  dec_Add : LegacyDec → LegacyDec → option LegacyDec;
  dec_Sub : LegacyDec → LegacyDec → option LegacyDec;
  dec_Mul : LegacyDec → LegacyDec → option LegacyDec;
  dec_Quo : LegacyDec → LegacyDec → option LegacyDec;
  dec_QuoInt64 : LegacyDec → Z → option LegacyDec;
  dec_MulInt64 : LegacyDec → Z → option LegacyDec;
  dec_Power : LegacyDec → Z → option LegacyDec;
  dec_ApproxSqrt : LegacyDec → outcome LegacyDec;
  dec_TruncateInt64 : LegacyDec → option Z;
  LegacyNewDecFromStr : string → outcome LegacyDec;
}.

(** A result of more than [dec_max_bits] bits is the overflow panic. *)
Definition dec_checked `{DecOps} (z : Z) : option LegacyDec :=
  if Z.abs z <? 2 ^ dec_max_bits then Some z else None.

Class DecLaws (O : DecOps) : Prop := {
  dec_max_bits_big : 100 ≤ dec_max_bits;
  dec_Add_spec a b : dec_Add a b = dec_checked (a + b);
  dec_Sub_spec a b : dec_Sub a b = dec_checked (a - b);
  dec_Mul_spec a b :
    ∃ c, 2 * Z.abs (c * precision - a * b) ≤ precision ∧ dec_Mul a b = dec_checked c;
  dec_MulInt64_spec a i : dec_MulInt64 a i = dec_checked (a * i);
  dec_QuoInt64_spec a i : i ≠ 0 → dec_QuoInt64 a i = Some (Z.quot a i);
  dec_QuoInt64_zero a : dec_QuoInt64 a 0 = None;
  dec_Quo_zero a : dec_Quo a 0 = None;
  dec_Power_two a : dec_Power a 2 = dec_Mul a a;
  dec_TruncateInt64_spec a :
    dec_TruncateInt64 a =
      (let q := Z.quot a precision in
       if (- 2 ^ 63 <=? q) && (q <? 2 ^ 63) then Some q else None);
  dec_ApproxSqrt_nonneg a r : 0 ≤ a → dec_ApproxSqrt a = Ok r → 0 ≤ r;
  dec_ApproxSqrt_zero : dec_ApproxSqrt 0 = Ok 0;
}.

(** [ApproxSqrt] finds the root of every non-negative decimal, at most one or
    within a factor of two. *)
Class SqrtLaws `{DecOps} : Prop := {
  dec_ApproxSqrt_total a : 0 ≤ a < 2 ^ dec_max_bits → ∃ r, dec_ApproxSqrt a = Ok r;
  dec_ApproxSqrt_le a r :
    0 ≤ a → dec_ApproxSqrt a = Ok r → r ≤ precision ∨ r * r ≤ 4 * a * precision;
}.

(** ** Consequences *)

Section laws.
Context `{DecLaws}.

Lemma dec_checked_Some z c : dec_checked z = Some c → c = z.
Proof. unfold dec_checked. destruct (_ <? _); naive_solver. Qed.

Lemma dec_Add_Some a b c : dec_Add a b = Some c → c = a + b.
Proof. rewrite dec_Add_spec. apply dec_checked_Some. Qed.

Lemma dec_Sub_Some a b c : dec_Sub a b = Some c → c = a - b.
Proof. rewrite dec_Sub_spec. apply dec_checked_Some. Qed.

Lemma dec_MulInt64_Some a i c : dec_MulInt64 a i = Some c → c = a * i.
Proof. rewrite dec_MulInt64_spec. apply dec_checked_Some. Qed.

Lemma dec_Mul_nonneg a b c : 0 ≤ a * b → dec_Mul a b = Some c → 0 ≤ c.
Proof.
  destruct (dec_Mul_spec a b) as (c' & Hc & ->). intros Hab ->%dec_checked_Some.
  unfold precision in *. lia.
Qed.

Lemma dec_Mul_self_nonneg a c : dec_Mul a a = Some c → 0 ≤ c.
Proof. apply dec_Mul_nonneg. nia. Qed.

Lemma dec_Mul_zero_l b : dec_Mul 0 b = Some 0.
Proof.
  destruct (dec_Mul_spec 0 b) as (c & Hc & ->).
  assert (c = 0) as -> by (unfold precision in *; lia).
  unfold dec_checked. pose proof dec_max_bits_big.
  by destruct (Z.ltb_spec (Z.abs 0) (2 ^ dec_max_bits)) as [|?%Z.le_ngt]; [|destruct H1; lia].
Qed.

Lemma dec_checked_zero : dec_checked 0 = Some 0.
Proof.
  unfold dec_checked. pose proof dec_max_bits_big. rewrite (proj2 (Z.ltb_lt _ _)); [done|].
  apply Z.pow_pos_nonneg; lia.
Qed.

Lemma quot_between lo hi s n : 0 < n → n * lo ≤ s ≤ n * hi → lo ≤ Z.quot s n ≤ hi.
Proof.
  intros Hn [Hlo Hhi]. split.
  - rewrite <-(Z.quot_mul lo n) by lia. apply Z.quot_le_mono; lia.
  - rewrite <-(Z.quot_mul hi n) by lia. apply Z.quot_le_mono; lia.
Qed.
End laws.

(** ** A concrete implementation *)

(** Round [n / d] to the nearest integer, ties to even, for [0 < d]. *)
Definition div_round (n d : Z) : Z :=
  let q := n / d in let r := n mod d in
  if 2 * r <? d then q else if d <? 2 * r then q + 1
  else if Z.even q then q else q + 1.

Definition fixed_checked (z : Z) : option Z := if Z.abs z <? 2 ^ 315 then Some z else None.

Fixpoint parse_digits (acc : Z) (s : string) : option Z :=
  match s with
  | EmptyString => Some acc
  | String c s' =>
      let n := Z.of_N (N_of_ascii c) in
      if (48 <=? n) && (n <=? 57) then parse_digits (10 * acc + (n - 48)) s' else None
  end.

(** [[-]digits[.digits]] with at most 18 decimals. *)
Fixpoint parse_dec (acc : Z) (seen : bool) (s : string) : option Z :=
  match s with
  | EmptyString => if seen then Some (acc * precision) else None
  | String "."%char (String c s' as frac) =>
      if seen && (Nat.leb (String.length frac) 18)
      then option_map (λ f, acc * precision + f * 10 ^ (18 - Z.of_nat (String.length frac)))
             (parse_digits 0 frac)
      else None
  | String c s' =>
      let n := Z.of_N (N_of_ascii c) in
      if (48 <=? n) && (n <=? 57) then parse_dec (10 * acc + (n - 48)) true s' else None
  end.

Definition fixed_FromStr (s : string) : outcome Z :=
  let r := match s with
           | String "-"%char s' => option_map Z.opp (parse_dec 0 false s')
           | _ => parse_dec 0 false s
           end in
  match r with Some z => Ok z | None => Err (Errorf "failed to set decimal string") end.

Fixpoint fixed_power (a : Z) (n : nat) : option Z :=
  match n with
  | O => Some precision
  | S O => Some a
  | S n' => match fixed_power a n' with
            | Some p => fixed_checked (div_round (p * a) precision)
            | None => None
            end
  end.

Definition FixedDec : DecOps := {|
  dec_max_bits := 315;
  LegacyDecimalPrecisionBits := 60;
  dec_Add a b := fixed_checked (a + b);
  dec_Sub a b := fixed_checked (a - b);
  dec_Mul a b := fixed_checked (div_round (a * b) precision);
  dec_Quo a b := if b =? 0 then None else fixed_checked (div_round (a * precision * Z.sgn b) (Z.abs b));
  dec_QuoInt64 a i := if i =? 0 then None else Some (Z.quot a i);
  dec_MulInt64 a i := fixed_checked (a * i);
  dec_Power a n := fixed_power a (Z.to_nat n);
  dec_ApproxSqrt a := Ok (Z.sgn a * Z.sqrt (Z.abs a * precision));
  dec_TruncateInt64 a :=
    let q := Z.quot a precision in
    if (- 2 ^ 63 <=? q) && (q <? 2 ^ 63) then Some q else None;
  LegacyNewDecFromStr := fixed_FromStr;
|}.

Lemma div_round_nearest n d : 0 < d → 2 * Z.abs (div_round n d * d - n) ≤ d.
Proof.
  intros Hd. unfold div_round.
  pose proof (Z.div_mod n d ltac:(lia)) as Hn. pose proof (Z.mod_pos_bound n d Hd) as Hr.
  destruct (Z.ltb_spec (2 * (n mod d)) d); [nia|].
  destruct (Z.ltb_spec d (2 * (n mod d))); [nia|].
  destruct (Z.even (n / d)); nia.
Qed.

#[export] Instance FixedDec_laws : DecLaws FixedDec.
Proof.
  split; simpl; intros; try done.
  - eexists. split; [apply div_round_nearest; done|done].
  - by rewrite (proj2 (Z.eqb_neq i 0)).
  - simplify_eq. apply Z.mul_nonneg_nonneg; [lia|apply Z.sqrt_nonneg].
Qed.

#[export] Instance FixedDec_sqrt : SqrtLaws (H := FixedDec).
Proof.
  split; [by eexists|]. intros a r Ha [= <-]. right. simpl.
  pose proof (Z.sqrt_spec (Z.abs a * precision)) as Hs. unfold precision in *.
  destruct (Z.sgn_spec a) as [[? ->]|[[? ->]|[? ->]]]; [|lia..].
  rewrite Z.abs_eq in * by lia. nia.
Qed.

(** * Statistics of lists *)

Definition ErrEmptyList : error := Errorf "empty price list passed in".

(** [sort.Slice(ds, ds[i].BigInt().Cmp(ds[j].BigInt()) < 0)]. *)
Definition sort_decs (ds : list LegacyDec) : list LegacyDec := merge_sort Z.le ds.

Section decmath.
Context `{DecOps}.

Definition Median (ds : list LegacyDec) : outcome LegacyDec :=
  if decide (length ds = 0%nat) then Err ErrEmptyList else
  let ds := sort_decs ds in
  let n := length ds in
  if decide (Nat.modulo n 2 = 0%nat) then
    a ← or_panic (ds !! (Nat.div n 2 - 1)%nat);
    b ← or_panic (ds !! (Nat.div n 2));
    s ← or_panic (dec_Add a b);
    or_panic (dec_QuoInt64 s 2)
  else or_panic (ds !! (Nat.div n 2)).

Definition MedianDeviation (median : LegacyDec) (ds : list LegacyDec) : outcome LegacyDec :=
  if decide (length ds = 0%nat) then Err ErrEmptyList else
  variance ← foldM (λ variance d,
    dev ← or_panic (dec_Sub d median);
    sq ← or_panic (dec_Power (Z.abs dev) 2);
    t ← or_panic (dec_QuoInt64 sq (Z.of_nat (length ds)));
    or_panic (dec_Add variance t)) ds LegacyZeroDec;
  dec_ApproxSqrt variance.

Definition Average (ds : list LegacyDec) : outcome LegacyDec :=
  if decide (length ds = 0%nat) then Err ErrEmptyList else
  sumPrices ← foldM (λ s d, or_panic (dec_Add s d)) ds LegacyZeroDec;
  or_panic (dec_QuoInt64 sumPrices (Z.of_nat (length ds))).

Definition Max (ds : list LegacyDec) : outcome LegacyDec :=
  match ds with
  | [] => Err ErrEmptyList
  | d0 :: ds' => Ok (foldl (λ max d, if max <? d then d else max) d0 ds')
  end.

Definition Min (ds : list LegacyDec) : outcome LegacyDec :=
  match ds with
  | [] => Err ErrEmptyList
  | d0 :: ds' => Ok (foldl (λ min d, if d <? min then d else min) d0 ds')
  end.
End decmath.

(** ** Lemmas *)

Lemma sort_decs_perm ds : sort_decs ds ≡ₚ ds.
Proof. apply merge_sort_Permutation. Qed.

Lemma sort_decs_length ds : length (sort_decs ds) = length ds.
Proof. by rewrite sort_decs_perm. Qed.

Lemma sort_decs_sorted ds : StronglySorted Z.le (sort_decs ds).
Proof. apply StronglySorted_merge_sort; apply _. Qed.

Lemma sort_decs_unique ds1 ds2 : ds1 ≡ₚ ds2 → sort_decs ds1 = sort_decs ds2.
Proof.
  intros Hp. apply (StronglySorted_unique Z.le); [apply sort_decs_sorted..|].
  by rewrite !sort_decs_perm.
Qed.

Lemma sort_decs_elem ds i d : sort_decs ds !! i = Some d → d ∈ ds.
Proof. intros Hi%list_elem_of_lookup_2. by rewrite sort_decs_perm in Hi. Qed.

Section decmath_lemmas.
Context `{DecLaws}.

(** The running sum of a loop of [Add]s. *)
Lemma foldM_Add_bounds ds s0 s lo hi :
  foldM (λ s d, or_panic (dec_Add s d)) ds s0 = Ok s →
  Forall (λ d, lo ≤ d ≤ hi) ds →
  s0 + Z.of_nat (length ds) * lo ≤ s ≤ s0 + Z.of_nat (length ds) * hi.
Proof.
  revert s0. induction ds as [|d ds IH]; intros s0; cbn [foldM length].
  - intros [= ->] _. lia.
  - intros (s1 & Hs1 & Hs)%bind_Ok [Hd Hds]%Forall_cons.
    apply or_panic_Ok, dec_Add_Some in Hs1 as ->.
    specialize (IH _ Hs Hds). lia.
Qed.

Lemma Median_perm ds1 ds2 : ds1 ≡ₚ ds2 → Median ds1 = Median ds2.
Proof.
  intros Hp. unfold Median. rewrite (sort_decs_unique _ _ Hp), (Permutation_length Hp). done.
Qed.

Lemma Median_bounds ds m lo hi :
  Forall (λ d, lo ≤ d ≤ hi) ds → Median ds = Ok m → lo ≤ m ≤ hi.
Proof.
  intros Hds. unfold Median. case_decide; [done|]. case_decide.
  - intros (a & Ha%or_panic_Ok%sort_decs_elem & Hm)%bind_Ok.
    apply bind_Ok in Hm as (b & Hb%or_panic_Ok%sort_decs_elem & Hm).
    apply bind_Ok in Hm as (s & ->%or_panic_Ok%dec_Add_Some & Hm).
    rewrite or_panic_Ok, dec_QuoInt64_spec in Hm by done. injection Hm as <-.
    rewrite Forall_forall in Hds. apply Hds in Ha, Hb. apply quot_between; lia.
  - intros Hm%or_panic_Ok%sort_decs_elem. rewrite Forall_forall in Hds. by apply Hds.
Qed.

(** The middle of a sorted list, or the mean of the two elements around it,
    rounded toward zero. *)
Definition middle (sorted : list LegacyDec) (m : LegacyDec) : Prop :=
  if Nat.even (length sorted) then
    ∃ a b, sorted !! (length sorted / 2 - 1)%nat = Some a ∧ sorted !! (length sorted / 2)%nat = Some b ∧
      m = Z.quot (a + b) 2
  else sorted !! (length sorted / 2)%nat = Some m.

Lemma Median_middle ds m : Median ds = Ok m → ds ≠ [] ∧ middle (sort_decs ds) m.
Proof.
  unfold Median, middle. case_decide as Hl; [done|]. intros Hm. split; [by intros ->|].
  rewrite !sort_decs_length in *. case_decide as Heven.
  - rewrite (proj2 (Nat.even_spec _)) by (apply Nat.Div0.mod_divides in Heven as [c ->]; by exists c).
    apply bind_Ok in Hm as (a & Ha%or_panic_Ok & Hm). apply bind_Ok in Hm as (b & Hb%or_panic_Ok & Hm).
    apply bind_Ok in Hm as (s & ->%or_panic_Ok%dec_Add_Some & Hm).
    rewrite or_panic_Ok, dec_QuoInt64_spec in Hm by done. injection Hm as <-. by exists a, b.
  - replace (Nat.even (length ds)) with false; [by apply or_panic_Ok|]. symmetry.
    apply not_true_is_false. intros [c Hc]%Nat.even_spec. apply Heven. rewrite Hc, Nat.mul_comm.
    apply Nat.Div0.mod_mul.
Qed.

(** The squared distances to the median, as the SDK multiplies, their mean by a
    division of each, and its root. *)
Lemma MedianDeviation_root median ds r :
  MedianDeviation median ds = Ok r →
  ∃ squares, Forall2 (λ d sq, dec_Mul (Z.abs (d - median)) (Z.abs (d - median)) = Some sq) ds squares ∧
    dec_ApproxSqrt (foldr (λ sq v, Z.quot sq (Z.of_nat (length ds)) + v) 0 squares) = Ok r.
Proof.
  unfold MedianDeviation. case_decide as Hl; [done|]. intros (variance & Hv & Hr)%bind_Ok.
  assert (∀ l v0, foldM (λ v d,
      dev ← or_panic (dec_Sub d median); sq ← or_panic (dec_Power (Z.abs dev) 2);
      t ← or_panic (dec_QuoInt64 sq (Z.of_nat (length ds))); or_panic (dec_Add v t)) l v0 = Ok variance →
    ∃ squares, Forall2 (λ d sq, dec_Mul (Z.abs (d - median)) (Z.abs (d - median)) = Some sq) l squares ∧
      variance = v0 + foldr (λ sq v, Z.quot sq (Z.of_nat (length ds)) + v) 0 squares) as Hloop.
  { clear Hv Hr. induction l as [|d l IH]; intros v0; cbn [foldM].
    - intros [= ->]. exists []. split; [constructor|]. simpl. lia.
    - intros (v1 & Hstep & Hrest)%bind_Ok. apply IH in Hrest as (squares & Hsq & ->).
      apply bind_Ok in Hstep as (dev & ->%or_panic_Ok%dec_Sub_Some & Hstep).
      apply bind_Ok in Hstep as (sq & Hpow%or_panic_Ok & Hstep). rewrite dec_Power_two in Hpow.
      apply bind_Ok in Hstep as (t & Ht%or_panic_Ok & Hstep).
      rewrite dec_QuoInt64_spec in Ht by lia. injection Ht as <-.
      apply or_panic_Ok, dec_Add_Some in Hstep as ->. exists (sq :: squares).
      split; [by constructor|]. simpl. lia. }
  destruct (Hloop ds LegacyZeroDec Hv) as (squares & Hsq & ->). by exists squares.
Qed.

Lemma Average_bounds ds m lo hi :
  Forall (λ d, lo ≤ d ≤ hi) ds → Average ds = Ok m → lo ≤ m ≤ hi.
Proof.
  intros Hds. unfold Average. case_decide as Hl; [done|].
  intros (s & Hs & Hm)%bind_Ok.
  apply (foldM_Add_bounds _ _ _ lo hi) in Hs; [|done].
  rewrite or_panic_Ok, dec_QuoInt64_spec in Hm by lia. injection Hm as <-.
  unfold LegacyZeroDec in *. apply quot_between; lia.
Qed.

Lemma MedianDeviation_nonneg median ds r :
  MedianDeviation median ds = Ok r → 0 ≤ r.
Proof.
  unfold MedianDeviation. case_decide as Hl; [done|].
  intros (v & Hv & Hr)%bind_Ok. eapply dec_ApproxSqrt_nonneg; [|done].
  eapply (foldM_ind _ (λ v, 0 ≤ v)); [..|exact Hv]; [done|].
  intros d v1 v2 _ Hv1 Hstep.
  apply bind_Ok in Hstep as (dev & _ & Hstep).
  apply bind_Ok in Hstep as (sq & Hsq & Hstep).
  apply bind_Ok in Hstep as (t & Ht & Hstep).
  rewrite or_panic_Ok, dec_Power_two in Hsq. apply dec_Mul_self_nonneg in Hsq.
  rewrite or_panic_Ok, dec_QuoInt64_spec in Ht by lia. injection Ht as <-.
  apply or_panic_Ok, dec_Add_Some in Hstep as ->.
  pose proof (Z.quot_pos sq (Z.of_nat (length ds)) Hsq ltac:(lia)). lia.
Qed.

(** [Max] returns an element that no element exceeds; [Min] mirrors it. *)
Lemma Max_spec ds m : Max ds = Ok m → m ∈ ds ∧ Forall (λ d, d ≤ m) ds.
Proof.
  destruct ds as [|d0 ds]; [done|]. simpl. intros [= <-]. revert d0.
  induction ds as [|d ds IH]; intros d0; simpl; [repeat constructor; lia|].
  destruct (IH (if d0 <? d then d else d0)) as [Hin [Hle Hall]%Forall_cons].
  destruct (Z.ltb_spec d0 d); (split; [set_solver|]); repeat constructor; try done; lia.
Qed.

Lemma Min_spec ds m : Min ds = Ok m → m ∈ ds ∧ Forall (λ d, m ≤ d) ds.
Proof.
  destruct ds as [|d0 ds]; [done|]. simpl. intros [= <-]. revert d0.
  induction ds as [|d ds IH]; intros d0; simpl; [repeat constructor; lia|].
  destruct (IH (if d <? d0 then d else d0)) as [Hin [Hle Hall]%Forall_cons].
  destruct (Z.ltb_spec d d0); (split; [set_solver|]); repeat constructor; try done; lia.
Qed.
End decmath_lemmas.
