(* ===== verification/Types.v ===== *)
(** * Types: the data of the oracle module

    Structs of [proto/oracle/v1] as the Go code declares them, the sentinel
    errors of [types/errors.go], the asset constants of [types/asset.go] and
    the methods of the list types: [DenomList], [RewardBandList],
    [CurrencyPairProvidersList], [CurrencyDeviationThresholdList] and
    [PriceStamps].  A pointer field that the code never leaves nil is its
    value.  [Denom.String] is YAML marshalling, a third-party encoder: the
    class [YamlDenom]. *)
From S2P Require Import Prelude Util GoStrings Dec.
Local Open Scope Z_scope.

(** ** [types/errors.go] *)

Definition ModuleName : string := "oracle".
Definition ErrInvalidExchangeRate := Registered ModuleName 2.
Definition ErrNoPrevote := Registered ModuleName 3.
Definition ErrNoVote := Registered ModuleName 4.
Definition ErrNoVotingPermission := Registered ModuleName 5.
Definition ErrInvalidHash := Registered ModuleName 6.
Definition ErrInvalidHashLength := Registered ModuleName 7.
Definition ErrVerificationFailed := Registered ModuleName 8.
Definition ErrRevealPeriodMissMatch := Registered ModuleName 9.
Definition ErrInvalidSaltLength := Registered ModuleName 10.
Definition ErrInvalidSaltFormat := Registered ModuleName 11.
Definition ErrNoAggregatePrevote := Registered ModuleName 12.
Definition ErrNoAggregateVote := Registered ModuleName 13.
Definition ErrUnknownDenom := Registered ModuleName 14.
Definition ErrNegativeOrZeroRate := Registered ModuleName 15.
Definition ErrExistingPrevote := Registered ModuleName 16.
Definition ErrBallotNotSorted := Registered ModuleName 17.
Definition ErrInvalidOraclePrice := Registered ModuleName 18.
Definition ErrNoHistoricPrice := Registered ModuleName 19.
Definition ErrNoMedian := Registered ModuleName 20.
Definition ErrNoMedianDeviation := Registered ModuleName 21.
Definition ErrNoRewardBand := Registered ModuleName 22.
Definition ErrNoValidatorRewardSet := Registered ModuleName 23.
Definition ErrNoGovAuthority := Registered ModuleName 24.
Definition ErrInvalidRequest := Registered ModuleName 25.
Definition ErrInvalidParamValue := Registered ModuleName 26.
Definition ErrEncodeInjVoteExt := Registered ModuleName 27.
Definition ErrNonEqualInjVotesLen := Registered ModuleName 28.
Definition ErrNonEqualInjVotesRates := Registered ModuleName 29.
Definition ErrNoCommitInfo := Registered ModuleName 30.
Definition ErrInvalidWmaStrategy := Registered ModuleName 31.

(** ** [types/asset.go] *)

Definition DmDenom : string := "udm".
Definition DmSymbol : string := "DM".
Definition DmExponent : Z := 9.
Definition USDTDenom : string :=
  "ibc/C4CFF46FD6DE35CA4CF4CE031E643C8FDC9BA4B99AE598E9B0ED98FE3A2319F9".
Definition USDTSymbol : string := "USDT".
Definition USDTExponent : Z := 18.
Definition USDSymbol : string := "USD".
Definition USDCDenom : string := "USDC".
Definition USDCSymbol : string := "USDC".
Definition USDCExponent : Z := 6.
Definition BlocksPerMinute : Z := 10.
Definition BlocksPerHour : Z := BlocksPerMinute * 60.
Definition BlocksPerDay : Z := BlocksPerHour * 24.
Definition BlocksPerWeek : Z := BlocksPerDay * 7.
Definition BlocksPerYear : Z := BlocksPerDay * 365.

(** ** Structs *)

(** Raw address bytes ([sdk.ValAddress], [sdk.AccAddress]); empty is nil. *)
Abbreviation addr := string (only parsing).

Record DecCoin := mkDecCoin { dc_Denom : string; dc_Amount : LegacyDec }.

Record Denom := mkDenom { BaseDenom : string; SymbolDenom : string; Exponent : Z }.

Record RewardBand := mkRewardBand { rb_SymbolDenom : string; rb_RewardBand : LegacyDec }.

Record PairAddressProvider := mkPairAddressProvider { Address : string; AddressProvider : string }.

Record CurrencyPairProvider := mkCurrencyPairProvider {
  cpp_BaseDenom : string;
  cpp_QuoteDenom : string;
  cpp_PairAddress : list PairAddressProvider;
  cpp_Providers : list string;
}.

Record CurrencyDeviationThreshold := mkCurrencyDeviationThreshold {
  cdt_BaseDenom : string;
  cdt_Threshold : string;
}.

Record AggregateExchangeRatePrevote := mkPrevote {
  pv_Hash : string;
  pv_Voter : string;
  pv_SubmitBlock : Z;
}.

Record AggregateExchangeRateVote := mkVote {
  vt_ExchangeRates : list DecCoin;
  vt_Voter : string;
}.

Record PriceStamp := mkPriceStamp { ps_ExchangeRate : DecCoin; ps_BlockNum : Z }.

Record Params := mkParams {
  VotePeriod : Z;
  VoteThreshold : LegacyDec;
  RewardBands : list RewardBand;
  RewardDistributionWindow : Z;
  AcceptList : list Denom;
  SlashFraction : LegacyDec;
  SlashWindow : Z;
  MinValidPerWindow : LegacyDec;
  MandatoryList : list Denom;
  HistoricStampPeriod : Z;
  MedianStampPeriod : Z;
  MaximumPriceStamps : Z;
  MaximumMedianStamps : Z;
  CurrencyPairProviders : list CurrencyPairProvider;
  CurrencyDeviationThresholds : list CurrencyDeviationThreshold;
  UsdcIbcDenom : string;
  SlashingEnabled : bool;
  AveragingWindow : Z;
}.

(** Assignments [p.Field = v]. *)
Definition with_VotePeriod (v : Z) (p : Params) : Params :=
  mkParams v (VoteThreshold p) (RewardBands p) (RewardDistributionWindow p) (AcceptList p)
    (SlashFraction p) (SlashWindow p) (MinValidPerWindow p) (MandatoryList p)
    (HistoricStampPeriod p) (MedianStampPeriod p) (MaximumPriceStamps p) (MaximumMedianStamps p)
    (CurrencyPairProviders p) (CurrencyDeviationThresholds p) (UsdcIbcDenom p) (SlashingEnabled p)
    (AveragingWindow p).
Definition with_VoteThreshold (v : LegacyDec) (p : Params) : Params :=
  mkParams (VotePeriod p) v (RewardBands p) (RewardDistributionWindow p) (AcceptList p)
    (SlashFraction p) (SlashWindow p) (MinValidPerWindow p) (MandatoryList p)
    (HistoricStampPeriod p) (MedianStampPeriod p) (MaximumPriceStamps p) (MaximumMedianStamps p)
    (CurrencyPairProviders p) (CurrencyDeviationThresholds p) (UsdcIbcDenom p) (SlashingEnabled p)
    (AveragingWindow p).
Definition with_RewardBands (v : list RewardBand) (p : Params) : Params :=
  mkParams (VotePeriod p) (VoteThreshold p) v (RewardDistributionWindow p) (AcceptList p)
    (SlashFraction p) (SlashWindow p) (MinValidPerWindow p) (MandatoryList p)
    (HistoricStampPeriod p) (MedianStampPeriod p) (MaximumPriceStamps p) (MaximumMedianStamps p)
    (CurrencyPairProviders p) (CurrencyDeviationThresholds p) (UsdcIbcDenom p) (SlashingEnabled p)
    (AveragingWindow p).
Definition with_RewardDistributionWindow (v : Z) (p : Params) : Params :=
  mkParams (VotePeriod p) (VoteThreshold p) (RewardBands p) v (AcceptList p) (SlashFraction p)
    (SlashWindow p) (MinValidPerWindow p) (MandatoryList p) (HistoricStampPeriod p)
    (MedianStampPeriod p) (MaximumPriceStamps p) (MaximumMedianStamps p) (CurrencyPairProviders p)
    (CurrencyDeviationThresholds p) (UsdcIbcDenom p) (SlashingEnabled p) (AveragingWindow p).
Definition with_AcceptList (v : list Denom) (p : Params) : Params :=
  mkParams (VotePeriod p) (VoteThreshold p) (RewardBands p) (RewardDistributionWindow p) v
    (SlashFraction p) (SlashWindow p) (MinValidPerWindow p) (MandatoryList p)
    (HistoricStampPeriod p) (MedianStampPeriod p) (MaximumPriceStamps p) (MaximumMedianStamps p)
    (CurrencyPairProviders p) (CurrencyDeviationThresholds p) (UsdcIbcDenom p) (SlashingEnabled p)
    (AveragingWindow p).
Definition with_SlashFraction (v : LegacyDec) (p : Params) : Params :=
  mkParams (VotePeriod p) (VoteThreshold p) (RewardBands p) (RewardDistributionWindow p)
    (AcceptList p) v (SlashWindow p) (MinValidPerWindow p) (MandatoryList p)
    (HistoricStampPeriod p) (MedianStampPeriod p) (MaximumPriceStamps p) (MaximumMedianStamps p)
    (CurrencyPairProviders p) (CurrencyDeviationThresholds p) (UsdcIbcDenom p) (SlashingEnabled p)
    (AveragingWindow p).
Definition with_SlashWindow (v : Z) (p : Params) : Params :=
  mkParams (VotePeriod p) (VoteThreshold p) (RewardBands p) (RewardDistributionWindow p)
    (AcceptList p) (SlashFraction p) v (MinValidPerWindow p) (MandatoryList p)
    (HistoricStampPeriod p) (MedianStampPeriod p) (MaximumPriceStamps p) (MaximumMedianStamps p)
    (CurrencyPairProviders p) (CurrencyDeviationThresholds p) (UsdcIbcDenom p) (SlashingEnabled p)
    (AveragingWindow p).
Definition with_MinValidPerWindow (v : LegacyDec) (p : Params) : Params :=
  mkParams (VotePeriod p) (VoteThreshold p) (RewardBands p) (RewardDistributionWindow p)
    (AcceptList p) (SlashFraction p) (SlashWindow p) v (MandatoryList p) (HistoricStampPeriod p)
    (MedianStampPeriod p) (MaximumPriceStamps p) (MaximumMedianStamps p) (CurrencyPairProviders p)
    (CurrencyDeviationThresholds p) (UsdcIbcDenom p) (SlashingEnabled p) (AveragingWindow p).
Definition with_MandatoryList (v : list Denom) (p : Params) : Params :=
  mkParams (VotePeriod p) (VoteThreshold p) (RewardBands p) (RewardDistributionWindow p)
    (AcceptList p) (SlashFraction p) (SlashWindow p) (MinValidPerWindow p) v
    (HistoricStampPeriod p) (MedianStampPeriod p) (MaximumPriceStamps p) (MaximumMedianStamps p)
    (CurrencyPairProviders p) (CurrencyDeviationThresholds p) (UsdcIbcDenom p) (SlashingEnabled p)
    (AveragingWindow p).
Definition with_HistoricStampPeriod (v : Z) (p : Params) : Params :=
  mkParams (VotePeriod p) (VoteThreshold p) (RewardBands p) (RewardDistributionWindow p)
    (AcceptList p) (SlashFraction p) (SlashWindow p) (MinValidPerWindow p) (MandatoryList p) v
    (MedianStampPeriod p) (MaximumPriceStamps p) (MaximumMedianStamps p) (CurrencyPairProviders p)
    (CurrencyDeviationThresholds p) (UsdcIbcDenom p) (SlashingEnabled p) (AveragingWindow p).
Definition with_MedianStampPeriod (v : Z) (p : Params) : Params :=
  mkParams (VotePeriod p) (VoteThreshold p) (RewardBands p) (RewardDistributionWindow p)
    (AcceptList p) (SlashFraction p) (SlashWindow p) (MinValidPerWindow p) (MandatoryList p)
    (HistoricStampPeriod p) v (MaximumPriceStamps p) (MaximumMedianStamps p)
    (CurrencyPairProviders p) (CurrencyDeviationThresholds p) (UsdcIbcDenom p) (SlashingEnabled p)
    (AveragingWindow p).
Definition with_MaximumPriceStamps (v : Z) (p : Params) : Params :=
  mkParams (VotePeriod p) (VoteThreshold p) (RewardBands p) (RewardDistributionWindow p)
    (AcceptList p) (SlashFraction p) (SlashWindow p) (MinValidPerWindow p) (MandatoryList p)
    (HistoricStampPeriod p) (MedianStampPeriod p) v (MaximumMedianStamps p)
    (CurrencyPairProviders p) (CurrencyDeviationThresholds p) (UsdcIbcDenom p) (SlashingEnabled p)
    (AveragingWindow p).
Definition with_MaximumMedianStamps (v : Z) (p : Params) : Params :=
  mkParams (VotePeriod p) (VoteThreshold p) (RewardBands p) (RewardDistributionWindow p)
    (AcceptList p) (SlashFraction p) (SlashWindow p) (MinValidPerWindow p) (MandatoryList p)
    (HistoricStampPeriod p) (MedianStampPeriod p) (MaximumPriceStamps p) v
    (CurrencyPairProviders p) (CurrencyDeviationThresholds p) (UsdcIbcDenom p) (SlashingEnabled p)
    (AveragingWindow p).
Definition with_CurrencyPairProviders (v : list CurrencyPairProvider) (p : Params) : Params :=
  mkParams (VotePeriod p) (VoteThreshold p) (RewardBands p) (RewardDistributionWindow p)
    (AcceptList p) (SlashFraction p) (SlashWindow p) (MinValidPerWindow p) (MandatoryList p)
    (HistoricStampPeriod p) (MedianStampPeriod p) (MaximumPriceStamps p) (MaximumMedianStamps p) v
    (CurrencyDeviationThresholds p) (UsdcIbcDenom p) (SlashingEnabled p) (AveragingWindow p).
Definition with_CurrencyDeviationThresholds (v : list CurrencyDeviationThreshold) (p : Params) : Params :=
  mkParams (VotePeriod p) (VoteThreshold p) (RewardBands p) (RewardDistributionWindow p)
    (AcceptList p) (SlashFraction p) (SlashWindow p) (MinValidPerWindow p) (MandatoryList p)
    (HistoricStampPeriod p) (MedianStampPeriod p) (MaximumPriceStamps p) (MaximumMedianStamps p)
    (CurrencyPairProviders p) v (UsdcIbcDenom p) (SlashingEnabled p) (AveragingWindow p).
Definition with_UsdcIbcDenom (v : string) (p : Params) : Params :=
  mkParams (VotePeriod p) (VoteThreshold p) (RewardBands p) (RewardDistributionWindow p)
    (AcceptList p) (SlashFraction p) (SlashWindow p) (MinValidPerWindow p) (MandatoryList p)
    (HistoricStampPeriod p) (MedianStampPeriod p) (MaximumPriceStamps p) (MaximumMedianStamps p)
    (CurrencyPairProviders p) (CurrencyDeviationThresholds p) v (SlashingEnabled p)
    (AveragingWindow p).
Definition with_SlashingEnabled (v : bool) (p : Params) : Params :=
  mkParams (VotePeriod p) (VoteThreshold p) (RewardBands p) (RewardDistributionWindow p)
    (AcceptList p) (SlashFraction p) (SlashWindow p) (MinValidPerWindow p) (MandatoryList p)
    (HistoricStampPeriod p) (MedianStampPeriod p) (MaximumPriceStamps p) (MaximumMedianStamps p)
    (CurrencyPairProviders p) (CurrencyDeviationThresholds p) (UsdcIbcDenom p) v
    (AveragingWindow p).
Definition with_AveragingWindow (v : Z) (p : Params) : Params :=
  mkParams (VotePeriod p) (VoteThreshold p) (RewardBands p) (RewardDistributionWindow p)
    (AcceptList p) (SlashFraction p) (SlashWindow p) (MinValidPerWindow p) (MandatoryList p)
    (HistoricStampPeriod p) (MedianStampPeriod p) (MaximumPriceStamps p) (MaximumMedianStamps p)
    (CurrencyPairProviders p) (CurrencyDeviationThresholds p) (UsdcIbcDenom p) (SlashingEnabled p)
    v.

Record ParamUpdatePlan := mkPlan {
  plan_Keys : list string;
  plan_Height : Z;
  plan_Changes : Params;
}.

#[export] Instance DecCoin_eq_dec : EqDecision DecCoin.
Proof. solve_decision. Defined.
#[export] Instance Denom_eq_dec : EqDecision Denom.
Proof. solve_decision. Defined.
#[export] Instance RewardBand_eq_dec : EqDecision RewardBand.
Proof. solve_decision. Defined.
#[export] Instance PairAddressProvider_eq_dec : EqDecision PairAddressProvider.
Proof. solve_decision. Defined.
#[export] Instance CurrencyPairProvider_eq_dec : EqDecision CurrencyPairProvider.
Proof. solve_decision. Defined.
#[export] Instance CurrencyDeviationThreshold_eq_dec : EqDecision CurrencyDeviationThreshold.
Proof. solve_decision. Defined.
#[export] Instance Prevote_eq_dec : EqDecision AggregateExchangeRatePrevote.
Proof. solve_decision. Defined.
#[export] Instance Vote_eq_dec : EqDecision AggregateExchangeRateVote.
Proof. solve_decision. Defined.
#[export] Instance PriceStamp_eq_dec : EqDecision PriceStamp.
Proof. solve_decision. Defined.
#[export] Instance Params_eq_dec : EqDecision Params.
Proof. solve_decision. Defined.
#[export] Instance Plan_eq_dec : EqDecision ParamUpdatePlan.
Proof. solve_decision. Defined.

(** ** [types/denom.go] *)

(** [Denom.String]: [yaml.Marshal], injective on structs. *)
Class YamlDenom := Denom_String : Denom → string.
Class YamlDenomLaws (Y : YamlDenom) : Prop := Denom_String_inj :: Inj (=) (=) Denom_String.

Definition Denom_Equal (d d1 : Denom) : bool :=
  String.eqb (BaseDenom d) (BaseDenom d1) && String.eqb (SymbolDenom d) (SymbolDenom d1)
  && (Exponent d =? Exponent d1).

Fixpoint DenomList_Contains (dl : list Denom) (symbolDenom : string) : bool :=
  match dl with
  | [] => false
  | d :: dl' => if EqualFold (SymbolDenom d) symbolDenom then true
                else DenomList_Contains dl' symbolDenom
  end.

(** A set of the [String]s of [dl], then a membership test per denom of [d]. *)
Definition ContainDenoms `{YamlDenom} (dl d : list Denom) : bool :=
  let contains := foldl (λ m denom, <[Denom_String denom := ()]> m) (∅ : gmap string ()) dl in
  (fix go d :=
     match d with
     | [] => true
     | denom :: d' => match contains !! Denom_String denom with
                      | Some _ => go d'
                      | None => false
                      end
     end) d.

(** In place: the caller's slice is the result. *)
Definition Normalize (dl : list Denom) : list Denom :=
  map (λ d, mkDenom (BaseDenom d) (ToUpper (SymbolDenom d)) (Exponent d)) dl.

(** ** [types/reward_band.go] and the methods of [types/params.go] *)

Definition RewardBand_Equal (rb rb2 : RewardBand) : bool :=
  if negb (EqualFold (rb_SymbolDenom rb) (rb_SymbolDenom rb2)) then false
  else rb_RewardBand rb =? rb_RewardBand rb2.

Fixpoint GetBandFromDenom (rbl : list RewardBand) (denom : string) : outcome LegacyDec :=
  match rbl with
  | [] => Err ErrNoRewardBand
  | rb :: rbl' => if EqualFold denom (rb_SymbolDenom rb) then Ok (rb_RewardBand rb)
                  else GetBandFromDenom rbl' denom
  end.

Definition defaultRewardBand : LegacyDec := LegacyNewDecWithPrec 2 2.

Definition AddDefault (rbl : list RewardBand) (denom : string) : list RewardBand :=
  rbl ++ [mkRewardBand denom defaultRewardBand].

Definition Add (rbl : list RewardBand) (denom : string) (band : LegacyDec) : list RewardBand :=
  rbl ++ [mkRewardBand denom band].

(** ** [RemovePair]: the in-place deletion loops

    [for i := 0; i < len(l); i++ { if l[i] matches { l = append(l[:i],
    l[i+1:]...); i-- } }], with the loop's fuel: each iteration raises [i] or
    shortens the list, so [length l] iterations are enough. *)
Fixpoint remove_loop {A} (matches : A → bool) (fuel i : nat) (l : list A) : list A :=
  match fuel with
  | O => l
  | S fuel' =>
      match l !! i with
      | None => l
      | Some a =>
          if matches a then remove_loop matches fuel' i (take i l ++ drop (S i) l)
          else remove_loop matches fuel' (S i) l
      end
  end.

Definition RemovePair_cpp (cppl : list CurrencyPairProvider) (pair : CurrencyPairProvider) :
    list CurrencyPairProvider :=
  remove_loop (λ c, String.eqb (cpp_BaseDenom c) (cpp_BaseDenom pair)
                    && String.eqb (cpp_QuoteDenom c) (cpp_QuoteDenom pair))
    (length cppl) 0 cppl.

Definition RemovePair_cdt (cdtl : list CurrencyDeviationThreshold) (curr : string) :
    list CurrencyDeviationThreshold :=
  remove_loop (λ c, String.eqb (cdt_BaseDenom c) curr) (length cdtl) 0 cdtl.

Definition CurrencyPairProviders_Equal (cpp cpp2 : CurrencyPairProvider) : bool :=
  if negb (EqualFold (cpp_BaseDenom cpp) (cpp_BaseDenom cpp2))
     || negb (EqualFold (cpp_QuoteDenom cpp) (cpp_QuoteDenom cpp2)) then false
  else if negb (bool_decide (cpp_PairAddress cpp = cpp_PairAddress cpp2)) then false
  else bool_decide (cpp_Providers cpp = cpp_Providers cpp2).

Definition CurrencyDeviationThreshold_Equal (cdt cdt2 : CurrencyDeviationThreshold) : bool :=
  EqualFold (cdt_BaseDenom cdt) (cdt_BaseDenom cdt2)
  && EqualFold (cdt_Threshold cdt) (cdt_Threshold cdt2).

(** ** [types/price_stamp.go] *)

Definition NewPriceStamp (exchangeRate : LegacyDec) (denom : string) (blockNum : Z) : PriceStamp :=
  mkPriceStamp (mkDecCoin denom exchangeRate) blockNum.

Definition Decs (p : list PriceStamp) : list LegacyDec :=
  map (λ ps, dc_Amount (ps_ExchangeRate ps)) p.

Definition FilterByBlock (p : list PriceStamp) (blockNum : Z) : list PriceStamp :=
  filter (λ ps, ps_BlockNum ps = blockNum) p.

Definition FilterByDenom (p : list PriceStamp) (denom : string) : list PriceStamp :=
  filter (λ ps, dc_Denom (ps_ExchangeRate ps) = denom) p.

Definition NewestBlockNum (p : list PriceStamp) : Z :=
  foldl (λ blockNum price, if blockNum <? ps_BlockNum price then ps_BlockNum price else blockNum) 0 p.

Definition NewestPrices (p : list PriceStamp) : list PriceStamp :=
  FilterByBlock p (NewestBlockNum p).

(** The [less] of [PriceStamps.Sort], as the order [¬ (less b a)]. *)
Definition stamp_le (a b : PriceStamp) : Prop :=
  if ps_BlockNum a =? ps_BlockNum b
  then String.le (dc_Denom (ps_ExchangeRate a)) (dc_Denom (ps_ExchangeRate b))
  else ps_BlockNum a ≤ ps_BlockNum b.

#[export] Instance stamp_le_dec : RelDecision stamp_le.
Proof. intros a b. unfold stamp_le. destruct (_ =? _); apply _. Defined.

Definition Sort (p : list PriceStamp) : list PriceStamp := merge_sort stamp_le p.

(** ** Lemmas *)

Lemma DenomList_Contains_spec dl s :
  DenomList_Contains dl s = true ↔ ∃ d, d ∈ dl ∧ ToUpper (SymbolDenom d) = ToUpper s.
Proof.
  induction dl as [|d dl IH]; simpl; [set_solver|].
  destruct (EqualFold (SymbolDenom d) s) eqn:Hd.
  - apply EqualFold_true in Hd. split; [intros _; exists d; set_solver|done].
  - rewrite IH. split; [set_solver|]. intros (d' & [->|?]%elem_of_cons & Heq); [|set_solver].
    apply EqualFold_true in Heq. congruence.
Qed.

Lemma DenomList_Contains_upper dl s :
  DenomList_Contains dl (ToUpper s) = DenomList_Contains dl s.
Proof. induction dl; simpl; [done|]. by rewrite EqualFold_ToUpper_r, IHdl. Qed.

Lemma DenomList_Contains_Normalize dl s :
  DenomList_Contains (Normalize dl) s = DenomList_Contains dl s.
Proof. induction dl; simpl; [done|]. by rewrite EqualFold_ToUpper_l, IHdl. Qed.

Lemma Normalize_idemp dl : Normalize (Normalize dl) = Normalize dl.
Proof. induction dl; simpl; [done|]. by rewrite ToUpper_idemp, IHdl. Qed.

Lemma Normalize_length dl : length (Normalize dl) = length dl.
Proof. apply length_map. Qed.

(** [ContainDenoms] decides inclusion of the lists of structs. *)
Lemma ContainDenoms_spec `{YamlDenomLaws} dl d :
  ContainDenoms dl d = true ↔ d ⊆ dl.
Proof.
  unfold ContainDenoms.
  set (contains := foldl (λ m denom, <[Denom_String denom := ()]> m) (∅ : gmap string ()) dl).
  assert (Hm : ∀ s, is_Some (contains !! s) ↔ ∃ x, x ∈ dl ∧ Denom_String x = s).
  { subst contains.
    enough (∀ (m : gmap string ()) s, is_Some (foldl (λ m denom, <[Denom_String denom := ()]> m) m dl !! s) ↔
      is_Some (m !! s) ∨ ∃ x, x ∈ dl ∧ Denom_String x = s) as Hgen.
    { intros s. rewrite Hgen, lookup_empty, is_Some_alt. naive_solver. }
    clear. induction dl as [|x dl IH]; intros m s; cbn [foldl].
    - split; [by left|]. intros [?|(? & []%elem_of_nil & _)]. done.
    - rewrite IH, lookup_insert_is_Some'. setoid_rewrite elem_of_cons. naive_solver. }
  clearbody contains. induction d as [|x d IH]; [split; [set_solver|done]|].
  destruct (contains !! Denom_String x) eqn:Hx.
  - rewrite IH. assert (x ∈ dl).
    { destruct (proj1 (Hm _) ltac:(by eexists)) as (y & ? & ->%(inj Denom_String)). done. }
    set_solver.
  - split; [done|]. intros Hsub. assert (is_Some (contains !! Denom_String x)) as [? ?].
    { apply Hm. exists x. set_solver. }
    congruence.
Qed.

Lemma remove_loop_spec {A} (matches : A → bool) fuel i l :
  (length l ≤ i + fuel)%nat →
  remove_loop matches fuel i l = take i l ++ filter (λ a, matches a = false) (drop i l).
Proof.
  assert (Hstop : ∀ i l, (length l ≤ i)%nat →
    l = take i l ++ filter (λ a, matches a = false) (drop i l)).
  { intros. rewrite drop_ge, take_ge by lia. by rewrite filter_nil, app_nil_r. }
  revert i l. induction fuel as [|fuel IH]; intros i l Hl; cbn [remove_loop].
  { apply Hstop. lia. }
  destruct (l !! i) as [a|] eqn:Hi; [|by apply Hstop, lookup_ge_None].
  pose proof (lookup_lt_Some _ _ _ Hi) as Hlt.
  rewrite (drop_S _ _ _ Hi), filter_cons. destruct (matches a) eqn:Ha.
  - rewrite decide_False by congruence. rewrite IH.
    + rewrite take_app_le, take_take, drop_app_ge by (rewrite length_take; lia).
      rewrite length_take. do 2 f_equal; [lia|]. rewrite drop_drop. do 2 f_equal. lia.
    + rewrite length_app, length_take, length_drop. lia.
  - rewrite decide_True by done. rewrite IH by lia.
    rewrite (take_S_r _ _ _ Hi), <-app_assoc. done.
Qed.

Lemma remove_loop_filter {A} (matches : A → bool) l :
  remove_loop matches (length l) 0 l = filter (λ a, matches a = false) l.
Proof. rewrite remove_loop_spec by lia. done. Qed.

(** Removing one pair after the other keeps what matches none of them. *)
Lemma foldl_filter {A B} (m : B → A → bool) (ps : list B) (l : list A) :
  foldl (λ l p, filter (λ a, m p a = false) l) l ps =
  filter (λ a, existsb (λ p, m p a) ps = false) l.
Proof.
  revert l. induction ps as [|p ps IH]; intros l; cbn [foldl].
  - symmetry. induction l as [|a l IHl]; [done|]. rewrite filter_cons, decide_True by done. by f_equal.
  - rewrite IH, list_filter_filter. apply list_filter_iff. intros a. cbn [existsb].
    rewrite orb_false_iff. tauto.
Qed.

Lemma foldl_RemovePair_cpp l pairs :
  foldl RemovePair_cpp l pairs =
  filter (λ c, existsb (λ pair, String.eqb (cpp_BaseDenom c) (cpp_BaseDenom pair)
                              && String.eqb (cpp_QuoteDenom c) (cpp_QuoteDenom pair)) pairs = false) l.
Proof.
  rewrite <-(foldl_filter (λ pair c, String.eqb (cpp_BaseDenom c) (cpp_BaseDenom pair)
                                  && String.eqb (cpp_QuoteDenom c) (cpp_QuoteDenom pair))).
  revert l. induction pairs as [|pair pairs IH]; intros l; cbn [foldl]; [done|].
  unfold RemovePair_cpp at 2. by rewrite remove_loop_filter, IH.
Qed.

Lemma foldl_RemovePair_cdt l currs :
  foldl (λ l curr, RemovePair_cdt l (ToUpper curr)) l currs =
  filter (λ c, existsb (λ curr, String.eqb (cdt_BaseDenom c) (ToUpper curr)) currs = false) l.
Proof.
  rewrite <-(foldl_filter (λ curr c, String.eqb (cdt_BaseDenom c) (ToUpper curr))).
  revert l. induction currs as [|curr currs IH]; intros l; cbn [foldl]; [done|].
  unfold RemovePair_cdt at 2. by rewrite remove_loop_filter, IH.
Qed.

Lemma GetBandFromDenom_Ok rbl denom band :
  GetBandFromDenom rbl denom = Ok band →
  ∃ rb, rb ∈ rbl ∧ ToUpper (rb_SymbolDenom rb) = ToUpper denom ∧ rb_RewardBand rb = band.
Proof.
  induction rbl as [|rb rbl IH]; simpl; [done|].
  destruct (EqualFold denom (rb_SymbolDenom rb)) eqn:Hd.
  - intros [= <-]. apply EqualFold_true in Hd. exists rb. set_solver.
  - intros (rb' & ? & ?)%IH. exists rb'. set_solver.
Qed.

Lemma GetBandFromDenom_app rbl l denom band :
  GetBandFromDenom rbl denom = Ok band → GetBandFromDenom (rbl ++ l) denom = Ok band.
Proof. induction rbl as [|rb rbl IH]; simpl; [done|]. by destruct (EqualFold _ _). Qed.

Lemma GetBandFromDenom_add rbl denom band l :
  ∃ band', GetBandFromDenom (rbl ++ mkRewardBand denom band :: l) denom = Ok band'.
Proof.
  induction rbl as [|rb rbl IH]; simpl.
  - rewrite EqualFold_refl. by eexists.
  - destruct (EqualFold _ _); [by eexists|done].
Qed.

Lemma GetBandFromDenom_app_new rbl denom band l :
  GetBandFromDenom rbl denom = Err ErrNoRewardBand →
  GetBandFromDenom (rbl ++ mkRewardBand denom band :: l) denom = Ok band.
Proof.
  induction rbl as [|rb rbl IH]; simpl.
  - by rewrite EqualFold_refl.
  - by destruct (EqualFold _ _).
Qed.

Lemma DenomList_Contains_app l1 l2 s :
  DenomList_Contains (l1 ++ l2) s = DenomList_Contains l1 s || DenomList_Contains l2 s.
Proof. induction l1 as [|d l1 IH]; simpl; [done|]. by destruct (EqualFold _ _). Qed.

Lemma GetBandFromDenom_missing rbl denom :
  (∀ rb, rb ∈ rbl → ToUpper (rb_SymbolDenom rb) ≠ ToUpper denom) →
  GetBandFromDenom rbl denom = Err ErrNoRewardBand.
Proof.
  induction rbl as [|rb rbl IH]; simpl; [done|]. intros Hall.
  destruct (EqualFold denom (rb_SymbolDenom rb)) eqn:Hd.
  - apply EqualFold_true in Hd. exfalso. apply (Hall rb); [set_solver|done].
  - apply IH. set_solver.
Qed.

#[export] Instance stamp_le_total : Total stamp_le.
Proof.
  intros a b. unfold stamp_le. rewrite (Z.eqb_sym (ps_BlockNum b)).
  destruct (Z.eqb_spec (ps_BlockNum a) (ps_BlockNum b)); [apply (total String.le)|lia].
Qed.

#[export] Instance stamp_le_trans : Transitive stamp_le.
Proof.
  intros a b c. unfold stamp_le.
  destruct (Z.eqb_spec (ps_BlockNum a) (ps_BlockNum b)),
    (Z.eqb_spec (ps_BlockNum b) (ps_BlockNum c)),
    (Z.eqb_spec (ps_BlockNum a) (ps_BlockNum c)); try lia. apply transitivity.
Qed.

#[export] Hint Rewrite DenomList_Contains_Normalize DenomList_Contains_upper Normalize_idemp
  Normalize_length : gostr.

(** An injective rendering, for the witnesses. *)
#[export] Instance Denom_countable : Countable Denom.
Proof.
  apply (inj_countable' (λ d, (BaseDenom d, SymbolDenom d, Exponent d))
    (λ t, mkDenom t.1.1 t.1.2 t.2)).
  by intros [].
Defined.

Fixpoint pos_string (p : positive) : string :=
  match p with
  | xH => "1"
  | xO p' => String "0" (pos_string p')
  | xI p' => String "1" (pos_string p')
  end.

Lemma pos_string_inj p q : pos_string p = pos_string q → p = q.
Proof.
  assert (Hne : ∀ r, pos_string r ≠ EmptyString) by (by intros []).
  revert q. induction p as [p IH|p IH|]; intros [q|q|]; simpl; intros [=]; try naive_solver.
  all: try (by apply Hne in H); try (symmetry in H; by apply Hne in H).
Qed.

Definition pos_Denom : YamlDenom := λ d, pos_string (encode d).

#[export] Instance pos_Denom_laws : YamlDenomLaws pos_Denom.
Proof. intros d1 d2 H%pos_string_inj. by apply (inj encode) in H. Qed.

(** ** Store keys ([keys.go])

    Byte strings.  [address.MustLengthPrefix] is SDK code: the class
    [LengthPrefix], whose [None] is its panic. *)

Abbreviation prefix_byte n := ([ascii_of_N n]) (only parsing).

Definition KeyPrefixExchangeRate : bytes := prefix_byte 1.
Definition KeyPrefixFeederDelegation : bytes := prefix_byte 2.
Definition KeyPrefixMissCounter : bytes := prefix_byte 3.
Definition KeyPrefixAggregateExchangeRatePrevote : bytes := prefix_byte 4.
Definition KeyPrefixAggregateExchangeRateVote : bytes := prefix_byte 5.
Definition KeyPrefixMedian : bytes := prefix_byte 6.
Definition KeyPrefixMedianDeviation : bytes := prefix_byte 7.
Definition KeyPrefixHistoricPrice : bytes := prefix_byte 8.
Definition KeyPrefixValidatorRewardSet : bytes := prefix_byte 9.
Definition KeyPrefixParamUpdatePlan : bytes := prefix_byte 16.
Definition KeyPrefixLastHistoricPriceBlock : bytes := prefix_byte 17.
Definition KeyPrefixAverages : bytes := prefix_byte 18.

Class LengthPrefix := MustLengthPrefix : bytes → option bytes.

(** [[]byte(denom)] and [string(bz)]. *)
Definition byte_slice (s : string) : bytes := String.list_ascii_of_string s.
Definition of_byte_slice (bz : bytes) : string := String.string_of_list_ascii bz.

Definition GetExchangeRateKey (denom : string) : bytes :=
  (([] ++ KeyPrefixExchangeRate) ++ byte_slice denom) ++ [zero_byte].

Section address_keys.
Context `{LengthPrefix}.

Definition GetFeederDelegationKey (v : addr) : outcome bytes :=
  bz ← or_panic (MustLengthPrefix (byte_slice v)); Ok (KeyPrefixFeederDelegation ++ bz).

Definition GetMissCounterKey (v : addr) : outcome bytes :=
  bz ← or_panic (MustLengthPrefix (byte_slice v)); Ok (KeyPrefixMissCounter ++ bz).

Definition GetAggregateExchangeRatePrevoteKey (v : addr) : outcome bytes :=
  bz ← or_panic (MustLengthPrefix (byte_slice v)); Ok (KeyPrefixAggregateExchangeRatePrevote ++ bz).

Definition GetAggregateExchangeRateVoteKey (v : addr) : outcome bytes :=
  bz ← or_panic (MustLengthPrefix (byte_slice v)); Ok (KeyPrefixAggregateExchangeRateVote ++ bz).
End address_keys.

Definition KeyMedian (denom : string) (blockNum : Z) : bytes :=
  ConcatBytes 0 [KeyPrefixMedian; byte_slice denom; UintWithNullPrefix blockNum].

Definition KeyMedianDeviation (denom : string) (blockNum : Z) : bytes :=
  ConcatBytes 0 [KeyPrefixMedianDeviation; byte_slice denom; UintWithNullPrefix blockNum].

Definition KeyHistoricPrice (denom : string) (blockNum : Z) : bytes :=
  ConcatBytes 0 [KeyPrefixHistoricPrice; byte_slice denom; UintWithNullPrefix blockNum].

Definition KeyValidatorRewardSet : bytes := ConcatBytes 0 [KeyPrefixValidatorRewardSet].

Definition KeyParamUpdatePlan (planHeight : Z) : bytes :=
  ConcatBytes 0 [KeyPrefixParamUpdatePlan; UintWithNullPrefix planHeight].

Definition KeyLastHistoricPriceBlock (denom : string) : bytes :=
  ConcatBytes 0 [KeyPrefixLastHistoricPriceBlock; byte_slice denom].

(** [bz[lo:hi]] with Go's bounds check on a slice of full capacity. *)
Definition slice (bz : bytes) (lo hi : Z) : outcome bytes :=
  if (0 <=? lo) && (lo <=? hi) && (hi <=? Z.of_nat (length bz))
  then Ok (take (Z.to_nat (hi - lo)) (drop (Z.to_nat lo) bz)) else Panic.

Definition ParseDenomAndBlockFromKey (key prefix : bytes) : outcome (string * Z) :=
  let n := Z.of_nat (length key) in
  denom ← slice key (Z.of_nat (length prefix)) (n - 9);
  block ← slice key (n - 8) n;
  Ok (of_byte_slice denom, le_value block).

(** ** Lemmas *)

Lemma of_byte_slice_of s : of_byte_slice (byte_slice s) = s.
Proof. apply String.string_of_list_ascii_of_string. Qed.

Lemma slice_mid (a b c : bytes) :
  slice (a ++ b ++ c) (Z.of_nat (length a)) (Z.of_nat (length a + length b)) = Ok b.
Proof.
  unfold slice. rewrite !length_app.
  rewrite !(proj2 (Z.leb_le _ _)) by lia. simpl. f_equal.
  replace (Z.to_nat _) with (length b) by lia. rewrite Nat2Z.id, drop_app_length.
  by rewrite take_app_length.
Qed.

(** Round trip: the store key made of a prefix, a denom and a 64-bit block
    number parses back to the denom and the block, whatever bytes they hold. *)
Theorem Parse_key prefix denom blockNum :
  is_u64 blockNum →
  ParseDenomAndBlockFromKey (ConcatBytes 0 [prefix; byte_slice denom; UintWithNullPrefix blockNum]) prefix
  = Ok (denom, blockNum).
Proof.
  intros Hb. rewrite ConcatBytes_0. cbn [concat]. rewrite app_nil_r.
  unfold ParseDenomAndBlockFromKey.
  assert (length (prefix ++ byte_slice denom ++ UintWithNullPrefix blockNum)
          = length prefix + length (byte_slice denom) + 9)%nat as Hlen.
  { rewrite !length_app, length_UintWithNullPrefix. lia. }
  rewrite Hlen.
  replace (Z.of_nat (length prefix + length (byte_slice denom) + 9) - 9)
    with (Z.of_nat (length prefix + length (byte_slice denom))) by lia.
  rewrite slice_mid. cbn [mbind outcome_bind].
  pose proof (slice_mid (prefix ++ byte_slice denom ++ [zero_byte]) (le_bytes 8 blockNum) []) as Hs.
  rewrite !length_app, length_le_bytes in Hs. cbn [length] in Hs.
  rewrite <-!app_assoc, app_nil_r in Hs. unfold UintWithNullPrefix.
  change ([zero_byte] ++ le_bytes 8 blockNum) with (zero_byte :: le_bytes 8 blockNum) in Hs.
  replace (Z.of_nat (length prefix + length (byte_slice denom) + 9) - 8)
    with (Z.of_nat (length prefix + (length (byte_slice denom) + 1))) by lia.
  replace (length prefix + length (byte_slice denom) + 9)%nat
    with (length prefix + (length (byte_slice denom) + 1) + 8)%nat by lia.
  rewrite Hs. cbn [mbind outcome_bind]. rewrite of_byte_slice_of, le_value_bytes; [done|].
  destruct Hb. split; [done|]. simpl. lia.
Qed.

(** Keys built from distinct prefix bytes never clash. *)
Lemma prefix_disjoint (p q : ascii) (s t : bytes) : p ≠ q → [p] ++ s ≠ [q] ++ t.
Proof. intros Hne [= ?]. done. Qed.
