(* ===== verification/Params.v ===== *)
(** * Params: the module parameters and their validation

    [src/x/oracle/types/params.go] (keys, defaults, [Validate], the field
    validators and [ParamSetPairs]) and [src/x/oracle/types/plan.go].  The
    [switch] statements on key strings dispatch on [key_of_string].  The
    validators take [interface{}] and first check the dynamic type; every
    call in the repository passes a field of the right type, so the model's
    validators take that type and the type-mismatch branch has no model. *)
From S2P Require Import Prelude Util GoStrings Dec Types.
Local Open Scope Z_scope.

(** ** Keys *)

Inductive ParamKey : Type :=
  | KeyVotePeriod
  | KeyVoteThreshold
  | KeyRewardBands
  | KeyRewardDistributionWindow
  | KeyAcceptList
  | KeyMandatoryList
  | KeySlashFraction
  | KeySlashWindow
  | KeyMinValidPerWindow
  | KeyHistoricStampPeriod
  | KeyMedianStampPeriod
  | KeyMaximumPriceStamps
  | KeyMaximumMedianStamps
  | KeyCurrencyPairProviders
  | KeyCurrencyDeviationThresholds
  | KeyUsdcIbcDenom
  | KeySlashingEnabled
  | KeyAveragingWindow.

#[export] Instance ParamKey_eq_dec : EqDecision ParamKey.
Proof. solve_decision. Defined.

Definition key_string (k : ParamKey) : string :=
  match k with
  | KeyVotePeriod => "VotePeriod"
  | KeyVoteThreshold => "VoteThreshold"
  | KeyRewardBands => "RewardBands"
  | KeyRewardDistributionWindow => "RewardDistributionWindow"
  | KeyAcceptList => "AcceptList"
  | KeyMandatoryList => "MandatoryList"
  | KeySlashFraction => "SlashFraction"
  | KeySlashWindow => "SlashWindow"
  | KeyMinValidPerWindow => "MinValidPerWindow"
  | KeyHistoricStampPeriod => "HistoricStampPeriod"
  | KeyMedianStampPeriod => "MedianStampPeriod"
  | KeyMaximumPriceStamps => "MaximumPriceStamps"
  | KeyMaximumMedianStamps => "MaximumMedianStamps"
  | KeyCurrencyPairProviders => "CurrencyPairProviders"
  | KeyCurrencyDeviationThresholds => "CurrencyDeviationThresholds"
  | KeyUsdcIbcDenom => "UsdcIbcDenom"
  | KeySlashingEnabled => "SlashingEnabled"
  | KeyAveragingWindow => "KeyAveragingWindow"
  end.

Definition all_keys : list ParamKey :=
  [KeyVotePeriod; KeyVoteThreshold; KeyRewardBands; KeyRewardDistributionWindow; KeyAcceptList;
   KeyMandatoryList; KeySlashFraction; KeySlashWindow; KeyMinValidPerWindow;
   KeyHistoricStampPeriod; KeyMedianStampPeriod; KeyMaximumPriceStamps; KeyMaximumMedianStamps;
   KeyCurrencyPairProviders; KeyCurrencyDeviationThresholds; KeyUsdcIbcDenom; KeySlashingEnabled;
   KeyAveragingWindow].

(** The case a [switch] on a key string takes; [None] is its default. *)
Definition key_of_string (s : string) : option ParamKey :=
  find (λ k, String.eqb (key_string k) s) all_keys.

Lemma key_of_key_string k : key_of_string (key_string k) = Some k.
Proof. by destruct k. Qed.

Lemma key_string_of_key s k : key_of_string s = Some k → s = key_string k.
Proof.
  unfold key_of_string. intros H%find_some. destruct H as [_ H]. symmetry. by apply String.eqb_eq.
Qed.

(** ** Defaults *)

Definition minVoteThreshold : LegacyDec := LegacyNewDecWithPrec 33 2.
Definition MaxVoteThresholdPrecision : Z := 2.
Definition MaxVoteThresholdMultiplier : Z := 100.

Definition DefaultAcceptList : list Denom :=
  [mkDenom DmDenom DmSymbol DmExponent; mkDenom USDTDenom USDTSymbol USDTExponent;
   mkDenom USDCDenom USDCSymbol USDCExponent].

Definition DefaultMandatoryList : list Denom :=
  [mkDenom DmDenom DmSymbol DmExponent; mkDenom USDTDenom USDTSymbol USDTExponent;
   mkDenom USDCDenom USDCSymbol USDCExponent].

Definition DefaultRewardBands : list RewardBand :=
  [mkRewardBand DmSymbol defaultRewardBand; mkRewardBand USDTSymbol defaultRewardBand;
   mkRewardBand USDCSymbol defaultRewardBand].

Definition DefaultCurrencyPairProviders : list CurrencyPairProvider :=
  [mkCurrencyPairProvider USDTSymbol USDSymbol [] ["coinbase"%string];
   mkCurrencyPairProvider USDCSymbol USDTSymbol [] ["mexc"%string];
   mkCurrencyPairProvider DmSymbol USDTSymbol [] ["mexc"%string];
   mkCurrencyPairProvider DmSymbol USDCSymbol [] ["osmosis-icq"%string]].

Definition DefaultCurrencyDeviationThresholds : list CurrencyDeviationThreshold :=
  [mkCurrencyDeviationThreshold DmSymbol "2"; mkCurrencyDeviationThreshold USDTSymbol "2";
   mkCurrencyDeviationThreshold USDCSymbol "2"].

Definition DefaultParams : Params := {|
  VotePeriod := 10;
  VoteThreshold := LegacyNewDecWithPrec 50 2;
  RewardBands := DefaultRewardBands;
  RewardDistributionWindow := BlocksPerYear;
  AcceptList := DefaultAcceptList;
  SlashFraction := LegacyNewDecWithPrec 1 4;
  SlashWindow := BlocksPerWeek;
  MinValidPerWindow := LegacyNewDecWithPrec 5 2;
  MandatoryList := DefaultMandatoryList;
  HistoricStampPeriod := BlocksPerMinute * 3;
  MedianStampPeriod := BlocksPerHour * 3;
  MaximumPriceStamps := 60;
  MaximumMedianStamps := 24;
  CurrencyPairProviders := DefaultCurrencyPairProviders;
  CurrencyDeviationThresholds := DefaultCurrencyDeviationThresholds;
  UsdcIbcDenom := "ibc/F5FABF52B54E65064B57BF6DBD8E5FAD22CEE9F4B8A57ADBB20CCD0173AA72A4";
  SlashingEnabled := false;
  AveragingWindow := 3;
|}.

(** ** Field validators *)

Definition invalid_param (b : bool) : outcome unit := fail_if b ErrInvalidParamValue.

Definition validateVotePeriod (v : Z) : outcome unit := invalid_param (v =? 0).

Definition validateVoteThreshold `{DecOps} (v : LegacyDec) : outcome unit :=
  invalid_param ((v <=? minVoteThreshold) || (LegacyOneDec <? v));;
  m ← or_panic (dec_MulInt64 v 100);
  val ← or_panic (dec_TruncateInt64 m);
  let v2 := LegacyNewDecWithPrec val MaxVoteThresholdPrecision in
  invalid_param (negb (v2 =? v)).

Definition validateRewardBand (v : LegacyDec) : outcome unit :=
  invalid_param (v <? 0);; invalid_param (LegacyOneDec <? v).

Definition validateRewardDistributionWindow (v : Z) : outcome unit := invalid_param (v =? 0).

Definition validateDenomList (v : list Denom) : outcome unit :=
  foldM (λ _ d,
    invalid_param (String.eqb (BaseDenom d) "");;
    invalid_param (String.eqb (SymbolDenom d) "")) v tt.

Definition validateRewardBands (v : list RewardBand) : outcome unit :=
  foldM (λ _ d,
    validateRewardBand (rb_RewardBand d);;
    invalid_param (String.eqb (rb_SymbolDenom d) "")) v tt.

Definition validateSlashFraction (v : LegacyDec) : outcome unit :=
  invalid_param (v <? 0);; invalid_param (LegacyOneDec <? v).

Definition validateSlashWindow (v : Z) : outcome unit := invalid_param (v =? 0).

Definition validateMinValidPerWindow (v : LegacyDec) : outcome unit :=
  invalid_param (v <? 0);; invalid_param (LegacyOneDec <? v).

Definition validateHistoricStampPeriod (v : Z) : outcome unit := invalid_param (v <? 1).
Definition validateMedianStampPeriod (v : Z) : outcome unit := invalid_param (v <? 1).
Definition validateMaximumPriceStamps (v : Z) : outcome unit := invalid_param (v <? 1).
Definition validateMaximumMedianStamps (v : Z) : outcome unit := invalid_param (v <? 1).

Definition validateCurrencyPairProviders (v : list CurrencyPairProvider) : outcome unit :=
  foldM (λ _ c,
    invalid_param (String.eqb (cpp_BaseDenom c) "");;
    invalid_param (String.eqb (cpp_QuoteDenom c) "");;
    invalid_param (bool_decide (length (cpp_Providers c) < 1)%nat)) v tt.

Definition validateCurrencyDeviationThresholds (v : list CurrencyDeviationThreshold) : outcome unit :=
  foldM (λ _ c,
    invalid_param (String.eqb (cdt_BaseDenom c) "");;
    invalid_param (String.eqb (cdt_Threshold c) "")) v tt.

(** [validateString] and [validateBool] only check the dynamic type. *)
Definition validateString (v : string) : outcome unit := Ok tt.
Definition validateBool (v : bool) : outcome unit := Ok tt.

Definition validateAveragingWindow (v : Z) : outcome unit := invalid_param (v =? 0).

(** ** [Params.Validate] *)

Section validate.
Context `{DecOps} `{YamlDenom}.

(** The remainders come after the check that [VotePeriod] is not zero. *)
Definition Validate (p : Params) : outcome unit :=
  invalid_param (VotePeriod p =? 0);;
  invalid_param (VoteThreshold p <=? LegacyNewDecWithPrec 33 2);;
  invalid_param (RewardDistributionWindow p <? VotePeriod p);;
  invalid_param ((LegacyOneDec <? SlashFraction p) || (SlashFraction p <? 0));;
  invalid_param (SlashWindow p <? VotePeriod p);;
  sw ← go_rem (SlashWindow p) (VotePeriod p);
  invalid_param (negb (sw =? 0));;
  invalid_param ((LegacyOneDec <? MinValidPerWindow p) || (MinValidPerWindow p <? 0));;
  validateDenomList (AcceptList p);;
  validateDenomList (MandatoryList p);;
  invalid_param (MedianStampPeriod p <? HistoricStampPeriod p);;
  hr ← go_rem (HistoricStampPeriod p) (VotePeriod p);
  mr ← go_rem (MedianStampPeriod p) (VotePeriod p);
  invalid_param (negb (hr =? 0) || negb (mr =? 0));;
  validateRewardBands (RewardBands p);;
  invalid_param (negb (ContainDenoms (AcceptList p) (MandatoryList p)));;
  validateString (UsdcIbcDenom p).

(** The key of each pair with its validator's verdict on the field: what
    [Subspace.SetParamSet] runs before it writes a field. *)
Definition ParamSetPairs (p : Params) : list (ParamKey * outcome unit) :=
  [ (KeyVotePeriod, validateVotePeriod (VotePeriod p));
    (KeyVoteThreshold, validateVoteThreshold (VoteThreshold p));
    (KeyRewardBands, validateRewardBands (RewardBands p));
    (KeyRewardDistributionWindow, validateRewardDistributionWindow (RewardDistributionWindow p));
    (KeyAcceptList, validateDenomList (AcceptList p));
    (KeyMandatoryList, validateDenomList (MandatoryList p));
    (KeySlashFraction, validateSlashFraction (SlashFraction p));
    (KeySlashWindow, validateSlashWindow (SlashWindow p));
    (KeyMinValidPerWindow, validateMinValidPerWindow (MinValidPerWindow p));
    (KeyHistoricStampPeriod, validateHistoricStampPeriod (HistoricStampPeriod p));
    (KeyMedianStampPeriod, validateMedianStampPeriod (MedianStampPeriod p));
    (KeyMaximumPriceStamps, validateMaximumPriceStamps (MaximumPriceStamps p));
    (KeyMaximumMedianStamps, validateMaximumMedianStamps (MaximumMedianStamps p));
    (KeyCurrencyPairProviders, validateCurrencyPairProviders (CurrencyPairProviders p));
    (KeyCurrencyDeviationThresholds,
      validateCurrencyDeviationThresholds (CurrencyDeviationThresholds p));
    (KeyUsdcIbcDenom, validateString (UsdcIbcDenom p));
    (KeySlashingEnabled, validateBool (SlashingEnabled p));
    (KeyAveragingWindow, validateAveragingWindow (AveragingWindow p)) ].

(** ** [types/plan.go] *)

Definition unknown_key : error := Errorf "%s is not an existing oracle param key".

(** One iteration of the loop of [ParamUpdatePlan.ValidateBasic]. *)
Definition plan_validate_key (changes : Params) (key : string) : outcome unit :=
  match key_of_string key with
  | Some KeyVotePeriod => validateVotePeriod (VotePeriod changes)
  | Some KeyVoteThreshold => validateVoteThreshold (VoteThreshold changes)
  | Some KeyRewardBands => validateRewardBands (RewardBands changes)
  | Some KeyRewardDistributionWindow =>
      validateRewardDistributionWindow (RewardDistributionWindow changes)
  | Some KeyAcceptList => validateDenomList (AcceptList changes)
  | Some KeyMandatoryList => validateDenomList (MandatoryList changes)
  | Some KeySlashFraction => validateSlashFraction (SlashFraction changes)
  | Some KeySlashWindow => validateSlashWindow (SlashWindow changes)
  | Some KeyMinValidPerWindow => validateMinValidPerWindow (MinValidPerWindow changes)
  | Some KeyHistoricStampPeriod => validateHistoricStampPeriod (HistoricStampPeriod changes)
  | Some KeyMedianStampPeriod => validateMedianStampPeriod (MedianStampPeriod changes)
  | Some KeyMaximumPriceStamps => validateMaximumPriceStamps (MaximumPriceStamps changes)
  | Some KeyMaximumMedianStamps => validateMaximumMedianStamps (MaximumMedianStamps changes)
  | Some KeyCurrencyPairProviders =>
      validateCurrencyPairProviders (CurrencyPairProviders changes)
  | Some KeyCurrencyDeviationThresholds =>
      validateCurrencyDeviationThresholds (CurrencyDeviationThresholds changes)
  | Some KeyUsdcIbcDenom => validateString (UsdcIbcDenom changes)
  | Some KeySlashingEnabled | Some KeyAveragingWindow | None => Err unknown_key
  end.

Definition plan_ValidateBasic (p : ParamUpdatePlan) : outcome unit :=
  fail_if (plan_Height p <=? 0) ErrInvalidRequest;;
  foldM (λ _ key, plan_validate_key (plan_Changes p) key) (plan_Keys p) tt.

Definition ShouldExecute (p : ParamUpdatePlan) (blockHeight : Z) : bool :=
  plan_Height p =? blockHeight.
End validate.

(** ** Lemmas *)

Lemma invalid_param_Ok b : invalid_param b = Ok tt ↔ b = false.
Proof. by destruct b. Qed.

Lemma foldM_unit {A} (f : A → outcome unit) l :
  foldM (λ _ a, f a) l tt = Ok tt ↔ Forall (λ a, f a = Ok tt) l.
Proof.
  induction l as [|a l IH]; cbn [foldM]; [done|]. rewrite Forall_cons, bind_Ok, <-IH.
  split; [intros ([] & ? & ?)|intros [? ?]; exists tt]; done.
Qed.

(** Peel a chain of checks: [m ;; k] returns a value when both do. *)
Lemma seq_Ok {B} (m : outcome unit) (k : outcome B) b :
  (m ;; k) = Ok b ↔ m = Ok tt ∧ k = Ok b.
Proof. rewrite bind_Ok. split; [intros ([] & ? & ?)|intros [? ?]; exists tt]; done. Qed.

Lemma denom_ok (d : Denom) :
  (invalid_param (String.eqb (BaseDenom d) "");; invalid_param (String.eqb (SymbolDenom d) ""))
    = Ok tt ↔ BaseDenom d ≠ ""%string ∧ SymbolDenom d ≠ ""%string.
Proof. by rewrite seq_Ok, !invalid_param_Ok, !String.eqb_neq. Qed.

Lemma validateDenomList_Ok l :
  validateDenomList l = Ok tt ↔
  Forall (λ d, BaseDenom d ≠ ""%string ∧ SymbolDenom d ≠ ""%string) l.
Proof. unfold validateDenomList. rewrite foldM_unit. apply Forall_proper; [intros d; apply denom_ok|done]. Qed.

Lemma validateDenomList_Normalize l :
  validateDenomList (Normalize l) = Ok tt ↔ validateDenomList l = Ok tt.
Proof.
  rewrite !validateDenomList_Ok. unfold Normalize. rewrite Forall_map.
  apply Forall_proper; [|done]. intros d. simpl. by rewrite ToUpper_empty.
Qed.

Section validate_facts.
Context `{DecLaws} `{YamlDenomLaws}.

(** The conditions [Validate] enforces.  Nothing bounds the threshold from
    above, and the reward window is not a multiple of the vote period. *)
Record valid_params (p : Params) : Prop := {
  vp_period : VotePeriod p ≠ 0;
  vp_threshold : 33 * precision < 100 * VoteThreshold p;
  vp_window : VotePeriod p ≤ RewardDistributionWindow p;
  vp_fraction : 0 ≤ SlashFraction p ≤ precision;
  vp_slash : VotePeriod p ≤ SlashWindow p;
  vp_slash_mult : (VotePeriod p | SlashWindow p);
  vp_min_valid : 0 ≤ MinValidPerWindow p ≤ precision;
  vp_accept : Forall (λ d, BaseDenom d ≠ ""%string ∧ SymbolDenom d ≠ ""%string) (AcceptList p);
  vp_mandatory : Forall (λ d, BaseDenom d ≠ ""%string ∧ SymbolDenom d ≠ ""%string) (MandatoryList p);
  vp_stamps : HistoricStampPeriod p ≤ MedianStampPeriod p;
  vp_historic_mult : (VotePeriod p | HistoricStampPeriod p);
  vp_median_mult : (VotePeriod p | MedianStampPeriod p);
  vp_bands : Forall (λ b, 0 ≤ rb_RewardBand b ≤ precision ∧ rb_SymbolDenom b ≠ ""%string) (RewardBands p);
  vp_subset : MandatoryList p ⊆ AcceptList p;
}.

Lemma validateRewardBands_Ok l :
  validateRewardBands l = Ok tt ↔
  Forall (λ b, 0 ≤ rb_RewardBand b ≤ precision ∧ rb_SymbolDenom b ≠ ""%string) l.
Proof.
  unfold validateRewardBands. rewrite foldM_unit. apply Forall_proper; [|done]. intros b.
  unfold validateRewardBand. rewrite !seq_Ok, !invalid_param_Ok, !Z.ltb_ge, String.eqb_neq. done.
Qed.

Lemma multiples_end vp w h : vp ≠ 0 → (vp | w) → (h + 1) mod w = 0 → (h + 1) mod vp = 0.
Proof.
  intros Hvp Hdiv Hmod. apply Z.mod_divide; [done|]. destruct (decide (w = 0)) as [->|Hw].
  - rewrite Zmod_0_r in Hmod. rewrite Hmod. apply Z.divide_0_r.
  - etrans; [exact Hdiv|]. by apply Z.mod_divide in Hmod.
Qed.

Lemma go_rem_nonzero a b : b ≠ 0 → go_rem a b = Ok (Z.rem a b).
Proof. intros. unfold go_rem. by rewrite (proj2 (Z.eqb_neq b 0)). Qed.

(** C31: [Params.Validate] accepts a set of parameters exactly when the vote
    period is not zero, the threshold is above 33 percent, the reward window is
    at least a vote period, the slash window too and a multiple of it, the
    slash fraction and the minimum of valid votes are between zero and one,
    the historic stamp period is at most the median one and both are multiples
    of the vote period, both denom lists have base and symbol names, the reward
    bands have a name and are between zero and one, and the mandatory denoms
    are on the accept list.  Then the last block of a slash window and of both
    stamp periods, where the counters are reset and the prices stamped, is
    the last block of a voting period, where prices are computed. *)
Theorem Validate_valid p :
  (Validate p = Ok tt ↔ valid_params p) ∧
  (Validate p = Ok tt →
   ∀ h w, w ∈ [SlashWindow p; HistoricStampPeriod p; MedianStampPeriod p] →
     (h + 1) mod w = 0 → (h + 1) mod VotePeriod p = 0).
Proof.
  assert (Validate p = Ok tt ↔ valid_params p) as Hiff.
  { unfold Validate. destruct (Z.eqb_spec (VotePeriod p) 0) as [Hvp|Hvp].
    { split; [done|]. by intros []. }
    rewrite !go_rem_nonzero by done. simpl. rewrite !seq_Ok, !invalid_param_Ok.
    rewrite validateRewardBands_Ok, !validateDenomList_Ok.
    rewrite ?orb_false_iff, ?negb_false_iff, ?Z.leb_gt, ?Z.ltb_ge, ?Z.eqb_eq, ContainDenoms_spec.
    rewrite !Z.rem_divide by done. unfold LegacyOneDec.
    assert (LegacyNewDecWithPrec 33 2 < VoteThreshold p ↔ 33 * precision < 100 * VoteThreshold p) as ->
      by (change (LegacyNewDecWithPrec 33 2) with (33 * 10 ^ 16); unfold precision; lia).
    split; [intros; destruct_and!; by split|intros []; destruct_and!; by split_and!]. }
  split; [done|]. intros Hv%Hiff h w Hw. destruct Hv.
  rewrite !elem_of_cons, elem_of_nil in Hw. destruct Hw as [->|[->|[->|[]]]]; by apply multiples_end.
Qed.

Lemma validateVoteThreshold_range v :
  validateVoteThreshold v = Ok tt → LegacyNewDecWithPrec 33 2 < v ≤ LegacyOneDec.
Proof.
  unfold validateVoteThreshold. intros [Hv _]%seq_Ok.
  apply invalid_param_Ok in Hv. zify_bool. done.
Qed.
End validate_facts.
