(* ===== verification/Wire.v ===== *)
(** * Wire: the protobuf wire format of the generated code

    The [.pb.go] files under [src/x] are generated by protoc-gen-gogo: every
    message has a [Size], a [MarshalToSizedBuffer] that fills a buffer from
    its end, and an [Unmarshal] that walks a slice by an index.  The fragments
    these methods are made of are the definitions of this file, with the
    buffer, the index and the machine integers of the code; the files
    OracleProto, TxProto and MultisigProto compose them per message.

    The last part is a reference encoding of lists of bytes, and what a
    message owes to the messages that embed it: [ProtoLaws].  WireLemmas
    relates the code to it. *)
From S2P Require Import Prelude Util Dec.
Local Open Scope Z_scope.

(** ** Bytes and integers *)

(** [uint8(z)] and the value of a byte. *)
Definition to_byte (z : Z) : ascii := ascii_of_N (Z.to_N (z mod 256)).
Definition byte_val (b : ascii) : Z := Z.of_N (N_of_ascii b).

Definition wrap_u32 (z : Z) : Z := z mod 2 ^ 32.
Definition wrap_i32 (z : Z) : Z := (z + 2 ^ 31) mod 2 ^ 32 - 2 ^ 31.
Definition is_u32 (z : Z) : Prop := 0 ≤ z < 2 ^ 32.
Definition is_i32 (z : Z) : Prop := - 2 ^ 31 ≤ z < 2 ^ 31.

(** [len(x)]. *)
Definition len (bz : bytes) : Z := Z.of_nat (length bz).

Definition ErrInvalidLength : error := Errorf "proto: negative length found during unmarshaling".
Definition ErrIntOverflow : error := Errorf "proto: integer overflow".
Definition ErrUnexpectedEndOfGroup : error := Errorf "proto: unexpected end of group".
Definition ErrUnexpectedEOF : error := Errorf "unexpected EOF".

(** ** Sizes *)

(** [(math_bits.Len64(x|1) + 6) / 7]. *)
Definition sov (x : Z) : Z := (Z.log2 (Z.lor x 1) + 1 + 6) / 7.

(** ** Writers

    The state is the buffer [dAtA] and the index [i] below which it is still
    free.  An index out of range is the panic of the slice operation. *)
Definition W : Type := M (bytes * Z) ().

Definition set_byte (d : bytes) (i : Z) (b : Z) : outcome bytes :=
  if (0 <=? i) && (i <? len d) then Ok (<[Z.to_nat i := to_byte b]> d) else Panic.

(** [dAtA[:n]]. *)
Definition prefix_of (n : Z) (d : bytes) : outcome bytes :=
  if (0 <=? n) && (n <=? len d) then Ok (take (Z.to_nat n) d) else Panic.

(** [for v >= 1<<7 { dAtA[offset] = uint8(v&0x7f | 0x80); ... }]: a [uint64]
    has at most ten groups of seven bits. *)
Fixpoint encodeVarint_loop (fuel : nat) (d : bytes) (offset v : Z) : outcome bytes :=
  match fuel with
  | O => Panic
  | S fuel' =>
      if v <? 128 then set_byte d offset v else
      d' ← set_byte d offset (Z.lor (Z.land v 127) 128);
      encodeVarint_loop fuel' d' (offset + 1) (Z.shiftr v 7)
  end.

Definition encodeVarint (v : Z) : W := λ '(d, i),
  let base := i - sov v in
  match encodeVarint_loop 10 d base v with
  | Ok d' => (Ok (), (d', base))
  | Err e => (Err e, (d, i))
  | Panic => (Panic, (d, i))
  end.

(** [i--; dAtA[i] = b]. *)
Definition put_byte (b : Z) : W := λ '(d, i),
  match set_byte d (i - 1) b with
  | Ok d' => (Ok (), (d', i - 1))
  | Err e => (Err e, (d, i))
  | Panic => (Panic, (d, i))
  end.

(** A tag of one or two bytes, its last byte first. *)
Definition put_tag (tag : list Z) : W := forM put_byte (rev tag).

(** [i -= len(bz); copy(dAtA[i:], bz)]. *)
Definition put_copy (bz : bytes) : W := λ '(d, i),
  let i' := i - len bz in
  if (0 <=? i') && (i' <=? len d) then (Ok (), (copy_at d (Z.to_nat i') bz, i')) else (Panic, (d, i)).

(** The run of a [MarshalToSizedBuffer]: from the end of its buffer; it
    returns [len(dAtA) - i]. *)
Definition to_sized_buffer (w : W) (d : bytes) : outcome (bytes * Z) :=
  match w (d, len d) with
  | (Ok _, (d', i)) => Ok (d', len d' - i)
  | (Err e, _) => Err e
  | (Panic, _) => Panic
  end.

(** [google.protobuf.Any], a type of the SDK: the name of a message type and
    the bytes of a message of it. *)
Record Any := mkAny { TypeUrl : string; Value : bytes }.
#[export] Instance Any_eq_dec : EqDecision Any.
Proof. solve_decision. Defined.

(** ** Messages

    What the code of a message promises to the messages that embed it. *)
Class ProtoMessage (A : Type) := {
  pb_empty : A;
  pb_Size : A → Z;
  pb_MarshalToSizedBuffer : A → bytes → outcome (bytes * Z);
  pb_Unmarshal : A → bytes → outcome A;
}.

(** [Marshal]: [make] panics on a length that an [int] does not hold. *)
Definition pb_Marshal {A} `{ProtoMessage A} (m : A) : outcome bytes :=
  let size := pb_Size m in
  if 2 ^ 63 <=? size then Panic else
  '(dAtA, n) ← pb_MarshalToSizedBuffer m (replicate (Z.to_nat size) zero_byte);
  prefix_of n dAtA.

(** [size, err := m.F.MarshalToSizedBuffer(dAtA[:i]); i -= size;
    i = encodeVarint(dAtA, i, uint64(size)); tag]. *)
Definition put_message {A} `{ProtoMessage A} (tag : list Z) (m : A) : W :=
  (λ '(d, i),
    if (0 <=? i) && (i <=? len d) then
      match pb_MarshalToSizedBuffer m (take (Z.to_nat i) d) with
      | Ok (d', size) => (Ok size, (d' ++ drop (Z.to_nat i) d, i - size))
      | Err e => (Err e, (d, i))
      | Panic => (Panic, (d, i))
      end
    else (Panic, (d, i))) ≫= encodeVarint ;;
  put_tag tag.

(** [for iNdEx := len(m.F) - 1; iNdEx >= 0; iNdEx-- { ... }]. *)
Definition put_messages {A} `{ProtoMessage A} (tag : list Z) (l : list A) : W :=
  forM (put_message tag) (rev l).

Definition put_delimited (tag : list Z) (bz : bytes) : W :=
  put_copy bz ;; encodeVarint (len bz) ;; put_tag tag.

(** [if len(m.F) > 0 { ... }] for strings and byte slices. *)
Definition put_bytes (tag : list Z) (bz : bytes) : W :=
  if 0 <? len bz then put_delimited tag bz else mret ().
Definition put_string (tag : list Z) (s : string) : W := put_bytes tag (String.list_ascii_of_string s).
Definition put_strings (tag : list Z) (l : list string) : W :=
  forM (λ s, put_delimited tag (String.list_ascii_of_string s)) (rev l).

(** [if m.F != 0 { i = encodeVarint(dAtA, i, uint64(m.F)); ... }]. *)
Definition put_varint (tag : list Z) (v : Z) : W :=
  if v =? 0 then mret () else encodeVarint (wrap_u64 v) ;; put_tag tag.

Definition put_bool (tag : list Z) (b : bool) : W :=
  if b then put_byte 1 ;; put_tag tag else mret ().

(** The sizes of the same fields; [k] is the number of tag bytes. *)
Definition size_varint (k v : Z) : Z := if v =? 0 then 0 else k + sov (wrap_u64 v).
Definition size_bool (k : Z) (b : bool) : Z := if b then k + 1 else 0.
Definition size_delimited (k l : Z) : Z := k + l + sov l.
Definition size_bytes (k : Z) (bz : bytes) : Z :=
  if 0 <? len bz then size_delimited k (len bz) else 0.
Definition size_string (k : Z) (s : string) : Z := size_bytes k (String.list_ascii_of_string s).
Definition size_each {A} (size : A → Z) (k : Z) (l : list A) : Z :=
  foldl (λ n e, n + size_delimited k (size e)) 0 l.
Definition size_messages {A} `{ProtoMessage A} (k : Z) (l : list A) : Z := size_each pb_Size k l.
Definition size_strings (k : Z) (l : list string) : Z :=
  size_each (λ s, len (String.list_ascii_of_string s)) k l.

(** *** [LegacyDec] fields

    [LegacyDec] implements the methods of a custom type: [MarshalTo] copies a
    text.  [dec_nil] stands for the value whose integer pointer is nil, the
    zero value of the struct; nothing is assumed of it. *)
Class DecCodec := {
  dec_nil : LegacyDec;
  dec_Size : LegacyDec → Z;
  dec_text : LegacyDec → bytes;
  dec_Unmarshal : LegacyDec → bytes → outcome LegacyDec;
}.

(** [size := m.F.Size(); i -= size; m.F.MarshalTo(dAtA[i:]);
    i = encodeVarint(dAtA, i, uint64(size)); tag]. *)
Definition put_dec `{DecCodec} (tag : list Z) (d : LegacyDec) : W :=
  (λ '(dAtA, i),
    let i' := i - dec_Size d in
    if (0 <=? i') && (i' <=? len dAtA) then (Ok (), (copy_at dAtA (Z.to_nat i') (dec_text d), i'))
    else (Panic, (dAtA, i))) ;;
  encodeVarint (dec_Size d) ;; put_tag tag.

Definition size_dec `{DecCodec} (k : Z) (d : LegacyDec) : Z := size_delimited k (dec_Size d).

(** A pointer to a [LegacyDec]. *)
Definition put_dec_pointer `{DecCodec} (tag : list Z) (d : option LegacyDec) : W :=
  match d with None => mret () | Some d => put_dec tag d end.
Definition size_dec_pointer `{DecCodec} (k : Z) (d : option LegacyDec) : Z :=
  match d with None => 0 | Some d => size_dec k d end.

(** *** Other fields *)

(** A byte slice that the model keeps as a string. *)
Definition put_bytestring (tag : list Z) (s : string) : W := put_string tag s.
Definition size_bytestring (k : Z) (s : string) : Z := size_string k s.
Definition put_bytestrings (tag : list Z) (l : list string) : W := put_strings tag l.
Definition size_bytestrings (k : Z) (l : list string) : Z := size_strings k l.

(** A pointer to a message. *)
Definition put_option {A} `{ProtoMessage A} (tag : list Z) (m : option A) : W :=
  match m with None => mret () | Some m => put_message tag m end.
Definition size_option {A} `{ProtoMessage A} (k : Z) (m : option A) : Z :=
  match m with None => 0 | Some m => size_delimited k (pb_Size m) end.

(** Packed integers are first written to a buffer of ten bytes for each, from
    its start; [j] is the number of bytes in it. *)
Fixpoint packed_varint (fuel : nat) (d : bytes) (j v : Z) : outcome (bytes * Z) :=
  match fuel with
  | O => Panic
  | S fuel' =>
      if v <? 128 then d' ← set_byte d j v; Ok (d', j + 1) else
      d' ← set_byte d j (Z.lor (Z.land v 127) 128);
      packed_varint fuel' d' (j + 1) (Z.shiftr v 7)
  end.
Definition packed_buffer (l : list Z) : outcome (bytes * Z) :=
  foldM (λ '(d, j) num, packed_varint 10 d j (wrap_u64 num)) l (replicate (length l * 10) zero_byte, 0).

Definition put_packed (tag : list Z) (l : list Z) : W :=
  if decide (l = []) then mret () else
  '(d, j) ← lift (packed_buffer l);
  bz ← lift (prefix_of j d);
  put_copy bz ;; encodeVarint (wrap_u64 j) ;; put_tag tag.

Definition size_packed (k : Z) (l : list Z) : Z :=
  if decide (l = []) then 0 else
  let n := foldl (λ n e, n + sov (wrap_u64 e)) 0 l in k + sov n + n.

(** A pointer to a message, [nil] being the nil pointer. *)
Definition put_pointer {A} `{ProtoMessage A, EqDecision A} (nil : A) (tag : list Z) (m : A) : W :=
  if decide (m = nil) then mret () else put_message tag m.
Definition size_pointer {A} `{ProtoMessage A, EqDecision A} (nil : A) (k : Z) (m : A) : Z :=
  if decide (m = nil) then 0 else size_delimited k (pb_Size m).

(** ** Readers

    The slice [dAtA] and the index [iNdEx] into it.  As in Go, indexing the
    slice and slicing it panic out of range: the checks before them are what
    keeps the readers from it.  (Go lets a slice end beyond its length, up to
    its capacity; here that is a panic too, as no reader may rely on it.) *)
Record cursor := mkCursor { iNdEx : Z; dAtA : bytes }.

(** [l := len(dAtA)]. *)
Definition limit (c : cursor) : Z := len (dAtA c).

(** [dAtA[iNdEx]]. *)
Definition byte_at (c : cursor) : outcome ascii :=
  if 0 <=? iNdEx c then or_panic (dAtA c !! Z.to_nat (iNdEx c)) else Panic.

(** [dAtA[iNdEx:postIndex]]. *)
Definition slice_to (postIndex : Z) (c : cursor) : outcome bytes :=
  if (0 <=? iNdEx c) && (iNdEx c <=? postIndex) && (postIndex <=? limit c) then
    Ok (take (Z.to_nat (postIndex - iNdEx c)) (drop (Z.to_nat (iNdEx c)) (dAtA c)))
  else Panic.

(** [iNdEx = i], [iNdEx++] and [iNdEx += n] on an [int]. *)
Definition seek (i : Z) (c : cursor) : cursor := mkCursor i (dAtA c).
Definition next (c : cursor) : cursor := seek (iNdEx c + 1) c.
Definition advance (n : Z) (c : cursor) : cursor := seek (wrap_i64 (iNdEx c + n)) c.

(** [for shift := uint(0); ; shift += 7 { ... v |= T(b&0x7F) << shift ... }]
    with the variable of the type [T] that [conv] converts to.  Every round
    reads a byte: the length of the slice is enough fuel. *)
Fixpoint varint_loop (conv : Z → Z) (fuel : nat) (shift v : Z) (c : cursor) : outcome (Z * cursor) :=
  if 64 <=? shift then Err ErrIntOverflow else
  if limit c <=? iNdEx c then Err ErrUnexpectedEOF else
  match fuel with
  | O => Panic
  | S fuel' =>
      b ← byte_at c;
      let v' := conv (Z.lor v (Z.shiftl (Z.land (byte_val b) 127) shift)) in
      if byte_val b <? 128 then Ok (v', next c)
      else varint_loop conv fuel' (shift + 7) v' (next c)
  end.

Definition read_varint (conv : Z → Z) (c : cursor) : outcome (Z * cursor) :=
  varint_loop conv (length (dAtA c)) 0 0 c.

(** The checks of a length and the slice [dAtA[iNdEx:postIndex]]. *)
Definition read_slice (n : Z) (c : cursor) : outcome (bytes * cursor) :=
  if n <? 0 then Err ErrInvalidLength else
  let postIndex := wrap_i64 (iNdEx c + n) in
  if postIndex <? 0 then Err ErrInvalidLength else
  if limit c <? postIndex then Err ErrUnexpectedEOF else
  bz ← slice_to postIndex c;
  Ok (bz, seek postIndex c).

(** [var msglen int] (and [byteLen]); [var stringLen uint64] and its
    conversion to [int]. *)
Definition read_delimited (c : cursor) : outcome (bytes * cursor) :=
  '(msglen, c') ← read_varint wrap_i64 c; read_slice msglen c'.
Definition read_string (c : cursor) : outcome (bytes * cursor) :=
  '(stringLen, c') ← read_varint wrap_u64 c; read_slice (wrap_i64 stringLen) c'.

(** *** [skip] *)

Fixpoint skip_varint (fuel : nat) (shift : Z) (c : cursor) : outcome cursor :=
  if 64 <=? shift then Err ErrIntOverflow else
  if limit c <=? iNdEx c then Err ErrUnexpectedEOF else
  match fuel with
  | O => Panic
  | S fuel' =>
      b ← byte_at c;
      if byte_val b <? 128 then Ok (next c) else skip_varint fuel' (shift + 7) (next c)
  end.

(** The switch over the wire type: the new depth and index. *)
Definition skip_switch (wireType depth : Z) (c : cursor) : outcome (Z * cursor) :=
  if wireType =? 0 then c' ← skip_varint (length (dAtA c)) 0 c; Ok (depth, c') else
  if wireType =? 1 then Ok (depth, advance 8 c) else
  if wireType =? 2 then
    '(length, c') ← read_varint wrap_i64 c;
    if length <? 0 then Err ErrInvalidLength else Ok (depth, advance length c')
  else
  if wireType =? 3 then Ok (depth + 1, c) else
  if wireType =? 4 then
    if depth =? 0 then Err ErrUnexpectedEndOfGroup else Ok (depth - 1, c)
  else
  if wireType =? 5 then Ok (depth, advance 4 c) else
  Err (Errorf "proto: illegal wireType %d").

Fixpoint skip_loop (fuel : nat) (depth : Z) (c : cursor) : outcome Z :=
  if negb (iNdEx c <? limit c) then Err ErrUnexpectedEOF else
  match fuel with
  | O => Panic
  | S fuel' =>
      '(wire, c1) ← read_varint wrap_u64 c;
      '(depth', c2) ← skip_switch (Z.land wire 7) depth c1;
      if iNdEx c2 <? 0 then Err ErrInvalidLength else
      if depth' =? 0 then Ok (iNdEx c2) else
      skip_loop fuel' depth' c2
  end.

(** Every round of the loop reads a byte at least: the length is enough fuel. *)
Definition skip (bz : bytes) : outcome Z := skip_loop (length bz) 0 (mkCursor 0 bz).

(** *** Fields *)

(** The case of a field: given the wire type, it reads the field into the
    message. *)
Definition field_reader (A : Type) : Type := Z → A → cursor → outcome (A * cursor).

Definition wrong_wireType (field : string) : error :=
  Errorf ("proto: wrong wireType = %d for field " +:+ field).

Definition varint_field {A} (field : string) (conv : Z → Z) (set : A → Z → A) : field_reader A :=
  λ wireType m c,
    if negb (wireType =? 0) then Err (wrong_wireType field) else
    '(v, c') ← read_varint conv c; Ok (set m v, c').

Definition bool_field {A} (field : string) (set : A → bool → A) : field_reader A :=
  varint_field field wrap_i64 (λ m v, set m (negb (v =? 0))).

(** Fields of wire type 2, by what is done with the slice. *)
Definition slice_field {A} (field : string) (read : cursor → outcome (bytes * cursor))
    (set : A → bytes → outcome A) : field_reader A :=
  λ wireType m c,
    if negb (wireType =? 2) then Err (wrong_wireType field) else
    '(bz, c') ← read c; m' ← set m bz; Ok (m', c').

Definition string_field {A} (field : string) (set : A → string → A) : field_reader A :=
  slice_field field read_string (λ m bz, Ok (set m (String.string_of_list_ascii bz))).
Definition bytes_field {A} (field : string) (set : A → bytes → A) : field_reader A :=
  slice_field field read_delimited (λ m bz, Ok (set m bz)).

(** [m.F.Unmarshal(dAtA[iNdEx:postIndex])] on the message that [m] has. *)
Definition message_field {A B} `{ProtoMessage B} (field : string) (get : A → B) (set : A → B → A) :
    field_reader A :=
  slice_field field read_delimited (λ m bz, b ← pb_Unmarshal (get m) bz; Ok (set m b)).

(** [m.F = append(m.F, ...)] for repeated strings, byte slices and messages. *)
Definition strings_field {A} (field : string) (get : A → list string) (set : A → list string → A) :
    field_reader A :=
  slice_field field read_string (λ m bz, Ok (set m (get m ++ [String.string_of_list_ascii bz]))).

(** [m.F = append(m.F, B{}); m.F[len(m.F)-1].Unmarshal(...)]. *)
Definition messages_field {A B} `{ProtoMessage B} (field : string) (get : A → list B)
    (set : A → list B → A) : field_reader A :=
  slice_field field read_delimited
    (λ m bz, b ← pb_Unmarshal pb_empty bz; Ok (set m (get m ++ [b]))).

(** [m.F.Unmarshal(...)] on a [LegacyDec] and on a pointer to a new one. *)
Definition dec_field {A} `{DecCodec} (field : string) (get : A → LegacyDec)
    (set : A → LegacyDec → A) : field_reader A :=
  slice_field field read_string (λ m bz, d ← dec_Unmarshal (get m) bz; Ok (set m d)).
Definition dec_pointer_field {A} `{DecCodec} (field : string) (set : A → option LegacyDec → A) :
    field_reader A :=
  slice_field field read_string (λ m bz, d ← dec_Unmarshal dec_nil bz; Ok (set m (Some d))).

(** [if m.F == nil { m.F = &B{} }; m.F.Unmarshal(...)]. *)
Definition pointer_field {A B} `{ProtoMessage B, EqDecision B} (nil : B) (field : string)
    (get : A → B) (set : A → B → A) : field_reader A :=
  slice_field field read_delimited
    (λ m bz, b ← pb_Unmarshal (if decide (get m = nil) then pb_empty else get m) bz; Ok (set m b)).

Definition bytestring_field {A} (field : string) (set : A → string → A) : field_reader A :=
  slice_field field read_delimited (λ m bz, Ok (set m (String.string_of_list_ascii bz))).
Definition bytestrings_field {A} (field : string) (get : A → list string) (set : A → list string → A) :
    field_reader A :=
  slice_field field read_delimited (λ m bz, Ok (set m (get m ++ [String.string_of_list_ascii bz]))).

Definition option_field {A B} `{ProtoMessage B} (field : string) (get : A → option B)
    (set : A → option B → A) : field_reader A :=
  slice_field field read_delimited
    (λ m bz, b ← pb_Unmarshal (default pb_empty (get m)) bz; Ok (set m (Some b))).

(** [for iNdEx < postIndex { ... }]: an integer that starts before the end of
    the field is read even when it ends after it. *)
Fixpoint packed_loop {A} (conv : Z → Z) (add : A → Z → A) (postIndex : Z) (fuel : nat) (m : A)
    (c : cursor) : outcome (A * cursor) :=
  if iNdEx c <? postIndex then
    match fuel with
    | O => Panic
    | S fuel' => '(v, c') ← read_varint conv c; packed_loop conv add postIndex fuel' (add m v) c'
    end
  else Ok (m, c).

(** Repeated integers are read one by one or packed; the slice of the packed
    ones is read a first time to count them, for the capacity of the list. *)
Definition packed_field {A} (field : string) (conv : Z → Z) (get : A → list Z)
    (set : A → list Z → A) : field_reader A :=
  let add m v := set m (get m ++ [v]) in
  λ wireType m c,
    if wireType =? 0 then '(v, c') ← read_varint conv c; Ok (add m v, c') else
    if wireType =? 2 then
      '(packedLen, c1) ← read_varint wrap_i64 c;
      if packedLen <? 0 then Err ErrInvalidLength else
      let postIndex := wrap_i64 (iNdEx c1 + packedLen) in
      if postIndex <? 0 then Err ErrInvalidLength else
      if limit c1 <? postIndex then Err ErrUnexpectedEOF else
      packed ← slice_to postIndex c1;
      packed_loop conv add postIndex (length packed) m c1
    else Err (wrong_wireType field).

(** *** [Unmarshal]

    The loop skips the fields that it does not know; [unknown] says what it does
    with the slice of their bytes, if it takes it. *)

Section unmarshal.
Context {A : Type} (name : string) (field : Z → option (field_reader A)).
Context (skip_field : bytes → outcome Z) (unknown : A → outcome bytes → outcome A).

(** One round of the loop; [preIndex] is the index of [c]. *)
Definition unmarshal_field (m : A) (c : cursor) : outcome (A * cursor) :=
  '(wire, c1) ← read_varint wrap_u64 c;
  let fieldNum := wrap_i32 (Z.shiftr wire 3) in
  let wireType := Z.land wire 7 in
  if wireType =? 4 then Err (Errorf ("proto: " +:+ name +:+ ": wiretype end group for non-group")) else
  if fieldNum <=? 0 then Err (Errorf ("proto: " +:+ name +:+ ": illegal tag %d (wire type %d)")) else
  match field fieldNum with
  | Some read => read wireType m c1
  | None =>
      bz ← slice_to (limit c) c;
      skippy ← skip_field bz;
      if (skippy <? 0) || (wrap_i64 (iNdEx c + skippy) <? 0) then Err ErrInvalidLength else
      if limit c <? wrap_i64 (iNdEx c + skippy) then Err ErrUnexpectedEOF else
      m' ← unknown m (slice_to (wrap_i64 (iNdEx c + skippy)) c);
      Ok (m', advance skippy c)
  end.

Fixpoint unmarshal_loop (fuel : nat) (m : A) (c : cursor) : outcome A :=
  if iNdEx c <? limit c then
    match fuel with
    | O => Panic
    | S fuel' => '(m', c') ← unmarshal_field m c; unmarshal_loop fuel' m' c'
    end
  else if limit c <? iNdEx c then Err ErrUnexpectedEOF else Ok m.

(** Every round reads a byte at least: the length is enough fuel. *)
Definition unmarshal (m : A) (bz : bytes) : outcome A :=
  unmarshal_loop (length bz) m (mkCursor 0 bz).
End unmarshal.

(** The methods of a message, from its zero value, its size, its writer and
    the table of its fields: unknown fields are dropped. *)
Definition message {A} (name : string) (empty : A) (size : A → Z) (writer : A → W)
    (field : Z → option (field_reader A)) : ProtoMessage A := {|
  pb_empty := empty;
  pb_Size := size;
  pb_MarshalToSizedBuffer m := to_sized_buffer (writer m);
  pb_Unmarshal := unmarshal name field skip (λ m _, Ok m);
|}.

(** ** The reference encoding *)

Fixpoint varint_fuel (fuel : nat) (v : Z) : bytes :=
  match fuel with
  | O => []
  | S fuel' =>
      if v <? 128 then [to_byte v] else
      to_byte (Z.lor (Z.land v 127) 128) :: varint_fuel fuel' (Z.shiftr v 7)
  end.
Definition varint (v : Z) : bytes := varint_fuel (Z.to_nat (sov v)) v.

Definition tag_bytes (tag : list Z) : bytes := map to_byte tag.

Definition enc_varint (tag : list Z) (v : Z) : bytes :=
  if v =? 0 then [] else tag_bytes tag ++ varint (wrap_u64 v).
Definition enc_bool (tag : list Z) (b : bool) : bytes :=
  if b then tag_bytes tag ++ [to_byte 1] else [].
Definition enc_delimited (tag : list Z) (bz : bytes) : bytes :=
  tag_bytes tag ++ varint (len bz) ++ bz.
Definition enc_bytes (tag : list Z) (bz : bytes) : bytes :=
  if 0 <? len bz then enc_delimited tag bz else [].
Definition enc_string (tag : list Z) (s : string) : bytes := enc_bytes tag (String.list_ascii_of_string s).
Definition enc_each {A} (encode : A → bytes) (tag : list Z) (l : list A) : bytes :=
  concat (map (λ a, enc_delimited tag (encode a)) l).
Definition enc_strings (tag : list Z) (l : list string) : bytes := enc_each String.list_ascii_of_string tag l.
Definition enc_bytestring (tag : list Z) (s : string) : bytes := enc_string tag s.
Definition enc_bytestrings (tag : list Z) (l : list string) : bytes := enc_strings tag l.
Definition packed_bytes (l : list Z) : bytes := concat (map (λ v, varint (wrap_u64 v)) l).
Definition enc_packed (tag : list Z) (l : list Z) : bytes :=
  if decide (l = []) then [] else enc_delimited tag (packed_bytes l).

(** A decimal is the text of its integer: it can be read back when it is not
    nil and not too large. *)
Class DecCodecLaws `{DecCodec} := {
  dec_ok : LegacyDec → Prop;
  dec_Size_text d : dec_Size d = len (dec_text d);
  dec_Unmarshal_text d old : dec_ok d → dec_Unmarshal old (dec_text d) = Ok d;
  dec_Unmarshal_total old bz : dec_Unmarshal old bz ≠ Panic;
}.

Definition enc_dec `{DecCodec} (tag : list Z) (d : LegacyDec) : bytes := enc_delimited tag (dec_text d).
Definition enc_dec_pointer `{DecCodec} (tag : list Z) (d : option LegacyDec) : bytes :=
  match d with None => [] | Some d => enc_dec tag d end.
Definition dec_pointer_ok `{DecCodecLaws} (d : option LegacyDec) : Prop :=
  match d with None => True | Some d => dec_ok d end.

(** What a message owes to those that embed it: its writer fills a buffer with
    a reference encoding of [Size] bytes, which its reader reads back, for the
    values [pb_ok] whose integers fit their types. *)
Class ProtoLaws (A : Type) `{ProtoMessage A} := {
  pb_encode : A → bytes;
  pb_ok : A → Prop;
  pb_Size_encode m : pb_Size m = len (pb_encode m);
  pb_MarshalToSizedBuffer_encode m d :
    len (pb_encode m) ≤ len d → len d < 2 ^ 63 →
    pb_MarshalToSizedBuffer m d =
      Ok (take (length d - length (pb_encode m)) d ++ pb_encode m, len (pb_encode m));
  pb_Unmarshal_encode m :
    pb_ok m → len (pb_encode m) < 2 ^ 63 → pb_Unmarshal pb_empty (pb_encode m) = Ok m;
  pb_Unmarshal_total m dAtA : len dAtA < 2 ^ 63 → pb_Unmarshal m dAtA ≠ Panic;
}.

(** The field number of a tag of one or two bytes. *)
Definition tag_field (tag : list Z) : Z :=
  match tag with
  | [b] => b / 8
  | [b1; b2] => (b1 - 128 + 128 * b2) / 8
  | _ => 0
  end.

Section embedded.
Context {A : Type} `{ProtoLaws A}.

Definition enc_message (tag : list Z) (m : A) : bytes := enc_delimited tag (pb_encode m).
Definition enc_messages (tag : list Z) (l : list A) : bytes := enc_each pb_encode tag l.
Definition enc_option (tag : list Z) (m : option A) : bytes :=
  match m with None => [] | Some m => enc_message tag m end.
Definition enc_pointer `{EqDecision A} (nil : A) (tag : list Z) (m : A) : bytes :=
  if decide (m = nil) then [] else enc_message tag m.
End embedded.
