(* ===== verification/WireLemmas.v ===== *)
(** * WireLemmas: the generated fragments against the reference encoding

    [writes] relates a writer of Wire to the bytes it puts into a buffer,
    [parses] a loop of [Unmarshal] to the bytes it goes over; a lemma per kind
    of field, found by [auto with wire] and composed by [writes_seq] and
    [parses_app].  The last part shows that no reader panics or runs out of
    fuel ([unmarshal_total]). *)
From S2P Require Import Prelude Util Dec Wire.
Local Open Scope Z_scope.

Create HintDb wire.

(** ** Writers

    [writes w bz]: with enough room below the index, [w] puts [bz] there and
    nothing else. *)
Definition writes (w : W) (bz : bytes) : Prop := ∀ junk out : bytes,
  (length bz ≤ length junk)%nat → len junk < 2 ^ 63 →
  w (junk ++ out, len junk) =
    (Ok (), (take (length junk - length bz) junk ++ bz ++ out, len junk - len bz)).

Lemma len_nonneg bz : 0 ≤ len bz. Proof. unfold len. lia. Qed.
Lemma len_app (a b : bytes) : len (a ++ b) = len a + len b.
Proof. unfold len. rewrite length_app. lia. Qed.
Lemma len_nil : len [] = 0. Proof. done. Qed.
Lemma len_cons b (bz : bytes) : len (b :: bz) = 1 + len bz.
Proof. unfold len. simpl length. lia. Qed.
#[export] Hint Rewrite len_app len_nil len_cons : wire.

Lemma writes_ret : writes (mret ()) [].
Proof. intros junk out _ _. unfold_M. simpl. rewrite Nat.sub_0_r, firstn_all, Z.sub_0_r. done. Qed.

Lemma writes_seq w1 w2 b1 b2 : writes w1 b1 → writes w2 b2 → writes (w1 ;; w2) (b2 ++ b1).
Proof.
  intros H1 H2 junk out Hl Hj. rewrite length_app in Hl.
  unfold mbind, M_bind. rewrite (H1 junk out) by (done || lia).
  assert (len junk - len b1 = len (take (length junk - length b1) junk)) as ->
    by (unfold len; rewrite length_take; lia).
  rewrite H2 by (unfold len in *; rewrite length_take; lia). f_equal. f_equal.
  - rewrite length_take, take_take, <- app_assoc, length_app. do 2 f_equal. lia.
  - unfold len. rewrite length_take, length_app. lia.
Qed.

Lemma set_byte_in d i b :
  0 ≤ i < len d → set_byte d i b = Ok (take (Z.to_nat i) d ++ to_byte b :: drop (S (Z.to_nat i)) d).
Proof.
  intros [? ?]. unfold set_byte. rewrite (proj2 (Z.leb_le _ _)), (proj2 (Z.ltb_lt _ _)) by done.
  simpl. f_equal. apply insert_take_drop. unfold len in *. lia.
Qed.

Lemma writes_byte b : writes (put_byte b) [to_byte b].
Proof.
  intros junk out Hl _. simpl in Hl. unfold put_byte.
  rewrite set_byte_in by (autorewrite with wire; unfold len in *; lia).
  rewrite len_cons, len_nil.
  assert (Z.to_nat (len junk - 1) = length junk - 1)%nat as -> by (unfold len; lia).
  rewrite take_app_le by lia. simpl length. simpl.
  by rewrite (drop_app_length' junk out (S (length junk - 1))) by lia.
Qed.

Lemma writes_forM {A} (w : A → W) (enc : A → bytes) (l : list A) :
  (∀ a, writes (w a) (enc a)) → writes (forM w (rev l)) (concat (map enc l)).
Proof.
  intros Hw. induction l as [|a l IH] using rev_ind; [apply writes_ret|].
  rewrite rev_unit, map_app, concat_app. simpl forM. simpl concat. rewrite app_nil_r.
  by apply writes_seq.
Qed.

Lemma writes_tag tag : writes (put_tag tag) (tag_bytes tag).
Proof.
  unfold put_tag, tag_bytes.
  assert (map to_byte tag = concat (map (λ b, [to_byte b]) tag)) as ->
    by (induction tag; simpl; congruence).
  apply writes_forM. intros. apply writes_byte.
Qed.

Lemma writes_copy bz : writes (put_copy bz) bz.
Proof.
  intros junk out Hl _. unfold put_copy.
  rewrite (proj2 (Z.leb_le _ _)), (proj2 (Z.leb_le _ _))
    by (autorewrite with wire; unfold len in *; lia).
  simpl. do 3 f_equal.
  assert (Z.to_nat (len junk - len bz) = length junk - length bz)%nat as -> by (unfold len; lia).
  unfold copy_at. rewrite take_app_le by lia. f_equal. rewrite length_app.
  rewrite (take_ge bz) by lia. f_equal.
  replace (length junk - length bz + length bz)%nat with (length junk) by lia.
  apply drop_app_length.
Qed.

Lemma shiftr7_range (fuel : nat) v :
  128 ≤ v → 0 ≤ v < 2 ^ (7 * Z.of_nat (S fuel)) →
  fuel ≠ O ∧ 0 ≤ Z.shiftr v 7 < 2 ^ (7 * Z.of_nat fuel) ∧ 0 < Z.shiftr v 7.
Proof.
  intros Hs Hv. assert (0 < Z.shiftr v 7 < 2 ^ (7 * Z.of_nat fuel)) as H.
  { rewrite Z.shiftr_div_pow2 by lia. split; [apply Z.div_str_pos; simpl; lia|].
    apply Z.div_lt_upper_bound; [lia|].
    rewrite <- Z.pow_add_r by lia. eapply Z.lt_le_trans; [apply Hv|].
    apply Z.pow_le_mono_r; lia. }
  split; [|lia]. intros ->. simpl in H. lia.
Qed.

Lemma length_varint_fuel fuel v :
  fuel ≠ O → 0 ≤ v < 2 ^ (7 * Z.of_nat fuel) → len (varint_fuel fuel v) = sov v.
Proof.
  revert v. induction fuel as [|fuel IH]; intros v Hf Hv; [done|]. simpl.
  destruct (Z.ltb_spec v 128) as [Hs|Hs].
  - unfold sov. rewrite len_cons, len_nil, Z.log2_lor by lia.
    assert (Z.log2 v ≤ 6) by (destruct (Z.eq_dec v 0) as [->|]; [done|];
      apply Z.lt_succ_r, Z.log2_lt_pow2; simpl; lia).
    change (Z.log2 1) with 0. pose proof (Z.log2_nonneg v).
    rewrite Z.max_l by lia. apply Z.div_unique with (Z.log2 v); lia.
  - destruct (shiftr7_range fuel v Hs Hv) as (? & ? & ?).
    rewrite len_cons, IH by done. unfold sov. rewrite !Z.log2_lor by lia. change (Z.log2 1) with 0.
    rewrite !Z.max_l by apply Z.log2_nonneg. rewrite Z.log2_shiftr by lia.
    assert (7 ≤ Z.log2 v) by (apply Z.log2_le_pow2; simpl; lia).
    rewrite Z.max_r by lia.
    replace (Z.log2 v + 1 + 6) with (Z.log2 v - 7 + 1 + 6 + 1 * 7) by lia.
    rewrite Z.div_add by lia. lia.
Qed.

Lemma varint_fuel_enough f f' v :
  f ≠ O → f' ≠ O → 0 ≤ v < 2 ^ (7 * Z.of_nat f) → v < 2 ^ (7 * Z.of_nat f') →
  varint_fuel f v = varint_fuel f' v.
Proof.
  revert f' v. induction f as [|f IH]; intros [|f'] v Hf Hf' Hv Hv'; try done. simpl.
  destruct (Z.ltb_spec v 128) as [|Hs]; [done|].
  destruct (shiftr7_range f v Hs Hv) as (? & ? & ?).
  destruct (shiftr7_range f' v Hs) as (? & [??] & ?); [lia|].
  f_equal. by apply IH.
Qed.

Lemma sov_pos v : 0 ≤ v → 0 < sov v ∧ v < 2 ^ (7 * sov v).
Proof.
  intros Hv. unfold sov.
  pose proof (Z.log2_nonneg (Z.lor v 1)). set (n := Z.log2 (Z.lor v 1)) in *.
  assert (v ≤ Z.lor v 1) as Hle.
  { destruct (Z.eq_dec v 0) as [->|]; [done|].
    assert (Z.lor v 1 = v + Z.ldiff 1 v) as ->.
    { symmetry. rewrite Z.add_nocarry_lxor.
      - apply Z.bits_inj'; intros k Hk. rewrite Z.lxor_spec, Z.lor_spec, Z.ldiff_spec.
        by destruct (Z.testbit v k), (Z.testbit 1 k).
      - apply Z.bits_inj'; intros k Hk. rewrite Z.land_spec, Z.ldiff_spec, Z.bits_0.
        by destruct (Z.testbit v k), (Z.testbit 1 k). }
    pose proof (proj2 (Z.ldiff_nonneg 1 v)). lia. }
  pose proof (Z.div_mod (n + 1 + 6) 7). pose proof (Z.mod_pos_bound (n + 1 + 6) 7).
  split; [lia|].
  eapply Z.le_lt_trans; [apply Hle|].
  destruct (Z.log2_spec (Z.lor v 1)) as [_ Hlt]; [|].
  { assert (Z.lor v 1 ≠ 0) by (intros E; apply Z.lor_eq_0_iff in E; lia). lia. }
  fold n in Hlt. eapply Z.lt_le_trans; [apply Hlt|]. apply Z.pow_le_mono_r; lia.
Qed.

Lemma length_varint v : 0 ≤ v → len (varint v) = sov v.
Proof.
  intros Hv. destruct (sov_pos v Hv). apply length_varint_fuel; [lia|]. rewrite Z2Nat.id; lia.
Qed.

Lemma varint_fuel_u64 v : is_u64 v → varint_fuel 10 v = varint v.
Proof.
  intros [? ?]. destruct (sov_pos v); [done|].
  apply varint_fuel_enough; [done|lia|simpl Z.of_nat; lia|rewrite Z2Nat.id; lia].
Qed.

Lemma encodeVarint_loop_spec fuel d (k : nat) v :
  fuel ≠ O → 0 ≤ v < 2 ^ (7 * Z.of_nat fuel) →
  (k + length (varint_fuel fuel v) ≤ length d)%nat →
  encodeVarint_loop fuel d (Z.of_nat k) v =
    Ok (take k d ++ varint_fuel fuel v ++ drop (k + length (varint_fuel fuel v)) d).
Proof.
  revert d k v. induction fuel as [|fuel IH]; intros d k v Hf Hv; [done|]. simpl.
  destruct (Z.ltb_spec v 128) as [Hs|Hs]; simpl length; intros Hk.
  - rewrite set_byte_in by (unfold len; lia). rewrite Nat2Z.id.
    by replace (k + 1)%nat with (S k) by lia.
  - rewrite set_byte_in by (unfold len; lia). rewrite Nat2Z.id. simpl.
    set (b := to_byte _).
    replace (Z.of_nat k + 1) with (Z.of_nat (S k)) by lia.
    assert (length (take k d) = k) as Htk by (rewrite length_take; lia).
    destruct (shiftr7_range fuel v Hs Hv) as (? & ? & ?).
    rewrite IH by (try done; rewrite length_app; simpl; rewrite length_drop; lia).
    set (n := length (varint_fuel fuel (Z.shiftr v 7))) in *.
    replace (S k) with (length (take k d) + 1)%nat by lia. rewrite take_app_add.
    rewrite <- Nat.add_assoc, drop_app_add. simpl. rewrite drop_drop, Htk.
    rewrite take_0, <- app_assoc. simpl. by replace (k + 1 + n)%nat with (k + S n)%nat by lia.
Qed.

Lemma writes_encodeVarint v : is_u64 v → writes (encodeVarint v) (varint v).
Proof.
  intros Hv junk out Hl _. unfold encodeVarint.
  assert (len junk - sov v = Z.of_nat (length junk - length (varint v))) as Hb
    by (destruct Hv; rewrite <- length_varint by done; unfold len; lia).
  rewrite Hb, encodeVarint_loop_spec; rewrite ?varint_fuel_u64 by done;
    [|done|unfold is_u64 in Hv; simpl Z.of_nat; lia|rewrite length_app; lia].
  rewrite take_app_le by lia.
  replace (length junk - length (varint v) + length (varint v))%nat with (length junk) by lia.
  rewrite drop_app_length. do 3 f_equal. unfold len; lia.
Qed.

Lemma writes_bound w bz : (len bz < 2 ^ 63 → writes w bz) → writes w bz.
Proof. intros H junk out Hl Hj. apply H; unfold len in *; lia. Qed.

Lemma writes_delimited tag bz : writes (put_delimited tag bz) (enc_delimited tag bz).
Proof.
  apply writes_bound. intros Hl. unfold enc_delimited in *. autorewrite with wire in Hl.
  pose proof (len_nonneg bz). pose proof (len_nonneg (tag_bytes tag)).
  pose proof (len_nonneg (varint (len bz))). unfold put_delimited.
  rewrite app_assoc. apply writes_seq; [apply writes_copy|].
  apply writes_seq; [|apply writes_tag]. apply writes_encodeVarint. unfold is_u64. lia.
Qed.

Lemma writes_bytes tag bz : writes (put_bytes tag bz) (enc_bytes tag bz).
Proof.
  unfold put_bytes, enc_bytes. case_match; [apply writes_delimited|apply writes_ret].
Qed.
Lemma writes_string tag s : writes (put_string tag s) (enc_string tag s).
Proof. apply writes_bytes. Qed.
Lemma writes_strings tag l : writes (put_strings tag l) (enc_strings tag l).
Proof. apply writes_forM. intros. apply writes_delimited. Qed.
Lemma writes_varint tag v : writes (put_varint tag v) (enc_varint tag v).
Proof.
  unfold put_varint, enc_varint. case_match; [apply writes_ret|].
  apply writes_seq; [apply writes_encodeVarint, wrap_u64_range|apply writes_tag].
Qed.

Lemma writes_bool tag b : writes (put_bool tag b) (enc_bool tag b).
Proof.
  destruct b; [|apply writes_ret]. apply writes_seq; [apply writes_byte|apply writes_tag].
Qed.

Section messages.
Context {A : Type} `{ProtoLaws A}.

Lemma writes_message tag (m : A) : writes (put_message tag m) (enc_message tag m).
Proof.
  intros junk out Hl Hj. unfold put_message.
  unfold mbind at 2, M_bind at 2. unfold mbind at 1, M_bind at 1.
  pose proof (len_nonneg junk). pose proof (len_nonneg out).
  rewrite (proj2 (Z.leb_le 0 _)), (proj2 (Z.leb_le _ _)) by (autorewrite with wire; lia). simpl.
  unfold enc_message, enc_delimited in Hl. rewrite !length_app in Hl.
  assert (Z.to_nat (len junk) = length junk) as Hn by (unfold len; lia).
  rewrite Hn, take_app_length, drop_app_length.
  rewrite pb_MarshalToSizedBuffer_encode by (unfold len in *; lia).
  rewrite <- app_assoc.
  set (e := pb_encode m) in *. set (j := take (length junk - length e) junk).
  assert (len j = len junk - len e) as Hj' by (unfold len, j; rewrite length_take; lia).
  assert (length j = length junk - length e)%nat as Hj'' by (unfold len, j; rewrite length_take; lia).
  rewrite <- Hj'.
  assert (writes (encodeVarint (len e) ;; put_tag tag) (tag_bytes tag ++ varint (len e))) as Hw.
  { apply writes_seq; [apply writes_encodeVarint; unfold is_u64, len in *; lia|apply writes_tag]. }
  specialize (Hw j (e ++ out)). unfold mbind, M_bind in Hw.
  rewrite Hw by (rewrite ?length_app; unfold len in *; lia).
  unfold enc_message, enc_delimited. f_equal. f_equal.
  - unfold j. rewrite take_take, length_take, !length_app, <- !app_assoc. f_equal.
    fold e. f_equal. lia.
  - autorewrite with wire. fold e. lia.
Qed.

Lemma writes_messages tag (l : list A) : writes (put_messages tag l) (enc_messages tag l).
Proof. apply writes_forM. intros. apply writes_message. Qed.
End messages.

#[export] Hint Resolve writes_ret writes_seq writes_bytes writes_string writes_strings
  writes_varint writes_bool writes_delimited writes_message writes_messages : wire.

Lemma writes_dec `{DecCodecLaws} tag d : writes (put_dec tag d) (enc_dec tag d).
Proof.
  intros junk out Hl Hj. unfold enc_dec in *.
  rewrite <- (writes_delimited tag (dec_text d) junk out) by done.
  unfold put_dec, put_delimited, put_copy. unfold mbind, M_bind. by rewrite dec_Size_text.
Qed.
Lemma writes_dec_pointer `{DecCodecLaws} tag d : writes (put_dec_pointer tag d) (enc_dec_pointer tag d).
Proof. destruct d; [apply writes_dec|apply writes_ret]. Qed.
Lemma writes_pointer {A} `{ProtoLaws A, EqDecision A} nil tag (m : A) :
  writes (put_pointer nil tag m) (enc_pointer nil tag m).
Proof. unfold put_pointer, enc_pointer. case_decide; [apply writes_ret|apply writes_message]. Qed.
#[export] Hint Resolve writes_dec writes_dec_pointer writes_pointer : wire.

Lemma writes_bytestring tag s : writes (put_bytestring tag s) (enc_bytestring tag s).
Proof. apply writes_string. Qed.
Lemma writes_bytestrings tag l : writes (put_bytestrings tag l) (enc_bytestrings tag l).
Proof. apply writes_strings. Qed.
Lemma writes_option {A} `{ProtoLaws A} tag (m : option A) :
  writes (put_option tag m) (enc_option tag m).
Proof. destruct m; [apply writes_message|apply writes_ret]. Qed.

(** Packed integers: the buffer holds the integers one after the other. *)
Lemma packed_varint_spec fuel d (j : nat) v :
  fuel ≠ O → 0 ≤ v < 2 ^ (7 * Z.of_nat fuel) → (j + length (varint_fuel fuel v) ≤ length d)%nat →
  packed_varint fuel d (Z.of_nat j) v =
    Ok (take j d ++ varint_fuel fuel v ++ drop (j + length (varint_fuel fuel v)) d,
        Z.of_nat (j + length (varint_fuel fuel v))).
Proof.
  intros Hf Hv Hj.
  assert (∀ d' j', encodeVarint_loop fuel d (Z.of_nat j) v = Ok d' →
    j' = Z.of_nat j + len (varint_fuel fuel v) → packed_varint fuel d (Z.of_nat j) v = Ok (d', j')) as H.
  { clear Hj. revert d v Hf Hv. generalize (Z.of_nat j) as i. induction fuel as [|fuel IH]; intros i d v Hf Hv;
      [done|]. simpl. destruct (Z.ltb_spec v 128) as [Hs|Hs]; intros d' j'.
    - intros -> ->. done.
    - destruct (set_byte _ _ _) as [d1| |]; [|done..]. simpl. intros He ->.
      destruct (shiftr7_range fuel v Hs Hv) as (? & ? & _). apply IH; [done..|]. rewrite len_cons. lia. }
  apply H; [by apply encodeVarint_loop_spec|]. unfold len. lia.
Qed.

Lemma varint_short v : is_u64 v → (length (varint v) ≤ 10)%nat.
Proof.
  intros Hv. rewrite <- varint_fuel_u64 by done. clear Hv. generalize 10%nat as fuel. intros fuel.
  revert v. induction fuel as [|fuel IH]; intros v; simpl; [lia|]. case_match; simpl; [lia|].
  specialize (IH (Z.shiftr v 7)). lia.
Qed.

(** Integers written one after the other from an index on, with room for them. *)
Lemma packed_fold_spec l d (j : nat) :
  (j + length (packed_bytes l) ≤ length d)%nat →
  foldM (λ '(d, j) num, packed_varint 10 d j (wrap_u64 num)) l (d, Z.of_nat j) =
    Ok (take j d ++ packed_bytes l ++ drop (j + length (packed_bytes l)) d,
        Z.of_nat (j + length (packed_bytes l))).
Proof.
  revert d j. induction l as [|v l IH]; intros d j Hl.
  - simpl. rewrite Nat.add_0_r. by rewrite take_drop.
  - pose proof (wrap_u64_range v) as Hv.
    unfold packed_bytes in *. cbn [foldM map concat] in *. rewrite length_app in *.
    rewrite packed_varint_spec; rewrite ?varint_fuel_u64 by done;
      [|done|unfold is_u64 in Hv; simpl Z.of_nat; lia|lia].
    cbn [mbind outcome_bind]. set (w := varint (wrap_u64 v)) in *. set (p := concat _) in *.
    assert (length (take j d) = j) as Htk by (rewrite length_take; lia).
    rewrite IH by (rewrite !length_app, Htk, length_drop; lia). fold p. f_equal. f_equal; [|lia].
    rewrite <- Htk at 1. rewrite take_app_add, take_app_length, <- !app_assoc. do 3 f_equal.
    rewrite !drop_app, drop_drop, Htk.
    rewrite drop_ge by (rewrite Htk; lia). rewrite drop_ge by lia. simpl. f_equal. lia.
Qed.

Lemma packed_buffer_spec l :
  ∃ junk, packed_buffer l = Ok (packed_bytes l ++ junk, len (packed_bytes l)).
Proof.
  assert (length (packed_bytes l) ≤ length l * 10)%nat as Hl.
  { unfold packed_bytes. induction l as [|v l IH]; [done|]. cbn [map concat length].
    rewrite length_app. pose proof (varint_short _ (wrap_u64_range v)). lia. }
  eexists. unfold packed_buffer.
  rewrite (packed_fold_spec l _ 0) by (rewrite length_replicate; lia). done.
Qed.

Lemma prefix_of_app (a b : bytes) : prefix_of (len a) (a ++ b) = Ok a.
Proof.
  pose proof (len_nonneg a). pose proof (len_nonneg b). unfold prefix_of.
  rewrite len_app, !(proj2 (Z.leb_le _ _)) by lia. cbn [andb].
  assert (Z.to_nat (len a) = length a) as -> by (unfold len; lia). by rewrite take_app_length.
Qed.

Lemma writes_packed tag l : writes (put_packed tag l) (enc_packed tag l).
Proof.
  unfold put_packed, enc_packed. case_decide; [apply writes_ret|].
  destruct (packed_buffer_spec l) as [junk Hb]. intros j out Hl Hj. rewrite Hb.
  rewrite <- (writes_delimited tag (packed_bytes l) j out) by done.
  unfold lift, mbind, M_bind. rewrite prefix_of_app. unfold put_delimited. unfold enc_delimited in Hl. rewrite !length_app in Hl.
  rewrite wrap_u64_id; [done|]. unfold is_u64. unfold len in *. lia.
Qed.
#[export] Hint Resolve writes_bytestring writes_bytestrings writes_option writes_packed : wire.

(** A writer run from the end of its buffer. *)
Lemma to_sized_buffer_writes w bz d :
  writes w bz → len bz ≤ len d → len d < 2 ^ 63 →
  to_sized_buffer w d = Ok (take (length d - length bz) d ++ bz, len bz).
Proof.
  intros Hw Hl Hd. unfold to_sized_buffer. specialize (Hw d []). rewrite app_nil_r in Hw.
  rewrite Hw by (unfold len in *; lia). rewrite app_nil_r. do 2 f_equal.
  rewrite len_app. unfold len in *. rewrite length_take. lia.
Qed.

(** [Marshal] returns the whole encoding. *)
Lemma pb_Marshal_encode {A} `{ProtoLaws A} (m : A) :
  pb_Marshal m = if 2 ^ 63 <=? len (pb_encode m) then Panic else Ok (pb_encode m).
Proof.
  unfold pb_Marshal. rewrite pb_Size_encode.
  destruct (Z.leb_spec (2 ^ 63) (len (pb_encode m))); [done|].
  set (e := pb_encode m) in *. pose proof (len_nonneg e).
  assert (Z.to_nat (len e) = length e) as Hn by (unfold len; lia).
  rewrite pb_MarshalToSizedBuffer_encode; fold e;
    [|unfold len at 2; rewrite length_replicate; lia|unfold len at 1; rewrite length_replicate; lia].
  cbn [mbind outcome_bind]. rewrite length_replicate, Hn, Nat.sub_diag.
  change (take 0 _) with (@nil ascii). pose proof (prefix_of_app e []) as Hp. by rewrite app_nil_r in Hp.
Qed.

(** ** Sizes *)

Lemma len_tag_bytes tag : len (tag_bytes tag) = Z.of_nat (length tag).
Proof. unfold len, tag_bytes. by rewrite length_map. Qed.

Lemma size_varint_len tag v : size_varint (Z.of_nat (length tag)) v = len (enc_varint tag v).
Proof.
  unfold size_varint, enc_varint. case_match; [done|].
  by rewrite len_app, len_tag_bytes, length_varint by apply wrap_u64_range.
Qed.
Lemma size_bool_len tag b : size_bool (Z.of_nat (length tag)) b = len (enc_bool tag b).
Proof. destruct b; [|done]. simpl. by rewrite len_app, len_tag_bytes. Qed.

Lemma size_delimited_len tag bz :
  size_delimited (Z.of_nat (length tag)) (len bz) = len (enc_delimited tag bz).
Proof.
  unfold size_delimited, enc_delimited. autorewrite with wire.
  rewrite len_tag_bytes, length_varint by apply len_nonneg. lia.
Qed.
Lemma size_bytes_len tag bz : size_bytes (Z.of_nat (length tag)) bz = len (enc_bytes tag bz).
Proof. unfold size_bytes, enc_bytes. case_match; [apply size_delimited_len|done]. Qed.
Lemma size_string_len tag s : size_string (Z.of_nat (length tag)) s = len (enc_string tag s).
Proof. apply size_bytes_len. Qed.

Lemma size_each_len {A} (size : A → Z) (encode : A → bytes) tag l :
  (∀ a, size a = len (encode a)) →
  size_each size (Z.of_nat (length tag)) l = len (enc_each encode tag l).
Proof.
  intros Hs. unfold size_each, enc_each.
  assert (∀ n, foldl (λ n e, n + size_delimited (Z.of_nat (length tag)) (size e)) n l =
    n + len (concat (map (λ a, enc_delimited tag (encode a)) l))) as H; [|by rewrite H].
  induction l as [|a l IH]; intros n; simpl; [rewrite len_nil; lia|].
  rewrite IH, Hs, size_delimited_len, len_app. lia.
Qed.
Lemma size_strings_len tag l : size_strings (Z.of_nat (length tag)) l = len (enc_strings tag l).
Proof. by apply size_each_len. Qed.
Lemma size_message_len {A} `{ProtoLaws A} tag (m : A) :
  size_delimited (Z.of_nat (length tag)) (pb_Size m) = len (enc_message tag m).
Proof. rewrite pb_Size_encode. apply size_delimited_len. Qed.
Lemma size_messages_len {A} `{ProtoLaws A} tag (l : list A) :
  size_messages (Z.of_nat (length tag)) l = len (enc_messages tag l).
Proof. apply size_each_len. intros. apply pb_Size_encode. Qed.

Lemma size_dec_len `{DecCodecLaws} tag d :
  size_dec (Z.of_nat (length tag)) d = len (enc_dec tag d).
Proof. unfold size_dec. rewrite dec_Size_text. apply size_delimited_len. Qed.
Lemma size_dec_pointer_len `{DecCodecLaws} tag d :
  size_dec_pointer (Z.of_nat (length tag)) d = len (enc_dec_pointer tag d).
Proof. destruct d; [apply size_dec_len|done]. Qed.
Lemma size_bytestring_len tag s : size_bytestring (Z.of_nat (length tag)) s = len (enc_bytestring tag s).
Proof. apply size_string_len. Qed.
Lemma size_bytestrings_len tag l :
  size_bytestrings (Z.of_nat (length tag)) l = len (enc_bytestrings tag l).
Proof. apply size_strings_len. Qed.
Lemma size_option_len {A} `{ProtoLaws A} tag (m : option A) :
  size_option (Z.of_nat (length tag)) m = len (enc_option tag m).
Proof. destruct m; [apply size_message_len|done]. Qed.
Lemma size_packed_len tag l : size_packed (Z.of_nat (length tag)) l = len (enc_packed tag l).
Proof.
  unfold size_packed, enc_packed. case_decide; [done|].
  assert (∀ n, foldl (λ n e, n + sov (wrap_u64 e)) n l = n + len (packed_bytes l)) as Hn.
  { clear. induction l as [|v l IH]; intros n; unfold packed_bytes; cbn [foldl map concat].
    - rewrite len_nil. lia.
    - rewrite IH. unfold packed_bytes. rewrite len_app, length_varint by apply wrap_u64_range. lia. }
  rewrite Hn, Z.add_0_l, <- size_delimited_len. unfold size_delimited. lia.
Qed.
Lemma size_pointer_len {A} `{ProtoLaws A, EqDecision A} nil tag (m : A) :
  size_pointer nil (Z.of_nat (length tag)) m = len (enc_pointer nil tag m).
Proof. unfold size_pointer, enc_pointer. case_decide; [done|apply size_message_len]. Qed.

(** ** Reading integers *)

Lemma byte_val_range b : 0 ≤ byte_val b < 256.
Proof. unfold byte_val. pose proof (N_ascii_bounded b). lia. Qed.

Lemma byte_val_to_byte z : 0 ≤ z < 256 → byte_val (to_byte z) = z.
Proof.
  intros ?. unfold byte_val, to_byte. rewrite Z.mod_small by lia.
  rewrite N_ascii_embedding by lia. lia.
Qed.

(** A conversion to a machine integer looks at the low bits only. *)
Definition low_bits (conv : Z → Z) : Prop := ∃ w, 0 ≤ w ∧
  conv 0 = 0 ∧
  (∀ a b, a mod 2 ^ w = b mod 2 ^ w → conv a = conv b) ∧
  (∀ a, conv a mod 2 ^ w = a mod 2 ^ w).

Lemma low_bits_unsigned w : 0 ≤ w → low_bits (λ z, z mod 2 ^ w).
Proof. intros. exists w. split_and!; [done|by rewrite Z.mod_0_l by lia|done|]. intros. apply Z.mod_mod. lia. Qed.

Lemma low_bits_signed w : 0 < w → low_bits (λ z, (z + 2 ^ (w - 1)) mod 2 ^ w - 2 ^ (w - 1)).
Proof.
  intros. exists w. split_and!; [lia|rewrite Z.mod_small; [lia|]| |].
  - pose proof (Z.pow_lt_mono_r 2 (w - 1) w). lia.
  - intros a b E. by rewrite <- (Zplus_mod_idemp_l a), E, Zplus_mod_idemp_l.
  - intros a. rewrite Zminus_mod_idemp_l. f_equal. lia.
Qed.

Lemma low_bits_u64 : low_bits wrap_u64. Proof. by apply (low_bits_unsigned 64). Qed.
Lemma low_bits_u32 : low_bits wrap_u32. Proof. by apply (low_bits_unsigned 32). Qed.
Lemma low_bits_i64 : low_bits wrap_i64. Proof. by apply (low_bits_signed 64). Qed.
Lemma low_bits_i32 : low_bits wrap_i32. Proof. by apply (low_bits_signed 32). Qed.
#[export] Hint Resolve low_bits_u64 low_bits_u32 low_bits_i64 low_bits_i32 : wire.

Lemma low_bits_lor conv a x : low_bits conv → conv (Z.lor (conv a) x) = conv (Z.lor a x).
Proof.
  intros (w & Hw & _ & Hlow & Hmod). apply Hlow.
  apply Z.bits_inj'; intros k Hk. destruct (Z.ltb_spec k w).
  - rewrite !Z.mod_pow2_bits_low, !Z.lor_spec by lia. f_equal.
    rewrite <- (Z.mod_pow2_bits_low _ w k), Hmod by lia. by apply Z.mod_pow2_bits_low.
  - by rewrite !Z.mod_pow2_bits_high by lia.
Qed.

Lemma lor_shift acc v shift :
  0 ≤ shift → 0 ≤ acc < 2 ^ shift → 0 ≤ v → Z.lor acc (Z.shiftl v shift) = acc + v * 2 ^ shift.
Proof.
  intros Hs Ha Hv. rewrite <- Z.shiftl_mul_pow2 by done. rewrite Z.add_nocarry_lxor, Z.lxor_lor; [done| |].
  all: apply Z.bits_inj'; intros k Hk; rewrite Z.land_spec, Z.bits_0;
    destruct (Z.ltb_spec k shift);
    [rewrite (Z.shiftl_spec_low v) by lia; apply andb_false_r|
     rewrite <- (Z.mod_small acc (2 ^ shift)), Z.mod_pow2_bits_high by lia; done].
Qed.

Lemma low_byte v : Z.land (Z.lor (Z.land v 127) 128) 127 = v mod 128.
Proof.
  change 127 with (Z.ones 7). change 128 with (2 ^ 7). rewrite !Z.land_ones by lia.
  apply Z.bits_inj'; intros k Hk. destruct (Z.ltb_spec k 7).
  - rewrite Z.mod_pow2_bits_low, Z.lor_spec, Z.pow2_bits_false by lia. apply orb_false_r.
  - by rewrite !Z.mod_pow2_bits_high by lia.
Qed.

Lemma high_byte v : Z.lor (Z.land v 127) 128 = v mod 128 + 128.
Proof.
  change 127 with (Z.ones 7). rewrite Z.land_ones by lia. change (2 ^ 7) with 128.
  change 128 with (Z.shiftl 1 7) at 2. pose proof (Z.mod_pos_bound v 128).
  rewrite lor_shift; simpl; lia.
Qed.

(** The cursor behind [pre] in a slice that goes on with [bz]. *)
Definition at_ (pre bz : bytes) : cursor := mkCursor (len pre) (pre ++ bz).

Lemma seek_at pre bz tail : seek (len pre + len bz) (at_ pre (bz ++ tail)) = at_ (pre ++ bz) tail.
Proof. unfold at_, seek. simpl. by rewrite len_app, <- app_assoc. Qed.

Lemma next_at pre b tail : next (at_ pre (b :: tail)) = at_ (pre ++ [b]) tail.
Proof. apply (seek_at pre [b] tail). Qed.

Lemma advance_at pre bz tail :
  len pre + len bz < 2 ^ 63 → advance (len bz) (at_ pre (bz ++ tail)) = at_ (pre ++ bz) tail.
Proof.
  intros Hl. pose proof (len_nonneg pre). pose proof (len_nonneg bz).
  unfold advance. simpl. rewrite wrap_i64_id by (unfold is_i64; lia). apply seek_at.
Qed.

Lemma limit_at pre bz : limit (at_ pre bz) = len pre + len bz.
Proof. apply len_app. Qed.

Lemma byte_at_at pre b tail : byte_at (at_ pre (b :: tail)) = Ok b.
Proof.
  unfold byte_at, at_. simpl. rewrite (proj2 (Z.leb_le _ _)) by apply len_nonneg.
  unfold len. by rewrite Nat2Z.id, list_lookup_middle.
Qed.

Lemma slice_at pre bz tail : slice_to (len pre + len bz) (at_ pre (bz ++ tail)) = Ok bz.
Proof.
  pose proof (len_nonneg pre). pose proof (len_nonneg bz). pose proof (len_nonneg tail).
  unfold slice_to. rewrite limit_at, len_app. cbn [iNdEx at_ dAtA].
  rewrite !(proj2 (Z.leb_le _ _)) by lia. cbn [andb].
  assert (Z.to_nat (len pre) = length pre) as -> by (unfold len; lia).
  assert (Z.to_nat (len pre + len bz - len pre) = length bz) as -> by (unfold len; lia).
  by rewrite drop_app_length, take_app_length.
Qed.

Lemma slice_at_end pre bz : slice_to (limit (at_ pre bz)) (at_ pre bz) = Ok bz.
Proof. rewrite limit_at. rewrite <- (app_nil_r bz) at 2. apply slice_at. Qed.

Lemma varint_loop_spec conv fuel n shift acc v pre tail :
  low_bits conv → fuel ≠ O → (length (varint_fuel fuel v) ≤ n)%nat →
  0 ≤ v < 2 ^ (7 * Z.of_nat fuel) → 0 ≤ shift < 64 →
  0 ≤ acc < 2 ^ shift → v * 2 ^ shift < 2 ^ 64 →
  varint_loop conv n shift (conv acc) (at_ pre (varint_fuel fuel v ++ tail)) =
    Ok (conv (acc + v * 2 ^ shift), at_ (pre ++ varint_fuel fuel v) tail).
Proof.
  intros Hc. revert n shift acc v pre.
  induction fuel as [|fuel IH]; intros n shift acc v pre Hf Hn Hv Hs Ha Hm; [done|].
  cbn [varint_fuel] in *.
  assert (∀ b bz, (limit (at_ pre (b :: bz)) <=? iNdEx (at_ pre (b :: bz))) = false) as Hin.
  { intros b bz. apply Z.leb_gt. rewrite limit_at, len_cons. pose proof (len_nonneg bz). simpl. lia. }
  destruct n as [|n]; [destruct (v <? 128); simpl in Hn; lia|]. cbn [varint_loop].
  rewrite (proj2 (Z.leb_gt 64 shift)) by lia.
  destruct (Z.ltb_spec v 128) as [Hlt|Hge]; cbn [app]; rewrite Hin, byte_at_at;
    cbn [mbind outcome_bind]; rewrite next_at.
  - rewrite byte_val_to_byte by lia. rewrite (proj2 (Z.ltb_lt _ _)) by done.
    change 127 with (Z.ones 7). rewrite Z.land_ones, Z.mod_small by (change (2 ^ 7) with 128; lia).
    by rewrite low_bits_lor, lor_shift by (done || lia).
  - pose proof (Z.mod_pos_bound v 128). rewrite byte_val_to_byte by (rewrite high_byte; lia).
    rewrite (proj2 (Z.ltb_ge (Z.lor (Z.land v 127) 128) 128)) by (rewrite high_byte; lia).
    rewrite low_byte, low_bits_lor, lor_shift by (done || lia).
    destruct (shiftr7_range fuel v Hge Hv) as (? & ? & ?).
    assert (Z.shiftr v 7 = v / 128) as Ev by (by rewrite Z.shiftr_div_pow2).
    assert (2 ^ (shift + 7) = 2 ^ shift * 128) as E by (by rewrite Z.pow_add_r by lia).
    assert (0 < 2 ^ shift) by lia. pose proof (Z.div_mod v 128).
    assert (shift + 7 < 64).
    { apply (Z.pow_lt_mono_r_iff 2); [lia|lia|]. nia. }
    cbn [length] in Hn. rewrite IH; [|done|lia|done|lia|nia|rewrite Ev, E; nia].
    do 2 f_equal; [f_equal; rewrite Ev, E; nia|]. by rewrite <- app_assoc.
Qed.

Lemma read_varint_spec conv v pre tail :
  low_bits conv → is_u64 v →
  read_varint conv (at_ pre (varint v ++ tail)) = Ok (conv v, at_ (pre ++ varint v) tail).
Proof.
  intros Hc [? ?]. unfold read_varint, varint. destruct (sov_pos v) as [? ?]; [done|].
  assert (conv 0 = 0) as E by by destruct Hc as (? & ? & ? & ?).
  set (n := length _). assert (length (varint_fuel (Z.to_nat (sov v)) v) ≤ n)%nat as Hn
    by (unfold n; simpl; rewrite !length_app; lia).
  pose proof (varint_loop_spec conv (Z.to_nat (sov v)) n 0 0 v pre tail) as S. rewrite E in S.
  rewrite S; [by rewrite Z.add_0_l, Z.mul_1_r|done|lia|done|..]; [|lia|lia|].
  - rewrite Z2Nat.id by lia. done.
  - rewrite Z.mul_1_r. lia.
Qed.

(** ** Reading slices *)

Lemma read_slice_spec bz pre tail :
  len pre + len bz + len tail < 2 ^ 63 →
  read_slice (len bz) (at_ pre (bz ++ tail)) = Ok (bz, at_ (pre ++ bz) tail).
Proof.
  intros Hl. pose proof (len_nonneg pre). pose proof (len_nonneg bz). pose proof (len_nonneg tail).
  unfold read_slice. rewrite limit_at. cbn [iNdEx at_]. fold (at_ pre (bz ++ tail)).
  rewrite wrap_i64_id by (unfold is_i64; lia).
  rewrite !(proj2 (Z.ltb_ge _ _)) by (rewrite ?len_app; lia).
  rewrite slice_at. cbn [mbind outcome_bind]. by rewrite seek_at.
Qed.

Lemma read_delimited_spec bz pre tail :
  len pre + len (varint (len bz) ++ bz) + len tail < 2 ^ 63 →
  read_delimited (at_ pre ((varint (len bz) ++ bz) ++ tail)) =
    Ok (bz, at_ (pre ++ varint (len bz) ++ bz) tail).
Proof.
  rewrite len_app. intros Hl. pose proof (len_nonneg pre). pose proof (len_nonneg bz).
  pose proof (len_nonneg tail). pose proof (len_nonneg (varint (len bz))). unfold read_delimited.
  rewrite <- app_assoc, read_varint_spec by (auto with wire; unfold is_u64; lia).
  cbn [mbind outcome_bind]. rewrite wrap_i64_id by (unfold is_i64; lia).
  rewrite read_slice_spec by (rewrite len_app; lia). by rewrite <- app_assoc.
Qed.

Lemma read_string_spec bz pre tail :
  len pre + len (varint (len bz) ++ bz) + len tail < 2 ^ 63 →
  read_string (at_ pre ((varint (len bz) ++ bz) ++ tail)) =
    Ok (bz, at_ (pre ++ varint (len bz) ++ bz) tail).
Proof.
  rewrite len_app. intros Hl. pose proof (len_nonneg pre). pose proof (len_nonneg bz).
  pose proof (len_nonneg tail). pose proof (len_nonneg (varint (len bz))). unfold read_string.
  rewrite <- app_assoc, read_varint_spec by (auto with wire; unfold is_u64; lia).
  cbn [mbind outcome_bind]. rewrite wrap_u64_id by (unfold is_u64; lia).
  rewrite wrap_i64_id by (unfold is_i64; lia).
  rewrite read_slice_spec by (rewrite len_app; lia). by rewrite <- app_assoc.
Qed.

(** A field reader reads [body] from anywhere in a slice. *)
Definition reads {A} (read : field_reader A) (wireType : Z) (body : bytes) (m m' : A) : Prop :=
  ∀ pre tail, len pre + len body + len tail < 2 ^ 63 →
  read wireType m (at_ pre (body ++ tail)) = Ok (m', at_ (pre ++ body) tail).

Lemma reads_varint {A} fld conv (set : A → Z → A) v m :
  low_bits conv → conv (wrap_u64 v) = v →
  reads (varint_field fld conv set) 0 (varint (wrap_u64 v)) m (set m v).
Proof.
  intros Hc Hv pre tail Hl. unfold varint_field. simpl.
  rewrite read_varint_spec by (auto with wire; apply wrap_u64_range). simpl. by rewrite Hv.
Qed.

Lemma reads_slice {A} fld read (set : A → bytes → outcome A) bz m m' :
  read = read_string ∨ read = read_delimited → set m bz = Ok m' →
  reads (slice_field fld read set) 2 (varint (len bz) ++ bz) m m'.
Proof.
  intros Hr Hs pre tail Hl. unfold slice_field. simpl.
  destruct Hr as [-> | ->]; [rewrite read_string_spec by done|rewrite read_delimited_spec by done];
    simpl; by rewrite Hs.
Qed.

(** The tag of field [n] with wire type [w]. *)
Definition tag_ok (tag : list Z) (n w : Z) : bool :=
  bool_decide (tag_bytes tag = varint (8 * n + w)) && (0 <? n) && (n <? 2 ^ 28) &&
  (0 <=? w) && (w <? 8) && negb (w =? 4).

(** The numbers of the fields of protobuf. *)
Definition is_field_number (n : Z) : Prop := 0 < n < 2 ^ 29.

Section parses.
Context {A : Type} (name : string) (field : Z → option (field_reader A)).
Context (skip_field : bytes → outcome Z) (unknown : A → outcome bytes → outcome A).

(** The loop of [Unmarshal] goes over [bz] and takes the message from [m] to
    [m']. *)
Definition parses (m : A) (bz : bytes) (m' : A) : Prop := ∀ pre tail fuel,
  len pre + len bz + len tail < 2 ^ 63 → (length bz + length tail ≤ fuel)%nat →
  ∃ fuel', (length tail ≤ fuel')%nat ∧
  unmarshal_loop name field skip_field unknown fuel m (at_ pre (bz ++ tail)) =
    unmarshal_loop name field skip_field unknown fuel' m' (at_ (pre ++ bz) tail).

Lemma parses_nil m : parses m [] m.
Proof. intros pre tail fuel Hl Hf. exists fuel. by rewrite app_nil_r. Qed.

Lemma parses_app m1 b1 m2 b2 m3 : parses m1 b1 m2 → parses m2 b2 m3 → parses m1 (b1 ++ b2) m3.
Proof.
  intros H1 H2 pre tail fuel Hl Hf. rewrite len_app in Hl. rewrite length_app in Hf.
  destruct (H1 pre (b2 ++ tail) fuel) as (f1 & Hf1 & E1);
    [rewrite len_app; lia|rewrite length_app; lia|].
  rewrite length_app in Hf1.
  destruct (H2 (pre ++ b1) tail f1) as (f2 & Hf2 & E2); [rewrite len_app; lia|lia|].
  exists f2. split; [done|]. by rewrite <- app_assoc, E1, E2, <- app_assoc.
Qed.

(** The loop goes on while there are bytes. *)
Lemma at_inside pre b bz : (iNdEx (at_ pre (b :: bz)) <? limit (at_ pre (b :: bz))) = true.
Proof. apply Z.ltb_lt. rewrite limit_at, len_cons. pose proof (len_nonneg bz). simpl. lia. Qed.

Lemma at_inside_nonempty pre bz :
  bz ≠ [] → (iNdEx (at_ pre bz) <? limit (at_ pre bz)) = true.
Proof. destruct bz; [done|]. intros _. apply at_inside. Qed.

Lemma varint_nonempty v : 0 ≤ v → varint v ≠ [].
Proof. intros Hv E. pose proof (length_varint v Hv) as L. rewrite E in L. pose proof (sov_pos v Hv). 
  rewrite len_nil in L. lia. Qed.

(** The parts of the varint of a tag. *)
Lemma tag_parts n w :
  is_field_number n → 0 ≤ w < 8 →
  Z.shiftr (8 * n + w) 3 = n ∧ Z.land (8 * n + w) 7 = w ∧ wrap_i32 n = n.
Proof.
  unfold is_field_number. intros Hn Hw. split_and!.
  - rewrite Z.shiftr_div_pow2 by lia. change (2 ^ 3) with 8. symmetry.
    apply Z.div_unique with w; lia.
  - change 7 with (Z.ones 3). rewrite Z.land_ones by lia. change (2 ^ 3) with 8. symmetry.
    apply Z.mod_unique with n; lia.
  - unfold wrap_i32. rewrite Z.mod_small; lia.
Qed.

Lemma parses_field tag n w read body m m' :
  tag_ok tag n w = true → field n = Some read → reads read w body m m' →
  parses m (tag_bytes tag ++ body) m'.
Proof.
  unfold tag_ok. rewrite !andb_true_iff, bool_decide_eq_true, negb_true_iff, Z.eqb_neq.
  intros (((((Et & ?) & ?) & ?) & ?) & Hw) Hn Hr. zify_bool. intros pre tail fuel Hl Hf. rewrite Et in *.
  set (v := 8 * n + w) in *. assert (is_u64 v) as Hv by (unfold is_u64, v; lia).
  assert (0 < len (varint v)) as Hp by (rewrite length_varint by apply Hv; apply sov_pos, Hv).
  rewrite len_app in *. rewrite length_app in Hf.
  destruct fuel as [|fuel]; [unfold len in Hp; lia|].
  exists fuel. split; [unfold len in Hp; lia|]. cbn [unmarshal_loop].
  rewrite at_inside_nonempty.
  2: { intros [[E _]%app_nil _]%app_nil. by rewrite E in Hp. }
  unfold unmarshal_field. rewrite <- app_assoc, read_varint_spec by auto with wire. simpl.
  rewrite wrap_u64_id by done. subst v.
  destruct (tag_parts n w) as (-> & -> & ->); [unfold is_field_number; lia|lia|].
  rewrite (proj2 (Z.eqb_neq w 4)) by done.
  rewrite (proj2 (Z.leb_gt _ _)) by done. rewrite Hn, Hr by (rewrite len_app; lia). simpl.
  by rewrite <- app_assoc.
Qed.

(** One lemma per kind of field: [m] has the zero value in it. *)
Lemma parses_varint tag n fld conv (set : A → Z → A) m v :
  tag_ok tag n 0 = true → field n = Some (varint_field fld conv set) → low_bits conv →
  conv (wrap_u64 v) = v → set m 0 = m → parses m (enc_varint tag v) (set m v).
Proof.
  intros Ht Hn Hc Hv H0. unfold enc_varint. destruct (Z.eqb_spec v 0) as [->|].
  - rewrite H0. apply parses_nil.
  - eapply parses_field; [done..|]. by apply reads_varint.
Qed.

Lemma parses_bool tag n fld (set : A → bool → A) m b :
  tag_ok tag n 0 = true → field n = Some (bool_field fld set) → set m false = m →
  parses m (enc_bool tag b) (set m b).
Proof.
  intros Ht Hn H0. destruct b; simpl; [|rewrite H0; apply parses_nil].
  eapply parses_field; [done..|].
  change [to_byte 1] with (varint (wrap_u64 1)).
  change (set m true) with ((λ m v, set m (negb (v =? 0))) m 1). by apply reads_varint; auto with wire.
Qed.

Lemma parses_slice tag n fld read (set : A → bytes → outcome A) m m' bz :
  tag_ok tag n 2 = true → field n = Some (slice_field fld read set) →
  read = read_string ∨ read = read_delimited → set m bz = Ok m' →
  parses m (enc_delimited tag bz) m'.
Proof. intros. eapply parses_field; [done..|]. by apply reads_slice. Qed.

Lemma bytes_length_pos bz : (0 <? len bz) = false → bz = [].
Proof. intros H%Z.ltb_ge. apply nil_length_inv. unfold len in H. lia. Qed.

Lemma parses_bytes tag n fld (set : A → bytes → A) m bz :
  tag_ok tag n 2 = true → field n = Some (bytes_field fld set) → set m [] = m →
  parses m (enc_bytes tag bz) (set m bz).
Proof.
  intros Ht Hn H0. unfold enc_bytes. destruct (0 <? len bz) eqn:E.
  - eapply parses_slice; eauto.
  - rewrite (bytes_length_pos bz E), H0. apply parses_nil.
Qed.

Lemma parses_string tag n fld (set : A → string → A) m s :
  tag_ok tag n 2 = true → field n = Some (string_field fld set) → set m EmptyString = m →
  parses m (enc_string tag s) (set m s).
Proof.
  intros Ht Hn H0. unfold enc_string, enc_bytes.
  destruct (0 <? len (String.list_ascii_of_string s)) eqn:E.
  - eapply parses_slice; eauto. simpl. by rewrite String.string_of_list_ascii_of_string.
  - apply bytes_length_pos in E. destruct s; [|done]. rewrite H0. apply parses_nil.
Qed.

(** Repeated fields, [get] and [set] being a field of the message. *)
Lemma parses_each {B} tag n fld read (get : A → list B) (set : A → list B → A)
    (encode : B → bytes) (decode : bytes → outcome B) m (l : list B) :
  tag_ok tag n 2 = true →
  field n = Some (slice_field fld read (λ m bz, b ← decode bz; Ok (set m (get m ++ [b])))) →
  read = read_string ∨ read = read_delimited →
  (∀ m x, get (set m x) = x) → (∀ m x y, set (set m x) y = set m y) → set m (get m) = m →
  get m = [] → len (enc_each encode tag l) < 2 ^ 63 →
  Forall (λ b, len (encode b) < 2 ^ 63 → decode (encode b) = Ok b) l →
  parses m (enc_each encode tag l) (set m l).
Proof.
  intros Ht Hn Hr Hgs Hss Hsg Hg Hl Hd.
  assert (∀ l0, parses (set m l0) (enc_each encode tag l) (set m (l0 ++ l))) as H.
  { clear Hsg Hg. induction Hd as [|b l Hb Hd IH]; intros l0.
    - rewrite app_nil_r. apply parses_nil.
    - unfold enc_each in *. simpl in Hl |- *. rewrite len_app in Hl.
      pose proof (len_nonneg (concat (map (λ a, enc_delimited tag (encode a)) l))).
      unfold enc_delimited at 1 in Hl. rewrite !len_app in Hl.
      pose proof (len_nonneg (tag_bytes tag)). pose proof (len_nonneg (varint (len (encode b)))).
      pose proof (len_nonneg (encode b)).
      eapply parses_app; [|specialize (IH ltac:(lia) (l0 ++ [b])); rewrite <- app_assoc in IH; apply IH].
      eapply parses_slice; [done..|]. simpl. rewrite Hb by lia. simpl. by rewrite Hgs, Hss. }
  specialize (H []). rewrite <- Hg in H at 1. rewrite Hsg in H. done.
Qed.

Lemma parses_strings tag n fld (get : A → list string) set m l :
  tag_ok tag n 2 = true → field n = Some (strings_field fld get set) →
  (∀ m x, get (set m x) = x) → (∀ m x y, set (set m x) y = set m y) → set m (get m) = m →
  get m = [] → len (enc_strings tag l) < 2 ^ 63 → parses m (enc_strings tag l) (set m l).
Proof.
  intros Ht Hn ??????.
  apply (parses_each tag n fld read_string get set _ (λ bz, Ok (String.string_of_list_ascii bz)));
    auto.
  apply Forall_forall. intros s _ _. by rewrite String.string_of_list_ascii_of_string.
Qed.

Lemma parses_messages {B} `{ProtoLaws B} tag n fld (get : A → list B) set m l :
  tag_ok tag n 2 = true → field n = Some (messages_field fld get set) →
  (∀ m x, get (set m x) = x) → (∀ m x y, set (set m x) y = set m y) → set m (get m) = m →
  get m = [] → len (enc_messages tag l) < 2 ^ 63 → Forall pb_ok l →
  parses m (enc_messages tag l) (set m l).
Proof.
  intros ??????? Hok. eapply parses_each; eauto.
  eapply Forall_impl; [exact Hok|]. intros b Hb Hl. simpl. by apply pb_Unmarshal_encode.
Qed.

Lemma parses_message {B} `{ProtoLaws B} tag n fld (get : A → B) set m b :
  tag_ok tag n 2 = true → field n = Some (message_field fld get set) →
  get m = pb_empty → len (enc_message tag b) < 2 ^ 63 → pb_ok b →
  parses m (enc_message tag b) (set m b).
Proof.
  intros ?? Hg Hl Hb. eapply parses_slice; eauto. simpl. rewrite Hg, pb_Unmarshal_encode; [done|done|].
  unfold enc_message, enc_delimited in Hl. rewrite !len_app in Hl.
  pose proof (len_nonneg (tag_bytes tag)). pose proof (len_nonneg (varint (len (pb_encode b)))). lia.
Qed.

Lemma parses_dec `{DecCodecLaws} tag n fld (get : A → Z) set m d :
  tag_ok tag n 2 = true → field n = Some (dec_field fld get set) → dec_ok d →
  parses m (enc_dec tag d) (set m d).
Proof. intros. eapply parses_slice; eauto. simpl. by rewrite dec_Unmarshal_text. Qed.

Lemma parses_dec_pointer `{DecCodecLaws} tag n fld (set : A → option Z → A) m d :
  tag_ok tag n 2 = true → field n = Some (dec_pointer_field fld set) → set m None = m →
  dec_pointer_ok d → parses m (enc_dec_pointer tag d) (set m d).
Proof.
  intros ?? Hz Hd. destruct d as [d|]; simpl in *; [|rewrite Hz; apply parses_nil].
  eapply parses_slice; eauto. simpl. by rewrite dec_Unmarshal_text.
Qed.

Lemma parses_pointer {B} `{ProtoLaws B, EqDecision B} nil tag n fld (get : A → B) set m b :
  tag_ok tag n 2 = true → field n = Some (pointer_field nil fld get set) →
  get m = nil → len (enc_pointer nil tag b) < 2 ^ 63 → pb_ok b → b ≠ nil →
  parses m (enc_pointer nil tag b) (set m b).
Proof.
  intros ?? Hg Hl Hb Hn. unfold enc_pointer in *. rewrite decide_False in * by done.
  eapply parses_slice; eauto. simpl. rewrite Hg, decide_True, pb_Unmarshal_encode; [done|done| |done].
  unfold enc_message, enc_delimited in Hl. rewrite !len_app in Hl.
  pose proof (len_nonneg (tag_bytes tag)). pose proof (len_nonneg (varint (len (pb_encode b)))). lia.
Qed.

Lemma parses_bytestring tag n fld (set : A → string → A) m s :
  tag_ok tag n 2 = true → field n = Some (bytestring_field fld set) → set m EmptyString = m →
  parses m (enc_bytestring tag s) (set m s).
Proof.
  intros Ht Hn H0. unfold enc_bytestring, enc_string, enc_bytes.
  destruct (0 <? len (String.list_ascii_of_string s)) eqn:E.
  - eapply parses_slice; eauto. simpl. by rewrite String.string_of_list_ascii_of_string.
  - apply bytes_length_pos in E. destruct s; [|done]. rewrite H0. apply parses_nil.
Qed.

Lemma parses_bytestrings tag n fld (get : A → list string) set m l :
  tag_ok tag n 2 = true → field n = Some (bytestrings_field fld get set) →
  (∀ m x, get (set m x) = x) → (∀ m x y, set (set m x) y = set m y) → set m (get m) = m →
  get m = [] → len (enc_bytestrings tag l) < 2 ^ 63 → parses m (enc_bytestrings tag l) (set m l).
Proof.
  intros Ht Hn ??????.
  apply (parses_each tag n fld read_delimited get set _ (λ bz, Ok (String.string_of_list_ascii bz)));
    auto.
  apply Forall_forall. intros s _ _. by rewrite String.string_of_list_ascii_of_string.
Qed.

Definition option_ok {B} `{ProtoLaws B} (b : option B) : Prop :=
  match b with None => True | Some b => pb_ok b end.

Lemma parses_option {B} `{ProtoLaws B} tag n fld (get : A → option B) set m b :
  tag_ok tag n 2 = true → field n = Some (option_field fld get set) → get m = None → set m None = m →
  len (enc_option tag b) < 2 ^ 63 → option_ok b → parses m (enc_option tag b) (set m b).
Proof.
  intros ?? Hg Hz Hl Hb. destruct b as [b|]; simpl in *; [|rewrite Hz; apply parses_nil].
  eapply parses_slice; eauto. simpl. rewrite Hg. simpl. rewrite pb_Unmarshal_encode; [done|done|].
  unfold enc_message, enc_delimited in Hl. rewrite !len_app in Hl.
  pose proof (len_nonneg (tag_bytes tag)). pose proof (len_nonneg (varint (len (pb_encode b)))). lia.
Qed.

Lemma packed_loop_spec conv (add : A → Z → A) l m pre tail fuel :
  low_bits conv → Forall (λ v, conv (wrap_u64 v) = v) l → (length (packed_bytes l) ≤ fuel)%nat →
  packed_loop conv add (len pre + len (packed_bytes l)) fuel m (at_ pre (packed_bytes l ++ tail)) =
    Ok (foldl add m l, at_ (pre ++ packed_bytes l) tail).
Proof.
  intros Hc Hl. revert m pre fuel. induction Hl as [|v l Hv Hl IH]; intros m pre fuel Hf.
  - unfold packed_bytes. simpl. rewrite len_nil, Z.add_0_r, app_nil_r.
    destruct fuel; simpl; by rewrite Z.ltb_irrefl.
  - pose proof (wrap_u64_range v) as Hr.
    unfold packed_bytes in *. cbn [map concat foldl] in *. rewrite len_app, <- app_assoc.
    rewrite length_app in Hf. set (w := varint (wrap_u64 v)) in *.
    assert (0 < len w) by (unfold w; rewrite length_varint by apply Hr; apply sov_pos, Hr).
    pose proof (len_nonneg (concat (map (λ v, varint (wrap_u64 v)) l))).
    destruct fuel as [|fuel]; [unfold len in *; lia|]. cbn [packed_loop].
    rewrite (proj2 (Z.ltb_lt _ _)) by (simpl; lia). subst w. rewrite read_varint_spec by done.
    cbn [mbind outcome_bind]. rewrite Hv, Z.add_assoc, <- len_app, IH by (unfold len in *; lia).
    by rewrite <- app_assoc.
Qed.

Lemma parses_packed tag n fld conv (get : A → list Z) set m l :
  tag_ok tag n 2 = true → field n = Some (packed_field fld conv get set) → low_bits conv →
  Forall (λ v, conv (wrap_u64 v) = v) l →
  (∀ m x, get (set m x) = x) → (∀ m x y, set (set m x) y = set m y) → set m (get m) = m →
  get m = [] → parses m (enc_packed tag l) (set m l).
Proof.
  intros Ht Hn Hc Hl Hgs Hss Hsg Hg. unfold enc_packed. case_decide as Hd.
  { subst l. rewrite <- Hg, Hsg. apply parses_nil. }
  eapply parses_field; [done..|]. intros pre tail Hlen. rewrite len_app in Hlen.
  pose proof (len_nonneg (packed_bytes l)). pose proof (len_nonneg tail).
  pose proof (len_nonneg pre). pose proof (len_nonneg (varint (len (packed_bytes l)))).
  unfold packed_field. cbn [Z.eqb].
  rewrite <- app_assoc, read_varint_spec by (auto with wire; unfold is_u64; lia).
  cbn [mbind outcome_bind]. rewrite limit_at. cbn [iNdEx at_].
  fold (at_ (pre ++ varint (len (packed_bytes l))) (packed_bytes l ++ tail)).
  rewrite (wrap_i64_id (len _)) by (unfold is_i64; lia). rewrite (proj2 (Z.ltb_ge _ 0)) by done.
  rewrite wrap_i64_id by (unfold is_i64; rewrite len_app; lia).
  rewrite !(proj2 (Z.ltb_ge _ _)) by (rewrite ?len_app; lia).
  rewrite slice_at. cbn [mbind outcome_bind].
  rewrite packed_loop_spec by done. rewrite <- app_assoc.
  do 2 f_equal. transitivity (set m (get m ++ l)); [|by rewrite Hg]. clear -Hgs Hss Hsg.
  induction l as [|v l IH] using rev_ind; simpl; [by rewrite app_nil_r, Hsg|].
  rewrite foldl_app, IH. simpl. by rewrite Hgs, Hss, <- app_assoc.
Qed.

(** [Unmarshal] of an encoding. *)
Lemma unmarshal_parses m bz m' : parses m bz m' → len bz < 2 ^ 63 →
  unmarshal name field skip_field unknown m bz = Ok m'.
Proof.
  intros H Hl. destruct (H [] [] (length bz)) as (f & _ & E); [rewrite len_nil; lia|simpl; lia|].
  rewrite app_nil_r in E. change (at_ [] bz) with (mkCursor 0 bz) in E. unfold unmarshal. rewrite E.
  unfold at_. rewrite app_nil_r. destruct f; simpl; unfold limit; simpl; by rewrite Z.ltb_irrefl.
Qed.
End parses.

(** ** Termination

    The readers neither panic nor run out of fuel on a slice, whose length is
    an [int]. *)

(** [c'] comes after [c] in the same slice, by [strict] bytes at least. *)
Definition moves (strict : Z) (c c' : cursor) : Prop :=
  dAtA c' = dAtA c ∧ iNdEx c + strict ≤ iNdEx c' < 2 ^ 63.

(** A reader from [c] returns with the cursor moved, or with an error. *)
Definition moving {X} (strict : Z) (c : cursor) (pos : X → cursor) (o : outcome X) : Prop :=
  match o with Ok x => moves strict c (pos x) | Err _ => True | Panic => False end.

Lemma moves_refl c : iNdEx c < 2 ^ 63 → moves 0 c c.
Proof. unfold moves. split; [done|lia]. Qed.
Lemma moves_trans s1 s2 c1 c2 c3 : moves s1 c1 c2 → moves s2 c2 c3 → moves (s1 + s2) c1 c3.
Proof. unfold moves. intros [-> ?] [-> ?]. split; [done|lia]. Qed.
Lemma moves_weaken s c c' : 0 ≤ s → moves s c c' → moves 0 c c'.
Proof. unfold moves. intros ? [-> ?]. split; [done|lia]. Qed.
Lemma moves_limit s c c' : moves s c c' → limit c' = limit c.
Proof. intros [E _]. unfold limit. by rewrite E. Qed.

Lemma byte_at_total c : 0 ≤ iNdEx c < limit c → ∃ b, byte_at c = Ok b.
Proof.
  intros Hi. unfold byte_at. rewrite (proj2 (Z.leb_le _ _)) by lia.
  destruct (dAtA c !! Z.to_nat (iNdEx c)) as [b|] eqn:E; [by exists b|].
  apply lookup_ge_None in E. unfold limit, len in Hi. lia.
Qed.

Lemma slice_to_total i c : 0 ≤ iNdEx c ≤ i → i ≤ limit c →
  ∃ bz, slice_to i c = Ok bz ∧ len bz = i - iNdEx c.
Proof.
  intros Hi Hl. unfold slice_to. rewrite !(proj2 (Z.leb_le _ _)) by lia. eexists. split; [done|].
  unfold limit, len in *. rewrite length_take, length_drop. lia.
Qed.

Lemma next_moves c : limit c < 2 ^ 63 → iNdEx c < limit c → moves 1 c (next c).
Proof. intros Hl Hi. split; [done|]. simpl. lia. Qed.

Lemma varint_loop_moves conv fuel shift v c :
  limit c < 2 ^ 63 → 0 ≤ iNdEx c → limit c - iNdEx c ≤ Z.of_nat fuel →
  moving 1 c snd (varint_loop conv fuel shift v c).
Proof.
  revert shift v c. induction fuel as [|fuel IH]; intros shift v c Hl Hi Hf;
    cbn [varint_loop]; (destruct (Z.leb_spec 64 shift); [done|]);
    (destruct (Z.leb_spec (limit c) (iNdEx c)); [done|]); [lia|].
  destruct (byte_at_total c) as [b ->]; [lia|]. cbn [mbind outcome_bind].
  pose proof (next_moves c Hl ltac:(lia)) as Hn.
  destruct (byte_val b <? 128); [done|].
  specialize (IH (shift + 7) (conv (Z.lor v (Z.land (byte_val b) 127 ≪ shift))) (next c) Hl
    ltac:(simpl; lia) ltac:(change (limit (next c)) with (limit c); simpl; lia)). unfold moving in *.
  destruct (varint_loop _ _ _ _ _) as [[? c']| |]; [|done..].
  destruct (moves_trans _ _ _ _ _ Hn IH) as [? ?]. simpl in *. split; [done|lia].
Qed.

Lemma skip_varint_moves fuel shift c :
  limit c < 2 ^ 63 → 0 ≤ iNdEx c → limit c - iNdEx c ≤ Z.of_nat fuel →
  moving 1 c id (skip_varint fuel shift c).
Proof.
  revert shift c. induction fuel as [|fuel IH]; intros shift c Hl Hi Hf;
    cbn [skip_varint]; (destruct (Z.leb_spec 64 shift); [done|]);
    (destruct (Z.leb_spec (limit c) (iNdEx c)); [done|]); [lia|].
  destruct (byte_at_total c) as [b ->]; [lia|]. cbn [mbind outcome_bind].
  pose proof (next_moves c Hl ltac:(lia)) as Hn.
  destruct (byte_val b <? 128); [done|].
  specialize (IH (shift + 7) (next c) Hl ltac:(simpl; lia)
    ltac:(change (limit (next c)) with (limit c); simpl; lia)). unfold moving in *.
  destruct (skip_varint _ _ _) as [c'| |]; [|done..].
  destruct (moves_trans _ _ _ _ _ Hn IH) as [? ?]. simpl in *. split; [done|lia].
Qed.

Lemma read_varint_moves conv c :
  limit c < 2 ^ 63 → 0 ≤ iNdEx c → moving 1 c snd (read_varint conv c).
Proof. intros. apply varint_loop_moves; [done|done|]. unfold limit, len in *. lia. Qed.

(** The sum of two integers is not negative after the wrap when it is exact. *)
Lemma wrap_i64_sum i n : 0 ≤ i < 2 ^ 63 → 0 ≤ n < 2 ^ 63 → 0 ≤ wrap_i64 (i + n) → wrap_i64 (i + n) = i + n.
Proof.
  intros Hi Hn Hp. unfold wrap_i64 in *.
  destruct (Z.ltb_spec (i + n) (2 ^ 63)); [rewrite Z.mod_small; lia|].
  assert ((i + n + 2 ^ 63) / 2 ^ 64 = 1) as Eq
    by (symmetry; apply Z.div_unique with (i + n + 2 ^ 63 - 2 ^ 64); lia).
  rewrite (Z.mod_eq (i + n + 2 ^ 63) (2 ^ 64)) in Hp by lia. lia.
Qed.

Lemma advance_moves n c :
  0 ≤ iNdEx c < 2 ^ 63 → 0 ≤ n < 2 ^ 63 → 0 ≤ iNdEx (advance n c) →
  moves n c (advance n c) ∧ iNdEx (advance n c) = iNdEx c + n.
Proof.
  intros Hi Hn Hp. unfold advance, seek, moves in *. simpl in *.
  pose proof (wrap_i64_range (iNdEx c + n)) as [_ Hr]. rewrite wrap_i64_sum in * by done.
  split; [split; [done|lia]|done].
Qed.

(** What a reader with a conversion returns is in the range of the conversion. *)
Lemma varint_loop_conv conv (P : Z → Prop) fuel shift v c x c' :
  (∀ z, P (conv z)) → varint_loop conv fuel shift v c = Ok (x, c') → P x.
Proof.
  intros HP. revert shift v c. induction fuel as [|fuel IH]; intros shift v c; simpl;
    (destruct (64 <=? shift); [done|]); (destruct (_ <=? _); [done|]); [done|].
  destruct (byte_at c) as [b| |]; simpl; [|done..].
  destruct (byte_val b <? 128); [by intros [= <- _]|apply IH].
Qed.

Lemma read_varint_i64 c x c' : read_varint wrap_i64 c = Ok (x, c') → x < 2 ^ 63.
Proof. intros H. apply (varint_loop_conv wrap_i64 is_i64) in H; [apply H|apply wrap_i64_range]. Qed.

(** The switch may leave a negative index, which the loop checks. *)
Lemma skip_switch_moves wireType depth c :
  limit c < 2 ^ 63 → 0 ≤ iNdEx c < 2 ^ 63 →
  match skip_switch wireType depth c with
  | Ok (_, c') => 0 ≤ iNdEx c' → moves 0 c c'
  | Err _ => True
  | Panic => False
  end.
Proof.
  intros Hl Hi.
  assert (∀ n c1, 0 ≤ iNdEx c1 < 2 ^ 63 → moves 0 c c1 → 0 ≤ n < 2 ^ 63 →
    0 ≤ iNdEx (advance n c1) → moves 0 c (advance n c1)) as Hadv.
  { intros n c1 Hi1 Hm Hn Hp. apply (moves_weaken (0 + n)); [lia|]. eapply moves_trans; [done|].
    by apply advance_moves. }
  pose proof (moves_refl c (proj2 Hi)) as Hrefl.
  unfold skip_switch. destruct (wireType =? 0).
  { pose proof (skip_varint_moves (length (dAtA c)) 0 c Hl (proj1 Hi)
      ltac:(unfold limit, len in *; lia)) as Hs.
    destruct (skip_varint _ _ _); [|done..]. intros _. by apply (moves_weaken 1). }
  destruct (wireType =? 1); [intros; by apply Hadv|].
  destruct (wireType =? 2).
  { pose proof (read_varint_moves wrap_i64 c Hl (proj1 Hi)) as Hs.
    destruct (read_varint wrap_i64 c) as [[n c1]| |] eqn:En; simpl in *; [|done..].
    destruct (Z.ltb_spec n 0); [done|]. apply Hadv.
    - destruct Hs as [_ ?]. lia.
    - by apply (moves_weaken 1).
    - split; [done|]. by eapply read_varint_i64. }
  destruct (wireType =? 3); [done|]. destruct (wireType =? 4); [by destruct (depth =? 0)|].
  destruct (wireType =? 5); [|done]. intros; by apply Hadv.
Qed.

Lemma skip_loop_total fuel depth c :
  limit c < 2 ^ 63 → 0 ≤ iNdEx c → limit c - iNdEx c ≤ Z.of_nat fuel →
  match skip_loop fuel depth c with
  | Ok n => iNdEx c < n < 2 ^ 63
  | Err _ => True
  | Panic => False
  end.
Proof.
  revert depth c. induction fuel as [|fuel IH]; intros depth c Hl Hi Hf; cbn [skip_loop];
    (destruct (Z.ltb_spec (iNdEx c) (limit c)); cbn [negb]; [|done]); [lia|].
  pose proof (read_varint_moves wrap_u64 c Hl Hi) as Hr.
  destruct (read_varint wrap_u64 c) as [[wire c1]| |] eqn:Er; simpl in *; [|done..].
  pose proof (moves_limit _ _ _ Hr) as E1. destruct Hr as [_ Hr].
  pose proof (skip_switch_moves (Z.land wire 7) depth c1 ltac:(lia) ltac:(lia)) as Hs.
  destruct (skip_switch _ _ _) as [[depth' c2]| |]; simpl; [|done..].
  destruct (Z.ltb_spec (iNdEx c2) 0); [done|]. specialize (Hs ltac:(lia)).
  pose proof (moves_limit _ _ _ Hs) as E2. destruct Hs as [_ Hs].
  destruct (depth' =? 0); [lia|].
  specialize (IH depth' c2 ltac:(lia) ltac:(lia) ltac:(lia)). destruct (skip_loop fuel depth' c2); [lia|done..].
Qed.

(** A field reader that neither panics nor goes back. *)
Definition total_reader {A} (read : field_reader A) : Prop := ∀ wireType m c,
  limit c < 2 ^ 63 → 0 ≤ iNdEx c < 2 ^ 63 → moving 0 c snd (read wireType m c).

Lemma total_varint {A} fld conv (set : A → Z → A) : total_reader (varint_field fld conv set).
Proof.
  intros w m c Hl Hi. unfold varint_field. destruct (negb _); [done|].
  pose proof (read_varint_moves conv c Hl (proj1 Hi)) as Hr.
  destruct (read_varint conv c) as [[v c']| |]; simpl in *; [|done..]. by apply (moves_weaken 1).
Qed.

Lemma read_slice_moves n c :
  limit c < 2 ^ 63 → 0 ≤ iNdEx c < 2 ^ 63 → n < 2 ^ 63 →
  moving 0 c snd (read_slice n c) ∧
  ∀ bz c', read_slice n c = Ok (bz, c') → len bz < 2 ^ 63.
Proof.
  intros Hl Hi Hn. unfold read_slice. destruct (Z.ltb_spec n 0); [done|].
  destruct (Z.ltb_spec (wrap_i64 (iNdEx c + n)) 0); [done|].
  rewrite wrap_i64_sum in * by lia. destruct (Z.ltb_spec (limit c) (iNdEx c + n)); [done|].
  destruct (slice_to_total (iNdEx c + n) c) as (bz & -> & Hbz); [lia|done|]. simpl. split.
  - split; [done|]. simpl. lia.
  - intros ?? [= <- _]. lia.
Qed.

(** The readers of a length and its slice. *)
Lemma read_length_moves conv (f : Z → Z) c :
  (∀ n, f (conv n) < 2 ^ 63) → limit c < 2 ^ 63 → 0 ≤ iNdEx c < 2 ^ 63 →
  let r := '(n, c') ← read_varint conv c; read_slice (f n) c' in
  moving 0 c snd r ∧ ∀ bz c', r = Ok (bz, c') → len bz < 2 ^ 63.
Proof.
  intros Hf Hl Hi. pose proof (read_varint_moves conv c Hl (proj1 Hi)) as Hr. simpl.
  destruct (read_varint conv c) as [[n c1]| |] eqn:En; simpl in *; [|done..].
  apply (varint_loop_conv conv (λ n, f n < 2 ^ 63)) in En; [|done].
  destruct (read_slice_moves (f n) c1) as [Hm Hb];
    [by rewrite (moves_limit _ _ _ Hr)|destruct Hr as [_ ?]; lia|done|].
  split; [|done]. destruct (read_slice (f n) c1) as [[bz c2]| |]; simpl in *; [|done..].
  apply (moves_weaken (1 + 0)); [lia|]. by eapply moves_trans.
Qed.

Lemma read_delimited_moves c :
  limit c < 2 ^ 63 → 0 ≤ iNdEx c < 2 ^ 63 →
  moving 0 c snd (read_delimited c) ∧ ∀ bz c', read_delimited c = Ok (bz, c') → len bz < 2 ^ 63.
Proof. apply (read_length_moves wrap_i64 id). intros n. apply wrap_i64_range. Qed.

Lemma read_string_moves c :
  limit c < 2 ^ 63 → 0 ≤ iNdEx c < 2 ^ 63 →
  moving 0 c snd (read_string c) ∧ ∀ bz c', read_string c = Ok (bz, c') → len bz < 2 ^ 63.
Proof. apply (read_length_moves wrap_u64 wrap_i64). intros n. apply wrap_i64_range. Qed.

Lemma total_slice {A} fld read (set : A → bytes → outcome A) :
  read = read_string ∨ read = read_delimited →
  (∀ m bz, len bz < 2 ^ 63 → set m bz ≠ Panic) → total_reader (slice_field fld read set).
Proof.
  intros Hr Hs w m c Hl Hi. unfold slice_field. destruct (negb _); [done|].
  assert (moving 0 c snd (read c) ∧ ∀ bz c', read c = Ok (bz, c') → len bz < 2 ^ 63) as [Hm Hb].
  { destruct Hr as [-> | ->]; [by apply read_string_moves|by apply read_delimited_moves]. }
  destruct (read c) as [[bz c']| |]; simpl in *; [|done..].
  specialize (Hs m bz ltac:(by eapply Hb)). by destruct (set m bz).
Qed.

Lemma total_bind_Ok {A B} (o : outcome B) (f : B → A) : o ≠ Panic → (b ← o; Ok (f b)) ≠ Panic.
Proof. by destruct o. Qed.

Lemma total_bool {A} fld (set : A → bool → A) : total_reader (bool_field fld set).
Proof. apply total_varint. Qed.
Lemma total_string {A} fld (set : A → string → A) : total_reader (string_field fld set).
Proof. apply total_slice; auto. Qed.
Lemma total_bytes {A} fld (set : A → bytes → A) : total_reader (bytes_field fld set).
Proof. apply total_slice; auto. Qed.
Lemma total_strings {A} fld (get : A → list string) set : total_reader (strings_field fld get set).
Proof. apply total_slice; auto. Qed.
Lemma total_message {A B} `{ProtoLaws B} fld (get : A → B) set :
  total_reader (message_field fld get set).
Proof. apply total_slice; auto. intros. apply total_bind_Ok. by apply pb_Unmarshal_total. Qed.
Lemma total_messages {A B} `{ProtoLaws B} fld (get : A → list B) set :
  total_reader (messages_field fld get set).
Proof. apply total_slice; auto. intros. apply total_bind_Ok. by apply pb_Unmarshal_total. Qed.
Lemma total_dec {A} `{DecCodecLaws} fld (get : A → Z) set : total_reader (dec_field fld get set).
Proof. apply total_slice; auto. intros. apply total_bind_Ok. by apply dec_Unmarshal_total. Qed.
Lemma total_dec_pointer {A} `{DecCodecLaws} fld (set : A → option Z → A) :
  total_reader (dec_pointer_field fld set).
Proof.
  apply total_slice; auto. intros. apply (total_bind_Ok _ (λ d, set m (Some d))).
  by apply dec_Unmarshal_total.
Qed.
Lemma total_pointer {A B} `{ProtoLaws B, EqDecision B} nil fld (get : A → B) set :
  total_reader (pointer_field nil fld get set).
Proof. apply total_slice; auto. intros. apply total_bind_Ok. by apply pb_Unmarshal_total. Qed.
Lemma total_bytestring {A} fld (set : A → string → A) : total_reader (bytestring_field fld set).
Proof. apply total_slice; auto. Qed.
Lemma total_bytestrings {A} fld (get : A → list string) set :
  total_reader (bytestrings_field fld get set).
Proof. apply total_slice; auto. Qed.
Lemma total_option {A B} `{ProtoLaws B} fld (get : A → option B) set :
  total_reader (option_field fld get set).
Proof.
  apply total_slice; auto. intros. apply (total_bind_Ok _ (λ b, set m (Some b))).
  by apply pb_Unmarshal_total.
Qed.

Lemma packed_loop_total {A} conv (add : A → Z → A) postIndex fuel m c :
  limit c < 2 ^ 63 → 0 ≤ iNdEx c < 2 ^ 63 → postIndex - iNdEx c ≤ Z.of_nat fuel →
  moving 0 c snd (packed_loop conv add postIndex fuel m c).
Proof.
  revert m c. induction fuel as [|fuel IH]; intros m c Hl Hi Hf; cbn [packed_loop];
    (destruct (Z.ltb_spec (iNdEx c) postIndex); [|exact (moves_refl c (proj2 Hi))]); [lia|].
  pose proof (read_varint_moves conv c Hl (proj1 Hi)) as Hr.
  destruct (read_varint conv c) as [[v c1]| |]; simpl in *; [|done..].
  assert (moving 0 c1 snd (packed_loop conv add postIndex fuel (add m v) c1)) as Hp.
  { pose proof Hr as [_ ?]. apply IH; [by rewrite (moves_limit _ _ _ Hr)|lia|lia]. }
  destruct (packed_loop _ _ _ _ _ _) as [[m' c']| |]; simpl in *; [|done..].
  apply (moves_weaken (1 + 0)); [lia|]. by eapply moves_trans.
Qed.

Lemma total_packed {A} fld conv (get : A → list Z) set : total_reader (packed_field fld conv get set).
Proof.
  intros w m c Hl Hi. unfold packed_field. destruct (w =? 0).
  { pose proof (read_varint_moves conv c Hl (proj1 Hi)) as Hr.
    destruct (read_varint conv c) as [[v c']| |]; simpl in *; [|done..]. by apply (moves_weaken 1). }
  destruct (w =? 2); [|done].
  pose proof (read_varint_moves wrap_i64 c Hl (proj1 Hi)) as Hr.
  destruct (read_varint wrap_i64 c) as [[n c1]| |] eqn:En; simpl in *; [|done..].
  apply read_varint_i64 in En. pose proof (moves_limit _ _ _ Hr) as E. pose proof Hr as [_ ?].
  destruct (Z.ltb_spec n 0); [done|]. destruct (Z.ltb_spec (wrap_i64 (iNdEx c1 + n)) 0); [done|].
  rewrite wrap_i64_sum in * by lia. destruct (Z.ltb_spec (limit c1) (iNdEx c1 + n)); [done|].
  destruct (slice_to_total (iNdEx c1 + n) c1) as (bz & -> & Hbz); [lia|done|]. simpl.
  assert (moving 0 c1 snd (packed_loop conv (λ m v, set m (get m ++ [v])) (iNdEx c1 + n) (length bz) m c1))
    as Hp by (apply packed_loop_total; unfold len in *; lia).
  destruct (packed_loop _ _ _ _ _ _) as [[m' c']| |]; simpl in *; [|done..].
  apply (moves_weaken (1 + 0)); [lia|]. by eapply moves_trans.
Qed.
#[export] Hint Resolve total_varint total_bool total_string total_bytes total_strings
  total_bytestring total_bytestrings total_packed : wire.

(** What the loop needs of the function that skips a field. *)
Definition total_skip (skip_field : bytes → outcome Z) : Prop := ∀ d, len d < 2 ^ 63 →
  match skip_field d with
  | Ok n => 0 < n < 2 ^ 63
  | Err _ => True
  | Panic => False
  end.

Lemma skip_total : total_skip skip.
Proof.
  intros d Hl. apply (skip_loop_total (length d) 0 (mkCursor 0 d)); unfold limit, len in *; simpl; lia.
Qed.

(** What becomes of unknown fields never panics on a slice. *)
Definition total_unknown {A} (unknown : A → outcome bytes → outcome A) : Prop :=
  ∀ m bz, unknown m (Ok bz) ≠ Panic.

(** Two rounds of the loop of [Unmarshal] never start at the same index. *)
Lemma unmarshal_field_total {A} name field skip_field unknown (m : A) c :
  (∀ n read, field n = Some read → total_reader read) → total_skip skip_field →
  total_unknown unknown → limit c < 2 ^ 63 → 0 ≤ iNdEx c < limit c →
  moving 1 c snd (unmarshal_field name field skip_field unknown m c).
Proof.
  intros Hf Hsk Hu Hl Hi. unfold unmarshal_field.
  pose proof (read_varint_moves wrap_u64 c Hl (proj1 Hi)) as Hr.
  destruct (read_varint wrap_u64 c) as [[wire c1]| |]; simpl in *; [|done..].
  destruct (Z.land wire 7 =? 4); [done|].
  destruct (_ <=? 0); [done|]. destruct (field _) as [read|] eqn:En.
  - pose proof Hr as [_ ?].
    pose proof (Hf _ _ En (Z.land wire 7) m c1 ltac:(by rewrite (moves_limit _ _ _ Hr)) ltac:(lia)) as H'.
    unfold moving in *. destruct (read _ _ _) as [[m' c']| |]; [|done..].
    rewrite <- (Z.add_0_r 1). by eapply moves_trans.
  - destruct (slice_to_total (limit c) c) as (bz & -> & Hbz); [lia|done|]. cbn [mbind outcome_bind].
    pose proof (Hsk bz ltac:(lia)) as Hn.
    destruct (skip_field bz) as [n| |]; simpl; [|done..].
    destruct (Z.ltb_spec n 0); simpl; [done|].
    destruct (Z.ltb_spec (wrap_i64 (iNdEx c + n)) 0) as [|Hp]; [done|].
    destruct (advance_moves n c) as [Hm _]; [lia|lia|done|].
    rewrite wrap_i64_sum in * by lia. destruct (Z.ltb_spec (limit c) (iNdEx c + n)); [done|].
    destruct (slice_to_total (iNdEx c + n) c) as (bz' & -> & _); [lia|done|].
    specialize (Hu m bz'). destruct (unknown m (Ok bz')); simpl; [|done..].
    destruct Hm as [? Hm]. split; [done|]. lia.
Qed.

Lemma unmarshal_total {A} name field skip_field unknown (m : A) bz :
  (∀ n read, field n = Some read → total_reader read) → total_skip skip_field →
  total_unknown unknown →
  len bz < 2 ^ 63 → unmarshal name field skip_field unknown m bz ≠ Panic.
Proof.
  intros Hf Hsk Hu Hl. unfold unmarshal.
  assert (∀ fuel m c, limit c < 2 ^ 63 → 0 ≤ iNdEx c → limit c - iNdEx c ≤ Z.of_nat fuel →
    unmarshal_loop name field skip_field unknown fuel m c ≠ Panic) as H.
  2: { apply H; unfold limit, len in *; simpl; lia. }
  induction fuel as [|fuel IH]; intros m' c Hc Hi Hfuel; cbn [unmarshal_loop];
    (destruct (Z.ltb_spec (iNdEx c) (limit c)); [|by destruct (_ <? _)]); [lia|].
  pose proof (unmarshal_field_total name field skip_field unknown m' c Hf Hsk Hu Hc ltac:(lia)) as H'.
  destruct (unmarshal_field _ _ _ _ _ _) as [[m'' c']| |]; simpl in *; [|done..].
  pose proof (moves_limit _ _ _ H') as E. destruct H' as [_ ?]. apply IH; lia.
Qed.

(** What [Marshal] writes, [Unmarshal] reads back. *)
Lemma pb_Marshal_Unmarshal {A} `{ProtoLaws A} (m : A) bz :
  pb_Marshal m = Ok bz → pb_ok m → pb_Unmarshal pb_empty bz = Ok m.
Proof.
  rewrite pb_Marshal_encode. destruct (Z.leb_spec (2 ^ 63) (len (pb_encode m))); [done|].
  intros [= <-] Hok. by apply pb_Unmarshal_encode.
Qed.

(** ** Types of decoded values

    [typed_reader P]: a field reader that keeps the invariant [P] of the
    message, whatever the bytes are. *)
Definition typed_reader {A} (P : A → Prop) (read : field_reader A) : Prop :=
  ∀ wireType m c m' c', P m → read wireType m c = Ok (m', c') → P m'.

Section typed_reader.
Context {A : Type} (P : A → Prop).

Lemma typed_varint fld conv (set : A → Z → A) :
  (∀ m v, P m → P (set m (conv v))) → typed_reader P (varint_field fld conv set).
Proof.
  intros HP w m c m' c' Hm. unfold varint_field. destruct (negb _); [done|].
  destruct (read_varint conv c) as [[v c1]| |] eqn:Ev; [|done..]. intros [= <- <-].
  apply (varint_loop_conv conv (λ v, P (set m v))) in Ev; auto.
Qed.

Lemma typed_bool fld (set : A → bool → A) :
  (∀ m b, P m → P (set m b)) → typed_reader P (bool_field fld set).
Proof. intros HP. apply typed_varint. auto. Qed.

Lemma typed_slice fld read (set : A → bytes → outcome A) :
  (∀ m bz m', P m → set m bz = Ok m' → P m') → typed_reader P (slice_field fld read set).
Proof.
  intros HP w m c m' c' Hm. unfold slice_field. destruct (negb _); [done|].
  destruct (read c) as [[bz c1]| |]; [|done..]. simpl.
  destruct (set m bz) as [m1| |] eqn:E; [|done..]. intros [= <- <-]. eauto.
Qed.

Lemma typed_string fld (set : A → string → A) :
  (∀ m v, P m → P (set m v)) → typed_reader P (string_field fld set).
Proof. intros HP. apply typed_slice. intros m bz m' Hm [= <-]. auto. Qed.
Lemma typed_bytes fld (set : A → bytes → A) :
  (∀ m v, P m → P (set m v)) → typed_reader P (bytes_field fld set).
Proof. intros HP. apply typed_slice. intros m bz m' Hm [= <-]. auto. Qed.
Lemma typed_strings fld get (set : A → list string → A) :
  (∀ m v, P m → P (set m v)) → typed_reader P (strings_field fld get set).
Proof. intros HP. apply typed_slice. intros m bz m' Hm [= <-]. auto. Qed.
Lemma typed_dec `{DecCodec} fld get (set : A → Z → A) :
  (∀ m v, P m → P (set m v)) → typed_reader P (dec_field fld get set).
Proof.
  intros HP. apply typed_slice. intros m bz m' Hm. destruct (dec_Unmarshal _ _); [|done..].
  intros [= <-]. auto.
Qed.
Lemma typed_dec_pointer `{DecCodec} fld (set : A → option Z → A) :
  (∀ m v, P m → P (set m v)) → typed_reader P (dec_pointer_field fld set).
Proof.
  intros HP. apply typed_slice. intros m bz m' Hm. destruct (dec_Unmarshal _ _); [|done..].
  intros [= <-]. auto.
Qed.
End typed_reader.

(** A message whose reader keeps an invariant that its zero value has. *)
Class ProtoTyped (A : Type) `{ProtoMessage A} := {
  pb_typed : A → Prop;
  typed_empty : pb_typed pb_empty;
  typed_Unmarshal m bz m' : pb_typed m → pb_Unmarshal m bz = Ok m' → pb_typed m';
}.

Lemma typed_message {A B} `{ProtoTyped B} (P : A → Prop) fld (get : A → B) set :
  (∀ m, P m → pb_typed (get m)) → (∀ m v, P m → pb_typed v → P (set m v)) →
  typed_reader P (message_field fld get set).
Proof.
  intros Hg HP. apply typed_slice. intros m bz m' Hm.
  destruct (pb_Unmarshal _ _) eqn:E; [|done..]. intros [= <-]. eauto using typed_Unmarshal.
Qed.

Lemma typed_messages {A B} `{ProtoTyped B} (P : A → Prop) fld (get : A → list B) set :
  (∀ m v, P m → pb_typed v → P (set m (get m ++ [v]))) → typed_reader P (messages_field fld get set).
Proof.
  intros HP. apply typed_slice. intros m bz m' Hm.
  destruct (pb_Unmarshal _ _) eqn:E; [|done..]. intros [= <-].
  eauto using typed_Unmarshal, typed_empty.
Qed.

(** The other repeated messages, and coins, carry nothing to check. *)
Lemma typed_messages_any {A B} `{ProtoMessage B} (P : A → Prop) fld (get : A → list B) set :
  (∀ m v, P m → P (set m v)) → typed_reader P (messages_field fld get set).
Proof.
  intros HP. apply typed_slice. intros m bz m' Hm. destruct (pb_Unmarshal _ _); [|done..].
  intros [= <-]. auto.
Qed.

Lemma typed_option_any {A B} `{ProtoMessage B} (P : A → Prop) fld (get : A → option B) set :
  (∀ m v, P m → P (set m v)) → typed_reader P (option_field fld get set).
Proof.
  intros HP. apply typed_slice. intros m bz m' Hm. destruct (pb_Unmarshal _ _); [|done..].
  intros [= <-]. auto.
Qed.

Lemma unmarshal_field_typed {A} (P : A → Prop) name field m c m' c' :
  (∀ n read, field n = Some read → typed_reader P read) →
  P m → unmarshal_field name field skip (λ m _, Ok m) m c = Ok (m', c') → P m'.
Proof.
  intros Hf Hm. unfold unmarshal_field.
  destruct (read_varint _ _) as [[wire c1]| |]; simpl; [|done..].
  destruct (Z.land wire 7 =? 4); [done|]. destruct (_ <=? 0); [done|].
  destruct (field _) as [read|] eqn:En; [by eapply Hf|].
  destruct (slice_to _ _) as [bz| |]; simpl; [|done..].
  destruct (skip _) as [n| |]; simpl; [|done..]. destruct (_ || _); [done|].
  destruct (_ <? _); [done|]. by intros [= <- _].
Qed.

Lemma unmarshal_typed {A} (P : A → Prop) name field m bz m' :
  (∀ n read, field n = Some read → typed_reader P read) →
  P m → unmarshal name field skip (λ m _, Ok m) m bz = Ok m' → P m'.
Proof.
  intros Hf. unfold unmarshal. generalize (length bz) as fuel, (mkCursor 0 bz) as c.
  intros fuel. revert m. induction fuel as [|fuel IH]; intros m c Hm; simpl;
    (destruct (_ <? _); [|by destruct (_ <? _); [|intros [= <-]]]); [done|].
  destruct (unmarshal_field _ _ _ _ _ _) as [[m1 c1]| |] eqn:E; simpl; [|done..].
  apply IH. by eapply unmarshal_field_typed.
Qed.

(** ** Automation for the messages *)

Lemma wrap_u64_of_u64 v : is_u64 v → wrap_u64 (wrap_u64 v) = v.
Proof. intros. by rewrite !wrap_u64_id by (done || apply wrap_u64_range). Qed.
Lemma wrap_i64_of_u64 v : is_i64 v → wrap_i64 (wrap_u64 v) = v.
Proof.
  intros Hv. rewrite <- (wrap_i64_id v Hv) at 2. unfold wrap_i64, wrap_u64.
  by rewrite Zplus_mod_idemp_l.
Qed.
Lemma wrap_u32_of_u64 v : is_u32 v → wrap_u32 (wrap_u64 v) = v.
Proof.
  intros Hv. unfold is_u32 in Hv. rewrite wrap_u64_id by (unfold is_u64; lia). by apply Z.mod_small.
Qed.
Lemma wrap_i32_of_u64 v : is_i32 v → wrap_i32 (wrap_u64 v) = v.
Proof.
  intros Hv. unfold is_i32 in Hv.
  assert (wrap_i32 (wrap_u64 v) = wrap_i32 v) as ->.
  { unfold wrap_i32, wrap_u64. f_equal. rewrite <- (Zplus_mod_idemp_l (v mod 2 ^ 64)).
    change (2 ^ 64) with (2 ^ 32 * 2 ^ 32). rewrite Z.rem_mul_r by lia.
    rewrite (Z.mul_comm (2 ^ 32)), Z_mod_plus_full, Z.mod_mod by lia. by rewrite Zplus_mod_idemp_l. }
  unfold wrap_i32. rewrite Z.mod_small by lia. lia.
Qed.
Lemma wrap_i64_of_u64_all l : Forall is_i64 l → Forall (λ v, wrap_i64 (wrap_u64 v) = v) l.
Proof. intros Hl. eapply Forall_impl; [exact Hl|]. apply wrap_i64_of_u64. Qed.
#[export] Hint Resolve wrap_u64_of_u64 wrap_i64_of_u64 wrap_u32_of_u64 wrap_i32_of_u64
  wrap_i64_of_u64_all : wire.

Lemma writes_eq w b b' : writes w b → b = b' → writes w b'.
Proof. by intros ? <-. Qed.

Lemma parses_eq {A} name (field : Z → option (field_reader A)) sk unk m bz m1 m2 :
  parses name field sk unk m bz m1 → m1 = m2 → parses name field sk unk m bz m2.
Proof. by intros ? <-. Qed.

Lemma parses_app_bound {A} name (field : Z → option (field_reader A)) sk unk m1 b1 m2 b2 m3 :
  len (b1 ++ b2) < 2 ^ 63 → (len b1 < 2 ^ 63 → parses name field sk unk m1 b1 m2) →
  (len b2 < 2 ^ 63 → parses name field sk unk m2 b2 m3) →
  parses name field sk unk m1 (b1 ++ b2) m3.
Proof.
  rewrite len_app. intros Hl H1 H2. pose proof (len_nonneg b1). pose proof (len_nonneg b2).
  eapply parses_app; [apply H1|apply H2]; lia.
Qed.

#[export] Hint Rewrite <- size_varint_len size_bool_len size_bytes_len size_string_len
  size_strings_len size_bytestring_len size_bytestrings_len size_packed_len
  @size_message_len @size_messages_len @size_option_len @size_dec_len @size_dec_pointer_len
  @size_pointer_len : wire_size.

(** [Size] of a message against its reference encoding. *)
Ltac solve_size :=
  rewrite ?len_app; autorewrite with wire_size; unfold size_bytestring, size_bytestrings;
  [cbn [length]; change (Z.of_nat 1) with 1; change (Z.of_nat 2) with 2; lia|apply _..].

(** A writer that is a sequence of fields. *)
Ltac solve_writes :=
  eapply writes_eq; [repeat (eapply writes_seq; [solve [auto with wire]|]); solve [auto with wire]|];
  rewrite <- ?app_assoc; reflexivity.

Ltac solve_field :=
  lazymatch goal with
  | |- parses _ _ _ _ _ (enc_varint ?tag _) _ => eapply (parses_varint _ _ _ _ tag (tag_field tag))
  | |- parses _ _ _ _ _ (enc_bool ?tag _) _ => eapply (parses_bool _ _ _ _ tag (tag_field tag))
  | |- parses _ _ _ _ _ (enc_string ?tag _) _ => eapply (parses_string _ _ _ _ tag (tag_field tag))
  | |- parses _ _ _ _ _ (enc_bytes ?tag _) _ => eapply (parses_bytes _ _ _ _ tag (tag_field tag))
  | |- parses _ _ _ _ _ (enc_strings ?tag _) _ => eapply (parses_strings _ _ _ _ tag (tag_field tag))
  | |- parses _ _ _ _ _ (enc_message ?tag _) _ => eapply (parses_message _ _ _ _ tag (tag_field tag))
  | |- parses _ _ _ _ _ (enc_dec ?tag _) _ => eapply (parses_dec _ _ _ _ tag (tag_field tag))
  | |- parses _ _ _ _ _ (enc_dec_pointer ?tag _) _ => eapply (parses_dec_pointer _ _ _ _ tag (tag_field tag))
  | |- parses _ _ _ _ _ (enc_pointer _ ?tag _) _ => eapply (parses_pointer _ _ _ _ _ tag (tag_field tag))
  | |- parses _ _ _ _ _ (enc_bytestring ?tag _) _ => eapply (parses_bytestring _ _ _ _ tag (tag_field tag))
  | |- parses _ _ _ _ _ (enc_bytestrings ?tag _) _ => eapply (parses_bytestrings _ _ _ _ tag (tag_field tag))
  | |- parses _ _ _ _ _ (enc_packed ?tag _) _ => eapply (parses_packed _ _ _ _ tag (tag_field tag))
  | |- parses _ _ _ _ _ (enc_option ?tag _) _ => eapply (parses_option _ _ _ _ tag (tag_field tag))
  | |- parses _ _ _ _ _ (enc_messages ?tag _) _ => eapply (parses_messages _ _ _ _ tag (tag_field tag))
  end;
  first [eassumption | reflexivity | solve [intros; reflexivity] | solve [eauto with wire]].

(** The message read so far, as a record. *)
Ltac norm_message :=
  lazymatch goal with
  | |- parses ?name ?field ?sk ?unk ?m ?bz ?m' =>
      let r := eval hnf in m in let r := eval cbn in r in change (parses name field sk unk r bz m')
  end.

(** [Unmarshal] of the reference encoding, field by field. *)
Ltac solve_parses :=
  apply unmarshal_parses; [|done];
  eapply parses_eq;
  [repeat lazymatch goal with
     | Hl : len (_ ++ _) < _ |- parses _ _ _ _ _ (_ ++ _) _ =>
         eapply (parses_app_bound _ _ _ _ _ _ _ _ _ Hl); clear Hl; intros Hl; [solve_field|norm_message]
     end; solve_field
  |match goal with |- _ = ?m => destruct m; reflexivity end].

(** A table of fields whose readers are total. *)
Ltac head_of t := lazymatch t with ?f _ => head_of f | _ => t end.
Ltac solve_total :=
  intros n read;
  lazymatch goal with |- ?t = _ → _ => let f := head_of t in unfold f end;
  repeat (case (n =? _)); intros [= <-];
  first [solve [auto with wire] | apply total_message | apply total_messages | apply total_dec
        | apply total_dec_pointer | apply total_pointer | apply total_option].

(** The laws of a message from those of its parts. *)
Definition message_laws {A} name (empty : A) size writer field (encode : A → bytes) (ok : A → Prop) :
  (∀ m, size m = len (encode m)) →
  (∀ m, writes (writer m) (encode m)) →
  (∀ m, ok m → len (encode m) < 2 ^ 63 →
    unmarshal name field skip (λ m _, Ok m) empty (encode m) = Ok m) →
  (∀ n read, field n = Some read → total_reader read) →
  @ProtoLaws A (message name empty size writer field).
Proof.
  intros Hs Hw Hr Ht. refine {| pb_encode := encode; pb_ok := ok |}.
  - apply Hs.
  - intros m d Hl Hd. by apply to_sized_buffer_writes.
  - apply Hr.
  - intros m dAtA Hl. by apply unmarshal_total; [..|apply skip_total|intros ??|].
Defined.

Ltac solve_message encode ok size writer :=
  let e := head_of encode in let o := head_of ok in
  let s := head_of size in let w := head_of writer in
  apply (message_laws _ _ _ _ _ encode ok);
  [intros m; unfold s, e; solve_size
  |intros m; unfold w, e; solve_writes
  |intros m Hok Hl; unfold o in Hok; destruct_and?; unfold e in Hl |- *; solve_parses
  |solve_total].

(** A message without fields skips every field. *)
Ltac solve_empty_message encode ok :=
  apply (message_laws _ _ _ _ _ encode ok);
  [done|intros; apply writes_ret|intros []; done|done].

Lemma wrap_i32_range z : is_i32 (wrap_i32 z).
Proof. unfold wrap_i32, is_i32. pose proof (Z.mod_pos_bound (z + 2 ^ 31) (2 ^ 32)). lia. Qed.

Lemma wrap_u32_range z : is_u32 (wrap_u32 z).
Proof. apply Z.mod_pos_bound. lia. Qed.

(** A table of fields whose readers keep an invariant: the invariant is a
    conjunction of facts about single fields. *)
Ltac solve_typed :=
  intros n read;
  lazymatch goal with |- ?t = _ → _ => let f := head_of t in unfold f end;
  repeat (case (n =? _)); intros [= <-];
  first [apply typed_varint | apply typed_bool | apply typed_string | apply typed_bytes
        | apply typed_strings | apply typed_dec | apply typed_dec_pointer
        | apply typed_messages | apply typed_message | apply typed_messages_any
        | apply typed_option_any];
  (let x := fresh "x" in intros x *; destruct x; simpl; intros; destruct_and?; split_and?;
   auto using wrap_u64_range, wrap_i64_range, wrap_u32_range, wrap_i32_range, Forall_app_2, Forall_cons_2, Forall_nil_2).
