(* ===== verification/Pulsar.v ===== *)
(** * Pulsar: the wire format of the generated API

    The [.pulsar.go] files under [src/api] are what clients link: structs and,
    for each of them, the closures [size], [marshal] and [unmarshal] that its
    [ProtoMethods] returns to the protobuf library.  They are made of the
    fragments of this file; ApiOracle, ApiTx, ApiQuery and ApiMultisig compose
    them per message.

    The differences to the code under [src/x] (Wire): a message may be a nil
    pointer, the parts that every message shares are functions of the package
    [runtime] and of [proto.MarshalOptions] and the like, embedded messages are
    marshalled apart and copied, and the fields that a message does not know
    are kept.  The functions of these packages are not in the repository:
    [PulsarRuntime] holds them, [PulsarRuntimeLaws] (PulsarLemmas) what they
    promise. *)
From S2P Require Import Prelude Util Dec Wire WireLemmas.
Local Open Scope Z_scope.

(** The types of the closures, for pointers to a struct [A]. *)
Definition size_closure (A : Type) : Type := option A → Z.
Definition marshal_closure (A : Type) : Type := option A → option bytes → outcome (option bytes).
Definition unmarshal_closure (A : Type) : Type := bool → option A → bytes → outcome (option A).

(** [protoiface.Methods] of a struct [A]: [api_new] is [&A{}], a nil pointer
    is [None].  [api_marshal] appends to [input.Buf], the first argument of
    [api_unmarshal] is [DiscardUnknown]. *)
Class ProtoMethods (A : Type) := {
  api_new : A;
  api_size : size_closure A;
  api_marshal : marshal_closure A;
  api_unmarshal : unmarshal_closure A;
}.

(** [runtime.Sov], [runtime.EncodeVarint] and [runtime.Skip]; [options.Size]
    and [options.Marshal], given the closure of the message, and
    [options.Unmarshal], given its methods. *)
Class PulsarRuntime := {
  runtime_Sov : Z → Z;
  runtime_EncodeVarint : bytes → Z → Z → outcome (bytes * Z);
  runtime_Skip : bytes → outcome Z;
  options_Size : ∀ {A : Type}, size_closure A → option A → Z;
  options_Marshal : ∀ {A : Type}, marshal_closure A → option A → outcome bytes;
  options_Unmarshal : ∀ {A : Type}, ProtoMethods A → bool → bytes → A → outcome A;
}.

Section pulsar.
Context `{PulsarRuntime}.

(** ** Sizes

    [k] is the number of bytes of the tag. *)
Definition api_size_varint (k v : Z) : Z := if v =? 0 then 0 else k + runtime_Sov (wrap_u64 v).
Definition api_size_delimited (k l : Z) : Z := k + l + runtime_Sov l.
Definition api_size_bytes (k : Z) (bz : bytes) : Z :=
  let l := len bz in if 0 <? l then api_size_delimited k l else 0.
Definition api_size_string (k : Z) (s : string) : Z := api_size_bytes k (String.list_ascii_of_string s).

(** [for _, e := range x.F { l = ...; n += 1 + l + runtime.Sov(uint64(l)) }]. *)
Definition api_size_each {A} (size : A → Z) (k : Z) (l : list A) : Z :=
  foldl (λ n e, n + api_size_delimited k (size e)) 0 l.
Definition api_size_strings (k : Z) (l : list string) : Z :=
  api_size_each (λ s, len (String.list_ascii_of_string s)) k l.
Definition api_size_bytess (k : Z) (l : list bytes) : Z := api_size_each len k l.
Definition api_size_messages {A} `{ProtoMethods A} (k : Z) (l : list (option A)) : Z :=
  api_size_each (options_Size api_size) k l.
Definition api_size_message {A} `{ProtoMethods A} (k : Z) (x : option A) : Z :=
  match x with
  | None => 0
  | Some _ => api_size_delimited k (options_Size api_size x)
  end.

Definition api_pksize (l : list Z) : Z := foldl (λ n e, n + runtime_Sov (wrap_u64 e)) 0 l.
Definition api_size_packed (k : Z) (l : list Z) : Z :=
  if decide (l = []) then 0 else let n := api_pksize l in k + runtime_Sov n + n.

(** ** Writers *)

(** [i = runtime.EncodeVarint(dAtA, i, v)]. *)
Definition rt_varint (v : Z) : W := λ '(d, i),
  match runtime_EncodeVarint d i v with
  | Ok s => (Ok (), s)
  | Err e => (Err e, (d, i))
  | Panic => (Panic, (d, i))
  end.

Definition api_put_varint (tag : list Z) (v : Z) : W :=
  if v =? 0 then mret () else rt_varint (wrap_u64 v) ;; put_tag tag.

(** [i -= len(bz); copy(dAtA[i:], bz); i = runtime.EncodeVarint(...); tag]. *)
Definition api_put_delimited (tag : list Z) (bz : bytes) : W :=
  put_copy bz ;; rt_varint (len bz) ;; put_tag tag.
Definition api_put_bytes (tag : list Z) (bz : bytes) : W :=
  if 0 <? len bz then api_put_delimited tag bz else mret ().
Definition api_put_string (tag : list Z) (s : string) : W :=
  api_put_bytes tag (String.list_ascii_of_string s).
Definition api_put_strings (tag : list Z) (l : list string) : W :=
  forM (λ s, api_put_delimited tag (String.list_ascii_of_string s)) (rev l).
Definition api_put_bytess (tag : list Z) (l : list bytes) : W :=
  forM (api_put_delimited tag) (rev l).

(** [encoded, err := options.Marshal(x.F)]. *)
Definition api_put_encoded {A} `{ProtoMethods A} (tag : list Z) (x : option A) : W :=
  encoded ← lift (options_Marshal api_marshal x); api_put_delimited tag encoded.
Definition api_put_message {A} `{ProtoMethods A} (tag : list Z) (x : option A) : W :=
  match x with None => mret () | Some _ => api_put_encoded tag x end.
Definition api_put_messages {A} `{ProtoMethods A} (tag : list Z) (l : list (option A)) : W :=
  forM (api_put_encoded tag) (rev l).

(** [i -= pksize2; j1 := i] and the integers in place, from [j1] on. *)
Definition api_put_packed (tag : list Z) (l : list Z) : W :=
  if decide (l = []) then mret () else
  let pksize := api_pksize l in
  (λ '(d, i),
    match foldM (λ '(d, j) num, packed_varint 10 d j (wrap_u64 num)) l (d, i - pksize) with
    | Ok (d', _) => (Ok (), (d', i - pksize))
    | Err e => (Err e, (d, i))
    | Panic => (Panic, (d, i))
    end) ;;
  rt_varint (wrap_u64 pksize) ;; put_tag tag.

(** ** Readers

    Integers, strings and bytes are read as in Wire. *)
Definition bytess_field {A} (field : string) (get : A → list bytes) (set : A → list bytes → A) :
    field_reader A :=
  slice_field field read_delimited (λ x bz, Ok (set x (get x ++ [bz]))).

Section message_fields.
Context {A B : Type} `{ProtoMethods B} (discard : bool) (field : string).

(** [if x.F == nil { x.F = &B{} }; options.Unmarshal(..., x.F)]. *)
Definition api_message_field (get : A → option B) (set : A → option B → A) : field_reader A :=
  slice_field field read_delimited
    (λ x bz, b ← options_Unmarshal _ discard bz (default api_new (get x)); Ok (set x (Some b))).

(** [x.F = append(x.F, &B{}); options.Unmarshal(..., x.F[len(x.F)-1])]. *)
Definition new_element (bz : bytes) : outcome (option B) :=
  b ← options_Unmarshal _ discard bz api_new; Ok (Some b).
Definition api_messages_field (get : A → list (option B)) (set : A → list (option B) → A) :
    field_reader A :=
  slice_field field read_delimited
    (λ x bz, b ← new_element bz; Ok (set x (get x ++ [b]))).
End message_fields.

(** ** Closures

    What the closures of all the messages share: the nil pointer, the buffer,
    the bytes of unknown fields. *)
Definition closure_size {A} (n : A → Z) (x : option A) : Z :=
  match x with None => 0 | Some x => n x end.

(** [dAtA := make([]byte, options.Size(x))], filled from its end, and the
    append to [input.Buf]. *)
Definition closure_marshal {A} (size : option A → Z) (writer : A → W) (x : option A)
    (Buf : option bytes) : outcome (option bytes) :=
  match x with
  | None => Ok Buf
  | Some m =>
      let n := options_Size size x in
      if 2 ^ 63 <=? n then Panic else
      match writer m (replicate (Z.to_nat n) zero_byte, n) with
      | (Ok _, (dAtA, _)) => Ok (Some match Buf with Some b => b ++ dAtA | None => dAtA end)
      | (Err e, _) => Err e
      | (Panic, _) => Panic
      end
  end.

(** [unknown x bz] is [x.unknownFields = append(x.unknownFields, bz...)]; the
    slice is taken only without the option [DiscardUnknown]. *)
Definition keep_unknown {A} (unknown : A → bytes → A) (discard : bool) (x : A) (bz : outcome bytes) :
    outcome A :=
  if discard then Ok x else bz ← bz; Ok (unknown x bz).

Definition closure_unmarshal {A} (name : string) (field : bool → Z → option (field_reader A))
    (unknown : A → bytes → A) (discard : bool) (x : option A) (dAtA : bytes) : outcome (option A) :=
  match x with
  | None => Ok None
  | Some x =>
      x' ← unmarshal name (field discard) runtime_Skip
        (keep_unknown unknown discard) x dAtA;
      Ok (Some x')
  end.
End pulsar.

(** ** The reference encoding *)

Definition enc_bytess (tag : list Z) (l : list bytes) : bytes := enc_each id tag l.

(** Fields that a message does not know: a tag and a value of one of the wire
    types that are not groups. *)
Inductive raw_field (n : Z) : bytes → Prop :=
  | raw_varint v : is_u64 v → raw_field n (varint (8 * n) ++ varint v)
  | raw_fixed64 bz : length bz = 8%nat → raw_field n (varint (8 * n + 1) ++ bz)
  | raw_bytes bz : raw_field n (varint (8 * n + 2) ++ varint (len bz) ++ bz)
  | raw_fixed32 bz : length bz = 4%nat → raw_field n (varint (8 * n + 5) ++ bz).

(** A sequence of fields with numbers that are not in the table. *)
Inductive unknown_fields {A} (field : Z → option (field_reader A)) : bytes → Prop :=
  | unknown_nil : unknown_fields field []
  | unknown_cons n bz u :
      is_field_number n → raw_field n bz → field n = None →
      unknown_fields field u → unknown_fields field (bz ++ u).

(** What the writer of a message may keep of unknown fields to be read back
    with the option [DiscardUnknown] or without it. *)
Definition kept_fields {A} (field : bool → Z → option (field_reader A)) (discard : bool)
    (u : bytes) : Prop :=
  if discard then u = [] else unknown_fields (field discard) u.

(** The structs of the SDK's API that the messages embed, and their methods. *)
Class CosmosApi := {
  v1beta1_DecCoin : Type;
  anypb_Any : Type;
  v1beta1_DecCoin_methods :: ProtoMethods v1beta1_DecCoin;
  anypb_Any_methods :: ProtoMethods anypb_Any;
}.
