(* ===== verification/PulsarLemmas.v ===== *)
(** * PulsarLemmas: the closures of the generated API against the encoding

    What the functions outside of the repository promise
    ([PulsarRuntimeLaws]), the laws of a message ([ApiLaws]) and, for each
    fragment of Pulsar, the lemma that relates it to the reference encoding of
    Wire: the same encoding that the code under [src/x] writes. *)
From S2P Require Import Prelude Util Dec Wire WireLemmas Pulsar.
Local Open Scope Z_scope.

(** [runtime.Sov] is the length of a varint, [runtime.EncodeVarint] writes it
    below an index, [runtime.Skip] goes over one field; [options.Size] and
    [options.Marshal] return what the closures of the message compute, and
    [options.Unmarshal] into a new message what its closure makes of it. *)
Class PulsarRuntimeLaws `{PulsarRuntime} := {
  runtime_Sov_varint v : is_u64 v → runtime_Sov v = len (varint v);
  runtime_EncodeVarint_writes v : is_u64 v → writes (rt_varint v) (varint v);
  runtime_Skip_field n bz tail :
    is_field_number n → raw_field n bz → len (bz ++ tail) < 2 ^ 63 →
    runtime_Skip (bz ++ tail) = Ok (len bz);
  runtime_Skip_total : total_skip runtime_Skip;
  options_Size_closure {A} (size : size_closure A) x : options_Size size x = size x;
  options_Marshal_closure {A} (marshal : marshal_closure A) x e :
    (∀ Buf, ∃ out, marshal x Buf = Ok out ∧ default [] out = default [] Buf ++ e) →
    options_Marshal marshal x = Ok e;
  options_Unmarshal_new {A} `{ProtoMethods A} discard bz b :
    api_unmarshal discard (Some api_new) bz = Ok (Some b) →
    options_Unmarshal _ discard bz api_new = Ok b;
  options_Unmarshal_total {A} `{ProtoMethods A} discard bz x :
    (∀ y, api_unmarshal discard y bz ≠ Panic) → options_Unmarshal _ discard bz x ≠ Panic;
}.

(** What a message of the API owes to those that embed it. *)
Class ApiLaws (A : Type) `{ProtoMethods A} := {
  api_encode : A → bytes;
  api_ok : bool → A → Prop;
  api_encode_new : api_encode api_new = [];
  api_size_nil : api_size None = 0;
  api_size_encode x : len (api_encode x) < 2 ^ 63 → api_size (Some x) = len (api_encode x);
  api_marshal_nil Buf : api_marshal None Buf = Ok Buf;
  api_marshal_encode x Buf :
    len (api_encode x) < 2 ^ 63 →
    api_marshal (Some x) Buf = Ok (Some (default [] Buf ++ api_encode x));
  api_unmarshal_encode discard x :
    api_ok discard x → len (api_encode x) < 2 ^ 63 →
    api_unmarshal discard (Some api_new) (api_encode x) = Ok (Some x);
  api_unmarshal_total discard x bz : len bz < 2 ^ 63 → api_unmarshal discard x bz ≠ Panic;
}.

Class CosmosApiLaws `{CosmosApi} := {
  v1beta1_DecCoin_laws :: ApiLaws v1beta1_DecCoin;
  anypb_Any_laws :: ApiLaws anypb_Any;
}.

(** A nil pointer is encoded as an empty message. *)
Definition api_bytes {A} `{ApiLaws A} (x : option A) : bytes := from_option api_encode [] x.

Definition enc_api_message {A} `{ApiLaws A} (tag : list Z) (x : option A) : bytes :=
  match x with None => [] | Some _ => enc_delimited tag (api_bytes x) end.
Definition enc_api_messages {A} `{ApiLaws A} (tag : list Z) (l : list (option A)) : bytes :=
  enc_each api_bytes tag l.

(** An element that can be read back is not a nil pointer. *)
Definition api_element_ok {A} `{ApiLaws A} (discard : bool) (x : option A) : Prop :=
  match x with None => False | Some x => api_ok discard x end.
Definition api_option_ok {A} `{ApiLaws A} (discard : bool) (x : option A) : Prop :=
  match x with None => True | Some x => api_ok discard x end.

Lemma options_Marshal_bytes {A} `{PulsarRuntimeLaws} `{ApiLaws A} (x : option A) :
  len (api_bytes x) < 2 ^ 63 → options_Marshal api_marshal x = Ok (api_bytes x).
Proof.
  intros Hl. apply options_Marshal_closure. intros Buf. destruct x as [x|]; simpl in *.
  - eexists. rewrite api_marshal_encode by done. done.
  - exists Buf. by rewrite api_marshal_nil, app_nil_r.
Qed.

(** ** Sizes *)

Section sizes.
Context `{PulsarRuntimeLaws}.

Lemma len_delimited tag bz :
  len (enc_delimited tag bz) = Z.of_nat (length tag) + len (varint (len bz)) + len bz.
Proof. unfold enc_delimited. rewrite !len_app, len_tag_bytes. lia. Qed.

Lemma delimited_bound tag bz : len (enc_delimited tag bz) < 2 ^ 63 → len bz < 2 ^ 63.
Proof. rewrite len_delimited. pose proof (len_nonneg (varint (len bz))). lia. Qed.

Lemma size_add s1 s2 b1 b2 :
  len (b1 ++ b2) < 2 ^ 63 → (len b1 < 2 ^ 63 → s1 = len b1) → (len b2 < 2 ^ 63 → s2 = len b2) →
  s1 + s2 = len (b1 ++ b2).
Proof.
  rewrite len_app. intros Hl H1 H2. pose proof (len_nonneg b1). pose proof (len_nonneg b2).
  rewrite H1, H2 by lia. done.
Qed.

Lemma api_size_varint_len tag v :
  api_size_varint (Z.of_nat (length tag)) v = len (enc_varint tag v).
Proof.
  unfold api_size_varint, enc_varint. case_match; [done|].
  by rewrite len_app, len_tag_bytes, runtime_Sov_varint by apply wrap_u64_range.
Qed.

Lemma api_size_delimited_len tag bz :
  len (enc_delimited tag bz) < 2 ^ 63 →
  api_size_delimited (Z.of_nat (length tag)) (len bz) = len (enc_delimited tag bz).
Proof.
  intros Hl%delimited_bound. pose proof (len_nonneg bz). unfold api_size_delimited.
  rewrite len_delimited, runtime_Sov_varint by (unfold is_u64; lia). lia.
Qed.

Lemma api_size_bytes_len tag bz :
  len (enc_bytes tag bz) < 2 ^ 63 →
  api_size_bytes (Z.of_nat (length tag)) bz = len (enc_bytes tag bz).
Proof. unfold api_size_bytes, enc_bytes. case_match; [apply api_size_delimited_len|done]. Qed.
Lemma api_size_string_len tag s :
  len (enc_string tag s) < 2 ^ 63 →
  api_size_string (Z.of_nat (length tag)) s = len (enc_string tag s).
Proof. apply api_size_bytes_len. Qed.

Lemma api_size_each_len {A} (size : A → Z) (encode : A → bytes) tag l :
  (∀ a, len (encode a) < 2 ^ 63 → size a = len (encode a)) →
  len (enc_each encode tag l) < 2 ^ 63 →
  api_size_each size (Z.of_nat (length tag)) l = len (enc_each encode tag l).
Proof.
  intros Hs. unfold api_size_each, enc_each. rewrite <- (Z.add_0_l (len _)) at 2. generalize 0 as n.
  induction l as [|a l IH]; intros n; simpl; [rewrite len_nil; lia|]. rewrite len_app. intros Hl.
  pose proof (len_nonneg (enc_delimited tag (encode a))).
  pose proof (len_nonneg (concat (map (λ a, enc_delimited tag (encode a)) l))).
  assert (len (enc_delimited tag (encode a)) < 2 ^ 63) as Ha by lia.
  rewrite IH by lia. rewrite Hs by by eapply delimited_bound. rewrite api_size_delimited_len by done.
  lia.
Qed.
Lemma api_size_strings_len tag l :
  len (enc_strings tag l) < 2 ^ 63 →
  api_size_strings (Z.of_nat (length tag)) l = len (enc_strings tag l).
Proof. by apply api_size_each_len. Qed.
Lemma api_size_bytess_len tag l :
  len (enc_bytess tag l) < 2 ^ 63 →
  api_size_bytess (Z.of_nat (length tag)) l = len (enc_bytess tag l).
Proof. by apply api_size_each_len. Qed.

Lemma api_size_bytes_of {A} `{ApiLaws A} (x : option A) :
  len (api_bytes x) < 2 ^ 63 → options_Size api_size x = len (api_bytes x).
Proof.
  intros Hl. rewrite options_Size_closure. destruct x; simpl in *; [by apply api_size_encode|].
  apply api_size_nil.
Qed.
Lemma api_size_messages_len {A} `{ApiLaws A} tag (l : list (option A)) :
  len (enc_api_messages tag l) < 2 ^ 63 →
  api_size_messages (Z.of_nat (length tag)) l = len (enc_api_messages tag l).
Proof. apply api_size_each_len. apply api_size_bytes_of. Qed.
Lemma api_size_message_len {A} `{ApiLaws A} tag (x : option A) :
  len (enc_api_message tag x) < 2 ^ 63 →
  api_size_message (Z.of_nat (length tag)) x = len (enc_api_message tag x).
Proof.
  unfold api_size_message, enc_api_message. destruct x as [x|]; [|done]. intros Hl.
  rewrite api_size_bytes_of by by eapply delimited_bound. by apply api_size_delimited_len.
Qed.

Lemma api_pksize_len l : api_pksize l = len (packed_bytes l).
Proof.
  unfold api_pksize. rewrite <- (Z.add_0_l (len _)). generalize 0 as n.
  induction l as [|v l IH]; intros n; unfold packed_bytes in *; cbn [foldl map concat].
  - rewrite len_nil. lia.
  - rewrite IH, len_app, runtime_Sov_varint by apply wrap_u64_range. lia.
Qed.
Lemma api_size_packed_len tag l :
  len (enc_packed tag l) < 2 ^ 63 →
  api_size_packed (Z.of_nat (length tag)) l = len (enc_packed tag l).
Proof.
  unfold api_size_packed, enc_packed. case_decide; [done|]. intros Hl. rewrite api_pksize_len.
  rewrite <- api_size_delimited_len by done. unfold api_size_delimited. lia.
Qed.
End sizes.

(** ** Writers *)

Section writers.
Context `{PulsarRuntimeLaws}.

Lemma api_writes_delimited tag bz : writes (api_put_delimited tag bz) (enc_delimited tag bz).
Proof.
  apply writes_bound. intros Hl%delimited_bound. pose proof (len_nonneg bz).
  unfold api_put_delimited, enc_delimited. rewrite app_assoc. apply writes_seq; [apply writes_copy|].
  apply writes_seq; [|apply writes_tag]. apply runtime_EncodeVarint_writes. unfold is_u64. lia.
Qed.
Lemma api_writes_varint tag v : writes (api_put_varint tag v) (enc_varint tag v).
Proof.
  unfold api_put_varint, enc_varint. case_match; [apply writes_ret|].
  apply writes_seq; [apply runtime_EncodeVarint_writes, wrap_u64_range|apply writes_tag].
Qed.
Lemma api_writes_bytes tag bz : writes (api_put_bytes tag bz) (enc_bytes tag bz).
Proof.
  unfold api_put_bytes, enc_bytes. case_match; [apply api_writes_delimited|apply writes_ret].
Qed.
Lemma api_writes_string tag s : writes (api_put_string tag s) (enc_string tag s).
Proof. apply api_writes_bytes. Qed.
Lemma api_writes_strings tag l : writes (api_put_strings tag l) (enc_strings tag l).
Proof. apply writes_forM. intros. apply api_writes_delimited. Qed.
Lemma api_writes_bytess tag l : writes (api_put_bytess tag l) (enc_bytess tag l).
Proof. apply writes_forM. intros. apply api_writes_delimited. Qed.

Lemma api_writes_encoded {A} `{ApiLaws A} tag (x : option A) :
  writes (api_put_encoded tag x) (enc_delimited tag (api_bytes x)).
Proof.
  apply writes_bound. intros Hl%delimited_bound junk out Hj Hj'. unfold api_put_encoded.
  rewrite options_Marshal_bytes by done. unfold lift, mbind, M_bind. by apply api_writes_delimited.
Qed.
Lemma api_writes_message {A} `{ApiLaws A} tag (x : option A) :
  writes (api_put_message tag x) (enc_api_message tag x).
Proof. destruct x; [apply api_writes_encoded|apply writes_ret]. Qed.
Lemma api_writes_messages {A} `{ApiLaws A} tag (l : list (option A)) :
  writes (api_put_messages tag l) (enc_api_messages tag l).
Proof. apply writes_forM. intros. apply api_writes_encoded. Qed.

Lemma api_writes_packed tag l : writes (api_put_packed tag l) (enc_packed tag l).
Proof.
  apply writes_bound. unfold api_put_packed, enc_packed. case_decide; [intros _; apply writes_ret|].
  intros Hl%delimited_bound. rewrite api_pksize_len. pose proof (len_nonneg (packed_bytes l)).
  unfold enc_delimited. rewrite app_assoc. apply writes_seq.
  - intros junk out Hj Hj'.
    replace (len junk - len (packed_bytes l)) with (Z.of_nat (length junk - length (packed_bytes l)))
      by (unfold len; lia).
    rewrite packed_fold_spec by (rewrite length_app; lia). rewrite take_app_le by lia.
    replace (length junk - length (packed_bytes l) + length (packed_bytes l))%nat
      with (length junk) by lia.
    by rewrite drop_app_length.
  - rewrite wrap_u64_id by (unfold is_u64; lia).
    apply writes_seq; [apply runtime_EncodeVarint_writes; unfold is_u64; lia|apply writes_tag].
Qed.
End writers.
#[export] Hint Resolve writes_copy api_writes_varint api_writes_bytes api_writes_string
  api_writes_strings api_writes_bytess api_writes_message api_writes_messages
  api_writes_packed : wire.

(** ** Readers *)

Section parses.
Context `{PulsarRuntimeLaws} {A : Type} (name : string) (field : Z → option (field_reader A)).
Context (unknown : A → outcome bytes → outcome A).
Abbreviation parses := (parses name field runtime_Skip unknown).

Lemma api_parses_bytess tag n fld (get : A → list bytes) set m l :
  tag_ok tag n 2 = true → field n = Some (bytess_field fld get set) →
  (∀ m x, get (set m x) = x) → (∀ m x y, set (set m x) y = set m y) → set m (get m) = m →
  get m = [] → len (enc_bytess tag l) < 2 ^ 63 → parses m (enc_bytess tag l) (set m l).
Proof.
  intros Ht Hn ??????. apply (parses_each _ _ _ _ tag n fld read_delimited get set _ Ok); auto.
  apply Forall_forall. done.
Qed.

Lemma api_parses_message {B} `{ApiLaws B} discard tag n fld (get : A → option B) set m b :
  tag_ok tag n 2 = true → field n = Some (api_message_field discard fld get set) →
  get m = None → set m None = m → len (enc_api_message tag b) < 2 ^ 63 → api_option_ok discard b →
  parses m (enc_api_message tag b) (set m b).
Proof.
  intros ?? Hg Hz Hl Hb. destruct b as [b|]; simpl in *; [|rewrite Hz; apply parses_nil].
  eapply parses_slice; eauto. simpl. rewrite Hg. simpl.
  erewrite options_Unmarshal_new; [done|].
  apply api_unmarshal_encode; [done|by eapply delimited_bound].
Qed.

Lemma api_parses_messages {B} `{ApiLaws B} discard tag n fld (get : A → list (option B)) set m l :
  tag_ok tag n 2 = true → field n = Some (api_messages_field discard fld get set) →
  (∀ m x, get (set m x) = x) → (∀ m x y, set (set m x) y = set m y) → set m (get m) = m →
  get m = [] → len (enc_api_messages tag l) < 2 ^ 63 → Forall (api_element_ok discard) l →
  parses m (enc_api_messages tag l) (set m l).
Proof.
  intros Ht Hn Hgs Hss Hsg Hg Hl Hok.
  apply (parses_each _ _ _ _ tag n fld read_delimited get set api_bytes (new_element discard)); auto.
  eapply Forall_impl; [exact Hok|]. intros [b|] Hb Hb'; simpl in *; [|done].
  unfold new_element. erewrite options_Unmarshal_new; [done|]. by apply api_unmarshal_encode.
Qed.
End parses.

(** The bytes of unknown fields, one after the other. *)
Lemma raw_field_tag n bz :
  raw_field n bz → ∃ w body, 0 ≤ w < 8 ∧ w ≠ 4 ∧ bz = varint (8 * n + w) ++ body.
Proof.
  intros []; [exists 0, (varint v)|exists 1, bz0|exists 2, (varint (len bz0) ++ bz0)|exists 5, bz0];
    split_and!; try lia; by rewrite ?Z.add_0_r.
Qed.

Lemma api_parses_field `{PulsarRuntimeLaws} {A} name (field : Z → option (field_reader A)) unknown
    m n bz m' :
  is_field_number n → raw_field n bz → field n = None → unknown m (Ok bz) = Ok m' →
  parses name field runtime_Skip unknown m bz m'.
Proof.
  intros Hn Hr Hf Hm pre tail fuel Hl Hfu.
  pose proof (len_nonneg pre). pose proof (len_nonneg bz). pose proof (len_nonneg tail).
  pose proof (runtime_Skip_field n bz tail Hn Hr ltac:(rewrite len_app; lia)) as Hsk.
  destruct (raw_field_tag n bz Hr) as (w & body & Hw & Hw4 & Eb).
  assert (is_u64 (8 * n + w)) as Hu by (unfold is_field_number, is_u64 in *; lia).
  assert (varint (8 * n + w) ≠ []) as Hne by (apply varint_nonempty, Hu).
  assert (0 < length bz)%nat as Hp.
  { rewrite Eb, length_app. destruct (varint _); [done|simpl; lia]. }
  destruct fuel as [|fuel]; [lia|]. exists fuel. split; [lia|]. cbn [unmarshal_loop].
  rewrite at_inside_nonempty by (intros [-> _]%app_nil; simpl in Hp; lia). unfold unmarshal_field.
  rewrite slice_at_end. rewrite Eb at 1. rewrite <- app_assoc, read_varint_spec by auto with wire.
  cbn [mbind outcome_bind].
  rewrite wrap_u64_id by done. destruct (tag_parts n w) as (-> & -> & ->); [done|done|].
  rewrite (proj2 (Z.eqb_neq w 4)) by done. unfold is_field_number in Hn.
  rewrite (proj2 (Z.leb_gt _ _)) by lia. rewrite Hf, Hsk.
  cbn [mbind outcome_bind]. rewrite (proj2 (Z.ltb_ge (len bz) 0)) by done.
  change (iNdEx (at_ pre (bz ++ tail))) with (len pre).
  rewrite wrap_i64_id by (unfold is_i64; lia). rewrite limit_at. cbn [orb].
  rewrite !(proj2 (Z.ltb_ge _ _)) by (rewrite ?len_app; lia).
  rewrite slice_at, Hm. cbn [mbind outcome_bind]. by rewrite advance_at by lia.
Qed.

Lemma api_parses_unknown `{PulsarRuntimeLaws} {A} name (field : bool → Z → option (field_reader A))
    (unknown : A → bytes → A) discard m u :
  (∀ m u1 u2, unknown (unknown m u1) u2 = unknown m (u1 ++ u2)) → unknown m [] = m →
  kept_fields field discard u →
  parses name (field discard) runtime_Skip (keep_unknown unknown discard) m u (unknown m u).
Proof.
  intros Ha Hz. unfold kept_fields. destruct discard; [intros ->; rewrite Hz; apply parses_nil|].
  intros Hu. revert m Hz. induction Hu as [|n bz u Hn Hr Hf Hu IH]; intros m Hz.
  { rewrite Hz. apply parses_nil. }
  rewrite <- Ha. eapply parses_app.
  - by apply (api_parses_field _ _ (keep_unknown unknown false) m n bz).
  - apply IH. by rewrite Ha, app_nil_r.
Qed.

(** ** Readers that return *)

Lemma total_bytess {A} fld (get : A → list bytes) set : total_reader (bytess_field fld get set).
Proof. apply total_slice; auto. Qed.
Lemma total_api_message {A B} `{PulsarRuntimeLaws} `{ApiLaws B} discard fld (get : A → option B) set :
  total_reader (api_message_field discard fld get set).
Proof.
  apply total_slice; auto. intros m bz Hl. apply (total_bind_Ok _ (λ b, set m (Some b))).
  apply options_Unmarshal_total. intros. by apply api_unmarshal_total.
Qed.
Lemma total_api_messages {A B} `{PulsarRuntimeLaws} `{ApiLaws B} discard fld
    (get : A → list (option B)) set : total_reader (api_messages_field discard fld get set).
Proof.
  apply total_slice; auto. intros m bz Hl. apply total_bind_Ok. unfold new_element.
  apply (total_bind_Ok _ Some). apply options_Unmarshal_total. intros. by apply api_unmarshal_total.
Qed.

(** ** The laws of a message from those of its parts *)

Definition pulsar_laws `{PulsarRuntimeLaws} {A} name (new : A) size writer field unknown
    (encode : A → bytes) (ok : bool → A → Prop) :
  encode new = [] →
  (∀ x, len (encode x) < 2 ^ 63 → size x = len (encode x)) →
  (∀ x, writes (writer x) (encode x)) →
  (∀ discard x, ok discard x → len (encode x) < 2 ^ 63 →
    unmarshal name (field discard) runtime_Skip (keep_unknown unknown discard)
      new (encode x) = Ok x) →
  (∀ (discard : bool) n read, field discard n = Some read → total_reader read) →
  @ApiLaws A {| api_new := new; api_size := closure_size size;
    api_marshal := closure_marshal (closure_size size) writer;
    api_unmarshal := closure_unmarshal name field unknown |}.
Proof.
  intros Hn Hs Hw Hr Ht. refine {| api_encode := encode; api_ok := ok |}; simpl.
  - done.
  - done.
  - apply Hs.
  - done.
  - intros x Buf Hl. unfold closure_marshal. rewrite options_Size_closure. simpl.
    rewrite Hs, (proj2 (Z.leb_gt _ _)) by done. pose proof (len_nonneg (encode x)).
    assert (Z.to_nat (len (encode x)) = length (encode x)) as -> by (unfold len; lia).
    set (junk := replicate (length (encode x)) zero_byte).
    assert (length junk = length (encode x)) as Hj by apply length_replicate.
    assert (len junk = len (encode x)) as Hj' by (unfold len; lia).
    rewrite <- (app_nil_r junk), <- Hj', Hw by (done || lia).
    rewrite Hj, Nat.sub_diag, app_nil_r. by destruct Buf.
  - intros discard x Hok Hl. unfold closure_unmarshal. by rewrite Hr.
  - intros discard [x|] bz Hl; [|done]. apply (total_bind_Ok _ Some).
    by apply unmarshal_total; [apply Ht|apply runtime_Skip_total|destruct discard|].
Defined.

Ltac api_size_field :=
  lazymatch goal with
  | |- _ = len (enc_varint ?tag _) => apply (api_size_varint_len tag)
  | |- _ = len (enc_bool ?tag _) => apply (size_bool_len tag)
  | |- _ = len (enc_string ?tag _) => apply (api_size_string_len tag); assumption
  | |- _ = len (enc_bytes ?tag _) => apply (api_size_bytes_len tag); assumption
  | |- _ = len (enc_strings ?tag _) => apply (api_size_strings_len tag); assumption
  | |- _ = len (enc_bytess ?tag _) => apply (api_size_bytess_len tag); assumption
  | |- _ = len (enc_packed ?tag _) => apply (api_size_packed_len tag); assumption
  | |- _ = len (enc_api_message ?tag _) => apply (api_size_message_len tag); assumption
  | |- _ = len (enc_api_messages ?tag _) => apply (api_size_messages_len tag); assumption
  | |- _ => reflexivity
  end.

Ltac solve_api_size :=
  rewrite ?app_assoc in *;
  repeat lazymatch goal with
    | Hl : len (_ ++ _) < _ |- _ = len (_ ++ _) =>
        eapply (size_add _ _ _ _ Hl); clear Hl; intros ?; [|api_size_field]
    end; api_size_field.

Ltac solve_api_field :=
  lazymatch goal with
  | |- parses _ _ _ _ _ (enc_bytess ?tag _) _ => eapply (api_parses_bytess _ _ _ tag (tag_field tag))
  | |- parses _ _ _ _ _ (enc_api_message ?tag _) _ =>
      eapply (api_parses_message _ _ _ _ tag (tag_field tag))
  | |- parses _ _ _ _ _ (enc_api_messages ?tag _) _ =>
      eapply (api_parses_messages _ _ _ _ tag (tag_field tag))
  | |- _ => solve_field
  end;
  first [eassumption | reflexivity | solve [intros; reflexivity] | solve [eauto with wire]].

Ltac solve_api_parses field unknown :=
  apply unmarshal_parses; [|done];
  eapply parses_eq;
  [repeat lazymatch goal with
     | Hl : len (_ ++ _) < _ |- parses _ _ _ _ _ (_ ++ _) _ =>
         eapply (parses_app_bound _ _ _ _ _ _ _ _ _ Hl); clear Hl; intros Hl;
         [solve_api_field|norm_message]
     end;
   eapply (api_parses_unknown _ field unknown);
   [intros [] ??; let u := head_of unknown in unfold u; cbn; by rewrite <- app_assoc|reflexivity|assumption]
  |match goal with |- _ = ?m => destruct m; reflexivity end].

Ltac solve_api_total field :=
  intros discard n read; unfold field;
  repeat (case (n =? _)); intros [= <-];
  first [solve [auto with wire] | apply total_bytess | apply total_api_message
        | apply total_api_messages].

Ltac solve_api_message encode ok field unknown :=
  let e := head_of encode in let o := head_of ok in let f := head_of field in
  apply (pulsar_laws _ _ _ _ field unknown encode ok);
  [reflexivity
  |intros x Hl; unfold e in Hl |- *; solve_api_size
  |intros x; unfold e; solve_writes
  |intros discard x Hok Hl; unfold o in Hok; destruct_and?; unfold e in Hl |- *;
   solve_api_parses field unknown
  |solve_api_total f].
