(* ===== verification/Reflect.v ===== *)
(** * Reflect: the reflection of the generated API

    Next to the closures of Pulsar, the [.pulsar.go] files under [src/api] give
    every struct the methods of [protoreflect.Message]: a field is named by a
    descriptor, read and written as a [protoreflect.Value], and a field with
    several elements is a [protoreflect.List].  The protobuf library clones,
    compares and prints messages with them.  This file holds the fragments the
    methods are made of, the interface [MessageReflect] they implement, and
    two functions a user writes with them: a copy and an encoder.

    The library itself is not in the repository: a [Value] is abstract, with
    the injections and projections the methods call ([ProtoReflect]); what a
    projection returns of an injected value is stated as laws.  A panic of the
    library or a nil pointer is [Panic].

    A [List] wraps a pointer to a slice, [None] when it is nil.  The model of a
    wrapper holds the slice as it was when the wrapper was made: [Mutable]
    returns it with the struct, and a write through a wrapper that points into
    a struct is the method of the list, followed by [Set] of the result.  A
    slice has no spare capacity. *)
From S2P Require Import Prelude Util Wire Pulsar.
Local Open Scope Z_scope.

(** ** Descriptors *)

Inductive Kind : Type :=
  | BoolKind | EnumKind | Int64Kind | Uint32Kind | Uint64Kind | StringKind | BytesKind | MessageKind.

Record FieldDescriptor := mkField {
  FullName : string;
  Number : Z;
  FieldKind : Kind;
  IsList : bool;
}.

(** ** Values

    [Value_string v] is [v.Interface().(string)], which panics when [v] is
    not a string; [v.String()] formats any value.  [Value_elements v] is what a
    loop over [v.List()] reads, [Value_Marshal v] what [proto.Marshal] writes
    for [v.Message()]. *)
Class ProtoReflect := {
  Value : Type;
  ValueOfBool : bool → Value;
  ValueOfEnum : Z → Value;
  ValueOfInt64 : Z → Value;
  ValueOfUint32 : Z → Value;
  ValueOfUint64 : Z → Value;
  ValueOfString : string → Value;
  ValueOfBytes : bytes → Value;
  Value_Bool : Value → outcome bool;
  Value_Enum : Value → outcome Z;
  Value_Int : Value → outcome Z;
  Value_Uint : Value → outcome Z;
  Value_string : Value → outcome string;
  Value_String : Value → string;
  Value_Bytes : Value → outcome bytes;
  Value_elements : Value → outcome (list Value);
  Value_Marshal : Value → outcome bytes;
}.

(** Pointers to [A]: [ValueOfMessage(x.ProtoReflect())], also for a nil [x], and
    [value.Message().Interface().( *A)]. *)
Class MessageValue (A : Type) `{ProtoReflect} := {
  ValueOfMessage : option A → Value;
  Value_Message : Value → outcome (option A);
}.

(** [protoreflect.List]. *)
Class ProtoList (L : Type) `{ProtoReflect} := {
  list_Len : L → Z;
  list_Get : L → Z → outcome Value;
  list_Set : L → Z → Value → outcome L;
  list_Append : L → Value → outcome L;
  list_AppendMutable : L → outcome (Value * L);
  list_Truncate : L → Z → outcome L;
  list_NewElement : Value;
  list_IsValid : L → bool;
}.

(** [ValueOfList] of the wrapper [L], and [value.List().( *L)]. *)
Class ListValue (L : Type) `{ProtoReflect} := {
  ValueOfList : L → Value;
  Value_List : Value → outcome L;
}.

(** ** Lists *)

Section lists.
Context `{ProtoReflect} {L A : Type} (mk : option (list A) → L) (slice : L → option (list A)).
Context (of_element : A → Value) (element : Value → outcome A).

Definition in_range (s : list A) (i : Z) : bool := (0 <=? i) && (i <? Z.of_nat (length s)).

Definition slice_Len (x : L) : Z :=
  match slice x with None => 0 | Some s => Z.of_nat (length s) end.

Definition slice_Get (x : L) (i : Z) : outcome Value :=
  s ← or_panic (slice x);
  if in_range s i then a ← or_panic (s !! Z.to_nat i); Ok (of_element a) else Panic.

Definition slice_Set (x : L) (i : Z) (value : Value) : outcome L :=
  a ← element value;
  s ← or_panic (slice x);
  if in_range s i then Ok (mk (Some (<[Z.to_nat i := a]> s))) else Panic.

Definition slice_Append (x : L) (value : Value) : outcome L :=
  a ← element value; s ← or_panic (slice x); Ok (mk (Some (s ++ [a]))).

(** [v := new(T)]. *)
Definition slice_AppendMutable (v : A) (x : L) : outcome (Value * L) :=
  s ← or_panic (slice x); Ok (of_element v, mk (Some (s ++ [v]))).

Definition slice_Truncate (x : L) (n : Z) : outcome L :=
  s ← or_panic (slice x);
  if (0 <=? n) && (n <=? Z.of_nat (length s)) then Ok (mk (Some (take (Z.to_nat n) s))) else Panic.

Definition slice_IsValid (x : L) : bool := match slice x with None => false | Some _ => true end.

(** A list of scalars, [zero] of their type: [AppendMutable] panics. *)
Definition scalar_list (zero : A) : ProtoList L := {|
  list_Len := slice_Len;
  list_Get := slice_Get;
  list_Set := slice_Set;
  list_Append := slice_Append;
  list_AppendMutable _ := Panic;
  list_Truncate := slice_Truncate;
  list_NewElement := of_element zero;
  list_IsValid := slice_IsValid;
|}.
End lists.

Definition message_list `{ProtoReflect} {L A : Type} `{!MessageValue A, ProtoMethods A}
    (mk : option (list (option A)) → L) (slice : L → option (list (option A))) : ProtoList L := {|
  list_Len := slice_Len slice;
  list_Get := slice_Get slice ValueOfMessage;
  list_Set := slice_Set mk slice Value_Message;
  list_Append := slice_Append mk slice Value_Message;
  list_AppendMutable := slice_AppendMutable mk slice ValueOfMessage (Some api_new);
  list_Truncate := slice_Truncate mk slice;
  list_NewElement := ValueOfMessage (Some api_new);
  list_IsValid := slice_IsValid slice;
|}.

Definition string_list `{ProtoReflect} {L : Type} (mk : option (list string) → L)
    (slice : L → option (list string)) : ProtoList L :=
  scalar_list mk slice ValueOfString (λ value, Ok (Value_String value)) ""%string.
Definition bytes_list `{ProtoReflect} {L : Type} (mk : option (list bytes) → L)
    (slice : L → option (list bytes)) : ProtoList L :=
  scalar_list mk slice ValueOfBytes Value_Bytes [].
Definition int64_list `{ProtoReflect} {L : Type} (mk : option (list Z) → L)
    (slice : L → option (list Z)) : ProtoList L :=
  scalar_list mk slice ValueOfInt64 Value_Int 0.

(** The loop over a list by [Len] and [Get]. *)
Definition list_elements {L} `{ProtoList L} (x : L) : outcome (list Value) :=
  foldM (λ values i, value ← list_Get x i; Ok (values ++ [value])) (seqZ 0 (list_Len x)) [].

(** ** Fields *)

(** [switch fd.FullName()]; the default case panics. *)
Fixpoint field_switch {A} (fd : FieldDescriptor) (cases : list (string * outcome A)) : outcome A :=
  match cases with
  | [] => Panic
  | (name, r) :: cases' => if String.eqb (FullName fd) name then r else field_switch fd cases'
  end.

(** [x.F != 0], [x.F != ""], [len(x.F) != 0], [x.F != nil]. *)
Definition has_int (v : Z) : bool := negb (v =? 0).
Definition has_string (s : string) : bool := negb (String.eqb s "").
Definition has_slice {A} (l : list A) : bool := negb (Z.of_nat (length l) =? 0).
Definition has_message {A} (x : option A) : bool := match x with None => false | Some _ => true end.

Section fields.
Context `{ProtoReflect} {X : Type}.

(** [if x.F is populated { if !f(fd, value) { return } }], field by field. *)
Fixpoint range_fields {S} (f : FieldDescriptor → Value → M S bool)
    (fields : list (bool * FieldDescriptor * Value)) : M S () :=
  match fields with
  | [] => mret ()
  | (populated, fd, value) :: fields' =>
      if populated : bool then
        continue ← f fd value;
        if continue : bool then range_fields f fields' else mret ()
      else range_fields f fields'
  end.

Section list_field.
Context {L A : Type} `{!ListValue L} (mk : option (list A) → L) (slice : L → option (list A)).

(** An empty field is read as a list with a nil pointer. *)
Definition get_list (l : list A) : Value :=
  if Z.of_nat (length l) =? 0 then ValueOfList (mk None) else ValueOfList (mk (Some l)).

(** [x.F = *clv.list]. *)
Definition set_list (put : list A → X) (value : Value) : outcome X :=
  clv ← Value_List value; l ← or_panic (slice clv); Ok (put l).

Definition mutable_list (x : X) (l : list A) : outcome (Value * X) :=
  Ok (ValueOfList (mk (Some l)), x).

Definition new_list : outcome Value := Ok (ValueOfList (mk (Some []))).
End list_field.

Section message_field.
Context {A : Type} `{!MessageValue A} `{ProtoMethods A}.

Definition set_message (put : option A → X) (value : Value) : outcome X :=
  m ← Value_Message value; Ok (put m).

(** [if x.F == nil { x.F = new(A) }]. *)
Definition mutable_message (put : option A → X) (m : option A) : outcome (Value * X) :=
  let m' := Some (default api_new m) in Ok (ValueOfMessage m', put m').

Definition new_message : outcome Value := Ok (ValueOfMessage (A := A) (Some api_new)).
End message_field.

Definition set_bool (put : bool → X) (value : Value) : outcome X := v ← Value_Bool value; Ok (put v).
Definition set_enum (put : Z → X) (value : Value) : outcome X := v ← Value_Enum value; Ok (put v).
Definition set_int64 (put : Z → X) (value : Value) : outcome X := v ← Value_Int value; Ok (put v).
Definition set_uint64 (put : Z → X) (value : Value) : outcome X := v ← Value_Uint value; Ok (put v).
Definition set_uint32 (put : Z → X) (value : Value) : outcome X :=
  v ← Value_Uint value; Ok (put (wrap_u32 v)).
Definition set_string (put : string → X) (value : Value) : outcome X :=
  v ← Value_string value; Ok (put v).
Definition set_bytes (put : bytes → X) (value : Value) : outcome X :=
  v ← Value_Bytes value; Ok (put v).
End fields.

(** [func (x *X) Reset()]. *)
Definition Reset {X} `{ProtoMethods X} (x : option X) : outcome X := _ ← or_panic x; Ok api_new.

(** [func (x *X) GetF() T]. *)
Definition getter {X A} (zero : A) (field : X → A) (x : option X) : A := from_option field zero x.

(** ** Messages *)

(** [protoreflect.Message] of the pointers to a struct; [Descriptor] is the
    fields of the message descriptor. *)
Class MessageReflect (X : Type) `{ProtoReflect} := {
  Range : ∀ {S}, option X → (FieldDescriptor → Value → M S bool) → M S ();
  Has : option X → FieldDescriptor → outcome bool;
  Clear : option X → FieldDescriptor → outcome X;
  Get : option X → FieldDescriptor → outcome Value;
  Set_ : option X → FieldDescriptor → Value → outcome X;
  Mutable : option X → FieldDescriptor → outcome (Value * X);
  NewField : FieldDescriptor → outcome Value;
  Descriptor : list FieldDescriptor;
  GetUnknown : option X → outcome bytes;
  SetUnknown : option X → bytes → outcome X;
}.

(** No message has a oneof; a pointer is valid when it is not nil. *)
Definition WhichOneof (name : string) : outcome (option FieldDescriptor) := Panic.
Definition IsValid {X} (x : option X) : bool := match x with None => false | Some _ => true end.

(** ** Users of the reflection *)

Section users.
Context {X : Type} `{ProtoReflect} `{ProtoMethods X} `{!MessageReflect X}.

(** A new message with the populated fields and the unknown fields of [x]. *)
Definition clone (x : X) : outcome X :=
  match Range (Some x) (λ fd value y,
          match Set_ (Some y) fd value with Ok y' => (Ok true, y') | Err e => (Err e, y) | Panic => (Panic, y) end)
        api_new with
  | (Ok _, y) => u ← GetUnknown (Some x); SetUnknown (Some y) u
  | (Err e, _) => Err e
  | (Panic, _) => Panic
  end.

Definition scalar_bytes (kind : Kind) (value : Value) : outcome bytes :=
  match kind with
  | BoolKind => v ← Value_Bool value; Ok (varint (if v : bool then 1 else 0))
  | EnumKind => v ← Value_Enum value; Ok (varint (wrap_u64 v))
  | Int64Kind => v ← Value_Int value; Ok (varint (wrap_u64 v))
  | Uint32Kind | Uint64Kind => v ← Value_Uint value; Ok (varint (wrap_u64 v))
  | StringKind =>
      v ← Value_string value;
      let bz := String.list_ascii_of_string v in Ok (varint (len bz) ++ bz)
  | BytesKind => v ← Value_Bytes value; Ok (varint (len v) ++ v)
  | MessageKind => bz ← Value_Marshal value; Ok (varint (len bz) ++ bz)
  end.

Definition is_packable (kind : Kind) : bool :=
  match kind with StringKind | BytesKind | MessageKind => false | _ => true end.
Definition wire_type (fd : FieldDescriptor) : Z :=
  if is_packable (FieldKind fd) && negb (IsList fd) then 0 else 2.
Definition field_tag (fd : FieldDescriptor) : bytes := varint (8 * Number fd + wire_type fd).

Definition concat_elements (encode : Value → outcome bytes) (values : list Value) : outcome bytes :=
  foldM (λ bz value, e ← encode value; Ok (bz ++ e)) values [].

(** A field as the wire format of protobuf has it. *)
Definition field_bytes (fd : FieldDescriptor) (value : Value) : outcome bytes :=
  if negb (IsList fd) then bz ← scalar_bytes (FieldKind fd) value; Ok (field_tag fd ++ bz) else
  values ← Value_elements value;
  if is_packable (FieldKind fd) then
    bz ← concat_elements (scalar_bytes (FieldKind fd)) values;
    Ok (field_tag fd ++ varint (len bz) ++ bz)
  else
    concat_elements
      (λ value, bz ← scalar_bytes (FieldKind fd) value; Ok (field_tag fd ++ bz)) values.

(** The encoding of a message by its reflection, embedded messages by their own
    closures. *)
Definition reflect_bytes (x : X) : outcome bytes :=
  match Range (Some x) (λ fd value out,
          match field_bytes fd value with
          | Ok bz => (Ok true, out ++ bz) | Err e => (Err e, out) | Panic => (Panic, out)
          end) [] with
  | (Ok _, out) => u ← GetUnknown (Some x); Ok (out ++ u)
  | (Err e, _) => Err e
  | (Panic, _) => Panic
  end.
End users.
