(* ===== verification/ReflectLemmas.v ===== *)
(** * ReflectLemmas: what the reflection of a message promises

    The contract between a struct of the generated API and the users of its
    reflection: a copy made by [Range] and [Set] is the message, the encoding
    of the populated fields is what the closure [marshal] writes, each method
    works on its field as [field_contract] says, and a descriptor of another
    message panics.  The contract is proved once, from a table of the fields
    ([FieldSpec]): how a field of each type is read and written
    ([FieldCodec]), and the getter and the setter of the struct. *)
From S2P Require Import Prelude Util Wire WireLemmas Pulsar PulsarLemmas Reflect.
Local Open Scope Z_scope.

(** ** What the library promises *)

(** A projection undoes its injection; both integer widths answer [Uint]. *)
Class ProtoReflectLaws `{ProtoReflect} := {
  Value_Bool_of b : Value_Bool (ValueOfBool b) = Ok b;
  Value_Enum_of v : Value_Enum (ValueOfEnum v) = Ok v;
  Value_Int_of v : Value_Int (ValueOfInt64 v) = Ok v;
  Value_Uint_of32 v : Value_Uint (ValueOfUint32 v) = Ok v;
  Value_Uint_of64 v : Value_Uint (ValueOfUint64 v) = Ok v;
  Value_string_of s : Value_string (ValueOfString s) = Ok s;
  Value_Bytes_of bz : Value_Bytes (ValueOfBytes bz) = Ok bz;
}.

Class MessageValueLaws (A : Type) `{PulsarRuntime} `{MessageValue A} `{!ProtoMethods A} := {
  Value_Message_of x : Value_Message (ValueOfMessage x) = Ok x;
  Value_Marshal_of x : Value_Marshal (ValueOfMessage x) = options_Marshal api_marshal x;
}.

Class ListValueLaws (L : Type) `{ListValue L} `{!ProtoList L} := {
  Value_List_of l : Value_List (ValueOfList l) = Ok l;
  Value_elements_of l : Value_elements (ValueOfList l) = list_elements l;
}.

(** ** Loops *)

Lemma foldM_collect {A B} (f : list B → A → outcome (list B)) (g : A → B) l acc :
  (∀ acc a, a ∈ l → f acc a = Ok (acc ++ [g a])) → foldM f l acc = Ok (acc ++ map g l).
Proof.
  revert acc. induction l as [|a l IH]; intros acc Hf; cbn [foldM map]; [by rewrite app_nil_r|].
  rewrite Hf by (by left). cbn [mbind outcome_bind].
  rewrite IH by (intros; apply Hf; by right). by rewrite <- app_assoc.
Qed.

Lemma concat_elements_map `{ProtoReflect} {A} (encode : Value → outcome bytes) (value : A → Value)
    (bz : A → bytes) l :
  (∀ a, a ∈ l → encode (value a) = Ok (bz a)) →
  concat_elements encode (map value l) = Ok (concat (map bz l)).
Proof.
  unfold concat_elements. rewrite <- (app_nil_l (concat _)). generalize (@nil ascii) as acc.
  induction l as [|a l IH]; intros acc Hf; cbn [foldM map concat]; [by rewrite app_nil_r|].
  rewrite Hf by (by left). cbn [mbind outcome_bind].
  rewrite IH by (intros; apply Hf; by right). by rewrite <- app_assoc.
Qed.

(** The values that [Get] returns below [Len]. *)
Lemma elements_map `{ProtoReflect} {L A} (slice : L → option (list A)) (of_element : A → Value) x s
    (P : ProtoList L) :
  list_Len x = slice_Len slice x → (∀ i, list_Get x i = slice_Get slice of_element x i) →
  slice x = Some s → list_elements x = Ok (map of_element s).
Proof.
  intros Hlen Hget Hs. unfold list_elements.
  assert (map of_element s = map (λ i, default (ValueOfBool true) (of_element <$> s !! Z.to_nat i))
            (seqZ 0 (Z.of_nat (length s)))) as ->.
  { apply list_eq. intros i. rewrite !list_lookup_fmap.
    destruct (decide (i < length s)%nat) as [Hi|Hi].
    - rewrite lookup_seqZ_lt by lia. cbn. rewrite Z.add_0_l, Nat2Z.id.
      by destruct (lookup_lt_is_Some_2 s i Hi) as [a ->].
    - rewrite lookup_seqZ_ge by lia. by rewrite lookup_ge_None_2 by lia. }
  rewrite Hlen. unfold slice_Len. rewrite Hs.
  rewrite (foldM_collect _ (λ i, default (ValueOfBool true) (of_element <$> s !! Z.to_nat i))); [done|].
  intros acc i Hi%elem_of_seqZ. rewrite Hget. unfold slice_Get. rewrite Hs. cbn.
  unfold in_range. rewrite (proj2 (Z.leb_le _ _)), (proj2 (Z.ltb_lt _ _)) by lia. cbn.
  by destruct (lookup_lt_is_Some_2 s (Z.to_nat i) ltac:(lia)) as [a ->].
Qed.

(** ** Fields *)

(** How a field of type [A] is read and written. *)
Record FieldCodec `{ProtoReflect} (A : Type) := mkCodec {
  fc_kind : Kind;
  fc_list : bool;
  fc_zero : A;
  fc_has : A → bool;
  fc_value : A → Value;
  fc_get : A → Value;
  fc_set : ∀ {X}, (A → X) → Value → outcome X;
  fc_mutable : option (A → outcome (Value * A));
  fc_new : Value;
  fc_ok : A → Prop;
  fc_encode : list Z → A → bytes;
}.
Arguments mkCodec {_ _}.
Arguments fc_kind {_ _}. Arguments fc_list {_ _}. Arguments fc_zero {_ _}. Arguments fc_has {_ _}.
Arguments fc_value {_ _}. Arguments fc_get {_ _}. Arguments fc_set {_ _} _ {_}.
Arguments fc_mutable {_ _}. Arguments fc_new {_ _}. Arguments fc_ok {_ _}. Arguments fc_encode {_ _}.

Definition is_message (kind : Kind) : bool :=
  match kind with MessageKind => true | _ => false end.

Record codec_laws `{ProtoReflect} {A} (c : FieldCodec A) : Prop := {
  codec_zero : fc_has c (fc_zero c) = false;
  codec_unset a : fc_has c a = false → a = fc_zero c;
  codec_get a : fc_has c a = true → fc_get c a = fc_value c a;
  codec_set a : fc_has c a = true → fc_ok c a → fc_set c id (fc_value c a) = Ok a;
  codec_put {X} (put : A → X) v : fc_set c put v = (a ← fc_set c id v; Ok (put a));
  codec_new :
    ∃ a, fc_set c id (fc_new c) = Ok a ∧
      if fc_list c then a = fc_zero c ∧ Value_elements (fc_new c) = Ok []
      else if is_message (fc_kind c) then
        fc_has c a = true ∧ fc_value c a = fc_new c ∧ Value_Marshal (fc_new c) = Ok []
      else a = fc_zero c ∧ fc_get c a = fc_new c;
  codec_mutable a :
    if fc_list c || is_message (fc_kind c) then
      ∃ m v b, fc_mutable c = Some m ∧ m a = Ok (v, b) ∧ fc_set c id v = Ok b ∧
        if fc_has c a then b = a ∧ v = fc_value c a else v = fc_new c
    else fc_mutable c = None;
  codec_silent tag a : fc_has c a = false → fc_encode c tag a = [];
  codec_bytes name n tag a :
    let fd := mkField name n (fc_kind c) (fc_list c) in
    tag_bytes tag = field_tag fd → len (fc_encode c tag a) < 2 ^ 63 →
    fc_has c a = true → field_bytes fd (fc_value c a) = Ok (fc_encode c tag a);
}.

(** Writing [put a] is writing [a] and applying [put]. *)
Ltac solve_put :=
  intros; unfold set_bool, set_enum, set_int64, set_uint64, set_uint32, set_string, set_bytes,
    set_message, set_list;
  unfold mbind, outcome_bind, or_panic;
  repeat match goal with |- context [match ?o with _ => _ end] => destruct o end; reflexivity.

(** *** Scalars *)

Section scalars.
Context `{ProtoReflectLaws}.

Definition int_codec kind (inj : Z → Value) (set : ∀ {X}, (Z → X) → Value → outcome X)
    (ok : Z → Prop) : FieldCodec Z :=
  mkCodec kind false 0 has_int inj inj (@set) None (inj 0) ok enc_varint.
Definition uint64_codec : FieldCodec Z := int_codec Uint64Kind ValueOfUint64 (@set_uint64 _) (λ _, True).
Definition int64_codec : FieldCodec Z := int_codec Int64Kind ValueOfInt64 (@set_int64 _) (λ _, True).
Definition enum_codec : FieldCodec Z := int_codec EnumKind ValueOfEnum (@set_enum _) (λ _, True).
Definition uint32_codec : FieldCodec Z :=
  int_codec Uint32Kind ValueOfUint32 (@set_uint32 _) is_u32.
Definition bool_codec : FieldCodec bool :=
  mkCodec BoolKind false false id ValueOfBool ValueOfBool (@set_bool _) None (ValueOfBool false)
    (λ _, True) enc_bool.
Definition string_codec : FieldCodec string :=
  mkCodec StringKind false ""%string has_string ValueOfString ValueOfString (@set_string _) None
    (ValueOfString "") (λ _, True) enc_string.
Definition bytes_codec : FieldCodec bytes :=
  mkCodec BytesKind false [] has_slice ValueOfBytes ValueOfBytes (@set_bytes _) None
    (ValueOfBytes []) (λ _, True) enc_bytes.

Lemma has_int_false z : has_int z = false → z = 0.
Proof. unfold has_int. by destruct (Z.eqb_spec z 0). Qed.
Lemma has_slice_false {A} (l : list A) : has_slice l = false → l = [].
Proof. by destruct l. Qed.
Lemma has_string_false s : has_string s = false → s = ""%string.
Proof. unfold has_string. by destruct (String.eqb_spec s ""). Qed.
Lemma has_string_len s : has_string s = true → 0 < len (String.list_ascii_of_string s).
Proof. destruct s; [done|]. intros _. unfold len. simpl. lia. Qed.
Lemma has_slice_len bz : has_slice bz = true → 0 < len bz.
Proof. destruct bz; [done|]. intros _. unfold len. simpl. lia. Qed.
Hint Resolve has_int_false has_slice_false has_string_false : core.

Lemma int_codec_laws kind inj (set : ∀ {X}, (Z → X) → Value → outcome X) ok :
  (∀ z, ok z → set id (inj z) = Ok z) →
  (∀ X (put : Z → X) v, set put v = (a ← set id v; Ok (put a))) → ok 0 →
  (∀ z, scalar_bytes kind (inj z) = Ok (varint (wrap_u64 z))) → is_packable kind = true →
  codec_laws (int_codec kind inj (@set) ok).
Proof.
  intros Hset Hput Hok0 Hbz Hp. assert (is_message kind = false) as Hm by (by destruct kind).
  split; cbn -[field_bytes scalar_bytes]; rewrite ?Hm; auto.
  - exists 0. auto.
  - by intros tag a ->%has_int_false.
  - intros name n tag a Htag _ Ha. unfold field_bytes. cbn. rewrite Hbz. cbn.
    unfold enc_varint. unfold has_int in Ha. destruct (a =? 0); [done|]. by rewrite Htag.
Qed.

Lemma uint64_codec_laws : codec_laws uint64_codec.
Proof.
  apply int_codec_laws; try done; [|solve_put|]; intros z; cbn; unfold set_uint64;
    by rewrite Value_Uint_of64.
Qed.
Lemma int64_codec_laws : codec_laws int64_codec.
Proof.
  apply int_codec_laws; try done; [|solve_put|]; intros z; cbn; unfold set_int64;
    by rewrite Value_Int_of.
Qed.
Lemma enum_codec_laws : codec_laws enum_codec.
Proof.
  apply int_codec_laws; try done; [|solve_put|]; intros z; cbn; unfold set_enum;
    by rewrite Value_Enum_of.
Qed.
Lemma uint32_codec_laws : codec_laws uint32_codec.
Proof.
  apply int_codec_laws; try done; [|solve_put|]; intros z; cbn; unfold set_uint32;
    rewrite Value_Uint_of32; [|done].
  intros Hz. cbn. unfold wrap_u32. by rewrite Z.mod_small.
Qed.

Lemma bool_codec_laws : codec_laws bool_codec.
Proof.
  split; cbn -[field_bytes scalar_bytes]; try done.
  - intros a _ _. unfold set_bool. by rewrite Value_Bool_of.
  - solve_put.
  - exists false. unfold set_bool. by rewrite Value_Bool_of.
  - by intros tag [].
  - intros name n tag [] Htag _ Ha; [|done]. unfold field_bytes. cbn. rewrite Value_Bool_of. cbn.
    by rewrite Htag.
Qed.

Lemma delimited_bytes name n kind tag value bz :
  let fd := mkField name n kind false in
  tag_bytes tag = field_tag fd → scalar_bytes kind value = Ok (varint (len bz) ++ bz) →
  field_bytes fd value = Ok (enc_delimited tag bz).
Proof. intros fd Htag Hv. unfold field_bytes. cbn. rewrite Hv. cbn. unfold enc_delimited. by rewrite Htag. Qed.

Lemma string_codec_laws : codec_laws string_codec.
Proof.
  split; cbn -[field_bytes scalar_bytes]; auto.
  - intros a _ _. unfold set_string. by rewrite Value_string_of.
  - solve_put.
  - exists ""%string. unfold set_string. by rewrite Value_string_of.
  - by intros tag a ->%has_string_false.
  - intros name n tag a Htag _ Ha%has_string_len. unfold enc_string, enc_bytes.
    rewrite (proj2 (Z.ltb_lt _ _)) by done. apply delimited_bytes; [done|]. cbn.
    by rewrite Value_string_of.
Qed.

Lemma bytes_codec_laws : codec_laws bytes_codec.
Proof.
  split; cbn -[field_bytes scalar_bytes]; auto.
  - intros a _ _. unfold set_bytes. by rewrite Value_Bytes_of.
  - solve_put.
  - exists []. unfold set_bytes. by rewrite Value_Bytes_of.
  - by intros tag a ->%has_slice_false.
  - intros name n tag a Htag _ Ha%has_slice_len. unfold enc_bytes.
    rewrite (proj2 (Z.ltb_lt _ _)) by done. apply delimited_bytes; [done|]. cbn.
    by rewrite Value_Bytes_of.
Qed.
End scalars.

(** *** Messages and lists *)

Section composites.
Context `{ProtoReflectLaws} `{PulsarRuntimeLaws}.

Section message.
Context (A : Type) `{ApiLaws A} `{!MessageValue A, !MessageValueLaws A}.

Definition message_codec : FieldCodec (option A) :=
  mkCodec MessageKind false None has_message ValueOfMessage ValueOfMessage (λ X, set_message)
    (Some (mutable_message id)) (ValueOfMessage (Some api_new)) (λ _, True) enc_api_message.

Lemma marshalled_message (x : option A) :
  len (api_bytes x) < 2 ^ 63 →
  scalar_bytes MessageKind (ValueOfMessage x) = Ok (varint (len (api_bytes x)) ++ api_bytes x).
Proof. intros Hl. cbn. by rewrite Value_Marshal_of, options_Marshal_bytes. Qed.

Lemma set_message_of (x : option A) : set_message id (ValueOfMessage x) = Ok x.
Proof. unfold set_message. by rewrite Value_Message_of. Qed.

Lemma message_codec_laws : codec_laws message_codec.
Proof.
  split; cbn -[field_bytes scalar_bytes]; auto.
  - by intros [].
  - intros a _ _. apply set_message_of.
  - solve_put.
  - eexists. split; [apply set_message_of|]. split_and!; [done..|].
    rewrite Value_Marshal_of, options_Marshal_bytes; cbn; by rewrite api_encode_new.
  - intros a. eexists _, _, _. split; [done|]. split; [done|]. split; [apply set_message_of|].
    by destruct a.
  - by intros tag [].
  - intros name n tag [x|] Htag Hl Ha; [|done]. unfold enc_api_message in *.
    apply delimited_bytes; [done|]. apply marshalled_message. by eapply delimited_bound.
Qed.
End message.

Section list.
Context {L A : Type} `{!ListValue L, !ProtoList L, !ListValueLaws L}.
Context (mk : option (list A) → L) (slice : L → option (list A)).

Definition list_codec kind (encode : list Z → list A → bytes) : FieldCodec (list A) :=
  mkCodec kind true [] has_slice (λ l, ValueOfList (mk (Some l))) (get_list mk) (λ X, set_list slice)
    (Some (λ l, mutable_list mk l l)) (ValueOfList (mk (Some []))) (λ _, True) encode.

Context (of_element : A → Value) (kind : Kind) (encode : list Z → list A → bytes).
Hypothesis (Hslice : ∀ s, slice (mk s) = s).
Hypothesis (Hlen : ∀ x, list_Len x = slice_Len slice x).
Hypothesis (Hget : ∀ x i, list_Get x i = slice_Get slice of_element x i).
Hypothesis (Hempty : ∀ tag, encode tag [] = []).

Lemma set_list_of s : set_list slice id (ValueOfList (mk (Some s))) = Ok s.
Proof. unfold set_list. rewrite Value_List_of. cbn. by rewrite Hslice. Qed.

Lemma list_codec_laws :
  (∀ name n tag a,
    let fd := mkField name n kind true in
    tag_bytes tag = field_tag fd → len (encode tag a) < 2 ^ 63 → has_slice a = true →
    Value_elements (ValueOfList (mk (Some a))) = Ok (map of_element a) →
    field_bytes fd (ValueOfList (mk (Some a))) = Ok (encode tag a)) →
  codec_laws (list_codec kind encode).
Proof.
  intros Hbytes. split; cbn -[field_bytes scalar_bytes]; auto using has_slice_false.
  - intros a Ha. unfold get_list. by destruct a.
  - intros a _ _. apply set_list_of.
  - solve_put.
  - exists []. split; [apply set_list_of|]. split; [done|].
    rewrite Value_elements_of. by apply (elements_map slice of_element _ [] _ (Hlen _) (Hget _)).
  - intros a. eexists _, _, _. split; [done|]. split; [done|]. split; [apply set_list_of|].
    destruct (has_slice a) eqn:Ha; [done|]. by rewrite (has_slice_false a Ha).
  - by intros tag a ->%has_slice_false.
  - intros name n tag a Htag Hl Ha. apply Hbytes; try done.
    rewrite Value_elements_of. by eapply elements_map.
Qed.

(** Elements that are written one by one. *)
Lemma each_codec_laws (bz : A → bytes) :
  is_packable kind = false → (∀ tag l, encode tag l = enc_each bz tag l) →
  (∀ a, len (bz a) < 2 ^ 63 →
    scalar_bytes kind (of_element a) = Ok (varint (len (bz a)) ++ bz a)) →
  codec_laws (list_codec kind encode).
Proof.
  intros Hp Hencode Hone. apply list_codec_laws. intros name n tag a fd Htag Hl _ Hels.
  rewrite Hencode in *. unfold field_bytes. cbn [IsList negb fd]. rewrite Hels. cbn.
  rewrite Hp. unfold enc_each in *. apply concat_elements_map. intros x Hx.
  rewrite Hone; [cbn; unfold enc_delimited; by rewrite Htag|].
  eapply Z.le_lt_trans; [|exact Hl]. clear -Hx. induction a as [|y a IH]; [by apply not_elem_of_nil in Hx|].
  cbn [map concat]. rewrite len_app. apply elem_of_cons in Hx as [<-|Hx].
  - rewrite len_delimited. pose proof (len_nonneg (varint (len (bz x)))).
    pose proof (len_nonneg (concat (map (λ a, enc_delimited tag (bz a)) a))). lia.
  - specialize (IH Hx). pose proof (len_nonneg (enc_delimited tag (bz y))). lia.
Qed.

(** Integers that are written in one block. *)
Lemma packed_codec_laws (z : A → Z) :
  is_packable kind = true → (∀ tag l, encode tag l = enc_packed tag (map z l)) →
  (∀ a, scalar_bytes kind (of_element a) = Ok (varint (wrap_u64 (z a)))) →
  codec_laws (list_codec kind encode).
Proof.
  intros Hp Hencode Hone. apply list_codec_laws. intros name n tag a fd Htag Hl Ha Hels.
  rewrite Hencode in *. unfold field_bytes. cbn [IsList negb fd]. rewrite Hels. cbn.
  rewrite Hp. rewrite (concat_elements_map _ _ (λ a, varint (wrap_u64 (z a)))) by auto. cbn.
  unfold enc_packed. rewrite decide_False by by destruct a.
  unfold enc_delimited, packed_bytes. by rewrite map_map, Htag.
Qed.
End list.

Section lists.
Context {L : Type} `{!ListValue L}.

Section messages.
Context (A : Type) `{ApiLaws A} `{!MessageValue A, !MessageValueLaws A}.

Definition messages_codec (mk : option (list (option A)) → L) slice : FieldCodec (list (option A)) :=
  list_codec mk slice MessageKind enc_api_messages.
Lemma messages_codec_laws (mk : option (list (option A)) → L) slice
    `{P : !ProtoList L, !ListValueLaws L} :
  (∀ s, slice (mk s) = s) → P = message_list mk slice → codec_laws (messages_codec mk slice).
Proof.
  intros Hslice ->. eapply (each_codec_laws (ProtoList0 := message_list mk slice) _ _ ValueOfMessage); try done.
  intros a Hl. by apply marshalled_message.
Qed.
End messages.

Definition strings_codec (mk : option (list string) → L) slice : FieldCodec (list string) :=
  list_codec mk slice StringKind enc_strings.
Lemma strings_codec_laws (mk : option (list string) → L) slice
    `{P : !ProtoList L, !ListValueLaws L} :
  (∀ s, slice (mk s) = s) → P = string_list mk slice → codec_laws (strings_codec mk slice).
Proof.
  intros Hslice ->. eapply (each_codec_laws (ProtoList0 := string_list mk slice) _ _ ValueOfString); try done.
  intros a Hl. cbn. by rewrite Value_string_of.
Qed.

Definition bytess_codec (mk : option (list bytes) → L) slice : FieldCodec (list bytes) :=
  list_codec mk slice BytesKind enc_bytess.
Lemma bytess_codec_laws (mk : option (list bytes) → L) slice
    `{P : !ProtoList L, !ListValueLaws L} :
  (∀ s, slice (mk s) = s) → P = bytes_list mk slice → codec_laws (bytess_codec mk slice).
Proof.
  intros Hslice ->. eapply (each_codec_laws (ProtoList0 := bytes_list mk slice) _ _ ValueOfBytes); try done.
  intros a Hl. cbn. by rewrite Value_Bytes_of.
Qed.

Definition packed_codec (mk : option (list Z) → L) slice : FieldCodec (list Z) :=
  list_codec mk slice Int64Kind enc_packed.
Lemma packed_int64_laws (mk : option (list Z) → L) slice
    `{P : !ProtoList L, !ListValueLaws L} :
  (∀ s, slice (mk s) = s) → P = int64_list mk slice → codec_laws (packed_codec mk slice).
Proof.
  intros Hslice ->. eapply (packed_codec_laws (ProtoList0 := int64_list mk slice)) with
    (of_element := ValueOfInt64) (z := id); try done.
  - intros. by rewrite map_id.
  - intros a. cbn. by rewrite Value_Int_of.
Qed.
End lists.
End composites.

(** ** Messages *)

Record FieldSpec `{ProtoReflect} (X : Type) := mkSpec {
  fs_type : Type;
  fs_codec : FieldCodec fs_type;
  fs_name : string;
  fs_number : Z;
  fs_tag : list Z;
  fs_acc : X → fs_type;
  fs_put : X → fs_type → X;
  fs_getter : option X → fs_type;
}.
Arguments mkSpec {_ _ _}.
Arguments fs_type {_ _}. Arguments fs_codec {_ _}. Arguments fs_name {_ _}.
Arguments fs_number {_ _}. Arguments fs_tag {_ _}. Arguments fs_acc {_ _}. Arguments fs_put {_ _}.
Arguments fs_getter {_ _}.

Section specs.
Context `{ProtoReflect} {X : Type}.
Implicit Types (s t : FieldSpec X) (x y : X).

Definition fs_fd s : FieldDescriptor :=
  mkField (fs_name s) (fs_number s) (fc_kind (fs_codec s)) (fc_list (fs_codec s)).
Definition fs_has s x : bool := fc_has (fs_codec s) (fs_acc s x).
Definition fs_value s x : Value := fc_value (fs_codec s) (fs_acc s x).
Definition fs_get s x : Value := fc_get (fs_codec s) (fs_acc s x).
Definition fs_clear s x : X := fs_put s x (fc_zero (fs_codec s)).
Definition fs_set s x (v : Value) : outcome X := fc_set (fs_codec s) (fs_put s x) v.
Definition fs_mutable s x : outcome (Value * X) :=
  match fc_mutable (fs_codec s) with
  | None => Panic
  | Some m => '(v, a) ← m (fs_acc s x); Ok (v, fs_put s x a)
  end.
Definition fs_encode s x : bytes := fc_encode (fs_codec s) (fs_tag s) (fs_acc s x).

(** The methods that a table of fields stands for. *)
Definition spec_switch {A} (specs : list (FieldSpec X)) (r : FieldSpec X → outcome A)
    (fd : FieldDescriptor) : outcome A :=
  field_switch fd (map (λ s, (fs_name s, r s)) specs).
Definition is_composite s : bool :=
  match fc_mutable (fs_codec s) with None => false | Some _ => true end.
Definition spec_fields (specs : list (FieldSpec X)) x : list (bool * FieldDescriptor * Value) :=
  map (λ s, (fs_has s x, fs_fd s, fs_value s x)) specs.

(** A setter changes what its getter returns and no other. *)
Definition spec_lens s : Prop :=
  (∀ x a, fs_acc s (fs_put s x a) = a) ∧ (∀ x, fs_put s x (fs_acc s x) = x).
Definition spec_getter s : Prop :=
  (∀ x, fs_getter s (Some x) = fs_acc s x) ∧ fs_getter s None = fc_zero (fs_codec s).
Definition spec_apart s t : Prop := ∀ x a, fs_acc t (fs_put s x a) = fs_acc t x.
Fixpoint specs_apart (specs : list (FieldSpec X)) : Prop :=
  match specs with
  | [] => True
  | s :: specs' => Forall (λ t, spec_apart s t ∧ spec_apart t s) specs' ∧ specs_apart specs'
  end.
End specs.

(** The methods of a struct follow a table of its fields. *)
Class ReflectTable (X : Type) `{MessageReflect X} `{!ProtoMethods X, !ApiLaws X} := {
  table : list (FieldSpec X);
  table_unknown : X → bytes;
  table_set_unknown : X → bytes → X;
  table_range {S} x (f : FieldDescriptor → Value → M S bool) :
    Range (Some x) f = range_fields f (spec_fields table x);
  table_has x fd : Has (Some x) fd = spec_switch table (λ s, Ok (fs_has s x)) fd;
  table_clear x fd : Clear (Some x) fd = spec_switch table (λ s, Ok (fs_clear s x)) fd;
  table_get x fd : Get (Some x) fd = spec_switch table (λ s, Ok (fs_get s x)) fd;
  table_set x fd v : Set_ (Some x) fd v = spec_switch table (λ s, fs_set s x v) fd;
  table_mutable x fd :
    Mutable (Some x) fd =
      spec_switch (List.filter is_composite table ++ List.filter (λ s, negb (is_composite s)) table)
        (λ s, fs_mutable s x) fd;
  table_new fd : NewField fd = spec_switch table (λ s, Ok (fc_new (fs_codec s))) fd;
  table_descriptor : Descriptor = map fs_fd table;
  table_get_unknown x : GetUnknown (Some x) = Ok (table_unknown x);
  table_put_unknown x u : SetUnknown (Some x) u = Ok (table_set_unknown x u);
  table_codecs : Forall (λ s, codec_laws (fs_codec s)) table;
  table_names : NoDup (map fs_name table);
  table_tags : Forall (λ s, tag_bytes (fs_tag s) = field_tag (fs_fd s)) table;
  table_lenses : Forall spec_lens table;
  table_getters : Forall spec_getter table;
  table_apart : specs_apart table;
  table_unknown_put : Forall (λ s, ∀ x a, table_unknown (fs_put s x a) = table_unknown x) table;
  table_zero : Forall (λ s, fs_acc s api_new = fc_zero (fs_codec s)) table;
  table_whole x y :
    table_set_unknown (foldl (λ y s, fs_put s y (fs_acc s x)) y table) (table_unknown x) = x;
  table_encode x : api_encode x = foldr (λ s bz, fs_encode s x ++ bz) (table_unknown x) table;
  table_nil : table ≠ [] →
    (∀ fd, Has None fd = Panic) ∧ (∀ fd, Clear None fd = Panic) ∧ (∀ fd, Get None fd = Panic) ∧
    (∀ fd v, Set_ None fd v = Panic) ∧ (∀ fd, Mutable None fd = Panic) ∧
    (∀ S s (f : FieldDescriptor → Value → M S bool), Range None f s = (Panic, s));
}.

(** Looking up a field by its name. *)
Lemma spec_switch_in `{ProtoReflect} {X A} (specs : list (FieldSpec X))
    (r : FieldSpec X → outcome A) s fd :
  NoDup (map fs_name specs) → s ∈ specs → FullName fd = fs_name s → spec_switch specs r fd = r s.
Proof.
  intros Hnd Hin Hfd. unfold spec_switch. induction specs as [|t specs IH].
  { by apply not_elem_of_nil in Hin. }
  cbn [map] in *. apply NoDup_cons in Hnd as [Hni Hnd]. cbn. rewrite Hfd in *.
  apply elem_of_cons in Hin as [->|Hin]; [by rewrite String.eqb_refl|].
  destruct (String.eqb_spec (fs_name s) (fs_name t)) as [Heq|_]; [|by apply IH].
  destruct Hni. rewrite <- Heq. by apply (list_elem_of_fmap_2 fs_name).
Qed.

Lemma spec_switch_out `{ProtoReflect} {X A} (specs : list (FieldSpec X))
    (r : FieldSpec X → outcome A) fd :
  FullName fd ∉ map fs_name specs → spec_switch specs r fd = Panic.
Proof.
  intros Hni. unfold spec_switch. induction specs as [|t specs IH]; [done|]. cbn in *.
  apply not_elem_of_cons in Hni as [Hne Hni].
  destruct (String.eqb_spec (FullName fd) (fs_name t)); [done|]. by apply IH.
Qed.

Lemma specs_apart_in `{ProtoReflect} {X} (specs : list (FieldSpec X)) s t :
  specs_apart specs → s ∈ specs → t ∈ specs → fs_name s ≠ fs_name t → spec_apart s t.
Proof.
  induction specs as [|u specs IH]; cbn; [by intros _ ?%not_elem_of_nil|].
  intros [Hu Hrest]. rewrite Forall_forall in Hu.
  intros [->|Hs]%elem_of_cons [->|Ht]%elem_of_cons Hne; [done|by apply Hu|by apply Hu|by apply IH].
Qed.

Section table.
Context {X : Type} `{ReflectTable X}.
Implicit Types (s t : FieldSpec X) (x y : X).

Lemma in_codec s : s ∈ table → codec_laws (fs_codec s).
Proof. intros Hs. pose proof table_codecs as Hall. rewrite Forall_forall in Hall. by apply Hall. Qed.
Lemma in_lens s : s ∈ table → spec_lens s.
Proof. intros Hs. pose proof table_lenses as Hall. rewrite Forall_forall in Hall. by apply Hall. Qed.
Lemma in_tags s : s ∈ table → tag_bytes (fs_tag s) = field_tag (fs_fd s).
Proof. intros Hs. pose proof table_tags as Hall. rewrite Forall_forall in Hall. by apply Hall. Qed.
Lemma in_apart s t : s ∈ table → t ∈ table → fs_name s ≠ fs_name t → spec_apart s t.
Proof. apply specs_apart_in, table_apart. Qed.

Lemma switch_in {A} (r : FieldSpec X → outcome A) s fd :
  s ∈ table → FullName fd = fs_name s → spec_switch table r fd = r s.
Proof. apply spec_switch_in, table_names. Qed.

Lemma composites_perm :
  List.filter is_composite table ++ List.filter (λ s, negb (is_composite s)) table ≡ₚ table.
Proof.
  generalize table as l. induction l as [|s l IH]; [done|]. cbn.
  destruct (is_composite s); cbn; [by rewrite IH|]. by rewrite <- Permutation_middle, IH.
Qed.

Lemma mutable_in s x fd :
  s ∈ table → FullName fd = fs_name s → Mutable (Some x) fd = fs_mutable s x.
Proof.
  intros Hs Hfd. rewrite table_mutable, (spec_switch_in _ _ s);
    [done|rewrite composites_perm; apply table_names|by rewrite composites_perm|done].
Qed.

(** The fields of the 32-bit types hold numbers of 32 bits. *)
Definition fields_ok x : Prop := Forall (λ s, fc_ok (fs_codec s) (fs_acc s x)) table.

(** *** Copies *)

Lemma clone_step s x y :
  s ∈ table → fs_acc s y = fc_zero (fs_codec s) →
  fs_put s y (fs_acc s x) = if fs_has s x then fs_put s y (fs_acc s x) else y.
Proof.
  intros Hs Hy. unfold fs_has. destruct (fc_has _ _) eqn:Ha; [done|].
  apply (codec_unset _ (in_codec s Hs)) in Ha. rewrite Ha, <- Hy. apply in_lens, Hs.
Qed.

Lemma clone_loop specs x y :
  specs ⊆ table → NoDup (map fs_name specs) → fields_ok x →
  Forall (λ s, fs_acc s y = fc_zero (fs_codec s)) specs →
  range_fields (λ fd value y,
      match Set_ (Some y) fd value with
      | Ok y' => (Ok true, y') | Err e => (Err e, y) | Panic => (Panic, y)
      end) (spec_fields specs x) y
  = (Ok (), foldl (λ y s, fs_put s y (fs_acc s x)) y specs).
Proof.
  intros Hsub Hnd Hok. revert y Hsub Hnd. induction specs as [|s specs IH]; intros y Hsub Hnd Hz; [done|].
  cbn [map] in Hnd. apply NoDup_cons in Hnd as [Hni Hnd]. apply Forall_cons in Hz as [Hz Hzs].
  assert (s ∈ table) as Hs by (apply Hsub; by left).
  assert (specs ⊆ table) as Hsub' by (intros t Ht; apply Hsub; by right).
  assert (Forall (λ t, fs_acc t (fs_put s y (fs_acc s x)) = fc_zero (fs_codec t)) specs) as Hz'.
  { apply Forall_forall. intros t Ht. rewrite Forall_forall in Hzs. rewrite <- (Hzs t Ht).
    apply in_apart; [done|by apply Hsub'|]. intros Heq. destruct Hni. rewrite Heq.
    by apply (list_elem_of_fmap_2 fs_name). }
  cbn [spec_fields map range_fields foldl]. fold (spec_fields specs x).
  rewrite (clone_step s x y Hs Hz) in *. destruct (fs_has s x) eqn:Ha; [|by apply IH].
  unfold mbind at 1, M_bind at 1. rewrite table_set, (switch_in _ s) by done. unfold fs_set, fs_value.
  rewrite (codec_put _ (in_codec s Hs)), (codec_set _ (in_codec s Hs)); [cbn|done|].
  - apply IH; done.
  - unfold fields_ok in Hok. rewrite Forall_forall in Hok. by apply Hok.
Qed.

Lemma clone_spec x : fields_ok x → clone x = Ok x.
Proof.
  intros Hok. unfold clone. rewrite table_range, clone_loop; [|done|apply table_names|done|apply table_zero].
  rewrite table_get_unknown. cbn. rewrite table_put_unknown. f_equal. apply table_whole.
Qed.

(** *** Encoding *)

Lemma encode_loop specs x u out :
  specs ⊆ table → len (foldr (λ s bz, fs_encode s x ++ bz) u specs) < 2 ^ 63 →
  range_fields (λ fd value out,
      match field_bytes fd value with
      | Ok bz => (Ok true, out ++ bz) | Err e => (Err e, out) | Panic => (Panic, out)
      end) (spec_fields specs x) out
  = (Ok (), out ++ foldr (λ s bz, fs_encode s x ++ bz) [] specs).
Proof.
  revert out. induction specs as [|s specs IH]; intros out Hsub Hl; cbn [foldr] in *.
  { by rewrite app_nil_r. }
  assert (s ∈ table) as Hs by (apply Hsub; by left). rewrite len_app in Hl.
  pose proof (len_nonneg (fs_encode s x)).
  pose proof (len_nonneg (foldr (λ s bz, fs_encode s x ++ bz) u specs)).
  cbn [spec_fields map range_fields]. fold (spec_fields specs x).
  pose proof (in_codec s Hs) as Hc. unfold fs_has. destruct (fc_has _ _) eqn:Ha.
  - unfold mbind at 1, M_bind at 1. unfold fs_value, fs_fd.
    rewrite (codec_bytes _ Hc _ _ (fs_tag s)); [|by apply in_tags|unfold fs_encode in *; lia|done].
    rewrite IH, app_assoc; [done|intros t Ht; apply Hsub; by right|lia].
  - rewrite IH; [|intros t Ht; apply Hsub; by right|lia].
    unfold fs_encode at 2. by rewrite (codec_silent _ Hc).
Qed.

Lemma reflect_bytes_spec x : len (api_encode x) < 2 ^ 63 → reflect_bytes x = Ok (api_encode x).
Proof.
  rewrite table_encode. intros Hl. unfold reflect_bytes. rewrite table_range.
  rewrite (encode_loop _ _ (table_unknown x)) by done. rewrite table_get_unknown. cbn. f_equal.
  generalize (table_unknown x) as u. clear Hl. intros u. generalize table as l.
  induction l as [|s l IH]; cbn; [done|]. by rewrite <- app_assoc, IH.
Qed.

(** *** One field at a time *)

(** What a change of the field [fd] leaves alone. *)
Definition others_same (fd : FieldDescriptor) x y : Prop :=
  (∀ fd', fd' ∈ Descriptor → FullName fd' ≠ FullName fd →
    Has (Some y) fd' = Has (Some x) fd' ∧ Get (Some y) fd' = Get (Some x) fd') ∧
  GetUnknown (Some y) = GetUnknown (Some x).

(** How the methods work on the field [fd] of [x].  An unset field reads as in
    a new message.  [NewField] gives what sets a scalar or a list to its
    default, and an empty message; [Mutable] gives the value of a set list or
    message, sets an unset one to [NewField] and panics on a scalar. *)
Record field_contract (fd : FieldDescriptor) x : Prop := {
  field_read : ∃ b v, Has (Some x) fd = Ok b ∧ Get (Some x) fd = Ok v ∧
    (b = false → Get (Some api_new) fd = Ok v);
  field_clear : ∃ y, Clear (Some x) fd = Ok y ∧ Has (Some y) fd = Ok false ∧
    Get (Some y) fd = Get (Some api_new) fd ∧ others_same fd x y;
  field_set v y : Set_ (Some x) fd v = Ok y → others_same fd x y;
  field_new : ∃ v y, NewField fd = Ok v ∧ Set_ (Some x) fd v = Ok y ∧
    if IsList fd then Clear (Some x) fd = Ok y ∧ Value_elements v = Ok []
    else if is_message (FieldKind fd) then
      Has (Some y) fd = Ok true ∧ Get (Some y) fd = Ok v ∧ Value_Marshal v = Ok []
    else Clear (Some x) fd = Ok y ∧ Get (Some api_new) fd = Ok v;
  field_copy y v :
    Has (Some x) fd = Ok true → Get (Some x) fd = Ok v → fields_ok x →
    ∃ z, Set_ (Some y) fd v = Ok z ∧ Has (Some z) fd = Ok true ∧ Get (Some z) fd = Ok v;
  field_mutable :
    if IsList fd || is_message (FieldKind fd) then
      ∃ v y, Mutable (Some x) fd = Ok (v, y) ∧ Set_ (Some y) fd v = Ok y ∧ others_same fd x y ∧
        (Has (Some x) fd = Ok true → y = x ∧ Get (Some x) fd = Ok v) ∧
        (Has (Some x) fd = Ok false → NewField fd = Ok v)
    else Mutable (Some x) fd = Panic;
}.

Lemma put_others s x a : s ∈ table → others_same (fs_fd s) x (fs_put s x a).
Proof.
  intros Hs. split.
  - intros fd' Ht Hne. rewrite table_descriptor in Ht. apply list_elem_of_fmap in Ht as (t & -> & Ht). cbn in Hne.
    rewrite !table_has, !table_get, !(switch_in _ t) by done. unfold fs_has, fs_get.
    by rewrite (in_apart s t).
  - pose proof table_unknown_put as Hall. rewrite Forall_forall in Hall.
    by rewrite !table_get_unknown, Hall.
Qed.

Lemma new_acc s : s ∈ table → fs_acc s api_new = fc_zero (fs_codec s).
Proof. intros Hs. pose proof table_zero as Hall. rewrite Forall_forall in Hall. by apply Hall. Qed.

Lemma field_new_spec s x :
  s ∈ table →
  ∃ v y, NewField (fs_fd s) = Ok v ∧ Set_ (Some x) (fs_fd s) v = Ok y ∧
    if IsList (fs_fd s) then Clear (Some x) (fs_fd s) = Ok y ∧ Value_elements v = Ok []
    else if is_message (FieldKind (fs_fd s)) then
      Has (Some y) (fs_fd s) = Ok true ∧ Get (Some y) (fs_fd s) = Ok v ∧ Value_Marshal v = Ok []
    else Clear (Some x) (fs_fd s) = Ok y ∧ Get (Some api_new) (fs_fd s) = Ok v.
Proof.
  intros Hs. pose proof (in_codec s Hs) as Hc. destruct (in_lens s Hs) as [Hget _].
  destruct (codec_new _ Hc) as (a & Ha & Hrest). exists (fc_new (fs_codec s)), (fs_put s x a).
  rewrite table_new, table_set, table_clear, table_has, !table_get, !(switch_in _ s) by done.
  unfold fs_set, fs_get, fs_has, fs_clear. rewrite (codec_put _ Hc), Ha, Hget, new_acc by done.
  split; [done|]. split; [done|]. cbn [IsList FieldKind fs_fd].
  destruct (fc_list _); [by destruct Hrest as [-> ?]|]. destruct (is_message _).
  - destruct Hrest as (Hh & Hv & ?). by rewrite (codec_get _ Hc _ Hh), Hh, Hv.
  - by destruct Hrest as [-> ->].
Qed.

Lemma field_mutable_spec s x :
  s ∈ table →
  if IsList (fs_fd s) || is_message (FieldKind (fs_fd s)) then
    ∃ v y, Mutable (Some x) (fs_fd s) = Ok (v, y) ∧ Set_ (Some y) (fs_fd s) v = Ok y ∧
      others_same (fs_fd s) x y ∧
      (Has (Some x) (fs_fd s) = Ok true → y = x ∧ Get (Some x) (fs_fd s) = Ok v) ∧
      (Has (Some x) (fs_fd s) = Ok false → NewField (fs_fd s) = Ok v)
  else Mutable (Some x) (fs_fd s) = Panic.
Proof.
  intros Hs. pose proof (in_codec s Hs) as Hc. destruct (in_lens s Hs) as [Hget Hput].
  rewrite (mutable_in s) by done. unfold fs_mutable. cbn [IsList FieldKind fs_fd].
  pose proof (codec_mutable _ Hc (fs_acc s x)) as Hm.
  destruct (fc_list _ || is_message _); [|by rewrite Hm].
  destruct Hm as (m & v & a & -> & Ha & Hv & Hcase). exists v, (fs_put s x a).
  rewrite Ha, table_set, table_has, table_get, table_new, !(switch_in _ s) by done.
  unfold fs_set, fs_has, fs_get. rewrite (codec_put _ Hc), Hv. cbn [mbind outcome_bind].
  split; [done|]. split; [|split; [by apply put_others|split]].
  - f_equal. rewrite <- (Hget x a) at 2. apply Hput.
  - intros [= Hh]. rewrite Hh in Hcase. destruct Hcase as [-> ->]. by rewrite Hput, (codec_get _ Hc).
  - intros [= Hh]. rewrite Hh in Hcase. by rewrite Hcase.
Qed.

Lemma field_contract_spec s x : s ∈ table → field_contract (fs_fd s) x.
Proof.
  intros Hs. pose proof (in_codec s Hs) as Hc. destruct (in_lens s Hs) as [Hget _]. split.
  - rewrite table_has, !table_get, !(switch_in _ s) by done. eexists _, _. split_and!; [done..|].
    intros Hh. unfold fs_get. by rewrite new_acc, (codec_unset _ Hc _ Hh).
  - exists (fs_clear s x). rewrite table_clear, table_has, !table_get, !(switch_in _ s) by done.
    unfold fs_has, fs_get. rewrite new_acc by done.
    split_and!; [done|..|by apply put_others]; unfold fs_clear; rewrite Hget; [|done].
    by rewrite (codec_zero _ Hc).
  - intros v y. rewrite table_set, (switch_in _ s) by done. unfold fs_set.
    rewrite (codec_put _ Hc). destruct (fc_set _ _ v); cbn; [|done|done]. intros [= <-]. by apply put_others.
  - by apply field_new_spec.
  - intros y v. rewrite table_has, table_get, table_set, !(switch_in _ s) by done.
    intros [= Hh] [= <-] Hok. unfold fields_ok in Hok. rewrite Forall_forall in Hok.
    exists (fs_put s y (fs_acc s x)). unfold fs_set, fs_get, fs_has in *.
    rewrite table_has, table_get, !(switch_in _ s) by done. unfold fs_get, fs_has.
    rewrite (codec_get _ Hc), (codec_put _ Hc), (codec_set _ Hc), Hget, Hh, (codec_get _ Hc) by auto. done.
  - by apply field_mutable_spec.
Qed.

(** A descriptor of another message. *)
Lemma foreign_field fd x v :
  FullName fd ∉ map FullName Descriptor →
  Has (Some x) fd = Panic ∧ Clear (Some x) fd = Panic ∧ Get (Some x) fd = Panic ∧
  Set_ (Some x) fd v = Panic ∧ Mutable (Some x) fd = Panic ∧ NewField fd = Panic.
Proof.
  intros Hni. assert (FullName fd ∉ map fs_name table) as Hni'.
  { rewrite table_descriptor in Hni. by rewrite map_map in Hni. }
  rewrite table_has, table_clear, table_get, table_set, table_mutable, table_new.
  rewrite !spec_switch_out; try done. by rewrite composites_perm.
Qed.
End table.

(** ** Proving the contract of a struct *)

Ltac each_spec tac :=
  lazymatch goal with
  | |- Forall _ [] => apply List.Forall_nil
  | |- Forall _ (_ :: _) => apply List.Forall_cons; [tac|each_spec tac]
  | |- Forall _ ?specs => unfold specs; each_spec tac
  end.

Ltac solve_codec :=
  cbn [fs_codec];
  lazymatch goal with
  | |- codec_laws uint64_codec => apply uint64_codec_laws
  | |- codec_laws int64_codec => apply int64_codec_laws
  | |- codec_laws uint32_codec => apply uint32_codec_laws
  | |- codec_laws enum_codec => apply enum_codec_laws
  | |- codec_laws bool_codec => apply bool_codec_laws
  | |- codec_laws string_codec => apply string_codec_laws
  | |- codec_laws bytes_codec => apply bytes_codec_laws
  | |- codec_laws (message_codec _) => eapply message_codec_laws; typeclasses eauto
  | |- codec_laws (messages_codec _ _ _) => eapply messages_codec_laws; first [reflexivity|typeclasses eauto]
  | |- codec_laws (strings_codec _ _) => eapply strings_codec_laws; first [reflexivity|typeclasses eauto]
  | |- codec_laws (bytess_codec _ _) => eapply bytess_codec_laws; first [reflexivity|typeclasses eauto]
  | |- codec_laws (packed_codec _ _) => eapply packed_int64_laws; first [reflexivity|typeclasses eauto]
  end.

Ltac solve_apart :=
  lazymatch goal with
  | |- specs_apart [] => exact I
  | |- specs_apart (_ :: _) =>
      split; [each_spec ltac:(split; intros ??; reflexivity)|solve_apart]
  | |- specs_apart ?specs => unfold specs; solve_apart
  end.

Ltac solve_table specs unknown set_unknown :=
  refine {| table := specs; table_unknown := unknown; table_set_unknown := set_unknown |};
  [ intros; reflexivity | intros; reflexivity | intros; reflexivity | intros; reflexivity
  | intros; reflexivity | intros []; reflexivity | intros; reflexivity | intros; reflexivity
  | intros; reflexivity | reflexivity
  | each_spec solve_codec
  | apply (bool_decide_unpack _); vm_compute; exact I
  | each_spec ltac:(vm_compute; reflexivity)
  | each_spec ltac:(split; [intros ??; reflexivity|intros []; reflexivity])
  | each_spec ltac:(split; [intros ?; reflexivity|reflexivity])
  | solve_apart
  | each_spec ltac:(intros ??; reflexivity)
  | each_spec ltac:(reflexivity)
  | intros [] []; reflexivity
  | intros ?; reflexivity
  | intros Hfields; first [destruct Hfields; reflexivity|split_and!; intros; reflexivity] ].
