(* ===== verification/ApiOracle.v ===== *)
(** * ApiOracle: the structs of the oracle of the generated API

    [src/api/oracle/v1/oracle.pulsar.go], [abci.pulsar.go], [events.pulsar.go] and
    [genesis.pulsar.go]: the data of the module, the vote extension and the
    injected transaction, the events and the genesis; and the configuration of
    the module, [src/api/oracle/module/v1/module.pulsar.go].
    Each message is a struct, the closures that its [ProtoMethods] returns and
    the laws of Pulsar for them. *)
From S2P Require Import Prelude Util Dec Wire WireLemmas Pulsar PulsarLemmas.
Local Open Scope Z_scope.

Section messages.
Context `{PulsarRuntime} `{CosmosApi}.

(** [RewardBand] *)

Record RewardBand := mkRewardBand {
  RewardBand_SymbolDenom : string;
  RewardBand_RewardBand : string;
  RewardBand_unknownFields : bytes;
}.
Definition RewardBand_size : size_closure RewardBand := closure_size (λ x,
  api_size_string 1 (RewardBand_SymbolDenom x) + api_size_string 1 (RewardBand_RewardBand x) +
  len (RewardBand_unknownFields x)).
Definition RewardBand_marshal : marshal_closure RewardBand := closure_marshal RewardBand_size (λ x,
  put_copy (RewardBand_unknownFields x) ;; api_put_string [0x12] (RewardBand_RewardBand x) ;;
  api_put_string [0xa] (RewardBand_SymbolDenom x)).
Definition RewardBand_field (discard : bool) (n : Z) : option (field_reader RewardBand) :=
  if n =? 1 then Some (string_field "SymbolDenom"
    (λ x v, mkRewardBand v (RewardBand_RewardBand x) (RewardBand_unknownFields x))) else
  if n =? 2 then Some (string_field "RewardBand"
    (λ x v, mkRewardBand (RewardBand_SymbolDenom x) v (RewardBand_unknownFields x))) else
  None.
Definition RewardBand_unknown (x : RewardBand) (bz : bytes) : RewardBand :=
  mkRewardBand (RewardBand_SymbolDenom x) (RewardBand_RewardBand x) (RewardBand_unknownFields x ++
    bz).
Definition RewardBand_unmarshal : unmarshal_closure RewardBand :=
  closure_unmarshal "RewardBand" RewardBand_field RewardBand_unknown.
#[export] Instance RewardBand_methods : ProtoMethods RewardBand := {|
  api_new := mkRewardBand "" "" [];
  api_size := RewardBand_size;
  api_marshal := RewardBand_marshal;
  api_unmarshal := RewardBand_unmarshal;
|}.

(** [Denom] *)

Record Denom := mkDenom {
  Denom_BaseDenom : string;
  Denom_SymbolDenom : string;
  Denom_Exponent : Z;
  Denom_unknownFields : bytes;
}.
Definition Denom_size : size_closure Denom := closure_size (λ x,
  api_size_string 1 (Denom_BaseDenom x) + api_size_string 1 (Denom_SymbolDenom x) +
  api_size_varint 1 (Denom_Exponent x) + len (Denom_unknownFields x)).
Definition Denom_marshal : marshal_closure Denom := closure_marshal Denom_size (λ x,
  put_copy (Denom_unknownFields x) ;; api_put_varint [0x18] (Denom_Exponent x) ;;
  api_put_string [0x12] (Denom_SymbolDenom x) ;; api_put_string [0xa] (Denom_BaseDenom x)).
Definition Denom_field (discard : bool) (n : Z) : option (field_reader Denom) :=
  if n =? 1 then Some (string_field "BaseDenom"
    (λ x v, mkDenom v (Denom_SymbolDenom x) (Denom_Exponent x) (Denom_unknownFields x))) else
  if n =? 2 then Some (string_field "SymbolDenom"
    (λ x v, mkDenom (Denom_BaseDenom x) v (Denom_Exponent x) (Denom_unknownFields x))) else
  if n =? 3 then Some (varint_field "Exponent" wrap_u32
    (λ x v, mkDenom (Denom_BaseDenom x) (Denom_SymbolDenom x) v (Denom_unknownFields x))) else
  None.
Definition Denom_unknown (x : Denom) (bz : bytes) : Denom :=
  mkDenom (Denom_BaseDenom x) (Denom_SymbolDenom x) (Denom_Exponent x) (Denom_unknownFields x ++
    bz).
Definition Denom_unmarshal : unmarshal_closure Denom :=
  closure_unmarshal "Denom" Denom_field Denom_unknown.
#[export] Instance Denom_methods : ProtoMethods Denom := {|
  api_new := mkDenom "" "" 0 [];
  api_size := Denom_size;
  api_marshal := Denom_marshal;
  api_unmarshal := Denom_unmarshal;
|}.

(** [PairAddressProvider] *)

Record PairAddressProvider := mkPairAddressProvider {
  PairAddressProvider_Address : string;
  PairAddressProvider_AddressProvider : string;
  PairAddressProvider_unknownFields : bytes;
}.
Definition PairAddressProvider_size : size_closure PairAddressProvider := closure_size (λ x,
  api_size_string 1 (PairAddressProvider_Address x) +
  api_size_string 1 (PairAddressProvider_AddressProvider x) +
  len (PairAddressProvider_unknownFields x)).
Definition PairAddressProvider_marshal : marshal_closure PairAddressProvider :=
    closure_marshal PairAddressProvider_size (λ x,
  put_copy (PairAddressProvider_unknownFields x) ;;
  api_put_string [0x12] (PairAddressProvider_AddressProvider x) ;;
  api_put_string [0xa] (PairAddressProvider_Address x)).
Definition PairAddressProvider_field (discard : bool) (n : Z) :
    option (field_reader PairAddressProvider) :=
  if n =? 1 then Some (string_field "Address"
    (λ x v, mkPairAddressProvider v (PairAddressProvider_AddressProvider x)
      (PairAddressProvider_unknownFields x))) else
  if n =? 2 then Some (string_field "AddressProvider"
    (λ x v, mkPairAddressProvider (PairAddressProvider_Address x) v
      (PairAddressProvider_unknownFields x))) else
  None.
Definition PairAddressProvider_unknown (x : PairAddressProvider)
    (bz : bytes) : PairAddressProvider :=
  mkPairAddressProvider (PairAddressProvider_Address x) (PairAddressProvider_AddressProvider x)
    (PairAddressProvider_unknownFields x ++ bz).
Definition PairAddressProvider_unmarshal : unmarshal_closure PairAddressProvider :=
  closure_unmarshal "PairAddressProvider" PairAddressProvider_field PairAddressProvider_unknown.
#[export] Instance PairAddressProvider_methods : ProtoMethods PairAddressProvider := {|
  api_new := mkPairAddressProvider "" "" [];
  api_size := PairAddressProvider_size;
  api_marshal := PairAddressProvider_marshal;
  api_unmarshal := PairAddressProvider_unmarshal;
|}.

(** [CurrencyPairProviders] *)

Record CurrencyPairProviders := mkCurrencyPairProviders {
  CurrencyPairProviders_BaseDenom : string;
  CurrencyPairProviders_QuoteDenom : string;
  CurrencyPairProviders_PairAddress : list (option PairAddressProvider);
  CurrencyPairProviders_Providers : list string;
  CurrencyPairProviders_unknownFields : bytes;
}.
Definition CurrencyPairProviders_size : size_closure CurrencyPairProviders := closure_size (λ x,
  api_size_string 1 (CurrencyPairProviders_BaseDenom x) +
  api_size_string 1 (CurrencyPairProviders_QuoteDenom x) +
  api_size_messages 1 (CurrencyPairProviders_PairAddress x) +
  api_size_strings 1 (CurrencyPairProviders_Providers x) +
  len (CurrencyPairProviders_unknownFields x)).
Definition CurrencyPairProviders_marshal : marshal_closure CurrencyPairProviders :=
    closure_marshal CurrencyPairProviders_size (λ x,
  put_copy (CurrencyPairProviders_unknownFields x) ;;
  api_put_strings [0x22] (CurrencyPairProviders_Providers x) ;;
  api_put_messages [0x1a] (CurrencyPairProviders_PairAddress x) ;;
  api_put_string [0x12] (CurrencyPairProviders_QuoteDenom x) ;;
  api_put_string [0xa] (CurrencyPairProviders_BaseDenom x)).
Definition CurrencyPairProviders_field (discard : bool) (n : Z) :
    option (field_reader CurrencyPairProviders) :=
  if n =? 1 then Some (string_field "BaseDenom"
    (λ x v, mkCurrencyPairProviders v (CurrencyPairProviders_QuoteDenom x)
      (CurrencyPairProviders_PairAddress x) (CurrencyPairProviders_Providers x)
      (CurrencyPairProviders_unknownFields x))) else
  if n =? 2 then Some (string_field "QuoteDenom"
    (λ x v, mkCurrencyPairProviders (CurrencyPairProviders_BaseDenom x) v
      (CurrencyPairProviders_PairAddress x) (CurrencyPairProviders_Providers x)
      (CurrencyPairProviders_unknownFields x))) else
  if n =? 3 then Some (api_messages_field discard "PairAddress" CurrencyPairProviders_PairAddress
    (λ x v, mkCurrencyPairProviders (CurrencyPairProviders_BaseDenom x)
      (CurrencyPairProviders_QuoteDenom x) v (CurrencyPairProviders_Providers x)
      (CurrencyPairProviders_unknownFields x))) else
  if n =? 4 then Some (strings_field "Providers" CurrencyPairProviders_Providers
    (λ x v, mkCurrencyPairProviders (CurrencyPairProviders_BaseDenom x)
      (CurrencyPairProviders_QuoteDenom x) (CurrencyPairProviders_PairAddress x) v
      (CurrencyPairProviders_unknownFields x))) else
  None.
Definition CurrencyPairProviders_unknown (x : CurrencyPairProviders)
    (bz : bytes) : CurrencyPairProviders :=
  mkCurrencyPairProviders (CurrencyPairProviders_BaseDenom x) (CurrencyPairProviders_QuoteDenom x)
    (CurrencyPairProviders_PairAddress x) (CurrencyPairProviders_Providers x)
    (CurrencyPairProviders_unknownFields x ++ bz).
Definition CurrencyPairProviders_unmarshal : unmarshal_closure CurrencyPairProviders :=
  closure_unmarshal "CurrencyPairProviders" CurrencyPairProviders_field
    CurrencyPairProviders_unknown.
#[export] Instance CurrencyPairProviders_methods : ProtoMethods CurrencyPairProviders := {|
  api_new := mkCurrencyPairProviders "" "" [] [] [];
  api_size := CurrencyPairProviders_size;
  api_marshal := CurrencyPairProviders_marshal;
  api_unmarshal := CurrencyPairProviders_unmarshal;
|}.

(** [CurrencyDeviationThreshold] *)

Record CurrencyDeviationThreshold := mkCurrencyDeviationThreshold {
  CurrencyDeviationThreshold_BaseDenom : string;
  CurrencyDeviationThreshold_Threshold : string;
  CurrencyDeviationThreshold_unknownFields : bytes;
}.
Definition CurrencyDeviationThreshold_size : size_closure CurrencyDeviationThreshold :=
    closure_size (λ x,
  api_size_string 1 (CurrencyDeviationThreshold_BaseDenom x) +
  api_size_string 1 (CurrencyDeviationThreshold_Threshold x) +
  len (CurrencyDeviationThreshold_unknownFields x)).
Definition CurrencyDeviationThreshold_marshal : marshal_closure CurrencyDeviationThreshold :=
    closure_marshal CurrencyDeviationThreshold_size (λ x,
  put_copy (CurrencyDeviationThreshold_unknownFields x) ;;
  api_put_string [0x12] (CurrencyDeviationThreshold_Threshold x) ;;
  api_put_string [0xa] (CurrencyDeviationThreshold_BaseDenom x)).
Definition CurrencyDeviationThreshold_field (discard : bool) (n : Z) :
    option (field_reader CurrencyDeviationThreshold) :=
  if n =? 1 then Some (string_field "BaseDenom"
    (λ x v, mkCurrencyDeviationThreshold v (CurrencyDeviationThreshold_Threshold x)
      (CurrencyDeviationThreshold_unknownFields x))) else
  if n =? 2 then Some (string_field "Threshold"
    (λ x v, mkCurrencyDeviationThreshold (CurrencyDeviationThreshold_BaseDenom x) v
      (CurrencyDeviationThreshold_unknownFields x))) else
  None.
Definition CurrencyDeviationThreshold_unknown (x : CurrencyDeviationThreshold)
    (bz : bytes) : CurrencyDeviationThreshold :=
  mkCurrencyDeviationThreshold (CurrencyDeviationThreshold_BaseDenom x)
    (CurrencyDeviationThreshold_Threshold x) (CurrencyDeviationThreshold_unknownFields x ++ bz).
Definition CurrencyDeviationThreshold_unmarshal : unmarshal_closure CurrencyDeviationThreshold :=
  closure_unmarshal "CurrencyDeviationThreshold" CurrencyDeviationThreshold_field
    CurrencyDeviationThreshold_unknown.
#[export] Instance CurrencyDeviationThreshold_methods :
    ProtoMethods CurrencyDeviationThreshold := {|
  api_new := mkCurrencyDeviationThreshold "" "" [];
  api_size := CurrencyDeviationThreshold_size;
  api_marshal := CurrencyDeviationThreshold_marshal;
  api_unmarshal := CurrencyDeviationThreshold_unmarshal;
|}.

(** [Params] *)

Record Params := mkParams {
  Params_VotePeriod : Z;
  Params_VoteThreshold : string;
  Params_RewardBands : list (option RewardBand);
  Params_RewardDistributionWindow : Z;
  Params_AcceptList : list (option Denom);
  Params_SlashFraction : string;
  Params_SlashWindow : Z;
  Params_MinValidPerWindow : string;
  Params_MandatoryList : list (option Denom);
  Params_HistoricStampPeriod : Z;
  Params_MedianStampPeriod : Z;
  Params_MaximumPriceStamps : Z;
  Params_MaximumMedianStamps : Z;
  Params_CurrencyPairProviders : list (option CurrencyPairProviders);
  Params_CurrencyDeviationThresholds : list (option CurrencyDeviationThreshold);
  Params_UsdcIbcDenom : string;
  Params_SlashingEnabled : bool;
  Params_AveragingWindow : Z;
  Params_unknownFields : bytes;
}.
Definition Params_size : size_closure Params := closure_size (λ x,
  api_size_varint 1 (Params_VotePeriod x) + api_size_string 1 (Params_VoteThreshold x) +
  api_size_messages 1 (Params_RewardBands x) +
  api_size_varint 1 (Params_RewardDistributionWindow x) +
  api_size_messages 1 (Params_AcceptList x) + api_size_string 1 (Params_SlashFraction x) +
  api_size_varint 1 (Params_SlashWindow x) + api_size_string 1 (Params_MinValidPerWindow x) +
  api_size_messages 1 (Params_MandatoryList x) + api_size_varint 1 (Params_HistoricStampPeriod x) +
  api_size_varint 1 (Params_MedianStampPeriod x) +
  api_size_varint 1 (Params_MaximumPriceStamps x) +
  api_size_varint 1 (Params_MaximumMedianStamps x) +
  api_size_messages 1 (Params_CurrencyPairProviders x) +
  api_size_messages 1 (Params_CurrencyDeviationThresholds x) +
  api_size_string 2 (Params_UsdcIbcDenom x) + size_bool 2 (Params_SlashingEnabled x) +
  api_size_varint 2 (Params_AveragingWindow x) + len (Params_unknownFields x)).
Definition Params_marshal : marshal_closure Params := closure_marshal Params_size (λ x,
  put_copy (Params_unknownFields x) ;; api_put_varint [0x90; 0x1] (Params_AveragingWindow x) ;;
  put_bool [0x88; 0x1] (Params_SlashingEnabled x) ;;
  api_put_string [0x82; 0x1] (Params_UsdcIbcDenom x) ;;
  api_put_messages [0x7a] (Params_CurrencyDeviationThresholds x) ;;
  api_put_messages [0x72] (Params_CurrencyPairProviders x) ;;
  api_put_varint [0x68] (Params_MaximumMedianStamps x) ;;
  api_put_varint [0x60] (Params_MaximumPriceStamps x) ;;
  api_put_varint [0x58] (Params_MedianStampPeriod x) ;;
  api_put_varint [0x50] (Params_HistoricStampPeriod x) ;;
  api_put_messages [0x4a] (Params_MandatoryList x) ;;
  api_put_string [0x42] (Params_MinValidPerWindow x) ;;
  api_put_varint [0x38] (Params_SlashWindow x) ;; api_put_string [0x32] (Params_SlashFraction x) ;;
  api_put_messages [0x2a] (Params_AcceptList x) ;;
  api_put_varint [0x20] (Params_RewardDistributionWindow x) ;;
  api_put_messages [0x1a] (Params_RewardBands x) ;;
  api_put_string [0x12] (Params_VoteThreshold x) ;; api_put_varint [0x8] (Params_VotePeriod x)).
Definition Params_field (discard : bool) (n : Z) : option (field_reader Params) :=
  if n =? 1 then Some (varint_field "VotePeriod" wrap_u64
    (λ x v, mkParams v (Params_VoteThreshold x) (Params_RewardBands x)
      (Params_RewardDistributionWindow x) (Params_AcceptList x) (Params_SlashFraction x)
      (Params_SlashWindow x) (Params_MinValidPerWindow x) (Params_MandatoryList x)
      (Params_HistoricStampPeriod x) (Params_MedianStampPeriod x) (Params_MaximumPriceStamps x)
      (Params_MaximumMedianStamps x) (Params_CurrencyPairProviders x)
      (Params_CurrencyDeviationThresholds x) (Params_UsdcIbcDenom x) (Params_SlashingEnabled x)
      (Params_AveragingWindow x) (Params_unknownFields x))) else
  if n =? 2 then Some (string_field "VoteThreshold"
    (λ x v, mkParams (Params_VotePeriod x) v (Params_RewardBands x)
      (Params_RewardDistributionWindow x) (Params_AcceptList x) (Params_SlashFraction x)
      (Params_SlashWindow x) (Params_MinValidPerWindow x) (Params_MandatoryList x)
      (Params_HistoricStampPeriod x) (Params_MedianStampPeriod x) (Params_MaximumPriceStamps x)
      (Params_MaximumMedianStamps x) (Params_CurrencyPairProviders x)
      (Params_CurrencyDeviationThresholds x) (Params_UsdcIbcDenom x) (Params_SlashingEnabled x)
      (Params_AveragingWindow x) (Params_unknownFields x))) else
  if n =? 3 then Some (api_messages_field discard "RewardBands" Params_RewardBands
    (λ x v, mkParams (Params_VotePeriod x) (Params_VoteThreshold x) v
      (Params_RewardDistributionWindow x) (Params_AcceptList x) (Params_SlashFraction x)
      (Params_SlashWindow x) (Params_MinValidPerWindow x) (Params_MandatoryList x)
      (Params_HistoricStampPeriod x) (Params_MedianStampPeriod x) (Params_MaximumPriceStamps x)
      (Params_MaximumMedianStamps x) (Params_CurrencyPairProviders x)
      (Params_CurrencyDeviationThresholds x) (Params_UsdcIbcDenom x) (Params_SlashingEnabled x)
      (Params_AveragingWindow x) (Params_unknownFields x))) else
  if n =? 4 then Some (varint_field "RewardDistributionWindow" wrap_u64
    (λ x v, mkParams (Params_VotePeriod x) (Params_VoteThreshold x) (Params_RewardBands x) v
      (Params_AcceptList x) (Params_SlashFraction x) (Params_SlashWindow x)
      (Params_MinValidPerWindow x) (Params_MandatoryList x) (Params_HistoricStampPeriod x)
      (Params_MedianStampPeriod x) (Params_MaximumPriceStamps x) (Params_MaximumMedianStamps x)
      (Params_CurrencyPairProviders x) (Params_CurrencyDeviationThresholds x) (Params_UsdcIbcDenom
      x) (Params_SlashingEnabled x) (Params_AveragingWindow x) (Params_unknownFields x))) else
  if n =? 5 then Some (api_messages_field discard "AcceptList" Params_AcceptList
    (λ x v, mkParams (Params_VotePeriod x) (Params_VoteThreshold x) (Params_RewardBands x)
      (Params_RewardDistributionWindow x) v (Params_SlashFraction x) (Params_SlashWindow x)
      (Params_MinValidPerWindow x) (Params_MandatoryList x) (Params_HistoricStampPeriod x)
      (Params_MedianStampPeriod x) (Params_MaximumPriceStamps x) (Params_MaximumMedianStamps x)
      (Params_CurrencyPairProviders x) (Params_CurrencyDeviationThresholds x) (Params_UsdcIbcDenom
      x) (Params_SlashingEnabled x) (Params_AveragingWindow x) (Params_unknownFields x))) else
  if n =? 6 then Some (string_field "SlashFraction"
    (λ x v, mkParams (Params_VotePeriod x) (Params_VoteThreshold x) (Params_RewardBands x)
      (Params_RewardDistributionWindow x) (Params_AcceptList x) v (Params_SlashWindow x)
      (Params_MinValidPerWindow x) (Params_MandatoryList x) (Params_HistoricStampPeriod x)
      (Params_MedianStampPeriod x) (Params_MaximumPriceStamps x) (Params_MaximumMedianStamps x)
      (Params_CurrencyPairProviders x) (Params_CurrencyDeviationThresholds x) (Params_UsdcIbcDenom
      x) (Params_SlashingEnabled x) (Params_AveragingWindow x) (Params_unknownFields x))) else
  if n =? 7 then Some (varint_field "SlashWindow" wrap_u64
    (λ x v, mkParams (Params_VotePeriod x) (Params_VoteThreshold x) (Params_RewardBands x)
      (Params_RewardDistributionWindow x) (Params_AcceptList x) (Params_SlashFraction x) v
      (Params_MinValidPerWindow x) (Params_MandatoryList x) (Params_HistoricStampPeriod x)
      (Params_MedianStampPeriod x) (Params_MaximumPriceStamps x) (Params_MaximumMedianStamps x)
      (Params_CurrencyPairProviders x) (Params_CurrencyDeviationThresholds x) (Params_UsdcIbcDenom
      x) (Params_SlashingEnabled x) (Params_AveragingWindow x) (Params_unknownFields x))) else
  if n =? 8 then Some (string_field "MinValidPerWindow"
    (λ x v, mkParams (Params_VotePeriod x) (Params_VoteThreshold x) (Params_RewardBands x)
      (Params_RewardDistributionWindow x) (Params_AcceptList x) (Params_SlashFraction x)
      (Params_SlashWindow x) v (Params_MandatoryList x) (Params_HistoricStampPeriod x)
      (Params_MedianStampPeriod x) (Params_MaximumPriceStamps x) (Params_MaximumMedianStamps x)
      (Params_CurrencyPairProviders x) (Params_CurrencyDeviationThresholds x) (Params_UsdcIbcDenom
      x) (Params_SlashingEnabled x) (Params_AveragingWindow x) (Params_unknownFields x))) else
  if n =? 9 then Some (api_messages_field discard "MandatoryList" Params_MandatoryList
    (λ x v, mkParams (Params_VotePeriod x) (Params_VoteThreshold x) (Params_RewardBands x)
      (Params_RewardDistributionWindow x) (Params_AcceptList x) (Params_SlashFraction x)
      (Params_SlashWindow x) (Params_MinValidPerWindow x) v (Params_HistoricStampPeriod x)
      (Params_MedianStampPeriod x) (Params_MaximumPriceStamps x) (Params_MaximumMedianStamps x)
      (Params_CurrencyPairProviders x) (Params_CurrencyDeviationThresholds x) (Params_UsdcIbcDenom
      x) (Params_SlashingEnabled x) (Params_AveragingWindow x) (Params_unknownFields x))) else
  if n =? 10 then Some (varint_field "HistoricStampPeriod" wrap_u64
    (λ x v, mkParams (Params_VotePeriod x) (Params_VoteThreshold x) (Params_RewardBands x)
      (Params_RewardDistributionWindow x) (Params_AcceptList x) (Params_SlashFraction x)
      (Params_SlashWindow x) (Params_MinValidPerWindow x) (Params_MandatoryList x) v
      (Params_MedianStampPeriod x) (Params_MaximumPriceStamps x) (Params_MaximumMedianStamps x)
      (Params_CurrencyPairProviders x) (Params_CurrencyDeviationThresholds x) (Params_UsdcIbcDenom
      x) (Params_SlashingEnabled x) (Params_AveragingWindow x) (Params_unknownFields x))) else
  if n =? 11 then Some (varint_field "MedianStampPeriod" wrap_u64
    (λ x v, mkParams (Params_VotePeriod x) (Params_VoteThreshold x) (Params_RewardBands x)
      (Params_RewardDistributionWindow x) (Params_AcceptList x) (Params_SlashFraction x)
      (Params_SlashWindow x) (Params_MinValidPerWindow x) (Params_MandatoryList x)
      (Params_HistoricStampPeriod x) v (Params_MaximumPriceStamps x) (Params_MaximumMedianStamps
      x) (Params_CurrencyPairProviders x) (Params_CurrencyDeviationThresholds x)
      (Params_UsdcIbcDenom x) (Params_SlashingEnabled x) (Params_AveragingWindow x)
      (Params_unknownFields x))) else
  if n =? 12 then Some (varint_field "MaximumPriceStamps" wrap_u64
    (λ x v, mkParams (Params_VotePeriod x) (Params_VoteThreshold x) (Params_RewardBands x)
      (Params_RewardDistributionWindow x) (Params_AcceptList x) (Params_SlashFraction x)
      (Params_SlashWindow x) (Params_MinValidPerWindow x) (Params_MandatoryList x)
      (Params_HistoricStampPeriod x) (Params_MedianStampPeriod x) v (Params_MaximumMedianStamps x)
      (Params_CurrencyPairProviders x) (Params_CurrencyDeviationThresholds x) (Params_UsdcIbcDenom
      x) (Params_SlashingEnabled x) (Params_AveragingWindow x) (Params_unknownFields x))) else
  if n =? 13 then Some (varint_field "MaximumMedianStamps" wrap_u64
    (λ x v, mkParams (Params_VotePeriod x) (Params_VoteThreshold x) (Params_RewardBands x)
      (Params_RewardDistributionWindow x) (Params_AcceptList x) (Params_SlashFraction x)
      (Params_SlashWindow x) (Params_MinValidPerWindow x) (Params_MandatoryList x)
      (Params_HistoricStampPeriod x) (Params_MedianStampPeriod x) (Params_MaximumPriceStamps x) v
      (Params_CurrencyPairProviders x) (Params_CurrencyDeviationThresholds x) (Params_UsdcIbcDenom
      x) (Params_SlashingEnabled x) (Params_AveragingWindow x) (Params_unknownFields x))) else
  if n =? 14 then Some (api_messages_field discard "CurrencyPairProviders"
    Params_CurrencyPairProviders
    (λ x v, mkParams (Params_VotePeriod x) (Params_VoteThreshold x) (Params_RewardBands x)
      (Params_RewardDistributionWindow x) (Params_AcceptList x) (Params_SlashFraction x)
      (Params_SlashWindow x) (Params_MinValidPerWindow x) (Params_MandatoryList x)
      (Params_HistoricStampPeriod x) (Params_MedianStampPeriod x) (Params_MaximumPriceStamps x)
      (Params_MaximumMedianStamps x) v (Params_CurrencyDeviationThresholds x) (Params_UsdcIbcDenom
      x) (Params_SlashingEnabled x) (Params_AveragingWindow x) (Params_unknownFields x))) else
  if n =? 15 then Some (api_messages_field discard "CurrencyDeviationThresholds"
    Params_CurrencyDeviationThresholds
    (λ x v, mkParams (Params_VotePeriod x) (Params_VoteThreshold x) (Params_RewardBands x)
      (Params_RewardDistributionWindow x) (Params_AcceptList x) (Params_SlashFraction x)
      (Params_SlashWindow x) (Params_MinValidPerWindow x) (Params_MandatoryList x)
      (Params_HistoricStampPeriod x) (Params_MedianStampPeriod x) (Params_MaximumPriceStamps x)
      (Params_MaximumMedianStamps x) (Params_CurrencyPairProviders x) v (Params_UsdcIbcDenom x)
      (Params_SlashingEnabled x) (Params_AveragingWindow x) (Params_unknownFields x))) else
  if n =? 16 then Some (string_field "UsdcIbcDenom"
    (λ x v, mkParams (Params_VotePeriod x) (Params_VoteThreshold x) (Params_RewardBands x)
      (Params_RewardDistributionWindow x) (Params_AcceptList x) (Params_SlashFraction x)
      (Params_SlashWindow x) (Params_MinValidPerWindow x) (Params_MandatoryList x)
      (Params_HistoricStampPeriod x) (Params_MedianStampPeriod x) (Params_MaximumPriceStamps x)
      (Params_MaximumMedianStamps x) (Params_CurrencyPairProviders x)
      (Params_CurrencyDeviationThresholds x) v (Params_SlashingEnabled x) (Params_AveragingWindow
      x) (Params_unknownFields x))) else
  if n =? 17 then Some (bool_field "SlashingEnabled"
    (λ x v, mkParams (Params_VotePeriod x) (Params_VoteThreshold x) (Params_RewardBands x)
      (Params_RewardDistributionWindow x) (Params_AcceptList x) (Params_SlashFraction x)
      (Params_SlashWindow x) (Params_MinValidPerWindow x) (Params_MandatoryList x)
      (Params_HistoricStampPeriod x) (Params_MedianStampPeriod x) (Params_MaximumPriceStamps x)
      (Params_MaximumMedianStamps x) (Params_CurrencyPairProviders x)
      (Params_CurrencyDeviationThresholds x) (Params_UsdcIbcDenom x) v (Params_AveragingWindow x)
      (Params_unknownFields x))) else
  if n =? 18 then Some (varint_field "AveragingWindow" wrap_u64
    (λ x v, mkParams (Params_VotePeriod x) (Params_VoteThreshold x) (Params_RewardBands x)
      (Params_RewardDistributionWindow x) (Params_AcceptList x) (Params_SlashFraction x)
      (Params_SlashWindow x) (Params_MinValidPerWindow x) (Params_MandatoryList x)
      (Params_HistoricStampPeriod x) (Params_MedianStampPeriod x) (Params_MaximumPriceStamps x)
      (Params_MaximumMedianStamps x) (Params_CurrencyPairProviders x)
      (Params_CurrencyDeviationThresholds x) (Params_UsdcIbcDenom x) (Params_SlashingEnabled x) v
      (Params_unknownFields x))) else
  None.
Definition Params_unknown (x : Params) (bz : bytes) : Params :=
  mkParams (Params_VotePeriod x) (Params_VoteThreshold x) (Params_RewardBands x)
    (Params_RewardDistributionWindow x) (Params_AcceptList x) (Params_SlashFraction x)
    (Params_SlashWindow x) (Params_MinValidPerWindow x) (Params_MandatoryList x)
    (Params_HistoricStampPeriod x) (Params_MedianStampPeriod x) (Params_MaximumPriceStamps x)
    (Params_MaximumMedianStamps x) (Params_CurrencyPairProviders x)
    (Params_CurrencyDeviationThresholds x) (Params_UsdcIbcDenom x) (Params_SlashingEnabled x)
    (Params_AveragingWindow x) (Params_unknownFields x ++ bz).
Definition Params_unmarshal : unmarshal_closure Params :=
  closure_unmarshal "Params" Params_field Params_unknown.
#[export] Instance Params_methods : ProtoMethods Params := {|
  api_new := mkParams 0 "" [] 0 [] "" 0 "" [] 0 0 0 0 [] [] "" false 0 [];
  api_size := Params_size;
  api_marshal := Params_marshal;
  api_unmarshal := Params_unmarshal;
|}.

(** [AggregateExchangeRatePrevote] *)

Record AggregateExchangeRatePrevote := mkAggregateExchangeRatePrevote {
  AggregateExchangeRatePrevote_Hash : string;
  AggregateExchangeRatePrevote_Voter : string;
  AggregateExchangeRatePrevote_SubmitBlock : Z;
  AggregateExchangeRatePrevote_unknownFields : bytes;
}.
Definition AggregateExchangeRatePrevote_size : size_closure AggregateExchangeRatePrevote :=
    closure_size (λ x,
  api_size_string 1 (AggregateExchangeRatePrevote_Hash x) +
  api_size_string 1 (AggregateExchangeRatePrevote_Voter x) +
  api_size_varint 1 (AggregateExchangeRatePrevote_SubmitBlock x) +
  len (AggregateExchangeRatePrevote_unknownFields x)).
Definition AggregateExchangeRatePrevote_marshal : marshal_closure AggregateExchangeRatePrevote :=
    closure_marshal AggregateExchangeRatePrevote_size (λ x,
  put_copy (AggregateExchangeRatePrevote_unknownFields x) ;;
  api_put_varint [0x18] (AggregateExchangeRatePrevote_SubmitBlock x) ;;
  api_put_string [0x12] (AggregateExchangeRatePrevote_Voter x) ;;
  api_put_string [0xa] (AggregateExchangeRatePrevote_Hash x)).
Definition AggregateExchangeRatePrevote_field (discard : bool) (n : Z) :
    option (field_reader AggregateExchangeRatePrevote) :=
  if n =? 1 then Some (string_field "Hash"
    (λ x v, mkAggregateExchangeRatePrevote v (AggregateExchangeRatePrevote_Voter x)
      (AggregateExchangeRatePrevote_SubmitBlock x) (AggregateExchangeRatePrevote_unknownFields
      x))) else
  if n =? 2 then Some (string_field "Voter"
    (λ x v, mkAggregateExchangeRatePrevote (AggregateExchangeRatePrevote_Hash x) v
      (AggregateExchangeRatePrevote_SubmitBlock x) (AggregateExchangeRatePrevote_unknownFields
      x))) else
  if n =? 3 then Some (varint_field "SubmitBlock" wrap_u64
    (λ x v, mkAggregateExchangeRatePrevote (AggregateExchangeRatePrevote_Hash x)
      (AggregateExchangeRatePrevote_Voter x) v (AggregateExchangeRatePrevote_unknownFields x)))
      else
  None.
Definition AggregateExchangeRatePrevote_unknown (x : AggregateExchangeRatePrevote)
    (bz : bytes) : AggregateExchangeRatePrevote :=
  mkAggregateExchangeRatePrevote (AggregateExchangeRatePrevote_Hash x)
    (AggregateExchangeRatePrevote_Voter x) (AggregateExchangeRatePrevote_SubmitBlock x)
    (AggregateExchangeRatePrevote_unknownFields x ++ bz).
Definition AggregateExchangeRatePrevote_unmarshal :
    unmarshal_closure AggregateExchangeRatePrevote :=
  closure_unmarshal "AggregateExchangeRatePrevote" AggregateExchangeRatePrevote_field
    AggregateExchangeRatePrevote_unknown.
#[export] Instance AggregateExchangeRatePrevote_methods :
    ProtoMethods AggregateExchangeRatePrevote := {|
  api_new := mkAggregateExchangeRatePrevote "" "" 0 [];
  api_size := AggregateExchangeRatePrevote_size;
  api_marshal := AggregateExchangeRatePrevote_marshal;
  api_unmarshal := AggregateExchangeRatePrevote_unmarshal;
|}.

(** [AggregateExchangeRateVote] *)

Record AggregateExchangeRateVote := mkAggregateExchangeRateVote {
  AggregateExchangeRateVote_ExchangeRates : list (option v1beta1_DecCoin);
  AggregateExchangeRateVote_Voter : string;
  AggregateExchangeRateVote_unknownFields : bytes;
}.
Definition AggregateExchangeRateVote_size : size_closure AggregateExchangeRateVote :=
    closure_size (λ x,
  api_size_messages 1 (AggregateExchangeRateVote_ExchangeRates x) +
  api_size_string 1 (AggregateExchangeRateVote_Voter x) +
  len (AggregateExchangeRateVote_unknownFields x)).
Definition AggregateExchangeRateVote_marshal : marshal_closure AggregateExchangeRateVote :=
    closure_marshal AggregateExchangeRateVote_size (λ x,
  put_copy (AggregateExchangeRateVote_unknownFields x) ;;
  api_put_string [0x12] (AggregateExchangeRateVote_Voter x) ;;
  api_put_messages [0xa] (AggregateExchangeRateVote_ExchangeRates x)).
Definition AggregateExchangeRateVote_field (discard : bool) (n : Z) :
    option (field_reader AggregateExchangeRateVote) :=
  if n =? 1 then Some (api_messages_field discard "ExchangeRates"
    AggregateExchangeRateVote_ExchangeRates
    (λ x v, mkAggregateExchangeRateVote v (AggregateExchangeRateVote_Voter x)
      (AggregateExchangeRateVote_unknownFields x))) else
  if n =? 2 then Some (string_field "Voter"
    (λ x v, mkAggregateExchangeRateVote (AggregateExchangeRateVote_ExchangeRates x) v
      (AggregateExchangeRateVote_unknownFields x))) else
  None.
Definition AggregateExchangeRateVote_unknown (x : AggregateExchangeRateVote)
    (bz : bytes) : AggregateExchangeRateVote :=
  mkAggregateExchangeRateVote (AggregateExchangeRateVote_ExchangeRates x)
    (AggregateExchangeRateVote_Voter x) (AggregateExchangeRateVote_unknownFields x ++ bz).
Definition AggregateExchangeRateVote_unmarshal : unmarshal_closure AggregateExchangeRateVote :=
  closure_unmarshal "AggregateExchangeRateVote" AggregateExchangeRateVote_field
    AggregateExchangeRateVote_unknown.
#[export] Instance AggregateExchangeRateVote_methods : ProtoMethods AggregateExchangeRateVote := {|
  api_new := mkAggregateExchangeRateVote [] "" [];
  api_size := AggregateExchangeRateVote_size;
  api_marshal := AggregateExchangeRateVote_marshal;
  api_unmarshal := AggregateExchangeRateVote_unmarshal;
|}.

(** [PriceStamp] *)

Record PriceStamp := mkPriceStamp {
  PriceStamp_ExchangeRate : option v1beta1_DecCoin;
  PriceStamp_BlockNum : Z;
  PriceStamp_unknownFields : bytes;
}.
Definition PriceStamp_size : size_closure PriceStamp := closure_size (λ x,
  api_size_message 1 (PriceStamp_ExchangeRate x) + api_size_varint 1 (PriceStamp_BlockNum x) +
  len (PriceStamp_unknownFields x)).
Definition PriceStamp_marshal : marshal_closure PriceStamp := closure_marshal PriceStamp_size (λ x,
  put_copy (PriceStamp_unknownFields x) ;; api_put_varint [0x10] (PriceStamp_BlockNum x) ;;
  api_put_message [0xa] (PriceStamp_ExchangeRate x)).
Definition PriceStamp_field (discard : bool) (n : Z) : option (field_reader PriceStamp) :=
  if n =? 1 then Some (api_message_field discard "ExchangeRate" PriceStamp_ExchangeRate
    (λ x v, mkPriceStamp v (PriceStamp_BlockNum x) (PriceStamp_unknownFields x))) else
  if n =? 2 then Some (varint_field "BlockNum" wrap_u64
    (λ x v, mkPriceStamp (PriceStamp_ExchangeRate x) v (PriceStamp_unknownFields x))) else
  None.
Definition PriceStamp_unknown (x : PriceStamp) (bz : bytes) : PriceStamp :=
  mkPriceStamp (PriceStamp_ExchangeRate x) (PriceStamp_BlockNum x) (PriceStamp_unknownFields x ++
    bz).
Definition PriceStamp_unmarshal : unmarshal_closure PriceStamp :=
  closure_unmarshal "PriceStamp" PriceStamp_field PriceStamp_unknown.
#[export] Instance PriceStamp_methods : ProtoMethods PriceStamp := {|
  api_new := mkPriceStamp None 0 [];
  api_size := PriceStamp_size;
  api_marshal := PriceStamp_marshal;
  api_unmarshal := PriceStamp_unmarshal;
|}.

(** [ValidatorRewardSet] *)

Record ValidatorRewardSet := mkValidatorRewardSet {
  ValidatorRewardSet_ValidatorSet : list string;
  ValidatorRewardSet_unknownFields : bytes;
}.
Definition ValidatorRewardSet_size : size_closure ValidatorRewardSet := closure_size (λ x,
  api_size_strings 1 (ValidatorRewardSet_ValidatorSet x) +
  len (ValidatorRewardSet_unknownFields x)).
Definition ValidatorRewardSet_marshal : marshal_closure ValidatorRewardSet :=
    closure_marshal ValidatorRewardSet_size (λ x,
  put_copy (ValidatorRewardSet_unknownFields x) ;;
  api_put_strings [0xa] (ValidatorRewardSet_ValidatorSet x)).
Definition ValidatorRewardSet_field (discard : bool) (n : Z) :
    option (field_reader ValidatorRewardSet) :=
  if n =? 1 then Some (strings_field "ValidatorSet" ValidatorRewardSet_ValidatorSet
    (λ x v, mkValidatorRewardSet v (ValidatorRewardSet_unknownFields x))) else
  None.
Definition ValidatorRewardSet_unknown (x : ValidatorRewardSet) (bz : bytes) : ValidatorRewardSet :=
  mkValidatorRewardSet (ValidatorRewardSet_ValidatorSet x) (ValidatorRewardSet_unknownFields x ++
    bz).
Definition ValidatorRewardSet_unmarshal : unmarshal_closure ValidatorRewardSet :=
  closure_unmarshal "ValidatorRewardSet" ValidatorRewardSet_field ValidatorRewardSet_unknown.
#[export] Instance ValidatorRewardSet_methods : ProtoMethods ValidatorRewardSet := {|
  api_new := mkValidatorRewardSet [] [];
  api_size := ValidatorRewardSet_size;
  api_marshal := ValidatorRewardSet_marshal;
  api_unmarshal := ValidatorRewardSet_unmarshal;
|}.

(** [ParamUpdatePlan] *)

Record ParamUpdatePlan := mkParamUpdatePlan {
  ParamUpdatePlan_Keys : list string;
  ParamUpdatePlan_Height : Z;
  ParamUpdatePlan_Changes : option Params;
  ParamUpdatePlan_unknownFields : bytes;
}.
Definition ParamUpdatePlan_size : size_closure ParamUpdatePlan := closure_size (λ x,
  api_size_strings 1 (ParamUpdatePlan_Keys x) + api_size_varint 1 (ParamUpdatePlan_Height x) +
  api_size_message 1 (ParamUpdatePlan_Changes x) + len (ParamUpdatePlan_unknownFields x)).
Definition ParamUpdatePlan_marshal : marshal_closure ParamUpdatePlan :=
    closure_marshal ParamUpdatePlan_size (λ x,
  put_copy (ParamUpdatePlan_unknownFields x) ;;
  api_put_message [0x1a] (ParamUpdatePlan_Changes x) ;;
  api_put_varint [0x10] (ParamUpdatePlan_Height x) ;;
  api_put_strings [0xa] (ParamUpdatePlan_Keys x)).
Definition ParamUpdatePlan_field (discard : bool) (n : Z) : option (field_reader ParamUpdatePlan) :=
  if n =? 1 then Some (strings_field "Keys" ParamUpdatePlan_Keys
    (λ x v, mkParamUpdatePlan v (ParamUpdatePlan_Height x) (ParamUpdatePlan_Changes x)
      (ParamUpdatePlan_unknownFields x))) else
  if n =? 2 then Some (varint_field "Height" wrap_i64
    (λ x v, mkParamUpdatePlan (ParamUpdatePlan_Keys x) v (ParamUpdatePlan_Changes x)
      (ParamUpdatePlan_unknownFields x))) else
  if n =? 3 then Some (api_message_field discard "Changes" ParamUpdatePlan_Changes
    (λ x v, mkParamUpdatePlan (ParamUpdatePlan_Keys x) (ParamUpdatePlan_Height x) v
      (ParamUpdatePlan_unknownFields x))) else
  None.
Definition ParamUpdatePlan_unknown (x : ParamUpdatePlan) (bz : bytes) : ParamUpdatePlan :=
  mkParamUpdatePlan (ParamUpdatePlan_Keys x) (ParamUpdatePlan_Height x) (ParamUpdatePlan_Changes
    x) (ParamUpdatePlan_unknownFields x ++ bz).
Definition ParamUpdatePlan_unmarshal : unmarshal_closure ParamUpdatePlan :=
  closure_unmarshal "ParamUpdatePlan" ParamUpdatePlan_field ParamUpdatePlan_unknown.
#[export] Instance ParamUpdatePlan_methods : ProtoMethods ParamUpdatePlan := {|
  api_new := mkParamUpdatePlan [] 0 None [];
  api_size := ParamUpdatePlan_size;
  api_marshal := ParamUpdatePlan_marshal;
  api_unmarshal := ParamUpdatePlan_unmarshal;
|}.

(** [OracleVoteExtension] *)

Record OracleVoteExtension := mkOracleVoteExtension {
  OracleVoteExtension_Height : Z;
  OracleVoteExtension_ExchangeRates : list (option v1beta1_DecCoin);
  OracleVoteExtension_unknownFields : bytes;
}.
Definition OracleVoteExtension_size : size_closure OracleVoteExtension := closure_size (λ x,
  api_size_varint 1 (OracleVoteExtension_Height x) +
  api_size_messages 1 (OracleVoteExtension_ExchangeRates x) +
  len (OracleVoteExtension_unknownFields x)).
Definition OracleVoteExtension_marshal : marshal_closure OracleVoteExtension :=
    closure_marshal OracleVoteExtension_size (λ x,
  put_copy (OracleVoteExtension_unknownFields x) ;;
  api_put_messages [0x12] (OracleVoteExtension_ExchangeRates x) ;;
  api_put_varint [0x8] (OracleVoteExtension_Height x)).
Definition OracleVoteExtension_field (discard : bool) (n : Z) :
    option (field_reader OracleVoteExtension) :=
  if n =? 1 then Some (varint_field "Height" wrap_i64
    (λ x v, mkOracleVoteExtension v (OracleVoteExtension_ExchangeRates x)
      (OracleVoteExtension_unknownFields x))) else
  if n =? 2 then Some (api_messages_field discard "ExchangeRates" OracleVoteExtension_ExchangeRates
    (λ x v, mkOracleVoteExtension (OracleVoteExtension_Height x) v
      (OracleVoteExtension_unknownFields x))) else
  None.
Definition OracleVoteExtension_unknown (x : OracleVoteExtension)
    (bz : bytes) : OracleVoteExtension :=
  mkOracleVoteExtension (OracleVoteExtension_Height x) (OracleVoteExtension_ExchangeRates x)
    (OracleVoteExtension_unknownFields x ++ bz).
Definition OracleVoteExtension_unmarshal : unmarshal_closure OracleVoteExtension :=
  closure_unmarshal "OracleVoteExtension" OracleVoteExtension_field OracleVoteExtension_unknown.
#[export] Instance OracleVoteExtension_methods : ProtoMethods OracleVoteExtension := {|
  api_new := mkOracleVoteExtension 0 [] [];
  api_size := OracleVoteExtension_size;
  api_marshal := OracleVoteExtension_marshal;
  api_unmarshal := OracleVoteExtension_unmarshal;
|}.

(** [InjectedVoteExtensionTx] *)

Record InjectedVoteExtensionTx := mkInjectedVoteExtensionTx {
  InjectedVoteExtensionTx_ExchangeRateVotes : list (option AggregateExchangeRateVote);
  InjectedVoteExtensionTx_ExtendedCommitInfo : bytes;
  InjectedVoteExtensionTx_unknownFields : bytes;
}.
Definition InjectedVoteExtensionTx_size : size_closure InjectedVoteExtensionTx :=
    closure_size (λ x,
  api_size_messages 1 (InjectedVoteExtensionTx_ExchangeRateVotes x) +
  api_size_bytes 1 (InjectedVoteExtensionTx_ExtendedCommitInfo x) +
  len (InjectedVoteExtensionTx_unknownFields x)).
Definition InjectedVoteExtensionTx_marshal : marshal_closure InjectedVoteExtensionTx :=
    closure_marshal InjectedVoteExtensionTx_size (λ x,
  put_copy (InjectedVoteExtensionTx_unknownFields x) ;;
  api_put_bytes [0x12] (InjectedVoteExtensionTx_ExtendedCommitInfo x) ;;
  api_put_messages [0xa] (InjectedVoteExtensionTx_ExchangeRateVotes x)).
Definition InjectedVoteExtensionTx_field (discard : bool) (n : Z) :
    option (field_reader InjectedVoteExtensionTx) :=
  if n =? 1 then Some (api_messages_field discard "ExchangeRateVotes"
    InjectedVoteExtensionTx_ExchangeRateVotes
    (λ x v, mkInjectedVoteExtensionTx v (InjectedVoteExtensionTx_ExtendedCommitInfo x)
      (InjectedVoteExtensionTx_unknownFields x))) else
  if n =? 2 then Some (bytes_field "ExtendedCommitInfo"
    (λ x v, mkInjectedVoteExtensionTx (InjectedVoteExtensionTx_ExchangeRateVotes x) v
      (InjectedVoteExtensionTx_unknownFields x))) else
  None.
Definition InjectedVoteExtensionTx_unknown (x : InjectedVoteExtensionTx)
    (bz : bytes) : InjectedVoteExtensionTx :=
  mkInjectedVoteExtensionTx (InjectedVoteExtensionTx_ExchangeRateVotes x)
    (InjectedVoteExtensionTx_ExtendedCommitInfo x) (InjectedVoteExtensionTx_unknownFields x ++
    bz).
Definition InjectedVoteExtensionTx_unmarshal : unmarshal_closure InjectedVoteExtensionTx :=
  closure_unmarshal "InjectedVoteExtensionTx" InjectedVoteExtensionTx_field
    InjectedVoteExtensionTx_unknown.
#[export] Instance InjectedVoteExtensionTx_methods : ProtoMethods InjectedVoteExtensionTx := {|
  api_new := mkInjectedVoteExtensionTx [] [] [];
  api_size := InjectedVoteExtensionTx_size;
  api_marshal := InjectedVoteExtensionTx_marshal;
  api_unmarshal := InjectedVoteExtensionTx_unmarshal;
|}.

(** [EventDelegateFeedConsent] *)

Record EventDelegateFeedConsent := mkEventDelegateFeedConsent {
  EventDelegateFeedConsent_Operator : string;
  EventDelegateFeedConsent_Delegate : string;
  EventDelegateFeedConsent_unknownFields : bytes;
}.
Definition EventDelegateFeedConsent_size : size_closure EventDelegateFeedConsent :=
    closure_size (λ x,
  api_size_string 1 (EventDelegateFeedConsent_Operator x) +
  api_size_string 1 (EventDelegateFeedConsent_Delegate x) +
  len (EventDelegateFeedConsent_unknownFields x)).
Definition EventDelegateFeedConsent_marshal : marshal_closure EventDelegateFeedConsent :=
    closure_marshal EventDelegateFeedConsent_size (λ x,
  put_copy (EventDelegateFeedConsent_unknownFields x) ;;
  api_put_string [0x12] (EventDelegateFeedConsent_Delegate x) ;;
  api_put_string [0xa] (EventDelegateFeedConsent_Operator x)).
Definition EventDelegateFeedConsent_field (discard : bool) (n : Z) :
    option (field_reader EventDelegateFeedConsent) :=
  if n =? 1 then Some (string_field "Operator"
    (λ x v, mkEventDelegateFeedConsent v (EventDelegateFeedConsent_Delegate x)
      (EventDelegateFeedConsent_unknownFields x))) else
  if n =? 2 then Some (string_field "Delegate"
    (λ x v, mkEventDelegateFeedConsent (EventDelegateFeedConsent_Operator x) v
      (EventDelegateFeedConsent_unknownFields x))) else
  None.
Definition EventDelegateFeedConsent_unknown (x : EventDelegateFeedConsent)
    (bz : bytes) : EventDelegateFeedConsent :=
  mkEventDelegateFeedConsent (EventDelegateFeedConsent_Operator x)
    (EventDelegateFeedConsent_Delegate x) (EventDelegateFeedConsent_unknownFields x ++ bz).
Definition EventDelegateFeedConsent_unmarshal : unmarshal_closure EventDelegateFeedConsent :=
  closure_unmarshal "EventDelegateFeedConsent" EventDelegateFeedConsent_field
    EventDelegateFeedConsent_unknown.
#[export] Instance EventDelegateFeedConsent_methods : ProtoMethods EventDelegateFeedConsent := {|
  api_new := mkEventDelegateFeedConsent "" "" [];
  api_size := EventDelegateFeedConsent_size;
  api_marshal := EventDelegateFeedConsent_marshal;
  api_unmarshal := EventDelegateFeedConsent_unmarshal;
|}.

(** [EventSetFxRate] *)

Record EventSetFxRate := mkEventSetFxRate {
  EventSetFxRate_Denom : string;
  EventSetFxRate_Rate : string;
  EventSetFxRate_unknownFields : bytes;
}.
Definition EventSetFxRate_size : size_closure EventSetFxRate := closure_size (λ x,
  api_size_string 1 (EventSetFxRate_Denom x) + api_size_string 1 (EventSetFxRate_Rate x) +
  len (EventSetFxRate_unknownFields x)).
Definition EventSetFxRate_marshal : marshal_closure EventSetFxRate :=
    closure_marshal EventSetFxRate_size (λ x,
  put_copy (EventSetFxRate_unknownFields x) ;; api_put_string [0x12] (EventSetFxRate_Rate x) ;;
  api_put_string [0xa] (EventSetFxRate_Denom x)).
Definition EventSetFxRate_field (discard : bool) (n : Z) : option (field_reader EventSetFxRate) :=
  if n =? 1 then Some (string_field "Denom"
    (λ x v, mkEventSetFxRate v (EventSetFxRate_Rate x) (EventSetFxRate_unknownFields x))) else
  if n =? 2 then Some (string_field "Rate"
    (λ x v, mkEventSetFxRate (EventSetFxRate_Denom x) v (EventSetFxRate_unknownFields x))) else
  None.
Definition EventSetFxRate_unknown (x : EventSetFxRate) (bz : bytes) : EventSetFxRate :=
  mkEventSetFxRate (EventSetFxRate_Denom x) (EventSetFxRate_Rate x) (EventSetFxRate_unknownFields
    x ++ bz).
Definition EventSetFxRate_unmarshal : unmarshal_closure EventSetFxRate :=
  closure_unmarshal "EventSetFxRate" EventSetFxRate_field EventSetFxRate_unknown.
#[export] Instance EventSetFxRate_methods : ProtoMethods EventSetFxRate := {|
  api_new := mkEventSetFxRate "" "" [];
  api_size := EventSetFxRate_size;
  api_marshal := EventSetFxRate_marshal;
  api_unmarshal := EventSetFxRate_unmarshal;
|}.

(** [FeederDelegation] *)

Record FeederDelegation := mkFeederDelegation {
  FeederDelegation_FeederAddress : string;
  FeederDelegation_ValidatorAddress : string;
  FeederDelegation_unknownFields : bytes;
}.
Definition FeederDelegation_size : size_closure FeederDelegation := closure_size (λ x,
  api_size_string 1 (FeederDelegation_FeederAddress x) +
  api_size_string 1 (FeederDelegation_ValidatorAddress x) +
  len (FeederDelegation_unknownFields x)).
Definition FeederDelegation_marshal : marshal_closure FeederDelegation :=
    closure_marshal FeederDelegation_size (λ x,
  put_copy (FeederDelegation_unknownFields x) ;;
  api_put_string [0x12] (FeederDelegation_ValidatorAddress x) ;;
  api_put_string [0xa] (FeederDelegation_FeederAddress x)).
Definition FeederDelegation_field (discard : bool) (n : Z) :
    option (field_reader FeederDelegation) :=
  if n =? 1 then Some (string_field "FeederAddress"
    (λ x v, mkFeederDelegation v (FeederDelegation_ValidatorAddress x)
      (FeederDelegation_unknownFields x))) else
  if n =? 2 then Some (string_field "ValidatorAddress"
    (λ x v, mkFeederDelegation (FeederDelegation_FeederAddress x) v
      (FeederDelegation_unknownFields x))) else
  None.
Definition FeederDelegation_unknown (x : FeederDelegation) (bz : bytes) : FeederDelegation :=
  mkFeederDelegation (FeederDelegation_FeederAddress x) (FeederDelegation_ValidatorAddress x)
    (FeederDelegation_unknownFields x ++ bz).
Definition FeederDelegation_unmarshal : unmarshal_closure FeederDelegation :=
  closure_unmarshal "FeederDelegation" FeederDelegation_field FeederDelegation_unknown.
#[export] Instance FeederDelegation_methods : ProtoMethods FeederDelegation := {|
  api_new := mkFeederDelegation "" "" [];
  api_size := FeederDelegation_size;
  api_marshal := FeederDelegation_marshal;
  api_unmarshal := FeederDelegation_unmarshal;
|}.

(** [MissCounter] *)

Record MissCounter := mkMissCounter {
  MissCounter_ValidatorAddress : string;
  MissCounter_MissCounter : Z;
  MissCounter_unknownFields : bytes;
}.
Definition MissCounter_size : size_closure MissCounter := closure_size (λ x,
  api_size_string 1 (MissCounter_ValidatorAddress x) +
  api_size_varint 1 (MissCounter_MissCounter x) + len (MissCounter_unknownFields x)).
Definition MissCounter_marshal : marshal_closure MissCounter :=
    closure_marshal MissCounter_size (λ x,
  put_copy (MissCounter_unknownFields x) ;; api_put_varint [0x10] (MissCounter_MissCounter x) ;;
  api_put_string [0xa] (MissCounter_ValidatorAddress x)).
Definition MissCounter_field (discard : bool) (n : Z) : option (field_reader MissCounter) :=
  if n =? 1 then Some (string_field "ValidatorAddress"
    (λ x v, mkMissCounter v (MissCounter_MissCounter x) (MissCounter_unknownFields x))) else
  if n =? 2 then Some (varint_field "MissCounter" wrap_u64
    (λ x v, mkMissCounter (MissCounter_ValidatorAddress x) v (MissCounter_unknownFields x))) else
  None.
Definition MissCounter_unknown (x : MissCounter) (bz : bytes) : MissCounter :=
  mkMissCounter (MissCounter_ValidatorAddress x) (MissCounter_MissCounter x)
    (MissCounter_unknownFields x ++ bz).
Definition MissCounter_unmarshal : unmarshal_closure MissCounter :=
  closure_unmarshal "MissCounter" MissCounter_field MissCounter_unknown.
#[export] Instance MissCounter_methods : ProtoMethods MissCounter := {|
  api_new := mkMissCounter "" 0 [];
  api_size := MissCounter_size;
  api_marshal := MissCounter_marshal;
  api_unmarshal := MissCounter_unmarshal;
|}.

(** [GenesisState] *)

Record GenesisState := mkGenesisState {
  GenesisState_Params : option Params;
  GenesisState_FeederDelegations : list (option FeederDelegation);
  GenesisState_ExchangeRates : list (option v1beta1_DecCoin);
  GenesisState_MissCounters : list (option MissCounter);
  GenesisState_AggregateExchangeRatePrevotes : list (option AggregateExchangeRatePrevote);
  GenesisState_AggregateExchangeRateVotes : list (option AggregateExchangeRateVote);
  GenesisState_Medians : list (option PriceStamp);
  GenesisState_HistoricPrices : list (option PriceStamp);
  GenesisState_MedianDeviations : list (option PriceStamp);
  GenesisState_unknownFields : bytes;
}.
Definition GenesisState_size : size_closure GenesisState := closure_size (λ x,
  api_size_message 1 (GenesisState_Params x) +
  api_size_messages 1 (GenesisState_FeederDelegations x) +
  api_size_messages 1 (GenesisState_ExchangeRates x) +
  api_size_messages 1 (GenesisState_MissCounters x) +
  api_size_messages 1 (GenesisState_AggregateExchangeRatePrevotes x) +
  api_size_messages 1 (GenesisState_AggregateExchangeRateVotes x) +
  api_size_messages 1 (GenesisState_Medians x) +
  api_size_messages 1 (GenesisState_HistoricPrices x) +
  api_size_messages 1 (GenesisState_MedianDeviations x) + len (GenesisState_unknownFields x)).
Definition GenesisState_marshal : marshal_closure GenesisState :=
    closure_marshal GenesisState_size (λ x,
  put_copy (GenesisState_unknownFields x) ;;
  api_put_messages [0x4a] (GenesisState_MedianDeviations x) ;;
  api_put_messages [0x42] (GenesisState_HistoricPrices x) ;;
  api_put_messages [0x3a] (GenesisState_Medians x) ;;
  api_put_messages [0x32] (GenesisState_AggregateExchangeRateVotes x) ;;
  api_put_messages [0x2a] (GenesisState_AggregateExchangeRatePrevotes x) ;;
  api_put_messages [0x22] (GenesisState_MissCounters x) ;;
  api_put_messages [0x1a] (GenesisState_ExchangeRates x) ;;
  api_put_messages [0x12] (GenesisState_FeederDelegations x) ;;
  api_put_message [0xa] (GenesisState_Params x)).
Definition GenesisState_field (discard : bool) (n : Z) : option (field_reader GenesisState) :=
  if n =? 1 then Some (api_message_field discard "Params" GenesisState_Params
    (λ x v, mkGenesisState v (GenesisState_FeederDelegations x) (GenesisState_ExchangeRates x)
      (GenesisState_MissCounters x) (GenesisState_AggregateExchangeRatePrevotes x)
      (GenesisState_AggregateExchangeRateVotes x) (GenesisState_Medians x)
      (GenesisState_HistoricPrices x) (GenesisState_MedianDeviations x)
      (GenesisState_unknownFields x))) else
  if n =? 2 then Some (api_messages_field discard "FeederDelegations"
    GenesisState_FeederDelegations
    (λ x v, mkGenesisState (GenesisState_Params x) v (GenesisState_ExchangeRates x)
      (GenesisState_MissCounters x) (GenesisState_AggregateExchangeRatePrevotes x)
      (GenesisState_AggregateExchangeRateVotes x) (GenesisState_Medians x)
      (GenesisState_HistoricPrices x) (GenesisState_MedianDeviations x)
      (GenesisState_unknownFields x))) else
  if n =? 3 then Some (api_messages_field discard "ExchangeRates" GenesisState_ExchangeRates
    (λ x v, mkGenesisState (GenesisState_Params x) (GenesisState_FeederDelegations x) v
      (GenesisState_MissCounters x) (GenesisState_AggregateExchangeRatePrevotes x)
      (GenesisState_AggregateExchangeRateVotes x) (GenesisState_Medians x)
      (GenesisState_HistoricPrices x) (GenesisState_MedianDeviations x)
      (GenesisState_unknownFields x))) else
  if n =? 4 then Some (api_messages_field discard "MissCounters" GenesisState_MissCounters
    (λ x v, mkGenesisState (GenesisState_Params x) (GenesisState_FeederDelegations x)
      (GenesisState_ExchangeRates x) v (GenesisState_AggregateExchangeRatePrevotes x)
      (GenesisState_AggregateExchangeRateVotes x) (GenesisState_Medians x)
      (GenesisState_HistoricPrices x) (GenesisState_MedianDeviations x)
      (GenesisState_unknownFields x))) else
  if n =? 5 then Some (api_messages_field discard "AggregateExchangeRatePrevotes"
    GenesisState_AggregateExchangeRatePrevotes
    (λ x v, mkGenesisState (GenesisState_Params x) (GenesisState_FeederDelegations x)
      (GenesisState_ExchangeRates x) (GenesisState_MissCounters x) v
      (GenesisState_AggregateExchangeRateVotes x) (GenesisState_Medians x)
      (GenesisState_HistoricPrices x) (GenesisState_MedianDeviations x)
      (GenesisState_unknownFields x))) else
  if n =? 6 then Some (api_messages_field discard "AggregateExchangeRateVotes"
    GenesisState_AggregateExchangeRateVotes
    (λ x v, mkGenesisState (GenesisState_Params x) (GenesisState_FeederDelegations x)
      (GenesisState_ExchangeRates x) (GenesisState_MissCounters x)
      (GenesisState_AggregateExchangeRatePrevotes x) v (GenesisState_Medians x)
      (GenesisState_HistoricPrices x) (GenesisState_MedianDeviations x)
      (GenesisState_unknownFields x))) else
  if n =? 7 then Some (api_messages_field discard "Medians" GenesisState_Medians
    (λ x v, mkGenesisState (GenesisState_Params x) (GenesisState_FeederDelegations x)
      (GenesisState_ExchangeRates x) (GenesisState_MissCounters x)
      (GenesisState_AggregateExchangeRatePrevotes x) (GenesisState_AggregateExchangeRateVotes x) v
      (GenesisState_HistoricPrices x) (GenesisState_MedianDeviations x)
      (GenesisState_unknownFields x))) else
  if n =? 8 then Some (api_messages_field discard "HistoricPrices" GenesisState_HistoricPrices
    (λ x v, mkGenesisState (GenesisState_Params x) (GenesisState_FeederDelegations x)
      (GenesisState_ExchangeRates x) (GenesisState_MissCounters x)
      (GenesisState_AggregateExchangeRatePrevotes x) (GenesisState_AggregateExchangeRateVotes x)
      (GenesisState_Medians x) v (GenesisState_MedianDeviations x) (GenesisState_unknownFields
      x))) else
  if n =? 9 then Some (api_messages_field discard "MedianDeviations" GenesisState_MedianDeviations
    (λ x v, mkGenesisState (GenesisState_Params x) (GenesisState_FeederDelegations x)
      (GenesisState_ExchangeRates x) (GenesisState_MissCounters x)
      (GenesisState_AggregateExchangeRatePrevotes x) (GenesisState_AggregateExchangeRateVotes x)
      (GenesisState_Medians x) (GenesisState_HistoricPrices x) v (GenesisState_unknownFields x)))
      else
  None.
Definition GenesisState_unknown (x : GenesisState) (bz : bytes) : GenesisState :=
  mkGenesisState (GenesisState_Params x) (GenesisState_FeederDelegations x)
    (GenesisState_ExchangeRates x) (GenesisState_MissCounters x)
    (GenesisState_AggregateExchangeRatePrevotes x) (GenesisState_AggregateExchangeRateVotes x)
    (GenesisState_Medians x) (GenesisState_HistoricPrices x) (GenesisState_MedianDeviations x)
    (GenesisState_unknownFields x ++ bz).
Definition GenesisState_unmarshal : unmarshal_closure GenesisState :=
  closure_unmarshal "GenesisState" GenesisState_field GenesisState_unknown.
#[export] Instance GenesisState_methods : ProtoMethods GenesisState := {|
  api_new := mkGenesisState None [] [] [] [] [] [] [] [] [];
  api_size := GenesisState_size;
  api_marshal := GenesisState_marshal;
  api_unmarshal := GenesisState_unmarshal;
|}.

(** [Module] *)

Record Module := mkModule { Module_unknownFields : bytes }.
Definition Module_size : size_closure Module := closure_size (λ x, len (Module_unknownFields x)).
Definition Module_marshal : marshal_closure Module := closure_marshal Module_size (λ x,
  put_copy (Module_unknownFields x)).
Definition Module_field (discard : bool) (n : Z) : option (field_reader Module) :=
  None.
Definition Module_unknown (x : Module) (bz : bytes) : Module :=
  mkModule (Module_unknownFields x ++ bz).
Definition Module_unmarshal : unmarshal_closure Module :=
  closure_unmarshal "Module" Module_field Module_unknown.
#[export] Instance Module_methods : ProtoMethods Module := {|
  api_new := mkModule [];
  api_size := Module_size;
  api_marshal := Module_marshal;
  api_unmarshal := Module_unmarshal;
|}.
End messages.

(** ** Laws *)

Section laws.
Context `{PulsarRuntimeLaws} `{CosmosApi} `{!CosmosApiLaws}.

Definition RewardBand_encode (x : RewardBand) : bytes :=
  enc_string [0xa] (RewardBand_SymbolDenom x) ++ enc_string [0x12] (RewardBand_RewardBand x) ++
  RewardBand_unknownFields x.
Definition RewardBand_ok (discard : bool) (x : RewardBand) : Prop :=
  kept_fields RewardBand_field discard (RewardBand_unknownFields x).
#[export] Instance RewardBand_laws : ApiLaws RewardBand.
Proof.
  solve_api_message RewardBand_encode RewardBand_ok RewardBand_field RewardBand_unknown.
Defined.

Definition Denom_encode (x : Denom) : bytes :=
  enc_string [0xa] (Denom_BaseDenom x) ++ enc_string [0x12] (Denom_SymbolDenom x) ++
  enc_varint [0x18] (Denom_Exponent x) ++ Denom_unknownFields x.
Definition Denom_ok (discard : bool) (x : Denom) : Prop :=
  is_u32 (Denom_Exponent x) ∧ kept_fields Denom_field discard (Denom_unknownFields x).
#[export] Instance Denom_laws : ApiLaws Denom.
Proof.
  solve_api_message Denom_encode Denom_ok Denom_field Denom_unknown.
Defined.

Definition PairAddressProvider_encode (x : PairAddressProvider) : bytes :=
  enc_string [0xa] (PairAddressProvider_Address x) ++
  enc_string [0x12] (PairAddressProvider_AddressProvider x) ++ PairAddressProvider_unknownFields x.
Definition PairAddressProvider_ok (discard : bool) (x : PairAddressProvider) : Prop :=
  kept_fields PairAddressProvider_field discard (PairAddressProvider_unknownFields x).
#[export] Instance PairAddressProvider_laws : ApiLaws PairAddressProvider.
Proof.
  solve_api_message PairAddressProvider_encode PairAddressProvider_ok PairAddressProvider_field
    PairAddressProvider_unknown.
Defined.

Definition CurrencyPairProviders_encode (x : CurrencyPairProviders) : bytes :=
  enc_string [0xa] (CurrencyPairProviders_BaseDenom x) ++
  enc_string [0x12] (CurrencyPairProviders_QuoteDenom x) ++
  enc_api_messages [0x1a] (CurrencyPairProviders_PairAddress x) ++
  enc_strings [0x22] (CurrencyPairProviders_Providers x) ++ CurrencyPairProviders_unknownFields x.
Definition CurrencyPairProviders_ok (discard : bool) (x : CurrencyPairProviders) : Prop :=
  Forall (api_element_ok discard) (CurrencyPairProviders_PairAddress x) ∧
  kept_fields CurrencyPairProviders_field discard (CurrencyPairProviders_unknownFields x).
#[export] Instance CurrencyPairProviders_laws : ApiLaws CurrencyPairProviders.
Proof.
  solve_api_message CurrencyPairProviders_encode CurrencyPairProviders_ok
    CurrencyPairProviders_field CurrencyPairProviders_unknown.
Defined.

Definition CurrencyDeviationThreshold_encode (x : CurrencyDeviationThreshold) : bytes :=
  enc_string [0xa] (CurrencyDeviationThreshold_BaseDenom x) ++
  enc_string [0x12] (CurrencyDeviationThreshold_Threshold x) ++
  CurrencyDeviationThreshold_unknownFields x.
Definition CurrencyDeviationThreshold_ok (discard : bool) (x : CurrencyDeviationThreshold) :
    Prop :=
  kept_fields CurrencyDeviationThreshold_field discard (CurrencyDeviationThreshold_unknownFields x).
#[export] Instance CurrencyDeviationThreshold_laws : ApiLaws CurrencyDeviationThreshold.
Proof.
  solve_api_message CurrencyDeviationThreshold_encode CurrencyDeviationThreshold_ok
    CurrencyDeviationThreshold_field CurrencyDeviationThreshold_unknown.
Defined.

Definition Params_encode (x : Params) : bytes :=
  enc_varint [0x8] (Params_VotePeriod x) ++ enc_string [0x12] (Params_VoteThreshold x) ++
  enc_api_messages [0x1a] (Params_RewardBands x) ++
  enc_varint [0x20] (Params_RewardDistributionWindow x) ++
  enc_api_messages [0x2a] (Params_AcceptList x) ++ enc_string [0x32] (Params_SlashFraction x) ++
  enc_varint [0x38] (Params_SlashWindow x) ++ enc_string [0x42] (Params_MinValidPerWindow x) ++
  enc_api_messages [0x4a] (Params_MandatoryList x) ++
  enc_varint [0x50] (Params_HistoricStampPeriod x) ++
  enc_varint [0x58] (Params_MedianStampPeriod x) ++
  enc_varint [0x60] (Params_MaximumPriceStamps x) ++
  enc_varint [0x68] (Params_MaximumMedianStamps x) ++
  enc_api_messages [0x72] (Params_CurrencyPairProviders x) ++
  enc_api_messages [0x7a] (Params_CurrencyDeviationThresholds x) ++
  enc_string [0x82; 0x1] (Params_UsdcIbcDenom x) ++
  enc_bool [0x88; 0x1] (Params_SlashingEnabled x) ++
  enc_varint [0x90; 0x1] (Params_AveragingWindow x) ++ Params_unknownFields x.
Definition Params_ok (discard : bool) (x : Params) : Prop :=
  is_u64 (Params_VotePeriod x) ∧ Forall (api_element_ok discard) (Params_RewardBands x) ∧
  is_u64 (Params_RewardDistributionWindow x) ∧
  Forall (api_element_ok discard) (Params_AcceptList x) ∧ is_u64 (Params_SlashWindow x) ∧
  Forall (api_element_ok discard) (Params_MandatoryList x) ∧
  is_u64 (Params_HistoricStampPeriod x) ∧ is_u64 (Params_MedianStampPeriod x) ∧
  is_u64 (Params_MaximumPriceStamps x) ∧ is_u64 (Params_MaximumMedianStamps x) ∧
  Forall (api_element_ok discard) (Params_CurrencyPairProviders x) ∧
  Forall (api_element_ok discard) (Params_CurrencyDeviationThresholds x) ∧
  is_u64 (Params_AveragingWindow x) ∧ kept_fields Params_field discard (Params_unknownFields x).
#[export] Instance Params_laws : ApiLaws Params.
Proof.
  solve_api_message Params_encode Params_ok Params_field Params_unknown.
Defined.

Definition AggregateExchangeRatePrevote_encode (x : AggregateExchangeRatePrevote) : bytes :=
  enc_string [0xa] (AggregateExchangeRatePrevote_Hash x) ++
  enc_string [0x12] (AggregateExchangeRatePrevote_Voter x) ++
  enc_varint [0x18] (AggregateExchangeRatePrevote_SubmitBlock x) ++
  AggregateExchangeRatePrevote_unknownFields x.
Definition AggregateExchangeRatePrevote_ok (discard : bool) (x : AggregateExchangeRatePrevote) :
    Prop :=
  is_u64 (AggregateExchangeRatePrevote_SubmitBlock x) ∧
  kept_fields AggregateExchangeRatePrevote_field discard (AggregateExchangeRatePrevote_unknownFields
    x).
#[export] Instance AggregateExchangeRatePrevote_laws : ApiLaws AggregateExchangeRatePrevote.
Proof.
  solve_api_message AggregateExchangeRatePrevote_encode AggregateExchangeRatePrevote_ok
    AggregateExchangeRatePrevote_field AggregateExchangeRatePrevote_unknown.
Defined.

Definition AggregateExchangeRateVote_encode (x : AggregateExchangeRateVote) : bytes :=
  enc_api_messages [0xa] (AggregateExchangeRateVote_ExchangeRates x) ++
  enc_string [0x12] (AggregateExchangeRateVote_Voter x) ++
  AggregateExchangeRateVote_unknownFields x.
Definition AggregateExchangeRateVote_ok (discard : bool) (x : AggregateExchangeRateVote) : Prop :=
  Forall (api_element_ok discard) (AggregateExchangeRateVote_ExchangeRates x) ∧
  kept_fields AggregateExchangeRateVote_field discard (AggregateExchangeRateVote_unknownFields x).
#[export] Instance AggregateExchangeRateVote_laws : ApiLaws AggregateExchangeRateVote.
Proof.
  solve_api_message AggregateExchangeRateVote_encode AggregateExchangeRateVote_ok
    AggregateExchangeRateVote_field AggregateExchangeRateVote_unknown.
Defined.

Definition PriceStamp_encode (x : PriceStamp) : bytes :=
  enc_api_message [0xa] (PriceStamp_ExchangeRate x) ++ enc_varint [0x10] (PriceStamp_BlockNum x) ++
  PriceStamp_unknownFields x.
Definition PriceStamp_ok (discard : bool) (x : PriceStamp) : Prop :=
  api_option_ok discard (PriceStamp_ExchangeRate x) ∧ is_u64 (PriceStamp_BlockNum x) ∧
  kept_fields PriceStamp_field discard (PriceStamp_unknownFields x).
#[export] Instance PriceStamp_laws : ApiLaws PriceStamp.
Proof.
  solve_api_message PriceStamp_encode PriceStamp_ok PriceStamp_field PriceStamp_unknown.
Defined.

Definition ValidatorRewardSet_encode (x : ValidatorRewardSet) : bytes :=
  enc_strings [0xa] (ValidatorRewardSet_ValidatorSet x) ++ ValidatorRewardSet_unknownFields x.
Definition ValidatorRewardSet_ok (discard : bool) (x : ValidatorRewardSet) : Prop :=
  kept_fields ValidatorRewardSet_field discard (ValidatorRewardSet_unknownFields x).
#[export] Instance ValidatorRewardSet_laws : ApiLaws ValidatorRewardSet.
Proof.
  solve_api_message ValidatorRewardSet_encode ValidatorRewardSet_ok ValidatorRewardSet_field
    ValidatorRewardSet_unknown.
Defined.

Definition ParamUpdatePlan_encode (x : ParamUpdatePlan) : bytes :=
  enc_strings [0xa] (ParamUpdatePlan_Keys x) ++ enc_varint [0x10] (ParamUpdatePlan_Height x) ++
  enc_api_message [0x1a] (ParamUpdatePlan_Changes x) ++ ParamUpdatePlan_unknownFields x.
Definition ParamUpdatePlan_ok (discard : bool) (x : ParamUpdatePlan) : Prop :=
  is_i64 (ParamUpdatePlan_Height x) ∧ api_option_ok discard (ParamUpdatePlan_Changes x) ∧
  kept_fields ParamUpdatePlan_field discard (ParamUpdatePlan_unknownFields x).
#[export] Instance ParamUpdatePlan_laws : ApiLaws ParamUpdatePlan.
Proof.
  solve_api_message ParamUpdatePlan_encode ParamUpdatePlan_ok ParamUpdatePlan_field
    ParamUpdatePlan_unknown.
Defined.

Definition OracleVoteExtension_encode (x : OracleVoteExtension) : bytes :=
  enc_varint [0x8] (OracleVoteExtension_Height x) ++
  enc_api_messages [0x12] (OracleVoteExtension_ExchangeRates x) ++
  OracleVoteExtension_unknownFields x.
Definition OracleVoteExtension_ok (discard : bool) (x : OracleVoteExtension) : Prop :=
  is_i64 (OracleVoteExtension_Height x) ∧
  Forall (api_element_ok discard) (OracleVoteExtension_ExchangeRates x) ∧
  kept_fields OracleVoteExtension_field discard (OracleVoteExtension_unknownFields x).
#[export] Instance OracleVoteExtension_laws : ApiLaws OracleVoteExtension.
Proof.
  solve_api_message OracleVoteExtension_encode OracleVoteExtension_ok OracleVoteExtension_field
    OracleVoteExtension_unknown.
Defined.

Definition InjectedVoteExtensionTx_encode (x : InjectedVoteExtensionTx) : bytes :=
  enc_api_messages [0xa] (InjectedVoteExtensionTx_ExchangeRateVotes x) ++
  enc_bytes [0x12] (InjectedVoteExtensionTx_ExtendedCommitInfo x) ++
  InjectedVoteExtensionTx_unknownFields x.
Definition InjectedVoteExtensionTx_ok (discard : bool) (x : InjectedVoteExtensionTx) : Prop :=
  Forall (api_element_ok discard) (InjectedVoteExtensionTx_ExchangeRateVotes x) ∧
  kept_fields InjectedVoteExtensionTx_field discard (InjectedVoteExtensionTx_unknownFields x).
#[export] Instance InjectedVoteExtensionTx_laws : ApiLaws InjectedVoteExtensionTx.
Proof.
  solve_api_message InjectedVoteExtensionTx_encode InjectedVoteExtensionTx_ok
    InjectedVoteExtensionTx_field InjectedVoteExtensionTx_unknown.
Defined.

Definition EventDelegateFeedConsent_encode (x : EventDelegateFeedConsent) : bytes :=
  enc_string [0xa] (EventDelegateFeedConsent_Operator x) ++
  enc_string [0x12] (EventDelegateFeedConsent_Delegate x) ++
  EventDelegateFeedConsent_unknownFields x.
Definition EventDelegateFeedConsent_ok (discard : bool) (x : EventDelegateFeedConsent) : Prop :=
  kept_fields EventDelegateFeedConsent_field discard (EventDelegateFeedConsent_unknownFields x).
#[export] Instance EventDelegateFeedConsent_laws : ApiLaws EventDelegateFeedConsent.
Proof.
  solve_api_message EventDelegateFeedConsent_encode EventDelegateFeedConsent_ok
    EventDelegateFeedConsent_field EventDelegateFeedConsent_unknown.
Defined.

Definition EventSetFxRate_encode (x : EventSetFxRate) : bytes :=
  enc_string [0xa] (EventSetFxRate_Denom x) ++ enc_string [0x12] (EventSetFxRate_Rate x) ++
  EventSetFxRate_unknownFields x.
Definition EventSetFxRate_ok (discard : bool) (x : EventSetFxRate) : Prop :=
  kept_fields EventSetFxRate_field discard (EventSetFxRate_unknownFields x).
#[export] Instance EventSetFxRate_laws : ApiLaws EventSetFxRate.
Proof.
  solve_api_message EventSetFxRate_encode EventSetFxRate_ok EventSetFxRate_field
    EventSetFxRate_unknown.
Defined.

Definition FeederDelegation_encode (x : FeederDelegation) : bytes :=
  enc_string [0xa] (FeederDelegation_FeederAddress x) ++
  enc_string [0x12] (FeederDelegation_ValidatorAddress x) ++ FeederDelegation_unknownFields x.
Definition FeederDelegation_ok (discard : bool) (x : FeederDelegation) : Prop :=
  kept_fields FeederDelegation_field discard (FeederDelegation_unknownFields x).
#[export] Instance FeederDelegation_laws : ApiLaws FeederDelegation.
Proof.
  solve_api_message FeederDelegation_encode FeederDelegation_ok FeederDelegation_field
    FeederDelegation_unknown.
Defined.

Definition MissCounter_encode (x : MissCounter) : bytes :=
  enc_string [0xa] (MissCounter_ValidatorAddress x) ++
  enc_varint [0x10] (MissCounter_MissCounter x) ++ MissCounter_unknownFields x.
Definition MissCounter_ok (discard : bool) (x : MissCounter) : Prop :=
  is_u64 (MissCounter_MissCounter x) ∧
  kept_fields MissCounter_field discard (MissCounter_unknownFields x).
#[export] Instance MissCounter_laws : ApiLaws MissCounter.
Proof.
  solve_api_message MissCounter_encode MissCounter_ok MissCounter_field MissCounter_unknown.
Defined.

Definition GenesisState_encode (x : GenesisState) : bytes :=
  enc_api_message [0xa] (GenesisState_Params x) ++
  enc_api_messages [0x12] (GenesisState_FeederDelegations x) ++
  enc_api_messages [0x1a] (GenesisState_ExchangeRates x) ++
  enc_api_messages [0x22] (GenesisState_MissCounters x) ++
  enc_api_messages [0x2a] (GenesisState_AggregateExchangeRatePrevotes x) ++
  enc_api_messages [0x32] (GenesisState_AggregateExchangeRateVotes x) ++
  enc_api_messages [0x3a] (GenesisState_Medians x) ++
  enc_api_messages [0x42] (GenesisState_HistoricPrices x) ++
  enc_api_messages [0x4a] (GenesisState_MedianDeviations x) ++ GenesisState_unknownFields x.
Definition GenesisState_ok (discard : bool) (x : GenesisState) : Prop :=
  api_option_ok discard (GenesisState_Params x) ∧
  Forall (api_element_ok discard) (GenesisState_FeederDelegations x) ∧
  Forall (api_element_ok discard) (GenesisState_ExchangeRates x) ∧
  Forall (api_element_ok discard) (GenesisState_MissCounters x) ∧
  Forall (api_element_ok discard) (GenesisState_AggregateExchangeRatePrevotes x) ∧
  Forall (api_element_ok discard) (GenesisState_AggregateExchangeRateVotes x) ∧
  Forall (api_element_ok discard) (GenesisState_Medians x) ∧
  Forall (api_element_ok discard) (GenesisState_HistoricPrices x) ∧
  Forall (api_element_ok discard) (GenesisState_MedianDeviations x) ∧
  kept_fields GenesisState_field discard (GenesisState_unknownFields x).
#[export] Instance GenesisState_laws : ApiLaws GenesisState.
Proof.
  solve_api_message GenesisState_encode GenesisState_ok GenesisState_field GenesisState_unknown.
Defined.

Definition Module_encode (x : Module) : bytes := Module_unknownFields x.
Definition Module_ok (discard : bool) (x : Module) : Prop :=
  kept_fields Module_field discard (Module_unknownFields x).
#[export] Instance Module_laws : ApiLaws Module.
Proof.
  solve_api_message Module_encode Module_ok Module_field Module_unknown.
Defined.
End laws.
