(* ===== verification/ApiTx.v ===== *)
(** * ApiTx: the transaction messages of the generated API

    [src/api/oracle/v1/tx.pulsar.go]: the nine messages of the oracle's [Msg]
    service and their responses.
    Each message is a struct, the closures that its [ProtoMethods] returns and
    the laws of Pulsar for them. *)
From S2P Require Import Prelude Util Dec Wire WireLemmas Pulsar PulsarLemmas ApiOracle.
Local Open Scope Z_scope.

Section messages.
Context `{PulsarRuntime} `{CosmosApi}.

(** [MsgAggregateExchangeRatePrevote] *)

Record MsgAggregateExchangeRatePrevote := mkMsgAggregateExchangeRatePrevote {
  MsgAggregateExchangeRatePrevote_Hash : string;
  MsgAggregateExchangeRatePrevote_Feeder : string;
  MsgAggregateExchangeRatePrevote_Validator : string;
  MsgAggregateExchangeRatePrevote_unknownFields : bytes;
}.
Definition MsgAggregateExchangeRatePrevote_size : size_closure MsgAggregateExchangeRatePrevote :=
    closure_size (λ x,
  api_size_string 1 (MsgAggregateExchangeRatePrevote_Hash x) +
  api_size_string 1 (MsgAggregateExchangeRatePrevote_Feeder x) +
  api_size_string 1 (MsgAggregateExchangeRatePrevote_Validator x) +
  len (MsgAggregateExchangeRatePrevote_unknownFields x)).
Definition MsgAggregateExchangeRatePrevote_marshal :
    marshal_closure MsgAggregateExchangeRatePrevote :=
    closure_marshal MsgAggregateExchangeRatePrevote_size (λ x,
  put_copy (MsgAggregateExchangeRatePrevote_unknownFields x) ;;
  api_put_string [0x1a] (MsgAggregateExchangeRatePrevote_Validator x) ;;
  api_put_string [0x12] (MsgAggregateExchangeRatePrevote_Feeder x) ;;
  api_put_string [0xa] (MsgAggregateExchangeRatePrevote_Hash x)).
Definition MsgAggregateExchangeRatePrevote_field (discard : bool) (n : Z) :
    option (field_reader MsgAggregateExchangeRatePrevote) :=
  if n =? 1 then Some (string_field "Hash"
    (λ x v, mkMsgAggregateExchangeRatePrevote v (MsgAggregateExchangeRatePrevote_Feeder x)
      (MsgAggregateExchangeRatePrevote_Validator x) (MsgAggregateExchangeRatePrevote_unknownFields
      x))) else
  if n =? 2 then Some (string_field "Feeder"
    (λ x v, mkMsgAggregateExchangeRatePrevote (MsgAggregateExchangeRatePrevote_Hash x) v
      (MsgAggregateExchangeRatePrevote_Validator x) (MsgAggregateExchangeRatePrevote_unknownFields
      x))) else
  if n =? 3 then Some (string_field "Validator"
    (λ x v, mkMsgAggregateExchangeRatePrevote (MsgAggregateExchangeRatePrevote_Hash x)
      (MsgAggregateExchangeRatePrevote_Feeder x) v (MsgAggregateExchangeRatePrevote_unknownFields
      x))) else
  None.
Definition MsgAggregateExchangeRatePrevote_unknown (x : MsgAggregateExchangeRatePrevote)
    (bz : bytes) : MsgAggregateExchangeRatePrevote :=
  mkMsgAggregateExchangeRatePrevote (MsgAggregateExchangeRatePrevote_Hash x)
    (MsgAggregateExchangeRatePrevote_Feeder x) (MsgAggregateExchangeRatePrevote_Validator x)
    (MsgAggregateExchangeRatePrevote_unknownFields x ++ bz).
Definition MsgAggregateExchangeRatePrevote_unmarshal :
    unmarshal_closure MsgAggregateExchangeRatePrevote :=
  closure_unmarshal "MsgAggregateExchangeRatePrevote" MsgAggregateExchangeRatePrevote_field
    MsgAggregateExchangeRatePrevote_unknown.
#[export] Instance MsgAggregateExchangeRatePrevote_methods :
    ProtoMethods MsgAggregateExchangeRatePrevote := {|
  api_new := mkMsgAggregateExchangeRatePrevote "" "" "" [];
  api_size := MsgAggregateExchangeRatePrevote_size;
  api_marshal := MsgAggregateExchangeRatePrevote_marshal;
  api_unmarshal := MsgAggregateExchangeRatePrevote_unmarshal;
|}.

(** [MsgAggregateExchangeRatePrevoteResponse] *)

Record MsgAggregateExchangeRatePrevoteResponse := mkMsgAggregateExchangeRatePrevoteResponse {
  MsgAggregateExchangeRatePrevoteResponse_unknownFields : bytes;
}.
Definition MsgAggregateExchangeRatePrevoteResponse_size :
    size_closure MsgAggregateExchangeRatePrevoteResponse := closure_size (λ x,
  len (MsgAggregateExchangeRatePrevoteResponse_unknownFields x)).
Definition MsgAggregateExchangeRatePrevoteResponse_marshal :
    marshal_closure MsgAggregateExchangeRatePrevoteResponse :=
    closure_marshal MsgAggregateExchangeRatePrevoteResponse_size (λ x,
  put_copy (MsgAggregateExchangeRatePrevoteResponse_unknownFields x)).
Definition MsgAggregateExchangeRatePrevoteResponse_field (discard : bool) (n : Z) :
    option (field_reader MsgAggregateExchangeRatePrevoteResponse) :=
  None.
Definition MsgAggregateExchangeRatePrevoteResponse_unknown (x : MsgAggregateExchangeRatePrevoteResponse) (bz : bytes) : MsgAggregateExchangeRatePrevoteResponse :=
  mkMsgAggregateExchangeRatePrevoteResponse (MsgAggregateExchangeRatePrevoteResponse_unknownFields
    x ++ bz).
Definition MsgAggregateExchangeRatePrevoteResponse_unmarshal :
    unmarshal_closure MsgAggregateExchangeRatePrevoteResponse :=
  closure_unmarshal "MsgAggregateExchangeRatePrevoteResponse"
    MsgAggregateExchangeRatePrevoteResponse_field MsgAggregateExchangeRatePrevoteResponse_unknown.
#[export] Instance MsgAggregateExchangeRatePrevoteResponse_methods :
    ProtoMethods MsgAggregateExchangeRatePrevoteResponse := {|
  api_new := mkMsgAggregateExchangeRatePrevoteResponse [];
  api_size := MsgAggregateExchangeRatePrevoteResponse_size;
  api_marshal := MsgAggregateExchangeRatePrevoteResponse_marshal;
  api_unmarshal := MsgAggregateExchangeRatePrevoteResponse_unmarshal;
|}.

(** [MsgAggregateExchangeRateVote] *)

Record MsgAggregateExchangeRateVote := mkMsgAggregateExchangeRateVote {
  MsgAggregateExchangeRateVote_Salt : string;
  MsgAggregateExchangeRateVote_ExchangeRates : string;
  MsgAggregateExchangeRateVote_Feeder : string;
  MsgAggregateExchangeRateVote_Validator : string;
  MsgAggregateExchangeRateVote_unknownFields : bytes;
}.
Definition MsgAggregateExchangeRateVote_size : size_closure MsgAggregateExchangeRateVote :=
    closure_size (λ x,
  api_size_string 1 (MsgAggregateExchangeRateVote_Salt x) +
  api_size_string 1 (MsgAggregateExchangeRateVote_ExchangeRates x) +
  api_size_string 1 (MsgAggregateExchangeRateVote_Feeder x) +
  api_size_string 1 (MsgAggregateExchangeRateVote_Validator x) +
  len (MsgAggregateExchangeRateVote_unknownFields x)).
Definition MsgAggregateExchangeRateVote_marshal : marshal_closure MsgAggregateExchangeRateVote :=
    closure_marshal MsgAggregateExchangeRateVote_size (λ x,
  put_copy (MsgAggregateExchangeRateVote_unknownFields x) ;;
  api_put_string [0x22] (MsgAggregateExchangeRateVote_Validator x) ;;
  api_put_string [0x1a] (MsgAggregateExchangeRateVote_Feeder x) ;;
  api_put_string [0x12] (MsgAggregateExchangeRateVote_ExchangeRates x) ;;
  api_put_string [0xa] (MsgAggregateExchangeRateVote_Salt x)).
Definition MsgAggregateExchangeRateVote_field (discard : bool) (n : Z) :
    option (field_reader MsgAggregateExchangeRateVote) :=
  if n =? 1 then Some (string_field "Salt"
    (λ x v, mkMsgAggregateExchangeRateVote v (MsgAggregateExchangeRateVote_ExchangeRates x)
      (MsgAggregateExchangeRateVote_Feeder x) (MsgAggregateExchangeRateVote_Validator x)
      (MsgAggregateExchangeRateVote_unknownFields x))) else
  if n =? 2 then Some (string_field "ExchangeRates"
    (λ x v, mkMsgAggregateExchangeRateVote (MsgAggregateExchangeRateVote_Salt x) v
      (MsgAggregateExchangeRateVote_Feeder x) (MsgAggregateExchangeRateVote_Validator x)
      (MsgAggregateExchangeRateVote_unknownFields x))) else
  if n =? 3 then Some (string_field "Feeder"
    (λ x v, mkMsgAggregateExchangeRateVote (MsgAggregateExchangeRateVote_Salt x)
      (MsgAggregateExchangeRateVote_ExchangeRates x) v (MsgAggregateExchangeRateVote_Validator x)
      (MsgAggregateExchangeRateVote_unknownFields x))) else
  if n =? 4 then Some (string_field "Validator"
    (λ x v, mkMsgAggregateExchangeRateVote (MsgAggregateExchangeRateVote_Salt x)
      (MsgAggregateExchangeRateVote_ExchangeRates x) (MsgAggregateExchangeRateVote_Feeder x) v
      (MsgAggregateExchangeRateVote_unknownFields x))) else
  None.
Definition MsgAggregateExchangeRateVote_unknown (x : MsgAggregateExchangeRateVote)
    (bz : bytes) : MsgAggregateExchangeRateVote :=
  mkMsgAggregateExchangeRateVote (MsgAggregateExchangeRateVote_Salt x)
    (MsgAggregateExchangeRateVote_ExchangeRates x) (MsgAggregateExchangeRateVote_Feeder x)
    (MsgAggregateExchangeRateVote_Validator x) (MsgAggregateExchangeRateVote_unknownFields x ++
    bz).
Definition MsgAggregateExchangeRateVote_unmarshal :
    unmarshal_closure MsgAggregateExchangeRateVote :=
  closure_unmarshal "MsgAggregateExchangeRateVote" MsgAggregateExchangeRateVote_field
    MsgAggregateExchangeRateVote_unknown.
#[export] Instance MsgAggregateExchangeRateVote_methods :
    ProtoMethods MsgAggregateExchangeRateVote := {|
  api_new := mkMsgAggregateExchangeRateVote "" "" "" "" [];
  api_size := MsgAggregateExchangeRateVote_size;
  api_marshal := MsgAggregateExchangeRateVote_marshal;
  api_unmarshal := MsgAggregateExchangeRateVote_unmarshal;
|}.

(** [MsgAggregateExchangeRateVoteResponse] *)

Record MsgAggregateExchangeRateVoteResponse := mkMsgAggregateExchangeRateVoteResponse {
  MsgAggregateExchangeRateVoteResponse_unknownFields : bytes;
}.
Definition MsgAggregateExchangeRateVoteResponse_size :
    size_closure MsgAggregateExchangeRateVoteResponse := closure_size (λ x,
  len (MsgAggregateExchangeRateVoteResponse_unknownFields x)).
Definition MsgAggregateExchangeRateVoteResponse_marshal :
    marshal_closure MsgAggregateExchangeRateVoteResponse :=
    closure_marshal MsgAggregateExchangeRateVoteResponse_size (λ x,
  put_copy (MsgAggregateExchangeRateVoteResponse_unknownFields x)).
Definition MsgAggregateExchangeRateVoteResponse_field (discard : bool) (n : Z) :
    option (field_reader MsgAggregateExchangeRateVoteResponse) :=
  None.
Definition MsgAggregateExchangeRateVoteResponse_unknown (x : MsgAggregateExchangeRateVoteResponse)
    (bz : bytes) : MsgAggregateExchangeRateVoteResponse :=
  mkMsgAggregateExchangeRateVoteResponse (MsgAggregateExchangeRateVoteResponse_unknownFields x ++
    bz).
Definition MsgAggregateExchangeRateVoteResponse_unmarshal :
    unmarshal_closure MsgAggregateExchangeRateVoteResponse :=
  closure_unmarshal "MsgAggregateExchangeRateVoteResponse"
    MsgAggregateExchangeRateVoteResponse_field MsgAggregateExchangeRateVoteResponse_unknown.
#[export] Instance MsgAggregateExchangeRateVoteResponse_methods :
    ProtoMethods MsgAggregateExchangeRateVoteResponse := {|
  api_new := mkMsgAggregateExchangeRateVoteResponse [];
  api_size := MsgAggregateExchangeRateVoteResponse_size;
  api_marshal := MsgAggregateExchangeRateVoteResponse_marshal;
  api_unmarshal := MsgAggregateExchangeRateVoteResponse_unmarshal;
|}.

(** [MsgDelegateFeedConsent] *)

Record MsgDelegateFeedConsent := mkMsgDelegateFeedConsent {
  MsgDelegateFeedConsent_Operator : string;
  MsgDelegateFeedConsent_Delegate : string;
  MsgDelegateFeedConsent_unknownFields : bytes;
}.
Definition MsgDelegateFeedConsent_size : size_closure MsgDelegateFeedConsent := closure_size (λ x,
  api_size_string 1 (MsgDelegateFeedConsent_Operator x) +
  api_size_string 1 (MsgDelegateFeedConsent_Delegate x) +
  len (MsgDelegateFeedConsent_unknownFields x)).
Definition MsgDelegateFeedConsent_marshal : marshal_closure MsgDelegateFeedConsent :=
    closure_marshal MsgDelegateFeedConsent_size (λ x,
  put_copy (MsgDelegateFeedConsent_unknownFields x) ;;
  api_put_string [0x12] (MsgDelegateFeedConsent_Delegate x) ;;
  api_put_string [0xa] (MsgDelegateFeedConsent_Operator x)).
Definition MsgDelegateFeedConsent_field (discard : bool) (n : Z) :
    option (field_reader MsgDelegateFeedConsent) :=
  if n =? 1 then Some (string_field "Operator"
    (λ x v, mkMsgDelegateFeedConsent v (MsgDelegateFeedConsent_Delegate x)
      (MsgDelegateFeedConsent_unknownFields x))) else
  if n =? 2 then Some (string_field "Delegate"
    (λ x v, mkMsgDelegateFeedConsent (MsgDelegateFeedConsent_Operator x) v
      (MsgDelegateFeedConsent_unknownFields x))) else
  None.
Definition MsgDelegateFeedConsent_unknown (x : MsgDelegateFeedConsent)
    (bz : bytes) : MsgDelegateFeedConsent :=
  mkMsgDelegateFeedConsent (MsgDelegateFeedConsent_Operator x) (MsgDelegateFeedConsent_Delegate x)
    (MsgDelegateFeedConsent_unknownFields x ++ bz).
Definition MsgDelegateFeedConsent_unmarshal : unmarshal_closure MsgDelegateFeedConsent :=
  closure_unmarshal "MsgDelegateFeedConsent" MsgDelegateFeedConsent_field
    MsgDelegateFeedConsent_unknown.
#[export] Instance MsgDelegateFeedConsent_methods : ProtoMethods MsgDelegateFeedConsent := {|
  api_new := mkMsgDelegateFeedConsent "" "" [];
  api_size := MsgDelegateFeedConsent_size;
  api_marshal := MsgDelegateFeedConsent_marshal;
  api_unmarshal := MsgDelegateFeedConsent_unmarshal;
|}.

(** [MsgDelegateFeedConsentResponse] *)

Record MsgDelegateFeedConsentResponse := mkMsgDelegateFeedConsentResponse {
  MsgDelegateFeedConsentResponse_unknownFields : bytes;
}.
Definition MsgDelegateFeedConsentResponse_size : size_closure MsgDelegateFeedConsentResponse :=
    closure_size (λ x,
  len (MsgDelegateFeedConsentResponse_unknownFields x)).
Definition MsgDelegateFeedConsentResponse_marshal :
    marshal_closure MsgDelegateFeedConsentResponse :=
    closure_marshal MsgDelegateFeedConsentResponse_size (λ x,
  put_copy (MsgDelegateFeedConsentResponse_unknownFields x)).
Definition MsgDelegateFeedConsentResponse_field (discard : bool) (n : Z) :
    option (field_reader MsgDelegateFeedConsentResponse) :=
  None.
Definition MsgDelegateFeedConsentResponse_unknown (x : MsgDelegateFeedConsentResponse)
    (bz : bytes) : MsgDelegateFeedConsentResponse :=
  mkMsgDelegateFeedConsentResponse (MsgDelegateFeedConsentResponse_unknownFields x ++ bz).
Definition MsgDelegateFeedConsentResponse_unmarshal :
    unmarshal_closure MsgDelegateFeedConsentResponse :=
  closure_unmarshal "MsgDelegateFeedConsentResponse" MsgDelegateFeedConsentResponse_field
    MsgDelegateFeedConsentResponse_unknown.
#[export] Instance MsgDelegateFeedConsentResponse_methods :
    ProtoMethods MsgDelegateFeedConsentResponse := {|
  api_new := mkMsgDelegateFeedConsentResponse [];
  api_size := MsgDelegateFeedConsentResponse_size;
  api_marshal := MsgDelegateFeedConsentResponse_marshal;
  api_unmarshal := MsgDelegateFeedConsentResponse_unmarshal;
|}.

(** [MsgLegacyGovUpdateParams] *)

Record MsgLegacyGovUpdateParams := mkMsgLegacyGovUpdateParams {
  MsgLegacyGovUpdateParams_Authority : string;
  MsgLegacyGovUpdateParams_Title : string;
  MsgLegacyGovUpdateParams_Description : string;
  MsgLegacyGovUpdateParams_Keys : list string;
  MsgLegacyGovUpdateParams_Changes : option Params;
  MsgLegacyGovUpdateParams_unknownFields : bytes;
}.
Definition MsgLegacyGovUpdateParams_size : size_closure MsgLegacyGovUpdateParams :=
    closure_size (λ x,
  api_size_string 1 (MsgLegacyGovUpdateParams_Authority x) +
  api_size_string 1 (MsgLegacyGovUpdateParams_Title x) +
  api_size_string 1 (MsgLegacyGovUpdateParams_Description x) +
  api_size_strings 1 (MsgLegacyGovUpdateParams_Keys x) +
  api_size_message 1 (MsgLegacyGovUpdateParams_Changes x) +
  len (MsgLegacyGovUpdateParams_unknownFields x)).
Definition MsgLegacyGovUpdateParams_marshal : marshal_closure MsgLegacyGovUpdateParams :=
    closure_marshal MsgLegacyGovUpdateParams_size (λ x,
  put_copy (MsgLegacyGovUpdateParams_unknownFields x) ;;
  api_put_message [0x2a] (MsgLegacyGovUpdateParams_Changes x) ;;
  api_put_strings [0x22] (MsgLegacyGovUpdateParams_Keys x) ;;
  api_put_string [0x1a] (MsgLegacyGovUpdateParams_Description x) ;;
  api_put_string [0x12] (MsgLegacyGovUpdateParams_Title x) ;;
  api_put_string [0xa] (MsgLegacyGovUpdateParams_Authority x)).
Definition MsgLegacyGovUpdateParams_field (discard : bool) (n : Z) :
    option (field_reader MsgLegacyGovUpdateParams) :=
  if n =? 1 then Some (string_field "Authority"
    (λ x v, mkMsgLegacyGovUpdateParams v (MsgLegacyGovUpdateParams_Title x)
      (MsgLegacyGovUpdateParams_Description x) (MsgLegacyGovUpdateParams_Keys x)
      (MsgLegacyGovUpdateParams_Changes x) (MsgLegacyGovUpdateParams_unknownFields x))) else
  if n =? 2 then Some (string_field "Title"
    (λ x v, mkMsgLegacyGovUpdateParams (MsgLegacyGovUpdateParams_Authority x) v
      (MsgLegacyGovUpdateParams_Description x) (MsgLegacyGovUpdateParams_Keys x)
      (MsgLegacyGovUpdateParams_Changes x) (MsgLegacyGovUpdateParams_unknownFields x))) else
  if n =? 3 then Some (string_field "Description"
    (λ x v, mkMsgLegacyGovUpdateParams (MsgLegacyGovUpdateParams_Authority x)
      (MsgLegacyGovUpdateParams_Title x) v (MsgLegacyGovUpdateParams_Keys x)
      (MsgLegacyGovUpdateParams_Changes x) (MsgLegacyGovUpdateParams_unknownFields x))) else
  if n =? 4 then Some (strings_field "Keys" MsgLegacyGovUpdateParams_Keys
    (λ x v, mkMsgLegacyGovUpdateParams (MsgLegacyGovUpdateParams_Authority x)
      (MsgLegacyGovUpdateParams_Title x) (MsgLegacyGovUpdateParams_Description x) v
      (MsgLegacyGovUpdateParams_Changes x) (MsgLegacyGovUpdateParams_unknownFields x))) else
  if n =? 5 then Some (api_message_field discard "Changes" MsgLegacyGovUpdateParams_Changes
    (λ x v, mkMsgLegacyGovUpdateParams (MsgLegacyGovUpdateParams_Authority x)
      (MsgLegacyGovUpdateParams_Title x) (MsgLegacyGovUpdateParams_Description x)
      (MsgLegacyGovUpdateParams_Keys x) v (MsgLegacyGovUpdateParams_unknownFields x))) else
  None.
Definition MsgLegacyGovUpdateParams_unknown (x : MsgLegacyGovUpdateParams)
    (bz : bytes) : MsgLegacyGovUpdateParams :=
  mkMsgLegacyGovUpdateParams (MsgLegacyGovUpdateParams_Authority x)
    (MsgLegacyGovUpdateParams_Title x) (MsgLegacyGovUpdateParams_Description x)
    (MsgLegacyGovUpdateParams_Keys x) (MsgLegacyGovUpdateParams_Changes x)
    (MsgLegacyGovUpdateParams_unknownFields x ++ bz).
Definition MsgLegacyGovUpdateParams_unmarshal : unmarshal_closure MsgLegacyGovUpdateParams :=
  closure_unmarshal "MsgLegacyGovUpdateParams" MsgLegacyGovUpdateParams_field
    MsgLegacyGovUpdateParams_unknown.
#[export] Instance MsgLegacyGovUpdateParams_methods : ProtoMethods MsgLegacyGovUpdateParams := {|
  api_new := mkMsgLegacyGovUpdateParams "" "" "" [] None [];
  api_size := MsgLegacyGovUpdateParams_size;
  api_marshal := MsgLegacyGovUpdateParams_marshal;
  api_unmarshal := MsgLegacyGovUpdateParams_unmarshal;
|}.

(** [MsgLegacyGovUpdateParamsResponse] *)

Record MsgLegacyGovUpdateParamsResponse := mkMsgLegacyGovUpdateParamsResponse {
  MsgLegacyGovUpdateParamsResponse_unknownFields : bytes;
}.
Definition MsgLegacyGovUpdateParamsResponse_size : size_closure MsgLegacyGovUpdateParamsResponse :=
    closure_size (λ x,
  len (MsgLegacyGovUpdateParamsResponse_unknownFields x)).
Definition MsgLegacyGovUpdateParamsResponse_marshal :
    marshal_closure MsgLegacyGovUpdateParamsResponse :=
    closure_marshal MsgLegacyGovUpdateParamsResponse_size (λ x,
  put_copy (MsgLegacyGovUpdateParamsResponse_unknownFields x)).
Definition MsgLegacyGovUpdateParamsResponse_field (discard : bool) (n : Z) :
    option (field_reader MsgLegacyGovUpdateParamsResponse) :=
  None.
Definition MsgLegacyGovUpdateParamsResponse_unknown (x : MsgLegacyGovUpdateParamsResponse)
    (bz : bytes) : MsgLegacyGovUpdateParamsResponse :=
  mkMsgLegacyGovUpdateParamsResponse (MsgLegacyGovUpdateParamsResponse_unknownFields x ++ bz).
Definition MsgLegacyGovUpdateParamsResponse_unmarshal :
    unmarshal_closure MsgLegacyGovUpdateParamsResponse :=
  closure_unmarshal "MsgLegacyGovUpdateParamsResponse" MsgLegacyGovUpdateParamsResponse_field
    MsgLegacyGovUpdateParamsResponse_unknown.
#[export] Instance MsgLegacyGovUpdateParamsResponse_methods :
    ProtoMethods MsgLegacyGovUpdateParamsResponse := {|
  api_new := mkMsgLegacyGovUpdateParamsResponse [];
  api_size := MsgLegacyGovUpdateParamsResponse_size;
  api_marshal := MsgLegacyGovUpdateParamsResponse_marshal;
  api_unmarshal := MsgLegacyGovUpdateParamsResponse_unmarshal;
|}.

(** [MsgGovUpdateParams] *)

Record MsgGovUpdateParams := mkMsgGovUpdateParams {
  MsgGovUpdateParams_Authority : string;
  MsgGovUpdateParams_Title : string;
  MsgGovUpdateParams_Description : string;
  MsgGovUpdateParams_Plan : option ParamUpdatePlan;
  MsgGovUpdateParams_unknownFields : bytes;
}.
Definition MsgGovUpdateParams_size : size_closure MsgGovUpdateParams := closure_size (λ x,
  api_size_string 1 (MsgGovUpdateParams_Authority x) +
  api_size_string 1 (MsgGovUpdateParams_Title x) +
  api_size_string 1 (MsgGovUpdateParams_Description x) +
  api_size_message 1 (MsgGovUpdateParams_Plan x) + len (MsgGovUpdateParams_unknownFields x)).
Definition MsgGovUpdateParams_marshal : marshal_closure MsgGovUpdateParams :=
    closure_marshal MsgGovUpdateParams_size (λ x,
  put_copy (MsgGovUpdateParams_unknownFields x) ;;
  api_put_message [0x22] (MsgGovUpdateParams_Plan x) ;;
  api_put_string [0x1a] (MsgGovUpdateParams_Description x) ;;
  api_put_string [0x12] (MsgGovUpdateParams_Title x) ;;
  api_put_string [0xa] (MsgGovUpdateParams_Authority x)).
Definition MsgGovUpdateParams_field (discard : bool) (n : Z) :
    option (field_reader MsgGovUpdateParams) :=
  if n =? 1 then Some (string_field "Authority"
    (λ x v, mkMsgGovUpdateParams v (MsgGovUpdateParams_Title x) (MsgGovUpdateParams_Description x)
      (MsgGovUpdateParams_Plan x) (MsgGovUpdateParams_unknownFields x))) else
  if n =? 2 then Some (string_field "Title"
    (λ x v, mkMsgGovUpdateParams (MsgGovUpdateParams_Authority x) v
      (MsgGovUpdateParams_Description x) (MsgGovUpdateParams_Plan x)
      (MsgGovUpdateParams_unknownFields x))) else
  if n =? 3 then Some (string_field "Description"
    (λ x v, mkMsgGovUpdateParams (MsgGovUpdateParams_Authority x) (MsgGovUpdateParams_Title x) v
      (MsgGovUpdateParams_Plan x) (MsgGovUpdateParams_unknownFields x))) else
  if n =? 4 then Some (api_message_field discard "Plan" MsgGovUpdateParams_Plan
    (λ x v, mkMsgGovUpdateParams (MsgGovUpdateParams_Authority x) (MsgGovUpdateParams_Title x)
      (MsgGovUpdateParams_Description x) v (MsgGovUpdateParams_unknownFields x))) else
  None.
Definition MsgGovUpdateParams_unknown (x : MsgGovUpdateParams) (bz : bytes) : MsgGovUpdateParams :=
  mkMsgGovUpdateParams (MsgGovUpdateParams_Authority x) (MsgGovUpdateParams_Title x)
    (MsgGovUpdateParams_Description x) (MsgGovUpdateParams_Plan x)
    (MsgGovUpdateParams_unknownFields x ++ bz).
Definition MsgGovUpdateParams_unmarshal : unmarshal_closure MsgGovUpdateParams :=
  closure_unmarshal "MsgGovUpdateParams" MsgGovUpdateParams_field MsgGovUpdateParams_unknown.
#[export] Instance MsgGovUpdateParams_methods : ProtoMethods MsgGovUpdateParams := {|
  api_new := mkMsgGovUpdateParams "" "" "" None [];
  api_size := MsgGovUpdateParams_size;
  api_marshal := MsgGovUpdateParams_marshal;
  api_unmarshal := MsgGovUpdateParams_unmarshal;
|}.

(** [MsgGovUpdateParamsResponse] *)

Record MsgGovUpdateParamsResponse := mkMsgGovUpdateParamsResponse {
  MsgGovUpdateParamsResponse_unknownFields : bytes;
}.
Definition MsgGovUpdateParamsResponse_size : size_closure MsgGovUpdateParamsResponse :=
    closure_size (λ x,
  len (MsgGovUpdateParamsResponse_unknownFields x)).
Definition MsgGovUpdateParamsResponse_marshal : marshal_closure MsgGovUpdateParamsResponse :=
    closure_marshal MsgGovUpdateParamsResponse_size (λ x,
  put_copy (MsgGovUpdateParamsResponse_unknownFields x)).
Definition MsgGovUpdateParamsResponse_field (discard : bool) (n : Z) :
    option (field_reader MsgGovUpdateParamsResponse) :=
  None.
Definition MsgGovUpdateParamsResponse_unknown (x : MsgGovUpdateParamsResponse)
    (bz : bytes) : MsgGovUpdateParamsResponse :=
  mkMsgGovUpdateParamsResponse (MsgGovUpdateParamsResponse_unknownFields x ++ bz).
Definition MsgGovUpdateParamsResponse_unmarshal : unmarshal_closure MsgGovUpdateParamsResponse :=
  closure_unmarshal "MsgGovUpdateParamsResponse" MsgGovUpdateParamsResponse_field
    MsgGovUpdateParamsResponse_unknown.
#[export] Instance MsgGovUpdateParamsResponse_methods :
    ProtoMethods MsgGovUpdateParamsResponse := {|
  api_new := mkMsgGovUpdateParamsResponse [];
  api_size := MsgGovUpdateParamsResponse_size;
  api_marshal := MsgGovUpdateParamsResponse_marshal;
  api_unmarshal := MsgGovUpdateParamsResponse_unmarshal;
|}.

(** [MsgGovAddDenoms] *)

Record MsgGovAddDenoms := mkMsgGovAddDenoms {
  MsgGovAddDenoms_Authority : string;
  MsgGovAddDenoms_Title : string;
  MsgGovAddDenoms_Description : string;
  MsgGovAddDenoms_Height : Z;
  MsgGovAddDenoms_DenomList : list (option Denom);
  MsgGovAddDenoms_Mandatory : bool;
  MsgGovAddDenoms_RewardBand : string;
  MsgGovAddDenoms_CurrencyPairProviders : list (option CurrencyPairProviders);
  MsgGovAddDenoms_CurrencyDeviationThresholds : list (option CurrencyDeviationThreshold);
  MsgGovAddDenoms_unknownFields : bytes;
}.
Definition MsgGovAddDenoms_size : size_closure MsgGovAddDenoms := closure_size (λ x,
  api_size_string 1 (MsgGovAddDenoms_Authority x) + api_size_string 1 (MsgGovAddDenoms_Title x) +
  api_size_string 1 (MsgGovAddDenoms_Description x) +
  api_size_varint 1 (MsgGovAddDenoms_Height x) +
  api_size_messages 1 (MsgGovAddDenoms_DenomList x) + size_bool 1 (MsgGovAddDenoms_Mandatory x) +
  api_size_string 1 (MsgGovAddDenoms_RewardBand x) +
  api_size_messages 1 (MsgGovAddDenoms_CurrencyPairProviders x) +
  api_size_messages 1 (MsgGovAddDenoms_CurrencyDeviationThresholds x) +
  len (MsgGovAddDenoms_unknownFields x)).
Definition MsgGovAddDenoms_marshal : marshal_closure MsgGovAddDenoms :=
    closure_marshal MsgGovAddDenoms_size (λ x,
  put_copy (MsgGovAddDenoms_unknownFields x) ;;
  api_put_messages [0x4a] (MsgGovAddDenoms_CurrencyDeviationThresholds x) ;;
  api_put_messages [0x42] (MsgGovAddDenoms_CurrencyPairProviders x) ;;
  api_put_string [0x3a] (MsgGovAddDenoms_RewardBand x) ;;
  put_bool [0x30] (MsgGovAddDenoms_Mandatory x) ;;
  api_put_messages [0x2a] (MsgGovAddDenoms_DenomList x) ;;
  api_put_varint [0x20] (MsgGovAddDenoms_Height x) ;;
  api_put_string [0x1a] (MsgGovAddDenoms_Description x) ;;
  api_put_string [0x12] (MsgGovAddDenoms_Title x) ;;
  api_put_string [0xa] (MsgGovAddDenoms_Authority x)).
Definition MsgGovAddDenoms_field (discard : bool) (n : Z) : option (field_reader MsgGovAddDenoms) :=
  if n =? 1 then Some (string_field "Authority"
    (λ x v, mkMsgGovAddDenoms v (MsgGovAddDenoms_Title x) (MsgGovAddDenoms_Description x)
      (MsgGovAddDenoms_Height x) (MsgGovAddDenoms_DenomList x) (MsgGovAddDenoms_Mandatory x)
      (MsgGovAddDenoms_RewardBand x) (MsgGovAddDenoms_CurrencyPairProviders x)
      (MsgGovAddDenoms_CurrencyDeviationThresholds x) (MsgGovAddDenoms_unknownFields x))) else
  if n =? 2 then Some (string_field "Title"
    (λ x v, mkMsgGovAddDenoms (MsgGovAddDenoms_Authority x) v (MsgGovAddDenoms_Description x)
      (MsgGovAddDenoms_Height x) (MsgGovAddDenoms_DenomList x) (MsgGovAddDenoms_Mandatory x)
      (MsgGovAddDenoms_RewardBand x) (MsgGovAddDenoms_CurrencyPairProviders x)
      (MsgGovAddDenoms_CurrencyDeviationThresholds x) (MsgGovAddDenoms_unknownFields x))) else
  if n =? 3 then Some (string_field "Description"
    (λ x v, mkMsgGovAddDenoms (MsgGovAddDenoms_Authority x) (MsgGovAddDenoms_Title x) v
      (MsgGovAddDenoms_Height x) (MsgGovAddDenoms_DenomList x) (MsgGovAddDenoms_Mandatory x)
      (MsgGovAddDenoms_RewardBand x) (MsgGovAddDenoms_CurrencyPairProviders x)
      (MsgGovAddDenoms_CurrencyDeviationThresholds x) (MsgGovAddDenoms_unknownFields x))) else
  if n =? 4 then Some (varint_field "Height" wrap_i64
    (λ x v, mkMsgGovAddDenoms (MsgGovAddDenoms_Authority x) (MsgGovAddDenoms_Title x)
      (MsgGovAddDenoms_Description x) v (MsgGovAddDenoms_DenomList x) (MsgGovAddDenoms_Mandatory
      x) (MsgGovAddDenoms_RewardBand x) (MsgGovAddDenoms_CurrencyPairProviders x)
      (MsgGovAddDenoms_CurrencyDeviationThresholds x) (MsgGovAddDenoms_unknownFields x))) else
  if n =? 5 then Some (api_messages_field discard "DenomList" MsgGovAddDenoms_DenomList
    (λ x v, mkMsgGovAddDenoms (MsgGovAddDenoms_Authority x) (MsgGovAddDenoms_Title x)
      (MsgGovAddDenoms_Description x) (MsgGovAddDenoms_Height x) v (MsgGovAddDenoms_Mandatory x)
      (MsgGovAddDenoms_RewardBand x) (MsgGovAddDenoms_CurrencyPairProviders x)
      (MsgGovAddDenoms_CurrencyDeviationThresholds x) (MsgGovAddDenoms_unknownFields x))) else
  if n =? 6 then Some (bool_field "Mandatory"
    (λ x v, mkMsgGovAddDenoms (MsgGovAddDenoms_Authority x) (MsgGovAddDenoms_Title x)
      (MsgGovAddDenoms_Description x) (MsgGovAddDenoms_Height x) (MsgGovAddDenoms_DenomList x) v
      (MsgGovAddDenoms_RewardBand x) (MsgGovAddDenoms_CurrencyPairProviders x)
      (MsgGovAddDenoms_CurrencyDeviationThresholds x) (MsgGovAddDenoms_unknownFields x))) else
  if n =? 7 then Some (string_field "RewardBand"
    (λ x v, mkMsgGovAddDenoms (MsgGovAddDenoms_Authority x) (MsgGovAddDenoms_Title x)
      (MsgGovAddDenoms_Description x) (MsgGovAddDenoms_Height x) (MsgGovAddDenoms_DenomList x)
      (MsgGovAddDenoms_Mandatory x) v (MsgGovAddDenoms_CurrencyPairProviders x)
      (MsgGovAddDenoms_CurrencyDeviationThresholds x) (MsgGovAddDenoms_unknownFields x))) else
  if n =? 8 then Some (api_messages_field discard "CurrencyPairProviders"
    MsgGovAddDenoms_CurrencyPairProviders
    (λ x v, mkMsgGovAddDenoms (MsgGovAddDenoms_Authority x) (MsgGovAddDenoms_Title x)
      (MsgGovAddDenoms_Description x) (MsgGovAddDenoms_Height x) (MsgGovAddDenoms_DenomList x)
      (MsgGovAddDenoms_Mandatory x) (MsgGovAddDenoms_RewardBand x) v
      (MsgGovAddDenoms_CurrencyDeviationThresholds x) (MsgGovAddDenoms_unknownFields x))) else
  if n =? 9 then Some (api_messages_field discard "CurrencyDeviationThresholds"
    MsgGovAddDenoms_CurrencyDeviationThresholds
    (λ x v, mkMsgGovAddDenoms (MsgGovAddDenoms_Authority x) (MsgGovAddDenoms_Title x)
      (MsgGovAddDenoms_Description x) (MsgGovAddDenoms_Height x) (MsgGovAddDenoms_DenomList x)
      (MsgGovAddDenoms_Mandatory x) (MsgGovAddDenoms_RewardBand x)
      (MsgGovAddDenoms_CurrencyPairProviders x) v (MsgGovAddDenoms_unknownFields x))) else
  None.
Definition MsgGovAddDenoms_unknown (x : MsgGovAddDenoms) (bz : bytes) : MsgGovAddDenoms :=
  mkMsgGovAddDenoms (MsgGovAddDenoms_Authority x) (MsgGovAddDenoms_Title x)
    (MsgGovAddDenoms_Description x) (MsgGovAddDenoms_Height x) (MsgGovAddDenoms_DenomList x)
    (MsgGovAddDenoms_Mandatory x) (MsgGovAddDenoms_RewardBand x)
    (MsgGovAddDenoms_CurrencyPairProviders x) (MsgGovAddDenoms_CurrencyDeviationThresholds x)
    (MsgGovAddDenoms_unknownFields x ++ bz).
Definition MsgGovAddDenoms_unmarshal : unmarshal_closure MsgGovAddDenoms :=
  closure_unmarshal "MsgGovAddDenoms" MsgGovAddDenoms_field MsgGovAddDenoms_unknown.
#[export] Instance MsgGovAddDenoms_methods : ProtoMethods MsgGovAddDenoms := {|
  api_new := mkMsgGovAddDenoms "" "" "" 0 [] false "" [] [] [];
  api_size := MsgGovAddDenoms_size;
  api_marshal := MsgGovAddDenoms_marshal;
  api_unmarshal := MsgGovAddDenoms_unmarshal;
|}.

(** [MsgGovAddDenomsResponse] *)

Record MsgGovAddDenomsResponse := mkMsgGovAddDenomsResponse {
  MsgGovAddDenomsResponse_unknownFields : bytes;
}.
Definition MsgGovAddDenomsResponse_size : size_closure MsgGovAddDenomsResponse :=
    closure_size (λ x,
  len (MsgGovAddDenomsResponse_unknownFields x)).
Definition MsgGovAddDenomsResponse_marshal : marshal_closure MsgGovAddDenomsResponse :=
    closure_marshal MsgGovAddDenomsResponse_size (λ x,
  put_copy (MsgGovAddDenomsResponse_unknownFields x)).
Definition MsgGovAddDenomsResponse_field (discard : bool) (n : Z) :
    option (field_reader MsgGovAddDenomsResponse) :=
  None.
Definition MsgGovAddDenomsResponse_unknown (x : MsgGovAddDenomsResponse)
    (bz : bytes) : MsgGovAddDenomsResponse :=
  mkMsgGovAddDenomsResponse (MsgGovAddDenomsResponse_unknownFields x ++ bz).
Definition MsgGovAddDenomsResponse_unmarshal : unmarshal_closure MsgGovAddDenomsResponse :=
  closure_unmarshal "MsgGovAddDenomsResponse" MsgGovAddDenomsResponse_field
    MsgGovAddDenomsResponse_unknown.
#[export] Instance MsgGovAddDenomsResponse_methods : ProtoMethods MsgGovAddDenomsResponse := {|
  api_new := mkMsgGovAddDenomsResponse [];
  api_size := MsgGovAddDenomsResponse_size;
  api_marshal := MsgGovAddDenomsResponse_marshal;
  api_unmarshal := MsgGovAddDenomsResponse_unmarshal;
|}.

(** [MsgGovRemoveCurrencyPairProviders] *)

Record MsgGovRemoveCurrencyPairProviders := mkMsgGovRemoveCurrencyPairProviders {
  MsgGovRemoveCurrencyPairProviders_Authority : string;
  MsgGovRemoveCurrencyPairProviders_Title : string;
  MsgGovRemoveCurrencyPairProviders_Description : string;
  MsgGovRemoveCurrencyPairProviders_Height : Z;
  MsgGovRemoveCurrencyPairProviders_CurrencyPairProviders : list (option CurrencyPairProviders);
  MsgGovRemoveCurrencyPairProviders_unknownFields : bytes;
}.
Definition MsgGovRemoveCurrencyPairProviders_size :
    size_closure MsgGovRemoveCurrencyPairProviders := closure_size (λ x,
  api_size_string 1 (MsgGovRemoveCurrencyPairProviders_Authority x) +
  api_size_string 1 (MsgGovRemoveCurrencyPairProviders_Title x) +
  api_size_string 1 (MsgGovRemoveCurrencyPairProviders_Description x) +
  api_size_varint 1 (MsgGovRemoveCurrencyPairProviders_Height x) +
  api_size_messages 1 (MsgGovRemoveCurrencyPairProviders_CurrencyPairProviders x) +
  len (MsgGovRemoveCurrencyPairProviders_unknownFields x)).
Definition MsgGovRemoveCurrencyPairProviders_marshal :
    marshal_closure MsgGovRemoveCurrencyPairProviders :=
    closure_marshal MsgGovRemoveCurrencyPairProviders_size (λ x,
  put_copy (MsgGovRemoveCurrencyPairProviders_unknownFields x) ;;
  api_put_messages [0x2a] (MsgGovRemoveCurrencyPairProviders_CurrencyPairProviders x) ;;
  api_put_varint [0x20] (MsgGovRemoveCurrencyPairProviders_Height x) ;;
  api_put_string [0x1a] (MsgGovRemoveCurrencyPairProviders_Description x) ;;
  api_put_string [0x12] (MsgGovRemoveCurrencyPairProviders_Title x) ;;
  api_put_string [0xa] (MsgGovRemoveCurrencyPairProviders_Authority x)).
Definition MsgGovRemoveCurrencyPairProviders_field (discard : bool) (n : Z) :
    option (field_reader MsgGovRemoveCurrencyPairProviders) :=
  if n =? 1 then Some (string_field "Authority"
    (λ x v, mkMsgGovRemoveCurrencyPairProviders v (MsgGovRemoveCurrencyPairProviders_Title x)
      (MsgGovRemoveCurrencyPairProviders_Description x) (MsgGovRemoveCurrencyPairProviders_Height
      x) (MsgGovRemoveCurrencyPairProviders_CurrencyPairProviders x)
      (MsgGovRemoveCurrencyPairProviders_unknownFields x))) else
  if n =? 2 then Some (string_field "Title"
    (λ x v, mkMsgGovRemoveCurrencyPairProviders (MsgGovRemoveCurrencyPairProviders_Authority x) v
      (MsgGovRemoveCurrencyPairProviders_Description x) (MsgGovRemoveCurrencyPairProviders_Height
      x) (MsgGovRemoveCurrencyPairProviders_CurrencyPairProviders x)
      (MsgGovRemoveCurrencyPairProviders_unknownFields x))) else
  if n =? 3 then Some (string_field "Description"
    (λ x v, mkMsgGovRemoveCurrencyPairProviders (MsgGovRemoveCurrencyPairProviders_Authority x)
      (MsgGovRemoveCurrencyPairProviders_Title x) v (MsgGovRemoveCurrencyPairProviders_Height x)
      (MsgGovRemoveCurrencyPairProviders_CurrencyPairProviders x)
      (MsgGovRemoveCurrencyPairProviders_unknownFields x))) else
  if n =? 4 then Some (varint_field "Height" wrap_i64
    (λ x v, mkMsgGovRemoveCurrencyPairProviders (MsgGovRemoveCurrencyPairProviders_Authority x)
      (MsgGovRemoveCurrencyPairProviders_Title x) (MsgGovRemoveCurrencyPairProviders_Description
      x) v (MsgGovRemoveCurrencyPairProviders_CurrencyPairProviders x)
      (MsgGovRemoveCurrencyPairProviders_unknownFields x))) else
  if n =? 5 then Some (api_messages_field discard "CurrencyPairProviders"
    MsgGovRemoveCurrencyPairProviders_CurrencyPairProviders
    (λ x v, mkMsgGovRemoveCurrencyPairProviders (MsgGovRemoveCurrencyPairProviders_Authority x)
      (MsgGovRemoveCurrencyPairProviders_Title x) (MsgGovRemoveCurrencyPairProviders_Description
      x) (MsgGovRemoveCurrencyPairProviders_Height x) v
      (MsgGovRemoveCurrencyPairProviders_unknownFields x))) else
  None.
Definition MsgGovRemoveCurrencyPairProviders_unknown (x : MsgGovRemoveCurrencyPairProviders)
    (bz : bytes) : MsgGovRemoveCurrencyPairProviders :=
  mkMsgGovRemoveCurrencyPairProviders (MsgGovRemoveCurrencyPairProviders_Authority x)
    (MsgGovRemoveCurrencyPairProviders_Title x) (MsgGovRemoveCurrencyPairProviders_Description x)
    (MsgGovRemoveCurrencyPairProviders_Height x)
    (MsgGovRemoveCurrencyPairProviders_CurrencyPairProviders x)
    (MsgGovRemoveCurrencyPairProviders_unknownFields x ++ bz).
Definition MsgGovRemoveCurrencyPairProviders_unmarshal :
    unmarshal_closure MsgGovRemoveCurrencyPairProviders :=
  closure_unmarshal "MsgGovRemoveCurrencyPairProviders" MsgGovRemoveCurrencyPairProviders_field
    MsgGovRemoveCurrencyPairProviders_unknown.
#[export] Instance MsgGovRemoveCurrencyPairProviders_methods :
    ProtoMethods MsgGovRemoveCurrencyPairProviders := {|
  api_new := mkMsgGovRemoveCurrencyPairProviders "" "" "" 0 [] [];
  api_size := MsgGovRemoveCurrencyPairProviders_size;
  api_marshal := MsgGovRemoveCurrencyPairProviders_marshal;
  api_unmarshal := MsgGovRemoveCurrencyPairProviders_unmarshal;
|}.

(** [MsgGovRemoveCurrencyPairProvidersResponse] *)

Record MsgGovRemoveCurrencyPairProvidersResponse := mkMsgGovRemoveCurrencyPairProvidersResponse {
  MsgGovRemoveCurrencyPairProvidersResponse_unknownFields : bytes;
}.
Definition MsgGovRemoveCurrencyPairProvidersResponse_size :
    size_closure MsgGovRemoveCurrencyPairProvidersResponse := closure_size (λ x,
  len (MsgGovRemoveCurrencyPairProvidersResponse_unknownFields x)).
Definition MsgGovRemoveCurrencyPairProvidersResponse_marshal :
    marshal_closure MsgGovRemoveCurrencyPairProvidersResponse :=
    closure_marshal MsgGovRemoveCurrencyPairProvidersResponse_size (λ x,
  put_copy (MsgGovRemoveCurrencyPairProvidersResponse_unknownFields x)).
Definition MsgGovRemoveCurrencyPairProvidersResponse_field (discard : bool) (n : Z) :
    option (field_reader MsgGovRemoveCurrencyPairProvidersResponse) :=
  None.
Definition MsgGovRemoveCurrencyPairProvidersResponse_unknown (x : MsgGovRemoveCurrencyPairProvidersResponse) (bz : bytes) : MsgGovRemoveCurrencyPairProvidersResponse :=
  mkMsgGovRemoveCurrencyPairProvidersResponse
    (MsgGovRemoveCurrencyPairProvidersResponse_unknownFields x ++ bz).
Definition MsgGovRemoveCurrencyPairProvidersResponse_unmarshal :
    unmarshal_closure MsgGovRemoveCurrencyPairProvidersResponse :=
  closure_unmarshal "MsgGovRemoveCurrencyPairProvidersResponse"
    MsgGovRemoveCurrencyPairProvidersResponse_field
    MsgGovRemoveCurrencyPairProvidersResponse_unknown.
#[export] Instance MsgGovRemoveCurrencyPairProvidersResponse_methods :
    ProtoMethods MsgGovRemoveCurrencyPairProvidersResponse := {|
  api_new := mkMsgGovRemoveCurrencyPairProvidersResponse [];
  api_size := MsgGovRemoveCurrencyPairProvidersResponse_size;
  api_marshal := MsgGovRemoveCurrencyPairProvidersResponse_marshal;
  api_unmarshal := MsgGovRemoveCurrencyPairProvidersResponse_unmarshal;
|}.

(** [MsgGovRemoveCurrencyDeviationThresholds] *)

Record MsgGovRemoveCurrencyDeviationThresholds := mkMsgGovRemoveCurrencyDeviationThresholds {
  MsgGovRemoveCurrencyDeviationThresholds_Authority : string;
  MsgGovRemoveCurrencyDeviationThresholds_Title : string;
  MsgGovRemoveCurrencyDeviationThresholds_Description : string;
  MsgGovRemoveCurrencyDeviationThresholds_Height : Z;
  MsgGovRemoveCurrencyDeviationThresholds_Currencies : list string;
  MsgGovRemoveCurrencyDeviationThresholds_unknownFields : bytes;
}.
Definition MsgGovRemoveCurrencyDeviationThresholds_size :
    size_closure MsgGovRemoveCurrencyDeviationThresholds := closure_size (λ x,
  api_size_string 1 (MsgGovRemoveCurrencyDeviationThresholds_Authority x) +
  api_size_string 1 (MsgGovRemoveCurrencyDeviationThresholds_Title x) +
  api_size_string 1 (MsgGovRemoveCurrencyDeviationThresholds_Description x) +
  api_size_varint 1 (MsgGovRemoveCurrencyDeviationThresholds_Height x) +
  api_size_strings 1 (MsgGovRemoveCurrencyDeviationThresholds_Currencies x) +
  len (MsgGovRemoveCurrencyDeviationThresholds_unknownFields x)).
Definition MsgGovRemoveCurrencyDeviationThresholds_marshal :
    marshal_closure MsgGovRemoveCurrencyDeviationThresholds :=
    closure_marshal MsgGovRemoveCurrencyDeviationThresholds_size (λ x,
  put_copy (MsgGovRemoveCurrencyDeviationThresholds_unknownFields x) ;;
  api_put_strings [0x2a] (MsgGovRemoveCurrencyDeviationThresholds_Currencies x) ;;
  api_put_varint [0x20] (MsgGovRemoveCurrencyDeviationThresholds_Height x) ;;
  api_put_string [0x1a] (MsgGovRemoveCurrencyDeviationThresholds_Description x) ;;
  api_put_string [0x12] (MsgGovRemoveCurrencyDeviationThresholds_Title x) ;;
  api_put_string [0xa] (MsgGovRemoveCurrencyDeviationThresholds_Authority x)).
Definition MsgGovRemoveCurrencyDeviationThresholds_field (discard : bool) (n : Z) :
    option (field_reader MsgGovRemoveCurrencyDeviationThresholds) :=
  if n =? 1 then Some (string_field "Authority"
    (λ x v, mkMsgGovRemoveCurrencyDeviationThresholds v
      (MsgGovRemoveCurrencyDeviationThresholds_Title x)
      (MsgGovRemoveCurrencyDeviationThresholds_Description x)
      (MsgGovRemoveCurrencyDeviationThresholds_Height x)
      (MsgGovRemoveCurrencyDeviationThresholds_Currencies x)
      (MsgGovRemoveCurrencyDeviationThresholds_unknownFields x))) else
  if n =? 2 then Some (string_field "Title"
    (λ x v, mkMsgGovRemoveCurrencyDeviationThresholds
      (MsgGovRemoveCurrencyDeviationThresholds_Authority x) v
      (MsgGovRemoveCurrencyDeviationThresholds_Description x)
      (MsgGovRemoveCurrencyDeviationThresholds_Height x)
      (MsgGovRemoveCurrencyDeviationThresholds_Currencies x)
      (MsgGovRemoveCurrencyDeviationThresholds_unknownFields x))) else
  if n =? 3 then Some (string_field "Description"
    (λ x v, mkMsgGovRemoveCurrencyDeviationThresholds
      (MsgGovRemoveCurrencyDeviationThresholds_Authority x)
      (MsgGovRemoveCurrencyDeviationThresholds_Title x) v
      (MsgGovRemoveCurrencyDeviationThresholds_Height x)
      (MsgGovRemoveCurrencyDeviationThresholds_Currencies x)
      (MsgGovRemoveCurrencyDeviationThresholds_unknownFields x))) else
  if n =? 4 then Some (varint_field "Height" wrap_i64
    (λ x v, mkMsgGovRemoveCurrencyDeviationThresholds
      (MsgGovRemoveCurrencyDeviationThresholds_Authority x)
      (MsgGovRemoveCurrencyDeviationThresholds_Title x)
      (MsgGovRemoveCurrencyDeviationThresholds_Description x) v
      (MsgGovRemoveCurrencyDeviationThresholds_Currencies x)
      (MsgGovRemoveCurrencyDeviationThresholds_unknownFields x))) else
  if n =? 5 then Some (strings_field "Currencies"
    MsgGovRemoveCurrencyDeviationThresholds_Currencies
    (λ x v, mkMsgGovRemoveCurrencyDeviationThresholds
      (MsgGovRemoveCurrencyDeviationThresholds_Authority x)
      (MsgGovRemoveCurrencyDeviationThresholds_Title x)
      (MsgGovRemoveCurrencyDeviationThresholds_Description x)
      (MsgGovRemoveCurrencyDeviationThresholds_Height x) v
      (MsgGovRemoveCurrencyDeviationThresholds_unknownFields x))) else
  None.
Definition MsgGovRemoveCurrencyDeviationThresholds_unknown (x : MsgGovRemoveCurrencyDeviationThresholds) (bz : bytes) : MsgGovRemoveCurrencyDeviationThresholds :=
  mkMsgGovRemoveCurrencyDeviationThresholds (MsgGovRemoveCurrencyDeviationThresholds_Authority x)
    (MsgGovRemoveCurrencyDeviationThresholds_Title x)
    (MsgGovRemoveCurrencyDeviationThresholds_Description x)
    (MsgGovRemoveCurrencyDeviationThresholds_Height x)
    (MsgGovRemoveCurrencyDeviationThresholds_Currencies x)
    (MsgGovRemoveCurrencyDeviationThresholds_unknownFields x ++ bz).
Definition MsgGovRemoveCurrencyDeviationThresholds_unmarshal :
    unmarshal_closure MsgGovRemoveCurrencyDeviationThresholds :=
  closure_unmarshal "MsgGovRemoveCurrencyDeviationThresholds"
    MsgGovRemoveCurrencyDeviationThresholds_field MsgGovRemoveCurrencyDeviationThresholds_unknown.
#[export] Instance MsgGovRemoveCurrencyDeviationThresholds_methods :
    ProtoMethods MsgGovRemoveCurrencyDeviationThresholds := {|
  api_new := mkMsgGovRemoveCurrencyDeviationThresholds "" "" "" 0 [] [];
  api_size := MsgGovRemoveCurrencyDeviationThresholds_size;
  api_marshal := MsgGovRemoveCurrencyDeviationThresholds_marshal;
  api_unmarshal := MsgGovRemoveCurrencyDeviationThresholds_unmarshal;
|}.

(** [MsgGovRemoveCurrencyDeviationThresholdsResponse] *)

Record MsgGovRemoveCurrencyDeviationThresholdsResponse := mkMsgGovRemoveCurrencyDeviationThresholdsResponse {
  MsgGovRemoveCurrencyDeviationThresholdsResponse_unknownFields : bytes;
}.
Definition MsgGovRemoveCurrencyDeviationThresholdsResponse_size :
    size_closure MsgGovRemoveCurrencyDeviationThresholdsResponse := closure_size (λ x,
  len (MsgGovRemoveCurrencyDeviationThresholdsResponse_unknownFields x)).
Definition MsgGovRemoveCurrencyDeviationThresholdsResponse_marshal :
    marshal_closure MsgGovRemoveCurrencyDeviationThresholdsResponse :=
    closure_marshal MsgGovRemoveCurrencyDeviationThresholdsResponse_size (λ x,
  put_copy (MsgGovRemoveCurrencyDeviationThresholdsResponse_unknownFields x)).
Definition MsgGovRemoveCurrencyDeviationThresholdsResponse_field (discard : bool) (n : Z) :
    option (field_reader MsgGovRemoveCurrencyDeviationThresholdsResponse) :=
  None.
Definition MsgGovRemoveCurrencyDeviationThresholdsResponse_unknown (x : MsgGovRemoveCurrencyDeviationThresholdsResponse) (bz : bytes) : MsgGovRemoveCurrencyDeviationThresholdsResponse :=
  mkMsgGovRemoveCurrencyDeviationThresholdsResponse
    (MsgGovRemoveCurrencyDeviationThresholdsResponse_unknownFields x ++ bz).
Definition MsgGovRemoveCurrencyDeviationThresholdsResponse_unmarshal :
    unmarshal_closure MsgGovRemoveCurrencyDeviationThresholdsResponse :=
  closure_unmarshal "MsgGovRemoveCurrencyDeviationThresholdsResponse"
    MsgGovRemoveCurrencyDeviationThresholdsResponse_field
    MsgGovRemoveCurrencyDeviationThresholdsResponse_unknown.
#[export] Instance MsgGovRemoveCurrencyDeviationThresholdsResponse_methods :
    ProtoMethods MsgGovRemoveCurrencyDeviationThresholdsResponse := {|
  api_new := mkMsgGovRemoveCurrencyDeviationThresholdsResponse [];
  api_size := MsgGovRemoveCurrencyDeviationThresholdsResponse_size;
  api_marshal := MsgGovRemoveCurrencyDeviationThresholdsResponse_marshal;
  api_unmarshal := MsgGovRemoveCurrencyDeviationThresholdsResponse_unmarshal;
|}.

(** [MsgGovCancelUpdateParamPlan] *)

Record MsgGovCancelUpdateParamPlan := mkMsgGovCancelUpdateParamPlan {
  MsgGovCancelUpdateParamPlan_Authority : string;
  MsgGovCancelUpdateParamPlan_Title : string;
  MsgGovCancelUpdateParamPlan_Description : string;
  MsgGovCancelUpdateParamPlan_Height : Z;
  MsgGovCancelUpdateParamPlan_unknownFields : bytes;
}.
Definition MsgGovCancelUpdateParamPlan_size : size_closure MsgGovCancelUpdateParamPlan :=
    closure_size (λ x,
  api_size_string 1 (MsgGovCancelUpdateParamPlan_Authority x) +
  api_size_string 1 (MsgGovCancelUpdateParamPlan_Title x) +
  api_size_string 1 (MsgGovCancelUpdateParamPlan_Description x) +
  api_size_varint 1 (MsgGovCancelUpdateParamPlan_Height x) +
  len (MsgGovCancelUpdateParamPlan_unknownFields x)).
Definition MsgGovCancelUpdateParamPlan_marshal : marshal_closure MsgGovCancelUpdateParamPlan :=
    closure_marshal MsgGovCancelUpdateParamPlan_size (λ x,
  put_copy (MsgGovCancelUpdateParamPlan_unknownFields x) ;;
  api_put_varint [0x20] (MsgGovCancelUpdateParamPlan_Height x) ;;
  api_put_string [0x1a] (MsgGovCancelUpdateParamPlan_Description x) ;;
  api_put_string [0x12] (MsgGovCancelUpdateParamPlan_Title x) ;;
  api_put_string [0xa] (MsgGovCancelUpdateParamPlan_Authority x)).
Definition MsgGovCancelUpdateParamPlan_field (discard : bool) (n : Z) :
    option (field_reader MsgGovCancelUpdateParamPlan) :=
  if n =? 1 then Some (string_field "Authority"
    (λ x v, mkMsgGovCancelUpdateParamPlan v (MsgGovCancelUpdateParamPlan_Title x)
      (MsgGovCancelUpdateParamPlan_Description x) (MsgGovCancelUpdateParamPlan_Height x)
      (MsgGovCancelUpdateParamPlan_unknownFields x))) else
  if n =? 2 then Some (string_field "Title"
    (λ x v, mkMsgGovCancelUpdateParamPlan (MsgGovCancelUpdateParamPlan_Authority x) v
      (MsgGovCancelUpdateParamPlan_Description x) (MsgGovCancelUpdateParamPlan_Height x)
      (MsgGovCancelUpdateParamPlan_unknownFields x))) else
  if n =? 3 then Some (string_field "Description"
    (λ x v, mkMsgGovCancelUpdateParamPlan (MsgGovCancelUpdateParamPlan_Authority x)
      (MsgGovCancelUpdateParamPlan_Title x) v (MsgGovCancelUpdateParamPlan_Height x)
      (MsgGovCancelUpdateParamPlan_unknownFields x))) else
  if n =? 4 then Some (varint_field "Height" wrap_i64
    (λ x v, mkMsgGovCancelUpdateParamPlan (MsgGovCancelUpdateParamPlan_Authority x)
      (MsgGovCancelUpdateParamPlan_Title x) (MsgGovCancelUpdateParamPlan_Description x) v
      (MsgGovCancelUpdateParamPlan_unknownFields x))) else
  None.
Definition MsgGovCancelUpdateParamPlan_unknown (x : MsgGovCancelUpdateParamPlan)
    (bz : bytes) : MsgGovCancelUpdateParamPlan :=
  mkMsgGovCancelUpdateParamPlan (MsgGovCancelUpdateParamPlan_Authority x)
    (MsgGovCancelUpdateParamPlan_Title x) (MsgGovCancelUpdateParamPlan_Description x)
    (MsgGovCancelUpdateParamPlan_Height x) (MsgGovCancelUpdateParamPlan_unknownFields x ++ bz).
Definition MsgGovCancelUpdateParamPlan_unmarshal : unmarshal_closure MsgGovCancelUpdateParamPlan :=
  closure_unmarshal "MsgGovCancelUpdateParamPlan" MsgGovCancelUpdateParamPlan_field
    MsgGovCancelUpdateParamPlan_unknown.
#[export] Instance MsgGovCancelUpdateParamPlan_methods :
    ProtoMethods MsgGovCancelUpdateParamPlan := {|
  api_new := mkMsgGovCancelUpdateParamPlan "" "" "" 0 [];
  api_size := MsgGovCancelUpdateParamPlan_size;
  api_marshal := MsgGovCancelUpdateParamPlan_marshal;
  api_unmarshal := MsgGovCancelUpdateParamPlan_unmarshal;
|}.

(** [MsgGovCancelUpdateParamPlanResponse] *)

Record MsgGovCancelUpdateParamPlanResponse := mkMsgGovCancelUpdateParamPlanResponse {
  MsgGovCancelUpdateParamPlanResponse_unknownFields : bytes;
}.
Definition MsgGovCancelUpdateParamPlanResponse_size :
    size_closure MsgGovCancelUpdateParamPlanResponse := closure_size (λ x,
  len (MsgGovCancelUpdateParamPlanResponse_unknownFields x)).
Definition MsgGovCancelUpdateParamPlanResponse_marshal :
    marshal_closure MsgGovCancelUpdateParamPlanResponse :=
    closure_marshal MsgGovCancelUpdateParamPlanResponse_size (λ x,
  put_copy (MsgGovCancelUpdateParamPlanResponse_unknownFields x)).
Definition MsgGovCancelUpdateParamPlanResponse_field (discard : bool) (n : Z) :
    option (field_reader MsgGovCancelUpdateParamPlanResponse) :=
  None.
Definition MsgGovCancelUpdateParamPlanResponse_unknown (x : MsgGovCancelUpdateParamPlanResponse)
    (bz : bytes) : MsgGovCancelUpdateParamPlanResponse :=
  mkMsgGovCancelUpdateParamPlanResponse (MsgGovCancelUpdateParamPlanResponse_unknownFields x ++
    bz).
Definition MsgGovCancelUpdateParamPlanResponse_unmarshal :
    unmarshal_closure MsgGovCancelUpdateParamPlanResponse :=
  closure_unmarshal "MsgGovCancelUpdateParamPlanResponse"
    MsgGovCancelUpdateParamPlanResponse_field MsgGovCancelUpdateParamPlanResponse_unknown.
#[export] Instance MsgGovCancelUpdateParamPlanResponse_methods :
    ProtoMethods MsgGovCancelUpdateParamPlanResponse := {|
  api_new := mkMsgGovCancelUpdateParamPlanResponse [];
  api_size := MsgGovCancelUpdateParamPlanResponse_size;
  api_marshal := MsgGovCancelUpdateParamPlanResponse_marshal;
  api_unmarshal := MsgGovCancelUpdateParamPlanResponse_unmarshal;
|}.
End messages.

(** ** Laws *)

Section laws.
Context `{PulsarRuntimeLaws} `{CosmosApi} `{!CosmosApiLaws}.

Definition MsgAggregateExchangeRatePrevote_encode (x : MsgAggregateExchangeRatePrevote) : bytes :=
  enc_string [0xa] (MsgAggregateExchangeRatePrevote_Hash x) ++
  enc_string [0x12] (MsgAggregateExchangeRatePrevote_Feeder x) ++
  enc_string [0x1a] (MsgAggregateExchangeRatePrevote_Validator x) ++
  MsgAggregateExchangeRatePrevote_unknownFields x.
Definition MsgAggregateExchangeRatePrevote_ok (discard : bool) (x : MsgAggregateExchangeRatePrevote) : Prop :=
  kept_fields MsgAggregateExchangeRatePrevote_field discard
    (MsgAggregateExchangeRatePrevote_unknownFields x).
#[export] Instance MsgAggregateExchangeRatePrevote_laws : ApiLaws MsgAggregateExchangeRatePrevote.
Proof.
  solve_api_message MsgAggregateExchangeRatePrevote_encode MsgAggregateExchangeRatePrevote_ok
    MsgAggregateExchangeRatePrevote_field MsgAggregateExchangeRatePrevote_unknown.
Defined.

Definition MsgAggregateExchangeRatePrevoteResponse_encode (x : MsgAggregateExchangeRatePrevoteResponse) : bytes :=
  MsgAggregateExchangeRatePrevoteResponse_unknownFields x.
Definition MsgAggregateExchangeRatePrevoteResponse_ok (discard : bool) (x : MsgAggregateExchangeRatePrevoteResponse) : Prop :=
  kept_fields MsgAggregateExchangeRatePrevoteResponse_field discard
    (MsgAggregateExchangeRatePrevoteResponse_unknownFields x).
#[export] Instance MsgAggregateExchangeRatePrevoteResponse_laws : ApiLaws MsgAggregateExchangeRatePrevoteResponse.
Proof.
  solve_api_message MsgAggregateExchangeRatePrevoteResponse_encode
    MsgAggregateExchangeRatePrevoteResponse_ok MsgAggregateExchangeRatePrevoteResponse_field
    MsgAggregateExchangeRatePrevoteResponse_unknown.
Defined.

Definition MsgAggregateExchangeRateVote_encode (x : MsgAggregateExchangeRateVote) : bytes :=
  enc_string [0xa] (MsgAggregateExchangeRateVote_Salt x) ++
  enc_string [0x12] (MsgAggregateExchangeRateVote_ExchangeRates x) ++
  enc_string [0x1a] (MsgAggregateExchangeRateVote_Feeder x) ++
  enc_string [0x22] (MsgAggregateExchangeRateVote_Validator x) ++
  MsgAggregateExchangeRateVote_unknownFields x.
Definition MsgAggregateExchangeRateVote_ok (discard : bool) (x : MsgAggregateExchangeRateVote) :
    Prop :=
  kept_fields MsgAggregateExchangeRateVote_field discard (MsgAggregateExchangeRateVote_unknownFields
    x).
#[export] Instance MsgAggregateExchangeRateVote_laws : ApiLaws MsgAggregateExchangeRateVote.
Proof.
  solve_api_message MsgAggregateExchangeRateVote_encode MsgAggregateExchangeRateVote_ok
    MsgAggregateExchangeRateVote_field MsgAggregateExchangeRateVote_unknown.
Defined.

Definition MsgAggregateExchangeRateVoteResponse_encode (x : MsgAggregateExchangeRateVoteResponse) :
    bytes :=
  MsgAggregateExchangeRateVoteResponse_unknownFields x.
Definition MsgAggregateExchangeRateVoteResponse_ok (discard : bool) (x : MsgAggregateExchangeRateVoteResponse) : Prop :=
  kept_fields MsgAggregateExchangeRateVoteResponse_field discard
    (MsgAggregateExchangeRateVoteResponse_unknownFields x).
#[export] Instance MsgAggregateExchangeRateVoteResponse_laws : ApiLaws MsgAggregateExchangeRateVoteResponse.
Proof.
  solve_api_message MsgAggregateExchangeRateVoteResponse_encode
    MsgAggregateExchangeRateVoteResponse_ok MsgAggregateExchangeRateVoteResponse_field
    MsgAggregateExchangeRateVoteResponse_unknown.
Defined.

Definition MsgDelegateFeedConsent_encode (x : MsgDelegateFeedConsent) : bytes :=
  enc_string [0xa] (MsgDelegateFeedConsent_Operator x) ++
  enc_string [0x12] (MsgDelegateFeedConsent_Delegate x) ++ MsgDelegateFeedConsent_unknownFields x.
Definition MsgDelegateFeedConsent_ok (discard : bool) (x : MsgDelegateFeedConsent) : Prop :=
  kept_fields MsgDelegateFeedConsent_field discard (MsgDelegateFeedConsent_unknownFields x).
#[export] Instance MsgDelegateFeedConsent_laws : ApiLaws MsgDelegateFeedConsent.
Proof.
  solve_api_message MsgDelegateFeedConsent_encode MsgDelegateFeedConsent_ok
    MsgDelegateFeedConsent_field MsgDelegateFeedConsent_unknown.
Defined.

Definition MsgDelegateFeedConsentResponse_encode (x : MsgDelegateFeedConsentResponse) : bytes :=
  MsgDelegateFeedConsentResponse_unknownFields x.
Definition MsgDelegateFeedConsentResponse_ok (discard : bool) (x : MsgDelegateFeedConsentResponse) :
    Prop :=
  kept_fields MsgDelegateFeedConsentResponse_field discard
    (MsgDelegateFeedConsentResponse_unknownFields x).
#[export] Instance MsgDelegateFeedConsentResponse_laws : ApiLaws MsgDelegateFeedConsentResponse.
Proof.
  solve_api_message MsgDelegateFeedConsentResponse_encode MsgDelegateFeedConsentResponse_ok
    MsgDelegateFeedConsentResponse_field MsgDelegateFeedConsentResponse_unknown.
Defined.

Definition MsgLegacyGovUpdateParams_encode (x : MsgLegacyGovUpdateParams) : bytes :=
  enc_string [0xa] (MsgLegacyGovUpdateParams_Authority x) ++
  enc_string [0x12] (MsgLegacyGovUpdateParams_Title x) ++
  enc_string [0x1a] (MsgLegacyGovUpdateParams_Description x) ++
  enc_strings [0x22] (MsgLegacyGovUpdateParams_Keys x) ++
  enc_api_message [0x2a] (MsgLegacyGovUpdateParams_Changes x) ++
  MsgLegacyGovUpdateParams_unknownFields x.
Definition MsgLegacyGovUpdateParams_ok (discard : bool) (x : MsgLegacyGovUpdateParams) : Prop :=
  api_option_ok discard (MsgLegacyGovUpdateParams_Changes x) ∧
  kept_fields MsgLegacyGovUpdateParams_field discard (MsgLegacyGovUpdateParams_unknownFields x).
#[export] Instance MsgLegacyGovUpdateParams_laws : ApiLaws MsgLegacyGovUpdateParams.
Proof.
  solve_api_message MsgLegacyGovUpdateParams_encode MsgLegacyGovUpdateParams_ok
    MsgLegacyGovUpdateParams_field MsgLegacyGovUpdateParams_unknown.
Defined.

Definition MsgLegacyGovUpdateParamsResponse_encode (x : MsgLegacyGovUpdateParamsResponse) :
    bytes :=
  MsgLegacyGovUpdateParamsResponse_unknownFields x.
Definition MsgLegacyGovUpdateParamsResponse_ok (discard : bool) (x : MsgLegacyGovUpdateParamsResponse) : Prop :=
  kept_fields MsgLegacyGovUpdateParamsResponse_field discard
    (MsgLegacyGovUpdateParamsResponse_unknownFields x).
#[export] Instance MsgLegacyGovUpdateParamsResponse_laws : ApiLaws MsgLegacyGovUpdateParamsResponse.
Proof.
  solve_api_message MsgLegacyGovUpdateParamsResponse_encode MsgLegacyGovUpdateParamsResponse_ok
    MsgLegacyGovUpdateParamsResponse_field MsgLegacyGovUpdateParamsResponse_unknown.
Defined.

Definition MsgGovUpdateParams_encode (x : MsgGovUpdateParams) : bytes :=
  enc_string [0xa] (MsgGovUpdateParams_Authority x) ++
  enc_string [0x12] (MsgGovUpdateParams_Title x) ++
  enc_string [0x1a] (MsgGovUpdateParams_Description x) ++
  enc_api_message [0x22] (MsgGovUpdateParams_Plan x) ++ MsgGovUpdateParams_unknownFields x.
Definition MsgGovUpdateParams_ok (discard : bool) (x : MsgGovUpdateParams) : Prop :=
  api_option_ok discard (MsgGovUpdateParams_Plan x) ∧
  kept_fields MsgGovUpdateParams_field discard (MsgGovUpdateParams_unknownFields x).
#[export] Instance MsgGovUpdateParams_laws : ApiLaws MsgGovUpdateParams.
Proof.
  solve_api_message MsgGovUpdateParams_encode MsgGovUpdateParams_ok MsgGovUpdateParams_field
    MsgGovUpdateParams_unknown.
Defined.

Definition MsgGovUpdateParamsResponse_encode (x : MsgGovUpdateParamsResponse) : bytes :=
  MsgGovUpdateParamsResponse_unknownFields x.
Definition MsgGovUpdateParamsResponse_ok (discard : bool) (x : MsgGovUpdateParamsResponse) :
    Prop :=
  kept_fields MsgGovUpdateParamsResponse_field discard (MsgGovUpdateParamsResponse_unknownFields x).
#[export] Instance MsgGovUpdateParamsResponse_laws : ApiLaws MsgGovUpdateParamsResponse.
Proof.
  solve_api_message MsgGovUpdateParamsResponse_encode MsgGovUpdateParamsResponse_ok
    MsgGovUpdateParamsResponse_field MsgGovUpdateParamsResponse_unknown.
Defined.

Definition MsgGovAddDenoms_encode (x : MsgGovAddDenoms) : bytes :=
  enc_string [0xa] (MsgGovAddDenoms_Authority x) ++ enc_string [0x12] (MsgGovAddDenoms_Title x) ++
  enc_string [0x1a] (MsgGovAddDenoms_Description x) ++
  enc_varint [0x20] (MsgGovAddDenoms_Height x) ++
  enc_api_messages [0x2a] (MsgGovAddDenoms_DenomList x) ++
  enc_bool [0x30] (MsgGovAddDenoms_Mandatory x) ++
  enc_string [0x3a] (MsgGovAddDenoms_RewardBand x) ++
  enc_api_messages [0x42] (MsgGovAddDenoms_CurrencyPairProviders x) ++
  enc_api_messages [0x4a] (MsgGovAddDenoms_CurrencyDeviationThresholds x) ++
  MsgGovAddDenoms_unknownFields x.
Definition MsgGovAddDenoms_ok (discard : bool) (x : MsgGovAddDenoms) : Prop :=
  is_i64 (MsgGovAddDenoms_Height x) ∧
  Forall (api_element_ok discard) (MsgGovAddDenoms_DenomList x) ∧
  Forall (api_element_ok discard) (MsgGovAddDenoms_CurrencyPairProviders x) ∧
  Forall (api_element_ok discard) (MsgGovAddDenoms_CurrencyDeviationThresholds x) ∧
  kept_fields MsgGovAddDenoms_field discard (MsgGovAddDenoms_unknownFields x).
#[export] Instance MsgGovAddDenoms_laws : ApiLaws MsgGovAddDenoms.
Proof.
  solve_api_message MsgGovAddDenoms_encode MsgGovAddDenoms_ok MsgGovAddDenoms_field
    MsgGovAddDenoms_unknown.
Defined.

Definition MsgGovAddDenomsResponse_encode (x : MsgGovAddDenomsResponse) : bytes :=
  MsgGovAddDenomsResponse_unknownFields x.
Definition MsgGovAddDenomsResponse_ok (discard : bool) (x : MsgGovAddDenomsResponse) : Prop :=
  kept_fields MsgGovAddDenomsResponse_field discard (MsgGovAddDenomsResponse_unknownFields x).
#[export] Instance MsgGovAddDenomsResponse_laws : ApiLaws MsgGovAddDenomsResponse.
Proof.
  solve_api_message MsgGovAddDenomsResponse_encode MsgGovAddDenomsResponse_ok
    MsgGovAddDenomsResponse_field MsgGovAddDenomsResponse_unknown.
Defined.

Definition MsgGovRemoveCurrencyPairProviders_encode (x : MsgGovRemoveCurrencyPairProviders) :
    bytes :=
  enc_string [0xa] (MsgGovRemoveCurrencyPairProviders_Authority x) ++
  enc_string [0x12] (MsgGovRemoveCurrencyPairProviders_Title x) ++
  enc_string [0x1a] (MsgGovRemoveCurrencyPairProviders_Description x) ++
  enc_varint [0x20] (MsgGovRemoveCurrencyPairProviders_Height x) ++
  enc_api_messages [0x2a] (MsgGovRemoveCurrencyPairProviders_CurrencyPairProviders x) ++
  MsgGovRemoveCurrencyPairProviders_unknownFields x.
Definition MsgGovRemoveCurrencyPairProviders_ok (discard : bool) (x : MsgGovRemoveCurrencyPairProviders) : Prop :=
  is_i64 (MsgGovRemoveCurrencyPairProviders_Height x) ∧
  Forall (api_element_ok discard) (MsgGovRemoveCurrencyPairProviders_CurrencyPairProviders x) ∧
  kept_fields MsgGovRemoveCurrencyPairProviders_field discard
    (MsgGovRemoveCurrencyPairProviders_unknownFields x).
#[export] Instance MsgGovRemoveCurrencyPairProviders_laws : ApiLaws MsgGovRemoveCurrencyPairProviders.
Proof.
  solve_api_message MsgGovRemoveCurrencyPairProviders_encode MsgGovRemoveCurrencyPairProviders_ok
    MsgGovRemoveCurrencyPairProviders_field MsgGovRemoveCurrencyPairProviders_unknown.
Defined.

Definition MsgGovRemoveCurrencyPairProvidersResponse_encode (x : MsgGovRemoveCurrencyPairProvidersResponse) : bytes :=
  MsgGovRemoveCurrencyPairProvidersResponse_unknownFields x.
Definition MsgGovRemoveCurrencyPairProvidersResponse_ok (discard : bool) (x : MsgGovRemoveCurrencyPairProvidersResponse) : Prop :=
  kept_fields MsgGovRemoveCurrencyPairProvidersResponse_field discard
    (MsgGovRemoveCurrencyPairProvidersResponse_unknownFields x).
#[export] Instance MsgGovRemoveCurrencyPairProvidersResponse_laws : ApiLaws MsgGovRemoveCurrencyPairProvidersResponse.
Proof.
  solve_api_message MsgGovRemoveCurrencyPairProvidersResponse_encode
    MsgGovRemoveCurrencyPairProvidersResponse_ok MsgGovRemoveCurrencyPairProvidersResponse_field
    MsgGovRemoveCurrencyPairProvidersResponse_unknown.
Defined.

Definition MsgGovRemoveCurrencyDeviationThresholds_encode (x : MsgGovRemoveCurrencyDeviationThresholds) : bytes :=
  enc_string [0xa] (MsgGovRemoveCurrencyDeviationThresholds_Authority x) ++
  enc_string [0x12] (MsgGovRemoveCurrencyDeviationThresholds_Title x) ++
  enc_string [0x1a] (MsgGovRemoveCurrencyDeviationThresholds_Description x) ++
  enc_varint [0x20] (MsgGovRemoveCurrencyDeviationThresholds_Height x) ++
  enc_strings [0x2a] (MsgGovRemoveCurrencyDeviationThresholds_Currencies x) ++
  MsgGovRemoveCurrencyDeviationThresholds_unknownFields x.
Definition MsgGovRemoveCurrencyDeviationThresholds_ok (discard : bool) (x : MsgGovRemoveCurrencyDeviationThresholds) : Prop :=
  is_i64 (MsgGovRemoveCurrencyDeviationThresholds_Height x) ∧
  kept_fields MsgGovRemoveCurrencyDeviationThresholds_field discard
    (MsgGovRemoveCurrencyDeviationThresholds_unknownFields x).
#[export] Instance MsgGovRemoveCurrencyDeviationThresholds_laws : ApiLaws MsgGovRemoveCurrencyDeviationThresholds.
Proof.
  solve_api_message MsgGovRemoveCurrencyDeviationThresholds_encode
    MsgGovRemoveCurrencyDeviationThresholds_ok MsgGovRemoveCurrencyDeviationThresholds_field
    MsgGovRemoveCurrencyDeviationThresholds_unknown.
Defined.

Definition MsgGovRemoveCurrencyDeviationThresholdsResponse_encode (x : MsgGovRemoveCurrencyDeviationThresholdsResponse) : bytes :=
  MsgGovRemoveCurrencyDeviationThresholdsResponse_unknownFields x.
Definition MsgGovRemoveCurrencyDeviationThresholdsResponse_ok (discard : bool) (x : MsgGovRemoveCurrencyDeviationThresholdsResponse) : Prop :=
  kept_fields MsgGovRemoveCurrencyDeviationThresholdsResponse_field discard
    (MsgGovRemoveCurrencyDeviationThresholdsResponse_unknownFields x).
#[export] Instance MsgGovRemoveCurrencyDeviationThresholdsResponse_laws : ApiLaws MsgGovRemoveCurrencyDeviationThresholdsResponse.
Proof.
  solve_api_message MsgGovRemoveCurrencyDeviationThresholdsResponse_encode
    MsgGovRemoveCurrencyDeviationThresholdsResponse_ok
    MsgGovRemoveCurrencyDeviationThresholdsResponse_field
    MsgGovRemoveCurrencyDeviationThresholdsResponse_unknown.
Defined.

Definition MsgGovCancelUpdateParamPlan_encode (x : MsgGovCancelUpdateParamPlan) : bytes :=
  enc_string [0xa] (MsgGovCancelUpdateParamPlan_Authority x) ++
  enc_string [0x12] (MsgGovCancelUpdateParamPlan_Title x) ++
  enc_string [0x1a] (MsgGovCancelUpdateParamPlan_Description x) ++
  enc_varint [0x20] (MsgGovCancelUpdateParamPlan_Height x) ++
  MsgGovCancelUpdateParamPlan_unknownFields x.
Definition MsgGovCancelUpdateParamPlan_ok (discard : bool) (x : MsgGovCancelUpdateParamPlan) :
    Prop :=
  is_i64 (MsgGovCancelUpdateParamPlan_Height x) ∧
  kept_fields MsgGovCancelUpdateParamPlan_field discard (MsgGovCancelUpdateParamPlan_unknownFields x).
#[export] Instance MsgGovCancelUpdateParamPlan_laws : ApiLaws MsgGovCancelUpdateParamPlan.
Proof.
  solve_api_message MsgGovCancelUpdateParamPlan_encode MsgGovCancelUpdateParamPlan_ok
    MsgGovCancelUpdateParamPlan_field MsgGovCancelUpdateParamPlan_unknown.
Defined.

Definition MsgGovCancelUpdateParamPlanResponse_encode (x : MsgGovCancelUpdateParamPlanResponse) :
    bytes :=
  MsgGovCancelUpdateParamPlanResponse_unknownFields x.
Definition MsgGovCancelUpdateParamPlanResponse_ok (discard : bool) (x : MsgGovCancelUpdateParamPlanResponse) : Prop :=
  kept_fields MsgGovCancelUpdateParamPlanResponse_field discard
    (MsgGovCancelUpdateParamPlanResponse_unknownFields x).
#[export] Instance MsgGovCancelUpdateParamPlanResponse_laws : ApiLaws MsgGovCancelUpdateParamPlanResponse.
Proof.
  solve_api_message MsgGovCancelUpdateParamPlanResponse_encode
    MsgGovCancelUpdateParamPlanResponse_ok MsgGovCancelUpdateParamPlanResponse_field
    MsgGovCancelUpdateParamPlanResponse_unknown.
Defined.
End laws.
