(* ===== verification/ApiQuery.v ===== *)
(** * ApiQuery: the queries of the generated API

    [src/api/oracle/v1/query.pulsar.go]: the requests and the responses of the
    oracle's [Query] service.
    Each message is a struct, the closures that its [ProtoMethods] returns and
    the laws of Pulsar for them. *)
From S2P Require Import Prelude Util Dec Wire WireLemmas Pulsar PulsarLemmas ApiOracle.
Local Open Scope Z_scope.

Section messages.
Context `{PulsarRuntime} `{CosmosApi}.

(** [QueryExchangeRates] *)

Record QueryExchangeRates := mkQueryExchangeRates {
  QueryExchangeRates_Denom : string;
  QueryExchangeRates_unknownFields : bytes;
}.
Definition QueryExchangeRates_size : size_closure QueryExchangeRates := closure_size (λ x,
  api_size_string 1 (QueryExchangeRates_Denom x) + len (QueryExchangeRates_unknownFields x)).
Definition QueryExchangeRates_marshal : marshal_closure QueryExchangeRates :=
    closure_marshal QueryExchangeRates_size (λ x,
  put_copy (QueryExchangeRates_unknownFields x) ;;
  api_put_string [0xa] (QueryExchangeRates_Denom x)).
Definition QueryExchangeRates_field (discard : bool) (n : Z) :
    option (field_reader QueryExchangeRates) :=
  if n =? 1 then Some (string_field "Denom"
    (λ x v, mkQueryExchangeRates v (QueryExchangeRates_unknownFields x))) else
  None.
Definition QueryExchangeRates_unknown (x : QueryExchangeRates) (bz : bytes) : QueryExchangeRates :=
  mkQueryExchangeRates (QueryExchangeRates_Denom x) (QueryExchangeRates_unknownFields x ++ bz).
Definition QueryExchangeRates_unmarshal : unmarshal_closure QueryExchangeRates :=
  closure_unmarshal "QueryExchangeRates" QueryExchangeRates_field QueryExchangeRates_unknown.
#[export] Instance QueryExchangeRates_methods : ProtoMethods QueryExchangeRates := {|
  api_new := mkQueryExchangeRates "" [];
  api_size := QueryExchangeRates_size;
  api_marshal := QueryExchangeRates_marshal;
  api_unmarshal := QueryExchangeRates_unmarshal;
|}.

(** [QueryExchangeRatesResponse] *)

Record QueryExchangeRatesResponse := mkQueryExchangeRatesResponse {
  QueryExchangeRatesResponse_ExchangeRates : list (option v1beta1_DecCoin);
  QueryExchangeRatesResponse_unknownFields : bytes;
}.
Definition QueryExchangeRatesResponse_size : size_closure QueryExchangeRatesResponse :=
    closure_size (λ x,
  api_size_messages 1 (QueryExchangeRatesResponse_ExchangeRates x) +
  len (QueryExchangeRatesResponse_unknownFields x)).
Definition QueryExchangeRatesResponse_marshal : marshal_closure QueryExchangeRatesResponse :=
    closure_marshal QueryExchangeRatesResponse_size (λ x,
  put_copy (QueryExchangeRatesResponse_unknownFields x) ;;
  api_put_messages [0xa] (QueryExchangeRatesResponse_ExchangeRates x)).
Definition QueryExchangeRatesResponse_field (discard : bool) (n : Z) :
    option (field_reader QueryExchangeRatesResponse) :=
  if n =? 1 then Some (api_messages_field discard "ExchangeRates"
    QueryExchangeRatesResponse_ExchangeRates
    (λ x v, mkQueryExchangeRatesResponse v (QueryExchangeRatesResponse_unknownFields x))) else
  None.
Definition QueryExchangeRatesResponse_unknown (x : QueryExchangeRatesResponse)
    (bz : bytes) : QueryExchangeRatesResponse :=
  mkQueryExchangeRatesResponse (QueryExchangeRatesResponse_ExchangeRates x)
    (QueryExchangeRatesResponse_unknownFields x ++ bz).
Definition QueryExchangeRatesResponse_unmarshal : unmarshal_closure QueryExchangeRatesResponse :=
  closure_unmarshal "QueryExchangeRatesResponse" QueryExchangeRatesResponse_field
    QueryExchangeRatesResponse_unknown.
#[export] Instance QueryExchangeRatesResponse_methods :
    ProtoMethods QueryExchangeRatesResponse := {|
  api_new := mkQueryExchangeRatesResponse [] [];
  api_size := QueryExchangeRatesResponse_size;
  api_marshal := QueryExchangeRatesResponse_marshal;
  api_unmarshal := QueryExchangeRatesResponse_unmarshal;
|}.

(** [QueryActiveExchangeRates] *)

Record QueryActiveExchangeRates := mkQueryActiveExchangeRates {
  QueryActiveExchangeRates_unknownFields : bytes;
}.
Definition QueryActiveExchangeRates_size : size_closure QueryActiveExchangeRates :=
    closure_size (λ x,
  len (QueryActiveExchangeRates_unknownFields x)).
Definition QueryActiveExchangeRates_marshal : marshal_closure QueryActiveExchangeRates :=
    closure_marshal QueryActiveExchangeRates_size (λ x,
  put_copy (QueryActiveExchangeRates_unknownFields x)).
Definition QueryActiveExchangeRates_field (discard : bool) (n : Z) :
    option (field_reader QueryActiveExchangeRates) :=
  None.
Definition QueryActiveExchangeRates_unknown (x : QueryActiveExchangeRates)
    (bz : bytes) : QueryActiveExchangeRates :=
  mkQueryActiveExchangeRates (QueryActiveExchangeRates_unknownFields x ++ bz).
Definition QueryActiveExchangeRates_unmarshal : unmarshal_closure QueryActiveExchangeRates :=
  closure_unmarshal "QueryActiveExchangeRates" QueryActiveExchangeRates_field
    QueryActiveExchangeRates_unknown.
#[export] Instance QueryActiveExchangeRates_methods : ProtoMethods QueryActiveExchangeRates := {|
  api_new := mkQueryActiveExchangeRates [];
  api_size := QueryActiveExchangeRates_size;
  api_marshal := QueryActiveExchangeRates_marshal;
  api_unmarshal := QueryActiveExchangeRates_unmarshal;
|}.

(** [QueryActiveExchangeRatesResponse] *)

Record QueryActiveExchangeRatesResponse := mkQueryActiveExchangeRatesResponse {
  QueryActiveExchangeRatesResponse_ActiveRates : list string;
  QueryActiveExchangeRatesResponse_unknownFields : bytes;
}.
Definition QueryActiveExchangeRatesResponse_size : size_closure QueryActiveExchangeRatesResponse :=
    closure_size (λ x,
  api_size_strings 1 (QueryActiveExchangeRatesResponse_ActiveRates x) +
  len (QueryActiveExchangeRatesResponse_unknownFields x)).
Definition QueryActiveExchangeRatesResponse_marshal :
    marshal_closure QueryActiveExchangeRatesResponse :=
    closure_marshal QueryActiveExchangeRatesResponse_size (λ x,
  put_copy (QueryActiveExchangeRatesResponse_unknownFields x) ;;
  api_put_strings [0xa] (QueryActiveExchangeRatesResponse_ActiveRates x)).
Definition QueryActiveExchangeRatesResponse_field (discard : bool) (n : Z) :
    option (field_reader QueryActiveExchangeRatesResponse) :=
  if n =? 1 then Some (strings_field "ActiveRates" QueryActiveExchangeRatesResponse_ActiveRates
    (λ x v, mkQueryActiveExchangeRatesResponse v (QueryActiveExchangeRatesResponse_unknownFields
      x))) else
  None.
Definition QueryActiveExchangeRatesResponse_unknown (x : QueryActiveExchangeRatesResponse)
    (bz : bytes) : QueryActiveExchangeRatesResponse :=
  mkQueryActiveExchangeRatesResponse (QueryActiveExchangeRatesResponse_ActiveRates x)
    (QueryActiveExchangeRatesResponse_unknownFields x ++ bz).
Definition QueryActiveExchangeRatesResponse_unmarshal :
    unmarshal_closure QueryActiveExchangeRatesResponse :=
  closure_unmarshal "QueryActiveExchangeRatesResponse" QueryActiveExchangeRatesResponse_field
    QueryActiveExchangeRatesResponse_unknown.
#[export] Instance QueryActiveExchangeRatesResponse_methods :
    ProtoMethods QueryActiveExchangeRatesResponse := {|
  api_new := mkQueryActiveExchangeRatesResponse [] [];
  api_size := QueryActiveExchangeRatesResponse_size;
  api_marshal := QueryActiveExchangeRatesResponse_marshal;
  api_unmarshal := QueryActiveExchangeRatesResponse_unmarshal;
|}.

(** [QueryFeederDelegation] *)

Record QueryFeederDelegation := mkQueryFeederDelegation {
  QueryFeederDelegation_ValidatorAddr : string;
  QueryFeederDelegation_unknownFields : bytes;
}.
Definition QueryFeederDelegation_size : size_closure QueryFeederDelegation := closure_size (λ x,
  api_size_string 1 (QueryFeederDelegation_ValidatorAddr x) +
  len (QueryFeederDelegation_unknownFields x)).
Definition QueryFeederDelegation_marshal : marshal_closure QueryFeederDelegation :=
    closure_marshal QueryFeederDelegation_size (λ x,
  put_copy (QueryFeederDelegation_unknownFields x) ;;
  api_put_string [0xa] (QueryFeederDelegation_ValidatorAddr x)).
Definition QueryFeederDelegation_field (discard : bool) (n : Z) :
    option (field_reader QueryFeederDelegation) :=
  if n =? 1 then Some (string_field "ValidatorAddr"
    (λ x v, mkQueryFeederDelegation v (QueryFeederDelegation_unknownFields x))) else
  None.
Definition QueryFeederDelegation_unknown (x : QueryFeederDelegation)
    (bz : bytes) : QueryFeederDelegation :=
  mkQueryFeederDelegation (QueryFeederDelegation_ValidatorAddr x)
    (QueryFeederDelegation_unknownFields x ++ bz).
Definition QueryFeederDelegation_unmarshal : unmarshal_closure QueryFeederDelegation :=
  closure_unmarshal "QueryFeederDelegation" QueryFeederDelegation_field
    QueryFeederDelegation_unknown.
#[export] Instance QueryFeederDelegation_methods : ProtoMethods QueryFeederDelegation := {|
  api_new := mkQueryFeederDelegation "" [];
  api_size := QueryFeederDelegation_size;
  api_marshal := QueryFeederDelegation_marshal;
  api_unmarshal := QueryFeederDelegation_unmarshal;
|}.

(** [QueryFeederDelegationResponse] *)

Record QueryFeederDelegationResponse := mkQueryFeederDelegationResponse {
  QueryFeederDelegationResponse_FeederAddr : string;
  QueryFeederDelegationResponse_unknownFields : bytes;
}.
Definition QueryFeederDelegationResponse_size : size_closure QueryFeederDelegationResponse :=
    closure_size (λ x,
  api_size_string 1 (QueryFeederDelegationResponse_FeederAddr x) +
  len (QueryFeederDelegationResponse_unknownFields x)).
Definition QueryFeederDelegationResponse_marshal : marshal_closure QueryFeederDelegationResponse :=
    closure_marshal QueryFeederDelegationResponse_size (λ x,
  put_copy (QueryFeederDelegationResponse_unknownFields x) ;;
  api_put_string [0xa] (QueryFeederDelegationResponse_FeederAddr x)).
Definition QueryFeederDelegationResponse_field (discard : bool) (n : Z) :
    option (field_reader QueryFeederDelegationResponse) :=
  if n =? 1 then Some (string_field "FeederAddr"
    (λ x v, mkQueryFeederDelegationResponse v (QueryFeederDelegationResponse_unknownFields x)))
      else
  None.
Definition QueryFeederDelegationResponse_unknown (x : QueryFeederDelegationResponse)
    (bz : bytes) : QueryFeederDelegationResponse :=
  mkQueryFeederDelegationResponse (QueryFeederDelegationResponse_FeederAddr x)
    (QueryFeederDelegationResponse_unknownFields x ++ bz).
Definition QueryFeederDelegationResponse_unmarshal :
    unmarshal_closure QueryFeederDelegationResponse :=
  closure_unmarshal "QueryFeederDelegationResponse" QueryFeederDelegationResponse_field
    QueryFeederDelegationResponse_unknown.
#[export] Instance QueryFeederDelegationResponse_methods :
    ProtoMethods QueryFeederDelegationResponse := {|
  api_new := mkQueryFeederDelegationResponse "" [];
  api_size := QueryFeederDelegationResponse_size;
  api_marshal := QueryFeederDelegationResponse_marshal;
  api_unmarshal := QueryFeederDelegationResponse_unmarshal;
|}.

(** [QueryMissCounter] *)

Record QueryMissCounter := mkQueryMissCounter {
  QueryMissCounter_ValidatorAddr : string;
  QueryMissCounter_unknownFields : bytes;
}.
Definition QueryMissCounter_size : size_closure QueryMissCounter := closure_size (λ x,
  api_size_string 1 (QueryMissCounter_ValidatorAddr x) + len (QueryMissCounter_unknownFields x)).
Definition QueryMissCounter_marshal : marshal_closure QueryMissCounter :=
    closure_marshal QueryMissCounter_size (λ x,
  put_copy (QueryMissCounter_unknownFields x) ;;
  api_put_string [0xa] (QueryMissCounter_ValidatorAddr x)).
Definition QueryMissCounter_field (discard : bool) (n : Z) :
    option (field_reader QueryMissCounter) :=
  if n =? 1 then Some (string_field "ValidatorAddr"
    (λ x v, mkQueryMissCounter v (QueryMissCounter_unknownFields x))) else
  None.
Definition QueryMissCounter_unknown (x : QueryMissCounter) (bz : bytes) : QueryMissCounter :=
  mkQueryMissCounter (QueryMissCounter_ValidatorAddr x) (QueryMissCounter_unknownFields x ++ bz).
Definition QueryMissCounter_unmarshal : unmarshal_closure QueryMissCounter :=
  closure_unmarshal "QueryMissCounter" QueryMissCounter_field QueryMissCounter_unknown.
#[export] Instance QueryMissCounter_methods : ProtoMethods QueryMissCounter := {|
  api_new := mkQueryMissCounter "" [];
  api_size := QueryMissCounter_size;
  api_marshal := QueryMissCounter_marshal;
  api_unmarshal := QueryMissCounter_unmarshal;
|}.

(** [QueryMissCounterResponse] *)

Record QueryMissCounterResponse := mkQueryMissCounterResponse {
  QueryMissCounterResponse_MissCounter : Z;
  QueryMissCounterResponse_unknownFields : bytes;
}.
Definition QueryMissCounterResponse_size : size_closure QueryMissCounterResponse :=
    closure_size (λ x,
  api_size_varint 1 (QueryMissCounterResponse_MissCounter x) +
  len (QueryMissCounterResponse_unknownFields x)).
Definition QueryMissCounterResponse_marshal : marshal_closure QueryMissCounterResponse :=
    closure_marshal QueryMissCounterResponse_size (λ x,
  put_copy (QueryMissCounterResponse_unknownFields x) ;;
  api_put_varint [0x8] (QueryMissCounterResponse_MissCounter x)).
Definition QueryMissCounterResponse_field (discard : bool) (n : Z) :
    option (field_reader QueryMissCounterResponse) :=
  if n =? 1 then Some (varint_field "MissCounter" wrap_u64
    (λ x v, mkQueryMissCounterResponse v (QueryMissCounterResponse_unknownFields x))) else
  None.
Definition QueryMissCounterResponse_unknown (x : QueryMissCounterResponse)
    (bz : bytes) : QueryMissCounterResponse :=
  mkQueryMissCounterResponse (QueryMissCounterResponse_MissCounter x)
    (QueryMissCounterResponse_unknownFields x ++ bz).
Definition QueryMissCounterResponse_unmarshal : unmarshal_closure QueryMissCounterResponse :=
  closure_unmarshal "QueryMissCounterResponse" QueryMissCounterResponse_field
    QueryMissCounterResponse_unknown.
#[export] Instance QueryMissCounterResponse_methods : ProtoMethods QueryMissCounterResponse := {|
  api_new := mkQueryMissCounterResponse 0 [];
  api_size := QueryMissCounterResponse_size;
  api_marshal := QueryMissCounterResponse_marshal;
  api_unmarshal := QueryMissCounterResponse_unmarshal;
|}.

(** [QuerySlashWindow] *)

Record QuerySlashWindow := mkQuerySlashWindow { QuerySlashWindow_unknownFields : bytes }.
Definition QuerySlashWindow_size : size_closure QuerySlashWindow := closure_size (λ x,
  len (QuerySlashWindow_unknownFields x)).
Definition QuerySlashWindow_marshal : marshal_closure QuerySlashWindow :=
    closure_marshal QuerySlashWindow_size (λ x,
  put_copy (QuerySlashWindow_unknownFields x)).
Definition QuerySlashWindow_field (discard : bool) (n : Z) :
    option (field_reader QuerySlashWindow) :=
  None.
Definition QuerySlashWindow_unknown (x : QuerySlashWindow) (bz : bytes) : QuerySlashWindow :=
  mkQuerySlashWindow (QuerySlashWindow_unknownFields x ++ bz).
Definition QuerySlashWindow_unmarshal : unmarshal_closure QuerySlashWindow :=
  closure_unmarshal "QuerySlashWindow" QuerySlashWindow_field QuerySlashWindow_unknown.
#[export] Instance QuerySlashWindow_methods : ProtoMethods QuerySlashWindow := {|
  api_new := mkQuerySlashWindow [];
  api_size := QuerySlashWindow_size;
  api_marshal := QuerySlashWindow_marshal;
  api_unmarshal := QuerySlashWindow_unmarshal;
|}.

(** [QuerySlashWindowResponse] *)

Record QuerySlashWindowResponse := mkQuerySlashWindowResponse {
  QuerySlashWindowResponse_WindowProgress : Z;
  QuerySlashWindowResponse_unknownFields : bytes;
}.
Definition QuerySlashWindowResponse_size : size_closure QuerySlashWindowResponse :=
    closure_size (λ x,
  api_size_varint 1 (QuerySlashWindowResponse_WindowProgress x) +
  len (QuerySlashWindowResponse_unknownFields x)).
Definition QuerySlashWindowResponse_marshal : marshal_closure QuerySlashWindowResponse :=
    closure_marshal QuerySlashWindowResponse_size (λ x,
  put_copy (QuerySlashWindowResponse_unknownFields x) ;;
  api_put_varint [0x8] (QuerySlashWindowResponse_WindowProgress x)).
Definition QuerySlashWindowResponse_field (discard : bool) (n : Z) :
    option (field_reader QuerySlashWindowResponse) :=
  if n =? 1 then Some (varint_field "WindowProgress" wrap_u64
    (λ x v, mkQuerySlashWindowResponse v (QuerySlashWindowResponse_unknownFields x))) else
  None.
Definition QuerySlashWindowResponse_unknown (x : QuerySlashWindowResponse)
    (bz : bytes) : QuerySlashWindowResponse :=
  mkQuerySlashWindowResponse (QuerySlashWindowResponse_WindowProgress x)
    (QuerySlashWindowResponse_unknownFields x ++ bz).
Definition QuerySlashWindowResponse_unmarshal : unmarshal_closure QuerySlashWindowResponse :=
  closure_unmarshal "QuerySlashWindowResponse" QuerySlashWindowResponse_field
    QuerySlashWindowResponse_unknown.
#[export] Instance QuerySlashWindowResponse_methods : ProtoMethods QuerySlashWindowResponse := {|
  api_new := mkQuerySlashWindowResponse 0 [];
  api_size := QuerySlashWindowResponse_size;
  api_marshal := QuerySlashWindowResponse_marshal;
  api_unmarshal := QuerySlashWindowResponse_unmarshal;
|}.

(** [QueryAggregatePrevote] *)

Record QueryAggregatePrevote := mkQueryAggregatePrevote {
  QueryAggregatePrevote_ValidatorAddr : string;
  QueryAggregatePrevote_unknownFields : bytes;
}.
Definition QueryAggregatePrevote_size : size_closure QueryAggregatePrevote := closure_size (λ x,
  api_size_string 1 (QueryAggregatePrevote_ValidatorAddr x) +
  len (QueryAggregatePrevote_unknownFields x)).
Definition QueryAggregatePrevote_marshal : marshal_closure QueryAggregatePrevote :=
    closure_marshal QueryAggregatePrevote_size (λ x,
  put_copy (QueryAggregatePrevote_unknownFields x) ;;
  api_put_string [0xa] (QueryAggregatePrevote_ValidatorAddr x)).
Definition QueryAggregatePrevote_field (discard : bool) (n : Z) :
    option (field_reader QueryAggregatePrevote) :=
  if n =? 1 then Some (string_field "ValidatorAddr"
    (λ x v, mkQueryAggregatePrevote v (QueryAggregatePrevote_unknownFields x))) else
  None.
Definition QueryAggregatePrevote_unknown (x : QueryAggregatePrevote)
    (bz : bytes) : QueryAggregatePrevote :=
  mkQueryAggregatePrevote (QueryAggregatePrevote_ValidatorAddr x)
    (QueryAggregatePrevote_unknownFields x ++ bz).
Definition QueryAggregatePrevote_unmarshal : unmarshal_closure QueryAggregatePrevote :=
  closure_unmarshal "QueryAggregatePrevote" QueryAggregatePrevote_field
    QueryAggregatePrevote_unknown.
#[export] Instance QueryAggregatePrevote_methods : ProtoMethods QueryAggregatePrevote := {|
  api_new := mkQueryAggregatePrevote "" [];
  api_size := QueryAggregatePrevote_size;
  api_marshal := QueryAggregatePrevote_marshal;
  api_unmarshal := QueryAggregatePrevote_unmarshal;
|}.

(** [QueryAggregatePrevoteResponse] *)

Record QueryAggregatePrevoteResponse := mkQueryAggregatePrevoteResponse {
  QueryAggregatePrevoteResponse_AggregatePrevote : option AggregateExchangeRatePrevote;
  QueryAggregatePrevoteResponse_unknownFields : bytes;
}.
Definition QueryAggregatePrevoteResponse_size : size_closure QueryAggregatePrevoteResponse :=
    closure_size (λ x,
  api_size_message 1 (QueryAggregatePrevoteResponse_AggregatePrevote x) +
  len (QueryAggregatePrevoteResponse_unknownFields x)).
Definition QueryAggregatePrevoteResponse_marshal : marshal_closure QueryAggregatePrevoteResponse :=
    closure_marshal QueryAggregatePrevoteResponse_size (λ x,
  put_copy (QueryAggregatePrevoteResponse_unknownFields x) ;;
  api_put_message [0xa] (QueryAggregatePrevoteResponse_AggregatePrevote x)).
Definition QueryAggregatePrevoteResponse_field (discard : bool) (n : Z) :
    option (field_reader QueryAggregatePrevoteResponse) :=
  if n =? 1 then Some (api_message_field discard "AggregatePrevote"
    QueryAggregatePrevoteResponse_AggregatePrevote
    (λ x v, mkQueryAggregatePrevoteResponse v (QueryAggregatePrevoteResponse_unknownFields x)))
      else
  None.
Definition QueryAggregatePrevoteResponse_unknown (x : QueryAggregatePrevoteResponse)
    (bz : bytes) : QueryAggregatePrevoteResponse :=
  mkQueryAggregatePrevoteResponse (QueryAggregatePrevoteResponse_AggregatePrevote x)
    (QueryAggregatePrevoteResponse_unknownFields x ++ bz).
Definition QueryAggregatePrevoteResponse_unmarshal :
    unmarshal_closure QueryAggregatePrevoteResponse :=
  closure_unmarshal "QueryAggregatePrevoteResponse" QueryAggregatePrevoteResponse_field
    QueryAggregatePrevoteResponse_unknown.
#[export] Instance QueryAggregatePrevoteResponse_methods :
    ProtoMethods QueryAggregatePrevoteResponse := {|
  api_new := mkQueryAggregatePrevoteResponse None [];
  api_size := QueryAggregatePrevoteResponse_size;
  api_marshal := QueryAggregatePrevoteResponse_marshal;
  api_unmarshal := QueryAggregatePrevoteResponse_unmarshal;
|}.

(** [QueryAggregatePrevotes] *)

Record QueryAggregatePrevotes := mkQueryAggregatePrevotes {
  QueryAggregatePrevotes_unknownFields : bytes;
}.
Definition QueryAggregatePrevotes_size : size_closure QueryAggregatePrevotes := closure_size (λ x,
  len (QueryAggregatePrevotes_unknownFields x)).
Definition QueryAggregatePrevotes_marshal : marshal_closure QueryAggregatePrevotes :=
    closure_marshal QueryAggregatePrevotes_size (λ x,
  put_copy (QueryAggregatePrevotes_unknownFields x)).
Definition QueryAggregatePrevotes_field (discard : bool) (n : Z) :
    option (field_reader QueryAggregatePrevotes) :=
  None.
Definition QueryAggregatePrevotes_unknown (x : QueryAggregatePrevotes)
    (bz : bytes) : QueryAggregatePrevotes :=
  mkQueryAggregatePrevotes (QueryAggregatePrevotes_unknownFields x ++ bz).
Definition QueryAggregatePrevotes_unmarshal : unmarshal_closure QueryAggregatePrevotes :=
  closure_unmarshal "QueryAggregatePrevotes" QueryAggregatePrevotes_field
    QueryAggregatePrevotes_unknown.
#[export] Instance QueryAggregatePrevotes_methods : ProtoMethods QueryAggregatePrevotes := {|
  api_new := mkQueryAggregatePrevotes [];
  api_size := QueryAggregatePrevotes_size;
  api_marshal := QueryAggregatePrevotes_marshal;
  api_unmarshal := QueryAggregatePrevotes_unmarshal;
|}.

(** [QueryAggregatePrevotesResponse] *)

Record QueryAggregatePrevotesResponse := mkQueryAggregatePrevotesResponse {
  QueryAggregatePrevotesResponse_AggregatePrevotes : list (option AggregateExchangeRatePrevote);
  QueryAggregatePrevotesResponse_unknownFields : bytes;
}.
Definition QueryAggregatePrevotesResponse_size : size_closure QueryAggregatePrevotesResponse :=
    closure_size (λ x,
  api_size_messages 1 (QueryAggregatePrevotesResponse_AggregatePrevotes x) +
  len (QueryAggregatePrevotesResponse_unknownFields x)).
Definition QueryAggregatePrevotesResponse_marshal :
    marshal_closure QueryAggregatePrevotesResponse :=
    closure_marshal QueryAggregatePrevotesResponse_size (λ x,
  put_copy (QueryAggregatePrevotesResponse_unknownFields x) ;;
  api_put_messages [0xa] (QueryAggregatePrevotesResponse_AggregatePrevotes x)).
Definition QueryAggregatePrevotesResponse_field (discard : bool) (n : Z) :
    option (field_reader QueryAggregatePrevotesResponse) :=
  if n =? 1 then Some (api_messages_field discard "AggregatePrevotes"
    QueryAggregatePrevotesResponse_AggregatePrevotes
    (λ x v, mkQueryAggregatePrevotesResponse v (QueryAggregatePrevotesResponse_unknownFields x)))
      else
  None.
Definition QueryAggregatePrevotesResponse_unknown (x : QueryAggregatePrevotesResponse)
    (bz : bytes) : QueryAggregatePrevotesResponse :=
  mkQueryAggregatePrevotesResponse (QueryAggregatePrevotesResponse_AggregatePrevotes x)
    (QueryAggregatePrevotesResponse_unknownFields x ++ bz).
Definition QueryAggregatePrevotesResponse_unmarshal :
    unmarshal_closure QueryAggregatePrevotesResponse :=
  closure_unmarshal "QueryAggregatePrevotesResponse" QueryAggregatePrevotesResponse_field
    QueryAggregatePrevotesResponse_unknown.
#[export] Instance QueryAggregatePrevotesResponse_methods :
    ProtoMethods QueryAggregatePrevotesResponse := {|
  api_new := mkQueryAggregatePrevotesResponse [] [];
  api_size := QueryAggregatePrevotesResponse_size;
  api_marshal := QueryAggregatePrevotesResponse_marshal;
  api_unmarshal := QueryAggregatePrevotesResponse_unmarshal;
|}.

(** [QueryAggregateVote] *)

Record QueryAggregateVote := mkQueryAggregateVote {
  QueryAggregateVote_ValidatorAddr : string;
  QueryAggregateVote_unknownFields : bytes;
}.
Definition QueryAggregateVote_size : size_closure QueryAggregateVote := closure_size (λ x,
  api_size_string 1 (QueryAggregateVote_ValidatorAddr x) +
  len (QueryAggregateVote_unknownFields x)).
Definition QueryAggregateVote_marshal : marshal_closure QueryAggregateVote :=
    closure_marshal QueryAggregateVote_size (λ x,
  put_copy (QueryAggregateVote_unknownFields x) ;;
  api_put_string [0xa] (QueryAggregateVote_ValidatorAddr x)).
Definition QueryAggregateVote_field (discard : bool) (n : Z) :
    option (field_reader QueryAggregateVote) :=
  if n =? 1 then Some (string_field "ValidatorAddr"
    (λ x v, mkQueryAggregateVote v (QueryAggregateVote_unknownFields x))) else
  None.
Definition QueryAggregateVote_unknown (x : QueryAggregateVote) (bz : bytes) : QueryAggregateVote :=
  mkQueryAggregateVote (QueryAggregateVote_ValidatorAddr x) (QueryAggregateVote_unknownFields x ++
    bz).
Definition QueryAggregateVote_unmarshal : unmarshal_closure QueryAggregateVote :=
  closure_unmarshal "QueryAggregateVote" QueryAggregateVote_field QueryAggregateVote_unknown.
#[export] Instance QueryAggregateVote_methods : ProtoMethods QueryAggregateVote := {|
  api_new := mkQueryAggregateVote "" [];
  api_size := QueryAggregateVote_size;
  api_marshal := QueryAggregateVote_marshal;
  api_unmarshal := QueryAggregateVote_unmarshal;
|}.

(** [QueryAggregateVoteResponse] *)

Record QueryAggregateVoteResponse := mkQueryAggregateVoteResponse {
  QueryAggregateVoteResponse_AggregateVote : option AggregateExchangeRateVote;
  QueryAggregateVoteResponse_unknownFields : bytes;
}.
Definition QueryAggregateVoteResponse_size : size_closure QueryAggregateVoteResponse :=
    closure_size (λ x,
  api_size_message 1 (QueryAggregateVoteResponse_AggregateVote x) +
  len (QueryAggregateVoteResponse_unknownFields x)).
Definition QueryAggregateVoteResponse_marshal : marshal_closure QueryAggregateVoteResponse :=
    closure_marshal QueryAggregateVoteResponse_size (λ x,
  put_copy (QueryAggregateVoteResponse_unknownFields x) ;;
  api_put_message [0xa] (QueryAggregateVoteResponse_AggregateVote x)).
Definition QueryAggregateVoteResponse_field (discard : bool) (n : Z) :
    option (field_reader QueryAggregateVoteResponse) :=
  if n =? 1 then Some (api_message_field discard "AggregateVote"
    QueryAggregateVoteResponse_AggregateVote
    (λ x v, mkQueryAggregateVoteResponse v (QueryAggregateVoteResponse_unknownFields x))) else
  None.
Definition QueryAggregateVoteResponse_unknown (x : QueryAggregateVoteResponse)
    (bz : bytes) : QueryAggregateVoteResponse :=
  mkQueryAggregateVoteResponse (QueryAggregateVoteResponse_AggregateVote x)
    (QueryAggregateVoteResponse_unknownFields x ++ bz).
Definition QueryAggregateVoteResponse_unmarshal : unmarshal_closure QueryAggregateVoteResponse :=
  closure_unmarshal "QueryAggregateVoteResponse" QueryAggregateVoteResponse_field
    QueryAggregateVoteResponse_unknown.
#[export] Instance QueryAggregateVoteResponse_methods :
    ProtoMethods QueryAggregateVoteResponse := {|
  api_new := mkQueryAggregateVoteResponse None [];
  api_size := QueryAggregateVoteResponse_size;
  api_marshal := QueryAggregateVoteResponse_marshal;
  api_unmarshal := QueryAggregateVoteResponse_unmarshal;
|}.

(** [QueryAggregateVotes] *)

Record QueryAggregateVotes := mkQueryAggregateVotes { QueryAggregateVotes_unknownFields : bytes }.
Definition QueryAggregateVotes_size : size_closure QueryAggregateVotes := closure_size (λ x,
  len (QueryAggregateVotes_unknownFields x)).
Definition QueryAggregateVotes_marshal : marshal_closure QueryAggregateVotes :=
    closure_marshal QueryAggregateVotes_size (λ x,
  put_copy (QueryAggregateVotes_unknownFields x)).
Definition QueryAggregateVotes_field (discard : bool) (n : Z) :
    option (field_reader QueryAggregateVotes) :=
  None.
Definition QueryAggregateVotes_unknown (x : QueryAggregateVotes)
    (bz : bytes) : QueryAggregateVotes :=
  mkQueryAggregateVotes (QueryAggregateVotes_unknownFields x ++ bz).
Definition QueryAggregateVotes_unmarshal : unmarshal_closure QueryAggregateVotes :=
  closure_unmarshal "QueryAggregateVotes" QueryAggregateVotes_field QueryAggregateVotes_unknown.
#[export] Instance QueryAggregateVotes_methods : ProtoMethods QueryAggregateVotes := {|
  api_new := mkQueryAggregateVotes [];
  api_size := QueryAggregateVotes_size;
  api_marshal := QueryAggregateVotes_marshal;
  api_unmarshal := QueryAggregateVotes_unmarshal;
|}.

(** [QueryAggregateVotesResponse] *)

Record QueryAggregateVotesResponse := mkQueryAggregateVotesResponse {
  QueryAggregateVotesResponse_AggregateVotes : list (option AggregateExchangeRateVote);
  QueryAggregateVotesResponse_unknownFields : bytes;
}.
Definition QueryAggregateVotesResponse_size : size_closure QueryAggregateVotesResponse :=
    closure_size (λ x,
  api_size_messages 1 (QueryAggregateVotesResponse_AggregateVotes x) +
  len (QueryAggregateVotesResponse_unknownFields x)).
Definition QueryAggregateVotesResponse_marshal : marshal_closure QueryAggregateVotesResponse :=
    closure_marshal QueryAggregateVotesResponse_size (λ x,
  put_copy (QueryAggregateVotesResponse_unknownFields x) ;;
  api_put_messages [0xa] (QueryAggregateVotesResponse_AggregateVotes x)).
Definition QueryAggregateVotesResponse_field (discard : bool) (n : Z) :
    option (field_reader QueryAggregateVotesResponse) :=
  if n =? 1 then Some (api_messages_field discard "AggregateVotes"
    QueryAggregateVotesResponse_AggregateVotes
    (λ x v, mkQueryAggregateVotesResponse v (QueryAggregateVotesResponse_unknownFields x))) else
  None.
Definition QueryAggregateVotesResponse_unknown (x : QueryAggregateVotesResponse)
    (bz : bytes) : QueryAggregateVotesResponse :=
  mkQueryAggregateVotesResponse (QueryAggregateVotesResponse_AggregateVotes x)
    (QueryAggregateVotesResponse_unknownFields x ++ bz).
Definition QueryAggregateVotesResponse_unmarshal : unmarshal_closure QueryAggregateVotesResponse :=
  closure_unmarshal "QueryAggregateVotesResponse" QueryAggregateVotesResponse_field
    QueryAggregateVotesResponse_unknown.
#[export] Instance QueryAggregateVotesResponse_methods :
    ProtoMethods QueryAggregateVotesResponse := {|
  api_new := mkQueryAggregateVotesResponse [] [];
  api_size := QueryAggregateVotesResponse_size;
  api_marshal := QueryAggregateVotesResponse_marshal;
  api_unmarshal := QueryAggregateVotesResponse_unmarshal;
|}.

(** [QueryParams] *)

Record QueryParams := mkQueryParams { QueryParams_unknownFields : bytes }.
Definition QueryParams_size : size_closure QueryParams := closure_size (λ x,
  len (QueryParams_unknownFields x)).
Definition QueryParams_marshal : marshal_closure QueryParams :=
    closure_marshal QueryParams_size (λ x,
  put_copy (QueryParams_unknownFields x)).
Definition QueryParams_field (discard : bool) (n : Z) : option (field_reader QueryParams) :=
  None.
Definition QueryParams_unknown (x : QueryParams) (bz : bytes) : QueryParams :=
  mkQueryParams (QueryParams_unknownFields x ++ bz).
Definition QueryParams_unmarshal : unmarshal_closure QueryParams :=
  closure_unmarshal "QueryParams" QueryParams_field QueryParams_unknown.
#[export] Instance QueryParams_methods : ProtoMethods QueryParams := {|
  api_new := mkQueryParams [];
  api_size := QueryParams_size;
  api_marshal := QueryParams_marshal;
  api_unmarshal := QueryParams_unmarshal;
|}.

(** [QueryParamsResponse] *)

Record QueryParamsResponse := mkQueryParamsResponse {
  QueryParamsResponse_Params : option Params;
  QueryParamsResponse_unknownFields : bytes;
}.
Definition QueryParamsResponse_size : size_closure QueryParamsResponse := closure_size (λ x,
  api_size_message 1 (QueryParamsResponse_Params x) + len (QueryParamsResponse_unknownFields x)).
Definition QueryParamsResponse_marshal : marshal_closure QueryParamsResponse :=
    closure_marshal QueryParamsResponse_size (λ x,
  put_copy (QueryParamsResponse_unknownFields x) ;;
  api_put_message [0xa] (QueryParamsResponse_Params x)).
Definition QueryParamsResponse_field (discard : bool) (n : Z) :
    option (field_reader QueryParamsResponse) :=
  if n =? 1 then Some (api_message_field discard "Params" QueryParamsResponse_Params
    (λ x v, mkQueryParamsResponse v (QueryParamsResponse_unknownFields x))) else
  None.
Definition QueryParamsResponse_unknown (x : QueryParamsResponse)
    (bz : bytes) : QueryParamsResponse :=
  mkQueryParamsResponse (QueryParamsResponse_Params x) (QueryParamsResponse_unknownFields x ++ bz).
Definition QueryParamsResponse_unmarshal : unmarshal_closure QueryParamsResponse :=
  closure_unmarshal "QueryParamsResponse" QueryParamsResponse_field QueryParamsResponse_unknown.
#[export] Instance QueryParamsResponse_methods : ProtoMethods QueryParamsResponse := {|
  api_new := mkQueryParamsResponse None [];
  api_size := QueryParamsResponse_size;
  api_marshal := QueryParamsResponse_marshal;
  api_unmarshal := QueryParamsResponse_unmarshal;
|}.

(** [QueryMedians] *)

Record QueryMedians := mkQueryMedians {
  QueryMedians_Denom : string;
  QueryMedians_NumStamps : Z;
  QueryMedians_unknownFields : bytes;
}.
Definition QueryMedians_size : size_closure QueryMedians := closure_size (λ x,
  api_size_string 1 (QueryMedians_Denom x) + api_size_varint 1 (QueryMedians_NumStamps x) +
  len (QueryMedians_unknownFields x)).
Definition QueryMedians_marshal : marshal_closure QueryMedians :=
    closure_marshal QueryMedians_size (λ x,
  put_copy (QueryMedians_unknownFields x) ;; api_put_varint [0x10] (QueryMedians_NumStamps x) ;;
  api_put_string [0xa] (QueryMedians_Denom x)).
Definition QueryMedians_field (discard : bool) (n : Z) : option (field_reader QueryMedians) :=
  if n =? 1 then Some (string_field "Denom"
    (λ x v, mkQueryMedians v (QueryMedians_NumStamps x) (QueryMedians_unknownFields x))) else
  if n =? 2 then Some (varint_field "NumStamps" wrap_u32
    (λ x v, mkQueryMedians (QueryMedians_Denom x) v (QueryMedians_unknownFields x))) else
  None.
Definition QueryMedians_unknown (x : QueryMedians) (bz : bytes) : QueryMedians :=
  mkQueryMedians (QueryMedians_Denom x) (QueryMedians_NumStamps x) (QueryMedians_unknownFields x
    ++ bz).
Definition QueryMedians_unmarshal : unmarshal_closure QueryMedians :=
  closure_unmarshal "QueryMedians" QueryMedians_field QueryMedians_unknown.
#[export] Instance QueryMedians_methods : ProtoMethods QueryMedians := {|
  api_new := mkQueryMedians "" 0 [];
  api_size := QueryMedians_size;
  api_marshal := QueryMedians_marshal;
  api_unmarshal := QueryMedians_unmarshal;
|}.

(** [QueryMediansResponse] *)

Record QueryMediansResponse := mkQueryMediansResponse {
  QueryMediansResponse_Medians : list (option PriceStamp);
  QueryMediansResponse_unknownFields : bytes;
}.
Definition QueryMediansResponse_size : size_closure QueryMediansResponse := closure_size (λ x,
  api_size_messages 1 (QueryMediansResponse_Medians x) +
  len (QueryMediansResponse_unknownFields x)).
Definition QueryMediansResponse_marshal : marshal_closure QueryMediansResponse :=
    closure_marshal QueryMediansResponse_size (λ x,
  put_copy (QueryMediansResponse_unknownFields x) ;;
  api_put_messages [0xa] (QueryMediansResponse_Medians x)).
Definition QueryMediansResponse_field (discard : bool) (n : Z) :
    option (field_reader QueryMediansResponse) :=
  if n =? 1 then Some (api_messages_field discard "Medians" QueryMediansResponse_Medians
    (λ x v, mkQueryMediansResponse v (QueryMediansResponse_unknownFields x))) else
  None.
Definition QueryMediansResponse_unknown (x : QueryMediansResponse)
    (bz : bytes) : QueryMediansResponse :=
  mkQueryMediansResponse (QueryMediansResponse_Medians x) (QueryMediansResponse_unknownFields x ++
    bz).
Definition QueryMediansResponse_unmarshal : unmarshal_closure QueryMediansResponse :=
  closure_unmarshal "QueryMediansResponse" QueryMediansResponse_field QueryMediansResponse_unknown.
#[export] Instance QueryMediansResponse_methods : ProtoMethods QueryMediansResponse := {|
  api_new := mkQueryMediansResponse [] [];
  api_size := QueryMediansResponse_size;
  api_marshal := QueryMediansResponse_marshal;
  api_unmarshal := QueryMediansResponse_unmarshal;
|}.

(** [QueryMedianDeviations] *)

Record QueryMedianDeviations := mkQueryMedianDeviations {
  QueryMedianDeviations_Denom : string;
  QueryMedianDeviations_unknownFields : bytes;
}.
Definition QueryMedianDeviations_size : size_closure QueryMedianDeviations := closure_size (λ x,
  api_size_string 1 (QueryMedianDeviations_Denom x) + len (QueryMedianDeviations_unknownFields x)).
Definition QueryMedianDeviations_marshal : marshal_closure QueryMedianDeviations :=
    closure_marshal QueryMedianDeviations_size (λ x,
  put_copy (QueryMedianDeviations_unknownFields x) ;;
  api_put_string [0xa] (QueryMedianDeviations_Denom x)).
Definition QueryMedianDeviations_field (discard : bool) (n : Z) :
    option (field_reader QueryMedianDeviations) :=
  if n =? 1 then Some (string_field "Denom"
    (λ x v, mkQueryMedianDeviations v (QueryMedianDeviations_unknownFields x))) else
  None.
Definition QueryMedianDeviations_unknown (x : QueryMedianDeviations)
    (bz : bytes) : QueryMedianDeviations :=
  mkQueryMedianDeviations (QueryMedianDeviations_Denom x) (QueryMedianDeviations_unknownFields x
    ++ bz).
Definition QueryMedianDeviations_unmarshal : unmarshal_closure QueryMedianDeviations :=
  closure_unmarshal "QueryMedianDeviations" QueryMedianDeviations_field
    QueryMedianDeviations_unknown.
#[export] Instance QueryMedianDeviations_methods : ProtoMethods QueryMedianDeviations := {|
  api_new := mkQueryMedianDeviations "" [];
  api_size := QueryMedianDeviations_size;
  api_marshal := QueryMedianDeviations_marshal;
  api_unmarshal := QueryMedianDeviations_unmarshal;
|}.

(** [QueryMedianDeviationsResponse] *)

Record QueryMedianDeviationsResponse := mkQueryMedianDeviationsResponse {
  QueryMedianDeviationsResponse_MedianDeviations : list (option PriceStamp);
  QueryMedianDeviationsResponse_unknownFields : bytes;
}.
Definition QueryMedianDeviationsResponse_size : size_closure QueryMedianDeviationsResponse :=
    closure_size (λ x,
  api_size_messages 1 (QueryMedianDeviationsResponse_MedianDeviations x) +
  len (QueryMedianDeviationsResponse_unknownFields x)).
Definition QueryMedianDeviationsResponse_marshal : marshal_closure QueryMedianDeviationsResponse :=
    closure_marshal QueryMedianDeviationsResponse_size (λ x,
  put_copy (QueryMedianDeviationsResponse_unknownFields x) ;;
  api_put_messages [0xa] (QueryMedianDeviationsResponse_MedianDeviations x)).
Definition QueryMedianDeviationsResponse_field (discard : bool) (n : Z) :
    option (field_reader QueryMedianDeviationsResponse) :=
  if n =? 1 then Some (api_messages_field discard "MedianDeviations"
    QueryMedianDeviationsResponse_MedianDeviations
    (λ x v, mkQueryMedianDeviationsResponse v (QueryMedianDeviationsResponse_unknownFields x)))
      else
  None.
Definition QueryMedianDeviationsResponse_unknown (x : QueryMedianDeviationsResponse)
    (bz : bytes) : QueryMedianDeviationsResponse :=
  mkQueryMedianDeviationsResponse (QueryMedianDeviationsResponse_MedianDeviations x)
    (QueryMedianDeviationsResponse_unknownFields x ++ bz).
Definition QueryMedianDeviationsResponse_unmarshal :
    unmarshal_closure QueryMedianDeviationsResponse :=
  closure_unmarshal "QueryMedianDeviationsResponse" QueryMedianDeviationsResponse_field
    QueryMedianDeviationsResponse_unknown.
#[export] Instance QueryMedianDeviationsResponse_methods :
    ProtoMethods QueryMedianDeviationsResponse := {|
  api_new := mkQueryMedianDeviationsResponse [] [];
  api_size := QueryMedianDeviationsResponse_size;
  api_marshal := QueryMedianDeviationsResponse_marshal;
  api_unmarshal := QueryMedianDeviationsResponse_unmarshal;
|}.

(** [QueryValidatorRewardSet] *)

Record QueryValidatorRewardSet := mkQueryValidatorRewardSet {
  QueryValidatorRewardSet_unknownFields : bytes;
}.
Definition QueryValidatorRewardSet_size : size_closure QueryValidatorRewardSet :=
    closure_size (λ x,
  len (QueryValidatorRewardSet_unknownFields x)).
Definition QueryValidatorRewardSet_marshal : marshal_closure QueryValidatorRewardSet :=
    closure_marshal QueryValidatorRewardSet_size (λ x,
  put_copy (QueryValidatorRewardSet_unknownFields x)).
Definition QueryValidatorRewardSet_field (discard : bool) (n : Z) :
    option (field_reader QueryValidatorRewardSet) :=
  None.
Definition QueryValidatorRewardSet_unknown (x : QueryValidatorRewardSet)
    (bz : bytes) : QueryValidatorRewardSet :=
  mkQueryValidatorRewardSet (QueryValidatorRewardSet_unknownFields x ++ bz).
Definition QueryValidatorRewardSet_unmarshal : unmarshal_closure QueryValidatorRewardSet :=
  closure_unmarshal "QueryValidatorRewardSet" QueryValidatorRewardSet_field
    QueryValidatorRewardSet_unknown.
#[export] Instance QueryValidatorRewardSet_methods : ProtoMethods QueryValidatorRewardSet := {|
  api_new := mkQueryValidatorRewardSet [];
  api_size := QueryValidatorRewardSet_size;
  api_marshal := QueryValidatorRewardSet_marshal;
  api_unmarshal := QueryValidatorRewardSet_unmarshal;
|}.

(** [QueryValidatorRewardSetResponse] *)

Record QueryValidatorRewardSetResponse := mkQueryValidatorRewardSetResponse {
  QueryValidatorRewardSetResponse_Validators : option ValidatorRewardSet;
  QueryValidatorRewardSetResponse_unknownFields : bytes;
}.
Definition QueryValidatorRewardSetResponse_size : size_closure QueryValidatorRewardSetResponse :=
    closure_size (λ x,
  api_size_message 1 (QueryValidatorRewardSetResponse_Validators x) +
  len (QueryValidatorRewardSetResponse_unknownFields x)).
Definition QueryValidatorRewardSetResponse_marshal :
    marshal_closure QueryValidatorRewardSetResponse :=
    closure_marshal QueryValidatorRewardSetResponse_size (λ x,
  put_copy (QueryValidatorRewardSetResponse_unknownFields x) ;;
  api_put_message [0xa] (QueryValidatorRewardSetResponse_Validators x)).
Definition QueryValidatorRewardSetResponse_field (discard : bool) (n : Z) :
    option (field_reader QueryValidatorRewardSetResponse) :=
  if n =? 1 then Some (api_message_field discard "Validators"
    QueryValidatorRewardSetResponse_Validators
    (λ x v, mkQueryValidatorRewardSetResponse v (QueryValidatorRewardSetResponse_unknownFields
      x))) else
  None.
Definition QueryValidatorRewardSetResponse_unknown (x : QueryValidatorRewardSetResponse)
    (bz : bytes) : QueryValidatorRewardSetResponse :=
  mkQueryValidatorRewardSetResponse (QueryValidatorRewardSetResponse_Validators x)
    (QueryValidatorRewardSetResponse_unknownFields x ++ bz).
Definition QueryValidatorRewardSetResponse_unmarshal :
    unmarshal_closure QueryValidatorRewardSetResponse :=
  closure_unmarshal "QueryValidatorRewardSetResponse" QueryValidatorRewardSetResponse_field
    QueryValidatorRewardSetResponse_unknown.
#[export] Instance QueryValidatorRewardSetResponse_methods :
    ProtoMethods QueryValidatorRewardSetResponse := {|
  api_new := mkQueryValidatorRewardSetResponse None [];
  api_size := QueryValidatorRewardSetResponse_size;
  api_marshal := QueryValidatorRewardSetResponse_marshal;
  api_unmarshal := QueryValidatorRewardSetResponse_unmarshal;
|}.

(** [QueryEMARequest] *)

Record QueryEMARequest := mkQueryEMARequest {
  QueryEMARequest_Denom : string;
  QueryEMARequest_unknownFields : bytes;
}.
Definition QueryEMARequest_size : size_closure QueryEMARequest := closure_size (λ x,
  api_size_string 1 (QueryEMARequest_Denom x) + len (QueryEMARequest_unknownFields x)).
Definition QueryEMARequest_marshal : marshal_closure QueryEMARequest :=
    closure_marshal QueryEMARequest_size (λ x,
  put_copy (QueryEMARequest_unknownFields x) ;; api_put_string [0xa] (QueryEMARequest_Denom x)).
Definition QueryEMARequest_field (discard : bool) (n : Z) : option (field_reader QueryEMARequest) :=
  if n =? 1 then Some (string_field "Denom"
    (λ x v, mkQueryEMARequest v (QueryEMARequest_unknownFields x))) else
  None.
Definition QueryEMARequest_unknown (x : QueryEMARequest) (bz : bytes) : QueryEMARequest :=
  mkQueryEMARequest (QueryEMARequest_Denom x) (QueryEMARequest_unknownFields x ++ bz).
Definition QueryEMARequest_unmarshal : unmarshal_closure QueryEMARequest :=
  closure_unmarshal "QueryEMARequest" QueryEMARequest_field QueryEMARequest_unknown.
#[export] Instance QueryEMARequest_methods : ProtoMethods QueryEMARequest := {|
  api_new := mkQueryEMARequest "" [];
  api_size := QueryEMARequest_size;
  api_marshal := QueryEMARequest_marshal;
  api_unmarshal := QueryEMARequest_unmarshal;
|}.

(** [QueryEMAResponse] *)

Record QueryEMAResponse := mkQueryEMAResponse {
  QueryEMAResponse_Price : string;
  QueryEMAResponse_unknownFields : bytes;
}.
Definition QueryEMAResponse_size : size_closure QueryEMAResponse := closure_size (λ x,
  api_size_string 1 (QueryEMAResponse_Price x) + len (QueryEMAResponse_unknownFields x)).
Definition QueryEMAResponse_marshal : marshal_closure QueryEMAResponse :=
    closure_marshal QueryEMAResponse_size (λ x,
  put_copy (QueryEMAResponse_unknownFields x) ;; api_put_string [0xa] (QueryEMAResponse_Price x)).
Definition QueryEMAResponse_field (discard : bool) (n : Z) :
    option (field_reader QueryEMAResponse) :=
  if n =? 1 then Some (string_field "Price"
    (λ x v, mkQueryEMAResponse v (QueryEMAResponse_unknownFields x))) else
  None.
Definition QueryEMAResponse_unknown (x : QueryEMAResponse) (bz : bytes) : QueryEMAResponse :=
  mkQueryEMAResponse (QueryEMAResponse_Price x) (QueryEMAResponse_unknownFields x ++ bz).
Definition QueryEMAResponse_unmarshal : unmarshal_closure QueryEMAResponse :=
  closure_unmarshal "QueryEMAResponse" QueryEMAResponse_field QueryEMAResponse_unknown.
#[export] Instance QueryEMAResponse_methods : ProtoMethods QueryEMAResponse := {|
  api_new := mkQueryEMAResponse "" [];
  api_size := QueryEMAResponse_size;
  api_marshal := QueryEMAResponse_marshal;
  api_unmarshal := QueryEMAResponse_unmarshal;
|}.

(** [QueryWMARequest] *)

Record QueryWMARequest := mkQueryWMARequest {
  QueryWMARequest_Denom : string;
  QueryWMARequest_Strategy : string;
  QueryWMARequest_CustomWeights : list Z;
  QueryWMARequest_unknownFields : bytes;
}.
Definition QueryWMARequest_size : size_closure QueryWMARequest := closure_size (λ x,
  api_size_string 1 (QueryWMARequest_Denom x) + api_size_string 1 (QueryWMARequest_Strategy x) +
  api_size_packed 1 (QueryWMARequest_CustomWeights x) + len (QueryWMARequest_unknownFields x)).
Definition QueryWMARequest_marshal : marshal_closure QueryWMARequest :=
    closure_marshal QueryWMARequest_size (λ x,
  put_copy (QueryWMARequest_unknownFields x) ;;
  api_put_packed [0x1a] (QueryWMARequest_CustomWeights x) ;;
  api_put_string [0x12] (QueryWMARequest_Strategy x) ;;
  api_put_string [0xa] (QueryWMARequest_Denom x)).
Definition QueryWMARequest_field (discard : bool) (n : Z) : option (field_reader QueryWMARequest) :=
  if n =? 1 then Some (string_field "Denom"
    (λ x v, mkQueryWMARequest v (QueryWMARequest_Strategy x) (QueryWMARequest_CustomWeights x)
      (QueryWMARequest_unknownFields x))) else
  if n =? 2 then Some (string_field "Strategy"
    (λ x v, mkQueryWMARequest (QueryWMARequest_Denom x) v (QueryWMARequest_CustomWeights x)
      (QueryWMARequest_unknownFields x))) else
  if n =? 3 then Some (packed_field "CustomWeights" wrap_i64 QueryWMARequest_CustomWeights
    (λ x v, mkQueryWMARequest (QueryWMARequest_Denom x) (QueryWMARequest_Strategy x) v
      (QueryWMARequest_unknownFields x))) else
  None.
Definition QueryWMARequest_unknown (x : QueryWMARequest) (bz : bytes) : QueryWMARequest :=
  mkQueryWMARequest (QueryWMARequest_Denom x) (QueryWMARequest_Strategy x)
    (QueryWMARequest_CustomWeights x) (QueryWMARequest_unknownFields x ++ bz).
Definition QueryWMARequest_unmarshal : unmarshal_closure QueryWMARequest :=
  closure_unmarshal "QueryWMARequest" QueryWMARequest_field QueryWMARequest_unknown.
#[export] Instance QueryWMARequest_methods : ProtoMethods QueryWMARequest := {|
  api_new := mkQueryWMARequest "" "" [] [];
  api_size := QueryWMARequest_size;
  api_marshal := QueryWMARequest_marshal;
  api_unmarshal := QueryWMARequest_unmarshal;
|}.

(** [QueryWMAResponse] *)

Record QueryWMAResponse := mkQueryWMAResponse {
  QueryWMAResponse_Price : string;
  QueryWMAResponse_unknownFields : bytes;
}.
Definition QueryWMAResponse_size : size_closure QueryWMAResponse := closure_size (λ x,
  api_size_string 1 (QueryWMAResponse_Price x) + len (QueryWMAResponse_unknownFields x)).
Definition QueryWMAResponse_marshal : marshal_closure QueryWMAResponse :=
    closure_marshal QueryWMAResponse_size (λ x,
  put_copy (QueryWMAResponse_unknownFields x) ;; api_put_string [0xa] (QueryWMAResponse_Price x)).
Definition QueryWMAResponse_field (discard : bool) (n : Z) :
    option (field_reader QueryWMAResponse) :=
  if n =? 1 then Some (string_field "Price"
    (λ x v, mkQueryWMAResponse v (QueryWMAResponse_unknownFields x))) else
  None.
Definition QueryWMAResponse_unknown (x : QueryWMAResponse) (bz : bytes) : QueryWMAResponse :=
  mkQueryWMAResponse (QueryWMAResponse_Price x) (QueryWMAResponse_unknownFields x ++ bz).
Definition QueryWMAResponse_unmarshal : unmarshal_closure QueryWMAResponse :=
  closure_unmarshal "QueryWMAResponse" QueryWMAResponse_field QueryWMAResponse_unknown.
#[export] Instance QueryWMAResponse_methods : ProtoMethods QueryWMAResponse := {|
  api_new := mkQueryWMAResponse "" [];
  api_size := QueryWMAResponse_size;
  api_marshal := QueryWMAResponse_marshal;
  api_unmarshal := QueryWMAResponse_unmarshal;
|}.

(** [QuerySMARequest] *)

Record QuerySMARequest := mkQuerySMARequest {
  QuerySMARequest_Denom : string;
  QuerySMARequest_unknownFields : bytes;
}.
Definition QuerySMARequest_size : size_closure QuerySMARequest := closure_size (λ x,
  api_size_string 1 (QuerySMARequest_Denom x) + len (QuerySMARequest_unknownFields x)).
Definition QuerySMARequest_marshal : marshal_closure QuerySMARequest :=
    closure_marshal QuerySMARequest_size (λ x,
  put_copy (QuerySMARequest_unknownFields x) ;; api_put_string [0xa] (QuerySMARequest_Denom x)).
Definition QuerySMARequest_field (discard : bool) (n : Z) : option (field_reader QuerySMARequest) :=
  if n =? 1 then Some (string_field "Denom"
    (λ x v, mkQuerySMARequest v (QuerySMARequest_unknownFields x))) else
  None.
Definition QuerySMARequest_unknown (x : QuerySMARequest) (bz : bytes) : QuerySMARequest :=
  mkQuerySMARequest (QuerySMARequest_Denom x) (QuerySMARequest_unknownFields x ++ bz).
Definition QuerySMARequest_unmarshal : unmarshal_closure QuerySMARequest :=
  closure_unmarshal "QuerySMARequest" QuerySMARequest_field QuerySMARequest_unknown.
#[export] Instance QuerySMARequest_methods : ProtoMethods QuerySMARequest := {|
  api_new := mkQuerySMARequest "" [];
  api_size := QuerySMARequest_size;
  api_marshal := QuerySMARequest_marshal;
  api_unmarshal := QuerySMARequest_unmarshal;
|}.

(** [QuerySMAResponse] *)

Record QuerySMAResponse := mkQuerySMAResponse {
  QuerySMAResponse_Price : string;
  QuerySMAResponse_unknownFields : bytes;
}.
Definition QuerySMAResponse_size : size_closure QuerySMAResponse := closure_size (λ x,
  api_size_string 1 (QuerySMAResponse_Price x) + len (QuerySMAResponse_unknownFields x)).
Definition QuerySMAResponse_marshal : marshal_closure QuerySMAResponse :=
    closure_marshal QuerySMAResponse_size (λ x,
  put_copy (QuerySMAResponse_unknownFields x) ;; api_put_string [0xa] (QuerySMAResponse_Price x)).
Definition QuerySMAResponse_field (discard : bool) (n : Z) :
    option (field_reader QuerySMAResponse) :=
  if n =? 1 then Some (string_field "Price"
    (λ x v, mkQuerySMAResponse v (QuerySMAResponse_unknownFields x))) else
  None.
Definition QuerySMAResponse_unknown (x : QuerySMAResponse) (bz : bytes) : QuerySMAResponse :=
  mkQuerySMAResponse (QuerySMAResponse_Price x) (QuerySMAResponse_unknownFields x ++ bz).
Definition QuerySMAResponse_unmarshal : unmarshal_closure QuerySMAResponse :=
  closure_unmarshal "QuerySMAResponse" QuerySMAResponse_field QuerySMAResponse_unknown.
#[export] Instance QuerySMAResponse_methods : ProtoMethods QuerySMAResponse := {|
  api_new := mkQuerySMAResponse "" [];
  api_size := QuerySMAResponse_size;
  api_marshal := QuerySMAResponse_marshal;
  api_unmarshal := QuerySMAResponse_unmarshal;
|}.
End messages.

(** ** Laws *)

Section laws.
Context `{PulsarRuntimeLaws} `{CosmosApi} `{!CosmosApiLaws}.

Definition QueryExchangeRates_encode (x : QueryExchangeRates) : bytes :=
  enc_string [0xa] (QueryExchangeRates_Denom x) ++ QueryExchangeRates_unknownFields x.
Definition QueryExchangeRates_ok (discard : bool) (x : QueryExchangeRates) : Prop :=
  kept_fields QueryExchangeRates_field discard (QueryExchangeRates_unknownFields x).
#[export] Instance QueryExchangeRates_laws : ApiLaws QueryExchangeRates.
Proof.
  solve_api_message QueryExchangeRates_encode QueryExchangeRates_ok QueryExchangeRates_field
    QueryExchangeRates_unknown.
Defined.

Definition QueryExchangeRatesResponse_encode (x : QueryExchangeRatesResponse) : bytes :=
  enc_api_messages [0xa] (QueryExchangeRatesResponse_ExchangeRates x) ++
  QueryExchangeRatesResponse_unknownFields x.
Definition QueryExchangeRatesResponse_ok (discard : bool) (x : QueryExchangeRatesResponse) :
    Prop :=
  Forall (api_element_ok discard) (QueryExchangeRatesResponse_ExchangeRates x) ∧
  kept_fields QueryExchangeRatesResponse_field discard (QueryExchangeRatesResponse_unknownFields x).
#[export] Instance QueryExchangeRatesResponse_laws : ApiLaws QueryExchangeRatesResponse.
Proof.
  solve_api_message QueryExchangeRatesResponse_encode QueryExchangeRatesResponse_ok
    QueryExchangeRatesResponse_field QueryExchangeRatesResponse_unknown.
Defined.

Definition QueryActiveExchangeRates_encode (x : QueryActiveExchangeRates) : bytes :=
  QueryActiveExchangeRates_unknownFields x.
Definition QueryActiveExchangeRates_ok (discard : bool) (x : QueryActiveExchangeRates) : Prop :=
  kept_fields QueryActiveExchangeRates_field discard (QueryActiveExchangeRates_unknownFields x).
#[export] Instance QueryActiveExchangeRates_laws : ApiLaws QueryActiveExchangeRates.
Proof.
  solve_api_message QueryActiveExchangeRates_encode QueryActiveExchangeRates_ok
    QueryActiveExchangeRates_field QueryActiveExchangeRates_unknown.
Defined.

Definition QueryActiveExchangeRatesResponse_encode (x : QueryActiveExchangeRatesResponse) :
    bytes :=
  enc_strings [0xa] (QueryActiveExchangeRatesResponse_ActiveRates x) ++
  QueryActiveExchangeRatesResponse_unknownFields x.
Definition QueryActiveExchangeRatesResponse_ok (discard : bool) (x : QueryActiveExchangeRatesResponse) : Prop :=
  kept_fields QueryActiveExchangeRatesResponse_field discard
    (QueryActiveExchangeRatesResponse_unknownFields x).
#[export] Instance QueryActiveExchangeRatesResponse_laws : ApiLaws QueryActiveExchangeRatesResponse.
Proof.
  solve_api_message QueryActiveExchangeRatesResponse_encode QueryActiveExchangeRatesResponse_ok
    QueryActiveExchangeRatesResponse_field QueryActiveExchangeRatesResponse_unknown.
Defined.

Definition QueryFeederDelegation_encode (x : QueryFeederDelegation) : bytes :=
  enc_string [0xa] (QueryFeederDelegation_ValidatorAddr x) ++
  QueryFeederDelegation_unknownFields x.
Definition QueryFeederDelegation_ok (discard : bool) (x : QueryFeederDelegation) : Prop :=
  kept_fields QueryFeederDelegation_field discard (QueryFeederDelegation_unknownFields x).
#[export] Instance QueryFeederDelegation_laws : ApiLaws QueryFeederDelegation.
Proof.
  solve_api_message QueryFeederDelegation_encode QueryFeederDelegation_ok
    QueryFeederDelegation_field QueryFeederDelegation_unknown.
Defined.

Definition QueryFeederDelegationResponse_encode (x : QueryFeederDelegationResponse) : bytes :=
  enc_string [0xa] (QueryFeederDelegationResponse_FeederAddr x) ++
  QueryFeederDelegationResponse_unknownFields x.
Definition QueryFeederDelegationResponse_ok (discard : bool) (x : QueryFeederDelegationResponse) :
    Prop :=
  kept_fields QueryFeederDelegationResponse_field discard
    (QueryFeederDelegationResponse_unknownFields x).
#[export] Instance QueryFeederDelegationResponse_laws : ApiLaws QueryFeederDelegationResponse.
Proof.
  solve_api_message QueryFeederDelegationResponse_encode QueryFeederDelegationResponse_ok
    QueryFeederDelegationResponse_field QueryFeederDelegationResponse_unknown.
Defined.

Definition QueryMissCounter_encode (x : QueryMissCounter) : bytes :=
  enc_string [0xa] (QueryMissCounter_ValidatorAddr x) ++ QueryMissCounter_unknownFields x.
Definition QueryMissCounter_ok (discard : bool) (x : QueryMissCounter) : Prop :=
  kept_fields QueryMissCounter_field discard (QueryMissCounter_unknownFields x).
#[export] Instance QueryMissCounter_laws : ApiLaws QueryMissCounter.
Proof.
  solve_api_message QueryMissCounter_encode QueryMissCounter_ok QueryMissCounter_field
    QueryMissCounter_unknown.
Defined.

Definition QueryMissCounterResponse_encode (x : QueryMissCounterResponse) : bytes :=
  enc_varint [0x8] (QueryMissCounterResponse_MissCounter x) ++
  QueryMissCounterResponse_unknownFields x.
Definition QueryMissCounterResponse_ok (discard : bool) (x : QueryMissCounterResponse) : Prop :=
  is_u64 (QueryMissCounterResponse_MissCounter x) ∧
  kept_fields QueryMissCounterResponse_field discard (QueryMissCounterResponse_unknownFields x).
#[export] Instance QueryMissCounterResponse_laws : ApiLaws QueryMissCounterResponse.
Proof.
  solve_api_message QueryMissCounterResponse_encode QueryMissCounterResponse_ok
    QueryMissCounterResponse_field QueryMissCounterResponse_unknown.
Defined.

Definition QuerySlashWindow_encode (x : QuerySlashWindow) : bytes :=
  QuerySlashWindow_unknownFields x.
Definition QuerySlashWindow_ok (discard : bool) (x : QuerySlashWindow) : Prop :=
  kept_fields QuerySlashWindow_field discard (QuerySlashWindow_unknownFields x).
#[export] Instance QuerySlashWindow_laws : ApiLaws QuerySlashWindow.
Proof.
  solve_api_message QuerySlashWindow_encode QuerySlashWindow_ok QuerySlashWindow_field
    QuerySlashWindow_unknown.
Defined.

Definition QuerySlashWindowResponse_encode (x : QuerySlashWindowResponse) : bytes :=
  enc_varint [0x8] (QuerySlashWindowResponse_WindowProgress x) ++
  QuerySlashWindowResponse_unknownFields x.
Definition QuerySlashWindowResponse_ok (discard : bool) (x : QuerySlashWindowResponse) : Prop :=
  is_u64 (QuerySlashWindowResponse_WindowProgress x) ∧
  kept_fields QuerySlashWindowResponse_field discard (QuerySlashWindowResponse_unknownFields x).
#[export] Instance QuerySlashWindowResponse_laws : ApiLaws QuerySlashWindowResponse.
Proof.
  solve_api_message QuerySlashWindowResponse_encode QuerySlashWindowResponse_ok
    QuerySlashWindowResponse_field QuerySlashWindowResponse_unknown.
Defined.

Definition QueryAggregatePrevote_encode (x : QueryAggregatePrevote) : bytes :=
  enc_string [0xa] (QueryAggregatePrevote_ValidatorAddr x) ++
  QueryAggregatePrevote_unknownFields x.
Definition QueryAggregatePrevote_ok (discard : bool) (x : QueryAggregatePrevote) : Prop :=
  kept_fields QueryAggregatePrevote_field discard (QueryAggregatePrevote_unknownFields x).
#[export] Instance QueryAggregatePrevote_laws : ApiLaws QueryAggregatePrevote.
Proof.
  solve_api_message QueryAggregatePrevote_encode QueryAggregatePrevote_ok
    QueryAggregatePrevote_field QueryAggregatePrevote_unknown.
Defined.

Definition QueryAggregatePrevoteResponse_encode (x : QueryAggregatePrevoteResponse) : bytes :=
  enc_api_message [0xa] (QueryAggregatePrevoteResponse_AggregatePrevote x) ++
  QueryAggregatePrevoteResponse_unknownFields x.
Definition QueryAggregatePrevoteResponse_ok (discard : bool) (x : QueryAggregatePrevoteResponse) :
    Prop :=
  api_option_ok discard (QueryAggregatePrevoteResponse_AggregatePrevote x) ∧
  kept_fields QueryAggregatePrevoteResponse_field discard
    (QueryAggregatePrevoteResponse_unknownFields x).
#[export] Instance QueryAggregatePrevoteResponse_laws : ApiLaws QueryAggregatePrevoteResponse.
Proof.
  solve_api_message QueryAggregatePrevoteResponse_encode QueryAggregatePrevoteResponse_ok
    QueryAggregatePrevoteResponse_field QueryAggregatePrevoteResponse_unknown.
Defined.

Definition QueryAggregatePrevotes_encode (x : QueryAggregatePrevotes) : bytes :=
  QueryAggregatePrevotes_unknownFields x.
Definition QueryAggregatePrevotes_ok (discard : bool) (x : QueryAggregatePrevotes) : Prop :=
  kept_fields QueryAggregatePrevotes_field discard (QueryAggregatePrevotes_unknownFields x).
#[export] Instance QueryAggregatePrevotes_laws : ApiLaws QueryAggregatePrevotes.
Proof.
  solve_api_message QueryAggregatePrevotes_encode QueryAggregatePrevotes_ok
    QueryAggregatePrevotes_field QueryAggregatePrevotes_unknown.
Defined.

Definition QueryAggregatePrevotesResponse_encode (x : QueryAggregatePrevotesResponse) : bytes :=
  enc_api_messages [0xa] (QueryAggregatePrevotesResponse_AggregatePrevotes x) ++
  QueryAggregatePrevotesResponse_unknownFields x.
Definition QueryAggregatePrevotesResponse_ok (discard : bool) (x : QueryAggregatePrevotesResponse) :
    Prop :=
  Forall (api_element_ok discard) (QueryAggregatePrevotesResponse_AggregatePrevotes x) ∧
  kept_fields QueryAggregatePrevotesResponse_field discard
    (QueryAggregatePrevotesResponse_unknownFields x).
#[export] Instance QueryAggregatePrevotesResponse_laws : ApiLaws QueryAggregatePrevotesResponse.
Proof.
  solve_api_message QueryAggregatePrevotesResponse_encode QueryAggregatePrevotesResponse_ok
    QueryAggregatePrevotesResponse_field QueryAggregatePrevotesResponse_unknown.
Defined.

Definition QueryAggregateVote_encode (x : QueryAggregateVote) : bytes :=
  enc_string [0xa] (QueryAggregateVote_ValidatorAddr x) ++ QueryAggregateVote_unknownFields x.
Definition QueryAggregateVote_ok (discard : bool) (x : QueryAggregateVote) : Prop :=
  kept_fields QueryAggregateVote_field discard (QueryAggregateVote_unknownFields x).
#[export] Instance QueryAggregateVote_laws : ApiLaws QueryAggregateVote.
Proof.
  solve_api_message QueryAggregateVote_encode QueryAggregateVote_ok QueryAggregateVote_field
    QueryAggregateVote_unknown.
Defined.

Definition QueryAggregateVoteResponse_encode (x : QueryAggregateVoteResponse) : bytes :=
  enc_api_message [0xa] (QueryAggregateVoteResponse_AggregateVote x) ++
  QueryAggregateVoteResponse_unknownFields x.
Definition QueryAggregateVoteResponse_ok (discard : bool) (x : QueryAggregateVoteResponse) :
    Prop :=
  api_option_ok discard (QueryAggregateVoteResponse_AggregateVote x) ∧
  kept_fields QueryAggregateVoteResponse_field discard (QueryAggregateVoteResponse_unknownFields x).
#[export] Instance QueryAggregateVoteResponse_laws : ApiLaws QueryAggregateVoteResponse.
Proof.
  solve_api_message QueryAggregateVoteResponse_encode QueryAggregateVoteResponse_ok
    QueryAggregateVoteResponse_field QueryAggregateVoteResponse_unknown.
Defined.

Definition QueryAggregateVotes_encode (x : QueryAggregateVotes) : bytes :=
  QueryAggregateVotes_unknownFields x.
Definition QueryAggregateVotes_ok (discard : bool) (x : QueryAggregateVotes) : Prop :=
  kept_fields QueryAggregateVotes_field discard (QueryAggregateVotes_unknownFields x).
#[export] Instance QueryAggregateVotes_laws : ApiLaws QueryAggregateVotes.
Proof.
  solve_api_message QueryAggregateVotes_encode QueryAggregateVotes_ok QueryAggregateVotes_field
    QueryAggregateVotes_unknown.
Defined.

Definition QueryAggregateVotesResponse_encode (x : QueryAggregateVotesResponse) : bytes :=
  enc_api_messages [0xa] (QueryAggregateVotesResponse_AggregateVotes x) ++
  QueryAggregateVotesResponse_unknownFields x.
Definition QueryAggregateVotesResponse_ok (discard : bool) (x : QueryAggregateVotesResponse) :
    Prop :=
  Forall (api_element_ok discard) (QueryAggregateVotesResponse_AggregateVotes x) ∧
  kept_fields QueryAggregateVotesResponse_field discard (QueryAggregateVotesResponse_unknownFields x).
#[export] Instance QueryAggregateVotesResponse_laws : ApiLaws QueryAggregateVotesResponse.
Proof.
  solve_api_message QueryAggregateVotesResponse_encode QueryAggregateVotesResponse_ok
    QueryAggregateVotesResponse_field QueryAggregateVotesResponse_unknown.
Defined.

Definition QueryParams_encode (x : QueryParams) : bytes := QueryParams_unknownFields x.
Definition QueryParams_ok (discard : bool) (x : QueryParams) : Prop :=
  kept_fields QueryParams_field discard (QueryParams_unknownFields x).
#[export] Instance QueryParams_laws : ApiLaws QueryParams.
Proof.
  solve_api_message QueryParams_encode QueryParams_ok QueryParams_field QueryParams_unknown.
Defined.

Definition QueryParamsResponse_encode (x : QueryParamsResponse) : bytes :=
  enc_api_message [0xa] (QueryParamsResponse_Params x) ++ QueryParamsResponse_unknownFields x.
Definition QueryParamsResponse_ok (discard : bool) (x : QueryParamsResponse) : Prop :=
  api_option_ok discard (QueryParamsResponse_Params x) ∧
  kept_fields QueryParamsResponse_field discard (QueryParamsResponse_unknownFields x).
#[export] Instance QueryParamsResponse_laws : ApiLaws QueryParamsResponse.
Proof.
  solve_api_message QueryParamsResponse_encode QueryParamsResponse_ok QueryParamsResponse_field
    QueryParamsResponse_unknown.
Defined.

Definition QueryMedians_encode (x : QueryMedians) : bytes :=
  enc_string [0xa] (QueryMedians_Denom x) ++ enc_varint [0x10] (QueryMedians_NumStamps x) ++
  QueryMedians_unknownFields x.
Definition QueryMedians_ok (discard : bool) (x : QueryMedians) : Prop :=
  is_u32 (QueryMedians_NumStamps x) ∧
  kept_fields QueryMedians_field discard (QueryMedians_unknownFields x).
#[export] Instance QueryMedians_laws : ApiLaws QueryMedians.
Proof.
  solve_api_message QueryMedians_encode QueryMedians_ok QueryMedians_field QueryMedians_unknown.
Defined.

Definition QueryMediansResponse_encode (x : QueryMediansResponse) : bytes :=
  enc_api_messages [0xa] (QueryMediansResponse_Medians x) ++ QueryMediansResponse_unknownFields x.
Definition QueryMediansResponse_ok (discard : bool) (x : QueryMediansResponse) : Prop :=
  Forall (api_element_ok discard) (QueryMediansResponse_Medians x) ∧
  kept_fields QueryMediansResponse_field discard (QueryMediansResponse_unknownFields x).
#[export] Instance QueryMediansResponse_laws : ApiLaws QueryMediansResponse.
Proof.
  solve_api_message QueryMediansResponse_encode QueryMediansResponse_ok QueryMediansResponse_field
    QueryMediansResponse_unknown.
Defined.

Definition QueryMedianDeviations_encode (x : QueryMedianDeviations) : bytes :=
  enc_string [0xa] (QueryMedianDeviations_Denom x) ++ QueryMedianDeviations_unknownFields x.
Definition QueryMedianDeviations_ok (discard : bool) (x : QueryMedianDeviations) : Prop :=
  kept_fields QueryMedianDeviations_field discard (QueryMedianDeviations_unknownFields x).
#[export] Instance QueryMedianDeviations_laws : ApiLaws QueryMedianDeviations.
Proof.
  solve_api_message QueryMedianDeviations_encode QueryMedianDeviations_ok
    QueryMedianDeviations_field QueryMedianDeviations_unknown.
Defined.

Definition QueryMedianDeviationsResponse_encode (x : QueryMedianDeviationsResponse) : bytes :=
  enc_api_messages [0xa] (QueryMedianDeviationsResponse_MedianDeviations x) ++
  QueryMedianDeviationsResponse_unknownFields x.
Definition QueryMedianDeviationsResponse_ok (discard : bool) (x : QueryMedianDeviationsResponse) :
    Prop :=
  Forall (api_element_ok discard) (QueryMedianDeviationsResponse_MedianDeviations x) ∧
  kept_fields QueryMedianDeviationsResponse_field discard
    (QueryMedianDeviationsResponse_unknownFields x).
#[export] Instance QueryMedianDeviationsResponse_laws : ApiLaws QueryMedianDeviationsResponse.
Proof.
  solve_api_message QueryMedianDeviationsResponse_encode QueryMedianDeviationsResponse_ok
    QueryMedianDeviationsResponse_field QueryMedianDeviationsResponse_unknown.
Defined.

Definition QueryValidatorRewardSet_encode (x : QueryValidatorRewardSet) : bytes :=
  QueryValidatorRewardSet_unknownFields x.
Definition QueryValidatorRewardSet_ok (discard : bool) (x : QueryValidatorRewardSet) : Prop :=
  kept_fields QueryValidatorRewardSet_field discard (QueryValidatorRewardSet_unknownFields x).
#[export] Instance QueryValidatorRewardSet_laws : ApiLaws QueryValidatorRewardSet.
Proof.
  solve_api_message QueryValidatorRewardSet_encode QueryValidatorRewardSet_ok
    QueryValidatorRewardSet_field QueryValidatorRewardSet_unknown.
Defined.

Definition QueryValidatorRewardSetResponse_encode (x : QueryValidatorRewardSetResponse) : bytes :=
  enc_api_message [0xa] (QueryValidatorRewardSetResponse_Validators x) ++
  QueryValidatorRewardSetResponse_unknownFields x.
Definition QueryValidatorRewardSetResponse_ok (discard : bool) (x : QueryValidatorRewardSetResponse) : Prop :=
  api_option_ok discard (QueryValidatorRewardSetResponse_Validators x) ∧
  kept_fields QueryValidatorRewardSetResponse_field discard
    (QueryValidatorRewardSetResponse_unknownFields x).
#[export] Instance QueryValidatorRewardSetResponse_laws : ApiLaws QueryValidatorRewardSetResponse.
Proof.
  solve_api_message QueryValidatorRewardSetResponse_encode QueryValidatorRewardSetResponse_ok
    QueryValidatorRewardSetResponse_field QueryValidatorRewardSetResponse_unknown.
Defined.

Definition QueryEMARequest_encode (x : QueryEMARequest) : bytes :=
  enc_string [0xa] (QueryEMARequest_Denom x) ++ QueryEMARequest_unknownFields x.
Definition QueryEMARequest_ok (discard : bool) (x : QueryEMARequest) : Prop :=
  kept_fields QueryEMARequest_field discard (QueryEMARequest_unknownFields x).
#[export] Instance QueryEMARequest_laws : ApiLaws QueryEMARequest.
Proof.
  solve_api_message QueryEMARequest_encode QueryEMARequest_ok QueryEMARequest_field
    QueryEMARequest_unknown.
Defined.

Definition QueryEMAResponse_encode (x : QueryEMAResponse) : bytes :=
  enc_string [0xa] (QueryEMAResponse_Price x) ++ QueryEMAResponse_unknownFields x.
Definition QueryEMAResponse_ok (discard : bool) (x : QueryEMAResponse) : Prop :=
  kept_fields QueryEMAResponse_field discard (QueryEMAResponse_unknownFields x).
#[export] Instance QueryEMAResponse_laws : ApiLaws QueryEMAResponse.
Proof.
  solve_api_message QueryEMAResponse_encode QueryEMAResponse_ok QueryEMAResponse_field
    QueryEMAResponse_unknown.
Defined.

Definition QueryWMARequest_encode (x : QueryWMARequest) : bytes :=
  enc_string [0xa] (QueryWMARequest_Denom x) ++ enc_string [0x12] (QueryWMARequest_Strategy x) ++
  enc_packed [0x1a] (QueryWMARequest_CustomWeights x) ++ QueryWMARequest_unknownFields x.
Definition QueryWMARequest_ok (discard : bool) (x : QueryWMARequest) : Prop :=
  Forall is_i64 (QueryWMARequest_CustomWeights x) ∧
  kept_fields QueryWMARequest_field discard (QueryWMARequest_unknownFields x).
#[export] Instance QueryWMARequest_laws : ApiLaws QueryWMARequest.
Proof.
  solve_api_message QueryWMARequest_encode QueryWMARequest_ok QueryWMARequest_field
    QueryWMARequest_unknown.
Defined.

Definition QueryWMAResponse_encode (x : QueryWMAResponse) : bytes :=
  enc_string [0xa] (QueryWMAResponse_Price x) ++ QueryWMAResponse_unknownFields x.
Definition QueryWMAResponse_ok (discard : bool) (x : QueryWMAResponse) : Prop :=
  kept_fields QueryWMAResponse_field discard (QueryWMAResponse_unknownFields x).
#[export] Instance QueryWMAResponse_laws : ApiLaws QueryWMAResponse.
Proof.
  solve_api_message QueryWMAResponse_encode QueryWMAResponse_ok QueryWMAResponse_field
    QueryWMAResponse_unknown.
Defined.

Definition QuerySMARequest_encode (x : QuerySMARequest) : bytes :=
  enc_string [0xa] (QuerySMARequest_Denom x) ++ QuerySMARequest_unknownFields x.
Definition QuerySMARequest_ok (discard : bool) (x : QuerySMARequest) : Prop :=
  kept_fields QuerySMARequest_field discard (QuerySMARequest_unknownFields x).
#[export] Instance QuerySMARequest_laws : ApiLaws QuerySMARequest.
Proof.
  solve_api_message QuerySMARequest_encode QuerySMARequest_ok QuerySMARequest_field
    QuerySMARequest_unknown.
Defined.

Definition QuerySMAResponse_encode (x : QuerySMAResponse) : bytes :=
  enc_string [0xa] (QuerySMAResponse_Price x) ++ QuerySMAResponse_unknownFields x.
Definition QuerySMAResponse_ok (discard : bool) (x : QuerySMAResponse) : Prop :=
  kept_fields QuerySMAResponse_field discard (QuerySMAResponse_unknownFields x).
#[export] Instance QuerySMAResponse_laws : ApiLaws QuerySMAResponse.
Proof.
  solve_api_message QuerySMAResponse_encode QuerySMAResponse_ok QuerySMAResponse_field
    QuerySMAResponse_unknown.
Defined.
End laws.
