(* ===== verification/ApiMultisig.v ===== *)
(** * ApiMultisig: the multisig module of the generated API

    [src/api/multisig/v1]: genesis, state, queries and the messages of the [Msg]
    service with their responses; and the configuration of the module,
    [src/api/multisig/module/v1/module.pulsar.go].
    Each message is a struct, the closures that its [ProtoMethods] returns and
    the laws of Pulsar for them. *)
From S2P Require Import Prelude Util Dec Wire WireLemmas Pulsar PulsarLemmas.
Local Open Scope Z_scope.

Section messages.
Context `{PulsarRuntime} `{CosmosApi}.

(** [Params] *)

Record Params := mkParams { Params_SomeValue : bool; Params_unknownFields : bytes }.
Definition Params_size : size_closure Params := closure_size (λ x,
  size_bool 1 (Params_SomeValue x) + len (Params_unknownFields x)).
Definition Params_marshal : marshal_closure Params := closure_marshal Params_size (λ x,
  put_copy (Params_unknownFields x) ;; put_bool [0x10] (Params_SomeValue x)).
Definition Params_field (discard : bool) (n : Z) : option (field_reader Params) :=
  if n =? 2 then Some (bool_field "SomeValue" (λ x v, mkParams v (Params_unknownFields x))) else
  None.
Definition Params_unknown (x : Params) (bz : bytes) : Params :=
  mkParams (Params_SomeValue x) (Params_unknownFields x ++ bz).
Definition Params_unmarshal : unmarshal_closure Params :=
  closure_unmarshal "Params" Params_field Params_unknown.
#[export] Instance Params_methods : ProtoMethods Params := {|
  api_new := mkParams false [];
  api_size := Params_size;
  api_marshal := Params_marshal;
  api_unmarshal := Params_unmarshal;
|}.

(** [GenesisState] *)

Record GenesisState := mkGenesisState {
  GenesisState_Params : option Params;
  GenesisState_unknownFields : bytes;
}.
Definition GenesisState_size : size_closure GenesisState := closure_size (λ x,
  api_size_message 1 (GenesisState_Params x) + len (GenesisState_unknownFields x)).
Definition GenesisState_marshal : marshal_closure GenesisState :=
    closure_marshal GenesisState_size (λ x,
  put_copy (GenesisState_unknownFields x) ;; api_put_message [0xa] (GenesisState_Params x)).
Definition GenesisState_field (discard : bool) (n : Z) : option (field_reader GenesisState) :=
  if n =? 1 then Some (api_message_field discard "Params" GenesisState_Params
    (λ x v, mkGenesisState v (GenesisState_unknownFields x))) else
  None.
Definition GenesisState_unknown (x : GenesisState) (bz : bytes) : GenesisState :=
  mkGenesisState (GenesisState_Params x) (GenesisState_unknownFields x ++ bz).
Definition GenesisState_unmarshal : unmarshal_closure GenesisState :=
  closure_unmarshal "GenesisState" GenesisState_field GenesisState_unknown.
#[export] Instance GenesisState_methods : ProtoMethods GenesisState := {|
  api_new := mkGenesisState None [];
  api_size := GenesisState_size;
  api_marshal := GenesisState_marshal;
  api_unmarshal := GenesisState_unmarshal;
|}.

(** [MultisigAccountDetails] *)

Record MultisigAccountDetails := mkMultisigAccountDetails {
  MultisigAccountDetails_Signers : list bytes;
  MultisigAccountDetails_Threshold : Z;
  MultisigAccountDetails_Permission : Z;
  MultisigAccountDetails_unknownFields : bytes;
}.
Definition MultisigAccountDetails_size : size_closure MultisigAccountDetails := closure_size (λ x,
  api_size_bytess 1 (MultisigAccountDetails_Signers x) +
  api_size_varint 1 (MultisigAccountDetails_Threshold x) +
  api_size_varint 1 (MultisigAccountDetails_Permission x) +
  len (MultisigAccountDetails_unknownFields x)).
Definition MultisigAccountDetails_marshal : marshal_closure MultisigAccountDetails :=
    closure_marshal MultisigAccountDetails_size (λ x,
  put_copy (MultisigAccountDetails_unknownFields x) ;;
  api_put_varint [0x18] (MultisigAccountDetails_Permission x) ;;
  api_put_varint [0x10] (MultisigAccountDetails_Threshold x) ;;
  api_put_bytess [0xa] (MultisigAccountDetails_Signers x)).
Definition MultisigAccountDetails_field (discard : bool) (n : Z) :
    option (field_reader MultisigAccountDetails) :=
  if n =? 1 then Some (bytess_field "Signers" MultisigAccountDetails_Signers
    (λ x v, mkMultisigAccountDetails v (MultisigAccountDetails_Threshold x)
      (MultisigAccountDetails_Permission x) (MultisigAccountDetails_unknownFields x))) else
  if n =? 2 then Some (varint_field "Threshold" wrap_u32
    (λ x v, mkMultisigAccountDetails (MultisigAccountDetails_Signers x) v
      (MultisigAccountDetails_Permission x) (MultisigAccountDetails_unknownFields x))) else
  if n =? 3 then Some (varint_field "Permission" wrap_i32
    (λ x v, mkMultisigAccountDetails (MultisigAccountDetails_Signers x)
      (MultisigAccountDetails_Threshold x) v (MultisigAccountDetails_unknownFields x))) else
  None.
Definition MultisigAccountDetails_unknown (x : MultisigAccountDetails)
    (bz : bytes) : MultisigAccountDetails :=
  mkMultisigAccountDetails (MultisigAccountDetails_Signers x) (MultisigAccountDetails_Threshold x)
    (MultisigAccountDetails_Permission x) (MultisigAccountDetails_unknownFields x ++ bz).
Definition MultisigAccountDetails_unmarshal : unmarshal_closure MultisigAccountDetails :=
  closure_unmarshal "MultisigAccountDetails" MultisigAccountDetails_field
    MultisigAccountDetails_unknown.
#[export] Instance MultisigAccountDetails_methods : ProtoMethods MultisigAccountDetails := {|
  api_new := mkMultisigAccountDetails [] 0 0 [];
  api_size := MultisigAccountDetails_size;
  api_marshal := MultisigAccountDetails_marshal;
  api_unmarshal := MultisigAccountDetails_unmarshal;
|}.

(** [Proposal] *)

Record Proposal := mkProposal {
  Proposal_Id : Z;
  Proposal_MultisigAddress : bytes;
  Proposal_CallHash : bytes;
  Proposal_Depositor : bytes;
  Proposal_Deposit : Z;
  Proposal_Approvals : list bytes;
  Proposal_unknownFields : bytes;
}.
Definition Proposal_size : size_closure Proposal := closure_size (λ x,
  api_size_varint 1 (Proposal_Id x) + api_size_bytes 1 (Proposal_MultisigAddress x) +
  api_size_bytes 1 (Proposal_CallHash x) + api_size_bytes 1 (Proposal_Depositor x) +
  api_size_varint 1 (Proposal_Deposit x) + api_size_bytess 1 (Proposal_Approvals x) +
  len (Proposal_unknownFields x)).
Definition Proposal_marshal : marshal_closure Proposal := closure_marshal Proposal_size (λ x,
  put_copy (Proposal_unknownFields x) ;; api_put_bytess [0x32] (Proposal_Approvals x) ;;
  api_put_varint [0x28] (Proposal_Deposit x) ;; api_put_bytes [0x22] (Proposal_Depositor x) ;;
  api_put_bytes [0x1a] (Proposal_CallHash x) ;;
  api_put_bytes [0x12] (Proposal_MultisigAddress x) ;; api_put_varint [0x8] (Proposal_Id x)).
Definition Proposal_field (discard : bool) (n : Z) : option (field_reader Proposal) :=
  if n =? 1 then Some (varint_field "Id" wrap_u64
    (λ x v, mkProposal v (Proposal_MultisigAddress x) (Proposal_CallHash x) (Proposal_Depositor x)
      (Proposal_Deposit x) (Proposal_Approvals x) (Proposal_unknownFields x))) else
  if n =? 2 then Some (bytes_field "MultisigAddress"
    (λ x v, mkProposal (Proposal_Id x) v (Proposal_CallHash x) (Proposal_Depositor x)
      (Proposal_Deposit x) (Proposal_Approvals x) (Proposal_unknownFields x))) else
  if n =? 3 then Some (bytes_field "CallHash"
    (λ x v, mkProposal (Proposal_Id x) (Proposal_MultisigAddress x) v (Proposal_Depositor x)
      (Proposal_Deposit x) (Proposal_Approvals x) (Proposal_unknownFields x))) else
  if n =? 4 then Some (bytes_field "Depositor"
    (λ x v, mkProposal (Proposal_Id x) (Proposal_MultisigAddress x) (Proposal_CallHash x) v
      (Proposal_Deposit x) (Proposal_Approvals x) (Proposal_unknownFields x))) else
  if n =? 5 then Some (varint_field "Deposit" wrap_u64
    (λ x v, mkProposal (Proposal_Id x) (Proposal_MultisigAddress x) (Proposal_CallHash x)
      (Proposal_Depositor x) v (Proposal_Approvals x) (Proposal_unknownFields x))) else
  if n =? 6 then Some (bytess_field "Approvals" Proposal_Approvals
    (λ x v, mkProposal (Proposal_Id x) (Proposal_MultisigAddress x) (Proposal_CallHash x)
      (Proposal_Depositor x) (Proposal_Deposit x) v (Proposal_unknownFields x))) else
  None.
Definition Proposal_unknown (x : Proposal) (bz : bytes) : Proposal :=
  mkProposal (Proposal_Id x) (Proposal_MultisigAddress x) (Proposal_CallHash x)
    (Proposal_Depositor x) (Proposal_Deposit x) (Proposal_Approvals x) (Proposal_unknownFields x
    ++ bz).
Definition Proposal_unmarshal : unmarshal_closure Proposal :=
  closure_unmarshal "Proposal" Proposal_field Proposal_unknown.
#[export] Instance Proposal_methods : ProtoMethods Proposal := {|
  api_new := mkProposal 0 [] [] [] 0 [] [];
  api_size := Proposal_size;
  api_marshal := Proposal_marshal;
  api_unmarshal := Proposal_unmarshal;
|}.

(** [QueryParamsRequest] *)

Record QueryParamsRequest := mkQueryParamsRequest { QueryParamsRequest_unknownFields : bytes }.
Definition QueryParamsRequest_size : size_closure QueryParamsRequest := closure_size (λ x,
  len (QueryParamsRequest_unknownFields x)).
Definition QueryParamsRequest_marshal : marshal_closure QueryParamsRequest :=
    closure_marshal QueryParamsRequest_size (λ x,
  put_copy (QueryParamsRequest_unknownFields x)).
Definition QueryParamsRequest_field (discard : bool) (n : Z) :
    option (field_reader QueryParamsRequest) :=
  None.
Definition QueryParamsRequest_unknown (x : QueryParamsRequest) (bz : bytes) : QueryParamsRequest :=
  mkQueryParamsRequest (QueryParamsRequest_unknownFields x ++ bz).
Definition QueryParamsRequest_unmarshal : unmarshal_closure QueryParamsRequest :=
  closure_unmarshal "QueryParamsRequest" QueryParamsRequest_field QueryParamsRequest_unknown.
#[export] Instance QueryParamsRequest_methods : ProtoMethods QueryParamsRequest := {|
  api_new := mkQueryParamsRequest [];
  api_size := QueryParamsRequest_size;
  api_marshal := QueryParamsRequest_marshal;
  api_unmarshal := QueryParamsRequest_unmarshal;
|}.

(** [QueryParamsResponse] *)

Record QueryParamsResponse := mkQueryParamsResponse {
  QueryParamsResponse_Params : option Params;
  QueryParamsResponse_unknownFields : bytes;
}.
Definition QueryParamsResponse_size : size_closure QueryParamsResponse := closure_size (λ x,
  api_size_message 1 (QueryParamsResponse_Params x) + len (QueryParamsResponse_unknownFields x)).
Definition QueryParamsResponse_marshal : marshal_closure QueryParamsResponse :=
    closure_marshal QueryParamsResponse_size (λ x,
  put_copy (QueryParamsResponse_unknownFields x) ;;
  api_put_message [0xa] (QueryParamsResponse_Params x)).
Definition QueryParamsResponse_field (discard : bool) (n : Z) :
    option (field_reader QueryParamsResponse) :=
  if n =? 1 then Some (api_message_field discard "Params" QueryParamsResponse_Params
    (λ x v, mkQueryParamsResponse v (QueryParamsResponse_unknownFields x))) else
  None.
Definition QueryParamsResponse_unknown (x : QueryParamsResponse)
    (bz : bytes) : QueryParamsResponse :=
  mkQueryParamsResponse (QueryParamsResponse_Params x) (QueryParamsResponse_unknownFields x ++ bz).
Definition QueryParamsResponse_unmarshal : unmarshal_closure QueryParamsResponse :=
  closure_unmarshal "QueryParamsResponse" QueryParamsResponse_field QueryParamsResponse_unknown.
#[export] Instance QueryParamsResponse_methods : ProtoMethods QueryParamsResponse := {|
  api_new := mkQueryParamsResponse None [];
  api_size := QueryParamsResponse_size;
  api_marshal := QueryParamsResponse_marshal;
  api_unmarshal := QueryParamsResponse_unmarshal;
|}.

(** [MsgUpdateParams] *)

Record MsgUpdateParams := mkMsgUpdateParams {
  MsgUpdateParams_Authority : string;
  MsgUpdateParams_Params : option Params;
  MsgUpdateParams_unknownFields : bytes;
}.
Definition MsgUpdateParams_size : size_closure MsgUpdateParams := closure_size (λ x,
  api_size_string 1 (MsgUpdateParams_Authority x) + api_size_message 1 (MsgUpdateParams_Params x) +
  len (MsgUpdateParams_unknownFields x)).
Definition MsgUpdateParams_marshal : marshal_closure MsgUpdateParams :=
    closure_marshal MsgUpdateParams_size (λ x,
  put_copy (MsgUpdateParams_unknownFields x) ;;
  api_put_message [0x12] (MsgUpdateParams_Params x) ;;
  api_put_string [0xa] (MsgUpdateParams_Authority x)).
Definition MsgUpdateParams_field (discard : bool) (n : Z) : option (field_reader MsgUpdateParams) :=
  if n =? 1 then Some (string_field "Authority"
    (λ x v, mkMsgUpdateParams v (MsgUpdateParams_Params x) (MsgUpdateParams_unknownFields x))) else
  if n =? 2 then Some (api_message_field discard "Params" MsgUpdateParams_Params
    (λ x v, mkMsgUpdateParams (MsgUpdateParams_Authority x) v (MsgUpdateParams_unknownFields x)))
      else
  None.
Definition MsgUpdateParams_unknown (x : MsgUpdateParams) (bz : bytes) : MsgUpdateParams :=
  mkMsgUpdateParams (MsgUpdateParams_Authority x) (MsgUpdateParams_Params x)
    (MsgUpdateParams_unknownFields x ++ bz).
Definition MsgUpdateParams_unmarshal : unmarshal_closure MsgUpdateParams :=
  closure_unmarshal "MsgUpdateParams" MsgUpdateParams_field MsgUpdateParams_unknown.
#[export] Instance MsgUpdateParams_methods : ProtoMethods MsgUpdateParams := {|
  api_new := mkMsgUpdateParams "" None [];
  api_size := MsgUpdateParams_size;
  api_marshal := MsgUpdateParams_marshal;
  api_unmarshal := MsgUpdateParams_unmarshal;
|}.

(** [MsgUpdateParamsResponse] *)

Record MsgUpdateParamsResponse := mkMsgUpdateParamsResponse {
  MsgUpdateParamsResponse_unknownFields : bytes;
}.
Definition MsgUpdateParamsResponse_size : size_closure MsgUpdateParamsResponse :=
    closure_size (λ x,
  len (MsgUpdateParamsResponse_unknownFields x)).
Definition MsgUpdateParamsResponse_marshal : marshal_closure MsgUpdateParamsResponse :=
    closure_marshal MsgUpdateParamsResponse_size (λ x,
  put_copy (MsgUpdateParamsResponse_unknownFields x)).
Definition MsgUpdateParamsResponse_field (discard : bool) (n : Z) :
    option (field_reader MsgUpdateParamsResponse) :=
  None.
Definition MsgUpdateParamsResponse_unknown (x : MsgUpdateParamsResponse)
    (bz : bytes) : MsgUpdateParamsResponse :=
  mkMsgUpdateParamsResponse (MsgUpdateParamsResponse_unknownFields x ++ bz).
Definition MsgUpdateParamsResponse_unmarshal : unmarshal_closure MsgUpdateParamsResponse :=
  closure_unmarshal "MsgUpdateParamsResponse" MsgUpdateParamsResponse_field
    MsgUpdateParamsResponse_unknown.
#[export] Instance MsgUpdateParamsResponse_methods : ProtoMethods MsgUpdateParamsResponse := {|
  api_new := mkMsgUpdateParamsResponse [];
  api_size := MsgUpdateParamsResponse_size;
  api_marshal := MsgUpdateParamsResponse_marshal;
  api_unmarshal := MsgUpdateParamsResponse_unmarshal;
|}.

(** [MsgCreateMultisigAccountParams] *)

Record MsgCreateMultisigAccountParams := mkMsgCreateMultisigAccountParams {
  MsgCreateMultisigAccountParams_Authority : string;
  MsgCreateMultisigAccountParams_Seed : Z;
  MsgCreateMultisigAccountParams_Threshold : Z;
  MsgCreateMultisigAccountParams_Signers : list bytes;
  MsgCreateMultisigAccountParams_Permission : Z;
  MsgCreateMultisigAccountParams_unknownFields : bytes;
}.
Definition MsgCreateMultisigAccountParams_size : size_closure MsgCreateMultisigAccountParams :=
    closure_size (λ x,
  api_size_string 1 (MsgCreateMultisigAccountParams_Authority x) +
  api_size_varint 1 (MsgCreateMultisigAccountParams_Seed x) +
  api_size_varint 1 (MsgCreateMultisigAccountParams_Threshold x) +
  api_size_bytess 1 (MsgCreateMultisigAccountParams_Signers x) +
  api_size_varint 1 (MsgCreateMultisigAccountParams_Permission x) +
  len (MsgCreateMultisigAccountParams_unknownFields x)).
Definition MsgCreateMultisigAccountParams_marshal :
    marshal_closure MsgCreateMultisigAccountParams :=
    closure_marshal MsgCreateMultisigAccountParams_size (λ x,
  put_copy (MsgCreateMultisigAccountParams_unknownFields x) ;;
  api_put_varint [0x28] (MsgCreateMultisigAccountParams_Permission x) ;;
  api_put_bytess [0x22] (MsgCreateMultisigAccountParams_Signers x) ;;
  api_put_varint [0x18] (MsgCreateMultisigAccountParams_Threshold x) ;;
  api_put_varint [0x10] (MsgCreateMultisigAccountParams_Seed x) ;;
  api_put_string [0xa] (MsgCreateMultisigAccountParams_Authority x)).
Definition MsgCreateMultisigAccountParams_field (discard : bool) (n : Z) :
    option (field_reader MsgCreateMultisigAccountParams) :=
  if n =? 1 then Some (string_field "Authority"
    (λ x v, mkMsgCreateMultisigAccountParams v (MsgCreateMultisigAccountParams_Seed x)
      (MsgCreateMultisigAccountParams_Threshold x) (MsgCreateMultisigAccountParams_Signers x)
      (MsgCreateMultisigAccountParams_Permission x) (MsgCreateMultisigAccountParams_unknownFields
      x))) else
  if n =? 2 then Some (varint_field "Seed" wrap_u32
    (λ x v, mkMsgCreateMultisigAccountParams (MsgCreateMultisigAccountParams_Authority x) v
      (MsgCreateMultisigAccountParams_Threshold x) (MsgCreateMultisigAccountParams_Signers x)
      (MsgCreateMultisigAccountParams_Permission x) (MsgCreateMultisigAccountParams_unknownFields
      x))) else
  if n =? 3 then Some (varint_field "Threshold" wrap_u32
    (λ x v, mkMsgCreateMultisigAccountParams (MsgCreateMultisigAccountParams_Authority x)
      (MsgCreateMultisigAccountParams_Seed x) v (MsgCreateMultisigAccountParams_Signers x)
      (MsgCreateMultisigAccountParams_Permission x) (MsgCreateMultisigAccountParams_unknownFields
      x))) else
  if n =? 4 then Some (bytess_field "Signers" MsgCreateMultisigAccountParams_Signers
    (λ x v, mkMsgCreateMultisigAccountParams (MsgCreateMultisigAccountParams_Authority x)
      (MsgCreateMultisigAccountParams_Seed x) (MsgCreateMultisigAccountParams_Threshold x) v
      (MsgCreateMultisigAccountParams_Permission x) (MsgCreateMultisigAccountParams_unknownFields
      x))) else
  if n =? 5 then Some (varint_field "Permission" wrap_i32
    (λ x v, mkMsgCreateMultisigAccountParams (MsgCreateMultisigAccountParams_Authority x)
      (MsgCreateMultisigAccountParams_Seed x) (MsgCreateMultisigAccountParams_Threshold x)
      (MsgCreateMultisigAccountParams_Signers x) v (MsgCreateMultisigAccountParams_unknownFields
      x))) else
  None.
Definition MsgCreateMultisigAccountParams_unknown (x : MsgCreateMultisigAccountParams)
    (bz : bytes) : MsgCreateMultisigAccountParams :=
  mkMsgCreateMultisigAccountParams (MsgCreateMultisigAccountParams_Authority x)
    (MsgCreateMultisigAccountParams_Seed x) (MsgCreateMultisigAccountParams_Threshold x)
    (MsgCreateMultisigAccountParams_Signers x) (MsgCreateMultisigAccountParams_Permission x)
    (MsgCreateMultisigAccountParams_unknownFields x ++ bz).
Definition MsgCreateMultisigAccountParams_unmarshal :
    unmarshal_closure MsgCreateMultisigAccountParams :=
  closure_unmarshal "MsgCreateMultisigAccountParams" MsgCreateMultisigAccountParams_field
    MsgCreateMultisigAccountParams_unknown.
#[export] Instance MsgCreateMultisigAccountParams_methods :
    ProtoMethods MsgCreateMultisigAccountParams := {|
  api_new := mkMsgCreateMultisigAccountParams "" 0 0 [] 0 [];
  api_size := MsgCreateMultisigAccountParams_size;
  api_marshal := MsgCreateMultisigAccountParams_marshal;
  api_unmarshal := MsgCreateMultisigAccountParams_unmarshal;
|}.

(** [MsgCreateMultisigAccountResponse] *)

Record MsgCreateMultisigAccountResponse := mkMsgCreateMultisigAccountResponse {
  MsgCreateMultisigAccountResponse_MultisigAddress : string;
  MsgCreateMultisigAccountResponse_unknownFields : bytes;
}.
Definition MsgCreateMultisigAccountResponse_size : size_closure MsgCreateMultisigAccountResponse :=
    closure_size (λ x,
  api_size_string 1 (MsgCreateMultisigAccountResponse_MultisigAddress x) +
  len (MsgCreateMultisigAccountResponse_unknownFields x)).
Definition MsgCreateMultisigAccountResponse_marshal :
    marshal_closure MsgCreateMultisigAccountResponse :=
    closure_marshal MsgCreateMultisigAccountResponse_size (λ x,
  put_copy (MsgCreateMultisigAccountResponse_unknownFields x) ;;
  api_put_string [0xa] (MsgCreateMultisigAccountResponse_MultisigAddress x)).
Definition MsgCreateMultisigAccountResponse_field (discard : bool) (n : Z) :
    option (field_reader MsgCreateMultisigAccountResponse) :=
  if n =? 1 then Some (string_field "MultisigAddress"
    (λ x v, mkMsgCreateMultisigAccountResponse v (MsgCreateMultisigAccountResponse_unknownFields
      x))) else
  None.
Definition MsgCreateMultisigAccountResponse_unknown (x : MsgCreateMultisigAccountResponse)
    (bz : bytes) : MsgCreateMultisigAccountResponse :=
  mkMsgCreateMultisigAccountResponse (MsgCreateMultisigAccountResponse_MultisigAddress x)
    (MsgCreateMultisigAccountResponse_unknownFields x ++ bz).
Definition MsgCreateMultisigAccountResponse_unmarshal :
    unmarshal_closure MsgCreateMultisigAccountResponse :=
  closure_unmarshal "MsgCreateMultisigAccountResponse" MsgCreateMultisigAccountResponse_field
    MsgCreateMultisigAccountResponse_unknown.
#[export] Instance MsgCreateMultisigAccountResponse_methods :
    ProtoMethods MsgCreateMultisigAccountResponse := {|
  api_new := mkMsgCreateMultisigAccountResponse "" [];
  api_size := MsgCreateMultisigAccountResponse_size;
  api_marshal := MsgCreateMultisigAccountResponse_marshal;
  api_unmarshal := MsgCreateMultisigAccountResponse_unmarshal;
|}.

(** [MsgAddMultisigSignerParams] *)

Record MsgAddMultisigSignerParams := mkMsgAddMultisigSignerParams {
  MsgAddMultisigSignerParams_MultisigAddress : string;
  MsgAddMultisigSignerParams_Signer : string;
  MsgAddMultisigSignerParams_NewThreshold : Z;
  MsgAddMultisigSignerParams_unknownFields : bytes;
}.
Definition MsgAddMultisigSignerParams_size : size_closure MsgAddMultisigSignerParams :=
    closure_size (λ x,
  api_size_string 1 (MsgAddMultisigSignerParams_MultisigAddress x) +
  api_size_string 1 (MsgAddMultisigSignerParams_Signer x) +
  api_size_varint 1 (MsgAddMultisigSignerParams_NewThreshold x) +
  len (MsgAddMultisigSignerParams_unknownFields x)).
Definition MsgAddMultisigSignerParams_marshal : marshal_closure MsgAddMultisigSignerParams :=
    closure_marshal MsgAddMultisigSignerParams_size (λ x,
  put_copy (MsgAddMultisigSignerParams_unknownFields x) ;;
  api_put_varint [0x18] (MsgAddMultisigSignerParams_NewThreshold x) ;;
  api_put_string [0x12] (MsgAddMultisigSignerParams_Signer x) ;;
  api_put_string [0xa] (MsgAddMultisigSignerParams_MultisigAddress x)).
Definition MsgAddMultisigSignerParams_field (discard : bool) (n : Z) :
    option (field_reader MsgAddMultisigSignerParams) :=
  if n =? 1 then Some (string_field "MultisigAddress"
    (λ x v, mkMsgAddMultisigSignerParams v (MsgAddMultisigSignerParams_Signer x)
      (MsgAddMultisigSignerParams_NewThreshold x) (MsgAddMultisigSignerParams_unknownFields x)))
      else
  if n =? 2 then Some (string_field "Signer"
    (λ x v, mkMsgAddMultisigSignerParams (MsgAddMultisigSignerParams_MultisigAddress x) v
      (MsgAddMultisigSignerParams_NewThreshold x) (MsgAddMultisigSignerParams_unknownFields x)))
      else
  if n =? 3 then Some (varint_field "NewThreshold" wrap_u32
    (λ x v, mkMsgAddMultisigSignerParams (MsgAddMultisigSignerParams_MultisigAddress x)
      (MsgAddMultisigSignerParams_Signer x) v (MsgAddMultisigSignerParams_unknownFields x))) else
  None.
Definition MsgAddMultisigSignerParams_unknown (x : MsgAddMultisigSignerParams)
    (bz : bytes) : MsgAddMultisigSignerParams :=
  mkMsgAddMultisigSignerParams (MsgAddMultisigSignerParams_MultisigAddress x)
    (MsgAddMultisigSignerParams_Signer x) (MsgAddMultisigSignerParams_NewThreshold x)
    (MsgAddMultisigSignerParams_unknownFields x ++ bz).
Definition MsgAddMultisigSignerParams_unmarshal : unmarshal_closure MsgAddMultisigSignerParams :=
  closure_unmarshal "MsgAddMultisigSignerParams" MsgAddMultisigSignerParams_field
    MsgAddMultisigSignerParams_unknown.
#[export] Instance MsgAddMultisigSignerParams_methods :
    ProtoMethods MsgAddMultisigSignerParams := {|
  api_new := mkMsgAddMultisigSignerParams "" "" 0 [];
  api_size := MsgAddMultisigSignerParams_size;
  api_marshal := MsgAddMultisigSignerParams_marshal;
  api_unmarshal := MsgAddMultisigSignerParams_unmarshal;
|}.

(** [MsgAddMultisigSignerResponse] *)

Record MsgAddMultisigSignerResponse := mkMsgAddMultisigSignerResponse {
  MsgAddMultisigSignerResponse_unknownFields : bytes;
}.
Definition MsgAddMultisigSignerResponse_size : size_closure MsgAddMultisigSignerResponse :=
    closure_size (λ x,
  len (MsgAddMultisigSignerResponse_unknownFields x)).
Definition MsgAddMultisigSignerResponse_marshal : marshal_closure MsgAddMultisigSignerResponse :=
    closure_marshal MsgAddMultisigSignerResponse_size (λ x,
  put_copy (MsgAddMultisigSignerResponse_unknownFields x)).
Definition MsgAddMultisigSignerResponse_field (discard : bool) (n : Z) :
    option (field_reader MsgAddMultisigSignerResponse) :=
  None.
Definition MsgAddMultisigSignerResponse_unknown (x : MsgAddMultisigSignerResponse)
    (bz : bytes) : MsgAddMultisigSignerResponse :=
  mkMsgAddMultisigSignerResponse (MsgAddMultisigSignerResponse_unknownFields x ++ bz).
Definition MsgAddMultisigSignerResponse_unmarshal :
    unmarshal_closure MsgAddMultisigSignerResponse :=
  closure_unmarshal "MsgAddMultisigSignerResponse" MsgAddMultisigSignerResponse_field
    MsgAddMultisigSignerResponse_unknown.
#[export] Instance MsgAddMultisigSignerResponse_methods :
    ProtoMethods MsgAddMultisigSignerResponse := {|
  api_new := mkMsgAddMultisigSignerResponse [];
  api_size := MsgAddMultisigSignerResponse_size;
  api_marshal := MsgAddMultisigSignerResponse_marshal;
  api_unmarshal := MsgAddMultisigSignerResponse_unmarshal;
|}.

(** [MsgCleanupMultisigAccountParams] *)

Record MsgCleanupMultisigAccountParams := mkMsgCleanupMultisigAccountParams {
  MsgCleanupMultisigAccountParams_MultisigAddress : string;
  MsgCleanupMultisigAccountParams_unknownFields : bytes;
}.
Definition MsgCleanupMultisigAccountParams_size : size_closure MsgCleanupMultisigAccountParams :=
    closure_size (λ x,
  api_size_string 1 (MsgCleanupMultisigAccountParams_MultisigAddress x) +
  len (MsgCleanupMultisigAccountParams_unknownFields x)).
Definition MsgCleanupMultisigAccountParams_marshal :
    marshal_closure MsgCleanupMultisigAccountParams :=
    closure_marshal MsgCleanupMultisigAccountParams_size (λ x,
  put_copy (MsgCleanupMultisigAccountParams_unknownFields x) ;;
  api_put_string [0xa] (MsgCleanupMultisigAccountParams_MultisigAddress x)).
Definition MsgCleanupMultisigAccountParams_field (discard : bool) (n : Z) :
    option (field_reader MsgCleanupMultisigAccountParams) :=
  if n =? 1 then Some (string_field "MultisigAddress"
    (λ x v, mkMsgCleanupMultisigAccountParams v (MsgCleanupMultisigAccountParams_unknownFields
      x))) else
  None.
Definition MsgCleanupMultisigAccountParams_unknown (x : MsgCleanupMultisigAccountParams)
    (bz : bytes) : MsgCleanupMultisigAccountParams :=
  mkMsgCleanupMultisigAccountParams (MsgCleanupMultisigAccountParams_MultisigAddress x)
    (MsgCleanupMultisigAccountParams_unknownFields x ++ bz).
Definition MsgCleanupMultisigAccountParams_unmarshal :
    unmarshal_closure MsgCleanupMultisigAccountParams :=
  closure_unmarshal "MsgCleanupMultisigAccountParams" MsgCleanupMultisigAccountParams_field
    MsgCleanupMultisigAccountParams_unknown.
#[export] Instance MsgCleanupMultisigAccountParams_methods :
    ProtoMethods MsgCleanupMultisigAccountParams := {|
  api_new := mkMsgCleanupMultisigAccountParams "" [];
  api_size := MsgCleanupMultisigAccountParams_size;
  api_marshal := MsgCleanupMultisigAccountParams_marshal;
  api_unmarshal := MsgCleanupMultisigAccountParams_unmarshal;
|}.

(** [MsgCleanupMultisigAccountResponse] *)

Record MsgCleanupMultisigAccountResponse := mkMsgCleanupMultisigAccountResponse {
  MsgCleanupMultisigAccountResponse_unknownFields : bytes;
}.
Definition MsgCleanupMultisigAccountResponse_size :
    size_closure MsgCleanupMultisigAccountResponse := closure_size (λ x,
  len (MsgCleanupMultisigAccountResponse_unknownFields x)).
Definition MsgCleanupMultisigAccountResponse_marshal :
    marshal_closure MsgCleanupMultisigAccountResponse :=
    closure_marshal MsgCleanupMultisigAccountResponse_size (λ x,
  put_copy (MsgCleanupMultisigAccountResponse_unknownFields x)).
Definition MsgCleanupMultisigAccountResponse_field (discard : bool) (n : Z) :
    option (field_reader MsgCleanupMultisigAccountResponse) :=
  None.
Definition MsgCleanupMultisigAccountResponse_unknown (x : MsgCleanupMultisigAccountResponse)
    (bz : bytes) : MsgCleanupMultisigAccountResponse :=
  mkMsgCleanupMultisigAccountResponse (MsgCleanupMultisigAccountResponse_unknownFields x ++ bz).
Definition MsgCleanupMultisigAccountResponse_unmarshal :
    unmarshal_closure MsgCleanupMultisigAccountResponse :=
  closure_unmarshal "MsgCleanupMultisigAccountResponse" MsgCleanupMultisigAccountResponse_field
    MsgCleanupMultisigAccountResponse_unknown.
#[export] Instance MsgCleanupMultisigAccountResponse_methods :
    ProtoMethods MsgCleanupMultisigAccountResponse := {|
  api_new := mkMsgCleanupMultisigAccountResponse [];
  api_size := MsgCleanupMultisigAccountResponse_size;
  api_marshal := MsgCleanupMultisigAccountResponse_marshal;
  api_unmarshal := MsgCleanupMultisigAccountResponse_unmarshal;
|}.

(** [MsgSetMultisigThresholdParams] *)

Record MsgSetMultisigThresholdParams := mkMsgSetMultisigThresholdParams {
  MsgSetMultisigThresholdParams_MultisigAddress : string;
  MsgSetMultisigThresholdParams_Threshold : Z;
  MsgSetMultisigThresholdParams_unknownFields : bytes;
}.
Definition MsgSetMultisigThresholdParams_size : size_closure MsgSetMultisigThresholdParams :=
    closure_size (λ x,
  api_size_string 1 (MsgSetMultisigThresholdParams_MultisigAddress x) +
  api_size_varint 1 (MsgSetMultisigThresholdParams_Threshold x) +
  len (MsgSetMultisigThresholdParams_unknownFields x)).
Definition MsgSetMultisigThresholdParams_marshal : marshal_closure MsgSetMultisigThresholdParams :=
    closure_marshal MsgSetMultisigThresholdParams_size (λ x,
  put_copy (MsgSetMultisigThresholdParams_unknownFields x) ;;
  api_put_varint [0x10] (MsgSetMultisigThresholdParams_Threshold x) ;;
  api_put_string [0xa] (MsgSetMultisigThresholdParams_MultisigAddress x)).
Definition MsgSetMultisigThresholdParams_field (discard : bool) (n : Z) :
    option (field_reader MsgSetMultisigThresholdParams) :=
  if n =? 1 then Some (string_field "MultisigAddress"
    (λ x v, mkMsgSetMultisigThresholdParams v (MsgSetMultisigThresholdParams_Threshold x)
      (MsgSetMultisigThresholdParams_unknownFields x))) else
  if n =? 2 then Some (varint_field "Threshold" wrap_u32
    (λ x v, mkMsgSetMultisigThresholdParams (MsgSetMultisigThresholdParams_MultisigAddress x) v
      (MsgSetMultisigThresholdParams_unknownFields x))) else
  None.
Definition MsgSetMultisigThresholdParams_unknown (x : MsgSetMultisigThresholdParams)
    (bz : bytes) : MsgSetMultisigThresholdParams :=
  mkMsgSetMultisigThresholdParams (MsgSetMultisigThresholdParams_MultisigAddress x)
    (MsgSetMultisigThresholdParams_Threshold x) (MsgSetMultisigThresholdParams_unknownFields x ++
    bz).
Definition MsgSetMultisigThresholdParams_unmarshal :
    unmarshal_closure MsgSetMultisigThresholdParams :=
  closure_unmarshal "MsgSetMultisigThresholdParams" MsgSetMultisigThresholdParams_field
    MsgSetMultisigThresholdParams_unknown.
#[export] Instance MsgSetMultisigThresholdParams_methods :
    ProtoMethods MsgSetMultisigThresholdParams := {|
  api_new := mkMsgSetMultisigThresholdParams "" 0 [];
  api_size := MsgSetMultisigThresholdParams_size;
  api_marshal := MsgSetMultisigThresholdParams_marshal;
  api_unmarshal := MsgSetMultisigThresholdParams_unmarshal;
|}.

(** [MsgSetMultisigThresholdResponse] *)

Record MsgSetMultisigThresholdResponse := mkMsgSetMultisigThresholdResponse {
  MsgSetMultisigThresholdResponse_unknownFields : bytes;
}.
Definition MsgSetMultisigThresholdResponse_size : size_closure MsgSetMultisigThresholdResponse :=
    closure_size (λ x,
  len (MsgSetMultisigThresholdResponse_unknownFields x)).
Definition MsgSetMultisigThresholdResponse_marshal :
    marshal_closure MsgSetMultisigThresholdResponse :=
    closure_marshal MsgSetMultisigThresholdResponse_size (λ x,
  put_copy (MsgSetMultisigThresholdResponse_unknownFields x)).
Definition MsgSetMultisigThresholdResponse_field (discard : bool) (n : Z) :
    option (field_reader MsgSetMultisigThresholdResponse) :=
  None.
Definition MsgSetMultisigThresholdResponse_unknown (x : MsgSetMultisigThresholdResponse)
    (bz : bytes) : MsgSetMultisigThresholdResponse :=
  mkMsgSetMultisigThresholdResponse (MsgSetMultisigThresholdResponse_unknownFields x ++ bz).
Definition MsgSetMultisigThresholdResponse_unmarshal :
    unmarshal_closure MsgSetMultisigThresholdResponse :=
  closure_unmarshal "MsgSetMultisigThresholdResponse" MsgSetMultisigThresholdResponse_field
    MsgSetMultisigThresholdResponse_unknown.
#[export] Instance MsgSetMultisigThresholdResponse_methods :
    ProtoMethods MsgSetMultisigThresholdResponse := {|
  api_new := mkMsgSetMultisigThresholdResponse [];
  api_size := MsgSetMultisigThresholdResponse_size;
  api_marshal := MsgSetMultisigThresholdResponse_marshal;
  api_unmarshal := MsgSetMultisigThresholdResponse_unmarshal;
|}.

(** [MsgInitializeMultisigProposalParams] *)

Record MsgInitializeMultisigProposalParams := mkMsgInitializeMultisigProposalParams {
  MsgInitializeMultisigProposalParams_MultisigAddress : string;
  MsgInitializeMultisigProposalParams_Proposer : string;
  MsgInitializeMultisigProposalParams_Title : string;
  MsgInitializeMultisigProposalParams_Description : string;
  MsgInitializeMultisigProposalParams_Message : option anypb_Any;
  MsgInitializeMultisigProposalParams_unknownFields : bytes;
}.
Definition MsgInitializeMultisigProposalParams_size :
    size_closure MsgInitializeMultisigProposalParams := closure_size (λ x,
  api_size_string 1 (MsgInitializeMultisigProposalParams_MultisigAddress x) +
  api_size_string 1 (MsgInitializeMultisigProposalParams_Proposer x) +
  api_size_string 1 (MsgInitializeMultisigProposalParams_Title x) +
  api_size_string 1 (MsgInitializeMultisigProposalParams_Description x) +
  api_size_message 1 (MsgInitializeMultisigProposalParams_Message x) +
  len (MsgInitializeMultisigProposalParams_unknownFields x)).
Definition MsgInitializeMultisigProposalParams_marshal :
    marshal_closure MsgInitializeMultisigProposalParams :=
    closure_marshal MsgInitializeMultisigProposalParams_size (λ x,
  put_copy (MsgInitializeMultisigProposalParams_unknownFields x) ;;
  api_put_message [0x2a] (MsgInitializeMultisigProposalParams_Message x) ;;
  api_put_string [0x22] (MsgInitializeMultisigProposalParams_Description x) ;;
  api_put_string [0x1a] (MsgInitializeMultisigProposalParams_Title x) ;;
  api_put_string [0x12] (MsgInitializeMultisigProposalParams_Proposer x) ;;
  api_put_string [0xa] (MsgInitializeMultisigProposalParams_MultisigAddress x)).
Definition MsgInitializeMultisigProposalParams_field (discard : bool) (n : Z) :
    option (field_reader MsgInitializeMultisigProposalParams) :=
  if n =? 1 then Some (string_field "MultisigAddress"
    (λ x v, mkMsgInitializeMultisigProposalParams v (MsgInitializeMultisigProposalParams_Proposer
      x) (MsgInitializeMultisigProposalParams_Title x)
      (MsgInitializeMultisigProposalParams_Description x)
      (MsgInitializeMultisigProposalParams_Message x)
      (MsgInitializeMultisigProposalParams_unknownFields x))) else
  if n =? 2 then Some (string_field "Proposer"
    (λ x v, mkMsgInitializeMultisigProposalParams
      (MsgInitializeMultisigProposalParams_MultisigAddress x) v
      (MsgInitializeMultisigProposalParams_Title x)
      (MsgInitializeMultisigProposalParams_Description x)
      (MsgInitializeMultisigProposalParams_Message x)
      (MsgInitializeMultisigProposalParams_unknownFields x))) else
  if n =? 3 then Some (string_field "Title"
    (λ x v, mkMsgInitializeMultisigProposalParams
      (MsgInitializeMultisigProposalParams_MultisigAddress x)
      (MsgInitializeMultisigProposalParams_Proposer x) v
      (MsgInitializeMultisigProposalParams_Description x)
      (MsgInitializeMultisigProposalParams_Message x)
      (MsgInitializeMultisigProposalParams_unknownFields x))) else
  if n =? 4 then Some (string_field "Description"
    (λ x v, mkMsgInitializeMultisigProposalParams
      (MsgInitializeMultisigProposalParams_MultisigAddress x)
      (MsgInitializeMultisigProposalParams_Proposer x) (MsgInitializeMultisigProposalParams_Title
      x) v (MsgInitializeMultisigProposalParams_Message x)
      (MsgInitializeMultisigProposalParams_unknownFields x))) else
  if n =? 5 then Some (api_message_field discard "Message"
    MsgInitializeMultisigProposalParams_Message
    (λ x v, mkMsgInitializeMultisigProposalParams
      (MsgInitializeMultisigProposalParams_MultisigAddress x)
      (MsgInitializeMultisigProposalParams_Proposer x) (MsgInitializeMultisigProposalParams_Title
      x) (MsgInitializeMultisigProposalParams_Description x) v
      (MsgInitializeMultisigProposalParams_unknownFields x))) else
  None.
Definition MsgInitializeMultisigProposalParams_unknown (x : MsgInitializeMultisigProposalParams)
    (bz : bytes) : MsgInitializeMultisigProposalParams :=
  mkMsgInitializeMultisigProposalParams (MsgInitializeMultisigProposalParams_MultisigAddress x)
    (MsgInitializeMultisigProposalParams_Proposer x) (MsgInitializeMultisigProposalParams_Title x)
    (MsgInitializeMultisigProposalParams_Description x)
    (MsgInitializeMultisigProposalParams_Message x)
    (MsgInitializeMultisigProposalParams_unknownFields x ++ bz).
Definition MsgInitializeMultisigProposalParams_unmarshal :
    unmarshal_closure MsgInitializeMultisigProposalParams :=
  closure_unmarshal "MsgInitializeMultisigProposalParams"
    MsgInitializeMultisigProposalParams_field MsgInitializeMultisigProposalParams_unknown.
#[export] Instance MsgInitializeMultisigProposalParams_methods :
    ProtoMethods MsgInitializeMultisigProposalParams := {|
  api_new := mkMsgInitializeMultisigProposalParams "" "" "" "" None [];
  api_size := MsgInitializeMultisigProposalParams_size;
  api_marshal := MsgInitializeMultisigProposalParams_marshal;
  api_unmarshal := MsgInitializeMultisigProposalParams_unmarshal;
|}.

(** [MsgInitializeMultisigResponse] *)

Record MsgInitializeMultisigResponse := mkMsgInitializeMultisigResponse {
  MsgInitializeMultisigResponse_ProposalId : Z;
  MsgInitializeMultisigResponse_unknownFields : bytes;
}.
Definition MsgInitializeMultisigResponse_size : size_closure MsgInitializeMultisigResponse :=
    closure_size (λ x,
  api_size_varint 1 (MsgInitializeMultisigResponse_ProposalId x) +
  len (MsgInitializeMultisigResponse_unknownFields x)).
Definition MsgInitializeMultisigResponse_marshal : marshal_closure MsgInitializeMultisigResponse :=
    closure_marshal MsgInitializeMultisigResponse_size (λ x,
  put_copy (MsgInitializeMultisigResponse_unknownFields x) ;;
  api_put_varint [0x8] (MsgInitializeMultisigResponse_ProposalId x)).
Definition MsgInitializeMultisigResponse_field (discard : bool) (n : Z) :
    option (field_reader MsgInitializeMultisigResponse) :=
  if n =? 1 then Some (varint_field "ProposalId" wrap_u64
    (λ x v, mkMsgInitializeMultisigResponse v (MsgInitializeMultisigResponse_unknownFields x)))
      else
  None.
Definition MsgInitializeMultisigResponse_unknown (x : MsgInitializeMultisigResponse)
    (bz : bytes) : MsgInitializeMultisigResponse :=
  mkMsgInitializeMultisigResponse (MsgInitializeMultisigResponse_ProposalId x)
    (MsgInitializeMultisigResponse_unknownFields x ++ bz).
Definition MsgInitializeMultisigResponse_unmarshal :
    unmarshal_closure MsgInitializeMultisigResponse :=
  closure_unmarshal "MsgInitializeMultisigResponse" MsgInitializeMultisigResponse_field
    MsgInitializeMultisigResponse_unknown.
#[export] Instance MsgInitializeMultisigResponse_methods :
    ProtoMethods MsgInitializeMultisigResponse := {|
  api_new := mkMsgInitializeMultisigResponse 0 [];
  api_size := MsgInitializeMultisigResponse_size;
  api_marshal := MsgInitializeMultisigResponse_marshal;
  api_unmarshal := MsgInitializeMultisigResponse_unmarshal;
|}.

(** [MsgApproveMultisigProposalParams] *)

Record MsgApproveMultisigProposalParams := mkMsgApproveMultisigProposalParams {
  MsgApproveMultisigProposalParams_MultisigAddress : string;
  MsgApproveMultisigProposalParams_ProposalId : Z;
  MsgApproveMultisigProposalParams_Approver : string;
  MsgApproveMultisigProposalParams_unknownFields : bytes;
}.
Definition MsgApproveMultisigProposalParams_size : size_closure MsgApproveMultisigProposalParams :=
    closure_size (λ x,
  api_size_string 1 (MsgApproveMultisigProposalParams_MultisigAddress x) +
  api_size_varint 1 (MsgApproveMultisigProposalParams_ProposalId x) +
  api_size_string 1 (MsgApproveMultisigProposalParams_Approver x) +
  len (MsgApproveMultisigProposalParams_unknownFields x)).
Definition MsgApproveMultisigProposalParams_marshal :
    marshal_closure MsgApproveMultisigProposalParams :=
    closure_marshal MsgApproveMultisigProposalParams_size (λ x,
  put_copy (MsgApproveMultisigProposalParams_unknownFields x) ;;
  api_put_string [0x1a] (MsgApproveMultisigProposalParams_Approver x) ;;
  api_put_varint [0x10] (MsgApproveMultisigProposalParams_ProposalId x) ;;
  api_put_string [0xa] (MsgApproveMultisigProposalParams_MultisigAddress x)).
Definition MsgApproveMultisigProposalParams_field (discard : bool) (n : Z) :
    option (field_reader MsgApproveMultisigProposalParams) :=
  if n =? 1 then Some (string_field "MultisigAddress"
    (λ x v, mkMsgApproveMultisigProposalParams v (MsgApproveMultisigProposalParams_ProposalId x)
      (MsgApproveMultisigProposalParams_Approver x)
      (MsgApproveMultisigProposalParams_unknownFields x))) else
  if n =? 2 then Some (varint_field "ProposalId" wrap_u64
    (λ x v, mkMsgApproveMultisigProposalParams (MsgApproveMultisigProposalParams_MultisigAddress
      x) v (MsgApproveMultisigProposalParams_Approver x)
      (MsgApproveMultisigProposalParams_unknownFields x))) else
  if n =? 3 then Some (string_field "Approver"
    (λ x v, mkMsgApproveMultisigProposalParams (MsgApproveMultisigProposalParams_MultisigAddress
      x) (MsgApproveMultisigProposalParams_ProposalId x) v
      (MsgApproveMultisigProposalParams_unknownFields x))) else
  None.
Definition MsgApproveMultisigProposalParams_unknown (x : MsgApproveMultisigProposalParams)
    (bz : bytes) : MsgApproveMultisigProposalParams :=
  mkMsgApproveMultisigProposalParams (MsgApproveMultisigProposalParams_MultisigAddress x)
    (MsgApproveMultisigProposalParams_ProposalId x) (MsgApproveMultisigProposalParams_Approver x)
    (MsgApproveMultisigProposalParams_unknownFields x ++ bz).
Definition MsgApproveMultisigProposalParams_unmarshal :
    unmarshal_closure MsgApproveMultisigProposalParams :=
  closure_unmarshal "MsgApproveMultisigProposalParams" MsgApproveMultisigProposalParams_field
    MsgApproveMultisigProposalParams_unknown.
#[export] Instance MsgApproveMultisigProposalParams_methods :
    ProtoMethods MsgApproveMultisigProposalParams := {|
  api_new := mkMsgApproveMultisigProposalParams "" 0 "" [];
  api_size := MsgApproveMultisigProposalParams_size;
  api_marshal := MsgApproveMultisigProposalParams_marshal;
  api_unmarshal := MsgApproveMultisigProposalParams_unmarshal;
|}.

(** [MsgApproveMultisigProposalResponse] *)

Record MsgApproveMultisigProposalResponse := mkMsgApproveMultisigProposalResponse {
  MsgApproveMultisigProposalResponse_unknownFields : bytes;
}.
Definition MsgApproveMultisigProposalResponse_size :
    size_closure MsgApproveMultisigProposalResponse := closure_size (λ x,
  len (MsgApproveMultisigProposalResponse_unknownFields x)).
Definition MsgApproveMultisigProposalResponse_marshal :
    marshal_closure MsgApproveMultisigProposalResponse :=
    closure_marshal MsgApproveMultisigProposalResponse_size (λ x,
  put_copy (MsgApproveMultisigProposalResponse_unknownFields x)).
Definition MsgApproveMultisigProposalResponse_field (discard : bool) (n : Z) :
    option (field_reader MsgApproveMultisigProposalResponse) :=
  None.
Definition MsgApproveMultisigProposalResponse_unknown (x : MsgApproveMultisigProposalResponse)
    (bz : bytes) : MsgApproveMultisigProposalResponse :=
  mkMsgApproveMultisigProposalResponse (MsgApproveMultisigProposalResponse_unknownFields x ++ bz).
Definition MsgApproveMultisigProposalResponse_unmarshal :
    unmarshal_closure MsgApproveMultisigProposalResponse :=
  closure_unmarshal "MsgApproveMultisigProposalResponse" MsgApproveMultisigProposalResponse_field
    MsgApproveMultisigProposalResponse_unknown.
#[export] Instance MsgApproveMultisigProposalResponse_methods :
    ProtoMethods MsgApproveMultisigProposalResponse := {|
  api_new := mkMsgApproveMultisigProposalResponse [];
  api_size := MsgApproveMultisigProposalResponse_size;
  api_marshal := MsgApproveMultisigProposalResponse_marshal;
  api_unmarshal := MsgApproveMultisigProposalResponse_unmarshal;
|}.

(** [MsgApproveAndDispatchMultisigProposalParams] *)

Record MsgApproveAndDispatchMultisigProposalParams := mkMsgApproveAndDispatchMultisigProposalParams {
  MsgApproveAndDispatchMultisigProposalParams_MultisigAddress : string;
  MsgApproveAndDispatchMultisigProposalParams_ProposalId : Z;
  MsgApproveAndDispatchMultisigProposalParams_Approver : string;
  MsgApproveAndDispatchMultisigProposalParams_Message : option anypb_Any;
  MsgApproveAndDispatchMultisigProposalParams_unknownFields : bytes;
}.
Definition MsgApproveAndDispatchMultisigProposalParams_size :
    size_closure MsgApproveAndDispatchMultisigProposalParams := closure_size (λ x,
  api_size_string 1 (MsgApproveAndDispatchMultisigProposalParams_MultisigAddress x) +
  api_size_varint 1 (MsgApproveAndDispatchMultisigProposalParams_ProposalId x) +
  api_size_string 1 (MsgApproveAndDispatchMultisigProposalParams_Approver x) +
  api_size_message 1 (MsgApproveAndDispatchMultisigProposalParams_Message x) +
  len (MsgApproveAndDispatchMultisigProposalParams_unknownFields x)).
Definition MsgApproveAndDispatchMultisigProposalParams_marshal :
    marshal_closure MsgApproveAndDispatchMultisigProposalParams :=
    closure_marshal MsgApproveAndDispatchMultisigProposalParams_size (λ x,
  put_copy (MsgApproveAndDispatchMultisigProposalParams_unknownFields x) ;;
  api_put_message [0x2a] (MsgApproveAndDispatchMultisigProposalParams_Message x) ;;
  api_put_string [0x1a] (MsgApproveAndDispatchMultisigProposalParams_Approver x) ;;
  api_put_varint [0x10] (MsgApproveAndDispatchMultisigProposalParams_ProposalId x) ;;
  api_put_string [0xa] (MsgApproveAndDispatchMultisigProposalParams_MultisigAddress x)).
Definition MsgApproveAndDispatchMultisigProposalParams_field (discard : bool) (n : Z) :
    option (field_reader MsgApproveAndDispatchMultisigProposalParams) :=
  if n =? 1 then Some (string_field "MultisigAddress"
    (λ x v, mkMsgApproveAndDispatchMultisigProposalParams v
      (MsgApproveAndDispatchMultisigProposalParams_ProposalId x)
      (MsgApproveAndDispatchMultisigProposalParams_Approver x)
      (MsgApproveAndDispatchMultisigProposalParams_Message x)
      (MsgApproveAndDispatchMultisigProposalParams_unknownFields x))) else
  if n =? 2 then Some (varint_field "ProposalId" wrap_u64
    (λ x v, mkMsgApproveAndDispatchMultisigProposalParams
      (MsgApproveAndDispatchMultisigProposalParams_MultisigAddress x) v
      (MsgApproveAndDispatchMultisigProposalParams_Approver x)
      (MsgApproveAndDispatchMultisigProposalParams_Message x)
      (MsgApproveAndDispatchMultisigProposalParams_unknownFields x))) else
  if n =? 3 then Some (string_field "Approver"
    (λ x v, mkMsgApproveAndDispatchMultisigProposalParams
      (MsgApproveAndDispatchMultisigProposalParams_MultisigAddress x)
      (MsgApproveAndDispatchMultisigProposalParams_ProposalId x) v
      (MsgApproveAndDispatchMultisigProposalParams_Message x)
      (MsgApproveAndDispatchMultisigProposalParams_unknownFields x))) else
  if n =? 5 then Some (api_message_field discard "Message"
    MsgApproveAndDispatchMultisigProposalParams_Message
    (λ x v, mkMsgApproveAndDispatchMultisigProposalParams
      (MsgApproveAndDispatchMultisigProposalParams_MultisigAddress x)
      (MsgApproveAndDispatchMultisigProposalParams_ProposalId x)
      (MsgApproveAndDispatchMultisigProposalParams_Approver x) v
      (MsgApproveAndDispatchMultisigProposalParams_unknownFields x))) else
  None.
Definition MsgApproveAndDispatchMultisigProposalParams_unknown (x : MsgApproveAndDispatchMultisigProposalParams) (bz : bytes) : MsgApproveAndDispatchMultisigProposalParams :=
  mkMsgApproveAndDispatchMultisigProposalParams
    (MsgApproveAndDispatchMultisigProposalParams_MultisigAddress x)
    (MsgApproveAndDispatchMultisigProposalParams_ProposalId x)
    (MsgApproveAndDispatchMultisigProposalParams_Approver x)
    (MsgApproveAndDispatchMultisigProposalParams_Message x)
    (MsgApproveAndDispatchMultisigProposalParams_unknownFields x ++ bz).
Definition MsgApproveAndDispatchMultisigProposalParams_unmarshal :
    unmarshal_closure MsgApproveAndDispatchMultisigProposalParams :=
  closure_unmarshal "MsgApproveAndDispatchMultisigProposalParams"
    MsgApproveAndDispatchMultisigProposalParams_field
    MsgApproveAndDispatchMultisigProposalParams_unknown.
#[export] Instance MsgApproveAndDispatchMultisigProposalParams_methods :
    ProtoMethods MsgApproveAndDispatchMultisigProposalParams := {|
  api_new := mkMsgApproveAndDispatchMultisigProposalParams "" 0 "" None [];
  api_size := MsgApproveAndDispatchMultisigProposalParams_size;
  api_marshal := MsgApproveAndDispatchMultisigProposalParams_marshal;
  api_unmarshal := MsgApproveAndDispatchMultisigProposalParams_unmarshal;
|}.

(** [MsgApproveAndDispatchMultisigProposalResponse] *)

Record MsgApproveAndDispatchMultisigProposalResponse := mkMsgApproveAndDispatchMultisigProposalResponse {
  MsgApproveAndDispatchMultisigProposalResponse_TransactionHash : string;
  MsgApproveAndDispatchMultisigProposalResponse_unknownFields : bytes;
}.
Definition MsgApproveAndDispatchMultisigProposalResponse_size :
    size_closure MsgApproveAndDispatchMultisigProposalResponse := closure_size (λ x,
  api_size_string 1 (MsgApproveAndDispatchMultisigProposalResponse_TransactionHash x) +
  len (MsgApproveAndDispatchMultisigProposalResponse_unknownFields x)).
Definition MsgApproveAndDispatchMultisigProposalResponse_marshal :
    marshal_closure MsgApproveAndDispatchMultisigProposalResponse :=
    closure_marshal MsgApproveAndDispatchMultisigProposalResponse_size (λ x,
  put_copy (MsgApproveAndDispatchMultisigProposalResponse_unknownFields x) ;;
  api_put_string [0xa] (MsgApproveAndDispatchMultisigProposalResponse_TransactionHash x)).
Definition MsgApproveAndDispatchMultisigProposalResponse_field (discard : bool) (n : Z) :
    option (field_reader MsgApproveAndDispatchMultisigProposalResponse) :=
  if n =? 1 then Some (string_field "TransactionHash"
    (λ x v, mkMsgApproveAndDispatchMultisigProposalResponse v
      (MsgApproveAndDispatchMultisigProposalResponse_unknownFields x))) else
  None.
Definition MsgApproveAndDispatchMultisigProposalResponse_unknown (x : MsgApproveAndDispatchMultisigProposalResponse) (bz : bytes) : MsgApproveAndDispatchMultisigProposalResponse :=
  mkMsgApproveAndDispatchMultisigProposalResponse
    (MsgApproveAndDispatchMultisigProposalResponse_TransactionHash x)
    (MsgApproveAndDispatchMultisigProposalResponse_unknownFields x ++ bz).
Definition MsgApproveAndDispatchMultisigProposalResponse_unmarshal :
    unmarshal_closure MsgApproveAndDispatchMultisigProposalResponse :=
  closure_unmarshal "MsgApproveAndDispatchMultisigProposalResponse"
    MsgApproveAndDispatchMultisigProposalResponse_field
    MsgApproveAndDispatchMultisigProposalResponse_unknown.
#[export] Instance MsgApproveAndDispatchMultisigProposalResponse_methods :
    ProtoMethods MsgApproveAndDispatchMultisigProposalResponse := {|
  api_new := mkMsgApproveAndDispatchMultisigProposalResponse "" [];
  api_size := MsgApproveAndDispatchMultisigProposalResponse_size;
  api_marshal := MsgApproveAndDispatchMultisigProposalResponse_marshal;
  api_unmarshal := MsgApproveAndDispatchMultisigProposalResponse_unmarshal;
|}.

(** [MsgCancelMultisigProposalParams] *)

Record MsgCancelMultisigProposalParams := mkMsgCancelMultisigProposalParams {
  MsgCancelMultisigProposalParams_MultisigAddress : string;
  MsgCancelMultisigProposalParams_ProposalId : Z;
  MsgCancelMultisigProposalParams_Rejecter : string;
  MsgCancelMultisigProposalParams_unknownFields : bytes;
}.
Definition MsgCancelMultisigProposalParams_size : size_closure MsgCancelMultisigProposalParams :=
    closure_size (λ x,
  api_size_string 1 (MsgCancelMultisigProposalParams_MultisigAddress x) +
  api_size_varint 1 (MsgCancelMultisigProposalParams_ProposalId x) +
  api_size_string 1 (MsgCancelMultisigProposalParams_Rejecter x) +
  len (MsgCancelMultisigProposalParams_unknownFields x)).
Definition MsgCancelMultisigProposalParams_marshal :
    marshal_closure MsgCancelMultisigProposalParams :=
    closure_marshal MsgCancelMultisigProposalParams_size (λ x,
  put_copy (MsgCancelMultisigProposalParams_unknownFields x) ;;
  api_put_string [0x1a] (MsgCancelMultisigProposalParams_Rejecter x) ;;
  api_put_varint [0x10] (MsgCancelMultisigProposalParams_ProposalId x) ;;
  api_put_string [0xa] (MsgCancelMultisigProposalParams_MultisigAddress x)).
Definition MsgCancelMultisigProposalParams_field (discard : bool) (n : Z) :
    option (field_reader MsgCancelMultisigProposalParams) :=
  if n =? 1 then Some (string_field "MultisigAddress"
    (λ x v, mkMsgCancelMultisigProposalParams v (MsgCancelMultisigProposalParams_ProposalId x)
      (MsgCancelMultisigProposalParams_Rejecter x) (MsgCancelMultisigProposalParams_unknownFields
      x))) else
  if n =? 2 then Some (varint_field "ProposalId" wrap_u64
    (λ x v, mkMsgCancelMultisigProposalParams (MsgCancelMultisigProposalParams_MultisigAddress x)
      v (MsgCancelMultisigProposalParams_Rejecter x)
      (MsgCancelMultisigProposalParams_unknownFields x))) else
  if n =? 3 then Some (string_field "Rejecter"
    (λ x v, mkMsgCancelMultisigProposalParams (MsgCancelMultisigProposalParams_MultisigAddress x)
      (MsgCancelMultisigProposalParams_ProposalId x) v
      (MsgCancelMultisigProposalParams_unknownFields x))) else
  None.
Definition MsgCancelMultisigProposalParams_unknown (x : MsgCancelMultisigProposalParams)
    (bz : bytes) : MsgCancelMultisigProposalParams :=
  mkMsgCancelMultisigProposalParams (MsgCancelMultisigProposalParams_MultisigAddress x)
    (MsgCancelMultisigProposalParams_ProposalId x) (MsgCancelMultisigProposalParams_Rejecter x)
    (MsgCancelMultisigProposalParams_unknownFields x ++ bz).
Definition MsgCancelMultisigProposalParams_unmarshal :
    unmarshal_closure MsgCancelMultisigProposalParams :=
  closure_unmarshal "MsgCancelMultisigProposalParams" MsgCancelMultisigProposalParams_field
    MsgCancelMultisigProposalParams_unknown.
#[export] Instance MsgCancelMultisigProposalParams_methods :
    ProtoMethods MsgCancelMultisigProposalParams := {|
  api_new := mkMsgCancelMultisigProposalParams "" 0 "" [];
  api_size := MsgCancelMultisigProposalParams_size;
  api_marshal := MsgCancelMultisigProposalParams_marshal;
  api_unmarshal := MsgCancelMultisigProposalParams_unmarshal;
|}.

(** [MsgCancelMultisigProposalResponse] *)

Record MsgCancelMultisigProposalResponse := mkMsgCancelMultisigProposalResponse {
  MsgCancelMultisigProposalResponse_unknownFields : bytes;
}.
Definition MsgCancelMultisigProposalResponse_size :
    size_closure MsgCancelMultisigProposalResponse := closure_size (λ x,
  len (MsgCancelMultisigProposalResponse_unknownFields x)).
Definition MsgCancelMultisigProposalResponse_marshal :
    marshal_closure MsgCancelMultisigProposalResponse :=
    closure_marshal MsgCancelMultisigProposalResponse_size (λ x,
  put_copy (MsgCancelMultisigProposalResponse_unknownFields x)).
Definition MsgCancelMultisigProposalResponse_field (discard : bool) (n : Z) :
    option (field_reader MsgCancelMultisigProposalResponse) :=
  None.
Definition MsgCancelMultisigProposalResponse_unknown (x : MsgCancelMultisigProposalResponse)
    (bz : bytes) : MsgCancelMultisigProposalResponse :=
  mkMsgCancelMultisigProposalResponse (MsgCancelMultisigProposalResponse_unknownFields x ++ bz).
Definition MsgCancelMultisigProposalResponse_unmarshal :
    unmarshal_closure MsgCancelMultisigProposalResponse :=
  closure_unmarshal "MsgCancelMultisigProposalResponse" MsgCancelMultisigProposalResponse_field
    MsgCancelMultisigProposalResponse_unknown.
#[export] Instance MsgCancelMultisigProposalResponse_methods :
    ProtoMethods MsgCancelMultisigProposalResponse := {|
  api_new := mkMsgCancelMultisigProposalResponse [];
  api_size := MsgCancelMultisigProposalResponse_size;
  api_marshal := MsgCancelMultisigProposalResponse_marshal;
  api_unmarshal := MsgCancelMultisigProposalResponse_unmarshal;
|}.

(** [MsgCleanupMultisigProposalParams] *)

Record MsgCleanupMultisigProposalParams := mkMsgCleanupMultisigProposalParams {
  MsgCleanupMultisigProposalParams_MultisigAddress : string;
  MsgCleanupMultisigProposalParams_ProposalId : Z;
  MsgCleanupMultisigProposalParams_Remover : string;
  MsgCleanupMultisigProposalParams_unknownFields : bytes;
}.
Definition MsgCleanupMultisigProposalParams_size : size_closure MsgCleanupMultisigProposalParams :=
    closure_size (λ x,
  api_size_string 1 (MsgCleanupMultisigProposalParams_MultisigAddress x) +
  api_size_varint 1 (MsgCleanupMultisigProposalParams_ProposalId x) +
  api_size_string 1 (MsgCleanupMultisigProposalParams_Remover x) +
  len (MsgCleanupMultisigProposalParams_unknownFields x)).
Definition MsgCleanupMultisigProposalParams_marshal :
    marshal_closure MsgCleanupMultisigProposalParams :=
    closure_marshal MsgCleanupMultisigProposalParams_size (λ x,
  put_copy (MsgCleanupMultisigProposalParams_unknownFields x) ;;
  api_put_string [0x1a] (MsgCleanupMultisigProposalParams_Remover x) ;;
  api_put_varint [0x10] (MsgCleanupMultisigProposalParams_ProposalId x) ;;
  api_put_string [0xa] (MsgCleanupMultisigProposalParams_MultisigAddress x)).
Definition MsgCleanupMultisigProposalParams_field (discard : bool) (n : Z) :
    option (field_reader MsgCleanupMultisigProposalParams) :=
  if n =? 1 then Some (string_field "MultisigAddress"
    (λ x v, mkMsgCleanupMultisigProposalParams v (MsgCleanupMultisigProposalParams_ProposalId x)
      (MsgCleanupMultisigProposalParams_Remover x) (MsgCleanupMultisigProposalParams_unknownFields
      x))) else
  if n =? 2 then Some (varint_field "ProposalId" wrap_u64
    (λ x v, mkMsgCleanupMultisigProposalParams (MsgCleanupMultisigProposalParams_MultisigAddress
      x) v (MsgCleanupMultisigProposalParams_Remover x)
      (MsgCleanupMultisigProposalParams_unknownFields x))) else
  if n =? 3 then Some (string_field "Remover"
    (λ x v, mkMsgCleanupMultisigProposalParams (MsgCleanupMultisigProposalParams_MultisigAddress
      x) (MsgCleanupMultisigProposalParams_ProposalId x) v
      (MsgCleanupMultisigProposalParams_unknownFields x))) else
  None.
Definition MsgCleanupMultisigProposalParams_unknown (x : MsgCleanupMultisigProposalParams)
    (bz : bytes) : MsgCleanupMultisigProposalParams :=
  mkMsgCleanupMultisigProposalParams (MsgCleanupMultisigProposalParams_MultisigAddress x)
    (MsgCleanupMultisigProposalParams_ProposalId x) (MsgCleanupMultisigProposalParams_Remover x)
    (MsgCleanupMultisigProposalParams_unknownFields x ++ bz).
Definition MsgCleanupMultisigProposalParams_unmarshal :
    unmarshal_closure MsgCleanupMultisigProposalParams :=
  closure_unmarshal "MsgCleanupMultisigProposalParams" MsgCleanupMultisigProposalParams_field
    MsgCleanupMultisigProposalParams_unknown.
#[export] Instance MsgCleanupMultisigProposalParams_methods :
    ProtoMethods MsgCleanupMultisigProposalParams := {|
  api_new := mkMsgCleanupMultisigProposalParams "" 0 "" [];
  api_size := MsgCleanupMultisigProposalParams_size;
  api_marshal := MsgCleanupMultisigProposalParams_marshal;
  api_unmarshal := MsgCleanupMultisigProposalParams_unmarshal;
|}.

(** [MsgCleanupMultisigProposalResponse] *)

Record MsgCleanupMultisigProposalResponse := mkMsgCleanupMultisigProposalResponse {
  MsgCleanupMultisigProposalResponse_unknownFields : bytes;
}.
Definition MsgCleanupMultisigProposalResponse_size :
    size_closure MsgCleanupMultisigProposalResponse := closure_size (λ x,
  len (MsgCleanupMultisigProposalResponse_unknownFields x)).
Definition MsgCleanupMultisigProposalResponse_marshal :
    marshal_closure MsgCleanupMultisigProposalResponse :=
    closure_marshal MsgCleanupMultisigProposalResponse_size (λ x,
  put_copy (MsgCleanupMultisigProposalResponse_unknownFields x)).
Definition MsgCleanupMultisigProposalResponse_field (discard : bool) (n : Z) :
    option (field_reader MsgCleanupMultisigProposalResponse) :=
  None.
Definition MsgCleanupMultisigProposalResponse_unknown (x : MsgCleanupMultisigProposalResponse)
    (bz : bytes) : MsgCleanupMultisigProposalResponse :=
  mkMsgCleanupMultisigProposalResponse (MsgCleanupMultisigProposalResponse_unknownFields x ++ bz).
Definition MsgCleanupMultisigProposalResponse_unmarshal :
    unmarshal_closure MsgCleanupMultisigProposalResponse :=
  closure_unmarshal "MsgCleanupMultisigProposalResponse" MsgCleanupMultisigProposalResponse_field
    MsgCleanupMultisigProposalResponse_unknown.
#[export] Instance MsgCleanupMultisigProposalResponse_methods :
    ProtoMethods MsgCleanupMultisigProposalResponse := {|
  api_new := mkMsgCleanupMultisigProposalResponse [];
  api_size := MsgCleanupMultisigProposalResponse_size;
  api_marshal := MsgCleanupMultisigProposalResponse_marshal;
  api_unmarshal := MsgCleanupMultisigProposalResponse_unmarshal;
|}.

(** [Module] *)

Record Module := mkModule { Module_unknownFields : bytes }.
Definition Module_size : size_closure Module := closure_size (λ x, len (Module_unknownFields x)).
Definition Module_marshal : marshal_closure Module := closure_marshal Module_size (λ x,
  put_copy (Module_unknownFields x)).
Definition Module_field (discard : bool) (n : Z) : option (field_reader Module) :=
  None.
Definition Module_unknown (x : Module) (bz : bytes) : Module :=
  mkModule (Module_unknownFields x ++ bz).
Definition Module_unmarshal : unmarshal_closure Module :=
  closure_unmarshal "Module" Module_field Module_unknown.
#[export] Instance Module_methods : ProtoMethods Module := {|
  api_new := mkModule [];
  api_size := Module_size;
  api_marshal := Module_marshal;
  api_unmarshal := Module_unmarshal;
|}.
End messages.

(** ** Laws *)

Section laws.
Context `{PulsarRuntimeLaws} `{CosmosApi} `{!CosmosApiLaws}.

Definition Params_encode (x : Params) : bytes :=
  enc_bool [0x10] (Params_SomeValue x) ++ Params_unknownFields x.
Definition Params_ok (discard : bool) (x : Params) : Prop :=
  kept_fields Params_field discard (Params_unknownFields x).
#[export] Instance Params_laws : ApiLaws Params.
Proof.
  solve_api_message Params_encode Params_ok Params_field Params_unknown.
Defined.

Definition GenesisState_encode (x : GenesisState) : bytes :=
  enc_api_message [0xa] (GenesisState_Params x) ++ GenesisState_unknownFields x.
Definition GenesisState_ok (discard : bool) (x : GenesisState) : Prop :=
  api_option_ok discard (GenesisState_Params x) ∧
  kept_fields GenesisState_field discard (GenesisState_unknownFields x).
#[export] Instance GenesisState_laws : ApiLaws GenesisState.
Proof.
  solve_api_message GenesisState_encode GenesisState_ok GenesisState_field GenesisState_unknown.
Defined.

Definition MultisigAccountDetails_encode (x : MultisigAccountDetails) : bytes :=
  enc_bytess [0xa] (MultisigAccountDetails_Signers x) ++
  enc_varint [0x10] (MultisigAccountDetails_Threshold x) ++
  enc_varint [0x18] (MultisigAccountDetails_Permission x) ++
  MultisigAccountDetails_unknownFields x.
Definition MultisigAccountDetails_ok (discard : bool) (x : MultisigAccountDetails) : Prop :=
  is_u32 (MultisigAccountDetails_Threshold x) ∧ is_i32 (MultisigAccountDetails_Permission x) ∧
  kept_fields MultisigAccountDetails_field discard (MultisigAccountDetails_unknownFields x).
#[export] Instance MultisigAccountDetails_laws : ApiLaws MultisigAccountDetails.
Proof.
  solve_api_message MultisigAccountDetails_encode MultisigAccountDetails_ok
    MultisigAccountDetails_field MultisigAccountDetails_unknown.
Defined.

Definition Proposal_encode (x : Proposal) : bytes :=
  enc_varint [0x8] (Proposal_Id x) ++ enc_bytes [0x12] (Proposal_MultisigAddress x) ++
  enc_bytes [0x1a] (Proposal_CallHash x) ++ enc_bytes [0x22] (Proposal_Depositor x) ++
  enc_varint [0x28] (Proposal_Deposit x) ++ enc_bytess [0x32] (Proposal_Approvals x) ++
  Proposal_unknownFields x.
Definition Proposal_ok (discard : bool) (x : Proposal) : Prop :=
  is_u64 (Proposal_Id x) ∧ is_u64 (Proposal_Deposit x) ∧
  kept_fields Proposal_field discard (Proposal_unknownFields x).
#[export] Instance Proposal_laws : ApiLaws Proposal.
Proof.
  solve_api_message Proposal_encode Proposal_ok Proposal_field Proposal_unknown.
Defined.

Definition QueryParamsRequest_encode (x : QueryParamsRequest) : bytes :=
  QueryParamsRequest_unknownFields x.
Definition QueryParamsRequest_ok (discard : bool) (x : QueryParamsRequest) : Prop :=
  kept_fields QueryParamsRequest_field discard (QueryParamsRequest_unknownFields x).
#[export] Instance QueryParamsRequest_laws : ApiLaws QueryParamsRequest.
Proof.
  solve_api_message QueryParamsRequest_encode QueryParamsRequest_ok QueryParamsRequest_field
    QueryParamsRequest_unknown.
Defined.

Definition QueryParamsResponse_encode (x : QueryParamsResponse) : bytes :=
  enc_api_message [0xa] (QueryParamsResponse_Params x) ++ QueryParamsResponse_unknownFields x.
Definition QueryParamsResponse_ok (discard : bool) (x : QueryParamsResponse) : Prop :=
  api_option_ok discard (QueryParamsResponse_Params x) ∧
  kept_fields QueryParamsResponse_field discard (QueryParamsResponse_unknownFields x).
#[export] Instance QueryParamsResponse_laws : ApiLaws QueryParamsResponse.
Proof.
  solve_api_message QueryParamsResponse_encode QueryParamsResponse_ok QueryParamsResponse_field
    QueryParamsResponse_unknown.
Defined.

Definition MsgUpdateParams_encode (x : MsgUpdateParams) : bytes :=
  enc_string [0xa] (MsgUpdateParams_Authority x) ++
  enc_api_message [0x12] (MsgUpdateParams_Params x) ++ MsgUpdateParams_unknownFields x.
Definition MsgUpdateParams_ok (discard : bool) (x : MsgUpdateParams) : Prop :=
  api_option_ok discard (MsgUpdateParams_Params x) ∧
  kept_fields MsgUpdateParams_field discard (MsgUpdateParams_unknownFields x).
#[export] Instance MsgUpdateParams_laws : ApiLaws MsgUpdateParams.
Proof.
  solve_api_message MsgUpdateParams_encode MsgUpdateParams_ok MsgUpdateParams_field
    MsgUpdateParams_unknown.
Defined.

Definition MsgUpdateParamsResponse_encode (x : MsgUpdateParamsResponse) : bytes :=
  MsgUpdateParamsResponse_unknownFields x.
Definition MsgUpdateParamsResponse_ok (discard : bool) (x : MsgUpdateParamsResponse) : Prop :=
  kept_fields MsgUpdateParamsResponse_field discard (MsgUpdateParamsResponse_unknownFields x).
#[export] Instance MsgUpdateParamsResponse_laws : ApiLaws MsgUpdateParamsResponse.
Proof.
  solve_api_message MsgUpdateParamsResponse_encode MsgUpdateParamsResponse_ok
    MsgUpdateParamsResponse_field MsgUpdateParamsResponse_unknown.
Defined.

Definition MsgCreateMultisigAccountParams_encode (x : MsgCreateMultisigAccountParams) : bytes :=
  enc_string [0xa] (MsgCreateMultisigAccountParams_Authority x) ++
  enc_varint [0x10] (MsgCreateMultisigAccountParams_Seed x) ++
  enc_varint [0x18] (MsgCreateMultisigAccountParams_Threshold x) ++
  enc_bytess [0x22] (MsgCreateMultisigAccountParams_Signers x) ++
  enc_varint [0x28] (MsgCreateMultisigAccountParams_Permission x) ++
  MsgCreateMultisigAccountParams_unknownFields x.
Definition MsgCreateMultisigAccountParams_ok (discard : bool) (x : MsgCreateMultisigAccountParams) :
    Prop :=
  is_u32 (MsgCreateMultisigAccountParams_Seed x) ∧
  is_u32 (MsgCreateMultisigAccountParams_Threshold x) ∧
  is_i32 (MsgCreateMultisigAccountParams_Permission x) ∧
  kept_fields MsgCreateMultisigAccountParams_field discard
    (MsgCreateMultisigAccountParams_unknownFields x).
#[export] Instance MsgCreateMultisigAccountParams_laws : ApiLaws MsgCreateMultisigAccountParams.
Proof.
  solve_api_message MsgCreateMultisigAccountParams_encode MsgCreateMultisigAccountParams_ok
    MsgCreateMultisigAccountParams_field MsgCreateMultisigAccountParams_unknown.
Defined.

Definition MsgCreateMultisigAccountResponse_encode (x : MsgCreateMultisigAccountResponse) :
    bytes :=
  enc_string [0xa] (MsgCreateMultisigAccountResponse_MultisigAddress x) ++
  MsgCreateMultisigAccountResponse_unknownFields x.
Definition MsgCreateMultisigAccountResponse_ok (discard : bool) (x : MsgCreateMultisigAccountResponse) : Prop :=
  kept_fields MsgCreateMultisigAccountResponse_field discard
    (MsgCreateMultisigAccountResponse_unknownFields x).
#[export] Instance MsgCreateMultisigAccountResponse_laws : ApiLaws MsgCreateMultisigAccountResponse.
Proof.
  solve_api_message MsgCreateMultisigAccountResponse_encode MsgCreateMultisigAccountResponse_ok
    MsgCreateMultisigAccountResponse_field MsgCreateMultisigAccountResponse_unknown.
Defined.

Definition MsgAddMultisigSignerParams_encode (x : MsgAddMultisigSignerParams) : bytes :=
  enc_string [0xa] (MsgAddMultisigSignerParams_MultisigAddress x) ++
  enc_string [0x12] (MsgAddMultisigSignerParams_Signer x) ++
  enc_varint [0x18] (MsgAddMultisigSignerParams_NewThreshold x) ++
  MsgAddMultisigSignerParams_unknownFields x.
Definition MsgAddMultisigSignerParams_ok (discard : bool) (x : MsgAddMultisigSignerParams) :
    Prop :=
  is_u32 (MsgAddMultisigSignerParams_NewThreshold x) ∧
  kept_fields MsgAddMultisigSignerParams_field discard (MsgAddMultisigSignerParams_unknownFields x).
#[export] Instance MsgAddMultisigSignerParams_laws : ApiLaws MsgAddMultisigSignerParams.
Proof.
  solve_api_message MsgAddMultisigSignerParams_encode MsgAddMultisigSignerParams_ok
    MsgAddMultisigSignerParams_field MsgAddMultisigSignerParams_unknown.
Defined.

Definition MsgAddMultisigSignerResponse_encode (x : MsgAddMultisigSignerResponse) : bytes :=
  MsgAddMultisigSignerResponse_unknownFields x.
Definition MsgAddMultisigSignerResponse_ok (discard : bool) (x : MsgAddMultisigSignerResponse) :
    Prop :=
  kept_fields MsgAddMultisigSignerResponse_field discard (MsgAddMultisigSignerResponse_unknownFields
    x).
#[export] Instance MsgAddMultisigSignerResponse_laws : ApiLaws MsgAddMultisigSignerResponse.
Proof.
  solve_api_message MsgAddMultisigSignerResponse_encode MsgAddMultisigSignerResponse_ok
    MsgAddMultisigSignerResponse_field MsgAddMultisigSignerResponse_unknown.
Defined.

Definition MsgCleanupMultisigAccountParams_encode (x : MsgCleanupMultisigAccountParams) : bytes :=
  enc_string [0xa] (MsgCleanupMultisigAccountParams_MultisigAddress x) ++
  MsgCleanupMultisigAccountParams_unknownFields x.
Definition MsgCleanupMultisigAccountParams_ok (discard : bool) (x : MsgCleanupMultisigAccountParams) : Prop :=
  kept_fields MsgCleanupMultisigAccountParams_field discard
    (MsgCleanupMultisigAccountParams_unknownFields x).
#[export] Instance MsgCleanupMultisigAccountParams_laws : ApiLaws MsgCleanupMultisigAccountParams.
Proof.
  solve_api_message MsgCleanupMultisigAccountParams_encode MsgCleanupMultisigAccountParams_ok
    MsgCleanupMultisigAccountParams_field MsgCleanupMultisigAccountParams_unknown.
Defined.

Definition MsgCleanupMultisigAccountResponse_encode (x : MsgCleanupMultisigAccountResponse) :
    bytes :=
  MsgCleanupMultisigAccountResponse_unknownFields x.
Definition MsgCleanupMultisigAccountResponse_ok (discard : bool) (x : MsgCleanupMultisigAccountResponse) : Prop :=
  kept_fields MsgCleanupMultisigAccountResponse_field discard
    (MsgCleanupMultisigAccountResponse_unknownFields x).
#[export] Instance MsgCleanupMultisigAccountResponse_laws : ApiLaws MsgCleanupMultisigAccountResponse.
Proof.
  solve_api_message MsgCleanupMultisigAccountResponse_encode MsgCleanupMultisigAccountResponse_ok
    MsgCleanupMultisigAccountResponse_field MsgCleanupMultisigAccountResponse_unknown.
Defined.

Definition MsgSetMultisigThresholdParams_encode (x : MsgSetMultisigThresholdParams) : bytes :=
  enc_string [0xa] (MsgSetMultisigThresholdParams_MultisigAddress x) ++
  enc_varint [0x10] (MsgSetMultisigThresholdParams_Threshold x) ++
  MsgSetMultisigThresholdParams_unknownFields x.
Definition MsgSetMultisigThresholdParams_ok (discard : bool) (x : MsgSetMultisigThresholdParams) :
    Prop :=
  is_u32 (MsgSetMultisigThresholdParams_Threshold x) ∧
  kept_fields MsgSetMultisigThresholdParams_field discard
    (MsgSetMultisigThresholdParams_unknownFields x).
#[export] Instance MsgSetMultisigThresholdParams_laws : ApiLaws MsgSetMultisigThresholdParams.
Proof.
  solve_api_message MsgSetMultisigThresholdParams_encode MsgSetMultisigThresholdParams_ok
    MsgSetMultisigThresholdParams_field MsgSetMultisigThresholdParams_unknown.
Defined.

Definition MsgSetMultisigThresholdResponse_encode (x : MsgSetMultisigThresholdResponse) : bytes :=
  MsgSetMultisigThresholdResponse_unknownFields x.
Definition MsgSetMultisigThresholdResponse_ok (discard : bool) (x : MsgSetMultisigThresholdResponse) : Prop :=
  kept_fields MsgSetMultisigThresholdResponse_field discard
    (MsgSetMultisigThresholdResponse_unknownFields x).
#[export] Instance MsgSetMultisigThresholdResponse_laws : ApiLaws MsgSetMultisigThresholdResponse.
Proof.
  solve_api_message MsgSetMultisigThresholdResponse_encode MsgSetMultisigThresholdResponse_ok
    MsgSetMultisigThresholdResponse_field MsgSetMultisigThresholdResponse_unknown.
Defined.

Definition MsgInitializeMultisigProposalParams_encode (x : MsgInitializeMultisigProposalParams) :
    bytes :=
  enc_string [0xa] (MsgInitializeMultisigProposalParams_MultisigAddress x) ++
  enc_string [0x12] (MsgInitializeMultisigProposalParams_Proposer x) ++
  enc_string [0x1a] (MsgInitializeMultisigProposalParams_Title x) ++
  enc_string [0x22] (MsgInitializeMultisigProposalParams_Description x) ++
  enc_api_message [0x2a] (MsgInitializeMultisigProposalParams_Message x) ++
  MsgInitializeMultisigProposalParams_unknownFields x.
Definition MsgInitializeMultisigProposalParams_ok (discard : bool) (x : MsgInitializeMultisigProposalParams) : Prop :=
  api_option_ok discard (MsgInitializeMultisigProposalParams_Message x) ∧
  kept_fields MsgInitializeMultisigProposalParams_field discard
    (MsgInitializeMultisigProposalParams_unknownFields x).
#[export] Instance MsgInitializeMultisigProposalParams_laws : ApiLaws MsgInitializeMultisigProposalParams.
Proof.
  solve_api_message MsgInitializeMultisigProposalParams_encode
    MsgInitializeMultisigProposalParams_ok MsgInitializeMultisigProposalParams_field
    MsgInitializeMultisigProposalParams_unknown.
Defined.

Definition MsgInitializeMultisigResponse_encode (x : MsgInitializeMultisigResponse) : bytes :=
  enc_varint [0x8] (MsgInitializeMultisigResponse_ProposalId x) ++
  MsgInitializeMultisigResponse_unknownFields x.
Definition MsgInitializeMultisigResponse_ok (discard : bool) (x : MsgInitializeMultisigResponse) :
    Prop :=
  is_u64 (MsgInitializeMultisigResponse_ProposalId x) ∧
  kept_fields MsgInitializeMultisigResponse_field discard
    (MsgInitializeMultisigResponse_unknownFields x).
#[export] Instance MsgInitializeMultisigResponse_laws : ApiLaws MsgInitializeMultisigResponse.
Proof.
  solve_api_message MsgInitializeMultisigResponse_encode MsgInitializeMultisigResponse_ok
    MsgInitializeMultisigResponse_field MsgInitializeMultisigResponse_unknown.
Defined.

Definition MsgApproveMultisigProposalParams_encode (x : MsgApproveMultisigProposalParams) :
    bytes :=
  enc_string [0xa] (MsgApproveMultisigProposalParams_MultisigAddress x) ++
  enc_varint [0x10] (MsgApproveMultisigProposalParams_ProposalId x) ++
  enc_string [0x1a] (MsgApproveMultisigProposalParams_Approver x) ++
  MsgApproveMultisigProposalParams_unknownFields x.
Definition MsgApproveMultisigProposalParams_ok (discard : bool) (x : MsgApproveMultisigProposalParams) : Prop :=
  is_u64 (MsgApproveMultisigProposalParams_ProposalId x) ∧
  kept_fields MsgApproveMultisigProposalParams_field discard
    (MsgApproveMultisigProposalParams_unknownFields x).
#[export] Instance MsgApproveMultisigProposalParams_laws : ApiLaws MsgApproveMultisigProposalParams.
Proof.
  solve_api_message MsgApproveMultisigProposalParams_encode MsgApproveMultisigProposalParams_ok
    MsgApproveMultisigProposalParams_field MsgApproveMultisigProposalParams_unknown.
Defined.

Definition MsgApproveMultisigProposalResponse_encode (x : MsgApproveMultisigProposalResponse) :
    bytes :=
  MsgApproveMultisigProposalResponse_unknownFields x.
Definition MsgApproveMultisigProposalResponse_ok (discard : bool) (x : MsgApproveMultisigProposalResponse) : Prop :=
  kept_fields MsgApproveMultisigProposalResponse_field discard
    (MsgApproveMultisigProposalResponse_unknownFields x).
#[export] Instance MsgApproveMultisigProposalResponse_laws : ApiLaws MsgApproveMultisigProposalResponse.
Proof.
  solve_api_message MsgApproveMultisigProposalResponse_encode
    MsgApproveMultisigProposalResponse_ok MsgApproveMultisigProposalResponse_field
    MsgApproveMultisigProposalResponse_unknown.
Defined.

Definition MsgApproveAndDispatchMultisigProposalParams_encode (x : MsgApproveAndDispatchMultisigProposalParams) : bytes :=
  enc_string [0xa] (MsgApproveAndDispatchMultisigProposalParams_MultisigAddress x) ++
  enc_varint [0x10] (MsgApproveAndDispatchMultisigProposalParams_ProposalId x) ++
  enc_string [0x1a] (MsgApproveAndDispatchMultisigProposalParams_Approver x) ++
  enc_api_message [0x2a] (MsgApproveAndDispatchMultisigProposalParams_Message x) ++
  MsgApproveAndDispatchMultisigProposalParams_unknownFields x.
Definition MsgApproveAndDispatchMultisigProposalParams_ok (discard : bool) (x : MsgApproveAndDispatchMultisigProposalParams) : Prop :=
  is_u64 (MsgApproveAndDispatchMultisigProposalParams_ProposalId x) ∧
  api_option_ok discard (MsgApproveAndDispatchMultisigProposalParams_Message x) ∧
  kept_fields MsgApproveAndDispatchMultisigProposalParams_field discard
    (MsgApproveAndDispatchMultisigProposalParams_unknownFields x).
#[export] Instance MsgApproveAndDispatchMultisigProposalParams_laws : ApiLaws MsgApproveAndDispatchMultisigProposalParams.
Proof.
  solve_api_message MsgApproveAndDispatchMultisigProposalParams_encode
    MsgApproveAndDispatchMultisigProposalParams_ok
    MsgApproveAndDispatchMultisigProposalParams_field
    MsgApproveAndDispatchMultisigProposalParams_unknown.
Defined.

Definition MsgApproveAndDispatchMultisigProposalResponse_encode (x : MsgApproveAndDispatchMultisigProposalResponse) : bytes :=
  enc_string [0xa] (MsgApproveAndDispatchMultisigProposalResponse_TransactionHash x) ++
  MsgApproveAndDispatchMultisigProposalResponse_unknownFields x.
Definition MsgApproveAndDispatchMultisigProposalResponse_ok (discard : bool) (x : MsgApproveAndDispatchMultisigProposalResponse) : Prop :=
  kept_fields MsgApproveAndDispatchMultisigProposalResponse_field discard
    (MsgApproveAndDispatchMultisigProposalResponse_unknownFields x).
#[export] Instance MsgApproveAndDispatchMultisigProposalResponse_laws : ApiLaws MsgApproveAndDispatchMultisigProposalResponse.
Proof.
  solve_api_message MsgApproveAndDispatchMultisigProposalResponse_encode
    MsgApproveAndDispatchMultisigProposalResponse_ok
    MsgApproveAndDispatchMultisigProposalResponse_field
    MsgApproveAndDispatchMultisigProposalResponse_unknown.
Defined.

Definition MsgCancelMultisigProposalParams_encode (x : MsgCancelMultisigProposalParams) : bytes :=
  enc_string [0xa] (MsgCancelMultisigProposalParams_MultisigAddress x) ++
  enc_varint [0x10] (MsgCancelMultisigProposalParams_ProposalId x) ++
  enc_string [0x1a] (MsgCancelMultisigProposalParams_Rejecter x) ++
  MsgCancelMultisigProposalParams_unknownFields x.
Definition MsgCancelMultisigProposalParams_ok (discard : bool) (x : MsgCancelMultisigProposalParams) : Prop :=
  is_u64 (MsgCancelMultisigProposalParams_ProposalId x) ∧
  kept_fields MsgCancelMultisigProposalParams_field discard
    (MsgCancelMultisigProposalParams_unknownFields x).
#[export] Instance MsgCancelMultisigProposalParams_laws : ApiLaws MsgCancelMultisigProposalParams.
Proof.
  solve_api_message MsgCancelMultisigProposalParams_encode MsgCancelMultisigProposalParams_ok
    MsgCancelMultisigProposalParams_field MsgCancelMultisigProposalParams_unknown.
Defined.

Definition MsgCancelMultisigProposalResponse_encode (x : MsgCancelMultisigProposalResponse) :
    bytes :=
  MsgCancelMultisigProposalResponse_unknownFields x.
Definition MsgCancelMultisigProposalResponse_ok (discard : bool) (x : MsgCancelMultisigProposalResponse) : Prop :=
  kept_fields MsgCancelMultisigProposalResponse_field discard
    (MsgCancelMultisigProposalResponse_unknownFields x).
#[export] Instance MsgCancelMultisigProposalResponse_laws : ApiLaws MsgCancelMultisigProposalResponse.
Proof.
  solve_api_message MsgCancelMultisigProposalResponse_encode MsgCancelMultisigProposalResponse_ok
    MsgCancelMultisigProposalResponse_field MsgCancelMultisigProposalResponse_unknown.
Defined.

Definition MsgCleanupMultisigProposalParams_encode (x : MsgCleanupMultisigProposalParams) :
    bytes :=
  enc_string [0xa] (MsgCleanupMultisigProposalParams_MultisigAddress x) ++
  enc_varint [0x10] (MsgCleanupMultisigProposalParams_ProposalId x) ++
  enc_string [0x1a] (MsgCleanupMultisigProposalParams_Remover x) ++
  MsgCleanupMultisigProposalParams_unknownFields x.
Definition MsgCleanupMultisigProposalParams_ok (discard : bool) (x : MsgCleanupMultisigProposalParams) : Prop :=
  is_u64 (MsgCleanupMultisigProposalParams_ProposalId x) ∧
  kept_fields MsgCleanupMultisigProposalParams_field discard
    (MsgCleanupMultisigProposalParams_unknownFields x).
#[export] Instance MsgCleanupMultisigProposalParams_laws : ApiLaws MsgCleanupMultisigProposalParams.
Proof.
  solve_api_message MsgCleanupMultisigProposalParams_encode MsgCleanupMultisigProposalParams_ok
    MsgCleanupMultisigProposalParams_field MsgCleanupMultisigProposalParams_unknown.
Defined.

Definition MsgCleanupMultisigProposalResponse_encode (x : MsgCleanupMultisigProposalResponse) :
    bytes :=
  MsgCleanupMultisigProposalResponse_unknownFields x.
Definition MsgCleanupMultisigProposalResponse_ok (discard : bool) (x : MsgCleanupMultisigProposalResponse) : Prop :=
  kept_fields MsgCleanupMultisigProposalResponse_field discard
    (MsgCleanupMultisigProposalResponse_unknownFields x).
#[export] Instance MsgCleanupMultisigProposalResponse_laws : ApiLaws MsgCleanupMultisigProposalResponse.
Proof.
  solve_api_message MsgCleanupMultisigProposalResponse_encode
    MsgCleanupMultisigProposalResponse_ok MsgCleanupMultisigProposalResponse_field
    MsgCleanupMultisigProposalResponse_unknown.
Defined.

Definition Module_encode (x : Module) : bytes := Module_unknownFields x.
Definition Module_ok (discard : bool) (x : Module) : Prop :=
  kept_fields Module_field discard (Module_unknownFields x).
#[export] Instance Module_laws : ApiLaws Module.
Proof.
  solve_api_message Module_encode Module_ok Module_field Module_unknown.
Defined.
End laws.
