(* ===== verification/ReflectOracle.v ===== *)
(** * ReflectOracle: the reflection of the structs of the oracle

    The [protoreflect] methods of the structs of ApiOracle, in
    [src/api/oracle/v1]: a definition per method, each field by
    the fragments of Reflect, and the table of the fields that the contract of
    ReflectLemmas is proved from. *)
From S2P Require Import Prelude Util Wire WireLemmas Pulsar PulsarLemmas Reflect ReflectLemmas ApiOracle.
Local Open Scope Z_scope.

(** ** Lists *)

Section lists.
Context `{CosmosApi}.

Record CurrencyPairProviders_3_list := mkCurrencyPairProviders_3_list {
  CurrencyPairProviders_3_list_slice : option (list (option PairAddressProvider));
}.
Record CurrencyPairProviders_4_list := mkCurrencyPairProviders_4_list {
  CurrencyPairProviders_4_list_slice : option (list string);
}.
Record Params_3_list := mkParams_3_list {
  Params_3_list_slice : option (list (option RewardBand));
}.
Record Params_5_list := mkParams_5_list { Params_5_list_slice : option (list (option Denom)) }.
Record Params_9_list := mkParams_9_list { Params_9_list_slice : option (list (option Denom)) }.
Record Params_14_list := mkParams_14_list {
  Params_14_list_slice : option (list (option CurrencyPairProviders));
}.
Record Params_15_list := mkParams_15_list {
  Params_15_list_slice : option (list (option CurrencyDeviationThreshold));
}.
Record AggregateExchangeRateVote_1_list := mkAggregateExchangeRateVote_1_list {
  AggregateExchangeRateVote_1_list_slice : option (list (option v1beta1_DecCoin));
}.
Record ValidatorRewardSet_1_list := mkValidatorRewardSet_1_list {
  ValidatorRewardSet_1_list_slice : option (list string);
}.
Record ParamUpdatePlan_1_list := mkParamUpdatePlan_1_list {
  ParamUpdatePlan_1_list_slice : option (list string);
}.
Record OracleVoteExtension_2_list := mkOracleVoteExtension_2_list {
  OracleVoteExtension_2_list_slice : option (list (option v1beta1_DecCoin));
}.
Record InjectedVoteExtensionTx_1_list := mkInjectedVoteExtensionTx_1_list {
  InjectedVoteExtensionTx_1_list_slice : option (list (option AggregateExchangeRateVote));
}.
Record GenesisState_2_list := mkGenesisState_2_list {
  GenesisState_2_list_slice : option (list (option FeederDelegation));
}.
Record GenesisState_3_list := mkGenesisState_3_list {
  GenesisState_3_list_slice : option (list (option v1beta1_DecCoin));
}.
Record GenesisState_4_list := mkGenesisState_4_list {
  GenesisState_4_list_slice : option (list (option MissCounter));
}.
Record GenesisState_5_list := mkGenesisState_5_list {
  GenesisState_5_list_slice : option (list (option AggregateExchangeRatePrevote));
}.
Record GenesisState_6_list := mkGenesisState_6_list {
  GenesisState_6_list_slice : option (list (option AggregateExchangeRateVote));
}.
Record GenesisState_7_list := mkGenesisState_7_list {
  GenesisState_7_list_slice : option (list (option PriceStamp));
}.
Record GenesisState_8_list := mkGenesisState_8_list {
  GenesisState_8_list_slice : option (list (option PriceStamp));
}.
Record GenesisState_9_list := mkGenesisState_9_list {
  GenesisState_9_list_slice : option (list (option PriceStamp));
}.
End lists.

(** ** Values of these types *)

Class OracleValues `{CosmosApi} `{ProtoReflect} := {
  RewardBand_value :: MessageValue RewardBand;
  Denom_value :: MessageValue Denom;
  CurrencyPairProviders_value :: MessageValue CurrencyPairProviders;
  CurrencyDeviationThreshold_value :: MessageValue CurrencyDeviationThreshold;
  v1beta1_DecCoin_value :: MessageValue v1beta1_DecCoin;
  PairAddressProvider_value :: MessageValue PairAddressProvider;
  Params_value :: MessageValue Params;
  AggregateExchangeRateVote_value :: MessageValue AggregateExchangeRateVote;
  FeederDelegation_value :: MessageValue FeederDelegation;
  MissCounter_value :: MessageValue MissCounter;
  AggregateExchangeRatePrevote_value :: MessageValue AggregateExchangeRatePrevote;
  PriceStamp_value :: MessageValue PriceStamp;
  CurrencyPairProviders_3_list_value :: ListValue CurrencyPairProviders_3_list;
  CurrencyPairProviders_4_list_value :: ListValue CurrencyPairProviders_4_list;
  Params_3_list_value :: ListValue Params_3_list;
  Params_5_list_value :: ListValue Params_5_list;
  Params_9_list_value :: ListValue Params_9_list;
  Params_14_list_value :: ListValue Params_14_list;
  Params_15_list_value :: ListValue Params_15_list;
  AggregateExchangeRateVote_1_list_value :: ListValue AggregateExchangeRateVote_1_list;
  ValidatorRewardSet_1_list_value :: ListValue ValidatorRewardSet_1_list;
  ParamUpdatePlan_1_list_value :: ListValue ParamUpdatePlan_1_list;
  OracleVoteExtension_2_list_value :: ListValue OracleVoteExtension_2_list;
  InjectedVoteExtensionTx_1_list_value :: ListValue InjectedVoteExtensionTx_1_list;
  GenesisState_2_list_value :: ListValue GenesisState_2_list;
  GenesisState_3_list_value :: ListValue GenesisState_3_list;
  GenesisState_4_list_value :: ListValue GenesisState_4_list;
  GenesisState_5_list_value :: ListValue GenesisState_5_list;
  GenesisState_6_list_value :: ListValue GenesisState_6_list;
  GenesisState_7_list_value :: ListValue GenesisState_7_list;
  GenesisState_8_list_value :: ListValue GenesisState_8_list;
  GenesisState_9_list_value :: ListValue GenesisState_9_list;
}.

(** ** Methods *)

Section methods.
Context `{PulsarRuntime} `{CosmosApi} `{ProtoReflect} `{!OracleValues}.

(** [RewardBand] *)

Definition fd_RewardBand_symbol_denom : FieldDescriptor :=
  mkField "oracle.v1.RewardBand.symbol_denom" 1 StringKind false.
Definition fd_RewardBand_reward_band : FieldDescriptor :=
  mkField "oracle.v1.RewardBand.reward_band" 2 StringKind false.
Definition RewardBand_descriptor : list FieldDescriptor := [
  fd_RewardBand_symbol_denom; fd_RewardBand_reward_band].
Definition RewardBand_with_SymbolDenom (x : RewardBand) (v : string) : RewardBand :=
  mkRewardBand v (RewardBand_RewardBand x) (RewardBand_unknownFields x).
Definition RewardBand_with_RewardBand (x : RewardBand) (v : string) : RewardBand :=
  mkRewardBand (RewardBand_SymbolDenom x) v (RewardBand_unknownFields x).
Definition RewardBand_GetSymbolDenom : option RewardBand → string :=
  getter ""%string RewardBand_SymbolDenom.
Definition RewardBand_GetRewardBand : option RewardBand → string :=
  getter ""%string RewardBand_RewardBand.
Definition RewardBand_Range {S} (x : option RewardBand) (f : FieldDescriptor → Value → M S bool) :
    M S () :=
  x ← lift (or_panic x);
  range_fields f [
    (has_string (RewardBand_SymbolDenom x), fd_RewardBand_symbol_denom, ValueOfString
       (RewardBand_SymbolDenom x));
    (has_string (RewardBand_RewardBand x), fd_RewardBand_reward_band, ValueOfString
       (RewardBand_RewardBand x))].
Definition RewardBand_Has (x : option RewardBand) (fd : FieldDescriptor) : outcome bool :=
  x ← or_panic x;
  field_switch fd [
    ("oracle.v1.RewardBand.symbol_denom"%string, Ok (has_string (RewardBand_SymbolDenom x)));
    ("oracle.v1.RewardBand.reward_band"%string, Ok (has_string (RewardBand_RewardBand x)))].
Definition RewardBand_Clear (x : option RewardBand) (fd : FieldDescriptor) : outcome RewardBand :=
  x ← or_panic x;
  field_switch fd [
    ("oracle.v1.RewardBand.symbol_denom"%string, Ok (RewardBand_with_SymbolDenom x ""%string));
    ("oracle.v1.RewardBand.reward_band"%string, Ok (RewardBand_with_RewardBand x ""%string))].
Definition RewardBand_Get (x : option RewardBand) (fd : FieldDescriptor) : outcome Value :=
  x ← or_panic x;
  field_switch fd [
    ("oracle.v1.RewardBand.symbol_denom"%string, Ok (ValueOfString (RewardBand_SymbolDenom x)));
    ("oracle.v1.RewardBand.reward_band"%string, Ok (ValueOfString (RewardBand_RewardBand x)))].
Definition RewardBand_Set (x : option RewardBand) (fd : FieldDescriptor) (value : Value) : outcome
    RewardBand :=
  x ← or_panic x;
  field_switch fd [
    ("oracle.v1.RewardBand.symbol_denom"%string, set_string (RewardBand_with_SymbolDenom x) value);
    ("oracle.v1.RewardBand.reward_band"%string, set_string (RewardBand_with_RewardBand x) value)].
Definition RewardBand_Mutable (x : option RewardBand) (fd : FieldDescriptor) : outcome
    (Value * RewardBand) :=
  x ← or_panic x;
  field_switch fd [
    ("oracle.v1.RewardBand.symbol_denom"%string, Panic);
    ("oracle.v1.RewardBand.reward_band"%string, Panic)].
Definition RewardBand_NewField (fd : FieldDescriptor) : outcome Value :=
  field_switch fd [
    ("oracle.v1.RewardBand.symbol_denom"%string, Ok (ValueOfString ""%string));
    ("oracle.v1.RewardBand.reward_band"%string, Ok (ValueOfString ""%string))].
Definition RewardBand_set_unknown (x : RewardBand) (fields : bytes) : RewardBand :=
  mkRewardBand (RewardBand_SymbolDenom x) (RewardBand_RewardBand x) fields.
#[export] Instance RewardBand_reflect : MessageReflect RewardBand := {|
  Range S := RewardBand_Range;
  Has := RewardBand_Has;
  Clear := RewardBand_Clear;
  Get := RewardBand_Get;
  Set_ := RewardBand_Set;
  Mutable := RewardBand_Mutable;
  NewField := RewardBand_NewField;
  Descriptor := RewardBand_descriptor;
  GetUnknown x := x ← or_panic x; Ok (RewardBand_unknownFields x);
  SetUnknown x fields := x ← or_panic x; Ok (RewardBand_set_unknown x fields);
|}.

(** [Denom] *)

Definition fd_Denom_base_denom : FieldDescriptor :=
  mkField "oracle.v1.Denom.base_denom" 1 StringKind false.
Definition fd_Denom_symbol_denom : FieldDescriptor :=
  mkField "oracle.v1.Denom.symbol_denom" 2 StringKind false.
Definition fd_Denom_exponent : FieldDescriptor :=
  mkField "oracle.v1.Denom.exponent" 3 Uint32Kind false.
Definition Denom_descriptor : list FieldDescriptor := [
  fd_Denom_base_denom; fd_Denom_symbol_denom; fd_Denom_exponent].
Definition Denom_with_BaseDenom (x : Denom) (v : string) : Denom :=
  mkDenom v (Denom_SymbolDenom x) (Denom_Exponent x) (Denom_unknownFields x).
Definition Denom_with_SymbolDenom (x : Denom) (v : string) : Denom :=
  mkDenom (Denom_BaseDenom x) v (Denom_Exponent x) (Denom_unknownFields x).
Definition Denom_with_Exponent (x : Denom) (v : Z) : Denom :=
  mkDenom (Denom_BaseDenom x) (Denom_SymbolDenom x) v (Denom_unknownFields x).
Definition Denom_GetBaseDenom : option Denom → string :=
  getter ""%string Denom_BaseDenom.
Definition Denom_GetSymbolDenom : option Denom → string :=
  getter ""%string Denom_SymbolDenom.
Definition Denom_GetExponent : option Denom → Z :=
  getter 0 Denom_Exponent.
Definition Denom_Range {S} (x : option Denom) (f : FieldDescriptor → Value → M S bool) : M S () :=
  x ← lift (or_panic x);
  range_fields f [
    (has_string (Denom_BaseDenom x), fd_Denom_base_denom, ValueOfString (Denom_BaseDenom x));
    (has_string (Denom_SymbolDenom x), fd_Denom_symbol_denom, ValueOfString (Denom_SymbolDenom x));
    (has_int (Denom_Exponent x), fd_Denom_exponent, ValueOfUint32 (Denom_Exponent x))].
Definition Denom_Has (x : option Denom) (fd : FieldDescriptor) : outcome bool :=
  x ← or_panic x;
  field_switch fd [
    ("oracle.v1.Denom.base_denom"%string, Ok (has_string (Denom_BaseDenom x)));
    ("oracle.v1.Denom.symbol_denom"%string, Ok (has_string (Denom_SymbolDenom x)));
    ("oracle.v1.Denom.exponent"%string, Ok (has_int (Denom_Exponent x)))].
Definition Denom_Clear (x : option Denom) (fd : FieldDescriptor) : outcome Denom :=
  x ← or_panic x;
  field_switch fd [
    ("oracle.v1.Denom.base_denom"%string, Ok (Denom_with_BaseDenom x ""%string));
    ("oracle.v1.Denom.symbol_denom"%string, Ok (Denom_with_SymbolDenom x ""%string));
    ("oracle.v1.Denom.exponent"%string, Ok (Denom_with_Exponent x 0))].
Definition Denom_Get (x : option Denom) (fd : FieldDescriptor) : outcome Value :=
  x ← or_panic x;
  field_switch fd [
    ("oracle.v1.Denom.base_denom"%string, Ok (ValueOfString (Denom_BaseDenom x)));
    ("oracle.v1.Denom.symbol_denom"%string, Ok (ValueOfString (Denom_SymbolDenom x)));
    ("oracle.v1.Denom.exponent"%string, Ok (ValueOfUint32 (Denom_Exponent x)))].
Definition Denom_Set (x : option Denom) (fd : FieldDescriptor) (value : Value) : outcome Denom :=
  x ← or_panic x;
  field_switch fd [
    ("oracle.v1.Denom.base_denom"%string, set_string (Denom_with_BaseDenom x) value);
    ("oracle.v1.Denom.symbol_denom"%string, set_string (Denom_with_SymbolDenom x) value);
    ("oracle.v1.Denom.exponent"%string, set_uint32 (Denom_with_Exponent x) value)].
Definition Denom_Mutable (x : option Denom) (fd : FieldDescriptor) : outcome (Value * Denom) :=
  x ← or_panic x;
  field_switch fd [
    ("oracle.v1.Denom.base_denom"%string, Panic); ("oracle.v1.Denom.symbol_denom"%string, Panic);
    ("oracle.v1.Denom.exponent"%string, Panic)].
Definition Denom_NewField (fd : FieldDescriptor) : outcome Value :=
  field_switch fd [
    ("oracle.v1.Denom.base_denom"%string, Ok (ValueOfString ""%string));
    ("oracle.v1.Denom.symbol_denom"%string, Ok (ValueOfString ""%string));
    ("oracle.v1.Denom.exponent"%string, Ok (ValueOfUint32 0))].
Definition Denom_set_unknown (x : Denom) (fields : bytes) : Denom :=
  mkDenom (Denom_BaseDenom x) (Denom_SymbolDenom x) (Denom_Exponent x) fields.
#[export] Instance Denom_reflect : MessageReflect Denom := {|
  Range S := Denom_Range;
  Has := Denom_Has;
  Clear := Denom_Clear;
  Get := Denom_Get;
  Set_ := Denom_Set;
  Mutable := Denom_Mutable;
  NewField := Denom_NewField;
  Descriptor := Denom_descriptor;
  GetUnknown x := x ← or_panic x; Ok (Denom_unknownFields x);
  SetUnknown x fields := x ← or_panic x; Ok (Denom_set_unknown x fields);
|}.

(** [PairAddressProvider] *)

Definition fd_PairAddressProvider_address : FieldDescriptor :=
  mkField "oracle.v1.PairAddressProvider.address" 1 StringKind false.
Definition fd_PairAddressProvider_address_provider : FieldDescriptor :=
  mkField "oracle.v1.PairAddressProvider.address_provider" 2 StringKind false.
Definition PairAddressProvider_descriptor : list FieldDescriptor := [
  fd_PairAddressProvider_address; fd_PairAddressProvider_address_provider].
Definition PairAddressProvider_with_Address (x : PairAddressProvider) (v : string) :
    PairAddressProvider :=
  mkPairAddressProvider v (PairAddressProvider_AddressProvider x)
    (PairAddressProvider_unknownFields x).
Definition PairAddressProvider_with_AddressProvider (x : PairAddressProvider) (v : string) :
    PairAddressProvider :=
  mkPairAddressProvider (PairAddressProvider_Address x) v (PairAddressProvider_unknownFields x).
Definition PairAddressProvider_GetAddress : option PairAddressProvider → string :=
  getter ""%string PairAddressProvider_Address.
Definition PairAddressProvider_GetAddressProvider : option PairAddressProvider → string :=
  getter ""%string PairAddressProvider_AddressProvider.
Definition PairAddressProvider_Range {S} (x : option PairAddressProvider)
    (f : FieldDescriptor → Value → M S bool) : M S () :=
  x ← lift (or_panic x);
  range_fields f [
    (has_string (PairAddressProvider_Address x), fd_PairAddressProvider_address, ValueOfString
       (PairAddressProvider_Address x));
    (has_string (PairAddressProvider_AddressProvider x), fd_PairAddressProvider_address_provider,
       ValueOfString (PairAddressProvider_AddressProvider x))].
Definition PairAddressProvider_Has (x : option PairAddressProvider) (fd : FieldDescriptor) :
    outcome bool :=
  x ← or_panic x;
  field_switch fd [
    ("oracle.v1.PairAddressProvider.address"%string,
      Ok (has_string (PairAddressProvider_Address x)));
    ("oracle.v1.PairAddressProvider.address_provider"%string,
      Ok (has_string (PairAddressProvider_AddressProvider x)))].
Definition PairAddressProvider_Clear (x : option PairAddressProvider) (fd : FieldDescriptor) :
    outcome PairAddressProvider :=
  x ← or_panic x;
  field_switch fd [
    ("oracle.v1.PairAddressProvider.address"%string,
      Ok (PairAddressProvider_with_Address x ""%string));
    ("oracle.v1.PairAddressProvider.address_provider"%string,
      Ok (PairAddressProvider_with_AddressProvider x ""%string))].
Definition PairAddressProvider_Get (x : option PairAddressProvider) (fd : FieldDescriptor) :
    outcome Value :=
  x ← or_panic x;
  field_switch fd [
    ("oracle.v1.PairAddressProvider.address"%string,
      Ok (ValueOfString (PairAddressProvider_Address x)));
    ("oracle.v1.PairAddressProvider.address_provider"%string,
      Ok (ValueOfString (PairAddressProvider_AddressProvider x)))].
Definition PairAddressProvider_Set (x : option PairAddressProvider) (fd : FieldDescriptor)
    (value : Value) : outcome PairAddressProvider :=
  x ← or_panic x;
  field_switch fd [
    ("oracle.v1.PairAddressProvider.address"%string,
      set_string (PairAddressProvider_with_Address x) value);
    ("oracle.v1.PairAddressProvider.address_provider"%string,
      set_string (PairAddressProvider_with_AddressProvider x) value)].
Definition PairAddressProvider_Mutable (x : option PairAddressProvider) (fd : FieldDescriptor) :
    outcome (Value * PairAddressProvider) :=
  x ← or_panic x;
  field_switch fd [
    ("oracle.v1.PairAddressProvider.address"%string, Panic);
    ("oracle.v1.PairAddressProvider.address_provider"%string, Panic)].
Definition PairAddressProvider_NewField (fd : FieldDescriptor) : outcome Value :=
  field_switch fd [
    ("oracle.v1.PairAddressProvider.address"%string, Ok (ValueOfString ""%string));
    ("oracle.v1.PairAddressProvider.address_provider"%string, Ok (ValueOfString ""%string))].
Definition PairAddressProvider_set_unknown (x : PairAddressProvider) (fields : bytes) : PairAddressProvider :=
  mkPairAddressProvider (PairAddressProvider_Address x) (PairAddressProvider_AddressProvider x)
    fields.
#[export] Instance PairAddressProvider_reflect : MessageReflect PairAddressProvider := {|
  Range S := PairAddressProvider_Range;
  Has := PairAddressProvider_Has;
  Clear := PairAddressProvider_Clear;
  Get := PairAddressProvider_Get;
  Set_ := PairAddressProvider_Set;
  Mutable := PairAddressProvider_Mutable;
  NewField := PairAddressProvider_NewField;
  Descriptor := PairAddressProvider_descriptor;
  GetUnknown x := x ← or_panic x; Ok (PairAddressProvider_unknownFields x);
  SetUnknown x fields := x ← or_panic x; Ok (PairAddressProvider_set_unknown x fields);
|}.

(** [CurrencyPairProviders] *)

Definition fd_CurrencyPairProviders_base_denom : FieldDescriptor :=
  mkField "oracle.v1.CurrencyPairProviders.base_denom" 1 StringKind false.
Definition fd_CurrencyPairProviders_quote_denom : FieldDescriptor :=
  mkField "oracle.v1.CurrencyPairProviders.quote_denom" 2 StringKind false.
Definition fd_CurrencyPairProviders_pair_address : FieldDescriptor :=
  mkField "oracle.v1.CurrencyPairProviders.pair_address" 3 MessageKind true.
Definition fd_CurrencyPairProviders_providers : FieldDescriptor :=
  mkField "oracle.v1.CurrencyPairProviders.providers" 4 StringKind true.
Definition CurrencyPairProviders_descriptor : list FieldDescriptor := [
  fd_CurrencyPairProviders_base_denom; fd_CurrencyPairProviders_quote_denom;
  fd_CurrencyPairProviders_pair_address; fd_CurrencyPairProviders_providers].
Definition CurrencyPairProviders_with_BaseDenom (x : CurrencyPairProviders) (v : string) :
    CurrencyPairProviders :=
  mkCurrencyPairProviders v (CurrencyPairProviders_QuoteDenom x)
    (CurrencyPairProviders_PairAddress x) (CurrencyPairProviders_Providers x)
    (CurrencyPairProviders_unknownFields x).
Definition CurrencyPairProviders_with_QuoteDenom (x : CurrencyPairProviders) (v : string) :
    CurrencyPairProviders :=
  mkCurrencyPairProviders (CurrencyPairProviders_BaseDenom x) v (CurrencyPairProviders_PairAddress
    x) (CurrencyPairProviders_Providers x) (CurrencyPairProviders_unknownFields x).
Definition CurrencyPairProviders_with_PairAddress (x : CurrencyPairProviders)
    (v : list (option PairAddressProvider)) : CurrencyPairProviders :=
  mkCurrencyPairProviders (CurrencyPairProviders_BaseDenom x) (CurrencyPairProviders_QuoteDenom x)
    v (CurrencyPairProviders_Providers x) (CurrencyPairProviders_unknownFields x).
Definition CurrencyPairProviders_with_Providers (x : CurrencyPairProviders) (v : list string) :
    CurrencyPairProviders :=
  mkCurrencyPairProviders (CurrencyPairProviders_BaseDenom x) (CurrencyPairProviders_QuoteDenom x)
    (CurrencyPairProviders_PairAddress x) v (CurrencyPairProviders_unknownFields x).
Definition CurrencyPairProviders_GetBaseDenom : option CurrencyPairProviders → string :=
  getter ""%string CurrencyPairProviders_BaseDenom.
Definition CurrencyPairProviders_GetQuoteDenom : option CurrencyPairProviders → string :=
  getter ""%string CurrencyPairProviders_QuoteDenom.
Definition CurrencyPairProviders_GetPairAddress : option CurrencyPairProviders → list
    (option PairAddressProvider) :=
  getter [] CurrencyPairProviders_PairAddress.
Definition CurrencyPairProviders_GetProviders : option CurrencyPairProviders → list string :=
  getter [] CurrencyPairProviders_Providers.
#[export] Instance CurrencyPairProviders_3_list_methods : ProtoList CurrencyPairProviders_3_list :=
  message_list mkCurrencyPairProviders_3_list CurrencyPairProviders_3_list_slice.
#[export] Instance CurrencyPairProviders_4_list_methods : ProtoList CurrencyPairProviders_4_list :=
  string_list mkCurrencyPairProviders_4_list CurrencyPairProviders_4_list_slice.
Definition CurrencyPairProviders_Range {S} (x : option CurrencyPairProviders)
    (f : FieldDescriptor → Value → M S bool) : M S () :=
  x ← lift (or_panic x);
  range_fields f [
    (has_string (CurrencyPairProviders_BaseDenom x), fd_CurrencyPairProviders_base_denom,
       ValueOfString (CurrencyPairProviders_BaseDenom x));
    (has_string (CurrencyPairProviders_QuoteDenom x), fd_CurrencyPairProviders_quote_denom,
       ValueOfString (CurrencyPairProviders_QuoteDenom x));
    (has_slice (CurrencyPairProviders_PairAddress x), fd_CurrencyPairProviders_pair_address,
       ValueOfList (mkCurrencyPairProviders_3_list (Some (CurrencyPairProviders_PairAddress x))));
    (has_slice (CurrencyPairProviders_Providers x), fd_CurrencyPairProviders_providers, ValueOfList
       (mkCurrencyPairProviders_4_list (Some (CurrencyPairProviders_Providers x))))].
Definition CurrencyPairProviders_Has (x : option CurrencyPairProviders) (fd : FieldDescriptor) :
    outcome bool :=
  x ← or_panic x;
  field_switch fd [
    ("oracle.v1.CurrencyPairProviders.base_denom"%string,
      Ok (has_string (CurrencyPairProviders_BaseDenom x)));
    ("oracle.v1.CurrencyPairProviders.quote_denom"%string,
      Ok (has_string (CurrencyPairProviders_QuoteDenom x)));
    ("oracle.v1.CurrencyPairProviders.pair_address"%string,
      Ok (has_slice (CurrencyPairProviders_PairAddress x)));
    ("oracle.v1.CurrencyPairProviders.providers"%string,
      Ok (has_slice (CurrencyPairProviders_Providers x)))].
Definition CurrencyPairProviders_Clear (x : option CurrencyPairProviders) (fd : FieldDescriptor) :
    outcome CurrencyPairProviders :=
  x ← or_panic x;
  field_switch fd [
    ("oracle.v1.CurrencyPairProviders.base_denom"%string,
      Ok (CurrencyPairProviders_with_BaseDenom x ""%string));
    ("oracle.v1.CurrencyPairProviders.quote_denom"%string,
      Ok (CurrencyPairProviders_with_QuoteDenom x ""%string));
    ("oracle.v1.CurrencyPairProviders.pair_address"%string,
      Ok (CurrencyPairProviders_with_PairAddress x []));
    ("oracle.v1.CurrencyPairProviders.providers"%string,
      Ok (CurrencyPairProviders_with_Providers x []))].
Definition CurrencyPairProviders_Get (x : option CurrencyPairProviders) (fd : FieldDescriptor) :
    outcome Value :=
  x ← or_panic x;
  field_switch fd [
    ("oracle.v1.CurrencyPairProviders.base_denom"%string,
      Ok (ValueOfString (CurrencyPairProviders_BaseDenom x)));
    ("oracle.v1.CurrencyPairProviders.quote_denom"%string,
      Ok (ValueOfString (CurrencyPairProviders_QuoteDenom x)));
    ("oracle.v1.CurrencyPairProviders.pair_address"%string,
      Ok (get_list mkCurrencyPairProviders_3_list (CurrencyPairProviders_PairAddress x)));
    ("oracle.v1.CurrencyPairProviders.providers"%string,
      Ok (get_list mkCurrencyPairProviders_4_list (CurrencyPairProviders_Providers x)))].
Definition CurrencyPairProviders_Set (x : option CurrencyPairProviders) (fd : FieldDescriptor)
    (value : Value) : outcome CurrencyPairProviders :=
  x ← or_panic x;
  field_switch fd [
    ("oracle.v1.CurrencyPairProviders.base_denom"%string,
      set_string (CurrencyPairProviders_with_BaseDenom x) value);
    ("oracle.v1.CurrencyPairProviders.quote_denom"%string,
      set_string (CurrencyPairProviders_with_QuoteDenom x) value);
    ("oracle.v1.CurrencyPairProviders.pair_address"%string,
      set_list CurrencyPairProviders_3_list_slice (CurrencyPairProviders_with_PairAddress x)
        value);
    ("oracle.v1.CurrencyPairProviders.providers"%string,
      set_list CurrencyPairProviders_4_list_slice (CurrencyPairProviders_with_Providers x) value)].
Definition CurrencyPairProviders_Mutable (x : option CurrencyPairProviders) (fd : FieldDescriptor)
    : outcome (Value * CurrencyPairProviders) :=
  x ← or_panic x;
  field_switch fd [
    ("oracle.v1.CurrencyPairProviders.pair_address"%string,
      mutable_list mkCurrencyPairProviders_3_list x (CurrencyPairProviders_PairAddress x));
    ("oracle.v1.CurrencyPairProviders.providers"%string,
      mutable_list mkCurrencyPairProviders_4_list x (CurrencyPairProviders_Providers x));
    ("oracle.v1.CurrencyPairProviders.base_denom"%string, Panic);
    ("oracle.v1.CurrencyPairProviders.quote_denom"%string, Panic)].
Definition CurrencyPairProviders_NewField (fd : FieldDescriptor) : outcome Value :=
  field_switch fd [
    ("oracle.v1.CurrencyPairProviders.base_denom"%string, Ok (ValueOfString ""%string));
    ("oracle.v1.CurrencyPairProviders.quote_denom"%string, Ok (ValueOfString ""%string));
    ("oracle.v1.CurrencyPairProviders.pair_address"%string,
      new_list mkCurrencyPairProviders_3_list);
    ("oracle.v1.CurrencyPairProviders.providers"%string, new_list mkCurrencyPairProviders_4_list)].
Definition CurrencyPairProviders_set_unknown (x : CurrencyPairProviders) (fields : bytes) : CurrencyPairProviders :=
  mkCurrencyPairProviders (CurrencyPairProviders_BaseDenom x) (CurrencyPairProviders_QuoteDenom x)
    (CurrencyPairProviders_PairAddress x) (CurrencyPairProviders_Providers x) fields.
#[export] Instance CurrencyPairProviders_reflect : MessageReflect CurrencyPairProviders := {|
  Range S := CurrencyPairProviders_Range;
  Has := CurrencyPairProviders_Has;
  Clear := CurrencyPairProviders_Clear;
  Get := CurrencyPairProviders_Get;
  Set_ := CurrencyPairProviders_Set;
  Mutable := CurrencyPairProviders_Mutable;
  NewField := CurrencyPairProviders_NewField;
  Descriptor := CurrencyPairProviders_descriptor;
  GetUnknown x := x ← or_panic x; Ok (CurrencyPairProviders_unknownFields x);
  SetUnknown x fields := x ← or_panic x; Ok (CurrencyPairProviders_set_unknown x fields);
|}.

(** [CurrencyDeviationThreshold] *)

Definition fd_CurrencyDeviationThreshold_base_denom : FieldDescriptor :=
  mkField "oracle.v1.CurrencyDeviationThreshold.base_denom" 1 StringKind false.
Definition fd_CurrencyDeviationThreshold_threshold : FieldDescriptor :=
  mkField "oracle.v1.CurrencyDeviationThreshold.threshold" 2 StringKind false.
Definition CurrencyDeviationThreshold_descriptor : list FieldDescriptor := [
  fd_CurrencyDeviationThreshold_base_denom; fd_CurrencyDeviationThreshold_threshold].
Definition CurrencyDeviationThreshold_with_BaseDenom (x : CurrencyDeviationThreshold) (v : string)
    : CurrencyDeviationThreshold :=
  mkCurrencyDeviationThreshold v (CurrencyDeviationThreshold_Threshold x)
    (CurrencyDeviationThreshold_unknownFields x).
Definition CurrencyDeviationThreshold_with_Threshold (x : CurrencyDeviationThreshold) (v : string)
    : CurrencyDeviationThreshold :=
  mkCurrencyDeviationThreshold (CurrencyDeviationThreshold_BaseDenom x) v
    (CurrencyDeviationThreshold_unknownFields x).
Definition CurrencyDeviationThreshold_GetBaseDenom : option CurrencyDeviationThreshold → string :=
  getter ""%string CurrencyDeviationThreshold_BaseDenom.
Definition CurrencyDeviationThreshold_GetThreshold : option CurrencyDeviationThreshold → string :=
  getter ""%string CurrencyDeviationThreshold_Threshold.
Definition CurrencyDeviationThreshold_Range {S} (x : option CurrencyDeviationThreshold)
    (f : FieldDescriptor → Value → M S bool) : M S () :=
  x ← lift (or_panic x);
  range_fields f [
    (has_string (CurrencyDeviationThreshold_BaseDenom x), fd_CurrencyDeviationThreshold_base_denom,
       ValueOfString (CurrencyDeviationThreshold_BaseDenom x));
    (has_string (CurrencyDeviationThreshold_Threshold x), fd_CurrencyDeviationThreshold_threshold,
       ValueOfString (CurrencyDeviationThreshold_Threshold x))].
Definition CurrencyDeviationThreshold_Has (x : option CurrencyDeviationThreshold)
    (fd : FieldDescriptor) : outcome bool :=
  x ← or_panic x;
  field_switch fd [
    ("oracle.v1.CurrencyDeviationThreshold.base_denom"%string,
      Ok (has_string (CurrencyDeviationThreshold_BaseDenom x)));
    ("oracle.v1.CurrencyDeviationThreshold.threshold"%string,
      Ok (has_string (CurrencyDeviationThreshold_Threshold x)))].
Definition CurrencyDeviationThreshold_Clear (x : option CurrencyDeviationThreshold)
    (fd : FieldDescriptor) : outcome CurrencyDeviationThreshold :=
  x ← or_panic x;
  field_switch fd [
    ("oracle.v1.CurrencyDeviationThreshold.base_denom"%string,
      Ok (CurrencyDeviationThreshold_with_BaseDenom x ""%string));
    ("oracle.v1.CurrencyDeviationThreshold.threshold"%string,
      Ok (CurrencyDeviationThreshold_with_Threshold x ""%string))].
Definition CurrencyDeviationThreshold_Get (x : option CurrencyDeviationThreshold)
    (fd : FieldDescriptor) : outcome Value :=
  x ← or_panic x;
  field_switch fd [
    ("oracle.v1.CurrencyDeviationThreshold.base_denom"%string,
      Ok (ValueOfString (CurrencyDeviationThreshold_BaseDenom x)));
    ("oracle.v1.CurrencyDeviationThreshold.threshold"%string,
      Ok (ValueOfString (CurrencyDeviationThreshold_Threshold x)))].
Definition CurrencyDeviationThreshold_Set (x : option CurrencyDeviationThreshold)
    (fd : FieldDescriptor) (value : Value) : outcome CurrencyDeviationThreshold :=
  x ← or_panic x;
  field_switch fd [
    ("oracle.v1.CurrencyDeviationThreshold.base_denom"%string,
      set_string (CurrencyDeviationThreshold_with_BaseDenom x) value);
    ("oracle.v1.CurrencyDeviationThreshold.threshold"%string,
      set_string (CurrencyDeviationThreshold_with_Threshold x) value)].
Definition CurrencyDeviationThreshold_Mutable (x : option CurrencyDeviationThreshold)
    (fd : FieldDescriptor) : outcome (Value * CurrencyDeviationThreshold) :=
  x ← or_panic x;
  field_switch fd [
    ("oracle.v1.CurrencyDeviationThreshold.base_denom"%string, Panic);
    ("oracle.v1.CurrencyDeviationThreshold.threshold"%string, Panic)].
Definition CurrencyDeviationThreshold_NewField (fd : FieldDescriptor) : outcome Value :=
  field_switch fd [
    ("oracle.v1.CurrencyDeviationThreshold.base_denom"%string, Ok (ValueOfString ""%string));
    ("oracle.v1.CurrencyDeviationThreshold.threshold"%string, Ok (ValueOfString ""%string))].
Definition CurrencyDeviationThreshold_set_unknown (x : CurrencyDeviationThreshold) (fields : bytes) : CurrencyDeviationThreshold :=
  mkCurrencyDeviationThreshold (CurrencyDeviationThreshold_BaseDenom x)
    (CurrencyDeviationThreshold_Threshold x) fields.
#[export] Instance CurrencyDeviationThreshold_reflect : MessageReflect CurrencyDeviationThreshold := {|
  Range S := CurrencyDeviationThreshold_Range;
  Has := CurrencyDeviationThreshold_Has;
  Clear := CurrencyDeviationThreshold_Clear;
  Get := CurrencyDeviationThreshold_Get;
  Set_ := CurrencyDeviationThreshold_Set;
  Mutable := CurrencyDeviationThreshold_Mutable;
  NewField := CurrencyDeviationThreshold_NewField;
  Descriptor := CurrencyDeviationThreshold_descriptor;
  GetUnknown x := x ← or_panic x; Ok (CurrencyDeviationThreshold_unknownFields x);
  SetUnknown x fields := x ← or_panic x; Ok (CurrencyDeviationThreshold_set_unknown x fields);
|}.

(** [Params] *)

Definition fd_Params_vote_period : FieldDescriptor :=
  mkField "oracle.v1.Params.vote_period" 1 Uint64Kind false.
Definition fd_Params_vote_threshold : FieldDescriptor :=
  mkField "oracle.v1.Params.vote_threshold" 2 StringKind false.
Definition fd_Params_reward_bands : FieldDescriptor :=
  mkField "oracle.v1.Params.reward_bands" 3 MessageKind true.
Definition fd_Params_reward_distribution_window : FieldDescriptor :=
  mkField "oracle.v1.Params.reward_distribution_window" 4 Uint64Kind false.
Definition fd_Params_accept_list : FieldDescriptor :=
  mkField "oracle.v1.Params.accept_list" 5 MessageKind true.
Definition fd_Params_slash_fraction : FieldDescriptor :=
  mkField "oracle.v1.Params.slash_fraction" 6 StringKind false.
Definition fd_Params_slash_window : FieldDescriptor :=
  mkField "oracle.v1.Params.slash_window" 7 Uint64Kind false.
Definition fd_Params_min_valid_per_window : FieldDescriptor :=
  mkField "oracle.v1.Params.min_valid_per_window" 8 StringKind false.
Definition fd_Params_mandatory_list : FieldDescriptor :=
  mkField "oracle.v1.Params.mandatory_list" 9 MessageKind true.
Definition fd_Params_historic_stamp_period : FieldDescriptor :=
  mkField "oracle.v1.Params.historic_stamp_period" 10 Uint64Kind false.
Definition fd_Params_median_stamp_period : FieldDescriptor :=
  mkField "oracle.v1.Params.median_stamp_period" 11 Uint64Kind false.
Definition fd_Params_maximum_price_stamps : FieldDescriptor :=
  mkField "oracle.v1.Params.maximum_price_stamps" 12 Uint64Kind false.
Definition fd_Params_maximum_median_stamps : FieldDescriptor :=
  mkField "oracle.v1.Params.maximum_median_stamps" 13 Uint64Kind false.
Definition fd_Params_currency_pair_providers : FieldDescriptor :=
  mkField "oracle.v1.Params.currency_pair_providers" 14 MessageKind true.
Definition fd_Params_currency_deviation_thresholds : FieldDescriptor :=
  mkField "oracle.v1.Params.currency_deviation_thresholds" 15 MessageKind true.
Definition fd_Params_usdc_ibc_denom : FieldDescriptor :=
  mkField "oracle.v1.Params.usdc_ibc_denom" 16 StringKind false.
Definition fd_Params_slashing_enabled : FieldDescriptor :=
  mkField "oracle.v1.Params.slashing_enabled" 17 BoolKind false.
Definition fd_Params_averaging_window : FieldDescriptor :=
  mkField "oracle.v1.Params.averaging_window" 18 Uint64Kind false.
Definition Params_descriptor : list FieldDescriptor := [
  fd_Params_vote_period; fd_Params_vote_threshold; fd_Params_reward_bands;
  fd_Params_reward_distribution_window; fd_Params_accept_list; fd_Params_slash_fraction;
  fd_Params_slash_window; fd_Params_min_valid_per_window; fd_Params_mandatory_list;
  fd_Params_historic_stamp_period; fd_Params_median_stamp_period; fd_Params_maximum_price_stamps;
  fd_Params_maximum_median_stamps; fd_Params_currency_pair_providers;
  fd_Params_currency_deviation_thresholds; fd_Params_usdc_ibc_denom; fd_Params_slashing_enabled;
  fd_Params_averaging_window].
Definition Params_with_VotePeriod (x : Params) (v : Z) : Params :=
  mkParams v (Params_VoteThreshold x) (Params_RewardBands x) (Params_RewardDistributionWindow x)
    (Params_AcceptList x) (Params_SlashFraction x) (Params_SlashWindow x)
    (Params_MinValidPerWindow x) (Params_MandatoryList x) (Params_HistoricStampPeriod x)
    (Params_MedianStampPeriod x) (Params_MaximumPriceStamps x) (Params_MaximumMedianStamps x)
    (Params_CurrencyPairProviders x) (Params_CurrencyDeviationThresholds x) (Params_UsdcIbcDenom
    x) (Params_SlashingEnabled x) (Params_AveragingWindow x) (Params_unknownFields x).
Definition Params_with_VoteThreshold (x : Params) (v : string) : Params :=
  mkParams (Params_VotePeriod x) v (Params_RewardBands x) (Params_RewardDistributionWindow x)
    (Params_AcceptList x) (Params_SlashFraction x) (Params_SlashWindow x)
    (Params_MinValidPerWindow x) (Params_MandatoryList x) (Params_HistoricStampPeriod x)
    (Params_MedianStampPeriod x) (Params_MaximumPriceStamps x) (Params_MaximumMedianStamps x)
    (Params_CurrencyPairProviders x) (Params_CurrencyDeviationThresholds x) (Params_UsdcIbcDenom
    x) (Params_SlashingEnabled x) (Params_AveragingWindow x) (Params_unknownFields x).
Definition Params_with_RewardBands (x : Params) (v : list (option RewardBand)) : Params :=
  mkParams (Params_VotePeriod x) (Params_VoteThreshold x) v (Params_RewardDistributionWindow x)
    (Params_AcceptList x) (Params_SlashFraction x) (Params_SlashWindow x)
    (Params_MinValidPerWindow x) (Params_MandatoryList x) (Params_HistoricStampPeriod x)
    (Params_MedianStampPeriod x) (Params_MaximumPriceStamps x) (Params_MaximumMedianStamps x)
    (Params_CurrencyPairProviders x) (Params_CurrencyDeviationThresholds x) (Params_UsdcIbcDenom
    x) (Params_SlashingEnabled x) (Params_AveragingWindow x) (Params_unknownFields x).
Definition Params_with_RewardDistributionWindow (x : Params) (v : Z) : Params :=
  mkParams (Params_VotePeriod x) (Params_VoteThreshold x) (Params_RewardBands x) v
    (Params_AcceptList x) (Params_SlashFraction x) (Params_SlashWindow x)
    (Params_MinValidPerWindow x) (Params_MandatoryList x) (Params_HistoricStampPeriod x)
    (Params_MedianStampPeriod x) (Params_MaximumPriceStamps x) (Params_MaximumMedianStamps x)
    (Params_CurrencyPairProviders x) (Params_CurrencyDeviationThresholds x) (Params_UsdcIbcDenom
    x) (Params_SlashingEnabled x) (Params_AveragingWindow x) (Params_unknownFields x).
Definition Params_with_AcceptList (x : Params) (v : list (option Denom)) : Params :=
  mkParams (Params_VotePeriod x) (Params_VoteThreshold x) (Params_RewardBands x)
    (Params_RewardDistributionWindow x) v (Params_SlashFraction x) (Params_SlashWindow x)
    (Params_MinValidPerWindow x) (Params_MandatoryList x) (Params_HistoricStampPeriod x)
    (Params_MedianStampPeriod x) (Params_MaximumPriceStamps x) (Params_MaximumMedianStamps x)
    (Params_CurrencyPairProviders x) (Params_CurrencyDeviationThresholds x) (Params_UsdcIbcDenom
    x) (Params_SlashingEnabled x) (Params_AveragingWindow x) (Params_unknownFields x).
Definition Params_with_SlashFraction (x : Params) (v : string) : Params :=
  mkParams (Params_VotePeriod x) (Params_VoteThreshold x) (Params_RewardBands x)
    (Params_RewardDistributionWindow x) (Params_AcceptList x) v (Params_SlashWindow x)
    (Params_MinValidPerWindow x) (Params_MandatoryList x) (Params_HistoricStampPeriod x)
    (Params_MedianStampPeriod x) (Params_MaximumPriceStamps x) (Params_MaximumMedianStamps x)
    (Params_CurrencyPairProviders x) (Params_CurrencyDeviationThresholds x) (Params_UsdcIbcDenom
    x) (Params_SlashingEnabled x) (Params_AveragingWindow x) (Params_unknownFields x).
Definition Params_with_SlashWindow (x : Params) (v : Z) : Params :=
  mkParams (Params_VotePeriod x) (Params_VoteThreshold x) (Params_RewardBands x)
    (Params_RewardDistributionWindow x) (Params_AcceptList x) (Params_SlashFraction x) v
    (Params_MinValidPerWindow x) (Params_MandatoryList x) (Params_HistoricStampPeriod x)
    (Params_MedianStampPeriod x) (Params_MaximumPriceStamps x) (Params_MaximumMedianStamps x)
    (Params_CurrencyPairProviders x) (Params_CurrencyDeviationThresholds x) (Params_UsdcIbcDenom
    x) (Params_SlashingEnabled x) (Params_AveragingWindow x) (Params_unknownFields x).
Definition Params_with_MinValidPerWindow (x : Params) (v : string) : Params :=
  mkParams (Params_VotePeriod x) (Params_VoteThreshold x) (Params_RewardBands x)
    (Params_RewardDistributionWindow x) (Params_AcceptList x) (Params_SlashFraction x)
    (Params_SlashWindow x) v (Params_MandatoryList x) (Params_HistoricStampPeriod x)
    (Params_MedianStampPeriod x) (Params_MaximumPriceStamps x) (Params_MaximumMedianStamps x)
    (Params_CurrencyPairProviders x) (Params_CurrencyDeviationThresholds x) (Params_UsdcIbcDenom
    x) (Params_SlashingEnabled x) (Params_AveragingWindow x) (Params_unknownFields x).
Definition Params_with_MandatoryList (x : Params) (v : list (option Denom)) : Params :=
  mkParams (Params_VotePeriod x) (Params_VoteThreshold x) (Params_RewardBands x)
    (Params_RewardDistributionWindow x) (Params_AcceptList x) (Params_SlashFraction x)
    (Params_SlashWindow x) (Params_MinValidPerWindow x) v (Params_HistoricStampPeriod x)
    (Params_MedianStampPeriod x) (Params_MaximumPriceStamps x) (Params_MaximumMedianStamps x)
    (Params_CurrencyPairProviders x) (Params_CurrencyDeviationThresholds x) (Params_UsdcIbcDenom
    x) (Params_SlashingEnabled x) (Params_AveragingWindow x) (Params_unknownFields x).
Definition Params_with_HistoricStampPeriod (x : Params) (v : Z) : Params :=
  mkParams (Params_VotePeriod x) (Params_VoteThreshold x) (Params_RewardBands x)
    (Params_RewardDistributionWindow x) (Params_AcceptList x) (Params_SlashFraction x)
    (Params_SlashWindow x) (Params_MinValidPerWindow x) (Params_MandatoryList x) v
    (Params_MedianStampPeriod x) (Params_MaximumPriceStamps x) (Params_MaximumMedianStamps x)
    (Params_CurrencyPairProviders x) (Params_CurrencyDeviationThresholds x) (Params_UsdcIbcDenom
    x) (Params_SlashingEnabled x) (Params_AveragingWindow x) (Params_unknownFields x).
Definition Params_with_MedianStampPeriod (x : Params) (v : Z) : Params :=
  mkParams (Params_VotePeriod x) (Params_VoteThreshold x) (Params_RewardBands x)
    (Params_RewardDistributionWindow x) (Params_AcceptList x) (Params_SlashFraction x)
    (Params_SlashWindow x) (Params_MinValidPerWindow x) (Params_MandatoryList x)
    (Params_HistoricStampPeriod x) v (Params_MaximumPriceStamps x) (Params_MaximumMedianStamps x)
    (Params_CurrencyPairProviders x) (Params_CurrencyDeviationThresholds x) (Params_UsdcIbcDenom
    x) (Params_SlashingEnabled x) (Params_AveragingWindow x) (Params_unknownFields x).
Definition Params_with_MaximumPriceStamps (x : Params) (v : Z) : Params :=
  mkParams (Params_VotePeriod x) (Params_VoteThreshold x) (Params_RewardBands x)
    (Params_RewardDistributionWindow x) (Params_AcceptList x) (Params_SlashFraction x)
    (Params_SlashWindow x) (Params_MinValidPerWindow x) (Params_MandatoryList x)
    (Params_HistoricStampPeriod x) (Params_MedianStampPeriod x) v (Params_MaximumMedianStamps x)
    (Params_CurrencyPairProviders x) (Params_CurrencyDeviationThresholds x) (Params_UsdcIbcDenom
    x) (Params_SlashingEnabled x) (Params_AveragingWindow x) (Params_unknownFields x).
Definition Params_with_MaximumMedianStamps (x : Params) (v : Z) : Params :=
  mkParams (Params_VotePeriod x) (Params_VoteThreshold x) (Params_RewardBands x)
    (Params_RewardDistributionWindow x) (Params_AcceptList x) (Params_SlashFraction x)
    (Params_SlashWindow x) (Params_MinValidPerWindow x) (Params_MandatoryList x)
    (Params_HistoricStampPeriod x) (Params_MedianStampPeriod x) (Params_MaximumPriceStamps x) v
    (Params_CurrencyPairProviders x) (Params_CurrencyDeviationThresholds x) (Params_UsdcIbcDenom
    x) (Params_SlashingEnabled x) (Params_AveragingWindow x) (Params_unknownFields x).
Definition Params_with_CurrencyPairProviders (x : Params) (v : list (option CurrencyPairProviders))
    : Params :=
  mkParams (Params_VotePeriod x) (Params_VoteThreshold x) (Params_RewardBands x)
    (Params_RewardDistributionWindow x) (Params_AcceptList x) (Params_SlashFraction x)
    (Params_SlashWindow x) (Params_MinValidPerWindow x) (Params_MandatoryList x)
    (Params_HistoricStampPeriod x) (Params_MedianStampPeriod x) (Params_MaximumPriceStamps x)
    (Params_MaximumMedianStamps x) v (Params_CurrencyDeviationThresholds x) (Params_UsdcIbcDenom
    x) (Params_SlashingEnabled x) (Params_AveragingWindow x) (Params_unknownFields x).
Definition Params_with_CurrencyDeviationThresholds (x : Params)
    (v : list (option CurrencyDeviationThreshold)) : Params :=
  mkParams (Params_VotePeriod x) (Params_VoteThreshold x) (Params_RewardBands x)
    (Params_RewardDistributionWindow x) (Params_AcceptList x) (Params_SlashFraction x)
    (Params_SlashWindow x) (Params_MinValidPerWindow x) (Params_MandatoryList x)
    (Params_HistoricStampPeriod x) (Params_MedianStampPeriod x) (Params_MaximumPriceStamps x)
    (Params_MaximumMedianStamps x) (Params_CurrencyPairProviders x) v (Params_UsdcIbcDenom x)
    (Params_SlashingEnabled x) (Params_AveragingWindow x) (Params_unknownFields x).
Definition Params_with_UsdcIbcDenom (x : Params) (v : string) : Params :=
  mkParams (Params_VotePeriod x) (Params_VoteThreshold x) (Params_RewardBands x)
    (Params_RewardDistributionWindow x) (Params_AcceptList x) (Params_SlashFraction x)
    (Params_SlashWindow x) (Params_MinValidPerWindow x) (Params_MandatoryList x)
    (Params_HistoricStampPeriod x) (Params_MedianStampPeriod x) (Params_MaximumPriceStamps x)
    (Params_MaximumMedianStamps x) (Params_CurrencyPairProviders x)
    (Params_CurrencyDeviationThresholds x) v (Params_SlashingEnabled x) (Params_AveragingWindow x)
    (Params_unknownFields x).
Definition Params_with_SlashingEnabled (x : Params) (v : bool) : Params :=
  mkParams (Params_VotePeriod x) (Params_VoteThreshold x) (Params_RewardBands x)
    (Params_RewardDistributionWindow x) (Params_AcceptList x) (Params_SlashFraction x)
    (Params_SlashWindow x) (Params_MinValidPerWindow x) (Params_MandatoryList x)
    (Params_HistoricStampPeriod x) (Params_MedianStampPeriod x) (Params_MaximumPriceStamps x)
    (Params_MaximumMedianStamps x) (Params_CurrencyPairProviders x)
    (Params_CurrencyDeviationThresholds x) (Params_UsdcIbcDenom x) v (Params_AveragingWindow x)
    (Params_unknownFields x).
Definition Params_with_AveragingWindow (x : Params) (v : Z) : Params :=
  mkParams (Params_VotePeriod x) (Params_VoteThreshold x) (Params_RewardBands x)
    (Params_RewardDistributionWindow x) (Params_AcceptList x) (Params_SlashFraction x)
    (Params_SlashWindow x) (Params_MinValidPerWindow x) (Params_MandatoryList x)
    (Params_HistoricStampPeriod x) (Params_MedianStampPeriod x) (Params_MaximumPriceStamps x)
    (Params_MaximumMedianStamps x) (Params_CurrencyPairProviders x)
    (Params_CurrencyDeviationThresholds x) (Params_UsdcIbcDenom x) (Params_SlashingEnabled x) v
    (Params_unknownFields x).
Definition Params_GetVotePeriod : option Params → Z :=
  getter 0 Params_VotePeriod.
Definition Params_GetVoteThreshold : option Params → string :=
  getter ""%string Params_VoteThreshold.
Definition Params_GetRewardBands : option Params → list (option RewardBand) :=
  getter [] Params_RewardBands.
Definition Params_GetRewardDistributionWindow : option Params → Z :=
  getter 0 Params_RewardDistributionWindow.
Definition Params_GetAcceptList : option Params → list (option Denom) :=
  getter [] Params_AcceptList.
Definition Params_GetSlashFraction : option Params → string :=
  getter ""%string Params_SlashFraction.
Definition Params_GetSlashWindow : option Params → Z :=
  getter 0 Params_SlashWindow.
Definition Params_GetMinValidPerWindow : option Params → string :=
  getter ""%string Params_MinValidPerWindow.
Definition Params_GetMandatoryList : option Params → list (option Denom) :=
  getter [] Params_MandatoryList.
Definition Params_GetHistoricStampPeriod : option Params → Z :=
  getter 0 Params_HistoricStampPeriod.
Definition Params_GetMedianStampPeriod : option Params → Z :=
  getter 0 Params_MedianStampPeriod.
Definition Params_GetMaximumPriceStamps : option Params → Z :=
  getter 0 Params_MaximumPriceStamps.
Definition Params_GetMaximumMedianStamps : option Params → Z :=
  getter 0 Params_MaximumMedianStamps.
Definition Params_GetCurrencyPairProviders : option Params → list (option CurrencyPairProviders) :=
  getter [] Params_CurrencyPairProviders.
Definition Params_GetCurrencyDeviationThresholds : option Params → list
    (option CurrencyDeviationThreshold) :=
  getter [] Params_CurrencyDeviationThresholds.
Definition Params_GetUsdcIbcDenom : option Params → string :=
  getter ""%string Params_UsdcIbcDenom.
Definition Params_GetSlashingEnabled : option Params → bool :=
  getter false Params_SlashingEnabled.
Definition Params_GetAveragingWindow : option Params → Z :=
  getter 0 Params_AveragingWindow.
#[export] Instance Params_3_list_methods : ProtoList Params_3_list :=
  message_list mkParams_3_list Params_3_list_slice.
#[export] Instance Params_5_list_methods : ProtoList Params_5_list :=
  message_list mkParams_5_list Params_5_list_slice.
#[export] Instance Params_9_list_methods : ProtoList Params_9_list :=
  message_list mkParams_9_list Params_9_list_slice.
#[export] Instance Params_14_list_methods : ProtoList Params_14_list :=
  message_list mkParams_14_list Params_14_list_slice.
#[export] Instance Params_15_list_methods : ProtoList Params_15_list :=
  message_list mkParams_15_list Params_15_list_slice.
Definition Params_Range {S} (x : option Params) (f : FieldDescriptor → Value → M S bool) : M S ()
    :=
  x ← lift (or_panic x);
  range_fields f [
    (has_int (Params_VotePeriod x), fd_Params_vote_period, ValueOfUint64 (Params_VotePeriod x));
    (has_string (Params_VoteThreshold x), fd_Params_vote_threshold, ValueOfString
       (Params_VoteThreshold x));
    (has_slice (Params_RewardBands x), fd_Params_reward_bands, ValueOfList
       (mkParams_3_list (Some (Params_RewardBands x))));
    (has_int (Params_RewardDistributionWindow x), fd_Params_reward_distribution_window,
       ValueOfUint64 (Params_RewardDistributionWindow x));
    (has_slice (Params_AcceptList x), fd_Params_accept_list, ValueOfList
       (mkParams_5_list (Some (Params_AcceptList x))));
    (has_string (Params_SlashFraction x), fd_Params_slash_fraction, ValueOfString
       (Params_SlashFraction x));
    (has_int (Params_SlashWindow x), fd_Params_slash_window, ValueOfUint64 (Params_SlashWindow x));
    (has_string (Params_MinValidPerWindow x), fd_Params_min_valid_per_window, ValueOfString
       (Params_MinValidPerWindow x));
    (has_slice (Params_MandatoryList x), fd_Params_mandatory_list, ValueOfList
       (mkParams_9_list (Some (Params_MandatoryList x))));
    (has_int (Params_HistoricStampPeriod x), fd_Params_historic_stamp_period, ValueOfUint64
       (Params_HistoricStampPeriod x));
    (has_int (Params_MedianStampPeriod x), fd_Params_median_stamp_period, ValueOfUint64
       (Params_MedianStampPeriod x));
    (has_int (Params_MaximumPriceStamps x), fd_Params_maximum_price_stamps, ValueOfUint64
       (Params_MaximumPriceStamps x));
    (has_int (Params_MaximumMedianStamps x), fd_Params_maximum_median_stamps, ValueOfUint64
       (Params_MaximumMedianStamps x));
    (has_slice (Params_CurrencyPairProviders x), fd_Params_currency_pair_providers, ValueOfList
       (mkParams_14_list (Some (Params_CurrencyPairProviders x))));
    (has_slice (Params_CurrencyDeviationThresholds x), fd_Params_currency_deviation_thresholds,
       ValueOfList (mkParams_15_list (Some (Params_CurrencyDeviationThresholds x))));
    (has_string (Params_UsdcIbcDenom x), fd_Params_usdc_ibc_denom, ValueOfString
       (Params_UsdcIbcDenom x));
    (Params_SlashingEnabled x, fd_Params_slashing_enabled, ValueOfBool (Params_SlashingEnabled x));
    (has_int (Params_AveragingWindow x), fd_Params_averaging_window, ValueOfUint64
       (Params_AveragingWindow x))].
Definition Params_Has (x : option Params) (fd : FieldDescriptor) : outcome bool :=
  x ← or_panic x;
  field_switch fd [
    ("oracle.v1.Params.vote_period"%string, Ok (has_int (Params_VotePeriod x)));
    ("oracle.v1.Params.vote_threshold"%string, Ok (has_string (Params_VoteThreshold x)));
    ("oracle.v1.Params.reward_bands"%string, Ok (has_slice (Params_RewardBands x)));
    ("oracle.v1.Params.reward_distribution_window"%string,
      Ok (has_int (Params_RewardDistributionWindow x)));
    ("oracle.v1.Params.accept_list"%string, Ok (has_slice (Params_AcceptList x)));
    ("oracle.v1.Params.slash_fraction"%string, Ok (has_string (Params_SlashFraction x)));
    ("oracle.v1.Params.slash_window"%string, Ok (has_int (Params_SlashWindow x)));
    ("oracle.v1.Params.min_valid_per_window"%string, Ok (has_string (Params_MinValidPerWindow x)));
    ("oracle.v1.Params.mandatory_list"%string, Ok (has_slice (Params_MandatoryList x)));
    ("oracle.v1.Params.historic_stamp_period"%string, Ok (has_int (Params_HistoricStampPeriod x)));
    ("oracle.v1.Params.median_stamp_period"%string, Ok (has_int (Params_MedianStampPeriod x)));
    ("oracle.v1.Params.maximum_price_stamps"%string, Ok (has_int (Params_MaximumPriceStamps x)));
    ("oracle.v1.Params.maximum_median_stamps"%string, Ok (has_int (Params_MaximumMedianStamps x)));
    ("oracle.v1.Params.currency_pair_providers"%string,
      Ok (has_slice (Params_CurrencyPairProviders x)));
    ("oracle.v1.Params.currency_deviation_thresholds"%string,
      Ok (has_slice (Params_CurrencyDeviationThresholds x)));
    ("oracle.v1.Params.usdc_ibc_denom"%string, Ok (has_string (Params_UsdcIbcDenom x)));
    ("oracle.v1.Params.slashing_enabled"%string, Ok (Params_SlashingEnabled x));
    ("oracle.v1.Params.averaging_window"%string, Ok (has_int (Params_AveragingWindow x)))].
Definition Params_Clear (x : option Params) (fd : FieldDescriptor) : outcome Params :=
  x ← or_panic x;
  field_switch fd [
    ("oracle.v1.Params.vote_period"%string, Ok (Params_with_VotePeriod x 0));
    ("oracle.v1.Params.vote_threshold"%string, Ok (Params_with_VoteThreshold x ""%string));
    ("oracle.v1.Params.reward_bands"%string, Ok (Params_with_RewardBands x []));
    ("oracle.v1.Params.reward_distribution_window"%string,
      Ok (Params_with_RewardDistributionWindow x 0));
    ("oracle.v1.Params.accept_list"%string, Ok (Params_with_AcceptList x []));
    ("oracle.v1.Params.slash_fraction"%string, Ok (Params_with_SlashFraction x ""%string));
    ("oracle.v1.Params.slash_window"%string, Ok (Params_with_SlashWindow x 0));
    ("oracle.v1.Params.min_valid_per_window"%string,
      Ok (Params_with_MinValidPerWindow x ""%string));
    ("oracle.v1.Params.mandatory_list"%string, Ok (Params_with_MandatoryList x []));
    ("oracle.v1.Params.historic_stamp_period"%string, Ok (Params_with_HistoricStampPeriod x 0));
    ("oracle.v1.Params.median_stamp_period"%string, Ok (Params_with_MedianStampPeriod x 0));
    ("oracle.v1.Params.maximum_price_stamps"%string, Ok (Params_with_MaximumPriceStamps x 0));
    ("oracle.v1.Params.maximum_median_stamps"%string, Ok (Params_with_MaximumMedianStamps x 0));
    ("oracle.v1.Params.currency_pair_providers"%string,
      Ok (Params_with_CurrencyPairProviders x []));
    ("oracle.v1.Params.currency_deviation_thresholds"%string,
      Ok (Params_with_CurrencyDeviationThresholds x []));
    ("oracle.v1.Params.usdc_ibc_denom"%string, Ok (Params_with_UsdcIbcDenom x ""%string));
    ("oracle.v1.Params.slashing_enabled"%string, Ok (Params_with_SlashingEnabled x false));
    ("oracle.v1.Params.averaging_window"%string, Ok (Params_with_AveragingWindow x 0))].
Definition Params_Get (x : option Params) (fd : FieldDescriptor) : outcome Value :=
  x ← or_panic x;
  field_switch fd [
    ("oracle.v1.Params.vote_period"%string, Ok (ValueOfUint64 (Params_VotePeriod x)));
    ("oracle.v1.Params.vote_threshold"%string, Ok (ValueOfString (Params_VoteThreshold x)));
    ("oracle.v1.Params.reward_bands"%string, Ok (get_list mkParams_3_list (Params_RewardBands x)));
    ("oracle.v1.Params.reward_distribution_window"%string,
      Ok (ValueOfUint64 (Params_RewardDistributionWindow x)));
    ("oracle.v1.Params.accept_list"%string, Ok (get_list mkParams_5_list (Params_AcceptList x)));
    ("oracle.v1.Params.slash_fraction"%string, Ok (ValueOfString (Params_SlashFraction x)));
    ("oracle.v1.Params.slash_window"%string, Ok (ValueOfUint64 (Params_SlashWindow x)));
    ("oracle.v1.Params.min_valid_per_window"%string,
      Ok (ValueOfString (Params_MinValidPerWindow x)));
    ("oracle.v1.Params.mandatory_list"%string,
      Ok (get_list mkParams_9_list (Params_MandatoryList x)));
    ("oracle.v1.Params.historic_stamp_period"%string,
      Ok (ValueOfUint64 (Params_HistoricStampPeriod x)));
    ("oracle.v1.Params.median_stamp_period"%string,
      Ok (ValueOfUint64 (Params_MedianStampPeriod x)));
    ("oracle.v1.Params.maximum_price_stamps"%string,
      Ok (ValueOfUint64 (Params_MaximumPriceStamps x)));
    ("oracle.v1.Params.maximum_median_stamps"%string,
      Ok (ValueOfUint64 (Params_MaximumMedianStamps x)));
    ("oracle.v1.Params.currency_pair_providers"%string,
      Ok (get_list mkParams_14_list (Params_CurrencyPairProviders x)));
    ("oracle.v1.Params.currency_deviation_thresholds"%string,
      Ok (get_list mkParams_15_list (Params_CurrencyDeviationThresholds x)));
    ("oracle.v1.Params.usdc_ibc_denom"%string, Ok (ValueOfString (Params_UsdcIbcDenom x)));
    ("oracle.v1.Params.slashing_enabled"%string, Ok (ValueOfBool (Params_SlashingEnabled x)));
    ("oracle.v1.Params.averaging_window"%string, Ok (ValueOfUint64 (Params_AveragingWindow x)))].
Definition Params_Set (x : option Params) (fd : FieldDescriptor) (value : Value) : outcome Params
    :=
  x ← or_panic x;
  field_switch fd [
    ("oracle.v1.Params.vote_period"%string, set_uint64 (Params_with_VotePeriod x) value);
    ("oracle.v1.Params.vote_threshold"%string, set_string (Params_with_VoteThreshold x) value);
    ("oracle.v1.Params.reward_bands"%string,
      set_list Params_3_list_slice (Params_with_RewardBands x) value);
    ("oracle.v1.Params.reward_distribution_window"%string,
      set_uint64 (Params_with_RewardDistributionWindow x) value);
    ("oracle.v1.Params.accept_list"%string,
      set_list Params_5_list_slice (Params_with_AcceptList x) value);
    ("oracle.v1.Params.slash_fraction"%string, set_string (Params_with_SlashFraction x) value);
    ("oracle.v1.Params.slash_window"%string, set_uint64 (Params_with_SlashWindow x) value);
    ("oracle.v1.Params.min_valid_per_window"%string,
      set_string (Params_with_MinValidPerWindow x) value);
    ("oracle.v1.Params.mandatory_list"%string,
      set_list Params_9_list_slice (Params_with_MandatoryList x) value);
    ("oracle.v1.Params.historic_stamp_period"%string,
      set_uint64 (Params_with_HistoricStampPeriod x) value);
    ("oracle.v1.Params.median_stamp_period"%string,
      set_uint64 (Params_with_MedianStampPeriod x) value);
    ("oracle.v1.Params.maximum_price_stamps"%string,
      set_uint64 (Params_with_MaximumPriceStamps x) value);
    ("oracle.v1.Params.maximum_median_stamps"%string,
      set_uint64 (Params_with_MaximumMedianStamps x) value);
    ("oracle.v1.Params.currency_pair_providers"%string,
      set_list Params_14_list_slice (Params_with_CurrencyPairProviders x) value);
    ("oracle.v1.Params.currency_deviation_thresholds"%string,
      set_list Params_15_list_slice (Params_with_CurrencyDeviationThresholds x) value);
    ("oracle.v1.Params.usdc_ibc_denom"%string, set_string (Params_with_UsdcIbcDenom x) value);
    ("oracle.v1.Params.slashing_enabled"%string, set_bool (Params_with_SlashingEnabled x) value);
    ("oracle.v1.Params.averaging_window"%string, set_uint64 (Params_with_AveragingWindow x) value)].
Definition Params_Mutable (x : option Params) (fd : FieldDescriptor) : outcome (Value * Params) :=
  x ← or_panic x;
  field_switch fd [
    ("oracle.v1.Params.reward_bands"%string,
      mutable_list mkParams_3_list x (Params_RewardBands x));
    ("oracle.v1.Params.accept_list"%string, mutable_list mkParams_5_list x (Params_AcceptList x));
    ("oracle.v1.Params.mandatory_list"%string,
      mutable_list mkParams_9_list x (Params_MandatoryList x));
    ("oracle.v1.Params.currency_pair_providers"%string,
      mutable_list mkParams_14_list x (Params_CurrencyPairProviders x));
    ("oracle.v1.Params.currency_deviation_thresholds"%string,
      mutable_list mkParams_15_list x (Params_CurrencyDeviationThresholds x));
    ("oracle.v1.Params.vote_period"%string, Panic);
    ("oracle.v1.Params.vote_threshold"%string, Panic);
    ("oracle.v1.Params.reward_distribution_window"%string, Panic);
    ("oracle.v1.Params.slash_fraction"%string, Panic);
    ("oracle.v1.Params.slash_window"%string, Panic);
    ("oracle.v1.Params.min_valid_per_window"%string, Panic);
    ("oracle.v1.Params.historic_stamp_period"%string, Panic);
    ("oracle.v1.Params.median_stamp_period"%string, Panic);
    ("oracle.v1.Params.maximum_price_stamps"%string, Panic);
    ("oracle.v1.Params.maximum_median_stamps"%string, Panic);
    ("oracle.v1.Params.usdc_ibc_denom"%string, Panic);
    ("oracle.v1.Params.slashing_enabled"%string, Panic);
    ("oracle.v1.Params.averaging_window"%string, Panic)].
Definition Params_NewField (fd : FieldDescriptor) : outcome Value :=
  field_switch fd [
    ("oracle.v1.Params.vote_period"%string, Ok (ValueOfUint64 0));
    ("oracle.v1.Params.vote_threshold"%string, Ok (ValueOfString ""%string));
    ("oracle.v1.Params.reward_bands"%string, new_list mkParams_3_list);
    ("oracle.v1.Params.reward_distribution_window"%string, Ok (ValueOfUint64 0));
    ("oracle.v1.Params.accept_list"%string, new_list mkParams_5_list);
    ("oracle.v1.Params.slash_fraction"%string, Ok (ValueOfString ""%string));
    ("oracle.v1.Params.slash_window"%string, Ok (ValueOfUint64 0));
    ("oracle.v1.Params.min_valid_per_window"%string, Ok (ValueOfString ""%string));
    ("oracle.v1.Params.mandatory_list"%string, new_list mkParams_9_list);
    ("oracle.v1.Params.historic_stamp_period"%string, Ok (ValueOfUint64 0));
    ("oracle.v1.Params.median_stamp_period"%string, Ok (ValueOfUint64 0));
    ("oracle.v1.Params.maximum_price_stamps"%string, Ok (ValueOfUint64 0));
    ("oracle.v1.Params.maximum_median_stamps"%string, Ok (ValueOfUint64 0));
    ("oracle.v1.Params.currency_pair_providers"%string, new_list mkParams_14_list);
    ("oracle.v1.Params.currency_deviation_thresholds"%string, new_list mkParams_15_list);
    ("oracle.v1.Params.usdc_ibc_denom"%string, Ok (ValueOfString ""%string));
    ("oracle.v1.Params.slashing_enabled"%string, Ok (ValueOfBool false));
    ("oracle.v1.Params.averaging_window"%string, Ok (ValueOfUint64 0))].
Definition Params_set_unknown (x : Params) (fields : bytes) : Params :=
  mkParams (Params_VotePeriod x) (Params_VoteThreshold x) (Params_RewardBands x)
    (Params_RewardDistributionWindow x) (Params_AcceptList x) (Params_SlashFraction x)
    (Params_SlashWindow x) (Params_MinValidPerWindow x) (Params_MandatoryList x)
    (Params_HistoricStampPeriod x) (Params_MedianStampPeriod x) (Params_MaximumPriceStamps x)
    (Params_MaximumMedianStamps x) (Params_CurrencyPairProviders x)
    (Params_CurrencyDeviationThresholds x) (Params_UsdcIbcDenom x) (Params_SlashingEnabled x)
    (Params_AveragingWindow x) fields.
#[export] Instance Params_reflect : MessageReflect Params := {|
  Range S := Params_Range;
  Has := Params_Has;
  Clear := Params_Clear;
  Get := Params_Get;
  Set_ := Params_Set;
  Mutable := Params_Mutable;
  NewField := Params_NewField;
  Descriptor := Params_descriptor;
  GetUnknown x := x ← or_panic x; Ok (Params_unknownFields x);
  SetUnknown x fields := x ← or_panic x; Ok (Params_set_unknown x fields);
|}.

(** [AggregateExchangeRatePrevote] *)

Definition fd_AggregateExchangeRatePrevote_hash : FieldDescriptor :=
  mkField "oracle.v1.AggregateExchangeRatePrevote.hash" 1 StringKind false.
Definition fd_AggregateExchangeRatePrevote_voter : FieldDescriptor :=
  mkField "oracle.v1.AggregateExchangeRatePrevote.voter" 2 StringKind false.
Definition fd_AggregateExchangeRatePrevote_submit_block : FieldDescriptor :=
  mkField "oracle.v1.AggregateExchangeRatePrevote.submit_block" 3 Uint64Kind false.
Definition AggregateExchangeRatePrevote_descriptor : list FieldDescriptor := [
  fd_AggregateExchangeRatePrevote_hash; fd_AggregateExchangeRatePrevote_voter;
  fd_AggregateExchangeRatePrevote_submit_block].
Definition AggregateExchangeRatePrevote_with_Hash (x : AggregateExchangeRatePrevote) (v : string) :
    AggregateExchangeRatePrevote :=
  mkAggregateExchangeRatePrevote v (AggregateExchangeRatePrevote_Voter x)
    (AggregateExchangeRatePrevote_SubmitBlock x) (AggregateExchangeRatePrevote_unknownFields x).
Definition AggregateExchangeRatePrevote_with_Voter (x : AggregateExchangeRatePrevote) (v : string)
    : AggregateExchangeRatePrevote :=
  mkAggregateExchangeRatePrevote (AggregateExchangeRatePrevote_Hash x) v
    (AggregateExchangeRatePrevote_SubmitBlock x) (AggregateExchangeRatePrevote_unknownFields x).
Definition AggregateExchangeRatePrevote_with_SubmitBlock (x : AggregateExchangeRatePrevote) (v : Z)
    : AggregateExchangeRatePrevote :=
  mkAggregateExchangeRatePrevote (AggregateExchangeRatePrevote_Hash x)
    (AggregateExchangeRatePrevote_Voter x) v (AggregateExchangeRatePrevote_unknownFields x).
Definition AggregateExchangeRatePrevote_GetHash : option AggregateExchangeRatePrevote → string :=
  getter ""%string AggregateExchangeRatePrevote_Hash.
Definition AggregateExchangeRatePrevote_GetVoter : option AggregateExchangeRatePrevote → string :=
  getter ""%string AggregateExchangeRatePrevote_Voter.
Definition AggregateExchangeRatePrevote_GetSubmitBlock : option AggregateExchangeRatePrevote → Z :=
  getter 0 AggregateExchangeRatePrevote_SubmitBlock.
Definition AggregateExchangeRatePrevote_Range {S} (x : option AggregateExchangeRatePrevote)
    (f : FieldDescriptor → Value → M S bool) : M S () :=
  x ← lift (or_panic x);
  range_fields f [
    (has_string (AggregateExchangeRatePrevote_Hash x), fd_AggregateExchangeRatePrevote_hash,
       ValueOfString (AggregateExchangeRatePrevote_Hash x));
    (has_string (AggregateExchangeRatePrevote_Voter x), fd_AggregateExchangeRatePrevote_voter,
       ValueOfString (AggregateExchangeRatePrevote_Voter x));
    (has_int (AggregateExchangeRatePrevote_SubmitBlock x),
       fd_AggregateExchangeRatePrevote_submit_block, ValueOfUint64
       (AggregateExchangeRatePrevote_SubmitBlock x))].
Definition AggregateExchangeRatePrevote_Has (x : option AggregateExchangeRatePrevote)
    (fd : FieldDescriptor) : outcome bool :=
  x ← or_panic x;
  field_switch fd [
    ("oracle.v1.AggregateExchangeRatePrevote.hash"%string,
      Ok (has_string (AggregateExchangeRatePrevote_Hash x)));
    ("oracle.v1.AggregateExchangeRatePrevote.voter"%string,
      Ok (has_string (AggregateExchangeRatePrevote_Voter x)));
    ("oracle.v1.AggregateExchangeRatePrevote.submit_block"%string,
      Ok (has_int (AggregateExchangeRatePrevote_SubmitBlock x)))].
Definition AggregateExchangeRatePrevote_Clear (x : option AggregateExchangeRatePrevote)
    (fd : FieldDescriptor) : outcome AggregateExchangeRatePrevote :=
  x ← or_panic x;
  field_switch fd [
    ("oracle.v1.AggregateExchangeRatePrevote.hash"%string,
      Ok (AggregateExchangeRatePrevote_with_Hash x ""%string));
    ("oracle.v1.AggregateExchangeRatePrevote.voter"%string,
      Ok (AggregateExchangeRatePrevote_with_Voter x ""%string));
    ("oracle.v1.AggregateExchangeRatePrevote.submit_block"%string,
      Ok (AggregateExchangeRatePrevote_with_SubmitBlock x 0))].
Definition AggregateExchangeRatePrevote_Get (x : option AggregateExchangeRatePrevote)
    (fd : FieldDescriptor) : outcome Value :=
  x ← or_panic x;
  field_switch fd [
    ("oracle.v1.AggregateExchangeRatePrevote.hash"%string,
      Ok (ValueOfString (AggregateExchangeRatePrevote_Hash x)));
    ("oracle.v1.AggregateExchangeRatePrevote.voter"%string,
      Ok (ValueOfString (AggregateExchangeRatePrevote_Voter x)));
    ("oracle.v1.AggregateExchangeRatePrevote.submit_block"%string,
      Ok (ValueOfUint64 (AggregateExchangeRatePrevote_SubmitBlock x)))].
Definition AggregateExchangeRatePrevote_Set (x : option AggregateExchangeRatePrevote)
    (fd : FieldDescriptor) (value : Value) : outcome AggregateExchangeRatePrevote :=
  x ← or_panic x;
  field_switch fd [
    ("oracle.v1.AggregateExchangeRatePrevote.hash"%string,
      set_string (AggregateExchangeRatePrevote_with_Hash x) value);
    ("oracle.v1.AggregateExchangeRatePrevote.voter"%string,
      set_string (AggregateExchangeRatePrevote_with_Voter x) value);
    ("oracle.v1.AggregateExchangeRatePrevote.submit_block"%string,
      set_uint64 (AggregateExchangeRatePrevote_with_SubmitBlock x) value)].
Definition AggregateExchangeRatePrevote_Mutable (x : option AggregateExchangeRatePrevote)
    (fd : FieldDescriptor) : outcome (Value * AggregateExchangeRatePrevote) :=
  x ← or_panic x;
  field_switch fd [
    ("oracle.v1.AggregateExchangeRatePrevote.hash"%string, Panic);
    ("oracle.v1.AggregateExchangeRatePrevote.voter"%string, Panic);
    ("oracle.v1.AggregateExchangeRatePrevote.submit_block"%string, Panic)].
Definition AggregateExchangeRatePrevote_NewField (fd : FieldDescriptor) : outcome Value :=
  field_switch fd [
    ("oracle.v1.AggregateExchangeRatePrevote.hash"%string, Ok (ValueOfString ""%string));
    ("oracle.v1.AggregateExchangeRatePrevote.voter"%string, Ok (ValueOfString ""%string));
    ("oracle.v1.AggregateExchangeRatePrevote.submit_block"%string, Ok (ValueOfUint64 0))].
Definition AggregateExchangeRatePrevote_set_unknown (x : AggregateExchangeRatePrevote) (fields : bytes) : AggregateExchangeRatePrevote :=
  mkAggregateExchangeRatePrevote (AggregateExchangeRatePrevote_Hash x)
    (AggregateExchangeRatePrevote_Voter x) (AggregateExchangeRatePrevote_SubmitBlock x) fields.
#[export] Instance AggregateExchangeRatePrevote_reflect : MessageReflect AggregateExchangeRatePrevote := {|
  Range S := AggregateExchangeRatePrevote_Range;
  Has := AggregateExchangeRatePrevote_Has;
  Clear := AggregateExchangeRatePrevote_Clear;
  Get := AggregateExchangeRatePrevote_Get;
  Set_ := AggregateExchangeRatePrevote_Set;
  Mutable := AggregateExchangeRatePrevote_Mutable;
  NewField := AggregateExchangeRatePrevote_NewField;
  Descriptor := AggregateExchangeRatePrevote_descriptor;
  GetUnknown x := x ← or_panic x; Ok (AggregateExchangeRatePrevote_unknownFields x);
  SetUnknown x fields := x ← or_panic x; Ok (AggregateExchangeRatePrevote_set_unknown x fields);
|}.

(** [AggregateExchangeRateVote] *)

Definition fd_AggregateExchangeRateVote_exchange_rates : FieldDescriptor :=
  mkField "oracle.v1.AggregateExchangeRateVote.exchange_rates" 1 MessageKind true.
Definition fd_AggregateExchangeRateVote_voter : FieldDescriptor :=
  mkField "oracle.v1.AggregateExchangeRateVote.voter" 2 StringKind false.
Definition AggregateExchangeRateVote_descriptor : list FieldDescriptor := [
  fd_AggregateExchangeRateVote_exchange_rates; fd_AggregateExchangeRateVote_voter].
Definition AggregateExchangeRateVote_with_ExchangeRates (x : AggregateExchangeRateVote)
    (v : list (option v1beta1_DecCoin)) : AggregateExchangeRateVote :=
  mkAggregateExchangeRateVote v (AggregateExchangeRateVote_Voter x)
    (AggregateExchangeRateVote_unknownFields x).
Definition AggregateExchangeRateVote_with_Voter (x : AggregateExchangeRateVote) (v : string) :
    AggregateExchangeRateVote :=
  mkAggregateExchangeRateVote (AggregateExchangeRateVote_ExchangeRates x) v
    (AggregateExchangeRateVote_unknownFields x).
Definition AggregateExchangeRateVote_GetExchangeRates : option AggregateExchangeRateVote → list
    (option v1beta1_DecCoin) :=
  getter [] AggregateExchangeRateVote_ExchangeRates.
Definition AggregateExchangeRateVote_GetVoter : option AggregateExchangeRateVote → string :=
  getter ""%string AggregateExchangeRateVote_Voter.
#[export] Instance AggregateExchangeRateVote_1_list_methods : ProtoList AggregateExchangeRateVote_1_list :=
  message_list mkAggregateExchangeRateVote_1_list AggregateExchangeRateVote_1_list_slice.
Definition AggregateExchangeRateVote_Range {S} (x : option AggregateExchangeRateVote)
    (f : FieldDescriptor → Value → M S bool) : M S () :=
  x ← lift (or_panic x);
  range_fields f [
    (has_slice (AggregateExchangeRateVote_ExchangeRates x),
       fd_AggregateExchangeRateVote_exchange_rates, ValueOfList
       (mkAggregateExchangeRateVote_1_list (Some (AggregateExchangeRateVote_ExchangeRates x))));
    (has_string (AggregateExchangeRateVote_Voter x), fd_AggregateExchangeRateVote_voter,
       ValueOfString (AggregateExchangeRateVote_Voter x))].
Definition AggregateExchangeRateVote_Has (x : option AggregateExchangeRateVote)
    (fd : FieldDescriptor) : outcome bool :=
  x ← or_panic x;
  field_switch fd [
    ("oracle.v1.AggregateExchangeRateVote.exchange_rates"%string,
      Ok (has_slice (AggregateExchangeRateVote_ExchangeRates x)));
    ("oracle.v1.AggregateExchangeRateVote.voter"%string,
      Ok (has_string (AggregateExchangeRateVote_Voter x)))].
Definition AggregateExchangeRateVote_Clear (x : option AggregateExchangeRateVote)
    (fd : FieldDescriptor) : outcome AggregateExchangeRateVote :=
  x ← or_panic x;
  field_switch fd [
    ("oracle.v1.AggregateExchangeRateVote.exchange_rates"%string,
      Ok (AggregateExchangeRateVote_with_ExchangeRates x []));
    ("oracle.v1.AggregateExchangeRateVote.voter"%string,
      Ok (AggregateExchangeRateVote_with_Voter x ""%string))].
Definition AggregateExchangeRateVote_Get (x : option AggregateExchangeRateVote)
    (fd : FieldDescriptor) : outcome Value :=
  x ← or_panic x;
  field_switch fd [
    ("oracle.v1.AggregateExchangeRateVote.exchange_rates"%string,
      Ok
        (get_list mkAggregateExchangeRateVote_1_list (AggregateExchangeRateVote_ExchangeRates x)));
    ("oracle.v1.AggregateExchangeRateVote.voter"%string,
      Ok (ValueOfString (AggregateExchangeRateVote_Voter x)))].
Definition AggregateExchangeRateVote_Set (x : option AggregateExchangeRateVote)
    (fd : FieldDescriptor) (value : Value) : outcome AggregateExchangeRateVote :=
  x ← or_panic x;
  field_switch fd [
    ("oracle.v1.AggregateExchangeRateVote.exchange_rates"%string,
      set_list AggregateExchangeRateVote_1_list_slice
        (AggregateExchangeRateVote_with_ExchangeRates x) value);
    ("oracle.v1.AggregateExchangeRateVote.voter"%string,
      set_string (AggregateExchangeRateVote_with_Voter x) value)].
Definition AggregateExchangeRateVote_Mutable (x : option AggregateExchangeRateVote)
    (fd : FieldDescriptor) : outcome (Value * AggregateExchangeRateVote) :=
  x ← or_panic x;
  field_switch fd [
    ("oracle.v1.AggregateExchangeRateVote.exchange_rates"%string,
      mutable_list mkAggregateExchangeRateVote_1_list x
        (AggregateExchangeRateVote_ExchangeRates x));
    ("oracle.v1.AggregateExchangeRateVote.voter"%string, Panic)].
Definition AggregateExchangeRateVote_NewField (fd : FieldDescriptor) : outcome Value :=
  field_switch fd [
    ("oracle.v1.AggregateExchangeRateVote.exchange_rates"%string,
      new_list mkAggregateExchangeRateVote_1_list);
    ("oracle.v1.AggregateExchangeRateVote.voter"%string, Ok (ValueOfString ""%string))].
Definition AggregateExchangeRateVote_set_unknown (x : AggregateExchangeRateVote) (fields : bytes) : AggregateExchangeRateVote :=
  mkAggregateExchangeRateVote (AggregateExchangeRateVote_ExchangeRates x)
    (AggregateExchangeRateVote_Voter x) fields.
#[export] Instance AggregateExchangeRateVote_reflect : MessageReflect AggregateExchangeRateVote := {|
  Range S := AggregateExchangeRateVote_Range;
  Has := AggregateExchangeRateVote_Has;
  Clear := AggregateExchangeRateVote_Clear;
  Get := AggregateExchangeRateVote_Get;
  Set_ := AggregateExchangeRateVote_Set;
  Mutable := AggregateExchangeRateVote_Mutable;
  NewField := AggregateExchangeRateVote_NewField;
  Descriptor := AggregateExchangeRateVote_descriptor;
  GetUnknown x := x ← or_panic x; Ok (AggregateExchangeRateVote_unknownFields x);
  SetUnknown x fields := x ← or_panic x; Ok (AggregateExchangeRateVote_set_unknown x fields);
|}.

(** [PriceStamp] *)

Definition fd_PriceStamp_exchange_rate : FieldDescriptor :=
  mkField "oracle.v1.PriceStamp.exchange_rate" 1 MessageKind false.
Definition fd_PriceStamp_block_num : FieldDescriptor :=
  mkField "oracle.v1.PriceStamp.block_num" 2 Uint64Kind false.
Definition PriceStamp_descriptor : list FieldDescriptor := [
  fd_PriceStamp_exchange_rate; fd_PriceStamp_block_num].
Definition PriceStamp_with_ExchangeRate (x : PriceStamp) (v : option v1beta1_DecCoin) : PriceStamp
    :=
  mkPriceStamp v (PriceStamp_BlockNum x) (PriceStamp_unknownFields x).
Definition PriceStamp_with_BlockNum (x : PriceStamp) (v : Z) : PriceStamp :=
  mkPriceStamp (PriceStamp_ExchangeRate x) v (PriceStamp_unknownFields x).
Definition PriceStamp_GetExchangeRate : option PriceStamp → option v1beta1_DecCoin :=
  getter None PriceStamp_ExchangeRate.
Definition PriceStamp_GetBlockNum : option PriceStamp → Z :=
  getter 0 PriceStamp_BlockNum.
Definition PriceStamp_Range {S} (x : option PriceStamp) (f : FieldDescriptor → Value → M S bool) :
    M S () :=
  x ← lift (or_panic x);
  range_fields f [
    (has_message (PriceStamp_ExchangeRate x), fd_PriceStamp_exchange_rate, ValueOfMessage
       (PriceStamp_ExchangeRate x));
    (has_int (PriceStamp_BlockNum x), fd_PriceStamp_block_num, ValueOfUint64
       (PriceStamp_BlockNum x))].
Definition PriceStamp_Has (x : option PriceStamp) (fd : FieldDescriptor) : outcome bool :=
  x ← or_panic x;
  field_switch fd [
    ("oracle.v1.PriceStamp.exchange_rate"%string, Ok (has_message (PriceStamp_ExchangeRate x)));
    ("oracle.v1.PriceStamp.block_num"%string, Ok (has_int (PriceStamp_BlockNum x)))].
Definition PriceStamp_Clear (x : option PriceStamp) (fd : FieldDescriptor) : outcome PriceStamp :=
  x ← or_panic x;
  field_switch fd [
    ("oracle.v1.PriceStamp.exchange_rate"%string, Ok (PriceStamp_with_ExchangeRate x None));
    ("oracle.v1.PriceStamp.block_num"%string, Ok (PriceStamp_with_BlockNum x 0))].
Definition PriceStamp_Get (x : option PriceStamp) (fd : FieldDescriptor) : outcome Value :=
  x ← or_panic x;
  field_switch fd [
    ("oracle.v1.PriceStamp.exchange_rate"%string, Ok (ValueOfMessage (PriceStamp_ExchangeRate x)));
    ("oracle.v1.PriceStamp.block_num"%string, Ok (ValueOfUint64 (PriceStamp_BlockNum x)))].
Definition PriceStamp_Set (x : option PriceStamp) (fd : FieldDescriptor) (value : Value) : outcome
    PriceStamp :=
  x ← or_panic x;
  field_switch fd [
    ("oracle.v1.PriceStamp.exchange_rate"%string,
      set_message (PriceStamp_with_ExchangeRate x) value);
    ("oracle.v1.PriceStamp.block_num"%string, set_uint64 (PriceStamp_with_BlockNum x) value)].
Definition PriceStamp_Mutable (x : option PriceStamp) (fd : FieldDescriptor) : outcome
    (Value * PriceStamp) :=
  x ← or_panic x;
  field_switch fd [
    ("oracle.v1.PriceStamp.exchange_rate"%string,
      mutable_message (PriceStamp_with_ExchangeRate x) (PriceStamp_ExchangeRate x));
    ("oracle.v1.PriceStamp.block_num"%string, Panic)].
Definition PriceStamp_NewField (fd : FieldDescriptor) : outcome Value :=
  field_switch fd [
    ("oracle.v1.PriceStamp.exchange_rate"%string, new_message (A := v1beta1_DecCoin));
    ("oracle.v1.PriceStamp.block_num"%string, Ok (ValueOfUint64 0))].
Definition PriceStamp_set_unknown (x : PriceStamp) (fields : bytes) : PriceStamp :=
  mkPriceStamp (PriceStamp_ExchangeRate x) (PriceStamp_BlockNum x) fields.
#[export] Instance PriceStamp_reflect : MessageReflect PriceStamp := {|
  Range S := PriceStamp_Range;
  Has := PriceStamp_Has;
  Clear := PriceStamp_Clear;
  Get := PriceStamp_Get;
  Set_ := PriceStamp_Set;
  Mutable := PriceStamp_Mutable;
  NewField := PriceStamp_NewField;
  Descriptor := PriceStamp_descriptor;
  GetUnknown x := x ← or_panic x; Ok (PriceStamp_unknownFields x);
  SetUnknown x fields := x ← or_panic x; Ok (PriceStamp_set_unknown x fields);
|}.

(** [ValidatorRewardSet] *)

Definition fd_ValidatorRewardSet_validator_set : FieldDescriptor :=
  mkField "oracle.v1.ValidatorRewardSet.validator_set" 1 StringKind true.
Definition ValidatorRewardSet_descriptor : list FieldDescriptor := [
  fd_ValidatorRewardSet_validator_set].
Definition ValidatorRewardSet_with_ValidatorSet (x : ValidatorRewardSet) (v : list string) :
    ValidatorRewardSet :=
  mkValidatorRewardSet v (ValidatorRewardSet_unknownFields x).
Definition ValidatorRewardSet_GetValidatorSet : option ValidatorRewardSet → list string :=
  getter [] ValidatorRewardSet_ValidatorSet.
#[export] Instance ValidatorRewardSet_1_list_methods : ProtoList ValidatorRewardSet_1_list :=
  string_list mkValidatorRewardSet_1_list ValidatorRewardSet_1_list_slice.
Definition ValidatorRewardSet_Range {S} (x : option ValidatorRewardSet)
    (f : FieldDescriptor → Value → M S bool) : M S () :=
  x ← lift (or_panic x);
  range_fields f [
    (has_slice (ValidatorRewardSet_ValidatorSet x), fd_ValidatorRewardSet_validator_set,
       ValueOfList (mkValidatorRewardSet_1_list (Some (ValidatorRewardSet_ValidatorSet x))))].
Definition ValidatorRewardSet_Has (x : option ValidatorRewardSet) (fd : FieldDescriptor) : outcome
    bool :=
  x ← or_panic x;
  field_switch fd [
    ("oracle.v1.ValidatorRewardSet.validator_set"%string,
      Ok (has_slice (ValidatorRewardSet_ValidatorSet x)))].
Definition ValidatorRewardSet_Clear (x : option ValidatorRewardSet) (fd : FieldDescriptor) :
    outcome ValidatorRewardSet :=
  x ← or_panic x;
  field_switch fd [
    ("oracle.v1.ValidatorRewardSet.validator_set"%string,
      Ok (ValidatorRewardSet_with_ValidatorSet x []))].
Definition ValidatorRewardSet_Get (x : option ValidatorRewardSet) (fd : FieldDescriptor) : outcome
    Value :=
  x ← or_panic x;
  field_switch fd [
    ("oracle.v1.ValidatorRewardSet.validator_set"%string,
      Ok (get_list mkValidatorRewardSet_1_list (ValidatorRewardSet_ValidatorSet x)))].
Definition ValidatorRewardSet_Set (x : option ValidatorRewardSet) (fd : FieldDescriptor)
    (value : Value) : outcome ValidatorRewardSet :=
  x ← or_panic x;
  field_switch fd [
    ("oracle.v1.ValidatorRewardSet.validator_set"%string,
      set_list ValidatorRewardSet_1_list_slice (ValidatorRewardSet_with_ValidatorSet x) value)].
Definition ValidatorRewardSet_Mutable (x : option ValidatorRewardSet) (fd : FieldDescriptor) :
    outcome (Value * ValidatorRewardSet) :=
  x ← or_panic x;
  field_switch fd [
    ("oracle.v1.ValidatorRewardSet.validator_set"%string,
      mutable_list mkValidatorRewardSet_1_list x (ValidatorRewardSet_ValidatorSet x))].
Definition ValidatorRewardSet_NewField (fd : FieldDescriptor) : outcome Value :=
  field_switch fd [
    ("oracle.v1.ValidatorRewardSet.validator_set"%string, new_list mkValidatorRewardSet_1_list)].
Definition ValidatorRewardSet_set_unknown (x : ValidatorRewardSet) (fields : bytes) : ValidatorRewardSet :=
  mkValidatorRewardSet (ValidatorRewardSet_ValidatorSet x) fields.
#[export] Instance ValidatorRewardSet_reflect : MessageReflect ValidatorRewardSet := {|
  Range S := ValidatorRewardSet_Range;
  Has := ValidatorRewardSet_Has;
  Clear := ValidatorRewardSet_Clear;
  Get := ValidatorRewardSet_Get;
  Set_ := ValidatorRewardSet_Set;
  Mutable := ValidatorRewardSet_Mutable;
  NewField := ValidatorRewardSet_NewField;
  Descriptor := ValidatorRewardSet_descriptor;
  GetUnknown x := x ← or_panic x; Ok (ValidatorRewardSet_unknownFields x);
  SetUnknown x fields := x ← or_panic x; Ok (ValidatorRewardSet_set_unknown x fields);
|}.

(** [ParamUpdatePlan] *)

Definition fd_ParamUpdatePlan_keys : FieldDescriptor :=
  mkField "oracle.v1.ParamUpdatePlan.keys" 1 StringKind true.
Definition fd_ParamUpdatePlan_height : FieldDescriptor :=
  mkField "oracle.v1.ParamUpdatePlan.height" 2 Int64Kind false.
Definition fd_ParamUpdatePlan_changes : FieldDescriptor :=
  mkField "oracle.v1.ParamUpdatePlan.changes" 3 MessageKind false.
Definition ParamUpdatePlan_descriptor : list FieldDescriptor := [
  fd_ParamUpdatePlan_keys; fd_ParamUpdatePlan_height; fd_ParamUpdatePlan_changes].
Definition ParamUpdatePlan_with_Keys (x : ParamUpdatePlan) (v : list string) : ParamUpdatePlan :=
  mkParamUpdatePlan v (ParamUpdatePlan_Height x) (ParamUpdatePlan_Changes x)
    (ParamUpdatePlan_unknownFields x).
Definition ParamUpdatePlan_with_Height (x : ParamUpdatePlan) (v : Z) : ParamUpdatePlan :=
  mkParamUpdatePlan (ParamUpdatePlan_Keys x) v (ParamUpdatePlan_Changes x)
    (ParamUpdatePlan_unknownFields x).
Definition ParamUpdatePlan_with_Changes (x : ParamUpdatePlan) (v : option Params) : ParamUpdatePlan
    :=
  mkParamUpdatePlan (ParamUpdatePlan_Keys x) (ParamUpdatePlan_Height x) v
    (ParamUpdatePlan_unknownFields x).
Definition ParamUpdatePlan_GetKeys : option ParamUpdatePlan → list string :=
  getter [] ParamUpdatePlan_Keys.
Definition ParamUpdatePlan_GetHeight : option ParamUpdatePlan → Z :=
  getter 0 ParamUpdatePlan_Height.
Definition ParamUpdatePlan_GetChanges : option ParamUpdatePlan → option Params :=
  getter None ParamUpdatePlan_Changes.
#[export] Instance ParamUpdatePlan_1_list_methods : ProtoList ParamUpdatePlan_1_list :=
  string_list mkParamUpdatePlan_1_list ParamUpdatePlan_1_list_slice.
Definition ParamUpdatePlan_Range {S} (x : option ParamUpdatePlan)
    (f : FieldDescriptor → Value → M S bool) : M S () :=
  x ← lift (or_panic x);
  range_fields f [
    (has_slice (ParamUpdatePlan_Keys x), fd_ParamUpdatePlan_keys, ValueOfList
       (mkParamUpdatePlan_1_list (Some (ParamUpdatePlan_Keys x))));
    (has_int (ParamUpdatePlan_Height x), fd_ParamUpdatePlan_height, ValueOfInt64
       (ParamUpdatePlan_Height x));
    (has_message (ParamUpdatePlan_Changes x), fd_ParamUpdatePlan_changes, ValueOfMessage
       (ParamUpdatePlan_Changes x))].
Definition ParamUpdatePlan_Has (x : option ParamUpdatePlan) (fd : FieldDescriptor) : outcome bool
    :=
  x ← or_panic x;
  field_switch fd [
    ("oracle.v1.ParamUpdatePlan.keys"%string, Ok (has_slice (ParamUpdatePlan_Keys x)));
    ("oracle.v1.ParamUpdatePlan.height"%string, Ok (has_int (ParamUpdatePlan_Height x)));
    ("oracle.v1.ParamUpdatePlan.changes"%string, Ok (has_message (ParamUpdatePlan_Changes x)))].
Definition ParamUpdatePlan_Clear (x : option ParamUpdatePlan) (fd : FieldDescriptor) : outcome
    ParamUpdatePlan :=
  x ← or_panic x;
  field_switch fd [
    ("oracle.v1.ParamUpdatePlan.keys"%string, Ok (ParamUpdatePlan_with_Keys x []));
    ("oracle.v1.ParamUpdatePlan.height"%string, Ok (ParamUpdatePlan_with_Height x 0));
    ("oracle.v1.ParamUpdatePlan.changes"%string, Ok (ParamUpdatePlan_with_Changes x None))].
Definition ParamUpdatePlan_Get (x : option ParamUpdatePlan) (fd : FieldDescriptor) : outcome Value
    :=
  x ← or_panic x;
  field_switch fd [
    ("oracle.v1.ParamUpdatePlan.keys"%string,
      Ok (get_list mkParamUpdatePlan_1_list (ParamUpdatePlan_Keys x)));
    ("oracle.v1.ParamUpdatePlan.height"%string, Ok (ValueOfInt64 (ParamUpdatePlan_Height x)));
    ("oracle.v1.ParamUpdatePlan.changes"%string, Ok (ValueOfMessage (ParamUpdatePlan_Changes x)))].
Definition ParamUpdatePlan_Set (x : option ParamUpdatePlan) (fd : FieldDescriptor) (value : Value)
    : outcome ParamUpdatePlan :=
  x ← or_panic x;
  field_switch fd [
    ("oracle.v1.ParamUpdatePlan.keys"%string,
      set_list ParamUpdatePlan_1_list_slice (ParamUpdatePlan_with_Keys x) value);
    ("oracle.v1.ParamUpdatePlan.height"%string, set_int64 (ParamUpdatePlan_with_Height x) value);
    ("oracle.v1.ParamUpdatePlan.changes"%string,
      set_message (ParamUpdatePlan_with_Changes x) value)].
Definition ParamUpdatePlan_Mutable (x : option ParamUpdatePlan) (fd : FieldDescriptor) : outcome
    (Value * ParamUpdatePlan) :=
  x ← or_panic x;
  field_switch fd [
    ("oracle.v1.ParamUpdatePlan.keys"%string,
      mutable_list mkParamUpdatePlan_1_list x (ParamUpdatePlan_Keys x));
    ("oracle.v1.ParamUpdatePlan.changes"%string,
      mutable_message (ParamUpdatePlan_with_Changes x) (ParamUpdatePlan_Changes x));
    ("oracle.v1.ParamUpdatePlan.height"%string, Panic)].
Definition ParamUpdatePlan_NewField (fd : FieldDescriptor) : outcome Value :=
  field_switch fd [
    ("oracle.v1.ParamUpdatePlan.keys"%string, new_list mkParamUpdatePlan_1_list);
    ("oracle.v1.ParamUpdatePlan.height"%string, Ok (ValueOfInt64 0));
    ("oracle.v1.ParamUpdatePlan.changes"%string, new_message (A := Params))].
Definition ParamUpdatePlan_set_unknown (x : ParamUpdatePlan) (fields : bytes) : ParamUpdatePlan :=
  mkParamUpdatePlan (ParamUpdatePlan_Keys x) (ParamUpdatePlan_Height x) (ParamUpdatePlan_Changes
    x) fields.
#[export] Instance ParamUpdatePlan_reflect : MessageReflect ParamUpdatePlan := {|
  Range S := ParamUpdatePlan_Range;
  Has := ParamUpdatePlan_Has;
  Clear := ParamUpdatePlan_Clear;
  Get := ParamUpdatePlan_Get;
  Set_ := ParamUpdatePlan_Set;
  Mutable := ParamUpdatePlan_Mutable;
  NewField := ParamUpdatePlan_NewField;
  Descriptor := ParamUpdatePlan_descriptor;
  GetUnknown x := x ← or_panic x; Ok (ParamUpdatePlan_unknownFields x);
  SetUnknown x fields := x ← or_panic x; Ok (ParamUpdatePlan_set_unknown x fields);
|}.

(** [OracleVoteExtension] *)

Definition fd_OracleVoteExtension_height : FieldDescriptor :=
  mkField "oracle.v1.OracleVoteExtension.height" 1 Int64Kind false.
Definition fd_OracleVoteExtension_exchange_rates : FieldDescriptor :=
  mkField "oracle.v1.OracleVoteExtension.exchange_rates" 2 MessageKind true.
Definition OracleVoteExtension_descriptor : list FieldDescriptor := [
  fd_OracleVoteExtension_height; fd_OracleVoteExtension_exchange_rates].
Definition OracleVoteExtension_with_Height (x : OracleVoteExtension) (v : Z) : OracleVoteExtension
    :=
  mkOracleVoteExtension v (OracleVoteExtension_ExchangeRates x) (OracleVoteExtension_unknownFields
    x).
Definition OracleVoteExtension_with_ExchangeRates (x : OracleVoteExtension)
    (v : list (option v1beta1_DecCoin)) : OracleVoteExtension :=
  mkOracleVoteExtension (OracleVoteExtension_Height x) v (OracleVoteExtension_unknownFields x).
Definition OracleVoteExtension_GetHeight : option OracleVoteExtension → Z :=
  getter 0 OracleVoteExtension_Height.
Definition OracleVoteExtension_GetExchangeRates : option OracleVoteExtension → list
    (option v1beta1_DecCoin) :=
  getter [] OracleVoteExtension_ExchangeRates.
#[export] Instance OracleVoteExtension_2_list_methods : ProtoList OracleVoteExtension_2_list :=
  message_list mkOracleVoteExtension_2_list OracleVoteExtension_2_list_slice.
Definition OracleVoteExtension_Range {S} (x : option OracleVoteExtension)
    (f : FieldDescriptor → Value → M S bool) : M S () :=
  x ← lift (or_panic x);
  range_fields f [
    (has_int (OracleVoteExtension_Height x), fd_OracleVoteExtension_height, ValueOfInt64
       (OracleVoteExtension_Height x));
    (has_slice (OracleVoteExtension_ExchangeRates x), fd_OracleVoteExtension_exchange_rates,
       ValueOfList (mkOracleVoteExtension_2_list (Some (OracleVoteExtension_ExchangeRates x))))].
Definition OracleVoteExtension_Has (x : option OracleVoteExtension) (fd : FieldDescriptor) :
    outcome bool :=
  x ← or_panic x;
  field_switch fd [
    ("oracle.v1.OracleVoteExtension.height"%string, Ok (has_int (OracleVoteExtension_Height x)));
    ("oracle.v1.OracleVoteExtension.exchange_rates"%string,
      Ok (has_slice (OracleVoteExtension_ExchangeRates x)))].
Definition OracleVoteExtension_Clear (x : option OracleVoteExtension) (fd : FieldDescriptor) :
    outcome OracleVoteExtension :=
  x ← or_panic x;
  field_switch fd [
    ("oracle.v1.OracleVoteExtension.height"%string, Ok (OracleVoteExtension_with_Height x 0));
    ("oracle.v1.OracleVoteExtension.exchange_rates"%string,
      Ok (OracleVoteExtension_with_ExchangeRates x []))].
Definition OracleVoteExtension_Get (x : option OracleVoteExtension) (fd : FieldDescriptor) :
    outcome Value :=
  x ← or_panic x;
  field_switch fd [
    ("oracle.v1.OracleVoteExtension.height"%string,
      Ok (ValueOfInt64 (OracleVoteExtension_Height x)));
    ("oracle.v1.OracleVoteExtension.exchange_rates"%string,
      Ok (get_list mkOracleVoteExtension_2_list (OracleVoteExtension_ExchangeRates x)))].
Definition OracleVoteExtension_Set (x : option OracleVoteExtension) (fd : FieldDescriptor)
    (value : Value) : outcome OracleVoteExtension :=
  x ← or_panic x;
  field_switch fd [
    ("oracle.v1.OracleVoteExtension.height"%string,
      set_int64 (OracleVoteExtension_with_Height x) value);
    ("oracle.v1.OracleVoteExtension.exchange_rates"%string,
      set_list OracleVoteExtension_2_list_slice (OracleVoteExtension_with_ExchangeRates x) value)].
Definition OracleVoteExtension_Mutable (x : option OracleVoteExtension) (fd : FieldDescriptor) :
    outcome (Value * OracleVoteExtension) :=
  x ← or_panic x;
  field_switch fd [
    ("oracle.v1.OracleVoteExtension.exchange_rates"%string,
      mutable_list mkOracleVoteExtension_2_list x (OracleVoteExtension_ExchangeRates x));
    ("oracle.v1.OracleVoteExtension.height"%string, Panic)].
Definition OracleVoteExtension_NewField (fd : FieldDescriptor) : outcome Value :=
  field_switch fd [
    ("oracle.v1.OracleVoteExtension.height"%string, Ok (ValueOfInt64 0));
    ("oracle.v1.OracleVoteExtension.exchange_rates"%string, new_list mkOracleVoteExtension_2_list)].
Definition OracleVoteExtension_set_unknown (x : OracleVoteExtension) (fields : bytes) : OracleVoteExtension :=
  mkOracleVoteExtension (OracleVoteExtension_Height x) (OracleVoteExtension_ExchangeRates x)
    fields.
#[export] Instance OracleVoteExtension_reflect : MessageReflect OracleVoteExtension := {|
  Range S := OracleVoteExtension_Range;
  Has := OracleVoteExtension_Has;
  Clear := OracleVoteExtension_Clear;
  Get := OracleVoteExtension_Get;
  Set_ := OracleVoteExtension_Set;
  Mutable := OracleVoteExtension_Mutable;
  NewField := OracleVoteExtension_NewField;
  Descriptor := OracleVoteExtension_descriptor;
  GetUnknown x := x ← or_panic x; Ok (OracleVoteExtension_unknownFields x);
  SetUnknown x fields := x ← or_panic x; Ok (OracleVoteExtension_set_unknown x fields);
|}.

(** [InjectedVoteExtensionTx] *)

Definition fd_InjectedVoteExtensionTx_exchange_rate_votes : FieldDescriptor :=
  mkField "oracle.v1.InjectedVoteExtensionTx.exchange_rate_votes" 1 MessageKind true.
Definition fd_InjectedVoteExtensionTx_extended_commit_info : FieldDescriptor :=
  mkField "oracle.v1.InjectedVoteExtensionTx.extended_commit_info" 2 BytesKind false.
Definition InjectedVoteExtensionTx_descriptor : list FieldDescriptor := [
  fd_InjectedVoteExtensionTx_exchange_rate_votes; fd_InjectedVoteExtensionTx_extended_commit_info].
Definition InjectedVoteExtensionTx_with_ExchangeRateVotes (x : InjectedVoteExtensionTx)
    (v : list (option AggregateExchangeRateVote)) : InjectedVoteExtensionTx :=
  mkInjectedVoteExtensionTx v (InjectedVoteExtensionTx_ExtendedCommitInfo x)
    (InjectedVoteExtensionTx_unknownFields x).
Definition InjectedVoteExtensionTx_with_ExtendedCommitInfo (x : InjectedVoteExtensionTx)
    (v : bytes) : InjectedVoteExtensionTx :=
  mkInjectedVoteExtensionTx (InjectedVoteExtensionTx_ExchangeRateVotes x) v
    (InjectedVoteExtensionTx_unknownFields x).
Definition InjectedVoteExtensionTx_GetExchangeRateVotes : option InjectedVoteExtensionTx → list
    (option AggregateExchangeRateVote) :=
  getter [] InjectedVoteExtensionTx_ExchangeRateVotes.
Definition InjectedVoteExtensionTx_GetExtendedCommitInfo : option InjectedVoteExtensionTx → bytes
    :=
  getter [] InjectedVoteExtensionTx_ExtendedCommitInfo.
#[export] Instance InjectedVoteExtensionTx_1_list_methods : ProtoList InjectedVoteExtensionTx_1_list :=
  message_list mkInjectedVoteExtensionTx_1_list InjectedVoteExtensionTx_1_list_slice.
Definition InjectedVoteExtensionTx_Range {S} (x : option InjectedVoteExtensionTx)
    (f : FieldDescriptor → Value → M S bool) : M S () :=
  x ← lift (or_panic x);
  range_fields f [
    (has_slice (InjectedVoteExtensionTx_ExchangeRateVotes x),
       fd_InjectedVoteExtensionTx_exchange_rate_votes, ValueOfList
       (mkInjectedVoteExtensionTx_1_list (Some (InjectedVoteExtensionTx_ExchangeRateVotes x))));
    (has_slice (InjectedVoteExtensionTx_ExtendedCommitInfo x),
       fd_InjectedVoteExtensionTx_extended_commit_info, ValueOfBytes
       (InjectedVoteExtensionTx_ExtendedCommitInfo x))].
Definition InjectedVoteExtensionTx_Has (x : option InjectedVoteExtensionTx) (fd : FieldDescriptor)
    : outcome bool :=
  x ← or_panic x;
  field_switch fd [
    ("oracle.v1.InjectedVoteExtensionTx.exchange_rate_votes"%string,
      Ok (has_slice (InjectedVoteExtensionTx_ExchangeRateVotes x)));
    ("oracle.v1.InjectedVoteExtensionTx.extended_commit_info"%string,
      Ok (has_slice (InjectedVoteExtensionTx_ExtendedCommitInfo x)))].
Definition InjectedVoteExtensionTx_Clear (x : option InjectedVoteExtensionTx)
    (fd : FieldDescriptor) : outcome InjectedVoteExtensionTx :=
  x ← or_panic x;
  field_switch fd [
    ("oracle.v1.InjectedVoteExtensionTx.exchange_rate_votes"%string,
      Ok (InjectedVoteExtensionTx_with_ExchangeRateVotes x []));
    ("oracle.v1.InjectedVoteExtensionTx.extended_commit_info"%string,
      Ok (InjectedVoteExtensionTx_with_ExtendedCommitInfo x []))].
Definition InjectedVoteExtensionTx_Get (x : option InjectedVoteExtensionTx) (fd : FieldDescriptor)
    : outcome Value :=
  x ← or_panic x;
  field_switch fd [
    ("oracle.v1.InjectedVoteExtensionTx.exchange_rate_votes"%string,
      Ok
        (get_list mkInjectedVoteExtensionTx_1_list (InjectedVoteExtensionTx_ExchangeRateVotes x)));
    ("oracle.v1.InjectedVoteExtensionTx.extended_commit_info"%string,
      Ok (ValueOfBytes (InjectedVoteExtensionTx_ExtendedCommitInfo x)))].
Definition InjectedVoteExtensionTx_Set (x : option InjectedVoteExtensionTx) (fd : FieldDescriptor)
    (value : Value) : outcome InjectedVoteExtensionTx :=
  x ← or_panic x;
  field_switch fd [
    ("oracle.v1.InjectedVoteExtensionTx.exchange_rate_votes"%string,
      set_list InjectedVoteExtensionTx_1_list_slice
        (InjectedVoteExtensionTx_with_ExchangeRateVotes x) value);
    ("oracle.v1.InjectedVoteExtensionTx.extended_commit_info"%string,
      set_bytes (InjectedVoteExtensionTx_with_ExtendedCommitInfo x) value)].
Definition InjectedVoteExtensionTx_Mutable (x : option InjectedVoteExtensionTx)
    (fd : FieldDescriptor) : outcome (Value * InjectedVoteExtensionTx) :=
  x ← or_panic x;
  field_switch fd [
    ("oracle.v1.InjectedVoteExtensionTx.exchange_rate_votes"%string,
      mutable_list mkInjectedVoteExtensionTx_1_list x
        (InjectedVoteExtensionTx_ExchangeRateVotes x));
    ("oracle.v1.InjectedVoteExtensionTx.extended_commit_info"%string, Panic)].
Definition InjectedVoteExtensionTx_NewField (fd : FieldDescriptor) : outcome Value :=
  field_switch fd [
    ("oracle.v1.InjectedVoteExtensionTx.exchange_rate_votes"%string,
      new_list mkInjectedVoteExtensionTx_1_list);
    ("oracle.v1.InjectedVoteExtensionTx.extended_commit_info"%string, Ok (ValueOfBytes []))].
Definition InjectedVoteExtensionTx_set_unknown (x : InjectedVoteExtensionTx) (fields : bytes) : InjectedVoteExtensionTx :=
  mkInjectedVoteExtensionTx (InjectedVoteExtensionTx_ExchangeRateVotes x)
    (InjectedVoteExtensionTx_ExtendedCommitInfo x) fields.
#[export] Instance InjectedVoteExtensionTx_reflect : MessageReflect InjectedVoteExtensionTx := {|
  Range S := InjectedVoteExtensionTx_Range;
  Has := InjectedVoteExtensionTx_Has;
  Clear := InjectedVoteExtensionTx_Clear;
  Get := InjectedVoteExtensionTx_Get;
  Set_ := InjectedVoteExtensionTx_Set;
  Mutable := InjectedVoteExtensionTx_Mutable;
  NewField := InjectedVoteExtensionTx_NewField;
  Descriptor := InjectedVoteExtensionTx_descriptor;
  GetUnknown x := x ← or_panic x; Ok (InjectedVoteExtensionTx_unknownFields x);
  SetUnknown x fields := x ← or_panic x; Ok (InjectedVoteExtensionTx_set_unknown x fields);
|}.

(** [EventDelegateFeedConsent] *)

Definition fd_EventDelegateFeedConsent_operator : FieldDescriptor :=
  mkField "oracle.v1.EventDelegateFeedConsent.operator" 1 StringKind false.
Definition fd_EventDelegateFeedConsent_delegate : FieldDescriptor :=
  mkField "oracle.v1.EventDelegateFeedConsent.delegate" 2 StringKind false.
Definition EventDelegateFeedConsent_descriptor : list FieldDescriptor := [
  fd_EventDelegateFeedConsent_operator; fd_EventDelegateFeedConsent_delegate].
Definition EventDelegateFeedConsent_with_Operator (x : EventDelegateFeedConsent) (v : string) :
    EventDelegateFeedConsent :=
  mkEventDelegateFeedConsent v (EventDelegateFeedConsent_Delegate x)
    (EventDelegateFeedConsent_unknownFields x).
Definition EventDelegateFeedConsent_with_Delegate (x : EventDelegateFeedConsent) (v : string) :
    EventDelegateFeedConsent :=
  mkEventDelegateFeedConsent (EventDelegateFeedConsent_Operator x) v
    (EventDelegateFeedConsent_unknownFields x).
Definition EventDelegateFeedConsent_GetOperator : option EventDelegateFeedConsent → string :=
  getter ""%string EventDelegateFeedConsent_Operator.
Definition EventDelegateFeedConsent_GetDelegate : option EventDelegateFeedConsent → string :=
  getter ""%string EventDelegateFeedConsent_Delegate.
Definition EventDelegateFeedConsent_Range {S} (x : option EventDelegateFeedConsent)
    (f : FieldDescriptor → Value → M S bool) : M S () :=
  x ← lift (or_panic x);
  range_fields f [
    (has_string (EventDelegateFeedConsent_Operator x), fd_EventDelegateFeedConsent_operator,
       ValueOfString (EventDelegateFeedConsent_Operator x));
    (has_string (EventDelegateFeedConsent_Delegate x), fd_EventDelegateFeedConsent_delegate,
       ValueOfString (EventDelegateFeedConsent_Delegate x))].
Definition EventDelegateFeedConsent_Has (x : option EventDelegateFeedConsent)
    (fd : FieldDescriptor) : outcome bool :=
  x ← or_panic x;
  field_switch fd [
    ("oracle.v1.EventDelegateFeedConsent.operator"%string,
      Ok (has_string (EventDelegateFeedConsent_Operator x)));
    ("oracle.v1.EventDelegateFeedConsent.delegate"%string,
      Ok (has_string (EventDelegateFeedConsent_Delegate x)))].
Definition EventDelegateFeedConsent_Clear (x : option EventDelegateFeedConsent)
    (fd : FieldDescriptor) : outcome EventDelegateFeedConsent :=
  x ← or_panic x;
  field_switch fd [
    ("oracle.v1.EventDelegateFeedConsent.operator"%string,
      Ok (EventDelegateFeedConsent_with_Operator x ""%string));
    ("oracle.v1.EventDelegateFeedConsent.delegate"%string,
      Ok (EventDelegateFeedConsent_with_Delegate x ""%string))].
Definition EventDelegateFeedConsent_Get (x : option EventDelegateFeedConsent)
    (fd : FieldDescriptor) : outcome Value :=
  x ← or_panic x;
  field_switch fd [
    ("oracle.v1.EventDelegateFeedConsent.operator"%string,
      Ok (ValueOfString (EventDelegateFeedConsent_Operator x)));
    ("oracle.v1.EventDelegateFeedConsent.delegate"%string,
      Ok (ValueOfString (EventDelegateFeedConsent_Delegate x)))].
Definition EventDelegateFeedConsent_Set (x : option EventDelegateFeedConsent)
    (fd : FieldDescriptor) (value : Value) : outcome EventDelegateFeedConsent :=
  x ← or_panic x;
  field_switch fd [
    ("oracle.v1.EventDelegateFeedConsent.operator"%string,
      set_string (EventDelegateFeedConsent_with_Operator x) value);
    ("oracle.v1.EventDelegateFeedConsent.delegate"%string,
      set_string (EventDelegateFeedConsent_with_Delegate x) value)].
Definition EventDelegateFeedConsent_Mutable (x : option EventDelegateFeedConsent)
    (fd : FieldDescriptor) : outcome (Value * EventDelegateFeedConsent) :=
  x ← or_panic x;
  field_switch fd [
    ("oracle.v1.EventDelegateFeedConsent.operator"%string, Panic);
    ("oracle.v1.EventDelegateFeedConsent.delegate"%string, Panic)].
Definition EventDelegateFeedConsent_NewField (fd : FieldDescriptor) : outcome Value :=
  field_switch fd [
    ("oracle.v1.EventDelegateFeedConsent.operator"%string, Ok (ValueOfString ""%string));
    ("oracle.v1.EventDelegateFeedConsent.delegate"%string, Ok (ValueOfString ""%string))].
Definition EventDelegateFeedConsent_set_unknown (x : EventDelegateFeedConsent) (fields : bytes) : EventDelegateFeedConsent :=
  mkEventDelegateFeedConsent (EventDelegateFeedConsent_Operator x)
    (EventDelegateFeedConsent_Delegate x) fields.
#[export] Instance EventDelegateFeedConsent_reflect : MessageReflect EventDelegateFeedConsent := {|
  Range S := EventDelegateFeedConsent_Range;
  Has := EventDelegateFeedConsent_Has;
  Clear := EventDelegateFeedConsent_Clear;
  Get := EventDelegateFeedConsent_Get;
  Set_ := EventDelegateFeedConsent_Set;
  Mutable := EventDelegateFeedConsent_Mutable;
  NewField := EventDelegateFeedConsent_NewField;
  Descriptor := EventDelegateFeedConsent_descriptor;
  GetUnknown x := x ← or_panic x; Ok (EventDelegateFeedConsent_unknownFields x);
  SetUnknown x fields := x ← or_panic x; Ok (EventDelegateFeedConsent_set_unknown x fields);
|}.

(** [EventSetFxRate] *)

Definition fd_EventSetFxRate_denom : FieldDescriptor :=
  mkField "oracle.v1.EventSetFxRate.denom" 1 StringKind false.
Definition fd_EventSetFxRate_rate : FieldDescriptor :=
  mkField "oracle.v1.EventSetFxRate.rate" 2 StringKind false.
Definition EventSetFxRate_descriptor : list FieldDescriptor := [
  fd_EventSetFxRate_denom; fd_EventSetFxRate_rate].
Definition EventSetFxRate_with_Denom (x : EventSetFxRate) (v : string) : EventSetFxRate :=
  mkEventSetFxRate v (EventSetFxRate_Rate x) (EventSetFxRate_unknownFields x).
Definition EventSetFxRate_with_Rate (x : EventSetFxRate) (v : string) : EventSetFxRate :=
  mkEventSetFxRate (EventSetFxRate_Denom x) v (EventSetFxRate_unknownFields x).
Definition EventSetFxRate_GetDenom : option EventSetFxRate → string :=
  getter ""%string EventSetFxRate_Denom.
Definition EventSetFxRate_GetRate : option EventSetFxRate → string :=
  getter ""%string EventSetFxRate_Rate.
Definition EventSetFxRate_Range {S} (x : option EventSetFxRate)
    (f : FieldDescriptor → Value → M S bool) : M S () :=
  x ← lift (or_panic x);
  range_fields f [
    (has_string (EventSetFxRate_Denom x), fd_EventSetFxRate_denom, ValueOfString
       (EventSetFxRate_Denom x));
    (has_string (EventSetFxRate_Rate x), fd_EventSetFxRate_rate, ValueOfString
       (EventSetFxRate_Rate x))].
Definition EventSetFxRate_Has (x : option EventSetFxRate) (fd : FieldDescriptor) : outcome bool :=
  x ← or_panic x;
  field_switch fd [
    ("oracle.v1.EventSetFxRate.denom"%string, Ok (has_string (EventSetFxRate_Denom x)));
    ("oracle.v1.EventSetFxRate.rate"%string, Ok (has_string (EventSetFxRate_Rate x)))].
Definition EventSetFxRate_Clear (x : option EventSetFxRate) (fd : FieldDescriptor) : outcome
    EventSetFxRate :=
  x ← or_panic x;
  field_switch fd [
    ("oracle.v1.EventSetFxRate.denom"%string, Ok (EventSetFxRate_with_Denom x ""%string));
    ("oracle.v1.EventSetFxRate.rate"%string, Ok (EventSetFxRate_with_Rate x ""%string))].
Definition EventSetFxRate_Get (x : option EventSetFxRate) (fd : FieldDescriptor) : outcome Value :=
  x ← or_panic x;
  field_switch fd [
    ("oracle.v1.EventSetFxRate.denom"%string, Ok (ValueOfString (EventSetFxRate_Denom x)));
    ("oracle.v1.EventSetFxRate.rate"%string, Ok (ValueOfString (EventSetFxRate_Rate x)))].
Definition EventSetFxRate_Set (x : option EventSetFxRate) (fd : FieldDescriptor) (value : Value) :
    outcome EventSetFxRate :=
  x ← or_panic x;
  field_switch fd [
    ("oracle.v1.EventSetFxRate.denom"%string, set_string (EventSetFxRate_with_Denom x) value);
    ("oracle.v1.EventSetFxRate.rate"%string, set_string (EventSetFxRate_with_Rate x) value)].
Definition EventSetFxRate_Mutable (x : option EventSetFxRate) (fd : FieldDescriptor) : outcome
    (Value * EventSetFxRate) :=
  x ← or_panic x;
  field_switch fd [
    ("oracle.v1.EventSetFxRate.denom"%string, Panic);
    ("oracle.v1.EventSetFxRate.rate"%string, Panic)].
Definition EventSetFxRate_NewField (fd : FieldDescriptor) : outcome Value :=
  field_switch fd [
    ("oracle.v1.EventSetFxRate.denom"%string, Ok (ValueOfString ""%string));
    ("oracle.v1.EventSetFxRate.rate"%string, Ok (ValueOfString ""%string))].
Definition EventSetFxRate_set_unknown (x : EventSetFxRate) (fields : bytes) : EventSetFxRate :=
  mkEventSetFxRate (EventSetFxRate_Denom x) (EventSetFxRate_Rate x) fields.
#[export] Instance EventSetFxRate_reflect : MessageReflect EventSetFxRate := {|
  Range S := EventSetFxRate_Range;
  Has := EventSetFxRate_Has;
  Clear := EventSetFxRate_Clear;
  Get := EventSetFxRate_Get;
  Set_ := EventSetFxRate_Set;
  Mutable := EventSetFxRate_Mutable;
  NewField := EventSetFxRate_NewField;
  Descriptor := EventSetFxRate_descriptor;
  GetUnknown x := x ← or_panic x; Ok (EventSetFxRate_unknownFields x);
  SetUnknown x fields := x ← or_panic x; Ok (EventSetFxRate_set_unknown x fields);
|}.

(** [FeederDelegation] *)

Definition fd_FeederDelegation_feeder_address : FieldDescriptor :=
  mkField "oracle.v1.FeederDelegation.feeder_address" 1 StringKind false.
Definition fd_FeederDelegation_validator_address : FieldDescriptor :=
  mkField "oracle.v1.FeederDelegation.validator_address" 2 StringKind false.
Definition FeederDelegation_descriptor : list FieldDescriptor := [
  fd_FeederDelegation_feeder_address; fd_FeederDelegation_validator_address].
Definition FeederDelegation_with_FeederAddress (x : FeederDelegation) (v : string) :
    FeederDelegation :=
  mkFeederDelegation v (FeederDelegation_ValidatorAddress x) (FeederDelegation_unknownFields x).
Definition FeederDelegation_with_ValidatorAddress (x : FeederDelegation) (v : string) :
    FeederDelegation :=
  mkFeederDelegation (FeederDelegation_FeederAddress x) v (FeederDelegation_unknownFields x).
Definition FeederDelegation_GetFeederAddress : option FeederDelegation → string :=
  getter ""%string FeederDelegation_FeederAddress.
Definition FeederDelegation_GetValidatorAddress : option FeederDelegation → string :=
  getter ""%string FeederDelegation_ValidatorAddress.
Definition FeederDelegation_Range {S} (x : option FeederDelegation)
    (f : FieldDescriptor → Value → M S bool) : M S () :=
  x ← lift (or_panic x);
  range_fields f [
    (has_string (FeederDelegation_FeederAddress x), fd_FeederDelegation_feeder_address,
       ValueOfString (FeederDelegation_FeederAddress x));
    (has_string (FeederDelegation_ValidatorAddress x), fd_FeederDelegation_validator_address,
       ValueOfString (FeederDelegation_ValidatorAddress x))].
Definition FeederDelegation_Has (x : option FeederDelegation) (fd : FieldDescriptor) : outcome bool
    :=
  x ← or_panic x;
  field_switch fd [
    ("oracle.v1.FeederDelegation.feeder_address"%string,
      Ok (has_string (FeederDelegation_FeederAddress x)));
    ("oracle.v1.FeederDelegation.validator_address"%string,
      Ok (has_string (FeederDelegation_ValidatorAddress x)))].
Definition FeederDelegation_Clear (x : option FeederDelegation) (fd : FieldDescriptor) : outcome
    FeederDelegation :=
  x ← or_panic x;
  field_switch fd [
    ("oracle.v1.FeederDelegation.feeder_address"%string,
      Ok (FeederDelegation_with_FeederAddress x ""%string));
    ("oracle.v1.FeederDelegation.validator_address"%string,
      Ok (FeederDelegation_with_ValidatorAddress x ""%string))].
Definition FeederDelegation_Get (x : option FeederDelegation) (fd : FieldDescriptor) : outcome
    Value :=
  x ← or_panic x;
  field_switch fd [
    ("oracle.v1.FeederDelegation.feeder_address"%string,
      Ok (ValueOfString (FeederDelegation_FeederAddress x)));
    ("oracle.v1.FeederDelegation.validator_address"%string,
      Ok (ValueOfString (FeederDelegation_ValidatorAddress x)))].
Definition FeederDelegation_Set (x : option FeederDelegation) (fd : FieldDescriptor)
    (value : Value) : outcome FeederDelegation :=
  x ← or_panic x;
  field_switch fd [
    ("oracle.v1.FeederDelegation.feeder_address"%string,
      set_string (FeederDelegation_with_FeederAddress x) value);
    ("oracle.v1.FeederDelegation.validator_address"%string,
      set_string (FeederDelegation_with_ValidatorAddress x) value)].
Definition FeederDelegation_Mutable (x : option FeederDelegation) (fd : FieldDescriptor) : outcome
    (Value * FeederDelegation) :=
  x ← or_panic x;
  field_switch fd [
    ("oracle.v1.FeederDelegation.feeder_address"%string, Panic);
    ("oracle.v1.FeederDelegation.validator_address"%string, Panic)].
Definition FeederDelegation_NewField (fd : FieldDescriptor) : outcome Value :=
  field_switch fd [
    ("oracle.v1.FeederDelegation.feeder_address"%string, Ok (ValueOfString ""%string));
    ("oracle.v1.FeederDelegation.validator_address"%string, Ok (ValueOfString ""%string))].
Definition FeederDelegation_set_unknown (x : FeederDelegation) (fields : bytes) : FeederDelegation :=
  mkFeederDelegation (FeederDelegation_FeederAddress x) (FeederDelegation_ValidatorAddress x)
    fields.
#[export] Instance FeederDelegation_reflect : MessageReflect FeederDelegation := {|
  Range S := FeederDelegation_Range;
  Has := FeederDelegation_Has;
  Clear := FeederDelegation_Clear;
  Get := FeederDelegation_Get;
  Set_ := FeederDelegation_Set;
  Mutable := FeederDelegation_Mutable;
  NewField := FeederDelegation_NewField;
  Descriptor := FeederDelegation_descriptor;
  GetUnknown x := x ← or_panic x; Ok (FeederDelegation_unknownFields x);
  SetUnknown x fields := x ← or_panic x; Ok (FeederDelegation_set_unknown x fields);
|}.

(** [MissCounter] *)

Definition fd_MissCounter_validator_address : FieldDescriptor :=
  mkField "oracle.v1.MissCounter.validator_address" 1 StringKind false.
Definition fd_MissCounter_miss_counter : FieldDescriptor :=
  mkField "oracle.v1.MissCounter.miss_counter" 2 Uint64Kind false.
Definition MissCounter_descriptor : list FieldDescriptor := [
  fd_MissCounter_validator_address; fd_MissCounter_miss_counter].
Definition MissCounter_with_ValidatorAddress (x : MissCounter) (v : string) : MissCounter :=
  mkMissCounter v (MissCounter_MissCounter x) (MissCounter_unknownFields x).
Definition MissCounter_with_MissCounter (x : MissCounter) (v : Z) : MissCounter :=
  mkMissCounter (MissCounter_ValidatorAddress x) v (MissCounter_unknownFields x).
Definition MissCounter_GetValidatorAddress : option MissCounter → string :=
  getter ""%string MissCounter_ValidatorAddress.
Definition MissCounter_GetMissCounter : option MissCounter → Z :=
  getter 0 MissCounter_MissCounter.
Definition MissCounter_Range {S} (x : option MissCounter) (f : FieldDescriptor → Value → M S bool)
    : M S () :=
  x ← lift (or_panic x);
  range_fields f [
    (has_string (MissCounter_ValidatorAddress x), fd_MissCounter_validator_address, ValueOfString
       (MissCounter_ValidatorAddress x));
    (has_int (MissCounter_MissCounter x), fd_MissCounter_miss_counter, ValueOfUint64
       (MissCounter_MissCounter x))].
Definition MissCounter_Has (x : option MissCounter) (fd : FieldDescriptor) : outcome bool :=
  x ← or_panic x;
  field_switch fd [
    ("oracle.v1.MissCounter.validator_address"%string,
      Ok (has_string (MissCounter_ValidatorAddress x)));
    ("oracle.v1.MissCounter.miss_counter"%string, Ok (has_int (MissCounter_MissCounter x)))].
Definition MissCounter_Clear (x : option MissCounter) (fd : FieldDescriptor) : outcome MissCounter
    :=
  x ← or_panic x;
  field_switch fd [
    ("oracle.v1.MissCounter.validator_address"%string,
      Ok (MissCounter_with_ValidatorAddress x ""%string));
    ("oracle.v1.MissCounter.miss_counter"%string, Ok (MissCounter_with_MissCounter x 0))].
Definition MissCounter_Get (x : option MissCounter) (fd : FieldDescriptor) : outcome Value :=
  x ← or_panic x;
  field_switch fd [
    ("oracle.v1.MissCounter.validator_address"%string,
      Ok (ValueOfString (MissCounter_ValidatorAddress x)));
    ("oracle.v1.MissCounter.miss_counter"%string, Ok (ValueOfUint64 (MissCounter_MissCounter x)))].
Definition MissCounter_Set (x : option MissCounter) (fd : FieldDescriptor) (value : Value) :
    outcome MissCounter :=
  x ← or_panic x;
  field_switch fd [
    ("oracle.v1.MissCounter.validator_address"%string,
      set_string (MissCounter_with_ValidatorAddress x) value);
    ("oracle.v1.MissCounter.miss_counter"%string,
      set_uint64 (MissCounter_with_MissCounter x) value)].
Definition MissCounter_Mutable (x : option MissCounter) (fd : FieldDescriptor) : outcome
    (Value * MissCounter) :=
  x ← or_panic x;
  field_switch fd [
    ("oracle.v1.MissCounter.validator_address"%string, Panic);
    ("oracle.v1.MissCounter.miss_counter"%string, Panic)].
Definition MissCounter_NewField (fd : FieldDescriptor) : outcome Value :=
  field_switch fd [
    ("oracle.v1.MissCounter.validator_address"%string, Ok (ValueOfString ""%string));
    ("oracle.v1.MissCounter.miss_counter"%string, Ok (ValueOfUint64 0))].
Definition MissCounter_set_unknown (x : MissCounter) (fields : bytes) : MissCounter :=
  mkMissCounter (MissCounter_ValidatorAddress x) (MissCounter_MissCounter x) fields.
#[export] Instance MissCounter_reflect : MessageReflect MissCounter := {|
  Range S := MissCounter_Range;
  Has := MissCounter_Has;
  Clear := MissCounter_Clear;
  Get := MissCounter_Get;
  Set_ := MissCounter_Set;
  Mutable := MissCounter_Mutable;
  NewField := MissCounter_NewField;
  Descriptor := MissCounter_descriptor;
  GetUnknown x := x ← or_panic x; Ok (MissCounter_unknownFields x);
  SetUnknown x fields := x ← or_panic x; Ok (MissCounter_set_unknown x fields);
|}.

(** [GenesisState] *)

Definition fd_GenesisState_params : FieldDescriptor :=
  mkField "oracle.v1.GenesisState.params" 1 MessageKind false.
Definition fd_GenesisState_feeder_delegations : FieldDescriptor :=
  mkField "oracle.v1.GenesisState.feeder_delegations" 2 MessageKind true.
Definition fd_GenesisState_exchange_rates : FieldDescriptor :=
  mkField "oracle.v1.GenesisState.exchange_rates" 3 MessageKind true.
Definition fd_GenesisState_miss_counters : FieldDescriptor :=
  mkField "oracle.v1.GenesisState.miss_counters" 4 MessageKind true.
Definition fd_GenesisState_aggregate_exchange_rate_prevotes : FieldDescriptor :=
  mkField "oracle.v1.GenesisState.aggregate_exchange_rate_prevotes" 5 MessageKind true.
Definition fd_GenesisState_aggregate_exchange_rate_votes : FieldDescriptor :=
  mkField "oracle.v1.GenesisState.aggregate_exchange_rate_votes" 6 MessageKind true.
Definition fd_GenesisState_medians : FieldDescriptor :=
  mkField "oracle.v1.GenesisState.medians" 7 MessageKind true.
Definition fd_GenesisState_historic_prices : FieldDescriptor :=
  mkField "oracle.v1.GenesisState.historic_prices" 8 MessageKind true.
Definition fd_GenesisState_median_deviations : FieldDescriptor :=
  mkField "oracle.v1.GenesisState.median_deviations" 9 MessageKind true.
Definition GenesisState_descriptor : list FieldDescriptor := [
  fd_GenesisState_params; fd_GenesisState_feeder_delegations; fd_GenesisState_exchange_rates;
  fd_GenesisState_miss_counters; fd_GenesisState_aggregate_exchange_rate_prevotes;
  fd_GenesisState_aggregate_exchange_rate_votes; fd_GenesisState_medians;
  fd_GenesisState_historic_prices; fd_GenesisState_median_deviations].
Definition GenesisState_with_Params (x : GenesisState) (v : option Params) : GenesisState :=
  mkGenesisState v (GenesisState_FeederDelegations x) (GenesisState_ExchangeRates x)
    (GenesisState_MissCounters x) (GenesisState_AggregateExchangeRatePrevotes x)
    (GenesisState_AggregateExchangeRateVotes x) (GenesisState_Medians x)
    (GenesisState_HistoricPrices x) (GenesisState_MedianDeviations x) (GenesisState_unknownFields
    x).
Definition GenesisState_with_FeederDelegations (x : GenesisState)
    (v : list (option FeederDelegation)) : GenesisState :=
  mkGenesisState (GenesisState_Params x) v (GenesisState_ExchangeRates x)
    (GenesisState_MissCounters x) (GenesisState_AggregateExchangeRatePrevotes x)
    (GenesisState_AggregateExchangeRateVotes x) (GenesisState_Medians x)
    (GenesisState_HistoricPrices x) (GenesisState_MedianDeviations x) (GenesisState_unknownFields
    x).
Definition GenesisState_with_ExchangeRates (x : GenesisState) (v : list (option v1beta1_DecCoin)) :
    GenesisState :=
  mkGenesisState (GenesisState_Params x) (GenesisState_FeederDelegations x) v
    (GenesisState_MissCounters x) (GenesisState_AggregateExchangeRatePrevotes x)
    (GenesisState_AggregateExchangeRateVotes x) (GenesisState_Medians x)
    (GenesisState_HistoricPrices x) (GenesisState_MedianDeviations x) (GenesisState_unknownFields
    x).
Definition GenesisState_with_MissCounters (x : GenesisState) (v : list (option MissCounter)) :
    GenesisState :=
  mkGenesisState (GenesisState_Params x) (GenesisState_FeederDelegations x)
    (GenesisState_ExchangeRates x) v (GenesisState_AggregateExchangeRatePrevotes x)
    (GenesisState_AggregateExchangeRateVotes x) (GenesisState_Medians x)
    (GenesisState_HistoricPrices x) (GenesisState_MedianDeviations x) (GenesisState_unknownFields
    x).
Definition GenesisState_with_AggregateExchangeRatePrevotes (x : GenesisState)
    (v : list (option AggregateExchangeRatePrevote)) : GenesisState :=
  mkGenesisState (GenesisState_Params x) (GenesisState_FeederDelegations x)
    (GenesisState_ExchangeRates x) (GenesisState_MissCounters x) v
    (GenesisState_AggregateExchangeRateVotes x) (GenesisState_Medians x)
    (GenesisState_HistoricPrices x) (GenesisState_MedianDeviations x) (GenesisState_unknownFields
    x).
Definition GenesisState_with_AggregateExchangeRateVotes (x : GenesisState)
    (v : list (option AggregateExchangeRateVote)) : GenesisState :=
  mkGenesisState (GenesisState_Params x) (GenesisState_FeederDelegations x)
    (GenesisState_ExchangeRates x) (GenesisState_MissCounters x)
    (GenesisState_AggregateExchangeRatePrevotes x) v (GenesisState_Medians x)
    (GenesisState_HistoricPrices x) (GenesisState_MedianDeviations x) (GenesisState_unknownFields
    x).
Definition GenesisState_with_Medians (x : GenesisState) (v : list (option PriceStamp)) :
    GenesisState :=
  mkGenesisState (GenesisState_Params x) (GenesisState_FeederDelegations x)
    (GenesisState_ExchangeRates x) (GenesisState_MissCounters x)
    (GenesisState_AggregateExchangeRatePrevotes x) (GenesisState_AggregateExchangeRateVotes x) v
    (GenesisState_HistoricPrices x) (GenesisState_MedianDeviations x) (GenesisState_unknownFields
    x).
Definition GenesisState_with_HistoricPrices (x : GenesisState) (v : list (option PriceStamp)) :
    GenesisState :=
  mkGenesisState (GenesisState_Params x) (GenesisState_FeederDelegations x)
    (GenesisState_ExchangeRates x) (GenesisState_MissCounters x)
    (GenesisState_AggregateExchangeRatePrevotes x) (GenesisState_AggregateExchangeRateVotes x)
    (GenesisState_Medians x) v (GenesisState_MedianDeviations x) (GenesisState_unknownFields x).
Definition GenesisState_with_MedianDeviations (x : GenesisState) (v : list (option PriceStamp)) :
    GenesisState :=
  mkGenesisState (GenesisState_Params x) (GenesisState_FeederDelegations x)
    (GenesisState_ExchangeRates x) (GenesisState_MissCounters x)
    (GenesisState_AggregateExchangeRatePrevotes x) (GenesisState_AggregateExchangeRateVotes x)
    (GenesisState_Medians x) (GenesisState_HistoricPrices x) v (GenesisState_unknownFields x).
Definition GenesisState_GetParams : option GenesisState → option Params :=
  getter None GenesisState_Params.
Definition GenesisState_GetFeederDelegations : option GenesisState → list (option FeederDelegation)
    :=
  getter [] GenesisState_FeederDelegations.
Definition GenesisState_GetExchangeRates : option GenesisState → list (option v1beta1_DecCoin) :=
  getter [] GenesisState_ExchangeRates.
Definition GenesisState_GetMissCounters : option GenesisState → list (option MissCounter) :=
  getter [] GenesisState_MissCounters.
Definition GenesisState_GetAggregateExchangeRatePrevotes : option GenesisState → list
    (option AggregateExchangeRatePrevote) :=
  getter [] GenesisState_AggregateExchangeRatePrevotes.
Definition GenesisState_GetAggregateExchangeRateVotes : option GenesisState → list
    (option AggregateExchangeRateVote) :=
  getter [] GenesisState_AggregateExchangeRateVotes.
Definition GenesisState_GetMedians : option GenesisState → list (option PriceStamp) :=
  getter [] GenesisState_Medians.
Definition GenesisState_GetHistoricPrices : option GenesisState → list (option PriceStamp) :=
  getter [] GenesisState_HistoricPrices.
Definition GenesisState_GetMedianDeviations : option GenesisState → list (option PriceStamp) :=
  getter [] GenesisState_MedianDeviations.
#[export] Instance GenesisState_2_list_methods : ProtoList GenesisState_2_list :=
  message_list mkGenesisState_2_list GenesisState_2_list_slice.
#[export] Instance GenesisState_3_list_methods : ProtoList GenesisState_3_list :=
  message_list mkGenesisState_3_list GenesisState_3_list_slice.
#[export] Instance GenesisState_4_list_methods : ProtoList GenesisState_4_list :=
  message_list mkGenesisState_4_list GenesisState_4_list_slice.
#[export] Instance GenesisState_5_list_methods : ProtoList GenesisState_5_list :=
  message_list mkGenesisState_5_list GenesisState_5_list_slice.
#[export] Instance GenesisState_6_list_methods : ProtoList GenesisState_6_list :=
  message_list mkGenesisState_6_list GenesisState_6_list_slice.
#[export] Instance GenesisState_7_list_methods : ProtoList GenesisState_7_list :=
  message_list mkGenesisState_7_list GenesisState_7_list_slice.
#[export] Instance GenesisState_8_list_methods : ProtoList GenesisState_8_list :=
  message_list mkGenesisState_8_list GenesisState_8_list_slice.
#[export] Instance GenesisState_9_list_methods : ProtoList GenesisState_9_list :=
  message_list mkGenesisState_9_list GenesisState_9_list_slice.
Definition GenesisState_Range {S} (x : option GenesisState)
    (f : FieldDescriptor → Value → M S bool) : M S () :=
  x ← lift (or_panic x);
  range_fields f [
    (has_message (GenesisState_Params x), fd_GenesisState_params, ValueOfMessage
       (GenesisState_Params x));
    (has_slice (GenesisState_FeederDelegations x), fd_GenesisState_feeder_delegations, ValueOfList
       (mkGenesisState_2_list (Some (GenesisState_FeederDelegations x))));
    (has_slice (GenesisState_ExchangeRates x), fd_GenesisState_exchange_rates, ValueOfList
       (mkGenesisState_3_list (Some (GenesisState_ExchangeRates x))));
    (has_slice (GenesisState_MissCounters x), fd_GenesisState_miss_counters, ValueOfList
       (mkGenesisState_4_list (Some (GenesisState_MissCounters x))));
    (has_slice (GenesisState_AggregateExchangeRatePrevotes x),
       fd_GenesisState_aggregate_exchange_rate_prevotes, ValueOfList
       (mkGenesisState_5_list (Some (GenesisState_AggregateExchangeRatePrevotes x))));
    (has_slice (GenesisState_AggregateExchangeRateVotes x),
       fd_GenesisState_aggregate_exchange_rate_votes, ValueOfList
       (mkGenesisState_6_list (Some (GenesisState_AggregateExchangeRateVotes x))));
    (has_slice (GenesisState_Medians x), fd_GenesisState_medians, ValueOfList
       (mkGenesisState_7_list (Some (GenesisState_Medians x))));
    (has_slice (GenesisState_HistoricPrices x), fd_GenesisState_historic_prices, ValueOfList
       (mkGenesisState_8_list (Some (GenesisState_HistoricPrices x))));
    (has_slice (GenesisState_MedianDeviations x), fd_GenesisState_median_deviations, ValueOfList
       (mkGenesisState_9_list (Some (GenesisState_MedianDeviations x))))].
Definition GenesisState_Has (x : option GenesisState) (fd : FieldDescriptor) : outcome bool :=
  x ← or_panic x;
  field_switch fd [
    ("oracle.v1.GenesisState.params"%string, Ok (has_message (GenesisState_Params x)));
    ("oracle.v1.GenesisState.feeder_delegations"%string,
      Ok (has_slice (GenesisState_FeederDelegations x)));
    ("oracle.v1.GenesisState.exchange_rates"%string,
      Ok (has_slice (GenesisState_ExchangeRates x)));
    ("oracle.v1.GenesisState.miss_counters"%string, Ok (has_slice (GenesisState_MissCounters x)));
    ("oracle.v1.GenesisState.aggregate_exchange_rate_prevotes"%string,
      Ok (has_slice (GenesisState_AggregateExchangeRatePrevotes x)));
    ("oracle.v1.GenesisState.aggregate_exchange_rate_votes"%string,
      Ok (has_slice (GenesisState_AggregateExchangeRateVotes x)));
    ("oracle.v1.GenesisState.medians"%string, Ok (has_slice (GenesisState_Medians x)));
    ("oracle.v1.GenesisState.historic_prices"%string,
      Ok (has_slice (GenesisState_HistoricPrices x)));
    ("oracle.v1.GenesisState.median_deviations"%string,
      Ok (has_slice (GenesisState_MedianDeviations x)))].
Definition GenesisState_Clear (x : option GenesisState) (fd : FieldDescriptor) : outcome
    GenesisState :=
  x ← or_panic x;
  field_switch fd [
    ("oracle.v1.GenesisState.params"%string, Ok (GenesisState_with_Params x None));
    ("oracle.v1.GenesisState.feeder_delegations"%string,
      Ok (GenesisState_with_FeederDelegations x []));
    ("oracle.v1.GenesisState.exchange_rates"%string, Ok (GenesisState_with_ExchangeRates x []));
    ("oracle.v1.GenesisState.miss_counters"%string, Ok (GenesisState_with_MissCounters x []));
    ("oracle.v1.GenesisState.aggregate_exchange_rate_prevotes"%string,
      Ok (GenesisState_with_AggregateExchangeRatePrevotes x []));
    ("oracle.v1.GenesisState.aggregate_exchange_rate_votes"%string,
      Ok (GenesisState_with_AggregateExchangeRateVotes x []));
    ("oracle.v1.GenesisState.medians"%string, Ok (GenesisState_with_Medians x []));
    ("oracle.v1.GenesisState.historic_prices"%string, Ok (GenesisState_with_HistoricPrices x []));
    ("oracle.v1.GenesisState.median_deviations"%string,
      Ok (GenesisState_with_MedianDeviations x []))].
Definition GenesisState_Get (x : option GenesisState) (fd : FieldDescriptor) : outcome Value :=
  x ← or_panic x;
  field_switch fd [
    ("oracle.v1.GenesisState.params"%string, Ok (ValueOfMessage (GenesisState_Params x)));
    ("oracle.v1.GenesisState.feeder_delegations"%string,
      Ok (get_list mkGenesisState_2_list (GenesisState_FeederDelegations x)));
    ("oracle.v1.GenesisState.exchange_rates"%string,
      Ok (get_list mkGenesisState_3_list (GenesisState_ExchangeRates x)));
    ("oracle.v1.GenesisState.miss_counters"%string,
      Ok (get_list mkGenesisState_4_list (GenesisState_MissCounters x)));
    ("oracle.v1.GenesisState.aggregate_exchange_rate_prevotes"%string,
      Ok (get_list mkGenesisState_5_list (GenesisState_AggregateExchangeRatePrevotes x)));
    ("oracle.v1.GenesisState.aggregate_exchange_rate_votes"%string,
      Ok (get_list mkGenesisState_6_list (GenesisState_AggregateExchangeRateVotes x)));
    ("oracle.v1.GenesisState.medians"%string,
      Ok (get_list mkGenesisState_7_list (GenesisState_Medians x)));
    ("oracle.v1.GenesisState.historic_prices"%string,
      Ok (get_list mkGenesisState_8_list (GenesisState_HistoricPrices x)));
    ("oracle.v1.GenesisState.median_deviations"%string,
      Ok (get_list mkGenesisState_9_list (GenesisState_MedianDeviations x)))].
Definition GenesisState_Set (x : option GenesisState) (fd : FieldDescriptor) (value : Value) :
    outcome GenesisState :=
  x ← or_panic x;
  field_switch fd [
    ("oracle.v1.GenesisState.params"%string, set_message (GenesisState_with_Params x) value);
    ("oracle.v1.GenesisState.feeder_delegations"%string,
      set_list GenesisState_2_list_slice (GenesisState_with_FeederDelegations x) value);
    ("oracle.v1.GenesisState.exchange_rates"%string,
      set_list GenesisState_3_list_slice (GenesisState_with_ExchangeRates x) value);
    ("oracle.v1.GenesisState.miss_counters"%string,
      set_list GenesisState_4_list_slice (GenesisState_with_MissCounters x) value);
    ("oracle.v1.GenesisState.aggregate_exchange_rate_prevotes"%string,
      set_list GenesisState_5_list_slice (GenesisState_with_AggregateExchangeRatePrevotes x)
        value);
    ("oracle.v1.GenesisState.aggregate_exchange_rate_votes"%string,
      set_list GenesisState_6_list_slice (GenesisState_with_AggregateExchangeRateVotes x) value);
    ("oracle.v1.GenesisState.medians"%string,
      set_list GenesisState_7_list_slice (GenesisState_with_Medians x) value);
    ("oracle.v1.GenesisState.historic_prices"%string,
      set_list GenesisState_8_list_slice (GenesisState_with_HistoricPrices x) value);
    ("oracle.v1.GenesisState.median_deviations"%string,
      set_list GenesisState_9_list_slice (GenesisState_with_MedianDeviations x) value)].
Definition GenesisState_Mutable (x : option GenesisState) (fd : FieldDescriptor) : outcome
    (Value * GenesisState) :=
  x ← or_panic x;
  field_switch fd [
    ("oracle.v1.GenesisState.params"%string,
      mutable_message (GenesisState_with_Params x) (GenesisState_Params x));
    ("oracle.v1.GenesisState.feeder_delegations"%string,
      mutable_list mkGenesisState_2_list x (GenesisState_FeederDelegations x));
    ("oracle.v1.GenesisState.exchange_rates"%string,
      mutable_list mkGenesisState_3_list x (GenesisState_ExchangeRates x));
    ("oracle.v1.GenesisState.miss_counters"%string,
      mutable_list mkGenesisState_4_list x (GenesisState_MissCounters x));
    ("oracle.v1.GenesisState.aggregate_exchange_rate_prevotes"%string,
      mutable_list mkGenesisState_5_list x (GenesisState_AggregateExchangeRatePrevotes x));
    ("oracle.v1.GenesisState.aggregate_exchange_rate_votes"%string,
      mutable_list mkGenesisState_6_list x (GenesisState_AggregateExchangeRateVotes x));
    ("oracle.v1.GenesisState.medians"%string,
      mutable_list mkGenesisState_7_list x (GenesisState_Medians x));
    ("oracle.v1.GenesisState.historic_prices"%string,
      mutable_list mkGenesisState_8_list x (GenesisState_HistoricPrices x));
    ("oracle.v1.GenesisState.median_deviations"%string,
      mutable_list mkGenesisState_9_list x (GenesisState_MedianDeviations x))].
Definition GenesisState_NewField (fd : FieldDescriptor) : outcome Value :=
  field_switch fd [
    ("oracle.v1.GenesisState.params"%string, new_message (A := Params));
    ("oracle.v1.GenesisState.feeder_delegations"%string, new_list mkGenesisState_2_list);
    ("oracle.v1.GenesisState.exchange_rates"%string, new_list mkGenesisState_3_list);
    ("oracle.v1.GenesisState.miss_counters"%string, new_list mkGenesisState_4_list);
    ("oracle.v1.GenesisState.aggregate_exchange_rate_prevotes"%string,
      new_list mkGenesisState_5_list);
    ("oracle.v1.GenesisState.aggregate_exchange_rate_votes"%string,
      new_list mkGenesisState_6_list);
    ("oracle.v1.GenesisState.medians"%string, new_list mkGenesisState_7_list);
    ("oracle.v1.GenesisState.historic_prices"%string, new_list mkGenesisState_8_list);
    ("oracle.v1.GenesisState.median_deviations"%string, new_list mkGenesisState_9_list)].
Definition GenesisState_set_unknown (x : GenesisState) (fields : bytes) : GenesisState :=
  mkGenesisState (GenesisState_Params x) (GenesisState_FeederDelegations x)
    (GenesisState_ExchangeRates x) (GenesisState_MissCounters x)
    (GenesisState_AggregateExchangeRatePrevotes x) (GenesisState_AggregateExchangeRateVotes x)
    (GenesisState_Medians x) (GenesisState_HistoricPrices x) (GenesisState_MedianDeviations x)
    fields.
#[export] Instance GenesisState_reflect : MessageReflect GenesisState := {|
  Range S := GenesisState_Range;
  Has := GenesisState_Has;
  Clear := GenesisState_Clear;
  Get := GenesisState_Get;
  Set_ := GenesisState_Set;
  Mutable := GenesisState_Mutable;
  NewField := GenesisState_NewField;
  Descriptor := GenesisState_descriptor;
  GetUnknown x := x ← or_panic x; Ok (GenesisState_unknownFields x);
  SetUnknown x fields := x ← or_panic x; Ok (GenesisState_set_unknown x fields);
|}.

(** [Module] *)

Definition Module_descriptor : list FieldDescriptor := [].
Definition Module_Range {S} (x : option Module) (f : FieldDescriptor → Value → M S bool) : M S ()
    :=
  mret ().
Definition Module_Has (x : option Module) (fd : FieldDescriptor) : outcome bool :=
  field_switch fd [].
Definition Module_Clear (x : option Module) (fd : FieldDescriptor) : outcome Module :=
  field_switch fd [].
Definition Module_Get (x : option Module) (fd : FieldDescriptor) : outcome Value :=
  field_switch fd [].
Definition Module_Set (x : option Module) (fd : FieldDescriptor) (value : Value) : outcome Module
    :=
  field_switch fd [].
Definition Module_Mutable (x : option Module) (fd : FieldDescriptor) : outcome (Value * Module) :=
  field_switch fd [].
Definition Module_NewField (fd : FieldDescriptor) : outcome Value :=
  field_switch fd [].
Definition Module_set_unknown (x : Module) (fields : bytes) : Module :=
  mkModule fields.
#[export] Instance Module_reflect : MessageReflect Module := {|
  Range S := Module_Range;
  Has := Module_Has;
  Clear := Module_Clear;
  Get := Module_Get;
  Set_ := Module_Set;
  Mutable := Module_Mutable;
  NewField := Module_NewField;
  Descriptor := Module_descriptor;
  GetUnknown x := x ← or_panic x; Ok (Module_unknownFields x);
  SetUnknown x fields := x ← or_panic x; Ok (Module_set_unknown x fields);
|}.
End methods.

(** ** Tables *)

Class OracleValuesLaws `{PulsarRuntime} `{CosmosApi} `{ProtoReflect} `{!OracleValues} := {
  RewardBand_value_laws :: MessageValueLaws RewardBand;
  Denom_value_laws :: MessageValueLaws Denom;
  CurrencyPairProviders_value_laws :: MessageValueLaws CurrencyPairProviders;
  CurrencyDeviationThreshold_value_laws :: MessageValueLaws CurrencyDeviationThreshold;
  v1beta1_DecCoin_value_laws :: MessageValueLaws v1beta1_DecCoin;
  PairAddressProvider_value_laws :: MessageValueLaws PairAddressProvider;
  Params_value_laws :: MessageValueLaws Params;
  AggregateExchangeRateVote_value_laws :: MessageValueLaws AggregateExchangeRateVote;
  FeederDelegation_value_laws :: MessageValueLaws FeederDelegation;
  MissCounter_value_laws :: MessageValueLaws MissCounter;
  AggregateExchangeRatePrevote_value_laws :: MessageValueLaws AggregateExchangeRatePrevote;
  PriceStamp_value_laws :: MessageValueLaws PriceStamp;
  CurrencyPairProviders_3_list_value_laws :: ListValueLaws CurrencyPairProviders_3_list;
  CurrencyPairProviders_4_list_value_laws :: ListValueLaws CurrencyPairProviders_4_list;
  Params_3_list_value_laws :: ListValueLaws Params_3_list;
  Params_5_list_value_laws :: ListValueLaws Params_5_list;
  Params_9_list_value_laws :: ListValueLaws Params_9_list;
  Params_14_list_value_laws :: ListValueLaws Params_14_list;
  Params_15_list_value_laws :: ListValueLaws Params_15_list;
  AggregateExchangeRateVote_1_list_value_laws :: ListValueLaws AggregateExchangeRateVote_1_list;
  ValidatorRewardSet_1_list_value_laws :: ListValueLaws ValidatorRewardSet_1_list;
  ParamUpdatePlan_1_list_value_laws :: ListValueLaws ParamUpdatePlan_1_list;
  OracleVoteExtension_2_list_value_laws :: ListValueLaws OracleVoteExtension_2_list;
  InjectedVoteExtensionTx_1_list_value_laws :: ListValueLaws InjectedVoteExtensionTx_1_list;
  GenesisState_2_list_value_laws :: ListValueLaws GenesisState_2_list;
  GenesisState_3_list_value_laws :: ListValueLaws GenesisState_3_list;
  GenesisState_4_list_value_laws :: ListValueLaws GenesisState_4_list;
  GenesisState_5_list_value_laws :: ListValueLaws GenesisState_5_list;
  GenesisState_6_list_value_laws :: ListValueLaws GenesisState_6_list;
  GenesisState_7_list_value_laws :: ListValueLaws GenesisState_7_list;
  GenesisState_8_list_value_laws :: ListValueLaws GenesisState_8_list;
  GenesisState_9_list_value_laws :: ListValueLaws GenesisState_9_list;
}.

Section tables.
Context `{PulsarRuntimeLaws} `{CosmosApiLaws} `{ProtoReflectLaws}.
Context `{!OracleValues} `{!OracleValuesLaws}.

Definition RewardBand_specs : list (FieldSpec RewardBand) := [
  mkSpec string_codec "oracle.v1.RewardBand.symbol_denom"%string 1 [0xa] RewardBand_SymbolDenom
    RewardBand_with_SymbolDenom RewardBand_GetSymbolDenom;
  mkSpec string_codec "oracle.v1.RewardBand.reward_band"%string 2 [0x12] RewardBand_RewardBand
    RewardBand_with_RewardBand RewardBand_GetRewardBand].
#[export] Instance RewardBand_table : ReflectTable RewardBand.
Proof. solve_table RewardBand_specs RewardBand_unknownFields RewardBand_set_unknown. Defined.

Definition Denom_specs : list (FieldSpec Denom) := [
  mkSpec string_codec "oracle.v1.Denom.base_denom"%string 1 [0xa] Denom_BaseDenom
    Denom_with_BaseDenom Denom_GetBaseDenom;
  mkSpec string_codec "oracle.v1.Denom.symbol_denom"%string 2 [0x12] Denom_SymbolDenom
    Denom_with_SymbolDenom Denom_GetSymbolDenom;
  mkSpec uint32_codec "oracle.v1.Denom.exponent"%string 3 [0x18] Denom_Exponent Denom_with_Exponent
    Denom_GetExponent].
#[export] Instance Denom_table : ReflectTable Denom.
Proof. solve_table Denom_specs Denom_unknownFields Denom_set_unknown. Defined.

Definition PairAddressProvider_specs : list (FieldSpec PairAddressProvider) := [
  mkSpec string_codec "oracle.v1.PairAddressProvider.address"%string 1 [0xa]
    PairAddressProvider_Address PairAddressProvider_with_Address PairAddressProvider_GetAddress;
  mkSpec string_codec "oracle.v1.PairAddressProvider.address_provider"%string 2 [0x12]
    PairAddressProvider_AddressProvider PairAddressProvider_with_AddressProvider
    PairAddressProvider_GetAddressProvider].
#[export] Instance PairAddressProvider_table : ReflectTable PairAddressProvider.
Proof. solve_table PairAddressProvider_specs PairAddressProvider_unknownFields PairAddressProvider_set_unknown. Defined.

Definition CurrencyPairProviders_specs : list (FieldSpec CurrencyPairProviders) := [
  mkSpec string_codec "oracle.v1.CurrencyPairProviders.base_denom"%string 1 [0xa]
    CurrencyPairProviders_BaseDenom CurrencyPairProviders_with_BaseDenom
    CurrencyPairProviders_GetBaseDenom;
  mkSpec string_codec "oracle.v1.CurrencyPairProviders.quote_denom"%string 2 [0x12]
    CurrencyPairProviders_QuoteDenom CurrencyPairProviders_with_QuoteDenom
    CurrencyPairProviders_GetQuoteDenom;
  mkSpec
    (messages_codec PairAddressProvider mkCurrencyPairProviders_3_list CurrencyPairProviders_3_list_slice)
    "oracle.v1.CurrencyPairProviders.pair_address"%string 3 [0x1a]
    CurrencyPairProviders_PairAddress CurrencyPairProviders_with_PairAddress
    CurrencyPairProviders_GetPairAddress;
  mkSpec (strings_codec mkCurrencyPairProviders_4_list CurrencyPairProviders_4_list_slice)
    "oracle.v1.CurrencyPairProviders.providers"%string 4 [0x22] CurrencyPairProviders_Providers
    CurrencyPairProviders_with_Providers CurrencyPairProviders_GetProviders].
#[export] Instance CurrencyPairProviders_table : ReflectTable CurrencyPairProviders.
Proof. solve_table CurrencyPairProviders_specs CurrencyPairProviders_unknownFields CurrencyPairProviders_set_unknown. Defined.

Definition CurrencyDeviationThreshold_specs : list (FieldSpec CurrencyDeviationThreshold) := [
  mkSpec string_codec "oracle.v1.CurrencyDeviationThreshold.base_denom"%string 1 [0xa]
    CurrencyDeviationThreshold_BaseDenom CurrencyDeviationThreshold_with_BaseDenom
    CurrencyDeviationThreshold_GetBaseDenom;
  mkSpec string_codec "oracle.v1.CurrencyDeviationThreshold.threshold"%string 2 [0x12]
    CurrencyDeviationThreshold_Threshold CurrencyDeviationThreshold_with_Threshold
    CurrencyDeviationThreshold_GetThreshold].
#[export] Instance CurrencyDeviationThreshold_table : ReflectTable CurrencyDeviationThreshold.
Proof. solve_table CurrencyDeviationThreshold_specs CurrencyDeviationThreshold_unknownFields CurrencyDeviationThreshold_set_unknown. Defined.

Definition Params_specs : list (FieldSpec Params) := [
  mkSpec uint64_codec "oracle.v1.Params.vote_period"%string 1 [0x8] Params_VotePeriod
    Params_with_VotePeriod Params_GetVotePeriod;
  mkSpec string_codec "oracle.v1.Params.vote_threshold"%string 2 [0x12] Params_VoteThreshold
    Params_with_VoteThreshold Params_GetVoteThreshold;
  mkSpec (messages_codec RewardBand mkParams_3_list Params_3_list_slice)
    "oracle.v1.Params.reward_bands"%string 3 [0x1a] Params_RewardBands Params_with_RewardBands
    Params_GetRewardBands;
  mkSpec uint64_codec "oracle.v1.Params.reward_distribution_window"%string 4 [0x20]
    Params_RewardDistributionWindow Params_with_RewardDistributionWindow
    Params_GetRewardDistributionWindow;
  mkSpec (messages_codec Denom mkParams_5_list Params_5_list_slice)
    "oracle.v1.Params.accept_list"%string 5 [0x2a] Params_AcceptList Params_with_AcceptList
    Params_GetAcceptList;
  mkSpec string_codec "oracle.v1.Params.slash_fraction"%string 6 [0x32] Params_SlashFraction
    Params_with_SlashFraction Params_GetSlashFraction;
  mkSpec uint64_codec "oracle.v1.Params.slash_window"%string 7 [0x38] Params_SlashWindow
    Params_with_SlashWindow Params_GetSlashWindow;
  mkSpec string_codec "oracle.v1.Params.min_valid_per_window"%string 8 [0x42]
    Params_MinValidPerWindow Params_with_MinValidPerWindow Params_GetMinValidPerWindow;
  mkSpec (messages_codec Denom mkParams_9_list Params_9_list_slice)
    "oracle.v1.Params.mandatory_list"%string 9 [0x4a] Params_MandatoryList
    Params_with_MandatoryList Params_GetMandatoryList;
  mkSpec uint64_codec "oracle.v1.Params.historic_stamp_period"%string 10 [0x50]
    Params_HistoricStampPeriod Params_with_HistoricStampPeriod Params_GetHistoricStampPeriod;
  mkSpec uint64_codec "oracle.v1.Params.median_stamp_period"%string 11 [0x58]
    Params_MedianStampPeriod Params_with_MedianStampPeriod Params_GetMedianStampPeriod;
  mkSpec uint64_codec "oracle.v1.Params.maximum_price_stamps"%string 12 [0x60]
    Params_MaximumPriceStamps Params_with_MaximumPriceStamps Params_GetMaximumPriceStamps;
  mkSpec uint64_codec "oracle.v1.Params.maximum_median_stamps"%string 13 [0x68]
    Params_MaximumMedianStamps Params_with_MaximumMedianStamps Params_GetMaximumMedianStamps;
  mkSpec (messages_codec CurrencyPairProviders mkParams_14_list Params_14_list_slice)
    "oracle.v1.Params.currency_pair_providers"%string 14 [0x72] Params_CurrencyPairProviders
    Params_with_CurrencyPairProviders Params_GetCurrencyPairProviders;
  mkSpec (messages_codec CurrencyDeviationThreshold mkParams_15_list Params_15_list_slice)
    "oracle.v1.Params.currency_deviation_thresholds"%string 15 [0x7a]
    Params_CurrencyDeviationThresholds Params_with_CurrencyDeviationThresholds
    Params_GetCurrencyDeviationThresholds;
  mkSpec string_codec "oracle.v1.Params.usdc_ibc_denom"%string 16 [0x82; 0x1] Params_UsdcIbcDenom
    Params_with_UsdcIbcDenom Params_GetUsdcIbcDenom;
  mkSpec bool_codec "oracle.v1.Params.slashing_enabled"%string 17 [0x88; 0x1]
    Params_SlashingEnabled Params_with_SlashingEnabled Params_GetSlashingEnabled;
  mkSpec uint64_codec "oracle.v1.Params.averaging_window"%string 18 [0x90; 0x1]
    Params_AveragingWindow Params_with_AveragingWindow Params_GetAveragingWindow].
#[export] Instance Params_table : ReflectTable Params.
Proof. solve_table Params_specs Params_unknownFields Params_set_unknown. Defined.

Definition AggregateExchangeRatePrevote_specs : list (FieldSpec AggregateExchangeRatePrevote) := [
  mkSpec string_codec "oracle.v1.AggregateExchangeRatePrevote.hash"%string 1 [0xa]
    AggregateExchangeRatePrevote_Hash AggregateExchangeRatePrevote_with_Hash
    AggregateExchangeRatePrevote_GetHash;
  mkSpec string_codec "oracle.v1.AggregateExchangeRatePrevote.voter"%string 2 [0x12]
    AggregateExchangeRatePrevote_Voter AggregateExchangeRatePrevote_with_Voter
    AggregateExchangeRatePrevote_GetVoter;
  mkSpec uint64_codec "oracle.v1.AggregateExchangeRatePrevote.submit_block"%string 3 [0x18]
    AggregateExchangeRatePrevote_SubmitBlock AggregateExchangeRatePrevote_with_SubmitBlock
    AggregateExchangeRatePrevote_GetSubmitBlock].
#[export] Instance AggregateExchangeRatePrevote_table : ReflectTable AggregateExchangeRatePrevote.
Proof. solve_table AggregateExchangeRatePrevote_specs AggregateExchangeRatePrevote_unknownFields AggregateExchangeRatePrevote_set_unknown. Defined.

Definition AggregateExchangeRateVote_specs : list (FieldSpec AggregateExchangeRateVote) := [
  mkSpec
    (messages_codec v1beta1_DecCoin mkAggregateExchangeRateVote_1_list AggregateExchangeRateVote_1_list_slice)
    "oracle.v1.AggregateExchangeRateVote.exchange_rates"%string 1 [0xa]
    AggregateExchangeRateVote_ExchangeRates AggregateExchangeRateVote_with_ExchangeRates
    AggregateExchangeRateVote_GetExchangeRates;
  mkSpec string_codec "oracle.v1.AggregateExchangeRateVote.voter"%string 2 [0x12]
    AggregateExchangeRateVote_Voter AggregateExchangeRateVote_with_Voter
    AggregateExchangeRateVote_GetVoter].
#[export] Instance AggregateExchangeRateVote_table : ReflectTable AggregateExchangeRateVote.
Proof. solve_table AggregateExchangeRateVote_specs AggregateExchangeRateVote_unknownFields AggregateExchangeRateVote_set_unknown. Defined.

Definition PriceStamp_specs : list (FieldSpec PriceStamp) := [
  mkSpec (message_codec v1beta1_DecCoin) "oracle.v1.PriceStamp.exchange_rate"%string 1 [0xa]
    PriceStamp_ExchangeRate PriceStamp_with_ExchangeRate PriceStamp_GetExchangeRate;
  mkSpec uint64_codec "oracle.v1.PriceStamp.block_num"%string 2 [0x10] PriceStamp_BlockNum
    PriceStamp_with_BlockNum PriceStamp_GetBlockNum].
#[export] Instance PriceStamp_table : ReflectTable PriceStamp.
Proof. solve_table PriceStamp_specs PriceStamp_unknownFields PriceStamp_set_unknown. Defined.

Definition ValidatorRewardSet_specs : list (FieldSpec ValidatorRewardSet) := [
  mkSpec (strings_codec mkValidatorRewardSet_1_list ValidatorRewardSet_1_list_slice)
    "oracle.v1.ValidatorRewardSet.validator_set"%string 1 [0xa] ValidatorRewardSet_ValidatorSet
    ValidatorRewardSet_with_ValidatorSet ValidatorRewardSet_GetValidatorSet].
#[export] Instance ValidatorRewardSet_table : ReflectTable ValidatorRewardSet.
Proof. solve_table ValidatorRewardSet_specs ValidatorRewardSet_unknownFields ValidatorRewardSet_set_unknown. Defined.

Definition ParamUpdatePlan_specs : list (FieldSpec ParamUpdatePlan) := [
  mkSpec (strings_codec mkParamUpdatePlan_1_list ParamUpdatePlan_1_list_slice)
    "oracle.v1.ParamUpdatePlan.keys"%string 1 [0xa] ParamUpdatePlan_Keys ParamUpdatePlan_with_Keys
    ParamUpdatePlan_GetKeys;
  mkSpec int64_codec "oracle.v1.ParamUpdatePlan.height"%string 2 [0x10] ParamUpdatePlan_Height
    ParamUpdatePlan_with_Height ParamUpdatePlan_GetHeight;
  mkSpec (message_codec Params) "oracle.v1.ParamUpdatePlan.changes"%string 3 [0x1a]
    ParamUpdatePlan_Changes ParamUpdatePlan_with_Changes ParamUpdatePlan_GetChanges].
#[export] Instance ParamUpdatePlan_table : ReflectTable ParamUpdatePlan.
Proof. solve_table ParamUpdatePlan_specs ParamUpdatePlan_unknownFields ParamUpdatePlan_set_unknown. Defined.

Definition OracleVoteExtension_specs : list (FieldSpec OracleVoteExtension) := [
  mkSpec int64_codec "oracle.v1.OracleVoteExtension.height"%string 1 [0x8]
    OracleVoteExtension_Height OracleVoteExtension_with_Height OracleVoteExtension_GetHeight;
  mkSpec
    (messages_codec v1beta1_DecCoin mkOracleVoteExtension_2_list OracleVoteExtension_2_list_slice)
    "oracle.v1.OracleVoteExtension.exchange_rates"%string 2 [0x12]
    OracleVoteExtension_ExchangeRates OracleVoteExtension_with_ExchangeRates
    OracleVoteExtension_GetExchangeRates].
#[export] Instance OracleVoteExtension_table : ReflectTable OracleVoteExtension.
Proof. solve_table OracleVoteExtension_specs OracleVoteExtension_unknownFields OracleVoteExtension_set_unknown. Defined.

Definition InjectedVoteExtensionTx_specs : list (FieldSpec InjectedVoteExtensionTx) := [
  mkSpec
    (messages_codec AggregateExchangeRateVote mkInjectedVoteExtensionTx_1_list InjectedVoteExtensionTx_1_list_slice)
    "oracle.v1.InjectedVoteExtensionTx.exchange_rate_votes"%string 1 [0xa]
    InjectedVoteExtensionTx_ExchangeRateVotes InjectedVoteExtensionTx_with_ExchangeRateVotes
    InjectedVoteExtensionTx_GetExchangeRateVotes;
  mkSpec bytes_codec "oracle.v1.InjectedVoteExtensionTx.extended_commit_info"%string 2 [0x12]
    InjectedVoteExtensionTx_ExtendedCommitInfo InjectedVoteExtensionTx_with_ExtendedCommitInfo
    InjectedVoteExtensionTx_GetExtendedCommitInfo].
#[export] Instance InjectedVoteExtensionTx_table : ReflectTable InjectedVoteExtensionTx.
Proof. solve_table InjectedVoteExtensionTx_specs InjectedVoteExtensionTx_unknownFields InjectedVoteExtensionTx_set_unknown. Defined.

Definition EventDelegateFeedConsent_specs : list (FieldSpec EventDelegateFeedConsent) := [
  mkSpec string_codec "oracle.v1.EventDelegateFeedConsent.operator"%string 1 [0xa]
    EventDelegateFeedConsent_Operator EventDelegateFeedConsent_with_Operator
    EventDelegateFeedConsent_GetOperator;
  mkSpec string_codec "oracle.v1.EventDelegateFeedConsent.delegate"%string 2 [0x12]
    EventDelegateFeedConsent_Delegate EventDelegateFeedConsent_with_Delegate
    EventDelegateFeedConsent_GetDelegate].
#[export] Instance EventDelegateFeedConsent_table : ReflectTable EventDelegateFeedConsent.
Proof. solve_table EventDelegateFeedConsent_specs EventDelegateFeedConsent_unknownFields EventDelegateFeedConsent_set_unknown. Defined.

Definition EventSetFxRate_specs : list (FieldSpec EventSetFxRate) := [
  mkSpec string_codec "oracle.v1.EventSetFxRate.denom"%string 1 [0xa] EventSetFxRate_Denom
    EventSetFxRate_with_Denom EventSetFxRate_GetDenom;
  mkSpec string_codec "oracle.v1.EventSetFxRate.rate"%string 2 [0x12] EventSetFxRate_Rate
    EventSetFxRate_with_Rate EventSetFxRate_GetRate].
#[export] Instance EventSetFxRate_table : ReflectTable EventSetFxRate.
Proof. solve_table EventSetFxRate_specs EventSetFxRate_unknownFields EventSetFxRate_set_unknown. Defined.

Definition FeederDelegation_specs : list (FieldSpec FeederDelegation) := [
  mkSpec string_codec "oracle.v1.FeederDelegation.feeder_address"%string 1 [0xa]
    FeederDelegation_FeederAddress FeederDelegation_with_FeederAddress
    FeederDelegation_GetFeederAddress;
  mkSpec string_codec "oracle.v1.FeederDelegation.validator_address"%string 2 [0x12]
    FeederDelegation_ValidatorAddress FeederDelegation_with_ValidatorAddress
    FeederDelegation_GetValidatorAddress].
#[export] Instance FeederDelegation_table : ReflectTable FeederDelegation.
Proof. solve_table FeederDelegation_specs FeederDelegation_unknownFields FeederDelegation_set_unknown. Defined.

Definition MissCounter_specs : list (FieldSpec MissCounter) := [
  mkSpec string_codec "oracle.v1.MissCounter.validator_address"%string 1 [0xa]
    MissCounter_ValidatorAddress MissCounter_with_ValidatorAddress MissCounter_GetValidatorAddress;
  mkSpec uint64_codec "oracle.v1.MissCounter.miss_counter"%string 2 [0x10] MissCounter_MissCounter
    MissCounter_with_MissCounter MissCounter_GetMissCounter].
#[export] Instance MissCounter_table : ReflectTable MissCounter.
Proof. solve_table MissCounter_specs MissCounter_unknownFields MissCounter_set_unknown. Defined.

Definition GenesisState_specs : list (FieldSpec GenesisState) := [
  mkSpec (message_codec Params) "oracle.v1.GenesisState.params"%string 1 [0xa] GenesisState_Params
    GenesisState_with_Params GenesisState_GetParams;
  mkSpec (messages_codec FeederDelegation mkGenesisState_2_list GenesisState_2_list_slice)
    "oracle.v1.GenesisState.feeder_delegations"%string 2 [0x12] GenesisState_FeederDelegations
    GenesisState_with_FeederDelegations GenesisState_GetFeederDelegations;
  mkSpec (messages_codec v1beta1_DecCoin mkGenesisState_3_list GenesisState_3_list_slice)
    "oracle.v1.GenesisState.exchange_rates"%string 3 [0x1a] GenesisState_ExchangeRates
    GenesisState_with_ExchangeRates GenesisState_GetExchangeRates;
  mkSpec (messages_codec MissCounter mkGenesisState_4_list GenesisState_4_list_slice)
    "oracle.v1.GenesisState.miss_counters"%string 4 [0x22] GenesisState_MissCounters
    GenesisState_with_MissCounters GenesisState_GetMissCounters;
  mkSpec
    (messages_codec AggregateExchangeRatePrevote mkGenesisState_5_list GenesisState_5_list_slice)
    "oracle.v1.GenesisState.aggregate_exchange_rate_prevotes"%string 5 [0x2a]
    GenesisState_AggregateExchangeRatePrevotes GenesisState_with_AggregateExchangeRatePrevotes
    GenesisState_GetAggregateExchangeRatePrevotes;
  mkSpec (messages_codec AggregateExchangeRateVote mkGenesisState_6_list GenesisState_6_list_slice)
    "oracle.v1.GenesisState.aggregate_exchange_rate_votes"%string 6 [0x32]
    GenesisState_AggregateExchangeRateVotes GenesisState_with_AggregateExchangeRateVotes
    GenesisState_GetAggregateExchangeRateVotes;
  mkSpec (messages_codec PriceStamp mkGenesisState_7_list GenesisState_7_list_slice)
    "oracle.v1.GenesisState.medians"%string 7 [0x3a] GenesisState_Medians GenesisState_with_Medians
    GenesisState_GetMedians;
  mkSpec (messages_codec PriceStamp mkGenesisState_8_list GenesisState_8_list_slice)
    "oracle.v1.GenesisState.historic_prices"%string 8 [0x42] GenesisState_HistoricPrices
    GenesisState_with_HistoricPrices GenesisState_GetHistoricPrices;
  mkSpec (messages_codec PriceStamp mkGenesisState_9_list GenesisState_9_list_slice)
    "oracle.v1.GenesisState.median_deviations"%string 9 [0x4a] GenesisState_MedianDeviations
    GenesisState_with_MedianDeviations GenesisState_GetMedianDeviations].
#[export] Instance GenesisState_table : ReflectTable GenesisState.
Proof. solve_table GenesisState_specs GenesisState_unknownFields GenesisState_set_unknown. Defined.

Definition Module_specs : list (FieldSpec Module) := [].
#[export] Instance Module_table : ReflectTable Module.
Proof. solve_table Module_specs Module_unknownFields Module_set_unknown. Defined.
End tables.
