(* ===== verification/ReflectTx.v ===== *)
(** * ReflectTx: the reflection of the messages of the oracle's transactions

    The [protoreflect] methods of the structs of ApiTx, in
    [src/api/oracle/v1]: a definition per method, each field by
    the fragments of Reflect, and the table of the fields that the contract of
    ReflectLemmas is proved from. *)
From S2P Require Import Prelude Util Wire WireLemmas Pulsar PulsarLemmas Reflect ReflectLemmas ApiOracle ApiTx ReflectOracle.
Local Open Scope Z_scope.

(** ** Lists *)

Section lists.
Context `{CosmosApi}.

Record MsgLegacyGovUpdateParams_4_list := mkMsgLegacyGovUpdateParams_4_list {
  MsgLegacyGovUpdateParams_4_list_slice : option (list string);
}.
Record MsgGovAddDenoms_5_list := mkMsgGovAddDenoms_5_list {
  MsgGovAddDenoms_5_list_slice : option (list (option Denom));
}.
Record MsgGovAddDenoms_8_list := mkMsgGovAddDenoms_8_list {
  MsgGovAddDenoms_8_list_slice : option (list (option CurrencyPairProviders));
}.
Record MsgGovAddDenoms_9_list := mkMsgGovAddDenoms_9_list {
  MsgGovAddDenoms_9_list_slice : option (list (option CurrencyDeviationThreshold));
}.
Record MsgGovRemoveCurrencyPairProviders_5_list := mkMsgGovRemoveCurrencyPairProviders_5_list {
  MsgGovRemoveCurrencyPairProviders_5_list_slice : option (list (option CurrencyPairProviders));
}.
Record MsgGovRemoveCurrencyDeviationThresholds_5_list := mkMsgGovRemoveCurrencyDeviationThresholds_5_list {
  MsgGovRemoveCurrencyDeviationThresholds_5_list_slice : option (list string);
}.
End lists.

(** ** Values of these types *)

Class TxValues `{CosmosApi} `{ProtoReflect} := {
  ParamUpdatePlan_value :: MessageValue ParamUpdatePlan;
  MsgLegacyGovUpdateParams_4_list_value :: ListValue MsgLegacyGovUpdateParams_4_list;
  MsgGovAddDenoms_5_list_value :: ListValue MsgGovAddDenoms_5_list;
  MsgGovAddDenoms_8_list_value :: ListValue MsgGovAddDenoms_8_list;
  MsgGovAddDenoms_9_list_value :: ListValue MsgGovAddDenoms_9_list;
  MsgGovRemoveCurrencyPairProviders_5_list_value :: ListValue MsgGovRemoveCurrencyPairProviders_5_list;
  MsgGovRemoveCurrencyDeviationThresholds_5_list_value :: ListValue MsgGovRemoveCurrencyDeviationThresholds_5_list;
}.

(** ** Methods *)

Section methods.
Context `{PulsarRuntime} `{CosmosApi} `{ProtoReflect} `{!OracleValues, !TxValues}.

(** [MsgAggregateExchangeRatePrevote] *)

Definition fd_MsgAggregateExchangeRatePrevote_hash : FieldDescriptor :=
  mkField "oracle.v1.MsgAggregateExchangeRatePrevote.hash" 1 StringKind false.
Definition fd_MsgAggregateExchangeRatePrevote_feeder : FieldDescriptor :=
  mkField "oracle.v1.MsgAggregateExchangeRatePrevote.feeder" 2 StringKind false.
Definition fd_MsgAggregateExchangeRatePrevote_validator : FieldDescriptor :=
  mkField "oracle.v1.MsgAggregateExchangeRatePrevote.validator" 3 StringKind false.
Definition MsgAggregateExchangeRatePrevote_descriptor : list FieldDescriptor := [
  fd_MsgAggregateExchangeRatePrevote_hash; fd_MsgAggregateExchangeRatePrevote_feeder;
  fd_MsgAggregateExchangeRatePrevote_validator].
Definition MsgAggregateExchangeRatePrevote_with_Hash (x : MsgAggregateExchangeRatePrevote)
    (v : string) : MsgAggregateExchangeRatePrevote :=
  mkMsgAggregateExchangeRatePrevote v (MsgAggregateExchangeRatePrevote_Feeder x)
    (MsgAggregateExchangeRatePrevote_Validator x) (MsgAggregateExchangeRatePrevote_unknownFields
    x).
Definition MsgAggregateExchangeRatePrevote_with_Feeder (x : MsgAggregateExchangeRatePrevote)
    (v : string) : MsgAggregateExchangeRatePrevote :=
  mkMsgAggregateExchangeRatePrevote (MsgAggregateExchangeRatePrevote_Hash x) v
    (MsgAggregateExchangeRatePrevote_Validator x) (MsgAggregateExchangeRatePrevote_unknownFields
    x).
Definition MsgAggregateExchangeRatePrevote_with_Validator (x : MsgAggregateExchangeRatePrevote)
    (v : string) : MsgAggregateExchangeRatePrevote :=
  mkMsgAggregateExchangeRatePrevote (MsgAggregateExchangeRatePrevote_Hash x)
    (MsgAggregateExchangeRatePrevote_Feeder x) v (MsgAggregateExchangeRatePrevote_unknownFields
    x).
Definition MsgAggregateExchangeRatePrevote_GetHash : option MsgAggregateExchangeRatePrevote →
    string :=
  getter ""%string MsgAggregateExchangeRatePrevote_Hash.
Definition MsgAggregateExchangeRatePrevote_GetFeeder : option MsgAggregateExchangeRatePrevote →
    string :=
  getter ""%string MsgAggregateExchangeRatePrevote_Feeder.
Definition MsgAggregateExchangeRatePrevote_GetValidator : option MsgAggregateExchangeRatePrevote →
    string :=
  getter ""%string MsgAggregateExchangeRatePrevote_Validator.
Definition MsgAggregateExchangeRatePrevote_Range {S} (x : option MsgAggregateExchangeRatePrevote)
    (f : FieldDescriptor → Value → M S bool) : M S () :=
  x ← lift (or_panic x);
  range_fields f [
    (has_string (MsgAggregateExchangeRatePrevote_Hash x), fd_MsgAggregateExchangeRatePrevote_hash,
       ValueOfString (MsgAggregateExchangeRatePrevote_Hash x));
    (has_string (MsgAggregateExchangeRatePrevote_Feeder x),
       fd_MsgAggregateExchangeRatePrevote_feeder, ValueOfString
       (MsgAggregateExchangeRatePrevote_Feeder x));
    (has_string (MsgAggregateExchangeRatePrevote_Validator x),
       fd_MsgAggregateExchangeRatePrevote_validator, ValueOfString
       (MsgAggregateExchangeRatePrevote_Validator x))].
Definition MsgAggregateExchangeRatePrevote_Has (x : option MsgAggregateExchangeRatePrevote)
    (fd : FieldDescriptor) : outcome bool :=
  x ← or_panic x;
  field_switch fd [
    ("oracle.v1.MsgAggregateExchangeRatePrevote.hash"%string,
      Ok (has_string (MsgAggregateExchangeRatePrevote_Hash x)));
    ("oracle.v1.MsgAggregateExchangeRatePrevote.feeder"%string,
      Ok (has_string (MsgAggregateExchangeRatePrevote_Feeder x)));
    ("oracle.v1.MsgAggregateExchangeRatePrevote.validator"%string,
      Ok (has_string (MsgAggregateExchangeRatePrevote_Validator x)))].
Definition MsgAggregateExchangeRatePrevote_Clear (x : option MsgAggregateExchangeRatePrevote)
    (fd : FieldDescriptor) : outcome MsgAggregateExchangeRatePrevote :=
  x ← or_panic x;
  field_switch fd [
    ("oracle.v1.MsgAggregateExchangeRatePrevote.hash"%string,
      Ok (MsgAggregateExchangeRatePrevote_with_Hash x ""%string));
    ("oracle.v1.MsgAggregateExchangeRatePrevote.feeder"%string,
      Ok (MsgAggregateExchangeRatePrevote_with_Feeder x ""%string));
    ("oracle.v1.MsgAggregateExchangeRatePrevote.validator"%string,
      Ok (MsgAggregateExchangeRatePrevote_with_Validator x ""%string))].
Definition MsgAggregateExchangeRatePrevote_Get (x : option MsgAggregateExchangeRatePrevote)
    (fd : FieldDescriptor) : outcome Value :=
  x ← or_panic x;
  field_switch fd [
    ("oracle.v1.MsgAggregateExchangeRatePrevote.hash"%string,
      Ok (ValueOfString (MsgAggregateExchangeRatePrevote_Hash x)));
    ("oracle.v1.MsgAggregateExchangeRatePrevote.feeder"%string,
      Ok (ValueOfString (MsgAggregateExchangeRatePrevote_Feeder x)));
    ("oracle.v1.MsgAggregateExchangeRatePrevote.validator"%string,
      Ok (ValueOfString (MsgAggregateExchangeRatePrevote_Validator x)))].
Definition MsgAggregateExchangeRatePrevote_Set (x : option MsgAggregateExchangeRatePrevote)
    (fd : FieldDescriptor) (value : Value) : outcome MsgAggregateExchangeRatePrevote :=
  x ← or_panic x;
  field_switch fd [
    ("oracle.v1.MsgAggregateExchangeRatePrevote.hash"%string,
      set_string (MsgAggregateExchangeRatePrevote_with_Hash x) value);
    ("oracle.v1.MsgAggregateExchangeRatePrevote.feeder"%string,
      set_string (MsgAggregateExchangeRatePrevote_with_Feeder x) value);
    ("oracle.v1.MsgAggregateExchangeRatePrevote.validator"%string,
      set_string (MsgAggregateExchangeRatePrevote_with_Validator x) value)].
Definition MsgAggregateExchangeRatePrevote_Mutable (x : option MsgAggregateExchangeRatePrevote)
    (fd : FieldDescriptor) : outcome (Value * MsgAggregateExchangeRatePrevote) :=
  x ← or_panic x;
  field_switch fd [
    ("oracle.v1.MsgAggregateExchangeRatePrevote.hash"%string, Panic);
    ("oracle.v1.MsgAggregateExchangeRatePrevote.feeder"%string, Panic);
    ("oracle.v1.MsgAggregateExchangeRatePrevote.validator"%string, Panic)].
Definition MsgAggregateExchangeRatePrevote_NewField (fd : FieldDescriptor) : outcome Value :=
  field_switch fd [
    ("oracle.v1.MsgAggregateExchangeRatePrevote.hash"%string, Ok (ValueOfString ""%string));
    ("oracle.v1.MsgAggregateExchangeRatePrevote.feeder"%string, Ok (ValueOfString ""%string));
    ("oracle.v1.MsgAggregateExchangeRatePrevote.validator"%string, Ok (ValueOfString ""%string))].
Definition MsgAggregateExchangeRatePrevote_set_unknown (x : MsgAggregateExchangeRatePrevote) (fields : bytes) : MsgAggregateExchangeRatePrevote :=
  mkMsgAggregateExchangeRatePrevote (MsgAggregateExchangeRatePrevote_Hash x)
    (MsgAggregateExchangeRatePrevote_Feeder x) (MsgAggregateExchangeRatePrevote_Validator x)
    fields.
#[export] Instance MsgAggregateExchangeRatePrevote_reflect : MessageReflect MsgAggregateExchangeRatePrevote := {|
  Range S := MsgAggregateExchangeRatePrevote_Range;
  Has := MsgAggregateExchangeRatePrevote_Has;
  Clear := MsgAggregateExchangeRatePrevote_Clear;
  Get := MsgAggregateExchangeRatePrevote_Get;
  Set_ := MsgAggregateExchangeRatePrevote_Set;
  Mutable := MsgAggregateExchangeRatePrevote_Mutable;
  NewField := MsgAggregateExchangeRatePrevote_NewField;
  Descriptor := MsgAggregateExchangeRatePrevote_descriptor;
  GetUnknown x := x ← or_panic x; Ok (MsgAggregateExchangeRatePrevote_unknownFields x);
  SetUnknown x fields := x ← or_panic x; Ok (MsgAggregateExchangeRatePrevote_set_unknown x fields);
|}.

(** [MsgAggregateExchangeRatePrevoteResponse] *)

Definition MsgAggregateExchangeRatePrevoteResponse_descriptor : list FieldDescriptor := [].
Definition MsgAggregateExchangeRatePrevoteResponse_Range {S}
    (x : option MsgAggregateExchangeRatePrevoteResponse) (f : FieldDescriptor → Value → M S bool) :
    M S () :=
  mret ().
Definition MsgAggregateExchangeRatePrevoteResponse_Has
    (x : option MsgAggregateExchangeRatePrevoteResponse) (fd : FieldDescriptor) : outcome bool :=
  field_switch fd [].
Definition MsgAggregateExchangeRatePrevoteResponse_Clear
    (x : option MsgAggregateExchangeRatePrevoteResponse) (fd : FieldDescriptor) : outcome
    MsgAggregateExchangeRatePrevoteResponse :=
  field_switch fd [].
Definition MsgAggregateExchangeRatePrevoteResponse_Get
    (x : option MsgAggregateExchangeRatePrevoteResponse) (fd : FieldDescriptor) : outcome Value :=
  field_switch fd [].
Definition MsgAggregateExchangeRatePrevoteResponse_Set
    (x : option MsgAggregateExchangeRatePrevoteResponse) (fd : FieldDescriptor) (value : Value) :
    outcome MsgAggregateExchangeRatePrevoteResponse :=
  field_switch fd [].
Definition MsgAggregateExchangeRatePrevoteResponse_Mutable
    (x : option MsgAggregateExchangeRatePrevoteResponse) (fd : FieldDescriptor) : outcome
    (Value * MsgAggregateExchangeRatePrevoteResponse) :=
  field_switch fd [].
Definition MsgAggregateExchangeRatePrevoteResponse_NewField (fd : FieldDescriptor) : outcome Value
    :=
  field_switch fd [].
Definition MsgAggregateExchangeRatePrevoteResponse_set_unknown (x : MsgAggregateExchangeRatePrevoteResponse) (fields : bytes) : MsgAggregateExchangeRatePrevoteResponse :=
  mkMsgAggregateExchangeRatePrevoteResponse fields.
#[export] Instance MsgAggregateExchangeRatePrevoteResponse_reflect : MessageReflect MsgAggregateExchangeRatePrevoteResponse := {|
  Range S := MsgAggregateExchangeRatePrevoteResponse_Range;
  Has := MsgAggregateExchangeRatePrevoteResponse_Has;
  Clear := MsgAggregateExchangeRatePrevoteResponse_Clear;
  Get := MsgAggregateExchangeRatePrevoteResponse_Get;
  Set_ := MsgAggregateExchangeRatePrevoteResponse_Set;
  Mutable := MsgAggregateExchangeRatePrevoteResponse_Mutable;
  NewField := MsgAggregateExchangeRatePrevoteResponse_NewField;
  Descriptor := MsgAggregateExchangeRatePrevoteResponse_descriptor;
  GetUnknown x := x ← or_panic x; Ok (MsgAggregateExchangeRatePrevoteResponse_unknownFields x);
  SetUnknown x fields := x ← or_panic x; Ok (MsgAggregateExchangeRatePrevoteResponse_set_unknown x fields);
|}.

(** [MsgAggregateExchangeRateVote] *)

Definition fd_MsgAggregateExchangeRateVote_salt : FieldDescriptor :=
  mkField "oracle.v1.MsgAggregateExchangeRateVote.salt" 1 StringKind false.
Definition fd_MsgAggregateExchangeRateVote_exchange_rates : FieldDescriptor :=
  mkField "oracle.v1.MsgAggregateExchangeRateVote.exchange_rates" 2 StringKind false.
Definition fd_MsgAggregateExchangeRateVote_feeder : FieldDescriptor :=
  mkField "oracle.v1.MsgAggregateExchangeRateVote.feeder" 3 StringKind false.
Definition fd_MsgAggregateExchangeRateVote_validator : FieldDescriptor :=
  mkField "oracle.v1.MsgAggregateExchangeRateVote.validator" 4 StringKind false.
Definition MsgAggregateExchangeRateVote_descriptor : list FieldDescriptor := [
  fd_MsgAggregateExchangeRateVote_salt; fd_MsgAggregateExchangeRateVote_exchange_rates;
  fd_MsgAggregateExchangeRateVote_feeder; fd_MsgAggregateExchangeRateVote_validator].
Definition MsgAggregateExchangeRateVote_with_Salt (x : MsgAggregateExchangeRateVote) (v : string) :
    MsgAggregateExchangeRateVote :=
  mkMsgAggregateExchangeRateVote v (MsgAggregateExchangeRateVote_ExchangeRates x)
    (MsgAggregateExchangeRateVote_Feeder x) (MsgAggregateExchangeRateVote_Validator x)
    (MsgAggregateExchangeRateVote_unknownFields x).
Definition MsgAggregateExchangeRateVote_with_ExchangeRates (x : MsgAggregateExchangeRateVote)
    (v : string) : MsgAggregateExchangeRateVote :=
  mkMsgAggregateExchangeRateVote (MsgAggregateExchangeRateVote_Salt x) v
    (MsgAggregateExchangeRateVote_Feeder x) (MsgAggregateExchangeRateVote_Validator x)
    (MsgAggregateExchangeRateVote_unknownFields x).
Definition MsgAggregateExchangeRateVote_with_Feeder (x : MsgAggregateExchangeRateVote) (v : string)
    : MsgAggregateExchangeRateVote :=
  mkMsgAggregateExchangeRateVote (MsgAggregateExchangeRateVote_Salt x)
    (MsgAggregateExchangeRateVote_ExchangeRates x) v (MsgAggregateExchangeRateVote_Validator x)
    (MsgAggregateExchangeRateVote_unknownFields x).
Definition MsgAggregateExchangeRateVote_with_Validator (x : MsgAggregateExchangeRateVote)
    (v : string) : MsgAggregateExchangeRateVote :=
  mkMsgAggregateExchangeRateVote (MsgAggregateExchangeRateVote_Salt x)
    (MsgAggregateExchangeRateVote_ExchangeRates x) (MsgAggregateExchangeRateVote_Feeder x) v
    (MsgAggregateExchangeRateVote_unknownFields x).
Definition MsgAggregateExchangeRateVote_GetSalt : option MsgAggregateExchangeRateVote → string :=
  getter ""%string MsgAggregateExchangeRateVote_Salt.
Definition MsgAggregateExchangeRateVote_GetExchangeRates : option MsgAggregateExchangeRateVote →
    string :=
  getter ""%string MsgAggregateExchangeRateVote_ExchangeRates.
Definition MsgAggregateExchangeRateVote_GetFeeder : option MsgAggregateExchangeRateVote → string :=
  getter ""%string MsgAggregateExchangeRateVote_Feeder.
Definition MsgAggregateExchangeRateVote_GetValidator : option MsgAggregateExchangeRateVote → string
    :=
  getter ""%string MsgAggregateExchangeRateVote_Validator.
Definition MsgAggregateExchangeRateVote_Range {S} (x : option MsgAggregateExchangeRateVote)
    (f : FieldDescriptor → Value → M S bool) : M S () :=
  x ← lift (or_panic x);
  range_fields f [
    (has_string (MsgAggregateExchangeRateVote_Salt x), fd_MsgAggregateExchangeRateVote_salt,
       ValueOfString (MsgAggregateExchangeRateVote_Salt x));
    (has_string (MsgAggregateExchangeRateVote_ExchangeRates x),
       fd_MsgAggregateExchangeRateVote_exchange_rates, ValueOfString
       (MsgAggregateExchangeRateVote_ExchangeRates x));
    (has_string (MsgAggregateExchangeRateVote_Feeder x), fd_MsgAggregateExchangeRateVote_feeder,
       ValueOfString (MsgAggregateExchangeRateVote_Feeder x));
    (has_string (MsgAggregateExchangeRateVote_Validator x),
       fd_MsgAggregateExchangeRateVote_validator, ValueOfString
       (MsgAggregateExchangeRateVote_Validator x))].
Definition MsgAggregateExchangeRateVote_Has (x : option MsgAggregateExchangeRateVote)
    (fd : FieldDescriptor) : outcome bool :=
  x ← or_panic x;
  field_switch fd [
    ("oracle.v1.MsgAggregateExchangeRateVote.salt"%string,
      Ok (has_string (MsgAggregateExchangeRateVote_Salt x)));
    ("oracle.v1.MsgAggregateExchangeRateVote.exchange_rates"%string,
      Ok (has_string (MsgAggregateExchangeRateVote_ExchangeRates x)));
    ("oracle.v1.MsgAggregateExchangeRateVote.feeder"%string,
      Ok (has_string (MsgAggregateExchangeRateVote_Feeder x)));
    ("oracle.v1.MsgAggregateExchangeRateVote.validator"%string,
      Ok (has_string (MsgAggregateExchangeRateVote_Validator x)))].
Definition MsgAggregateExchangeRateVote_Clear (x : option MsgAggregateExchangeRateVote)
    (fd : FieldDescriptor) : outcome MsgAggregateExchangeRateVote :=
  x ← or_panic x;
  field_switch fd [
    ("oracle.v1.MsgAggregateExchangeRateVote.salt"%string,
      Ok (MsgAggregateExchangeRateVote_with_Salt x ""%string));
    ("oracle.v1.MsgAggregateExchangeRateVote.exchange_rates"%string,
      Ok (MsgAggregateExchangeRateVote_with_ExchangeRates x ""%string));
    ("oracle.v1.MsgAggregateExchangeRateVote.feeder"%string,
      Ok (MsgAggregateExchangeRateVote_with_Feeder x ""%string));
    ("oracle.v1.MsgAggregateExchangeRateVote.validator"%string,
      Ok (MsgAggregateExchangeRateVote_with_Validator x ""%string))].
Definition MsgAggregateExchangeRateVote_Get (x : option MsgAggregateExchangeRateVote)
    (fd : FieldDescriptor) : outcome Value :=
  x ← or_panic x;
  field_switch fd [
    ("oracle.v1.MsgAggregateExchangeRateVote.salt"%string,
      Ok (ValueOfString (MsgAggregateExchangeRateVote_Salt x)));
    ("oracle.v1.MsgAggregateExchangeRateVote.exchange_rates"%string,
      Ok (ValueOfString (MsgAggregateExchangeRateVote_ExchangeRates x)));
    ("oracle.v1.MsgAggregateExchangeRateVote.feeder"%string,
      Ok (ValueOfString (MsgAggregateExchangeRateVote_Feeder x)));
    ("oracle.v1.MsgAggregateExchangeRateVote.validator"%string,
      Ok (ValueOfString (MsgAggregateExchangeRateVote_Validator x)))].
Definition MsgAggregateExchangeRateVote_Set (x : option MsgAggregateExchangeRateVote)
    (fd : FieldDescriptor) (value : Value) : outcome MsgAggregateExchangeRateVote :=
  x ← or_panic x;
  field_switch fd [
    ("oracle.v1.MsgAggregateExchangeRateVote.salt"%string,
      set_string (MsgAggregateExchangeRateVote_with_Salt x) value);
    ("oracle.v1.MsgAggregateExchangeRateVote.exchange_rates"%string,
      set_string (MsgAggregateExchangeRateVote_with_ExchangeRates x) value);
    ("oracle.v1.MsgAggregateExchangeRateVote.feeder"%string,
      set_string (MsgAggregateExchangeRateVote_with_Feeder x) value);
    ("oracle.v1.MsgAggregateExchangeRateVote.validator"%string,
      set_string (MsgAggregateExchangeRateVote_with_Validator x) value)].
Definition MsgAggregateExchangeRateVote_Mutable (x : option MsgAggregateExchangeRateVote)
    (fd : FieldDescriptor) : outcome (Value * MsgAggregateExchangeRateVote) :=
  x ← or_panic x;
  field_switch fd [
    ("oracle.v1.MsgAggregateExchangeRateVote.salt"%string, Panic);
    ("oracle.v1.MsgAggregateExchangeRateVote.exchange_rates"%string, Panic);
    ("oracle.v1.MsgAggregateExchangeRateVote.feeder"%string, Panic);
    ("oracle.v1.MsgAggregateExchangeRateVote.validator"%string, Panic)].
Definition MsgAggregateExchangeRateVote_NewField (fd : FieldDescriptor) : outcome Value :=
  field_switch fd [
    ("oracle.v1.MsgAggregateExchangeRateVote.salt"%string, Ok (ValueOfString ""%string));
    ("oracle.v1.MsgAggregateExchangeRateVote.exchange_rates"%string, Ok (ValueOfString ""%string));
    ("oracle.v1.MsgAggregateExchangeRateVote.feeder"%string, Ok (ValueOfString ""%string));
    ("oracle.v1.MsgAggregateExchangeRateVote.validator"%string, Ok (ValueOfString ""%string))].
Definition MsgAggregateExchangeRateVote_set_unknown (x : MsgAggregateExchangeRateVote) (fields : bytes) : MsgAggregateExchangeRateVote :=
  mkMsgAggregateExchangeRateVote (MsgAggregateExchangeRateVote_Salt x)
    (MsgAggregateExchangeRateVote_ExchangeRates x) (MsgAggregateExchangeRateVote_Feeder x)
    (MsgAggregateExchangeRateVote_Validator x) fields.
#[export] Instance MsgAggregateExchangeRateVote_reflect : MessageReflect MsgAggregateExchangeRateVote := {|
  Range S := MsgAggregateExchangeRateVote_Range;
  Has := MsgAggregateExchangeRateVote_Has;
  Clear := MsgAggregateExchangeRateVote_Clear;
  Get := MsgAggregateExchangeRateVote_Get;
  Set_ := MsgAggregateExchangeRateVote_Set;
  Mutable := MsgAggregateExchangeRateVote_Mutable;
  NewField := MsgAggregateExchangeRateVote_NewField;
  Descriptor := MsgAggregateExchangeRateVote_descriptor;
  GetUnknown x := x ← or_panic x; Ok (MsgAggregateExchangeRateVote_unknownFields x);
  SetUnknown x fields := x ← or_panic x; Ok (MsgAggregateExchangeRateVote_set_unknown x fields);
|}.

(** [MsgAggregateExchangeRateVoteResponse] *)

Definition MsgAggregateExchangeRateVoteResponse_descriptor : list FieldDescriptor := [].
Definition MsgAggregateExchangeRateVoteResponse_Range {S}
    (x : option MsgAggregateExchangeRateVoteResponse) (f : FieldDescriptor → Value → M S bool) : M
    S () :=
  mret ().
Definition MsgAggregateExchangeRateVoteResponse_Has
    (x : option MsgAggregateExchangeRateVoteResponse) (fd : FieldDescriptor) : outcome bool :=
  field_switch fd [].
Definition MsgAggregateExchangeRateVoteResponse_Clear
    (x : option MsgAggregateExchangeRateVoteResponse) (fd : FieldDescriptor) : outcome
    MsgAggregateExchangeRateVoteResponse :=
  field_switch fd [].
Definition MsgAggregateExchangeRateVoteResponse_Get
    (x : option MsgAggregateExchangeRateVoteResponse) (fd : FieldDescriptor) : outcome Value :=
  field_switch fd [].
Definition MsgAggregateExchangeRateVoteResponse_Set
    (x : option MsgAggregateExchangeRateVoteResponse) (fd : FieldDescriptor) (value : Value) :
    outcome MsgAggregateExchangeRateVoteResponse :=
  field_switch fd [].
Definition MsgAggregateExchangeRateVoteResponse_Mutable
    (x : option MsgAggregateExchangeRateVoteResponse) (fd : FieldDescriptor) : outcome
    (Value * MsgAggregateExchangeRateVoteResponse) :=
  field_switch fd [].
Definition MsgAggregateExchangeRateVoteResponse_NewField (fd : FieldDescriptor) : outcome Value :=
  field_switch fd [].
Definition MsgAggregateExchangeRateVoteResponse_set_unknown (x : MsgAggregateExchangeRateVoteResponse) (fields : bytes) : MsgAggregateExchangeRateVoteResponse :=
  mkMsgAggregateExchangeRateVoteResponse fields.
#[export] Instance MsgAggregateExchangeRateVoteResponse_reflect : MessageReflect MsgAggregateExchangeRateVoteResponse := {|
  Range S := MsgAggregateExchangeRateVoteResponse_Range;
  Has := MsgAggregateExchangeRateVoteResponse_Has;
  Clear := MsgAggregateExchangeRateVoteResponse_Clear;
  Get := MsgAggregateExchangeRateVoteResponse_Get;
  Set_ := MsgAggregateExchangeRateVoteResponse_Set;
  Mutable := MsgAggregateExchangeRateVoteResponse_Mutable;
  NewField := MsgAggregateExchangeRateVoteResponse_NewField;
  Descriptor := MsgAggregateExchangeRateVoteResponse_descriptor;
  GetUnknown x := x ← or_panic x; Ok (MsgAggregateExchangeRateVoteResponse_unknownFields x);
  SetUnknown x fields := x ← or_panic x; Ok (MsgAggregateExchangeRateVoteResponse_set_unknown x fields);
|}.

(** [MsgDelegateFeedConsent] *)

Definition fd_MsgDelegateFeedConsent_operator : FieldDescriptor :=
  mkField "oracle.v1.MsgDelegateFeedConsent.operator" 1 StringKind false.
Definition fd_MsgDelegateFeedConsent_delegate : FieldDescriptor :=
  mkField "oracle.v1.MsgDelegateFeedConsent.delegate" 2 StringKind false.
Definition MsgDelegateFeedConsent_descriptor : list FieldDescriptor := [
  fd_MsgDelegateFeedConsent_operator; fd_MsgDelegateFeedConsent_delegate].
Definition MsgDelegateFeedConsent_with_Operator (x : MsgDelegateFeedConsent) (v : string) :
    MsgDelegateFeedConsent :=
  mkMsgDelegateFeedConsent v (MsgDelegateFeedConsent_Delegate x)
    (MsgDelegateFeedConsent_unknownFields x).
Definition MsgDelegateFeedConsent_with_Delegate (x : MsgDelegateFeedConsent) (v : string) :
    MsgDelegateFeedConsent :=
  mkMsgDelegateFeedConsent (MsgDelegateFeedConsent_Operator x) v
    (MsgDelegateFeedConsent_unknownFields x).
Definition MsgDelegateFeedConsent_GetOperator : option MsgDelegateFeedConsent → string :=
  getter ""%string MsgDelegateFeedConsent_Operator.
Definition MsgDelegateFeedConsent_GetDelegate : option MsgDelegateFeedConsent → string :=
  getter ""%string MsgDelegateFeedConsent_Delegate.
Definition MsgDelegateFeedConsent_Range {S} (x : option MsgDelegateFeedConsent)
    (f : FieldDescriptor → Value → M S bool) : M S () :=
  x ← lift (or_panic x);
  range_fields f [
    (has_string (MsgDelegateFeedConsent_Operator x), fd_MsgDelegateFeedConsent_operator,
       ValueOfString (MsgDelegateFeedConsent_Operator x));
    (has_string (MsgDelegateFeedConsent_Delegate x), fd_MsgDelegateFeedConsent_delegate,
       ValueOfString (MsgDelegateFeedConsent_Delegate x))].
Definition MsgDelegateFeedConsent_Has (x : option MsgDelegateFeedConsent) (fd : FieldDescriptor) :
    outcome bool :=
  x ← or_panic x;
  field_switch fd [
    ("oracle.v1.MsgDelegateFeedConsent.operator"%string,
      Ok (has_string (MsgDelegateFeedConsent_Operator x)));
    ("oracle.v1.MsgDelegateFeedConsent.delegate"%string,
      Ok (has_string (MsgDelegateFeedConsent_Delegate x)))].
Definition MsgDelegateFeedConsent_Clear (x : option MsgDelegateFeedConsent) (fd : FieldDescriptor)
    : outcome MsgDelegateFeedConsent :=
  x ← or_panic x;
  field_switch fd [
    ("oracle.v1.MsgDelegateFeedConsent.operator"%string,
      Ok (MsgDelegateFeedConsent_with_Operator x ""%string));
    ("oracle.v1.MsgDelegateFeedConsent.delegate"%string,
      Ok (MsgDelegateFeedConsent_with_Delegate x ""%string))].
Definition MsgDelegateFeedConsent_Get (x : option MsgDelegateFeedConsent) (fd : FieldDescriptor) :
    outcome Value :=
  x ← or_panic x;
  field_switch fd [
    ("oracle.v1.MsgDelegateFeedConsent.operator"%string,
      Ok (ValueOfString (MsgDelegateFeedConsent_Operator x)));
    ("oracle.v1.MsgDelegateFeedConsent.delegate"%string,
      Ok (ValueOfString (MsgDelegateFeedConsent_Delegate x)))].
Definition MsgDelegateFeedConsent_Set (x : option MsgDelegateFeedConsent) (fd : FieldDescriptor)
    (value : Value) : outcome MsgDelegateFeedConsent :=
  x ← or_panic x;
  field_switch fd [
    ("oracle.v1.MsgDelegateFeedConsent.operator"%string,
      set_string (MsgDelegateFeedConsent_with_Operator x) value);
    ("oracle.v1.MsgDelegateFeedConsent.delegate"%string,
      set_string (MsgDelegateFeedConsent_with_Delegate x) value)].
Definition MsgDelegateFeedConsent_Mutable (x : option MsgDelegateFeedConsent)
    (fd : FieldDescriptor) : outcome (Value * MsgDelegateFeedConsent) :=
  x ← or_panic x;
  field_switch fd [
    ("oracle.v1.MsgDelegateFeedConsent.operator"%string, Panic);
    ("oracle.v1.MsgDelegateFeedConsent.delegate"%string, Panic)].
Definition MsgDelegateFeedConsent_NewField (fd : FieldDescriptor) : outcome Value :=
  field_switch fd [
    ("oracle.v1.MsgDelegateFeedConsent.operator"%string, Ok (ValueOfString ""%string));
    ("oracle.v1.MsgDelegateFeedConsent.delegate"%string, Ok (ValueOfString ""%string))].
Definition MsgDelegateFeedConsent_set_unknown (x : MsgDelegateFeedConsent) (fields : bytes) : MsgDelegateFeedConsent :=
  mkMsgDelegateFeedConsent (MsgDelegateFeedConsent_Operator x) (MsgDelegateFeedConsent_Delegate x)
    fields.
#[export] Instance MsgDelegateFeedConsent_reflect : MessageReflect MsgDelegateFeedConsent := {|
  Range S := MsgDelegateFeedConsent_Range;
  Has := MsgDelegateFeedConsent_Has;
  Clear := MsgDelegateFeedConsent_Clear;
  Get := MsgDelegateFeedConsent_Get;
  Set_ := MsgDelegateFeedConsent_Set;
  Mutable := MsgDelegateFeedConsent_Mutable;
  NewField := MsgDelegateFeedConsent_NewField;
  Descriptor := MsgDelegateFeedConsent_descriptor;
  GetUnknown x := x ← or_panic x; Ok (MsgDelegateFeedConsent_unknownFields x);
  SetUnknown x fields := x ← or_panic x; Ok (MsgDelegateFeedConsent_set_unknown x fields);
|}.

(** [MsgDelegateFeedConsentResponse] *)

Definition MsgDelegateFeedConsentResponse_descriptor : list FieldDescriptor := [].
Definition MsgDelegateFeedConsentResponse_Range {S} (x : option MsgDelegateFeedConsentResponse)
    (f : FieldDescriptor → Value → M S bool) : M S () :=
  mret ().
Definition MsgDelegateFeedConsentResponse_Has (x : option MsgDelegateFeedConsentResponse)
    (fd : FieldDescriptor) : outcome bool :=
  field_switch fd [].
Definition MsgDelegateFeedConsentResponse_Clear (x : option MsgDelegateFeedConsentResponse)
    (fd : FieldDescriptor) : outcome MsgDelegateFeedConsentResponse :=
  field_switch fd [].
Definition MsgDelegateFeedConsentResponse_Get (x : option MsgDelegateFeedConsentResponse)
    (fd : FieldDescriptor) : outcome Value :=
  field_switch fd [].
Definition MsgDelegateFeedConsentResponse_Set (x : option MsgDelegateFeedConsentResponse)
    (fd : FieldDescriptor) (value : Value) : outcome MsgDelegateFeedConsentResponse :=
  field_switch fd [].
Definition MsgDelegateFeedConsentResponse_Mutable (x : option MsgDelegateFeedConsentResponse)
    (fd : FieldDescriptor) : outcome (Value * MsgDelegateFeedConsentResponse) :=
  field_switch fd [].
Definition MsgDelegateFeedConsentResponse_NewField (fd : FieldDescriptor) : outcome Value :=
  field_switch fd [].
Definition MsgDelegateFeedConsentResponse_set_unknown (x : MsgDelegateFeedConsentResponse) (fields : bytes) : MsgDelegateFeedConsentResponse :=
  mkMsgDelegateFeedConsentResponse fields.
#[export] Instance MsgDelegateFeedConsentResponse_reflect : MessageReflect MsgDelegateFeedConsentResponse := {|
  Range S := MsgDelegateFeedConsentResponse_Range;
  Has := MsgDelegateFeedConsentResponse_Has;
  Clear := MsgDelegateFeedConsentResponse_Clear;
  Get := MsgDelegateFeedConsentResponse_Get;
  Set_ := MsgDelegateFeedConsentResponse_Set;
  Mutable := MsgDelegateFeedConsentResponse_Mutable;
  NewField := MsgDelegateFeedConsentResponse_NewField;
  Descriptor := MsgDelegateFeedConsentResponse_descriptor;
  GetUnknown x := x ← or_panic x; Ok (MsgDelegateFeedConsentResponse_unknownFields x);
  SetUnknown x fields := x ← or_panic x; Ok (MsgDelegateFeedConsentResponse_set_unknown x fields);
|}.

(** [MsgLegacyGovUpdateParams] *)

Definition fd_MsgLegacyGovUpdateParams_authority : FieldDescriptor :=
  mkField "oracle.v1.MsgLegacyGovUpdateParams.authority" 1 StringKind false.
Definition fd_MsgLegacyGovUpdateParams_title : FieldDescriptor :=
  mkField "oracle.v1.MsgLegacyGovUpdateParams.title" 2 StringKind false.
Definition fd_MsgLegacyGovUpdateParams_description : FieldDescriptor :=
  mkField "oracle.v1.MsgLegacyGovUpdateParams.description" 3 StringKind false.
Definition fd_MsgLegacyGovUpdateParams_keys : FieldDescriptor :=
  mkField "oracle.v1.MsgLegacyGovUpdateParams.keys" 4 StringKind true.
Definition fd_MsgLegacyGovUpdateParams_changes : FieldDescriptor :=
  mkField "oracle.v1.MsgLegacyGovUpdateParams.changes" 5 MessageKind false.
Definition MsgLegacyGovUpdateParams_descriptor : list FieldDescriptor := [
  fd_MsgLegacyGovUpdateParams_authority; fd_MsgLegacyGovUpdateParams_title;
  fd_MsgLegacyGovUpdateParams_description; fd_MsgLegacyGovUpdateParams_keys;
  fd_MsgLegacyGovUpdateParams_changes].
Definition MsgLegacyGovUpdateParams_with_Authority (x : MsgLegacyGovUpdateParams) (v : string) :
    MsgLegacyGovUpdateParams :=
  mkMsgLegacyGovUpdateParams v (MsgLegacyGovUpdateParams_Title x)
    (MsgLegacyGovUpdateParams_Description x) (MsgLegacyGovUpdateParams_Keys x)
    (MsgLegacyGovUpdateParams_Changes x) (MsgLegacyGovUpdateParams_unknownFields x).
Definition MsgLegacyGovUpdateParams_with_Title (x : MsgLegacyGovUpdateParams) (v : string) :
    MsgLegacyGovUpdateParams :=
  mkMsgLegacyGovUpdateParams (MsgLegacyGovUpdateParams_Authority x) v
    (MsgLegacyGovUpdateParams_Description x) (MsgLegacyGovUpdateParams_Keys x)
    (MsgLegacyGovUpdateParams_Changes x) (MsgLegacyGovUpdateParams_unknownFields x).
Definition MsgLegacyGovUpdateParams_with_Description (x : MsgLegacyGovUpdateParams) (v : string) :
    MsgLegacyGovUpdateParams :=
  mkMsgLegacyGovUpdateParams (MsgLegacyGovUpdateParams_Authority x)
    (MsgLegacyGovUpdateParams_Title x) v (MsgLegacyGovUpdateParams_Keys x)
    (MsgLegacyGovUpdateParams_Changes x) (MsgLegacyGovUpdateParams_unknownFields x).
Definition MsgLegacyGovUpdateParams_with_Keys (x : MsgLegacyGovUpdateParams) (v : list string) :
    MsgLegacyGovUpdateParams :=
  mkMsgLegacyGovUpdateParams (MsgLegacyGovUpdateParams_Authority x)
    (MsgLegacyGovUpdateParams_Title x) (MsgLegacyGovUpdateParams_Description x) v
    (MsgLegacyGovUpdateParams_Changes x) (MsgLegacyGovUpdateParams_unknownFields x).
Definition MsgLegacyGovUpdateParams_with_Changes (x : MsgLegacyGovUpdateParams) (v : option Params)
    : MsgLegacyGovUpdateParams :=
  mkMsgLegacyGovUpdateParams (MsgLegacyGovUpdateParams_Authority x)
    (MsgLegacyGovUpdateParams_Title x) (MsgLegacyGovUpdateParams_Description x)
    (MsgLegacyGovUpdateParams_Keys x) v (MsgLegacyGovUpdateParams_unknownFields x).
Definition MsgLegacyGovUpdateParams_GetAuthority : option MsgLegacyGovUpdateParams → string :=
  getter ""%string MsgLegacyGovUpdateParams_Authority.
Definition MsgLegacyGovUpdateParams_GetTitle : option MsgLegacyGovUpdateParams → string :=
  getter ""%string MsgLegacyGovUpdateParams_Title.
Definition MsgLegacyGovUpdateParams_GetDescription : option MsgLegacyGovUpdateParams → string :=
  getter ""%string MsgLegacyGovUpdateParams_Description.
Definition MsgLegacyGovUpdateParams_GetKeys : option MsgLegacyGovUpdateParams → list string :=
  getter [] MsgLegacyGovUpdateParams_Keys.
Definition MsgLegacyGovUpdateParams_GetChanges : option MsgLegacyGovUpdateParams → option Params :=
  getter None MsgLegacyGovUpdateParams_Changes.
#[export] Instance MsgLegacyGovUpdateParams_4_list_methods : ProtoList MsgLegacyGovUpdateParams_4_list :=
  string_list mkMsgLegacyGovUpdateParams_4_list MsgLegacyGovUpdateParams_4_list_slice.
Definition MsgLegacyGovUpdateParams_Range {S} (x : option MsgLegacyGovUpdateParams)
    (f : FieldDescriptor → Value → M S bool) : M S () :=
  x ← lift (or_panic x);
  range_fields f [
    (has_string (MsgLegacyGovUpdateParams_Authority x), fd_MsgLegacyGovUpdateParams_authority,
       ValueOfString (MsgLegacyGovUpdateParams_Authority x));
    (has_string (MsgLegacyGovUpdateParams_Title x), fd_MsgLegacyGovUpdateParams_title,
       ValueOfString (MsgLegacyGovUpdateParams_Title x));
    (has_string (MsgLegacyGovUpdateParams_Description x), fd_MsgLegacyGovUpdateParams_description,
       ValueOfString (MsgLegacyGovUpdateParams_Description x));
    (has_slice (MsgLegacyGovUpdateParams_Keys x), fd_MsgLegacyGovUpdateParams_keys, ValueOfList
       (mkMsgLegacyGovUpdateParams_4_list (Some (MsgLegacyGovUpdateParams_Keys x))));
    (has_message (MsgLegacyGovUpdateParams_Changes x), fd_MsgLegacyGovUpdateParams_changes,
       ValueOfMessage (MsgLegacyGovUpdateParams_Changes x))].
Definition MsgLegacyGovUpdateParams_Has (x : option MsgLegacyGovUpdateParams)
    (fd : FieldDescriptor) : outcome bool :=
  x ← or_panic x;
  field_switch fd [
    ("oracle.v1.MsgLegacyGovUpdateParams.authority"%string,
      Ok (has_string (MsgLegacyGovUpdateParams_Authority x)));
    ("oracle.v1.MsgLegacyGovUpdateParams.title"%string,
      Ok (has_string (MsgLegacyGovUpdateParams_Title x)));
    ("oracle.v1.MsgLegacyGovUpdateParams.description"%string,
      Ok (has_string (MsgLegacyGovUpdateParams_Description x)));
    ("oracle.v1.MsgLegacyGovUpdateParams.keys"%string,
      Ok (has_slice (MsgLegacyGovUpdateParams_Keys x)));
    ("oracle.v1.MsgLegacyGovUpdateParams.changes"%string,
      Ok (has_message (MsgLegacyGovUpdateParams_Changes x)))].
Definition MsgLegacyGovUpdateParams_Clear (x : option MsgLegacyGovUpdateParams)
    (fd : FieldDescriptor) : outcome MsgLegacyGovUpdateParams :=
  x ← or_panic x;
  field_switch fd [
    ("oracle.v1.MsgLegacyGovUpdateParams.authority"%string,
      Ok (MsgLegacyGovUpdateParams_with_Authority x ""%string));
    ("oracle.v1.MsgLegacyGovUpdateParams.title"%string,
      Ok (MsgLegacyGovUpdateParams_with_Title x ""%string));
    ("oracle.v1.MsgLegacyGovUpdateParams.description"%string,
      Ok (MsgLegacyGovUpdateParams_with_Description x ""%string));
    ("oracle.v1.MsgLegacyGovUpdateParams.keys"%string,
      Ok (MsgLegacyGovUpdateParams_with_Keys x []));
    ("oracle.v1.MsgLegacyGovUpdateParams.changes"%string,
      Ok (MsgLegacyGovUpdateParams_with_Changes x None))].
Definition MsgLegacyGovUpdateParams_Get (x : option MsgLegacyGovUpdateParams)
    (fd : FieldDescriptor) : outcome Value :=
  x ← or_panic x;
  field_switch fd [
    ("oracle.v1.MsgLegacyGovUpdateParams.authority"%string,
      Ok (ValueOfString (MsgLegacyGovUpdateParams_Authority x)));
    ("oracle.v1.MsgLegacyGovUpdateParams.title"%string,
      Ok (ValueOfString (MsgLegacyGovUpdateParams_Title x)));
    ("oracle.v1.MsgLegacyGovUpdateParams.description"%string,
      Ok (ValueOfString (MsgLegacyGovUpdateParams_Description x)));
    ("oracle.v1.MsgLegacyGovUpdateParams.keys"%string,
      Ok (get_list mkMsgLegacyGovUpdateParams_4_list (MsgLegacyGovUpdateParams_Keys x)));
    ("oracle.v1.MsgLegacyGovUpdateParams.changes"%string,
      Ok (ValueOfMessage (MsgLegacyGovUpdateParams_Changes x)))].
Definition MsgLegacyGovUpdateParams_Set (x : option MsgLegacyGovUpdateParams)
    (fd : FieldDescriptor) (value : Value) : outcome MsgLegacyGovUpdateParams :=
  x ← or_panic x;
  field_switch fd [
    ("oracle.v1.MsgLegacyGovUpdateParams.authority"%string,
      set_string (MsgLegacyGovUpdateParams_with_Authority x) value);
    ("oracle.v1.MsgLegacyGovUpdateParams.title"%string,
      set_string (MsgLegacyGovUpdateParams_with_Title x) value);
    ("oracle.v1.MsgLegacyGovUpdateParams.description"%string,
      set_string (MsgLegacyGovUpdateParams_with_Description x) value);
    ("oracle.v1.MsgLegacyGovUpdateParams.keys"%string,
      set_list MsgLegacyGovUpdateParams_4_list_slice (MsgLegacyGovUpdateParams_with_Keys x) value);
    ("oracle.v1.MsgLegacyGovUpdateParams.changes"%string,
      set_message (MsgLegacyGovUpdateParams_with_Changes x) value)].
Definition MsgLegacyGovUpdateParams_Mutable (x : option MsgLegacyGovUpdateParams)
    (fd : FieldDescriptor) : outcome (Value * MsgLegacyGovUpdateParams) :=
  x ← or_panic x;
  field_switch fd [
    ("oracle.v1.MsgLegacyGovUpdateParams.keys"%string,
      mutable_list mkMsgLegacyGovUpdateParams_4_list x (MsgLegacyGovUpdateParams_Keys x));
    ("oracle.v1.MsgLegacyGovUpdateParams.changes"%string,
      mutable_message (MsgLegacyGovUpdateParams_with_Changes x)
        (MsgLegacyGovUpdateParams_Changes x));
    ("oracle.v1.MsgLegacyGovUpdateParams.authority"%string, Panic);
    ("oracle.v1.MsgLegacyGovUpdateParams.title"%string, Panic);
    ("oracle.v1.MsgLegacyGovUpdateParams.description"%string, Panic)].
Definition MsgLegacyGovUpdateParams_NewField (fd : FieldDescriptor) : outcome Value :=
  field_switch fd [
    ("oracle.v1.MsgLegacyGovUpdateParams.authority"%string, Ok (ValueOfString ""%string));
    ("oracle.v1.MsgLegacyGovUpdateParams.title"%string, Ok (ValueOfString ""%string));
    ("oracle.v1.MsgLegacyGovUpdateParams.description"%string, Ok (ValueOfString ""%string));
    ("oracle.v1.MsgLegacyGovUpdateParams.keys"%string, new_list mkMsgLegacyGovUpdateParams_4_list);
    ("oracle.v1.MsgLegacyGovUpdateParams.changes"%string, new_message (A := Params))].
Definition MsgLegacyGovUpdateParams_set_unknown (x : MsgLegacyGovUpdateParams) (fields : bytes) : MsgLegacyGovUpdateParams :=
  mkMsgLegacyGovUpdateParams (MsgLegacyGovUpdateParams_Authority x)
    (MsgLegacyGovUpdateParams_Title x) (MsgLegacyGovUpdateParams_Description x)
    (MsgLegacyGovUpdateParams_Keys x) (MsgLegacyGovUpdateParams_Changes x) fields.
#[export] Instance MsgLegacyGovUpdateParams_reflect : MessageReflect MsgLegacyGovUpdateParams := {|
  Range S := MsgLegacyGovUpdateParams_Range;
  Has := MsgLegacyGovUpdateParams_Has;
  Clear := MsgLegacyGovUpdateParams_Clear;
  Get := MsgLegacyGovUpdateParams_Get;
  Set_ := MsgLegacyGovUpdateParams_Set;
  Mutable := MsgLegacyGovUpdateParams_Mutable;
  NewField := MsgLegacyGovUpdateParams_NewField;
  Descriptor := MsgLegacyGovUpdateParams_descriptor;
  GetUnknown x := x ← or_panic x; Ok (MsgLegacyGovUpdateParams_unknownFields x);
  SetUnknown x fields := x ← or_panic x; Ok (MsgLegacyGovUpdateParams_set_unknown x fields);
|}.

(** [MsgLegacyGovUpdateParamsResponse] *)

Definition MsgLegacyGovUpdateParamsResponse_descriptor : list FieldDescriptor := [].
Definition MsgLegacyGovUpdateParamsResponse_Range {S} (x : option MsgLegacyGovUpdateParamsResponse)
    (f : FieldDescriptor → Value → M S bool) : M S () :=
  mret ().
Definition MsgLegacyGovUpdateParamsResponse_Has (x : option MsgLegacyGovUpdateParamsResponse)
    (fd : FieldDescriptor) : outcome bool :=
  field_switch fd [].
Definition MsgLegacyGovUpdateParamsResponse_Clear (x : option MsgLegacyGovUpdateParamsResponse)
    (fd : FieldDescriptor) : outcome MsgLegacyGovUpdateParamsResponse :=
  field_switch fd [].
Definition MsgLegacyGovUpdateParamsResponse_Get (x : option MsgLegacyGovUpdateParamsResponse)
    (fd : FieldDescriptor) : outcome Value :=
  field_switch fd [].
Definition MsgLegacyGovUpdateParamsResponse_Set (x : option MsgLegacyGovUpdateParamsResponse)
    (fd : FieldDescriptor) (value : Value) : outcome MsgLegacyGovUpdateParamsResponse :=
  field_switch fd [].
Definition MsgLegacyGovUpdateParamsResponse_Mutable (x : option MsgLegacyGovUpdateParamsResponse)
    (fd : FieldDescriptor) : outcome (Value * MsgLegacyGovUpdateParamsResponse) :=
  field_switch fd [].
Definition MsgLegacyGovUpdateParamsResponse_NewField (fd : FieldDescriptor) : outcome Value :=
  field_switch fd [].
Definition MsgLegacyGovUpdateParamsResponse_set_unknown (x : MsgLegacyGovUpdateParamsResponse) (fields : bytes) : MsgLegacyGovUpdateParamsResponse :=
  mkMsgLegacyGovUpdateParamsResponse fields.
#[export] Instance MsgLegacyGovUpdateParamsResponse_reflect : MessageReflect MsgLegacyGovUpdateParamsResponse := {|
  Range S := MsgLegacyGovUpdateParamsResponse_Range;
  Has := MsgLegacyGovUpdateParamsResponse_Has;
  Clear := MsgLegacyGovUpdateParamsResponse_Clear;
  Get := MsgLegacyGovUpdateParamsResponse_Get;
  Set_ := MsgLegacyGovUpdateParamsResponse_Set;
  Mutable := MsgLegacyGovUpdateParamsResponse_Mutable;
  NewField := MsgLegacyGovUpdateParamsResponse_NewField;
  Descriptor := MsgLegacyGovUpdateParamsResponse_descriptor;
  GetUnknown x := x ← or_panic x; Ok (MsgLegacyGovUpdateParamsResponse_unknownFields x);
  SetUnknown x fields := x ← or_panic x; Ok (MsgLegacyGovUpdateParamsResponse_set_unknown x fields);
|}.

(** [MsgGovUpdateParams] *)

Definition fd_MsgGovUpdateParams_authority : FieldDescriptor :=
  mkField "oracle.v1.MsgGovUpdateParams.authority" 1 StringKind false.
Definition fd_MsgGovUpdateParams_title : FieldDescriptor :=
  mkField "oracle.v1.MsgGovUpdateParams.title" 2 StringKind false.
Definition fd_MsgGovUpdateParams_description : FieldDescriptor :=
  mkField "oracle.v1.MsgGovUpdateParams.description" 3 StringKind false.
Definition fd_MsgGovUpdateParams_plan : FieldDescriptor :=
  mkField "oracle.v1.MsgGovUpdateParams.plan" 4 MessageKind false.
Definition MsgGovUpdateParams_descriptor : list FieldDescriptor := [
  fd_MsgGovUpdateParams_authority; fd_MsgGovUpdateParams_title; fd_MsgGovUpdateParams_description;
  fd_MsgGovUpdateParams_plan].
Definition MsgGovUpdateParams_with_Authority (x : MsgGovUpdateParams) (v : string) :
    MsgGovUpdateParams :=
  mkMsgGovUpdateParams v (MsgGovUpdateParams_Title x) (MsgGovUpdateParams_Description x)
    (MsgGovUpdateParams_Plan x) (MsgGovUpdateParams_unknownFields x).
Definition MsgGovUpdateParams_with_Title (x : MsgGovUpdateParams) (v : string) : MsgGovUpdateParams
    :=
  mkMsgGovUpdateParams (MsgGovUpdateParams_Authority x) v (MsgGovUpdateParams_Description x)
    (MsgGovUpdateParams_Plan x) (MsgGovUpdateParams_unknownFields x).
Definition MsgGovUpdateParams_with_Description (x : MsgGovUpdateParams) (v : string) :
    MsgGovUpdateParams :=
  mkMsgGovUpdateParams (MsgGovUpdateParams_Authority x) (MsgGovUpdateParams_Title x) v
    (MsgGovUpdateParams_Plan x) (MsgGovUpdateParams_unknownFields x).
Definition MsgGovUpdateParams_with_Plan (x : MsgGovUpdateParams) (v : option ParamUpdatePlan) :
    MsgGovUpdateParams :=
  mkMsgGovUpdateParams (MsgGovUpdateParams_Authority x) (MsgGovUpdateParams_Title x)
    (MsgGovUpdateParams_Description x) v (MsgGovUpdateParams_unknownFields x).
Definition MsgGovUpdateParams_GetAuthority : option MsgGovUpdateParams → string :=
  getter ""%string MsgGovUpdateParams_Authority.
Definition MsgGovUpdateParams_GetTitle : option MsgGovUpdateParams → string :=
  getter ""%string MsgGovUpdateParams_Title.
Definition MsgGovUpdateParams_GetDescription : option MsgGovUpdateParams → string :=
  getter ""%string MsgGovUpdateParams_Description.
Definition MsgGovUpdateParams_GetPlan : option MsgGovUpdateParams → option ParamUpdatePlan :=
  getter None MsgGovUpdateParams_Plan.
Definition MsgGovUpdateParams_Range {S} (x : option MsgGovUpdateParams)
    (f : FieldDescriptor → Value → M S bool) : M S () :=
  x ← lift (or_panic x);
  range_fields f [
    (has_string (MsgGovUpdateParams_Authority x), fd_MsgGovUpdateParams_authority, ValueOfString
       (MsgGovUpdateParams_Authority x));
    (has_string (MsgGovUpdateParams_Title x), fd_MsgGovUpdateParams_title, ValueOfString
       (MsgGovUpdateParams_Title x));
    (has_string (MsgGovUpdateParams_Description x), fd_MsgGovUpdateParams_description,
       ValueOfString (MsgGovUpdateParams_Description x));
    (has_message (MsgGovUpdateParams_Plan x), fd_MsgGovUpdateParams_plan, ValueOfMessage
       (MsgGovUpdateParams_Plan x))].
Definition MsgGovUpdateParams_Has (x : option MsgGovUpdateParams) (fd : FieldDescriptor) : outcome
    bool :=
  x ← or_panic x;
  field_switch fd [
    ("oracle.v1.MsgGovUpdateParams.authority"%string,
      Ok (has_string (MsgGovUpdateParams_Authority x)));
    ("oracle.v1.MsgGovUpdateParams.title"%string, Ok (has_string (MsgGovUpdateParams_Title x)));
    ("oracle.v1.MsgGovUpdateParams.description"%string,
      Ok (has_string (MsgGovUpdateParams_Description x)));
    ("oracle.v1.MsgGovUpdateParams.plan"%string, Ok (has_message (MsgGovUpdateParams_Plan x)))].
Definition MsgGovUpdateParams_Clear (x : option MsgGovUpdateParams) (fd : FieldDescriptor) :
    outcome MsgGovUpdateParams :=
  x ← or_panic x;
  field_switch fd [
    ("oracle.v1.MsgGovUpdateParams.authority"%string,
      Ok (MsgGovUpdateParams_with_Authority x ""%string));
    ("oracle.v1.MsgGovUpdateParams.title"%string, Ok (MsgGovUpdateParams_with_Title x ""%string));
    ("oracle.v1.MsgGovUpdateParams.description"%string,
      Ok (MsgGovUpdateParams_with_Description x ""%string));
    ("oracle.v1.MsgGovUpdateParams.plan"%string, Ok (MsgGovUpdateParams_with_Plan x None))].
Definition MsgGovUpdateParams_Get (x : option MsgGovUpdateParams) (fd : FieldDescriptor) : outcome
    Value :=
  x ← or_panic x;
  field_switch fd [
    ("oracle.v1.MsgGovUpdateParams.authority"%string,
      Ok (ValueOfString (MsgGovUpdateParams_Authority x)));
    ("oracle.v1.MsgGovUpdateParams.title"%string, Ok (ValueOfString (MsgGovUpdateParams_Title x)));
    ("oracle.v1.MsgGovUpdateParams.description"%string,
      Ok (ValueOfString (MsgGovUpdateParams_Description x)));
    ("oracle.v1.MsgGovUpdateParams.plan"%string, Ok (ValueOfMessage (MsgGovUpdateParams_Plan x)))].
Definition MsgGovUpdateParams_Set (x : option MsgGovUpdateParams) (fd : FieldDescriptor)
    (value : Value) : outcome MsgGovUpdateParams :=
  x ← or_panic x;
  field_switch fd [
    ("oracle.v1.MsgGovUpdateParams.authority"%string,
      set_string (MsgGovUpdateParams_with_Authority x) value);
    ("oracle.v1.MsgGovUpdateParams.title"%string,
      set_string (MsgGovUpdateParams_with_Title x) value);
    ("oracle.v1.MsgGovUpdateParams.description"%string,
      set_string (MsgGovUpdateParams_with_Description x) value);
    ("oracle.v1.MsgGovUpdateParams.plan"%string,
      set_message (MsgGovUpdateParams_with_Plan x) value)].
Definition MsgGovUpdateParams_Mutable (x : option MsgGovUpdateParams) (fd : FieldDescriptor) :
    outcome (Value * MsgGovUpdateParams) :=
  x ← or_panic x;
  field_switch fd [
    ("oracle.v1.MsgGovUpdateParams.plan"%string,
      mutable_message (MsgGovUpdateParams_with_Plan x) (MsgGovUpdateParams_Plan x));
    ("oracle.v1.MsgGovUpdateParams.authority"%string, Panic);
    ("oracle.v1.MsgGovUpdateParams.title"%string, Panic);
    ("oracle.v1.MsgGovUpdateParams.description"%string, Panic)].
Definition MsgGovUpdateParams_NewField (fd : FieldDescriptor) : outcome Value :=
  field_switch fd [
    ("oracle.v1.MsgGovUpdateParams.authority"%string, Ok (ValueOfString ""%string));
    ("oracle.v1.MsgGovUpdateParams.title"%string, Ok (ValueOfString ""%string));
    ("oracle.v1.MsgGovUpdateParams.description"%string, Ok (ValueOfString ""%string));
    ("oracle.v1.MsgGovUpdateParams.plan"%string, new_message (A := ParamUpdatePlan))].
Definition MsgGovUpdateParams_set_unknown (x : MsgGovUpdateParams) (fields : bytes) : MsgGovUpdateParams :=
  mkMsgGovUpdateParams (MsgGovUpdateParams_Authority x) (MsgGovUpdateParams_Title x)
    (MsgGovUpdateParams_Description x) (MsgGovUpdateParams_Plan x) fields.
#[export] Instance MsgGovUpdateParams_reflect : MessageReflect MsgGovUpdateParams := {|
  Range S := MsgGovUpdateParams_Range;
  Has := MsgGovUpdateParams_Has;
  Clear := MsgGovUpdateParams_Clear;
  Get := MsgGovUpdateParams_Get;
  Set_ := MsgGovUpdateParams_Set;
  Mutable := MsgGovUpdateParams_Mutable;
  NewField := MsgGovUpdateParams_NewField;
  Descriptor := MsgGovUpdateParams_descriptor;
  GetUnknown x := x ← or_panic x; Ok (MsgGovUpdateParams_unknownFields x);
  SetUnknown x fields := x ← or_panic x; Ok (MsgGovUpdateParams_set_unknown x fields);
|}.

(** [MsgGovUpdateParamsResponse] *)

Definition MsgGovUpdateParamsResponse_descriptor : list FieldDescriptor := [].
Definition MsgGovUpdateParamsResponse_Range {S} (x : option MsgGovUpdateParamsResponse)
    (f : FieldDescriptor → Value → M S bool) : M S () :=
  mret ().
Definition MsgGovUpdateParamsResponse_Has (x : option MsgGovUpdateParamsResponse)
    (fd : FieldDescriptor) : outcome bool :=
  field_switch fd [].
Definition MsgGovUpdateParamsResponse_Clear (x : option MsgGovUpdateParamsResponse)
    (fd : FieldDescriptor) : outcome MsgGovUpdateParamsResponse :=
  field_switch fd [].
Definition MsgGovUpdateParamsResponse_Get (x : option MsgGovUpdateParamsResponse)
    (fd : FieldDescriptor) : outcome Value :=
  field_switch fd [].
Definition MsgGovUpdateParamsResponse_Set (x : option MsgGovUpdateParamsResponse)
    (fd : FieldDescriptor) (value : Value) : outcome MsgGovUpdateParamsResponse :=
  field_switch fd [].
Definition MsgGovUpdateParamsResponse_Mutable (x : option MsgGovUpdateParamsResponse)
    (fd : FieldDescriptor) : outcome (Value * MsgGovUpdateParamsResponse) :=
  field_switch fd [].
Definition MsgGovUpdateParamsResponse_NewField (fd : FieldDescriptor) : outcome Value :=
  field_switch fd [].
Definition MsgGovUpdateParamsResponse_set_unknown (x : MsgGovUpdateParamsResponse) (fields : bytes) : MsgGovUpdateParamsResponse :=
  mkMsgGovUpdateParamsResponse fields.
#[export] Instance MsgGovUpdateParamsResponse_reflect : MessageReflect MsgGovUpdateParamsResponse := {|
  Range S := MsgGovUpdateParamsResponse_Range;
  Has := MsgGovUpdateParamsResponse_Has;
  Clear := MsgGovUpdateParamsResponse_Clear;
  Get := MsgGovUpdateParamsResponse_Get;
  Set_ := MsgGovUpdateParamsResponse_Set;
  Mutable := MsgGovUpdateParamsResponse_Mutable;
  NewField := MsgGovUpdateParamsResponse_NewField;
  Descriptor := MsgGovUpdateParamsResponse_descriptor;
  GetUnknown x := x ← or_panic x; Ok (MsgGovUpdateParamsResponse_unknownFields x);
  SetUnknown x fields := x ← or_panic x; Ok (MsgGovUpdateParamsResponse_set_unknown x fields);
|}.

(** [MsgGovAddDenoms] *)

Definition fd_MsgGovAddDenoms_authority : FieldDescriptor :=
  mkField "oracle.v1.MsgGovAddDenoms.authority" 1 StringKind false.
Definition fd_MsgGovAddDenoms_title : FieldDescriptor :=
  mkField "oracle.v1.MsgGovAddDenoms.title" 2 StringKind false.
Definition fd_MsgGovAddDenoms_description : FieldDescriptor :=
  mkField "oracle.v1.MsgGovAddDenoms.description" 3 StringKind false.
Definition fd_MsgGovAddDenoms_height : FieldDescriptor :=
  mkField "oracle.v1.MsgGovAddDenoms.height" 4 Int64Kind false.
Definition fd_MsgGovAddDenoms_denom_list : FieldDescriptor :=
  mkField "oracle.v1.MsgGovAddDenoms.denom_list" 5 MessageKind true.
Definition fd_MsgGovAddDenoms_mandatory : FieldDescriptor :=
  mkField "oracle.v1.MsgGovAddDenoms.mandatory" 6 BoolKind false.
Definition fd_MsgGovAddDenoms_reward_band : FieldDescriptor :=
  mkField "oracle.v1.MsgGovAddDenoms.reward_band" 7 StringKind false.
Definition fd_MsgGovAddDenoms_currency_pair_providers : FieldDescriptor :=
  mkField "oracle.v1.MsgGovAddDenoms.currency_pair_providers" 8 MessageKind true.
Definition fd_MsgGovAddDenoms_currency_deviation_thresholds : FieldDescriptor :=
  mkField "oracle.v1.MsgGovAddDenoms.currency_deviation_thresholds" 9 MessageKind true.
Definition MsgGovAddDenoms_descriptor : list FieldDescriptor := [
  fd_MsgGovAddDenoms_authority; fd_MsgGovAddDenoms_title; fd_MsgGovAddDenoms_description;
  fd_MsgGovAddDenoms_height; fd_MsgGovAddDenoms_denom_list; fd_MsgGovAddDenoms_mandatory;
  fd_MsgGovAddDenoms_reward_band; fd_MsgGovAddDenoms_currency_pair_providers;
  fd_MsgGovAddDenoms_currency_deviation_thresholds].
Definition MsgGovAddDenoms_with_Authority (x : MsgGovAddDenoms) (v : string) : MsgGovAddDenoms :=
  mkMsgGovAddDenoms v (MsgGovAddDenoms_Title x) (MsgGovAddDenoms_Description x)
    (MsgGovAddDenoms_Height x) (MsgGovAddDenoms_DenomList x) (MsgGovAddDenoms_Mandatory x)
    (MsgGovAddDenoms_RewardBand x) (MsgGovAddDenoms_CurrencyPairProviders x)
    (MsgGovAddDenoms_CurrencyDeviationThresholds x) (MsgGovAddDenoms_unknownFields x).
Definition MsgGovAddDenoms_with_Title (x : MsgGovAddDenoms) (v : string) : MsgGovAddDenoms :=
  mkMsgGovAddDenoms (MsgGovAddDenoms_Authority x) v (MsgGovAddDenoms_Description x)
    (MsgGovAddDenoms_Height x) (MsgGovAddDenoms_DenomList x) (MsgGovAddDenoms_Mandatory x)
    (MsgGovAddDenoms_RewardBand x) (MsgGovAddDenoms_CurrencyPairProviders x)
    (MsgGovAddDenoms_CurrencyDeviationThresholds x) (MsgGovAddDenoms_unknownFields x).
Definition MsgGovAddDenoms_with_Description (x : MsgGovAddDenoms) (v : string) : MsgGovAddDenoms :=
  mkMsgGovAddDenoms (MsgGovAddDenoms_Authority x) (MsgGovAddDenoms_Title x) v
    (MsgGovAddDenoms_Height x) (MsgGovAddDenoms_DenomList x) (MsgGovAddDenoms_Mandatory x)
    (MsgGovAddDenoms_RewardBand x) (MsgGovAddDenoms_CurrencyPairProviders x)
    (MsgGovAddDenoms_CurrencyDeviationThresholds x) (MsgGovAddDenoms_unknownFields x).
Definition MsgGovAddDenoms_with_Height (x : MsgGovAddDenoms) (v : Z) : MsgGovAddDenoms :=
  mkMsgGovAddDenoms (MsgGovAddDenoms_Authority x) (MsgGovAddDenoms_Title x)
    (MsgGovAddDenoms_Description x) v (MsgGovAddDenoms_DenomList x) (MsgGovAddDenoms_Mandatory x)
    (MsgGovAddDenoms_RewardBand x) (MsgGovAddDenoms_CurrencyPairProviders x)
    (MsgGovAddDenoms_CurrencyDeviationThresholds x) (MsgGovAddDenoms_unknownFields x).
Definition MsgGovAddDenoms_with_DenomList (x : MsgGovAddDenoms) (v : list (option Denom)) :
    MsgGovAddDenoms :=
  mkMsgGovAddDenoms (MsgGovAddDenoms_Authority x) (MsgGovAddDenoms_Title x)
    (MsgGovAddDenoms_Description x) (MsgGovAddDenoms_Height x) v (MsgGovAddDenoms_Mandatory x)
    (MsgGovAddDenoms_RewardBand x) (MsgGovAddDenoms_CurrencyPairProviders x)
    (MsgGovAddDenoms_CurrencyDeviationThresholds x) (MsgGovAddDenoms_unknownFields x).
Definition MsgGovAddDenoms_with_Mandatory (x : MsgGovAddDenoms) (v : bool) : MsgGovAddDenoms :=
  mkMsgGovAddDenoms (MsgGovAddDenoms_Authority x) (MsgGovAddDenoms_Title x)
    (MsgGovAddDenoms_Description x) (MsgGovAddDenoms_Height x) (MsgGovAddDenoms_DenomList x) v
    (MsgGovAddDenoms_RewardBand x) (MsgGovAddDenoms_CurrencyPairProviders x)
    (MsgGovAddDenoms_CurrencyDeviationThresholds x) (MsgGovAddDenoms_unknownFields x).
Definition MsgGovAddDenoms_with_RewardBand (x : MsgGovAddDenoms) (v : string) : MsgGovAddDenoms :=
  mkMsgGovAddDenoms (MsgGovAddDenoms_Authority x) (MsgGovAddDenoms_Title x)
    (MsgGovAddDenoms_Description x) (MsgGovAddDenoms_Height x) (MsgGovAddDenoms_DenomList x)
    (MsgGovAddDenoms_Mandatory x) v (MsgGovAddDenoms_CurrencyPairProviders x)
    (MsgGovAddDenoms_CurrencyDeviationThresholds x) (MsgGovAddDenoms_unknownFields x).
Definition MsgGovAddDenoms_with_CurrencyPairProviders (x : MsgGovAddDenoms)
    (v : list (option CurrencyPairProviders)) : MsgGovAddDenoms :=
  mkMsgGovAddDenoms (MsgGovAddDenoms_Authority x) (MsgGovAddDenoms_Title x)
    (MsgGovAddDenoms_Description x) (MsgGovAddDenoms_Height x) (MsgGovAddDenoms_DenomList x)
    (MsgGovAddDenoms_Mandatory x) (MsgGovAddDenoms_RewardBand x) v
    (MsgGovAddDenoms_CurrencyDeviationThresholds x) (MsgGovAddDenoms_unknownFields x).
Definition MsgGovAddDenoms_with_CurrencyDeviationThresholds (x : MsgGovAddDenoms)
    (v : list (option CurrencyDeviationThreshold)) : MsgGovAddDenoms :=
  mkMsgGovAddDenoms (MsgGovAddDenoms_Authority x) (MsgGovAddDenoms_Title x)
    (MsgGovAddDenoms_Description x) (MsgGovAddDenoms_Height x) (MsgGovAddDenoms_DenomList x)
    (MsgGovAddDenoms_Mandatory x) (MsgGovAddDenoms_RewardBand x)
    (MsgGovAddDenoms_CurrencyPairProviders x) v (MsgGovAddDenoms_unknownFields x).
Definition MsgGovAddDenoms_GetAuthority : option MsgGovAddDenoms → string :=
  getter ""%string MsgGovAddDenoms_Authority.
Definition MsgGovAddDenoms_GetTitle : option MsgGovAddDenoms → string :=
  getter ""%string MsgGovAddDenoms_Title.
Definition MsgGovAddDenoms_GetDescription : option MsgGovAddDenoms → string :=
  getter ""%string MsgGovAddDenoms_Description.
Definition MsgGovAddDenoms_GetHeight : option MsgGovAddDenoms → Z :=
  getter 0 MsgGovAddDenoms_Height.
Definition MsgGovAddDenoms_GetDenomList : option MsgGovAddDenoms → list (option Denom) :=
  getter [] MsgGovAddDenoms_DenomList.
Definition MsgGovAddDenoms_GetMandatory : option MsgGovAddDenoms → bool :=
  getter false MsgGovAddDenoms_Mandatory.
Definition MsgGovAddDenoms_GetRewardBand : option MsgGovAddDenoms → string :=
  getter ""%string MsgGovAddDenoms_RewardBand.
Definition MsgGovAddDenoms_GetCurrencyPairProviders : option MsgGovAddDenoms → list
    (option CurrencyPairProviders) :=
  getter [] MsgGovAddDenoms_CurrencyPairProviders.
Definition MsgGovAddDenoms_GetCurrencyDeviationThresholds : option MsgGovAddDenoms → list
    (option CurrencyDeviationThreshold) :=
  getter [] MsgGovAddDenoms_CurrencyDeviationThresholds.
#[export] Instance MsgGovAddDenoms_5_list_methods : ProtoList MsgGovAddDenoms_5_list :=
  message_list mkMsgGovAddDenoms_5_list MsgGovAddDenoms_5_list_slice.
#[export] Instance MsgGovAddDenoms_8_list_methods : ProtoList MsgGovAddDenoms_8_list :=
  message_list mkMsgGovAddDenoms_8_list MsgGovAddDenoms_8_list_slice.
#[export] Instance MsgGovAddDenoms_9_list_methods : ProtoList MsgGovAddDenoms_9_list :=
  message_list mkMsgGovAddDenoms_9_list MsgGovAddDenoms_9_list_slice.
Definition MsgGovAddDenoms_Range {S} (x : option MsgGovAddDenoms)
    (f : FieldDescriptor → Value → M S bool) : M S () :=
  x ← lift (or_panic x);
  range_fields f [
    (has_string (MsgGovAddDenoms_Authority x), fd_MsgGovAddDenoms_authority, ValueOfString
       (MsgGovAddDenoms_Authority x));
    (has_string (MsgGovAddDenoms_Title x), fd_MsgGovAddDenoms_title, ValueOfString
       (MsgGovAddDenoms_Title x));
    (has_string (MsgGovAddDenoms_Description x), fd_MsgGovAddDenoms_description, ValueOfString
       (MsgGovAddDenoms_Description x));
    (has_int (MsgGovAddDenoms_Height x), fd_MsgGovAddDenoms_height, ValueOfInt64
       (MsgGovAddDenoms_Height x));
    (has_slice (MsgGovAddDenoms_DenomList x), fd_MsgGovAddDenoms_denom_list, ValueOfList
       (mkMsgGovAddDenoms_5_list (Some (MsgGovAddDenoms_DenomList x))));
    (MsgGovAddDenoms_Mandatory x, fd_MsgGovAddDenoms_mandatory, ValueOfBool
       (MsgGovAddDenoms_Mandatory x));
    (has_string (MsgGovAddDenoms_RewardBand x), fd_MsgGovAddDenoms_reward_band, ValueOfString
       (MsgGovAddDenoms_RewardBand x));
    (has_slice (MsgGovAddDenoms_CurrencyPairProviders x),
       fd_MsgGovAddDenoms_currency_pair_providers, ValueOfList
       (mkMsgGovAddDenoms_8_list (Some (MsgGovAddDenoms_CurrencyPairProviders x))));
    (has_slice (MsgGovAddDenoms_CurrencyDeviationThresholds x),
       fd_MsgGovAddDenoms_currency_deviation_thresholds, ValueOfList
       (mkMsgGovAddDenoms_9_list (Some (MsgGovAddDenoms_CurrencyDeviationThresholds x))))].
Definition MsgGovAddDenoms_Has (x : option MsgGovAddDenoms) (fd : FieldDescriptor) : outcome bool
    :=
  x ← or_panic x;
  field_switch fd [
    ("oracle.v1.MsgGovAddDenoms.authority"%string, Ok (has_string (MsgGovAddDenoms_Authority x)));
    ("oracle.v1.MsgGovAddDenoms.title"%string, Ok (has_string (MsgGovAddDenoms_Title x)));
    ("oracle.v1.MsgGovAddDenoms.description"%string,
      Ok (has_string (MsgGovAddDenoms_Description x)));
    ("oracle.v1.MsgGovAddDenoms.height"%string, Ok (has_int (MsgGovAddDenoms_Height x)));
    ("oracle.v1.MsgGovAddDenoms.denom_list"%string, Ok (has_slice (MsgGovAddDenoms_DenomList x)));
    ("oracle.v1.MsgGovAddDenoms.mandatory"%string, Ok (MsgGovAddDenoms_Mandatory x));
    ("oracle.v1.MsgGovAddDenoms.reward_band"%string,
      Ok (has_string (MsgGovAddDenoms_RewardBand x)));
    ("oracle.v1.MsgGovAddDenoms.currency_pair_providers"%string,
      Ok (has_slice (MsgGovAddDenoms_CurrencyPairProviders x)));
    ("oracle.v1.MsgGovAddDenoms.currency_deviation_thresholds"%string,
      Ok (has_slice (MsgGovAddDenoms_CurrencyDeviationThresholds x)))].
Definition MsgGovAddDenoms_Clear (x : option MsgGovAddDenoms) (fd : FieldDescriptor) : outcome
    MsgGovAddDenoms :=
  x ← or_panic x;
  field_switch fd [
    ("oracle.v1.MsgGovAddDenoms.authority"%string,
      Ok (MsgGovAddDenoms_with_Authority x ""%string));
    ("oracle.v1.MsgGovAddDenoms.title"%string, Ok (MsgGovAddDenoms_with_Title x ""%string));
    ("oracle.v1.MsgGovAddDenoms.description"%string,
      Ok (MsgGovAddDenoms_with_Description x ""%string));
    ("oracle.v1.MsgGovAddDenoms.height"%string, Ok (MsgGovAddDenoms_with_Height x 0));
    ("oracle.v1.MsgGovAddDenoms.denom_list"%string, Ok (MsgGovAddDenoms_with_DenomList x []));
    ("oracle.v1.MsgGovAddDenoms.mandatory"%string, Ok (MsgGovAddDenoms_with_Mandatory x false));
    ("oracle.v1.MsgGovAddDenoms.reward_band"%string,
      Ok (MsgGovAddDenoms_with_RewardBand x ""%string));
    ("oracle.v1.MsgGovAddDenoms.currency_pair_providers"%string,
      Ok (MsgGovAddDenoms_with_CurrencyPairProviders x []));
    ("oracle.v1.MsgGovAddDenoms.currency_deviation_thresholds"%string,
      Ok (MsgGovAddDenoms_with_CurrencyDeviationThresholds x []))].
Definition MsgGovAddDenoms_Get (x : option MsgGovAddDenoms) (fd : FieldDescriptor) : outcome Value
    :=
  x ← or_panic x;
  field_switch fd [
    ("oracle.v1.MsgGovAddDenoms.authority"%string,
      Ok (ValueOfString (MsgGovAddDenoms_Authority x)));
    ("oracle.v1.MsgGovAddDenoms.title"%string, Ok (ValueOfString (MsgGovAddDenoms_Title x)));
    ("oracle.v1.MsgGovAddDenoms.description"%string,
      Ok (ValueOfString (MsgGovAddDenoms_Description x)));
    ("oracle.v1.MsgGovAddDenoms.height"%string, Ok (ValueOfInt64 (MsgGovAddDenoms_Height x)));
    ("oracle.v1.MsgGovAddDenoms.denom_list"%string,
      Ok (get_list mkMsgGovAddDenoms_5_list (MsgGovAddDenoms_DenomList x)));
    ("oracle.v1.MsgGovAddDenoms.mandatory"%string, Ok (ValueOfBool (MsgGovAddDenoms_Mandatory x)));
    ("oracle.v1.MsgGovAddDenoms.reward_band"%string,
      Ok (ValueOfString (MsgGovAddDenoms_RewardBand x)));
    ("oracle.v1.MsgGovAddDenoms.currency_pair_providers"%string,
      Ok (get_list mkMsgGovAddDenoms_8_list (MsgGovAddDenoms_CurrencyPairProviders x)));
    ("oracle.v1.MsgGovAddDenoms.currency_deviation_thresholds"%string,
      Ok (get_list mkMsgGovAddDenoms_9_list (MsgGovAddDenoms_CurrencyDeviationThresholds x)))].
Definition MsgGovAddDenoms_Set (x : option MsgGovAddDenoms) (fd : FieldDescriptor) (value : Value)
    : outcome MsgGovAddDenoms :=
  x ← or_panic x;
  field_switch fd [
    ("oracle.v1.MsgGovAddDenoms.authority"%string,
      set_string (MsgGovAddDenoms_with_Authority x) value);
    ("oracle.v1.MsgGovAddDenoms.title"%string, set_string (MsgGovAddDenoms_with_Title x) value);
    ("oracle.v1.MsgGovAddDenoms.description"%string,
      set_string (MsgGovAddDenoms_with_Description x) value);
    ("oracle.v1.MsgGovAddDenoms.height"%string, set_int64 (MsgGovAddDenoms_with_Height x) value);
    ("oracle.v1.MsgGovAddDenoms.denom_list"%string,
      set_list MsgGovAddDenoms_5_list_slice (MsgGovAddDenoms_with_DenomList x) value);
    ("oracle.v1.MsgGovAddDenoms.mandatory"%string,
      set_bool (MsgGovAddDenoms_with_Mandatory x) value);
    ("oracle.v1.MsgGovAddDenoms.reward_band"%string,
      set_string (MsgGovAddDenoms_with_RewardBand x) value);
    ("oracle.v1.MsgGovAddDenoms.currency_pair_providers"%string,
      set_list MsgGovAddDenoms_8_list_slice (MsgGovAddDenoms_with_CurrencyPairProviders x) value);
    ("oracle.v1.MsgGovAddDenoms.currency_deviation_thresholds"%string,
      set_list MsgGovAddDenoms_9_list_slice (MsgGovAddDenoms_with_CurrencyDeviationThresholds x)
        value)].
Definition MsgGovAddDenoms_Mutable (x : option MsgGovAddDenoms) (fd : FieldDescriptor) : outcome
    (Value * MsgGovAddDenoms) :=
  x ← or_panic x;
  field_switch fd [
    ("oracle.v1.MsgGovAddDenoms.denom_list"%string,
      mutable_list mkMsgGovAddDenoms_5_list x (MsgGovAddDenoms_DenomList x));
    ("oracle.v1.MsgGovAddDenoms.currency_pair_providers"%string,
      mutable_list mkMsgGovAddDenoms_8_list x (MsgGovAddDenoms_CurrencyPairProviders x));
    ("oracle.v1.MsgGovAddDenoms.currency_deviation_thresholds"%string,
      mutable_list mkMsgGovAddDenoms_9_list x (MsgGovAddDenoms_CurrencyDeviationThresholds x));
    ("oracle.v1.MsgGovAddDenoms.authority"%string, Panic);
    ("oracle.v1.MsgGovAddDenoms.title"%string, Panic);
    ("oracle.v1.MsgGovAddDenoms.description"%string, Panic);
    ("oracle.v1.MsgGovAddDenoms.height"%string, Panic);
    ("oracle.v1.MsgGovAddDenoms.mandatory"%string, Panic);
    ("oracle.v1.MsgGovAddDenoms.reward_band"%string, Panic)].
Definition MsgGovAddDenoms_NewField (fd : FieldDescriptor) : outcome Value :=
  field_switch fd [
    ("oracle.v1.MsgGovAddDenoms.authority"%string, Ok (ValueOfString ""%string));
    ("oracle.v1.MsgGovAddDenoms.title"%string, Ok (ValueOfString ""%string));
    ("oracle.v1.MsgGovAddDenoms.description"%string, Ok (ValueOfString ""%string));
    ("oracle.v1.MsgGovAddDenoms.height"%string, Ok (ValueOfInt64 0));
    ("oracle.v1.MsgGovAddDenoms.denom_list"%string, new_list mkMsgGovAddDenoms_5_list);
    ("oracle.v1.MsgGovAddDenoms.mandatory"%string, Ok (ValueOfBool false));
    ("oracle.v1.MsgGovAddDenoms.reward_band"%string, Ok (ValueOfString ""%string));
    ("oracle.v1.MsgGovAddDenoms.currency_pair_providers"%string,
      new_list mkMsgGovAddDenoms_8_list);
    ("oracle.v1.MsgGovAddDenoms.currency_deviation_thresholds"%string,
      new_list mkMsgGovAddDenoms_9_list)].
Definition MsgGovAddDenoms_set_unknown (x : MsgGovAddDenoms) (fields : bytes) : MsgGovAddDenoms :=
  mkMsgGovAddDenoms (MsgGovAddDenoms_Authority x) (MsgGovAddDenoms_Title x)
    (MsgGovAddDenoms_Description x) (MsgGovAddDenoms_Height x) (MsgGovAddDenoms_DenomList x)
    (MsgGovAddDenoms_Mandatory x) (MsgGovAddDenoms_RewardBand x)
    (MsgGovAddDenoms_CurrencyPairProviders x) (MsgGovAddDenoms_CurrencyDeviationThresholds x)
    fields.
#[export] Instance MsgGovAddDenoms_reflect : MessageReflect MsgGovAddDenoms := {|
  Range S := MsgGovAddDenoms_Range;
  Has := MsgGovAddDenoms_Has;
  Clear := MsgGovAddDenoms_Clear;
  Get := MsgGovAddDenoms_Get;
  Set_ := MsgGovAddDenoms_Set;
  Mutable := MsgGovAddDenoms_Mutable;
  NewField := MsgGovAddDenoms_NewField;
  Descriptor := MsgGovAddDenoms_descriptor;
  GetUnknown x := x ← or_panic x; Ok (MsgGovAddDenoms_unknownFields x);
  SetUnknown x fields := x ← or_panic x; Ok (MsgGovAddDenoms_set_unknown x fields);
|}.

(** [MsgGovAddDenomsResponse] *)

Definition MsgGovAddDenomsResponse_descriptor : list FieldDescriptor := [].
Definition MsgGovAddDenomsResponse_Range {S} (x : option MsgGovAddDenomsResponse)
    (f : FieldDescriptor → Value → M S bool) : M S () :=
  mret ().
Definition MsgGovAddDenomsResponse_Has (x : option MsgGovAddDenomsResponse) (fd : FieldDescriptor)
    : outcome bool :=
  field_switch fd [].
Definition MsgGovAddDenomsResponse_Clear (x : option MsgGovAddDenomsResponse)
    (fd : FieldDescriptor) : outcome MsgGovAddDenomsResponse :=
  field_switch fd [].
Definition MsgGovAddDenomsResponse_Get (x : option MsgGovAddDenomsResponse) (fd : FieldDescriptor)
    : outcome Value :=
  field_switch fd [].
Definition MsgGovAddDenomsResponse_Set (x : option MsgGovAddDenomsResponse) (fd : FieldDescriptor)
    (value : Value) : outcome MsgGovAddDenomsResponse :=
  field_switch fd [].
Definition MsgGovAddDenomsResponse_Mutable (x : option MsgGovAddDenomsResponse)
    (fd : FieldDescriptor) : outcome (Value * MsgGovAddDenomsResponse) :=
  field_switch fd [].
Definition MsgGovAddDenomsResponse_NewField (fd : FieldDescriptor) : outcome Value :=
  field_switch fd [].
Definition MsgGovAddDenomsResponse_set_unknown (x : MsgGovAddDenomsResponse) (fields : bytes) : MsgGovAddDenomsResponse :=
  mkMsgGovAddDenomsResponse fields.
#[export] Instance MsgGovAddDenomsResponse_reflect : MessageReflect MsgGovAddDenomsResponse := {|
  Range S := MsgGovAddDenomsResponse_Range;
  Has := MsgGovAddDenomsResponse_Has;
  Clear := MsgGovAddDenomsResponse_Clear;
  Get := MsgGovAddDenomsResponse_Get;
  Set_ := MsgGovAddDenomsResponse_Set;
  Mutable := MsgGovAddDenomsResponse_Mutable;
  NewField := MsgGovAddDenomsResponse_NewField;
  Descriptor := MsgGovAddDenomsResponse_descriptor;
  GetUnknown x := x ← or_panic x; Ok (MsgGovAddDenomsResponse_unknownFields x);
  SetUnknown x fields := x ← or_panic x; Ok (MsgGovAddDenomsResponse_set_unknown x fields);
|}.

(** [MsgGovRemoveCurrencyPairProviders] *)

Definition fd_MsgGovRemoveCurrencyPairProviders_authority : FieldDescriptor :=
  mkField "oracle.v1.MsgGovRemoveCurrencyPairProviders.authority" 1 StringKind false.
Definition fd_MsgGovRemoveCurrencyPairProviders_title : FieldDescriptor :=
  mkField "oracle.v1.MsgGovRemoveCurrencyPairProviders.title" 2 StringKind false.
Definition fd_MsgGovRemoveCurrencyPairProviders_description : FieldDescriptor :=
  mkField "oracle.v1.MsgGovRemoveCurrencyPairProviders.description" 3 StringKind false.
Definition fd_MsgGovRemoveCurrencyPairProviders_height : FieldDescriptor :=
  mkField "oracle.v1.MsgGovRemoveCurrencyPairProviders.height" 4 Int64Kind false.
Definition fd_MsgGovRemoveCurrencyPairProviders_currency_pair_providers : FieldDescriptor :=
  mkField "oracle.v1.MsgGovRemoveCurrencyPairProviders.currency_pair_providers" 5 MessageKind true.
Definition MsgGovRemoveCurrencyPairProviders_descriptor : list FieldDescriptor := [
  fd_MsgGovRemoveCurrencyPairProviders_authority; fd_MsgGovRemoveCurrencyPairProviders_title;
  fd_MsgGovRemoveCurrencyPairProviders_description; fd_MsgGovRemoveCurrencyPairProviders_height;
  fd_MsgGovRemoveCurrencyPairProviders_currency_pair_providers].
Definition MsgGovRemoveCurrencyPairProviders_with_Authority (x : MsgGovRemoveCurrencyPairProviders)
    (v : string) : MsgGovRemoveCurrencyPairProviders :=
  mkMsgGovRemoveCurrencyPairProviders v (MsgGovRemoveCurrencyPairProviders_Title x)
    (MsgGovRemoveCurrencyPairProviders_Description x) (MsgGovRemoveCurrencyPairProviders_Height x)
    (MsgGovRemoveCurrencyPairProviders_CurrencyPairProviders x)
    (MsgGovRemoveCurrencyPairProviders_unknownFields x).
Definition MsgGovRemoveCurrencyPairProviders_with_Title (x : MsgGovRemoveCurrencyPairProviders)
    (v : string) : MsgGovRemoveCurrencyPairProviders :=
  mkMsgGovRemoveCurrencyPairProviders (MsgGovRemoveCurrencyPairProviders_Authority x) v
    (MsgGovRemoveCurrencyPairProviders_Description x) (MsgGovRemoveCurrencyPairProviders_Height x)
    (MsgGovRemoveCurrencyPairProviders_CurrencyPairProviders x)
    (MsgGovRemoveCurrencyPairProviders_unknownFields x).
Definition MsgGovRemoveCurrencyPairProviders_with_Description
    (x : MsgGovRemoveCurrencyPairProviders) (v : string) : MsgGovRemoveCurrencyPairProviders :=
  mkMsgGovRemoveCurrencyPairProviders (MsgGovRemoveCurrencyPairProviders_Authority x)
    (MsgGovRemoveCurrencyPairProviders_Title x) v (MsgGovRemoveCurrencyPairProviders_Height x)
    (MsgGovRemoveCurrencyPairProviders_CurrencyPairProviders x)
    (MsgGovRemoveCurrencyPairProviders_unknownFields x).
Definition MsgGovRemoveCurrencyPairProviders_with_Height (x : MsgGovRemoveCurrencyPairProviders)
    (v : Z) : MsgGovRemoveCurrencyPairProviders :=
  mkMsgGovRemoveCurrencyPairProviders (MsgGovRemoveCurrencyPairProviders_Authority x)
    (MsgGovRemoveCurrencyPairProviders_Title x) (MsgGovRemoveCurrencyPairProviders_Description x)
    v (MsgGovRemoveCurrencyPairProviders_CurrencyPairProviders x)
    (MsgGovRemoveCurrencyPairProviders_unknownFields x).
Definition MsgGovRemoveCurrencyPairProviders_with_CurrencyPairProviders
    (x : MsgGovRemoveCurrencyPairProviders) (v : list (option CurrencyPairProviders)) :
    MsgGovRemoveCurrencyPairProviders :=
  mkMsgGovRemoveCurrencyPairProviders (MsgGovRemoveCurrencyPairProviders_Authority x)
    (MsgGovRemoveCurrencyPairProviders_Title x) (MsgGovRemoveCurrencyPairProviders_Description x)
    (MsgGovRemoveCurrencyPairProviders_Height x) v
    (MsgGovRemoveCurrencyPairProviders_unknownFields x).
Definition MsgGovRemoveCurrencyPairProviders_GetAuthority : option
    MsgGovRemoveCurrencyPairProviders → string :=
  getter ""%string MsgGovRemoveCurrencyPairProviders_Authority.
Definition MsgGovRemoveCurrencyPairProviders_GetTitle : option MsgGovRemoveCurrencyPairProviders →
    string :=
  getter ""%string MsgGovRemoveCurrencyPairProviders_Title.
Definition MsgGovRemoveCurrencyPairProviders_GetDescription : option
    MsgGovRemoveCurrencyPairProviders → string :=
  getter ""%string MsgGovRemoveCurrencyPairProviders_Description.
Definition MsgGovRemoveCurrencyPairProviders_GetHeight : option MsgGovRemoveCurrencyPairProviders →
    Z :=
  getter 0 MsgGovRemoveCurrencyPairProviders_Height.
Definition MsgGovRemoveCurrencyPairProviders_GetCurrencyPairProviders : option
    MsgGovRemoveCurrencyPairProviders → list (option CurrencyPairProviders) :=
  getter [] MsgGovRemoveCurrencyPairProviders_CurrencyPairProviders.
#[export] Instance MsgGovRemoveCurrencyPairProviders_5_list_methods : ProtoList MsgGovRemoveCurrencyPairProviders_5_list :=
  message_list mkMsgGovRemoveCurrencyPairProviders_5_list MsgGovRemoveCurrencyPairProviders_5_list_slice.
Definition MsgGovRemoveCurrencyPairProviders_Range {S}
    (x : option MsgGovRemoveCurrencyPairProviders) (f : FieldDescriptor → Value → M S bool) : M S
    () :=
  x ← lift (or_panic x);
  range_fields f [
    (has_string (MsgGovRemoveCurrencyPairProviders_Authority x),
       fd_MsgGovRemoveCurrencyPairProviders_authority, ValueOfString
       (MsgGovRemoveCurrencyPairProviders_Authority x));
    (has_string (MsgGovRemoveCurrencyPairProviders_Title x),
       fd_MsgGovRemoveCurrencyPairProviders_title, ValueOfString
       (MsgGovRemoveCurrencyPairProviders_Title x));
    (has_string (MsgGovRemoveCurrencyPairProviders_Description x),
       fd_MsgGovRemoveCurrencyPairProviders_description, ValueOfString
       (MsgGovRemoveCurrencyPairProviders_Description x));
    (has_int (MsgGovRemoveCurrencyPairProviders_Height x),
       fd_MsgGovRemoveCurrencyPairProviders_height, ValueOfInt64
       (MsgGovRemoveCurrencyPairProviders_Height x));
    (has_slice (MsgGovRemoveCurrencyPairProviders_CurrencyPairProviders x),
       fd_MsgGovRemoveCurrencyPairProviders_currency_pair_providers, ValueOfList
       (mkMsgGovRemoveCurrencyPairProviders_5_list (Some (MsgGovRemoveCurrencyPairProviders_CurrencyPairProviders x))))].
Definition MsgGovRemoveCurrencyPairProviders_Has (x : option MsgGovRemoveCurrencyPairProviders)
    (fd : FieldDescriptor) : outcome bool :=
  x ← or_panic x;
  field_switch fd [
    ("oracle.v1.MsgGovRemoveCurrencyPairProviders.authority"%string,
      Ok (has_string (MsgGovRemoveCurrencyPairProviders_Authority x)));
    ("oracle.v1.MsgGovRemoveCurrencyPairProviders.title"%string,
      Ok (has_string (MsgGovRemoveCurrencyPairProviders_Title x)));
    ("oracle.v1.MsgGovRemoveCurrencyPairProviders.description"%string,
      Ok (has_string (MsgGovRemoveCurrencyPairProviders_Description x)));
    ("oracle.v1.MsgGovRemoveCurrencyPairProviders.height"%string,
      Ok (has_int (MsgGovRemoveCurrencyPairProviders_Height x)));
    ("oracle.v1.MsgGovRemoveCurrencyPairProviders.currency_pair_providers"%string,
      Ok (has_slice (MsgGovRemoveCurrencyPairProviders_CurrencyPairProviders x)))].
Definition MsgGovRemoveCurrencyPairProviders_Clear (x : option MsgGovRemoveCurrencyPairProviders)
    (fd : FieldDescriptor) : outcome MsgGovRemoveCurrencyPairProviders :=
  x ← or_panic x;
  field_switch fd [
    ("oracle.v1.MsgGovRemoveCurrencyPairProviders.authority"%string,
      Ok (MsgGovRemoveCurrencyPairProviders_with_Authority x ""%string));
    ("oracle.v1.MsgGovRemoveCurrencyPairProviders.title"%string,
      Ok (MsgGovRemoveCurrencyPairProviders_with_Title x ""%string));
    ("oracle.v1.MsgGovRemoveCurrencyPairProviders.description"%string,
      Ok (MsgGovRemoveCurrencyPairProviders_with_Description x ""%string));
    ("oracle.v1.MsgGovRemoveCurrencyPairProviders.height"%string,
      Ok (MsgGovRemoveCurrencyPairProviders_with_Height x 0));
    ("oracle.v1.MsgGovRemoveCurrencyPairProviders.currency_pair_providers"%string,
      Ok (MsgGovRemoveCurrencyPairProviders_with_CurrencyPairProviders x []))].
Definition MsgGovRemoveCurrencyPairProviders_Get (x : option MsgGovRemoveCurrencyPairProviders)
    (fd : FieldDescriptor) : outcome Value :=
  x ← or_panic x;
  field_switch fd [
    ("oracle.v1.MsgGovRemoveCurrencyPairProviders.authority"%string,
      Ok (ValueOfString (MsgGovRemoveCurrencyPairProviders_Authority x)));
    ("oracle.v1.MsgGovRemoveCurrencyPairProviders.title"%string,
      Ok (ValueOfString (MsgGovRemoveCurrencyPairProviders_Title x)));
    ("oracle.v1.MsgGovRemoveCurrencyPairProviders.description"%string,
      Ok (ValueOfString (MsgGovRemoveCurrencyPairProviders_Description x)));
    ("oracle.v1.MsgGovRemoveCurrencyPairProviders.height"%string,
      Ok (ValueOfInt64 (MsgGovRemoveCurrencyPairProviders_Height x)));
    ("oracle.v1.MsgGovRemoveCurrencyPairProviders.currency_pair_providers"%string,
      Ok
        (get_list mkMsgGovRemoveCurrencyPairProviders_5_list (MsgGovRemoveCurrencyPairProviders_CurrencyPairProviders x)))].
Definition MsgGovRemoveCurrencyPairProviders_Set (x : option MsgGovRemoveCurrencyPairProviders)
    (fd : FieldDescriptor) (value : Value) : outcome MsgGovRemoveCurrencyPairProviders :=
  x ← or_panic x;
  field_switch fd [
    ("oracle.v1.MsgGovRemoveCurrencyPairProviders.authority"%string,
      set_string (MsgGovRemoveCurrencyPairProviders_with_Authority x) value);
    ("oracle.v1.MsgGovRemoveCurrencyPairProviders.title"%string,
      set_string (MsgGovRemoveCurrencyPairProviders_with_Title x) value);
    ("oracle.v1.MsgGovRemoveCurrencyPairProviders.description"%string,
      set_string (MsgGovRemoveCurrencyPairProviders_with_Description x) value);
    ("oracle.v1.MsgGovRemoveCurrencyPairProviders.height"%string,
      set_int64 (MsgGovRemoveCurrencyPairProviders_with_Height x) value);
    ("oracle.v1.MsgGovRemoveCurrencyPairProviders.currency_pair_providers"%string,
      set_list MsgGovRemoveCurrencyPairProviders_5_list_slice
        (MsgGovRemoveCurrencyPairProviders_with_CurrencyPairProviders x) value)].
Definition MsgGovRemoveCurrencyPairProviders_Mutable (x : option MsgGovRemoveCurrencyPairProviders)
    (fd : FieldDescriptor) : outcome (Value * MsgGovRemoveCurrencyPairProviders) :=
  x ← or_panic x;
  field_switch fd [
    ("oracle.v1.MsgGovRemoveCurrencyPairProviders.currency_pair_providers"%string,
      mutable_list mkMsgGovRemoveCurrencyPairProviders_5_list x
        (MsgGovRemoveCurrencyPairProviders_CurrencyPairProviders x));
    ("oracle.v1.MsgGovRemoveCurrencyPairProviders.authority"%string, Panic);
    ("oracle.v1.MsgGovRemoveCurrencyPairProviders.title"%string, Panic);
    ("oracle.v1.MsgGovRemoveCurrencyPairProviders.description"%string, Panic);
    ("oracle.v1.MsgGovRemoveCurrencyPairProviders.height"%string, Panic)].
Definition MsgGovRemoveCurrencyPairProviders_NewField (fd : FieldDescriptor) : outcome Value :=
  field_switch fd [
    ("oracle.v1.MsgGovRemoveCurrencyPairProviders.authority"%string, Ok (ValueOfString ""%string));
    ("oracle.v1.MsgGovRemoveCurrencyPairProviders.title"%string, Ok (ValueOfString ""%string));
    ("oracle.v1.MsgGovRemoveCurrencyPairProviders.description"%string,
      Ok (ValueOfString ""%string));
    ("oracle.v1.MsgGovRemoveCurrencyPairProviders.height"%string, Ok (ValueOfInt64 0));
    ("oracle.v1.MsgGovRemoveCurrencyPairProviders.currency_pair_providers"%string,
      new_list mkMsgGovRemoveCurrencyPairProviders_5_list)].
Definition MsgGovRemoveCurrencyPairProviders_set_unknown (x : MsgGovRemoveCurrencyPairProviders) (fields : bytes) : MsgGovRemoveCurrencyPairProviders :=
  mkMsgGovRemoveCurrencyPairProviders (MsgGovRemoveCurrencyPairProviders_Authority x)
    (MsgGovRemoveCurrencyPairProviders_Title x) (MsgGovRemoveCurrencyPairProviders_Description x)
    (MsgGovRemoveCurrencyPairProviders_Height x)
    (MsgGovRemoveCurrencyPairProviders_CurrencyPairProviders x) fields.
#[export] Instance MsgGovRemoveCurrencyPairProviders_reflect : MessageReflect MsgGovRemoveCurrencyPairProviders := {|
  Range S := MsgGovRemoveCurrencyPairProviders_Range;
  Has := MsgGovRemoveCurrencyPairProviders_Has;
  Clear := MsgGovRemoveCurrencyPairProviders_Clear;
  Get := MsgGovRemoveCurrencyPairProviders_Get;
  Set_ := MsgGovRemoveCurrencyPairProviders_Set;
  Mutable := MsgGovRemoveCurrencyPairProviders_Mutable;
  NewField := MsgGovRemoveCurrencyPairProviders_NewField;
  Descriptor := MsgGovRemoveCurrencyPairProviders_descriptor;
  GetUnknown x := x ← or_panic x; Ok (MsgGovRemoveCurrencyPairProviders_unknownFields x);
  SetUnknown x fields := x ← or_panic x; Ok (MsgGovRemoveCurrencyPairProviders_set_unknown x fields);
|}.

(** [MsgGovRemoveCurrencyPairProvidersResponse] *)

Definition MsgGovRemoveCurrencyPairProvidersResponse_descriptor : list FieldDescriptor := [].
Definition MsgGovRemoveCurrencyPairProvidersResponse_Range {S}
    (x : option MsgGovRemoveCurrencyPairProvidersResponse) (f : FieldDescriptor → Value → M S bool)
    : M S () :=
  mret ().
Definition MsgGovRemoveCurrencyPairProvidersResponse_Has
    (x : option MsgGovRemoveCurrencyPairProvidersResponse) (fd : FieldDescriptor) : outcome bool :=
  field_switch fd [].
Definition MsgGovRemoveCurrencyPairProvidersResponse_Clear
    (x : option MsgGovRemoveCurrencyPairProvidersResponse) (fd : FieldDescriptor) : outcome
    MsgGovRemoveCurrencyPairProvidersResponse :=
  field_switch fd [].
Definition MsgGovRemoveCurrencyPairProvidersResponse_Get
    (x : option MsgGovRemoveCurrencyPairProvidersResponse) (fd : FieldDescriptor) : outcome Value
    :=
  field_switch fd [].
Definition MsgGovRemoveCurrencyPairProvidersResponse_Set
    (x : option MsgGovRemoveCurrencyPairProvidersResponse) (fd : FieldDescriptor) (value : Value) :
    outcome MsgGovRemoveCurrencyPairProvidersResponse :=
  field_switch fd [].
Definition MsgGovRemoveCurrencyPairProvidersResponse_Mutable
    (x : option MsgGovRemoveCurrencyPairProvidersResponse) (fd : FieldDescriptor) : outcome
    (Value * MsgGovRemoveCurrencyPairProvidersResponse) :=
  field_switch fd [].
Definition MsgGovRemoveCurrencyPairProvidersResponse_NewField (fd : FieldDescriptor) : outcome
    Value :=
  field_switch fd [].
Definition MsgGovRemoveCurrencyPairProvidersResponse_set_unknown (x : MsgGovRemoveCurrencyPairProvidersResponse) (fields : bytes) : MsgGovRemoveCurrencyPairProvidersResponse :=
  mkMsgGovRemoveCurrencyPairProvidersResponse fields.
#[export] Instance MsgGovRemoveCurrencyPairProvidersResponse_reflect : MessageReflect MsgGovRemoveCurrencyPairProvidersResponse := {|
  Range S := MsgGovRemoveCurrencyPairProvidersResponse_Range;
  Has := MsgGovRemoveCurrencyPairProvidersResponse_Has;
  Clear := MsgGovRemoveCurrencyPairProvidersResponse_Clear;
  Get := MsgGovRemoveCurrencyPairProvidersResponse_Get;
  Set_ := MsgGovRemoveCurrencyPairProvidersResponse_Set;
  Mutable := MsgGovRemoveCurrencyPairProvidersResponse_Mutable;
  NewField := MsgGovRemoveCurrencyPairProvidersResponse_NewField;
  Descriptor := MsgGovRemoveCurrencyPairProvidersResponse_descriptor;
  GetUnknown x := x ← or_panic x; Ok (MsgGovRemoveCurrencyPairProvidersResponse_unknownFields x);
  SetUnknown x fields := x ← or_panic x; Ok (MsgGovRemoveCurrencyPairProvidersResponse_set_unknown x fields);
|}.

(** [MsgGovRemoveCurrencyDeviationThresholds] *)

Definition fd_MsgGovRemoveCurrencyDeviationThresholds_authority : FieldDescriptor :=
  mkField "oracle.v1.MsgGovRemoveCurrencyDeviationThresholds.authority" 1 StringKind false.
Definition fd_MsgGovRemoveCurrencyDeviationThresholds_title : FieldDescriptor :=
  mkField "oracle.v1.MsgGovRemoveCurrencyDeviationThresholds.title" 2 StringKind false.
Definition fd_MsgGovRemoveCurrencyDeviationThresholds_description : FieldDescriptor :=
  mkField "oracle.v1.MsgGovRemoveCurrencyDeviationThresholds.description" 3 StringKind false.
Definition fd_MsgGovRemoveCurrencyDeviationThresholds_height : FieldDescriptor :=
  mkField "oracle.v1.MsgGovRemoveCurrencyDeviationThresholds.height" 4 Int64Kind false.
Definition fd_MsgGovRemoveCurrencyDeviationThresholds_currencies : FieldDescriptor :=
  mkField "oracle.v1.MsgGovRemoveCurrencyDeviationThresholds.currencies" 5 StringKind true.
Definition MsgGovRemoveCurrencyDeviationThresholds_descriptor : list FieldDescriptor := [
  fd_MsgGovRemoveCurrencyDeviationThresholds_authority;
  fd_MsgGovRemoveCurrencyDeviationThresholds_title;
  fd_MsgGovRemoveCurrencyDeviationThresholds_description;
  fd_MsgGovRemoveCurrencyDeviationThresholds_height;
  fd_MsgGovRemoveCurrencyDeviationThresholds_currencies].
Definition MsgGovRemoveCurrencyDeviationThresholds_with_Authority
    (x : MsgGovRemoveCurrencyDeviationThresholds) (v : string) :
    MsgGovRemoveCurrencyDeviationThresholds :=
  mkMsgGovRemoveCurrencyDeviationThresholds v (MsgGovRemoveCurrencyDeviationThresholds_Title x)
    (MsgGovRemoveCurrencyDeviationThresholds_Description x)
    (MsgGovRemoveCurrencyDeviationThresholds_Height x)
    (MsgGovRemoveCurrencyDeviationThresholds_Currencies x)
    (MsgGovRemoveCurrencyDeviationThresholds_unknownFields x).
Definition MsgGovRemoveCurrencyDeviationThresholds_with_Title
    (x : MsgGovRemoveCurrencyDeviationThresholds) (v : string) :
    MsgGovRemoveCurrencyDeviationThresholds :=
  mkMsgGovRemoveCurrencyDeviationThresholds (MsgGovRemoveCurrencyDeviationThresholds_Authority x)
    v (MsgGovRemoveCurrencyDeviationThresholds_Description x)
    (MsgGovRemoveCurrencyDeviationThresholds_Height x)
    (MsgGovRemoveCurrencyDeviationThresholds_Currencies x)
    (MsgGovRemoveCurrencyDeviationThresholds_unknownFields x).
Definition MsgGovRemoveCurrencyDeviationThresholds_with_Description
    (x : MsgGovRemoveCurrencyDeviationThresholds) (v : string) :
    MsgGovRemoveCurrencyDeviationThresholds :=
  mkMsgGovRemoveCurrencyDeviationThresholds (MsgGovRemoveCurrencyDeviationThresholds_Authority x)
    (MsgGovRemoveCurrencyDeviationThresholds_Title x) v
    (MsgGovRemoveCurrencyDeviationThresholds_Height x)
    (MsgGovRemoveCurrencyDeviationThresholds_Currencies x)
    (MsgGovRemoveCurrencyDeviationThresholds_unknownFields x).
Definition MsgGovRemoveCurrencyDeviationThresholds_with_Height
    (x : MsgGovRemoveCurrencyDeviationThresholds) (v : Z) : MsgGovRemoveCurrencyDeviationThresholds
    :=
  mkMsgGovRemoveCurrencyDeviationThresholds (MsgGovRemoveCurrencyDeviationThresholds_Authority x)
    (MsgGovRemoveCurrencyDeviationThresholds_Title x)
    (MsgGovRemoveCurrencyDeviationThresholds_Description x) v
    (MsgGovRemoveCurrencyDeviationThresholds_Currencies x)
    (MsgGovRemoveCurrencyDeviationThresholds_unknownFields x).
Definition MsgGovRemoveCurrencyDeviationThresholds_with_Currencies
    (x : MsgGovRemoveCurrencyDeviationThresholds) (v : list string) :
    MsgGovRemoveCurrencyDeviationThresholds :=
  mkMsgGovRemoveCurrencyDeviationThresholds (MsgGovRemoveCurrencyDeviationThresholds_Authority x)
    (MsgGovRemoveCurrencyDeviationThresholds_Title x)
    (MsgGovRemoveCurrencyDeviationThresholds_Description x)
    (MsgGovRemoveCurrencyDeviationThresholds_Height x) v
    (MsgGovRemoveCurrencyDeviationThresholds_unknownFields x).
Definition MsgGovRemoveCurrencyDeviationThresholds_GetAuthority : option
    MsgGovRemoveCurrencyDeviationThresholds → string :=
  getter ""%string MsgGovRemoveCurrencyDeviationThresholds_Authority.
Definition MsgGovRemoveCurrencyDeviationThresholds_GetTitle : option
    MsgGovRemoveCurrencyDeviationThresholds → string :=
  getter ""%string MsgGovRemoveCurrencyDeviationThresholds_Title.
Definition MsgGovRemoveCurrencyDeviationThresholds_GetDescription : option
    MsgGovRemoveCurrencyDeviationThresholds → string :=
  getter ""%string MsgGovRemoveCurrencyDeviationThresholds_Description.
Definition MsgGovRemoveCurrencyDeviationThresholds_GetHeight : option
    MsgGovRemoveCurrencyDeviationThresholds → Z :=
  getter 0 MsgGovRemoveCurrencyDeviationThresholds_Height.
Definition MsgGovRemoveCurrencyDeviationThresholds_GetCurrencies : option
    MsgGovRemoveCurrencyDeviationThresholds → list string :=
  getter [] MsgGovRemoveCurrencyDeviationThresholds_Currencies.
#[export] Instance MsgGovRemoveCurrencyDeviationThresholds_5_list_methods : ProtoList MsgGovRemoveCurrencyDeviationThresholds_5_list :=
  string_list mkMsgGovRemoveCurrencyDeviationThresholds_5_list MsgGovRemoveCurrencyDeviationThresholds_5_list_slice.
Definition MsgGovRemoveCurrencyDeviationThresholds_Range {S}
    (x : option MsgGovRemoveCurrencyDeviationThresholds) (f : FieldDescriptor → Value → M S bool) :
    M S () :=
  x ← lift (or_panic x);
  range_fields f [
    (has_string (MsgGovRemoveCurrencyDeviationThresholds_Authority x),
       fd_MsgGovRemoveCurrencyDeviationThresholds_authority, ValueOfString
       (MsgGovRemoveCurrencyDeviationThresholds_Authority x));
    (has_string (MsgGovRemoveCurrencyDeviationThresholds_Title x),
       fd_MsgGovRemoveCurrencyDeviationThresholds_title, ValueOfString
       (MsgGovRemoveCurrencyDeviationThresholds_Title x));
    (has_string (MsgGovRemoveCurrencyDeviationThresholds_Description x),
       fd_MsgGovRemoveCurrencyDeviationThresholds_description, ValueOfString
       (MsgGovRemoveCurrencyDeviationThresholds_Description x));
    (has_int (MsgGovRemoveCurrencyDeviationThresholds_Height x),
       fd_MsgGovRemoveCurrencyDeviationThresholds_height, ValueOfInt64
       (MsgGovRemoveCurrencyDeviationThresholds_Height x));
    (has_slice (MsgGovRemoveCurrencyDeviationThresholds_Currencies x),
       fd_MsgGovRemoveCurrencyDeviationThresholds_currencies, ValueOfList
       (mkMsgGovRemoveCurrencyDeviationThresholds_5_list (Some (MsgGovRemoveCurrencyDeviationThresholds_Currencies x))))].
Definition MsgGovRemoveCurrencyDeviationThresholds_Has
    (x : option MsgGovRemoveCurrencyDeviationThresholds) (fd : FieldDescriptor) : outcome bool :=
  x ← or_panic x;
  field_switch fd [
    ("oracle.v1.MsgGovRemoveCurrencyDeviationThresholds.authority"%string,
      Ok (has_string (MsgGovRemoveCurrencyDeviationThresholds_Authority x)));
    ("oracle.v1.MsgGovRemoveCurrencyDeviationThresholds.title"%string,
      Ok (has_string (MsgGovRemoveCurrencyDeviationThresholds_Title x)));
    ("oracle.v1.MsgGovRemoveCurrencyDeviationThresholds.description"%string,
      Ok (has_string (MsgGovRemoveCurrencyDeviationThresholds_Description x)));
    ("oracle.v1.MsgGovRemoveCurrencyDeviationThresholds.height"%string,
      Ok (has_int (MsgGovRemoveCurrencyDeviationThresholds_Height x)));
    ("oracle.v1.MsgGovRemoveCurrencyDeviationThresholds.currencies"%string,
      Ok (has_slice (MsgGovRemoveCurrencyDeviationThresholds_Currencies x)))].
Definition MsgGovRemoveCurrencyDeviationThresholds_Clear
    (x : option MsgGovRemoveCurrencyDeviationThresholds) (fd : FieldDescriptor) : outcome
    MsgGovRemoveCurrencyDeviationThresholds :=
  x ← or_panic x;
  field_switch fd [
    ("oracle.v1.MsgGovRemoveCurrencyDeviationThresholds.authority"%string,
      Ok (MsgGovRemoveCurrencyDeviationThresholds_with_Authority x ""%string));
    ("oracle.v1.MsgGovRemoveCurrencyDeviationThresholds.title"%string,
      Ok (MsgGovRemoveCurrencyDeviationThresholds_with_Title x ""%string));
    ("oracle.v1.MsgGovRemoveCurrencyDeviationThresholds.description"%string,
      Ok (MsgGovRemoveCurrencyDeviationThresholds_with_Description x ""%string));
    ("oracle.v1.MsgGovRemoveCurrencyDeviationThresholds.height"%string,
      Ok (MsgGovRemoveCurrencyDeviationThresholds_with_Height x 0));
    ("oracle.v1.MsgGovRemoveCurrencyDeviationThresholds.currencies"%string,
      Ok (MsgGovRemoveCurrencyDeviationThresholds_with_Currencies x []))].
Definition MsgGovRemoveCurrencyDeviationThresholds_Get
    (x : option MsgGovRemoveCurrencyDeviationThresholds) (fd : FieldDescriptor) : outcome Value :=
  x ← or_panic x;
  field_switch fd [
    ("oracle.v1.MsgGovRemoveCurrencyDeviationThresholds.authority"%string,
      Ok (ValueOfString (MsgGovRemoveCurrencyDeviationThresholds_Authority x)));
    ("oracle.v1.MsgGovRemoveCurrencyDeviationThresholds.title"%string,
      Ok (ValueOfString (MsgGovRemoveCurrencyDeviationThresholds_Title x)));
    ("oracle.v1.MsgGovRemoveCurrencyDeviationThresholds.description"%string,
      Ok (ValueOfString (MsgGovRemoveCurrencyDeviationThresholds_Description x)));
    ("oracle.v1.MsgGovRemoveCurrencyDeviationThresholds.height"%string,
      Ok (ValueOfInt64 (MsgGovRemoveCurrencyDeviationThresholds_Height x)));
    ("oracle.v1.MsgGovRemoveCurrencyDeviationThresholds.currencies"%string,
      Ok
        (get_list mkMsgGovRemoveCurrencyDeviationThresholds_5_list (MsgGovRemoveCurrencyDeviationThresholds_Currencies x)))].
Definition MsgGovRemoveCurrencyDeviationThresholds_Set
    (x : option MsgGovRemoveCurrencyDeviationThresholds) (fd : FieldDescriptor) (value : Value) :
    outcome MsgGovRemoveCurrencyDeviationThresholds :=
  x ← or_panic x;
  field_switch fd [
    ("oracle.v1.MsgGovRemoveCurrencyDeviationThresholds.authority"%string,
      set_string (MsgGovRemoveCurrencyDeviationThresholds_with_Authority x) value);
    ("oracle.v1.MsgGovRemoveCurrencyDeviationThresholds.title"%string,
      set_string (MsgGovRemoveCurrencyDeviationThresholds_with_Title x) value);
    ("oracle.v1.MsgGovRemoveCurrencyDeviationThresholds.description"%string,
      set_string (MsgGovRemoveCurrencyDeviationThresholds_with_Description x) value);
    ("oracle.v1.MsgGovRemoveCurrencyDeviationThresholds.height"%string,
      set_int64 (MsgGovRemoveCurrencyDeviationThresholds_with_Height x) value);
    ("oracle.v1.MsgGovRemoveCurrencyDeviationThresholds.currencies"%string,
      set_list MsgGovRemoveCurrencyDeviationThresholds_5_list_slice
        (MsgGovRemoveCurrencyDeviationThresholds_with_Currencies x) value)].
Definition MsgGovRemoveCurrencyDeviationThresholds_Mutable
    (x : option MsgGovRemoveCurrencyDeviationThresholds) (fd : FieldDescriptor) : outcome
    (Value * MsgGovRemoveCurrencyDeviationThresholds) :=
  x ← or_panic x;
  field_switch fd [
    ("oracle.v1.MsgGovRemoveCurrencyDeviationThresholds.currencies"%string,
      mutable_list mkMsgGovRemoveCurrencyDeviationThresholds_5_list x
        (MsgGovRemoveCurrencyDeviationThresholds_Currencies x));
    ("oracle.v1.MsgGovRemoveCurrencyDeviationThresholds.authority"%string, Panic);
    ("oracle.v1.MsgGovRemoveCurrencyDeviationThresholds.title"%string, Panic);
    ("oracle.v1.MsgGovRemoveCurrencyDeviationThresholds.description"%string, Panic);
    ("oracle.v1.MsgGovRemoveCurrencyDeviationThresholds.height"%string, Panic)].
Definition MsgGovRemoveCurrencyDeviationThresholds_NewField (fd : FieldDescriptor) : outcome Value
    :=
  field_switch fd [
    ("oracle.v1.MsgGovRemoveCurrencyDeviationThresholds.authority"%string,
      Ok (ValueOfString ""%string));
    ("oracle.v1.MsgGovRemoveCurrencyDeviationThresholds.title"%string,
      Ok (ValueOfString ""%string));
    ("oracle.v1.MsgGovRemoveCurrencyDeviationThresholds.description"%string,
      Ok (ValueOfString ""%string));
    ("oracle.v1.MsgGovRemoveCurrencyDeviationThresholds.height"%string, Ok (ValueOfInt64 0));
    ("oracle.v1.MsgGovRemoveCurrencyDeviationThresholds.currencies"%string,
      new_list mkMsgGovRemoveCurrencyDeviationThresholds_5_list)].
Definition MsgGovRemoveCurrencyDeviationThresholds_set_unknown (x : MsgGovRemoveCurrencyDeviationThresholds) (fields : bytes) : MsgGovRemoveCurrencyDeviationThresholds :=
  mkMsgGovRemoveCurrencyDeviationThresholds (MsgGovRemoveCurrencyDeviationThresholds_Authority x)
    (MsgGovRemoveCurrencyDeviationThresholds_Title x)
    (MsgGovRemoveCurrencyDeviationThresholds_Description x)
    (MsgGovRemoveCurrencyDeviationThresholds_Height x)
    (MsgGovRemoveCurrencyDeviationThresholds_Currencies x) fields.
#[export] Instance MsgGovRemoveCurrencyDeviationThresholds_reflect : MessageReflect MsgGovRemoveCurrencyDeviationThresholds := {|
  Range S := MsgGovRemoveCurrencyDeviationThresholds_Range;
  Has := MsgGovRemoveCurrencyDeviationThresholds_Has;
  Clear := MsgGovRemoveCurrencyDeviationThresholds_Clear;
  Get := MsgGovRemoveCurrencyDeviationThresholds_Get;
  Set_ := MsgGovRemoveCurrencyDeviationThresholds_Set;
  Mutable := MsgGovRemoveCurrencyDeviationThresholds_Mutable;
  NewField := MsgGovRemoveCurrencyDeviationThresholds_NewField;
  Descriptor := MsgGovRemoveCurrencyDeviationThresholds_descriptor;
  GetUnknown x := x ← or_panic x; Ok (MsgGovRemoveCurrencyDeviationThresholds_unknownFields x);
  SetUnknown x fields := x ← or_panic x; Ok (MsgGovRemoveCurrencyDeviationThresholds_set_unknown x fields);
|}.

(** [MsgGovRemoveCurrencyDeviationThresholdsResponse] *)

Definition MsgGovRemoveCurrencyDeviationThresholdsResponse_descriptor : list FieldDescriptor := [].
Definition MsgGovRemoveCurrencyDeviationThresholdsResponse_Range {S}
    (x : option MsgGovRemoveCurrencyDeviationThresholdsResponse)
    (f : FieldDescriptor → Value → M S bool) : M S () :=
  mret ().
Definition MsgGovRemoveCurrencyDeviationThresholdsResponse_Has
    (x : option MsgGovRemoveCurrencyDeviationThresholdsResponse) (fd : FieldDescriptor) : outcome
    bool :=
  field_switch fd [].
Definition MsgGovRemoveCurrencyDeviationThresholdsResponse_Clear
    (x : option MsgGovRemoveCurrencyDeviationThresholdsResponse) (fd : FieldDescriptor) : outcome
    MsgGovRemoveCurrencyDeviationThresholdsResponse :=
  field_switch fd [].
Definition MsgGovRemoveCurrencyDeviationThresholdsResponse_Get
    (x : option MsgGovRemoveCurrencyDeviationThresholdsResponse) (fd : FieldDescriptor) : outcome
    Value :=
  field_switch fd [].
Definition MsgGovRemoveCurrencyDeviationThresholdsResponse_Set
    (x : option MsgGovRemoveCurrencyDeviationThresholdsResponse) (fd : FieldDescriptor)
    (value : Value) : outcome MsgGovRemoveCurrencyDeviationThresholdsResponse :=
  field_switch fd [].
Definition MsgGovRemoveCurrencyDeviationThresholdsResponse_Mutable
    (x : option MsgGovRemoveCurrencyDeviationThresholdsResponse) (fd : FieldDescriptor) : outcome
    (Value * MsgGovRemoveCurrencyDeviationThresholdsResponse) :=
  field_switch fd [].
Definition MsgGovRemoveCurrencyDeviationThresholdsResponse_NewField (fd : FieldDescriptor) :
    outcome Value :=
  field_switch fd [].
Definition MsgGovRemoveCurrencyDeviationThresholdsResponse_set_unknown (x : MsgGovRemoveCurrencyDeviationThresholdsResponse) (fields : bytes) : MsgGovRemoveCurrencyDeviationThresholdsResponse :=
  mkMsgGovRemoveCurrencyDeviationThresholdsResponse fields.
#[export] Instance MsgGovRemoveCurrencyDeviationThresholdsResponse_reflect : MessageReflect MsgGovRemoveCurrencyDeviationThresholdsResponse := {|
  Range S := MsgGovRemoveCurrencyDeviationThresholdsResponse_Range;
  Has := MsgGovRemoveCurrencyDeviationThresholdsResponse_Has;
  Clear := MsgGovRemoveCurrencyDeviationThresholdsResponse_Clear;
  Get := MsgGovRemoveCurrencyDeviationThresholdsResponse_Get;
  Set_ := MsgGovRemoveCurrencyDeviationThresholdsResponse_Set;
  Mutable := MsgGovRemoveCurrencyDeviationThresholdsResponse_Mutable;
  NewField := MsgGovRemoveCurrencyDeviationThresholdsResponse_NewField;
  Descriptor := MsgGovRemoveCurrencyDeviationThresholdsResponse_descriptor;
  GetUnknown x := x ← or_panic x; Ok (MsgGovRemoveCurrencyDeviationThresholdsResponse_unknownFields x);
  SetUnknown x fields := x ← or_panic x; Ok (MsgGovRemoveCurrencyDeviationThresholdsResponse_set_unknown x fields);
|}.

(** [MsgGovCancelUpdateParamPlan] *)

Definition fd_MsgGovCancelUpdateParamPlan_authority : FieldDescriptor :=
  mkField "oracle.v1.MsgGovCancelUpdateParamPlan.authority" 1 StringKind false.
Definition fd_MsgGovCancelUpdateParamPlan_title : FieldDescriptor :=
  mkField "oracle.v1.MsgGovCancelUpdateParamPlan.title" 2 StringKind false.
Definition fd_MsgGovCancelUpdateParamPlan_description : FieldDescriptor :=
  mkField "oracle.v1.MsgGovCancelUpdateParamPlan.description" 3 StringKind false.
Definition fd_MsgGovCancelUpdateParamPlan_height : FieldDescriptor :=
  mkField "oracle.v1.MsgGovCancelUpdateParamPlan.height" 4 Int64Kind false.
Definition MsgGovCancelUpdateParamPlan_descriptor : list FieldDescriptor := [
  fd_MsgGovCancelUpdateParamPlan_authority; fd_MsgGovCancelUpdateParamPlan_title;
  fd_MsgGovCancelUpdateParamPlan_description; fd_MsgGovCancelUpdateParamPlan_height].
Definition MsgGovCancelUpdateParamPlan_with_Authority (x : MsgGovCancelUpdateParamPlan)
    (v : string) : MsgGovCancelUpdateParamPlan :=
  mkMsgGovCancelUpdateParamPlan v (MsgGovCancelUpdateParamPlan_Title x)
    (MsgGovCancelUpdateParamPlan_Description x) (MsgGovCancelUpdateParamPlan_Height x)
    (MsgGovCancelUpdateParamPlan_unknownFields x).
Definition MsgGovCancelUpdateParamPlan_with_Title (x : MsgGovCancelUpdateParamPlan) (v : string) :
    MsgGovCancelUpdateParamPlan :=
  mkMsgGovCancelUpdateParamPlan (MsgGovCancelUpdateParamPlan_Authority x) v
    (MsgGovCancelUpdateParamPlan_Description x) (MsgGovCancelUpdateParamPlan_Height x)
    (MsgGovCancelUpdateParamPlan_unknownFields x).
Definition MsgGovCancelUpdateParamPlan_with_Description (x : MsgGovCancelUpdateParamPlan)
    (v : string) : MsgGovCancelUpdateParamPlan :=
  mkMsgGovCancelUpdateParamPlan (MsgGovCancelUpdateParamPlan_Authority x)
    (MsgGovCancelUpdateParamPlan_Title x) v (MsgGovCancelUpdateParamPlan_Height x)
    (MsgGovCancelUpdateParamPlan_unknownFields x).
Definition MsgGovCancelUpdateParamPlan_with_Height (x : MsgGovCancelUpdateParamPlan) (v : Z) :
    MsgGovCancelUpdateParamPlan :=
  mkMsgGovCancelUpdateParamPlan (MsgGovCancelUpdateParamPlan_Authority x)
    (MsgGovCancelUpdateParamPlan_Title x) (MsgGovCancelUpdateParamPlan_Description x) v
    (MsgGovCancelUpdateParamPlan_unknownFields x).
Definition MsgGovCancelUpdateParamPlan_GetAuthority : option MsgGovCancelUpdateParamPlan → string
    :=
  getter ""%string MsgGovCancelUpdateParamPlan_Authority.
Definition MsgGovCancelUpdateParamPlan_GetTitle : option MsgGovCancelUpdateParamPlan → string :=
  getter ""%string MsgGovCancelUpdateParamPlan_Title.
Definition MsgGovCancelUpdateParamPlan_GetDescription : option MsgGovCancelUpdateParamPlan → string
    :=
  getter ""%string MsgGovCancelUpdateParamPlan_Description.
Definition MsgGovCancelUpdateParamPlan_GetHeight : option MsgGovCancelUpdateParamPlan → Z :=
  getter 0 MsgGovCancelUpdateParamPlan_Height.
Definition MsgGovCancelUpdateParamPlan_Range {S} (x : option MsgGovCancelUpdateParamPlan)
    (f : FieldDescriptor → Value → M S bool) : M S () :=
  x ← lift (or_panic x);
  range_fields f [
    (has_string (MsgGovCancelUpdateParamPlan_Authority x),
       fd_MsgGovCancelUpdateParamPlan_authority, ValueOfString
       (MsgGovCancelUpdateParamPlan_Authority x));
    (has_string (MsgGovCancelUpdateParamPlan_Title x), fd_MsgGovCancelUpdateParamPlan_title,
       ValueOfString (MsgGovCancelUpdateParamPlan_Title x));
    (has_string (MsgGovCancelUpdateParamPlan_Description x),
       fd_MsgGovCancelUpdateParamPlan_description, ValueOfString
       (MsgGovCancelUpdateParamPlan_Description x));
    (has_int (MsgGovCancelUpdateParamPlan_Height x), fd_MsgGovCancelUpdateParamPlan_height,
       ValueOfInt64 (MsgGovCancelUpdateParamPlan_Height x))].
Definition MsgGovCancelUpdateParamPlan_Has (x : option MsgGovCancelUpdateParamPlan)
    (fd : FieldDescriptor) : outcome bool :=
  x ← or_panic x;
  field_switch fd [
    ("oracle.v1.MsgGovCancelUpdateParamPlan.authority"%string,
      Ok (has_string (MsgGovCancelUpdateParamPlan_Authority x)));
    ("oracle.v1.MsgGovCancelUpdateParamPlan.title"%string,
      Ok (has_string (MsgGovCancelUpdateParamPlan_Title x)));
    ("oracle.v1.MsgGovCancelUpdateParamPlan.description"%string,
      Ok (has_string (MsgGovCancelUpdateParamPlan_Description x)));
    ("oracle.v1.MsgGovCancelUpdateParamPlan.height"%string,
      Ok (has_int (MsgGovCancelUpdateParamPlan_Height x)))].
Definition MsgGovCancelUpdateParamPlan_Clear (x : option MsgGovCancelUpdateParamPlan)
    (fd : FieldDescriptor) : outcome MsgGovCancelUpdateParamPlan :=
  x ← or_panic x;
  field_switch fd [
    ("oracle.v1.MsgGovCancelUpdateParamPlan.authority"%string,
      Ok (MsgGovCancelUpdateParamPlan_with_Authority x ""%string));
    ("oracle.v1.MsgGovCancelUpdateParamPlan.title"%string,
      Ok (MsgGovCancelUpdateParamPlan_with_Title x ""%string));
    ("oracle.v1.MsgGovCancelUpdateParamPlan.description"%string,
      Ok (MsgGovCancelUpdateParamPlan_with_Description x ""%string));
    ("oracle.v1.MsgGovCancelUpdateParamPlan.height"%string,
      Ok (MsgGovCancelUpdateParamPlan_with_Height x 0))].
Definition MsgGovCancelUpdateParamPlan_Get (x : option MsgGovCancelUpdateParamPlan)
    (fd : FieldDescriptor) : outcome Value :=
  x ← or_panic x;
  field_switch fd [
    ("oracle.v1.MsgGovCancelUpdateParamPlan.authority"%string,
      Ok (ValueOfString (MsgGovCancelUpdateParamPlan_Authority x)));
    ("oracle.v1.MsgGovCancelUpdateParamPlan.title"%string,
      Ok (ValueOfString (MsgGovCancelUpdateParamPlan_Title x)));
    ("oracle.v1.MsgGovCancelUpdateParamPlan.description"%string,
      Ok (ValueOfString (MsgGovCancelUpdateParamPlan_Description x)));
    ("oracle.v1.MsgGovCancelUpdateParamPlan.height"%string,
      Ok (ValueOfInt64 (MsgGovCancelUpdateParamPlan_Height x)))].
Definition MsgGovCancelUpdateParamPlan_Set (x : option MsgGovCancelUpdateParamPlan)
    (fd : FieldDescriptor) (value : Value) : outcome MsgGovCancelUpdateParamPlan :=
  x ← or_panic x;
  field_switch fd [
    ("oracle.v1.MsgGovCancelUpdateParamPlan.authority"%string,
      set_string (MsgGovCancelUpdateParamPlan_with_Authority x) value);
    ("oracle.v1.MsgGovCancelUpdateParamPlan.title"%string,
      set_string (MsgGovCancelUpdateParamPlan_with_Title x) value);
    ("oracle.v1.MsgGovCancelUpdateParamPlan.description"%string,
      set_string (MsgGovCancelUpdateParamPlan_with_Description x) value);
    ("oracle.v1.MsgGovCancelUpdateParamPlan.height"%string,
      set_int64 (MsgGovCancelUpdateParamPlan_with_Height x) value)].
Definition MsgGovCancelUpdateParamPlan_Mutable (x : option MsgGovCancelUpdateParamPlan)
    (fd : FieldDescriptor) : outcome (Value * MsgGovCancelUpdateParamPlan) :=
  x ← or_panic x;
  field_switch fd [
    ("oracle.v1.MsgGovCancelUpdateParamPlan.authority"%string, Panic);
    ("oracle.v1.MsgGovCancelUpdateParamPlan.title"%string, Panic);
    ("oracle.v1.MsgGovCancelUpdateParamPlan.description"%string, Panic);
    ("oracle.v1.MsgGovCancelUpdateParamPlan.height"%string, Panic)].
Definition MsgGovCancelUpdateParamPlan_NewField (fd : FieldDescriptor) : outcome Value :=
  field_switch fd [
    ("oracle.v1.MsgGovCancelUpdateParamPlan.authority"%string, Ok (ValueOfString ""%string));
    ("oracle.v1.MsgGovCancelUpdateParamPlan.title"%string, Ok (ValueOfString ""%string));
    ("oracle.v1.MsgGovCancelUpdateParamPlan.description"%string, Ok (ValueOfString ""%string));
    ("oracle.v1.MsgGovCancelUpdateParamPlan.height"%string, Ok (ValueOfInt64 0))].
Definition MsgGovCancelUpdateParamPlan_set_unknown (x : MsgGovCancelUpdateParamPlan) (fields : bytes) : MsgGovCancelUpdateParamPlan :=
  mkMsgGovCancelUpdateParamPlan (MsgGovCancelUpdateParamPlan_Authority x)
    (MsgGovCancelUpdateParamPlan_Title x) (MsgGovCancelUpdateParamPlan_Description x)
    (MsgGovCancelUpdateParamPlan_Height x) fields.
#[export] Instance MsgGovCancelUpdateParamPlan_reflect : MessageReflect MsgGovCancelUpdateParamPlan := {|
  Range S := MsgGovCancelUpdateParamPlan_Range;
  Has := MsgGovCancelUpdateParamPlan_Has;
  Clear := MsgGovCancelUpdateParamPlan_Clear;
  Get := MsgGovCancelUpdateParamPlan_Get;
  Set_ := MsgGovCancelUpdateParamPlan_Set;
  Mutable := MsgGovCancelUpdateParamPlan_Mutable;
  NewField := MsgGovCancelUpdateParamPlan_NewField;
  Descriptor := MsgGovCancelUpdateParamPlan_descriptor;
  GetUnknown x := x ← or_panic x; Ok (MsgGovCancelUpdateParamPlan_unknownFields x);
  SetUnknown x fields := x ← or_panic x; Ok (MsgGovCancelUpdateParamPlan_set_unknown x fields);
|}.

(** [MsgGovCancelUpdateParamPlanResponse] *)

Definition MsgGovCancelUpdateParamPlanResponse_descriptor : list FieldDescriptor := [].
Definition MsgGovCancelUpdateParamPlanResponse_Range {S}
    (x : option MsgGovCancelUpdateParamPlanResponse) (f : FieldDescriptor → Value → M S bool) : M S
    () :=
  mret ().
Definition MsgGovCancelUpdateParamPlanResponse_Has (x : option MsgGovCancelUpdateParamPlanResponse)
    (fd : FieldDescriptor) : outcome bool :=
  field_switch fd [].
Definition MsgGovCancelUpdateParamPlanResponse_Clear
    (x : option MsgGovCancelUpdateParamPlanResponse) (fd : FieldDescriptor) : outcome
    MsgGovCancelUpdateParamPlanResponse :=
  field_switch fd [].
Definition MsgGovCancelUpdateParamPlanResponse_Get (x : option MsgGovCancelUpdateParamPlanResponse)
    (fd : FieldDescriptor) : outcome Value :=
  field_switch fd [].
Definition MsgGovCancelUpdateParamPlanResponse_Set (x : option MsgGovCancelUpdateParamPlanResponse)
    (fd : FieldDescriptor) (value : Value) : outcome MsgGovCancelUpdateParamPlanResponse :=
  field_switch fd [].
Definition MsgGovCancelUpdateParamPlanResponse_Mutable
    (x : option MsgGovCancelUpdateParamPlanResponse) (fd : FieldDescriptor) : outcome
    (Value * MsgGovCancelUpdateParamPlanResponse) :=
  field_switch fd [].
Definition MsgGovCancelUpdateParamPlanResponse_NewField (fd : FieldDescriptor) : outcome Value :=
  field_switch fd [].
Definition MsgGovCancelUpdateParamPlanResponse_set_unknown (x : MsgGovCancelUpdateParamPlanResponse) (fields : bytes) : MsgGovCancelUpdateParamPlanResponse :=
  mkMsgGovCancelUpdateParamPlanResponse fields.
#[export] Instance MsgGovCancelUpdateParamPlanResponse_reflect : MessageReflect MsgGovCancelUpdateParamPlanResponse := {|
  Range S := MsgGovCancelUpdateParamPlanResponse_Range;
  Has := MsgGovCancelUpdateParamPlanResponse_Has;
  Clear := MsgGovCancelUpdateParamPlanResponse_Clear;
  Get := MsgGovCancelUpdateParamPlanResponse_Get;
  Set_ := MsgGovCancelUpdateParamPlanResponse_Set;
  Mutable := MsgGovCancelUpdateParamPlanResponse_Mutable;
  NewField := MsgGovCancelUpdateParamPlanResponse_NewField;
  Descriptor := MsgGovCancelUpdateParamPlanResponse_descriptor;
  GetUnknown x := x ← or_panic x; Ok (MsgGovCancelUpdateParamPlanResponse_unknownFields x);
  SetUnknown x fields := x ← or_panic x; Ok (MsgGovCancelUpdateParamPlanResponse_set_unknown x fields);
|}.
End methods.

(** ** Tables *)

Class TxValuesLaws `{PulsarRuntime} `{CosmosApi} `{ProtoReflect} `{!OracleValues, !TxValues} := {
  ParamUpdatePlan_value_laws :: MessageValueLaws ParamUpdatePlan;
  MsgLegacyGovUpdateParams_4_list_value_laws :: ListValueLaws MsgLegacyGovUpdateParams_4_list;
  MsgGovAddDenoms_5_list_value_laws :: ListValueLaws MsgGovAddDenoms_5_list;
  MsgGovAddDenoms_8_list_value_laws :: ListValueLaws MsgGovAddDenoms_8_list;
  MsgGovAddDenoms_9_list_value_laws :: ListValueLaws MsgGovAddDenoms_9_list;
  MsgGovRemoveCurrencyPairProviders_5_list_value_laws :: ListValueLaws MsgGovRemoveCurrencyPairProviders_5_list;
  MsgGovRemoveCurrencyDeviationThresholds_5_list_value_laws :: ListValueLaws MsgGovRemoveCurrencyDeviationThresholds_5_list;
}.

Section tables.
Context `{PulsarRuntimeLaws} `{CosmosApiLaws} `{ProtoReflectLaws}.
Context `{!OracleValues, !TxValues} `{!OracleValuesLaws, !TxValuesLaws}.

Definition MsgAggregateExchangeRatePrevote_specs : list (FieldSpec MsgAggregateExchangeRatePrevote) := [
  mkSpec string_codec "oracle.v1.MsgAggregateExchangeRatePrevote.hash"%string 1 [0xa]
    MsgAggregateExchangeRatePrevote_Hash MsgAggregateExchangeRatePrevote_with_Hash
    MsgAggregateExchangeRatePrevote_GetHash;
  mkSpec string_codec "oracle.v1.MsgAggregateExchangeRatePrevote.feeder"%string 2 [0x12]
    MsgAggregateExchangeRatePrevote_Feeder MsgAggregateExchangeRatePrevote_with_Feeder
    MsgAggregateExchangeRatePrevote_GetFeeder;
  mkSpec string_codec "oracle.v1.MsgAggregateExchangeRatePrevote.validator"%string 3 [0x1a]
    MsgAggregateExchangeRatePrevote_Validator MsgAggregateExchangeRatePrevote_with_Validator
    MsgAggregateExchangeRatePrevote_GetValidator].
#[export] Instance MsgAggregateExchangeRatePrevote_table : ReflectTable MsgAggregateExchangeRatePrevote.
Proof. solve_table MsgAggregateExchangeRatePrevote_specs MsgAggregateExchangeRatePrevote_unknownFields MsgAggregateExchangeRatePrevote_set_unknown. Defined.

Definition MsgAggregateExchangeRatePrevoteResponse_specs : list (FieldSpec MsgAggregateExchangeRatePrevoteResponse) := [].
#[export] Instance MsgAggregateExchangeRatePrevoteResponse_table : ReflectTable MsgAggregateExchangeRatePrevoteResponse.
Proof. solve_table MsgAggregateExchangeRatePrevoteResponse_specs MsgAggregateExchangeRatePrevoteResponse_unknownFields MsgAggregateExchangeRatePrevoteResponse_set_unknown. Defined.

Definition MsgAggregateExchangeRateVote_specs : list (FieldSpec MsgAggregateExchangeRateVote) := [
  mkSpec string_codec "oracle.v1.MsgAggregateExchangeRateVote.salt"%string 1 [0xa]
    MsgAggregateExchangeRateVote_Salt MsgAggregateExchangeRateVote_with_Salt
    MsgAggregateExchangeRateVote_GetSalt;
  mkSpec string_codec "oracle.v1.MsgAggregateExchangeRateVote.exchange_rates"%string 2 [0x12]
    MsgAggregateExchangeRateVote_ExchangeRates MsgAggregateExchangeRateVote_with_ExchangeRates
    MsgAggregateExchangeRateVote_GetExchangeRates;
  mkSpec string_codec "oracle.v1.MsgAggregateExchangeRateVote.feeder"%string 3 [0x1a]
    MsgAggregateExchangeRateVote_Feeder MsgAggregateExchangeRateVote_with_Feeder
    MsgAggregateExchangeRateVote_GetFeeder;
  mkSpec string_codec "oracle.v1.MsgAggregateExchangeRateVote.validator"%string 4 [0x22]
    MsgAggregateExchangeRateVote_Validator MsgAggregateExchangeRateVote_with_Validator
    MsgAggregateExchangeRateVote_GetValidator].
#[export] Instance MsgAggregateExchangeRateVote_table : ReflectTable MsgAggregateExchangeRateVote.
Proof. solve_table MsgAggregateExchangeRateVote_specs MsgAggregateExchangeRateVote_unknownFields MsgAggregateExchangeRateVote_set_unknown. Defined.

Definition MsgAggregateExchangeRateVoteResponse_specs : list (FieldSpec MsgAggregateExchangeRateVoteResponse) := [].
#[export] Instance MsgAggregateExchangeRateVoteResponse_table : ReflectTable MsgAggregateExchangeRateVoteResponse.
Proof. solve_table MsgAggregateExchangeRateVoteResponse_specs MsgAggregateExchangeRateVoteResponse_unknownFields MsgAggregateExchangeRateVoteResponse_set_unknown. Defined.

Definition MsgDelegateFeedConsent_specs : list (FieldSpec MsgDelegateFeedConsent) := [
  mkSpec string_codec "oracle.v1.MsgDelegateFeedConsent.operator"%string 1 [0xa]
    MsgDelegateFeedConsent_Operator MsgDelegateFeedConsent_with_Operator
    MsgDelegateFeedConsent_GetOperator;
  mkSpec string_codec "oracle.v1.MsgDelegateFeedConsent.delegate"%string 2 [0x12]
    MsgDelegateFeedConsent_Delegate MsgDelegateFeedConsent_with_Delegate
    MsgDelegateFeedConsent_GetDelegate].
#[export] Instance MsgDelegateFeedConsent_table : ReflectTable MsgDelegateFeedConsent.
Proof. solve_table MsgDelegateFeedConsent_specs MsgDelegateFeedConsent_unknownFields MsgDelegateFeedConsent_set_unknown. Defined.

Definition MsgDelegateFeedConsentResponse_specs : list (FieldSpec MsgDelegateFeedConsentResponse) := [].
#[export] Instance MsgDelegateFeedConsentResponse_table : ReflectTable MsgDelegateFeedConsentResponse.
Proof. solve_table MsgDelegateFeedConsentResponse_specs MsgDelegateFeedConsentResponse_unknownFields MsgDelegateFeedConsentResponse_set_unknown. Defined.

Definition MsgLegacyGovUpdateParams_specs : list (FieldSpec MsgLegacyGovUpdateParams) := [
  mkSpec string_codec "oracle.v1.MsgLegacyGovUpdateParams.authority"%string 1 [0xa]
    MsgLegacyGovUpdateParams_Authority MsgLegacyGovUpdateParams_with_Authority
    MsgLegacyGovUpdateParams_GetAuthority;
  mkSpec string_codec "oracle.v1.MsgLegacyGovUpdateParams.title"%string 2 [0x12]
    MsgLegacyGovUpdateParams_Title MsgLegacyGovUpdateParams_with_Title
    MsgLegacyGovUpdateParams_GetTitle;
  mkSpec string_codec "oracle.v1.MsgLegacyGovUpdateParams.description"%string 3 [0x1a]
    MsgLegacyGovUpdateParams_Description MsgLegacyGovUpdateParams_with_Description
    MsgLegacyGovUpdateParams_GetDescription;
  mkSpec (strings_codec mkMsgLegacyGovUpdateParams_4_list MsgLegacyGovUpdateParams_4_list_slice)
    "oracle.v1.MsgLegacyGovUpdateParams.keys"%string 4 [0x22] MsgLegacyGovUpdateParams_Keys
    MsgLegacyGovUpdateParams_with_Keys MsgLegacyGovUpdateParams_GetKeys;
  mkSpec (message_codec Params) "oracle.v1.MsgLegacyGovUpdateParams.changes"%string 5 [0x2a]
    MsgLegacyGovUpdateParams_Changes MsgLegacyGovUpdateParams_with_Changes
    MsgLegacyGovUpdateParams_GetChanges].
#[export] Instance MsgLegacyGovUpdateParams_table : ReflectTable MsgLegacyGovUpdateParams.
Proof. solve_table MsgLegacyGovUpdateParams_specs MsgLegacyGovUpdateParams_unknownFields MsgLegacyGovUpdateParams_set_unknown. Defined.

Definition MsgLegacyGovUpdateParamsResponse_specs : list (FieldSpec MsgLegacyGovUpdateParamsResponse) := [].
#[export] Instance MsgLegacyGovUpdateParamsResponse_table : ReflectTable MsgLegacyGovUpdateParamsResponse.
Proof. solve_table MsgLegacyGovUpdateParamsResponse_specs MsgLegacyGovUpdateParamsResponse_unknownFields MsgLegacyGovUpdateParamsResponse_set_unknown. Defined.

Definition MsgGovUpdateParams_specs : list (FieldSpec MsgGovUpdateParams) := [
  mkSpec string_codec "oracle.v1.MsgGovUpdateParams.authority"%string 1 [0xa]
    MsgGovUpdateParams_Authority MsgGovUpdateParams_with_Authority MsgGovUpdateParams_GetAuthority;
  mkSpec string_codec "oracle.v1.MsgGovUpdateParams.title"%string 2 [0x12] MsgGovUpdateParams_Title
    MsgGovUpdateParams_with_Title MsgGovUpdateParams_GetTitle;
  mkSpec string_codec "oracle.v1.MsgGovUpdateParams.description"%string 3 [0x1a]
    MsgGovUpdateParams_Description MsgGovUpdateParams_with_Description
    MsgGovUpdateParams_GetDescription;
  mkSpec (message_codec ParamUpdatePlan) "oracle.v1.MsgGovUpdateParams.plan"%string 4 [0x22]
    MsgGovUpdateParams_Plan MsgGovUpdateParams_with_Plan MsgGovUpdateParams_GetPlan].
#[export] Instance MsgGovUpdateParams_table : ReflectTable MsgGovUpdateParams.
Proof. solve_table MsgGovUpdateParams_specs MsgGovUpdateParams_unknownFields MsgGovUpdateParams_set_unknown. Defined.

Definition MsgGovUpdateParamsResponse_specs : list (FieldSpec MsgGovUpdateParamsResponse) := [].
#[export] Instance MsgGovUpdateParamsResponse_table : ReflectTable MsgGovUpdateParamsResponse.
Proof. solve_table MsgGovUpdateParamsResponse_specs MsgGovUpdateParamsResponse_unknownFields MsgGovUpdateParamsResponse_set_unknown. Defined.

Definition MsgGovAddDenoms_specs : list (FieldSpec MsgGovAddDenoms) := [
  mkSpec string_codec "oracle.v1.MsgGovAddDenoms.authority"%string 1 [0xa]
    MsgGovAddDenoms_Authority MsgGovAddDenoms_with_Authority MsgGovAddDenoms_GetAuthority;
  mkSpec string_codec "oracle.v1.MsgGovAddDenoms.title"%string 2 [0x12] MsgGovAddDenoms_Title
    MsgGovAddDenoms_with_Title MsgGovAddDenoms_GetTitle;
  mkSpec string_codec "oracle.v1.MsgGovAddDenoms.description"%string 3 [0x1a]
    MsgGovAddDenoms_Description MsgGovAddDenoms_with_Description MsgGovAddDenoms_GetDescription;
  mkSpec int64_codec "oracle.v1.MsgGovAddDenoms.height"%string 4 [0x20] MsgGovAddDenoms_Height
    MsgGovAddDenoms_with_Height MsgGovAddDenoms_GetHeight;
  mkSpec (messages_codec Denom mkMsgGovAddDenoms_5_list MsgGovAddDenoms_5_list_slice)
    "oracle.v1.MsgGovAddDenoms.denom_list"%string 5 [0x2a] MsgGovAddDenoms_DenomList
    MsgGovAddDenoms_with_DenomList MsgGovAddDenoms_GetDenomList;
  mkSpec bool_codec "oracle.v1.MsgGovAddDenoms.mandatory"%string 6 [0x30] MsgGovAddDenoms_Mandatory
    MsgGovAddDenoms_with_Mandatory MsgGovAddDenoms_GetMandatory;
  mkSpec string_codec "oracle.v1.MsgGovAddDenoms.reward_band"%string 7 [0x3a]
    MsgGovAddDenoms_RewardBand MsgGovAddDenoms_with_RewardBand MsgGovAddDenoms_GetRewardBand;
  mkSpec
    (messages_codec CurrencyPairProviders mkMsgGovAddDenoms_8_list MsgGovAddDenoms_8_list_slice)
    "oracle.v1.MsgGovAddDenoms.currency_pair_providers"%string 8 [0x42]
    MsgGovAddDenoms_CurrencyPairProviders MsgGovAddDenoms_with_CurrencyPairProviders
    MsgGovAddDenoms_GetCurrencyPairProviders;
  mkSpec
    (messages_codec CurrencyDeviationThreshold mkMsgGovAddDenoms_9_list MsgGovAddDenoms_9_list_slice)
    "oracle.v1.MsgGovAddDenoms.currency_deviation_thresholds"%string 9 [0x4a]
    MsgGovAddDenoms_CurrencyDeviationThresholds MsgGovAddDenoms_with_CurrencyDeviationThresholds
    MsgGovAddDenoms_GetCurrencyDeviationThresholds].
#[export] Instance MsgGovAddDenoms_table : ReflectTable MsgGovAddDenoms.
Proof. solve_table MsgGovAddDenoms_specs MsgGovAddDenoms_unknownFields MsgGovAddDenoms_set_unknown. Defined.

Definition MsgGovAddDenomsResponse_specs : list (FieldSpec MsgGovAddDenomsResponse) := [].
#[export] Instance MsgGovAddDenomsResponse_table : ReflectTable MsgGovAddDenomsResponse.
Proof. solve_table MsgGovAddDenomsResponse_specs MsgGovAddDenomsResponse_unknownFields MsgGovAddDenomsResponse_set_unknown. Defined.

Definition MsgGovRemoveCurrencyPairProviders_specs : list (FieldSpec MsgGovRemoveCurrencyPairProviders) := [
  mkSpec string_codec "oracle.v1.MsgGovRemoveCurrencyPairProviders.authority"%string 1 [0xa]
    MsgGovRemoveCurrencyPairProviders_Authority MsgGovRemoveCurrencyPairProviders_with_Authority
    MsgGovRemoveCurrencyPairProviders_GetAuthority;
  mkSpec string_codec "oracle.v1.MsgGovRemoveCurrencyPairProviders.title"%string 2 [0x12]
    MsgGovRemoveCurrencyPairProviders_Title MsgGovRemoveCurrencyPairProviders_with_Title
    MsgGovRemoveCurrencyPairProviders_GetTitle;
  mkSpec string_codec "oracle.v1.MsgGovRemoveCurrencyPairProviders.description"%string 3 [0x1a]
    MsgGovRemoveCurrencyPairProviders_Description
    MsgGovRemoveCurrencyPairProviders_with_Description
    MsgGovRemoveCurrencyPairProviders_GetDescription;
  mkSpec int64_codec "oracle.v1.MsgGovRemoveCurrencyPairProviders.height"%string 4 [0x20]
    MsgGovRemoveCurrencyPairProviders_Height MsgGovRemoveCurrencyPairProviders_with_Height
    MsgGovRemoveCurrencyPairProviders_GetHeight;
  mkSpec
    (messages_codec CurrencyPairProviders mkMsgGovRemoveCurrencyPairProviders_5_list MsgGovRemoveCurrencyPairProviders_5_list_slice)
    "oracle.v1.MsgGovRemoveCurrencyPairProviders.currency_pair_providers"%string 5 [0x2a]
    MsgGovRemoveCurrencyPairProviders_CurrencyPairProviders
    MsgGovRemoveCurrencyPairProviders_with_CurrencyPairProviders
    MsgGovRemoveCurrencyPairProviders_GetCurrencyPairProviders].
#[export] Instance MsgGovRemoveCurrencyPairProviders_table : ReflectTable MsgGovRemoveCurrencyPairProviders.
Proof. solve_table MsgGovRemoveCurrencyPairProviders_specs MsgGovRemoveCurrencyPairProviders_unknownFields MsgGovRemoveCurrencyPairProviders_set_unknown. Defined.

Definition MsgGovRemoveCurrencyPairProvidersResponse_specs : list (FieldSpec MsgGovRemoveCurrencyPairProvidersResponse) := [].
#[export] Instance MsgGovRemoveCurrencyPairProvidersResponse_table : ReflectTable MsgGovRemoveCurrencyPairProvidersResponse.
Proof. solve_table MsgGovRemoveCurrencyPairProvidersResponse_specs MsgGovRemoveCurrencyPairProvidersResponse_unknownFields MsgGovRemoveCurrencyPairProvidersResponse_set_unknown. Defined.

Definition MsgGovRemoveCurrencyDeviationThresholds_specs : list (FieldSpec MsgGovRemoveCurrencyDeviationThresholds) := [
  mkSpec string_codec "oracle.v1.MsgGovRemoveCurrencyDeviationThresholds.authority"%string 1 [0xa]
    MsgGovRemoveCurrencyDeviationThresholds_Authority
    MsgGovRemoveCurrencyDeviationThresholds_with_Authority
    MsgGovRemoveCurrencyDeviationThresholds_GetAuthority;
  mkSpec string_codec "oracle.v1.MsgGovRemoveCurrencyDeviationThresholds.title"%string 2 [0x12]
    MsgGovRemoveCurrencyDeviationThresholds_Title
    MsgGovRemoveCurrencyDeviationThresholds_with_Title
    MsgGovRemoveCurrencyDeviationThresholds_GetTitle;
  mkSpec string_codec "oracle.v1.MsgGovRemoveCurrencyDeviationThresholds.description"%string 3
    [0x1a] MsgGovRemoveCurrencyDeviationThresholds_Description
    MsgGovRemoveCurrencyDeviationThresholds_with_Description
    MsgGovRemoveCurrencyDeviationThresholds_GetDescription;
  mkSpec int64_codec "oracle.v1.MsgGovRemoveCurrencyDeviationThresholds.height"%string 4 [0x20]
    MsgGovRemoveCurrencyDeviationThresholds_Height
    MsgGovRemoveCurrencyDeviationThresholds_with_Height
    MsgGovRemoveCurrencyDeviationThresholds_GetHeight;
  mkSpec
    (strings_codec mkMsgGovRemoveCurrencyDeviationThresholds_5_list MsgGovRemoveCurrencyDeviationThresholds_5_list_slice)
    "oracle.v1.MsgGovRemoveCurrencyDeviationThresholds.currencies"%string 5 [0x2a]
    MsgGovRemoveCurrencyDeviationThresholds_Currencies
    MsgGovRemoveCurrencyDeviationThresholds_with_Currencies
    MsgGovRemoveCurrencyDeviationThresholds_GetCurrencies].
#[export] Instance MsgGovRemoveCurrencyDeviationThresholds_table : ReflectTable MsgGovRemoveCurrencyDeviationThresholds.
Proof. solve_table MsgGovRemoveCurrencyDeviationThresholds_specs MsgGovRemoveCurrencyDeviationThresholds_unknownFields MsgGovRemoveCurrencyDeviationThresholds_set_unknown. Defined.

Definition MsgGovRemoveCurrencyDeviationThresholdsResponse_specs : list (FieldSpec MsgGovRemoveCurrencyDeviationThresholdsResponse) := [].
#[export] Instance MsgGovRemoveCurrencyDeviationThresholdsResponse_table : ReflectTable MsgGovRemoveCurrencyDeviationThresholdsResponse.
Proof. solve_table MsgGovRemoveCurrencyDeviationThresholdsResponse_specs MsgGovRemoveCurrencyDeviationThresholdsResponse_unknownFields MsgGovRemoveCurrencyDeviationThresholdsResponse_set_unknown. Defined.

Definition MsgGovCancelUpdateParamPlan_specs : list (FieldSpec MsgGovCancelUpdateParamPlan) := [
  mkSpec string_codec "oracle.v1.MsgGovCancelUpdateParamPlan.authority"%string 1 [0xa]
    MsgGovCancelUpdateParamPlan_Authority MsgGovCancelUpdateParamPlan_with_Authority
    MsgGovCancelUpdateParamPlan_GetAuthority;
  mkSpec string_codec "oracle.v1.MsgGovCancelUpdateParamPlan.title"%string 2 [0x12]
    MsgGovCancelUpdateParamPlan_Title MsgGovCancelUpdateParamPlan_with_Title
    MsgGovCancelUpdateParamPlan_GetTitle;
  mkSpec string_codec "oracle.v1.MsgGovCancelUpdateParamPlan.description"%string 3 [0x1a]
    MsgGovCancelUpdateParamPlan_Description MsgGovCancelUpdateParamPlan_with_Description
    MsgGovCancelUpdateParamPlan_GetDescription;
  mkSpec int64_codec "oracle.v1.MsgGovCancelUpdateParamPlan.height"%string 4 [0x20]
    MsgGovCancelUpdateParamPlan_Height MsgGovCancelUpdateParamPlan_with_Height
    MsgGovCancelUpdateParamPlan_GetHeight].
#[export] Instance MsgGovCancelUpdateParamPlan_table : ReflectTable MsgGovCancelUpdateParamPlan.
Proof. solve_table MsgGovCancelUpdateParamPlan_specs MsgGovCancelUpdateParamPlan_unknownFields MsgGovCancelUpdateParamPlan_set_unknown. Defined.

Definition MsgGovCancelUpdateParamPlanResponse_specs : list (FieldSpec MsgGovCancelUpdateParamPlanResponse) := [].
#[export] Instance MsgGovCancelUpdateParamPlanResponse_table : ReflectTable MsgGovCancelUpdateParamPlanResponse.
Proof. solve_table MsgGovCancelUpdateParamPlanResponse_specs MsgGovCancelUpdateParamPlanResponse_unknownFields MsgGovCancelUpdateParamPlanResponse_set_unknown. Defined.
End tables.
