(* ===== verification/ReflectQuery.v ===== *)
(** * ReflectQuery: the reflection of the queries of the oracle

    The [protoreflect] methods of the structs of ApiQuery, in
    [src/api/oracle/v1]: a definition per method, each field by
    the fragments of Reflect, and the table of the fields that the contract of
    ReflectLemmas is proved from. *)
From S2P Require Import Prelude Util Wire WireLemmas Pulsar PulsarLemmas Reflect ReflectLemmas ApiOracle ApiQuery ReflectOracle.
Local Open Scope Z_scope.

(** ** Lists *)

Section lists.
Context `{CosmosApi}.

Record QueryExchangeRatesResponse_1_list := mkQueryExchangeRatesResponse_1_list {
  QueryExchangeRatesResponse_1_list_slice : option (list (option v1beta1_DecCoin));
}.
Record QueryActiveExchangeRatesResponse_1_list := mkQueryActiveExchangeRatesResponse_1_list {
  QueryActiveExchangeRatesResponse_1_list_slice : option (list string);
}.
Record QueryAggregatePrevotesResponse_1_list := mkQueryAggregatePrevotesResponse_1_list {
  QueryAggregatePrevotesResponse_1_list_slice : option (list (option AggregateExchangeRatePrevote));
}.
Record QueryAggregateVotesResponse_1_list := mkQueryAggregateVotesResponse_1_list {
  QueryAggregateVotesResponse_1_list_slice : option (list (option AggregateExchangeRateVote));
}.
Record QueryMediansResponse_1_list := mkQueryMediansResponse_1_list {
  QueryMediansResponse_1_list_slice : option (list (option PriceStamp));
}.
Record QueryMedianDeviationsResponse_1_list := mkQueryMedianDeviationsResponse_1_list {
  QueryMedianDeviationsResponse_1_list_slice : option (list (option PriceStamp));
}.
Record QueryWMARequest_3_list := mkQueryWMARequest_3_list {
  QueryWMARequest_3_list_slice : option (list Z);
}.
End lists.

(** ** Values of these types *)

Class QueryValues `{CosmosApi} `{ProtoReflect} := {
  ValidatorRewardSet_value :: MessageValue ValidatorRewardSet;
  QueryExchangeRatesResponse_1_list_value :: ListValue QueryExchangeRatesResponse_1_list;
  QueryActiveExchangeRatesResponse_1_list_value :: ListValue QueryActiveExchangeRatesResponse_1_list;
  QueryAggregatePrevotesResponse_1_list_value :: ListValue QueryAggregatePrevotesResponse_1_list;
  QueryAggregateVotesResponse_1_list_value :: ListValue QueryAggregateVotesResponse_1_list;
  QueryMediansResponse_1_list_value :: ListValue QueryMediansResponse_1_list;
  QueryMedianDeviationsResponse_1_list_value :: ListValue QueryMedianDeviationsResponse_1_list;
  QueryWMARequest_3_list_value :: ListValue QueryWMARequest_3_list;
}.

(** ** Methods *)

Section methods.
Context `{PulsarRuntime} `{CosmosApi} `{ProtoReflect} `{!OracleValues, !QueryValues}.

(** [QueryExchangeRates] *)

Definition fd_QueryExchangeRates_denom : FieldDescriptor :=
  mkField "oracle.v1.QueryExchangeRates.denom" 1 StringKind false.
Definition QueryExchangeRates_descriptor : list FieldDescriptor := [
  fd_QueryExchangeRates_denom].
Definition QueryExchangeRates_with_Denom (x : QueryExchangeRates) (v : string) : QueryExchangeRates
    :=
  mkQueryExchangeRates v (QueryExchangeRates_unknownFields x).
Definition QueryExchangeRates_GetDenom : option QueryExchangeRates → string :=
  getter ""%string QueryExchangeRates_Denom.
Definition QueryExchangeRates_Range {S} (x : option QueryExchangeRates)
    (f : FieldDescriptor → Value → M S bool) : M S () :=
  x ← lift (or_panic x);
  range_fields f [
    (has_string (QueryExchangeRates_Denom x), fd_QueryExchangeRates_denom, ValueOfString
       (QueryExchangeRates_Denom x))].
Definition QueryExchangeRates_Has (x : option QueryExchangeRates) (fd : FieldDescriptor) : outcome
    bool :=
  x ← or_panic x;
  field_switch fd [
    ("oracle.v1.QueryExchangeRates.denom"%string, Ok (has_string (QueryExchangeRates_Denom x)))].
Definition QueryExchangeRates_Clear (x : option QueryExchangeRates) (fd : FieldDescriptor) :
    outcome QueryExchangeRates :=
  x ← or_panic x;
  field_switch fd [
    ("oracle.v1.QueryExchangeRates.denom"%string, Ok (QueryExchangeRates_with_Denom x ""%string))].
Definition QueryExchangeRates_Get (x : option QueryExchangeRates) (fd : FieldDescriptor) : outcome
    Value :=
  x ← or_panic x;
  field_switch fd [
    ("oracle.v1.QueryExchangeRates.denom"%string, Ok (ValueOfString (QueryExchangeRates_Denom x)))].
Definition QueryExchangeRates_Set (x : option QueryExchangeRates) (fd : FieldDescriptor)
    (value : Value) : outcome QueryExchangeRates :=
  x ← or_panic x;
  field_switch fd [
    ("oracle.v1.QueryExchangeRates.denom"%string,
      set_string (QueryExchangeRates_with_Denom x) value)].
Definition QueryExchangeRates_Mutable (x : option QueryExchangeRates) (fd : FieldDescriptor) :
    outcome (Value * QueryExchangeRates) :=
  x ← or_panic x;
  field_switch fd [
    ("oracle.v1.QueryExchangeRates.denom"%string, Panic)].
Definition QueryExchangeRates_NewField (fd : FieldDescriptor) : outcome Value :=
  field_switch fd [
    ("oracle.v1.QueryExchangeRates.denom"%string, Ok (ValueOfString ""%string))].
Definition QueryExchangeRates_set_unknown (x : QueryExchangeRates) (fields : bytes) : QueryExchangeRates :=
  mkQueryExchangeRates (QueryExchangeRates_Denom x) fields.
#[export] Instance QueryExchangeRates_reflect : MessageReflect QueryExchangeRates := {|
  Range S := QueryExchangeRates_Range;
  Has := QueryExchangeRates_Has;
  Clear := QueryExchangeRates_Clear;
  Get := QueryExchangeRates_Get;
  Set_ := QueryExchangeRates_Set;
  Mutable := QueryExchangeRates_Mutable;
  NewField := QueryExchangeRates_NewField;
  Descriptor := QueryExchangeRates_descriptor;
  GetUnknown x := x ← or_panic x; Ok (QueryExchangeRates_unknownFields x);
  SetUnknown x fields := x ← or_panic x; Ok (QueryExchangeRates_set_unknown x fields);
|}.

(** [QueryExchangeRatesResponse] *)

Definition fd_QueryExchangeRatesResponse_exchange_rates : FieldDescriptor :=
  mkField "oracle.v1.QueryExchangeRatesResponse.exchange_rates" 1 MessageKind true.
Definition QueryExchangeRatesResponse_descriptor : list FieldDescriptor := [
  fd_QueryExchangeRatesResponse_exchange_rates].
Definition QueryExchangeRatesResponse_with_ExchangeRates (x : QueryExchangeRatesResponse)
    (v : list (option v1beta1_DecCoin)) : QueryExchangeRatesResponse :=
  mkQueryExchangeRatesResponse v (QueryExchangeRatesResponse_unknownFields x).
Definition QueryExchangeRatesResponse_GetExchangeRates : option QueryExchangeRatesResponse → list
    (option v1beta1_DecCoin) :=
  getter [] QueryExchangeRatesResponse_ExchangeRates.
#[export] Instance QueryExchangeRatesResponse_1_list_methods : ProtoList QueryExchangeRatesResponse_1_list :=
  message_list mkQueryExchangeRatesResponse_1_list QueryExchangeRatesResponse_1_list_slice.
Definition QueryExchangeRatesResponse_Range {S} (x : option QueryExchangeRatesResponse)
    (f : FieldDescriptor → Value → M S bool) : M S () :=
  x ← lift (or_panic x);
  range_fields f [
    (has_slice (QueryExchangeRatesResponse_ExchangeRates x),
       fd_QueryExchangeRatesResponse_exchange_rates, ValueOfList
       (mkQueryExchangeRatesResponse_1_list (Some (QueryExchangeRatesResponse_ExchangeRates x))))].
Definition QueryExchangeRatesResponse_Has (x : option QueryExchangeRatesResponse)
    (fd : FieldDescriptor) : outcome bool :=
  x ← or_panic x;
  field_switch fd [
    ("oracle.v1.QueryExchangeRatesResponse.exchange_rates"%string,
      Ok (has_slice (QueryExchangeRatesResponse_ExchangeRates x)))].
Definition QueryExchangeRatesResponse_Clear (x : option QueryExchangeRatesResponse)
    (fd : FieldDescriptor) : outcome QueryExchangeRatesResponse :=
  x ← or_panic x;
  field_switch fd [
    ("oracle.v1.QueryExchangeRatesResponse.exchange_rates"%string,
      Ok (QueryExchangeRatesResponse_with_ExchangeRates x []))].
Definition QueryExchangeRatesResponse_Get (x : option QueryExchangeRatesResponse)
    (fd : FieldDescriptor) : outcome Value :=
  x ← or_panic x;
  field_switch fd [
    ("oracle.v1.QueryExchangeRatesResponse.exchange_rates"%string,
      Ok
        (get_list mkQueryExchangeRatesResponse_1_list (QueryExchangeRatesResponse_ExchangeRates x)))].
Definition QueryExchangeRatesResponse_Set (x : option QueryExchangeRatesResponse)
    (fd : FieldDescriptor) (value : Value) : outcome QueryExchangeRatesResponse :=
  x ← or_panic x;
  field_switch fd [
    ("oracle.v1.QueryExchangeRatesResponse.exchange_rates"%string,
      set_list QueryExchangeRatesResponse_1_list_slice
        (QueryExchangeRatesResponse_with_ExchangeRates x) value)].
Definition QueryExchangeRatesResponse_Mutable (x : option QueryExchangeRatesResponse)
    (fd : FieldDescriptor) : outcome (Value * QueryExchangeRatesResponse) :=
  x ← or_panic x;
  field_switch fd [
    ("oracle.v1.QueryExchangeRatesResponse.exchange_rates"%string,
      mutable_list mkQueryExchangeRatesResponse_1_list x
        (QueryExchangeRatesResponse_ExchangeRates x))].
Definition QueryExchangeRatesResponse_NewField (fd : FieldDescriptor) : outcome Value :=
  field_switch fd [
    ("oracle.v1.QueryExchangeRatesResponse.exchange_rates"%string,
      new_list mkQueryExchangeRatesResponse_1_list)].
Definition QueryExchangeRatesResponse_set_unknown (x : QueryExchangeRatesResponse) (fields : bytes) : QueryExchangeRatesResponse :=
  mkQueryExchangeRatesResponse (QueryExchangeRatesResponse_ExchangeRates x) fields.
#[export] Instance QueryExchangeRatesResponse_reflect : MessageReflect QueryExchangeRatesResponse := {|
  Range S := QueryExchangeRatesResponse_Range;
  Has := QueryExchangeRatesResponse_Has;
  Clear := QueryExchangeRatesResponse_Clear;
  Get := QueryExchangeRatesResponse_Get;
  Set_ := QueryExchangeRatesResponse_Set;
  Mutable := QueryExchangeRatesResponse_Mutable;
  NewField := QueryExchangeRatesResponse_NewField;
  Descriptor := QueryExchangeRatesResponse_descriptor;
  GetUnknown x := x ← or_panic x; Ok (QueryExchangeRatesResponse_unknownFields x);
  SetUnknown x fields := x ← or_panic x; Ok (QueryExchangeRatesResponse_set_unknown x fields);
|}.

(** [QueryActiveExchangeRates] *)

Definition QueryActiveExchangeRates_descriptor : list FieldDescriptor := [].
Definition QueryActiveExchangeRates_Range {S} (x : option QueryActiveExchangeRates)
    (f : FieldDescriptor → Value → M S bool) : M S () :=
  mret ().
Definition QueryActiveExchangeRates_Has (x : option QueryActiveExchangeRates)
    (fd : FieldDescriptor) : outcome bool :=
  field_switch fd [].
Definition QueryActiveExchangeRates_Clear (x : option QueryActiveExchangeRates)
    (fd : FieldDescriptor) : outcome QueryActiveExchangeRates :=
  field_switch fd [].
Definition QueryActiveExchangeRates_Get (x : option QueryActiveExchangeRates)
    (fd : FieldDescriptor) : outcome Value :=
  field_switch fd [].
Definition QueryActiveExchangeRates_Set (x : option QueryActiveExchangeRates)
    (fd : FieldDescriptor) (value : Value) : outcome QueryActiveExchangeRates :=
  field_switch fd [].
Definition QueryActiveExchangeRates_Mutable (x : option QueryActiveExchangeRates)
    (fd : FieldDescriptor) : outcome (Value * QueryActiveExchangeRates) :=
  field_switch fd [].
Definition QueryActiveExchangeRates_NewField (fd : FieldDescriptor) : outcome Value :=
  field_switch fd [].
Definition QueryActiveExchangeRates_set_unknown (x : QueryActiveExchangeRates) (fields : bytes) : QueryActiveExchangeRates :=
  mkQueryActiveExchangeRates fields.
#[export] Instance QueryActiveExchangeRates_reflect : MessageReflect QueryActiveExchangeRates := {|
  Range S := QueryActiveExchangeRates_Range;
  Has := QueryActiveExchangeRates_Has;
  Clear := QueryActiveExchangeRates_Clear;
  Get := QueryActiveExchangeRates_Get;
  Set_ := QueryActiveExchangeRates_Set;
  Mutable := QueryActiveExchangeRates_Mutable;
  NewField := QueryActiveExchangeRates_NewField;
  Descriptor := QueryActiveExchangeRates_descriptor;
  GetUnknown x := x ← or_panic x; Ok (QueryActiveExchangeRates_unknownFields x);
  SetUnknown x fields := x ← or_panic x; Ok (QueryActiveExchangeRates_set_unknown x fields);
|}.

(** [QueryActiveExchangeRatesResponse] *)

Definition fd_QueryActiveExchangeRatesResponse_active_rates : FieldDescriptor :=
  mkField "oracle.v1.QueryActiveExchangeRatesResponse.active_rates" 1 StringKind true.
Definition QueryActiveExchangeRatesResponse_descriptor : list FieldDescriptor := [
  fd_QueryActiveExchangeRatesResponse_active_rates].
Definition QueryActiveExchangeRatesResponse_with_ActiveRates (x : QueryActiveExchangeRatesResponse)
    (v : list string) : QueryActiveExchangeRatesResponse :=
  mkQueryActiveExchangeRatesResponse v (QueryActiveExchangeRatesResponse_unknownFields x).
Definition QueryActiveExchangeRatesResponse_GetActiveRates : option
    QueryActiveExchangeRatesResponse → list string :=
  getter [] QueryActiveExchangeRatesResponse_ActiveRates.
#[export] Instance QueryActiveExchangeRatesResponse_1_list_methods : ProtoList QueryActiveExchangeRatesResponse_1_list :=
  string_list mkQueryActiveExchangeRatesResponse_1_list QueryActiveExchangeRatesResponse_1_list_slice.
Definition QueryActiveExchangeRatesResponse_Range {S} (x : option QueryActiveExchangeRatesResponse)
    (f : FieldDescriptor → Value → M S bool) : M S () :=
  x ← lift (or_panic x);
  range_fields f [
    (has_slice (QueryActiveExchangeRatesResponse_ActiveRates x),
       fd_QueryActiveExchangeRatesResponse_active_rates, ValueOfList
       (mkQueryActiveExchangeRatesResponse_1_list (Some (QueryActiveExchangeRatesResponse_ActiveRates x))))].
Definition QueryActiveExchangeRatesResponse_Has (x : option QueryActiveExchangeRatesResponse)
    (fd : FieldDescriptor) : outcome bool :=
  x ← or_panic x;
  field_switch fd [
    ("oracle.v1.QueryActiveExchangeRatesResponse.active_rates"%string,
      Ok (has_slice (QueryActiveExchangeRatesResponse_ActiveRates x)))].
Definition QueryActiveExchangeRatesResponse_Clear (x : option QueryActiveExchangeRatesResponse)
    (fd : FieldDescriptor) : outcome QueryActiveExchangeRatesResponse :=
  x ← or_panic x;
  field_switch fd [
    ("oracle.v1.QueryActiveExchangeRatesResponse.active_rates"%string,
      Ok (QueryActiveExchangeRatesResponse_with_ActiveRates x []))].
Definition QueryActiveExchangeRatesResponse_Get (x : option QueryActiveExchangeRatesResponse)
    (fd : FieldDescriptor) : outcome Value :=
  x ← or_panic x;
  field_switch fd [
    ("oracle.v1.QueryActiveExchangeRatesResponse.active_rates"%string,
      Ok
        (get_list mkQueryActiveExchangeRatesResponse_1_list (QueryActiveExchangeRatesResponse_ActiveRates x)))].
Definition QueryActiveExchangeRatesResponse_Set (x : option QueryActiveExchangeRatesResponse)
    (fd : FieldDescriptor) (value : Value) : outcome QueryActiveExchangeRatesResponse :=
  x ← or_panic x;
  field_switch fd [
    ("oracle.v1.QueryActiveExchangeRatesResponse.active_rates"%string,
      set_list QueryActiveExchangeRatesResponse_1_list_slice
        (QueryActiveExchangeRatesResponse_with_ActiveRates x) value)].
Definition QueryActiveExchangeRatesResponse_Mutable (x : option QueryActiveExchangeRatesResponse)
    (fd : FieldDescriptor) : outcome (Value * QueryActiveExchangeRatesResponse) :=
  x ← or_panic x;
  field_switch fd [
    ("oracle.v1.QueryActiveExchangeRatesResponse.active_rates"%string,
      mutable_list mkQueryActiveExchangeRatesResponse_1_list x
        (QueryActiveExchangeRatesResponse_ActiveRates x))].
Definition QueryActiveExchangeRatesResponse_NewField (fd : FieldDescriptor) : outcome Value :=
  field_switch fd [
    ("oracle.v1.QueryActiveExchangeRatesResponse.active_rates"%string,
      new_list mkQueryActiveExchangeRatesResponse_1_list)].
Definition QueryActiveExchangeRatesResponse_set_unknown (x : QueryActiveExchangeRatesResponse) (fields : bytes) : QueryActiveExchangeRatesResponse :=
  mkQueryActiveExchangeRatesResponse (QueryActiveExchangeRatesResponse_ActiveRates x) fields.
#[export] Instance QueryActiveExchangeRatesResponse_reflect : MessageReflect QueryActiveExchangeRatesResponse := {|
  Range S := QueryActiveExchangeRatesResponse_Range;
  Has := QueryActiveExchangeRatesResponse_Has;
  Clear := QueryActiveExchangeRatesResponse_Clear;
  Get := QueryActiveExchangeRatesResponse_Get;
  Set_ := QueryActiveExchangeRatesResponse_Set;
  Mutable := QueryActiveExchangeRatesResponse_Mutable;
  NewField := QueryActiveExchangeRatesResponse_NewField;
  Descriptor := QueryActiveExchangeRatesResponse_descriptor;
  GetUnknown x := x ← or_panic x; Ok (QueryActiveExchangeRatesResponse_unknownFields x);
  SetUnknown x fields := x ← or_panic x; Ok (QueryActiveExchangeRatesResponse_set_unknown x fields);
|}.

(** [QueryFeederDelegation] *)

Definition fd_QueryFeederDelegation_validator_addr : FieldDescriptor :=
  mkField "oracle.v1.QueryFeederDelegation.validator_addr" 1 StringKind false.
Definition QueryFeederDelegation_descriptor : list FieldDescriptor := [
  fd_QueryFeederDelegation_validator_addr].
Definition QueryFeederDelegation_with_ValidatorAddr (x : QueryFeederDelegation) (v : string) :
    QueryFeederDelegation :=
  mkQueryFeederDelegation v (QueryFeederDelegation_unknownFields x).
Definition QueryFeederDelegation_GetValidatorAddr : option QueryFeederDelegation → string :=
  getter ""%string QueryFeederDelegation_ValidatorAddr.
Definition QueryFeederDelegation_Range {S} (x : option QueryFeederDelegation)
    (f : FieldDescriptor → Value → M S bool) : M S () :=
  x ← lift (or_panic x);
  range_fields f [
    (has_string (QueryFeederDelegation_ValidatorAddr x), fd_QueryFeederDelegation_validator_addr,
       ValueOfString (QueryFeederDelegation_ValidatorAddr x))].
Definition QueryFeederDelegation_Has (x : option QueryFeederDelegation) (fd : FieldDescriptor) :
    outcome bool :=
  x ← or_panic x;
  field_switch fd [
    ("oracle.v1.QueryFeederDelegation.validator_addr"%string,
      Ok (has_string (QueryFeederDelegation_ValidatorAddr x)))].
Definition QueryFeederDelegation_Clear (x : option QueryFeederDelegation) (fd : FieldDescriptor) :
    outcome QueryFeederDelegation :=
  x ← or_panic x;
  field_switch fd [
    ("oracle.v1.QueryFeederDelegation.validator_addr"%string,
      Ok (QueryFeederDelegation_with_ValidatorAddr x ""%string))].
Definition QueryFeederDelegation_Get (x : option QueryFeederDelegation) (fd : FieldDescriptor) :
    outcome Value :=
  x ← or_panic x;
  field_switch fd [
    ("oracle.v1.QueryFeederDelegation.validator_addr"%string,
      Ok (ValueOfString (QueryFeederDelegation_ValidatorAddr x)))].
Definition QueryFeederDelegation_Set (x : option QueryFeederDelegation) (fd : FieldDescriptor)
    (value : Value) : outcome QueryFeederDelegation :=
  x ← or_panic x;
  field_switch fd [
    ("oracle.v1.QueryFeederDelegation.validator_addr"%string,
      set_string (QueryFeederDelegation_with_ValidatorAddr x) value)].
Definition QueryFeederDelegation_Mutable (x : option QueryFeederDelegation) (fd : FieldDescriptor)
    : outcome (Value * QueryFeederDelegation) :=
  x ← or_panic x;
  field_switch fd [
    ("oracle.v1.QueryFeederDelegation.validator_addr"%string, Panic)].
Definition QueryFeederDelegation_NewField (fd : FieldDescriptor) : outcome Value :=
  field_switch fd [
    ("oracle.v1.QueryFeederDelegation.validator_addr"%string, Ok (ValueOfString ""%string))].
Definition QueryFeederDelegation_set_unknown (x : QueryFeederDelegation) (fields : bytes) : QueryFeederDelegation :=
  mkQueryFeederDelegation (QueryFeederDelegation_ValidatorAddr x) fields.
#[export] Instance QueryFeederDelegation_reflect : MessageReflect QueryFeederDelegation := {|
  Range S := QueryFeederDelegation_Range;
  Has := QueryFeederDelegation_Has;
  Clear := QueryFeederDelegation_Clear;
  Get := QueryFeederDelegation_Get;
  Set_ := QueryFeederDelegation_Set;
  Mutable := QueryFeederDelegation_Mutable;
  NewField := QueryFeederDelegation_NewField;
  Descriptor := QueryFeederDelegation_descriptor;
  GetUnknown x := x ← or_panic x; Ok (QueryFeederDelegation_unknownFields x);
  SetUnknown x fields := x ← or_panic x; Ok (QueryFeederDelegation_set_unknown x fields);
|}.

(** [QueryFeederDelegationResponse] *)

Definition fd_QueryFeederDelegationResponse_feeder_addr : FieldDescriptor :=
  mkField "oracle.v1.QueryFeederDelegationResponse.feeder_addr" 1 StringKind false.
Definition QueryFeederDelegationResponse_descriptor : list FieldDescriptor := [
  fd_QueryFeederDelegationResponse_feeder_addr].
Definition QueryFeederDelegationResponse_with_FeederAddr (x : QueryFeederDelegationResponse)
    (v : string) : QueryFeederDelegationResponse :=
  mkQueryFeederDelegationResponse v (QueryFeederDelegationResponse_unknownFields x).
Definition QueryFeederDelegationResponse_GetFeederAddr : option QueryFeederDelegationResponse →
    string :=
  getter ""%string QueryFeederDelegationResponse_FeederAddr.
Definition QueryFeederDelegationResponse_Range {S} (x : option QueryFeederDelegationResponse)
    (f : FieldDescriptor → Value → M S bool) : M S () :=
  x ← lift (or_panic x);
  range_fields f [
    (has_string (QueryFeederDelegationResponse_FeederAddr x),
       fd_QueryFeederDelegationResponse_feeder_addr, ValueOfString
       (QueryFeederDelegationResponse_FeederAddr x))].
Definition QueryFeederDelegationResponse_Has (x : option QueryFeederDelegationResponse)
    (fd : FieldDescriptor) : outcome bool :=
  x ← or_panic x;
  field_switch fd [
    ("oracle.v1.QueryFeederDelegationResponse.feeder_addr"%string,
      Ok (has_string (QueryFeederDelegationResponse_FeederAddr x)))].
Definition QueryFeederDelegationResponse_Clear (x : option QueryFeederDelegationResponse)
    (fd : FieldDescriptor) : outcome QueryFeederDelegationResponse :=
  x ← or_panic x;
  field_switch fd [
    ("oracle.v1.QueryFeederDelegationResponse.feeder_addr"%string,
      Ok (QueryFeederDelegationResponse_with_FeederAddr x ""%string))].
Definition QueryFeederDelegationResponse_Get (x : option QueryFeederDelegationResponse)
    (fd : FieldDescriptor) : outcome Value :=
  x ← or_panic x;
  field_switch fd [
    ("oracle.v1.QueryFeederDelegationResponse.feeder_addr"%string,
      Ok (ValueOfString (QueryFeederDelegationResponse_FeederAddr x)))].
Definition QueryFeederDelegationResponse_Set (x : option QueryFeederDelegationResponse)
    (fd : FieldDescriptor) (value : Value) : outcome QueryFeederDelegationResponse :=
  x ← or_panic x;
  field_switch fd [
    ("oracle.v1.QueryFeederDelegationResponse.feeder_addr"%string,
      set_string (QueryFeederDelegationResponse_with_FeederAddr x) value)].
Definition QueryFeederDelegationResponse_Mutable (x : option QueryFeederDelegationResponse)
    (fd : FieldDescriptor) : outcome (Value * QueryFeederDelegationResponse) :=
  x ← or_panic x;
  field_switch fd [
    ("oracle.v1.QueryFeederDelegationResponse.feeder_addr"%string, Panic)].
Definition QueryFeederDelegationResponse_NewField (fd : FieldDescriptor) : outcome Value :=
  field_switch fd [
    ("oracle.v1.QueryFeederDelegationResponse.feeder_addr"%string, Ok (ValueOfString ""%string))].
Definition QueryFeederDelegationResponse_set_unknown (x : QueryFeederDelegationResponse) (fields : bytes) : QueryFeederDelegationResponse :=
  mkQueryFeederDelegationResponse (QueryFeederDelegationResponse_FeederAddr x) fields.
#[export] Instance QueryFeederDelegationResponse_reflect : MessageReflect QueryFeederDelegationResponse := {|
  Range S := QueryFeederDelegationResponse_Range;
  Has := QueryFeederDelegationResponse_Has;
  Clear := QueryFeederDelegationResponse_Clear;
  Get := QueryFeederDelegationResponse_Get;
  Set_ := QueryFeederDelegationResponse_Set;
  Mutable := QueryFeederDelegationResponse_Mutable;
  NewField := QueryFeederDelegationResponse_NewField;
  Descriptor := QueryFeederDelegationResponse_descriptor;
  GetUnknown x := x ← or_panic x; Ok (QueryFeederDelegationResponse_unknownFields x);
  SetUnknown x fields := x ← or_panic x; Ok (QueryFeederDelegationResponse_set_unknown x fields);
|}.

(** [QueryMissCounter] *)

Definition fd_QueryMissCounter_validator_addr : FieldDescriptor :=
  mkField "oracle.v1.QueryMissCounter.validator_addr" 1 StringKind false.
Definition QueryMissCounter_descriptor : list FieldDescriptor := [
  fd_QueryMissCounter_validator_addr].
Definition QueryMissCounter_with_ValidatorAddr (x : QueryMissCounter) (v : string) :
    QueryMissCounter :=
  mkQueryMissCounter v (QueryMissCounter_unknownFields x).
Definition QueryMissCounter_GetValidatorAddr : option QueryMissCounter → string :=
  getter ""%string QueryMissCounter_ValidatorAddr.
Definition QueryMissCounter_Range {S} (x : option QueryMissCounter)
    (f : FieldDescriptor → Value → M S bool) : M S () :=
  x ← lift (or_panic x);
  range_fields f [
    (has_string (QueryMissCounter_ValidatorAddr x), fd_QueryMissCounter_validator_addr,
       ValueOfString (QueryMissCounter_ValidatorAddr x))].
Definition QueryMissCounter_Has (x : option QueryMissCounter) (fd : FieldDescriptor) : outcome bool
    :=
  x ← or_panic x;
  field_switch fd [
    ("oracle.v1.QueryMissCounter.validator_addr"%string,
      Ok (has_string (QueryMissCounter_ValidatorAddr x)))].
Definition QueryMissCounter_Clear (x : option QueryMissCounter) (fd : FieldDescriptor) : outcome
    QueryMissCounter :=
  x ← or_panic x;
  field_switch fd [
    ("oracle.v1.QueryMissCounter.validator_addr"%string,
      Ok (QueryMissCounter_with_ValidatorAddr x ""%string))].
Definition QueryMissCounter_Get (x : option QueryMissCounter) (fd : FieldDescriptor) : outcome
    Value :=
  x ← or_panic x;
  field_switch fd [
    ("oracle.v1.QueryMissCounter.validator_addr"%string,
      Ok (ValueOfString (QueryMissCounter_ValidatorAddr x)))].
Definition QueryMissCounter_Set (x : option QueryMissCounter) (fd : FieldDescriptor)
    (value : Value) : outcome QueryMissCounter :=
  x ← or_panic x;
  field_switch fd [
    ("oracle.v1.QueryMissCounter.validator_addr"%string,
      set_string (QueryMissCounter_with_ValidatorAddr x) value)].
Definition QueryMissCounter_Mutable (x : option QueryMissCounter) (fd : FieldDescriptor) : outcome
    (Value * QueryMissCounter) :=
  x ← or_panic x;
  field_switch fd [
    ("oracle.v1.QueryMissCounter.validator_addr"%string, Panic)].
Definition QueryMissCounter_NewField (fd : FieldDescriptor) : outcome Value :=
  field_switch fd [
    ("oracle.v1.QueryMissCounter.validator_addr"%string, Ok (ValueOfString ""%string))].
Definition QueryMissCounter_set_unknown (x : QueryMissCounter) (fields : bytes) : QueryMissCounter :=
  mkQueryMissCounter (QueryMissCounter_ValidatorAddr x) fields.
#[export] Instance QueryMissCounter_reflect : MessageReflect QueryMissCounter := {|
  Range S := QueryMissCounter_Range;
  Has := QueryMissCounter_Has;
  Clear := QueryMissCounter_Clear;
  Get := QueryMissCounter_Get;
  Set_ := QueryMissCounter_Set;
  Mutable := QueryMissCounter_Mutable;
  NewField := QueryMissCounter_NewField;
  Descriptor := QueryMissCounter_descriptor;
  GetUnknown x := x ← or_panic x; Ok (QueryMissCounter_unknownFields x);
  SetUnknown x fields := x ← or_panic x; Ok (QueryMissCounter_set_unknown x fields);
|}.

(** [QueryMissCounterResponse] *)

Definition fd_QueryMissCounterResponse_miss_counter : FieldDescriptor :=
  mkField "oracle.v1.QueryMissCounterResponse.miss_counter" 1 Uint64Kind false.
Definition QueryMissCounterResponse_descriptor : list FieldDescriptor := [
  fd_QueryMissCounterResponse_miss_counter].
Definition QueryMissCounterResponse_with_MissCounter (x : QueryMissCounterResponse) (v : Z) :
    QueryMissCounterResponse :=
  mkQueryMissCounterResponse v (QueryMissCounterResponse_unknownFields x).
Definition QueryMissCounterResponse_GetMissCounter : option QueryMissCounterResponse → Z :=
  getter 0 QueryMissCounterResponse_MissCounter.
Definition QueryMissCounterResponse_Range {S} (x : option QueryMissCounterResponse)
    (f : FieldDescriptor → Value → M S bool) : M S () :=
  x ← lift (or_panic x);
  range_fields f [
    (has_int (QueryMissCounterResponse_MissCounter x), fd_QueryMissCounterResponse_miss_counter,
       ValueOfUint64 (QueryMissCounterResponse_MissCounter x))].
Definition QueryMissCounterResponse_Has (x : option QueryMissCounterResponse)
    (fd : FieldDescriptor) : outcome bool :=
  x ← or_panic x;
  field_switch fd [
    ("oracle.v1.QueryMissCounterResponse.miss_counter"%string,
      Ok (has_int (QueryMissCounterResponse_MissCounter x)))].
Definition QueryMissCounterResponse_Clear (x : option QueryMissCounterResponse)
    (fd : FieldDescriptor) : outcome QueryMissCounterResponse :=
  x ← or_panic x;
  field_switch fd [
    ("oracle.v1.QueryMissCounterResponse.miss_counter"%string,
      Ok (QueryMissCounterResponse_with_MissCounter x 0))].
Definition QueryMissCounterResponse_Get (x : option QueryMissCounterResponse)
    (fd : FieldDescriptor) : outcome Value :=
  x ← or_panic x;
  field_switch fd [
    ("oracle.v1.QueryMissCounterResponse.miss_counter"%string,
      Ok (ValueOfUint64 (QueryMissCounterResponse_MissCounter x)))].
Definition QueryMissCounterResponse_Set (x : option QueryMissCounterResponse)
    (fd : FieldDescriptor) (value : Value) : outcome QueryMissCounterResponse :=
  x ← or_panic x;
  field_switch fd [
    ("oracle.v1.QueryMissCounterResponse.miss_counter"%string,
      set_uint64 (QueryMissCounterResponse_with_MissCounter x) value)].
Definition QueryMissCounterResponse_Mutable (x : option QueryMissCounterResponse)
    (fd : FieldDescriptor) : outcome (Value * QueryMissCounterResponse) :=
  x ← or_panic x;
  field_switch fd [
    ("oracle.v1.QueryMissCounterResponse.miss_counter"%string, Panic)].
Definition QueryMissCounterResponse_NewField (fd : FieldDescriptor) : outcome Value :=
  field_switch fd [
    ("oracle.v1.QueryMissCounterResponse.miss_counter"%string, Ok (ValueOfUint64 0))].
Definition QueryMissCounterResponse_set_unknown (x : QueryMissCounterResponse) (fields : bytes) : QueryMissCounterResponse :=
  mkQueryMissCounterResponse (QueryMissCounterResponse_MissCounter x) fields.
#[export] Instance QueryMissCounterResponse_reflect : MessageReflect QueryMissCounterResponse := {|
  Range S := QueryMissCounterResponse_Range;
  Has := QueryMissCounterResponse_Has;
  Clear := QueryMissCounterResponse_Clear;
  Get := QueryMissCounterResponse_Get;
  Set_ := QueryMissCounterResponse_Set;
  Mutable := QueryMissCounterResponse_Mutable;
  NewField := QueryMissCounterResponse_NewField;
  Descriptor := QueryMissCounterResponse_descriptor;
  GetUnknown x := x ← or_panic x; Ok (QueryMissCounterResponse_unknownFields x);
  SetUnknown x fields := x ← or_panic x; Ok (QueryMissCounterResponse_set_unknown x fields);
|}.

(** [QuerySlashWindow] *)

Definition QuerySlashWindow_descriptor : list FieldDescriptor := [].
Definition QuerySlashWindow_Range {S} (x : option QuerySlashWindow)
    (f : FieldDescriptor → Value → M S bool) : M S () :=
  mret ().
Definition QuerySlashWindow_Has (x : option QuerySlashWindow) (fd : FieldDescriptor) : outcome bool
    :=
  field_switch fd [].
Definition QuerySlashWindow_Clear (x : option QuerySlashWindow) (fd : FieldDescriptor) : outcome
    QuerySlashWindow :=
  field_switch fd [].
Definition QuerySlashWindow_Get (x : option QuerySlashWindow) (fd : FieldDescriptor) : outcome
    Value :=
  field_switch fd [].
Definition QuerySlashWindow_Set (x : option QuerySlashWindow) (fd : FieldDescriptor)
    (value : Value) : outcome QuerySlashWindow :=
  field_switch fd [].
Definition QuerySlashWindow_Mutable (x : option QuerySlashWindow) (fd : FieldDescriptor) : outcome
    (Value * QuerySlashWindow) :=
  field_switch fd [].
Definition QuerySlashWindow_NewField (fd : FieldDescriptor) : outcome Value :=
  field_switch fd [].
Definition QuerySlashWindow_set_unknown (x : QuerySlashWindow) (fields : bytes) : QuerySlashWindow :=
  mkQuerySlashWindow fields.
#[export] Instance QuerySlashWindow_reflect : MessageReflect QuerySlashWindow := {|
  Range S := QuerySlashWindow_Range;
  Has := QuerySlashWindow_Has;
  Clear := QuerySlashWindow_Clear;
  Get := QuerySlashWindow_Get;
  Set_ := QuerySlashWindow_Set;
  Mutable := QuerySlashWindow_Mutable;
  NewField := QuerySlashWindow_NewField;
  Descriptor := QuerySlashWindow_descriptor;
  GetUnknown x := x ← or_panic x; Ok (QuerySlashWindow_unknownFields x);
  SetUnknown x fields := x ← or_panic x; Ok (QuerySlashWindow_set_unknown x fields);
|}.

(** [QuerySlashWindowResponse] *)

Definition fd_QuerySlashWindowResponse_window_progress : FieldDescriptor :=
  mkField "oracle.v1.QuerySlashWindowResponse.window_progress" 1 Uint64Kind false.
Definition QuerySlashWindowResponse_descriptor : list FieldDescriptor := [
  fd_QuerySlashWindowResponse_window_progress].
Definition QuerySlashWindowResponse_with_WindowProgress (x : QuerySlashWindowResponse) (v : Z) :
    QuerySlashWindowResponse :=
  mkQuerySlashWindowResponse v (QuerySlashWindowResponse_unknownFields x).
Definition QuerySlashWindowResponse_GetWindowProgress : option QuerySlashWindowResponse → Z :=
  getter 0 QuerySlashWindowResponse_WindowProgress.
Definition QuerySlashWindowResponse_Range {S} (x : option QuerySlashWindowResponse)
    (f : FieldDescriptor → Value → M S bool) : M S () :=
  x ← lift (or_panic x);
  range_fields f [
    (has_int (QuerySlashWindowResponse_WindowProgress x),
       fd_QuerySlashWindowResponse_window_progress, ValueOfUint64
       (QuerySlashWindowResponse_WindowProgress x))].
Definition QuerySlashWindowResponse_Has (x : option QuerySlashWindowResponse)
    (fd : FieldDescriptor) : outcome bool :=
  x ← or_panic x;
  field_switch fd [
    ("oracle.v1.QuerySlashWindowResponse.window_progress"%string,
      Ok (has_int (QuerySlashWindowResponse_WindowProgress x)))].
Definition QuerySlashWindowResponse_Clear (x : option QuerySlashWindowResponse)
    (fd : FieldDescriptor) : outcome QuerySlashWindowResponse :=
  x ← or_panic x;
  field_switch fd [
    ("oracle.v1.QuerySlashWindowResponse.window_progress"%string,
      Ok (QuerySlashWindowResponse_with_WindowProgress x 0))].
Definition QuerySlashWindowResponse_Get (x : option QuerySlashWindowResponse)
    (fd : FieldDescriptor) : outcome Value :=
  x ← or_panic x;
  field_switch fd [
    ("oracle.v1.QuerySlashWindowResponse.window_progress"%string,
      Ok (ValueOfUint64 (QuerySlashWindowResponse_WindowProgress x)))].
Definition QuerySlashWindowResponse_Set (x : option QuerySlashWindowResponse)
    (fd : FieldDescriptor) (value : Value) : outcome QuerySlashWindowResponse :=
  x ← or_panic x;
  field_switch fd [
    ("oracle.v1.QuerySlashWindowResponse.window_progress"%string,
      set_uint64 (QuerySlashWindowResponse_with_WindowProgress x) value)].
Definition QuerySlashWindowResponse_Mutable (x : option QuerySlashWindowResponse)
    (fd : FieldDescriptor) : outcome (Value * QuerySlashWindowResponse) :=
  x ← or_panic x;
  field_switch fd [
    ("oracle.v1.QuerySlashWindowResponse.window_progress"%string, Panic)].
Definition QuerySlashWindowResponse_NewField (fd : FieldDescriptor) : outcome Value :=
  field_switch fd [
    ("oracle.v1.QuerySlashWindowResponse.window_progress"%string, Ok (ValueOfUint64 0))].
Definition QuerySlashWindowResponse_set_unknown (x : QuerySlashWindowResponse) (fields : bytes) : QuerySlashWindowResponse :=
  mkQuerySlashWindowResponse (QuerySlashWindowResponse_WindowProgress x) fields.
#[export] Instance QuerySlashWindowResponse_reflect : MessageReflect QuerySlashWindowResponse := {|
  Range S := QuerySlashWindowResponse_Range;
  Has := QuerySlashWindowResponse_Has;
  Clear := QuerySlashWindowResponse_Clear;
  Get := QuerySlashWindowResponse_Get;
  Set_ := QuerySlashWindowResponse_Set;
  Mutable := QuerySlashWindowResponse_Mutable;
  NewField := QuerySlashWindowResponse_NewField;
  Descriptor := QuerySlashWindowResponse_descriptor;
  GetUnknown x := x ← or_panic x; Ok (QuerySlashWindowResponse_unknownFields x);
  SetUnknown x fields := x ← or_panic x; Ok (QuerySlashWindowResponse_set_unknown x fields);
|}.

(** [QueryAggregatePrevote] *)

Definition fd_QueryAggregatePrevote_validator_addr : FieldDescriptor :=
  mkField "oracle.v1.QueryAggregatePrevote.validator_addr" 1 StringKind false.
Definition QueryAggregatePrevote_descriptor : list FieldDescriptor := [
  fd_QueryAggregatePrevote_validator_addr].
Definition QueryAggregatePrevote_with_ValidatorAddr (x : QueryAggregatePrevote) (v : string) :
    QueryAggregatePrevote :=
  mkQueryAggregatePrevote v (QueryAggregatePrevote_unknownFields x).
Definition QueryAggregatePrevote_GetValidatorAddr : option QueryAggregatePrevote → string :=
  getter ""%string QueryAggregatePrevote_ValidatorAddr.
Definition QueryAggregatePrevote_Range {S} (x : option QueryAggregatePrevote)
    (f : FieldDescriptor → Value → M S bool) : M S () :=
  x ← lift (or_panic x);
  range_fields f [
    (has_string (QueryAggregatePrevote_ValidatorAddr x), fd_QueryAggregatePrevote_validator_addr,
       ValueOfString (QueryAggregatePrevote_ValidatorAddr x))].
Definition QueryAggregatePrevote_Has (x : option QueryAggregatePrevote) (fd : FieldDescriptor) :
    outcome bool :=
  x ← or_panic x;
  field_switch fd [
    ("oracle.v1.QueryAggregatePrevote.validator_addr"%string,
      Ok (has_string (QueryAggregatePrevote_ValidatorAddr x)))].
Definition QueryAggregatePrevote_Clear (x : option QueryAggregatePrevote) (fd : FieldDescriptor) :
    outcome QueryAggregatePrevote :=
  x ← or_panic x;
  field_switch fd [
    ("oracle.v1.QueryAggregatePrevote.validator_addr"%string,
      Ok (QueryAggregatePrevote_with_ValidatorAddr x ""%string))].
Definition QueryAggregatePrevote_Get (x : option QueryAggregatePrevote) (fd : FieldDescriptor) :
    outcome Value :=
  x ← or_panic x;
  field_switch fd [
    ("oracle.v1.QueryAggregatePrevote.validator_addr"%string,
      Ok (ValueOfString (QueryAggregatePrevote_ValidatorAddr x)))].
Definition QueryAggregatePrevote_Set (x : option QueryAggregatePrevote) (fd : FieldDescriptor)
    (value : Value) : outcome QueryAggregatePrevote :=
  x ← or_panic x;
  field_switch fd [
    ("oracle.v1.QueryAggregatePrevote.validator_addr"%string,
      set_string (QueryAggregatePrevote_with_ValidatorAddr x) value)].
Definition QueryAggregatePrevote_Mutable (x : option QueryAggregatePrevote) (fd : FieldDescriptor)
    : outcome (Value * QueryAggregatePrevote) :=
  x ← or_panic x;
  field_switch fd [
    ("oracle.v1.QueryAggregatePrevote.validator_addr"%string, Panic)].
Definition QueryAggregatePrevote_NewField (fd : FieldDescriptor) : outcome Value :=
  field_switch fd [
    ("oracle.v1.QueryAggregatePrevote.validator_addr"%string, Ok (ValueOfString ""%string))].
Definition QueryAggregatePrevote_set_unknown (x : QueryAggregatePrevote) (fields : bytes) : QueryAggregatePrevote :=
  mkQueryAggregatePrevote (QueryAggregatePrevote_ValidatorAddr x) fields.
#[export] Instance QueryAggregatePrevote_reflect : MessageReflect QueryAggregatePrevote := {|
  Range S := QueryAggregatePrevote_Range;
  Has := QueryAggregatePrevote_Has;
  Clear := QueryAggregatePrevote_Clear;
  Get := QueryAggregatePrevote_Get;
  Set_ := QueryAggregatePrevote_Set;
  Mutable := QueryAggregatePrevote_Mutable;
  NewField := QueryAggregatePrevote_NewField;
  Descriptor := QueryAggregatePrevote_descriptor;
  GetUnknown x := x ← or_panic x; Ok (QueryAggregatePrevote_unknownFields x);
  SetUnknown x fields := x ← or_panic x; Ok (QueryAggregatePrevote_set_unknown x fields);
|}.

(** [QueryAggregatePrevoteResponse] *)

Definition fd_QueryAggregatePrevoteResponse_aggregate_prevote : FieldDescriptor :=
  mkField "oracle.v1.QueryAggregatePrevoteResponse.aggregate_prevote" 1 MessageKind false.
Definition QueryAggregatePrevoteResponse_descriptor : list FieldDescriptor := [
  fd_QueryAggregatePrevoteResponse_aggregate_prevote].
Definition QueryAggregatePrevoteResponse_with_AggregatePrevote (x : QueryAggregatePrevoteResponse)
    (v : option AggregateExchangeRatePrevote) : QueryAggregatePrevoteResponse :=
  mkQueryAggregatePrevoteResponse v (QueryAggregatePrevoteResponse_unknownFields x).
Definition QueryAggregatePrevoteResponse_GetAggregatePrevote : option QueryAggregatePrevoteResponse
    → option AggregateExchangeRatePrevote :=
  getter None QueryAggregatePrevoteResponse_AggregatePrevote.
Definition QueryAggregatePrevoteResponse_Range {S} (x : option QueryAggregatePrevoteResponse)
    (f : FieldDescriptor → Value → M S bool) : M S () :=
  x ← lift (or_panic x);
  range_fields f [
    (has_message (QueryAggregatePrevoteResponse_AggregatePrevote x),
       fd_QueryAggregatePrevoteResponse_aggregate_prevote, ValueOfMessage
       (QueryAggregatePrevoteResponse_AggregatePrevote x))].
Definition QueryAggregatePrevoteResponse_Has (x : option QueryAggregatePrevoteResponse)
    (fd : FieldDescriptor) : outcome bool :=
  x ← or_panic x;
  field_switch fd [
    ("oracle.v1.QueryAggregatePrevoteResponse.aggregate_prevote"%string,
      Ok (has_message (QueryAggregatePrevoteResponse_AggregatePrevote x)))].
Definition QueryAggregatePrevoteResponse_Clear (x : option QueryAggregatePrevoteResponse)
    (fd : FieldDescriptor) : outcome QueryAggregatePrevoteResponse :=
  x ← or_panic x;
  field_switch fd [
    ("oracle.v1.QueryAggregatePrevoteResponse.aggregate_prevote"%string,
      Ok (QueryAggregatePrevoteResponse_with_AggregatePrevote x None))].
Definition QueryAggregatePrevoteResponse_Get (x : option QueryAggregatePrevoteResponse)
    (fd : FieldDescriptor) : outcome Value :=
  x ← or_panic x;
  field_switch fd [
    ("oracle.v1.QueryAggregatePrevoteResponse.aggregate_prevote"%string,
      Ok (ValueOfMessage (QueryAggregatePrevoteResponse_AggregatePrevote x)))].
Definition QueryAggregatePrevoteResponse_Set (x : option QueryAggregatePrevoteResponse)
    (fd : FieldDescriptor) (value : Value) : outcome QueryAggregatePrevoteResponse :=
  x ← or_panic x;
  field_switch fd [
    ("oracle.v1.QueryAggregatePrevoteResponse.aggregate_prevote"%string,
      set_message (QueryAggregatePrevoteResponse_with_AggregatePrevote x) value)].
Definition QueryAggregatePrevoteResponse_Mutable (x : option QueryAggregatePrevoteResponse)
    (fd : FieldDescriptor) : outcome (Value * QueryAggregatePrevoteResponse) :=
  x ← or_panic x;
  field_switch fd [
    ("oracle.v1.QueryAggregatePrevoteResponse.aggregate_prevote"%string,
      mutable_message (QueryAggregatePrevoteResponse_with_AggregatePrevote x)
        (QueryAggregatePrevoteResponse_AggregatePrevote x))].
Definition QueryAggregatePrevoteResponse_NewField (fd : FieldDescriptor) : outcome Value :=
  field_switch fd [
    ("oracle.v1.QueryAggregatePrevoteResponse.aggregate_prevote"%string,
      new_message (A := AggregateExchangeRatePrevote))].
Definition QueryAggregatePrevoteResponse_set_unknown (x : QueryAggregatePrevoteResponse) (fields : bytes) : QueryAggregatePrevoteResponse :=
  mkQueryAggregatePrevoteResponse (QueryAggregatePrevoteResponse_AggregatePrevote x) fields.
#[export] Instance QueryAggregatePrevoteResponse_reflect : MessageReflect QueryAggregatePrevoteResponse := {|
  Range S := QueryAggregatePrevoteResponse_Range;
  Has := QueryAggregatePrevoteResponse_Has;
  Clear := QueryAggregatePrevoteResponse_Clear;
  Get := QueryAggregatePrevoteResponse_Get;
  Set_ := QueryAggregatePrevoteResponse_Set;
  Mutable := QueryAggregatePrevoteResponse_Mutable;
  NewField := QueryAggregatePrevoteResponse_NewField;
  Descriptor := QueryAggregatePrevoteResponse_descriptor;
  GetUnknown x := x ← or_panic x; Ok (QueryAggregatePrevoteResponse_unknownFields x);
  SetUnknown x fields := x ← or_panic x; Ok (QueryAggregatePrevoteResponse_set_unknown x fields);
|}.

(** [QueryAggregatePrevotes] *)

Definition QueryAggregatePrevotes_descriptor : list FieldDescriptor := [].
Definition QueryAggregatePrevotes_Range {S} (x : option QueryAggregatePrevotes)
    (f : FieldDescriptor → Value → M S bool) : M S () :=
  mret ().
Definition QueryAggregatePrevotes_Has (x : option QueryAggregatePrevotes) (fd : FieldDescriptor) :
    outcome bool :=
  field_switch fd [].
Definition QueryAggregatePrevotes_Clear (x : option QueryAggregatePrevotes) (fd : FieldDescriptor)
    : outcome QueryAggregatePrevotes :=
  field_switch fd [].
Definition QueryAggregatePrevotes_Get (x : option QueryAggregatePrevotes) (fd : FieldDescriptor) :
    outcome Value :=
  field_switch fd [].
Definition QueryAggregatePrevotes_Set (x : option QueryAggregatePrevotes) (fd : FieldDescriptor)
    (value : Value) : outcome QueryAggregatePrevotes :=
  field_switch fd [].
Definition QueryAggregatePrevotes_Mutable (x : option QueryAggregatePrevotes)
    (fd : FieldDescriptor) : outcome (Value * QueryAggregatePrevotes) :=
  field_switch fd [].
Definition QueryAggregatePrevotes_NewField (fd : FieldDescriptor) : outcome Value :=
  field_switch fd [].
Definition QueryAggregatePrevotes_set_unknown (x : QueryAggregatePrevotes) (fields : bytes) : QueryAggregatePrevotes :=
  mkQueryAggregatePrevotes fields.
#[export] Instance QueryAggregatePrevotes_reflect : MessageReflect QueryAggregatePrevotes := {|
  Range S := QueryAggregatePrevotes_Range;
  Has := QueryAggregatePrevotes_Has;
  Clear := QueryAggregatePrevotes_Clear;
  Get := QueryAggregatePrevotes_Get;
  Set_ := QueryAggregatePrevotes_Set;
  Mutable := QueryAggregatePrevotes_Mutable;
  NewField := QueryAggregatePrevotes_NewField;
  Descriptor := QueryAggregatePrevotes_descriptor;
  GetUnknown x := x ← or_panic x; Ok (QueryAggregatePrevotes_unknownFields x);
  SetUnknown x fields := x ← or_panic x; Ok (QueryAggregatePrevotes_set_unknown x fields);
|}.

(** [QueryAggregatePrevotesResponse] *)

Definition fd_QueryAggregatePrevotesResponse_aggregate_prevotes : FieldDescriptor :=
  mkField "oracle.v1.QueryAggregatePrevotesResponse.aggregate_prevotes" 1 MessageKind true.
Definition QueryAggregatePrevotesResponse_descriptor : list FieldDescriptor := [
  fd_QueryAggregatePrevotesResponse_aggregate_prevotes].
Definition QueryAggregatePrevotesResponse_with_AggregatePrevotes
    (x : QueryAggregatePrevotesResponse) (v : list (option AggregateExchangeRatePrevote)) :
    QueryAggregatePrevotesResponse :=
  mkQueryAggregatePrevotesResponse v (QueryAggregatePrevotesResponse_unknownFields x).
Definition QueryAggregatePrevotesResponse_GetAggregatePrevotes : option
    QueryAggregatePrevotesResponse → list (option AggregateExchangeRatePrevote) :=
  getter [] QueryAggregatePrevotesResponse_AggregatePrevotes.
#[export] Instance QueryAggregatePrevotesResponse_1_list_methods : ProtoList QueryAggregatePrevotesResponse_1_list :=
  message_list mkQueryAggregatePrevotesResponse_1_list QueryAggregatePrevotesResponse_1_list_slice.
Definition QueryAggregatePrevotesResponse_Range {S} (x : option QueryAggregatePrevotesResponse)
    (f : FieldDescriptor → Value → M S bool) : M S () :=
  x ← lift (or_panic x);
  range_fields f [
    (has_slice (QueryAggregatePrevotesResponse_AggregatePrevotes x),
       fd_QueryAggregatePrevotesResponse_aggregate_prevotes, ValueOfList
       (mkQueryAggregatePrevotesResponse_1_list (Some (QueryAggregatePrevotesResponse_AggregatePrevotes x))))].
Definition QueryAggregatePrevotesResponse_Has (x : option QueryAggregatePrevotesResponse)
    (fd : FieldDescriptor) : outcome bool :=
  x ← or_panic x;
  field_switch fd [
    ("oracle.v1.QueryAggregatePrevotesResponse.aggregate_prevotes"%string,
      Ok (has_slice (QueryAggregatePrevotesResponse_AggregatePrevotes x)))].
Definition QueryAggregatePrevotesResponse_Clear (x : option QueryAggregatePrevotesResponse)
    (fd : FieldDescriptor) : outcome QueryAggregatePrevotesResponse :=
  x ← or_panic x;
  field_switch fd [
    ("oracle.v1.QueryAggregatePrevotesResponse.aggregate_prevotes"%string,
      Ok (QueryAggregatePrevotesResponse_with_AggregatePrevotes x []))].
Definition QueryAggregatePrevotesResponse_Get (x : option QueryAggregatePrevotesResponse)
    (fd : FieldDescriptor) : outcome Value :=
  x ← or_panic x;
  field_switch fd [
    ("oracle.v1.QueryAggregatePrevotesResponse.aggregate_prevotes"%string,
      Ok
        (get_list mkQueryAggregatePrevotesResponse_1_list (QueryAggregatePrevotesResponse_AggregatePrevotes x)))].
Definition QueryAggregatePrevotesResponse_Set (x : option QueryAggregatePrevotesResponse)
    (fd : FieldDescriptor) (value : Value) : outcome QueryAggregatePrevotesResponse :=
  x ← or_panic x;
  field_switch fd [
    ("oracle.v1.QueryAggregatePrevotesResponse.aggregate_prevotes"%string,
      set_list QueryAggregatePrevotesResponse_1_list_slice
        (QueryAggregatePrevotesResponse_with_AggregatePrevotes x) value)].
Definition QueryAggregatePrevotesResponse_Mutable (x : option QueryAggregatePrevotesResponse)
    (fd : FieldDescriptor) : outcome (Value * QueryAggregatePrevotesResponse) :=
  x ← or_panic x;
  field_switch fd [
    ("oracle.v1.QueryAggregatePrevotesResponse.aggregate_prevotes"%string,
      mutable_list mkQueryAggregatePrevotesResponse_1_list x
        (QueryAggregatePrevotesResponse_AggregatePrevotes x))].
Definition QueryAggregatePrevotesResponse_NewField (fd : FieldDescriptor) : outcome Value :=
  field_switch fd [
    ("oracle.v1.QueryAggregatePrevotesResponse.aggregate_prevotes"%string,
      new_list mkQueryAggregatePrevotesResponse_1_list)].
Definition QueryAggregatePrevotesResponse_set_unknown (x : QueryAggregatePrevotesResponse) (fields : bytes) : QueryAggregatePrevotesResponse :=
  mkQueryAggregatePrevotesResponse (QueryAggregatePrevotesResponse_AggregatePrevotes x) fields.
#[export] Instance QueryAggregatePrevotesResponse_reflect : MessageReflect QueryAggregatePrevotesResponse := {|
  Range S := QueryAggregatePrevotesResponse_Range;
  Has := QueryAggregatePrevotesResponse_Has;
  Clear := QueryAggregatePrevotesResponse_Clear;
  Get := QueryAggregatePrevotesResponse_Get;
  Set_ := QueryAggregatePrevotesResponse_Set;
  Mutable := QueryAggregatePrevotesResponse_Mutable;
  NewField := QueryAggregatePrevotesResponse_NewField;
  Descriptor := QueryAggregatePrevotesResponse_descriptor;
  GetUnknown x := x ← or_panic x; Ok (QueryAggregatePrevotesResponse_unknownFields x);
  SetUnknown x fields := x ← or_panic x; Ok (QueryAggregatePrevotesResponse_set_unknown x fields);
|}.

(** [QueryAggregateVote] *)

Definition fd_QueryAggregateVote_validator_addr : FieldDescriptor :=
  mkField "oracle.v1.QueryAggregateVote.validator_addr" 1 StringKind false.
Definition QueryAggregateVote_descriptor : list FieldDescriptor := [
  fd_QueryAggregateVote_validator_addr].
Definition QueryAggregateVote_with_ValidatorAddr (x : QueryAggregateVote) (v : string) :
    QueryAggregateVote :=
  mkQueryAggregateVote v (QueryAggregateVote_unknownFields x).
Definition QueryAggregateVote_GetValidatorAddr : option QueryAggregateVote → string :=
  getter ""%string QueryAggregateVote_ValidatorAddr.
Definition QueryAggregateVote_Range {S} (x : option QueryAggregateVote)
    (f : FieldDescriptor → Value → M S bool) : M S () :=
  x ← lift (or_panic x);
  range_fields f [
    (has_string (QueryAggregateVote_ValidatorAddr x), fd_QueryAggregateVote_validator_addr,
       ValueOfString (QueryAggregateVote_ValidatorAddr x))].
Definition QueryAggregateVote_Has (x : option QueryAggregateVote) (fd : FieldDescriptor) : outcome
    bool :=
  x ← or_panic x;
  field_switch fd [
    ("oracle.v1.QueryAggregateVote.validator_addr"%string,
      Ok (has_string (QueryAggregateVote_ValidatorAddr x)))].
Definition QueryAggregateVote_Clear (x : option QueryAggregateVote) (fd : FieldDescriptor) :
    outcome QueryAggregateVote :=
  x ← or_panic x;
  field_switch fd [
    ("oracle.v1.QueryAggregateVote.validator_addr"%string,
      Ok (QueryAggregateVote_with_ValidatorAddr x ""%string))].
Definition QueryAggregateVote_Get (x : option QueryAggregateVote) (fd : FieldDescriptor) : outcome
    Value :=
  x ← or_panic x;
  field_switch fd [
    ("oracle.v1.QueryAggregateVote.validator_addr"%string,
      Ok (ValueOfString (QueryAggregateVote_ValidatorAddr x)))].
Definition QueryAggregateVote_Set (x : option QueryAggregateVote) (fd : FieldDescriptor)
    (value : Value) : outcome QueryAggregateVote :=
  x ← or_panic x;
  field_switch fd [
    ("oracle.v1.QueryAggregateVote.validator_addr"%string,
      set_string (QueryAggregateVote_with_ValidatorAddr x) value)].
Definition QueryAggregateVote_Mutable (x : option QueryAggregateVote) (fd : FieldDescriptor) :
    outcome (Value * QueryAggregateVote) :=
  x ← or_panic x;
  field_switch fd [
    ("oracle.v1.QueryAggregateVote.validator_addr"%string, Panic)].
Definition QueryAggregateVote_NewField (fd : FieldDescriptor) : outcome Value :=
  field_switch fd [
    ("oracle.v1.QueryAggregateVote.validator_addr"%string, Ok (ValueOfString ""%string))].
Definition QueryAggregateVote_set_unknown (x : QueryAggregateVote) (fields : bytes) : QueryAggregateVote :=
  mkQueryAggregateVote (QueryAggregateVote_ValidatorAddr x) fields.
#[export] Instance QueryAggregateVote_reflect : MessageReflect QueryAggregateVote := {|
  Range S := QueryAggregateVote_Range;
  Has := QueryAggregateVote_Has;
  Clear := QueryAggregateVote_Clear;
  Get := QueryAggregateVote_Get;
  Set_ := QueryAggregateVote_Set;
  Mutable := QueryAggregateVote_Mutable;
  NewField := QueryAggregateVote_NewField;
  Descriptor := QueryAggregateVote_descriptor;
  GetUnknown x := x ← or_panic x; Ok (QueryAggregateVote_unknownFields x);
  SetUnknown x fields := x ← or_panic x; Ok (QueryAggregateVote_set_unknown x fields);
|}.

(** [QueryAggregateVoteResponse] *)

Definition fd_QueryAggregateVoteResponse_aggregate_vote : FieldDescriptor :=
  mkField "oracle.v1.QueryAggregateVoteResponse.aggregate_vote" 1 MessageKind false.
Definition QueryAggregateVoteResponse_descriptor : list FieldDescriptor := [
  fd_QueryAggregateVoteResponse_aggregate_vote].
Definition QueryAggregateVoteResponse_with_AggregateVote (x : QueryAggregateVoteResponse)
    (v : option AggregateExchangeRateVote) : QueryAggregateVoteResponse :=
  mkQueryAggregateVoteResponse v (QueryAggregateVoteResponse_unknownFields x).
Definition QueryAggregateVoteResponse_GetAggregateVote : option QueryAggregateVoteResponse → option
    AggregateExchangeRateVote :=
  getter None QueryAggregateVoteResponse_AggregateVote.
Definition QueryAggregateVoteResponse_Range {S} (x : option QueryAggregateVoteResponse)
    (f : FieldDescriptor → Value → M S bool) : M S () :=
  x ← lift (or_panic x);
  range_fields f [
    (has_message (QueryAggregateVoteResponse_AggregateVote x),
       fd_QueryAggregateVoteResponse_aggregate_vote, ValueOfMessage
       (QueryAggregateVoteResponse_AggregateVote x))].
Definition QueryAggregateVoteResponse_Has (x : option QueryAggregateVoteResponse)
    (fd : FieldDescriptor) : outcome bool :=
  x ← or_panic x;
  field_switch fd [
    ("oracle.v1.QueryAggregateVoteResponse.aggregate_vote"%string,
      Ok (has_message (QueryAggregateVoteResponse_AggregateVote x)))].
Definition QueryAggregateVoteResponse_Clear (x : option QueryAggregateVoteResponse)
    (fd : FieldDescriptor) : outcome QueryAggregateVoteResponse :=
  x ← or_panic x;
  field_switch fd [
    ("oracle.v1.QueryAggregateVoteResponse.aggregate_vote"%string,
      Ok (QueryAggregateVoteResponse_with_AggregateVote x None))].
Definition QueryAggregateVoteResponse_Get (x : option QueryAggregateVoteResponse)
    (fd : FieldDescriptor) : outcome Value :=
  x ← or_panic x;
  field_switch fd [
    ("oracle.v1.QueryAggregateVoteResponse.aggregate_vote"%string,
      Ok (ValueOfMessage (QueryAggregateVoteResponse_AggregateVote x)))].
Definition QueryAggregateVoteResponse_Set (x : option QueryAggregateVoteResponse)
    (fd : FieldDescriptor) (value : Value) : outcome QueryAggregateVoteResponse :=
  x ← or_panic x;
  field_switch fd [
    ("oracle.v1.QueryAggregateVoteResponse.aggregate_vote"%string,
      set_message (QueryAggregateVoteResponse_with_AggregateVote x) value)].
Definition QueryAggregateVoteResponse_Mutable (x : option QueryAggregateVoteResponse)
    (fd : FieldDescriptor) : outcome (Value * QueryAggregateVoteResponse) :=
  x ← or_panic x;
  field_switch fd [
    ("oracle.v1.QueryAggregateVoteResponse.aggregate_vote"%string,
      mutable_message (QueryAggregateVoteResponse_with_AggregateVote x)
        (QueryAggregateVoteResponse_AggregateVote x))].
Definition QueryAggregateVoteResponse_NewField (fd : FieldDescriptor) : outcome Value :=
  field_switch fd [
    ("oracle.v1.QueryAggregateVoteResponse.aggregate_vote"%string,
      new_message (A := AggregateExchangeRateVote))].
Definition QueryAggregateVoteResponse_set_unknown (x : QueryAggregateVoteResponse) (fields : bytes) : QueryAggregateVoteResponse :=
  mkQueryAggregateVoteResponse (QueryAggregateVoteResponse_AggregateVote x) fields.
#[export] Instance QueryAggregateVoteResponse_reflect : MessageReflect QueryAggregateVoteResponse := {|
  Range S := QueryAggregateVoteResponse_Range;
  Has := QueryAggregateVoteResponse_Has;
  Clear := QueryAggregateVoteResponse_Clear;
  Get := QueryAggregateVoteResponse_Get;
  Set_ := QueryAggregateVoteResponse_Set;
  Mutable := QueryAggregateVoteResponse_Mutable;
  NewField := QueryAggregateVoteResponse_NewField;
  Descriptor := QueryAggregateVoteResponse_descriptor;
  GetUnknown x := x ← or_panic x; Ok (QueryAggregateVoteResponse_unknownFields x);
  SetUnknown x fields := x ← or_panic x; Ok (QueryAggregateVoteResponse_set_unknown x fields);
|}.

(** [QueryAggregateVotes] *)

Definition QueryAggregateVotes_descriptor : list FieldDescriptor := [].
Definition QueryAggregateVotes_Range {S} (x : option QueryAggregateVotes)
    (f : FieldDescriptor → Value → M S bool) : M S () :=
  mret ().
Definition QueryAggregateVotes_Has (x : option QueryAggregateVotes) (fd : FieldDescriptor) :
    outcome bool :=
  field_switch fd [].
Definition QueryAggregateVotes_Clear (x : option QueryAggregateVotes) (fd : FieldDescriptor) :
    outcome QueryAggregateVotes :=
  field_switch fd [].
Definition QueryAggregateVotes_Get (x : option QueryAggregateVotes) (fd : FieldDescriptor) :
    outcome Value :=
  field_switch fd [].
Definition QueryAggregateVotes_Set (x : option QueryAggregateVotes) (fd : FieldDescriptor)
    (value : Value) : outcome QueryAggregateVotes :=
  field_switch fd [].
Definition QueryAggregateVotes_Mutable (x : option QueryAggregateVotes) (fd : FieldDescriptor) :
    outcome (Value * QueryAggregateVotes) :=
  field_switch fd [].
Definition QueryAggregateVotes_NewField (fd : FieldDescriptor) : outcome Value :=
  field_switch fd [].
Definition QueryAggregateVotes_set_unknown (x : QueryAggregateVotes) (fields : bytes) : QueryAggregateVotes :=
  mkQueryAggregateVotes fields.
#[export] Instance QueryAggregateVotes_reflect : MessageReflect QueryAggregateVotes := {|
  Range S := QueryAggregateVotes_Range;
  Has := QueryAggregateVotes_Has;
  Clear := QueryAggregateVotes_Clear;
  Get := QueryAggregateVotes_Get;
  Set_ := QueryAggregateVotes_Set;
  Mutable := QueryAggregateVotes_Mutable;
  NewField := QueryAggregateVotes_NewField;
  Descriptor := QueryAggregateVotes_descriptor;
  GetUnknown x := x ← or_panic x; Ok (QueryAggregateVotes_unknownFields x);
  SetUnknown x fields := x ← or_panic x; Ok (QueryAggregateVotes_set_unknown x fields);
|}.

(** [QueryAggregateVotesResponse] *)

Definition fd_QueryAggregateVotesResponse_aggregate_votes : FieldDescriptor :=
  mkField "oracle.v1.QueryAggregateVotesResponse.aggregate_votes" 1 MessageKind true.
Definition QueryAggregateVotesResponse_descriptor : list FieldDescriptor := [
  fd_QueryAggregateVotesResponse_aggregate_votes].
Definition QueryAggregateVotesResponse_with_AggregateVotes (x : QueryAggregateVotesResponse)
    (v : list (option AggregateExchangeRateVote)) : QueryAggregateVotesResponse :=
  mkQueryAggregateVotesResponse v (QueryAggregateVotesResponse_unknownFields x).
Definition QueryAggregateVotesResponse_GetAggregateVotes : option QueryAggregateVotesResponse →
    list (option AggregateExchangeRateVote) :=
  getter [] QueryAggregateVotesResponse_AggregateVotes.
#[export] Instance QueryAggregateVotesResponse_1_list_methods : ProtoList QueryAggregateVotesResponse_1_list :=
  message_list mkQueryAggregateVotesResponse_1_list QueryAggregateVotesResponse_1_list_slice.
Definition QueryAggregateVotesResponse_Range {S} (x : option QueryAggregateVotesResponse)
    (f : FieldDescriptor → Value → M S bool) : M S () :=
  x ← lift (or_panic x);
  range_fields f [
    (has_slice (QueryAggregateVotesResponse_AggregateVotes x),
       fd_QueryAggregateVotesResponse_aggregate_votes, ValueOfList
       (mkQueryAggregateVotesResponse_1_list (Some (QueryAggregateVotesResponse_AggregateVotes x))))].
Definition QueryAggregateVotesResponse_Has (x : option QueryAggregateVotesResponse)
    (fd : FieldDescriptor) : outcome bool :=
  x ← or_panic x;
  field_switch fd [
    ("oracle.v1.QueryAggregateVotesResponse.aggregate_votes"%string,
      Ok (has_slice (QueryAggregateVotesResponse_AggregateVotes x)))].
Definition QueryAggregateVotesResponse_Clear (x : option QueryAggregateVotesResponse)
    (fd : FieldDescriptor) : outcome QueryAggregateVotesResponse :=
  x ← or_panic x;
  field_switch fd [
    ("oracle.v1.QueryAggregateVotesResponse.aggregate_votes"%string,
      Ok (QueryAggregateVotesResponse_with_AggregateVotes x []))].
Definition QueryAggregateVotesResponse_Get (x : option QueryAggregateVotesResponse)
    (fd : FieldDescriptor) : outcome Value :=
  x ← or_panic x;
  field_switch fd [
    ("oracle.v1.QueryAggregateVotesResponse.aggregate_votes"%string,
      Ok
        (get_list mkQueryAggregateVotesResponse_1_list (QueryAggregateVotesResponse_AggregateVotes x)))].
Definition QueryAggregateVotesResponse_Set (x : option QueryAggregateVotesResponse)
    (fd : FieldDescriptor) (value : Value) : outcome QueryAggregateVotesResponse :=
  x ← or_panic x;
  field_switch fd [
    ("oracle.v1.QueryAggregateVotesResponse.aggregate_votes"%string,
      set_list QueryAggregateVotesResponse_1_list_slice
        (QueryAggregateVotesResponse_with_AggregateVotes x) value)].
Definition QueryAggregateVotesResponse_Mutable (x : option QueryAggregateVotesResponse)
    (fd : FieldDescriptor) : outcome (Value * QueryAggregateVotesResponse) :=
  x ← or_panic x;
  field_switch fd [
    ("oracle.v1.QueryAggregateVotesResponse.aggregate_votes"%string,
      mutable_list mkQueryAggregateVotesResponse_1_list x
        (QueryAggregateVotesResponse_AggregateVotes x))].
Definition QueryAggregateVotesResponse_NewField (fd : FieldDescriptor) : outcome Value :=
  field_switch fd [
    ("oracle.v1.QueryAggregateVotesResponse.aggregate_votes"%string,
      new_list mkQueryAggregateVotesResponse_1_list)].
Definition QueryAggregateVotesResponse_set_unknown (x : QueryAggregateVotesResponse) (fields : bytes) : QueryAggregateVotesResponse :=
  mkQueryAggregateVotesResponse (QueryAggregateVotesResponse_AggregateVotes x) fields.
#[export] Instance QueryAggregateVotesResponse_reflect : MessageReflect QueryAggregateVotesResponse := {|
  Range S := QueryAggregateVotesResponse_Range;
  Has := QueryAggregateVotesResponse_Has;
  Clear := QueryAggregateVotesResponse_Clear;
  Get := QueryAggregateVotesResponse_Get;
  Set_ := QueryAggregateVotesResponse_Set;
  Mutable := QueryAggregateVotesResponse_Mutable;
  NewField := QueryAggregateVotesResponse_NewField;
  Descriptor := QueryAggregateVotesResponse_descriptor;
  GetUnknown x := x ← or_panic x; Ok (QueryAggregateVotesResponse_unknownFields x);
  SetUnknown x fields := x ← or_panic x; Ok (QueryAggregateVotesResponse_set_unknown x fields);
|}.

(** [QueryParams] *)

Definition QueryParams_descriptor : list FieldDescriptor := [].
Definition QueryParams_Range {S} (x : option QueryParams) (f : FieldDescriptor → Value → M S bool)
    : M S () :=
  mret ().
Definition QueryParams_Has (x : option QueryParams) (fd : FieldDescriptor) : outcome bool :=
  field_switch fd [].
Definition QueryParams_Clear (x : option QueryParams) (fd : FieldDescriptor) : outcome QueryParams
    :=
  field_switch fd [].
Definition QueryParams_Get (x : option QueryParams) (fd : FieldDescriptor) : outcome Value :=
  field_switch fd [].
Definition QueryParams_Set (x : option QueryParams) (fd : FieldDescriptor) (value : Value) :
    outcome QueryParams :=
  field_switch fd [].
Definition QueryParams_Mutable (x : option QueryParams) (fd : FieldDescriptor) : outcome
    (Value * QueryParams) :=
  field_switch fd [].
Definition QueryParams_NewField (fd : FieldDescriptor) : outcome Value :=
  field_switch fd [].
Definition QueryParams_set_unknown (x : QueryParams) (fields : bytes) : QueryParams :=
  mkQueryParams fields.
#[export] Instance QueryParams_reflect : MessageReflect QueryParams := {|
  Range S := QueryParams_Range;
  Has := QueryParams_Has;
  Clear := QueryParams_Clear;
  Get := QueryParams_Get;
  Set_ := QueryParams_Set;
  Mutable := QueryParams_Mutable;
  NewField := QueryParams_NewField;
  Descriptor := QueryParams_descriptor;
  GetUnknown x := x ← or_panic x; Ok (QueryParams_unknownFields x);
  SetUnknown x fields := x ← or_panic x; Ok (QueryParams_set_unknown x fields);
|}.

(** [QueryParamsResponse] *)

Definition fd_QueryParamsResponse_params : FieldDescriptor :=
  mkField "oracle.v1.QueryParamsResponse.params" 1 MessageKind false.
Definition QueryParamsResponse_descriptor : list FieldDescriptor := [
  fd_QueryParamsResponse_params].
Definition QueryParamsResponse_with_Params (x : QueryParamsResponse) (v : option Params) :
    QueryParamsResponse :=
  mkQueryParamsResponse v (QueryParamsResponse_unknownFields x).
Definition QueryParamsResponse_GetParams : option QueryParamsResponse → option Params :=
  getter None QueryParamsResponse_Params.
Definition QueryParamsResponse_Range {S} (x : option QueryParamsResponse)
    (f : FieldDescriptor → Value → M S bool) : M S () :=
  x ← lift (or_panic x);
  range_fields f [
    (has_message (QueryParamsResponse_Params x), fd_QueryParamsResponse_params, ValueOfMessage
       (QueryParamsResponse_Params x))].
Definition QueryParamsResponse_Has (x : option QueryParamsResponse) (fd : FieldDescriptor) :
    outcome bool :=
  x ← or_panic x;
  field_switch fd [
    ("oracle.v1.QueryParamsResponse.params"%string,
      Ok (has_message (QueryParamsResponse_Params x)))].
Definition QueryParamsResponse_Clear (x : option QueryParamsResponse) (fd : FieldDescriptor) :
    outcome QueryParamsResponse :=
  x ← or_panic x;
  field_switch fd [
    ("oracle.v1.QueryParamsResponse.params"%string, Ok (QueryParamsResponse_with_Params x None))].
Definition QueryParamsResponse_Get (x : option QueryParamsResponse) (fd : FieldDescriptor) :
    outcome Value :=
  x ← or_panic x;
  field_switch fd [
    ("oracle.v1.QueryParamsResponse.params"%string,
      Ok (ValueOfMessage (QueryParamsResponse_Params x)))].
Definition QueryParamsResponse_Set (x : option QueryParamsResponse) (fd : FieldDescriptor)
    (value : Value) : outcome QueryParamsResponse :=
  x ← or_panic x;
  field_switch fd [
    ("oracle.v1.QueryParamsResponse.params"%string,
      set_message (QueryParamsResponse_with_Params x) value)].
Definition QueryParamsResponse_Mutable (x : option QueryParamsResponse) (fd : FieldDescriptor) :
    outcome (Value * QueryParamsResponse) :=
  x ← or_panic x;
  field_switch fd [
    ("oracle.v1.QueryParamsResponse.params"%string,
      mutable_message (QueryParamsResponse_with_Params x) (QueryParamsResponse_Params x))].
Definition QueryParamsResponse_NewField (fd : FieldDescriptor) : outcome Value :=
  field_switch fd [
    ("oracle.v1.QueryParamsResponse.params"%string, new_message (A := Params))].
Definition QueryParamsResponse_set_unknown (x : QueryParamsResponse) (fields : bytes) : QueryParamsResponse :=
  mkQueryParamsResponse (QueryParamsResponse_Params x) fields.
#[export] Instance QueryParamsResponse_reflect : MessageReflect QueryParamsResponse := {|
  Range S := QueryParamsResponse_Range;
  Has := QueryParamsResponse_Has;
  Clear := QueryParamsResponse_Clear;
  Get := QueryParamsResponse_Get;
  Set_ := QueryParamsResponse_Set;
  Mutable := QueryParamsResponse_Mutable;
  NewField := QueryParamsResponse_NewField;
  Descriptor := QueryParamsResponse_descriptor;
  GetUnknown x := x ← or_panic x; Ok (QueryParamsResponse_unknownFields x);
  SetUnknown x fields := x ← or_panic x; Ok (QueryParamsResponse_set_unknown x fields);
|}.

(** [QueryMedians] *)

Definition fd_QueryMedians_denom : FieldDescriptor :=
  mkField "oracle.v1.QueryMedians.denom" 1 StringKind false.
Definition fd_QueryMedians_num_stamps : FieldDescriptor :=
  mkField "oracle.v1.QueryMedians.num_stamps" 2 Uint32Kind false.
Definition QueryMedians_descriptor : list FieldDescriptor := [
  fd_QueryMedians_denom; fd_QueryMedians_num_stamps].
Definition QueryMedians_with_Denom (x : QueryMedians) (v : string) : QueryMedians :=
  mkQueryMedians v (QueryMedians_NumStamps x) (QueryMedians_unknownFields x).
Definition QueryMedians_with_NumStamps (x : QueryMedians) (v : Z) : QueryMedians :=
  mkQueryMedians (QueryMedians_Denom x) v (QueryMedians_unknownFields x).
Definition QueryMedians_GetDenom : option QueryMedians → string :=
  getter ""%string QueryMedians_Denom.
Definition QueryMedians_GetNumStamps : option QueryMedians → Z :=
  getter 0 QueryMedians_NumStamps.
Definition QueryMedians_Range {S} (x : option QueryMedians)
    (f : FieldDescriptor → Value → M S bool) : M S () :=
  x ← lift (or_panic x);
  range_fields f [
    (has_string (QueryMedians_Denom x), fd_QueryMedians_denom, ValueOfString
       (QueryMedians_Denom x));
    (has_int (QueryMedians_NumStamps x), fd_QueryMedians_num_stamps, ValueOfUint32
       (QueryMedians_NumStamps x))].
Definition QueryMedians_Has (x : option QueryMedians) (fd : FieldDescriptor) : outcome bool :=
  x ← or_panic x;
  field_switch fd [
    ("oracle.v1.QueryMedians.denom"%string, Ok (has_string (QueryMedians_Denom x)));
    ("oracle.v1.QueryMedians.num_stamps"%string, Ok (has_int (QueryMedians_NumStamps x)))].
Definition QueryMedians_Clear (x : option QueryMedians) (fd : FieldDescriptor) : outcome
    QueryMedians :=
  x ← or_panic x;
  field_switch fd [
    ("oracle.v1.QueryMedians.denom"%string, Ok (QueryMedians_with_Denom x ""%string));
    ("oracle.v1.QueryMedians.num_stamps"%string, Ok (QueryMedians_with_NumStamps x 0))].
Definition QueryMedians_Get (x : option QueryMedians) (fd : FieldDescriptor) : outcome Value :=
  x ← or_panic x;
  field_switch fd [
    ("oracle.v1.QueryMedians.denom"%string, Ok (ValueOfString (QueryMedians_Denom x)));
    ("oracle.v1.QueryMedians.num_stamps"%string, Ok (ValueOfUint32 (QueryMedians_NumStamps x)))].
Definition QueryMedians_Set (x : option QueryMedians) (fd : FieldDescriptor) (value : Value) :
    outcome QueryMedians :=
  x ← or_panic x;
  field_switch fd [
    ("oracle.v1.QueryMedians.denom"%string, set_string (QueryMedians_with_Denom x) value);
    ("oracle.v1.QueryMedians.num_stamps"%string, set_uint32 (QueryMedians_with_NumStamps x) value)].
Definition QueryMedians_Mutable (x : option QueryMedians) (fd : FieldDescriptor) : outcome
    (Value * QueryMedians) :=
  x ← or_panic x;
  field_switch fd [
    ("oracle.v1.QueryMedians.denom"%string, Panic);
    ("oracle.v1.QueryMedians.num_stamps"%string, Panic)].
Definition QueryMedians_NewField (fd : FieldDescriptor) : outcome Value :=
  field_switch fd [
    ("oracle.v1.QueryMedians.denom"%string, Ok (ValueOfString ""%string));
    ("oracle.v1.QueryMedians.num_stamps"%string, Ok (ValueOfUint32 0))].
Definition QueryMedians_set_unknown (x : QueryMedians) (fields : bytes) : QueryMedians :=
  mkQueryMedians (QueryMedians_Denom x) (QueryMedians_NumStamps x) fields.
#[export] Instance QueryMedians_reflect : MessageReflect QueryMedians := {|
  Range S := QueryMedians_Range;
  Has := QueryMedians_Has;
  Clear := QueryMedians_Clear;
  Get := QueryMedians_Get;
  Set_ := QueryMedians_Set;
  Mutable := QueryMedians_Mutable;
  NewField := QueryMedians_NewField;
  Descriptor := QueryMedians_descriptor;
  GetUnknown x := x ← or_panic x; Ok (QueryMedians_unknownFields x);
  SetUnknown x fields := x ← or_panic x; Ok (QueryMedians_set_unknown x fields);
|}.

(** [QueryMediansResponse] *)

Definition fd_QueryMediansResponse_medians : FieldDescriptor :=
  mkField "oracle.v1.QueryMediansResponse.medians" 1 MessageKind true.
Definition QueryMediansResponse_descriptor : list FieldDescriptor := [
  fd_QueryMediansResponse_medians].
Definition QueryMediansResponse_with_Medians (x : QueryMediansResponse)
    (v : list (option PriceStamp)) : QueryMediansResponse :=
  mkQueryMediansResponse v (QueryMediansResponse_unknownFields x).
Definition QueryMediansResponse_GetMedians : option QueryMediansResponse → list (option PriceStamp)
    :=
  getter [] QueryMediansResponse_Medians.
#[export] Instance QueryMediansResponse_1_list_methods : ProtoList QueryMediansResponse_1_list :=
  message_list mkQueryMediansResponse_1_list QueryMediansResponse_1_list_slice.
Definition QueryMediansResponse_Range {S} (x : option QueryMediansResponse)
    (f : FieldDescriptor → Value → M S bool) : M S () :=
  x ← lift (or_panic x);
  range_fields f [
    (has_slice (QueryMediansResponse_Medians x), fd_QueryMediansResponse_medians, ValueOfList
       (mkQueryMediansResponse_1_list (Some (QueryMediansResponse_Medians x))))].
Definition QueryMediansResponse_Has (x : option QueryMediansResponse) (fd : FieldDescriptor) :
    outcome bool :=
  x ← or_panic x;
  field_switch fd [
    ("oracle.v1.QueryMediansResponse.medians"%string,
      Ok (has_slice (QueryMediansResponse_Medians x)))].
Definition QueryMediansResponse_Clear (x : option QueryMediansResponse) (fd : FieldDescriptor) :
    outcome QueryMediansResponse :=
  x ← or_panic x;
  field_switch fd [
    ("oracle.v1.QueryMediansResponse.medians"%string, Ok (QueryMediansResponse_with_Medians x []))].
Definition QueryMediansResponse_Get (x : option QueryMediansResponse) (fd : FieldDescriptor) :
    outcome Value :=
  x ← or_panic x;
  field_switch fd [
    ("oracle.v1.QueryMediansResponse.medians"%string,
      Ok (get_list mkQueryMediansResponse_1_list (QueryMediansResponse_Medians x)))].
Definition QueryMediansResponse_Set (x : option QueryMediansResponse) (fd : FieldDescriptor)
    (value : Value) : outcome QueryMediansResponse :=
  x ← or_panic x;
  field_switch fd [
    ("oracle.v1.QueryMediansResponse.medians"%string,
      set_list QueryMediansResponse_1_list_slice (QueryMediansResponse_with_Medians x) value)].
Definition QueryMediansResponse_Mutable (x : option QueryMediansResponse) (fd : FieldDescriptor) :
    outcome (Value * QueryMediansResponse) :=
  x ← or_panic x;
  field_switch fd [
    ("oracle.v1.QueryMediansResponse.medians"%string,
      mutable_list mkQueryMediansResponse_1_list x (QueryMediansResponse_Medians x))].
Definition QueryMediansResponse_NewField (fd : FieldDescriptor) : outcome Value :=
  field_switch fd [
    ("oracle.v1.QueryMediansResponse.medians"%string, new_list mkQueryMediansResponse_1_list)].
Definition QueryMediansResponse_set_unknown (x : QueryMediansResponse) (fields : bytes) : QueryMediansResponse :=
  mkQueryMediansResponse (QueryMediansResponse_Medians x) fields.
#[export] Instance QueryMediansResponse_reflect : MessageReflect QueryMediansResponse := {|
  Range S := QueryMediansResponse_Range;
  Has := QueryMediansResponse_Has;
  Clear := QueryMediansResponse_Clear;
  Get := QueryMediansResponse_Get;
  Set_ := QueryMediansResponse_Set;
  Mutable := QueryMediansResponse_Mutable;
  NewField := QueryMediansResponse_NewField;
  Descriptor := QueryMediansResponse_descriptor;
  GetUnknown x := x ← or_panic x; Ok (QueryMediansResponse_unknownFields x);
  SetUnknown x fields := x ← or_panic x; Ok (QueryMediansResponse_set_unknown x fields);
|}.

(** [QueryMedianDeviations] *)

Definition fd_QueryMedianDeviations_denom : FieldDescriptor :=
  mkField "oracle.v1.QueryMedianDeviations.denom" 1 StringKind false.
Definition QueryMedianDeviations_descriptor : list FieldDescriptor := [
  fd_QueryMedianDeviations_denom].
Definition QueryMedianDeviations_with_Denom (x : QueryMedianDeviations) (v : string) :
    QueryMedianDeviations :=
  mkQueryMedianDeviations v (QueryMedianDeviations_unknownFields x).
Definition QueryMedianDeviations_GetDenom : option QueryMedianDeviations → string :=
  getter ""%string QueryMedianDeviations_Denom.
Definition QueryMedianDeviations_Range {S} (x : option QueryMedianDeviations)
    (f : FieldDescriptor → Value → M S bool) : M S () :=
  x ← lift (or_panic x);
  range_fields f [
    (has_string (QueryMedianDeviations_Denom x), fd_QueryMedianDeviations_denom, ValueOfString
       (QueryMedianDeviations_Denom x))].
Definition QueryMedianDeviations_Has (x : option QueryMedianDeviations) (fd : FieldDescriptor) :
    outcome bool :=
  x ← or_panic x;
  field_switch fd [
    ("oracle.v1.QueryMedianDeviations.denom"%string,
      Ok (has_string (QueryMedianDeviations_Denom x)))].
Definition QueryMedianDeviations_Clear (x : option QueryMedianDeviations) (fd : FieldDescriptor) :
    outcome QueryMedianDeviations :=
  x ← or_panic x;
  field_switch fd [
    ("oracle.v1.QueryMedianDeviations.denom"%string,
      Ok (QueryMedianDeviations_with_Denom x ""%string))].
Definition QueryMedianDeviations_Get (x : option QueryMedianDeviations) (fd : FieldDescriptor) :
    outcome Value :=
  x ← or_panic x;
  field_switch fd [
    ("oracle.v1.QueryMedianDeviations.denom"%string,
      Ok (ValueOfString (QueryMedianDeviations_Denom x)))].
Definition QueryMedianDeviations_Set (x : option QueryMedianDeviations) (fd : FieldDescriptor)
    (value : Value) : outcome QueryMedianDeviations :=
  x ← or_panic x;
  field_switch fd [
    ("oracle.v1.QueryMedianDeviations.denom"%string,
      set_string (QueryMedianDeviations_with_Denom x) value)].
Definition QueryMedianDeviations_Mutable (x : option QueryMedianDeviations) (fd : FieldDescriptor)
    : outcome (Value * QueryMedianDeviations) :=
  x ← or_panic x;
  field_switch fd [
    ("oracle.v1.QueryMedianDeviations.denom"%string, Panic)].
Definition QueryMedianDeviations_NewField (fd : FieldDescriptor) : outcome Value :=
  field_switch fd [
    ("oracle.v1.QueryMedianDeviations.denom"%string, Ok (ValueOfString ""%string))].
Definition QueryMedianDeviations_set_unknown (x : QueryMedianDeviations) (fields : bytes) : QueryMedianDeviations :=
  mkQueryMedianDeviations (QueryMedianDeviations_Denom x) fields.
#[export] Instance QueryMedianDeviations_reflect : MessageReflect QueryMedianDeviations := {|
  Range S := QueryMedianDeviations_Range;
  Has := QueryMedianDeviations_Has;
  Clear := QueryMedianDeviations_Clear;
  Get := QueryMedianDeviations_Get;
  Set_ := QueryMedianDeviations_Set;
  Mutable := QueryMedianDeviations_Mutable;
  NewField := QueryMedianDeviations_NewField;
  Descriptor := QueryMedianDeviations_descriptor;
  GetUnknown x := x ← or_panic x; Ok (QueryMedianDeviations_unknownFields x);
  SetUnknown x fields := x ← or_panic x; Ok (QueryMedianDeviations_set_unknown x fields);
|}.

(** [QueryMedianDeviationsResponse] *)

Definition fd_QueryMedianDeviationsResponse_median_deviations : FieldDescriptor :=
  mkField "oracle.v1.QueryMedianDeviationsResponse.median_deviations" 1 MessageKind true.
Definition QueryMedianDeviationsResponse_descriptor : list FieldDescriptor := [
  fd_QueryMedianDeviationsResponse_median_deviations].
Definition QueryMedianDeviationsResponse_with_MedianDeviations (x : QueryMedianDeviationsResponse)
    (v : list (option PriceStamp)) : QueryMedianDeviationsResponse :=
  mkQueryMedianDeviationsResponse v (QueryMedianDeviationsResponse_unknownFields x).
Definition QueryMedianDeviationsResponse_GetMedianDeviations : option QueryMedianDeviationsResponse
    → list (option PriceStamp) :=
  getter [] QueryMedianDeviationsResponse_MedianDeviations.
#[export] Instance QueryMedianDeviationsResponse_1_list_methods : ProtoList QueryMedianDeviationsResponse_1_list :=
  message_list mkQueryMedianDeviationsResponse_1_list QueryMedianDeviationsResponse_1_list_slice.
Definition QueryMedianDeviationsResponse_Range {S} (x : option QueryMedianDeviationsResponse)
    (f : FieldDescriptor → Value → M S bool) : M S () :=
  x ← lift (or_panic x);
  range_fields f [
    (has_slice (QueryMedianDeviationsResponse_MedianDeviations x),
       fd_QueryMedianDeviationsResponse_median_deviations, ValueOfList
       (mkQueryMedianDeviationsResponse_1_list (Some (QueryMedianDeviationsResponse_MedianDeviations x))))].
Definition QueryMedianDeviationsResponse_Has (x : option QueryMedianDeviationsResponse)
    (fd : FieldDescriptor) : outcome bool :=
  x ← or_panic x;
  field_switch fd [
    ("oracle.v1.QueryMedianDeviationsResponse.median_deviations"%string,
      Ok (has_slice (QueryMedianDeviationsResponse_MedianDeviations x)))].
Definition QueryMedianDeviationsResponse_Clear (x : option QueryMedianDeviationsResponse)
    (fd : FieldDescriptor) : outcome QueryMedianDeviationsResponse :=
  x ← or_panic x;
  field_switch fd [
    ("oracle.v1.QueryMedianDeviationsResponse.median_deviations"%string,
      Ok (QueryMedianDeviationsResponse_with_MedianDeviations x []))].
Definition QueryMedianDeviationsResponse_Get (x : option QueryMedianDeviationsResponse)
    (fd : FieldDescriptor) : outcome Value :=
  x ← or_panic x;
  field_switch fd [
    ("oracle.v1.QueryMedianDeviationsResponse.median_deviations"%string,
      Ok
        (get_list mkQueryMedianDeviationsResponse_1_list (QueryMedianDeviationsResponse_MedianDeviations x)))].
Definition QueryMedianDeviationsResponse_Set (x : option QueryMedianDeviationsResponse)
    (fd : FieldDescriptor) (value : Value) : outcome QueryMedianDeviationsResponse :=
  x ← or_panic x;
  field_switch fd [
    ("oracle.v1.QueryMedianDeviationsResponse.median_deviations"%string,
      set_list QueryMedianDeviationsResponse_1_list_slice
        (QueryMedianDeviationsResponse_with_MedianDeviations x) value)].
Definition QueryMedianDeviationsResponse_Mutable (x : option QueryMedianDeviationsResponse)
    (fd : FieldDescriptor) : outcome (Value * QueryMedianDeviationsResponse) :=
  x ← or_panic x;
  field_switch fd [
    ("oracle.v1.QueryMedianDeviationsResponse.median_deviations"%string,
      mutable_list mkQueryMedianDeviationsResponse_1_list x
        (QueryMedianDeviationsResponse_MedianDeviations x))].
Definition QueryMedianDeviationsResponse_NewField (fd : FieldDescriptor) : outcome Value :=
  field_switch fd [
    ("oracle.v1.QueryMedianDeviationsResponse.median_deviations"%string,
      new_list mkQueryMedianDeviationsResponse_1_list)].
Definition QueryMedianDeviationsResponse_set_unknown (x : QueryMedianDeviationsResponse) (fields : bytes) : QueryMedianDeviationsResponse :=
  mkQueryMedianDeviationsResponse (QueryMedianDeviationsResponse_MedianDeviations x) fields.
#[export] Instance QueryMedianDeviationsResponse_reflect : MessageReflect QueryMedianDeviationsResponse := {|
  Range S := QueryMedianDeviationsResponse_Range;
  Has := QueryMedianDeviationsResponse_Has;
  Clear := QueryMedianDeviationsResponse_Clear;
  Get := QueryMedianDeviationsResponse_Get;
  Set_ := QueryMedianDeviationsResponse_Set;
  Mutable := QueryMedianDeviationsResponse_Mutable;
  NewField := QueryMedianDeviationsResponse_NewField;
  Descriptor := QueryMedianDeviationsResponse_descriptor;
  GetUnknown x := x ← or_panic x; Ok (QueryMedianDeviationsResponse_unknownFields x);
  SetUnknown x fields := x ← or_panic x; Ok (QueryMedianDeviationsResponse_set_unknown x fields);
|}.

(** [QueryValidatorRewardSet] *)

Definition QueryValidatorRewardSet_descriptor : list FieldDescriptor := [].
Definition QueryValidatorRewardSet_Range {S} (x : option QueryValidatorRewardSet)
    (f : FieldDescriptor → Value → M S bool) : M S () :=
  mret ().
Definition QueryValidatorRewardSet_Has (x : option QueryValidatorRewardSet) (fd : FieldDescriptor)
    : outcome bool :=
  field_switch fd [].
Definition QueryValidatorRewardSet_Clear (x : option QueryValidatorRewardSet)
    (fd : FieldDescriptor) : outcome QueryValidatorRewardSet :=
  field_switch fd [].
Definition QueryValidatorRewardSet_Get (x : option QueryValidatorRewardSet) (fd : FieldDescriptor)
    : outcome Value :=
  field_switch fd [].
Definition QueryValidatorRewardSet_Set (x : option QueryValidatorRewardSet) (fd : FieldDescriptor)
    (value : Value) : outcome QueryValidatorRewardSet :=
  field_switch fd [].
Definition QueryValidatorRewardSet_Mutable (x : option QueryValidatorRewardSet)
    (fd : FieldDescriptor) : outcome (Value * QueryValidatorRewardSet) :=
  field_switch fd [].
Definition QueryValidatorRewardSet_NewField (fd : FieldDescriptor) : outcome Value :=
  field_switch fd [].
Definition QueryValidatorRewardSet_set_unknown (x : QueryValidatorRewardSet) (fields : bytes) : QueryValidatorRewardSet :=
  mkQueryValidatorRewardSet fields.
#[export] Instance QueryValidatorRewardSet_reflect : MessageReflect QueryValidatorRewardSet := {|
  Range S := QueryValidatorRewardSet_Range;
  Has := QueryValidatorRewardSet_Has;
  Clear := QueryValidatorRewardSet_Clear;
  Get := QueryValidatorRewardSet_Get;
  Set_ := QueryValidatorRewardSet_Set;
  Mutable := QueryValidatorRewardSet_Mutable;
  NewField := QueryValidatorRewardSet_NewField;
  Descriptor := QueryValidatorRewardSet_descriptor;
  GetUnknown x := x ← or_panic x; Ok (QueryValidatorRewardSet_unknownFields x);
  SetUnknown x fields := x ← or_panic x; Ok (QueryValidatorRewardSet_set_unknown x fields);
|}.

(** [QueryValidatorRewardSetResponse] *)

Definition fd_QueryValidatorRewardSetResponse_validators : FieldDescriptor :=
  mkField "oracle.v1.QueryValidatorRewardSetResponse.validators" 1 MessageKind false.
Definition QueryValidatorRewardSetResponse_descriptor : list FieldDescriptor := [
  fd_QueryValidatorRewardSetResponse_validators].
Definition QueryValidatorRewardSetResponse_with_Validators (x : QueryValidatorRewardSetResponse)
    (v : option ValidatorRewardSet) : QueryValidatorRewardSetResponse :=
  mkQueryValidatorRewardSetResponse v (QueryValidatorRewardSetResponse_unknownFields x).
Definition QueryValidatorRewardSetResponse_GetValidators : option QueryValidatorRewardSetResponse →
    option ValidatorRewardSet :=
  getter None QueryValidatorRewardSetResponse_Validators.
Definition QueryValidatorRewardSetResponse_Range {S} (x : option QueryValidatorRewardSetResponse)
    (f : FieldDescriptor → Value → M S bool) : M S () :=
  x ← lift (or_panic x);
  range_fields f [
    (has_message (QueryValidatorRewardSetResponse_Validators x),
       fd_QueryValidatorRewardSetResponse_validators, ValueOfMessage
       (QueryValidatorRewardSetResponse_Validators x))].
Definition QueryValidatorRewardSetResponse_Has (x : option QueryValidatorRewardSetResponse)
    (fd : FieldDescriptor) : outcome bool :=
  x ← or_panic x;
  field_switch fd [
    ("oracle.v1.QueryValidatorRewardSetResponse.validators"%string,
      Ok (has_message (QueryValidatorRewardSetResponse_Validators x)))].
Definition QueryValidatorRewardSetResponse_Clear (x : option QueryValidatorRewardSetResponse)
    (fd : FieldDescriptor) : outcome QueryValidatorRewardSetResponse :=
  x ← or_panic x;
  field_switch fd [
    ("oracle.v1.QueryValidatorRewardSetResponse.validators"%string,
      Ok (QueryValidatorRewardSetResponse_with_Validators x None))].
Definition QueryValidatorRewardSetResponse_Get (x : option QueryValidatorRewardSetResponse)
    (fd : FieldDescriptor) : outcome Value :=
  x ← or_panic x;
  field_switch fd [
    ("oracle.v1.QueryValidatorRewardSetResponse.validators"%string,
      Ok (ValueOfMessage (QueryValidatorRewardSetResponse_Validators x)))].
Definition QueryValidatorRewardSetResponse_Set (x : option QueryValidatorRewardSetResponse)
    (fd : FieldDescriptor) (value : Value) : outcome QueryValidatorRewardSetResponse :=
  x ← or_panic x;
  field_switch fd [
    ("oracle.v1.QueryValidatorRewardSetResponse.validators"%string,
      set_message (QueryValidatorRewardSetResponse_with_Validators x) value)].
Definition QueryValidatorRewardSetResponse_Mutable (x : option QueryValidatorRewardSetResponse)
    (fd : FieldDescriptor) : outcome (Value * QueryValidatorRewardSetResponse) :=
  x ← or_panic x;
  field_switch fd [
    ("oracle.v1.QueryValidatorRewardSetResponse.validators"%string,
      mutable_message (QueryValidatorRewardSetResponse_with_Validators x)
        (QueryValidatorRewardSetResponse_Validators x))].
Definition QueryValidatorRewardSetResponse_NewField (fd : FieldDescriptor) : outcome Value :=
  field_switch fd [
    ("oracle.v1.QueryValidatorRewardSetResponse.validators"%string,
      new_message (A := ValidatorRewardSet))].
Definition QueryValidatorRewardSetResponse_set_unknown (x : QueryValidatorRewardSetResponse) (fields : bytes) : QueryValidatorRewardSetResponse :=
  mkQueryValidatorRewardSetResponse (QueryValidatorRewardSetResponse_Validators x) fields.
#[export] Instance QueryValidatorRewardSetResponse_reflect : MessageReflect QueryValidatorRewardSetResponse := {|
  Range S := QueryValidatorRewardSetResponse_Range;
  Has := QueryValidatorRewardSetResponse_Has;
  Clear := QueryValidatorRewardSetResponse_Clear;
  Get := QueryValidatorRewardSetResponse_Get;
  Set_ := QueryValidatorRewardSetResponse_Set;
  Mutable := QueryValidatorRewardSetResponse_Mutable;
  NewField := QueryValidatorRewardSetResponse_NewField;
  Descriptor := QueryValidatorRewardSetResponse_descriptor;
  GetUnknown x := x ← or_panic x; Ok (QueryValidatorRewardSetResponse_unknownFields x);
  SetUnknown x fields := x ← or_panic x; Ok (QueryValidatorRewardSetResponse_set_unknown x fields);
|}.

(** [QueryEMARequest] *)

Definition fd_QueryEMARequest_denom : FieldDescriptor :=
  mkField "oracle.v1.QueryEMARequest.denom" 1 StringKind false.
Definition QueryEMARequest_descriptor : list FieldDescriptor := [
  fd_QueryEMARequest_denom].
Definition QueryEMARequest_with_Denom (x : QueryEMARequest) (v : string) : QueryEMARequest :=
  mkQueryEMARequest v (QueryEMARequest_unknownFields x).
Definition QueryEMARequest_GetDenom : option QueryEMARequest → string :=
  getter ""%string QueryEMARequest_Denom.
Definition QueryEMARequest_Range {S} (x : option QueryEMARequest)
    (f : FieldDescriptor → Value → M S bool) : M S () :=
  x ← lift (or_panic x);
  range_fields f [
    (has_string (QueryEMARequest_Denom x), fd_QueryEMARequest_denom, ValueOfString
       (QueryEMARequest_Denom x))].
Definition QueryEMARequest_Has (x : option QueryEMARequest) (fd : FieldDescriptor) : outcome bool
    :=
  x ← or_panic x;
  field_switch fd [
    ("oracle.v1.QueryEMARequest.denom"%string, Ok (has_string (QueryEMARequest_Denom x)))].
Definition QueryEMARequest_Clear (x : option QueryEMARequest) (fd : FieldDescriptor) : outcome
    QueryEMARequest :=
  x ← or_panic x;
  field_switch fd [
    ("oracle.v1.QueryEMARequest.denom"%string, Ok (QueryEMARequest_with_Denom x ""%string))].
Definition QueryEMARequest_Get (x : option QueryEMARequest) (fd : FieldDescriptor) : outcome Value
    :=
  x ← or_panic x;
  field_switch fd [
    ("oracle.v1.QueryEMARequest.denom"%string, Ok (ValueOfString (QueryEMARequest_Denom x)))].
Definition QueryEMARequest_Set (x : option QueryEMARequest) (fd : FieldDescriptor) (value : Value)
    : outcome QueryEMARequest :=
  x ← or_panic x;
  field_switch fd [
    ("oracle.v1.QueryEMARequest.denom"%string, set_string (QueryEMARequest_with_Denom x) value)].
Definition QueryEMARequest_Mutable (x : option QueryEMARequest) (fd : FieldDescriptor) : outcome
    (Value * QueryEMARequest) :=
  x ← or_panic x;
  field_switch fd [
    ("oracle.v1.QueryEMARequest.denom"%string, Panic)].
Definition QueryEMARequest_NewField (fd : FieldDescriptor) : outcome Value :=
  field_switch fd [
    ("oracle.v1.QueryEMARequest.denom"%string, Ok (ValueOfString ""%string))].
Definition QueryEMARequest_set_unknown (x : QueryEMARequest) (fields : bytes) : QueryEMARequest :=
  mkQueryEMARequest (QueryEMARequest_Denom x) fields.
#[export] Instance QueryEMARequest_reflect : MessageReflect QueryEMARequest := {|
  Range S := QueryEMARequest_Range;
  Has := QueryEMARequest_Has;
  Clear := QueryEMARequest_Clear;
  Get := QueryEMARequest_Get;
  Set_ := QueryEMARequest_Set;
  Mutable := QueryEMARequest_Mutable;
  NewField := QueryEMARequest_NewField;
  Descriptor := QueryEMARequest_descriptor;
  GetUnknown x := x ← or_panic x; Ok (QueryEMARequest_unknownFields x);
  SetUnknown x fields := x ← or_panic x; Ok (QueryEMARequest_set_unknown x fields);
|}.

(** [QueryEMAResponse] *)

Definition fd_QueryEMAResponse_price : FieldDescriptor :=
  mkField "oracle.v1.QueryEMAResponse.price" 1 StringKind false.
Definition QueryEMAResponse_descriptor : list FieldDescriptor := [
  fd_QueryEMAResponse_price].
Definition QueryEMAResponse_with_Price (x : QueryEMAResponse) (v : string) : QueryEMAResponse :=
  mkQueryEMAResponse v (QueryEMAResponse_unknownFields x).
Definition QueryEMAResponse_GetPrice : option QueryEMAResponse → string :=
  getter ""%string QueryEMAResponse_Price.
Definition QueryEMAResponse_Range {S} (x : option QueryEMAResponse)
    (f : FieldDescriptor → Value → M S bool) : M S () :=
  x ← lift (or_panic x);
  range_fields f [
    (has_string (QueryEMAResponse_Price x), fd_QueryEMAResponse_price, ValueOfString
       (QueryEMAResponse_Price x))].
Definition QueryEMAResponse_Has (x : option QueryEMAResponse) (fd : FieldDescriptor) : outcome bool
    :=
  x ← or_panic x;
  field_switch fd [
    ("oracle.v1.QueryEMAResponse.price"%string, Ok (has_string (QueryEMAResponse_Price x)))].
Definition QueryEMAResponse_Clear (x : option QueryEMAResponse) (fd : FieldDescriptor) : outcome
    QueryEMAResponse :=
  x ← or_panic x;
  field_switch fd [
    ("oracle.v1.QueryEMAResponse.price"%string, Ok (QueryEMAResponse_with_Price x ""%string))].
Definition QueryEMAResponse_Get (x : option QueryEMAResponse) (fd : FieldDescriptor) : outcome
    Value :=
  x ← or_panic x;
  field_switch fd [
    ("oracle.v1.QueryEMAResponse.price"%string, Ok (ValueOfString (QueryEMAResponse_Price x)))].
Definition QueryEMAResponse_Set (x : option QueryEMAResponse) (fd : FieldDescriptor)
    (value : Value) : outcome QueryEMAResponse :=
  x ← or_panic x;
  field_switch fd [
    ("oracle.v1.QueryEMAResponse.price"%string, set_string (QueryEMAResponse_with_Price x) value)].
Definition QueryEMAResponse_Mutable (x : option QueryEMAResponse) (fd : FieldDescriptor) : outcome
    (Value * QueryEMAResponse) :=
  x ← or_panic x;
  field_switch fd [
    ("oracle.v1.QueryEMAResponse.price"%string, Panic)].
Definition QueryEMAResponse_NewField (fd : FieldDescriptor) : outcome Value :=
  field_switch fd [
    ("oracle.v1.QueryEMAResponse.price"%string, Ok (ValueOfString ""%string))].
Definition QueryEMAResponse_set_unknown (x : QueryEMAResponse) (fields : bytes) : QueryEMAResponse :=
  mkQueryEMAResponse (QueryEMAResponse_Price x) fields.
#[export] Instance QueryEMAResponse_reflect : MessageReflect QueryEMAResponse := {|
  Range S := QueryEMAResponse_Range;
  Has := QueryEMAResponse_Has;
  Clear := QueryEMAResponse_Clear;
  Get := QueryEMAResponse_Get;
  Set_ := QueryEMAResponse_Set;
  Mutable := QueryEMAResponse_Mutable;
  NewField := QueryEMAResponse_NewField;
  Descriptor := QueryEMAResponse_descriptor;
  GetUnknown x := x ← or_panic x; Ok (QueryEMAResponse_unknownFields x);
  SetUnknown x fields := x ← or_panic x; Ok (QueryEMAResponse_set_unknown x fields);
|}.

(** [QueryWMARequest] *)

Definition fd_QueryWMARequest_denom : FieldDescriptor :=
  mkField "oracle.v1.QueryWMARequest.denom" 1 StringKind false.
Definition fd_QueryWMARequest_strategy : FieldDescriptor :=
  mkField "oracle.v1.QueryWMARequest.strategy" 2 StringKind false.
Definition fd_QueryWMARequest_custom_weights : FieldDescriptor :=
  mkField "oracle.v1.QueryWMARequest.custom_weights" 3 Int64Kind true.
Definition QueryWMARequest_descriptor : list FieldDescriptor := [
  fd_QueryWMARequest_denom; fd_QueryWMARequest_strategy; fd_QueryWMARequest_custom_weights].
Definition QueryWMARequest_with_Denom (x : QueryWMARequest) (v : string) : QueryWMARequest :=
  mkQueryWMARequest v (QueryWMARequest_Strategy x) (QueryWMARequest_CustomWeights x)
    (QueryWMARequest_unknownFields x).
Definition QueryWMARequest_with_Strategy (x : QueryWMARequest) (v : string) : QueryWMARequest :=
  mkQueryWMARequest (QueryWMARequest_Denom x) v (QueryWMARequest_CustomWeights x)
    (QueryWMARequest_unknownFields x).
Definition QueryWMARequest_with_CustomWeights (x : QueryWMARequest) (v : list Z) : QueryWMARequest
    :=
  mkQueryWMARequest (QueryWMARequest_Denom x) (QueryWMARequest_Strategy x) v
    (QueryWMARequest_unknownFields x).
Definition QueryWMARequest_GetDenom : option QueryWMARequest → string :=
  getter ""%string QueryWMARequest_Denom.
Definition QueryWMARequest_GetStrategy : option QueryWMARequest → string :=
  getter ""%string QueryWMARequest_Strategy.
Definition QueryWMARequest_GetCustomWeights : option QueryWMARequest → list Z :=
  getter [] QueryWMARequest_CustomWeights.
#[export] Instance QueryWMARequest_3_list_methods : ProtoList QueryWMARequest_3_list :=
  int64_list mkQueryWMARequest_3_list QueryWMARequest_3_list_slice.
Definition QueryWMARequest_Range {S} (x : option QueryWMARequest)
    (f : FieldDescriptor → Value → M S bool) : M S () :=
  x ← lift (or_panic x);
  range_fields f [
    (has_string (QueryWMARequest_Denom x), fd_QueryWMARequest_denom, ValueOfString
       (QueryWMARequest_Denom x));
    (has_string (QueryWMARequest_Strategy x), fd_QueryWMARequest_strategy, ValueOfString
       (QueryWMARequest_Strategy x));
    (has_slice (QueryWMARequest_CustomWeights x), fd_QueryWMARequest_custom_weights, ValueOfList
       (mkQueryWMARequest_3_list (Some (QueryWMARequest_CustomWeights x))))].
Definition QueryWMARequest_Has (x : option QueryWMARequest) (fd : FieldDescriptor) : outcome bool
    :=
  x ← or_panic x;
  field_switch fd [
    ("oracle.v1.QueryWMARequest.denom"%string, Ok (has_string (QueryWMARequest_Denom x)));
    ("oracle.v1.QueryWMARequest.strategy"%string, Ok (has_string (QueryWMARequest_Strategy x)));
    ("oracle.v1.QueryWMARequest.custom_weights"%string,
      Ok (has_slice (QueryWMARequest_CustomWeights x)))].
Definition QueryWMARequest_Clear (x : option QueryWMARequest) (fd : FieldDescriptor) : outcome
    QueryWMARequest :=
  x ← or_panic x;
  field_switch fd [
    ("oracle.v1.QueryWMARequest.denom"%string, Ok (QueryWMARequest_with_Denom x ""%string));
    ("oracle.v1.QueryWMARequest.strategy"%string, Ok (QueryWMARequest_with_Strategy x ""%string));
    ("oracle.v1.QueryWMARequest.custom_weights"%string,
      Ok (QueryWMARequest_with_CustomWeights x []))].
Definition QueryWMARequest_Get (x : option QueryWMARequest) (fd : FieldDescriptor) : outcome Value
    :=
  x ← or_panic x;
  field_switch fd [
    ("oracle.v1.QueryWMARequest.denom"%string, Ok (ValueOfString (QueryWMARequest_Denom x)));
    ("oracle.v1.QueryWMARequest.strategy"%string, Ok (ValueOfString (QueryWMARequest_Strategy x)));
    ("oracle.v1.QueryWMARequest.custom_weights"%string,
      Ok (get_list mkQueryWMARequest_3_list (QueryWMARequest_CustomWeights x)))].
Definition QueryWMARequest_Set (x : option QueryWMARequest) (fd : FieldDescriptor) (value : Value)
    : outcome QueryWMARequest :=
  x ← or_panic x;
  field_switch fd [
    ("oracle.v1.QueryWMARequest.denom"%string, set_string (QueryWMARequest_with_Denom x) value);
    ("oracle.v1.QueryWMARequest.strategy"%string,
      set_string (QueryWMARequest_with_Strategy x) value);
    ("oracle.v1.QueryWMARequest.custom_weights"%string,
      set_list QueryWMARequest_3_list_slice (QueryWMARequest_with_CustomWeights x) value)].
Definition QueryWMARequest_Mutable (x : option QueryWMARequest) (fd : FieldDescriptor) : outcome
    (Value * QueryWMARequest) :=
  x ← or_panic x;
  field_switch fd [
    ("oracle.v1.QueryWMARequest.custom_weights"%string,
      mutable_list mkQueryWMARequest_3_list x (QueryWMARequest_CustomWeights x));
    ("oracle.v1.QueryWMARequest.denom"%string, Panic);
    ("oracle.v1.QueryWMARequest.strategy"%string, Panic)].
Definition QueryWMARequest_NewField (fd : FieldDescriptor) : outcome Value :=
  field_switch fd [
    ("oracle.v1.QueryWMARequest.denom"%string, Ok (ValueOfString ""%string));
    ("oracle.v1.QueryWMARequest.strategy"%string, Ok (ValueOfString ""%string));
    ("oracle.v1.QueryWMARequest.custom_weights"%string, new_list mkQueryWMARequest_3_list)].
Definition QueryWMARequest_set_unknown (x : QueryWMARequest) (fields : bytes) : QueryWMARequest :=
  mkQueryWMARequest (QueryWMARequest_Denom x) (QueryWMARequest_Strategy x)
    (QueryWMARequest_CustomWeights x) fields.
#[export] Instance QueryWMARequest_reflect : MessageReflect QueryWMARequest := {|
  Range S := QueryWMARequest_Range;
  Has := QueryWMARequest_Has;
  Clear := QueryWMARequest_Clear;
  Get := QueryWMARequest_Get;
  Set_ := QueryWMARequest_Set;
  Mutable := QueryWMARequest_Mutable;
  NewField := QueryWMARequest_NewField;
  Descriptor := QueryWMARequest_descriptor;
  GetUnknown x := x ← or_panic x; Ok (QueryWMARequest_unknownFields x);
  SetUnknown x fields := x ← or_panic x; Ok (QueryWMARequest_set_unknown x fields);
|}.

(** [QueryWMAResponse] *)

Definition fd_QueryWMAResponse_price : FieldDescriptor :=
  mkField "oracle.v1.QueryWMAResponse.price" 1 StringKind false.
Definition QueryWMAResponse_descriptor : list FieldDescriptor := [
  fd_QueryWMAResponse_price].
Definition QueryWMAResponse_with_Price (x : QueryWMAResponse) (v : string) : QueryWMAResponse :=
  mkQueryWMAResponse v (QueryWMAResponse_unknownFields x).
Definition QueryWMAResponse_GetPrice : option QueryWMAResponse → string :=
  getter ""%string QueryWMAResponse_Price.
Definition QueryWMAResponse_Range {S} (x : option QueryWMAResponse)
    (f : FieldDescriptor → Value → M S bool) : M S () :=
  x ← lift (or_panic x);
  range_fields f [
    (has_string (QueryWMAResponse_Price x), fd_QueryWMAResponse_price, ValueOfString
       (QueryWMAResponse_Price x))].
Definition QueryWMAResponse_Has (x : option QueryWMAResponse) (fd : FieldDescriptor) : outcome bool
    :=
  x ← or_panic x;
  field_switch fd [
    ("oracle.v1.QueryWMAResponse.price"%string, Ok (has_string (QueryWMAResponse_Price x)))].
Definition QueryWMAResponse_Clear (x : option QueryWMAResponse) (fd : FieldDescriptor) : outcome
    QueryWMAResponse :=
  x ← or_panic x;
  field_switch fd [
    ("oracle.v1.QueryWMAResponse.price"%string, Ok (QueryWMAResponse_with_Price x ""%string))].
Definition QueryWMAResponse_Get (x : option QueryWMAResponse) (fd : FieldDescriptor) : outcome
    Value :=
  x ← or_panic x;
  field_switch fd [
    ("oracle.v1.QueryWMAResponse.price"%string, Ok (ValueOfString (QueryWMAResponse_Price x)))].
Definition QueryWMAResponse_Set (x : option QueryWMAResponse) (fd : FieldDescriptor)
    (value : Value) : outcome QueryWMAResponse :=
  x ← or_panic x;
  field_switch fd [
    ("oracle.v1.QueryWMAResponse.price"%string, set_string (QueryWMAResponse_with_Price x) value)].
Definition QueryWMAResponse_Mutable (x : option QueryWMAResponse) (fd : FieldDescriptor) : outcome
    (Value * QueryWMAResponse) :=
  x ← or_panic x;
  field_switch fd [
    ("oracle.v1.QueryWMAResponse.price"%string, Panic)].
Definition QueryWMAResponse_NewField (fd : FieldDescriptor) : outcome Value :=
  field_switch fd [
    ("oracle.v1.QueryWMAResponse.price"%string, Ok (ValueOfString ""%string))].
Definition QueryWMAResponse_set_unknown (x : QueryWMAResponse) (fields : bytes) : QueryWMAResponse :=
  mkQueryWMAResponse (QueryWMAResponse_Price x) fields.
#[export] Instance QueryWMAResponse_reflect : MessageReflect QueryWMAResponse := {|
  Range S := QueryWMAResponse_Range;
  Has := QueryWMAResponse_Has;
  Clear := QueryWMAResponse_Clear;
  Get := QueryWMAResponse_Get;
  Set_ := QueryWMAResponse_Set;
  Mutable := QueryWMAResponse_Mutable;
  NewField := QueryWMAResponse_NewField;
  Descriptor := QueryWMAResponse_descriptor;
  GetUnknown x := x ← or_panic x; Ok (QueryWMAResponse_unknownFields x);
  SetUnknown x fields := x ← or_panic x; Ok (QueryWMAResponse_set_unknown x fields);
|}.

(** [QuerySMARequest] *)

Definition fd_QuerySMARequest_denom : FieldDescriptor :=
  mkField "oracle.v1.QuerySMARequest.denom" 1 StringKind false.
Definition QuerySMARequest_descriptor : list FieldDescriptor := [
  fd_QuerySMARequest_denom].
Definition QuerySMARequest_with_Denom (x : QuerySMARequest) (v : string) : QuerySMARequest :=
  mkQuerySMARequest v (QuerySMARequest_unknownFields x).
Definition QuerySMARequest_GetDenom : option QuerySMARequest → string :=
  getter ""%string QuerySMARequest_Denom.
Definition QuerySMARequest_Range {S} (x : option QuerySMARequest)
    (f : FieldDescriptor → Value → M S bool) : M S () :=
  x ← lift (or_panic x);
  range_fields f [
    (has_string (QuerySMARequest_Denom x), fd_QuerySMARequest_denom, ValueOfString
       (QuerySMARequest_Denom x))].
Definition QuerySMARequest_Has (x : option QuerySMARequest) (fd : FieldDescriptor) : outcome bool
    :=
  x ← or_panic x;
  field_switch fd [
    ("oracle.v1.QuerySMARequest.denom"%string, Ok (has_string (QuerySMARequest_Denom x)))].
Definition QuerySMARequest_Clear (x : option QuerySMARequest) (fd : FieldDescriptor) : outcome
    QuerySMARequest :=
  x ← or_panic x;
  field_switch fd [
    ("oracle.v1.QuerySMARequest.denom"%string, Ok (QuerySMARequest_with_Denom x ""%string))].
Definition QuerySMARequest_Get (x : option QuerySMARequest) (fd : FieldDescriptor) : outcome Value
    :=
  x ← or_panic x;
  field_switch fd [
    ("oracle.v1.QuerySMARequest.denom"%string, Ok (ValueOfString (QuerySMARequest_Denom x)))].
Definition QuerySMARequest_Set (x : option QuerySMARequest) (fd : FieldDescriptor) (value : Value)
    : outcome QuerySMARequest :=
  x ← or_panic x;
  field_switch fd [
    ("oracle.v1.QuerySMARequest.denom"%string, set_string (QuerySMARequest_with_Denom x) value)].
Definition QuerySMARequest_Mutable (x : option QuerySMARequest) (fd : FieldDescriptor) : outcome
    (Value * QuerySMARequest) :=
  x ← or_panic x;
  field_switch fd [
    ("oracle.v1.QuerySMARequest.denom"%string, Panic)].
Definition QuerySMARequest_NewField (fd : FieldDescriptor) : outcome Value :=
  field_switch fd [
    ("oracle.v1.QuerySMARequest.denom"%string, Ok (ValueOfString ""%string))].
Definition QuerySMARequest_set_unknown (x : QuerySMARequest) (fields : bytes) : QuerySMARequest :=
  mkQuerySMARequest (QuerySMARequest_Denom x) fields.
#[export] Instance QuerySMARequest_reflect : MessageReflect QuerySMARequest := {|
  Range S := QuerySMARequest_Range;
  Has := QuerySMARequest_Has;
  Clear := QuerySMARequest_Clear;
  Get := QuerySMARequest_Get;
  Set_ := QuerySMARequest_Set;
  Mutable := QuerySMARequest_Mutable;
  NewField := QuerySMARequest_NewField;
  Descriptor := QuerySMARequest_descriptor;
  GetUnknown x := x ← or_panic x; Ok (QuerySMARequest_unknownFields x);
  SetUnknown x fields := x ← or_panic x; Ok (QuerySMARequest_set_unknown x fields);
|}.

(** [QuerySMAResponse] *)

Definition fd_QuerySMAResponse_price : FieldDescriptor :=
  mkField "oracle.v1.QuerySMAResponse.price" 1 StringKind false.
Definition QuerySMAResponse_descriptor : list FieldDescriptor := [
  fd_QuerySMAResponse_price].
Definition QuerySMAResponse_with_Price (x : QuerySMAResponse) (v : string) : QuerySMAResponse :=
  mkQuerySMAResponse v (QuerySMAResponse_unknownFields x).
Definition QuerySMAResponse_GetPrice : option QuerySMAResponse → string :=
  getter ""%string QuerySMAResponse_Price.
Definition QuerySMAResponse_Range {S} (x : option QuerySMAResponse)
    (f : FieldDescriptor → Value → M S bool) : M S () :=
  x ← lift (or_panic x);
  range_fields f [
    (has_string (QuerySMAResponse_Price x), fd_QuerySMAResponse_price, ValueOfString
       (QuerySMAResponse_Price x))].
Definition QuerySMAResponse_Has (x : option QuerySMAResponse) (fd : FieldDescriptor) : outcome bool
    :=
  x ← or_panic x;
  field_switch fd [
    ("oracle.v1.QuerySMAResponse.price"%string, Ok (has_string (QuerySMAResponse_Price x)))].
Definition QuerySMAResponse_Clear (x : option QuerySMAResponse) (fd : FieldDescriptor) : outcome
    QuerySMAResponse :=
  x ← or_panic x;
  field_switch fd [
    ("oracle.v1.QuerySMAResponse.price"%string, Ok (QuerySMAResponse_with_Price x ""%string))].
Definition QuerySMAResponse_Get (x : option QuerySMAResponse) (fd : FieldDescriptor) : outcome
    Value :=
  x ← or_panic x;
  field_switch fd [
    ("oracle.v1.QuerySMAResponse.price"%string, Ok (ValueOfString (QuerySMAResponse_Price x)))].
Definition QuerySMAResponse_Set (x : option QuerySMAResponse) (fd : FieldDescriptor)
    (value : Value) : outcome QuerySMAResponse :=
  x ← or_panic x;
  field_switch fd [
    ("oracle.v1.QuerySMAResponse.price"%string, set_string (QuerySMAResponse_with_Price x) value)].
Definition QuerySMAResponse_Mutable (x : option QuerySMAResponse) (fd : FieldDescriptor) : outcome
    (Value * QuerySMAResponse) :=
  x ← or_panic x;
  field_switch fd [
    ("oracle.v1.QuerySMAResponse.price"%string, Panic)].
Definition QuerySMAResponse_NewField (fd : FieldDescriptor) : outcome Value :=
  field_switch fd [
    ("oracle.v1.QuerySMAResponse.price"%string, Ok (ValueOfString ""%string))].
Definition QuerySMAResponse_set_unknown (x : QuerySMAResponse) (fields : bytes) : QuerySMAResponse :=
  mkQuerySMAResponse (QuerySMAResponse_Price x) fields.
#[export] Instance QuerySMAResponse_reflect : MessageReflect QuerySMAResponse := {|
  Range S := QuerySMAResponse_Range;
  Has := QuerySMAResponse_Has;
  Clear := QuerySMAResponse_Clear;
  Get := QuerySMAResponse_Get;
  Set_ := QuerySMAResponse_Set;
  Mutable := QuerySMAResponse_Mutable;
  NewField := QuerySMAResponse_NewField;
  Descriptor := QuerySMAResponse_descriptor;
  GetUnknown x := x ← or_panic x; Ok (QuerySMAResponse_unknownFields x);
  SetUnknown x fields := x ← or_panic x; Ok (QuerySMAResponse_set_unknown x fields);
|}.
End methods.

(** ** Tables *)

Class QueryValuesLaws `{PulsarRuntime} `{CosmosApi} `{ProtoReflect} `{!OracleValues, !QueryValues} := {
  ValidatorRewardSet_value_laws :: MessageValueLaws ValidatorRewardSet;
  QueryExchangeRatesResponse_1_list_value_laws :: ListValueLaws QueryExchangeRatesResponse_1_list;
  QueryActiveExchangeRatesResponse_1_list_value_laws :: ListValueLaws QueryActiveExchangeRatesResponse_1_list;
  QueryAggregatePrevotesResponse_1_list_value_laws :: ListValueLaws QueryAggregatePrevotesResponse_1_list;
  QueryAggregateVotesResponse_1_list_value_laws :: ListValueLaws QueryAggregateVotesResponse_1_list;
  QueryMediansResponse_1_list_value_laws :: ListValueLaws QueryMediansResponse_1_list;
  QueryMedianDeviationsResponse_1_list_value_laws :: ListValueLaws QueryMedianDeviationsResponse_1_list;
  QueryWMARequest_3_list_value_laws :: ListValueLaws QueryWMARequest_3_list;
}.

Section tables.
Context `{PulsarRuntimeLaws} `{CosmosApiLaws} `{ProtoReflectLaws}.
Context `{!OracleValues, !QueryValues} `{!OracleValuesLaws, !QueryValuesLaws}.

Definition QueryExchangeRates_specs : list (FieldSpec QueryExchangeRates) := [
  mkSpec string_codec "oracle.v1.QueryExchangeRates.denom"%string 1 [0xa] QueryExchangeRates_Denom
    QueryExchangeRates_with_Denom QueryExchangeRates_GetDenom].
#[export] Instance QueryExchangeRates_table : ReflectTable QueryExchangeRates.
Proof. solve_table QueryExchangeRates_specs QueryExchangeRates_unknownFields QueryExchangeRates_set_unknown. Defined.

Definition QueryExchangeRatesResponse_specs : list (FieldSpec QueryExchangeRatesResponse) := [
  mkSpec
    (messages_codec v1beta1_DecCoin mkQueryExchangeRatesResponse_1_list QueryExchangeRatesResponse_1_list_slice)
    "oracle.v1.QueryExchangeRatesResponse.exchange_rates"%string 1 [0xa]
    QueryExchangeRatesResponse_ExchangeRates QueryExchangeRatesResponse_with_ExchangeRates
    QueryExchangeRatesResponse_GetExchangeRates].
#[export] Instance QueryExchangeRatesResponse_table : ReflectTable QueryExchangeRatesResponse.
Proof. solve_table QueryExchangeRatesResponse_specs QueryExchangeRatesResponse_unknownFields QueryExchangeRatesResponse_set_unknown. Defined.

Definition QueryActiveExchangeRates_specs : list (FieldSpec QueryActiveExchangeRates) := [].
#[export] Instance QueryActiveExchangeRates_table : ReflectTable QueryActiveExchangeRates.
Proof. solve_table QueryActiveExchangeRates_specs QueryActiveExchangeRates_unknownFields QueryActiveExchangeRates_set_unknown. Defined.

Definition QueryActiveExchangeRatesResponse_specs : list (FieldSpec QueryActiveExchangeRatesResponse) := [
  mkSpec
    (strings_codec mkQueryActiveExchangeRatesResponse_1_list QueryActiveExchangeRatesResponse_1_list_slice)
    "oracle.v1.QueryActiveExchangeRatesResponse.active_rates"%string 1 [0xa]
    QueryActiveExchangeRatesResponse_ActiveRates QueryActiveExchangeRatesResponse_with_ActiveRates
    QueryActiveExchangeRatesResponse_GetActiveRates].
#[export] Instance QueryActiveExchangeRatesResponse_table : ReflectTable QueryActiveExchangeRatesResponse.
Proof. solve_table QueryActiveExchangeRatesResponse_specs QueryActiveExchangeRatesResponse_unknownFields QueryActiveExchangeRatesResponse_set_unknown. Defined.

Definition QueryFeederDelegation_specs : list (FieldSpec QueryFeederDelegation) := [
  mkSpec string_codec "oracle.v1.QueryFeederDelegation.validator_addr"%string 1 [0xa]
    QueryFeederDelegation_ValidatorAddr QueryFeederDelegation_with_ValidatorAddr
    QueryFeederDelegation_GetValidatorAddr].
#[export] Instance QueryFeederDelegation_table : ReflectTable QueryFeederDelegation.
Proof. solve_table QueryFeederDelegation_specs QueryFeederDelegation_unknownFields QueryFeederDelegation_set_unknown. Defined.

Definition QueryFeederDelegationResponse_specs : list (FieldSpec QueryFeederDelegationResponse) := [
  mkSpec string_codec "oracle.v1.QueryFeederDelegationResponse.feeder_addr"%string 1 [0xa]
    QueryFeederDelegationResponse_FeederAddr QueryFeederDelegationResponse_with_FeederAddr
    QueryFeederDelegationResponse_GetFeederAddr].
#[export] Instance QueryFeederDelegationResponse_table : ReflectTable QueryFeederDelegationResponse.
Proof. solve_table QueryFeederDelegationResponse_specs QueryFeederDelegationResponse_unknownFields QueryFeederDelegationResponse_set_unknown. Defined.

Definition QueryMissCounter_specs : list (FieldSpec QueryMissCounter) := [
  mkSpec string_codec "oracle.v1.QueryMissCounter.validator_addr"%string 1 [0xa]
    QueryMissCounter_ValidatorAddr QueryMissCounter_with_ValidatorAddr
    QueryMissCounter_GetValidatorAddr].
#[export] Instance QueryMissCounter_table : ReflectTable QueryMissCounter.
Proof. solve_table QueryMissCounter_specs QueryMissCounter_unknownFields QueryMissCounter_set_unknown. Defined.

Definition QueryMissCounterResponse_specs : list (FieldSpec QueryMissCounterResponse) := [
  mkSpec uint64_codec "oracle.v1.QueryMissCounterResponse.miss_counter"%string 1 [0x8]
    QueryMissCounterResponse_MissCounter QueryMissCounterResponse_with_MissCounter
    QueryMissCounterResponse_GetMissCounter].
#[export] Instance QueryMissCounterResponse_table : ReflectTable QueryMissCounterResponse.
Proof. solve_table QueryMissCounterResponse_specs QueryMissCounterResponse_unknownFields QueryMissCounterResponse_set_unknown. Defined.

Definition QuerySlashWindow_specs : list (FieldSpec QuerySlashWindow) := [].
#[export] Instance QuerySlashWindow_table : ReflectTable QuerySlashWindow.
Proof. solve_table QuerySlashWindow_specs QuerySlashWindow_unknownFields QuerySlashWindow_set_unknown. Defined.

Definition QuerySlashWindowResponse_specs : list (FieldSpec QuerySlashWindowResponse) := [
  mkSpec uint64_codec "oracle.v1.QuerySlashWindowResponse.window_progress"%string 1 [0x8]
    QuerySlashWindowResponse_WindowProgress QuerySlashWindowResponse_with_WindowProgress
    QuerySlashWindowResponse_GetWindowProgress].
#[export] Instance QuerySlashWindowResponse_table : ReflectTable QuerySlashWindowResponse.
Proof. solve_table QuerySlashWindowResponse_specs QuerySlashWindowResponse_unknownFields QuerySlashWindowResponse_set_unknown. Defined.

Definition QueryAggregatePrevote_specs : list (FieldSpec QueryAggregatePrevote) := [
  mkSpec string_codec "oracle.v1.QueryAggregatePrevote.validator_addr"%string 1 [0xa]
    QueryAggregatePrevote_ValidatorAddr QueryAggregatePrevote_with_ValidatorAddr
    QueryAggregatePrevote_GetValidatorAddr].
#[export] Instance QueryAggregatePrevote_table : ReflectTable QueryAggregatePrevote.
Proof. solve_table QueryAggregatePrevote_specs QueryAggregatePrevote_unknownFields QueryAggregatePrevote_set_unknown. Defined.

Definition QueryAggregatePrevoteResponse_specs : list (FieldSpec QueryAggregatePrevoteResponse) := [
  mkSpec (message_codec AggregateExchangeRatePrevote)
    "oracle.v1.QueryAggregatePrevoteResponse.aggregate_prevote"%string 1 [0xa]
    QueryAggregatePrevoteResponse_AggregatePrevote
    QueryAggregatePrevoteResponse_with_AggregatePrevote
    QueryAggregatePrevoteResponse_GetAggregatePrevote].
#[export] Instance QueryAggregatePrevoteResponse_table : ReflectTable QueryAggregatePrevoteResponse.
Proof. solve_table QueryAggregatePrevoteResponse_specs QueryAggregatePrevoteResponse_unknownFields QueryAggregatePrevoteResponse_set_unknown. Defined.

Definition QueryAggregatePrevotes_specs : list (FieldSpec QueryAggregatePrevotes) := [].
#[export] Instance QueryAggregatePrevotes_table : ReflectTable QueryAggregatePrevotes.
Proof. solve_table QueryAggregatePrevotes_specs QueryAggregatePrevotes_unknownFields QueryAggregatePrevotes_set_unknown. Defined.

Definition QueryAggregatePrevotesResponse_specs : list (FieldSpec QueryAggregatePrevotesResponse) := [
  mkSpec
    (messages_codec AggregateExchangeRatePrevote mkQueryAggregatePrevotesResponse_1_list QueryAggregatePrevotesResponse_1_list_slice)
    "oracle.v1.QueryAggregatePrevotesResponse.aggregate_prevotes"%string 1 [0xa]
    QueryAggregatePrevotesResponse_AggregatePrevotes
    QueryAggregatePrevotesResponse_with_AggregatePrevotes
    QueryAggregatePrevotesResponse_GetAggregatePrevotes].
#[export] Instance QueryAggregatePrevotesResponse_table : ReflectTable QueryAggregatePrevotesResponse.
Proof. solve_table QueryAggregatePrevotesResponse_specs QueryAggregatePrevotesResponse_unknownFields QueryAggregatePrevotesResponse_set_unknown. Defined.

Definition QueryAggregateVote_specs : list (FieldSpec QueryAggregateVote) := [
  mkSpec string_codec "oracle.v1.QueryAggregateVote.validator_addr"%string 1 [0xa]
    QueryAggregateVote_ValidatorAddr QueryAggregateVote_with_ValidatorAddr
    QueryAggregateVote_GetValidatorAddr].
#[export] Instance QueryAggregateVote_table : ReflectTable QueryAggregateVote.
Proof. solve_table QueryAggregateVote_specs QueryAggregateVote_unknownFields QueryAggregateVote_set_unknown. Defined.

Definition QueryAggregateVoteResponse_specs : list (FieldSpec QueryAggregateVoteResponse) := [
  mkSpec (message_codec AggregateExchangeRateVote)
    "oracle.v1.QueryAggregateVoteResponse.aggregate_vote"%string 1 [0xa]
    QueryAggregateVoteResponse_AggregateVote QueryAggregateVoteResponse_with_AggregateVote
    QueryAggregateVoteResponse_GetAggregateVote].
#[export] Instance QueryAggregateVoteResponse_table : ReflectTable QueryAggregateVoteResponse.
Proof. solve_table QueryAggregateVoteResponse_specs QueryAggregateVoteResponse_unknownFields QueryAggregateVoteResponse_set_unknown. Defined.

Definition QueryAggregateVotes_specs : list (FieldSpec QueryAggregateVotes) := [].
#[export] Instance QueryAggregateVotes_table : ReflectTable QueryAggregateVotes.
Proof. solve_table QueryAggregateVotes_specs QueryAggregateVotes_unknownFields QueryAggregateVotes_set_unknown. Defined.

Definition QueryAggregateVotesResponse_specs : list (FieldSpec QueryAggregateVotesResponse) := [
  mkSpec
    (messages_codec AggregateExchangeRateVote mkQueryAggregateVotesResponse_1_list QueryAggregateVotesResponse_1_list_slice)
    "oracle.v1.QueryAggregateVotesResponse.aggregate_votes"%string 1 [0xa]
    QueryAggregateVotesResponse_AggregateVotes QueryAggregateVotesResponse_with_AggregateVotes
    QueryAggregateVotesResponse_GetAggregateVotes].
#[export] Instance QueryAggregateVotesResponse_table : ReflectTable QueryAggregateVotesResponse.
Proof. solve_table QueryAggregateVotesResponse_specs QueryAggregateVotesResponse_unknownFields QueryAggregateVotesResponse_set_unknown. Defined.

Definition QueryParams_specs : list (FieldSpec QueryParams) := [].
#[export] Instance QueryParams_table : ReflectTable QueryParams.
Proof. solve_table QueryParams_specs QueryParams_unknownFields QueryParams_set_unknown. Defined.

Definition QueryParamsResponse_specs : list (FieldSpec QueryParamsResponse) := [
  mkSpec (message_codec Params) "oracle.v1.QueryParamsResponse.params"%string 1 [0xa]
    QueryParamsResponse_Params QueryParamsResponse_with_Params QueryParamsResponse_GetParams].
#[export] Instance QueryParamsResponse_table : ReflectTable QueryParamsResponse.
Proof. solve_table QueryParamsResponse_specs QueryParamsResponse_unknownFields QueryParamsResponse_set_unknown. Defined.

Definition QueryMedians_specs : list (FieldSpec QueryMedians) := [
  mkSpec string_codec "oracle.v1.QueryMedians.denom"%string 1 [0xa] QueryMedians_Denom
    QueryMedians_with_Denom QueryMedians_GetDenom;
  mkSpec uint32_codec "oracle.v1.QueryMedians.num_stamps"%string 2 [0x10] QueryMedians_NumStamps
    QueryMedians_with_NumStamps QueryMedians_GetNumStamps].
#[export] Instance QueryMedians_table : ReflectTable QueryMedians.
Proof. solve_table QueryMedians_specs QueryMedians_unknownFields QueryMedians_set_unknown. Defined.

Definition QueryMediansResponse_specs : list (FieldSpec QueryMediansResponse) := [
  mkSpec
    (messages_codec PriceStamp mkQueryMediansResponse_1_list QueryMediansResponse_1_list_slice)
    "oracle.v1.QueryMediansResponse.medians"%string 1 [0xa] QueryMediansResponse_Medians
    QueryMediansResponse_with_Medians QueryMediansResponse_GetMedians].
#[export] Instance QueryMediansResponse_table : ReflectTable QueryMediansResponse.
Proof. solve_table QueryMediansResponse_specs QueryMediansResponse_unknownFields QueryMediansResponse_set_unknown. Defined.

Definition QueryMedianDeviations_specs : list (FieldSpec QueryMedianDeviations) := [
  mkSpec string_codec "oracle.v1.QueryMedianDeviations.denom"%string 1 [0xa]
    QueryMedianDeviations_Denom QueryMedianDeviations_with_Denom QueryMedianDeviations_GetDenom].
#[export] Instance QueryMedianDeviations_table : ReflectTable QueryMedianDeviations.
Proof. solve_table QueryMedianDeviations_specs QueryMedianDeviations_unknownFields QueryMedianDeviations_set_unknown. Defined.

Definition QueryMedianDeviationsResponse_specs : list (FieldSpec QueryMedianDeviationsResponse) := [
  mkSpec
    (messages_codec PriceStamp mkQueryMedianDeviationsResponse_1_list QueryMedianDeviationsResponse_1_list_slice)
    "oracle.v1.QueryMedianDeviationsResponse.median_deviations"%string 1 [0xa]
    QueryMedianDeviationsResponse_MedianDeviations
    QueryMedianDeviationsResponse_with_MedianDeviations
    QueryMedianDeviationsResponse_GetMedianDeviations].
#[export] Instance QueryMedianDeviationsResponse_table : ReflectTable QueryMedianDeviationsResponse.
Proof. solve_table QueryMedianDeviationsResponse_specs QueryMedianDeviationsResponse_unknownFields QueryMedianDeviationsResponse_set_unknown. Defined.

Definition QueryValidatorRewardSet_specs : list (FieldSpec QueryValidatorRewardSet) := [].
#[export] Instance QueryValidatorRewardSet_table : ReflectTable QueryValidatorRewardSet.
Proof. solve_table QueryValidatorRewardSet_specs QueryValidatorRewardSet_unknownFields QueryValidatorRewardSet_set_unknown. Defined.

Definition QueryValidatorRewardSetResponse_specs : list (FieldSpec QueryValidatorRewardSetResponse) := [
  mkSpec (message_codec ValidatorRewardSet)
    "oracle.v1.QueryValidatorRewardSetResponse.validators"%string 1 [0xa]
    QueryValidatorRewardSetResponse_Validators QueryValidatorRewardSetResponse_with_Validators
    QueryValidatorRewardSetResponse_GetValidators].
#[export] Instance QueryValidatorRewardSetResponse_table : ReflectTable QueryValidatorRewardSetResponse.
Proof. solve_table QueryValidatorRewardSetResponse_specs QueryValidatorRewardSetResponse_unknownFields QueryValidatorRewardSetResponse_set_unknown. Defined.

Definition QueryEMARequest_specs : list (FieldSpec QueryEMARequest) := [
  mkSpec string_codec "oracle.v1.QueryEMARequest.denom"%string 1 [0xa] QueryEMARequest_Denom
    QueryEMARequest_with_Denom QueryEMARequest_GetDenom].
#[export] Instance QueryEMARequest_table : ReflectTable QueryEMARequest.
Proof. solve_table QueryEMARequest_specs QueryEMARequest_unknownFields QueryEMARequest_set_unknown. Defined.

Definition QueryEMAResponse_specs : list (FieldSpec QueryEMAResponse) := [
  mkSpec string_codec "oracle.v1.QueryEMAResponse.price"%string 1 [0xa] QueryEMAResponse_Price
    QueryEMAResponse_with_Price QueryEMAResponse_GetPrice].
#[export] Instance QueryEMAResponse_table : ReflectTable QueryEMAResponse.
Proof. solve_table QueryEMAResponse_specs QueryEMAResponse_unknownFields QueryEMAResponse_set_unknown. Defined.

Definition QueryWMARequest_specs : list (FieldSpec QueryWMARequest) := [
  mkSpec string_codec "oracle.v1.QueryWMARequest.denom"%string 1 [0xa] QueryWMARequest_Denom
    QueryWMARequest_with_Denom QueryWMARequest_GetDenom;
  mkSpec string_codec "oracle.v1.QueryWMARequest.strategy"%string 2 [0x12] QueryWMARequest_Strategy
    QueryWMARequest_with_Strategy QueryWMARequest_GetStrategy;
  mkSpec (packed_codec mkQueryWMARequest_3_list QueryWMARequest_3_list_slice)
    "oracle.v1.QueryWMARequest.custom_weights"%string 3 [0x1a] QueryWMARequest_CustomWeights
    QueryWMARequest_with_CustomWeights QueryWMARequest_GetCustomWeights].
#[export] Instance QueryWMARequest_table : ReflectTable QueryWMARequest.
Proof. solve_table QueryWMARequest_specs QueryWMARequest_unknownFields QueryWMARequest_set_unknown. Defined.

Definition QueryWMAResponse_specs : list (FieldSpec QueryWMAResponse) := [
  mkSpec string_codec "oracle.v1.QueryWMAResponse.price"%string 1 [0xa] QueryWMAResponse_Price
    QueryWMAResponse_with_Price QueryWMAResponse_GetPrice].
#[export] Instance QueryWMAResponse_table : ReflectTable QueryWMAResponse.
Proof. solve_table QueryWMAResponse_specs QueryWMAResponse_unknownFields QueryWMAResponse_set_unknown. Defined.

Definition QuerySMARequest_specs : list (FieldSpec QuerySMARequest) := [
  mkSpec string_codec "oracle.v1.QuerySMARequest.denom"%string 1 [0xa] QuerySMARequest_Denom
    QuerySMARequest_with_Denom QuerySMARequest_GetDenom].
#[export] Instance QuerySMARequest_table : ReflectTable QuerySMARequest.
Proof. solve_table QuerySMARequest_specs QuerySMARequest_unknownFields QuerySMARequest_set_unknown. Defined.

Definition QuerySMAResponse_specs : list (FieldSpec QuerySMAResponse) := [
  mkSpec string_codec "oracle.v1.QuerySMAResponse.price"%string 1 [0xa] QuerySMAResponse_Price
    QuerySMAResponse_with_Price QuerySMAResponse_GetPrice].
#[export] Instance QuerySMAResponse_table : ReflectTable QuerySMAResponse.
Proof. solve_table QuerySMAResponse_specs QuerySMAResponse_unknownFields QuerySMAResponse_set_unknown. Defined.
End tables.
