(* ===== verification/ReflectMultisig.v ===== *)
(** * ReflectMultisig: the reflection of the multisig module

    The [protoreflect] methods of the structs of ApiMultisig, in
    [src/api/multisig/v1]: a definition per method, each field by
    the fragments of Reflect, and the table of the fields that the contract of
    ReflectLemmas is proved from. *)
From S2P Require Import Prelude Util Wire WireLemmas Pulsar PulsarLemmas Reflect ReflectLemmas ApiMultisig.
Local Open Scope Z_scope.

(** ** Lists *)

Section lists.
Context `{CosmosApi}.

Record MultisigAccountDetails_1_list := mkMultisigAccountDetails_1_list {
  MultisigAccountDetails_1_list_slice : option (list bytes);
}.
Record Proposal_6_list := mkProposal_6_list { Proposal_6_list_slice : option (list bytes) }.
Record MsgCreateMultisigAccountParams_4_list := mkMsgCreateMultisigAccountParams_4_list {
  MsgCreateMultisigAccountParams_4_list_slice : option (list bytes);
}.
End lists.

(** ** Values of these types *)

Class MultisigValues `{CosmosApi} `{ProtoReflect} := {
  Params_value :: MessageValue Params;
  anypb_Any_value :: MessageValue anypb_Any;
  MultisigAccountDetails_1_list_value :: ListValue MultisigAccountDetails_1_list;
  Proposal_6_list_value :: ListValue Proposal_6_list;
  MsgCreateMultisigAccountParams_4_list_value :: ListValue MsgCreateMultisigAccountParams_4_list;
}.

(** ** Methods *)

Section methods.
Context `{PulsarRuntime} `{CosmosApi} `{ProtoReflect} `{!MultisigValues}.

(** [Params] *)

Definition fd_Params_some_value : FieldDescriptor :=
  mkField "multisig.v1.Params.some_value" 2 BoolKind false.
Definition Params_descriptor : list FieldDescriptor := [
  fd_Params_some_value].
Definition Params_with_SomeValue (x : Params) (v : bool) : Params :=
  mkParams v (Params_unknownFields x).
Definition Params_GetSomeValue : option Params → bool :=
  getter false Params_SomeValue.
Definition Params_Range {S} (x : option Params) (f : FieldDescriptor → Value → M S bool) : M S ()
    :=
  x ← lift (or_panic x);
  range_fields f [
    (Params_SomeValue x, fd_Params_some_value, ValueOfBool (Params_SomeValue x))].
Definition Params_Has (x : option Params) (fd : FieldDescriptor) : outcome bool :=
  x ← or_panic x;
  field_switch fd [
    ("multisig.v1.Params.some_value"%string, Ok (Params_SomeValue x))].
Definition Params_Clear (x : option Params) (fd : FieldDescriptor) : outcome Params :=
  x ← or_panic x;
  field_switch fd [
    ("multisig.v1.Params.some_value"%string, Ok (Params_with_SomeValue x false))].
Definition Params_Get (x : option Params) (fd : FieldDescriptor) : outcome Value :=
  x ← or_panic x;
  field_switch fd [
    ("multisig.v1.Params.some_value"%string, Ok (ValueOfBool (Params_SomeValue x)))].
Definition Params_Set (x : option Params) (fd : FieldDescriptor) (value : Value) : outcome Params
    :=
  x ← or_panic x;
  field_switch fd [
    ("multisig.v1.Params.some_value"%string, set_bool (Params_with_SomeValue x) value)].
Definition Params_Mutable (x : option Params) (fd : FieldDescriptor) : outcome (Value * Params) :=
  x ← or_panic x;
  field_switch fd [
    ("multisig.v1.Params.some_value"%string, Panic)].
Definition Params_NewField (fd : FieldDescriptor) : outcome Value :=
  field_switch fd [
    ("multisig.v1.Params.some_value"%string, Ok (ValueOfBool false))].
Definition Params_set_unknown (x : Params) (fields : bytes) : Params :=
  mkParams (Params_SomeValue x) fields.
#[export] Instance Params_reflect : MessageReflect Params := {|
  Range S := Params_Range;
  Has := Params_Has;
  Clear := Params_Clear;
  Get := Params_Get;
  Set_ := Params_Set;
  Mutable := Params_Mutable;
  NewField := Params_NewField;
  Descriptor := Params_descriptor;
  GetUnknown x := x ← or_panic x; Ok (Params_unknownFields x);
  SetUnknown x fields := x ← or_panic x; Ok (Params_set_unknown x fields);
|}.

(** [GenesisState] *)

Definition fd_GenesisState_params : FieldDescriptor :=
  mkField "multisig.v1.GenesisState.params" 1 MessageKind false.
Definition GenesisState_descriptor : list FieldDescriptor := [
  fd_GenesisState_params].
Definition GenesisState_with_Params (x : GenesisState) (v : option Params) : GenesisState :=
  mkGenesisState v (GenesisState_unknownFields x).
Definition GenesisState_GetParams : option GenesisState → option Params :=
  getter None GenesisState_Params.
Definition GenesisState_Range {S} (x : option GenesisState)
    (f : FieldDescriptor → Value → M S bool) : M S () :=
  x ← lift (or_panic x);
  range_fields f [
    (has_message (GenesisState_Params x), fd_GenesisState_params, ValueOfMessage
       (GenesisState_Params x))].
Definition GenesisState_Has (x : option GenesisState) (fd : FieldDescriptor) : outcome bool :=
  x ← or_panic x;
  field_switch fd [
    ("multisig.v1.GenesisState.params"%string, Ok (has_message (GenesisState_Params x)))].
Definition GenesisState_Clear (x : option GenesisState) (fd : FieldDescriptor) : outcome
    GenesisState :=
  x ← or_panic x;
  field_switch fd [
    ("multisig.v1.GenesisState.params"%string, Ok (GenesisState_with_Params x None))].
Definition GenesisState_Get (x : option GenesisState) (fd : FieldDescriptor) : outcome Value :=
  x ← or_panic x;
  field_switch fd [
    ("multisig.v1.GenesisState.params"%string, Ok (ValueOfMessage (GenesisState_Params x)))].
Definition GenesisState_Set (x : option GenesisState) (fd : FieldDescriptor) (value : Value) :
    outcome GenesisState :=
  x ← or_panic x;
  field_switch fd [
    ("multisig.v1.GenesisState.params"%string, set_message (GenesisState_with_Params x) value)].
Definition GenesisState_Mutable (x : option GenesisState) (fd : FieldDescriptor) : outcome
    (Value * GenesisState) :=
  x ← or_panic x;
  field_switch fd [
    ("multisig.v1.GenesisState.params"%string,
      mutable_message (GenesisState_with_Params x) (GenesisState_Params x))].
Definition GenesisState_NewField (fd : FieldDescriptor) : outcome Value :=
  field_switch fd [
    ("multisig.v1.GenesisState.params"%string, new_message (A := Params))].
Definition GenesisState_set_unknown (x : GenesisState) (fields : bytes) : GenesisState :=
  mkGenesisState (GenesisState_Params x) fields.
#[export] Instance GenesisState_reflect : MessageReflect GenesisState := {|
  Range S := GenesisState_Range;
  Has := GenesisState_Has;
  Clear := GenesisState_Clear;
  Get := GenesisState_Get;
  Set_ := GenesisState_Set;
  Mutable := GenesisState_Mutable;
  NewField := GenesisState_NewField;
  Descriptor := GenesisState_descriptor;
  GetUnknown x := x ← or_panic x; Ok (GenesisState_unknownFields x);
  SetUnknown x fields := x ← or_panic x; Ok (GenesisState_set_unknown x fields);
|}.

(** [MultisigAccountDetails] *)

Definition fd_MultisigAccountDetails_signers : FieldDescriptor :=
  mkField "multisig.v1.MultisigAccountDetails.signers" 1 BytesKind true.
Definition fd_MultisigAccountDetails_threshold : FieldDescriptor :=
  mkField "multisig.v1.MultisigAccountDetails.threshold" 2 Uint32Kind false.
Definition fd_MultisigAccountDetails_permission : FieldDescriptor :=
  mkField "multisig.v1.MultisigAccountDetails.permission" 3 EnumKind false.
Definition MultisigAccountDetails_descriptor : list FieldDescriptor := [
  fd_MultisigAccountDetails_signers; fd_MultisigAccountDetails_threshold;
  fd_MultisigAccountDetails_permission].
Definition MultisigAccountDetails_with_Signers (x : MultisigAccountDetails) (v : list bytes) :
    MultisigAccountDetails :=
  mkMultisigAccountDetails v (MultisigAccountDetails_Threshold x)
    (MultisigAccountDetails_Permission x) (MultisigAccountDetails_unknownFields x).
Definition MultisigAccountDetails_with_Threshold (x : MultisigAccountDetails) (v : Z) :
    MultisigAccountDetails :=
  mkMultisigAccountDetails (MultisigAccountDetails_Signers x) v (MultisigAccountDetails_Permission
    x) (MultisigAccountDetails_unknownFields x).
Definition MultisigAccountDetails_with_Permission (x : MultisigAccountDetails) (v : Z) :
    MultisigAccountDetails :=
  mkMultisigAccountDetails (MultisigAccountDetails_Signers x) (MultisigAccountDetails_Threshold x)
    v (MultisigAccountDetails_unknownFields x).
Definition MultisigAccountDetails_GetSigners : option MultisigAccountDetails → list bytes :=
  getter [] MultisigAccountDetails_Signers.
Definition MultisigAccountDetails_GetThreshold : option MultisigAccountDetails → Z :=
  getter 0 MultisigAccountDetails_Threshold.
Definition MultisigAccountDetails_GetPermission : option MultisigAccountDetails → Z :=
  getter 0 MultisigAccountDetails_Permission.
#[export] Instance MultisigAccountDetails_1_list_methods : ProtoList MultisigAccountDetails_1_list :=
  bytes_list mkMultisigAccountDetails_1_list MultisigAccountDetails_1_list_slice.
Definition MultisigAccountDetails_Range {S} (x : option MultisigAccountDetails)
    (f : FieldDescriptor → Value → M S bool) : M S () :=
  x ← lift (or_panic x);
  range_fields f [
    (has_slice (MultisigAccountDetails_Signers x), fd_MultisigAccountDetails_signers, ValueOfList
       (mkMultisigAccountDetails_1_list (Some (MultisigAccountDetails_Signers x))));
    (has_int (MultisigAccountDetails_Threshold x), fd_MultisigAccountDetails_threshold,
       ValueOfUint32 (MultisigAccountDetails_Threshold x));
    (has_int (MultisigAccountDetails_Permission x), fd_MultisigAccountDetails_permission,
       ValueOfEnum (MultisigAccountDetails_Permission x))].
Definition MultisigAccountDetails_Has (x : option MultisigAccountDetails) (fd : FieldDescriptor) :
    outcome bool :=
  x ← or_panic x;
  field_switch fd [
    ("multisig.v1.MultisigAccountDetails.signers"%string,
      Ok (has_slice (MultisigAccountDetails_Signers x)));
    ("multisig.v1.MultisigAccountDetails.threshold"%string,
      Ok (has_int (MultisigAccountDetails_Threshold x)));
    ("multisig.v1.MultisigAccountDetails.permission"%string,
      Ok (has_int (MultisigAccountDetails_Permission x)))].
Definition MultisigAccountDetails_Clear (x : option MultisigAccountDetails) (fd : FieldDescriptor)
    : outcome MultisigAccountDetails :=
  x ← or_panic x;
  field_switch fd [
    ("multisig.v1.MultisigAccountDetails.signers"%string,
      Ok (MultisigAccountDetails_with_Signers x []));
    ("multisig.v1.MultisigAccountDetails.threshold"%string,
      Ok (MultisigAccountDetails_with_Threshold x 0));
    ("multisig.v1.MultisigAccountDetails.permission"%string,
      Ok (MultisigAccountDetails_with_Permission x 0))].
Definition MultisigAccountDetails_Get (x : option MultisigAccountDetails) (fd : FieldDescriptor) :
    outcome Value :=
  x ← or_panic x;
  field_switch fd [
    ("multisig.v1.MultisigAccountDetails.signers"%string,
      Ok (get_list mkMultisigAccountDetails_1_list (MultisigAccountDetails_Signers x)));
    ("multisig.v1.MultisigAccountDetails.threshold"%string,
      Ok (ValueOfUint32 (MultisigAccountDetails_Threshold x)));
    ("multisig.v1.MultisigAccountDetails.permission"%string,
      Ok (ValueOfEnum (MultisigAccountDetails_Permission x)))].
Definition MultisigAccountDetails_Set (x : option MultisigAccountDetails) (fd : FieldDescriptor)
    (value : Value) : outcome MultisigAccountDetails :=
  x ← or_panic x;
  field_switch fd [
    ("multisig.v1.MultisigAccountDetails.signers"%string,
      set_list MultisigAccountDetails_1_list_slice (MultisigAccountDetails_with_Signers x) value);
    ("multisig.v1.MultisigAccountDetails.threshold"%string,
      set_uint32 (MultisigAccountDetails_with_Threshold x) value);
    ("multisig.v1.MultisigAccountDetails.permission"%string,
      set_enum (MultisigAccountDetails_with_Permission x) value)].
Definition MultisigAccountDetails_Mutable (x : option MultisigAccountDetails)
    (fd : FieldDescriptor) : outcome (Value * MultisigAccountDetails) :=
  x ← or_panic x;
  field_switch fd [
    ("multisig.v1.MultisigAccountDetails.signers"%string,
      mutable_list mkMultisigAccountDetails_1_list x (MultisigAccountDetails_Signers x));
    ("multisig.v1.MultisigAccountDetails.threshold"%string, Panic);
    ("multisig.v1.MultisigAccountDetails.permission"%string, Panic)].
Definition MultisigAccountDetails_NewField (fd : FieldDescriptor) : outcome Value :=
  field_switch fd [
    ("multisig.v1.MultisigAccountDetails.signers"%string,
      new_list mkMultisigAccountDetails_1_list);
    ("multisig.v1.MultisigAccountDetails.threshold"%string, Ok (ValueOfUint32 0));
    ("multisig.v1.MultisigAccountDetails.permission"%string, Ok (ValueOfEnum 0))].
Definition MultisigAccountDetails_set_unknown (x : MultisigAccountDetails) (fields : bytes) : MultisigAccountDetails :=
  mkMultisigAccountDetails (MultisigAccountDetails_Signers x) (MultisigAccountDetails_Threshold x)
    (MultisigAccountDetails_Permission x) fields.
#[export] Instance MultisigAccountDetails_reflect : MessageReflect MultisigAccountDetails := {|
  Range S := MultisigAccountDetails_Range;
  Has := MultisigAccountDetails_Has;
  Clear := MultisigAccountDetails_Clear;
  Get := MultisigAccountDetails_Get;
  Set_ := MultisigAccountDetails_Set;
  Mutable := MultisigAccountDetails_Mutable;
  NewField := MultisigAccountDetails_NewField;
  Descriptor := MultisigAccountDetails_descriptor;
  GetUnknown x := x ← or_panic x; Ok (MultisigAccountDetails_unknownFields x);
  SetUnknown x fields := x ← or_panic x; Ok (MultisigAccountDetails_set_unknown x fields);
|}.

(** [Proposal] *)

Definition fd_Proposal_id : FieldDescriptor :=
  mkField "multisig.v1.Proposal.id" 1 Uint64Kind false.
Definition fd_Proposal_multisig_address : FieldDescriptor :=
  mkField "multisig.v1.Proposal.multisig_address" 2 BytesKind false.
Definition fd_Proposal_call_hash : FieldDescriptor :=
  mkField "multisig.v1.Proposal.call_hash" 3 BytesKind false.
Definition fd_Proposal_depositor : FieldDescriptor :=
  mkField "multisig.v1.Proposal.depositor" 4 BytesKind false.
Definition fd_Proposal_deposit : FieldDescriptor :=
  mkField "multisig.v1.Proposal.deposit" 5 Uint64Kind false.
Definition fd_Proposal_approvals : FieldDescriptor :=
  mkField "multisig.v1.Proposal.approvals" 6 BytesKind true.
Definition Proposal_descriptor : list FieldDescriptor := [
  fd_Proposal_id; fd_Proposal_multisig_address; fd_Proposal_call_hash; fd_Proposal_depositor;
  fd_Proposal_deposit; fd_Proposal_approvals].
Definition Proposal_with_Id (x : Proposal) (v : Z) : Proposal :=
  mkProposal v (Proposal_MultisigAddress x) (Proposal_CallHash x) (Proposal_Depositor x)
    (Proposal_Deposit x) (Proposal_Approvals x) (Proposal_unknownFields x).
Definition Proposal_with_MultisigAddress (x : Proposal) (v : bytes) : Proposal :=
  mkProposal (Proposal_Id x) v (Proposal_CallHash x) (Proposal_Depositor x) (Proposal_Deposit x)
    (Proposal_Approvals x) (Proposal_unknownFields x).
Definition Proposal_with_CallHash (x : Proposal) (v : bytes) : Proposal :=
  mkProposal (Proposal_Id x) (Proposal_MultisigAddress x) v (Proposal_Depositor x)
    (Proposal_Deposit x) (Proposal_Approvals x) (Proposal_unknownFields x).
Definition Proposal_with_Depositor (x : Proposal) (v : bytes) : Proposal :=
  mkProposal (Proposal_Id x) (Proposal_MultisigAddress x) (Proposal_CallHash x) v
    (Proposal_Deposit x) (Proposal_Approvals x) (Proposal_unknownFields x).
Definition Proposal_with_Deposit (x : Proposal) (v : Z) : Proposal :=
  mkProposal (Proposal_Id x) (Proposal_MultisigAddress x) (Proposal_CallHash x)
    (Proposal_Depositor x) v (Proposal_Approvals x) (Proposal_unknownFields x).
Definition Proposal_with_Approvals (x : Proposal) (v : list bytes) : Proposal :=
  mkProposal (Proposal_Id x) (Proposal_MultisigAddress x) (Proposal_CallHash x)
    (Proposal_Depositor x) (Proposal_Deposit x) v (Proposal_unknownFields x).
Definition Proposal_GetId : option Proposal → Z :=
  getter 0 Proposal_Id.
Definition Proposal_GetMultisigAddress : option Proposal → bytes :=
  getter [] Proposal_MultisigAddress.
Definition Proposal_GetCallHash : option Proposal → bytes :=
  getter [] Proposal_CallHash.
Definition Proposal_GetDepositor : option Proposal → bytes :=
  getter [] Proposal_Depositor.
Definition Proposal_GetDeposit : option Proposal → Z :=
  getter 0 Proposal_Deposit.
Definition Proposal_GetApprovals : option Proposal → list bytes :=
  getter [] Proposal_Approvals.
#[export] Instance Proposal_6_list_methods : ProtoList Proposal_6_list :=
  bytes_list mkProposal_6_list Proposal_6_list_slice.
Definition Proposal_Range {S} (x : option Proposal) (f : FieldDescriptor → Value → M S bool) : M S
    () :=
  x ← lift (or_panic x);
  range_fields f [
    (has_int (Proposal_Id x), fd_Proposal_id, ValueOfUint64 (Proposal_Id x));
    (has_slice (Proposal_MultisigAddress x), fd_Proposal_multisig_address, ValueOfBytes
       (Proposal_MultisigAddress x));
    (has_slice (Proposal_CallHash x), fd_Proposal_call_hash, ValueOfBytes (Proposal_CallHash x));
    (has_slice (Proposal_Depositor x), fd_Proposal_depositor, ValueOfBytes (Proposal_Depositor x));
    (has_int (Proposal_Deposit x), fd_Proposal_deposit, ValueOfUint64 (Proposal_Deposit x));
    (has_slice (Proposal_Approvals x), fd_Proposal_approvals, ValueOfList
       (mkProposal_6_list (Some (Proposal_Approvals x))))].
Definition Proposal_Has (x : option Proposal) (fd : FieldDescriptor) : outcome bool :=
  x ← or_panic x;
  field_switch fd [
    ("multisig.v1.Proposal.id"%string, Ok (has_int (Proposal_Id x)));
    ("multisig.v1.Proposal.multisig_address"%string, Ok (has_slice (Proposal_MultisigAddress x)));
    ("multisig.v1.Proposal.call_hash"%string, Ok (has_slice (Proposal_CallHash x)));
    ("multisig.v1.Proposal.depositor"%string, Ok (has_slice (Proposal_Depositor x)));
    ("multisig.v1.Proposal.deposit"%string, Ok (has_int (Proposal_Deposit x)));
    ("multisig.v1.Proposal.approvals"%string, Ok (has_slice (Proposal_Approvals x)))].
Definition Proposal_Clear (x : option Proposal) (fd : FieldDescriptor) : outcome Proposal :=
  x ← or_panic x;
  field_switch fd [
    ("multisig.v1.Proposal.id"%string, Ok (Proposal_with_Id x 0));
    ("multisig.v1.Proposal.multisig_address"%string, Ok (Proposal_with_MultisigAddress x []));
    ("multisig.v1.Proposal.call_hash"%string, Ok (Proposal_with_CallHash x []));
    ("multisig.v1.Proposal.depositor"%string, Ok (Proposal_with_Depositor x []));
    ("multisig.v1.Proposal.deposit"%string, Ok (Proposal_with_Deposit x 0));
    ("multisig.v1.Proposal.approvals"%string, Ok (Proposal_with_Approvals x []))].
Definition Proposal_Get (x : option Proposal) (fd : FieldDescriptor) : outcome Value :=
  x ← or_panic x;
  field_switch fd [
    ("multisig.v1.Proposal.id"%string, Ok (ValueOfUint64 (Proposal_Id x)));
    ("multisig.v1.Proposal.multisig_address"%string,
      Ok (ValueOfBytes (Proposal_MultisigAddress x)));
    ("multisig.v1.Proposal.call_hash"%string, Ok (ValueOfBytes (Proposal_CallHash x)));
    ("multisig.v1.Proposal.depositor"%string, Ok (ValueOfBytes (Proposal_Depositor x)));
    ("multisig.v1.Proposal.deposit"%string, Ok (ValueOfUint64 (Proposal_Deposit x)));
    ("multisig.v1.Proposal.approvals"%string,
      Ok (get_list mkProposal_6_list (Proposal_Approvals x)))].
Definition Proposal_Set (x : option Proposal) (fd : FieldDescriptor) (value : Value) : outcome
    Proposal :=
  x ← or_panic x;
  field_switch fd [
    ("multisig.v1.Proposal.id"%string, set_uint64 (Proposal_with_Id x) value);
    ("multisig.v1.Proposal.multisig_address"%string,
      set_bytes (Proposal_with_MultisigAddress x) value);
    ("multisig.v1.Proposal.call_hash"%string, set_bytes (Proposal_with_CallHash x) value);
    ("multisig.v1.Proposal.depositor"%string, set_bytes (Proposal_with_Depositor x) value);
    ("multisig.v1.Proposal.deposit"%string, set_uint64 (Proposal_with_Deposit x) value);
    ("multisig.v1.Proposal.approvals"%string,
      set_list Proposal_6_list_slice (Proposal_with_Approvals x) value)].
Definition Proposal_Mutable (x : option Proposal) (fd : FieldDescriptor) : outcome
    (Value * Proposal) :=
  x ← or_panic x;
  field_switch fd [
    ("multisig.v1.Proposal.approvals"%string,
      mutable_list mkProposal_6_list x (Proposal_Approvals x));
    ("multisig.v1.Proposal.id"%string, Panic);
    ("multisig.v1.Proposal.multisig_address"%string, Panic);
    ("multisig.v1.Proposal.call_hash"%string, Panic);
    ("multisig.v1.Proposal.depositor"%string, Panic);
    ("multisig.v1.Proposal.deposit"%string, Panic)].
Definition Proposal_NewField (fd : FieldDescriptor) : outcome Value :=
  field_switch fd [
    ("multisig.v1.Proposal.id"%string, Ok (ValueOfUint64 0));
    ("multisig.v1.Proposal.multisig_address"%string, Ok (ValueOfBytes []));
    ("multisig.v1.Proposal.call_hash"%string, Ok (ValueOfBytes []));
    ("multisig.v1.Proposal.depositor"%string, Ok (ValueOfBytes []));
    ("multisig.v1.Proposal.deposit"%string, Ok (ValueOfUint64 0));
    ("multisig.v1.Proposal.approvals"%string, new_list mkProposal_6_list)].
Definition Proposal_set_unknown (x : Proposal) (fields : bytes) : Proposal :=
  mkProposal (Proposal_Id x) (Proposal_MultisigAddress x) (Proposal_CallHash x)
    (Proposal_Depositor x) (Proposal_Deposit x) (Proposal_Approvals x) fields.
#[export] Instance Proposal_reflect : MessageReflect Proposal := {|
  Range S := Proposal_Range;
  Has := Proposal_Has;
  Clear := Proposal_Clear;
  Get := Proposal_Get;
  Set_ := Proposal_Set;
  Mutable := Proposal_Mutable;
  NewField := Proposal_NewField;
  Descriptor := Proposal_descriptor;
  GetUnknown x := x ← or_panic x; Ok (Proposal_unknownFields x);
  SetUnknown x fields := x ← or_panic x; Ok (Proposal_set_unknown x fields);
|}.

(** [QueryParamsRequest] *)

Definition QueryParamsRequest_descriptor : list FieldDescriptor := [].
Definition QueryParamsRequest_Range {S} (x : option QueryParamsRequest)
    (f : FieldDescriptor → Value → M S bool) : M S () :=
  mret ().
Definition QueryParamsRequest_Has (x : option QueryParamsRequest) (fd : FieldDescriptor) : outcome
    bool :=
  field_switch fd [].
Definition QueryParamsRequest_Clear (x : option QueryParamsRequest) (fd : FieldDescriptor) :
    outcome QueryParamsRequest :=
  field_switch fd [].
Definition QueryParamsRequest_Get (x : option QueryParamsRequest) (fd : FieldDescriptor) : outcome
    Value :=
  field_switch fd [].
Definition QueryParamsRequest_Set (x : option QueryParamsRequest) (fd : FieldDescriptor)
    (value : Value) : outcome QueryParamsRequest :=
  field_switch fd [].
Definition QueryParamsRequest_Mutable (x : option QueryParamsRequest) (fd : FieldDescriptor) :
    outcome (Value * QueryParamsRequest) :=
  field_switch fd [].
Definition QueryParamsRequest_NewField (fd : FieldDescriptor) : outcome Value :=
  field_switch fd [].
Definition QueryParamsRequest_set_unknown (x : QueryParamsRequest) (fields : bytes) : QueryParamsRequest :=
  mkQueryParamsRequest fields.
#[export] Instance QueryParamsRequest_reflect : MessageReflect QueryParamsRequest := {|
  Range S := QueryParamsRequest_Range;
  Has := QueryParamsRequest_Has;
  Clear := QueryParamsRequest_Clear;
  Get := QueryParamsRequest_Get;
  Set_ := QueryParamsRequest_Set;
  Mutable := QueryParamsRequest_Mutable;
  NewField := QueryParamsRequest_NewField;
  Descriptor := QueryParamsRequest_descriptor;
  GetUnknown x := x ← or_panic x; Ok (QueryParamsRequest_unknownFields x);
  SetUnknown x fields := x ← or_panic x; Ok (QueryParamsRequest_set_unknown x fields);
|}.

(** [QueryParamsResponse] *)

Definition fd_QueryParamsResponse_params : FieldDescriptor :=
  mkField "multisig.v1.QueryParamsResponse.params" 1 MessageKind false.
Definition QueryParamsResponse_descriptor : list FieldDescriptor := [
  fd_QueryParamsResponse_params].
Definition QueryParamsResponse_with_Params (x : QueryParamsResponse) (v : option Params) :
    QueryParamsResponse :=
  mkQueryParamsResponse v (QueryParamsResponse_unknownFields x).
Definition QueryParamsResponse_GetParams : option QueryParamsResponse → option Params :=
  getter None QueryParamsResponse_Params.
Definition QueryParamsResponse_Range {S} (x : option QueryParamsResponse)
    (f : FieldDescriptor → Value → M S bool) : M S () :=
  x ← lift (or_panic x);
  range_fields f [
    (has_message (QueryParamsResponse_Params x), fd_QueryParamsResponse_params, ValueOfMessage
       (QueryParamsResponse_Params x))].
Definition QueryParamsResponse_Has (x : option QueryParamsResponse) (fd : FieldDescriptor) :
    outcome bool :=
  x ← or_panic x;
  field_switch fd [
    ("multisig.v1.QueryParamsResponse.params"%string,
      Ok (has_message (QueryParamsResponse_Params x)))].
Definition QueryParamsResponse_Clear (x : option QueryParamsResponse) (fd : FieldDescriptor) :
    outcome QueryParamsResponse :=
  x ← or_panic x;
  field_switch fd [
    ("multisig.v1.QueryParamsResponse.params"%string, Ok (QueryParamsResponse_with_Params x None))].
Definition QueryParamsResponse_Get (x : option QueryParamsResponse) (fd : FieldDescriptor) :
    outcome Value :=
  x ← or_panic x;
  field_switch fd [
    ("multisig.v1.QueryParamsResponse.params"%string,
      Ok (ValueOfMessage (QueryParamsResponse_Params x)))].
Definition QueryParamsResponse_Set (x : option QueryParamsResponse) (fd : FieldDescriptor)
    (value : Value) : outcome QueryParamsResponse :=
  x ← or_panic x;
  field_switch fd [
    ("multisig.v1.QueryParamsResponse.params"%string,
      set_message (QueryParamsResponse_with_Params x) value)].
Definition QueryParamsResponse_Mutable (x : option QueryParamsResponse) (fd : FieldDescriptor) :
    outcome (Value * QueryParamsResponse) :=
  x ← or_panic x;
  field_switch fd [
    ("multisig.v1.QueryParamsResponse.params"%string,
      mutable_message (QueryParamsResponse_with_Params x) (QueryParamsResponse_Params x))].
Definition QueryParamsResponse_NewField (fd : FieldDescriptor) : outcome Value :=
  field_switch fd [
    ("multisig.v1.QueryParamsResponse.params"%string, new_message (A := Params))].
Definition QueryParamsResponse_set_unknown (x : QueryParamsResponse) (fields : bytes) : QueryParamsResponse :=
  mkQueryParamsResponse (QueryParamsResponse_Params x) fields.
#[export] Instance QueryParamsResponse_reflect : MessageReflect QueryParamsResponse := {|
  Range S := QueryParamsResponse_Range;
  Has := QueryParamsResponse_Has;
  Clear := QueryParamsResponse_Clear;
  Get := QueryParamsResponse_Get;
  Set_ := QueryParamsResponse_Set;
  Mutable := QueryParamsResponse_Mutable;
  NewField := QueryParamsResponse_NewField;
  Descriptor := QueryParamsResponse_descriptor;
  GetUnknown x := x ← or_panic x; Ok (QueryParamsResponse_unknownFields x);
  SetUnknown x fields := x ← or_panic x; Ok (QueryParamsResponse_set_unknown x fields);
|}.

(** [MsgUpdateParams] *)

Definition fd_MsgUpdateParams_authority : FieldDescriptor :=
  mkField "multisig.v1.MsgUpdateParams.authority" 1 StringKind false.
Definition fd_MsgUpdateParams_params : FieldDescriptor :=
  mkField "multisig.v1.MsgUpdateParams.params" 2 MessageKind false.
Definition MsgUpdateParams_descriptor : list FieldDescriptor := [
  fd_MsgUpdateParams_authority; fd_MsgUpdateParams_params].
Definition MsgUpdateParams_with_Authority (x : MsgUpdateParams) (v : string) : MsgUpdateParams :=
  mkMsgUpdateParams v (MsgUpdateParams_Params x) (MsgUpdateParams_unknownFields x).
Definition MsgUpdateParams_with_Params (x : MsgUpdateParams) (v : option Params) : MsgUpdateParams
    :=
  mkMsgUpdateParams (MsgUpdateParams_Authority x) v (MsgUpdateParams_unknownFields x).
Definition MsgUpdateParams_GetAuthority : option MsgUpdateParams → string :=
  getter ""%string MsgUpdateParams_Authority.
Definition MsgUpdateParams_GetParams : option MsgUpdateParams → option Params :=
  getter None MsgUpdateParams_Params.
Definition MsgUpdateParams_Range {S} (x : option MsgUpdateParams)
    (f : FieldDescriptor → Value → M S bool) : M S () :=
  x ← lift (or_panic x);
  range_fields f [
    (has_string (MsgUpdateParams_Authority x), fd_MsgUpdateParams_authority, ValueOfString
       (MsgUpdateParams_Authority x));
    (has_message (MsgUpdateParams_Params x), fd_MsgUpdateParams_params, ValueOfMessage
       (MsgUpdateParams_Params x))].
Definition MsgUpdateParams_Has (x : option MsgUpdateParams) (fd : FieldDescriptor) : outcome bool
    :=
  x ← or_panic x;
  field_switch fd [
    ("multisig.v1.MsgUpdateParams.authority"%string,
      Ok (has_string (MsgUpdateParams_Authority x)));
    ("multisig.v1.MsgUpdateParams.params"%string, Ok (has_message (MsgUpdateParams_Params x)))].
Definition MsgUpdateParams_Clear (x : option MsgUpdateParams) (fd : FieldDescriptor) : outcome
    MsgUpdateParams :=
  x ← or_panic x;
  field_switch fd [
    ("multisig.v1.MsgUpdateParams.authority"%string,
      Ok (MsgUpdateParams_with_Authority x ""%string));
    ("multisig.v1.MsgUpdateParams.params"%string, Ok (MsgUpdateParams_with_Params x None))].
Definition MsgUpdateParams_Get (x : option MsgUpdateParams) (fd : FieldDescriptor) : outcome Value
    :=
  x ← or_panic x;
  field_switch fd [
    ("multisig.v1.MsgUpdateParams.authority"%string,
      Ok (ValueOfString (MsgUpdateParams_Authority x)));
    ("multisig.v1.MsgUpdateParams.params"%string, Ok (ValueOfMessage (MsgUpdateParams_Params x)))].
Definition MsgUpdateParams_Set (x : option MsgUpdateParams) (fd : FieldDescriptor) (value : Value)
    : outcome MsgUpdateParams :=
  x ← or_panic x;
  field_switch fd [
    ("multisig.v1.MsgUpdateParams.authority"%string,
      set_string (MsgUpdateParams_with_Authority x) value);
    ("multisig.v1.MsgUpdateParams.params"%string,
      set_message (MsgUpdateParams_with_Params x) value)].
Definition MsgUpdateParams_Mutable (x : option MsgUpdateParams) (fd : FieldDescriptor) : outcome
    (Value * MsgUpdateParams) :=
  x ← or_panic x;
  field_switch fd [
    ("multisig.v1.MsgUpdateParams.params"%string,
      mutable_message (MsgUpdateParams_with_Params x) (MsgUpdateParams_Params x));
    ("multisig.v1.MsgUpdateParams.authority"%string, Panic)].
Definition MsgUpdateParams_NewField (fd : FieldDescriptor) : outcome Value :=
  field_switch fd [
    ("multisig.v1.MsgUpdateParams.authority"%string, Ok (ValueOfString ""%string));
    ("multisig.v1.MsgUpdateParams.params"%string, new_message (A := Params))].
Definition MsgUpdateParams_set_unknown (x : MsgUpdateParams) (fields : bytes) : MsgUpdateParams :=
  mkMsgUpdateParams (MsgUpdateParams_Authority x) (MsgUpdateParams_Params x) fields.
#[export] Instance MsgUpdateParams_reflect : MessageReflect MsgUpdateParams := {|
  Range S := MsgUpdateParams_Range;
  Has := MsgUpdateParams_Has;
  Clear := MsgUpdateParams_Clear;
  Get := MsgUpdateParams_Get;
  Set_ := MsgUpdateParams_Set;
  Mutable := MsgUpdateParams_Mutable;
  NewField := MsgUpdateParams_NewField;
  Descriptor := MsgUpdateParams_descriptor;
  GetUnknown x := x ← or_panic x; Ok (MsgUpdateParams_unknownFields x);
  SetUnknown x fields := x ← or_panic x; Ok (MsgUpdateParams_set_unknown x fields);
|}.

(** [MsgUpdateParamsResponse] *)

Definition MsgUpdateParamsResponse_descriptor : list FieldDescriptor := [].
Definition MsgUpdateParamsResponse_Range {S} (x : option MsgUpdateParamsResponse)
    (f : FieldDescriptor → Value → M S bool) : M S () :=
  mret ().
Definition MsgUpdateParamsResponse_Has (x : option MsgUpdateParamsResponse) (fd : FieldDescriptor)
    : outcome bool :=
  field_switch fd [].
Definition MsgUpdateParamsResponse_Clear (x : option MsgUpdateParamsResponse)
    (fd : FieldDescriptor) : outcome MsgUpdateParamsResponse :=
  field_switch fd [].
Definition MsgUpdateParamsResponse_Get (x : option MsgUpdateParamsResponse) (fd : FieldDescriptor)
    : outcome Value :=
  field_switch fd [].
Definition MsgUpdateParamsResponse_Set (x : option MsgUpdateParamsResponse) (fd : FieldDescriptor)
    (value : Value) : outcome MsgUpdateParamsResponse :=
  field_switch fd [].
Definition MsgUpdateParamsResponse_Mutable (x : option MsgUpdateParamsResponse)
    (fd : FieldDescriptor) : outcome (Value * MsgUpdateParamsResponse) :=
  field_switch fd [].
Definition MsgUpdateParamsResponse_NewField (fd : FieldDescriptor) : outcome Value :=
  field_switch fd [].
Definition MsgUpdateParamsResponse_set_unknown (x : MsgUpdateParamsResponse) (fields : bytes) : MsgUpdateParamsResponse :=
  mkMsgUpdateParamsResponse fields.
#[export] Instance MsgUpdateParamsResponse_reflect : MessageReflect MsgUpdateParamsResponse := {|
  Range S := MsgUpdateParamsResponse_Range;
  Has := MsgUpdateParamsResponse_Has;
  Clear := MsgUpdateParamsResponse_Clear;
  Get := MsgUpdateParamsResponse_Get;
  Set_ := MsgUpdateParamsResponse_Set;
  Mutable := MsgUpdateParamsResponse_Mutable;
  NewField := MsgUpdateParamsResponse_NewField;
  Descriptor := MsgUpdateParamsResponse_descriptor;
  GetUnknown x := x ← or_panic x; Ok (MsgUpdateParamsResponse_unknownFields x);
  SetUnknown x fields := x ← or_panic x; Ok (MsgUpdateParamsResponse_set_unknown x fields);
|}.

(** [MsgCreateMultisigAccountParams] *)

Definition fd_MsgCreateMultisigAccountParams_authority : FieldDescriptor :=
  mkField "multisig.v1.MsgCreateMultisigAccountParams.authority" 1 StringKind false.
Definition fd_MsgCreateMultisigAccountParams_seed : FieldDescriptor :=
  mkField "multisig.v1.MsgCreateMultisigAccountParams.seed" 2 Uint32Kind false.
Definition fd_MsgCreateMultisigAccountParams_threshold : FieldDescriptor :=
  mkField "multisig.v1.MsgCreateMultisigAccountParams.threshold" 3 Uint32Kind false.
Definition fd_MsgCreateMultisigAccountParams_signers : FieldDescriptor :=
  mkField "multisig.v1.MsgCreateMultisigAccountParams.signers" 4 BytesKind true.
Definition fd_MsgCreateMultisigAccountParams_permission : FieldDescriptor :=
  mkField "multisig.v1.MsgCreateMultisigAccountParams.permission" 5 EnumKind false.
Definition MsgCreateMultisigAccountParams_descriptor : list FieldDescriptor := [
  fd_MsgCreateMultisigAccountParams_authority; fd_MsgCreateMultisigAccountParams_seed;
  fd_MsgCreateMultisigAccountParams_threshold; fd_MsgCreateMultisigAccountParams_signers;
  fd_MsgCreateMultisigAccountParams_permission].
Definition MsgCreateMultisigAccountParams_with_Authority (x : MsgCreateMultisigAccountParams)
    (v : string) : MsgCreateMultisigAccountParams :=
  mkMsgCreateMultisigAccountParams v (MsgCreateMultisigAccountParams_Seed x)
    (MsgCreateMultisigAccountParams_Threshold x) (MsgCreateMultisigAccountParams_Signers x)
    (MsgCreateMultisigAccountParams_Permission x) (MsgCreateMultisigAccountParams_unknownFields
    x).
Definition MsgCreateMultisigAccountParams_with_Seed (x : MsgCreateMultisigAccountParams) (v : Z) :
    MsgCreateMultisigAccountParams :=
  mkMsgCreateMultisigAccountParams (MsgCreateMultisigAccountParams_Authority x) v
    (MsgCreateMultisigAccountParams_Threshold x) (MsgCreateMultisigAccountParams_Signers x)
    (MsgCreateMultisigAccountParams_Permission x) (MsgCreateMultisigAccountParams_unknownFields
    x).
Definition MsgCreateMultisigAccountParams_with_Threshold (x : MsgCreateMultisigAccountParams)
    (v : Z) : MsgCreateMultisigAccountParams :=
  mkMsgCreateMultisigAccountParams (MsgCreateMultisigAccountParams_Authority x)
    (MsgCreateMultisigAccountParams_Seed x) v (MsgCreateMultisigAccountParams_Signers x)
    (MsgCreateMultisigAccountParams_Permission x) (MsgCreateMultisigAccountParams_unknownFields
    x).
Definition MsgCreateMultisigAccountParams_with_Signers (x : MsgCreateMultisigAccountParams)
    (v : list bytes) : MsgCreateMultisigAccountParams :=
  mkMsgCreateMultisigAccountParams (MsgCreateMultisigAccountParams_Authority x)
    (MsgCreateMultisigAccountParams_Seed x) (MsgCreateMultisigAccountParams_Threshold x) v
    (MsgCreateMultisigAccountParams_Permission x) (MsgCreateMultisigAccountParams_unknownFields
    x).
Definition MsgCreateMultisigAccountParams_with_Permission (x : MsgCreateMultisigAccountParams)
    (v : Z) : MsgCreateMultisigAccountParams :=
  mkMsgCreateMultisigAccountParams (MsgCreateMultisigAccountParams_Authority x)
    (MsgCreateMultisigAccountParams_Seed x) (MsgCreateMultisigAccountParams_Threshold x)
    (MsgCreateMultisigAccountParams_Signers x) v (MsgCreateMultisigAccountParams_unknownFields x).
Definition MsgCreateMultisigAccountParams_GetAuthority : option MsgCreateMultisigAccountParams →
    string :=
  getter ""%string MsgCreateMultisigAccountParams_Authority.
Definition MsgCreateMultisigAccountParams_GetSeed : option MsgCreateMultisigAccountParams → Z :=
  getter 0 MsgCreateMultisigAccountParams_Seed.
Definition MsgCreateMultisigAccountParams_GetThreshold : option MsgCreateMultisigAccountParams → Z
    :=
  getter 0 MsgCreateMultisigAccountParams_Threshold.
Definition MsgCreateMultisigAccountParams_GetSigners : option MsgCreateMultisigAccountParams → list
    bytes :=
  getter [] MsgCreateMultisigAccountParams_Signers.
Definition MsgCreateMultisigAccountParams_GetPermission : option MsgCreateMultisigAccountParams → Z
    :=
  getter 0 MsgCreateMultisigAccountParams_Permission.
#[export] Instance MsgCreateMultisigAccountParams_4_list_methods : ProtoList MsgCreateMultisigAccountParams_4_list :=
  bytes_list mkMsgCreateMultisigAccountParams_4_list MsgCreateMultisigAccountParams_4_list_slice.
Definition MsgCreateMultisigAccountParams_Range {S} (x : option MsgCreateMultisigAccountParams)
    (f : FieldDescriptor → Value → M S bool) : M S () :=
  x ← lift (or_panic x);
  range_fields f [
    (has_string (MsgCreateMultisigAccountParams_Authority x),
       fd_MsgCreateMultisigAccountParams_authority, ValueOfString
       (MsgCreateMultisigAccountParams_Authority x));
    (has_int (MsgCreateMultisigAccountParams_Seed x), fd_MsgCreateMultisigAccountParams_seed,
       ValueOfUint32 (MsgCreateMultisigAccountParams_Seed x));
    (has_int (MsgCreateMultisigAccountParams_Threshold x),
       fd_MsgCreateMultisigAccountParams_threshold, ValueOfUint32
       (MsgCreateMultisigAccountParams_Threshold x));
    (has_slice (MsgCreateMultisigAccountParams_Signers x),
       fd_MsgCreateMultisigAccountParams_signers, ValueOfList
       (mkMsgCreateMultisigAccountParams_4_list (Some (MsgCreateMultisigAccountParams_Signers x))));
    (has_int (MsgCreateMultisigAccountParams_Permission x),
       fd_MsgCreateMultisigAccountParams_permission, ValueOfEnum
       (MsgCreateMultisigAccountParams_Permission x))].
Definition MsgCreateMultisigAccountParams_Has (x : option MsgCreateMultisigAccountParams)
    (fd : FieldDescriptor) : outcome bool :=
  x ← or_panic x;
  field_switch fd [
    ("multisig.v1.MsgCreateMultisigAccountParams.authority"%string,
      Ok (has_string (MsgCreateMultisigAccountParams_Authority x)));
    ("multisig.v1.MsgCreateMultisigAccountParams.seed"%string,
      Ok (has_int (MsgCreateMultisigAccountParams_Seed x)));
    ("multisig.v1.MsgCreateMultisigAccountParams.threshold"%string,
      Ok (has_int (MsgCreateMultisigAccountParams_Threshold x)));
    ("multisig.v1.MsgCreateMultisigAccountParams.signers"%string,
      Ok (has_slice (MsgCreateMultisigAccountParams_Signers x)));
    ("multisig.v1.MsgCreateMultisigAccountParams.permission"%string,
      Ok (has_int (MsgCreateMultisigAccountParams_Permission x)))].
Definition MsgCreateMultisigAccountParams_Clear (x : option MsgCreateMultisigAccountParams)
    (fd : FieldDescriptor) : outcome MsgCreateMultisigAccountParams :=
  x ← or_panic x;
  field_switch fd [
    ("multisig.v1.MsgCreateMultisigAccountParams.authority"%string,
      Ok (MsgCreateMultisigAccountParams_with_Authority x ""%string));
    ("multisig.v1.MsgCreateMultisigAccountParams.seed"%string,
      Ok (MsgCreateMultisigAccountParams_with_Seed x 0));
    ("multisig.v1.MsgCreateMultisigAccountParams.threshold"%string,
      Ok (MsgCreateMultisigAccountParams_with_Threshold x 0));
    ("multisig.v1.MsgCreateMultisigAccountParams.signers"%string,
      Ok (MsgCreateMultisigAccountParams_with_Signers x []));
    ("multisig.v1.MsgCreateMultisigAccountParams.permission"%string,
      Ok (MsgCreateMultisigAccountParams_with_Permission x 0))].
Definition MsgCreateMultisigAccountParams_Get (x : option MsgCreateMultisigAccountParams)
    (fd : FieldDescriptor) : outcome Value :=
  x ← or_panic x;
  field_switch fd [
    ("multisig.v1.MsgCreateMultisigAccountParams.authority"%string,
      Ok (ValueOfString (MsgCreateMultisigAccountParams_Authority x)));
    ("multisig.v1.MsgCreateMultisigAccountParams.seed"%string,
      Ok (ValueOfUint32 (MsgCreateMultisigAccountParams_Seed x)));
    ("multisig.v1.MsgCreateMultisigAccountParams.threshold"%string,
      Ok (ValueOfUint32 (MsgCreateMultisigAccountParams_Threshold x)));
    ("multisig.v1.MsgCreateMultisigAccountParams.signers"%string,
      Ok
        (get_list mkMsgCreateMultisigAccountParams_4_list (MsgCreateMultisigAccountParams_Signers x)));
    ("multisig.v1.MsgCreateMultisigAccountParams.permission"%string,
      Ok (ValueOfEnum (MsgCreateMultisigAccountParams_Permission x)))].
Definition MsgCreateMultisigAccountParams_Set (x : option MsgCreateMultisigAccountParams)
    (fd : FieldDescriptor) (value : Value) : outcome MsgCreateMultisigAccountParams :=
  x ← or_panic x;
  field_switch fd [
    ("multisig.v1.MsgCreateMultisigAccountParams.authority"%string,
      set_string (MsgCreateMultisigAccountParams_with_Authority x) value);
    ("multisig.v1.MsgCreateMultisigAccountParams.seed"%string,
      set_uint32 (MsgCreateMultisigAccountParams_with_Seed x) value);
    ("multisig.v1.MsgCreateMultisigAccountParams.threshold"%string,
      set_uint32 (MsgCreateMultisigAccountParams_with_Threshold x) value);
    ("multisig.v1.MsgCreateMultisigAccountParams.signers"%string,
      set_list MsgCreateMultisigAccountParams_4_list_slice
        (MsgCreateMultisigAccountParams_with_Signers x) value);
    ("multisig.v1.MsgCreateMultisigAccountParams.permission"%string,
      set_enum (MsgCreateMultisigAccountParams_with_Permission x) value)].
Definition MsgCreateMultisigAccountParams_Mutable (x : option MsgCreateMultisigAccountParams)
    (fd : FieldDescriptor) : outcome (Value * MsgCreateMultisigAccountParams) :=
  x ← or_panic x;
  field_switch fd [
    ("multisig.v1.MsgCreateMultisigAccountParams.signers"%string,
      mutable_list mkMsgCreateMultisigAccountParams_4_list x
        (MsgCreateMultisigAccountParams_Signers x));
    ("multisig.v1.MsgCreateMultisigAccountParams.authority"%string, Panic);
    ("multisig.v1.MsgCreateMultisigAccountParams.seed"%string, Panic);
    ("multisig.v1.MsgCreateMultisigAccountParams.threshold"%string, Panic);
    ("multisig.v1.MsgCreateMultisigAccountParams.permission"%string, Panic)].
Definition MsgCreateMultisigAccountParams_NewField (fd : FieldDescriptor) : outcome Value :=
  field_switch fd [
    ("multisig.v1.MsgCreateMultisigAccountParams.authority"%string, Ok (ValueOfString ""%string));
    ("multisig.v1.MsgCreateMultisigAccountParams.seed"%string, Ok (ValueOfUint32 0));
    ("multisig.v1.MsgCreateMultisigAccountParams.threshold"%string, Ok (ValueOfUint32 0));
    ("multisig.v1.MsgCreateMultisigAccountParams.signers"%string,
      new_list mkMsgCreateMultisigAccountParams_4_list);
    ("multisig.v1.MsgCreateMultisigAccountParams.permission"%string, Ok (ValueOfEnum 0))].
Definition MsgCreateMultisigAccountParams_set_unknown (x : MsgCreateMultisigAccountParams) (fields : bytes) : MsgCreateMultisigAccountParams :=
  mkMsgCreateMultisigAccountParams (MsgCreateMultisigAccountParams_Authority x)
    (MsgCreateMultisigAccountParams_Seed x) (MsgCreateMultisigAccountParams_Threshold x)
    (MsgCreateMultisigAccountParams_Signers x) (MsgCreateMultisigAccountParams_Permission x)
    fields.
#[export] Instance MsgCreateMultisigAccountParams_reflect : MessageReflect MsgCreateMultisigAccountParams := {|
  Range S := MsgCreateMultisigAccountParams_Range;
  Has := MsgCreateMultisigAccountParams_Has;
  Clear := MsgCreateMultisigAccountParams_Clear;
  Get := MsgCreateMultisigAccountParams_Get;
  Set_ := MsgCreateMultisigAccountParams_Set;
  Mutable := MsgCreateMultisigAccountParams_Mutable;
  NewField := MsgCreateMultisigAccountParams_NewField;
  Descriptor := MsgCreateMultisigAccountParams_descriptor;
  GetUnknown x := x ← or_panic x; Ok (MsgCreateMultisigAccountParams_unknownFields x);
  SetUnknown x fields := x ← or_panic x; Ok (MsgCreateMultisigAccountParams_set_unknown x fields);
|}.

(** [MsgCreateMultisigAccountResponse] *)

Definition fd_MsgCreateMultisigAccountResponse_multisig_address : FieldDescriptor :=
  mkField "multisig.v1.MsgCreateMultisigAccountResponse.multisig_address" 1 StringKind false.
Definition MsgCreateMultisigAccountResponse_descriptor : list FieldDescriptor := [
  fd_MsgCreateMultisigAccountResponse_multisig_address].
Definition MsgCreateMultisigAccountResponse_with_MultisigAddress
    (x : MsgCreateMultisigAccountResponse) (v : string) : MsgCreateMultisigAccountResponse :=
  mkMsgCreateMultisigAccountResponse v (MsgCreateMultisigAccountResponse_unknownFields x).
Definition MsgCreateMultisigAccountResponse_GetMultisigAddress : option
    MsgCreateMultisigAccountResponse → string :=
  getter ""%string MsgCreateMultisigAccountResponse_MultisigAddress.
Definition MsgCreateMultisigAccountResponse_Range {S} (x : option MsgCreateMultisigAccountResponse)
    (f : FieldDescriptor → Value → M S bool) : M S () :=
  x ← lift (or_panic x);
  range_fields f [
    (has_string (MsgCreateMultisigAccountResponse_MultisigAddress x),
       fd_MsgCreateMultisigAccountResponse_multisig_address, ValueOfString
       (MsgCreateMultisigAccountResponse_MultisigAddress x))].
Definition MsgCreateMultisigAccountResponse_Has (x : option MsgCreateMultisigAccountResponse)
    (fd : FieldDescriptor) : outcome bool :=
  x ← or_panic x;
  field_switch fd [
    ("multisig.v1.MsgCreateMultisigAccountResponse.multisig_address"%string,
      Ok (has_string (MsgCreateMultisigAccountResponse_MultisigAddress x)))].
Definition MsgCreateMultisigAccountResponse_Clear (x : option MsgCreateMultisigAccountResponse)
    (fd : FieldDescriptor) : outcome MsgCreateMultisigAccountResponse :=
  x ← or_panic x;
  field_switch fd [
    ("multisig.v1.MsgCreateMultisigAccountResponse.multisig_address"%string,
      Ok (MsgCreateMultisigAccountResponse_with_MultisigAddress x ""%string))].
Definition MsgCreateMultisigAccountResponse_Get (x : option MsgCreateMultisigAccountResponse)
    (fd : FieldDescriptor) : outcome Value :=
  x ← or_panic x;
  field_switch fd [
    ("multisig.v1.MsgCreateMultisigAccountResponse.multisig_address"%string,
      Ok (ValueOfString (MsgCreateMultisigAccountResponse_MultisigAddress x)))].
Definition MsgCreateMultisigAccountResponse_Set (x : option MsgCreateMultisigAccountResponse)
    (fd : FieldDescriptor) (value : Value) : outcome MsgCreateMultisigAccountResponse :=
  x ← or_panic x;
  field_switch fd [
    ("multisig.v1.MsgCreateMultisigAccountResponse.multisig_address"%string,
      set_string (MsgCreateMultisigAccountResponse_with_MultisigAddress x) value)].
Definition MsgCreateMultisigAccountResponse_Mutable (x : option MsgCreateMultisigAccountResponse)
    (fd : FieldDescriptor) : outcome (Value * MsgCreateMultisigAccountResponse) :=
  x ← or_panic x;
  field_switch fd [
    ("multisig.v1.MsgCreateMultisigAccountResponse.multisig_address"%string, Panic)].
Definition MsgCreateMultisigAccountResponse_NewField (fd : FieldDescriptor) : outcome Value :=
  field_switch fd [
    ("multisig.v1.MsgCreateMultisigAccountResponse.multisig_address"%string,
      Ok (ValueOfString ""%string))].
Definition MsgCreateMultisigAccountResponse_set_unknown (x : MsgCreateMultisigAccountResponse) (fields : bytes) : MsgCreateMultisigAccountResponse :=
  mkMsgCreateMultisigAccountResponse (MsgCreateMultisigAccountResponse_MultisigAddress x) fields.
#[export] Instance MsgCreateMultisigAccountResponse_reflect : MessageReflect MsgCreateMultisigAccountResponse := {|
  Range S := MsgCreateMultisigAccountResponse_Range;
  Has := MsgCreateMultisigAccountResponse_Has;
  Clear := MsgCreateMultisigAccountResponse_Clear;
  Get := MsgCreateMultisigAccountResponse_Get;
  Set_ := MsgCreateMultisigAccountResponse_Set;
  Mutable := MsgCreateMultisigAccountResponse_Mutable;
  NewField := MsgCreateMultisigAccountResponse_NewField;
  Descriptor := MsgCreateMultisigAccountResponse_descriptor;
  GetUnknown x := x ← or_panic x; Ok (MsgCreateMultisigAccountResponse_unknownFields x);
  SetUnknown x fields := x ← or_panic x; Ok (MsgCreateMultisigAccountResponse_set_unknown x fields);
|}.

(** [MsgAddMultisigSignerParams] *)

Definition fd_MsgAddMultisigSignerParams_multisig_address : FieldDescriptor :=
  mkField "multisig.v1.MsgAddMultisigSignerParams.multisig_address" 1 StringKind false.
Definition fd_MsgAddMultisigSignerParams_signer : FieldDescriptor :=
  mkField "multisig.v1.MsgAddMultisigSignerParams.signer" 2 StringKind false.
Definition fd_MsgAddMultisigSignerParams_new_threshold : FieldDescriptor :=
  mkField "multisig.v1.MsgAddMultisigSignerParams.new_threshold" 3 Uint32Kind false.
Definition MsgAddMultisigSignerParams_descriptor : list FieldDescriptor := [
  fd_MsgAddMultisigSignerParams_multisig_address; fd_MsgAddMultisigSignerParams_signer;
  fd_MsgAddMultisigSignerParams_new_threshold].
Definition MsgAddMultisigSignerParams_with_MultisigAddress (x : MsgAddMultisigSignerParams)
    (v : string) : MsgAddMultisigSignerParams :=
  mkMsgAddMultisigSignerParams v (MsgAddMultisigSignerParams_Signer x)
    (MsgAddMultisigSignerParams_NewThreshold x) (MsgAddMultisigSignerParams_unknownFields x).
Definition MsgAddMultisigSignerParams_with_Signer (x : MsgAddMultisigSignerParams) (v : string) :
    MsgAddMultisigSignerParams :=
  mkMsgAddMultisigSignerParams (MsgAddMultisigSignerParams_MultisigAddress x) v
    (MsgAddMultisigSignerParams_NewThreshold x) (MsgAddMultisigSignerParams_unknownFields x).
Definition MsgAddMultisigSignerParams_with_NewThreshold (x : MsgAddMultisigSignerParams) (v : Z) :
    MsgAddMultisigSignerParams :=
  mkMsgAddMultisigSignerParams (MsgAddMultisigSignerParams_MultisigAddress x)
    (MsgAddMultisigSignerParams_Signer x) v (MsgAddMultisigSignerParams_unknownFields x).
Definition MsgAddMultisigSignerParams_GetMultisigAddress : option MsgAddMultisigSignerParams →
    string :=
  getter ""%string MsgAddMultisigSignerParams_MultisigAddress.
Definition MsgAddMultisigSignerParams_GetSigner : option MsgAddMultisigSignerParams → string :=
  getter ""%string MsgAddMultisigSignerParams_Signer.
Definition MsgAddMultisigSignerParams_GetNewThreshold : option MsgAddMultisigSignerParams → Z :=
  getter 0 MsgAddMultisigSignerParams_NewThreshold.
Definition MsgAddMultisigSignerParams_Range {S} (x : option MsgAddMultisigSignerParams)
    (f : FieldDescriptor → Value → M S bool) : M S () :=
  x ← lift (or_panic x);
  range_fields f [
    (has_string (MsgAddMultisigSignerParams_MultisigAddress x),
       fd_MsgAddMultisigSignerParams_multisig_address, ValueOfString
       (MsgAddMultisigSignerParams_MultisigAddress x));
    (has_string (MsgAddMultisigSignerParams_Signer x), fd_MsgAddMultisigSignerParams_signer,
       ValueOfString (MsgAddMultisigSignerParams_Signer x));
    (has_int (MsgAddMultisigSignerParams_NewThreshold x),
       fd_MsgAddMultisigSignerParams_new_threshold, ValueOfUint32
       (MsgAddMultisigSignerParams_NewThreshold x))].
Definition MsgAddMultisigSignerParams_Has (x : option MsgAddMultisigSignerParams)
    (fd : FieldDescriptor) : outcome bool :=
  x ← or_panic x;
  field_switch fd [
    ("multisig.v1.MsgAddMultisigSignerParams.multisig_address"%string,
      Ok (has_string (MsgAddMultisigSignerParams_MultisigAddress x)));
    ("multisig.v1.MsgAddMultisigSignerParams.signer"%string,
      Ok (has_string (MsgAddMultisigSignerParams_Signer x)));
    ("multisig.v1.MsgAddMultisigSignerParams.new_threshold"%string,
      Ok (has_int (MsgAddMultisigSignerParams_NewThreshold x)))].
Definition MsgAddMultisigSignerParams_Clear (x : option MsgAddMultisigSignerParams)
    (fd : FieldDescriptor) : outcome MsgAddMultisigSignerParams :=
  x ← or_panic x;
  field_switch fd [
    ("multisig.v1.MsgAddMultisigSignerParams.multisig_address"%string,
      Ok (MsgAddMultisigSignerParams_with_MultisigAddress x ""%string));
    ("multisig.v1.MsgAddMultisigSignerParams.signer"%string,
      Ok (MsgAddMultisigSignerParams_with_Signer x ""%string));
    ("multisig.v1.MsgAddMultisigSignerParams.new_threshold"%string,
      Ok (MsgAddMultisigSignerParams_with_NewThreshold x 0))].
Definition MsgAddMultisigSignerParams_Get (x : option MsgAddMultisigSignerParams)
    (fd : FieldDescriptor) : outcome Value :=
  x ← or_panic x;
  field_switch fd [
    ("multisig.v1.MsgAddMultisigSignerParams.multisig_address"%string,
      Ok (ValueOfString (MsgAddMultisigSignerParams_MultisigAddress x)));
    ("multisig.v1.MsgAddMultisigSignerParams.signer"%string,
      Ok (ValueOfString (MsgAddMultisigSignerParams_Signer x)));
    ("multisig.v1.MsgAddMultisigSignerParams.new_threshold"%string,
      Ok (ValueOfUint32 (MsgAddMultisigSignerParams_NewThreshold x)))].
Definition MsgAddMultisigSignerParams_Set (x : option MsgAddMultisigSignerParams)
    (fd : FieldDescriptor) (value : Value) : outcome MsgAddMultisigSignerParams :=
  x ← or_panic x;
  field_switch fd [
    ("multisig.v1.MsgAddMultisigSignerParams.multisig_address"%string,
      set_string (MsgAddMultisigSignerParams_with_MultisigAddress x) value);
    ("multisig.v1.MsgAddMultisigSignerParams.signer"%string,
      set_string (MsgAddMultisigSignerParams_with_Signer x) value);
    ("multisig.v1.MsgAddMultisigSignerParams.new_threshold"%string,
      set_uint32 (MsgAddMultisigSignerParams_with_NewThreshold x) value)].
Definition MsgAddMultisigSignerParams_Mutable (x : option MsgAddMultisigSignerParams)
    (fd : FieldDescriptor) : outcome (Value * MsgAddMultisigSignerParams) :=
  x ← or_panic x;
  field_switch fd [
    ("multisig.v1.MsgAddMultisigSignerParams.multisig_address"%string, Panic);
    ("multisig.v1.MsgAddMultisigSignerParams.signer"%string, Panic);
    ("multisig.v1.MsgAddMultisigSignerParams.new_threshold"%string, Panic)].
Definition MsgAddMultisigSignerParams_NewField (fd : FieldDescriptor) : outcome Value :=
  field_switch fd [
    ("multisig.v1.MsgAddMultisigSignerParams.multisig_address"%string,
      Ok (ValueOfString ""%string));
    ("multisig.v1.MsgAddMultisigSignerParams.signer"%string, Ok (ValueOfString ""%string));
    ("multisig.v1.MsgAddMultisigSignerParams.new_threshold"%string, Ok (ValueOfUint32 0))].
Definition MsgAddMultisigSignerParams_set_unknown (x : MsgAddMultisigSignerParams) (fields : bytes) : MsgAddMultisigSignerParams :=
  mkMsgAddMultisigSignerParams (MsgAddMultisigSignerParams_MultisigAddress x)
    (MsgAddMultisigSignerParams_Signer x) (MsgAddMultisigSignerParams_NewThreshold x) fields.
#[export] Instance MsgAddMultisigSignerParams_reflect : MessageReflect MsgAddMultisigSignerParams := {|
  Range S := MsgAddMultisigSignerParams_Range;
  Has := MsgAddMultisigSignerParams_Has;
  Clear := MsgAddMultisigSignerParams_Clear;
  Get := MsgAddMultisigSignerParams_Get;
  Set_ := MsgAddMultisigSignerParams_Set;
  Mutable := MsgAddMultisigSignerParams_Mutable;
  NewField := MsgAddMultisigSignerParams_NewField;
  Descriptor := MsgAddMultisigSignerParams_descriptor;
  GetUnknown x := x ← or_panic x; Ok (MsgAddMultisigSignerParams_unknownFields x);
  SetUnknown x fields := x ← or_panic x; Ok (MsgAddMultisigSignerParams_set_unknown x fields);
|}.

(** [MsgAddMultisigSignerResponse] *)

Definition MsgAddMultisigSignerResponse_descriptor : list FieldDescriptor := [].
Definition MsgAddMultisigSignerResponse_Range {S} (x : option MsgAddMultisigSignerResponse)
    (f : FieldDescriptor → Value → M S bool) : M S () :=
  mret ().
Definition MsgAddMultisigSignerResponse_Has (x : option MsgAddMultisigSignerResponse)
    (fd : FieldDescriptor) : outcome bool :=
  field_switch fd [].
Definition MsgAddMultisigSignerResponse_Clear (x : option MsgAddMultisigSignerResponse)
    (fd : FieldDescriptor) : outcome MsgAddMultisigSignerResponse :=
  field_switch fd [].
Definition MsgAddMultisigSignerResponse_Get (x : option MsgAddMultisigSignerResponse)
    (fd : FieldDescriptor) : outcome Value :=
  field_switch fd [].
Definition MsgAddMultisigSignerResponse_Set (x : option MsgAddMultisigSignerResponse)
    (fd : FieldDescriptor) (value : Value) : outcome MsgAddMultisigSignerResponse :=
  field_switch fd [].
Definition MsgAddMultisigSignerResponse_Mutable (x : option MsgAddMultisigSignerResponse)
    (fd : FieldDescriptor) : outcome (Value * MsgAddMultisigSignerResponse) :=
  field_switch fd [].
Definition MsgAddMultisigSignerResponse_NewField (fd : FieldDescriptor) : outcome Value :=
  field_switch fd [].
Definition MsgAddMultisigSignerResponse_set_unknown (x : MsgAddMultisigSignerResponse) (fields : bytes) : MsgAddMultisigSignerResponse :=
  mkMsgAddMultisigSignerResponse fields.
#[export] Instance MsgAddMultisigSignerResponse_reflect : MessageReflect MsgAddMultisigSignerResponse := {|
  Range S := MsgAddMultisigSignerResponse_Range;
  Has := MsgAddMultisigSignerResponse_Has;
  Clear := MsgAddMultisigSignerResponse_Clear;
  Get := MsgAddMultisigSignerResponse_Get;
  Set_ := MsgAddMultisigSignerResponse_Set;
  Mutable := MsgAddMultisigSignerResponse_Mutable;
  NewField := MsgAddMultisigSignerResponse_NewField;
  Descriptor := MsgAddMultisigSignerResponse_descriptor;
  GetUnknown x := x ← or_panic x; Ok (MsgAddMultisigSignerResponse_unknownFields x);
  SetUnknown x fields := x ← or_panic x; Ok (MsgAddMultisigSignerResponse_set_unknown x fields);
|}.

(** [MsgCleanupMultisigAccountParams] *)

Definition fd_MsgCleanupMultisigAccountParams_multisig_address : FieldDescriptor :=
  mkField "multisig.v1.MsgCleanupMultisigAccountParams.multisig_address" 1 StringKind false.
Definition MsgCleanupMultisigAccountParams_descriptor : list FieldDescriptor := [
  fd_MsgCleanupMultisigAccountParams_multisig_address].
Definition MsgCleanupMultisigAccountParams_with_MultisigAddress
    (x : MsgCleanupMultisigAccountParams) (v : string) : MsgCleanupMultisigAccountParams :=
  mkMsgCleanupMultisigAccountParams v (MsgCleanupMultisigAccountParams_unknownFields x).
Definition MsgCleanupMultisigAccountParams_GetMultisigAddress : option
    MsgCleanupMultisigAccountParams → string :=
  getter ""%string MsgCleanupMultisigAccountParams_MultisigAddress.
Definition MsgCleanupMultisigAccountParams_Range {S} (x : option MsgCleanupMultisigAccountParams)
    (f : FieldDescriptor → Value → M S bool) : M S () :=
  x ← lift (or_panic x);
  range_fields f [
    (has_string (MsgCleanupMultisigAccountParams_MultisigAddress x),
       fd_MsgCleanupMultisigAccountParams_multisig_address, ValueOfString
       (MsgCleanupMultisigAccountParams_MultisigAddress x))].
Definition MsgCleanupMultisigAccountParams_Has (x : option MsgCleanupMultisigAccountParams)
    (fd : FieldDescriptor) : outcome bool :=
  x ← or_panic x;
  field_switch fd [
    ("multisig.v1.MsgCleanupMultisigAccountParams.multisig_address"%string,
      Ok (has_string (MsgCleanupMultisigAccountParams_MultisigAddress x)))].
Definition MsgCleanupMultisigAccountParams_Clear (x : option MsgCleanupMultisigAccountParams)
    (fd : FieldDescriptor) : outcome MsgCleanupMultisigAccountParams :=
  x ← or_panic x;
  field_switch fd [
    ("multisig.v1.MsgCleanupMultisigAccountParams.multisig_address"%string,
      Ok (MsgCleanupMultisigAccountParams_with_MultisigAddress x ""%string))].
Definition MsgCleanupMultisigAccountParams_Get (x : option MsgCleanupMultisigAccountParams)
    (fd : FieldDescriptor) : outcome Value :=
  x ← or_panic x;
  field_switch fd [
    ("multisig.v1.MsgCleanupMultisigAccountParams.multisig_address"%string,
      Ok (ValueOfString (MsgCleanupMultisigAccountParams_MultisigAddress x)))].
Definition MsgCleanupMultisigAccountParams_Set (x : option MsgCleanupMultisigAccountParams)
    (fd : FieldDescriptor) (value : Value) : outcome MsgCleanupMultisigAccountParams :=
  x ← or_panic x;
  field_switch fd [
    ("multisig.v1.MsgCleanupMultisigAccountParams.multisig_address"%string,
      set_string (MsgCleanupMultisigAccountParams_with_MultisigAddress x) value)].
Definition MsgCleanupMultisigAccountParams_Mutable (x : option MsgCleanupMultisigAccountParams)
    (fd : FieldDescriptor) : outcome (Value * MsgCleanupMultisigAccountParams) :=
  x ← or_panic x;
  field_switch fd [
    ("multisig.v1.MsgCleanupMultisigAccountParams.multisig_address"%string, Panic)].
Definition MsgCleanupMultisigAccountParams_NewField (fd : FieldDescriptor) : outcome Value :=
  field_switch fd [
    ("multisig.v1.MsgCleanupMultisigAccountParams.multisig_address"%string,
      Ok (ValueOfString ""%string))].
Definition MsgCleanupMultisigAccountParams_set_unknown (x : MsgCleanupMultisigAccountParams) (fields : bytes) : MsgCleanupMultisigAccountParams :=
  mkMsgCleanupMultisigAccountParams (MsgCleanupMultisigAccountParams_MultisigAddress x) fields.
#[export] Instance MsgCleanupMultisigAccountParams_reflect : MessageReflect MsgCleanupMultisigAccountParams := {|
  Range S := MsgCleanupMultisigAccountParams_Range;
  Has := MsgCleanupMultisigAccountParams_Has;
  Clear := MsgCleanupMultisigAccountParams_Clear;
  Get := MsgCleanupMultisigAccountParams_Get;
  Set_ := MsgCleanupMultisigAccountParams_Set;
  Mutable := MsgCleanupMultisigAccountParams_Mutable;
  NewField := MsgCleanupMultisigAccountParams_NewField;
  Descriptor := MsgCleanupMultisigAccountParams_descriptor;
  GetUnknown x := x ← or_panic x; Ok (MsgCleanupMultisigAccountParams_unknownFields x);
  SetUnknown x fields := x ← or_panic x; Ok (MsgCleanupMultisigAccountParams_set_unknown x fields);
|}.

(** [MsgCleanupMultisigAccountResponse] *)

Definition MsgCleanupMultisigAccountResponse_descriptor : list FieldDescriptor := [].
Definition MsgCleanupMultisigAccountResponse_Range {S}
    (x : option MsgCleanupMultisigAccountResponse) (f : FieldDescriptor → Value → M S bool) : M S
    () :=
  mret ().
Definition MsgCleanupMultisigAccountResponse_Has (x : option MsgCleanupMultisigAccountResponse)
    (fd : FieldDescriptor) : outcome bool :=
  field_switch fd [].
Definition MsgCleanupMultisigAccountResponse_Clear (x : option MsgCleanupMultisigAccountResponse)
    (fd : FieldDescriptor) : outcome MsgCleanupMultisigAccountResponse :=
  field_switch fd [].
Definition MsgCleanupMultisigAccountResponse_Get (x : option MsgCleanupMultisigAccountResponse)
    (fd : FieldDescriptor) : outcome Value :=
  field_switch fd [].
Definition MsgCleanupMultisigAccountResponse_Set (x : option MsgCleanupMultisigAccountResponse)
    (fd : FieldDescriptor) (value : Value) : outcome MsgCleanupMultisigAccountResponse :=
  field_switch fd [].
Definition MsgCleanupMultisigAccountResponse_Mutable (x : option MsgCleanupMultisigAccountResponse)
    (fd : FieldDescriptor) : outcome (Value * MsgCleanupMultisigAccountResponse) :=
  field_switch fd [].
Definition MsgCleanupMultisigAccountResponse_NewField (fd : FieldDescriptor) : outcome Value :=
  field_switch fd [].
Definition MsgCleanupMultisigAccountResponse_set_unknown (x : MsgCleanupMultisigAccountResponse) (fields : bytes) : MsgCleanupMultisigAccountResponse :=
  mkMsgCleanupMultisigAccountResponse fields.
#[export] Instance MsgCleanupMultisigAccountResponse_reflect : MessageReflect MsgCleanupMultisigAccountResponse := {|
  Range S := MsgCleanupMultisigAccountResponse_Range;
  Has := MsgCleanupMultisigAccountResponse_Has;
  Clear := MsgCleanupMultisigAccountResponse_Clear;
  Get := MsgCleanupMultisigAccountResponse_Get;
  Set_ := MsgCleanupMultisigAccountResponse_Set;
  Mutable := MsgCleanupMultisigAccountResponse_Mutable;
  NewField := MsgCleanupMultisigAccountResponse_NewField;
  Descriptor := MsgCleanupMultisigAccountResponse_descriptor;
  GetUnknown x := x ← or_panic x; Ok (MsgCleanupMultisigAccountResponse_unknownFields x);
  SetUnknown x fields := x ← or_panic x; Ok (MsgCleanupMultisigAccountResponse_set_unknown x fields);
|}.

(** [MsgSetMultisigThresholdParams] *)

Definition fd_MsgSetMultisigThresholdParams_multisig_address : FieldDescriptor :=
  mkField "multisig.v1.MsgSetMultisigThresholdParams.multisig_address" 1 StringKind false.
Definition fd_MsgSetMultisigThresholdParams_threshold : FieldDescriptor :=
  mkField "multisig.v1.MsgSetMultisigThresholdParams.threshold" 2 Uint32Kind false.
Definition MsgSetMultisigThresholdParams_descriptor : list FieldDescriptor := [
  fd_MsgSetMultisigThresholdParams_multisig_address; fd_MsgSetMultisigThresholdParams_threshold].
Definition MsgSetMultisigThresholdParams_with_MultisigAddress (x : MsgSetMultisigThresholdParams)
    (v : string) : MsgSetMultisigThresholdParams :=
  mkMsgSetMultisigThresholdParams v (MsgSetMultisigThresholdParams_Threshold x)
    (MsgSetMultisigThresholdParams_unknownFields x).
Definition MsgSetMultisigThresholdParams_with_Threshold (x : MsgSetMultisigThresholdParams) (v : Z)
    : MsgSetMultisigThresholdParams :=
  mkMsgSetMultisigThresholdParams (MsgSetMultisigThresholdParams_MultisigAddress x) v
    (MsgSetMultisigThresholdParams_unknownFields x).
Definition MsgSetMultisigThresholdParams_GetMultisigAddress : option MsgSetMultisigThresholdParams
    → string :=
  getter ""%string MsgSetMultisigThresholdParams_MultisigAddress.
Definition MsgSetMultisigThresholdParams_GetThreshold : option MsgSetMultisigThresholdParams → Z :=
  getter 0 MsgSetMultisigThresholdParams_Threshold.
Definition MsgSetMultisigThresholdParams_Range {S} (x : option MsgSetMultisigThresholdParams)
    (f : FieldDescriptor → Value → M S bool) : M S () :=
  x ← lift (or_panic x);
  range_fields f [
    (has_string (MsgSetMultisigThresholdParams_MultisigAddress x),
       fd_MsgSetMultisigThresholdParams_multisig_address, ValueOfString
       (MsgSetMultisigThresholdParams_MultisigAddress x));
    (has_int (MsgSetMultisigThresholdParams_Threshold x),
       fd_MsgSetMultisigThresholdParams_threshold, ValueOfUint32
       (MsgSetMultisigThresholdParams_Threshold x))].
Definition MsgSetMultisigThresholdParams_Has (x : option MsgSetMultisigThresholdParams)
    (fd : FieldDescriptor) : outcome bool :=
  x ← or_panic x;
  field_switch fd [
    ("multisig.v1.MsgSetMultisigThresholdParams.multisig_address"%string,
      Ok (has_string (MsgSetMultisigThresholdParams_MultisigAddress x)));
    ("multisig.v1.MsgSetMultisigThresholdParams.threshold"%string,
      Ok (has_int (MsgSetMultisigThresholdParams_Threshold x)))].
Definition MsgSetMultisigThresholdParams_Clear (x : option MsgSetMultisigThresholdParams)
    (fd : FieldDescriptor) : outcome MsgSetMultisigThresholdParams :=
  x ← or_panic x;
  field_switch fd [
    ("multisig.v1.MsgSetMultisigThresholdParams.multisig_address"%string,
      Ok (MsgSetMultisigThresholdParams_with_MultisigAddress x ""%string));
    ("multisig.v1.MsgSetMultisigThresholdParams.threshold"%string,
      Ok (MsgSetMultisigThresholdParams_with_Threshold x 0))].
Definition MsgSetMultisigThresholdParams_Get (x : option MsgSetMultisigThresholdParams)
    (fd : FieldDescriptor) : outcome Value :=
  x ← or_panic x;
  field_switch fd [
    ("multisig.v1.MsgSetMultisigThresholdParams.multisig_address"%string,
      Ok (ValueOfString (MsgSetMultisigThresholdParams_MultisigAddress x)));
    ("multisig.v1.MsgSetMultisigThresholdParams.threshold"%string,
      Ok (ValueOfUint32 (MsgSetMultisigThresholdParams_Threshold x)))].
Definition MsgSetMultisigThresholdParams_Set (x : option MsgSetMultisigThresholdParams)
    (fd : FieldDescriptor) (value : Value) : outcome MsgSetMultisigThresholdParams :=
  x ← or_panic x;
  field_switch fd [
    ("multisig.v1.MsgSetMultisigThresholdParams.multisig_address"%string,
      set_string (MsgSetMultisigThresholdParams_with_MultisigAddress x) value);
    ("multisig.v1.MsgSetMultisigThresholdParams.threshold"%string,
      set_uint32 (MsgSetMultisigThresholdParams_with_Threshold x) value)].
Definition MsgSetMultisigThresholdParams_Mutable (x : option MsgSetMultisigThresholdParams)
    (fd : FieldDescriptor) : outcome (Value * MsgSetMultisigThresholdParams) :=
  x ← or_panic x;
  field_switch fd [
    ("multisig.v1.MsgSetMultisigThresholdParams.multisig_address"%string, Panic);
    ("multisig.v1.MsgSetMultisigThresholdParams.threshold"%string, Panic)].
Definition MsgSetMultisigThresholdParams_NewField (fd : FieldDescriptor) : outcome Value :=
  field_switch fd [
    ("multisig.v1.MsgSetMultisigThresholdParams.multisig_address"%string,
      Ok (ValueOfString ""%string));
    ("multisig.v1.MsgSetMultisigThresholdParams.threshold"%string, Ok (ValueOfUint32 0))].
Definition MsgSetMultisigThresholdParams_set_unknown (x : MsgSetMultisigThresholdParams) (fields : bytes) : MsgSetMultisigThresholdParams :=
  mkMsgSetMultisigThresholdParams (MsgSetMultisigThresholdParams_MultisigAddress x)
    (MsgSetMultisigThresholdParams_Threshold x) fields.
#[export] Instance MsgSetMultisigThresholdParams_reflect : MessageReflect MsgSetMultisigThresholdParams := {|
  Range S := MsgSetMultisigThresholdParams_Range;
  Has := MsgSetMultisigThresholdParams_Has;
  Clear := MsgSetMultisigThresholdParams_Clear;
  Get := MsgSetMultisigThresholdParams_Get;
  Set_ := MsgSetMultisigThresholdParams_Set;
  Mutable := MsgSetMultisigThresholdParams_Mutable;
  NewField := MsgSetMultisigThresholdParams_NewField;
  Descriptor := MsgSetMultisigThresholdParams_descriptor;
  GetUnknown x := x ← or_panic x; Ok (MsgSetMultisigThresholdParams_unknownFields x);
  SetUnknown x fields := x ← or_panic x; Ok (MsgSetMultisigThresholdParams_set_unknown x fields);
|}.

(** [MsgSetMultisigThresholdResponse] *)

Definition MsgSetMultisigThresholdResponse_descriptor : list FieldDescriptor := [].
Definition MsgSetMultisigThresholdResponse_Range {S} (x : option MsgSetMultisigThresholdResponse)
    (f : FieldDescriptor → Value → M S bool) : M S () :=
  mret ().
Definition MsgSetMultisigThresholdResponse_Has (x : option MsgSetMultisigThresholdResponse)
    (fd : FieldDescriptor) : outcome bool :=
  field_switch fd [].
Definition MsgSetMultisigThresholdResponse_Clear (x : option MsgSetMultisigThresholdResponse)
    (fd : FieldDescriptor) : outcome MsgSetMultisigThresholdResponse :=
  field_switch fd [].
Definition MsgSetMultisigThresholdResponse_Get (x : option MsgSetMultisigThresholdResponse)
    (fd : FieldDescriptor) : outcome Value :=
  field_switch fd [].
Definition MsgSetMultisigThresholdResponse_Set (x : option MsgSetMultisigThresholdResponse)
    (fd : FieldDescriptor) (value : Value) : outcome MsgSetMultisigThresholdResponse :=
  field_switch fd [].
Definition MsgSetMultisigThresholdResponse_Mutable (x : option MsgSetMultisigThresholdResponse)
    (fd : FieldDescriptor) : outcome (Value * MsgSetMultisigThresholdResponse) :=
  field_switch fd [].
Definition MsgSetMultisigThresholdResponse_NewField (fd : FieldDescriptor) : outcome Value :=
  field_switch fd [].
Definition MsgSetMultisigThresholdResponse_set_unknown (x : MsgSetMultisigThresholdResponse) (fields : bytes) : MsgSetMultisigThresholdResponse :=
  mkMsgSetMultisigThresholdResponse fields.
#[export] Instance MsgSetMultisigThresholdResponse_reflect : MessageReflect MsgSetMultisigThresholdResponse := {|
  Range S := MsgSetMultisigThresholdResponse_Range;
  Has := MsgSetMultisigThresholdResponse_Has;
  Clear := MsgSetMultisigThresholdResponse_Clear;
  Get := MsgSetMultisigThresholdResponse_Get;
  Set_ := MsgSetMultisigThresholdResponse_Set;
  Mutable := MsgSetMultisigThresholdResponse_Mutable;
  NewField := MsgSetMultisigThresholdResponse_NewField;
  Descriptor := MsgSetMultisigThresholdResponse_descriptor;
  GetUnknown x := x ← or_panic x; Ok (MsgSetMultisigThresholdResponse_unknownFields x);
  SetUnknown x fields := x ← or_panic x; Ok (MsgSetMultisigThresholdResponse_set_unknown x fields);
|}.

(** [MsgInitializeMultisigProposalParams] *)

Definition fd_MsgInitializeMultisigProposalParams_multisig_address : FieldDescriptor :=
  mkField "multisig.v1.MsgInitializeMultisigProposalParams.multisig_address" 1 StringKind false.
Definition fd_MsgInitializeMultisigProposalParams_proposer : FieldDescriptor :=
  mkField "multisig.v1.MsgInitializeMultisigProposalParams.proposer" 2 StringKind false.
Definition fd_MsgInitializeMultisigProposalParams_title : FieldDescriptor :=
  mkField "multisig.v1.MsgInitializeMultisigProposalParams.title" 3 StringKind false.
Definition fd_MsgInitializeMultisigProposalParams_description : FieldDescriptor :=
  mkField "multisig.v1.MsgInitializeMultisigProposalParams.description" 4 StringKind false.
Definition fd_MsgInitializeMultisigProposalParams_message : FieldDescriptor :=
  mkField "multisig.v1.MsgInitializeMultisigProposalParams.message" 5 MessageKind false.
Definition MsgInitializeMultisigProposalParams_descriptor : list FieldDescriptor := [
  fd_MsgInitializeMultisigProposalParams_multisig_address;
  fd_MsgInitializeMultisigProposalParams_proposer; fd_MsgInitializeMultisigProposalParams_title;
  fd_MsgInitializeMultisigProposalParams_description;
  fd_MsgInitializeMultisigProposalParams_message].
Definition MsgInitializeMultisigProposalParams_with_MultisigAddress
    (x : MsgInitializeMultisigProposalParams) (v : string) : MsgInitializeMultisigProposalParams :=
  mkMsgInitializeMultisigProposalParams v (MsgInitializeMultisigProposalParams_Proposer x)
    (MsgInitializeMultisigProposalParams_Title x) (MsgInitializeMultisigProposalParams_Description
    x) (MsgInitializeMultisigProposalParams_Message x)
    (MsgInitializeMultisigProposalParams_unknownFields x).
Definition MsgInitializeMultisigProposalParams_with_Proposer
    (x : MsgInitializeMultisigProposalParams) (v : string) : MsgInitializeMultisigProposalParams :=
  mkMsgInitializeMultisigProposalParams (MsgInitializeMultisigProposalParams_MultisigAddress x) v
    (MsgInitializeMultisigProposalParams_Title x) (MsgInitializeMultisigProposalParams_Description
    x) (MsgInitializeMultisigProposalParams_Message x)
    (MsgInitializeMultisigProposalParams_unknownFields x).
Definition MsgInitializeMultisigProposalParams_with_Title (x : MsgInitializeMultisigProposalParams)
    (v : string) : MsgInitializeMultisigProposalParams :=
  mkMsgInitializeMultisigProposalParams (MsgInitializeMultisigProposalParams_MultisigAddress x)
    (MsgInitializeMultisigProposalParams_Proposer x) v
    (MsgInitializeMultisigProposalParams_Description x)
    (MsgInitializeMultisigProposalParams_Message x)
    (MsgInitializeMultisigProposalParams_unknownFields x).
Definition MsgInitializeMultisigProposalParams_with_Description
    (x : MsgInitializeMultisigProposalParams) (v : string) : MsgInitializeMultisigProposalParams :=
  mkMsgInitializeMultisigProposalParams (MsgInitializeMultisigProposalParams_MultisigAddress x)
    (MsgInitializeMultisigProposalParams_Proposer x) (MsgInitializeMultisigProposalParams_Title x)
    v (MsgInitializeMultisigProposalParams_Message x)
    (MsgInitializeMultisigProposalParams_unknownFields x).
Definition MsgInitializeMultisigProposalParams_with_Message
    (x : MsgInitializeMultisigProposalParams) (v : option anypb_Any) :
    MsgInitializeMultisigProposalParams :=
  mkMsgInitializeMultisigProposalParams (MsgInitializeMultisigProposalParams_MultisigAddress x)
    (MsgInitializeMultisigProposalParams_Proposer x) (MsgInitializeMultisigProposalParams_Title x)
    (MsgInitializeMultisigProposalParams_Description x) v
    (MsgInitializeMultisigProposalParams_unknownFields x).
Definition MsgInitializeMultisigProposalParams_GetMultisigAddress : option
    MsgInitializeMultisigProposalParams → string :=
  getter ""%string MsgInitializeMultisigProposalParams_MultisigAddress.
Definition MsgInitializeMultisigProposalParams_GetProposer : option
    MsgInitializeMultisigProposalParams → string :=
  getter ""%string MsgInitializeMultisigProposalParams_Proposer.
Definition MsgInitializeMultisigProposalParams_GetTitle : option
    MsgInitializeMultisigProposalParams → string :=
  getter ""%string MsgInitializeMultisigProposalParams_Title.
Definition MsgInitializeMultisigProposalParams_GetDescription : option
    MsgInitializeMultisigProposalParams → string :=
  getter ""%string MsgInitializeMultisigProposalParams_Description.
Definition MsgInitializeMultisigProposalParams_GetMessage : option
    MsgInitializeMultisigProposalParams → option anypb_Any :=
  getter None MsgInitializeMultisigProposalParams_Message.
Definition MsgInitializeMultisigProposalParams_Range {S}
    (x : option MsgInitializeMultisigProposalParams) (f : FieldDescriptor → Value → M S bool) : M S
    () :=
  x ← lift (or_panic x);
  range_fields f [
    (has_string (MsgInitializeMultisigProposalParams_MultisigAddress x),
       fd_MsgInitializeMultisigProposalParams_multisig_address, ValueOfString
       (MsgInitializeMultisigProposalParams_MultisigAddress x));
    (has_string (MsgInitializeMultisigProposalParams_Proposer x),
       fd_MsgInitializeMultisigProposalParams_proposer, ValueOfString
       (MsgInitializeMultisigProposalParams_Proposer x));
    (has_string (MsgInitializeMultisigProposalParams_Title x),
       fd_MsgInitializeMultisigProposalParams_title, ValueOfString
       (MsgInitializeMultisigProposalParams_Title x));
    (has_string (MsgInitializeMultisigProposalParams_Description x),
       fd_MsgInitializeMultisigProposalParams_description, ValueOfString
       (MsgInitializeMultisigProposalParams_Description x));
    (has_message (MsgInitializeMultisigProposalParams_Message x),
       fd_MsgInitializeMultisigProposalParams_message, ValueOfMessage
       (MsgInitializeMultisigProposalParams_Message x))].
Definition MsgInitializeMultisigProposalParams_Has (x : option MsgInitializeMultisigProposalParams)
    (fd : FieldDescriptor) : outcome bool :=
  x ← or_panic x;
  field_switch fd [
    ("multisig.v1.MsgInitializeMultisigProposalParams.multisig_address"%string,
      Ok (has_string (MsgInitializeMultisigProposalParams_MultisigAddress x)));
    ("multisig.v1.MsgInitializeMultisigProposalParams.proposer"%string,
      Ok (has_string (MsgInitializeMultisigProposalParams_Proposer x)));
    ("multisig.v1.MsgInitializeMultisigProposalParams.title"%string,
      Ok (has_string (MsgInitializeMultisigProposalParams_Title x)));
    ("multisig.v1.MsgInitializeMultisigProposalParams.description"%string,
      Ok (has_string (MsgInitializeMultisigProposalParams_Description x)));
    ("multisig.v1.MsgInitializeMultisigProposalParams.message"%string,
      Ok (has_message (MsgInitializeMultisigProposalParams_Message x)))].
Definition MsgInitializeMultisigProposalParams_Clear
    (x : option MsgInitializeMultisigProposalParams) (fd : FieldDescriptor) : outcome
    MsgInitializeMultisigProposalParams :=
  x ← or_panic x;
  field_switch fd [
    ("multisig.v1.MsgInitializeMultisigProposalParams.multisig_address"%string,
      Ok (MsgInitializeMultisigProposalParams_with_MultisigAddress x ""%string));
    ("multisig.v1.MsgInitializeMultisigProposalParams.proposer"%string,
      Ok (MsgInitializeMultisigProposalParams_with_Proposer x ""%string));
    ("multisig.v1.MsgInitializeMultisigProposalParams.title"%string,
      Ok (MsgInitializeMultisigProposalParams_with_Title x ""%string));
    ("multisig.v1.MsgInitializeMultisigProposalParams.description"%string,
      Ok (MsgInitializeMultisigProposalParams_with_Description x ""%string));
    ("multisig.v1.MsgInitializeMultisigProposalParams.message"%string,
      Ok (MsgInitializeMultisigProposalParams_with_Message x None))].
Definition MsgInitializeMultisigProposalParams_Get (x : option MsgInitializeMultisigProposalParams)
    (fd : FieldDescriptor) : outcome Value :=
  x ← or_panic x;
  field_switch fd [
    ("multisig.v1.MsgInitializeMultisigProposalParams.multisig_address"%string,
      Ok (ValueOfString (MsgInitializeMultisigProposalParams_MultisigAddress x)));
    ("multisig.v1.MsgInitializeMultisigProposalParams.proposer"%string,
      Ok (ValueOfString (MsgInitializeMultisigProposalParams_Proposer x)));
    ("multisig.v1.MsgInitializeMultisigProposalParams.title"%string,
      Ok (ValueOfString (MsgInitializeMultisigProposalParams_Title x)));
    ("multisig.v1.MsgInitializeMultisigProposalParams.description"%string,
      Ok (ValueOfString (MsgInitializeMultisigProposalParams_Description x)));
    ("multisig.v1.MsgInitializeMultisigProposalParams.message"%string,
      Ok (ValueOfMessage (MsgInitializeMultisigProposalParams_Message x)))].
Definition MsgInitializeMultisigProposalParams_Set (x : option MsgInitializeMultisigProposalParams)
    (fd : FieldDescriptor) (value : Value) : outcome MsgInitializeMultisigProposalParams :=
  x ← or_panic x;
  field_switch fd [
    ("multisig.v1.MsgInitializeMultisigProposalParams.multisig_address"%string,
      set_string (MsgInitializeMultisigProposalParams_with_MultisigAddress x) value);
    ("multisig.v1.MsgInitializeMultisigProposalParams.proposer"%string,
      set_string (MsgInitializeMultisigProposalParams_with_Proposer x) value);
    ("multisig.v1.MsgInitializeMultisigProposalParams.title"%string,
      set_string (MsgInitializeMultisigProposalParams_with_Title x) value);
    ("multisig.v1.MsgInitializeMultisigProposalParams.description"%string,
      set_string (MsgInitializeMultisigProposalParams_with_Description x) value);
    ("multisig.v1.MsgInitializeMultisigProposalParams.message"%string,
      set_message (MsgInitializeMultisigProposalParams_with_Message x) value)].
Definition MsgInitializeMultisigProposalParams_Mutable
    (x : option MsgInitializeMultisigProposalParams) (fd : FieldDescriptor) : outcome
    (Value * MsgInitializeMultisigProposalParams) :=
  x ← or_panic x;
  field_switch fd [
    ("multisig.v1.MsgInitializeMultisigProposalParams.message"%string,
      mutable_message (MsgInitializeMultisigProposalParams_with_Message x)
        (MsgInitializeMultisigProposalParams_Message x));
    ("multisig.v1.MsgInitializeMultisigProposalParams.multisig_address"%string, Panic);
    ("multisig.v1.MsgInitializeMultisigProposalParams.proposer"%string, Panic);
    ("multisig.v1.MsgInitializeMultisigProposalParams.title"%string, Panic);
    ("multisig.v1.MsgInitializeMultisigProposalParams.description"%string, Panic)].
Definition MsgInitializeMultisigProposalParams_NewField (fd : FieldDescriptor) : outcome Value :=
  field_switch fd [
    ("multisig.v1.MsgInitializeMultisigProposalParams.multisig_address"%string,
      Ok (ValueOfString ""%string));
    ("multisig.v1.MsgInitializeMultisigProposalParams.proposer"%string,
      Ok (ValueOfString ""%string));
    ("multisig.v1.MsgInitializeMultisigProposalParams.title"%string, Ok (ValueOfString ""%string));
    ("multisig.v1.MsgInitializeMultisigProposalParams.description"%string,
      Ok (ValueOfString ""%string));
    ("multisig.v1.MsgInitializeMultisigProposalParams.message"%string,
      new_message (A := anypb_Any))].
Definition MsgInitializeMultisigProposalParams_set_unknown (x : MsgInitializeMultisigProposalParams) (fields : bytes) : MsgInitializeMultisigProposalParams :=
  mkMsgInitializeMultisigProposalParams (MsgInitializeMultisigProposalParams_MultisigAddress x)
    (MsgInitializeMultisigProposalParams_Proposer x) (MsgInitializeMultisigProposalParams_Title x)
    (MsgInitializeMultisigProposalParams_Description x)
    (MsgInitializeMultisigProposalParams_Message x) fields.
#[export] Instance MsgInitializeMultisigProposalParams_reflect : MessageReflect MsgInitializeMultisigProposalParams := {|
  Range S := MsgInitializeMultisigProposalParams_Range;
  Has := MsgInitializeMultisigProposalParams_Has;
  Clear := MsgInitializeMultisigProposalParams_Clear;
  Get := MsgInitializeMultisigProposalParams_Get;
  Set_ := MsgInitializeMultisigProposalParams_Set;
  Mutable := MsgInitializeMultisigProposalParams_Mutable;
  NewField := MsgInitializeMultisigProposalParams_NewField;
  Descriptor := MsgInitializeMultisigProposalParams_descriptor;
  GetUnknown x := x ← or_panic x; Ok (MsgInitializeMultisigProposalParams_unknownFields x);
  SetUnknown x fields := x ← or_panic x; Ok (MsgInitializeMultisigProposalParams_set_unknown x fields);
|}.

(** [MsgInitializeMultisigResponse] *)

Definition fd_MsgInitializeMultisigResponse_proposal_id : FieldDescriptor :=
  mkField "multisig.v1.MsgInitializeMultisigResponse.proposal_id" 1 Uint64Kind false.
Definition MsgInitializeMultisigResponse_descriptor : list FieldDescriptor := [
  fd_MsgInitializeMultisigResponse_proposal_id].
Definition MsgInitializeMultisigResponse_with_ProposalId (x : MsgInitializeMultisigResponse)
    (v : Z) : MsgInitializeMultisigResponse :=
  mkMsgInitializeMultisigResponse v (MsgInitializeMultisigResponse_unknownFields x).
Definition MsgInitializeMultisigResponse_GetProposalId : option MsgInitializeMultisigResponse → Z
    :=
  getter 0 MsgInitializeMultisigResponse_ProposalId.
Definition MsgInitializeMultisigResponse_Range {S} (x : option MsgInitializeMultisigResponse)
    (f : FieldDescriptor → Value → M S bool) : M S () :=
  x ← lift (or_panic x);
  range_fields f [
    (has_int (MsgInitializeMultisigResponse_ProposalId x),
       fd_MsgInitializeMultisigResponse_proposal_id, ValueOfUint64
       (MsgInitializeMultisigResponse_ProposalId x))].
Definition MsgInitializeMultisigResponse_Has (x : option MsgInitializeMultisigResponse)
    (fd : FieldDescriptor) : outcome bool :=
  x ← or_panic x;
  field_switch fd [
    ("multisig.v1.MsgInitializeMultisigResponse.proposal_id"%string,
      Ok (has_int (MsgInitializeMultisigResponse_ProposalId x)))].
Definition MsgInitializeMultisigResponse_Clear (x : option MsgInitializeMultisigResponse)
    (fd : FieldDescriptor) : outcome MsgInitializeMultisigResponse :=
  x ← or_panic x;
  field_switch fd [
    ("multisig.v1.MsgInitializeMultisigResponse.proposal_id"%string,
      Ok (MsgInitializeMultisigResponse_with_ProposalId x 0))].
Definition MsgInitializeMultisigResponse_Get (x : option MsgInitializeMultisigResponse)
    (fd : FieldDescriptor) : outcome Value :=
  x ← or_panic x;
  field_switch fd [
    ("multisig.v1.MsgInitializeMultisigResponse.proposal_id"%string,
      Ok (ValueOfUint64 (MsgInitializeMultisigResponse_ProposalId x)))].
Definition MsgInitializeMultisigResponse_Set (x : option MsgInitializeMultisigResponse)
    (fd : FieldDescriptor) (value : Value) : outcome MsgInitializeMultisigResponse :=
  x ← or_panic x;
  field_switch fd [
    ("multisig.v1.MsgInitializeMultisigResponse.proposal_id"%string,
      set_uint64 (MsgInitializeMultisigResponse_with_ProposalId x) value)].
Definition MsgInitializeMultisigResponse_Mutable (x : option MsgInitializeMultisigResponse)
    (fd : FieldDescriptor) : outcome (Value * MsgInitializeMultisigResponse) :=
  x ← or_panic x;
  field_switch fd [
    ("multisig.v1.MsgInitializeMultisigResponse.proposal_id"%string, Panic)].
Definition MsgInitializeMultisigResponse_NewField (fd : FieldDescriptor) : outcome Value :=
  field_switch fd [
    ("multisig.v1.MsgInitializeMultisigResponse.proposal_id"%string, Ok (ValueOfUint64 0))].
Definition MsgInitializeMultisigResponse_set_unknown (x : MsgInitializeMultisigResponse) (fields : bytes) : MsgInitializeMultisigResponse :=
  mkMsgInitializeMultisigResponse (MsgInitializeMultisigResponse_ProposalId x) fields.
#[export] Instance MsgInitializeMultisigResponse_reflect : MessageReflect MsgInitializeMultisigResponse := {|
  Range S := MsgInitializeMultisigResponse_Range;
  Has := MsgInitializeMultisigResponse_Has;
  Clear := MsgInitializeMultisigResponse_Clear;
  Get := MsgInitializeMultisigResponse_Get;
  Set_ := MsgInitializeMultisigResponse_Set;
  Mutable := MsgInitializeMultisigResponse_Mutable;
  NewField := MsgInitializeMultisigResponse_NewField;
  Descriptor := MsgInitializeMultisigResponse_descriptor;
  GetUnknown x := x ← or_panic x; Ok (MsgInitializeMultisigResponse_unknownFields x);
  SetUnknown x fields := x ← or_panic x; Ok (MsgInitializeMultisigResponse_set_unknown x fields);
|}.

(** [MsgApproveMultisigProposalParams] *)

Definition fd_MsgApproveMultisigProposalParams_multisig_address : FieldDescriptor :=
  mkField "multisig.v1.MsgApproveMultisigProposalParams.multisig_address" 1 StringKind false.
Definition fd_MsgApproveMultisigProposalParams_proposal_id : FieldDescriptor :=
  mkField "multisig.v1.MsgApproveMultisigProposalParams.proposal_id" 2 Uint64Kind false.
Definition fd_MsgApproveMultisigProposalParams_approver : FieldDescriptor :=
  mkField "multisig.v1.MsgApproveMultisigProposalParams.approver" 3 StringKind false.
Definition MsgApproveMultisigProposalParams_descriptor : list FieldDescriptor := [
  fd_MsgApproveMultisigProposalParams_multisig_address;
  fd_MsgApproveMultisigProposalParams_proposal_id; fd_MsgApproveMultisigProposalParams_approver].
Definition MsgApproveMultisigProposalParams_with_MultisigAddress
    (x : MsgApproveMultisigProposalParams) (v : string) : MsgApproveMultisigProposalParams :=
  mkMsgApproveMultisigProposalParams v (MsgApproveMultisigProposalParams_ProposalId x)
    (MsgApproveMultisigProposalParams_Approver x) (MsgApproveMultisigProposalParams_unknownFields
    x).
Definition MsgApproveMultisigProposalParams_with_ProposalId (x : MsgApproveMultisigProposalParams)
    (v : Z) : MsgApproveMultisigProposalParams :=
  mkMsgApproveMultisigProposalParams (MsgApproveMultisigProposalParams_MultisigAddress x) v
    (MsgApproveMultisigProposalParams_Approver x) (MsgApproveMultisigProposalParams_unknownFields
    x).
Definition MsgApproveMultisigProposalParams_with_Approver (x : MsgApproveMultisigProposalParams)
    (v : string) : MsgApproveMultisigProposalParams :=
  mkMsgApproveMultisigProposalParams (MsgApproveMultisigProposalParams_MultisigAddress x)
    (MsgApproveMultisigProposalParams_ProposalId x) v
    (MsgApproveMultisigProposalParams_unknownFields x).
Definition MsgApproveMultisigProposalParams_GetMultisigAddress : option
    MsgApproveMultisigProposalParams → string :=
  getter ""%string MsgApproveMultisigProposalParams_MultisigAddress.
Definition MsgApproveMultisigProposalParams_GetProposalId : option MsgApproveMultisigProposalParams
    → Z :=
  getter 0 MsgApproveMultisigProposalParams_ProposalId.
Definition MsgApproveMultisigProposalParams_GetApprover : option MsgApproveMultisigProposalParams →
    string :=
  getter ""%string MsgApproveMultisigProposalParams_Approver.
Definition MsgApproveMultisigProposalParams_Range {S} (x : option MsgApproveMultisigProposalParams)
    (f : FieldDescriptor → Value → M S bool) : M S () :=
  x ← lift (or_panic x);
  range_fields f [
    (has_string (MsgApproveMultisigProposalParams_MultisigAddress x),
       fd_MsgApproveMultisigProposalParams_multisig_address, ValueOfString
       (MsgApproveMultisigProposalParams_MultisigAddress x));
    (has_int (MsgApproveMultisigProposalParams_ProposalId x),
       fd_MsgApproveMultisigProposalParams_proposal_id, ValueOfUint64
       (MsgApproveMultisigProposalParams_ProposalId x));
    (has_string (MsgApproveMultisigProposalParams_Approver x),
       fd_MsgApproveMultisigProposalParams_approver, ValueOfString
       (MsgApproveMultisigProposalParams_Approver x))].
Definition MsgApproveMultisigProposalParams_Has (x : option MsgApproveMultisigProposalParams)
    (fd : FieldDescriptor) : outcome bool :=
  x ← or_panic x;
  field_switch fd [
    ("multisig.v1.MsgApproveMultisigProposalParams.multisig_address"%string,
      Ok (has_string (MsgApproveMultisigProposalParams_MultisigAddress x)));
    ("multisig.v1.MsgApproveMultisigProposalParams.proposal_id"%string,
      Ok (has_int (MsgApproveMultisigProposalParams_ProposalId x)));
    ("multisig.v1.MsgApproveMultisigProposalParams.approver"%string,
      Ok (has_string (MsgApproveMultisigProposalParams_Approver x)))].
Definition MsgApproveMultisigProposalParams_Clear (x : option MsgApproveMultisigProposalParams)
    (fd : FieldDescriptor) : outcome MsgApproveMultisigProposalParams :=
  x ← or_panic x;
  field_switch fd [
    ("multisig.v1.MsgApproveMultisigProposalParams.multisig_address"%string,
      Ok (MsgApproveMultisigProposalParams_with_MultisigAddress x ""%string));
    ("multisig.v1.MsgApproveMultisigProposalParams.proposal_id"%string,
      Ok (MsgApproveMultisigProposalParams_with_ProposalId x 0));
    ("multisig.v1.MsgApproveMultisigProposalParams.approver"%string,
      Ok (MsgApproveMultisigProposalParams_with_Approver x ""%string))].
Definition MsgApproveMultisigProposalParams_Get (x : option MsgApproveMultisigProposalParams)
    (fd : FieldDescriptor) : outcome Value :=
  x ← or_panic x;
  field_switch fd [
    ("multisig.v1.MsgApproveMultisigProposalParams.multisig_address"%string,
      Ok (ValueOfString (MsgApproveMultisigProposalParams_MultisigAddress x)));
    ("multisig.v1.MsgApproveMultisigProposalParams.proposal_id"%string,
      Ok (ValueOfUint64 (MsgApproveMultisigProposalParams_ProposalId x)));
    ("multisig.v1.MsgApproveMultisigProposalParams.approver"%string,
      Ok (ValueOfString (MsgApproveMultisigProposalParams_Approver x)))].
Definition MsgApproveMultisigProposalParams_Set (x : option MsgApproveMultisigProposalParams)
    (fd : FieldDescriptor) (value : Value) : outcome MsgApproveMultisigProposalParams :=
  x ← or_panic x;
  field_switch fd [
    ("multisig.v1.MsgApproveMultisigProposalParams.multisig_address"%string,
      set_string (MsgApproveMultisigProposalParams_with_MultisigAddress x) value);
    ("multisig.v1.MsgApproveMultisigProposalParams.proposal_id"%string,
      set_uint64 (MsgApproveMultisigProposalParams_with_ProposalId x) value);
    ("multisig.v1.MsgApproveMultisigProposalParams.approver"%string,
      set_string (MsgApproveMultisigProposalParams_with_Approver x) value)].
Definition MsgApproveMultisigProposalParams_Mutable (x : option MsgApproveMultisigProposalParams)
    (fd : FieldDescriptor) : outcome (Value * MsgApproveMultisigProposalParams) :=
  x ← or_panic x;
  field_switch fd [
    ("multisig.v1.MsgApproveMultisigProposalParams.multisig_address"%string, Panic);
    ("multisig.v1.MsgApproveMultisigProposalParams.proposal_id"%string, Panic);
    ("multisig.v1.MsgApproveMultisigProposalParams.approver"%string, Panic)].
Definition MsgApproveMultisigProposalParams_NewField (fd : FieldDescriptor) : outcome Value :=
  field_switch fd [
    ("multisig.v1.MsgApproveMultisigProposalParams.multisig_address"%string,
      Ok (ValueOfString ""%string));
    ("multisig.v1.MsgApproveMultisigProposalParams.proposal_id"%string, Ok (ValueOfUint64 0));
    ("multisig.v1.MsgApproveMultisigProposalParams.approver"%string, Ok (ValueOfString ""%string))].
Definition MsgApproveMultisigProposalParams_set_unknown (x : MsgApproveMultisigProposalParams) (fields : bytes) : MsgApproveMultisigProposalParams :=
  mkMsgApproveMultisigProposalParams (MsgApproveMultisigProposalParams_MultisigAddress x)
    (MsgApproveMultisigProposalParams_ProposalId x) (MsgApproveMultisigProposalParams_Approver x)
    fields.
#[export] Instance MsgApproveMultisigProposalParams_reflect : MessageReflect MsgApproveMultisigProposalParams := {|
  Range S := MsgApproveMultisigProposalParams_Range;
  Has := MsgApproveMultisigProposalParams_Has;
  Clear := MsgApproveMultisigProposalParams_Clear;
  Get := MsgApproveMultisigProposalParams_Get;
  Set_ := MsgApproveMultisigProposalParams_Set;
  Mutable := MsgApproveMultisigProposalParams_Mutable;
  NewField := MsgApproveMultisigProposalParams_NewField;
  Descriptor := MsgApproveMultisigProposalParams_descriptor;
  GetUnknown x := x ← or_panic x; Ok (MsgApproveMultisigProposalParams_unknownFields x);
  SetUnknown x fields := x ← or_panic x; Ok (MsgApproveMultisigProposalParams_set_unknown x fields);
|}.

(** [MsgApproveMultisigProposalResponse] *)

Definition MsgApproveMultisigProposalResponse_descriptor : list FieldDescriptor := [].
Definition MsgApproveMultisigProposalResponse_Range {S}
    (x : option MsgApproveMultisigProposalResponse) (f : FieldDescriptor → Value → M S bool) : M S
    () :=
  mret ().
Definition MsgApproveMultisigProposalResponse_Has (x : option MsgApproveMultisigProposalResponse)
    (fd : FieldDescriptor) : outcome bool :=
  field_switch fd [].
Definition MsgApproveMultisigProposalResponse_Clear (x : option MsgApproveMultisigProposalResponse)
    (fd : FieldDescriptor) : outcome MsgApproveMultisigProposalResponse :=
  field_switch fd [].
Definition MsgApproveMultisigProposalResponse_Get (x : option MsgApproveMultisigProposalResponse)
    (fd : FieldDescriptor) : outcome Value :=
  field_switch fd [].
Definition MsgApproveMultisigProposalResponse_Set (x : option MsgApproveMultisigProposalResponse)
    (fd : FieldDescriptor) (value : Value) : outcome MsgApproveMultisigProposalResponse :=
  field_switch fd [].
Definition MsgApproveMultisigProposalResponse_Mutable
    (x : option MsgApproveMultisigProposalResponse) (fd : FieldDescriptor) : outcome
    (Value * MsgApproveMultisigProposalResponse) :=
  field_switch fd [].
Definition MsgApproveMultisigProposalResponse_NewField (fd : FieldDescriptor) : outcome Value :=
  field_switch fd [].
Definition MsgApproveMultisigProposalResponse_set_unknown (x : MsgApproveMultisigProposalResponse) (fields : bytes) : MsgApproveMultisigProposalResponse :=
  mkMsgApproveMultisigProposalResponse fields.
#[export] Instance MsgApproveMultisigProposalResponse_reflect : MessageReflect MsgApproveMultisigProposalResponse := {|
  Range S := MsgApproveMultisigProposalResponse_Range;
  Has := MsgApproveMultisigProposalResponse_Has;
  Clear := MsgApproveMultisigProposalResponse_Clear;
  Get := MsgApproveMultisigProposalResponse_Get;
  Set_ := MsgApproveMultisigProposalResponse_Set;
  Mutable := MsgApproveMultisigProposalResponse_Mutable;
  NewField := MsgApproveMultisigProposalResponse_NewField;
  Descriptor := MsgApproveMultisigProposalResponse_descriptor;
  GetUnknown x := x ← or_panic x; Ok (MsgApproveMultisigProposalResponse_unknownFields x);
  SetUnknown x fields := x ← or_panic x; Ok (MsgApproveMultisigProposalResponse_set_unknown x fields);
|}.

(** [MsgApproveAndDispatchMultisigProposalParams] *)

Definition fd_MsgApproveAndDispatchMultisigProposalParams_multisig_address : FieldDescriptor :=
  mkField "multisig.v1.MsgApproveAndDispatchMultisigProposalParams.multisig_address" 1 StringKind false.
Definition fd_MsgApproveAndDispatchMultisigProposalParams_proposal_id : FieldDescriptor :=
  mkField "multisig.v1.MsgApproveAndDispatchMultisigProposalParams.proposal_id" 2 Uint64Kind false.
Definition fd_MsgApproveAndDispatchMultisigProposalParams_approver : FieldDescriptor :=
  mkField "multisig.v1.MsgApproveAndDispatchMultisigProposalParams.approver" 3 StringKind false.
Definition fd_MsgApproveAndDispatchMultisigProposalParams_message : FieldDescriptor :=
  mkField "multisig.v1.MsgApproveAndDispatchMultisigProposalParams.message" 5 MessageKind false.
Definition MsgApproveAndDispatchMultisigProposalParams_descriptor : list FieldDescriptor := [
  fd_MsgApproveAndDispatchMultisigProposalParams_multisig_address;
  fd_MsgApproveAndDispatchMultisigProposalParams_proposal_id;
  fd_MsgApproveAndDispatchMultisigProposalParams_approver;
  fd_MsgApproveAndDispatchMultisigProposalParams_message].
Definition MsgApproveAndDispatchMultisigProposalParams_with_MultisigAddress
    (x : MsgApproveAndDispatchMultisigProposalParams) (v : string) :
    MsgApproveAndDispatchMultisigProposalParams :=
  mkMsgApproveAndDispatchMultisigProposalParams v
    (MsgApproveAndDispatchMultisigProposalParams_ProposalId x)
    (MsgApproveAndDispatchMultisigProposalParams_Approver x)
    (MsgApproveAndDispatchMultisigProposalParams_Message x)
    (MsgApproveAndDispatchMultisigProposalParams_unknownFields x).
Definition MsgApproveAndDispatchMultisigProposalParams_with_ProposalId
    (x : MsgApproveAndDispatchMultisigProposalParams) (v : Z) :
    MsgApproveAndDispatchMultisigProposalParams :=
  mkMsgApproveAndDispatchMultisigProposalParams
    (MsgApproveAndDispatchMultisigProposalParams_MultisigAddress x) v
    (MsgApproveAndDispatchMultisigProposalParams_Approver x)
    (MsgApproveAndDispatchMultisigProposalParams_Message x)
    (MsgApproveAndDispatchMultisigProposalParams_unknownFields x).
Definition MsgApproveAndDispatchMultisigProposalParams_with_Approver
    (x : MsgApproveAndDispatchMultisigProposalParams) (v : string) :
    MsgApproveAndDispatchMultisigProposalParams :=
  mkMsgApproveAndDispatchMultisigProposalParams
    (MsgApproveAndDispatchMultisigProposalParams_MultisigAddress x)
    (MsgApproveAndDispatchMultisigProposalParams_ProposalId x) v
    (MsgApproveAndDispatchMultisigProposalParams_Message x)
    (MsgApproveAndDispatchMultisigProposalParams_unknownFields x).
Definition MsgApproveAndDispatchMultisigProposalParams_with_Message
    (x : MsgApproveAndDispatchMultisigProposalParams) (v : option anypb_Any) :
    MsgApproveAndDispatchMultisigProposalParams :=
  mkMsgApproveAndDispatchMultisigProposalParams
    (MsgApproveAndDispatchMultisigProposalParams_MultisigAddress x)
    (MsgApproveAndDispatchMultisigProposalParams_ProposalId x)
    (MsgApproveAndDispatchMultisigProposalParams_Approver x) v
    (MsgApproveAndDispatchMultisigProposalParams_unknownFields x).
Definition MsgApproveAndDispatchMultisigProposalParams_GetMultisigAddress : option
    MsgApproveAndDispatchMultisigProposalParams → string :=
  getter ""%string MsgApproveAndDispatchMultisigProposalParams_MultisigAddress.
Definition MsgApproveAndDispatchMultisigProposalParams_GetProposalId : option
    MsgApproveAndDispatchMultisigProposalParams → Z :=
  getter 0 MsgApproveAndDispatchMultisigProposalParams_ProposalId.
Definition MsgApproveAndDispatchMultisigProposalParams_GetApprover : option
    MsgApproveAndDispatchMultisigProposalParams → string :=
  getter ""%string MsgApproveAndDispatchMultisigProposalParams_Approver.
Definition MsgApproveAndDispatchMultisigProposalParams_GetMessage : option
    MsgApproveAndDispatchMultisigProposalParams → option anypb_Any :=
  getter None MsgApproveAndDispatchMultisigProposalParams_Message.
Definition MsgApproveAndDispatchMultisigProposalParams_Range {S}
    (x : option MsgApproveAndDispatchMultisigProposalParams)
    (f : FieldDescriptor → Value → M S bool) : M S () :=
  x ← lift (or_panic x);
  range_fields f [
    (has_string (MsgApproveAndDispatchMultisigProposalParams_MultisigAddress x),
       fd_MsgApproveAndDispatchMultisigProposalParams_multisig_address, ValueOfString
       (MsgApproveAndDispatchMultisigProposalParams_MultisigAddress x));
    (has_int (MsgApproveAndDispatchMultisigProposalParams_ProposalId x),
       fd_MsgApproveAndDispatchMultisigProposalParams_proposal_id, ValueOfUint64
       (MsgApproveAndDispatchMultisigProposalParams_ProposalId x));
    (has_string (MsgApproveAndDispatchMultisigProposalParams_Approver x),
       fd_MsgApproveAndDispatchMultisigProposalParams_approver, ValueOfString
       (MsgApproveAndDispatchMultisigProposalParams_Approver x));
    (has_message (MsgApproveAndDispatchMultisigProposalParams_Message x),
       fd_MsgApproveAndDispatchMultisigProposalParams_message, ValueOfMessage
       (MsgApproveAndDispatchMultisigProposalParams_Message x))].
Definition MsgApproveAndDispatchMultisigProposalParams_Has
    (x : option MsgApproveAndDispatchMultisigProposalParams) (fd : FieldDescriptor) : outcome bool
    :=
  x ← or_panic x;
  field_switch fd [
    ("multisig.v1.MsgApproveAndDispatchMultisigProposalParams.multisig_address"%string,
      Ok (has_string (MsgApproveAndDispatchMultisigProposalParams_MultisigAddress x)));
    ("multisig.v1.MsgApproveAndDispatchMultisigProposalParams.proposal_id"%string,
      Ok (has_int (MsgApproveAndDispatchMultisigProposalParams_ProposalId x)));
    ("multisig.v1.MsgApproveAndDispatchMultisigProposalParams.approver"%string,
      Ok (has_string (MsgApproveAndDispatchMultisigProposalParams_Approver x)));
    ("multisig.v1.MsgApproveAndDispatchMultisigProposalParams.message"%string,
      Ok (has_message (MsgApproveAndDispatchMultisigProposalParams_Message x)))].
Definition MsgApproveAndDispatchMultisigProposalParams_Clear
    (x : option MsgApproveAndDispatchMultisigProposalParams) (fd : FieldDescriptor) : outcome
    MsgApproveAndDispatchMultisigProposalParams :=
  x ← or_panic x;
  field_switch fd [
    ("multisig.v1.MsgApproveAndDispatchMultisigProposalParams.multisig_address"%string,
      Ok (MsgApproveAndDispatchMultisigProposalParams_with_MultisigAddress x ""%string));
    ("multisig.v1.MsgApproveAndDispatchMultisigProposalParams.proposal_id"%string,
      Ok (MsgApproveAndDispatchMultisigProposalParams_with_ProposalId x 0));
    ("multisig.v1.MsgApproveAndDispatchMultisigProposalParams.approver"%string,
      Ok (MsgApproveAndDispatchMultisigProposalParams_with_Approver x ""%string));
    ("multisig.v1.MsgApproveAndDispatchMultisigProposalParams.message"%string,
      Ok (MsgApproveAndDispatchMultisigProposalParams_with_Message x None))].
Definition MsgApproveAndDispatchMultisigProposalParams_Get
    (x : option MsgApproveAndDispatchMultisigProposalParams) (fd : FieldDescriptor) : outcome Value
    :=
  x ← or_panic x;
  field_switch fd [
    ("multisig.v1.MsgApproveAndDispatchMultisigProposalParams.multisig_address"%string,
      Ok (ValueOfString (MsgApproveAndDispatchMultisigProposalParams_MultisigAddress x)));
    ("multisig.v1.MsgApproveAndDispatchMultisigProposalParams.proposal_id"%string,
      Ok (ValueOfUint64 (MsgApproveAndDispatchMultisigProposalParams_ProposalId x)));
    ("multisig.v1.MsgApproveAndDispatchMultisigProposalParams.approver"%string,
      Ok (ValueOfString (MsgApproveAndDispatchMultisigProposalParams_Approver x)));
    ("multisig.v1.MsgApproveAndDispatchMultisigProposalParams.message"%string,
      Ok (ValueOfMessage (MsgApproveAndDispatchMultisigProposalParams_Message x)))].
Definition MsgApproveAndDispatchMultisigProposalParams_Set
    (x : option MsgApproveAndDispatchMultisigProposalParams) (fd : FieldDescriptor) (value : Value)
    : outcome MsgApproveAndDispatchMultisigProposalParams :=
  x ← or_panic x;
  field_switch fd [
    ("multisig.v1.MsgApproveAndDispatchMultisigProposalParams.multisig_address"%string,
      set_string (MsgApproveAndDispatchMultisigProposalParams_with_MultisigAddress x) value);
    ("multisig.v1.MsgApproveAndDispatchMultisigProposalParams.proposal_id"%string,
      set_uint64 (MsgApproveAndDispatchMultisigProposalParams_with_ProposalId x) value);
    ("multisig.v1.MsgApproveAndDispatchMultisigProposalParams.approver"%string,
      set_string (MsgApproveAndDispatchMultisigProposalParams_with_Approver x) value);
    ("multisig.v1.MsgApproveAndDispatchMultisigProposalParams.message"%string,
      set_message (MsgApproveAndDispatchMultisigProposalParams_with_Message x) value)].
Definition MsgApproveAndDispatchMultisigProposalParams_Mutable
    (x : option MsgApproveAndDispatchMultisigProposalParams) (fd : FieldDescriptor) : outcome
    (Value * MsgApproveAndDispatchMultisigProposalParams) :=
  x ← or_panic x;
  field_switch fd [
    ("multisig.v1.MsgApproveAndDispatchMultisigProposalParams.message"%string,
      mutable_message (MsgApproveAndDispatchMultisigProposalParams_with_Message x)
        (MsgApproveAndDispatchMultisigProposalParams_Message x));
    ("multisig.v1.MsgApproveAndDispatchMultisigProposalParams.multisig_address"%string, Panic);
    ("multisig.v1.MsgApproveAndDispatchMultisigProposalParams.proposal_id"%string, Panic);
    ("multisig.v1.MsgApproveAndDispatchMultisigProposalParams.approver"%string, Panic)].
Definition MsgApproveAndDispatchMultisigProposalParams_NewField (fd : FieldDescriptor) : outcome
    Value :=
  field_switch fd [
    ("multisig.v1.MsgApproveAndDispatchMultisigProposalParams.multisig_address"%string,
      Ok (ValueOfString ""%string));
    ("multisig.v1.MsgApproveAndDispatchMultisigProposalParams.proposal_id"%string,
      Ok (ValueOfUint64 0));
    ("multisig.v1.MsgApproveAndDispatchMultisigProposalParams.approver"%string,
      Ok (ValueOfString ""%string));
    ("multisig.v1.MsgApproveAndDispatchMultisigProposalParams.message"%string,
      new_message (A := anypb_Any))].
Definition MsgApproveAndDispatchMultisigProposalParams_set_unknown (x : MsgApproveAndDispatchMultisigProposalParams) (fields : bytes) : MsgApproveAndDispatchMultisigProposalParams :=
  mkMsgApproveAndDispatchMultisigProposalParams
    (MsgApproveAndDispatchMultisigProposalParams_MultisigAddress x)
    (MsgApproveAndDispatchMultisigProposalParams_ProposalId x)
    (MsgApproveAndDispatchMultisigProposalParams_Approver x)
    (MsgApproveAndDispatchMultisigProposalParams_Message x) fields.
#[export] Instance MsgApproveAndDispatchMultisigProposalParams_reflect : MessageReflect MsgApproveAndDispatchMultisigProposalParams := {|
  Range S := MsgApproveAndDispatchMultisigProposalParams_Range;
  Has := MsgApproveAndDispatchMultisigProposalParams_Has;
  Clear := MsgApproveAndDispatchMultisigProposalParams_Clear;
  Get := MsgApproveAndDispatchMultisigProposalParams_Get;
  Set_ := MsgApproveAndDispatchMultisigProposalParams_Set;
  Mutable := MsgApproveAndDispatchMultisigProposalParams_Mutable;
  NewField := MsgApproveAndDispatchMultisigProposalParams_NewField;
  Descriptor := MsgApproveAndDispatchMultisigProposalParams_descriptor;
  GetUnknown x := x ← or_panic x; Ok (MsgApproveAndDispatchMultisigProposalParams_unknownFields x);
  SetUnknown x fields := x ← or_panic x; Ok (MsgApproveAndDispatchMultisigProposalParams_set_unknown x fields);
|}.

(** [MsgApproveAndDispatchMultisigProposalResponse] *)

Definition fd_MsgApproveAndDispatchMultisigProposalResponse_transaction_hash : FieldDescriptor :=
  mkField "multisig.v1.MsgApproveAndDispatchMultisigProposalResponse.transaction_hash" 1 StringKind false.
Definition MsgApproveAndDispatchMultisigProposalResponse_descriptor : list FieldDescriptor := [
  fd_MsgApproveAndDispatchMultisigProposalResponse_transaction_hash].
Definition MsgApproveAndDispatchMultisigProposalResponse_with_TransactionHash
    (x : MsgApproveAndDispatchMultisigProposalResponse) (v : string) :
    MsgApproveAndDispatchMultisigProposalResponse :=
  mkMsgApproveAndDispatchMultisigProposalResponse v
    (MsgApproveAndDispatchMultisigProposalResponse_unknownFields x).
Definition MsgApproveAndDispatchMultisigProposalResponse_GetTransactionHash : option
    MsgApproveAndDispatchMultisigProposalResponse → string :=
  getter ""%string MsgApproveAndDispatchMultisigProposalResponse_TransactionHash.
Definition MsgApproveAndDispatchMultisigProposalResponse_Range {S}
    (x : option MsgApproveAndDispatchMultisigProposalResponse)
    (f : FieldDescriptor → Value → M S bool) : M S () :=
  x ← lift (or_panic x);
  range_fields f [
    (has_string (MsgApproveAndDispatchMultisigProposalResponse_TransactionHash x),
       fd_MsgApproveAndDispatchMultisigProposalResponse_transaction_hash, ValueOfString
       (MsgApproveAndDispatchMultisigProposalResponse_TransactionHash x))].
Definition MsgApproveAndDispatchMultisigProposalResponse_Has
    (x : option MsgApproveAndDispatchMultisigProposalResponse) (fd : FieldDescriptor) : outcome
    bool :=
  x ← or_panic x;
  field_switch fd [
    ("multisig.v1.MsgApproveAndDispatchMultisigProposalResponse.transaction_hash"%string,
      Ok (has_string (MsgApproveAndDispatchMultisigProposalResponse_TransactionHash x)))].
Definition MsgApproveAndDispatchMultisigProposalResponse_Clear
    (x : option MsgApproveAndDispatchMultisigProposalResponse) (fd : FieldDescriptor) : outcome
    MsgApproveAndDispatchMultisigProposalResponse :=
  x ← or_panic x;
  field_switch fd [
    ("multisig.v1.MsgApproveAndDispatchMultisigProposalResponse.transaction_hash"%string,
      Ok (MsgApproveAndDispatchMultisigProposalResponse_with_TransactionHash x ""%string))].
Definition MsgApproveAndDispatchMultisigProposalResponse_Get
    (x : option MsgApproveAndDispatchMultisigProposalResponse) (fd : FieldDescriptor) : outcome
    Value :=
  x ← or_panic x;
  field_switch fd [
    ("multisig.v1.MsgApproveAndDispatchMultisigProposalResponse.transaction_hash"%string,
      Ok (ValueOfString (MsgApproveAndDispatchMultisigProposalResponse_TransactionHash x)))].
Definition MsgApproveAndDispatchMultisigProposalResponse_Set
    (x : option MsgApproveAndDispatchMultisigProposalResponse) (fd : FieldDescriptor)
    (value : Value) : outcome MsgApproveAndDispatchMultisigProposalResponse :=
  x ← or_panic x;
  field_switch fd [
    ("multisig.v1.MsgApproveAndDispatchMultisigProposalResponse.transaction_hash"%string,
      set_string (MsgApproveAndDispatchMultisigProposalResponse_with_TransactionHash x) value)].
Definition MsgApproveAndDispatchMultisigProposalResponse_Mutable
    (x : option MsgApproveAndDispatchMultisigProposalResponse) (fd : FieldDescriptor) : outcome
    (Value * MsgApproveAndDispatchMultisigProposalResponse) :=
  x ← or_panic x;
  field_switch fd [
    ("multisig.v1.MsgApproveAndDispatchMultisigProposalResponse.transaction_hash"%string, Panic)].
Definition MsgApproveAndDispatchMultisigProposalResponse_NewField (fd : FieldDescriptor) : outcome
    Value :=
  field_switch fd [
    ("multisig.v1.MsgApproveAndDispatchMultisigProposalResponse.transaction_hash"%string,
      Ok (ValueOfString ""%string))].
Definition MsgApproveAndDispatchMultisigProposalResponse_set_unknown (x : MsgApproveAndDispatchMultisigProposalResponse) (fields : bytes) : MsgApproveAndDispatchMultisigProposalResponse :=
  mkMsgApproveAndDispatchMultisigProposalResponse
    (MsgApproveAndDispatchMultisigProposalResponse_TransactionHash x) fields.
#[export] Instance MsgApproveAndDispatchMultisigProposalResponse_reflect : MessageReflect MsgApproveAndDispatchMultisigProposalResponse := {|
  Range S := MsgApproveAndDispatchMultisigProposalResponse_Range;
  Has := MsgApproveAndDispatchMultisigProposalResponse_Has;
  Clear := MsgApproveAndDispatchMultisigProposalResponse_Clear;
  Get := MsgApproveAndDispatchMultisigProposalResponse_Get;
  Set_ := MsgApproveAndDispatchMultisigProposalResponse_Set;
  Mutable := MsgApproveAndDispatchMultisigProposalResponse_Mutable;
  NewField := MsgApproveAndDispatchMultisigProposalResponse_NewField;
  Descriptor := MsgApproveAndDispatchMultisigProposalResponse_descriptor;
  GetUnknown x := x ← or_panic x; Ok (MsgApproveAndDispatchMultisigProposalResponse_unknownFields x);
  SetUnknown x fields := x ← or_panic x; Ok (MsgApproveAndDispatchMultisigProposalResponse_set_unknown x fields);
|}.

(** [MsgCancelMultisigProposalParams] *)

Definition fd_MsgCancelMultisigProposalParams_multisig_address : FieldDescriptor :=
  mkField "multisig.v1.MsgCancelMultisigProposalParams.multisig_address" 1 StringKind false.
Definition fd_MsgCancelMultisigProposalParams_proposal_id : FieldDescriptor :=
  mkField "multisig.v1.MsgCancelMultisigProposalParams.proposal_id" 2 Uint64Kind false.
Definition fd_MsgCancelMultisigProposalParams_rejecter : FieldDescriptor :=
  mkField "multisig.v1.MsgCancelMultisigProposalParams.rejecter" 3 StringKind false.
Definition MsgCancelMultisigProposalParams_descriptor : list FieldDescriptor := [
  fd_MsgCancelMultisigProposalParams_multisig_address;
  fd_MsgCancelMultisigProposalParams_proposal_id; fd_MsgCancelMultisigProposalParams_rejecter].
Definition MsgCancelMultisigProposalParams_with_MultisigAddress
    (x : MsgCancelMultisigProposalParams) (v : string) : MsgCancelMultisigProposalParams :=
  mkMsgCancelMultisigProposalParams v (MsgCancelMultisigProposalParams_ProposalId x)
    (MsgCancelMultisigProposalParams_Rejecter x) (MsgCancelMultisigProposalParams_unknownFields
    x).
Definition MsgCancelMultisigProposalParams_with_ProposalId (x : MsgCancelMultisigProposalParams)
    (v : Z) : MsgCancelMultisigProposalParams :=
  mkMsgCancelMultisigProposalParams (MsgCancelMultisigProposalParams_MultisigAddress x) v
    (MsgCancelMultisigProposalParams_Rejecter x) (MsgCancelMultisigProposalParams_unknownFields
    x).
Definition MsgCancelMultisigProposalParams_with_Rejecter (x : MsgCancelMultisigProposalParams)
    (v : string) : MsgCancelMultisigProposalParams :=
  mkMsgCancelMultisigProposalParams (MsgCancelMultisigProposalParams_MultisigAddress x)
    (MsgCancelMultisigProposalParams_ProposalId x) v
    (MsgCancelMultisigProposalParams_unknownFields x).
Definition MsgCancelMultisigProposalParams_GetMultisigAddress : option
    MsgCancelMultisigProposalParams → string :=
  getter ""%string MsgCancelMultisigProposalParams_MultisigAddress.
Definition MsgCancelMultisigProposalParams_GetProposalId : option MsgCancelMultisigProposalParams →
    Z :=
  getter 0 MsgCancelMultisigProposalParams_ProposalId.
Definition MsgCancelMultisigProposalParams_GetRejecter : option MsgCancelMultisigProposalParams →
    string :=
  getter ""%string MsgCancelMultisigProposalParams_Rejecter.
Definition MsgCancelMultisigProposalParams_Range {S} (x : option MsgCancelMultisigProposalParams)
    (f : FieldDescriptor → Value → M S bool) : M S () :=
  x ← lift (or_panic x);
  range_fields f [
    (has_string (MsgCancelMultisigProposalParams_MultisigAddress x),
       fd_MsgCancelMultisigProposalParams_multisig_address, ValueOfString
       (MsgCancelMultisigProposalParams_MultisigAddress x));
    (has_int (MsgCancelMultisigProposalParams_ProposalId x),
       fd_MsgCancelMultisigProposalParams_proposal_id, ValueOfUint64
       (MsgCancelMultisigProposalParams_ProposalId x));
    (has_string (MsgCancelMultisigProposalParams_Rejecter x),
       fd_MsgCancelMultisigProposalParams_rejecter, ValueOfString
       (MsgCancelMultisigProposalParams_Rejecter x))].
Definition MsgCancelMultisigProposalParams_Has (x : option MsgCancelMultisigProposalParams)
    (fd : FieldDescriptor) : outcome bool :=
  x ← or_panic x;
  field_switch fd [
    ("multisig.v1.MsgCancelMultisigProposalParams.multisig_address"%string,
      Ok (has_string (MsgCancelMultisigProposalParams_MultisigAddress x)));
    ("multisig.v1.MsgCancelMultisigProposalParams.proposal_id"%string,
      Ok (has_int (MsgCancelMultisigProposalParams_ProposalId x)));
    ("multisig.v1.MsgCancelMultisigProposalParams.rejecter"%string,
      Ok (has_string (MsgCancelMultisigProposalParams_Rejecter x)))].
Definition MsgCancelMultisigProposalParams_Clear (x : option MsgCancelMultisigProposalParams)
    (fd : FieldDescriptor) : outcome MsgCancelMultisigProposalParams :=
  x ← or_panic x;
  field_switch fd [
    ("multisig.v1.MsgCancelMultisigProposalParams.multisig_address"%string,
      Ok (MsgCancelMultisigProposalParams_with_MultisigAddress x ""%string));
    ("multisig.v1.MsgCancelMultisigProposalParams.proposal_id"%string,
      Ok (MsgCancelMultisigProposalParams_with_ProposalId x 0));
    ("multisig.v1.MsgCancelMultisigProposalParams.rejecter"%string,
      Ok (MsgCancelMultisigProposalParams_with_Rejecter x ""%string))].
Definition MsgCancelMultisigProposalParams_Get (x : option MsgCancelMultisigProposalParams)
    (fd : FieldDescriptor) : outcome Value :=
  x ← or_panic x;
  field_switch fd [
    ("multisig.v1.MsgCancelMultisigProposalParams.multisig_address"%string,
      Ok (ValueOfString (MsgCancelMultisigProposalParams_MultisigAddress x)));
    ("multisig.v1.MsgCancelMultisigProposalParams.proposal_id"%string,
      Ok (ValueOfUint64 (MsgCancelMultisigProposalParams_ProposalId x)));
    ("multisig.v1.MsgCancelMultisigProposalParams.rejecter"%string,
      Ok (ValueOfString (MsgCancelMultisigProposalParams_Rejecter x)))].
Definition MsgCancelMultisigProposalParams_Set (x : option MsgCancelMultisigProposalParams)
    (fd : FieldDescriptor) (value : Value) : outcome MsgCancelMultisigProposalParams :=
  x ← or_panic x;
  field_switch fd [
    ("multisig.v1.MsgCancelMultisigProposalParams.multisig_address"%string,
      set_string (MsgCancelMultisigProposalParams_with_MultisigAddress x) value);
    ("multisig.v1.MsgCancelMultisigProposalParams.proposal_id"%string,
      set_uint64 (MsgCancelMultisigProposalParams_with_ProposalId x) value);
    ("multisig.v1.MsgCancelMultisigProposalParams.rejecter"%string,
      set_string (MsgCancelMultisigProposalParams_with_Rejecter x) value)].
Definition MsgCancelMultisigProposalParams_Mutable (x : option MsgCancelMultisigProposalParams)
    (fd : FieldDescriptor) : outcome (Value * MsgCancelMultisigProposalParams) :=
  x ← or_panic x;
  field_switch fd [
    ("multisig.v1.MsgCancelMultisigProposalParams.multisig_address"%string, Panic);
    ("multisig.v1.MsgCancelMultisigProposalParams.proposal_id"%string, Panic);
    ("multisig.v1.MsgCancelMultisigProposalParams.rejecter"%string, Panic)].
Definition MsgCancelMultisigProposalParams_NewField (fd : FieldDescriptor) : outcome Value :=
  field_switch fd [
    ("multisig.v1.MsgCancelMultisigProposalParams.multisig_address"%string,
      Ok (ValueOfString ""%string));
    ("multisig.v1.MsgCancelMultisigProposalParams.proposal_id"%string, Ok (ValueOfUint64 0));
    ("multisig.v1.MsgCancelMultisigProposalParams.rejecter"%string, Ok (ValueOfString ""%string))].
Definition MsgCancelMultisigProposalParams_set_unknown (x : MsgCancelMultisigProposalParams) (fields : bytes) : MsgCancelMultisigProposalParams :=
  mkMsgCancelMultisigProposalParams (MsgCancelMultisigProposalParams_MultisigAddress x)
    (MsgCancelMultisigProposalParams_ProposalId x) (MsgCancelMultisigProposalParams_Rejecter x)
    fields.
#[export] Instance MsgCancelMultisigProposalParams_reflect : MessageReflect MsgCancelMultisigProposalParams := {|
  Range S := MsgCancelMultisigProposalParams_Range;
  Has := MsgCancelMultisigProposalParams_Has;
  Clear := MsgCancelMultisigProposalParams_Clear;
  Get := MsgCancelMultisigProposalParams_Get;
  Set_ := MsgCancelMultisigProposalParams_Set;
  Mutable := MsgCancelMultisigProposalParams_Mutable;
  NewField := MsgCancelMultisigProposalParams_NewField;
  Descriptor := MsgCancelMultisigProposalParams_descriptor;
  GetUnknown x := x ← or_panic x; Ok (MsgCancelMultisigProposalParams_unknownFields x);
  SetUnknown x fields := x ← or_panic x; Ok (MsgCancelMultisigProposalParams_set_unknown x fields);
|}.

(** [MsgCancelMultisigProposalResponse] *)

Definition MsgCancelMultisigProposalResponse_descriptor : list FieldDescriptor := [].
Definition MsgCancelMultisigProposalResponse_Range {S}
    (x : option MsgCancelMultisigProposalResponse) (f : FieldDescriptor → Value → M S bool) : M S
    () :=
  mret ().
Definition MsgCancelMultisigProposalResponse_Has (x : option MsgCancelMultisigProposalResponse)
    (fd : FieldDescriptor) : outcome bool :=
  field_switch fd [].
Definition MsgCancelMultisigProposalResponse_Clear (x : option MsgCancelMultisigProposalResponse)
    (fd : FieldDescriptor) : outcome MsgCancelMultisigProposalResponse :=
  field_switch fd [].
Definition MsgCancelMultisigProposalResponse_Get (x : option MsgCancelMultisigProposalResponse)
    (fd : FieldDescriptor) : outcome Value :=
  field_switch fd [].
Definition MsgCancelMultisigProposalResponse_Set (x : option MsgCancelMultisigProposalResponse)
    (fd : FieldDescriptor) (value : Value) : outcome MsgCancelMultisigProposalResponse :=
  field_switch fd [].
Definition MsgCancelMultisigProposalResponse_Mutable (x : option MsgCancelMultisigProposalResponse)
    (fd : FieldDescriptor) : outcome (Value * MsgCancelMultisigProposalResponse) :=
  field_switch fd [].
Definition MsgCancelMultisigProposalResponse_NewField (fd : FieldDescriptor) : outcome Value :=
  field_switch fd [].
Definition MsgCancelMultisigProposalResponse_set_unknown (x : MsgCancelMultisigProposalResponse) (fields : bytes) : MsgCancelMultisigProposalResponse :=
  mkMsgCancelMultisigProposalResponse fields.
#[export] Instance MsgCancelMultisigProposalResponse_reflect : MessageReflect MsgCancelMultisigProposalResponse := {|
  Range S := MsgCancelMultisigProposalResponse_Range;
  Has := MsgCancelMultisigProposalResponse_Has;
  Clear := MsgCancelMultisigProposalResponse_Clear;
  Get := MsgCancelMultisigProposalResponse_Get;
  Set_ := MsgCancelMultisigProposalResponse_Set;
  Mutable := MsgCancelMultisigProposalResponse_Mutable;
  NewField := MsgCancelMultisigProposalResponse_NewField;
  Descriptor := MsgCancelMultisigProposalResponse_descriptor;
  GetUnknown x := x ← or_panic x; Ok (MsgCancelMultisigProposalResponse_unknownFields x);
  SetUnknown x fields := x ← or_panic x; Ok (MsgCancelMultisigProposalResponse_set_unknown x fields);
|}.

(** [MsgCleanupMultisigProposalParams] *)

Definition fd_MsgCleanupMultisigProposalParams_multisig_address : FieldDescriptor :=
  mkField "multisig.v1.MsgCleanupMultisigProposalParams.multisig_address" 1 StringKind false.
Definition fd_MsgCleanupMultisigProposalParams_proposal_id : FieldDescriptor :=
  mkField "multisig.v1.MsgCleanupMultisigProposalParams.proposal_id" 2 Uint64Kind false.
Definition fd_MsgCleanupMultisigProposalParams_remover : FieldDescriptor :=
  mkField "multisig.v1.MsgCleanupMultisigProposalParams.remover" 3 StringKind false.
Definition MsgCleanupMultisigProposalParams_descriptor : list FieldDescriptor := [
  fd_MsgCleanupMultisigProposalParams_multisig_address;
  fd_MsgCleanupMultisigProposalParams_proposal_id; fd_MsgCleanupMultisigProposalParams_remover].
Definition MsgCleanupMultisigProposalParams_with_MultisigAddress
    (x : MsgCleanupMultisigProposalParams) (v : string) : MsgCleanupMultisigProposalParams :=
  mkMsgCleanupMultisigProposalParams v (MsgCleanupMultisigProposalParams_ProposalId x)
    (MsgCleanupMultisigProposalParams_Remover x) (MsgCleanupMultisigProposalParams_unknownFields
    x).
Definition MsgCleanupMultisigProposalParams_with_ProposalId (x : MsgCleanupMultisigProposalParams)
    (v : Z) : MsgCleanupMultisigProposalParams :=
  mkMsgCleanupMultisigProposalParams (MsgCleanupMultisigProposalParams_MultisigAddress x) v
    (MsgCleanupMultisigProposalParams_Remover x) (MsgCleanupMultisigProposalParams_unknownFields
    x).
Definition MsgCleanupMultisigProposalParams_with_Remover (x : MsgCleanupMultisigProposalParams)
    (v : string) : MsgCleanupMultisigProposalParams :=
  mkMsgCleanupMultisigProposalParams (MsgCleanupMultisigProposalParams_MultisigAddress x)
    (MsgCleanupMultisigProposalParams_ProposalId x) v
    (MsgCleanupMultisigProposalParams_unknownFields x).
Definition MsgCleanupMultisigProposalParams_GetMultisigAddress : option
    MsgCleanupMultisigProposalParams → string :=
  getter ""%string MsgCleanupMultisigProposalParams_MultisigAddress.
Definition MsgCleanupMultisigProposalParams_GetProposalId : option MsgCleanupMultisigProposalParams
    → Z :=
  getter 0 MsgCleanupMultisigProposalParams_ProposalId.
Definition MsgCleanupMultisigProposalParams_GetRemover : option MsgCleanupMultisigProposalParams →
    string :=
  getter ""%string MsgCleanupMultisigProposalParams_Remover.
Definition MsgCleanupMultisigProposalParams_Range {S} (x : option MsgCleanupMultisigProposalParams)
    (f : FieldDescriptor → Value → M S bool) : M S () :=
  x ← lift (or_panic x);
  range_fields f [
    (has_string (MsgCleanupMultisigProposalParams_MultisigAddress x),
       fd_MsgCleanupMultisigProposalParams_multisig_address, ValueOfString
       (MsgCleanupMultisigProposalParams_MultisigAddress x));
    (has_int (MsgCleanupMultisigProposalParams_ProposalId x),
       fd_MsgCleanupMultisigProposalParams_proposal_id, ValueOfUint64
       (MsgCleanupMultisigProposalParams_ProposalId x));
    (has_string (MsgCleanupMultisigProposalParams_Remover x),
       fd_MsgCleanupMultisigProposalParams_remover, ValueOfString
       (MsgCleanupMultisigProposalParams_Remover x))].
Definition MsgCleanupMultisigProposalParams_Has (x : option MsgCleanupMultisigProposalParams)
    (fd : FieldDescriptor) : outcome bool :=
  x ← or_panic x;
  field_switch fd [
    ("multisig.v1.MsgCleanupMultisigProposalParams.multisig_address"%string,
      Ok (has_string (MsgCleanupMultisigProposalParams_MultisigAddress x)));
    ("multisig.v1.MsgCleanupMultisigProposalParams.proposal_id"%string,
      Ok (has_int (MsgCleanupMultisigProposalParams_ProposalId x)));
    ("multisig.v1.MsgCleanupMultisigProposalParams.remover"%string,
      Ok (has_string (MsgCleanupMultisigProposalParams_Remover x)))].
Definition MsgCleanupMultisigProposalParams_Clear (x : option MsgCleanupMultisigProposalParams)
    (fd : FieldDescriptor) : outcome MsgCleanupMultisigProposalParams :=
  x ← or_panic x;
  field_switch fd [
    ("multisig.v1.MsgCleanupMultisigProposalParams.multisig_address"%string,
      Ok (MsgCleanupMultisigProposalParams_with_MultisigAddress x ""%string));
    ("multisig.v1.MsgCleanupMultisigProposalParams.proposal_id"%string,
      Ok (MsgCleanupMultisigProposalParams_with_ProposalId x 0));
    ("multisig.v1.MsgCleanupMultisigProposalParams.remover"%string,
      Ok (MsgCleanupMultisigProposalParams_with_Remover x ""%string))].
Definition MsgCleanupMultisigProposalParams_Get (x : option MsgCleanupMultisigProposalParams)
    (fd : FieldDescriptor) : outcome Value :=
  x ← or_panic x;
  field_switch fd [
    ("multisig.v1.MsgCleanupMultisigProposalParams.multisig_address"%string,
      Ok (ValueOfString (MsgCleanupMultisigProposalParams_MultisigAddress x)));
    ("multisig.v1.MsgCleanupMultisigProposalParams.proposal_id"%string,
      Ok (ValueOfUint64 (MsgCleanupMultisigProposalParams_ProposalId x)));
    ("multisig.v1.MsgCleanupMultisigProposalParams.remover"%string,
      Ok (ValueOfString (MsgCleanupMultisigProposalParams_Remover x)))].
Definition MsgCleanupMultisigProposalParams_Set (x : option MsgCleanupMultisigProposalParams)
    (fd : FieldDescriptor) (value : Value) : outcome MsgCleanupMultisigProposalParams :=
  x ← or_panic x;
  field_switch fd [
    ("multisig.v1.MsgCleanupMultisigProposalParams.multisig_address"%string,
      set_string (MsgCleanupMultisigProposalParams_with_MultisigAddress x) value);
    ("multisig.v1.MsgCleanupMultisigProposalParams.proposal_id"%string,
      set_uint64 (MsgCleanupMultisigProposalParams_with_ProposalId x) value);
    ("multisig.v1.MsgCleanupMultisigProposalParams.remover"%string,
      set_string (MsgCleanupMultisigProposalParams_with_Remover x) value)].
Definition MsgCleanupMultisigProposalParams_Mutable (x : option MsgCleanupMultisigProposalParams)
    (fd : FieldDescriptor) : outcome (Value * MsgCleanupMultisigProposalParams) :=
  x ← or_panic x;
  field_switch fd [
    ("multisig.v1.MsgCleanupMultisigProposalParams.multisig_address"%string, Panic);
    ("multisig.v1.MsgCleanupMultisigProposalParams.proposal_id"%string, Panic);
    ("multisig.v1.MsgCleanupMultisigProposalParams.remover"%string, Panic)].
Definition MsgCleanupMultisigProposalParams_NewField (fd : FieldDescriptor) : outcome Value :=
  field_switch fd [
    ("multisig.v1.MsgCleanupMultisigProposalParams.multisig_address"%string,
      Ok (ValueOfString ""%string));
    ("multisig.v1.MsgCleanupMultisigProposalParams.proposal_id"%string, Ok (ValueOfUint64 0));
    ("multisig.v1.MsgCleanupMultisigProposalParams.remover"%string, Ok (ValueOfString ""%string))].
Definition MsgCleanupMultisigProposalParams_set_unknown (x : MsgCleanupMultisigProposalParams) (fields : bytes) : MsgCleanupMultisigProposalParams :=
  mkMsgCleanupMultisigProposalParams (MsgCleanupMultisigProposalParams_MultisigAddress x)
    (MsgCleanupMultisigProposalParams_ProposalId x) (MsgCleanupMultisigProposalParams_Remover x)
    fields.
#[export] Instance MsgCleanupMultisigProposalParams_reflect : MessageReflect MsgCleanupMultisigProposalParams := {|
  Range S := MsgCleanupMultisigProposalParams_Range;
  Has := MsgCleanupMultisigProposalParams_Has;
  Clear := MsgCleanupMultisigProposalParams_Clear;
  Get := MsgCleanupMultisigProposalParams_Get;
  Set_ := MsgCleanupMultisigProposalParams_Set;
  Mutable := MsgCleanupMultisigProposalParams_Mutable;
  NewField := MsgCleanupMultisigProposalParams_NewField;
  Descriptor := MsgCleanupMultisigProposalParams_descriptor;
  GetUnknown x := x ← or_panic x; Ok (MsgCleanupMultisigProposalParams_unknownFields x);
  SetUnknown x fields := x ← or_panic x; Ok (MsgCleanupMultisigProposalParams_set_unknown x fields);
|}.

(** [MsgCleanupMultisigProposalResponse] *)

Definition MsgCleanupMultisigProposalResponse_descriptor : list FieldDescriptor := [].
Definition MsgCleanupMultisigProposalResponse_Range {S}
    (x : option MsgCleanupMultisigProposalResponse) (f : FieldDescriptor → Value → M S bool) : M S
    () :=
  mret ().
Definition MsgCleanupMultisigProposalResponse_Has (x : option MsgCleanupMultisigProposalResponse)
    (fd : FieldDescriptor) : outcome bool :=
  field_switch fd [].
Definition MsgCleanupMultisigProposalResponse_Clear (x : option MsgCleanupMultisigProposalResponse)
    (fd : FieldDescriptor) : outcome MsgCleanupMultisigProposalResponse :=
  field_switch fd [].
Definition MsgCleanupMultisigProposalResponse_Get (x : option MsgCleanupMultisigProposalResponse)
    (fd : FieldDescriptor) : outcome Value :=
  field_switch fd [].
Definition MsgCleanupMultisigProposalResponse_Set (x : option MsgCleanupMultisigProposalResponse)
    (fd : FieldDescriptor) (value : Value) : outcome MsgCleanupMultisigProposalResponse :=
  field_switch fd [].
Definition MsgCleanupMultisigProposalResponse_Mutable
    (x : option MsgCleanupMultisigProposalResponse) (fd : FieldDescriptor) : outcome
    (Value * MsgCleanupMultisigProposalResponse) :=
  field_switch fd [].
Definition MsgCleanupMultisigProposalResponse_NewField (fd : FieldDescriptor) : outcome Value :=
  field_switch fd [].
Definition MsgCleanupMultisigProposalResponse_set_unknown (x : MsgCleanupMultisigProposalResponse) (fields : bytes) : MsgCleanupMultisigProposalResponse :=
  mkMsgCleanupMultisigProposalResponse fields.
#[export] Instance MsgCleanupMultisigProposalResponse_reflect : MessageReflect MsgCleanupMultisigProposalResponse := {|
  Range S := MsgCleanupMultisigProposalResponse_Range;
  Has := MsgCleanupMultisigProposalResponse_Has;
  Clear := MsgCleanupMultisigProposalResponse_Clear;
  Get := MsgCleanupMultisigProposalResponse_Get;
  Set_ := MsgCleanupMultisigProposalResponse_Set;
  Mutable := MsgCleanupMultisigProposalResponse_Mutable;
  NewField := MsgCleanupMultisigProposalResponse_NewField;
  Descriptor := MsgCleanupMultisigProposalResponse_descriptor;
  GetUnknown x := x ← or_panic x; Ok (MsgCleanupMultisigProposalResponse_unknownFields x);
  SetUnknown x fields := x ← or_panic x; Ok (MsgCleanupMultisigProposalResponse_set_unknown x fields);
|}.

(** [Module] *)

Definition Module_descriptor : list FieldDescriptor := [].
Definition Module_Range {S} (x : option Module) (f : FieldDescriptor → Value → M S bool) : M S ()
    :=
  mret ().
Definition Module_Has (x : option Module) (fd : FieldDescriptor) : outcome bool :=
  field_switch fd [].
Definition Module_Clear (x : option Module) (fd : FieldDescriptor) : outcome Module :=
  field_switch fd [].
Definition Module_Get (x : option Module) (fd : FieldDescriptor) : outcome Value :=
  field_switch fd [].
Definition Module_Set (x : option Module) (fd : FieldDescriptor) (value : Value) : outcome Module
    :=
  field_switch fd [].
Definition Module_Mutable (x : option Module) (fd : FieldDescriptor) : outcome (Value * Module) :=
  field_switch fd [].
Definition Module_NewField (fd : FieldDescriptor) : outcome Value :=
  field_switch fd [].
Definition Module_set_unknown (x : Module) (fields : bytes) : Module :=
  mkModule fields.
#[export] Instance Module_reflect : MessageReflect Module := {|
  Range S := Module_Range;
  Has := Module_Has;
  Clear := Module_Clear;
  Get := Module_Get;
  Set_ := Module_Set;
  Mutable := Module_Mutable;
  NewField := Module_NewField;
  Descriptor := Module_descriptor;
  GetUnknown x := x ← or_panic x; Ok (Module_unknownFields x);
  SetUnknown x fields := x ← or_panic x; Ok (Module_set_unknown x fields);
|}.
End methods.

(** ** Tables *)

Class MultisigValuesLaws `{PulsarRuntime} `{CosmosApi} `{ProtoReflect} `{!MultisigValues} := {
  Params_value_laws :: MessageValueLaws Params;
  anypb_Any_value_laws :: MessageValueLaws anypb_Any;
  MultisigAccountDetails_1_list_value_laws :: ListValueLaws MultisigAccountDetails_1_list;
  Proposal_6_list_value_laws :: ListValueLaws Proposal_6_list;
  MsgCreateMultisigAccountParams_4_list_value_laws :: ListValueLaws MsgCreateMultisigAccountParams_4_list;
}.

Section tables.
Context `{PulsarRuntimeLaws} `{CosmosApiLaws} `{ProtoReflectLaws}.
Context `{!MultisigValues} `{!MultisigValuesLaws}.

Definition Params_specs : list (FieldSpec Params) := [
  mkSpec bool_codec "multisig.v1.Params.some_value"%string 2 [0x10] Params_SomeValue
    Params_with_SomeValue Params_GetSomeValue].
#[export] Instance Params_table : ReflectTable Params.
Proof. solve_table Params_specs Params_unknownFields Params_set_unknown. Defined.

Definition GenesisState_specs : list (FieldSpec GenesisState) := [
  mkSpec (message_codec Params) "multisig.v1.GenesisState.params"%string 1 [0xa]
    GenesisState_Params GenesisState_with_Params GenesisState_GetParams].
#[export] Instance GenesisState_table : ReflectTable GenesisState.
Proof. solve_table GenesisState_specs GenesisState_unknownFields GenesisState_set_unknown. Defined.

Definition MultisigAccountDetails_specs : list (FieldSpec MultisigAccountDetails) := [
  mkSpec (bytess_codec mkMultisigAccountDetails_1_list MultisigAccountDetails_1_list_slice)
    "multisig.v1.MultisigAccountDetails.signers"%string 1 [0xa] MultisigAccountDetails_Signers
    MultisigAccountDetails_with_Signers MultisigAccountDetails_GetSigners;
  mkSpec uint32_codec "multisig.v1.MultisigAccountDetails.threshold"%string 2 [0x10]
    MultisigAccountDetails_Threshold MultisigAccountDetails_with_Threshold
    MultisigAccountDetails_GetThreshold;
  mkSpec enum_codec "multisig.v1.MultisigAccountDetails.permission"%string 3 [0x18]
    MultisigAccountDetails_Permission MultisigAccountDetails_with_Permission
    MultisigAccountDetails_GetPermission].
#[export] Instance MultisigAccountDetails_table : ReflectTable MultisigAccountDetails.
Proof. solve_table MultisigAccountDetails_specs MultisigAccountDetails_unknownFields MultisigAccountDetails_set_unknown. Defined.

Definition Proposal_specs : list (FieldSpec Proposal) := [
  mkSpec uint64_codec "multisig.v1.Proposal.id"%string 1 [0x8] Proposal_Id Proposal_with_Id
    Proposal_GetId;
  mkSpec bytes_codec "multisig.v1.Proposal.multisig_address"%string 2 [0x12]
    Proposal_MultisigAddress Proposal_with_MultisigAddress Proposal_GetMultisigAddress;
  mkSpec bytes_codec "multisig.v1.Proposal.call_hash"%string 3 [0x1a] Proposal_CallHash
    Proposal_with_CallHash Proposal_GetCallHash;
  mkSpec bytes_codec "multisig.v1.Proposal.depositor"%string 4 [0x22] Proposal_Depositor
    Proposal_with_Depositor Proposal_GetDepositor;
  mkSpec uint64_codec "multisig.v1.Proposal.deposit"%string 5 [0x28] Proposal_Deposit
    Proposal_with_Deposit Proposal_GetDeposit;
  mkSpec (bytess_codec mkProposal_6_list Proposal_6_list_slice)
    "multisig.v1.Proposal.approvals"%string 6 [0x32] Proposal_Approvals Proposal_with_Approvals
    Proposal_GetApprovals].
#[export] Instance Proposal_table : ReflectTable Proposal.
Proof. solve_table Proposal_specs Proposal_unknownFields Proposal_set_unknown. Defined.

Definition QueryParamsRequest_specs : list (FieldSpec QueryParamsRequest) := [].
#[export] Instance QueryParamsRequest_table : ReflectTable QueryParamsRequest.
Proof. solve_table QueryParamsRequest_specs QueryParamsRequest_unknownFields QueryParamsRequest_set_unknown. Defined.

Definition QueryParamsResponse_specs : list (FieldSpec QueryParamsResponse) := [
  mkSpec (message_codec Params) "multisig.v1.QueryParamsResponse.params"%string 1 [0xa]
    QueryParamsResponse_Params QueryParamsResponse_with_Params QueryParamsResponse_GetParams].
#[export] Instance QueryParamsResponse_table : ReflectTable QueryParamsResponse.
Proof. solve_table QueryParamsResponse_specs QueryParamsResponse_unknownFields QueryParamsResponse_set_unknown. Defined.

Definition MsgUpdateParams_specs : list (FieldSpec MsgUpdateParams) := [
  mkSpec string_codec "multisig.v1.MsgUpdateParams.authority"%string 1 [0xa]
    MsgUpdateParams_Authority MsgUpdateParams_with_Authority MsgUpdateParams_GetAuthority;
  mkSpec (message_codec Params) "multisig.v1.MsgUpdateParams.params"%string 2 [0x12]
    MsgUpdateParams_Params MsgUpdateParams_with_Params MsgUpdateParams_GetParams].
#[export] Instance MsgUpdateParams_table : ReflectTable MsgUpdateParams.
Proof. solve_table MsgUpdateParams_specs MsgUpdateParams_unknownFields MsgUpdateParams_set_unknown. Defined.

Definition MsgUpdateParamsResponse_specs : list (FieldSpec MsgUpdateParamsResponse) := [].
#[export] Instance MsgUpdateParamsResponse_table : ReflectTable MsgUpdateParamsResponse.
Proof. solve_table MsgUpdateParamsResponse_specs MsgUpdateParamsResponse_unknownFields MsgUpdateParamsResponse_set_unknown. Defined.

Definition MsgCreateMultisigAccountParams_specs : list (FieldSpec MsgCreateMultisigAccountParams) := [
  mkSpec string_codec "multisig.v1.MsgCreateMultisigAccountParams.authority"%string 1 [0xa]
    MsgCreateMultisigAccountParams_Authority MsgCreateMultisigAccountParams_with_Authority
    MsgCreateMultisigAccountParams_GetAuthority;
  mkSpec uint32_codec "multisig.v1.MsgCreateMultisigAccountParams.seed"%string 2 [0x10]
    MsgCreateMultisigAccountParams_Seed MsgCreateMultisigAccountParams_with_Seed
    MsgCreateMultisigAccountParams_GetSeed;
  mkSpec uint32_codec "multisig.v1.MsgCreateMultisigAccountParams.threshold"%string 3 [0x18]
    MsgCreateMultisigAccountParams_Threshold MsgCreateMultisigAccountParams_with_Threshold
    MsgCreateMultisigAccountParams_GetThreshold;
  mkSpec
    (bytess_codec mkMsgCreateMultisigAccountParams_4_list MsgCreateMultisigAccountParams_4_list_slice)
    "multisig.v1.MsgCreateMultisigAccountParams.signers"%string 4 [0x22]
    MsgCreateMultisigAccountParams_Signers MsgCreateMultisigAccountParams_with_Signers
    MsgCreateMultisigAccountParams_GetSigners;
  mkSpec enum_codec "multisig.v1.MsgCreateMultisigAccountParams.permission"%string 5 [0x28]
    MsgCreateMultisigAccountParams_Permission MsgCreateMultisigAccountParams_with_Permission
    MsgCreateMultisigAccountParams_GetPermission].
#[export] Instance MsgCreateMultisigAccountParams_table : ReflectTable MsgCreateMultisigAccountParams.
Proof. solve_table MsgCreateMultisigAccountParams_specs MsgCreateMultisigAccountParams_unknownFields MsgCreateMultisigAccountParams_set_unknown. Defined.

Definition MsgCreateMultisigAccountResponse_specs : list (FieldSpec MsgCreateMultisigAccountResponse) := [
  mkSpec string_codec "multisig.v1.MsgCreateMultisigAccountResponse.multisig_address"%string 1
    [0xa] MsgCreateMultisigAccountResponse_MultisigAddress
    MsgCreateMultisigAccountResponse_with_MultisigAddress
    MsgCreateMultisigAccountResponse_GetMultisigAddress].
#[export] Instance MsgCreateMultisigAccountResponse_table : ReflectTable MsgCreateMultisigAccountResponse.
Proof. solve_table MsgCreateMultisigAccountResponse_specs MsgCreateMultisigAccountResponse_unknownFields MsgCreateMultisigAccountResponse_set_unknown. Defined.

Definition MsgAddMultisigSignerParams_specs : list (FieldSpec MsgAddMultisigSignerParams) := [
  mkSpec string_codec "multisig.v1.MsgAddMultisigSignerParams.multisig_address"%string 1 [0xa]
    MsgAddMultisigSignerParams_MultisigAddress MsgAddMultisigSignerParams_with_MultisigAddress
    MsgAddMultisigSignerParams_GetMultisigAddress;
  mkSpec string_codec "multisig.v1.MsgAddMultisigSignerParams.signer"%string 2 [0x12]
    MsgAddMultisigSignerParams_Signer MsgAddMultisigSignerParams_with_Signer
    MsgAddMultisigSignerParams_GetSigner;
  mkSpec uint32_codec "multisig.v1.MsgAddMultisigSignerParams.new_threshold"%string 3 [0x18]
    MsgAddMultisigSignerParams_NewThreshold MsgAddMultisigSignerParams_with_NewThreshold
    MsgAddMultisigSignerParams_GetNewThreshold].
#[export] Instance MsgAddMultisigSignerParams_table : ReflectTable MsgAddMultisigSignerParams.
Proof. solve_table MsgAddMultisigSignerParams_specs MsgAddMultisigSignerParams_unknownFields MsgAddMultisigSignerParams_set_unknown. Defined.

Definition MsgAddMultisigSignerResponse_specs : list (FieldSpec MsgAddMultisigSignerResponse) := [].
#[export] Instance MsgAddMultisigSignerResponse_table : ReflectTable MsgAddMultisigSignerResponse.
Proof. solve_table MsgAddMultisigSignerResponse_specs MsgAddMultisigSignerResponse_unknownFields MsgAddMultisigSignerResponse_set_unknown. Defined.

Definition MsgCleanupMultisigAccountParams_specs : list (FieldSpec MsgCleanupMultisigAccountParams) := [
  mkSpec string_codec "multisig.v1.MsgCleanupMultisigAccountParams.multisig_address"%string 1 [0xa]
    MsgCleanupMultisigAccountParams_MultisigAddress
    MsgCleanupMultisigAccountParams_with_MultisigAddress
    MsgCleanupMultisigAccountParams_GetMultisigAddress].
#[export] Instance MsgCleanupMultisigAccountParams_table : ReflectTable MsgCleanupMultisigAccountParams.
Proof. solve_table MsgCleanupMultisigAccountParams_specs MsgCleanupMultisigAccountParams_unknownFields MsgCleanupMultisigAccountParams_set_unknown. Defined.

Definition MsgCleanupMultisigAccountResponse_specs : list (FieldSpec MsgCleanupMultisigAccountResponse) := [].
#[export] Instance MsgCleanupMultisigAccountResponse_table : ReflectTable MsgCleanupMultisigAccountResponse.
Proof. solve_table MsgCleanupMultisigAccountResponse_specs MsgCleanupMultisigAccountResponse_unknownFields MsgCleanupMultisigAccountResponse_set_unknown. Defined.

Definition MsgSetMultisigThresholdParams_specs : list (FieldSpec MsgSetMultisigThresholdParams) := [
  mkSpec string_codec "multisig.v1.MsgSetMultisigThresholdParams.multisig_address"%string 1 [0xa]
    MsgSetMultisigThresholdParams_MultisigAddress
    MsgSetMultisigThresholdParams_with_MultisigAddress
    MsgSetMultisigThresholdParams_GetMultisigAddress;
  mkSpec uint32_codec "multisig.v1.MsgSetMultisigThresholdParams.threshold"%string 2 [0x10]
    MsgSetMultisigThresholdParams_Threshold MsgSetMultisigThresholdParams_with_Threshold
    MsgSetMultisigThresholdParams_GetThreshold].
#[export] Instance MsgSetMultisigThresholdParams_table : ReflectTable MsgSetMultisigThresholdParams.
Proof. solve_table MsgSetMultisigThresholdParams_specs MsgSetMultisigThresholdParams_unknownFields MsgSetMultisigThresholdParams_set_unknown. Defined.

Definition MsgSetMultisigThresholdResponse_specs : list (FieldSpec MsgSetMultisigThresholdResponse) := [].
#[export] Instance MsgSetMultisigThresholdResponse_table : ReflectTable MsgSetMultisigThresholdResponse.
Proof. solve_table MsgSetMultisigThresholdResponse_specs MsgSetMultisigThresholdResponse_unknownFields MsgSetMultisigThresholdResponse_set_unknown. Defined.

Definition MsgInitializeMultisigProposalParams_specs : list (FieldSpec MsgInitializeMultisigProposalParams) := [
  mkSpec string_codec "multisig.v1.MsgInitializeMultisigProposalParams.multisig_address"%string 1
    [0xa] MsgInitializeMultisigProposalParams_MultisigAddress
    MsgInitializeMultisigProposalParams_with_MultisigAddress
    MsgInitializeMultisigProposalParams_GetMultisigAddress;
  mkSpec string_codec "multisig.v1.MsgInitializeMultisigProposalParams.proposer"%string 2 [0x12]
    MsgInitializeMultisigProposalParams_Proposer MsgInitializeMultisigProposalParams_with_Proposer
    MsgInitializeMultisigProposalParams_GetProposer;
  mkSpec string_codec "multisig.v1.MsgInitializeMultisigProposalParams.title"%string 3 [0x1a]
    MsgInitializeMultisigProposalParams_Title MsgInitializeMultisigProposalParams_with_Title
    MsgInitializeMultisigProposalParams_GetTitle;
  mkSpec string_codec "multisig.v1.MsgInitializeMultisigProposalParams.description"%string 4 [0x22]
    MsgInitializeMultisigProposalParams_Description
    MsgInitializeMultisigProposalParams_with_Description
    MsgInitializeMultisigProposalParams_GetDescription;
  mkSpec (message_codec anypb_Any) "multisig.v1.MsgInitializeMultisigProposalParams.message"%string
    5 [0x2a] MsgInitializeMultisigProposalParams_Message
    MsgInitializeMultisigProposalParams_with_Message MsgInitializeMultisigProposalParams_GetMessage].
#[export] Instance MsgInitializeMultisigProposalParams_table : ReflectTable MsgInitializeMultisigProposalParams.
Proof. solve_table MsgInitializeMultisigProposalParams_specs MsgInitializeMultisigProposalParams_unknownFields MsgInitializeMultisigProposalParams_set_unknown. Defined.

Definition MsgInitializeMultisigResponse_specs : list (FieldSpec MsgInitializeMultisigResponse) := [
  mkSpec uint64_codec "multisig.v1.MsgInitializeMultisigResponse.proposal_id"%string 1 [0x8]
    MsgInitializeMultisigResponse_ProposalId MsgInitializeMultisigResponse_with_ProposalId
    MsgInitializeMultisigResponse_GetProposalId].
#[export] Instance MsgInitializeMultisigResponse_table : ReflectTable MsgInitializeMultisigResponse.
Proof. solve_table MsgInitializeMultisigResponse_specs MsgInitializeMultisigResponse_unknownFields MsgInitializeMultisigResponse_set_unknown. Defined.

Definition MsgApproveMultisigProposalParams_specs : list (FieldSpec MsgApproveMultisigProposalParams) := [
  mkSpec string_codec "multisig.v1.MsgApproveMultisigProposalParams.multisig_address"%string 1
    [0xa] MsgApproveMultisigProposalParams_MultisigAddress
    MsgApproveMultisigProposalParams_with_MultisigAddress
    MsgApproveMultisigProposalParams_GetMultisigAddress;
  mkSpec uint64_codec "multisig.v1.MsgApproveMultisigProposalParams.proposal_id"%string 2 [0x10]
    MsgApproveMultisigProposalParams_ProposalId MsgApproveMultisigProposalParams_with_ProposalId
    MsgApproveMultisigProposalParams_GetProposalId;
  mkSpec string_codec "multisig.v1.MsgApproveMultisigProposalParams.approver"%string 3 [0x1a]
    MsgApproveMultisigProposalParams_Approver MsgApproveMultisigProposalParams_with_Approver
    MsgApproveMultisigProposalParams_GetApprover].
#[export] Instance MsgApproveMultisigProposalParams_table : ReflectTable MsgApproveMultisigProposalParams.
Proof. solve_table MsgApproveMultisigProposalParams_specs MsgApproveMultisigProposalParams_unknownFields MsgApproveMultisigProposalParams_set_unknown. Defined.

Definition MsgApproveMultisigProposalResponse_specs : list (FieldSpec MsgApproveMultisigProposalResponse) := [].
#[export] Instance MsgApproveMultisigProposalResponse_table : ReflectTable MsgApproveMultisigProposalResponse.
Proof. solve_table MsgApproveMultisigProposalResponse_specs MsgApproveMultisigProposalResponse_unknownFields MsgApproveMultisigProposalResponse_set_unknown. Defined.

Definition MsgApproveAndDispatchMultisigProposalParams_specs : list (FieldSpec MsgApproveAndDispatchMultisigProposalParams) := [
  mkSpec string_codec
    "multisig.v1.MsgApproveAndDispatchMultisigProposalParams.multisig_address"%string 1 [0xa]
    MsgApproveAndDispatchMultisigProposalParams_MultisigAddress
    MsgApproveAndDispatchMultisigProposalParams_with_MultisigAddress
    MsgApproveAndDispatchMultisigProposalParams_GetMultisigAddress;
  mkSpec uint64_codec "multisig.v1.MsgApproveAndDispatchMultisigProposalParams.proposal_id"%string
    2 [0x10] MsgApproveAndDispatchMultisigProposalParams_ProposalId
    MsgApproveAndDispatchMultisigProposalParams_with_ProposalId
    MsgApproveAndDispatchMultisigProposalParams_GetProposalId;
  mkSpec string_codec "multisig.v1.MsgApproveAndDispatchMultisigProposalParams.approver"%string 3
    [0x1a] MsgApproveAndDispatchMultisigProposalParams_Approver
    MsgApproveAndDispatchMultisigProposalParams_with_Approver
    MsgApproveAndDispatchMultisigProposalParams_GetApprover;
  mkSpec (message_codec anypb_Any)
    "multisig.v1.MsgApproveAndDispatchMultisigProposalParams.message"%string 5 [0x2a]
    MsgApproveAndDispatchMultisigProposalParams_Message
    MsgApproveAndDispatchMultisigProposalParams_with_Message
    MsgApproveAndDispatchMultisigProposalParams_GetMessage].
#[export] Instance MsgApproveAndDispatchMultisigProposalParams_table : ReflectTable MsgApproveAndDispatchMultisigProposalParams.
Proof. solve_table MsgApproveAndDispatchMultisigProposalParams_specs MsgApproveAndDispatchMultisigProposalParams_unknownFields MsgApproveAndDispatchMultisigProposalParams_set_unknown. Defined.

Definition MsgApproveAndDispatchMultisigProposalResponse_specs : list (FieldSpec MsgApproveAndDispatchMultisigProposalResponse) := [
  mkSpec string_codec
    "multisig.v1.MsgApproveAndDispatchMultisigProposalResponse.transaction_hash"%string 1 [0xa]
    MsgApproveAndDispatchMultisigProposalResponse_TransactionHash
    MsgApproveAndDispatchMultisigProposalResponse_with_TransactionHash
    MsgApproveAndDispatchMultisigProposalResponse_GetTransactionHash].
#[export] Instance MsgApproveAndDispatchMultisigProposalResponse_table : ReflectTable MsgApproveAndDispatchMultisigProposalResponse.
Proof. solve_table MsgApproveAndDispatchMultisigProposalResponse_specs MsgApproveAndDispatchMultisigProposalResponse_unknownFields MsgApproveAndDispatchMultisigProposalResponse_set_unknown. Defined.

Definition MsgCancelMultisigProposalParams_specs : list (FieldSpec MsgCancelMultisigProposalParams) := [
  mkSpec string_codec "multisig.v1.MsgCancelMultisigProposalParams.multisig_address"%string 1 [0xa]
    MsgCancelMultisigProposalParams_MultisigAddress
    MsgCancelMultisigProposalParams_with_MultisigAddress
    MsgCancelMultisigProposalParams_GetMultisigAddress;
  mkSpec uint64_codec "multisig.v1.MsgCancelMultisigProposalParams.proposal_id"%string 2 [0x10]
    MsgCancelMultisigProposalParams_ProposalId MsgCancelMultisigProposalParams_with_ProposalId
    MsgCancelMultisigProposalParams_GetProposalId;
  mkSpec string_codec "multisig.v1.MsgCancelMultisigProposalParams.rejecter"%string 3 [0x1a]
    MsgCancelMultisigProposalParams_Rejecter MsgCancelMultisigProposalParams_with_Rejecter
    MsgCancelMultisigProposalParams_GetRejecter].
#[export] Instance MsgCancelMultisigProposalParams_table : ReflectTable MsgCancelMultisigProposalParams.
Proof. solve_table MsgCancelMultisigProposalParams_specs MsgCancelMultisigProposalParams_unknownFields MsgCancelMultisigProposalParams_set_unknown. Defined.

Definition MsgCancelMultisigProposalResponse_specs : list (FieldSpec MsgCancelMultisigProposalResponse) := [].
#[export] Instance MsgCancelMultisigProposalResponse_table : ReflectTable MsgCancelMultisigProposalResponse.
Proof. solve_table MsgCancelMultisigProposalResponse_specs MsgCancelMultisigProposalResponse_unknownFields MsgCancelMultisigProposalResponse_set_unknown. Defined.

Definition MsgCleanupMultisigProposalParams_specs : list (FieldSpec MsgCleanupMultisigProposalParams) := [
  mkSpec string_codec "multisig.v1.MsgCleanupMultisigProposalParams.multisig_address"%string 1
    [0xa] MsgCleanupMultisigProposalParams_MultisigAddress
    MsgCleanupMultisigProposalParams_with_MultisigAddress
    MsgCleanupMultisigProposalParams_GetMultisigAddress;
  mkSpec uint64_codec "multisig.v1.MsgCleanupMultisigProposalParams.proposal_id"%string 2 [0x10]
    MsgCleanupMultisigProposalParams_ProposalId MsgCleanupMultisigProposalParams_with_ProposalId
    MsgCleanupMultisigProposalParams_GetProposalId;
  mkSpec string_codec "multisig.v1.MsgCleanupMultisigProposalParams.remover"%string 3 [0x1a]
    MsgCleanupMultisigProposalParams_Remover MsgCleanupMultisigProposalParams_with_Remover
    MsgCleanupMultisigProposalParams_GetRemover].
#[export] Instance MsgCleanupMultisigProposalParams_table : ReflectTable MsgCleanupMultisigProposalParams.
Proof. solve_table MsgCleanupMultisigProposalParams_specs MsgCleanupMultisigProposalParams_unknownFields MsgCleanupMultisigProposalParams_set_unknown. Defined.

Definition MsgCleanupMultisigProposalResponse_specs : list (FieldSpec MsgCleanupMultisigProposalResponse) := [].
#[export] Instance MsgCleanupMultisigProposalResponse_table : ReflectTable MsgCleanupMultisigProposalResponse.
Proof. solve_table MsgCleanupMultisigProposalResponse_specs MsgCleanupMultisigProposalResponse_unknownFields MsgCleanupMultisigProposalResponse_set_unknown. Defined.

Definition Module_specs : list (FieldSpec Module) := [].
#[export] Instance Module_table : ReflectTable Module.
Proof. solve_table Module_specs Module_unknownFields Module_set_unknown. Defined.
End tables.
