(* ===== verification/ReflectSample.v ===== *)
(** * ReflectSample: a concrete [protoreflect]

    A value of [protoreflect] is one of the scalars, a pointer to one of the
    structs that occur in a field, or one of the list wrappers of the generated
    code.  The laws that the contract of ReflectLemmas rests on hold for it;
    only the witnesses depend on this file. *)
From S2P Require Import Prelude Util Wire WireLemmas Pulsar PulsarLemmas Reflect ReflectLemmas ApiOracle ApiTx ApiQuery ApiMultisig ReflectOracle ReflectTx ReflectQuery ReflectMultisig.
Local Open Scope Z_scope.

Section sample.
Context `{PulsarRuntime} `{CosmosApi}.

Inductive SampleValue : Type :=
  | SampleBool (v : bool)
  | SampleEnum (v : Z)
  | SampleInt64 (v : Z)
  | SampleUint32 (v : Z)
  | SampleUint64 (v : Z)
  | SampleString (v : string)
  | SampleBytes (v : bytes)
  | SampleOracle_RewardBand (x : option ApiOracle.RewardBand)
  | SampleOracle_Denom (x : option ApiOracle.Denom)
  | SampleOracle_CurrencyPairProviders (x : option ApiOracle.CurrencyPairProviders)
  | SampleOracle_CurrencyDeviationThreshold (x : option ApiOracle.CurrencyDeviationThreshold)
  | SampleOracle_v1beta1_DecCoin (x : option v1beta1_DecCoin)
  | SampleOracle_PairAddressProvider (x : option ApiOracle.PairAddressProvider)
  | SampleOracle_Params (x : option ApiOracle.Params)
  | SampleOracle_AggregateExchangeRateVote (x : option ApiOracle.AggregateExchangeRateVote)
  | SampleOracle_FeederDelegation (x : option ApiOracle.FeederDelegation)
  | SampleOracle_MissCounter (x : option ApiOracle.MissCounter)
  | SampleOracle_AggregateExchangeRatePrevote (x : option ApiOracle.AggregateExchangeRatePrevote)
  | SampleOracle_PriceStamp (x : option ApiOracle.PriceStamp)
  | SampleTx_ParamUpdatePlan (x : option ApiOracle.ParamUpdatePlan)
  | SampleQuery_ValidatorRewardSet (x : option ApiOracle.ValidatorRewardSet)
  | SampleMultisig_Params (x : option ApiMultisig.Params)
  | SampleMultisig_anypb_Any (x : option anypb_Any)
  | SampleOracle_CurrencyPairProviders_3_list (x : ReflectOracle.CurrencyPairProviders_3_list)
  | SampleOracle_CurrencyPairProviders_4_list (x : ReflectOracle.CurrencyPairProviders_4_list)
  | SampleOracle_Params_3_list (x : ReflectOracle.Params_3_list)
  | SampleOracle_Params_5_list (x : ReflectOracle.Params_5_list)
  | SampleOracle_Params_9_list (x : ReflectOracle.Params_9_list)
  | SampleOracle_Params_14_list (x : ReflectOracle.Params_14_list)
  | SampleOracle_Params_15_list (x : ReflectOracle.Params_15_list)
  | SampleOracle_AggregateExchangeRateVote_1_list (x : ReflectOracle.AggregateExchangeRateVote_1_list)
  | SampleOracle_ValidatorRewardSet_1_list (x : ReflectOracle.ValidatorRewardSet_1_list)
  | SampleOracle_ParamUpdatePlan_1_list (x : ReflectOracle.ParamUpdatePlan_1_list)
  | SampleOracle_OracleVoteExtension_2_list (x : ReflectOracle.OracleVoteExtension_2_list)
  | SampleOracle_InjectedVoteExtensionTx_1_list (x : ReflectOracle.InjectedVoteExtensionTx_1_list)
  | SampleOracle_GenesisState_2_list (x : ReflectOracle.GenesisState_2_list)
  | SampleOracle_GenesisState_3_list (x : ReflectOracle.GenesisState_3_list)
  | SampleOracle_GenesisState_4_list (x : ReflectOracle.GenesisState_4_list)
  | SampleOracle_GenesisState_5_list (x : ReflectOracle.GenesisState_5_list)
  | SampleOracle_GenesisState_6_list (x : ReflectOracle.GenesisState_6_list)
  | SampleOracle_GenesisState_7_list (x : ReflectOracle.GenesisState_7_list)
  | SampleOracle_GenesisState_8_list (x : ReflectOracle.GenesisState_8_list)
  | SampleOracle_GenesisState_9_list (x : ReflectOracle.GenesisState_9_list)
  | SampleTx_MsgLegacyGovUpdateParams_4_list (x : ReflectTx.MsgLegacyGovUpdateParams_4_list)
  | SampleTx_MsgGovAddDenoms_5_list (x : ReflectTx.MsgGovAddDenoms_5_list)
  | SampleTx_MsgGovAddDenoms_8_list (x : ReflectTx.MsgGovAddDenoms_8_list)
  | SampleTx_MsgGovAddDenoms_9_list (x : ReflectTx.MsgGovAddDenoms_9_list)
  | SampleTx_MsgGovRemoveCurrencyPairProviders_5_list (x : ReflectTx.MsgGovRemoveCurrencyPairProviders_5_list)
  | SampleTx_MsgGovRemoveCurrencyDeviationThresholds_5_list (x : ReflectTx.MsgGovRemoveCurrencyDeviationThresholds_5_list)
  | SampleQuery_QueryExchangeRatesResponse_1_list (x : ReflectQuery.QueryExchangeRatesResponse_1_list)
  | SampleQuery_QueryActiveExchangeRatesResponse_1_list (x : ReflectQuery.QueryActiveExchangeRatesResponse_1_list)
  | SampleQuery_QueryAggregatePrevotesResponse_1_list (x : ReflectQuery.QueryAggregatePrevotesResponse_1_list)
  | SampleQuery_QueryAggregateVotesResponse_1_list (x : ReflectQuery.QueryAggregateVotesResponse_1_list)
  | SampleQuery_QueryMediansResponse_1_list (x : ReflectQuery.QueryMediansResponse_1_list)
  | SampleQuery_QueryMedianDeviationsResponse_1_list (x : ReflectQuery.QueryMedianDeviationsResponse_1_list)
  | SampleQuery_QueryWMARequest_3_list (x : ReflectQuery.QueryWMARequest_3_list)
  | SampleMultisig_MultisigAccountDetails_1_list (x : ReflectMultisig.MultisigAccountDetails_1_list)
  | SampleMultisig_Proposal_6_list (x : ReflectMultisig.Proposal_6_list)
  | SampleMultisig_MsgCreateMultisigAccountParams_4_list (x : ReflectMultisig.MsgCreateMultisigAccountParams_4_list).

Definition sample_elements (v : SampleValue) : outcome (list SampleValue) :=
  match v with
  | SampleOracle_CurrencyPairProviders_3_list x =>
      Ok (map SampleOracle_PairAddressProvider (default [] (ReflectOracle.CurrencyPairProviders_3_list_slice x)))
  | SampleOracle_CurrencyPairProviders_4_list x =>
      Ok (map SampleString (default [] (ReflectOracle.CurrencyPairProviders_4_list_slice x)))
  | SampleOracle_Params_3_list x =>
      Ok (map SampleOracle_RewardBand (default [] (ReflectOracle.Params_3_list_slice x)))
  | SampleOracle_Params_5_list x =>
      Ok (map SampleOracle_Denom (default [] (ReflectOracle.Params_5_list_slice x)))
  | SampleOracle_Params_9_list x =>
      Ok (map SampleOracle_Denom (default [] (ReflectOracle.Params_9_list_slice x)))
  | SampleOracle_Params_14_list x =>
      Ok (map SampleOracle_CurrencyPairProviders (default [] (ReflectOracle.Params_14_list_slice x)))
  | SampleOracle_Params_15_list x =>
      Ok (map SampleOracle_CurrencyDeviationThreshold (default [] (ReflectOracle.Params_15_list_slice x)))
  | SampleOracle_AggregateExchangeRateVote_1_list x =>
      Ok (map SampleOracle_v1beta1_DecCoin (default [] (ReflectOracle.AggregateExchangeRateVote_1_list_slice x)))
  | SampleOracle_ValidatorRewardSet_1_list x =>
      Ok (map SampleString (default [] (ReflectOracle.ValidatorRewardSet_1_list_slice x)))
  | SampleOracle_ParamUpdatePlan_1_list x =>
      Ok (map SampleString (default [] (ReflectOracle.ParamUpdatePlan_1_list_slice x)))
  | SampleOracle_OracleVoteExtension_2_list x =>
      Ok (map SampleOracle_v1beta1_DecCoin (default [] (ReflectOracle.OracleVoteExtension_2_list_slice x)))
  | SampleOracle_InjectedVoteExtensionTx_1_list x =>
      Ok (map SampleOracle_AggregateExchangeRateVote (default [] (ReflectOracle.InjectedVoteExtensionTx_1_list_slice x)))
  | SampleOracle_GenesisState_2_list x =>
      Ok (map SampleOracle_FeederDelegation (default [] (ReflectOracle.GenesisState_2_list_slice x)))
  | SampleOracle_GenesisState_3_list x =>
      Ok (map SampleOracle_v1beta1_DecCoin (default [] (ReflectOracle.GenesisState_3_list_slice x)))
  | SampleOracle_GenesisState_4_list x =>
      Ok (map SampleOracle_MissCounter (default [] (ReflectOracle.GenesisState_4_list_slice x)))
  | SampleOracle_GenesisState_5_list x =>
      Ok (map SampleOracle_AggregateExchangeRatePrevote (default [] (ReflectOracle.GenesisState_5_list_slice x)))
  | SampleOracle_GenesisState_6_list x =>
      Ok (map SampleOracle_AggregateExchangeRateVote (default [] (ReflectOracle.GenesisState_6_list_slice x)))
  | SampleOracle_GenesisState_7_list x =>
      Ok (map SampleOracle_PriceStamp (default [] (ReflectOracle.GenesisState_7_list_slice x)))
  | SampleOracle_GenesisState_8_list x =>
      Ok (map SampleOracle_PriceStamp (default [] (ReflectOracle.GenesisState_8_list_slice x)))
  | SampleOracle_GenesisState_9_list x =>
      Ok (map SampleOracle_PriceStamp (default [] (ReflectOracle.GenesisState_9_list_slice x)))
  | SampleTx_MsgLegacyGovUpdateParams_4_list x =>
      Ok (map SampleString (default [] (ReflectTx.MsgLegacyGovUpdateParams_4_list_slice x)))
  | SampleTx_MsgGovAddDenoms_5_list x =>
      Ok (map SampleOracle_Denom (default [] (ReflectTx.MsgGovAddDenoms_5_list_slice x)))
  | SampleTx_MsgGovAddDenoms_8_list x =>
      Ok (map SampleOracle_CurrencyPairProviders (default [] (ReflectTx.MsgGovAddDenoms_8_list_slice x)))
  | SampleTx_MsgGovAddDenoms_9_list x =>
      Ok (map SampleOracle_CurrencyDeviationThreshold (default [] (ReflectTx.MsgGovAddDenoms_9_list_slice x)))
  | SampleTx_MsgGovRemoveCurrencyPairProviders_5_list x =>
      Ok (map SampleOracle_CurrencyPairProviders (default [] (ReflectTx.MsgGovRemoveCurrencyPairProviders_5_list_slice x)))
  | SampleTx_MsgGovRemoveCurrencyDeviationThresholds_5_list x =>
      Ok (map SampleString (default [] (ReflectTx.MsgGovRemoveCurrencyDeviationThresholds_5_list_slice x)))
  | SampleQuery_QueryExchangeRatesResponse_1_list x =>
      Ok (map SampleOracle_v1beta1_DecCoin (default [] (ReflectQuery.QueryExchangeRatesResponse_1_list_slice x)))
  | SampleQuery_QueryActiveExchangeRatesResponse_1_list x =>
      Ok (map SampleString (default [] (ReflectQuery.QueryActiveExchangeRatesResponse_1_list_slice x)))
  | SampleQuery_QueryAggregatePrevotesResponse_1_list x =>
      Ok (map SampleOracle_AggregateExchangeRatePrevote (default [] (ReflectQuery.QueryAggregatePrevotesResponse_1_list_slice x)))
  | SampleQuery_QueryAggregateVotesResponse_1_list x =>
      Ok (map SampleOracle_AggregateExchangeRateVote (default [] (ReflectQuery.QueryAggregateVotesResponse_1_list_slice x)))
  | SampleQuery_QueryMediansResponse_1_list x =>
      Ok (map SampleOracle_PriceStamp (default [] (ReflectQuery.QueryMediansResponse_1_list_slice x)))
  | SampleQuery_QueryMedianDeviationsResponse_1_list x =>
      Ok (map SampleOracle_PriceStamp (default [] (ReflectQuery.QueryMedianDeviationsResponse_1_list_slice x)))
  | SampleQuery_QueryWMARequest_3_list x =>
      Ok (map SampleInt64 (default [] (ReflectQuery.QueryWMARequest_3_list_slice x)))
  | SampleMultisig_MultisigAccountDetails_1_list x =>
      Ok (map SampleBytes (default [] (ReflectMultisig.MultisigAccountDetails_1_list_slice x)))
  | SampleMultisig_Proposal_6_list x =>
      Ok (map SampleBytes (default [] (ReflectMultisig.Proposal_6_list_slice x)))
  | SampleMultisig_MsgCreateMultisigAccountParams_4_list x =>
      Ok (map SampleBytes (default [] (ReflectMultisig.MsgCreateMultisigAccountParams_4_list_slice x)))
  | _ => Panic
  end.

Definition sample_marshal (v : SampleValue) : outcome bytes :=
  match v with
  | SampleOracle_RewardBand x => options_Marshal api_marshal x
  | SampleOracle_Denom x => options_Marshal api_marshal x
  | SampleOracle_CurrencyPairProviders x => options_Marshal api_marshal x
  | SampleOracle_CurrencyDeviationThreshold x => options_Marshal api_marshal x
  | SampleOracle_v1beta1_DecCoin x => options_Marshal api_marshal x
  | SampleOracle_PairAddressProvider x => options_Marshal api_marshal x
  | SampleOracle_Params x => options_Marshal api_marshal x
  | SampleOracle_AggregateExchangeRateVote x => options_Marshal api_marshal x
  | SampleOracle_FeederDelegation x => options_Marshal api_marshal x
  | SampleOracle_MissCounter x => options_Marshal api_marshal x
  | SampleOracle_AggregateExchangeRatePrevote x => options_Marshal api_marshal x
  | SampleOracle_PriceStamp x => options_Marshal api_marshal x
  | SampleTx_ParamUpdatePlan x => options_Marshal api_marshal x
  | SampleQuery_ValidatorRewardSet x => options_Marshal api_marshal x
  | SampleMultisig_Params x => options_Marshal api_marshal x
  | SampleMultisig_anypb_Any x => options_Marshal api_marshal x
  | _ => Panic
  end.

#[export] Instance sample_reflect : ProtoReflect := {|
  Value := SampleValue;
  ValueOfBool := SampleBool;
  ValueOfEnum := SampleEnum;
  ValueOfInt64 := SampleInt64;
  ValueOfUint32 := SampleUint32;
  ValueOfUint64 := SampleUint64;
  ValueOfString := SampleString;
  ValueOfBytes := SampleBytes;
  Value_Bool v := match v with SampleBool b => Ok b | _ => Panic end;
  Value_Enum v := match v with SampleEnum z => Ok z | _ => Panic end;
  Value_Int v := match v with SampleInt64 z => Ok z | _ => Panic end;
  Value_Uint v := match v with SampleUint32 z | SampleUint64 z => Ok z | _ => Panic end;
  Value_string v := match v with SampleString s => Ok s | _ => Panic end;
  Value_String v := match v with SampleString s => s | _ => "<value>"%string end;
  Value_Bytes v := match v with SampleBytes bz => Ok bz | _ => Panic end;
  Value_elements := sample_elements;
  Value_Marshal := sample_marshal;
|}.

#[export] Instance sample_reflect_laws : ProtoReflectLaws.
Proof. by split. Qed.

#[export] Instance sample_oracle_values : OracleValues.
Proof.
  split.
  - exact {| ValueOfMessage := SampleOracle_RewardBand;
             Value_Message v := match v with SampleOracle_RewardBand x => Ok x | _ => Panic end |}.
  - exact {| ValueOfMessage := SampleOracle_Denom;
             Value_Message v := match v with SampleOracle_Denom x => Ok x | _ => Panic end |}.
  - exact {| ValueOfMessage := SampleOracle_CurrencyPairProviders;
             Value_Message v := match v with SampleOracle_CurrencyPairProviders x => Ok x | _ => Panic end |}.
  - exact {| ValueOfMessage := SampleOracle_CurrencyDeviationThreshold;
             Value_Message v := match v with SampleOracle_CurrencyDeviationThreshold x => Ok x | _ => Panic end |}.
  - exact {| ValueOfMessage := SampleOracle_v1beta1_DecCoin;
             Value_Message v := match v with SampleOracle_v1beta1_DecCoin x => Ok x | _ => Panic end |}.
  - exact {| ValueOfMessage := SampleOracle_PairAddressProvider;
             Value_Message v := match v with SampleOracle_PairAddressProvider x => Ok x | _ => Panic end |}.
  - exact {| ValueOfMessage := SampleOracle_Params;
             Value_Message v := match v with SampleOracle_Params x => Ok x | _ => Panic end |}.
  - exact {| ValueOfMessage := SampleOracle_AggregateExchangeRateVote;
             Value_Message v := match v with SampleOracle_AggregateExchangeRateVote x => Ok x | _ => Panic end |}.
  - exact {| ValueOfMessage := SampleOracle_FeederDelegation;
             Value_Message v := match v with SampleOracle_FeederDelegation x => Ok x | _ => Panic end |}.
  - exact {| ValueOfMessage := SampleOracle_MissCounter;
             Value_Message v := match v with SampleOracle_MissCounter x => Ok x | _ => Panic end |}.
  - exact {| ValueOfMessage := SampleOracle_AggregateExchangeRatePrevote;
             Value_Message v := match v with SampleOracle_AggregateExchangeRatePrevote x => Ok x | _ => Panic end |}.
  - exact {| ValueOfMessage := SampleOracle_PriceStamp;
             Value_Message v := match v with SampleOracle_PriceStamp x => Ok x | _ => Panic end |}.
  - exact {| ValueOfList := SampleOracle_CurrencyPairProviders_3_list;
             Value_List v := match v with SampleOracle_CurrencyPairProviders_3_list x => Ok x | _ => Panic end |}.
  - exact {| ValueOfList := SampleOracle_CurrencyPairProviders_4_list;
             Value_List v := match v with SampleOracle_CurrencyPairProviders_4_list x => Ok x | _ => Panic end |}.
  - exact {| ValueOfList := SampleOracle_Params_3_list;
             Value_List v := match v with SampleOracle_Params_3_list x => Ok x | _ => Panic end |}.
  - exact {| ValueOfList := SampleOracle_Params_5_list;
             Value_List v := match v with SampleOracle_Params_5_list x => Ok x | _ => Panic end |}.
  - exact {| ValueOfList := SampleOracle_Params_9_list;
             Value_List v := match v with SampleOracle_Params_9_list x => Ok x | _ => Panic end |}.
  - exact {| ValueOfList := SampleOracle_Params_14_list;
             Value_List v := match v with SampleOracle_Params_14_list x => Ok x | _ => Panic end |}.
  - exact {| ValueOfList := SampleOracle_Params_15_list;
             Value_List v := match v with SampleOracle_Params_15_list x => Ok x | _ => Panic end |}.
  - exact {| ValueOfList := SampleOracle_AggregateExchangeRateVote_1_list;
             Value_List v := match v with SampleOracle_AggregateExchangeRateVote_1_list x => Ok x | _ => Panic end |}.
  - exact {| ValueOfList := SampleOracle_ValidatorRewardSet_1_list;
             Value_List v := match v with SampleOracle_ValidatorRewardSet_1_list x => Ok x | _ => Panic end |}.
  - exact {| ValueOfList := SampleOracle_ParamUpdatePlan_1_list;
             Value_List v := match v with SampleOracle_ParamUpdatePlan_1_list x => Ok x | _ => Panic end |}.
  - exact {| ValueOfList := SampleOracle_OracleVoteExtension_2_list;
             Value_List v := match v with SampleOracle_OracleVoteExtension_2_list x => Ok x | _ => Panic end |}.
  - exact {| ValueOfList := SampleOracle_InjectedVoteExtensionTx_1_list;
             Value_List v := match v with SampleOracle_InjectedVoteExtensionTx_1_list x => Ok x | _ => Panic end |}.
  - exact {| ValueOfList := SampleOracle_GenesisState_2_list;
             Value_List v := match v with SampleOracle_GenesisState_2_list x => Ok x | _ => Panic end |}.
  - exact {| ValueOfList := SampleOracle_GenesisState_3_list;
             Value_List v := match v with SampleOracle_GenesisState_3_list x => Ok x | _ => Panic end |}.
  - exact {| ValueOfList := SampleOracle_GenesisState_4_list;
             Value_List v := match v with SampleOracle_GenesisState_4_list x => Ok x | _ => Panic end |}.
  - exact {| ValueOfList := SampleOracle_GenesisState_5_list;
             Value_List v := match v with SampleOracle_GenesisState_5_list x => Ok x | _ => Panic end |}.
  - exact {| ValueOfList := SampleOracle_GenesisState_6_list;
             Value_List v := match v with SampleOracle_GenesisState_6_list x => Ok x | _ => Panic end |}.
  - exact {| ValueOfList := SampleOracle_GenesisState_7_list;
             Value_List v := match v with SampleOracle_GenesisState_7_list x => Ok x | _ => Panic end |}.
  - exact {| ValueOfList := SampleOracle_GenesisState_8_list;
             Value_List v := match v with SampleOracle_GenesisState_8_list x => Ok x | _ => Panic end |}.
  - exact {| ValueOfList := SampleOracle_GenesisState_9_list;
             Value_List v := match v with SampleOracle_GenesisState_9_list x => Ok x | _ => Panic end |}.
Defined.

#[export] Instance sample_tx_values : TxValues.
Proof.
  split.
  - exact {| ValueOfMessage := SampleTx_ParamUpdatePlan;
             Value_Message v := match v with SampleTx_ParamUpdatePlan x => Ok x | _ => Panic end |}.
  - exact {| ValueOfList := SampleTx_MsgLegacyGovUpdateParams_4_list;
             Value_List v := match v with SampleTx_MsgLegacyGovUpdateParams_4_list x => Ok x | _ => Panic end |}.
  - exact {| ValueOfList := SampleTx_MsgGovAddDenoms_5_list;
             Value_List v := match v with SampleTx_MsgGovAddDenoms_5_list x => Ok x | _ => Panic end |}.
  - exact {| ValueOfList := SampleTx_MsgGovAddDenoms_8_list;
             Value_List v := match v with SampleTx_MsgGovAddDenoms_8_list x => Ok x | _ => Panic end |}.
  - exact {| ValueOfList := SampleTx_MsgGovAddDenoms_9_list;
             Value_List v := match v with SampleTx_MsgGovAddDenoms_9_list x => Ok x | _ => Panic end |}.
  - exact {| ValueOfList := SampleTx_MsgGovRemoveCurrencyPairProviders_5_list;
             Value_List v := match v with SampleTx_MsgGovRemoveCurrencyPairProviders_5_list x => Ok x | _ => Panic end |}.
  - exact {| ValueOfList := SampleTx_MsgGovRemoveCurrencyDeviationThresholds_5_list;
             Value_List v := match v with SampleTx_MsgGovRemoveCurrencyDeviationThresholds_5_list x => Ok x | _ => Panic end |}.
Defined.

#[export] Instance sample_query_values : QueryValues.
Proof.
  split.
  - exact {| ValueOfMessage := SampleQuery_ValidatorRewardSet;
             Value_Message v := match v with SampleQuery_ValidatorRewardSet x => Ok x | _ => Panic end |}.
  - exact {| ValueOfList := SampleQuery_QueryExchangeRatesResponse_1_list;
             Value_List v := match v with SampleQuery_QueryExchangeRatesResponse_1_list x => Ok x | _ => Panic end |}.
  - exact {| ValueOfList := SampleQuery_QueryActiveExchangeRatesResponse_1_list;
             Value_List v := match v with SampleQuery_QueryActiveExchangeRatesResponse_1_list x => Ok x | _ => Panic end |}.
  - exact {| ValueOfList := SampleQuery_QueryAggregatePrevotesResponse_1_list;
             Value_List v := match v with SampleQuery_QueryAggregatePrevotesResponse_1_list x => Ok x | _ => Panic end |}.
  - exact {| ValueOfList := SampleQuery_QueryAggregateVotesResponse_1_list;
             Value_List v := match v with SampleQuery_QueryAggregateVotesResponse_1_list x => Ok x | _ => Panic end |}.
  - exact {| ValueOfList := SampleQuery_QueryMediansResponse_1_list;
             Value_List v := match v with SampleQuery_QueryMediansResponse_1_list x => Ok x | _ => Panic end |}.
  - exact {| ValueOfList := SampleQuery_QueryMedianDeviationsResponse_1_list;
             Value_List v := match v with SampleQuery_QueryMedianDeviationsResponse_1_list x => Ok x | _ => Panic end |}.
  - exact {| ValueOfList := SampleQuery_QueryWMARequest_3_list;
             Value_List v := match v with SampleQuery_QueryWMARequest_3_list x => Ok x | _ => Panic end |}.
Defined.

#[export] Instance sample_multisig_values : MultisigValues.
Proof.
  split.
  - exact {| ValueOfMessage := SampleMultisig_Params;
             Value_Message v := match v with SampleMultisig_Params x => Ok x | _ => Panic end |}.
  - exact {| ValueOfMessage := SampleMultisig_anypb_Any;
             Value_Message v := match v with SampleMultisig_anypb_Any x => Ok x | _ => Panic end |}.
  - exact {| ValueOfList := SampleMultisig_MultisigAccountDetails_1_list;
             Value_List v := match v with SampleMultisig_MultisigAccountDetails_1_list x => Ok x | _ => Panic end |}.
  - exact {| ValueOfList := SampleMultisig_Proposal_6_list;
             Value_List v := match v with SampleMultisig_Proposal_6_list x => Ok x | _ => Panic end |}.
  - exact {| ValueOfList := SampleMultisig_MsgCreateMultisigAccountParams_4_list;
             Value_List v := match v with SampleMultisig_MsgCreateMultisigAccountParams_4_list x => Ok x | _ => Panic end |}.
Defined.

(** The elements of a wrapper, nil pointer or not, are what its methods read. *)
Lemma sample_list_laws {L A} (mk : option (list A) → L) (slice : L → option (list A))
    (of_element : A → Value) `{!ListValue L} (P : ProtoList L) :
  (∀ x, list_Len x = slice_Len slice x) →
  (∀ x i, list_Get x i = slice_Get slice of_element x i) →
  (∀ x, Value_List (ValueOfList x) = Ok x) →
  (∀ x, Value_elements (ValueOfList x) = Ok (map of_element (default [] (slice x)))) →
  ListValueLaws L.
Proof.
  intros Hlen Hget Hof Hels. split; [done|]. intros x. rewrite Hels.
  destruct (slice x) as [s|] eqn:Hs; [symmetry; by eapply elements_map|].
  unfold list_elements. rewrite Hlen. unfold slice_Len. by rewrite Hs.
Qed.

#[export] Instance sample_oracle_laws : OracleValuesLaws.
Proof.
  split.
  - by split.
  - by split.
  - by split.
  - by split.
  - by split.
  - by split.
  - by split.
  - by split.
  - by split.
  - by split.
  - by split.
  - by split.
  - by apply (sample_list_laws ReflectOracle.mkCurrencyPairProviders_3_list ReflectOracle.CurrencyPairProviders_3_list_slice ValueOfMessage).
  - by apply (sample_list_laws ReflectOracle.mkCurrencyPairProviders_4_list ReflectOracle.CurrencyPairProviders_4_list_slice ValueOfString).
  - by apply (sample_list_laws ReflectOracle.mkParams_3_list ReflectOracle.Params_3_list_slice ValueOfMessage).
  - by apply (sample_list_laws ReflectOracle.mkParams_5_list ReflectOracle.Params_5_list_slice ValueOfMessage).
  - by apply (sample_list_laws ReflectOracle.mkParams_9_list ReflectOracle.Params_9_list_slice ValueOfMessage).
  - by apply (sample_list_laws ReflectOracle.mkParams_14_list ReflectOracle.Params_14_list_slice ValueOfMessage).
  - by apply (sample_list_laws ReflectOracle.mkParams_15_list ReflectOracle.Params_15_list_slice ValueOfMessage).
  - by apply (sample_list_laws ReflectOracle.mkAggregateExchangeRateVote_1_list ReflectOracle.AggregateExchangeRateVote_1_list_slice ValueOfMessage).
  - by apply (sample_list_laws ReflectOracle.mkValidatorRewardSet_1_list ReflectOracle.ValidatorRewardSet_1_list_slice ValueOfString).
  - by apply (sample_list_laws ReflectOracle.mkParamUpdatePlan_1_list ReflectOracle.ParamUpdatePlan_1_list_slice ValueOfString).
  - by apply (sample_list_laws ReflectOracle.mkOracleVoteExtension_2_list ReflectOracle.OracleVoteExtension_2_list_slice ValueOfMessage).
  - by apply (sample_list_laws ReflectOracle.mkInjectedVoteExtensionTx_1_list ReflectOracle.InjectedVoteExtensionTx_1_list_slice ValueOfMessage).
  - by apply (sample_list_laws ReflectOracle.mkGenesisState_2_list ReflectOracle.GenesisState_2_list_slice ValueOfMessage).
  - by apply (sample_list_laws ReflectOracle.mkGenesisState_3_list ReflectOracle.GenesisState_3_list_slice ValueOfMessage).
  - by apply (sample_list_laws ReflectOracle.mkGenesisState_4_list ReflectOracle.GenesisState_4_list_slice ValueOfMessage).
  - by apply (sample_list_laws ReflectOracle.mkGenesisState_5_list ReflectOracle.GenesisState_5_list_slice ValueOfMessage).
  - by apply (sample_list_laws ReflectOracle.mkGenesisState_6_list ReflectOracle.GenesisState_6_list_slice ValueOfMessage).
  - by apply (sample_list_laws ReflectOracle.mkGenesisState_7_list ReflectOracle.GenesisState_7_list_slice ValueOfMessage).
  - by apply (sample_list_laws ReflectOracle.mkGenesisState_8_list ReflectOracle.GenesisState_8_list_slice ValueOfMessage).
  - by apply (sample_list_laws ReflectOracle.mkGenesisState_9_list ReflectOracle.GenesisState_9_list_slice ValueOfMessage).
Qed.

#[export] Instance sample_tx_laws : TxValuesLaws.
Proof.
  split.
  - by split.
  - by apply (sample_list_laws ReflectTx.mkMsgLegacyGovUpdateParams_4_list ReflectTx.MsgLegacyGovUpdateParams_4_list_slice ValueOfString).
  - by apply (sample_list_laws ReflectTx.mkMsgGovAddDenoms_5_list ReflectTx.MsgGovAddDenoms_5_list_slice ValueOfMessage).
  - by apply (sample_list_laws ReflectTx.mkMsgGovAddDenoms_8_list ReflectTx.MsgGovAddDenoms_8_list_slice ValueOfMessage).
  - by apply (sample_list_laws ReflectTx.mkMsgGovAddDenoms_9_list ReflectTx.MsgGovAddDenoms_9_list_slice ValueOfMessage).
  - by apply (sample_list_laws ReflectTx.mkMsgGovRemoveCurrencyPairProviders_5_list ReflectTx.MsgGovRemoveCurrencyPairProviders_5_list_slice ValueOfMessage).
  - by apply (sample_list_laws ReflectTx.mkMsgGovRemoveCurrencyDeviationThresholds_5_list ReflectTx.MsgGovRemoveCurrencyDeviationThresholds_5_list_slice ValueOfString).
Qed.

#[export] Instance sample_query_laws : QueryValuesLaws.
Proof.
  split.
  - by split.
  - by apply (sample_list_laws ReflectQuery.mkQueryExchangeRatesResponse_1_list ReflectQuery.QueryExchangeRatesResponse_1_list_slice ValueOfMessage).
  - by apply (sample_list_laws ReflectQuery.mkQueryActiveExchangeRatesResponse_1_list ReflectQuery.QueryActiveExchangeRatesResponse_1_list_slice ValueOfString).
  - by apply (sample_list_laws ReflectQuery.mkQueryAggregatePrevotesResponse_1_list ReflectQuery.QueryAggregatePrevotesResponse_1_list_slice ValueOfMessage).
  - by apply (sample_list_laws ReflectQuery.mkQueryAggregateVotesResponse_1_list ReflectQuery.QueryAggregateVotesResponse_1_list_slice ValueOfMessage).
  - by apply (sample_list_laws ReflectQuery.mkQueryMediansResponse_1_list ReflectQuery.QueryMediansResponse_1_list_slice ValueOfMessage).
  - by apply (sample_list_laws ReflectQuery.mkQueryMedianDeviationsResponse_1_list ReflectQuery.QueryMedianDeviationsResponse_1_list_slice ValueOfMessage).
  - by apply (sample_list_laws ReflectQuery.mkQueryWMARequest_3_list ReflectQuery.QueryWMARequest_3_list_slice ValueOfInt64).
Qed.

#[export] Instance sample_multisig_laws : MultisigValuesLaws.
Proof.
  split.
  - by split.
  - by split.
  - by apply (sample_list_laws ReflectMultisig.mkMultisigAccountDetails_1_list ReflectMultisig.MultisigAccountDetails_1_list_slice ValueOfBytes).
  - by apply (sample_list_laws ReflectMultisig.mkProposal_6_list ReflectMultisig.Proposal_6_list_slice ValueOfBytes).
  - by apply (sample_list_laws ReflectMultisig.mkMsgCreateMultisigAccountParams_4_list ReflectMultisig.MsgCreateMultisigAccountParams_4_list_slice ValueOfBytes).
Qed.
End sample.
