(* ===== verification/ApiTwin.v ===== *)
(** * ApiTwin: one message, two generated codes

    The code under [src/x] and the code under [src/api] are generated from the
    same [.proto] files.  [ApiTwin A B] relates the struct [A] of the first to
    the struct [B] of the second: the same fields, with the encoding of [A].
    The lemmas are per kind of field: a decimal is a string in the API, an
    embedded message a pointer. *)
From S2P Require Import Prelude Util Dec Wire WireLemmas Pulsar PulsarLemmas.
Local Open Scope Z_scope.

Class ApiTwin (A B : Type) `{ProtoLaws A} `{ApiLaws B} := {
  to_api : A → B;
  to_api_encode m : api_encode (to_api m) = pb_encode m;
  to_api_ok discard m : pb_ok m → api_ok discard (to_api m);
}.

(** The text of a decimal, which [MarshalTo] writes, has a digit at least. *)
Class DecText `{DecCodec} := { dec_text_nonempty d : dec_text d ≠ [] }.

Definition api_dec `{DecCodec} (d : LegacyDec) : string := String.string_of_list_ascii (dec_text d).
Definition api_dec_pointer `{DecCodec} (d : option LegacyDec) : string :=
  match d with None => "" | Some d => api_dec d end.
Definition api_pointer {A B} `{ApiTwin A B, EqDecision A} (nil : A) (m : A) : option B :=
  if decide (m = nil) then None else Some (to_api m).
Definition api_list {A B} `{ApiTwin A B} (l : list A) : list (option B) := map (Some ∘ to_api) l.
Definition api_bytestring (s : string) : bytes := String.list_ascii_of_string s.
Definition api_bytestrings (l : list string) : list bytes := map String.list_ascii_of_string l.

(** ** Encodings *)

Lemma enc_api_dec `{DecText} tag d : enc_string tag (api_dec d) = enc_dec tag d.
Proof.
  unfold enc_string, enc_bytes, api_dec. rewrite String.list_ascii_of_string_of_list_ascii.
  pose proof (dec_text_nonempty d). destruct (0 <? len (dec_text d)) eqn:E; [done|].
  by apply bytes_length_pos in E.
Qed.
Lemma enc_api_dec_pointer `{DecText} tag d :
  enc_string tag (api_dec_pointer d) = enc_dec_pointer tag d.
Proof. destruct d; [apply enc_api_dec|done]. Qed.
Lemma enc_api_bytestring tag s : enc_bytes tag (api_bytestring s) = enc_bytestring tag s.
Proof. done. Qed.
Lemma enc_api_bytestrings tag l : enc_bytess tag (api_bytestrings l) = enc_bytestrings tag l.
Proof.
  unfold enc_bytess, enc_bytestrings, enc_strings, enc_each, api_bytestrings.
  by rewrite map_map.
Qed.

Section messages.
Context `{ApiTwin A B}.

Lemma enc_api_some tag (m : A) : enc_api_message tag (Some (to_api m)) = enc_message tag m.
Proof. simpl. by rewrite to_api_encode. Qed.
Lemma enc_api_option tag (m : option A) : enc_api_message tag (to_api <$> m) = enc_option tag m.
Proof. destruct m; [apply enc_api_some|done]. Qed.
Lemma enc_api_pointer `{EqDecision A} nil tag (m : A) :
  enc_api_message tag (api_pointer nil m) = enc_pointer nil tag m.
Proof. unfold api_pointer, enc_pointer. case_decide; [done|apply enc_api_some]. Qed.
Lemma enc_api_list tag (l : list A) : enc_api_messages tag (api_list l) = enc_messages tag l.
Proof.
  unfold enc_api_messages, enc_messages, enc_each, api_list. rewrite map_map. f_equal.
  apply map_ext. intros m. simpl. by rewrite to_api_encode.
Qed.

Lemma api_some_ok_twin discard (m : A) : pb_ok m → api_option_ok discard (Some (to_api m)).
Proof. apply to_api_ok. Qed.
Lemma api_option_ok_twin discard (m : option A) :
  option_ok m → api_option_ok discard (to_api <$> m).
Proof. destruct m; [apply to_api_ok|done]. Qed.
Lemma api_pointer_ok_twin `{EqDecision A} discard nil (m : A) :
  pb_ok m → api_option_ok discard (api_pointer nil m).
Proof. unfold api_pointer. case_decide; [done|apply to_api_ok]. Qed.
Lemma api_list_ok_twin discard (l : list A) :
  Forall pb_ok l → Forall (api_element_ok discard) (api_list l).
Proof. intros Hl. apply Forall_map. eapply Forall_impl; [exact Hl|]. intros m. apply to_api_ok. Qed.
End messages.

Lemma kept_nothing {A} (field : bool → Z → option (field_reader A)) discard :
  kept_fields field discard [].
Proof. destruct discard; [done|constructor]. Qed.

Create HintDb twin.
#[export] Hint Resolve to_api_ok api_some_ok_twin api_option_ok_twin api_pointer_ok_twin api_list_ok_twin
  kept_nothing : twin.

Arguments enc_varint : simpl never.
Arguments enc_bool : simpl never.
Arguments enc_string : simpl never.
Arguments enc_bytes : simpl never.
Arguments enc_strings : simpl never.
Arguments enc_bytess : simpl never.
Arguments enc_packed : simpl never.
Arguments enc_api_message : simpl never.
Arguments enc_api_messages : simpl never.
Arguments enc_message : simpl never.
Arguments enc_messages : simpl never.
Arguments enc_option : simpl never.
Arguments enc_pointer : simpl never.
Arguments enc_dec : simpl never.
Arguments enc_dec_pointer : simpl never.
Arguments to_api : simpl never.
Arguments api_dec : simpl never.
Arguments api_dec_pointer : simpl never.
Arguments api_option_ok : simpl never.

(** A message and its twin, whose definitions are [encode] and [ok] of either
    side. *)
Ltac solve_twin f encode ok encode' ok' :=
  let h := head_of f in let e := head_of encode in let o := head_of ok in
  let e' := head_of encode' in let o' := head_of ok' in
  refine {| to_api := f |};
  [intros m; change (encode' (f m) = encode m); unfold e', e, h; cbn;
   rewrite ?app_nil_r, ?enc_api_dec, ?enc_api_dec_pointer, ?enc_api_bytestring,
     ?enc_api_bytestrings, ?enc_api_some, ?enc_api_option, ?enc_api_pointer, ?enc_api_list;
   reflexivity
  |intros discard m Hm; change (ok m) in Hm; change (ok' discard (f m));
   unfold o in Hm; unfold o', h; cbn; destruct_and?; split_and?; auto with twin].

(** ** What twins promise to each other *)

Section twins.
Context `{ApiTwin A B}.
Implicit Types m : A.

(** [Marshal] of one side writes the bytes of the other. *)
Lemma twin_marshal m bz :
  pb_Marshal m = Ok bz → api_marshal (Some (to_api m)) None = Ok (Some bz).
Proof.
  rewrite pb_Marshal_encode. destruct (Z.leb_spec (2 ^ 63) (len (pb_encode m))); [done|].
  intros [= <-]. rewrite api_marshal_encode; rewrite to_api_encode; [done|lia].
Qed.
Lemma twin_marshal_inv m bz :
  len (pb_encode m) < 2 ^ 63 → api_marshal (Some (to_api m)) None = Ok (Some bz) →
  pb_Marshal m = Ok bz.
Proof.
  intros Hl. rewrite api_marshal_encode, to_api_encode, pb_Marshal_encode by by rewrite to_api_encode.
  rewrite (proj2 (Z.leb_gt _ _)) by done. by intros [= <-].
Qed.

(** [Unmarshal] of one side reads the bytes of the other. *)
Lemma twin_unmarshal discard m bz :
  pb_ok m → pb_Marshal m = Ok bz →
  api_unmarshal discard (Some api_new) bz = Ok (Some (to_api m)).
Proof.
  rewrite pb_Marshal_encode. destruct (Z.leb_spec (2 ^ 63) (len (pb_encode m))); [done|].
  intros Hok [= <-]. rewrite <- to_api_encode.
  apply api_unmarshal_encode; [by apply to_api_ok|rewrite to_api_encode; lia].
Qed.
Lemma twin_pb_Unmarshal m bz :
  pb_ok m → len (pb_encode m) < 2 ^ 63 → api_marshal (Some (to_api m)) None = Ok (Some bz) →
  pb_Unmarshal pb_empty bz = Ok m.
Proof. intros Hok Hl Hm%twin_marshal_inv; [|done]. by eapply pb_Marshal_Unmarshal. Qed.
End twins.
