(* ===== verification/OracleProto.v ===== *)
(** * OracleProto: the wire format of the oracle's data

    [src/x/oracle/types/oracle.pb.go] and [abci.pb.go]: [Size],
    [MarshalToSizedBuffer] and the cases of [Unmarshal] of every message of both
    files, field by field, from
    the fragments of Wire; and their reference encodings, for which the laws of
    [ProtoLaws] hold.  [sdk.DecCoin] is code of the SDK: a message whose laws
    are a hypothesis, as the text of a [LegacyDec] is; [coin_nil] is the nil
    pointer to a coin. *)
From S2P Require Import Prelude Util Dec Types Wire WireLemmas.
Local Open Scope Z_scope.

Class CoinNil := coin_nil : DecCoin.

(** The only part of a coin that may not be encodable is its amount; and the
    amounts that are parsed are neither nil nor too large. *)
Class CoinWire `{DecCodecLaws, ProtoLaws DecCoin} : Prop :=
  coin_wire c : dec_ok (dc_Amount c) → pb_ok c.
Class ParsedWire `{DecOps, DecCodecLaws} : Prop :=
  parsed_wire s d : LegacyNewDecFromStr s = Ok d → 0 < d → dec_ok d.

(** [ValidatorRewardSet]; the state keeps its only field. *)
Record RewardSet := mkRewardSet { ValidatorSet : list string }.

Section messages.
Context `{DecCodec} `{ProtoMessage DecCoin} `{CoinNil}.

(** [Denom] *)

Definition Denom_MarshalToSizedBuffer (m : Denom) : W :=
  put_varint [0x18] (Exponent m) ;; put_string [0x12] (SymbolDenom m) ;;
  put_string [0xa] (BaseDenom m).
Definition Denom_Size (m : Denom) : Z :=
  size_string 1 (BaseDenom m) + size_string 1 (SymbolDenom m) + size_varint 1 (Exponent m).
Definition Denom_field (n : Z) : option (field_reader Denom) :=
  if n =? 1 then
    Some (string_field "BaseDenom" (λ m v, mkDenom v (SymbolDenom m) (Exponent m))) else
  if n =? 2 then
    Some (string_field "SymbolDenom" (λ m v, mkDenom (BaseDenom m) v (Exponent m))) else
  if n =? 3 then
    Some (varint_field "Exponent" wrap_u32 (λ m v, mkDenom (BaseDenom m) (SymbolDenom m) v)) else
  None.
#[export] Instance Denom_message : ProtoMessage Denom :=
  message "Denom" (mkDenom "" "" 0)
    Denom_Size Denom_MarshalToSizedBuffer Denom_field.

(** [RewardBand] *)

Definition RewardBand_MarshalToSizedBuffer (m : RewardBand) : W :=
  put_dec [0x12] (rb_RewardBand m) ;; put_string [0xa] (rb_SymbolDenom m).
Definition RewardBand_Size (m : RewardBand) : Z :=
  size_string 1 (rb_SymbolDenom m) + size_dec 1 (rb_RewardBand m).
Definition RewardBand_field (n : Z) : option (field_reader RewardBand) :=
  if n =? 1 then Some (string_field "SymbolDenom" (λ m v, mkRewardBand v (rb_RewardBand m))) else
  if n =? 2 then
    Some (dec_field "RewardBand" rb_RewardBand (λ m v, mkRewardBand (rb_SymbolDenom m) v)) else
  None.
#[export] Instance RewardBand_message : ProtoMessage RewardBand :=
  message "RewardBand" (mkRewardBand "" dec_nil)
    RewardBand_Size RewardBand_MarshalToSizedBuffer RewardBand_field.

(** [PairAddressProvider] *)

Definition PairAddressProvider_MarshalToSizedBuffer (m : PairAddressProvider) : W :=
  put_string [0x12] (AddressProvider m) ;; put_string [0xa] (Address m).
Definition PairAddressProvider_Size (m : PairAddressProvider) : Z :=
  size_string 1 (Address m) + size_string 1 (AddressProvider m).
Definition PairAddressProvider_field (n : Z) : option (field_reader PairAddressProvider) :=
  if n =? 1 then
    Some (string_field "Address" (λ m v, mkPairAddressProvider v (AddressProvider m))) else
  if n =? 2 then
    Some (string_field "AddressProvider" (λ m v, mkPairAddressProvider (Address m) v)) else
  None.
#[export] Instance PairAddressProvider_message : ProtoMessage PairAddressProvider :=
  message "PairAddressProvider" (mkPairAddressProvider "" "")
    PairAddressProvider_Size PairAddressProvider_MarshalToSizedBuffer PairAddressProvider_field.

(** [CurrencyPairProviders] *)

Definition CurrencyPairProviders_MarshalToSizedBuffer (m : CurrencyPairProvider) : W :=
  put_strings [0x22] (cpp_Providers m) ;; put_messages [0x1a] (cpp_PairAddress m) ;;
  put_string [0x12] (cpp_QuoteDenom m) ;; put_string [0xa] (cpp_BaseDenom m).
Definition CurrencyPairProviders_Size (m : CurrencyPairProvider) : Z :=
  size_string 1 (cpp_BaseDenom m) + size_string 1 (cpp_QuoteDenom m) +
  size_messages 1 (cpp_PairAddress m) + size_strings 1 (cpp_Providers m).
Definition CurrencyPairProviders_field (n : Z) : option (field_reader CurrencyPairProvider) :=
  if n =? 1 then
    Some (string_field "BaseDenom"
      (λ m v, mkCurrencyPairProvider v (cpp_QuoteDenom m) (cpp_PairAddress m) (cpp_Providers m)))
         else
  if n =? 2 then
    Some (string_field "QuoteDenom"
      (λ m v, mkCurrencyPairProvider (cpp_BaseDenom m) v (cpp_PairAddress m) (cpp_Providers m)))
         else
  if n =? 3 then
    Some (messages_field "PairAddress" cpp_PairAddress
      (λ m v, mkCurrencyPairProvider (cpp_BaseDenom m) (cpp_QuoteDenom m) v (cpp_Providers m))) else
  if n =? 4 then
    Some (strings_field "Providers" cpp_Providers
      (λ m v, mkCurrencyPairProvider (cpp_BaseDenom m) (cpp_QuoteDenom m) (cpp_PairAddress m) v))
         else
  None.
#[export] Instance CurrencyPairProviders_message : ProtoMessage CurrencyPairProvider :=
  message "CurrencyPairProviders" (mkCurrencyPairProvider "" "" [] [])
    CurrencyPairProviders_Size
    CurrencyPairProviders_MarshalToSizedBuffer
    CurrencyPairProviders_field.

(** [CurrencyDeviationThreshold] *)

Definition CurrencyDeviationThreshold_MarshalToSizedBuffer (m : CurrencyDeviationThreshold) : W :=
  put_string [0x12] (cdt_Threshold m) ;; put_string [0xa] (cdt_BaseDenom m).
Definition CurrencyDeviationThreshold_Size (m : CurrencyDeviationThreshold) : Z :=
  size_string 1 (cdt_BaseDenom m) + size_string 1 (cdt_Threshold m).
Definition CurrencyDeviationThreshold_field (n : Z) :
    option (field_reader CurrencyDeviationThreshold) :=
  if n =? 1 then
    Some (string_field "BaseDenom" (λ m v, mkCurrencyDeviationThreshold v (cdt_Threshold m))) else
  if n =? 2 then
    Some (string_field "Threshold" (λ m v, mkCurrencyDeviationThreshold (cdt_BaseDenom m) v)) else
  None.
#[export] Instance CurrencyDeviationThreshold_message : ProtoMessage CurrencyDeviationThreshold :=
  message "CurrencyDeviationThreshold" (mkCurrencyDeviationThreshold "" "")
    CurrencyDeviationThreshold_Size
    CurrencyDeviationThreshold_MarshalToSizedBuffer
    CurrencyDeviationThreshold_field.

(** [Params] *)

Definition Params_MarshalToSizedBuffer (m : Params) : W :=
  put_varint [0x90; 0x1] (Types.AveragingWindow m) ;;
  put_bool [0x88; 0x1] (Types.SlashingEnabled m) ;;
  put_string [0x82; 0x1] (Types.UsdcIbcDenom m) ;;
  put_messages [0x7a] (Types.CurrencyDeviationThresholds m) ;;
  put_messages [0x72] (Types.CurrencyPairProviders m) ;;
  put_varint [0x68] (Types.MaximumMedianStamps m) ;;
  put_varint [0x60] (Types.MaximumPriceStamps m) ;;
  put_varint [0x58] (Types.MedianStampPeriod m) ;;
  put_varint [0x50] (Types.HistoricStampPeriod m) ;;
  put_messages [0x4a] (Types.MandatoryList m) ;; put_dec [0x42] (Types.MinValidPerWindow m) ;;
  put_varint [0x38] (Types.SlashWindow m) ;; put_dec [0x32] (Types.SlashFraction m) ;;
  put_messages [0x2a] (Types.AcceptList m) ;;
  put_varint [0x20] (Types.RewardDistributionWindow m) ;;
  put_messages [0x1a] (Types.RewardBands m) ;; put_dec [0x12] (Types.VoteThreshold m) ;;
  put_varint [0x8] (Types.VotePeriod m).
Definition Params_Size (m : Params) : Z :=
  size_varint 1 (Types.VotePeriod m) + size_dec 1 (Types.VoteThreshold m) +
  size_messages 1 (Types.RewardBands m) + size_varint 1 (Types.RewardDistributionWindow m) +
  size_messages 1 (Types.AcceptList m) + size_dec 1 (Types.SlashFraction m) +
  size_varint 1 (Types.SlashWindow m) + size_dec 1 (Types.MinValidPerWindow m) +
  size_messages 1 (Types.MandatoryList m) + size_varint 1 (Types.HistoricStampPeriod m) +
  size_varint 1 (Types.MedianStampPeriod m) + size_varint 1 (Types.MaximumPriceStamps m) +
  size_varint 1 (Types.MaximumMedianStamps m) + size_messages 1 (Types.CurrencyPairProviders m) +
  size_messages 1 (Types.CurrencyDeviationThresholds m) + size_string 2 (Types.UsdcIbcDenom m) +
  size_bool 2 (Types.SlashingEnabled m) + size_varint 2 (Types.AveragingWindow m).
Definition Params_field (n : Z) : option (field_reader Params) :=
  if n =? 1 then Some (varint_field "VotePeriod" wrap_u64 (λ m v, with_VotePeriod v m)) else
  if n =? 2 then
    Some (dec_field "VoteThreshold" Types.VoteThreshold (λ m v, with_VoteThreshold v m)) else
  if n =? 3 then
    Some (messages_field "RewardBands" Types.RewardBands (λ m v, with_RewardBands v m)) else
  if n =? 4 then
    Some (varint_field "RewardDistributionWindow" wrap_u64
      (λ m v, with_RewardDistributionWindow v m)) else
  if n =? 5 then
    Some (messages_field "AcceptList" Types.AcceptList (λ m v, with_AcceptList v m)) else
  if n =? 6 then
    Some (dec_field "SlashFraction" Types.SlashFraction (λ m v, with_SlashFraction v m)) else
  if n =? 7 then Some (varint_field "SlashWindow" wrap_u64 (λ m v, with_SlashWindow v m)) else
  if n =? 8 then
    Some (dec_field "MinValidPerWindow" Types.MinValidPerWindow
      (λ m v, with_MinValidPerWindow v m)) else
  if n =? 9 then
    Some (messages_field "MandatoryList" Types.MandatoryList (λ m v, with_MandatoryList v m)) else
  if n =? 10 then
    Some (varint_field "HistoricStampPeriod" wrap_u64 (λ m v, with_HistoricStampPeriod v m)) else
  if n =? 11 then
    Some (varint_field "MedianStampPeriod" wrap_u64 (λ m v, with_MedianStampPeriod v m)) else
  if n =? 12 then
    Some (varint_field "MaximumPriceStamps" wrap_u64 (λ m v, with_MaximumPriceStamps v m)) else
  if n =? 13 then
    Some (varint_field "MaximumMedianStamps" wrap_u64 (λ m v, with_MaximumMedianStamps v m)) else
  if n =? 14 then
    Some (messages_field "CurrencyPairProviders" Types.CurrencyPairProviders
      (λ m v, with_CurrencyPairProviders v m)) else
  if n =? 15 then
    Some (messages_field "CurrencyDeviationThresholds" Types.CurrencyDeviationThresholds
      (λ m v, with_CurrencyDeviationThresholds v m)) else
  if n =? 16 then Some (string_field "UsdcIbcDenom" (λ m v, with_UsdcIbcDenom v m)) else
  if n =? 17 then Some (bool_field "SlashingEnabled" (λ m v, with_SlashingEnabled v m)) else
  if n =? 18 then
    Some (varint_field "AveragingWindow" wrap_u64 (λ m v, with_AveragingWindow v m)) else
  None.
#[export] Instance Params_message : ProtoMessage Params :=
  message "Params" (mkParams 0 dec_nil [] 0 [] dec_nil 0 dec_nil [] 0 0 0 0 [] [] "" false 0)
    Params_Size Params_MarshalToSizedBuffer Params_field.

(** [ParamUpdatePlan] *)

Definition ParamUpdatePlan_MarshalToSizedBuffer (m : ParamUpdatePlan) : W :=
  put_message [0x1a] (plan_Changes m) ;; put_varint [0x10] (plan_Height m) ;;
  put_strings [0xa] (plan_Keys m).
Definition ParamUpdatePlan_Size (m : ParamUpdatePlan) : Z :=
  size_strings 1 (plan_Keys m) + size_varint 1 (plan_Height m) +
  size_delimited 1 (pb_Size (plan_Changes m)).
Definition ParamUpdatePlan_field (n : Z) : option (field_reader ParamUpdatePlan) :=
  if n =? 1 then
    Some (strings_field "Keys" plan_Keys (λ m v, mkPlan v (plan_Height m) (plan_Changes m))) else
  if n =? 2 then
    Some (varint_field "Height" wrap_i64 (λ m v, mkPlan (plan_Keys m) v (plan_Changes m))) else
  if n =? 3 then
    Some (message_field "Changes" plan_Changes
      (λ m v, mkPlan (plan_Keys m) (plan_Height m) v)) else
  None.
#[export] Instance ParamUpdatePlan_message : ProtoMessage ParamUpdatePlan :=
  message "ParamUpdatePlan" (mkPlan [] 0 pb_empty)
    ParamUpdatePlan_Size ParamUpdatePlan_MarshalToSizedBuffer ParamUpdatePlan_field.

(** [AggregateExchangeRatePrevote] *)

Definition AggregateExchangeRatePrevote_MarshalToSizedBuffer (m : AggregateExchangeRatePrevote) :
    W :=
  put_varint [0x18] (pv_SubmitBlock m) ;; put_string [0x12] (pv_Voter m) ;;
  put_string [0xa] (pv_Hash m).
Definition AggregateExchangeRatePrevote_Size (m : AggregateExchangeRatePrevote) : Z :=
  size_string 1 (pv_Hash m) + size_string 1 (pv_Voter m) + size_varint 1 (pv_SubmitBlock m).
Definition AggregateExchangeRatePrevote_field (n : Z) :
    option (field_reader AggregateExchangeRatePrevote) :=
  if n =? 1 then
    Some (string_field "Hash" (λ m v, mkPrevote v (pv_Voter m) (pv_SubmitBlock m))) else
  if n =? 2 then
    Some (string_field "Voter" (λ m v, mkPrevote (pv_Hash m) v (pv_SubmitBlock m))) else
  if n =? 3 then
    Some (varint_field "SubmitBlock" wrap_u64 (λ m v, mkPrevote (pv_Hash m) (pv_Voter m) v)) else
  None.
#[export] Instance AggregateExchangeRatePrevote_message :
    ProtoMessage AggregateExchangeRatePrevote :=
  message "AggregateExchangeRatePrevote" (mkPrevote "" "" 0)
    AggregateExchangeRatePrevote_Size
    AggregateExchangeRatePrevote_MarshalToSizedBuffer
    AggregateExchangeRatePrevote_field.

(** [AggregateExchangeRateVote] *)

Definition AggregateExchangeRateVote_MarshalToSizedBuffer (m : AggregateExchangeRateVote) : W :=
  put_string [0x12] (vt_Voter m) ;; put_messages [0xa] (vt_ExchangeRates m).
Definition AggregateExchangeRateVote_Size (m : AggregateExchangeRateVote) : Z :=
  size_messages 1 (vt_ExchangeRates m) + size_string 1 (vt_Voter m).
Definition AggregateExchangeRateVote_field (n : Z) :
    option (field_reader AggregateExchangeRateVote) :=
  if n =? 1 then
    Some (messages_field "ExchangeRates" vt_ExchangeRates (λ m v, mkVote v (vt_Voter m))) else
  if n =? 2 then Some (string_field "Voter" (λ m v, mkVote (vt_ExchangeRates m) v)) else
  None.
#[export] Instance AggregateExchangeRateVote_message : ProtoMessage AggregateExchangeRateVote :=
  message "AggregateExchangeRateVote" (mkVote [] "")
    AggregateExchangeRateVote_Size
    AggregateExchangeRateVote_MarshalToSizedBuffer
    AggregateExchangeRateVote_field.

(** [PriceStamp] *)

Definition PriceStamp_MarshalToSizedBuffer (m : PriceStamp) : W :=
  put_varint [0x10] (ps_BlockNum m) ;; put_pointer coin_nil [0xa] (ps_ExchangeRate m).
Definition PriceStamp_Size (m : PriceStamp) : Z :=
  size_pointer coin_nil 1 (ps_ExchangeRate m) + size_varint 1 (ps_BlockNum m).
Definition PriceStamp_field (n : Z) : option (field_reader PriceStamp) :=
  if n =? 1 then
    Some (pointer_field coin_nil "ExchangeRate" ps_ExchangeRate
      (λ m v, mkPriceStamp v (ps_BlockNum m))) else
  if n =? 2 then
    Some (varint_field "BlockNum" wrap_u64 (λ m v, mkPriceStamp (ps_ExchangeRate m) v)) else
  None.
#[export] Instance PriceStamp_message : ProtoMessage PriceStamp :=
  message "PriceStamp" (mkPriceStamp coin_nil 0)
    PriceStamp_Size PriceStamp_MarshalToSizedBuffer PriceStamp_field.

(** [ValidatorRewardSet] *)

Definition ValidatorRewardSet_MarshalToSizedBuffer (m : RewardSet) : W :=
  put_strings [0xa] (ValidatorSet m).
Definition ValidatorRewardSet_Size (m : RewardSet) : Z :=
  size_strings 1 (ValidatorSet m).
Definition ValidatorRewardSet_field (n : Z) : option (field_reader RewardSet) :=
  if n =? 1 then Some (strings_field "ValidatorSet" ValidatorSet (λ m v, mkRewardSet v)) else
  None.
#[export] Instance ValidatorRewardSet_message : ProtoMessage RewardSet :=
  message "ValidatorRewardSet" (mkRewardSet [])
    ValidatorRewardSet_Size ValidatorRewardSet_MarshalToSizedBuffer ValidatorRewardSet_field.
End messages.

(** ** Reference encodings *)

Section laws.
Context `{DecCodecLaws} `{ProtoLaws DecCoin} `{CoinNil}.

Definition Denom_encode (m : Denom) : bytes :=
  enc_string [0xa] (BaseDenom m) ++ enc_string [0x12] (SymbolDenom m) ++
  enc_varint [0x18] (Exponent m).
Definition Denom_ok (m : Denom) : Prop :=
  is_u32 (Exponent m).
#[export] Instance Denom_laws : ProtoLaws Denom.
Proof. solve_message Denom_encode Denom_ok Denom_Size Denom_MarshalToSizedBuffer. Defined.

Definition RewardBand_encode (m : RewardBand) : bytes :=
  enc_string [0xa] (rb_SymbolDenom m) ++ enc_dec [0x12] (rb_RewardBand m).
Definition RewardBand_ok (m : RewardBand) : Prop :=
  dec_ok (rb_RewardBand m).
#[export] Instance RewardBand_laws : ProtoLaws RewardBand.
Proof.
  solve_message RewardBand_encode RewardBand_ok RewardBand_Size RewardBand_MarshalToSizedBuffer.
Defined.

Definition PairAddressProvider_encode (m : PairAddressProvider) : bytes :=
  enc_string [0xa] (Address m) ++ enc_string [0x12] (AddressProvider m).
Definition PairAddressProvider_ok (m : PairAddressProvider) : Prop :=
  True.
#[export] Instance PairAddressProvider_laws : ProtoLaws PairAddressProvider.
Proof.
  solve_message PairAddressProvider_encode PairAddressProvider_ok PairAddressProvider_Size
    PairAddressProvider_MarshalToSizedBuffer.
Defined.

Definition CurrencyPairProviders_encode (m : CurrencyPairProvider) : bytes :=
  enc_string [0xa] (cpp_BaseDenom m) ++ enc_string [0x12] (cpp_QuoteDenom m) ++
  enc_messages [0x1a] (cpp_PairAddress m) ++ enc_strings [0x22] (cpp_Providers m).
Definition CurrencyPairProviders_ok (m : CurrencyPairProvider) : Prop :=
  Forall pb_ok (cpp_PairAddress m).
#[export] Instance CurrencyPairProviders_laws : ProtoLaws CurrencyPairProvider.
Proof.
  solve_message CurrencyPairProviders_encode CurrencyPairProviders_ok CurrencyPairProviders_Size
    CurrencyPairProviders_MarshalToSizedBuffer.
Defined.

Definition CurrencyDeviationThreshold_encode (m : CurrencyDeviationThreshold) : bytes :=
  enc_string [0xa] (cdt_BaseDenom m) ++ enc_string [0x12] (cdt_Threshold m).
Definition CurrencyDeviationThreshold_ok (m : CurrencyDeviationThreshold) : Prop :=
  True.
#[export] Instance CurrencyDeviationThreshold_laws : ProtoLaws CurrencyDeviationThreshold.
Proof.
  solve_message CurrencyDeviationThreshold_encode CurrencyDeviationThreshold_ok
    CurrencyDeviationThreshold_Size CurrencyDeviationThreshold_MarshalToSizedBuffer.
Defined.

Definition Params_encode (m : Params) : bytes :=
  enc_varint [0x8] (Types.VotePeriod m) ++ enc_dec [0x12] (Types.VoteThreshold m) ++
  enc_messages [0x1a] (Types.RewardBands m) ++
  enc_varint [0x20] (Types.RewardDistributionWindow m) ++
  enc_messages [0x2a] (Types.AcceptList m) ++ enc_dec [0x32] (Types.SlashFraction m) ++
  enc_varint [0x38] (Types.SlashWindow m) ++ enc_dec [0x42] (Types.MinValidPerWindow m) ++
  enc_messages [0x4a] (Types.MandatoryList m) ++
  enc_varint [0x50] (Types.HistoricStampPeriod m) ++
  enc_varint [0x58] (Types.MedianStampPeriod m) ++
  enc_varint [0x60] (Types.MaximumPriceStamps m) ++
  enc_varint [0x68] (Types.MaximumMedianStamps m) ++
  enc_messages [0x72] (Types.CurrencyPairProviders m) ++
  enc_messages [0x7a] (Types.CurrencyDeviationThresholds m) ++
  enc_string [0x82; 0x1] (Types.UsdcIbcDenom m) ++
  enc_bool [0x88; 0x1] (Types.SlashingEnabled m) ++
  enc_varint [0x90; 0x1] (Types.AveragingWindow m).
Definition Params_ok (m : Params) : Prop :=
  is_u64 (Types.VotePeriod m) ∧ dec_ok (Types.VoteThreshold m) ∧
  Forall pb_ok (Types.RewardBands m) ∧ is_u64 (Types.RewardDistributionWindow m) ∧
  Forall pb_ok (Types.AcceptList m) ∧ dec_ok (Types.SlashFraction m) ∧
  is_u64 (Types.SlashWindow m) ∧ dec_ok (Types.MinValidPerWindow m) ∧
  Forall pb_ok (Types.MandatoryList m) ∧ is_u64 (Types.HistoricStampPeriod m) ∧
  is_u64 (Types.MedianStampPeriod m) ∧ is_u64 (Types.MaximumPriceStamps m) ∧
  is_u64 (Types.MaximumMedianStamps m) ∧ Forall pb_ok (Types.CurrencyPairProviders m) ∧
  Forall pb_ok (Types.CurrencyDeviationThresholds m) ∧ is_u64 (Types.AveragingWindow m).
#[export] Instance Params_laws : ProtoLaws Params.
Proof. solve_message Params_encode Params_ok Params_Size Params_MarshalToSizedBuffer. Defined.

Definition ParamUpdatePlan_encode (m : ParamUpdatePlan) : bytes :=
  enc_strings [0xa] (plan_Keys m) ++ enc_varint [0x10] (plan_Height m) ++
  enc_message [0x1a] (plan_Changes m).
Definition ParamUpdatePlan_ok (m : ParamUpdatePlan) : Prop :=
  is_i64 (plan_Height m) ∧ pb_ok (plan_Changes m).
#[export] Instance ParamUpdatePlan_laws : ProtoLaws ParamUpdatePlan.
Proof.
  solve_message ParamUpdatePlan_encode ParamUpdatePlan_ok ParamUpdatePlan_Size
    ParamUpdatePlan_MarshalToSizedBuffer.
Defined.

Definition AggregateExchangeRatePrevote_encode (m : AggregateExchangeRatePrevote) : bytes :=
  enc_string [0xa] (pv_Hash m) ++ enc_string [0x12] (pv_Voter m) ++
  enc_varint [0x18] (pv_SubmitBlock m).
Definition AggregateExchangeRatePrevote_ok (m : AggregateExchangeRatePrevote) : Prop :=
  is_u64 (pv_SubmitBlock m).
#[export] Instance AggregateExchangeRatePrevote_laws : ProtoLaws AggregateExchangeRatePrevote.
Proof.
  solve_message AggregateExchangeRatePrevote_encode AggregateExchangeRatePrevote_ok
    AggregateExchangeRatePrevote_Size AggregateExchangeRatePrevote_MarshalToSizedBuffer.
Defined.

Definition AggregateExchangeRateVote_encode (m : AggregateExchangeRateVote) : bytes :=
  enc_messages [0xa] (vt_ExchangeRates m) ++ enc_string [0x12] (vt_Voter m).
Definition AggregateExchangeRateVote_ok (m : AggregateExchangeRateVote) : Prop :=
  Forall pb_ok (vt_ExchangeRates m).
#[export] Instance AggregateExchangeRateVote_laws : ProtoLaws AggregateExchangeRateVote.
Proof.
  solve_message AggregateExchangeRateVote_encode AggregateExchangeRateVote_ok
    AggregateExchangeRateVote_Size AggregateExchangeRateVote_MarshalToSizedBuffer.
Defined.

Definition PriceStamp_encode (m : PriceStamp) : bytes :=
  enc_pointer coin_nil [0xa] (ps_ExchangeRate m) ++ enc_varint [0x10] (ps_BlockNum m).
Definition PriceStamp_ok (m : PriceStamp) : Prop :=
  pb_ok (ps_ExchangeRate m) ∧ ps_ExchangeRate m ≠ coin_nil ∧ is_u64 (ps_BlockNum m).
#[export] Instance PriceStamp_laws : ProtoLaws PriceStamp.
Proof.
  solve_message PriceStamp_encode PriceStamp_ok PriceStamp_Size PriceStamp_MarshalToSizedBuffer.
Defined.

Definition ValidatorRewardSet_encode (m : RewardSet) : bytes :=
  enc_strings [0xa] (ValidatorSet m).
Definition ValidatorRewardSet_ok (m : RewardSet) : Prop :=
  True.
#[export] Instance ValidatorRewardSet_laws : ProtoLaws RewardSet.
Proof.
  solve_message ValidatorRewardSet_encode ValidatorRewardSet_ok ValidatorRewardSet_Size
    ValidatorRewardSet_MarshalToSizedBuffer.
Defined.
End laws.

(** ** [abci.pb.go]: the extension a validator adds to its vote, and the
    transaction a proposer injects in front of a block *)

Record OracleVoteExtension := mkVoteExt { ve_Height : Z; ve_ExchangeRates : list DecCoin }.

Record InjectedVoteExtensionTx := mkInjected {
  ij_ExchangeRateVotes : list AggregateExchangeRateVote;
  ij_ExtendedCommitInfo : bytes;
}.

Section messages.
Context `{ProtoMessage DecCoin}.

(** [OracleVoteExtension] *)

Definition OracleVoteExtension_MarshalToSizedBuffer (m : OracleVoteExtension) : W :=
  put_messages [0x12] (ve_ExchangeRates m) ;; put_varint [0x8] (ve_Height m).
Definition OracleVoteExtension_Size (m : OracleVoteExtension) : Z :=
  size_varint 1 (ve_Height m) + size_messages 1 (ve_ExchangeRates m).
Definition OracleVoteExtension_field (n : Z) : option (field_reader OracleVoteExtension) :=
  if n =? 1 then
    Some (varint_field "Height" wrap_i64 (λ m v, mkVoteExt v (ve_ExchangeRates m))) else
  if n =? 2 then
    Some (messages_field "ExchangeRates" ve_ExchangeRates (λ m v, mkVoteExt (ve_Height m) v)) else
  None.
#[export] Instance OracleVoteExtension_message : ProtoMessage OracleVoteExtension :=
  message "OracleVoteExtension" (mkVoteExt 0 [])
    OracleVoteExtension_Size OracleVoteExtension_MarshalToSizedBuffer OracleVoteExtension_field.

(** [InjectedVoteExtensionTx] *)

Definition InjectedVoteExtensionTx_MarshalToSizedBuffer (m : InjectedVoteExtensionTx) : W :=
  put_bytes [0x12] (ij_ExtendedCommitInfo m) ;; put_messages [0xa] (ij_ExchangeRateVotes m).
Definition InjectedVoteExtensionTx_Size (m : InjectedVoteExtensionTx) : Z :=
  size_messages 1 (ij_ExchangeRateVotes m) + size_bytes 1 (ij_ExtendedCommitInfo m).
Definition InjectedVoteExtensionTx_field (n : Z) : option (field_reader InjectedVoteExtensionTx) :=
  if n =? 1 then
    Some (messages_field "ExchangeRateVotes" ij_ExchangeRateVotes
      (λ m v, mkInjected v (ij_ExtendedCommitInfo m))) else
  if n =? 2 then
    Some (bytes_field "ExtendedCommitInfo" (λ m v, mkInjected (ij_ExchangeRateVotes m) v)) else
  None.
#[export] Instance InjectedVoteExtensionTx_message : ProtoMessage InjectedVoteExtensionTx :=
  message "InjectedVoteExtensionTx" (mkInjected [] [])
    InjectedVoteExtensionTx_Size
    InjectedVoteExtensionTx_MarshalToSizedBuffer
    InjectedVoteExtensionTx_field.
End messages.

Section laws.
Context `{ProtoLaws DecCoin}.

Definition OracleVoteExtension_encode (m : OracleVoteExtension) : bytes :=
  enc_varint [0x8] (ve_Height m) ++ enc_messages [0x12] (ve_ExchangeRates m).
Definition OracleVoteExtension_ok (m : OracleVoteExtension) : Prop :=
  is_i64 (ve_Height m) ∧ Forall pb_ok (ve_ExchangeRates m).
#[export] Instance OracleVoteExtension_laws : ProtoLaws OracleVoteExtension.
Proof.
  solve_message OracleVoteExtension_encode OracleVoteExtension_ok OracleVoteExtension_Size
    OracleVoteExtension_MarshalToSizedBuffer.
Defined.

Definition InjectedVoteExtensionTx_encode (m : InjectedVoteExtensionTx) : bytes :=
  enc_messages [0xa] (ij_ExchangeRateVotes m) ++ enc_bytes [0x12] (ij_ExtendedCommitInfo m).
Definition InjectedVoteExtensionTx_ok (m : InjectedVoteExtensionTx) : Prop :=
  Forall pb_ok (ij_ExchangeRateVotes m).
#[export] Instance InjectedVoteExtensionTx_laws : ProtoLaws InjectedVoteExtensionTx.
Proof.
  solve_message InjectedVoteExtensionTx_encode InjectedVoteExtensionTx_ok
    InjectedVoteExtensionTx_Size InjectedVoteExtensionTx_MarshalToSizedBuffer.
Defined.
End laws.
