(* ===== verification/WireSample.v ===== *)
(** * WireSample: a concrete text of decimals and concrete coins

    The parameters of the wire format, instantiated: the text of a [LegacyDec]
    is the decimal text of its integer, "0" for a nil one, and a coin and an
    [Any] are the messages with the two fields of the SDK's.  Nil is a number no program
    computes. *)
From Stdlib Require DecimalString DecimalZ.
From S2P Require Import Prelude Util Dec Types Wire WireLemmas OracleProto.
Local Open Scope Z_scope.

(** ** Coins, over any text of decimals *)

Section coin.
Context `{DecCodec}.

Definition DecCoin_MarshalToSizedBuffer (m : DecCoin) : W :=
  put_dec [0x12] (dc_Amount m) ;; put_string [0xa] (dc_Denom m).
Definition DecCoin_Size (m : DecCoin) : Z := size_string 1 (dc_Denom m) + size_dec 1 (dc_Amount m).
Definition DecCoin_field (n : Z) : option (field_reader DecCoin) :=
  if n =? 1 then Some (string_field "Denom" (λ m v, mkDecCoin v (dc_Amount m))) else
  if n =? 2 then Some (dec_field "Amount" dc_Amount (λ m v, mkDecCoin (dc_Denom m) v)) else
  None.
#[export] Instance DecCoin_message : ProtoMessage DecCoin :=
  message "DecCoin" (mkDecCoin EmptyString dec_nil) DecCoin_Size DecCoin_MarshalToSizedBuffer DecCoin_field.

End coin.

Section coin_laws.
Context `{DecCodecLaws}.

Definition DecCoin_encode (m : DecCoin) : bytes :=
  enc_string [0xa] (dc_Denom m) ++ enc_dec [0x12] (dc_Amount m).
Definition DecCoin_ok (m : DecCoin) : Prop := dec_ok (dc_Amount m).
#[export] Instance DecCoin_laws : ProtoLaws DecCoin.
Proof. solve_message DecCoin_encode DecCoin_ok DecCoin_Size DecCoin_MarshalToSizedBuffer. Defined.

#[export] Instance DecCoin_wire : CoinWire.
Proof. by intros c Hc. Qed.
End coin_laws.

(** ** [Any] *)

Definition Any_MarshalToSizedBuffer (m : Any) : W :=
  put_bytes [0x12] (Value m) ;; put_string [0xa] (TypeUrl m).
Definition Any_Size (m : Any) : Z := size_string 1 (TypeUrl m) + size_bytes 1 (Value m).
Definition Any_field (n : Z) : option (field_reader Any) :=
  if n =? 1 then Some (string_field "TypeUrl" (λ m v, mkAny v (Value m))) else
  if n =? 2 then Some (bytes_field "Value" (λ m v, mkAny (TypeUrl m) v)) else
  None.
#[export] Instance Any_message : ProtoMessage Any :=
  message "Any" (mkAny EmptyString []) Any_Size Any_MarshalToSizedBuffer Any_field.

Definition Any_encode (m : Any) : bytes := enc_string [0xa] (TypeUrl m) ++ enc_bytes [0x12] (Value m).
Definition Any_ok (m : Any) : Prop := True.
#[export] Instance Any_laws : ProtoLaws Any.
Proof. solve_message Any_encode Any_ok Any_Size Any_MarshalToSizedBuffer. Defined.

(** ** Decimal numerals *)

Definition nil_number : Z := - 2 ^ 400.

Definition Z_text (z : Z) : string := DecimalString.NilZero.string_of_int (Z.to_int z).
Definition text_Z (s : string) : option Z := option_map Z.of_int (DecimalString.NilZero.int_of_string s).

Lemma text_Z_text z : text_Z (Z_text z) = Some z.
Proof.
  unfold text_Z, Z_text. rewrite DecimalString.NilZero.isi.
  - simpl. by rewrite DecimalZ.of_to.
  - destruct z as [|p|p]; [done| |done]. intros [= E]. by apply DecimalPos.Unsigned.to_uint_nonnil in E.
  - destruct z as [|p|p]; [done|done|]. intros [= E]. by apply DecimalPos.Unsigned.to_uint_nonnil in E.
Qed.

#[export] Instance text_codec : DecCodec := {|
  dec_nil := nil_number;
  dec_text d := String.list_ascii_of_string (Z_text (if d =? nil_number then 0 else d));
  dec_Size d := len (String.list_ascii_of_string (Z_text (if d =? nil_number then 0 else d)));
  dec_Unmarshal old bz :=
    match bz with
    | [] => Ok old
    | _ =>
        match text_Z (String.string_of_list_ascii bz) with
        | Some z => Ok z
        | None => Err (Errorf "math/big: cannot unmarshal %q into a *big.Int")
        end
    end;
|}.

#[export] Instance text_codec_laws : DecCodecLaws.
Proof.
  refine {| dec_ok d := d ≠ nil_number |}.
  - done.
  - intros d old Hd. cbn [dec_text dec_Unmarshal text_codec].
    rewrite (proj2 (Z.eqb_neq _ _) Hd).
    destruct (String.list_ascii_of_string (Z_text d)) as [|c l] eqn:E.
    + apply (f_equal String.string_of_list_ascii) in E.
      rewrite String.string_of_list_ascii_of_string in E.
      pose proof (text_Z_text d) as H. by rewrite E in H.
    + by rewrite <- E, String.string_of_list_ascii_of_string, text_Z_text.
  - intros old bz. simpl. destruct bz; [done|]. by destruct (text_Z _).
Defined.

#[export] Instance sample_nil : CoinNil := mkDecCoin "nil" 0.
#[export] Instance sample_parsed_wire `{DecOps} : ParsedWire.
Proof. intros s d _ Hd. simpl. unfold nil_number. lia. Qed.
