(* ===== verification/Bech32.v ===== *)
(** * Bech32: the address codec of the Cosmos SDK

    [sdk.ValAddress], [sdk.AccAddress], their [String] methods and the two
    [FromBech32] parsers are SDK code: the class [Bech32].  An address is its
    raw bytes; the empty byte string is a nil address, whose [String] is
    empty.  [Bech32Laws] is the documented round trip.  [TagBech32] is a
    concrete codec for the witnesses. *)
From S2P Require Import Prelude Types.
Local Open Scope Z_scope.

Class Bech32 := {
  ValAddress_String : addr → string;
  ValAddressFromBech32 : string → outcome addr;
  AccAddress_String : addr → string;
  AccAddressFromBech32 : string → outcome addr;
}.

Class Bech32Laws (B : Bech32) : Prop := {
  ValAddress_roundtrip a : a ≠ "" → ValAddressFromBech32 (ValAddress_String a) = Ok a;
  AccAddress_roundtrip a : a ≠ "" → AccAddressFromBech32 (AccAddress_String a) = Ok a;
  ValAddress_String_nil : ValAddress_String "" = "";
  ValAddressFromBech32_nonempty s a : ValAddressFromBech32 s = Ok a → a ≠ "";
  AccAddressFromBech32_nonempty s a : AccAddressFromBech32 s = Ok a → a ≠ "";
}.

Lemma ValAddress_String_inj `{Bech32Laws} a b :
  a ≠ "" → b ≠ "" → ValAddress_String a = ValAddress_String b → a = b.
Proof.
  intros Ha Hb Heq. apply (f_equal ValAddressFromBech32) in Heq.
  rewrite !ValAddress_roundtrip in Heq by done. congruence.
Qed.

(** A tag byte in front of the address bytes. *)
Definition tag_string (c : ascii) (a : addr) : string :=
  match a with EmptyString => EmptyString | _ => String c a end.

Definition bech32_error : error := Errorf "decoding bech32 failed".

Definition tag_parse (c : ascii) (s : string) : outcome addr :=
  match s with
  | String c' (String _ _ as a) => if decide (c = c') then Ok a else Err bech32_error
  | _ => Err bech32_error
  end.

Definition TagBech32 : Bech32 := {|
  ValAddress_String := tag_string "v";
  ValAddressFromBech32 := tag_parse "v";
  AccAddress_String := tag_string "a";
  AccAddressFromBech32 := tag_parse "a";
|}.

Lemma tag_parse_nonempty c s a : tag_parse c s = Ok a → a ≠ "".
Proof.
  destruct s as [|c' s]; simpl; [done|].
  destruct s; [done|]. case_decide; [|done]. by intros [= <-].
Qed.

#[export] Instance TagBech32_laws : Bech32Laws TagBech32.
Proof.
  split; simpl.
  - by intros [].
  - by intros [].
  - done.
  - apply tag_parse_nonempty.
  - apply tag_parse_nonempty.
Qed.
