(* ===== verification/Ballot.v ===== *)
(** * Ballot: [src/x/oracle/types/ballot.go]

    Votes prepared for the tally, ballots, the power-weighted median, the
    standard deviation and the claims of validators.  A Go map that the code
    ranges over is a [gmap]; a function that ranges over one takes the
    enumeration as an argument [order], and the lemmas show that the result
    does not depend on it. *)
From S2P Require Import Prelude Util Dec Types Bech32.
Local Open Scope Z_scope.

Record VoteForTally := mkVoteForTally {
  vft_Denom : string;
  vft_ExchangeRate : LegacyDec;
  vft_Voter : addr;
  vft_Power : Z;
}.

#[export] Instance VoteForTally_eq_dec : EqDecision VoteForTally.
Proof. solve_decision. Defined.

Definition NewVoteForTally (rate : LegacyDec) (denom : string) (voter : addr) (power : Z) :
    VoteForTally := mkVoteForTally denom rate voter power.

Abbreviation ExchangeRateBallot := (list VoteForTally) (only parsing).

Definition ToMap `{Bech32} (pb : ExchangeRateBallot) : gmap string LegacyDec :=
  foldl (λ m vote, if 0 <? vft_ExchangeRate vote
                   then <[ValAddress_String (vft_Voter vote) := vft_ExchangeRate vote]> m
                   else m) ∅ pb.

(** [int64] addition wraps around. *)
Definition Power (pb : ExchangeRateBallot) : Z :=
  foldl (λ totalPower vote, wrap_i64 (totalPower + vft_Power vote)) 0 pb.

Definition Less (a b : VoteForTally) : bool :=
  if vft_ExchangeRate a <? vft_ExchangeRate b then true
  else if vft_ExchangeRate a =? vft_ExchangeRate b
  then bool_decide (String.le (vft_Voter a) (vft_Voter b) ∧ vft_Voter a ≠ vft_Voter b)
  else false.

(** The weak order of [Less]: what [sort.Sort] and [sort.IsSorted] go by. *)
Definition vote_le (a b : VoteForTally) : Prop := Less b a = false.

#[export] Instance vote_le_dec : RelDecision vote_le.
Proof. intros a b. unfold vote_le. apply _. Defined.

Definition sort_ballot (pb : ExchangeRateBallot) : ExchangeRateBallot := merge_sort vote_le pb.

(** [sort.IsSorted]: no element is less than the one before it. *)
Fixpoint IsSorted (pb : ExchangeRateBallot) : bool :=
  match pb with
  | a :: pb' => match pb' with
                | b :: _ => if Less b a then false else IsSorted pb'
                | [] => true
                end
  | [] => true
  end.

(** The loop of [WeightedMedian]; [None] when it falls through. *)
Fixpoint median_loop (half pivot : Z) (pb : ExchangeRateBallot) : option LegacyDec :=
  match pb with
  | [] => None
  | v :: pb' =>
      let pivot := wrap_i64 (pivot + vft_Power v) in
      if half <=? pivot then Some (vft_ExchangeRate v) else median_loop half pivot pb'
  end.

Definition WeightedMedian (pb : ExchangeRateBallot) : outcome LegacyDec :=
  if negb (IsSorted pb) then Err ErrBallotNotSorted else
  if decide (0 < length pb)%nat then
    let totalPower := Power pb in
    match median_loop (Z.quot totalPower 2) 0 pb with
    | Some r => Ok r
    | None => Ok LegacyZeroDec
    end
  else Ok LegacyZeroDec.

(** One guarded iteration: a panic is recovered and drops the vote. *)
Definition deviation_step `{DecOps} (median : LegacyDec) (st : LegacyDec * Z) (v : VoteForTally) :
    LegacyDec * Z :=
  let '(sum, ballotLength) := st in
  let guarded :=
    deviation ← dec_Sub (vft_ExchangeRate v) median;
    sq ← dec_Mul deviation deviation;
    dec_Add sum sq in
  match guarded with
  | Some sum' => (sum', ballotLength)
  | None => (sum, ballotLength - 1)
  end.

Definition StandardDeviation `{DecOps} (pb : ExchangeRateBallot) : outcome LegacyDec :=
  if decide (length pb = 0%nat) then Ok LegacyZeroDec else
  median ← WeightedMedian pb;
  let '(sum, ballotLength) :=
    foldl (deviation_step median) (LegacyZeroDec, Z.of_nat (length pb)) pb in
  variance ← or_panic (dec_QuoInt64 sum ballotLength);
  dec_ApproxSqrt variance.

(** ** Ballots by denom *)

Record BallotDenom := mkBallotDenom { bd_Ballot : ExchangeRateBallot; bd_Denom : string }.

Definition denom_le (a b : BallotDenom) : Prop := String.le (bd_Denom a) (bd_Denom b).

#[export] Instance denom_le_dec : RelDecision denom_le.
Proof. intros a b. unfold denom_le. apply _. Defined.

Definition BallotMapToSlice (order : list (string * ExchangeRateBallot)) : list BallotDenom :=
  merge_sort denom_le (map (λ '(denom, ballot), mkBallotDenom ballot denom) order).

(** ** Claims *)

Record Claim := mkClaim {
  cl_Power : Z;
  cl_Weight : Z;
  cl_MandatoryWinCount : Z;
  cl_Recipient : addr;
}.

#[export] Instance Claim_eq_dec : EqDecision Claim.
Proof. solve_decision. Defined.

Definition NewClaim (power weight mandatoryWinCount : Z) (recipient : addr) : Claim :=
  mkClaim power weight mandatoryWinCount recipient.

(** The zero value of the struct. *)
Definition zero_claim : Claim := mkClaim 0 0 0 "".

Definition rewardSetToMap (rewardSet : list string) : gmap string () :=
  foldl (λ m v, <[v := ()]> m) ∅ rewardSet.

Section claims.
Context `{Bech32}.

Definition claim_le (a b : Claim) : Prop :=
  String.le (ValAddress_String (cl_Recipient a)) (ValAddress_String (cl_Recipient b)).

#[export] Instance claim_le_dec : RelDecision claim_le.
Proof. intros a b. unfold claim_le. apply _. Defined.

(** [r[j] = claim] past the end of [r] is an index panic. *)
Definition claims_step (rewardMap : gmap string ())
    (st : list Claim * list Claim * nat * nat) (claim : Claim) :
    outcome (list Claim * list Claim * nat * nat) :=
  let '(c, r, i, j) := st in
  '(r, j) ← match rewardMap !! ValAddress_String (cl_Recipient claim) with
            | Some _ => if decide (j < length r)%nat then Ok (<[j := claim]> r, S j) else Panic
            | None => Ok (r, j)
            end;
  if decide (i < length c)%nat then Ok (<[i := claim]> c, r, S i, j) else Panic.

Definition ClaimMapToSlices (order : list Claim) (rewardSet : list string) :
    outcome (list Claim * list Claim) :=
  let rewardMap := rewardSetToMap rewardSet in
  '(c, r, i, j) ← foldM (claims_step rewardMap) order
    (replicate (length order) zero_claim, replicate (length rewardSet) zero_claim, 0%nat, 0%nat);
  Ok (merge_sort claim_le c, merge_sort claim_le r).
End claims.

(** ** Sorting *)

#[export] Instance String_le_po : PartialOrder String.le := _.

Lemma Less_spec a b :
  Less a b = true ↔
  vft_ExchangeRate a < vft_ExchangeRate b ∨
  (vft_ExchangeRate a = vft_ExchangeRate b ∧
   String.le (vft_Voter a) (vft_Voter b) ∧ vft_Voter a ≠ vft_Voter b).
Proof.
  unfold Less.
  destruct (Z.ltb_spec (vft_ExchangeRate a) (vft_ExchangeRate b)); [naive_solver lia|].
  destruct (Z.eqb_spec (vft_ExchangeRate a) (vft_ExchangeRate b)).
  - rewrite bool_decide_eq_true. naive_solver lia.
  - split; [done|]. intros [?|[? _]]; lia.
Qed.

Lemma vote_le_spec a b :
  vote_le a b ↔
  vft_ExchangeRate a < vft_ExchangeRate b ∨
  (vft_ExchangeRate a = vft_ExchangeRate b ∧ String.le (vft_Voter a) (vft_Voter b)).
Proof.
  unfold vote_le. rewrite <-not_true_iff_false, Less_spec. split.
  - intros Hn. destruct (Z.lt_trichotomy (vft_ExchangeRate a) (vft_ExchangeRate b)) as [?|[?|?]].
    + by left.
    + right. split; [done|]. destruct (total String.le (vft_Voter a) (vft_Voter b)) as [?|Hba]; [done|].
      destruct (decide (vft_Voter b = vft_Voter a)) as [->|]; [done|]. naive_solver.
    + naive_solver.
  - intros [?|[? ?]] [?|(? & ? & Hne)]; try lia. apply Hne. by apply (anti_symm String.le).
Qed.

#[export] Instance vote_le_trans : Transitive vote_le.
Proof.
  intros a b c. rewrite !vote_le_spec. intros [?|[? ?]] [?|[? ?]]; try lia.
  right. split; [lia|]. by etrans.
Qed.

#[export] Instance vote_le_total : Total vote_le.
Proof.
  intros a b. rewrite !vote_le_spec.
  destruct (Z.lt_trichotomy (vft_ExchangeRate a) (vft_ExchangeRate b)) as [?|[?|?]]; [naive_solver| |naive_solver].
  destruct (total String.le (vft_Voter a) (vft_Voter b)); naive_solver.
Qed.

Lemma IsSorted_spec pb : IsSorted pb = true ↔ StronglySorted vote_le pb.
Proof.
  induction pb as [|a pb IH]; [by split; [constructor|]|].
  destruct pb as [|b pb]; [by split; [repeat constructor|]|].
  change (IsSorted (a :: b :: pb)) with (if Less b a then false else IsSorted (b :: pb)).
  split.
  - destruct (Less b a) eqn:Hba; [done|]. intros Hs%IH. constructor; [done|].
    apply StronglySorted_inv in Hs as [? Hb]. constructor; [done|].
    eapply Forall_impl; [exact Hb|]. intros c ?. by transitivity b.
  - intros [Hs [Hab _]%Forall_cons]%StronglySorted_inv. unfold vote_le in Hab. by rewrite Hab, IH.
Qed.

Lemma sort_ballot_perm pb : sort_ballot pb ≡ₚ pb.
Proof. apply merge_sort_Permutation. Qed.

Lemma sort_ballot_IsSorted pb : IsSorted (sort_ballot pb) = true.
Proof. apply IsSorted_spec, StronglySorted_merge_sort; apply _. Qed.

(** ** Power *)

Definition power_sum (pb : ExchangeRateBallot) : Z := foldr (λ v t, vft_Power v + t) 0 pb.

(** No negative power, and a total that fits [int64]. *)
Definition powers_ok (pb : ExchangeRateBallot) : Prop :=
  Forall (λ v, 0 ≤ vft_Power v) pb ∧ power_sum pb < 2 ^ 63.

Lemma power_sum_app l1 l2 : power_sum (l1 ++ l2) = power_sum l1 + power_sum l2.
Proof. induction l1; simpl; lia. Qed.

Lemma power_sum_nonneg pb : Forall (λ v, 0 ≤ vft_Power v) pb → 0 ≤ power_sum pb.
Proof. induction 1; simpl; lia. Qed.

Lemma Power_sum pb : powers_ok pb → Power pb = power_sum pb.
Proof.
  intros [Hnn Hsum]. unfold Power.
  enough (∀ t, 0 ≤ t → t + power_sum pb < 2 ^ 63 →
    foldl (λ totalPower vote, wrap_i64 (totalPower + vft_Power vote)) t pb = t + power_sum pb)
    as Hgen by (rewrite Hgen; lia).
  clear Hsum. induction Hnn as [|v pb Hv Hnn IH]; intros t Ht; cbn [foldl power_sum foldr]; [lia|].
  fold (power_sum pb). intros Hlt. pose proof (power_sum_nonneg pb Hnn).
  rewrite wrap_i64_id by (unfold is_i64; lia). rewrite IH; lia.
Qed.

Lemma power_sum_filter_le (P Q : VoteForTally → Prop) `{∀ v, Decision (P v), ∀ v, Decision (Q v)} pb :
  Forall (λ v, 0 ≤ vft_Power v) pb → (∀ v, v ∈ pb → P v → Q v) →
  power_sum (filter P pb) ≤ power_sum (filter Q pb).
Proof.
  induction 1 as [|v pb Hv Hnn IH]; intros HPQ; [done|].
  rewrite !filter_cons. specialize (IH ltac:(set_solver)).
  specialize (HPQ v ltac:(set_solver)).
  destruct (decide (P v)), (decide (Q v)); cbn [power_sum foldr];
    fold (power_sum (filter P pb)) (power_sum (filter Q pb)); try lia. naive_solver.
Qed.

(** ** The weighted median *)

(** The vote the loop stops at, with what comes before it. *)
Lemma median_loop_split half pb pivot :
  Forall (λ v, 0 ≤ vft_Power v) pb → 0 ≤ pivot → pivot + power_sum pb < 2 ^ 63 →
  pb ≠ [] → half ≤ pivot + power_sum pb →
  ∃ l1 v l2, pb = l1 ++ v :: l2 ∧ median_loop half pivot pb = Some (vft_ExchangeRate v) ∧
    half ≤ pivot + power_sum l1 + vft_Power v ∧ (l1 = [] ∨ pivot + power_sum l1 < half).
Proof.
  intros Hnn. revert pivot. induction Hnn as [|v pb Hv Hnn IH]; intros pivot Hp Hlt Hne Hhalf; [done|].
  cbn [power_sum foldr] in *. fold (power_sum pb) in *. pose proof (power_sum_nonneg pb Hnn).
  cbn [median_loop]. rewrite wrap_i64_id by (unfold is_i64; lia).
  destruct (Z.leb_spec half (pivot + vft_Power v)).
  - exists [], v, pb. simpl. split_and!; [done|done|lia|by left].
  - destruct pb as [|v2 pb]; [cbn [power_sum foldr] in *; lia|].
    destruct (IH (pivot + vft_Power v)) as (l1 & w & l2 & Heq & ? & ? & Hl1);
      [lia| |done| |].
    { cbn [power_sum foldr] in *. lia. }
    { cbn [power_sum foldr] in *. lia. }
    rewrite Heq in *.
    exists (v :: l1), w, l2. cbn [power_sum foldr]. fold (power_sum l1).
    split_and!; [done|done|lia|]. right. destruct Hl1 as [->|]; simpl; lia.
Qed.

Lemma half_le_total pb : powers_ok pb → Z.quot (power_sum pb) 2 ≤ power_sum pb.
Proof.
  intros [? ?]. pose proof (power_sum_nonneg pb ltac:(done)).
  rewrite Z.quot_div_nonneg by lia. apply Z.div_le_upper_bound; lia.
Qed.

Lemma WeightedMedian_split pb :
  IsSorted pb = true → powers_ok pb → pb ≠ [] →
  ∃ l1 v l2, pb = l1 ++ v :: l2 ∧ WeightedMedian pb = Ok (vft_ExchangeRate v) ∧
    Z.quot (power_sum pb) 2 ≤ power_sum l1 + vft_Power v ∧
    (l1 = [] ∨ power_sum l1 < Z.quot (power_sum pb) 2).
Proof.
  intros Hs Hp Hne. pose proof (half_le_total pb Hp). destruct Hp as [Hnn Hlt].
  destruct (median_loop_split (Z.quot (power_sum pb) 2) pb 0) as (l1 & v & l2 & Heq & Hm & ? & Hl1);
    [done|lia|lia|done|lia|].
  exists l1, v, l2. split_and!; [done| |lia|destruct Hl1; [by left|right; lia]].
  unfold WeightedMedian. rewrite Hs, Power_sum by done. simpl.
  rewrite decide_True by (destruct pb; simpl; [done|lia]). by rewrite Hm.
Qed.

Lemma StronglySorted_mid {A} (R : relation A) l1 v l2 :
  StronglySorted R (l1 ++ v :: l2) → Forall (λ u, R u v) l1 ∧ Forall (R v) l2.
Proof.
  induction l1 as [|a l1 IH]; simpl.
  - intros [_ ?]%StronglySorted_inv. done.
  - intros [Hs Ha]%StronglySorted_inv. destruct (IH Hs). split; [|done].
    constructor; [|done]. rewrite Forall_app in Ha. destruct Ha as [_ Ha]. by inversion Ha.
Qed.

Lemma filter_all {A} (P : A → Prop) `{∀ a, Decision (P a)} l : Forall P l → filter P l = l.
Proof. induction 1; [done|]. rewrite filter_cons, decide_True by done. congruence. Qed.

Lemma filter_none {A} (P : A → Prop) `{∀ a, Decision (P a)} l : Forall (λ a, ¬ P a) l → filter P l = [].
Proof. induction 1; [done|]. by rewrite filter_cons, decide_False. Qed.

(** The votes below the median do not reach half of the power before it; the
    votes up to it do. *)
Lemma WeightedMedian_halves pb r :
  IsSorted pb = true → powers_ok pb → pb ≠ [] → WeightedMedian pb = Ok r →
  let half := Z.quot (power_sum pb) 2 in
  power_sum (filter (λ v, vft_ExchangeRate v < r) pb) ≤ half ∧
  half ≤ power_sum (filter (λ v, vft_ExchangeRate v ≤ r) pb) ∧
  r ∈ map vft_ExchangeRate pb.
Proof.
  intros Hs Hp Hne Hr half.
  destruct (WeightedMedian_split pb Hs Hp Hne) as (l1 & v & l2 & Heq & Hm & Hhi & Hlo).
  rewrite Hm in Hr. injection Hr as <-. fold half in Hhi, Hlo.
  apply IsSorted_spec in Hs. destruct Hp as [Hnn Hlt].
  pose proof (power_sum_nonneg pb Hnn).
  assert (0 ≤ half) by (subst half; rewrite Z.quot_div_nonneg by lia; apply Z.div_pos; lia).
  rewrite Heq in Hs, Hnn. apply StronglySorted_mid in Hs as [Hbefore Hafter].
  apply Forall_app in Hnn as [Hnn1 Hnn2]. apply Forall_cons in Hnn2 as [Hv Hnn2].
  rewrite Heq. rewrite !filter_app, !filter_cons, !power_sum_app.
  rewrite decide_False by lia. rewrite decide_True by lia.
  rewrite (filter_none _ l2).
  2:{ eapply Forall_impl; [exact Hafter|]. intros u [?|[? _]]%vote_le_spec; lia. }
  rewrite (filter_all (λ u, vft_ExchangeRate u ≤ _) l1).
  2:{ eapply Forall_impl; [exact Hbefore|]. intros u [?|[? _]]%vote_le_spec; lia. }
  cbn [power_sum foldr]. fold (power_sum (filter (λ u, vft_ExchangeRate u ≤ vft_ExchangeRate v) l2)).
  pose proof (power_sum_nonneg (filter (λ u, vft_ExchangeRate u ≤ vft_ExchangeRate v) l2)
    ltac:(apply Forall_forall; intros u [_ ?]%list_elem_of_filter; by rewrite Forall_forall in Hnn2; apply Hnn2)).
  pose proof (power_sum_filter_le (λ u, vft_ExchangeRate u < vft_ExchangeRate v) (λ _, True) l1 Hnn1
    ltac:(done)) as Hle. rewrite (filter_all (λ _, True)) in Hle by (by apply Forall_forall).
  split_and!; [|lia|].
  - destruct Hlo as [->|]; [simpl; lia|lia].
  - rewrite map_app. set_solver.
Qed.

(** The fall-through cases: an unsorted ballot is an error, an empty one zero. *)
Lemma WeightedMedian_unsorted pb : IsSorted pb = false → WeightedMedian pb = Err ErrBallotNotSorted.
Proof. intros Hs. unfold WeightedMedian. by rewrite Hs. Qed.

Lemma WeightedMedian_total pb :
  IsSorted pb = true → ∃ r, WeightedMedian pb = Ok r ∧ (r = 0 ∨ r ∈ map vft_ExchangeRate pb).
Proof.
  intros Hs. unfold WeightedMedian. rewrite Hs. simpl.
  assert (Hloop : ∀ half pivot r, median_loop half pivot pb = Some r → r ∈ map vft_ExchangeRate pb).
  { clear Hs. induction pb as [|v pb IH]; intros half pivot r; cbn [median_loop map]; [done|].
    destruct (_ <=? _); [intros [= <-]; by left|]. intros ?%IH. by right. }
  case_decide; [|exists 0; naive_solver].
  destruct (median_loop _ _ _) as [r|] eqn:Hr; [|exists 0; naive_solver].
  exists r. split; [done|]. right. by eapply Hloop.
Qed.

Section deviation.
Context `{DecLaws}.

Lemma deviation_loop_nonneg median pb sum n :
  0 ≤ sum → 0 ≤ n - Z.of_nat (length pb) →
  0 ≤ (foldl (deviation_step median) (sum, n) pb).1 ∧
  0 ≤ (foldl (deviation_step median) (sum, n) pb).2 ≤ n.
Proof.
  revert sum n. induction pb as [|v pb IH]; intros sum n Hsum Hn; cbn [foldl length] in *.
  { simpl. lia. }
  unfold deviation_step at 2 4 6. destruct (dec_Sub _ _) as [dv|]; simpl.
  2:{ destruct (IH sum (n - 1)); [lia..|]. lia. }
  destruct (dec_Mul dv dv) as [sq|] eqn:Hsq; simpl.
  2:{ destruct (IH sum (n - 1)); [lia..|]. lia. }
  apply dec_Mul_self_nonneg in Hsq.
  destruct (dec_Add sum sq) as [s|] eqn:Hs.
  2:{ destruct (IH sum (n - 1)); [lia..|]. lia. }
  apply dec_Add_Some in Hs as ->. apply IH; lia.
Qed.

Lemma StandardDeviation_nonneg pb r : StandardDeviation pb = Ok r → 0 ≤ r.
Proof.
  unfold StandardDeviation. case_decide as Hl; [by intros [= <-]|].
  intros (median & _ & Hr)%bind_Ok.
  destruct (deviation_loop_nonneg median pb LegacyZeroDec (Z.of_nat (length pb)))
    as [Hs Hn]; [done|lia|].
  destruct (foldl _ _ _) as [sum n]; simpl in *.
  apply bind_Ok in Hr as (variance & Hv%or_panic_Ok & Hr).
  eapply dec_ApproxSqrt_nonneg; [|exact Hr].
  destruct (decide (n = 0)) as [->|]; [by rewrite dec_QuoInt64_zero in Hv|].
  rewrite dec_QuoInt64_spec in Hv by done. injection Hv as <-. apply Z.quot_pos; lia.
Qed.
End deviation.

(** ** Independence of the map's enumeration *)

#[export] Instance denom_le_trans : Transitive denom_le.
Proof. intros a b c. unfold denom_le. apply transitivity. Qed.

#[export] Instance denom_le_total : Total denom_le.
Proof. intros a b. apply (total String.le). Qed.

Lemma BallotMapToSlice_perm order :
  BallotMapToSlice order ≡ₚ map (λ '(denom, ballot), mkBallotDenom ballot denom) order.
Proof. apply merge_sort_Permutation. Qed.

Lemma BallotMapToSlice_sorted order : StronglySorted denom_le (BallotMapToSlice order).
Proof. apply StronglySorted_merge_sort; apply _. Qed.

Lemma BallotMapToSlice_elem order b :
  b ∈ BallotMapToSlice order ↔ (bd_Denom b, bd_Ballot b) ∈ order.
Proof.
  rewrite BallotMapToSlice_perm, list_elem_of_fmap. split.
  - by intros ([denom ballot] & -> & ?).
  - intros ?. exists (bd_Denom b, bd_Ballot b). by destruct b.
Qed.

(** Determinism: the slice of ballots does not depend on the order in which
    Go's map iteration enumerates the denoms. *)
Theorem BallotMapToSlice_unique order1 order2 :
  NoDup order1.*1 → order1 ≡ₚ order2 → BallotMapToSlice order1 = BallotMapToSlice order2.
Proof.
  intros Hnd Hp.
  apply (StronglySorted_unique_strong denom_le);
    [|apply BallotMapToSlice_sorted..|by rewrite !BallotMapToSlice_perm, Hp].
  intros b1 b2 H1%BallotMapToSlice_elem H2%BallotMapToSlice_elem Hle1 Hle2.
  rewrite <-Hp in H2. assert (bd_Denom b1 = bd_Denom b2) as Hd by (by apply (anti_symm String.le)).
  rewrite Hd in H1.
  assert (bd_Ballot b1 = bd_Ballot b2) as Hb.
  { clear -Hnd H1 H2. induction order1 as [|[d b] l IH]; [set_solver|].
    apply NoDup_cons in Hnd as [Hni Hnd].
    apply elem_of_cons in H1 as [H1|H1], H2 as [H2|H2]; [congruence| | |by apply IH].
    - destruct Hni. apply list_elem_of_fmap. eexists. split; [|exact H2]. simpl. congruence.
    - destruct Hni. apply list_elem_of_fmap. eexists. split; [|exact H1]. simpl. congruence. }
  destruct b1, b2; simpl in *; congruence.
Qed.

(** ** Claims *)

Section claim_facts.
Context `{Bech32}.

#[export] Instance claim_le_trans : Transitive claim_le.
Proof. intros a b c. unfold claim_le. apply transitivity. Qed.

#[export] Instance claim_le_total : Total claim_le.
Proof. intros a b. apply (total String.le). Qed.

Lemma rewardSetToMap_spec rewardSet s : is_Some (rewardSetToMap rewardSet !! s) ↔ s ∈ rewardSet.
Proof.
  unfold rewardSetToMap.
  enough (∀ m : gmap string (), is_Some (foldl (λ m v, <[v := ()]> m) m rewardSet !! s) ↔
    is_Some (m !! s) ∨ s ∈ rewardSet) as Hgen.
  { rewrite Hgen, lookup_empty, is_Some_alt. naive_solver. }
  induction rewardSet as [|v l IH]; intros m; cbn [foldl]; [set_solver|].
  rewrite IH, lookup_insert_is_Some', elem_of_cons. naive_solver.
Qed.

(** The claims of [order] that belong to the reward set. *)
Definition rewarded (rewardSet : list string) (order : list Claim) : list Claim :=
  filter (λ c, ValAddress_String (cl_Recipient c) ∈ rewardSet) order.

Lemma insert_at_end {A} (l1 : list A) x y k :
  <[length l1 := x]> (l1 ++ replicate (S k) y) = (l1 ++ [x]) ++ replicate k y.
Proof. rewrite insert_app_r_alt by lia. rewrite Nat.sub_diag. simpl. by rewrite <-app_assoc. Qed.

Lemma claims_step_hit rewardSet (done_ won : list Claim) k j c :
  ValAddress_String (cl_Recipient c) ∈ rewardSet →
  claims_step (rewardSetToMap rewardSet)
    (done_ ++ replicate (S k) zero_claim, won ++ replicate j zero_claim, length done_, length won) c =
  match j with
  | O => Panic
  | S j => Ok ((done_ ++ [c]) ++ replicate k zero_claim, (won ++ [c]) ++ replicate j zero_claim,
               length (done_ ++ [c]), length (won ++ [c]))
  end.
Proof.
  intros Hin. apply rewardSetToMap_spec in Hin as [[] Hl]. unfold claims_step. rewrite Hl.
  destruct j as [|j].
  - rewrite decide_False by (rewrite length_app; simpl; lia). done.
  - rewrite decide_True by (rewrite length_app, length_replicate; lia). cbn [mbind outcome_bind].
    rewrite decide_True by (rewrite length_app, length_replicate; lia).
    by rewrite !insert_at_end, !last_length.
Qed.

Lemma claims_step_miss rewardSet (done_ : list Claim) won k j c :
  ValAddress_String (cl_Recipient c) ∉ rewardSet →
  claims_step (rewardSetToMap rewardSet)
    (done_ ++ replicate (S k) zero_claim, won, length done_, j) c =
  Ok ((done_ ++ [c]) ++ replicate k zero_claim, won, length (done_ ++ [c]), j).
Proof.
  intros Hni. unfold claims_step.
  rewrite (proj2 (eq_None_not_Some _)) by (by rewrite rewardSetToMap_spec).
  cbn [mbind outcome_bind]. rewrite decide_True by (rewrite length_app, length_replicate; lia).
  by rewrite insert_at_end, last_length.
Qed.

Lemma claims_loop rewardSet (order done_ won : list Claim) k j :
  (length order ≤ k)%nat →
  foldM (claims_step (rewardSetToMap rewardSet)) order
    (done_ ++ replicate k zero_claim, won ++ replicate j zero_claim, length done_, length won)%nat =
  if decide (length (rewarded rewardSet order) ≤ j)%nat then
    Ok ((done_ ++ order) ++ replicate (k - length order) zero_claim,
        (won ++ rewarded rewardSet order) ++ replicate (j - length (rewarded rewardSet order)) zero_claim,
        length (done_ ++ order), length (won ++ rewarded rewardSet order))%nat
  else Panic.
Proof.
  revert done_ won k j. induction order as [|c order IH]; intros done_ won k j Hk; cbn [length] in Hk.
  { change (rewarded rewardSet []) with (@nil Claim). cbn [length foldM].
    rewrite decide_True by lia. by rewrite !app_nil_r, !Nat.sub_0_r. }
  destruct k as [|k]; [lia|]. cbn [foldM]. unfold rewarded. rewrite filter_cons.
  destruct (decide (ValAddress_String (cl_Recipient c) ∈ rewardSet)) as [Hin|Hni];
    fold (rewarded rewardSet order).
  - rewrite claims_step_hit by done. destruct j as [|j]; cbn [mbind outcome_bind length].
    + by rewrite decide_False by lia.
    + rewrite IH by lia. rewrite <-!app_assoc. cbn [app].
      destruct (decide (length (rewarded rewardSet order) ≤ j)%nat);
        [rewrite decide_True by lia|rewrite decide_False by lia]; done.
  - rewrite claims_step_miss by done. cbn [mbind outcome_bind].
    rewrite IH by lia. by rewrite <-!app_assoc.
Qed.

(** The two slices of [ClaimMapToSlices]: all claims, and the claims of the
    reward set padded with zero claims to its size, both sorted by address; a
    reward set smaller than its claims is an index panic. *)
Theorem ClaimMapToSlices_spec order rewardSet :
  ClaimMapToSlices order rewardSet =
  let won := rewarded rewardSet order in
  if decide (length won ≤ length rewardSet)%nat then
    Ok (merge_sort claim_le order,
        merge_sort claim_le (won ++ replicate (length rewardSet - length won) zero_claim))
  else Panic.
Proof.
  unfold ClaimMapToSlices.
  pose proof (claims_loop rewardSet order [] [] (length order) (length rewardSet) ltac:(done)) as Hl.
  simpl in Hl. rewrite Hl. simpl. case_decide; [|done]. simpl.
  by rewrite Nat.sub_diag, app_nil_r.
Qed.
End claim_facts.
