(* ===== verification/Votes.v ===== *)
(** * Votes: [src/x/oracle/types/vote.go] and [src/x/oracle/types/hash.go]

    Prevotes, votes, the parser of exchange rate strings and the commitment
    hash.  [sdk.NewDecCoinFromDec] and [tmhash] are third-party code: the
    classes [CoinOps] and [TmHash]. *)
From S2P Require Import Prelude Util GoStrings Dec Types Bech32.
Local Open Scope Z_scope.

(** [sdk.NewDecCoinFromDec] panics on an invalid denom and on a negative
    amount and otherwise keeps both. *)
Class CoinOps := NewDecCoinFromDec : string → LegacyDec → outcome DecCoin.
Class CoinLaws (C : CoinOps) : Prop :=
  NewDecCoinFromDec_Ok denom amount c :
    NewDecCoinFromDec denom amount = Ok c → c = mkDecCoin denom amount.

(** The truncated SHA-256 of [cometbft/crypto/tmhash]: 20 bytes. *)
Class TmHash := tmhash_SumTruncated : string → bytes.
Definition tmhash_TruncatedSize : nat := 20.
Class TmHashLaws (T : TmHash) : Prop :=
  tmhash_size s : length (tmhash_SumTruncated s) = tmhash_TruncatedSize.

(** ** [hash.go] *)

Abbreviation AggregateVoteHash := (list ascii) (only parsing).

Definition GetAggregateVoteHash `{Bech32, TmHash} (salt exchangeRatesStr : string) (voter : addr) :
    AggregateVoteHash :=
  let sourceStr := (salt +:+ ":" +:+ exchangeRatesStr +:+ ":" +:+ ValAddress_String voter)%string in
  tmhash_SumTruncated sourceStr.

Definition AggregateVoteHashFromHexString (s : string) : outcome AggregateVoteHash :=
  h ← hex_DecodeString s; Ok h.

Definition Hash_String (h : AggregateVoteHash) : string := hex_EncodeToString h.
Definition Hash_Equal (h h2 : AggregateVoteHash) : bool := bool_decide (h = h2).
Definition Hash_Empty (h : AggregateVoteHash) : bool := bool_decide (length h = 0%nat).
Definition Hash_Size (h : AggregateVoteHash) : nat := length h.
Definition Hash_Marshal (h : AggregateVoteHash) : outcome bytes := Ok h.
Definition Hash_Unmarshal (data : bytes) : outcome AggregateVoteHash := Ok data.

(** ** [vote.go] *)

Definition NewAggregateExchangeRatePrevote `{Bech32} (hash : AggregateVoteHash) (voter : addr)
    (submitBlock : Z) : AggregateExchangeRatePrevote :=
  mkPrevote (Hash_String hash) (ValAddress_String voter) submitBlock.

Definition NewAggregateExchangeRateVote `{Bech32} (decCoins : list DecCoin) (voter : addr) :
    AggregateExchangeRateVote :=
  mkVote decCoins (ValAddress_String voter).

Section parse.
Context `{DecOps, CoinOps}.

Definition parse_coin (st : list DecCoin * gmap string bool) (decCoinStr : string) :
    outcome (list DecCoin * gmap string bool) :=
  let '(decCoins, duplicateCheckMap) := st in
  match Split ":" decCoinStr with
  | [denomStr; amountStr] =>
      dec ← LegacyNewDecFromStr amountStr;
      fail_if (negb (0 <? dec)) ErrInvalidOraclePrice;;
      let denom := ToUpper denomStr in
      coin ← NewDecCoinFromDec denom dec;
      match duplicateCheckMap !! denom with
      | Some _ => Err (Errorf "duplicated denom %s")
      | None => Ok (decCoins ++ [coin], <[denom := true]> duplicateCheckMap)
      end
  | _ => Err (Errorf "invalid exchange rate %s")
  end.

Definition ParseExchangeRateDecCoins (tuplesStr : string) : outcome (list DecCoin) :=
  if decide (String.length tuplesStr = 0%nat) then Ok [] else
  '(decCoins, _) ← foldM parse_coin (Split "," tuplesStr) ([], ∅);
  Ok decCoins.
End parse.

(** ** Concrete third-party code for the witnesses *)

(** [ [a-zA-Z][a-zA-Z0-9/:._-]{2,127} ]. *)
Definition is_letter (c : ascii) : bool :=
  let n := N_of_ascii c in
  ((65 <=? n)%N && (n <=? 90)%N) || ((97 <=? n)%N && (n <=? 122)%N).

Definition is_denom_char (c : ascii) : bool :=
  let n := N_of_ascii c in
  is_letter c || ((48 <=? n)%N && (n <=? 58)%N) || (n =? 47)%N || (n =? 46)%N || (n =? 95)%N || (n =? 45)%N.

Fixpoint str_forall (f : ascii → bool) (s : string) : bool :=
  match s with
  | EmptyString => true
  | String c s' => f c && str_forall f s'
  end.

Definition valid_denom (s : string) : bool :=
  match s with
  | EmptyString => false
  | String c s' => is_letter c && str_forall is_denom_char s'
                   && Nat.leb 2 (String.length s') && Nat.leb (String.length s') 127
  end.

Definition RegexCoins : CoinOps := λ denom amount,
  if valid_denom denom && (0 <=? amount) then Ok (mkDecCoin denom amount) else Panic.

#[export] Instance RegexCoins_laws : CoinLaws RegexCoins.
Proof. intros denom amount c. unfold NewDecCoinFromDec, RegexCoins. destruct (_ && _); congruence. Qed.

(** The first 20 bytes of the text, zero-padded. *)
Definition PadHash : TmHash := λ s,
  take 20 (String.list_ascii_of_string s ++ replicate 20 zero_byte).

#[export] Instance PadHash_laws : TmHashLaws PadHash.
Proof. intros s. unfold tmhash_SumTruncated, PadHash, tmhash_TruncatedSize.
  rewrite length_take, length_app, length_replicate. lia. Qed.

(** ** Lemmas *)

Lemma Hash_roundtrip (h : AggregateVoteHash) : AggregateVoteHashFromHexString (Hash_String h) = Ok h.
Proof. unfold AggregateVoteHashFromHexString, Hash_String. by rewrite hex_Decode_Encode. Qed.

Lemma Hash_String_inj (h1 h2 : AggregateVoteHash) : Hash_String h1 = Hash_String h2 ↔ h1 = h2.
Proof. split; [apply hex_Encode_inj|congruence]. Qed.

Lemma vote_hash_length `{Bech32, TmHashLaws} salt rates voter :
  String.length (Hash_String (GetAggregateVoteHash salt rates voter)) = 40%nat.
Proof. unfold Hash_String, GetAggregateVoteHash. by rewrite hex_Encode_length, tmhash_size. Qed.

Section parse_facts.
Context `{DecOps} `{CoinLaws}.

(** What a parsed list of rates looks like. *)
Record parsed_coins (coins : list DecCoin) : Prop := {
  pc_positive : Forall (λ c, 0 < dc_Amount c) coins;
  pc_upper : Forall (λ c, ToUpper (dc_Denom c) = dc_Denom c) coins;
  pc_nodup : NoDup (map dc_Denom coins);
  pc_parsed : Forall (λ c, ∃ t, LegacyNewDecFromStr t = Ok (dc_Amount c)) coins;
  pc_coin : Forall (λ c, NewDecCoinFromDec (dc_Denom c) (dc_Amount c) = Ok c) coins;
}.

Lemma parse_coin_inv coins seen s coins' seen' :
  parse_coin (coins, seen) s = Ok (coins', seen') →
  ∃ d amountStr x, Split ":" s = [d; amountStr] ∧ LegacyNewDecFromStr amountStr = Ok x ∧ 0 < x ∧
    NewDecCoinFromDec (ToUpper d) x = Ok (mkDecCoin (ToUpper d) x) ∧
    seen !! ToUpper d = None ∧ coins' = coins ++ [mkDecCoin (ToUpper d) x] ∧
    seen' = <[ToUpper d := true]> seen.
Proof.
  simpl. destruct (Split ":" s) as [|d [|amountStr []]]; try done. intros Hp.
  apply bind_Ok in Hp as (x & Hx & Hp). apply bind_Ok in Hp as ([] & Hpos%fail_if_Ok & Hp).
  apply bind_Ok in Hp as (coin & Hc & Hp). pose proof Hc as ->%NewDecCoinFromDec_Ok.
  destruct (seen !! ToUpper d) eqn:Hs; [done|]. injection Hp as <- <-.
  exists d, amountStr, x. zify_bool. done.
Qed.

Lemma parse_loop_inv fields coins seen coins' seen' :
  parsed_coins coins → (∀ d, is_Some (seen !! d) ↔ d ∈ map dc_Denom coins) →
  foldM parse_coin fields (coins, seen) = Ok (coins', seen') →
  parsed_coins coins' ∧ length coins' = (length coins + length fields)%nat.
Proof.
  revert coins seen. induction fields as [|s fields IH]; intros coins seen Hc Hseen; cbn [foldM].
  { intros [= <- <-]. split; [done|]. simpl. lia. }
  intros ([coins1 seen1] & Hstep & Hrest)%bind_Ok.
  apply parse_coin_inv in Hstep as (d & a & x & _ & Hax & Hx & Hcoin & Hd & -> & ->).
  apply IH in Hrest as [? Hlen].
  - split; [done|]. rewrite length_app in Hlen. simpl in *. lia.
  - destruct Hc as [Hpos Hup Hnd Hpar Hco]. split.
    + apply Forall_app. by repeat constructor.
    + apply Forall_app. repeat constructor; [done|]. simpl. apply ToUpper_idemp.
    + rewrite map_app. apply NoDup_app. split_and!; [done| |apply NoDup_singleton].
      intros e He ->%list_elem_of_singleton. apply Hseen in He. simpl in He. rewrite Hd in He. by destruct He.
    + apply Forall_app. split; [done|]. repeat constructor. by exists a.
    + apply Forall_app. by repeat constructor.
  - intros e. rewrite lookup_insert_is_Some', Hseen, map_app. set_solver.
Qed.

Lemma Parse_parsed s coins :
  ParseExchangeRateDecCoins s = Ok coins →
  parsed_coins coins ∧
  (String.length s = 0%nat ∧ coins = [] ∨ length coins = length (Split "," s)).
Proof.
  unfold ParseExchangeRateDecCoins. case_decide as Hl.
  { intros [= <-]. split; [by repeat constructor|]. by left. }
  intros ([coins' seen] & Hp & [= ->])%bind_Ok.
  apply parse_loop_inv in Hp as [? ?]; [|by repeat constructor|].
  - split; [done|]. by right.
  - intros d. rewrite lookup_empty, is_Some_alt. set_solver.
Qed.

(** A denom that the coin constructor refuses. *)
Definition refused (d : string) : Prop := ∀ amount c, NewDecCoinFromDec d amount ≠ Ok c.

Lemma parsed_not_refused coins d : parsed_coins coins → refused d → d ∉ map dc_Denom coins.
Proof.
  intros [_ _ _ _ Hco] Hd (c & -> & Hin)%list_elem_of_fmap.
  rewrite Forall_forall in Hco. by eapply Hd, Hco.
Qed.

(** A string with a rate of such a denom is not parsed. *)
Lemma Parse_refused rates d amount :
  refused (ToUpper d) → str_contains ":" d = false → str_contains ":" amount = false →
  rates ≠ "" → (d +:+ String ":" amount)%string ∈ Split "," rates →
  ∀ coins, ParseExchangeRateDecCoins rates ≠ Ok coins.
Proof.
  intros Hd Hcd Hca Hne Hin coins. unfold ParseExchangeRateDecCoins.
  case_decide as Hl; [by destruct rates|]. clear Hl Hne. intros ([cs seen] & Hp & _)%bind_Ok.
  revert Hp. generalize (@nil DecCoin) (∅ : gmap string bool). revert Hin.
  induction (Split "," rates) as [|f fields IH]; [by intros ?%elem_of_nil|].
  intros Hin coins0 seen0. cbn [foldM]. intros ([coins1 seen1] & Hstep & Hrest)%bind_Ok.
  apply elem_of_cons in Hin as [<-|Hin]; [|by eapply IH].
  apply parse_coin_inv in Hstep as (d' & a' & x & Hsp & _ & _ & Hc & _).
  rewrite Split_app, Split_single in Hsp by done. injection Hsp as <- <-. by eapply Hd.
Qed.

(** Rendering of one rate, as a feeder builds the string. *)
Definition render_coin (t : string * string) : string := (t.1 +:+ String ":" t.2)%string.

Lemma Split_render d a :
  str_contains ":" d = false → str_contains ":" a = false →
  Split ":" (render_coin (d, a)) = [d; a].
Proof. intros. unfold render_coin. simpl. by rewrite Split_app, Split_single. Qed.

(** A rate a feeder may submit: symbol, amount text, amount. *)
Definition feedable (t : string * string * LegacyDec) : Prop :=
  let '(d, a, x) := t in
  str_contains ":" d = false ∧ str_contains "," d = false ∧
  str_contains ":" a = false ∧ str_contains "," a = false ∧
  LegacyNewDecFromStr a = Ok x ∧ 0 < x ∧
  NewDecCoinFromDec (ToUpper d) x = Ok (mkDecCoin (ToUpper d) x).

Definition feed_string (l : list (string * string * LegacyDec)) : string :=
  Join "," (map (λ t, render_coin t.1) l).

Definition feed_coin (t : string * string * LegacyDec) : DecCoin :=
  mkDecCoin (ToUpper t.1.1) t.2.

Lemma parse_feed_loop l coins (seen : gmap string bool) :
  Forall feedable l → NoDup (map (λ t, ToUpper t.1.1) l) →
  (∀ t, t ∈ l → seen !! ToUpper t.1.1 = None) →
  ∃ seen', foldM parse_coin (map (λ t, render_coin t.1) l) (coins, seen) =
    Ok (coins ++ map feed_coin l, seen').
Proof.
  revert coins seen. induction l as [|[[d a] x] l IH]; intros coins seen Hl Hnd Hseen.
  { exists seen. simpl. by rewrite app_nil_r. }
  apply Forall_cons in Hl as [(H1 & _ & H3 & _ & Hx & Hpos & Hcoin) Hl].
  apply NoDup_cons in Hnd as [Hni Hnd]. simpl in Hni.
  assert (Hstep : parse_coin (coins, seen) (render_coin (d, a)) =
    Ok (coins ++ [feed_coin (d, a, x)], <[ToUpper d := true]> seen)).
  { unfold parse_coin. rewrite Split_render by done. rewrite Hx. simpl.
    rewrite (proj2 (Z.ltb_lt 0 x)) by done. simpl. rewrite Hcoin. simpl.
    pose proof (Hseen (d, a, x) ltac:(by left)) as Hs. simpl in Hs. by rewrite Hs. }
  destruct (IH (coins ++ [feed_coin (d, a, x)]) (<[ToUpper d := true]> seen)) as [seen' Hrest];
    [done|done| |].
  - intros t Ht. rewrite lookup_insert_ne; [apply Hseen; by right|].
    intros Heq. apply Hni. rewrite Heq. by apply (list_elem_of_fmap_2 (λ t, ToUpper t.1.1)).
  - exists seen'. cbn [map foldM fst]. rewrite Hstep. cbn [mbind outcome_bind].
    rewrite Hrest. by rewrite <-app_assoc.
Qed.

(** C35: round trip: parsing the string a feeder renders from rates with
    distinct symbols (in any case, without separators, with positive amounts
    and valid denoms) gives the rates back, in order, with the symbols in
    upper case. *)
Theorem Parse_feed l :
  l ≠ [] → Forall feedable l → NoDup (map (λ t, ToUpper t.1.1) l) →
  ParseExchangeRateDecCoins (feed_string l) = Ok (map feed_coin l).
Proof.
  intros Hne Hl Hnd. unfold ParseExchangeRateDecCoins, feed_string.
  rewrite decide_False.
  2:{ destruct l as [|[[d a] x] l]; [done|]. destruct l; apply app_cons_length. }
  rewrite Split_Join.
  - destruct (parse_feed_loop l [] ∅) as [seen' ->]; [done|done|by intros; apply lookup_empty|done].
  - by destruct l.
  - apply Forall_map. eapply Forall_impl; [exact Hl|].
    intros [[d a] x] (_ & Hd & _ & Ha & _). unfold render_coin. simpl.
    rewrite str_contains_app. simpl. by rewrite Hd, Ha.
Qed.
End parse_facts.
