(* ===== verification/World.v ===== *)
(** * World: the modules the oracle keeper calls

    [src/x/oracle/types/expected_keeper.go] declares what the keeper expects
    of the staking, distribution, auth and bank modules, and the price feeder
    lives in another repository.  Their state is an abstract type [W]; each
    interface is a class over it, with the methods the keeper calls.  A
    validator is what the methods of [stakingtypes.ValidatorI] return. *)
From S2P Require Import Prelude Util Dec Types.
Local Open Scope Z_scope.

Record ValidatorI := mkValidator {
  GetOperator : string;
  IsBonded : bool;
  IsJailed : bool;
  GetConsAddr : outcome addr;
  GetConsensusPower : Z → Z;
}.

Class StakingKeeper (W : Type) := {
  (** [nil] is [None]. *)
  Validator : W → addr → outcome (option ValidatorI);
  GetBondedValidatorsByPower : W → outcome (list ValidatorI);
  PowerReduction : W → Z;
  ValidatorUpdateDelay : Z;
  Slash : addr → Z → Z → LegacyDec → M W ();
  Jail : addr → M W ();
}.

(** [sdk.Coins] and [sdk.DecCoins] with the operations of the reward code;
    [None] is a panic. *)
Class CoinsOps := {
  Coins : Type;
  DecCoins : Type;
  no_Coins : Coins;
  no_DecCoins : DecCoins;
  DecCoins_Add : DecCoins → DecCoin → option DecCoins;
  DecCoins_MulDec : DecCoins → LegacyDec → option DecCoins;
  DecCoins_TruncateDecimal : DecCoins → option Coins;
  NewDecCoinsFromCoins : Coins → DecCoins;
  Coins_IsZero : Coins → bool;
  Coins_Add : Coins → Coins → option Coins;
}.

Class DistributionKeeper (W : Type) `{CoinsOps} := {
  AllocateTokensToValidator : ValidatorI → DecCoins → M W ();
}.

Class BankKeeper (W : Type) `{CoinsOps} := {
  GetBalance : W → addr → string → Z;
  SendCoinsFromModuleToModule : string → string → Coins → M W ();
}.

(** [GetModuleAddress] returns [nil], here [None], for an unknown module;
    [GetModuleAccount], which may create the account, is modelled by the
    address of the account, [None] for a nil one. *)
Class AccountKeeper (W : Type) := {
  GetModuleAddress : W → string → option addr;
  GetModuleAccount : string → M W (option addr);
}.

(** [k.PriceFeeder.Oracle != nil], and a tick with its parameter cache update,
    whose error is only logged. *)
Class PriceOracle (W : Type) := {
  Oracle_started : W → bool;
  Oracle_tick : Params → Z → W → W;
}.

(** [EmitTypedEvent] marshals the event and can fail. *)
Inductive Event : Type :=
  | EventSetFxRate (denom : string) (rate : LegacyDec)
  | EventDelegateFeedConsent (operator delegate : string)
  | EventParamUpdate.

#[export] Instance Event_eq_dec : EqDecision Event.
Proof. solve_decision. Defined.

Class EventManager := EmitTypedEvent_result : Event → outcome ().
