(* ===== verification/State.v ===== *)
(** * State: the state of the oracle keeper

    The collections of [Keeper] in [src/x/oracle/keeper/keeper.go], the
    parameter subspace, the events of the block and the state [W] of the other
    modules; the block height of the [sdk.Context] is a field too.  The
    parameter subspace is taken after genesis, when every key is set.
    [set_X f s] changes the field [X] of [s] by [f]. *)
From S2P Require Import Prelude Util Dec Types Store World.
Local Open Scope Z_scope.

Record State (W : Type) := mkState {
  BlockHeight : Z;
  ExchangeRates : gmap string LegacyDec;
  FeederDelegations : gmap addr addr;
  Prevotes : gmap addr AggregateExchangeRatePrevote;
  Votes : gmap addr AggregateExchangeRateVote;
  HistoricPrices : gmap (string * Z) LegacyDec;
  MedianPrices : gmap (string * Z) LegacyDec;
  MedianDeviations : gmap (string * Z) LegacyDec;
  LastHistoricPriceBlock : gmap string Z;
  Averages : gmap (string * string) LegacyDec;
  MissCounters : gmap addr Z;
  ValidatorRewardSet : option (list string);
  ParamUpdatePlans : gmap Z ParamUpdatePlan;
  paramSpace : Params;
  events : list Event;
  world : W;
}.
Arguments BlockHeight {W} s : rename.
Arguments ExchangeRates {W} s : rename.
Arguments FeederDelegations {W} s : rename.
Arguments Prevotes {W} s : rename.
Arguments Votes {W} s : rename.
Arguments HistoricPrices {W} s : rename.
Arguments MedianPrices {W} s : rename.
Arguments MedianDeviations {W} s : rename.
Arguments LastHistoricPriceBlock {W} s : rename.
Arguments Averages {W} s : rename.
Arguments MissCounters {W} s : rename.
Arguments ValidatorRewardSet {W} s : rename.
Arguments ParamUpdatePlans {W} s : rename.
Arguments paramSpace {W} s : rename.
Arguments events {W} s : rename.
Arguments world {W} s : rename.
Arguments mkState {W}.

Section setters.
Context {W : Type}.

Definition set_BlockHeight (f : Z → Z) (s : State W) : State W :=
  mkState (f (BlockHeight s)) (ExchangeRates s) (FeederDelegations s) (Prevotes s) (Votes s)
    (HistoricPrices s) (MedianPrices s) (MedianDeviations s) (LastHistoricPriceBlock s)
    (Averages s) (MissCounters s) (ValidatorRewardSet s) (ParamUpdatePlans s) (paramSpace s)
    (events s) (world s).

Definition set_ExchangeRates (f : (gmap string LegacyDec) → (gmap string LegacyDec)) (s : State W) : State W :=
  mkState (BlockHeight s) (f (ExchangeRates s)) (FeederDelegations s) (Prevotes s) (Votes s)
    (HistoricPrices s) (MedianPrices s) (MedianDeviations s) (LastHistoricPriceBlock s)
    (Averages s) (MissCounters s) (ValidatorRewardSet s) (ParamUpdatePlans s) (paramSpace s)
    (events s) (world s).

Definition set_FeederDelegations (f : (gmap addr addr) → (gmap addr addr)) (s : State W) : State W :=
  mkState (BlockHeight s) (ExchangeRates s) (f (FeederDelegations s)) (Prevotes s) (Votes s)
    (HistoricPrices s) (MedianPrices s) (MedianDeviations s) (LastHistoricPriceBlock s)
    (Averages s) (MissCounters s) (ValidatorRewardSet s) (ParamUpdatePlans s) (paramSpace s)
    (events s) (world s).

Definition set_Prevotes (f : (gmap addr AggregateExchangeRatePrevote) → (gmap addr AggregateExchangeRatePrevote)) (s : State W) : State W :=
  mkState (BlockHeight s) (ExchangeRates s) (FeederDelegations s) (f (Prevotes s)) (Votes s)
    (HistoricPrices s) (MedianPrices s) (MedianDeviations s) (LastHistoricPriceBlock s)
    (Averages s) (MissCounters s) (ValidatorRewardSet s) (ParamUpdatePlans s) (paramSpace s)
    (events s) (world s).

Definition set_Votes (f : (gmap addr AggregateExchangeRateVote) → (gmap addr AggregateExchangeRateVote)) (s : State W) : State W :=
  mkState (BlockHeight s) (ExchangeRates s) (FeederDelegations s) (Prevotes s) (f (Votes s))
    (HistoricPrices s) (MedianPrices s) (MedianDeviations s) (LastHistoricPriceBlock s)
    (Averages s) (MissCounters s) (ValidatorRewardSet s) (ParamUpdatePlans s) (paramSpace s)
    (events s) (world s).

Definition set_HistoricPrices (f : (gmap (string * Z) LegacyDec) → (gmap (string * Z) LegacyDec)) (s : State W) : State W :=
  mkState (BlockHeight s) (ExchangeRates s) (FeederDelegations s) (Prevotes s) (Votes s) (f
    (HistoricPrices s)) (MedianPrices s) (MedianDeviations s) (LastHistoricPriceBlock s)
    (Averages s) (MissCounters s) (ValidatorRewardSet s) (ParamUpdatePlans s) (paramSpace s)
    (events s) (world s).

Definition set_MedianPrices (f : (gmap (string * Z) LegacyDec) → (gmap (string * Z) LegacyDec)) (s : State W) : State W :=
  mkState (BlockHeight s) (ExchangeRates s) (FeederDelegations s) (Prevotes s) (Votes s)
    (HistoricPrices s) (f (MedianPrices s)) (MedianDeviations s) (LastHistoricPriceBlock s)
    (Averages s) (MissCounters s) (ValidatorRewardSet s) (ParamUpdatePlans s) (paramSpace s)
    (events s) (world s).

Definition set_MedianDeviations (f : (gmap (string * Z) LegacyDec) → (gmap (string * Z) LegacyDec)) (s : State W) : State W :=
  mkState (BlockHeight s) (ExchangeRates s) (FeederDelegations s) (Prevotes s) (Votes s)
    (HistoricPrices s) (MedianPrices s) (f (MedianDeviations s)) (LastHistoricPriceBlock s)
    (Averages s) (MissCounters s) (ValidatorRewardSet s) (ParamUpdatePlans s) (paramSpace s)
    (events s) (world s).

Definition set_LastHistoricPriceBlock (f : (gmap string Z) → (gmap string Z)) (s : State W) : State W :=
  mkState (BlockHeight s) (ExchangeRates s) (FeederDelegations s) (Prevotes s) (Votes s)
    (HistoricPrices s) (MedianPrices s) (MedianDeviations s) (f (LastHistoricPriceBlock s))
    (Averages s) (MissCounters s) (ValidatorRewardSet s) (ParamUpdatePlans s) (paramSpace s)
    (events s) (world s).

Definition set_Averages (f : (gmap (string * string) LegacyDec) → (gmap (string * string) LegacyDec)) (s : State W) : State W :=
  mkState (BlockHeight s) (ExchangeRates s) (FeederDelegations s) (Prevotes s) (Votes s)
    (HistoricPrices s) (MedianPrices s) (MedianDeviations s) (LastHistoricPriceBlock s) (f
    (Averages s)) (MissCounters s) (ValidatorRewardSet s) (ParamUpdatePlans s) (paramSpace s)
    (events s) (world s).

Definition set_MissCounters (f : (gmap addr Z) → (gmap addr Z)) (s : State W) : State W :=
  mkState (BlockHeight s) (ExchangeRates s) (FeederDelegations s) (Prevotes s) (Votes s)
    (HistoricPrices s) (MedianPrices s) (MedianDeviations s) (LastHistoricPriceBlock s)
    (Averages s) (f (MissCounters s)) (ValidatorRewardSet s) (ParamUpdatePlans s) (paramSpace s)
    (events s) (world s).

Definition set_ValidatorRewardSet (f : (option (list string)) → (option (list string))) (s : State W) : State W :=
  mkState (BlockHeight s) (ExchangeRates s) (FeederDelegations s) (Prevotes s) (Votes s)
    (HistoricPrices s) (MedianPrices s) (MedianDeviations s) (LastHistoricPriceBlock s)
    (Averages s) (MissCounters s) (f (ValidatorRewardSet s)) (ParamUpdatePlans s) (paramSpace s)
    (events s) (world s).

Definition set_ParamUpdatePlans (f : (gmap Z ParamUpdatePlan) → (gmap Z ParamUpdatePlan)) (s : State W) : State W :=
  mkState (BlockHeight s) (ExchangeRates s) (FeederDelegations s) (Prevotes s) (Votes s)
    (HistoricPrices s) (MedianPrices s) (MedianDeviations s) (LastHistoricPriceBlock s)
    (Averages s) (MissCounters s) (ValidatorRewardSet s) (f (ParamUpdatePlans s)) (paramSpace s)
    (events s) (world s).

Definition set_paramSpace (f : Params → Params) (s : State W) : State W :=
  mkState (BlockHeight s) (ExchangeRates s) (FeederDelegations s) (Prevotes s) (Votes s)
    (HistoricPrices s) (MedianPrices s) (MedianDeviations s) (LastHistoricPriceBlock s)
    (Averages s) (MissCounters s) (ValidatorRewardSet s) (ParamUpdatePlans s) (f (paramSpace s))
    (events s) (world s).

Definition set_events (f : (list Event) → (list Event)) (s : State W) : State W :=
  mkState (BlockHeight s) (ExchangeRates s) (FeederDelegations s) (Prevotes s) (Votes s)
    (HistoricPrices s) (MedianPrices s) (MedianDeviations s) (LastHistoricPriceBlock s)
    (Averages s) (MissCounters s) (ValidatorRewardSet s) (ParamUpdatePlans s) (paramSpace s) (f
    (events s)) (world s).

Definition set_world (f : W → W) (s : State W) : State W :=
  mkState (BlockHeight s) (ExchangeRates s) (FeederDelegations s) (Prevotes s) (Votes s)
    (HistoricPrices s) (MedianPrices s) (MedianDeviations s) (LastHistoricPriceBlock s)
    (Averages s) (MissCounters s) (ValidatorRewardSet s) (ParamUpdatePlans s) (paramSpace s)
    (events s) (f (world s)).
End setters.

(** A call of another module. *)
Definition on_world {W A} (m : M W A) : M (State W) A := λ s,
  let '(r, w) := m (world s) in (r, set_world (λ _, w) s).

(** The fields of the [Keeper] struct that are not collections: strings, flags,
    the price feeder pointer ([None] is nil) and, for each dependency, whether
    the field holds one or its zero value. *)
Record PriceFeeder := mkPriceFeeder { AppConfig_Enable : bool }.

Record KeeperConf := mkKeeperConf {
  authority : string;
  distrName : string;
  telemetryEnabled : bool;
  PriceFeeder_ptr : option PriceFeeder;
  has_paramSpace : bool;
  has_accountKeeper : bool;
  has_bankKeeper : bool;
  has_distrKeeper : bool;
  has_StakingKeeper : bool;
}.




