(* ===== verification/Subspace.v ===== *)
(** * Subspace: [src/x/oracle/keeper/params.go]

    Getters and setters over the parameter subspace.  [Subspace.Set] checks
    the dynamic type of the value and not the value; [SetParamSet] runs the
    validator of each pair and panics when it fails, after the writes of the
    pairs before it. *)
From S2P Require Import Prelude Util GoStrings Dec Types Params Store World State.
Local Open Scope Z_scope.

Section subspace.
Context {W : Type}.
Abbreviation K := (M (State W)) (only parsing).

Definition VotePeriod : K Z := gets (λ s, Types.VotePeriod (paramSpace s)).
Definition SetVotePeriod (votePeriod : Z) : K () :=
  modify (set_paramSpace (with_VotePeriod votePeriod)).
Definition VoteThreshold : K LegacyDec := gets (λ s, Types.VoteThreshold (paramSpace s)).
Definition SetVoteThreshold (voteThreshold : LegacyDec) : K () :=
  modify (set_paramSpace (with_VoteThreshold voteThreshold)).
Definition RewardBands : K (list RewardBand) := gets (λ s, Types.RewardBands (paramSpace s)).
Definition SetRewardBand (rewardBands : list RewardBand) : K () :=
  modify (set_paramSpace (with_RewardBands rewardBands)).
Definition RewardDistributionWindow : K Z :=
  gets (λ s, Types.RewardDistributionWindow (paramSpace s)).
Definition SetRewardDistributionWindow (rewardDistributionWindow : Z) : K () :=
  modify (set_paramSpace (with_RewardDistributionWindow rewardDistributionWindow)).
Definition AcceptList : K (list Denom) := gets (λ s, Types.AcceptList (paramSpace s)).
Definition SetAcceptList (acceptList : list Denom) : K () :=
  modify (set_paramSpace (with_AcceptList acceptList)).
Definition MandatoryList : K (list Denom) := gets (λ s, Types.MandatoryList (paramSpace s)).
Definition SetMandatoryList (mandatoryList : list Denom) : K () :=
  modify (set_paramSpace (with_MandatoryList mandatoryList)).
Definition SlashFraction : K LegacyDec := gets (λ s, Types.SlashFraction (paramSpace s)).
Definition SetSlashFraction (slashFraction : LegacyDec) : K () :=
  modify (set_paramSpace (with_SlashFraction slashFraction)).
Definition SlashWindow : K Z := gets (λ s, Types.SlashWindow (paramSpace s)).
Definition SetSlashWindow (slashWindow : Z) : K () :=
  modify (set_paramSpace (with_SlashWindow slashWindow)).
Definition MinValidPerWindow : K LegacyDec := gets (λ s, Types.MinValidPerWindow (paramSpace s)).
Definition SetMinValidPerWindow (minValidPerWindow : LegacyDec) : K () :=
  modify (set_paramSpace (with_MinValidPerWindow minValidPerWindow)).
Definition SetSlashingEnabled (value : bool) : K () :=
  modify (set_paramSpace (with_SlashingEnabled value)).
Definition SlashingEnabled : K bool := gets (λ s, Types.SlashingEnabled (paramSpace s)).
Definition HistoricStampPeriod : K Z := gets (λ s, Types.HistoricStampPeriod (paramSpace s)).
Definition SetHistoricStampPeriod (historicPriceStampPeriod : Z) : K () :=
  modify (set_paramSpace (with_HistoricStampPeriod historicPriceStampPeriod)).
Definition MedianStampPeriod : K Z := gets (λ s, Types.MedianStampPeriod (paramSpace s)).
Definition SetMedianStampPeriod (medianStampPeriod : Z) : K () :=
  modify (set_paramSpace (with_MedianStampPeriod medianStampPeriod)).
Definition MaximumPriceStamps : K Z := gets (λ s, Types.MaximumPriceStamps (paramSpace s)).
Definition SetMaximumPriceStamps (maximumPriceStamps : Z) : K () :=
  modify (set_paramSpace (with_MaximumPriceStamps maximumPriceStamps)).
Definition MaximumMedianStamps : K Z := gets (λ s, Types.MaximumMedianStamps (paramSpace s)).
Definition SetMaximumMedianStamps (maximumMedianStamps : Z) : K () :=
  modify (set_paramSpace (with_MaximumMedianStamps maximumMedianStamps)).
Definition CurrencyPairProviders : K (list CurrencyPairProvider) :=
  gets (λ s, Types.CurrencyPairProviders (paramSpace s)).
Definition SetCurrencyPairProviders (currencyPairProviders : list CurrencyPairProvider) : K () :=
  modify (set_paramSpace (with_CurrencyPairProviders currencyPairProviders)).
Definition CurrencyDeviationThresholds : K (list CurrencyDeviationThreshold) :=
  gets (λ s, Types.CurrencyDeviationThresholds (paramSpace s)).
Definition SetCurrencyDeviationThresholds
    (currencyDeviationThresholds : list CurrencyDeviationThreshold) : K () :=
  modify (set_paramSpace (with_CurrencyDeviationThresholds currencyDeviationThresholds)).
Definition UsdcIbcDenom : K string := gets (λ s, Types.UsdcIbcDenom (paramSpace s)).
Definition SetUsdcIbcDenom (value : string) : K () :=
  modify (set_paramSpace (with_UsdcIbcDenom value)).
Definition SetAveragingWindow (value : Z) : K () :=
  modify (set_paramSpace (with_AveragingWindow value)).

(** The result variable is a [bool] and the key is registered as [uint64]:
    [Subspace.Get] panics on the type mismatch. *)
Definition AveragingWindow : K bool := panic.

Definition GetParams : K Params := gets paramSpace.

Definition GetExponent (denom : string) : K Z :=
  params ← GetParams;
  lift ((fix loop (l : list Denom) : outcome Z :=
     match l with
     | [] => Err (Errorf "unable to find exponent for %s")
     | v :: l' => if EqualFold (SymbolDenom v) denom then Ok (Exponent v) else loop l'
     end) (Types.AcceptList params)).

(** [Subspace.Set] of one field of a parameter set. *)
Definition set_pair (p : Params) (k : ParamKey) : K () :=
  match k with
  | KeyVotePeriod => SetVotePeriod (Types.VotePeriod p)
  | KeyVoteThreshold => SetVoteThreshold (Types.VoteThreshold p)
  | KeyRewardBands => SetRewardBand (Types.RewardBands p)
  | KeyRewardDistributionWindow => SetRewardDistributionWindow (Types.RewardDistributionWindow p)
  | KeyAcceptList => SetAcceptList (Types.AcceptList p)
  | KeyMandatoryList => SetMandatoryList (Types.MandatoryList p)
  | KeySlashFraction => SetSlashFraction (Types.SlashFraction p)
  | KeySlashWindow => SetSlashWindow (Types.SlashWindow p)
  | KeyMinValidPerWindow => SetMinValidPerWindow (Types.MinValidPerWindow p)
  | KeyHistoricStampPeriod => SetHistoricStampPeriod (Types.HistoricStampPeriod p)
  | KeyMedianStampPeriod => SetMedianStampPeriod (Types.MedianStampPeriod p)
  | KeyMaximumPriceStamps => SetMaximumPriceStamps (Types.MaximumPriceStamps p)
  | KeyMaximumMedianStamps => SetMaximumMedianStamps (Types.MaximumMedianStamps p)
  | KeyCurrencyPairProviders => SetCurrencyPairProviders (Types.CurrencyPairProviders p)
  | KeyCurrencyDeviationThresholds =>
      SetCurrencyDeviationThresholds (Types.CurrencyDeviationThresholds p)
  | KeyUsdcIbcDenom => SetUsdcIbcDenom (Types.UsdcIbcDenom p)
  | KeySlashingEnabled => SetSlashingEnabled (Types.SlashingEnabled p)
  | KeyAveragingWindow => SetAveragingWindow (Types.AveragingWindow p)
  end.

Definition SetParams `{DecOps} (params : Params) : K () :=
  forM (λ '(key, valid),
    match valid with
    | Ok _ => set_pair params key
    | _ => panic
    end) (ParamSetPairs params).
End subspace.

(** ** Lemmas *)

Section subspace_facts.
Context {W : Type}.

(** [copy_field k from to]: [to] with the field of [k] taken from [from]. *)
Definition copy_field (k : ParamKey) (from to : Params) : Params :=
  match k with
  | KeyVotePeriod => with_VotePeriod (Types.VotePeriod from) to
  | KeyVoteThreshold => with_VoteThreshold (Types.VoteThreshold from) to
  | KeyRewardBands => with_RewardBands (Types.RewardBands from) to
  | KeyRewardDistributionWindow =>
      with_RewardDistributionWindow (Types.RewardDistributionWindow from) to
  | KeyAcceptList => with_AcceptList (Types.AcceptList from) to
  | KeyMandatoryList => with_MandatoryList (Types.MandatoryList from) to
  | KeySlashFraction => with_SlashFraction (Types.SlashFraction from) to
  | KeySlashWindow => with_SlashWindow (Types.SlashWindow from) to
  | KeyMinValidPerWindow => with_MinValidPerWindow (Types.MinValidPerWindow from) to
  | KeyHistoricStampPeriod => with_HistoricStampPeriod (Types.HistoricStampPeriod from) to
  | KeyMedianStampPeriod => with_MedianStampPeriod (Types.MedianStampPeriod from) to
  | KeyMaximumPriceStamps => with_MaximumPriceStamps (Types.MaximumPriceStamps from) to
  | KeyMaximumMedianStamps => with_MaximumMedianStamps (Types.MaximumMedianStamps from) to
  | KeyCurrencyPairProviders => with_CurrencyPairProviders (Types.CurrencyPairProviders from) to
  | KeyCurrencyDeviationThresholds =>
      with_CurrencyDeviationThresholds (Types.CurrencyDeviationThresholds from) to
  | KeyUsdcIbcDenom => with_UsdcIbcDenom (Types.UsdcIbcDenom from) to
  | KeySlashingEnabled => with_SlashingEnabled (Types.SlashingEnabled from) to
  | KeyAveragingWindow => with_AveragingWindow (Types.AveragingWindow from) to
  end.

Lemma set_pair_run p k (s : State W) :
  set_pair p k s = (Ok (), set_paramSpace (copy_field k p) s).
Proof. by destruct k. Qed.

(** Copying every field gives the source. *)
Lemma copy_all from to : foldl (λ p k, copy_field k from p) to all_keys = from.
Proof. by destruct from. Qed.

Lemma set_paramSpace_compose f g (s : State W) :
  set_paramSpace g (set_paramSpace f s) = set_paramSpace (λ p, g (f p)) s.
Proof. done. Qed.

Lemma set_pairs_run p ks (s : State W) :
  forM (set_pair p) ks s = (Ok (), set_paramSpace (λ q, foldl (λ q k, copy_field k p q) q ks) s).
Proof.
  revert s. induction ks as [|k ks IH]; intros s; [by destruct s|].
  cbn [forM]. unfold mbind, M_bind. rewrite set_pair_run, IH. done.
Qed.

(** [SetParams] writes the whole set when every pair is valid. *)
Lemma SetParams_valid `{DecOps} p (s : State W) :
  Forall (λ e, e.2 = Ok ()) (ParamSetPairs p) →
  SetParams p s = (Ok (), set_paramSpace (λ _, p) s).
Proof.
  intros Hv. unfold SetParams.
  transitivity (forM (set_pair p) (map fst (ParamSetPairs p)) s).
  { clear -Hv. revert s. induction Hv as [|[k v] l Hkv Hv IH]; intros s; [done|].
    simpl in Hkv. subst v. cbn [forM map fst]. unfold mbind, M_bind. rewrite set_pair_run. apply IH. }
  change (map fst (ParamSetPairs p)) with
    [KeyVotePeriod; KeyVoteThreshold; KeyRewardBands; KeyRewardDistributionWindow; KeyAcceptList;
     KeyMandatoryList; KeySlashFraction; KeySlashWindow; KeyMinValidPerWindow;
     KeyHistoricStampPeriod; KeyMedianStampPeriod; KeyMaximumPriceStamps; KeyMaximumMedianStamps;
     KeyCurrencyPairProviders; KeyCurrencyDeviationThresholds; KeyUsdcIbcDenom; KeySlashingEnabled;
     KeyAveragingWindow].
  rewrite set_pairs_run. f_equal. destruct p. reflexivity.
Qed.

(** A pair that fails its validator is a panic. *)
Lemma SetParams_invalid `{DecOps} p (s : State W) :
  ¬ Forall (λ e, e.2 = Ok ()) (ParamSetPairs p) → (SetParams p s).1 = Panic.
Proof.
  unfold SetParams. generalize (ParamSetPairs p) as l. intros l. revert s.
  induction l as [|[k [[]|e|]] l IH]; intros s Hn; [by destruct Hn|..]; cbn [forM];
    unfold mbind, M_bind.
  - rewrite set_pair_run. apply IH. intros Hl. apply Hn. by constructor.
  - done.
  - done.
Qed.
End subspace_facts.
