(* ===== verification/Keeper.v ===== *)
(** * Keeper: the store operations of the oracle keeper

    [src/x/oracle/keeper/keeper.go], [miss_counter.go], [alias_functions.go]
    and [genesis.go]: reads and writes of each collection, the iterators, the
    feeder delegation.  A collection's [Get] fails only with
    [collections.ErrNotFound] and its [Set] and [Remove] do not fail. *)
From S2P Require Import Prelude Util GoStrings Dec Types Params Store Bech32 World State Subspace.
Local Open Scope Z_scope.

Definition ten : LegacyDec := LegacyNewDec 10.

(** Errors of other modules the keeper returns. *)
Definition ErrNoValidatorFound : error := Sdk "staking ErrNoValidatorFound".

Section keeper.
Context {W : Type}.
Abbreviation K := (M (State W)) (only parsing).

(** [NewKeeper] panics when the oracle module account is unknown and fills in
    the default authority.  The struct literal lists the codec, the authority
    and the collections: every other field keeps its zero value, whatever the
    arguments are. *)
Definition NewKeeper `{AccountKeeper W} (w : W) (gov_authority distrName_arg : string)
    (telemetryEnabled_arg : bool) (authority_arg : string) : outcome KeeperConf :=
  match GetModuleAddress w ModuleName with
  | None => Panic
  | Some _ =>
      let authority_arg := if String.eqb authority_arg "" then gov_authority else authority_arg in
      Ok {| authority := authority_arg;
            distrName := "";
            telemetryEnabled := false;
            PriceFeeder_ptr := None;
            has_paramSpace := false;
            has_accountKeeper := false;
            has_bankKeeper := false;
            has_distrKeeper := false;
            has_StakingKeeper := false |}
  end.

(** ** Exchange rates *)

Definition GetExchangeRate (symbol : string) : K LegacyDec :=
  m ← gets ExchangeRates;
  match m !! ToUpper symbol with
  | None => throw ErrUnknownDenom
  | Some rate => mret rate
  end.

(** The search loop over the accept list; an absent denom leaves the zero
    values of [symbol] and [exponent]. *)
Fixpoint find_base (l : list Denom) (denom : string) : string * Z :=
  match l with
  | [] => (""%string, 0)
  | listDenom :: l' => if String.eqb (BaseDenom listDenom) denom
                       then (SymbolDenom listDenom, Exponent listDenom)
                       else find_base l' denom
  end.

Definition GetExchangeRateBase `{DecOps} (denom : string) : K LegacyDec :=
  params ← GetParams;
  let '(symbol, exponent) := find_base (Types.AcceptList params) denom in
  if decide (String.length symbol = 0%nat) then throw ErrUnknownDenom else
  exchangeRate ← GetExchangeRate symbol;
  powerReduction ← lift (or_panic (dec_Power ten exponent));
  lift (or_panic (dec_Quo exchangeRate powerReduction)).

Definition SetExchangeRate (denom : string) (exchangeRate : LegacyDec) : K () :=
  modify (set_ExchangeRates <[ToUpper denom := exchangeRate]>).

Definition EmitTypedEvent `{EventManager} (e : Event) : K () :=
  lift (EmitTypedEvent_result e);;
  modify (set_events (λ l, l ++ [e])).

Definition SetExchangeRateWithEvent `{EventManager} (denom : string) (exchangeRate : LegacyDec) :
    K () :=
  SetExchangeRate denom exchangeRate;;
  EmitTypedEvent (EventSetFxRate denom exchangeRate).

Definition IterateExchangeRates {A} (handler : string → LegacyDec → A → K (bool * A)) (a : A) :
    K A :=
  m ← gets ExchangeRates; walkM handler (Walk m) a.

Definition ClearExchangeRates : K () := modify (set_ExchangeRates (λ _, ∅)).

(** ** Feeder delegation *)

Definition GetFeederDelegation `{StakingKeeper W} (vAddr : addr) : K addr :=
  w ← gets world;
  val ← lift (Validator w vAddr);
  match val with
  | None => throw ErrNoValidatorFound
  | Some val =>
      if negb (IsBonded val) then throw ErrNoValidatorFound else
      m ← gets FeederDelegations;
      match m !! vAddr with
      | None => mret vAddr
      | Some feeder => mret feeder
      end
  end.

Definition SetFeederDelegation (operator delegatedFeeder : addr) : K () :=
  modify (set_FeederDelegations <[operator := delegatedFeeder]>).

Definition IterateFeederDelegations {A} (handler : addr → addr → A → K (bool * A)) (a : A) : K A :=
  m ← gets FeederDelegations; walkM handler (Walk m) a.

(** ** Prevotes *)

Definition GetAggregateExchangeRatePrevote (voter : addr) : K AggregateExchangeRatePrevote :=
  m ← gets Prevotes;
  match m !! voter with
  | None => throw ErrNoAggregatePrevote
  | Some prevote => mret prevote
  end.

Definition HasAggregateExchangeRatePrevote (voter : addr) : K bool :=
  gets (λ s, bool_decide (is_Some (Prevotes s !! voter))).

Definition SetAggregateExchangeRatePrevote (voter : addr) (prevote : AggregateExchangeRatePrevote) :
    K () := modify (set_Prevotes <[voter := prevote]>).

Definition DeleteAggregateExchangeRatePrevote (voter : addr) : K () :=
  modify (set_Prevotes (delete voter)).

Definition IterateAggregateExchangeRatePrevotes {A}
    (handler : addr → AggregateExchangeRatePrevote → A → K (bool * A)) (a : A) : K A :=
  m ← gets Prevotes; walkM handler (Walk m) a.

(** ** Votes *)

Definition GetAggregateExchangeRateVote (voter : addr) : K AggregateExchangeRateVote :=
  m ← gets Votes;
  match m !! voter with
  | None => throw ErrNoAggregateVote
  | Some vote => mret vote
  end.

Definition SetAggregateExchangeRateVote (voter : addr) (vote : AggregateExchangeRateVote) : K () :=
  modify (set_Votes <[voter := vote]>).

Definition DeleteAggregateExchangeRateVote (voter : addr) : K () :=
  modify (set_Votes (delete voter)).

Definition IterateAggregateExchangeRateVotes {A}
    (handler : addr → AggregateExchangeRateVote → A → K (bool * A)) (a : A) : K A :=
  m ← gets Votes; walkM handler (Walk m) a.

(** ** Validation *)

Definition ValidateFeeder `{StakingKeeper W} (feederAddr valAddr : addr) : K () :=
  delegate ← GetFeederDelegation valAddr;
  if negb (String.eqb delegate feederAddr) then throw ErrNoVotingPermission else mret ().

(** ** [miss_counter.go] *)

Definition GetMissCounter (operator : addr) : K Z :=
  gets (λ s, default 0 (MissCounters s !! operator)).

Definition SetMissCounter (operator : addr) (missCounter : Z) : K () :=
  modify (set_MissCounters <[operator := missCounter]>).

Definition DeleteMissCounter (operator : addr) : K () :=
  modify (set_MissCounters (delete operator)).

Definition IterateMissCounters {A} (handler : addr → Z → A → K (bool * A)) (a : A) : K A :=
  m ← gets MissCounters; walkM handler (Walk m) a.

(** ** [alias_functions.go] *)

Definition GetOracleAccount `{AccountKeeper W} : K (option addr) :=
  on_world (GetModuleAccount ModuleName).

Definition GetRewardPool `{CoinsOps, AccountKeeper W, BankKeeper W} (denom : string) : K Z :=
  acc ← on_world (GetModuleAccount ModuleName);
  match acc with
  | None => panic
  | Some acc => w ← gets world; mret (GetBalance w acc denom)
  end.

(** ** [genesis.go] of the keeper *)

Definition stamp (k : string * Z) (v : LegacyDec) : PriceStamp :=
  mkPriceStamp (mkDecCoin k.1 v) k.2.

Definition IterateAllHistoricPrices {A} (handler : PriceStamp → A → K (bool * A)) (a : A) : K A :=
  m ← gets HistoricPrices; walkM (λ k v, handler (stamp k v)) (Walk m) a.

Definition AllHistoricPrices : K (list PriceStamp) :=
  IterateAllHistoricPrices (λ price prices, mret (false, prices ++ [price])) [].

Definition IterateAllMedianPrices {A} (handler : PriceStamp → A → K (bool * A)) (a : A) : K A :=
  m ← gets MedianPrices; walkM (λ k v, handler (stamp k v)) (Walk m) a.

Definition AllMedianPrices : K (list PriceStamp) :=
  IterateAllMedianPrices (λ price prices, mret (false, prices ++ [price])) [].

Definition IterateAllMedianDeviationPrices {A} (handler : PriceStamp → A → K (bool * A)) (a : A) :
    K A :=
  m ← gets MedianDeviations; walkM (λ k v, handler (stamp k v)) (Walk m) a.

Definition AllMedianDeviationPrices : K (list PriceStamp) :=
  IterateAllMedianDeviationPrices (λ price prices, mret (false, prices ++ [price])) [].
End keeper.

(** ** Lemmas *)

Section keeper_facts.
Context {W : Type}.
Implicit Types s : State W.

(** Rates are read under any spelling of the symbol. *)
Lemma GetExchangeRate_run symbol s :
  GetExchangeRate symbol s =
  match ExchangeRates s !! ToUpper symbol with
  | Some rate => (Ok rate, s)
  | None => (Err ErrUnknownDenom, s)
  end.
Proof. unfold GetExchangeRate. unfold_M. by destruct (_ !! _). Qed.

Lemma GetExchangeRate_set symbol denom rate s :
  ToUpper symbol = ToUpper denom →
  GetExchangeRate symbol (SetExchangeRate denom rate s).2 = (Ok rate, (SetExchangeRate denom rate s).2).
Proof. intros Heq. rewrite GetExchangeRate_run. simpl. by rewrite Heq, lookup_insert_eq. Qed.

(** The account that may feed for a validator: its delegate, or itself. *)
Definition feeder_of s (v : addr) : addr := default v (FeederDelegations s !! v).

Lemma GetFeederDelegation_run `{StakingKeeper W} v s :
  GetFeederDelegation v s =
  match Validator (world s) v with
  | Ok (Some val) => if IsBonded val then (Ok (feeder_of s v), s) else (Err ErrNoValidatorFound, s)
  | Ok None => (Err ErrNoValidatorFound, s)
  | Err e => (Err e, s)
  | Panic => (Panic, s)
  end.
Proof.
  unfold GetFeederDelegation, feeder_of. unfold_M. destruct (Validator _ _) as [[val|]| |]; [|done..].
  destruct (IsBonded val); [|done]. simpl. by destruct (_ !! _).
Qed.

(** [ValidateFeeder] accepts exactly the feeder of a bonded validator. *)
Lemma ValidateFeeder_Ok `{StakingKeeper W} f v s s' :
  ValidateFeeder f v s = (Ok (), s') ↔
  s' = s ∧ ∃ val, Validator (world s) v = Ok (Some val) ∧ IsBonded val = true ∧ feeder_of s v = f.
Proof.
  unfold ValidateFeeder. unfold mbind, M_bind. rewrite GetFeederDelegation_run.
  destruct (Validator _ _) as [[val|]| |]; [|split; [done|naive_solver]..].
  destruct (IsBonded val) eqn:Hb; [|split; [done|naive_solver congruence]].
  unfold_M. destruct (String.eqb_spec (feeder_of s v) f) as [Hf|Hf]; simpl.
  - split; [intros [= <-]; naive_solver|naive_solver].
  - split; [done|naive_solver].
Qed.

Lemma ValidateFeeder_state `{StakingKeeper W} f v s : (ValidateFeeder f v s).2 = s.
Proof.
  unfold ValidateFeeder. unfold mbind, M_bind. rewrite GetFeederDelegation_run.
  destruct (Validator _ _) as [[val|]| |]; [|done..].
  destruct (IsBonded val); [|done]. by destruct (negb _).
Qed.

Lemma AllHistoricPrices_run s :
  AllHistoricPrices s = (Ok (map (λ e, stamp e.1 e.2) (Walk (HistoricPrices s))), s).
Proof.
  unfold AllHistoricPrices, IterateAllHistoricPrices, gets, mbind, M_bind.
  by rewrite (walkM_collect stamp).
Qed.

Lemma AllMedianPrices_run s :
  AllMedianPrices s = (Ok (map (λ e, stamp e.1 e.2) (Walk (MedianPrices s))), s).
Proof.
  unfold AllMedianPrices, IterateAllMedianPrices, gets, mbind, M_bind.
  by rewrite (walkM_collect stamp).
Qed.

Lemma AllMedianDeviationPrices_run s :
  AllMedianDeviationPrices s = (Ok (map (λ e, stamp e.1 e.2) (Walk (MedianDeviations s))), s).
Proof.
  unfold AllMedianDeviationPrices, IterateAllMedianDeviationPrices, gets, mbind, M_bind.
  by rewrite (walkM_collect stamp).
Qed.
End keeper_facts.
