(* ===== verification/HistoricPrice.v ===== *)
(** * HistoricPrice: price stamps, medians and pruning

    [src/x/oracle/keeper/historic_price.go] and [end_blocker.go] of the
    keeper.  A stamp is stored under its denom and block; the iterators walk
    the stamps of a denom from the newest and stop after [numStamps].
    [RecordEndBlockMetrics] only feeds telemetry gauges and has no model. *)
From S2P Require Import Prelude Util GoStrings Dec Types Params Store Bech32 World State.
From S2P Require Import Subspace Keeper.
Local Open Scope Z_scope.

Section historic.
Context {W : Type} `{DecOps}.
Abbreviation K := (M (State W)) (only parsing).

(** The callback of the three iterators: [numStamps] is a captured variable. *)
Definition limited {X A} (handler : X → A → K (bool * A)) (x : X) (st : Z * A) :
    K (bool * (Z * A)) :=
  let '(numStamps, a) := st in
  if decide (numStamps = 0) then mret (true, (numStamps, a)) else
  r ← handler x a;
  mret (r.1, (numStamps - 1, r.2)).

Definition IterateHistoricPrices {A} (denom : string) (numStamps : Z)
    (handler : LegacyDec → A → K (bool * A)) (a : A) : K A :=
  m ← gets HistoricPrices;
  r ← walkM (λ _ v, limited handler v) (WalkPrefixDesc m denom) (numStamps, a);
  mret r.2.

(** This walks [HistoricPrices], like the iterator over prices. *)
Definition IterateHistoricMedians {A} (denom : string) (numStamps : Z)
    (handler : PriceStamp → A → K (bool * A)) (a : A) : K A :=
  m ← gets HistoricPrices;
  r ← walkM (λ k v, limited handler (NewPriceStamp v k.1 k.2)) (WalkPrefixDesc m denom)
        (numStamps, a);
  mret r.2.

Definition IterateHistoricDeviations {A} (denom : string) (numStamps : Z)
    (handler : PriceStamp → A → K (bool * A)) (a : A) : K A :=
  m ← gets MedianDeviations;
  r ← walkM (λ k v, limited handler (NewPriceStamp v k.1 k.2)) (WalkPrefixDesc m denom)
        (numStamps, a);
  mret r.2.

Definition HistoricMedians (denom : string) (numStamps : Z) : K (list PriceStamp) :=
  IterateHistoricMedians denom numStamps
    (λ median medians, mret (false, medians ++ [median])) [].

Definition HistoricDeviations (denom : string) (numStamps : Z) : K (list PriceStamp) :=
  IterateHistoricDeviations denom numStamps
    (λ median deviations, mret (false, deviations ++ [median])) [].

Definition historicPrices (denom : string) (numStamps : Z) : K (list LegacyDec) :=
  IterateHistoricPrices denom numStamps
    (λ exchangeRate historicPrices, mret (false, historicPrices ++ [exchangeRate])) [].

Definition SetHistoricMedian (denom : string) (blockNum : Z) (median : LegacyDec) : K () :=
  modify (set_MedianPrices <[(denom, blockNum) := median]>).

Definition SetHistoricMedianDeviation (denom : string) (blockNum : Z) (medianDeviation : LegacyDec) :
    K () := modify (set_MedianDeviations <[(denom, blockNum) := medianDeviation]>).

Definition calcAndSetHistoricMedianDeviation (denom : string) (median : LegacyDec)
    (prices : list LegacyDec) : K () :=
  medianDeviation ← lift (MedianDeviation median prices);
  h ← gets BlockHeight;
  let block := SafeInt64ToUint64 h in
  SetHistoricMedianDeviation denom block medianDeviation.

(** [decmath.Median] sorts the slice in place: the deviation sees the sorted
    prices. *)
Definition CalcAndSetHistoricMedian (denom : string) : K () :=
  n ← MaximumPriceStamps;
  historicPrices ← historicPrices denom n;
  median ← lift (Median historicPrices);
  h ← gets BlockHeight;
  let block := SafeInt64ToUint64 h in
  SetHistoricMedian denom block median;;
  calcAndSetHistoricMedianDeviation denom median (sort_decs historicPrices).

Definition HistoricMedianDeviation (denom : string) : K PriceStamp :=
  h ← gets BlockHeight;
  period ← MedianStampPeriod;
  r ← lift (go_rem (SafeInt64ToUint64 h) period);
  let blockDiff := wrap_u64 (r + 1) in
  let blockNum := wrap_u64 (SafeInt64ToUint64 h - blockDiff) in
  m ← gets MedianDeviations;
  match m !! (denom, blockNum) with
  | None => throw ErrNoMedianDeviation
  | Some median => mret (NewPriceStamp median denom blockNum)
  end.

Definition WithinHistoricMedianDeviation (denom : string) : K bool :=
  medians ← HistoricMedians denom 1;
  match medians with
  | [] => throw ErrNoMedian
  | median0 :: _ =>
      let median := dc_Amount (ps_ExchangeRate median0) in
      prices ← historicPrices denom 1;
      match prices with
      | [] => throw ErrNoHistoricPrice
      | price :: _ =>
          medianDeviation ← HistoricMedianDeviation denom;
          diff ← lift (or_panic (dec_Sub price median));
          mret (Z.abs diff <=? dc_Amount (ps_ExchangeRate medianDeviation))
      end
  end.

(** The four statistics share their shape: zero for no stamps, the statistic
    and the number of stamps otherwise. *)
Definition MedianOfHistoricMedians (denom : string) (numStamps : Z) : K (LegacyDec * Z) :=
  medians ← HistoricMedians denom numStamps;
  if decide (length medians = 0%nat) then mret (LegacyZeroDec, 0) else
  median ← lift (Median (Decs medians));
  mret (median, SafeIntToUint32 (Z.of_nat (length medians))).

Definition AverageOfHistoricMedians (denom : string) (numStamps : Z) : K (LegacyDec * Z) :=
  medians ← HistoricMedians denom numStamps;
  if decide (length medians = 0%nat) then mret (LegacyZeroDec, 0) else
  average ← lift (Average (Decs medians));
  mret (average, SafeIntToUint32 (Z.of_nat (length medians))).

Definition MaxOfHistoricMedians (denom : string) (numStamps : Z) : K (LegacyDec * Z) :=
  medians ← HistoricMedians denom numStamps;
  if decide (length medians = 0%nat) then mret (LegacyZeroDec, 0) else
  max ← lift (Max (Decs medians));
  mret (max, SafeIntToUint32 (Z.of_nat (length medians))).

Definition MinOfHistoricMedians (denom : string) (numStamps : Z) : K (LegacyDec * Z) :=
  medians ← HistoricMedians denom numStamps;
  if decide (length medians = 0%nat) then mret (LegacyZeroDec, 0) else
  min ← lift (Min (Decs medians));
  mret (min, SafeIntToUint32 (Z.of_nat (length medians))).

Definition SetHistoricPrice (denom : string) (blockNum : Z) (exchangeRate : LegacyDec) : K () :=
  modify (set_HistoricPrices <[(denom, blockNum) := exchangeRate]>);;
  modify (set_LastHistoricPriceBlock <[denom := blockNum]>).

Definition AddHistoricPrice (denom : string) (exchangeRate : LegacyDec) : K () :=
  h ← gets BlockHeight;
  let block := SafeInt64ToUint64 h in
  SetHistoricPrice denom block exchangeRate.

Definition DeleteHistoricPrice (denom : string) (blockNum : Z) : K () :=
  modify (set_HistoricPrices (delete (denom, blockNum))).

Definition DeleteHistoricMedian (denom : string) (blockNum : Z) : K () :=
  modify (set_MedianPrices (delete (denom, blockNum))).

Definition DeleteHistoricMedianDeviation (denom : string) (blockNum : Z) : K () :=
  modify (set_MedianDeviations (delete (denom, blockNum))).

Definition PruneHistoricPricesBeforeBlock (blockNum : Z) : K () :=
  IterateAllHistoricPrices (λ price _,
    (if decide (ps_BlockNum price ≤ blockNum)
     then DeleteHistoricPrice (dc_Denom (ps_ExchangeRate price)) (ps_BlockNum price)
     else mret ());;
    mret (false, ())) ().

Definition PruneMediansBeforeBlock (blockNum : Z) : K () :=
  IterateAllMedianPrices (λ price _,
    (if decide (ps_BlockNum price ≤ blockNum)
     then DeleteHistoricMedian (dc_Denom (ps_ExchangeRate price)) (ps_BlockNum price)
     else mret ());;
    mret (false, ())) ().

Definition PruneMedianDeviationsBeforeBlock (blockNum : Z) : K () :=
  IterateAllMedianDeviationPrices (λ price _,
    (if decide (ps_BlockNum price ≤ blockNum)
     then DeleteHistoricMedianDeviation (dc_Denom (ps_ExchangeRate price)) (ps_BlockNum price)
     else mret ());;
    mret (false, ())) ().

(** ** [end_blocker.go] *)

Definition IsPeriodLastBlock (blocksPerPeriod : Z) : K bool :=
  h ← gets BlockHeight;
  r ← lift (go_rem (wrap_u64 (SafeInt64ToUint64 h + 1)) blocksPerPeriod);
  mret (r =? 0).

Definition PruneAllPrices : K () :=
  params ← GetParams;
  h ← gets BlockHeight;
  let blockHeight := SafeInt64ToUint64 h in
  last ← IsPeriodLastBlock (Types.HistoricStampPeriod params);
  if last : bool then
    let pruneHistoricPeriod :=
      wrap_u64 (Types.HistoricStampPeriod params * Types.MaximumPriceStamps params) in
    (if pruneHistoricPeriod <? blockHeight
     then PruneHistoricPricesBeforeBlock (blockHeight - pruneHistoricPeriod)
     else mret ());;
    last2 ← IsPeriodLastBlock (Types.MedianStampPeriod params);
    if last2 : bool then
      let pruneMedianPeriod :=
        wrap_u64 (Types.MedianStampPeriod params * Types.MaximumMedianStamps params) in
      if pruneMedianPeriod <? blockHeight then
        PruneMediansBeforeBlock (blockHeight - pruneMedianPeriod);;
        PruneMedianDeviationsBeforeBlock (blockHeight - pruneMedianPeriod)
      else mret ()
    else mret ()
  else mret ().
End historic.

(** ** Lemmas *)

Section historic_facts.
Context {W : Type} `{DecLaws}.
Implicit Types s : State W.

(** The newest [n] entries of a denom. *)
Definition newest (m : gmap (string * Z) LegacyDec) (denom : string) (n : nat) :
    list ((string * Z) * LegacyDec) := take n (WalkPrefixDesc m denom).

Lemma newest_elem m denom n k v :
  (k, v) ∈ newest m denom n → m !! k = Some v ∧ k.1 = denom.
Proof.
  unfold newest, WalkPrefixDesc. intros Hin%subseteq_take. rewrite elem_of_reverse in Hin.
  apply list_elem_of_filter in Hin as [Hk Hin%elem_of_Walk]. done.
Qed.

(** The stamps of a denom from the newest. *)
Definition newer (e1 e2 : (string * Z) * LegacyDec) : Prop := e2.1.2 < e1.1.2.

Lemma newer_reverse denom (l : list ((string * Z) * LegacyDec)) :
  StronglySorted entry_le l → NoDup l.*1 →
  StronglySorted newer (reverse (filter (λ e, e.1.1 = denom) l)).
Proof.
  induction l as [|e l IH]; intros Hs Hnd; [constructor|].
  apply StronglySorted_inv in Hs as [Hs Hle]. cbn in Hnd. apply NoDup_cons in Hnd as [Hni Hnd].
  rewrite filter_cons. case_decide as He; [|by apply IH]. rewrite reverse_cons.
  apply StronglySorted_app_2; [|by apply IH|by repeat constructor].
  intros e1 e2 He1 ->%list_elem_of_singleton. rewrite elem_of_reverse, list_elem_of_filter in He1.
  destruct He1 as [Hd He1]. rewrite Forall_forall in Hle. specialize (Hle e1 He1).
  destruct Hle as [[_ Hle]|[Hne _]]; [|congruence]. unfold newer.
  apply Z.le_neq. split; [exact Hle|]. intros Heq. apply Hni. apply list_elem_of_fmap. exists e1.
  split; [|done]. destruct e as [[d b] v], e1 as [[d1 b1] v1]. simpl in *. congruence.
Qed.

(** The [n] newest stamps of [denom], with their blocks: from the newest, all
    of them when there are at most [n], and then none of the others newer. *)
Record newest_stamps (m : gmap (string * Z) LegacyDec) (denom : string) (n : nat)
    (l : list (Z * LegacyDec)) : Prop := {
  ns_sorted : StronglySorted (λ e1 e2, e2.1 < e1.1) l;
  ns_stamps : ∀ b r, (b, r) ∈ l → m !! (denom, b) = Some r;
  ns_length : (length l ≤ n)%nat;
  ns_all : ∀ b r, m !! (denom, b) = Some r →
    (b, r) ∈ l ∨ length l = n ∧ ∀ e, e ∈ l → b < e.1;
}.

Lemma newest_newest m denom n :
  newest_stamps m denom n (map (λ e, (e.1.2, e.2)) (newest m denom n)).
Proof.
  assert (StronglySorted newer (WalkPrefixDesc m denom)) as Hs
    by (apply newer_reverse; [apply Walk_sorted|apply NoDup_Walk]).
  rewrite <-(take_drop n (WalkPrefixDesc m denom)) in Hs. fold (newest m denom n) in Hs.
  apply StronglySorted_app in Hs as (Hrest & Hs & _). split.
  - clear Hrest. induction Hs as [|e l Hl IH Hall]; [constructor|]. cbn [map]. constructor; [done|].
    by apply Forall_map.
  - intros b r ([[d b'] r'] & [= -> ->] & Hin)%list_elem_of_fmap. apply newest_elem in Hin as [Hl Hd].
    simpl in *. by subst d.
  - rewrite length_map. unfold newest. rewrite length_take. lia.
  - intros b r Hl. assert (((denom, b), r) ∈ WalkPrefixDesc m denom) as Hin.
    { unfold WalkPrefixDesc. rewrite elem_of_reverse, list_elem_of_filter. split; [done|].
      by apply elem_of_Walk. }
    rewrite <-(take_drop n (WalkPrefixDesc m denom)) in Hin.
    apply elem_of_app in Hin as [Hin|Hin].
    + left. apply list_elem_of_fmap. by exists ((denom, b), r).
    + right. split.
      * rewrite length_map. unfold newest. rewrite length_take. apply list_elem_of_lookup in Hin as [i Hi].
        apply lookup_lt_Some in Hi. rewrite length_drop in Hi. lia.
      * intros e (e' & -> & He')%list_elem_of_fmap. simpl. exact (Hrest e' _ He' Hin).
Qed.

Lemma newest_nonempty m denom n b r :
  m !! (denom, b) = Some r → (0 < n)%nat → newest m denom n ≠ [].
Proof.
  intros Hl Hn. unfold newest. assert (((denom, b), r) ∈ WalkPrefixDesc m denom) as Hin.
  { unfold WalkPrefixDesc. rewrite elem_of_reverse, list_elem_of_filter. split; [done|].
    by apply elem_of_Walk. }
  destruct n; [lia|]. destruct (WalkPrefixDesc m denom); [by apply elem_of_nil in Hin|done].
Qed.

Lemma limited_S {X} (x : X) n xs s :
  limited (λ x xs, mret (false, xs ++ [x])) x (Z.of_nat (S n), xs) s =
  (Ok (false, (Z.of_nat n, xs ++ [x])), s).
Proof.
  unfold limited. rewrite decide_False by lia. unfold mbind, M_bind. cbn [mret M_ret fst snd].
  by replace (Z.of_nat (S n) - 1) with (Z.of_nat n) by lia.
Qed.

Lemma walk_limited {X} (g : (string * Z) → LegacyDec → X) l acc n s :
  ∃ k, walkM (λ k v, limited (λ x xs, mret (false, xs ++ [x])) (g k v)) l (Z.of_nat n, acc) s =
    (Ok (k, acc ++ map (λ e, g e.1 e.2) (take n l)), s).
Proof.
  revert acc n. induction l as [|[k v] l IH]; intros acc n.
  - exists (Z.of_nat n). rewrite take_nil. simpl. by rewrite app_nil_r.
  - destruct n as [|n].
    + exists 0. simpl. by rewrite app_nil_r.
    + destruct (IH (acc ++ [g k v]) n) as [j Hj]. exists j.
      erewrite walkM_next; [|apply limited_S]. rewrite Hj.
      cbn [take map fst snd]. by rewrite <-app_assoc.
Qed.

Lemma historicPrices_run denom n s :
  historicPrices denom (Z.of_nat n) s = (Ok (map snd (newest (HistoricPrices s) denom n)), s).
Proof.
  unfold historicPrices, IterateHistoricPrices, newest, gets, mbind, M_bind.
  destruct (walk_limited (λ _ v, v) (WalkPrefixDesc (HistoricPrices s) denom) [] n s) as [k Hk].
  unfold mbind, M_bind in Hk. by rewrite Hk.
Qed.

Lemma HistoricMedians_run denom n s :
  HistoricMedians denom (Z.of_nat n) s =
  (Ok (map (λ e, NewPriceStamp e.2 e.1.1 e.1.2) (newest (HistoricPrices s) denom n)), s).
Proof.
  unfold HistoricMedians, IterateHistoricMedians, newest, gets, mbind, M_bind.
  destruct (walk_limited (λ k v, NewPriceStamp v k.1 k.2)
    (WalkPrefixDesc (HistoricPrices s) denom) [] n s) as [k Hk].
  unfold mbind, M_bind in Hk. by rewrite Hk.
Qed.

Lemma HistoricDeviations_run denom n s :
  HistoricDeviations denom (Z.of_nat n) s =
  (Ok (map (λ e, NewPriceStamp e.2 e.1.1 e.1.2) (newest (MedianDeviations s) denom n)), s).
Proof.
  unfold HistoricDeviations, IterateHistoricDeviations, newest, gets, mbind, M_bind.
  destruct (walk_limited (λ k v, NewPriceStamp v k.1 k.2)
    (WalkPrefixDesc (MedianDeviations s) denom) [] n s) as [k Hk].
  unfold mbind, M_bind in Hk. by rewrite Hk.
Qed.

(** ** Pruning *)

Lemma foldl_set {F E} (set : (F → F) → State W → State W) (upd : F → E → F) (l : list E) s :
  (∀ s, set (λ m, m) s = s) →
  (∀ f g s, set g (set f s) = set (λ m, g (f m)) s) →
  foldl (λ s e, set (λ m, upd m e) s) s l = set (λ m, foldl upd m l) s.
Proof.
  intros Hid Hcomp. revert s. induction l as [|e l IH]; intros s; cbn [foldl].
  - by rewrite Hid.
  - by rewrite IH, Hcomp.
Qed.

(** A walk over [m] whose callback deletes the stamps up to block [b]. *)
Definition kept (b : Z) (m : gmap (string * Z) LegacyDec) : gmap (string * Z) LegacyDec :=
  filter (λ e, ¬ e.1.2 ≤ b) m.

Lemma prune_walk (get : State W → gmap (string * Z) LegacyDec)
    (set : (gmap (string * Z) LegacyDec → gmap (string * Z) LegacyDec) → State W → State W) b s :
  (∀ s, set (λ m, m) s = s) →
  (∀ f g s, set g (set f s) = set (λ m, g (f m)) s) →
  (∀ f g s, f (get s) = g (get s) → set f s = set g s) →
  walkM (λ k v (_ : ()),
    (if decide (ps_BlockNum (stamp k v) ≤ b)
     then modify (set (delete (dc_Denom (ps_ExchangeRate (stamp k v)), ps_BlockNum (stamp k v))))
     else mret ());;
    mret (false, ())) (Walk (get s)) () s = (Ok (), set (kept b) s).
Proof.
  intros Hid Hcomp Hext.
  rewrite (walkM_update _ (λ k v, set (λ m, if decide (k.2 ≤ b) then delete k m else m))).
  2:{ intros [d blk] v s'. simpl. destruct (decide (blk ≤ b)); [done|]. by rewrite Hid. }
  f_equal. rewrite (foldl_set set (λ m e, if decide (e.1.2 ≤ b) then delete e.1 m else m)) by done.
  apply Hext. unfold kept.
  exact (@foldl_delete_walk _ _ _ _ _ (λ (k : string * Z) (v : LegacyDec), k.2 ≤ b)
    (λ k v, decide (k.2 ≤ b)) (get s)).
Qed.

Lemma PruneHistoricPrices_run b s :
  PruneHistoricPricesBeforeBlock b s = (Ok (), set_HistoricPrices (kept b) s).
Proof.
  apply (prune_walk HistoricPrices set_HistoricPrices); [by intros []|done|].
  intros f g [] Hfg. unfold set_HistoricPrices. simpl in *. by rewrite Hfg.
Qed.

Lemma PruneMedians_run b s :
  PruneMediansBeforeBlock b s = (Ok (), set_MedianPrices (kept b) s).
Proof.
  apply (prune_walk MedianPrices set_MedianPrices); [by intros []|done|].
  intros f g [] Hfg. unfold set_MedianPrices. simpl in *. by rewrite Hfg.
Qed.

Lemma PruneMedianDeviations_run b s :
  PruneMedianDeviationsBeforeBlock b s = (Ok (), set_MedianDeviations (kept b) s).
Proof.
  apply (prune_walk MedianDeviations set_MedianDeviations); [by intros []|done|].
  intros f g [] Hfg. unfold set_MedianDeviations. simpl in *. by rewrite Hfg.
Qed.

Lemma kept_lookup b m k v : kept b m !! k = Some v ↔ m !! k = Some v ∧ b < k.2.
Proof. unfold kept. rewrite map_lookup_filter_Some. simpl. naive_solver lia. Qed.

(** Heights are [int64] and periods [uint64]: the next height does not wrap. *)
Lemma IsPeriodLastBlock_run p s :
  0 ≤ BlockHeight s < 2 ^ 63 → 0 < p →
  IsPeriodLastBlock p s = (Ok ((BlockHeight s + 1) mod p =? 0), s).
Proof.
  intros Hh Hp. unfold IsPeriodLastBlock, gets, lift, mbind, M_bind.
  rewrite SafeInt64ToUint64_spec, Z.max_r by lia. rewrite wrap_u64_id by (unfold is_u64; lia).
  by rewrite go_rem_pos by lia.
Qed.

(** Period zero is a division by zero. *)
Lemma IsPeriodLastBlock_zero s : IsPeriodLastBlock 0 s = (Panic, s).
Proof. done. Qed.

(** What is left of the stamps with period [p] and at most [n] stamps. *)
Definition pruned (h p n : Z) (m : gmap (string * Z) LegacyDec) : gmap (string * Z) LegacyDec :=
  if p * n <? h then kept (h - p * n) m else m.

Lemma PruneAllPrices_run s :
  let p := paramSpace s in
  let h := BlockHeight s in
  0 ≤ h < 2 ^ 63 →
  0 < Types.HistoricStampPeriod p → 0 < Types.MedianStampPeriod p →
  is_u64 (Types.HistoricStampPeriod p * Types.MaximumPriceStamps p) →
  is_u64 (Types.MedianStampPeriod p * Types.MaximumMedianStamps p) →
  PruneAllPrices s =
    (Ok (),
     if (h + 1) mod Types.HistoricStampPeriod p =? 0 then
       let s1 := set_HistoricPrices
         (pruned h (Types.HistoricStampPeriod p) (Types.MaximumPriceStamps p)) s in
       if (h + 1) mod Types.MedianStampPeriod p =? 0 then
         set_MedianDeviations (pruned h (Types.MedianStampPeriod p) (Types.MaximumMedianStamps p))
           (set_MedianPrices (pruned h (Types.MedianStampPeriod p) (Types.MaximumMedianStamps p)) s1)
       else s1
     else s).
Proof.
  intros p h Hh Hp1 Hp2 Hu1 Hu2. unfold PruneAllPrices.
  unfold GetParams, gets. unfold mbind at 1 2 3, M_bind at 1 2 3.
  rewrite IsPeriodLastBlock_run by done. fold p h.
  destruct (_ =? 0); [|done].
  rewrite !wrap_u64_id by done. rewrite !SafeInt64ToUint64_spec, Z.max_r by lia.
  unfold mbind, M_bind.
  assert (Hfst : (if Types.HistoricStampPeriod p * Types.MaximumPriceStamps p <? h
    then PruneHistoricPricesBeforeBlock (h - Types.HistoricStampPeriod p * Types.MaximumPriceStamps p)
    else mret ()) s =
    (Ok (), set_HistoricPrices
       (pruned h (Types.HistoricStampPeriod p) (Types.MaximumPriceStamps p)) s)).
  { unfold pruned. destruct (_ <? h); [apply PruneHistoricPrices_run|by destruct s]. }
  rewrite Hfst. rewrite IsPeriodLastBlock_run by done.
  change (BlockHeight (set_HistoricPrices _ s)) with h.
  destruct (_ =? 0); [|done]. unfold pruned.
  destruct (Types.MedianStampPeriod p * Types.MaximumMedianStamps p <? h); [|done].
  by rewrite PruneMedians_run, PruneMedianDeviations_run.
Qed.

(** The blocks of a denom's stamps. *)
Definition blocks_of (m : gmap (string * Z) LegacyDec) (denom : string) : list Z :=
  map (λ e, e.1.2) (filter (λ e, e.1.1 = denom) (map_to_list m)).

Lemma elem_of_blocks m denom b : b ∈ blocks_of m denom ↔ is_Some (m !! (denom, b)).
Proof.
  unfold blocks_of. rewrite list_elem_of_fmap. setoid_rewrite list_elem_of_filter. split.
  - intros ([[d b'] v] & -> & <- & Hin%elem_of_map_to_list). by exists v.
  - intros [v Hv]. exists (denom, b, v). by rewrite elem_of_map_to_list.
Qed.

Lemma NoDup_blocks m denom : NoDup (blocks_of m denom).
Proof.
  unfold blocks_of. pose proof (NoDup_fst_map_to_list m) as Hnd. revert Hnd.
  induction (map_to_list m) as [|[[d b] v] l IH]; cbn [fmap list_fmap]; intros Hnd; [constructor|].
  apply NoDup_cons in Hnd as [Hni Hnd]. rewrite filter_cons. simpl in *.
  destruct (decide (d = denom)) as [->|]; [|by apply IH]. cbn [map].
  apply NoDup_cons. split; [|by apply IH].
  intros ([[d b'] v'] & Heq & [Hd Hin]%list_elem_of_filter)%list_elem_of_fmap. simpl in *. subst.
  apply Hni. apply list_elem_of_fmap. by exists (denom, b', v').
Qed.

(** Pruning keeps at most [n] stamps taken at last blocks of periods. *)
Lemma pruned_length m denom h p n :
  0 < p → 0 ≤ n → (h + 1) mod p = 0 →
  (∀ b, is_Some (m !! (denom, b)) → 1 ≤ b ≤ h ∧ (b + 1) mod p = 0) →
  Z.of_nat (length (blocks_of (pruned h p n m) denom)) ≤ n.
Proof.
  intros Hp Hn Hh Hm.
  set (bs := blocks_of (pruned h p n m) denom).
  assert (Hbs : Forall (λ b, 1 ≤ b ≤ h ∧ (b + 1) mod p = 0 ∧ h < b + p * n) bs).
  { apply Forall_forall. intros b [v Hb]%elem_of_blocks. unfold pruned in Hb.
    destruct (Z.ltb_spec (p * n) h).
    - apply kept_lookup in Hb as [Hb ?]. simpl in *.
      destruct (Hm b) as [? ?]; [by exists v|]. split_and!; [lia..|done|lia].
    - destruct (Hm b) as [? ?]; [by exists v|]. split_and!; [lia..|done|lia]. }
  set (ks := map (λ b, (b + 1) / p) bs).
  assert (Hk : ∀ b, b ∈ bs → p * ((b + 1) / p) = b + 1).
  { intros b Hb. rewrite Forall_forall in Hbs. destruct (Hbs b Hb) as (_ & Hmod & _).
    symmetry. apply Z.div_exact; first [done|lia]. }
  assert (Hh' : p * ((h + 1) / p) = h + 1) by (symmetry; apply Z.div_exact; first [done|lia]).
  assert (NoDup ks) as Hnd.
  { apply NoDup_fmap_2_strong; [|apply NoDup_blocks].
    intros b1 b2 H1%Hk H2%Hk Heq. rewrite Heq in H1. lia. }
  replace (length bs) with (length ks) by apply length_map.
  etrans; [apply (NoDup_range_length ks ((h + 1) / p - n + 1) ((h + 1) / p + 1)); [done|]|lia].
  apply Forall_map, Forall_forall. intros b Hb. pose proof (Hk b Hb) as Hkb.
  rewrite Forall_forall in Hbs. destruct (Hbs b Hb) as (Hb1 & _ & Hb2).
  set (kb := (b + 1) / p) in *. set (kh := (h + 1) / p) in *.
  assert (p * kh < p * (kb + n)) as ?%Z.mul_lt_mono_pos_l by lia; [|done].
  assert (p * kb ≤ p * kh) as ?%Z.mul_le_mono_pos_l by lia; [|done]. lia.
Qed.

(** ** The latest deviation stamp *)

(** The block [HistoricMedianDeviation] looks at: the last block of the
    previous median period. *)
Lemma deviation_block h p :
  0 < p → p ≤ h → let b := h - (h mod p + 1) in (b + 1) mod p = 0 ∧ b < h ≤ b + p.
Proof.
  intros Hp Hh b. pose proof (Z.mod_pos_bound h p Hp). split.
  - subst b. replace (h - (h mod p + 1) + 1) with (h - h mod p) by lia.
    rewrite Zminus_mod_idemp_r, Z.sub_diag. apply Z.mod_0_l. lia.
  - subst b. lia.
Qed.

Lemma HistoricMedianDeviation_run denom s :
  let p := Types.MedianStampPeriod (paramSpace s) in
  let h := BlockHeight s in
  let b := h - (h mod p + 1) in
  0 < p < 2 ^ 64 → p ≤ h < 2 ^ 63 →
  HistoricMedianDeviation denom s =
  match MedianDeviations s !! (denom, b) with
  | Some dev => (Ok (NewPriceStamp dev denom b), s)
  | None => (Err ErrNoMedianDeviation, s)
  end.
Proof.
  intros p h b Hp Hh. unfold HistoricMedianDeviation, gets, lift, mbind, M_bind, MedianStampPeriod, gets.
  fold h p. rewrite SafeInt64ToUint64_spec, Z.max_r, go_rem_pos by lia.
  pose proof (Z.mod_pos_bound h p ltac:(lia)).
  rewrite (wrap_u64_id (h mod p + 1)) by (unfold is_u64; lia).
  pose proof (Z.mod_le h p ltac:(lia) ltac:(lia)).
  destruct (deviation_block h p) as [? ?]; [lia..|]. 
  rewrite wrap_u64_id by (unfold is_u64; lia). fold b.
  by destruct (_ !! _).
Qed.

(** The median it compares with is the newest price itself, so the answer is
    whether the stored deviation is not negative. *)
Lemma Within_run denom s b s' :
  WithinHistoricMedianDeviation denom s = (Ok b, s') →
  ∃ dev, HistoricMedianDeviation denom s = (Ok dev, s') ∧
    b = (0 <=? dc_Amount (ps_ExchangeRate dev)).
Proof.
  unfold WithinHistoricMedianDeviation. unfold mbind, M_bind.
  pose proof (HistoricMedians_run denom 1 s) as Hmed. pose proof (historicPrices_run denom 1 s) as Hpr.
  change (Z.of_nat 1) with 1 in *. rewrite Hmed. cbv beta iota.
  destruct (newest (HistoricPrices s) denom 1) as [|[k v] l] eqn:Hn; [done|]. cbn [map].
  rewrite ?Hn in Hpr. rewrite Hpr. cbn [map snd].
  destruct (HistoricMedianDeviation denom s) as [[dev| |] s1]; [|done..].
  unfold lift, or_panic. simpl. destruct (dec_Sub v v) as [d|] eqn:Hd; [|done].
  apply dec_Sub_Some in Hd. intros [= <- <-]. exists dev. split; [done|].
  by rewrite Hd, Z.sub_diag.
Qed.

(** ** Stamping *)

Lemma CalcAndSetHistoricMedian_Ok denom s s' :
  0 ≤ Types.MaximumPriceStamps (paramSpace s) →
  CalcAndSetHistoricMedian denom s = (Ok (), s') →
  let prices := map snd (newest (HistoricPrices s) denom
                  (Z.to_nat (Types.MaximumPriceStamps (paramSpace s)))) in
  let block := Z.max 0 (BlockHeight s) in
  ∃ median dev, Median prices = Ok median ∧ MedianDeviation median (sort_decs prices) = Ok dev ∧
    s' = set_MedianDeviations <[(denom, block) := dev]>
           (set_MedianPrices <[(denom, block) := median]> s).
Proof.
  intros Hn Hrun prices block. unfold CalcAndSetHistoricMedian in Hrun.
  unfold MaximumPriceStamps, gets in Hrun. unfold mbind, M_bind in Hrun.
  rewrite <-(Z2Nat.id (Types.MaximumPriceStamps (paramSpace s))) in Hrun by done.
  rewrite historicPrices_run in Hrun. fold prices in Hrun. unfold lift in Hrun.
  destruct (Median prices) as [median| |]; [|done..].
  unfold SetHistoricMedian, modify, calcAndSetHistoricMedianDeviation, lift, mbind, M_bind in Hrun.
  destruct (MedianDeviation _ _) as [dev| |] eqn:Hdev; [|done..].
  unfold gets, SetHistoricMedianDeviation, modify in Hrun. simpl in Hrun.
  rewrite SafeInt64ToUint64_spec in Hrun. injection Hrun as <-.
  exists median, dev. done.
Qed.
End historic_facts.
