(* ===== verification/ParamPlan.v ===== *)
(** * ParamPlan: scheduled parameter updates

    [src/x/oracle/keeper/param_update_plan.go].  [DenomList.Normalize] writes
    into the slice it is called on, so [ValidateParamChanges] leaves the
    caller's changes normalized: it is modelled as returning them, and
    [ScheduleParamUpdatePlan] stores the plan with them. *)
From S2P Require Import Prelude Util GoStrings Dec Types Params Store World State Subspace.
Local Open Scope Z_scope.

Section plan.
Context {W : Type} `{DecOps} `{YamlDenom}.
Abbreviation K := (M (State W)) (only parsing).

(** One iteration of the loop of [ValidateParamChanges] over the local
    [params] and the slices of [changes]. *)
Definition change_step (st : Params * Params) (key : string) : Params * Params :=
  let '(params, changes) := st in
  match key_of_string key with
  | Some KeyVotePeriod => (with_VotePeriod (Types.VotePeriod changes) params, changes)
  | Some KeyVoteThreshold => (with_VoteThreshold (Types.VoteThreshold changes) params, changes)
  | Some KeyRewardBands => (with_RewardBands (Types.RewardBands changes) params, changes)
  | Some KeyRewardDistributionWindow =>
      (with_RewardDistributionWindow (Types.RewardDistributionWindow changes) params, changes)
  | Some KeyAcceptList =>
      let changes := with_AcceptList (Normalize (Types.AcceptList changes)) changes in
      (with_AcceptList (Types.AcceptList changes) params, changes)
  | Some KeyMandatoryList =>
      let changes := with_MandatoryList (Normalize (Types.MandatoryList changes)) changes in
      (with_MandatoryList (Types.MandatoryList changes) params, changes)
  | Some KeySlashFraction => (with_SlashFraction (Types.SlashFraction changes) params, changes)
  | Some KeySlashWindow => (with_SlashWindow (Types.SlashWindow changes) params, changes)
  | Some KeyMinValidPerWindow =>
      (with_MinValidPerWindow (Types.MinValidPerWindow changes) params, changes)
  | Some KeyHistoricStampPeriod =>
      (with_HistoricStampPeriod (Types.HistoricStampPeriod changes) params, changes)
  | Some KeyMedianStampPeriod =>
      (with_MedianStampPeriod (Types.MedianStampPeriod changes) params, changes)
  | Some KeyMaximumPriceStamps =>
      (with_MaximumPriceStamps (Types.MaximumPriceStamps changes) params, changes)
  | Some KeyMaximumMedianStamps =>
      (with_MaximumMedianStamps (Types.MaximumMedianStamps changes) params, changes)
  | Some KeyCurrencyPairProviders =>
      (with_CurrencyPairProviders (Types.CurrencyPairProviders changes) params, changes)
  | Some KeyCurrencyDeviationThresholds =>
      (with_CurrencyDeviationThresholds (Types.CurrencyDeviationThresholds changes) params, changes)
  | Some KeyUsdcIbcDenom => (with_UsdcIbcDenom (Types.UsdcIbcDenom changes) params, changes)
  | Some KeySlashingEnabled =>
      (with_SlashingEnabled (Types.SlashingEnabled changes) params, changes)
  | Some KeyAveragingWindow =>
      (with_AveragingWindow (Types.AveragingWindow changes) params, changes)
  | None => (params, changes)
  end.

Definition ValidateParamChanges (keys : list string) (changes : Params) : K Params :=
  params ← GetParams;
  let '(params, changes) := foldl change_step (params, changes) keys in
  lift (Validate params);;
  mret changes.

Definition haveParamUpdatePlan (planHeight : Z) : K bool :=
  gets (λ s, bool_decide (is_Some (ParamUpdatePlans s !! planHeight))).

Definition ClearParamUpdatePlan (planHeight : Z) : K () :=
  have ← haveParamUpdatePlan planHeight;
  if negb have then throw ErrInvalidRequest else
  modify (set_ParamUpdatePlans (delete planHeight)).

Definition ScheduleParamUpdatePlan (plan : ParamUpdatePlan) : K () :=
  h ← gets BlockHeight;
  if plan_Height plan <? h then throw ErrInvalidRequest else
  changes ← ValidateParamChanges (plan_Keys plan) (plan_Changes plan);
  let height := SafeInt64ToUint64 (plan_Height plan) in
  modify (set_ParamUpdatePlans <[height := mkPlan (plan_Keys plan) (plan_Height plan) changes]>).

Definition IterateParamUpdatePlans {A} (handler : ParamUpdatePlan → A → K (bool * A)) (a : A) :
    K A :=
  m ← gets ParamUpdatePlans; walkM (λ _ plan, handler plan) (Walk m) a.

Definition GetParamUpdatePlans : K (list ParamUpdatePlan) :=
  IterateParamUpdatePlans (λ plan plans, mret (false, plans ++ [plan])) [].

Definition GetPlansUpToHeight (currentHeight : Z) : K (list ParamUpdatePlan) :=
  m ← gets ParamUpdatePlans;
  walkM (λ _ plan plans, mret (false, plans ++ [plan])) (WalkUpTo m currentHeight) [].

(** The [switch] of [ExecuteParamUpdatePlan]; an unknown key is skipped. *)
Definition execute_key (changes : Params) (key : string) : K () :=
  match key_of_string key with
  | Some KeyVotePeriod => SetVotePeriod (Types.VotePeriod changes)
  | Some KeyVoteThreshold => SetVoteThreshold (Types.VoteThreshold changes)
  | Some KeyRewardBands => SetRewardBand (Types.RewardBands changes)
  | Some KeyRewardDistributionWindow =>
      SetRewardDistributionWindow (Types.RewardDistributionWindow changes)
  | Some KeyAcceptList => SetAcceptList (Normalize (Types.AcceptList changes))
  | Some KeyMandatoryList => SetMandatoryList (Normalize (Types.MandatoryList changes))
  | Some KeySlashFraction => SetSlashFraction (Types.SlashFraction changes)
  | Some KeySlashWindow => SetSlashWindow (Types.SlashWindow changes)
  | Some KeyMinValidPerWindow => SetMinValidPerWindow (Types.MinValidPerWindow changes)
  | Some KeyHistoricStampPeriod => SetHistoricStampPeriod (Types.HistoricStampPeriod changes)
  | Some KeyMedianStampPeriod => SetMedianStampPeriod (Types.MedianStampPeriod changes)
  | Some KeyMaximumPriceStamps => SetMaximumPriceStamps (Types.MaximumPriceStamps changes)
  | Some KeyMaximumMedianStamps => SetMaximumMedianStamps (Types.MaximumMedianStamps changes)
  | Some KeyCurrencyPairProviders =>
      SetCurrencyPairProviders (Types.CurrencyPairProviders changes)
  | Some KeyCurrencyDeviationThresholds =>
      SetCurrencyDeviationThresholds (Types.CurrencyDeviationThresholds changes)
  | Some KeyUsdcIbcDenom => SetUsdcIbcDenom (Types.UsdcIbcDenom changes)
  | Some KeySlashingEnabled => SetSlashingEnabled (Types.SlashingEnabled changes)
  | Some KeyAveragingWindow => SetAveragingWindow (Types.AveragingWindow changes)
  | None => mret ()
  end.

Definition ExecuteParamUpdatePlan (plan : ParamUpdatePlan) : K () :=
  forM (execute_key (plan_Changes plan)) (plan_Keys plan);;
  modify (set_events (λ l, l ++ [EventParamUpdate]));;
  ClearParamUpdatePlan (SafeInt64ToUint64 (plan_Height plan)).
End plan.

(** ** Lemmas *)

Section plan_facts.
Context {W : Type} `{DecOps} `{YamlDenom}.
Implicit Types s : State W.

(** Changes with both denom lists normalized, and their effect on a set. *)
Definition normalized (c : Params) : Params :=
  with_MandatoryList (Normalize (Types.MandatoryList c))
    (with_AcceptList (Normalize (Types.AcceptList c)) c).

Definition effect_of_key (c : Params) (p : Params) (key : string) : Params :=
  match key_of_string key with
  | Some k => copy_field k (normalized c) p
  | None => p
  end.

Definition plan_effect (keys : list string) (c p : Params) : Params :=
  foldl (effect_of_key c) p keys.

Lemma normalized_accept c :
  normalized (with_AcceptList (Normalize (Types.AcceptList c)) c) = normalized c.
Proof. unfold normalized. destruct c. unfold with_AcceptList, with_MandatoryList. simpl. by rewrite Normalize_idemp. Qed.

Lemma normalized_mandatory c :
  normalized (with_MandatoryList (Normalize (Types.MandatoryList c)) c) = normalized c.
Proof. unfold normalized. destruct c. unfold with_AcceptList, with_MandatoryList. simpl. by rewrite Normalize_idemp. Qed.

Lemma change_step_spec p c key :
  (change_step (p, c) key).1 = effect_of_key c p key ∧
  normalized (change_step (p, c) key).2 = normalized c.
Proof.
  unfold change_step, effect_of_key. destruct (key_of_string key) as [[]|]; try done.
  - split; [done|apply normalized_accept].
  - split; [done|apply normalized_mandatory].
Qed.

Lemma effect_of_key_normalized c1 c2 p key :
  normalized c1 = normalized c2 → effect_of_key c1 p key = effect_of_key c2 p key.
Proof. unfold effect_of_key. by intros ->. Qed.

Lemma plan_effect_normalized keys c1 c2 p :
  normalized c1 = normalized c2 → plan_effect keys c1 p = plan_effect keys c2 p.
Proof.
  intros Hc. unfold plan_effect. revert p. induction keys as [|key keys IH]; intros p; [done|].
  cbn [foldl]. by rewrite (effect_of_key_normalized c1 c2), IH.
Qed.

Lemma change_loop keys p c :
  ∃ c', foldl change_step (p, c) keys = (plan_effect keys c p, c') ∧ normalized c' = normalized c.
Proof.
  revert p c. induction keys as [|key keys IH]; intros p c; [by exists c|].
  cbn [foldl]. destruct (change_step_spec p c key) as [Hp Hc].
  destruct (change_step (p, c) key) as [p1 c1]. cbn [fst snd] in *. subst p1.
  destruct (IH (effect_of_key c p key) c1) as (c' & Heq & Hc'). exists c'.
  split; [|congruence]. rewrite Heq. f_equal. unfold plan_effect. cbn [foldl].
  by apply (plan_effect_normalized keys).
Qed.

(** Validation looks at the parameters the plan would give. *)
Lemma ValidateParamChanges_run keys changes s :
  ∃ changes', normalized changes' = normalized changes ∧
    ValidateParamChanges keys changes s =
    match Validate (plan_effect keys changes (paramSpace s)) with
    | Ok _ => (Ok changes', s)
    | Err e => (Err e, s)
    | Panic => (Panic, s)
    end.
Proof.
  destruct (change_loop keys (paramSpace s) changes) as (c' & Heq & Hc').
  exists c'. split; [done|]. unfold ValidateParamChanges, GetParams, gets, lift, mbind, M_bind.
  rewrite Heq. by destruct (Validate _).
Qed.

Lemma execute_key_run c key s :
  execute_key c key s = (Ok (), set_paramSpace (λ p, effect_of_key c p key) s).
Proof.
  unfold execute_key, effect_of_key. destruct (key_of_string key) as [[]|]; try reflexivity.
  by destruct s.
Qed.

Lemma execute_keys_run c keys s :
  forM (execute_key c) keys s = (Ok (), set_paramSpace (plan_effect keys c) s).
Proof.
  revert s. induction keys as [|key keys IH]; intros s; [by destruct s|].
  cbn [forM]. unfold mbind, M_bind. rewrite execute_key_run, IH. done.
Qed.

Lemma ClearParamUpdatePlan_run h s :
  ClearParamUpdatePlan h s =
  match ParamUpdatePlans s !! h with
  | Some _ => (Ok (), set_ParamUpdatePlans (delete h) s)
  | None => (Err ErrInvalidRequest, s)
  end.
Proof.
  unfold ClearParamUpdatePlan, haveParamUpdatePlan, gets, mbind, M_bind.
  destruct (ParamUpdatePlans s !! h) eqn:Hh.
  - by rewrite bool_decide_eq_true_2 by (by eexists).
  - by rewrite bool_decide_eq_false_2 by (by intros []).
Qed.

(** Execution: the parameters change by the plan's effect, an event is
    emitted and the plan is removed, or its absence is reported. *)
Lemma ExecuteParamUpdatePlan_run plan s :
  let s1 := set_events (λ l, l ++ [EventParamUpdate])
              (set_paramSpace (plan_effect (plan_Keys plan) (plan_Changes plan)) s) in
  let h := Z.max 0 (plan_Height plan) in
  ExecuteParamUpdatePlan plan s =
  match ParamUpdatePlans s !! h with
  | Some _ => (Ok (), set_ParamUpdatePlans (delete h) s1)
  | None => (Err ErrInvalidRequest, s1)
  end.
Proof.
  intros s1 h. unfold ExecuteParamUpdatePlan, mbind, M_bind.
  rewrite execute_keys_run. unfold modify at 1.
  rewrite SafeInt64ToUint64_spec, ClearParamUpdatePlan_run. done.
Qed.

Lemma ScheduleParamUpdatePlan_run plan s :
  ∃ changes', normalized changes' = normalized (plan_Changes plan) ∧
    ScheduleParamUpdatePlan plan s =
    if plan_Height plan <? BlockHeight s then (Err ErrInvalidRequest, s) else
    match Validate (plan_effect (plan_Keys plan) (plan_Changes plan) (paramSpace s)) with
    | Ok _ => (Ok (), set_ParamUpdatePlans <[Z.max 0 (plan_Height plan) :=
                        mkPlan (plan_Keys plan) (plan_Height plan) changes']> s)
    | Err e => (Err e, s)
    | Panic => (Panic, s)
    end.
Proof.
  destruct (ValidateParamChanges_run (plan_Keys plan) (plan_Changes plan) s) as (c' & Hc' & Hrun).
  exists c'. split; [done|]. unfold ScheduleParamUpdatePlan, gets, mbind, M_bind.
  destruct (_ <? _); [done|]. rewrite Hrun, SafeInt64ToUint64_spec. by destruct (Validate _).
Qed.

(** Every stored plan is under its own height. *)
Definition plans_keyed s : Prop :=
  ∀ h plan, ParamUpdatePlans s !! h = Some plan → h = Z.max 0 (plan_Height plan).

Lemma Schedule_keyed plan s :
  plans_keyed s → plans_keyed (ScheduleParamUpdatePlan plan s).2.
Proof.
  intros Hs. destruct (ScheduleParamUpdatePlan_run plan s) as (c' & _ & ->).
  destruct (_ <? _); [done|]. destruct (Validate _); [|done..].
  intros h pl. simpl. intros [[<- <-]|[? Hl]]%lookup_insert_Some; [done|by apply Hs].
Qed.

Lemma Execute_keyed plan s :
  plans_keyed s → plans_keyed (ExecuteParamUpdatePlan plan s).2.
Proof.
  intros Hs. rewrite ExecuteParamUpdatePlan_run.
  destruct (_ !! _); [|by intros h pl; apply Hs].
  intros h pl. simpl. intros [? Hl]%lookup_delete_Some. by apply Hs.
Qed.

Lemma GetParamUpdatePlans_run s :
  GetParamUpdatePlans s = (Ok (map snd (Walk (ParamUpdatePlans s))), s).
Proof.
  unfold GetParamUpdatePlans, IterateParamUpdatePlans, gets, mbind, M_bind.
  by rewrite (walkM_collect (λ _ plan, plan)).
Qed.

Lemma GetPlansUpToHeight_run h s :
  GetPlansUpToHeight h s = (Ok (map snd (WalkUpTo (ParamUpdatePlans s) h)), s).
Proof.
  unfold GetPlansUpToHeight, gets. unfold mbind at 1, M_bind at 1.
  by rewrite (walkM_collect (λ _ plan, plan)).
Qed.

(** A field after a plan: the plan's, when its key is listed. *)
Lemma effect_field {A} (get : Params → A) (k : ParamKey) keys c p :
  (∀ k' c p, get (copy_field k' c p) = if decide (k' = k) then get c else get p) →
  get (plan_effect keys c p) =
  if decide (key_string k ∈ keys) then get (normalized c) else get p.
Proof.
  intros Hget. unfold plan_effect.
  enough (∀ p, get (foldl (effect_of_key c) p keys) =
    if decide (key_string k ∈ keys) then get (normalized c) else get p) by done.
  induction keys as [|key keys IH]; intros q; cbn [foldl].
  { by rewrite decide_False by set_solver. }
  rewrite IH. clear IH.
  destruct (decide (key_string k ∈ keys)) as [Hin|Hni].
  { by rewrite decide_True by set_solver. }
  unfold effect_of_key. destruct (key_of_string key) as [k'|] eqn:Hk.
  - apply key_string_of_key in Hk as ->. rewrite Hget. destruct (decide (k' = k)) as [->|Hne].
    + by rewrite decide_True by set_solver.
    + rewrite decide_False; [done|]. intros [Heq|?]%elem_of_cons; [|done].
      apply (f_equal key_of_string) in Heq. rewrite !key_of_key_string in Heq. congruence.
  - rewrite decide_False; [done|]. intros [<-|?]%elem_of_cons; [|done].
    by rewrite key_of_key_string in Hk.
Qed.

Lemma effect_AcceptList keys c p :
  Types.AcceptList (plan_effect keys c p) =
  if decide (key_string KeyAcceptList ∈ keys) then Normalize (Types.AcceptList c)
  else Types.AcceptList p.
Proof. rewrite (effect_field _ KeyAcceptList); [done|]. by intros []. Qed.

Lemma effect_MandatoryList keys c p :
  Types.MandatoryList (plan_effect keys c p) =
  if decide (key_string KeyMandatoryList ∈ keys) then Normalize (Types.MandatoryList c)
  else Types.MandatoryList p.
Proof. rewrite (effect_field _ KeyMandatoryList); [done|]. by intros []. Qed.

Lemma effect_RewardBands keys c p :
  Types.RewardBands (plan_effect keys c p) =
  if decide (key_string KeyRewardBands ∈ keys) then Types.RewardBands c else Types.RewardBands p.
Proof. rewrite (effect_field _ KeyRewardBands); [done|]. by intros []. Qed.

Lemma effect_CurrencyPairProviders keys c p :
  Types.CurrencyPairProviders (plan_effect keys c p) =
  if decide (key_string KeyCurrencyPairProviders ∈ keys) then Types.CurrencyPairProviders c
  else Types.CurrencyPairProviders p.
Proof. rewrite (effect_field _ KeyCurrencyPairProviders); [done|]. by intros []. Qed.
End plan_facts.
