(* ===== verification/Averages.v ===== *)
(** * Averages: moving averages of historic prices

    [src/x/oracle/keeper/averages.go].  Averages are stored under the denom
    and a type string. *)
From S2P Require Import Prelude Util GoStrings Dec Types Params Store World State.
From S2P Require Import Subspace Keeper HistoricPrice.
Local Open Scope Z_scope.

Definition WmaStrategyOldest : string := "OLDEST".
Definition WmaStrategyRecent : string := "RECENT".
Definition WmaStrategyBalanced : string := "BALANCED".
Definition WmaStrategyCustom : string := "CUSTOM".
Definition AvgTypeSMA : string := "sma".
Definition AvgTypeEMA : string := "ema".
Definition AvgTypeWMA : string := "wma".

Definition IsValidWmaStrategy (s : string) : bool :=
  String.eqb s WmaStrategyOldest || String.eqb s WmaStrategyRecent
  || String.eqb s WmaStrategyBalanced || String.eqb s WmaStrategyCustom.

Section calculations.
Context `{DecOps}.

Definition CalculateSMA (prices : list LegacyDec) : outcome LegacyDec :=
  sum ← foldM (λ sum p, or_panic (dec_Add sum p)) prices LegacyZeroDec;
  or_panic (dec_QuoInt64 sum (Z.of_nat (length prices))).

Definition CalculateEMA (previousEMA : LegacyDec) (present : bool) (prices : list LegacyDec) :
    outcome LegacyDec :=
  match prices with
  | [] => Ok LegacyZeroDec
  | price0 :: rest =>
      let ema := if negb present then price0 else previousEMA in
      alpha ← or_panic (dec_QuoInt64 (LegacyNewDecWithPrec 2 0) (Z.of_nat (length prices + 1)));
      foldM (λ ema p,
        a ← or_panic (dec_Mul p alpha);
        c ← or_panic (dec_Sub LegacyOneDec alpha);
        b ← or_panic (dec_Mul ema c);
        or_panic (dec_Add a b)) rest ema
  end.

(** One iteration of the weighting loops; [weightTotal] is an [int64]. *)
Definition weigh (st : LegacyDec * Z) (pw : LegacyDec * Z) : outcome (LegacyDec * Z) :=
  let '(weightedSum, weightTotal) := st in
  t ← or_panic (dec_MulInt64 pw.1 pw.2);
  weightedSum ← or_panic (dec_Add weightedSum t);
  Ok (weightedSum, wrap_i64 (weightTotal + pw.2)).

Definition balanced_weight (i : nat) : Z :=
  if decide (i < 10)%nat then Z.of_nat i + 1
  else if decide (i < 20)%nat then 10
  else 30 - Z.of_nat i.

(** The weights a strategy gives to [n] prices; [None] is a panic. *)
Definition wma_weights (strategy : string) (customWeights : list Z) (n : nat) : option (list Z) :=
  if String.eqb strategy "OLDEST" then Some (map (λ i, Z.of_nat (n - i)) (seq 0 n))
  else if String.eqb strategy "RECENT" then Some (map (λ i, Z.of_nat i + 1) (seq 0 n))
  else if String.eqb strategy "BALANCED" then Some (map balanced_weight (seq 0 n))
  else if String.eqb strategy "CUSTOM" then
    if decide (length customWeights = n) then Some customWeights else None
  else None.

Definition CalculateWMA (prices : list LegacyDec) (strategy : string) (customWeights : list Z) :
    outcome LegacyDec :=
  let n := length prices in
  if decide (n = 0%nat) then Ok LegacyZeroDec else
  weights ← or_panic (wma_weights strategy customWeights n);
  '(weightedSum, weightTotal) ← foldM weigh (zip prices weights) (LegacyZeroDec, 0);
  or_panic (dec_QuoInt64 weightedSum weightTotal).
End calculations.

Section averages.
Context {W : Type} `{DecOps}.
Abbreviation K := (M (State W)) (only parsing).

(** Stamp periods back from the last stamp, in [uint64] arithmetic. *)
Definition target_block (lastBlock stampPeriod i : Z) : Z :=
  wrap_u64 (lastBlock - wrap_u64 (i * stampPeriod)).

Definition CalculateHistoricPrices (denom : string) (currentBlock : Z) : K (list LegacyDec) :=
  last ← gets LastHistoricPriceBlock;
  match last !! denom with
  | None => mret []
  | Some lastBlock =>
      params ← GetParams;
      let averagingWindow := Types.AveragingWindow params in
      let stampPeriod := Types.HistoricStampPeriod DefaultParams in
      m ← gets HistoricPrices;
      mret (omap (λ i, m !! (denom, target_block lastBlock stampPeriod i))
              (seqZ 0 averagingWindow))
  end.

Definition SetAverage (denom avgType : string) (value : LegacyDec) : K () :=
  modify (set_Averages <[(denom, avgType) := value]>).

Definition GetAverage (denom avgType : string) : K (option LegacyDec) :=
  gets (λ s, Averages s !! (denom, avgType)).

Definition SetSMA (denom : string) (value : LegacyDec) : K () := SetAverage denom AvgTypeSMA value.
Definition SetEMA (denom : string) (value : LegacyDec) : K () := SetAverage denom AvgTypeEMA value.
Definition SetWMA (denom strategy : string) (value : LegacyDec) : K () :=
  SetAverage denom ("wma:" +:+ AvgTypeWMA +:+ ":" +:+ strategy)%string value.
Definition GetSMA (denom : string) : K (option LegacyDec) := GetAverage denom AvgTypeSMA.
Definition GetEMA (denom : string) : K (option LegacyDec) := GetAverage denom AvgTypeEMA.
Definition GetWMA (denom strategy : string) : K (option LegacyDec) := GetAverage denom AvgTypeWMA.

(** The zero value of the result comes with an absent average. *)
Definition ComputeAverages (denom : string) : K () :=
  h ← gets BlockHeight;
  let currentBlock := SafeInt64ToUint64 h in
  prices ← CalculateHistoricPrices denom currentBlock;
  if decide (length prices = 0%nat) then mret () else
  sma ← lift (CalculateSMA prices);
  SetSMA denom sma;;
  forM (λ strategy,
    if negb (IsValidWmaStrategy strategy) then throw ErrInvalidWmaStrategy else
    wma ← lift (CalculateWMA prices strategy []);
    SetAverage denom (AvgTypeWMA +:+ ":" +:+ strategy)%string wma)
    [WmaStrategyBalanced; WmaStrategyOldest; WmaStrategyRecent];;
  prevEMA ← GetEMA denom;
  ema ← lift (CalculateEMA (default 0 prevEMA) (bool_decide (is_Some prevEMA)) prices);
  SetEMA denom ema.

Definition GetPriceHistory (denom : string) : K (list LegacyDec) :=
  h ← gets BlockHeight;
  let currentBlock := SafeInt64ToUint64 h in
  CalculateHistoricPrices denom currentBlock.

(** [weights] are [int32]; widening them keeps their value. *)
Definition GetCustomWMA (denom : string) (weights : list Z) : K LegacyDec :=
  prices ← GetPriceHistory denom;
  if decide (length prices = 0%nat) then throw (Errorf "no price history for %s") else
  if negb (bool_decide (length prices = length weights))
  then throw (Errorf "weights length %d does not match prices %d") else
  lift (CalculateWMA prices "CUSTOM" weights).
End averages.

(** ** Lemmas *)

Section averages_facts.
Context `{DecLaws}.

Lemma CalculateSMA_bounds prices lo hi r :
  Forall (λ p, lo ≤ p ≤ hi) prices → CalculateSMA prices = Ok r →
  prices ≠ [] ∧ lo ≤ r ≤ hi.
Proof.
  intros Hp (sum & Hsum & Hr)%bind_Ok. apply or_panic_Ok in Hr.
  destruct prices as [|p prices]; [by rewrite dec_QuoInt64_zero in Hr|]. split; [done|].
  apply (foldM_Add_bounds _ _ _ lo hi) in Hsum; [|done].
  rewrite dec_QuoInt64_spec in Hr by (cbn [length]; lia). injection Hr as <-.
  unfold LegacyZeroDec in *. cbn [length] in *. apply quot_between; lia.
Qed.

Definition sum_Z (l : list Z) : Z := foldr Z.add 0 l.

(** The loop's totals. *)
Lemma weigh_loop pws ws wt ws' wt' :
  foldM weigh pws (ws, wt) = Ok (ws', wt') →
  ws' = ws + sum_Z (map (λ pw, pw.1 * pw.2) pws) ∧
  wt' = foldl (λ t w, wrap_i64 (t + w)) wt (map snd pws).
Proof.
  revert ws wt. induction pws as [|[p w] pws IH]; intros ws wt; cbn [foldM map sum_Z foldr foldl].
  - intros [= <- <-]. split; [simpl; lia|done].
  - intros ([ws1 wt1] & Hstep & Hrest)%bind_Ok. unfold weigh in Hstep. cbn [fst snd] in Hstep.
    apply bind_Ok in Hstep as (t & ->%or_panic_Ok%dec_MulInt64_Some & Hstep).
    apply bind_Ok in Hstep as (x & ->%or_panic_Ok%dec_Add_Some & [= <- <-]).
    apply IH in Hrest as [-> ->]. split; [|done]. cbn [fst snd]. fold (sum_Z (map (λ pw, pw.1 * pw.2) pws)). lia.
Qed.

Lemma wrap_sum ws t :
  Forall (λ w, 0 ≤ w) ws → 0 ≤ t → t + sum_Z ws < 2 ^ 63 →
  foldl (λ t w, wrap_i64 (t + w)) t ws = t + sum_Z ws.
Proof.
  intros Hws. revert t. induction Hws as [|w ws Hw Hws IH]; intros t Ht; cbn [foldl sum_Z foldr]; [lia|].
  fold (sum_Z ws). intros Hlt.
  assert (0 ≤ sum_Z ws) by (clear -Hws; induction Hws; simpl; lia).
  rewrite wrap_i64_id by (unfold is_i64; lia). rewrite IH; lia.
Qed.

Lemma weighted_between (prices ws : list Z) lo hi :
  length ws = length prices → Forall (λ w, 0 ≤ w) ws → Forall (λ p, lo ≤ p ≤ hi) prices →
  sum_Z ws * lo ≤ sum_Z (map (λ pw, pw.1 * pw.2) (zip prices ws)) ≤ sum_Z ws * hi.
Proof.
  intros Hlen Hws Hp. revert ws Hlen Hws. induction Hp as [|p prices Hp Hps IH]; intros [|w ws];
    simpl; intros; try lia.
  inversion Hws as [|? ? Hw Hws']; subst. specialize (IH ws ltac:(lia) Hws').
  unfold sum_Z in *. nia.
Qed.

(** With non-negative weights of a positive total that fits [int64], the
    weighted average is between the smallest and the largest price. *)
Lemma CalculateWMA_bounds prices strategy custom ws lo hi r :
  wma_weights strategy custom (length prices) = Some ws →
  length ws = length prices → Forall (λ w, 0 ≤ w) ws → 0 < sum_Z ws < 2 ^ 63 →
  Forall (λ p, lo ≤ p ≤ hi) prices →
  CalculateWMA prices strategy custom = Ok r → lo ≤ r ≤ hi.
Proof.
  intros Hw Hlen Hws Hsum Hp. unfold CalculateWMA. rewrite Hw.
  case_decide as Hn.
  { destruct prices; [|done]. destruct ws; [|done]. simpl in Hsum. lia. }
  simpl. intros ([wsum wt] & Hloop & Hr)%bind_Ok.
  apply weigh_loop in Hloop as [-> Hwt].
  rewrite snd_zip in Hwt by lia. rewrite wrap_sum in Hwt by (done || lia). subst wt.
  rewrite or_panic_Ok, dec_QuoInt64_spec in Hr by lia. injection Hr as <-.
  unfold LegacyZeroDec. apply quot_between; [lia|].
  pose proof (weighted_between prices ws lo hi Hlen Hws Hp). lia.
Qed.

Lemma weigh_not_Err pws st e : foldM weigh pws st ≠ Err e.
Proof.
  revert st. induction pws as [|[p w] l IH]; intros [ws wt]; cbn [foldM]; [done|].
  destruct (weigh (ws, wt) (p, w)) as [st'|e'|] eqn:Hw; simpl; [apply IH| |done].
  simpl in Hw. destruct (dec_MulInt64 p w) as [t|]; [|done]. simpl in Hw.
  by destruct (dec_Add ws t).
Qed.
End averages_facts.
