(* ===== verification/Msgs.v ===== *)
(** * Msgs: the messages of the oracle module

    [src/x/oracle/types/msgs.go] and [src/util/checkers]: the messages, their
    constructors, signers and stateless validation.  The length limits of the
    SDK's gov module are the class [GovLimits]. *)
From S2P Require Import Prelude Util GoStrings Dec Types Params Bech32 Votes.
Local Open Scope Z_scope.

Class GovLimits := { MaxTitleLength : Z; MaxDescriptionLength : Z }.

Definition DefaultGovLimits : GovLimits := {| MaxTitleLength := 140; MaxDescriptionLength := 10000 |}.

Definition ErrInvalidAddress : error := Sdk "ErrInvalidAddress".
Definition sdk_ErrInvalidRequest : error := Sdk "ErrInvalidRequest".
Definition ErrInvalidCoins : error := Sdk "ErrInvalidCoins".

(** ** Messages *)

Record MsgAggregateExchangeRatePrevote := mkMsgPrevote {
  mp_Hash : string; mp_Feeder : string; mp_Validator : string }.

Record MsgAggregateExchangeRateVote := mkMsgVote {
  mv_Salt : string; mv_ExchangeRates : string; mv_Feeder : string; mv_Validator : string }.

Record MsgDelegateFeedConsent := mkMsgDelegate { md_Operator : string; md_Delegate : string }.

Record MsgLegacyGovUpdateParams := mkMsgLegacy {
  ml_Authority : string; ml_Title : string; ml_Description : string;
  ml_Keys : list string; ml_Changes : Params }.

Record MsgGovUpdateParams := mkMsgUpdate {
  mu_Authority : string; mu_Title : string; mu_Description : string; mu_Plan : ParamUpdatePlan }.

Record MsgGovCancelUpdateParamPlan := mkMsgCancel {
  mc_Authority : string; mc_Title : string; mc_Description : string; mc_Height : Z }.

Record MsgGovAddDenoms := mkMsgAddDenoms {
  ma_Authority : string; ma_Title : string; ma_Description : string; ma_Height : Z;
  ma_DenomList : list Denom; ma_Mandatory : bool; ma_RewardBand : option LegacyDec;
  ma_CurrencyPairProviders : list CurrencyPairProvider;
  ma_CurrencyDeviationThresholds : list CurrencyDeviationThreshold }.

Record MsgGovRemoveCurrencyPairProviders := mkMsgRemoveProviders {
  mrp_Authority : string; mrp_Title : string; mrp_Description : string; mrp_Height : Z;
  mrp_CurrencyPairProviders : list CurrencyPairProvider }.

Record MsgGovRemoveCurrencyDeviationThresholds := mkMsgRemoveThresholds {
  mrt_Authority : string; mrt_Title : string; mrt_Description : string; mrt_Height : Z;
  mrt_Currencies : list string }.

(** ** [util/checkers] *)

(** [strings.TrimSpace] on ASCII text. *)
Definition is_space (c : ascii) : bool :=
  let n := N_of_ascii c in
  (n =? 32)%N || ((9 <=? n)%N && (n <=? 13)%N).

Fixpoint trim_left (bz : bytes) : bytes :=
  match bz with
  | c :: bz' => if is_space c then trim_left bz' else bz
  | [] => []
  end.

Definition TrimSpace (s : string) : bytes :=
  reverse (trim_left (reverse (trim_left (String.list_ascii_of_string s)))).

Section msgs.
Context `{Bech32} `{GovLimits} `{DecOps} `{CoinOps} `{TmHash}.

Definition ValidateProposal (title description authority : string) : outcome () :=
  AccAddressFromBech32 authority;;
  fail_if (bool_decide (length (TrimSpace title) = 0%nat)) (Errorf "proposal title cannot be blank");;
  fail_if (MaxTitleLength <? Z.of_nat (String.length title))
    (Errorf "proposal title is longer than max length of %d");;
  fail_if (bool_decide (String.length description = 0%nat))
    (Errorf "proposal description cannot be blank");;
  fail_if (MaxDescriptionLength <? Z.of_nat (String.length description))
    (Errorf "proposal description is longer than max length of %d").

(** Parse errors are dropped: the address is then nil. *)
Definition Signers (signers : list string) : list addr :=
  map (λ s, match AccAddressFromBech32 s with Ok a => a | _ => ""%string end) signers.

(** An error is replaced by [e]; a panic stays one. *)
Definition or_error {A} (o : outcome A) (e : error) : outcome A :=
  match o with Ok a => Ok a | Err _ => Err e | Panic => Panic end.

(** ** Prevote *)

Definition NewMsgAggregateExchangeRatePrevote (hash : AggregateVoteHash) (feeder validator : addr) :
    MsgAggregateExchangeRatePrevote :=
  mkMsgPrevote (Hash_String hash) (AccAddress_String feeder) (ValAddress_String validator).

Definition Prevote_GetSigners (msg : MsgAggregateExchangeRatePrevote) : list addr :=
  Signers [mp_Feeder msg].

Definition Prevote_ValidateBasic (msg : MsgAggregateExchangeRatePrevote) : outcome () :=
  or_error (AggregateVoteHashFromHexString (mp_Hash msg)) ErrInvalidHash;;
  fail_if (negb (bool_decide (String.length (mp_Hash msg) = tmhash_TruncatedSize * 2)%nat))
    ErrInvalidHashLength;;
  or_error (AccAddressFromBech32 (mp_Feeder msg)) ErrInvalidAddress;;
  or_error (ValAddressFromBech32 (mp_Validator msg)) ErrInvalidAddress;;
  Ok ().

(** ** Vote *)

Definition NewMsgAggregateExchangeRateVote (salt exchangeRates : string) (feeder validator : addr) :
    MsgAggregateExchangeRateVote :=
  mkMsgVote salt exchangeRates (AccAddress_String feeder) (ValAddress_String validator).

Definition Vote_GetSigners (msg : MsgAggregateExchangeRateVote) : list addr :=
  Signers [mv_Feeder msg].

(** [BigInt().BitLen()]. *)
Definition bit_len (z : Z) : Z := if decide (z = 0) then 0 else Z.log2 (Z.abs z) + 1.

Definition Vote_ValidateBasic (msg : MsgAggregateExchangeRateVote) : outcome () :=
  or_error (AccAddressFromBech32 (mv_Feeder msg)) ErrInvalidAddress;;
  or_error (ValAddressFromBech32 (mv_Validator msg)) ErrInvalidAddress;;
  let l := String.length (mv_ExchangeRates msg) in
  fail_if (bool_decide (l = 0%nat)) sdk_ErrInvalidRequest;;
  fail_if (4096 <? Z.of_nat l) sdk_ErrInvalidRequest;;
  exchangeRates ← or_error (ParseExchangeRateDecCoins (mv_ExchangeRates msg)) ErrInvalidCoins;
  foldM (λ _ exchangeRate,
    fail_if (255 + LegacyDecimalPrecisionBits <? bit_len (dc_Amount exchangeRate))
      ErrInvalidExchangeRate) exchangeRates ();;
  fail_if (negb (bool_decide (String.length (mv_Salt msg) = 64%nat))) ErrInvalidSaltLength;;
  or_error (AggregateVoteHashFromHexString (mv_Salt msg)) ErrInvalidSaltFormat;;
  Ok ().

(** ** Feeder delegation *)

Definition NewMsgDelegateFeedConsent (operatorAddress feederAddress : addr) :
    MsgDelegateFeedConsent :=
  mkMsgDelegate (ValAddress_String operatorAddress) (AccAddress_String feederAddress).

Definition Delegate_GetSigners (msg : MsgDelegateFeedConsent) : list addr :=
  [match ValAddressFromBech32 (md_Operator msg) with Ok a => a | _ => ""%string end].

Definition Delegate_ValidateBasic (msg : MsgDelegateFeedConsent) : outcome () :=
  or_error (ValAddressFromBech32 (md_Operator msg)) ErrInvalidAddress;;
  or_error (AccAddressFromBech32 (md_Delegate msg)) ErrInvalidAddress;;
  Ok ().

(** ** Governance *)

Definition NewLegacyMsgUpdateParams (authority title description : string) (keys : list string)
    (changes : Params) : MsgLegacyGovUpdateParams :=
  mkMsgLegacy authority title description keys changes.

Definition legacy_validate_key (changes : Params) (key : string) : outcome () :=
  match key_of_string key with
  | Some KeyVotePeriod => validateVotePeriod (VotePeriod changes)
  | Some KeyVoteThreshold => validateVoteThreshold (VoteThreshold changes)
  | Some KeyRewardBands => validateRewardBands (RewardBands changes)
  | Some KeyRewardDistributionWindow =>
      validateRewardDistributionWindow (RewardDistributionWindow changes)
  | Some KeyAcceptList => validateDenomList (AcceptList changes)
  | Some KeyMandatoryList => validateDenomList (MandatoryList changes)
  | Some KeySlashFraction => validateSlashFraction (SlashFraction changes)
  | Some KeySlashWindow => validateSlashWindow (SlashWindow changes)
  | Some KeyMinValidPerWindow => validateMinValidPerWindow (MinValidPerWindow changes)
  | Some KeyHistoricStampPeriod => validateHistoricStampPeriod (HistoricStampPeriod changes)
  | Some KeyMedianStampPeriod => validateMedianStampPeriod (MedianStampPeriod changes)
  | Some KeyMaximumPriceStamps => validateMaximumPriceStamps (MaximumPriceStamps changes)
  | Some KeyMaximumMedianStamps => validateMaximumMedianStamps (MaximumMedianStamps changes)
  | Some KeyUsdcIbcDenom => validateString (UsdcIbcDenom changes)
  | _ => Err unknown_key
  end.

Definition Legacy_GetSigners (msg : MsgLegacyGovUpdateParams) : list addr :=
  Signers [ml_Authority msg].

Definition Legacy_ValidateBasic (msg : MsgLegacyGovUpdateParams) : outcome () :=
  ValidateProposal (ml_Title msg) (ml_Description msg) (ml_Authority msg);;
  foldM (λ _ key, legacy_validate_key (ml_Changes msg) key) (ml_Keys msg) ().

Definition NewMsgUpdateParams (authority title description : string) (plan : ParamUpdatePlan) :
    MsgGovUpdateParams := mkMsgUpdate authority title description plan.

Definition Update_GetSigners (msg : MsgGovUpdateParams) : list addr :=
  Signers [mu_Authority msg].

Definition Update_ValidateBasic (msg : MsgGovUpdateParams) : outcome () :=
  ValidateProposal (mu_Title msg) (mu_Description msg) (mu_Authority msg);;
  plan_ValidateBasic (mu_Plan msg).

(** The constructor has no height argument: the height is zero. *)
Definition NewMsgGovCancelUpdateParamPlan (authority title description : string) :
    MsgGovCancelUpdateParamPlan := mkMsgCancel authority title description 0.

Definition Cancel_GetSigners (msg : MsgGovCancelUpdateParamPlan) : list addr :=
  Signers [mc_Authority msg].

Definition Cancel_ValidateBasic (msg : MsgGovCancelUpdateParamPlan) : outcome () :=
  ValidateProposal (mc_Title msg) (mc_Description msg) (mc_Authority msg).

Definition NewMsgGovAddDenoms (authority title description : string) (height : Z)
    (denoms : list Denom) (mandatory : bool) (rewardBand : LegacyDec)
    (currencyPairProviders : list CurrencyPairProvider)
    (currencyDeviationThresholds : list CurrencyDeviationThreshold) : MsgGovAddDenoms :=
  mkMsgAddDenoms authority title description height denoms mandatory (Some rewardBand)
    currencyPairProviders currencyDeviationThresholds.

Definition AddDenoms_GetSigners (msg : MsgGovAddDenoms) : list addr :=
  Signers [ma_Authority msg].

Definition AddDenoms_ValidateBasic (msg : MsgGovAddDenoms) : outcome () :=
  ValidateProposal (ma_Title msg) (ma_Description msg) (ma_Authority msg).

Definition NewMsgGovRemoveCurrencyPairProviders (authority title description : string) (height : Z)
    (currencyPairProviders : list CurrencyPairProvider) : MsgGovRemoveCurrencyPairProviders :=
  mkMsgRemoveProviders authority title description height currencyPairProviders.

Definition RemoveProviders_GetSigners (msg : MsgGovRemoveCurrencyPairProviders) : list addr :=
  Signers [mrp_Authority msg].

Definition RemoveProviders_ValidateBasic (msg : MsgGovRemoveCurrencyPairProviders) : outcome () :=
  ValidateProposal (mrp_Title msg) (mrp_Description msg) (mrp_Authority msg).

Definition NewMsgGovRemoveCurrencyDeviationThresholds (authority title description : string)
    (height : Z) (currencies : list string) : MsgGovRemoveCurrencyDeviationThresholds :=
  mkMsgRemoveThresholds authority title description height currencies.

Definition RemoveThresholds_GetSigners (msg : MsgGovRemoveCurrencyDeviationThresholds) : list addr :=
  Signers [mrt_Authority msg].

Definition RemoveThresholds_ValidateBasic (msg : MsgGovRemoveCurrencyDeviationThresholds) :
    outcome () :=
  ValidateProposal (mrt_Title msg) (mrt_Description msg) (mrt_Authority msg).
End msgs.

(** ** Lemmas *)

Section msgs_facts.
Context `{Bech32Laws} `{GovLimits} `{DecOps} `{CoinLaws} `{TmHashLaws}.

(** The prevote a feeder builds from the hash of its vote passes. *)
Lemma honest_prevote_valid salt rates feeder validator :
  feeder ≠ "" → validator ≠ "" →
  Prevote_ValidateBasic
    (NewMsgAggregateExchangeRatePrevote (GetAggregateVoteHash salt rates validator) feeder validator)
  = Ok ().
Proof.
  intros Hf Hv. unfold Prevote_ValidateBasic, NewMsgAggregateExchangeRatePrevote.
  cbn [mp_Hash mp_Feeder mp_Validator]. rewrite Hash_roundtrip. cbn [or_error mbind outcome_bind].
  rewrite vote_hash_length. rewrite bool_decide_eq_true_2 by done.
  by rewrite AccAddress_roundtrip, ValAddress_roundtrip.
Qed.

(** An address that a check reads is the only signer of the message: the
    dropped error of [Signers] never hides an address that was accepted. *)
Lemma Signers_valid s : (∃ a, AccAddressFromBech32 s = Ok a) → ∃ a, Signers [s] = [a] ∧
  AccAddressFromBech32 s = Ok a.
Proof. intros [a Ha]. exists a. split; [|done]. unfold Signers. simpl. by rewrite Ha. Qed.

Lemma ValidateProposal_authority title description authority :
  ValidateProposal title description authority = Ok () →
  ∃ a, Signers [authority] = [a] ∧ AccAddressFromBech32 authority = Ok a.
Proof. intros (a & Ha & _)%bind_Ok. apply Signers_valid. by exists a. Qed.

Lemma Vote_ValidateBasic_signer msg :
  Vote_ValidateBasic msg = Ok () →
  ∃ a, Vote_GetSigners msg = [a] ∧ AccAddressFromBech32 (mv_Feeder msg) = Ok a.
Proof.
  intros (a & Ha & _)%bind_Ok. apply Signers_valid.
  destruct (AccAddressFromBech32 _) as [b| |]; [by exists b|done..].
Qed.

Lemma Prevote_ValidateBasic_signer msg :
  Prevote_ValidateBasic msg = Ok () →
  ∃ a, Prevote_GetSigners msg = [a] ∧ AccAddressFromBech32 (mp_Feeder msg) = Ok a.
Proof.
  unfold Prevote_ValidateBasic. intros (? & _ & Hv)%bind_Ok. apply seq_Ok in Hv as [_ Hv].
  apply bind_Ok in Hv as (a & Ha & _). apply Signers_valid.
  destruct (AccAddressFromBech32 _) as [b| |]; [by exists b|done..].
Qed.

(** Consent to a feeder is signed by the account of the operator itself. *)
Lemma Delegate_ValidateBasic_signer msg :
  Delegate_ValidateBasic msg = Ok () →
  ∃ a, Delegate_GetSigners msg = [a] ∧ ValAddressFromBech32 (md_Operator msg) = Ok a.
Proof.
  intros (a & Ha & _)%bind_Ok. unfold Delegate_GetSigners.
  destruct (ValAddressFromBech32 _) as [b| |]; [by exists b|done..].
Qed.

(** A valid vote message parses to at least one rate. *)
Lemma Vote_ValidateBasic_rates msg :
  Vote_ValidateBasic msg = Ok () →
  ∃ coins, ParseExchangeRateDecCoins (mv_ExchangeRates msg) = Ok coins ∧ coins ≠ [] ∧
    parsed_coins coins.
Proof.
  unfold Vote_ValidateBasic. intros Hv.
  apply bind_Ok in Hv as (? & _ & Hv). apply bind_Ok in Hv as (? & _ & Hv).
  apply seq_Ok in Hv as [Hne%fail_if_Ok Hv]. apply seq_Ok in Hv as [_ Hv].
  apply bind_Ok in Hv as (coins & Hp & _). apply bool_decide_eq_false in Hne.
  destruct (ParseExchangeRateDecCoins _) as [c| |] eqn:Hparse; [|done..].
  injection Hp as <-. exists c. split; [done|].
  apply Parse_parsed in Hparse as [Hpc [[? ?]|Hlen]]; [done|].
  split; [|done]. intros ->. pose proof (Split_not_nil "," (mv_ExchangeRates msg)) as Hs.
  by destruct (Split _ _).
Qed.
End msgs_facts.
