(* ===== verification/MsgServer.v ===== *)
(** * MsgServer: the message handlers of the oracle module

    [src/x/oracle/keeper/msg_server.go].  A handler's writes before an error
    stay in the model's state; the SDK's message router runs a handler on a
    branch of the store and drops the branch on an error.  [ms.authority] is
    the [authority] of the keeper. *)
From S2P Require Import Prelude Util GoStrings Dec Types Params Store Bech32 Votes Msgs.
From S2P Require Import World State Subspace Keeper ParamPlan.
Local Open Scope Z_scope.

Section server.
Context {W : Type} `{StakingKeeper W} `{EventManager}.
Context `{Bech32} `{DecOps} `{YamlDenom} `{CoinOps} `{TmHash}.
Context (ms : KeeperConf).
Abbreviation K := (M (State W)) (only parsing).

(** ** Voting *)

Definition AggregateExchangeRatePrevote (msg : MsgAggregateExchangeRatePrevote) : K () :=
  valAddr ← lift (ValAddressFromBech32 (mp_Validator msg));
  feederAddr ← lift (AccAddressFromBech32 (mp_Feeder msg));
  ValidateFeeder feederAddr valAddr;;
  has ← HasAggregateExchangeRatePrevote valAddr;
  if has : bool then throw ErrExistingPrevote else
  voteHash ← lift (or_error (AggregateVoteHashFromHexString (mp_Hash msg)) ErrInvalidHash);
  h ← gets BlockHeight;
  let aggregatePrevote :=
    NewAggregateExchangeRatePrevote voteHash valAddr (SafeInt64ToUint64 h) in
  SetAggregateExchangeRatePrevote valAddr aggregatePrevote.

Definition AggregateExchangeRateVote (msg : MsgAggregateExchangeRateVote) : K () :=
  valAddr ← lift (ValAddressFromBech32 (mv_Validator msg));
  feederAddr ← lift (AccAddressFromBech32 (mv_Feeder msg));
  ValidateFeeder feederAddr valAddr;;
  params ← GetParams;
  aggregatePrevote ← GetAggregateExchangeRatePrevote valAddr;
  h ← gets BlockHeight;
  currentPeriod ← lift (go_div (SafeInt64ToUint64 h) (Types.VotePeriod params));
  prevotePeriod ← lift (go_div (pv_SubmitBlock aggregatePrevote) (Types.VotePeriod params));
  if negb (wrap_u64 (currentPeriod - prevotePeriod) =? 1) then throw ErrRevealPeriodMissMatch else
  exchangeRates ← lift (or_error (ParseExchangeRateDecCoins (mv_ExchangeRates msg))
                          ErrInvalidExchangeRate);
  let hash := GetAggregateVoteHash (mv_Salt msg) (mv_ExchangeRates msg) valAddr in
  if negb (String.eqb (pv_Hash aggregatePrevote) (Hash_String hash))
  then throw ErrVerificationFailed else
  let filteredDecCoins :=
    filter (λ decCoin, DenomList_Contains (Types.AcceptList params) (dc_Denom decCoin) = true)
      exchangeRates in
  SetAggregateExchangeRateVote valAddr (NewAggregateExchangeRateVote filteredDecCoins valAddr);;
  DeleteAggregateExchangeRatePrevote valAddr.

Definition DelegateFeedConsent (msg : MsgDelegateFeedConsent) : K () :=
  operatorAddr ← lift (ValAddressFromBech32 (md_Operator msg));
  delegateAddr ← lift (AccAddressFromBech32 (md_Delegate msg));
  w ← gets world;
  val ← lift (Validator w operatorAddr);
  match val with
  | None => throw ErrNoValidatorFound
  | Some _ =>
      SetFeederDelegation operatorAddr delegateAddr;;
      EmitTypedEvent (EventDelegateFeedConsent (md_Operator msg) (md_Delegate msg))
  end.

(** ** Governance *)

(** The guard every governance handler starts with. *)
Definition check_authority (a : string) : K () :=
  if negb (String.eqb a (authority ms)) then throw ErrNoGovAuthority else mret ().

(** The [switch] of [LegacyGovUpdateParams] on one key.  [%] by a zero vote
    period panics. *)
Definition legacy_update (changes : Params) (key : string) : K () :=
  match key_of_string key with
  | Some KeyVotePeriod => SetVotePeriod (Types.VotePeriod changes)
  | Some KeyVoteThreshold => SetVoteThreshold (Types.VoteThreshold changes)
  | Some KeyRewardBands => SetRewardBand (Types.RewardBands changes)
  | Some KeyRewardDistributionWindow =>
      vp ← VotePeriod;
      if Types.RewardDistributionWindow changes <? vp then
        throw (Errorf "oracle parameter RewardDistributionWindow must be greater than or equal with VotePeriod") else
      SetRewardDistributionWindow (Types.RewardDistributionWindow changes)
  | Some KeyAcceptList =>
      let accept := Normalize (Types.AcceptList changes) in
      mandatory ← MandatoryList;
      if negb (ContainDenoms accept (Normalize mandatory)) then
        throw (Errorf "denom in MandatoryList not present in AcceptList") else
      SetAcceptList accept
  | Some KeyMandatoryList =>
      let mandatory := Normalize (Types.MandatoryList changes) in
      accept ← AcceptList;
      if negb (ContainDenoms (Normalize accept) mandatory) then
        throw (Errorf "denom in MandatoryList not present in AcceptList") else
      SetMandatoryList mandatory
  | Some KeySlashFraction => SetSlashFraction (Types.SlashFraction changes)
  | Some KeySlashWindow =>
      vp ← VotePeriod;
      if Types.SlashWindow changes <? vp then
        throw (Errorf "oracle parameter SlashWindow must be greater than or equal with VotePeriod") else
      SetSlashWindow (Types.SlashWindow changes)
  | Some KeyMinValidPerWindow => SetMinValidPerWindow (Types.MinValidPerWindow changes)
  | Some KeyHistoricStampPeriod =>
      if Types.HistoricStampPeriod changes <? 1 then
        throw (Errorf "oracle parameters HistoricStampPeriod must be greater than 0") else
      mp ← MedianStampPeriod;
      if mp <? Types.HistoricStampPeriod changes then
        throw (Errorf "oracle parameter HistoricStampPeriod must be less than or equal with MedianStampPeriod") else
      vp ← VotePeriod;
      r ← lift (go_rem (Types.HistoricStampPeriod changes) vp);
      if negb (r =? 0) then
        throw (Errorf "oracle parameters HistoricStampPeriod must be exact multiples of VotePeriod") else
      SetHistoricStampPeriod (Types.HistoricStampPeriod changes)
  | Some KeyMedianStampPeriod =>
      if Types.MedianStampPeriod changes <? 1 then
        throw (Errorf "oracle parameters MedianStampPeriod must be greater than 0") else
      hp ← HistoricStampPeriod;
      if Types.MedianStampPeriod changes <? hp then
        throw (Errorf "oracle parameter MedianStampPeriod must be greater than or equal with HistoricStampPeriod") else
      vp ← VotePeriod;
      r ← lift (go_rem (Types.MedianStampPeriod changes) vp);
      if negb (r =? 0) then
        throw (Errorf "oracle parameters MedianStampPeriod must be exact multiples of VotePeriod") else
      SetMedianStampPeriod (Types.MedianStampPeriod changes)
  | Some KeyMaximumPriceStamps =>
      if Types.MaximumPriceStamps changes <? 1 then
        throw (Errorf "oracle parameters MaximumPriceStamps must be greater than 0") else
      SetMaximumPriceStamps (Types.MaximumPriceStamps changes)
  | Some KeyMaximumMedianStamps =>
      if Types.MaximumMedianStamps changes <? 1 then
        throw (Errorf "oracle parameters MaximumMedianStamps must be greater than 0") else
      SetMaximumMedianStamps (Types.MaximumMedianStamps changes)
  | Some KeyUsdcIbcDenom => SetUsdcIbcDenom (Types.UsdcIbcDenom changes)
  | Some KeySlashingEnabled => SetSlashingEnabled (Types.SlashingEnabled changes)
  | Some KeyAveragingWindow => SetAveragingWindow (Types.AveragingWindow changes)
  | Some KeyCurrencyPairProviders | Some KeyCurrencyDeviationThresholds | None => throw unknown_key
  end.

Definition LegacyGovUpdateParams (msg : MsgLegacyGovUpdateParams) : K () :=
  check_authority (ml_Authority msg);;
  forM (legacy_update (ml_Changes msg)) (ml_Keys msg).

Definition GovUpdateParams (msg : MsgGovUpdateParams) : K () :=
  check_authority (mu_Authority msg);;
  ScheduleParamUpdatePlan (mu_Plan msg).

(** One iteration over the new denoms.  A denom without a band gets the
    custom band of the message, if there is one, and then the default band. *)
Definition add_denom (msg : MsgGovAddDenoms) (plan : ParamUpdatePlan) (denom : Denom) :
    outcome ParamUpdatePlan :=
  let changes := plan_Changes plan in
  if DenomList_Contains (Types.AcceptList changes) (SymbolDenom denom) && negb (ma_Mandatory msg)
  then Err ErrInvalidParamValue
  else if DenomList_Contains (Types.MandatoryList changes) (SymbolDenom denom) && ma_Mandatory msg
  then Err ErrInvalidParamValue
  else
  let plan :=
    if negb (DenomList_Contains (Types.AcceptList (plan_Changes plan)) (SymbolDenom denom))
    then mkPlan (AppendUniqueString (plan_Keys plan) (key_string KeyAcceptList)) (plan_Height plan)
           (with_AcceptList (Types.AcceptList (plan_Changes plan) ++ [denom]) (plan_Changes plan))
    else plan in
  let plan :=
    if ma_Mandatory msg
    then mkPlan (AppendUniqueString (plan_Keys plan) (key_string KeyMandatoryList)) (plan_Height plan)
           (with_MandatoryList (Types.MandatoryList (plan_Changes plan) ++ [denom]) (plan_Changes plan))
    else plan in
  match GetBandFromDenom (Types.RewardBands (plan_Changes plan)) (SymbolDenom denom) with
  | Ok _ => Ok plan
  | Err e =>
      if decide (e = ErrNoRewardBand) then
        let bands := Types.RewardBands (plan_Changes plan) in
        let bands := match ma_RewardBand msg with
                     | Some band => Add bands (SymbolDenom denom) band
                     | None => bands
                     end in
        let bands := AddDefault bands (SymbolDenom denom) in
        Ok (mkPlan (plan_Keys plan) (plan_Height plan) (with_RewardBands bands (plan_Changes plan)))
      else Err e
  | Panic => Panic
  end.

Definition add_provider (plan : ParamUpdatePlan) (cpp : CurrencyPairProvider) : ParamUpdatePlan :=
  mkPlan (AppendUniqueString (plan_Keys plan) (key_string KeyCurrencyPairProviders))
    (plan_Height plan)
    (with_CurrencyPairProviders (Types.CurrencyPairProviders (plan_Changes plan) ++ [cpp])
       (plan_Changes plan)).

Definition add_threshold (plan : ParamUpdatePlan) (cdt : CurrencyDeviationThreshold) :
    ParamUpdatePlan :=
  mkPlan (AppendUniqueString (plan_Keys plan) (key_string KeyCurrencyDeviationThresholds))
    (plan_Height plan)
    (with_CurrencyDeviationThresholds
       (Types.CurrencyDeviationThresholds (plan_Changes plan) ++ [cdt]) (plan_Changes plan)).

(** The plan [GovAddDenoms] builds from the current parameters. *)
Definition add_denoms_plan (msg : MsgGovAddDenoms) (params : Params) : outcome ParamUpdatePlan :=
  plan ← foldM (add_denom msg) (ma_DenomList msg) (mkPlan [] (ma_Height msg) params);
  let plan := foldl add_provider plan (ma_CurrencyPairProviders msg) in
  let plan := foldl add_threshold plan (ma_CurrencyDeviationThresholds msg) in
  Ok (if decide (length (ma_DenomList msg) ≠ 0%nat)
      then mkPlan (plan_Keys plan ++ [key_string KeyRewardBands]) (plan_Height plan)
             (plan_Changes plan)
      else plan).

Definition GovAddDenoms (msg : MsgGovAddDenoms) : K () :=
  check_authority (ma_Authority msg);;
  params ← GetParams;
  plan ← lift (add_denoms_plan msg params);
  lift (plan_ValidateBasic plan);;
  ScheduleParamUpdatePlan plan.

Definition GovRemoveCurrencyPairProviders (msg : MsgGovRemoveCurrencyPairProviders) : K () :=
  check_authority (mrp_Authority msg);;
  params ← GetParams;
  let plan := mkPlan [key_string KeyCurrencyPairProviders] (mrp_Height msg)
    (with_CurrencyPairProviders
       (foldl RemovePair_cpp (Types.CurrencyPairProviders params) (mrp_CurrencyPairProviders msg))
       params) in
  lift (plan_ValidateBasic plan);;
  ScheduleParamUpdatePlan plan.

Definition GovRemoveCurrencyDeviationThresholds (msg : MsgGovRemoveCurrencyDeviationThresholds) :
    K () :=
  check_authority (mrt_Authority msg);;
  params ← GetParams;
  let plan := mkPlan [key_string KeyCurrencyDeviationThresholds] (mrt_Height msg)
    (with_CurrencyDeviationThresholds
       (foldl (λ l curr, RemovePair_cdt l (ToUpper curr))
          (Types.CurrencyDeviationThresholds params) (mrt_Currencies msg))
       params) in
  lift (plan_ValidateBasic plan);;
  ScheduleParamUpdatePlan plan.

Definition GovCancelUpdateParamPlan (msg : MsgGovCancelUpdateParamPlan) : K () :=
  check_authority (mc_Authority msg);;
  ClearParamUpdatePlan (SafeInt64ToUint64 (mc_Height msg)).
End server.

(** ** Lemmas *)

(** The reveal is in the period after the commitment. *)
Definition next_period (vp submit now : Z) : Prop := now / vp = submit / vp + 1.

#[export] Instance next_period_dec vp submit now : Decision (next_period vp submit now).
Proof. unfold next_period. apply _. Defined.

Section server_facts.
Context {W : Type} `{StakingKeeper W} `{EventManager}.
Context `{Bech32} `{DecOps} `{YamlDenom} `{CoinOps} `{TmHash}.
Context (ms : KeeperConf).
Implicit Types s : State W.

(** [f] may feed for the bonded validator [v]. *)
Definition may_feed s (f v : addr) : Prop :=
  ∃ val, Validator (world s) v = Ok (Some val) ∧ IsBonded val = true ∧ feeder_of s v = f.

Lemma ValidateFeeder_cases f v s :
  (ValidateFeeder f v s = (Ok (), s) ∧ may_feed s f v) ∨
  (∃ e, ValidateFeeder f v s = (Err e, s)) ∨ ValidateFeeder f v s = (Panic, s).
Proof.
  pose proof (ValidateFeeder_state f v s) as Hst.
  destruct (ValidateFeeder f v s) as [[[]|e|] s1] eqn:Hv; simpl in Hst; subst s1.
  - left. split; [done|]. by apply ValidateFeeder_Ok in Hv as [_ ?].
  - right; left. by exists e.
  - by right; right.
Qed.

Lemma ValidateFeeder_may f v s : may_feed s f v → ValidateFeeder f v s = (Ok (), s).
Proof. intros Hm. by apply ValidateFeeder_Ok. Qed.

Lemma check_authority_run a s :
  check_authority ms a s =
  if String.eqb a (authority ms) then (Ok (), s) else (Err ErrNoGovAuthority, s).
Proof. unfold check_authority. by destruct (String.eqb _ _). Qed.

(** A prevote is stored exactly when its feeder may feed, none is pending and
    the hash is hexadecimal. *)
Lemma Prevote_Ok msg s s' :
  AggregateExchangeRatePrevote msg s = (Ok (), s') ↔
  ∃ v f hash, ValAddressFromBech32 (mp_Validator msg) = Ok v ∧
    AccAddressFromBech32 (mp_Feeder msg) = Ok f ∧ may_feed s f v ∧ Prevotes s !! v = None ∧
    AggregateVoteHashFromHexString (mp_Hash msg) = Ok hash ∧
    s' = set_Prevotes <[v := mkPrevote (Hash_String hash) (ValAddress_String v)
                               (Z.max 0 (BlockHeight s))]> s.
Proof.
  unfold AggregateExchangeRatePrevote. unfold mbind, M_bind, lift.
  destruct (ValAddressFromBech32 (mp_Validator msg)) as [v| |]; [|split; [done|naive_solver]..].
  destruct (AccAddressFromBech32 (mp_Feeder msg)) as [f| |]; [|split; [done|naive_solver]..].
  destruct (ValidateFeeder_cases f v s) as [[-> Hm]|[[e He]|He]].
  2:{ rewrite He. split; [done|]. intros (v' & f' & h & [= <-] & [= <-] & Hm & _).
      apply ValidateFeeder_may in Hm. congruence. }
  2:{ rewrite He. split; [done|]. intros (v' & f' & h & [= <-] & [= <-] & Hm & _).
      apply ValidateFeeder_may in Hm. congruence. }
  unfold HasAggregateExchangeRatePrevote, gets.
  destruct (Prevotes s !! v) eqn:Hp.
  { rewrite bool_decide_eq_true_2 by (by eexists). split; [done|naive_solver]. }
  rewrite bool_decide_eq_false_2 by (by intros []).
  destruct (AggregateVoteHashFromHexString (mp_Hash msg)) as [hash| |]; simpl;
    [|split; [done|naive_solver]..].
  rewrite SafeInt64ToUint64_spec. split.
  - intros [= <-]. by exists v, f, hash.
  - intros (? & ? & ? & [= <-] & [= <-] & _ & _ & [= <-] & ->). done.
Qed.

(** What the handler keeps of the revealed rates. *)
Definition accepted (p : Params) (rates : list DecCoin) : list DecCoin :=
  filter (λ c, DenomList_Contains (Types.AcceptList p) (dc_Denom c) = true) rates.

Lemma wrap_diff a b :
  0 ≤ a < 2 ^ 63 → 0 ≤ b < 2 ^ 63 → (wrap_u64 (b - a) =? 1) = bool_decide (b = a + 1).
Proof.
  intros Ha Hb. unfold wrap_u64. destruct (decide (b = a + 1)) as [->|Hne].
  - rewrite bool_decide_eq_true_2 by done. by replace (a + 1 - a) with 1 by lia.
  - rewrite bool_decide_eq_false_2 by done. apply Z.eqb_neq. intros Hmod.
    pose proof (Z.div_mod (b - a) (2 ^ 64) ltac:(lia)) as Hd. rewrite Hmod in Hd. lia.
Qed.

Lemma period_check vp submit now :
  0 < vp → 0 ≤ submit < 2 ^ 63 → 0 ≤ now < 2 ^ 63 →
  (wrap_u64 (now / vp - submit / vp) =? 1) = bool_decide (next_period vp submit now).
Proof.
  intros Hvp Hs Hn. rewrite wrap_diff; [by apply bool_decide_ext|..].
  - split; [apply Z.div_pos; lia|]. apply Z.div_lt_upper_bound; nia.
  - split; [apply Z.div_pos; lia|]. apply Z.div_lt_upper_bound; nia.
Qed.

(** A vote is accepted exactly when it reveals the pending prevote of the
    previous period: it then moves the prevote to a vote. *)
Lemma Vote_Ok msg s s' :
  0 < Types.VotePeriod (paramSpace s) → 0 ≤ BlockHeight s < 2 ^ 63 →
  (∀ v p, Prevotes s !! v = Some p → 0 ≤ pv_SubmitBlock p < 2 ^ 63) →
  AggregateExchangeRateVote msg s = (Ok (), s') ↔
  ∃ v f prevote rates, ValAddressFromBech32 (mv_Validator msg) = Ok v ∧
    AccAddressFromBech32 (mv_Feeder msg) = Ok f ∧ may_feed s f v ∧
    Prevotes s !! v = Some prevote ∧
    next_period (Types.VotePeriod (paramSpace s)) (pv_SubmitBlock prevote) (BlockHeight s) ∧
    ParseExchangeRateDecCoins (mv_ExchangeRates msg) = Ok rates ∧
    pv_Hash prevote = Hash_String (GetAggregateVoteHash (mv_Salt msg) (mv_ExchangeRates msg) v) ∧
    s' = set_Prevotes (delete v)
           (set_Votes <[v := mkVote (accepted (paramSpace s) rates) (ValAddress_String v)]> s).
Proof.
  intros Hvp Hh Hsub. unfold AggregateExchangeRateVote. unfold mbind, M_bind, lift.
  destruct (ValAddressFromBech32 (mv_Validator msg)) as [v| |]; [|split; [done|naive_solver]..].
  destruct (AccAddressFromBech32 (mv_Feeder msg)) as [f| |]; [|split; [done|naive_solver]..].
  destruct (ValidateFeeder_cases f v s) as [[-> Hm]|[[e He]|He]].
  2:{ rewrite He. split; [done|]. intros (? & ? & ? & ? & [= <-] & [= <-] & Hm & _).
      apply ValidateFeeder_may in Hm. congruence. }
  2:{ rewrite He. split; [done|]. intros (? & ? & ? & ? & [= <-] & [= <-] & Hm & _).
      apply ValidateFeeder_may in Hm. congruence. }
  unfold GetParams, GetAggregateExchangeRatePrevote, gets, mbind, M_bind.
  destruct (Prevotes s !! v) as [prevote|] eqn:Hp; [|split; [done|naive_solver]]. simpl.
  pose proof (Hsub _ _ Hp) as Hsubmit.
  rewrite SafeInt64ToUint64_spec, Z.max_r by lia. rewrite !go_div_pos by lia.
  rewrite period_check by done.
  destruct (bool_decide (next_period _ _ _)) eqn:Hper; simpl.
  2:{ apply bool_decide_eq_false in Hper. split; [done|naive_solver]. }
  apply bool_decide_eq_true in Hper.
  destruct (ParseExchangeRateDecCoins _) as [rates| |]; simpl; [|split; [done|naive_solver]..].
  destruct (String.eqb_spec (pv_Hash prevote)
    (Hash_String (GetAggregateVoteHash (mv_Salt msg) (mv_ExchangeRates msg) v))) as [Hhash|Hhash]; simpl.
  2:{ split; [done|naive_solver]. }
  split.
  - intros [= <-]. by exists v, f, prevote, rates.
  - intros (? & ? & ? & ? & ? & ? & _ & ? & _ & ? & _ & ->). by simplify_eq.
Qed.

(** Without a pending prevote there is nothing to reveal. *)
Lemma Vote_no_prevote msg s v f :
  ValAddressFromBech32 (mv_Validator msg) = Ok v → AccAddressFromBech32 (mv_Feeder msg) = Ok f →
  may_feed s f v → Prevotes s !! v = None →
  AggregateExchangeRateVote msg s = (Err ErrNoAggregatePrevote, s).
Proof.
  intros Hv Hf Hm Hp. unfold AggregateExchangeRateVote. unfold mbind, M_bind, lift.
  rewrite Hv, Hf, (ValidateFeeder_may f v s Hm).
  unfold GetParams, GetAggregateExchangeRatePrevote, gets, mbind, M_bind. by rewrite Hp.
Qed.

(** A delegation needs a known validator, bonded or not, and its event. *)
Lemma Delegate_Ok msg s s' :
  DelegateFeedConsent msg s = (Ok (), s') ↔
  ∃ v f val, ValAddressFromBech32 (md_Operator msg) = Ok v ∧
    AccAddressFromBech32 (md_Delegate msg) = Ok f ∧ Validator (world s) v = Ok (Some val) ∧
    EmitTypedEvent_result (EventDelegateFeedConsent (md_Operator msg) (md_Delegate msg)) = Ok () ∧
    s' = set_events (λ l, l ++ [EventDelegateFeedConsent (md_Operator msg) (md_Delegate msg)])
           (set_FeederDelegations <[v := f]> s).
Proof.
  unfold DelegateFeedConsent. unfold mbind, M_bind, lift, gets.
  destruct (ValAddressFromBech32 _) as [v| |]; [|split; [done|naive_solver]..].
  destruct (AccAddressFromBech32 _) as [f| |]; [|split; [done|naive_solver]..].
  destruct (Validator (world s) v) as [[val|]| |] eqn:Hval;
    [|split; [done|intros (? & ? & ? & [= <-] & [= <-] & ? & _); congruence]..].
  unfold SetFeederDelegation, modify, EmitTypedEvent, lift, mbind, M_bind.
  destruct (EmitTypedEvent_result _) as [[]| |] eqn:Hev.
  - split; [intros [= <-]; by exists v, f, val|].
    intros (? & ? & ? & [= <-] & [= <-] & _ & _ & ->). done.
  - split; [done|naive_solver].
  - split; [done|naive_solver].
Qed.

(** ** [GovAddDenoms] *)

(** What each new denom is promised in a set of parameters. *)
Definition supported (mandatory : bool) (p : Params) (d : Denom) : Prop :=
  DenomList_Contains (Types.AcceptList p) (SymbolDenom d) = true ∧
  (mandatory = true → DenomList_Contains (Types.MandatoryList p) (SymbolDenom d) = true) ∧
  ∃ band, GetBandFromDenom (Types.RewardBands p) (SymbolDenom d) = Ok band.

(** [p'] extends the lists of [p]. *)
Definition extends (p p' : Params) : Prop :=
  (∃ l, Types.AcceptList p' = Types.AcceptList p ++ l) ∧
  (∃ l, Types.MandatoryList p' = Types.MandatoryList p ++ l) ∧
  (∃ l, Types.RewardBands p' = Types.RewardBands p ++ l).

Lemma extends_refl p : extends p p.
Proof. split_and!; exists []; by rewrite app_nil_r. Qed.

Lemma extends_trans p q r : extends p q → extends q r → extends p r.
Proof.
  intros ([a Ha] & [b Hb] & [c Hc]) ([a' Ha'] & [b' Hb'] & [c' Hc']).
  split_and!; [exists (a ++ a')|exists (b ++ b')|exists (c ++ c')]; rewrite app_assoc; congruence.
Qed.

Lemma supported_extends b p p' d : extends p p' → supported b p d → supported b p' d.
Proof.
  intros ([a Ha] & [m Hm] & [r Hr]) (Hacc & Hman & band & Hband). unfold supported.
  rewrite Ha, Hm, Hr, !DenomList_Contains_app, Hacc. split_and!; [done| |].
  - intros Hb. by rewrite Hman.
  - exists band. by apply GetBandFromDenom_app.
Qed.

(** Keys are only listed, and unlisted lists are unchanged. *)
Definition tracked (p0 : Params) (plan : ParamUpdatePlan) : Prop :=
  (key_string KeyAcceptList ∈ plan_Keys plan ∨
   Types.AcceptList (plan_Changes plan) = Types.AcceptList p0) ∧
  (key_string KeyMandatoryList ∈ plan_Keys plan ∨
   Types.MandatoryList (plan_Changes plan) = Types.MandatoryList p0).

Lemma add_denom_Ok msg plan d plan' :
  add_denom msg plan d = Ok plan' →
  extends (plan_Changes plan) (plan_Changes plan') ∧
  supported (ma_Mandatory msg) (plan_Changes plan') d ∧
  plan_Height plan' = plan_Height plan ∧
  (∀ p0, tracked p0 plan → tracked p0 plan').
Proof.
  destruct plan as [keys h c]. unfold add_denom. cbn [plan_Keys plan_Height plan_Changes].
  destruct (DenomList_Contains (Types.AcceptList c) _ && negb _) eqn:Hg1; [done|].
  destruct (DenomList_Contains (Types.MandatoryList c) _ && _) eqn:Hg2; [done|].
  set (acc := DenomList_Contains (Types.AcceptList c) (SymbolDenom d)) in *.
  assert (Hself : ∀ l, DenomList_Contains (l ++ [d]) (SymbolDenom d) = true).
  { intros l. rewrite DenomList_Contains_app. simpl. by rewrite EqualFold_refl, orb_true_r. }
  assert (Hband : ∀ c', Types.RewardBands c' = Types.RewardBands c →
    GetBandFromDenom (Types.RewardBands c') (SymbolDenom d) = Err ErrNoRewardBand ∨
    ∃ band, GetBandFromDenom (Types.RewardBands c') (SymbolDenom d) = Ok band).
  { intros c' _. generalize (Types.RewardBands c'). induction l as [|rb l IH]; simpl; [by left|].
    destruct (EqualFold _ _); [right; by eexists|done]. }
  assert (Hkeys : ∀ l k1 k2, k1 ∈ l → k1 ∈ AppendUniqueString l k2).
  { intros. apply AppendUniqueString_elem. by left. }
  assert (Hkey : ∀ l k, k ∈ AppendUniqueString l k).
  { intros. apply AppendUniqueString_elem. by right. }
  destruct (ma_Mandatory msg) eqn:Hm, acc eqn:Hacc; simpl in Hg1; try done;
    cbn [negb plan_Keys plan_Height plan_Changes];
    match goal with |- context [ GetBandFromDenom (Types.RewardBands ?c') _ ] =>
      destruct (Hband c' eq_refl) as [Hb|[band Hb]] end; rewrite Hb;
    rewrite ?decide_True by done; intros [= <-]; cbn [plan_Keys plan_Height plan_Changes];
    destruct c; simpl in *; unfold extends, supported, tracked; simpl;
    (split_and!; [..|intros p0 [[?|?] [?|?]]; split; auto];
      try (by exists []; rewrite app_nil_r); try (by eexists); try (by intros); auto).
  all: try (unfold AddDefault, Add; destruct (ma_RewardBand msg);
    rewrite <-?app_assoc; first [by eexists|apply GetBandFromDenom_add]).
Qed.

Lemma add_denoms_loop msg ds plan plan' :
  foldM (add_denom msg) ds plan = Ok plan' →
  extends (plan_Changes plan) (plan_Changes plan') ∧
  Forall (supported (ma_Mandatory msg) (plan_Changes plan')) ds ∧
  plan_Height plan' = plan_Height plan ∧
  (∀ p0, tracked p0 plan → tracked p0 plan').
Proof.
  revert plan. induction ds as [|d ds IH]; intros plan; cbn [foldM].
  { intros [= <-]. split_and!; [apply extends_refl|constructor|done|done]. }
  intros (plan1 & Hd & Hrest)%bind_Ok.
  apply add_denom_Ok in Hd as (Hext & Hsup & Hh & Htr).
  apply IH in Hrest as (Hext' & Hsup' & Hh' & Htr'). split_and!; [|constructor|congruence|auto].
  - by eapply extends_trans.
  - by eapply supported_extends.
  - done.
Qed.

(** Appending providers and thresholds keeps the lists and the keys. *)
Definition same_lists (plan plan' : ParamUpdatePlan) : Prop :=
  Types.AcceptList (plan_Changes plan') = Types.AcceptList (plan_Changes plan) ∧
  Types.MandatoryList (plan_Changes plan') = Types.MandatoryList (plan_Changes plan) ∧
  Types.RewardBands (plan_Changes plan') = Types.RewardBands (plan_Changes plan) ∧
  plan_Height plan' = plan_Height plan ∧ plan_Keys plan ⊆ plan_Keys plan'.

Lemma same_lists_foldl {A} (f : ParamUpdatePlan → A → ParamUpdatePlan) l plan :
  (∀ plan a, same_lists plan (f plan a)) → same_lists plan (foldl f plan l).
Proof.
  intros Hf. revert plan. induction l as [|a l IH]; intros plan; cbn [foldl]; [by split_and!|].
  destruct (Hf plan a) as (H1' & H2' & H3' & H4' & H5').
  destruct (IH (f plan a)) as (H1'' & H2'' & H3'' & H4'' & H5'').
  split_and!; [congruence..|]. by etrans.
Qed.

Lemma add_provider_same plan cpp : same_lists plan (add_provider plan cpp).
Proof. split_and!; try done. intros k ?. apply AppendUniqueString_elem. by left. Qed.

Lemma add_threshold_same plan cdt : same_lists plan (add_threshold plan cdt).
Proof. split_and!; try done. intros k ?. apply AppendUniqueString_elem. by left. Qed.

(** The parameters the plan gives support every new denom. *)
Lemma add_denoms_plan_supported msg p plan :
  add_denoms_plan msg p = Ok plan →
  plan_Height plan = ma_Height msg ∧
  Forall (supported (ma_Mandatory msg) (plan_effect (plan_Keys plan) (plan_Changes plan) p))
    (ma_DenomList msg).
Proof.
  unfold add_denoms_plan. intros (plan0 & Hloop & Hplan)%bind_Ok. injection Hplan as Hplan.
  apply add_denoms_loop in Hloop as (_ & Hsup & Hh & Htr).
  destruct (Htr p) as [Hta Htm]; [split; by right|]. clear Htr.
  set (plan1 := foldl add_threshold _ _) in Hplan.
  assert (same_lists plan0 plan1) as (Ha & Hm & Hr & Hh1 & Hk).
  { destruct (same_lists_foldl add_provider (ma_CurrencyPairProviders msg) plan0 add_provider_same)
      as (? & ? & ? & ? & ?).
    destruct (same_lists_foldl add_threshold (ma_CurrencyDeviationThresholds msg)
      (foldl add_provider plan0 (ma_CurrencyPairProviders msg)) add_threshold_same)
      as (? & ? & ? & ? & ?). split_and!; [etrans; eassumption..|]. by etrans. }
  destruct (decide (length (ma_DenomList msg) ≠ 0)%nat) as [Hne|He].
  2:{ subst plan. split; [simpl in Hh; congruence|]. destruct (ma_DenomList msg); [constructor|].
      by destruct He. }
  subst plan. cbn [plan_Keys plan_Height plan_Changes]. split; [simpl in Hh; congruence|].
  eapply Forall_impl; [exact Hsup|]. intros d (Hacc & Hman & band & Hband). unfold supported.
  rewrite effect_AcceptList, effect_MandatoryList, effect_RewardBands.
  rewrite (decide_True (P := key_string KeyRewardBands ∈ _)) by set_solver.
  rewrite Ha, Hm, Hr. split_and!.
  - case_decide as Hin; [by rewrite DenomList_Contains_Normalize|].
    destruct Hta as [Hin'|Heq]; [|by rewrite <-Heq]. exfalso. apply Hin. set_solver.
  - intros Hmand. specialize (Hman Hmand).
    case_decide as Hin; [by rewrite DenomList_Contains_Normalize|].
    destruct Htm as [Hin'|Heq]; [|by rewrite <-Heq]. exfalso. apply Hin. set_solver.
  - by exists band.
Qed.

(** Success schedules the plan the message describes. *)
Lemma Schedule_Ok plan s s' :
  ScheduleParamUpdatePlan plan s = (Ok (), s') →
  BlockHeight s ≤ plan_Height plan ∧
  Validate (plan_effect (plan_Keys plan) (plan_Changes plan) (paramSpace s)) = Ok () ∧
  ∃ changes', normalized changes' = normalized (plan_Changes plan) ∧
    s' = set_ParamUpdatePlans <[Z.max 0 (plan_Height plan) :=
           mkPlan (plan_Keys plan) (plan_Height plan) changes']> s.
Proof.
  destruct (ScheduleParamUpdatePlan_run plan s) as (c' & Hc' & ->).
  destruct (Z.ltb_spec (plan_Height plan) (BlockHeight s)); [done|].
  destruct (Validate _) as [[]| |] eqn:Hv; [|done..]. intros [= <-].
  split_and!; [done|done|]. by exists c'.
Qed.

Lemma GovAddDenoms_Ok msg s s' :
  GovAddDenoms ms msg s = (Ok (), s') →
  ma_Authority msg = authority ms ∧
  ∃ plan, ParamUpdatePlans s' !! Z.max 0 (ma_Height msg) = Some plan ∧
    plan_Height plan = ma_Height msg ∧
    Validate (plan_effect (plan_Keys plan) (plan_Changes plan) (paramSpace s)) = Ok () ∧
    Forall (supported (ma_Mandatory msg)
              (plan_effect (plan_Keys plan) (plan_Changes plan) (paramSpace s)))
      (ma_DenomList msg).
Proof.
  unfold GovAddDenoms. unfold mbind at 1, M_bind at 1. rewrite check_authority_run.
  destruct (String.eqb_spec (ma_Authority msg) (authority ms)) as [Ha|]; [|done].
  unfold GetParams, gets, lift. unfold mbind, M_bind.
  destruct (add_denoms_plan msg (paramSpace s)) as [plan| |] eqn:Hplan; [|done..].
  destruct (plan_ValidateBasic plan); [|done..].
  intros (Hh & Hv & c' & Hc' & ->)%Schedule_Ok. split; [done|].
  apply add_denoms_plan_supported in Hplan as [Hheight Hsup].
  eexists. simpl. rewrite Hheight, lookup_insert_eq. split; [done|]. simpl.
  rewrite (plan_effect_normalized (plan_Keys plan) c' (plan_Changes plan)) by done. done.
Qed.
End server_facts.
