(* ===== verification/Rewards.v ===== *)
(** * Rewards: ballots, slashing and rewards

    [src/x/oracle/keeper/ballot.go], [slash.go], [reward.go] and
    [src/util/reward/reward.go].  Ranging over a Go map goes through
    [map_to_list]; the lemmas of [Ballot] make its order irrelevant.  Go's
    [float64] arithmetic and [math.Log] are the class [Float64]. *)
From S2P Require Import Prelude Util GoStrings Dec Types Params Store Bech32 Ballot Votes.
From S2P Require Import World State Subspace Keeper.
Local Open Scope Z_scope.

Class Float64 := {
  F : Type;
  F_of_int64 : Z → F;
  F_add : F → F → F;
  F_sub : F → F → F;
  F_div : F → F → F;
  math_Log : F → F;
  IsNaN : F → bool;
  IsInf : F → bool;
  FormatFloat : F → string;
}.

(** ** [util/reward] and [decmath.NewDecFromFloat] *)

Definition CalculateRewardFactor `{Float64} (missCount m s : Z) : F :=
  let logBase := F_add (F_of_int64 (wrap_i64 (m - s))) (F_of_int64 1) in
  let logKey := F_add (F_of_int64 (wrap_i64 (missCount - s))) (F_of_int64 1) in
  let rewardFactor := F_sub (F_of_int64 1) (F_div (math_Log logKey) (math_Log logBase)) in
  if IsNaN rewardFactor || IsInf rewardFactor then F_of_int64 0 else rewardFactor.

Definition NewDecFromFloat `{Float64, DecOps} (f : F) : outcome LegacyDec :=
  LegacyNewDecFromStr (FormatFloat f).

Section ballots.
Context {W : Type}.
Abbreviation K := (M (State W)) (only parsing).

(** ** [ballot.go] of the keeper *)

(** The callback over the stored votes: the vote's coins go to the ballots of
    their denoms when the voter has a claim. *)
Definition collect_vote (validatorClaimMap : gmap string Claim) (voterAddr : addr)
    (vote : AggregateExchangeRateVote) (votes : gmap string ExchangeRateBallot) :
    gmap string ExchangeRateBallot :=
  match validatorClaimMap !! vt_Voter vote with
  | Some claim =>
      foldl (λ votes decCoin,
        <[dc_Denom decCoin :=
            default [] (votes !! dc_Denom decCoin) ++
            [NewVoteForTally (dc_Amount decCoin) (dc_Denom decCoin) voterAddr (cl_Power claim)]]>
          votes) votes (vt_ExchangeRates vote)
  | None => votes
  end.

Definition OrganizeBallotByDenom (validatorClaimMap : gmap string Claim) : K (list BallotDenom) :=
  votes ← IterateAggregateExchangeRateVotes (λ voterAddr vote votes,
    mret (false, collect_vote validatorClaimMap voterAddr vote votes)) ∅;
  mret (BallotMapToSlice (map_to_list (sort_ballot <$> votes))).

(** [SubmitBlock+votePeriod] wraps around in [uint64]. *)
Definition ClearBallots (votePeriod : Z) : K () :=
  IterateAggregateExchangeRatePrevotes (λ voterAddr aggPrevote _,
    h ← gets BlockHeight;
    (if wrap_u64 (pv_SubmitBlock aggPrevote + votePeriod) <? SafeInt64ToUint64 h
     then DeleteAggregateExchangeRatePrevote voterAddr else mret ());;
    mret (false, ())) ();;
  IterateAggregateExchangeRateVotes (λ voterAddr _ _,
    DeleteAggregateExchangeRateVote voterAddr;;
    mret (false, ())) ().
End ballots.

Section slash.
Context {W : Type} `{StakingKeeper W} `{DecOps}.
Abbreviation K := (M (State W)) (only parsing).

(** ** [slash.go] *)

Definition PossibleWinsPerSlashWindow : K Z :=
  sw ← SlashWindow;
  let slashWindow := SafeUint64ToInt64 sw in
  vp ← VotePeriod;
  let votePeriod := SafeUint64ToInt64 vp in
  q ← lift (or_panic (dec_QuoInt64 (LegacyNewDec slashWindow) votePeriod));
  votePeriodsPerWindow ← lift (or_panic (dec_TruncateInt64 q));
  params ← GetParams;
  let numberOfAssets := Z.of_nat (length (Types.MandatoryList params)) in
  mret (wrap_i64 (votePeriodsPerWindow * numberOfAssets)).

(** [err != nil] returns before the methods of a nil validator panic. *)
Definition evaluateAndSlashIfNeeded (operator : addr) (missCount possibleWinsPerSlashWindow : Z)
    (minValidRate : LegacyDec) (distributionHeight : Z) (slashFraction : LegacyDec)
    (powerReduction : Z) : K () :=
  let validVotes := wrap_i64 (possibleWinsPerSlashWindow - SafeUint64ToInt64 missCount) in
  validRate ← lift (or_panic (dec_QuoInt64 (LegacyNewDec validVotes) possibleWinsPerSlashWindow));
  if negb (validRate <? minValidRate) then mret () else
  oracleParams ← GetParams;
  w ← gets world;
  match Validator w operator with
  | Panic => panic
  | Err _ => mret ()
  | Ok None => panic
  | Ok (Some validator) =>
      if negb (IsBonded validator) || IsJailed validator
         || negb (Types.SlashingEnabled oracleParams)
      then mret () else
      match GetConsAddr validator with
      | Ok consAddr =>
          s ← on_world (λ w, let '(r, w') := Slash consAddr distributionHeight
                               (GetConsensusPower validator powerReduction) slashFraction w in
                             (Ok r, w'));
          match s with
          | Ok _ =>
              j ← on_world (λ w, let '(r, w') := Jail consAddr w in (Ok r, w'));
              match j with
              | Ok _ => mret ()
              | _ => panic
              end
          | _ => panic
          end
      | _ => panic
      end
  end.

Definition SlashAndResetMissCounters : K () :=
  possibleWins ← PossibleWinsPerSlashWindow;
  minValidRate ← MinValidPerWindow;
  h ← gets BlockHeight;
  let distributionHeight := wrap_i64 (h - ValidatorUpdateDelay - 1) in
  slashFraction ← SlashFraction;
  w ← gets world;
  let powerReduction := PowerReduction w in
  IterateMissCounters (λ operator missCount _,
    evaluateAndSlashIfNeeded operator missCount possibleWins minValidRate distributionHeight
      slashFraction powerReduction;;
    DeleteMissCounter operator;;
    mret (false, ())) ().

Definition SetValidatorRewardSet : K () :=
  w ← gets world;
  vals ← lift (GetBondedValidatorsByPower w);
  let validatorSet := foldl (λ set v, set ++ [GetOperator v]) [] vals in
  modify (set_ValidatorRewardSet (λ _, Some validatorSet)).

Definition GetValidatorRewardSet : K (list string) :=
  gets (λ s, default [] (ValidatorRewardSet s)).
End slash.

Section rewards.
Context {W : Type} `{StakingKeeper W} `{CoinsOps} `{!DistributionKeeper W} `{!BankKeeper W}.
Context `{AccountKeeper W} `{DecOps} `{CoinOps} `{Float64}.
Context (k : KeeperConf).
Abbreviation K := (M (State W)) (only parsing).

(** ** [reward.go] *)

Definition prependOjoIfUnique (voteTargets : list string) : list string :=
  if Contains DmDenom voteTargets then voteTargets else DmDenom :: voteTargets.

(** [ballotWinners[0]] panics on an empty list. *)
Definition smallestMissCountInBallot (ballotWinners : list Claim) : K Z :=
  match ballotWinners with
  | [] => panic
  | winner0 :: rest =>
      missCount0 ← GetMissCounter (cl_Recipient winner0);
      missCount ← loopM (λ missCount winner,
        count ← GetMissCounter (cl_Recipient winner);
        mret (if count <? missCount then count else missCount)) rest missCount0;
      mret (SafeUint64ToInt64 missCount)
  end.

(** The pool of one reward denom, scaled to the period. *)
Definition add_period_reward (distributionRatio : LegacyDec) (periodRewards : DecCoins)
    (denom : string) : K DecCoins :=
  rewardPool ← GetRewardPool denom;
  if rewardPool =? 0 then mret periodRewards else
  amount ← lift (or_panic (dec_Mul (LegacyNewDec rewardPool) distributionRatio));
  coin ← lift (NewDecCoinFromDec denom amount);
  lift (or_panic (DecCoins_Add periodRewards coin)).

(** The loop over the winners; [None] is the early [return] of a logged
    error. *)
Fixpoint reward_winners (winners : list Claim) (voteTargets : list string)
    (ballotLength smallestMissCount : Z) (periodRewards : DecCoins) (distributedReward : Coins) :
    K (option Coins) :=
  match winners with
  | [] => mret (Some distributedReward)
  | winner :: winners' =>
      w ← gets world;
      match Validator w (cl_Recipient winner) with
      | Panic => panic
      | Err _ | Ok None =>
          reward_winners winners' voteTargets ballotLength smallestMissCount periodRewards
            distributedReward
      | Ok (Some receiverVal) =>
          mc ← GetMissCounter (cl_Recipient winner);
          let missCount := SafeUint64ToInt64 mc in
          sw ← SlashWindow;
          vp ← VotePeriod;
          windows ← lift (go_div sw vp);
          let maxMissCount :=
            wrap_i64 (Z.of_nat (length voteTargets) * SafeUint64ToInt64 windows) in
          let rewardFactor := CalculateRewardFactor missCount maxMissCount smallestMissCount in
          match NewDecFromFloat rewardFactor with
          | Panic => panic
          | Err _ => mret None
          | Ok rewardDec =>
              share ← lift (or_panic (dec_QuoInt64 rewardDec ballotLength));
              scaled ← lift (or_panic (DecCoins_MulDec periodRewards share));
              rewardCoins ← lift (or_panic (DecCoins_TruncateDecimal scaled));
              if Coins_IsZero rewardCoins then
                reward_winners winners' voteTargets ballotLength smallestMissCount periodRewards
                  distributedReward
              else
              r ← on_world (λ w, let '(r, w') := AllocateTokensToValidator receiverVal
                                   (NewDecCoinsFromCoins rewardCoins) w in (Ok r, w'));
              match r with
              | Panic => panic
              | Err _ => mret None
              | Ok _ =>
                  distributedReward ← lift (or_panic (Coins_Add distributedReward rewardCoins));
                  reward_winners winners' voteTargets ballotLength smallestMissCount periodRewards
                    distributedReward
              end
          end
      end
  end.

(** The rewards of a period: the pools scaled to the period, shared out. *)
Definition allocate_rewards (votePeriod rewardDistributionWindow : Z) (voteTargets : list string)
    (ballotWinners : list Claim) : K (option Coins) :=
  distributionRatio ← lift (or_panic (dec_QuoInt64 (LegacyNewDec votePeriod)
                                        rewardDistributionWindow));
  let rewardDenoms := prependOjoIfUnique voteTargets in
  periodRewards ← loopM (add_period_reward distributionRatio) rewardDenoms no_DecCoins;
  smallestMissCount ← smallestMissCountInBallot ballotWinners;
  reward_winners ballotWinners voteTargets (Z.of_nat (length ballotWinners))
    smallestMissCount periodRewards no_Coins.

Definition RewardBallotWinners (votePeriod rewardDistributionWindow : Z) (voteTargets : list string)
    (ballotWinners : list Claim) : K () :=
  if decide (length ballotWinners = 0%nat) then mret () else
  distributed ← allocate_rewards votePeriod rewardDistributionWindow voteTargets ballotWinners;
  match distributed with
  | None => mret ()
  | Some distributedReward =>
      r ← on_world (λ w, let '(r, w') := SendCoinsFromModuleToModule ModuleName (distrName k)
                           distributedReward w in (Ok r, w'));
      match r with
      | Ok _ => mret ()
      | _ => panic
      end
  end.
End rewards.

(** ** Lemmas *)

Section ballot_facts.
Context {W : Type}.
Implicit Types s : State W.

(** The votes one stored vote contributes to the ballot of [d]. *)
Definition tally_votes (claims : gmap string Claim) (d : string)
    (e : addr * AggregateExchangeRateVote) : list VoteForTally :=
  match claims !! vt_Voter e.2 with
  | Some claim =>
      map (λ c, NewVoteForTally (dc_Amount c) (dc_Denom c) e.1 (cl_Power claim))
        (filter (λ c, dc_Denom c = d) (vt_ExchangeRates e.2))
  | None => []
  end.

(** The ballot of [d]: the votes of the validators with a claim. *)
Definition ballot_for (claims : gmap string Claim) s (d : string) : ExchangeRateBallot :=
  concat (map (tally_votes claims d) (Walk (Votes s))).

Lemma elem_of_ballot_for claims s d v :
  v ∈ ballot_for claims s d ↔
  ∃ a x claim c, Votes s !! a = Some x ∧ claims !! vt_Voter x = Some claim ∧
    c ∈ vt_ExchangeRates x ∧ dc_Denom c = d ∧
    v = NewVoteForTally (dc_Amount c) d a (cl_Power claim).
Proof.
  unfold ballot_for. rewrite list_elem_of_In, in_concat. setoid_rewrite in_map_iff. split.
  - intros (l & ([a x] & <- & Hin%list_elem_of_In%elem_of_Walk) & Hv%list_elem_of_In).
    unfold tally_votes in Hv. cbn [fst snd] in Hv. destruct (claims !! vt_Voter x) as [claim|] eqn:Hc.
    + apply list_elem_of_fmap in Hv as (c & -> & [<- Hc']%list_elem_of_filter).
      by exists a, x, claim, c.
    + by apply not_elem_of_nil in Hv.
  - intros (a & x & claim & c & Hx & Hc & Hin & <- & ->).
    exists (tally_votes claims (dc_Denom c) (a, x)). split.
    + exists (a, x). split; [done|]. by apply list_elem_of_In, elem_of_Walk.
    + apply list_elem_of_In. unfold tally_votes. cbn [fst snd]. rewrite Hc.
      apply list_elem_of_fmap. exists c. split; [done|]. by apply list_elem_of_filter.
Qed.

Lemma collect_coins (coins : list DecCoin) voterAddr p (votes : gmap string ExchangeRateBallot) d :
  default [] (foldl (λ votes decCoin,
    <[dc_Denom decCoin := default [] (votes !! dc_Denom decCoin) ++
        [NewVoteForTally (dc_Amount decCoin) (dc_Denom decCoin) voterAddr p]]> votes) votes coins !! d)
  = default [] (votes !! d) ++
    map (λ c, NewVoteForTally (dc_Amount c) (dc_Denom c) voterAddr p)
      (filter (λ c, dc_Denom c = d) coins).
Proof.
  revert votes. induction coins as [|c coins IH]; intros votes; cbn [foldl].
  { by rewrite app_nil_r. }
  rewrite IH, filter_cons. destruct (decide (dc_Denom c = d)) as [Heq|Hne]; [subst d|].
  - rewrite lookup_insert_eq. cbn [default from_option id map]. by rewrite <-app_assoc.
  - by rewrite lookup_insert_ne.
Qed.

Lemma collect_coins_nonempty (coins : list DecCoin) voterAddr p
    (votes : gmap string ExchangeRateBallot) :
  (∀ d, votes !! d ≠ Some []) →
  ∀ d, foldl (λ votes decCoin,
    <[dc_Denom decCoin := default [] (votes !! dc_Denom decCoin) ++
        [NewVoteForTally (dc_Amount decCoin) (dc_Denom decCoin) voterAddr p]]> votes) votes coins !! d
    ≠ Some [].
Proof.
  revert votes. induction coins as [|c coins IH]; intros votes Hv; cbn [foldl]; [done|].
  apply IH. intros d [[? Heq]|[? ?]]%lookup_insert_Some; [|by eapply Hv].
  by apply app_nil in Heq as [_ ?].
Qed.

Lemma collect_votes claims (es : list (addr * AggregateExchangeRateVote)) votes :
  (∀ d, votes !! d ≠ Some []) →
  let votes' := foldl (λ votes e, collect_vote claims e.1 e.2 votes) votes es in
  (∀ d, votes' !! d ≠ Some []) ∧
  ∀ d, default [] (votes' !! d) = default [] (votes !! d) ++ concat (map (tally_votes claims d) es).
Proof.
  revert votes. induction es as [|[a v] es IH]; intros votes Hv; cbn [foldl].
  { split; [done|]. intros d. by rewrite app_nil_r. }
  destruct (IH (collect_vote claims a v votes)) as [Hne Hval].
  { unfold collect_vote. destruct (claims !! _); [by apply collect_coins_nonempty|done]. }
  split; [done|]. intros d. rewrite Hval. cbn [map concat]. rewrite app_assoc. f_equal.
  unfold collect_vote, tally_votes. cbn [fst snd].
  destruct (claims !! _); [apply collect_coins|by rewrite app_nil_r].
Qed.

(** The ballots: one per denom with a vote, in the order of the denoms, each
    sorted. *)
Lemma OrganizeBallot_run claims s :
  ∃ bs, OrganizeBallotByDenom claims s = (Ok bs, s) ∧
    StronglySorted denom_le bs ∧ NoDup (map bd_Denom bs) ∧
    ∀ b, b ∈ bs ↔ ballot_for claims s (bd_Denom b) ≠ [] ∧
                  bd_Ballot b = sort_ballot (ballot_for claims s (bd_Denom b)).
Proof.
  set (votes := foldl (λ votes e, collect_vote claims e.1 e.2 votes) ∅ (Walk (Votes s))).
  exists (BallotMapToSlice (map_to_list (sort_ballot <$> votes))).
  destruct (collect_votes claims (Walk (Votes s)) ∅) as [Hne Hval]; [by intros d; rewrite lookup_empty|].
  fold votes in Hne, Hval.
  split_and!.
  - unfold OrganizeBallotByDenom, IterateAggregateExchangeRateVotes, gets, mbind, M_bind.
    assert (Hw : ∀ l acc s0, walkM (λ voterAddr vote votes,
        mret (M := M (State W)) (false, collect_vote claims voterAddr vote votes)) l acc s0 =
        (Ok (foldl (λ votes e, collect_vote claims e.1 e.2 votes) acc l), s0)).
    { intros l. induction l as [|[a v] l IH]; intros acc s0; [done|].
      erewrite walkM_next by done. apply IH. }
    by rewrite Hw.
  - apply BallotMapToSlice_sorted.
  - rewrite BallotMapToSlice_perm, map_map.
    rewrite (map_ext _ fst) by (by intros [? ?]). apply NoDup_fst_map_to_list.
  - intros [ballot d]. rewrite BallotMapToSlice_elem, elem_of_map_to_list, lookup_fmap. simpl.
    specialize (Hval d). rewrite lookup_empty in Hval. simpl in Hval. unfold ballot_for.
    rewrite <-Hval. specialize (Hne d). destruct (votes !! d) as [b|]; simpl.
    + split; [intros [= <-]; split; [congruence|done]|]. by intros [_ ->].
    + split; [done|]. by intros [? _].
Qed.

(** ** Clearing *)

Lemma foldl_delete_all {K V} `{Countable K, KeyOrder K} (m : gmap K V) :
  foldl (λ m e, delete e.1 m) m (Walk m) = ∅.
Proof.
  pose proof (@foldl_delete_walk _ _ _ _ _ (λ (_ : K) (_ : V), True) (λ _ _, True_dec) m) as Hd.
  cbn [decide] in Hd. change (λ (m : gmap K V) (e : K * V), if decide True then delete e.1 m else m)
    with (λ (m : gmap K V) (e : K * V), delete e.1 m) in Hd.
  rewrite Hd. apply map_empty. intros i. apply map_lookup_filter_None. right. naive_solver.
Qed.

(** The prevotes that can still be revealed stay; every vote goes. *)
Definition still_pending (votePeriod h : Z) (m : gmap addr AggregateExchangeRatePrevote) :
    gmap addr AggregateExchangeRatePrevote :=
  filter (λ e, ¬ wrap_u64 (pv_SubmitBlock e.2 + votePeriod) < Z.max 0 h) m.

Lemma foldl_set_Prevotes (upd : gmap addr AggregateExchangeRatePrevote →
    addr * AggregateExchangeRatePrevote → gmap addr AggregateExchangeRatePrevote) l s :
  foldl (λ s e, set_Prevotes (λ m, upd m e) s) s l = set_Prevotes (λ m, foldl upd m l) s.
Proof. revert s. induction l as [|e l IH]; intros s; cbn [foldl]; [by destruct s|]. by rewrite IH. Qed.

Lemma foldl_set_Votes (upd : gmap addr AggregateExchangeRateVote →
    addr * AggregateExchangeRateVote → gmap addr AggregateExchangeRateVote) l s :
  foldl (λ s e, set_Votes (λ m, upd m e) s) s l = set_Votes (λ m, foldl upd m l) s.
Proof. revert s. induction l as [|e l IH]; intros s; cbn [foldl]; [by destruct s|]. by rewrite IH. Qed.

Lemma walk_prevotes votePeriod h l s :
  BlockHeight s = h →
  walkM (λ voterAddr aggPrevote (_ : ()),
    h ← gets BlockHeight;
    (if wrap_u64 (pv_SubmitBlock aggPrevote + votePeriod) <? SafeInt64ToUint64 h
     then DeleteAggregateExchangeRatePrevote voterAddr else mret ());;
    mret (false, ())) l () s =
  (Ok (), set_Prevotes (λ m, foldl (λ m e,
     if decide (wrap_u64 (pv_SubmitBlock e.2 + votePeriod) < Z.max 0 h) then delete e.1 m else m) m l) s).
Proof.
  revert s. induction l as [|[a p] l IH]; intros s Hh; [by destruct s|].
  erewrite walkM_next.
  2:{ unfold gets, mbind, M_bind. rewrite Hh, SafeInt64ToUint64_spec.
      instantiate (1 := set_Prevotes (λ m, if decide (wrap_u64 (pv_SubmitBlock p + votePeriod) < Z.max 0 h)
                                           then delete a m else m) s).
      destruct (Z.ltb_spec (wrap_u64 (pv_SubmitBlock p + votePeriod)) (Z.max 0 h)).
      - case_decide; [done|lia].
      - case_decide; [lia|by destruct s]. }
  rewrite IH by done. done.
Qed.

Lemma ClearBallots_run votePeriod s :
  ClearBallots votePeriod s =
  (Ok (), set_Votes (λ _, ∅) (set_Prevotes (still_pending votePeriod (BlockHeight s)) s)).
Proof.
  unfold ClearBallots.
  erewrite M_bind_run.
  2:{ exact (walk_prevotes votePeriod _ (Walk (Prevotes s)) s eq_refl). }
  etrans.
  { apply (walkM_update _ (λ a _, set_Votes (delete a)) (Walk (Votes s))). done. }
  f_equal. rewrite (foldl_set_Votes (λ m e, delete e.1 m)). 
  unfold set_Votes, set_Prevotes. simpl. rewrite foldl_delete_all. f_equal.
  unfold still_pending.
  exact (@foldl_delete_walk _ _ _ _ _
    (λ (_ : addr) p, wrap_u64 (pv_SubmitBlock p + votePeriod) < Z.max 0 (BlockHeight s))
    (λ _ p, decide (wrap_u64 (pv_SubmitBlock p + votePeriod) < Z.max 0 (BlockHeight s))) (Prevotes s)).
Qed.
End ballot_facts.

Section slash_facts.
Context {W : Type} `{StakingKeeper W} `{DecLaws}.
Implicit Types s : State W.

(** The valid-vote rate of a validator, and the test against the minimum. *)
Definition valid_rate (possible misses : Z) : LegacyDec :=
  Z.quot (LegacyNewDec (wrap_i64 (possible - SafeUint64ToInt64 misses))) possible.

Lemma offends_spec possible misses minRate :
  0 < possible < 2 ^ 62 → 0 ≤ misses < 2 ^ 62 → 0 < minRate →
  valid_rate possible misses < minRate ↔ (possible - misses) * precision < minRate * possible.
Proof.
  intros Hp Hm Hmin. unfold valid_rate. rewrite SafeUint64ToInt64_spec.
  unfold MaxInt64. rewrite Z.min_r by lia. rewrite wrap_i64_id by (unfold is_i64; lia).
  unfold LegacyNewDec. set (a := (possible - misses) * precision).
  destruct (Z.le_gt_cases 0 a).
  - rewrite Z.quot_div_nonneg by lia. split; intros ?.
    + apply Z.lt_nge. intros ?. assert (minRate ≤ a / possible) by (apply Z.div_le_lower_bound; lia). lia.
    + apply Z.div_lt_upper_bound; lia.
  - assert (Z.quot a possible ≤ 0).
    { rewrite <-(Z.opp_involutive a), Z.quot_opp_l by lia.
      pose proof (Z.quot_pos (- a) possible ltac:(lia) ltac:(lia)). lia. }
    split; intros _; [nia|lia].
Qed.

(** What the staking module is asked to do about a validator. *)
Definition slash_call (v : ValidatorI) (distributionHeight : Z) (slashFraction : LegacyDec)
    (powerReduction : Z) (w : W) : outcome () * W :=
  match GetConsAddr v with
  | Ok consAddr =>
      match Slash consAddr distributionHeight (GetConsensusPower v powerReduction) slashFraction w with
      | (Ok _, w1) => match Jail consAddr w1 with
                      | (Ok _, w2) => (Ok (), w2)
                      | (_, w2) => (Panic, w2)
                      end
      | (_, w1) => (Panic, w1)
      end
  | _ => (Panic, w)
  end.

Definition slashable (p : Params) (v : ValidatorI) : bool :=
  IsBonded v && negb (IsJailed v) && Types.SlashingEnabled p.

Lemma set_world_id s : set_world (λ _, world s) s = s.
Proof. by destruct s. Qed.

(** The decision: nothing for a good rate or a validator that cannot be
    slashed, a slash and a jailing for the others. *)
Lemma evaluate_run operator misses possible minRate dh sf pr s :
  possible ≠ 0 →
  evaluateAndSlashIfNeeded operator misses possible minRate dh sf pr s =
  if negb (valid_rate possible misses <? minRate) then (Ok (), s) else
  match Validator (world s) operator with
  | Ok (Some v) =>
      if slashable (paramSpace s) v then
        let '(r, w) := slash_call v dh sf pr (world s) in (r, set_world (λ _, w) s)
      else (Ok (), s)
  | Err _ => (Ok (), s)
  | _ => (Panic, s)
  end.
Proof.
  intros Hp. unfold evaluateAndSlashIfNeeded.
  erewrite M_bind_run; [|unfold lift; rewrite dec_QuoInt64_spec by done; reflexivity].
  fold (valid_rate possible misses). destruct (negb _); [done|].
  unfold GetParams, gets, mbind, M_bind. destruct (Validator _ _) as [[v|]| |]; [|done..].
  unfold slashable, slash_call.
  destruct (IsBonded v), (IsJailed v), (Types.SlashingEnabled (paramSpace s)); simpl; try done.
  destruct (GetConsAddr v) as [c| |]; [|by rewrite set_world_id..].
  unfold on_world. destruct (Slash _ _ _ _ _) as [[[]| |] w1]; simpl; [|done..].
  by destruct (Jail _ _) as [[[]| |] w2].
Qed.

Lemma evaluate_frame operator misses possible minRate dh sf pr s r s' :
  possible ≠ 0 →
  evaluateAndSlashIfNeeded operator misses possible minRate dh sf pr s = (r, s') →
  ∃ w, s' = set_world (λ _, w) s.
Proof.
  intros Hp. rewrite evaluate_run by done.
  assert (Hid : ∀ r0, (r0, s) = (r, s') → ∃ w, s' = set_world (λ _, w) s).
  { intros r0 [= _ <-]. exists (world s). by rewrite set_world_id. }
  destruct (negb _); [by apply Hid|]. destruct (Validator _ _) as [[v|]| |]; [|by apply Hid..].
  destruct (slashable _ _); [|by apply Hid].
  destruct (slash_call _ _ _ _ _) as [r1 w]. intros [= _ <-]. by exists w.
Qed.

(** A completed pass leaves no miss counter and touches nothing else of the
    oracle. *)
Lemma SlashAndReset_Ok s s' :
  SlashAndResetMissCounters s = (Ok (), s') →
  ∃ w, s' = set_world (λ _, w) (set_MissCounters (λ _, ∅) s).
Proof.
  unfold SlashAndResetMissCounters.
  intros (possible & s1 & Hposs & Hrun)%M_bind_Ok.
  assert (s1 = s) as ->.
  { unfold PossibleWinsPerSlashWindow, lift, SlashWindow, VotePeriod, GetParams, gets, mbind, M_bind in Hposs.
    destruct (or_panic _); [|done..]. destruct (or_panic _); [|done..]. by injection Hposs. }
  unfold MinValidPerWindow, SlashFraction, gets in Hrun. unfold mbind at 1 2 3 4, M_bind at 1 2 3 4 in Hrun.
  unfold IterateMissCounters, gets in Hrun. unfold mbind at 1, M_bind at 1 in Hrun.
  revert Hrun.
  enough (∀ l s0 s', walkM (λ operator missCount (_ : ()),
      evaluateAndSlashIfNeeded operator missCount possible (Types.MinValidPerWindow (paramSpace s))
        (wrap_i64 (BlockHeight s - ValidatorUpdateDelay - 1)) (Types.SlashFraction (paramSpace s))
        (PowerReduction (world s));;
      DeleteMissCounter operator;;
      mret (false, ())) l () s0 = (Ok (), s') →
    ∃ w, s' = set_world (λ _, w) (set_MissCounters (λ m, foldl (λ m e, delete e.1 m) m l) s0)) as Hl.
  { intros Hrun. apply Hl in Hrun as [w ->]. exists w. f_equal.
    unfold set_MissCounters. by rewrite foldl_delete_all. }
  intros l. induction l as [|[a n] l IH]; intros s0 s2.
  { intros [= <-]. exists (world s0). by destruct s0. }
  cbn [walkM]. intros (r & s1 & Hstep & Hrest)%M_bind_Ok.
  apply M_bind_Ok in Hstep as ([] & s3 & Hev & Hdel).
  assert (possible ≠ 0) as Hp.
  { intros ->. unfold evaluateAndSlashIfNeeded in Hev.
    apply M_bind_Ok in Hev as (? & ? & Hq & _). unfold lift in Hq. by rewrite dec_QuoInt64_zero in Hq. }
  apply evaluate_frame in Hev as [w ->]; [|done].
  unfold DeleteMissCounter, modify, mbind, M_bind in Hdel. injection Hdel as <- <-.
  simpl in Hrest. apply IH in Hrest as [w' ->]. by exists w'.
Qed.

(** An empty mandatory list makes a division by zero of the first counter. *)
Lemma SlashAndReset_no_mandatory s :
  0 < Types.VotePeriod (paramSpace s) < 2 ^ 63 → 0 ≤ Types.SlashWindow (paramSpace s) < 2 ^ 63 →
  Types.MandatoryList (paramSpace s) = [] → MissCounters s ≠ ∅ →
  SlashAndResetMissCounters s = (Panic, s).
Proof.
  intros Hvp Hsw Hm Hne. unfold SlashAndResetMissCounters.
  assert (Hposs : PossibleWinsPerSlashWindow s = (Ok 0, s)).
  { unfold PossibleWinsPerSlashWindow, lift, SlashWindow, VotePeriod, GetParams, gets, mbind, M_bind.
    rewrite !SafeUint64ToInt64_spec. unfold MaxInt64. rewrite !Z.min_r by lia.
    rewrite dec_QuoInt64_spec by lia. simpl. rewrite dec_TruncateInt64_spec. unfold LegacyNewDec.
    assert (0 ≤ Z.quot (Types.SlashWindow (paramSpace s) * precision) (Types.VotePeriod (paramSpace s))
            ≤ Types.SlashWindow (paramSpace s) * precision) as Hq.
    { split; [apply Z.quot_pos; unfold precision; lia|].
      rewrite Z.quot_div_nonneg by (unfold precision; lia).
      apply Z.div_le_upper_bound; [lia|]. unfold precision. nia. }
    set (q := Z.quot (_ * _) _) in *. simpl.
    assert (0 ≤ Z.quot q precision < 2 ^ 63) as Hq2.
    { rewrite Z.quot_div_nonneg by (unfold precision; lia). split; [apply Z.div_pos; unfold precision; lia|].
      apply Z.div_lt_upper_bound; unfold precision in *; lia. }
    rewrite (proj2 (Z.leb_le _ _)), (proj2 (Z.ltb_lt _ _)) by lia. simpl.
    rewrite Hm. simpl. by rewrite Z.mul_0_r. }
  erewrite M_bind_run by exact Hposs.
  unfold MinValidPerWindow, SlashFraction, gets. unfold mbind at 1 2 3 4, M_bind at 1 2 3 4.
  unfold IterateMissCounters, gets. unfold mbind at 1, M_bind at 1.
  destruct (Walk (MissCounters s)) as [|[a n] l] eqn:Hw; [by apply Walk_nil in Hw|].
  cbn [walkM]. apply M_bind_Panic. apply M_bind_Panic. unfold evaluateAndSlashIfNeeded.
  apply M_bind_Panic. unfold lift. by rewrite dec_QuoInt64_zero.
Qed.
End slash_facts.

(** ** The reward code only changes the other modules *)

Section reward_facts.
Context {W : Type} `{StakingKeeper W} `{CoinsOps} `{!DistributionKeeper W} `{!BankKeeper W}.
Context `{AccountKeeper W} `{DecOps} `{CoinOps} `{Float64}.
Context (k : KeeperConf).

(** Equal up to the state of the other modules. *)
Definition oracle_same (s s' : State W) : Prop := set_world (λ _, world s) s' = s.

#[export] Instance oracle_same_preorder : PreOrder oracle_same.
Proof.
  split; [by intros []|]. intros s1 s2 s3. unfold oracle_same. intros <- <-. by destruct s3.
Qed.

Lemma keeps_on_world {A} (m : M W A) : keeps oracle_same (on_world m).
Proof.
  intros s r s'. unfold on_world. destruct (m (world s)). intros [= _ <-]. by destruct s.
Qed.
#[local] Hint Resolve keeps_on_world : keeps.

Lemma RewardBallotWinners_frame vp rdw targets winners :
  keeps oracle_same (RewardBallotWinners k vp rdw targets winners).
Proof.
  assert (Hw : ∀ l bl sm pr d, keeps oracle_same (reward_winners l targets bl sm pr d)).
  { intros l. induction l as [|c l IH]; intros; cbn [reward_winners].
    - keeps_tac.
    - unfold GetMissCounter, SlashWindow, VotePeriod.
      keeps_tac. }
  unfold RewardBallotWinners, allocate_rewards, smallestMissCountInBallot, add_period_reward, GetRewardPool,
    GetMissCounter.
  keeps_tac.
Qed.
End reward_facts.
