(* ===== verification/EndBlock.v ===== *)
(** * EndBlock: the end of a block

    [src/x/oracle/abci/endblocker.go].  The price feeder is started in a
    goroutine, which has no effect on the state here. *)
From S2P Require Import Prelude Util GoStrings Dec Types Params Store Bech32 Ballot Votes.
From S2P Require Import World State Subspace Keeper HistoricPrice ParamPlan Rewards.
Local Open Scope Z_scope.

Section tally.
Context `{Bech32} `{DecOps}.

(** The vote is within the reward spread of the median, or is not positive. *)
Definition wins (weightedMedian rewardSpread : LegacyDec) (v : VoteForTally) : outcome bool :=
  lo ← or_panic (dec_Sub weightedMedian rewardSpread);
  within ← (if lo <=? vft_ExchangeRate v
            then hi ← or_panic (dec_Add weightedMedian rewardSpread);
                 Ok (vft_ExchangeRate v <=? hi)
            else Ok false);
  Ok (within || negb (0 <? vft_ExchangeRate v)).

(** A key that is not in the claim map reads the zero claim. *)
Definition credit (incrementWin : bool) (claims : gmap string Claim) (v : VoteForTally) :
    gmap string Claim :=
  let key := ValAddress_String (vft_Voter v) in
  let claim := default zero_claim (claims !! key) in
  let mandatoryWinCount :=
    if incrementWin then wrap_i64 (cl_MandatoryWinCount claim + 1) else cl_MandatoryWinCount claim in
  <[key := mkClaim (cl_Power claim) (wrap_i64 (cl_Weight claim + vft_Power v)) mandatoryWinCount
             (cl_Recipient claim)]> claims.

Definition Tally (ballot : ExchangeRateBallot) (rewardBand : LegacyDec)
    (validatorClaimMap : gmap string Claim) (incrementWin : bool) :
    outcome (LegacyDec * gmap string Claim) :=
  weightedMedian ← WeightedMedian ballot;
  standardDeviation ← StandardDeviation ballot;
  half ← or_panic (dec_QuoInt64 rewardBand 2);
  rewardSpread ← or_panic (dec_Mul weightedMedian half);
  let rewardSpread := Z.max rewardSpread standardDeviation in
  claims ← foldM (λ claims tallyVote,
    w ← wins weightedMedian rewardSpread tallyVote;
    Ok (if w : bool then credit incrementWin claims tallyVote else claims)) ballot validatorClaimMap;
  Ok (weightedMedian, claims).
End tally.

Section end_block.
Context {W : Type} `{StakingKeeper W} `{CoinsOps} `{!DistributionKeeper W} `{!BankKeeper W}.
Context `{AccountKeeper W} `{PriceOracle W} `{EventManager}.
Context `{Bech32} `{DecOps} `{CoinOps} `{YamlDenom} `{Float64}.
Context (k : KeeperConf).
Abbreviation K := (M (State W)) (only parsing).

(** The claims of the bonded validators and their total power. *)
Definition claim_of (powerReduction : Z) (st : Z * gmap string Claim) (v : ValidatorI) :
    outcome (Z * gmap string Claim) :=
  let '(totalBondedPower, claims) := st in
  let addrString := GetOperator v in
  a ← ValAddressFromBech32 addrString;
  let power := GetConsensusPower v powerReduction in
  Ok (wrap_i64 (totalBondedPower + power), <[addrString := NewClaim power 0 0 a]> claims).

(** One ballot of [CalcPrices]. *)
Definition process_ballot (params : Params) (threshold totalBondedPower : Z)
    (claims : gmap string Claim) (ballotDenom : BallotDenom) : K (gmap string Claim) :=
  let incrementWin := DenomList_Contains (Types.MandatoryList params) (bd_Denom ballotDenom) in
  if negb incrementWin && negb (DenomList_Contains (Types.AcceptList params) (bd_Denom ballotDenom))
  then mret claims else
  support ← lift (go_div (wrap_i64 (Power (bd_Ballot ballotDenom) * MaxVoteThresholdMultiplier))
                    totalBondedPower);
  if support <? threshold then mret claims else
  rewardBand ← lift (GetBandFromDenom (Types.RewardBands params) (bd_Denom ballotDenom));
  '(exchangeRate, claims) ← lift (Tally (bd_Ballot ballotDenom) rewardBand claims incrementWin);
  SetExchangeRateWithEvent (bd_Denom ballotDenom) exchangeRate;;
  historic ← IsPeriodLastBlock (Types.HistoricStampPeriod params);
  (if historic : bool then AddHistoricPrice (bd_Denom ballotDenom) exchangeRate else mret ());;
  median ← IsPeriodLastBlock (Types.MedianStampPeriod params);
  (if median : bool then CalcAndSetHistoricMedian (bd_Denom ballotDenom) else mret ());;
  mret claims.

(** One claim of the miss-counting loop; the counter is a [uint64]. *)
Definition count_misses (voteTargetsLen : Z) (claim : Claim) : K () :=
  let misses := SafeIntToUint64 (voteTargetsLen - cl_MandatoryWinCount claim) in
  if misses =? 0 then mret () else
  n ← GetMissCounter (cl_Recipient claim);
  SetMissCounter (cl_Recipient claim) (wrap_u64 (n + misses)).

Definition CalcPrices (params : Params) : K () :=
  w ← gets world;
  let powerReduction := PowerReduction w in
  vals ← lift (GetBondedValidatorsByPower w);
  '(totalBondedPower, validatorClaimMap) ← lift (foldM (claim_of powerReduction) vals (0, ∅));
  let voteTargetDenoms := foldl (λ l v, l ++ [BaseDenom v]) [] (Types.AcceptList params) in
  ClearExchangeRates;;
  ballotDenomSlice ← OrganizeBallotByDenom validatorClaimMap;
  vt ← VoteThreshold;
  scaled ← lift (or_panic (dec_MulInt64 vt MaxVoteThresholdMultiplier));
  threshold ← lift (or_panic (dec_TruncateInt64 scaled));
  validatorClaimMap ← loopM (process_ballot params threshold totalBondedPower) ballotDenomSlice
    validatorClaimMap;
  validatorRewardSet ← GetValidatorRewardSet;
  let voteTargetsLen := Z.of_nat (length (Types.MandatoryList params)) in
  '(claimSlice, rewardSlice) ← lift
    (ClaimMapToSlices (map snd (map_to_list validatorClaimMap)) validatorRewardSet);
  forM (count_misses voteTargetsLen) claimSlice;;
  RewardBallotWinners k (SafeUint64ToInt64 (Types.VotePeriod params))
    (SafeUint64ToInt64 (Types.RewardDistributionWindow params)) voteTargetDenoms rewardSlice;;
  ClearBallots (Types.VotePeriod params).

(** The plan loop of [EndBlocker]. *)
Definition execute_due_plan (plan : ParamUpdatePlan) : K () :=
  h ← gets BlockHeight;
  if ShouldExecute plan h then ExecuteParamUpdatePlan plan else mret ().

(** A nil price feeder is dereferenced right after the plans. *)
Definition EndBlocker : K () :=
  plans ← GetParamUpdatePlans;
  forM execute_due_plan plans;;
  params ← GetParams;
  match PriceFeeder_ptr k with
  | None => panic
  | Some pf =>
      slash_start ← IsPeriodLastBlock (wrap_u64 (Types.SlashWindow params + 1));
      (if slash_start : bool then SetValidatorRewardSet else mret ());;
      vote_end ← IsPeriodLastBlock (Types.VotePeriod params);
      (if vote_end : bool then
         w ← gets world;
         (if Oracle_started w && AppConfig_Enable pf then
            params' ← GetParams;
            h ← gets BlockHeight;
            modify (set_world (Oracle_tick params' h))
          else mret ());;
         CalcPrices params
       else mret ());;
      slash_end ← IsPeriodLastBlock (Types.SlashWindow params);
      (if slash_end : bool then SlashAndResetMissCounters else mret ());;
      PruneAllPrices
  end.
End end_block.

(** ** Lemmas *)

Section tally_facts.
Context `{Bech32} `{DecOps}.

(** Crediting changes the weight and the win count of claims, and nothing else. *)
Definition only_credited (claims claims' : gmap string Claim) : Prop :=
  ∀ key c, claims !! key = Some c →
    ∃ c', claims' !! key = Some c' ∧ cl_Power c' = cl_Power c ∧ cl_Recipient c' = cl_Recipient c.

Lemma only_credited_refl claims : only_credited claims claims.
Proof. intros key c Hc. by exists c. Qed.

Lemma credit_only inc claims v : only_credited claims (credit inc claims v).
Proof.
  intros key c Hc. unfold credit. destruct (decide (ValAddress_String (vft_Voter v) = key)) as [<-|Hne].
  - rewrite Hc, lookup_insert_eq. eexists. by split_and!.
  - rewrite lookup_insert_ne by done. by exists c.
Qed.

Lemma Tally_Ok ballot band claims inc m claims' :
  Tally ballot band claims inc = Ok (m, claims') →
  WeightedMedian ballot = Ok m ∧ only_credited claims claims'.
Proof.
  unfold Tally. intros (median & Hm & Ht)%bind_Ok.
  apply bind_Ok in Ht as (sd & _ & Ht). apply bind_Ok in Ht as (half & _ & Ht).
  apply bind_Ok in Ht as (spread & _ & Ht). apply bind_Ok in Ht as (cs & Hloop & [= <- <-]).
  split; [done|].
  eapply (foldM_ind _ (only_credited claims)); [apply only_credited_refl| |exact Hloop].
  intros v c1 c2 _ Hc1 Hstep. apply bind_Ok in Hstep as (w & _ & [= <-]).
  destruct w; [|done]. intros key c Hc. destruct (Hc1 key c Hc) as (c' & Hc' & ? & ?).
  destruct (credit_only inc c1 v key c' Hc') as (c'' & ? & ? & ?). exists c''.
  split_and!; [done|congruence..].
Qed.
End tally_facts.

Section end_facts.
Context {W : Type} `{StakingKeeper W} `{CoinsOps} `{!DistributionKeeper W} `{!BankKeeper W}.
Context `{AccountKeeper W} `{PriceOracle W} `{EventManager}.
Context `{Bech32} `{DecOps} `{CoinOps} `{YamlDenom} `{Float64}.
Context (k : KeeperConf).
Implicit Types s : State W.

(** Without a price feeder no block ends. *)
Lemma EndBlocker_nil s : PriceFeeder_ptr k = None → (EndBlocker k s).1 ≠ Ok ().
Proof.
  intros Hk Hok. destruct (EndBlocker k s) as [r s'] eqn:Hrun. simpl in Hok. subst r.
  unfold EndBlocker in Hrun.
  apply M_bind_Ok in Hrun as (plans & s1 & _ & Hrun).
  apply M_bind_Ok in Hrun as ([] & s2 & _ & Hrun).
  apply M_bind_Ok in Hrun as (params & s3 & _ & Hrun). by rewrite Hk in Hrun.
Qed.

(** Every rate is of a denom of one of the two lists. *)
Definition rates_listed (p : Params) s : Prop :=
  ∀ d, is_Some (ExchangeRates s !! d) →
    DenomList_Contains (Types.MandatoryList p) d = true ∨
    DenomList_Contains (Types.AcceptList p) d = true.

(** What the ballot loop leaves alone, and the invariant of the rates. *)
Definition ballot_frame (p : Params) (s s' : State W) : Prop :=
  BlockHeight s' = BlockHeight s ∧ Prevotes s' = Prevotes s ∧ Votes s' = Votes s ∧
  MissCounters s' = MissCounters s ∧ paramSpace s' = paramSpace s ∧
  (rates_listed p s → rates_listed p s').

#[export] Instance ballot_frame_preorder p : PreOrder (ballot_frame p).
Proof.
  split; [by intros s|]. intros s1 s2 s3 (? & ? & ? & ? & ? & ?) (? & ? & ? & ? & ? & ?).
  split_and!; [congruence..|auto].
Qed.

Lemma SetExchangeRate_frame p d rate :
  DenomList_Contains (Types.MandatoryList p) d = true ∨
  DenomList_Contains (Types.AcceptList p) d = true →
  keeps (ballot_frame p) (SetExchangeRate d rate).
Proof.
  intros Hd. apply keeps_modify. intros s. split_and!; try done. intros Hs d' Hd'.
  simpl in Hd'. apply lookup_insert_is_Some' in Hd' as [<-|Hd']; [|by apply Hs].
  by rewrite !DenomList_Contains_upper.
Qed.

Lemma process_ballot_frame p threshold total claims b :
  keeps (ballot_frame p) (process_ballot p threshold total claims b).
Proof.
  unfold process_ballot.
  destruct (DenomList_Contains (Types.MandatoryList p) (bd_Denom b)) eqn:Hman;
    destruct (DenomList_Contains (Types.AcceptList p) (bd_Denom b)) eqn:Hacc; simpl;
    try (apply keeps_ret, _);
    unfold SetExchangeRateWithEvent, EmitTypedEvent, IsPeriodLastBlock, AddHistoricPrice,
      SetHistoricPrice, CalcAndSetHistoricMedian, calcAndSetHistoricMedianDeviation,
      SetHistoricMedian, SetHistoricMedianDeviation, MaximumPriceStamps, historicPrices,
      IterateHistoricPrices, limited; keeps_tac;
    try (apply SetExchangeRate_frame; auto); try (apply keeps_modify; by intros);
    try (apply keeps_walkM; [apply _|]; intros); keeps_tac.
Qed.

(** A completed price computation: no vote is left, the prevotes that can no
    longer be revealed are gone, the rates are of listed denoms. *)
Lemma CalcPrices_Ok p s s' :
  CalcPrices k p s = (Ok (), s') →
  Votes s' = ∅ ∧ Prevotes s' = still_pending (Types.VotePeriod p) (BlockHeight s) (Prevotes s) ∧
  rates_listed p s' ∧ paramSpace s' = paramSpace s.
Proof.
  unfold CalcPrices. intros Hrun.
  apply M_bind_Ok in Hrun as (w & s1 & [= <- <-] & Hrun).
  apply M_bind_Ok in Hrun as (vals & s1 & Hvals & Hrun). injection Hvals as _ <-.
  apply M_bind_Ok in Hrun as ([total claims] & s1 & Hclaims & Hrun). injection Hclaims as _ <-.
  apply M_bind_Ok in Hrun as ([] & s1 & [= <-] & Hrun).
  apply M_bind_Ok in Hrun as (bs & s1 & Hbs & Hrun).
  destruct (OrganizeBallot_run claims (set_ExchangeRates (λ _, ∅) s)) as (bs' & Hbs' & _).
  rewrite Hbs' in Hbs. injection Hbs as <- <-.
  apply M_bind_Ok in Hrun as (vt & s1 & [= <- <-] & Hrun).
  apply M_bind_Ok in Hrun as (scaled & s1 & Hsc & Hrun). injection Hsc as _ <-.
  apply M_bind_Ok in Hrun as (threshold & s1 & Hth & Hrun). injection Hth as _ <-.
  apply M_bind_Ok in Hrun as (claims' & s1 & Hloop & Hrun).
  apply (keeps_loopM (ballot_frame p)) in Hloop; [|intros; apply process_ballot_frame].
  apply M_bind_Ok in Hrun as (rs & s2 & [= <- <-] & Hrun).
  apply M_bind_Ok in Hrun as ([cs rws] & s2 & Hsl & Hrun). injection Hsl as _ <-.
  apply M_bind_Ok in Hrun as ([] & s2 & Hmiss & Hrun).
  set (R := λ s s' : State W, set_MissCounters (λ _, MissCounters s) s' = s).
  assert (PreOrder R) as HR.
  { split; [by intros []|]. intros a b c. unfold R. intros <- <-. by destruct c. }
  assert (R s1 s2) as Hs12.
  { eapply keeps_forM; [exact HR| |exact Hmiss]. intros c. unfold count_misses, GetMissCounter.
    keeps_tac. apply keeps_modify. by intros []. }
  apply M_bind_Ok in Hrun as ([] & s3 & Hrew & Hrun).
  apply RewardBallotWinners_frame in Hrew. rewrite ClearBallots_run in Hrun.
  injection Hrun as <-. unfold oracle_same in Hrew. unfold R in Hs12.
  destruct Hloop as (Hh & Hp & Hv & Hm & Hps & Hr).
  assert (BlockHeight s3 = BlockHeight s1 ∧ Prevotes s3 = Prevotes s1 ∧
    ExchangeRates s3 = ExchangeRates s1 ∧ paramSpace s3 = paramSpace s1) as (Hh3 & Hp3 & He3 & Hps3).
  { rewrite <-Hs12, <-Hrew. by destruct s3. }
  simpl in *. split_and!; [done| | |congruence].
  - by rewrite Hp3, Hh3, Hh, Hp.
  - unfold rates_listed. simpl. rewrite He3. apply Hr. intros d [? Hd]. simpl in Hd.
    by rewrite lookup_empty in Hd.
Qed.
End end_facts.
