(* ===== verification/Chain.v ===== *)
(** * Chain: transactions, blocks and reachable states of the oracle

    The message router runs a handler on a branch of the store and keeps the
    branch when the handler succeeds; [EndBlocker] runs once per block and the
    chain stops when it fails.  Between the steps the other modules may change
    their own state in any way. *)
From S2P Require Import Prelude Util GoStrings Dec Types Params Store Bech32 Ballot Votes.
From S2P Require Import Msgs World State Subspace Keeper HistoricPrice ParamPlan MsgServer Rewards.
From S2P Require Import EndBlock.
Local Open Scope Z_scope.

Inductive omsg : Type :=
  | OPrevote (m : MsgAggregateExchangeRatePrevote)
  | OVote (m : MsgAggregateExchangeRateVote)
  | ODelegate (m : MsgDelegateFeedConsent)
  | OLegacyUpdate (m : MsgLegacyGovUpdateParams)
  | OUpdate (m : MsgGovUpdateParams)
  | OAddDenoms (m : MsgGovAddDenoms)
  | ORemoveProviders (m : MsgGovRemoveCurrencyPairProviders)
  | ORemoveThresholds (m : MsgGovRemoveCurrencyDeviationThresholds)
  | OCancel (m : MsgGovCancelUpdateParamPlan).

(** The authority a governance message names. *)
Definition gov_authority (m : omsg) : option string :=
  match m with
  | OPrevote _ | OVote _ | ODelegate _ => None
  | OLegacyUpdate m => Some (ml_Authority m)
  | OUpdate m => Some (mu_Authority m)
  | OAddDenoms m => Some (ma_Authority m)
  | ORemoveProviders m => Some (mrp_Authority m)
  | ORemoveThresholds m => Some (mrt_Authority m)
  | OCancel m => Some (mc_Authority m)
  end.

Section chain.
Context {W : Type} `{StakingKeeper W} `{CoinsOps} `{!DistributionKeeper W} `{!BankKeeper W}.
Context `{AccountKeeper W} `{PriceOracle W} `{EventManager}.
Context `{Bech32} `{DecOps} `{CoinOps} `{YamlDenom} `{Float64} `{TmHash}.
Context (k : KeeperConf).
Implicit Types s : State W.

Definition deliver (m : omsg) : M (State W) () :=
  match m with
  | OPrevote m => AggregateExchangeRatePrevote m
  | OVote m => AggregateExchangeRateVote m
  | ODelegate m => DelegateFeedConsent m
  | OLegacyUpdate m => LegacyGovUpdateParams k m
  | OUpdate m => GovUpdateParams k m
  | OAddDenoms m => GovAddDenoms k m
  | ORemoveProviders m => GovRemoveCurrencyPairProviders k m
  | ORemoveThresholds m => GovRemoveCurrencyDeviationThresholds k m
  | OCancel m => GovCancelUpdateParamPlan k m
  end.

Inductive step s : State W → Prop :=
  | step_tx m s' : deliver m s = (Ok (), s') → step s s'
  | step_others w : step s (set_world (λ _, w) s)
  | step_block s' :
      EndBlocker k s = (Ok (), s') → BlockHeight s + 1 < 2 ^ 63 →
      step s (set_BlockHeight (λ h, h + 1) s').

Definition reachable : State W → State W → Prop := rtc step.
End chain.

(** ** What a block leaves alone *)

(** A write that adds no prevote, vote or plan. *)
Ltac shrink_write :=
  apply keeps_modify; intros []; split_and!; simpl;
  try reflexivity; try apply delete_subseteq; try apply map_empty_subseteq.

Section frame.
Context {W : Type} `{StakingKeeper W} `{CoinsOps} `{!DistributionKeeper W} `{!BankKeeper W}.
Context `{AccountKeeper W} `{PriceOracle W} `{EventManager}.
Context `{Bech32} `{DecOps} `{CoinOps} `{YamlDenom} `{Float64}.
Context (k : KeeperConf).
Implicit Types s : State W.

(** Prevotes, votes and plans may go, delegations and the height stay. *)
Definition shrinks s s' : Prop :=
  BlockHeight s' = BlockHeight s ∧ FeederDelegations s' = FeederDelegations s ∧
  Prevotes s' ⊆ Prevotes s ∧ Votes s' ⊆ Votes s ∧ ParamUpdatePlans s' ⊆ ParamUpdatePlans s.

#[export] Instance shrinks_preorder : PreOrder shrinks.
Proof.
  split; [by intros s|]. intros s1 s2 s3 (? & ? & ? & ? & ?) (? & ? & ? & ? & ?).
  split_and!; [congruence..|by etrans|by etrans|by etrans].
Qed.

Lemma keeps_oracle_same {A} (m : M (State W) A) : keeps oracle_same m → keeps shrinks m.
Proof.
  intros Hm s r s' Hrun. apply Hm in Hrun. unfold oracle_same in Hrun. rewrite <-Hrun.
  by destruct s'.
Qed.

Lemma on_world_shrinks {A} (m : M W A) : keeps shrinks (on_world m).
Proof. apply keeps_oracle_same, keeps_on_world. Qed.
#[local] Hint Resolve on_world_shrinks : keeps.

Lemma execute_key_shrinks c key : keeps shrinks (execute_key (W := W) c key).
Proof. intros s r s'. rewrite execute_key_run. intros [= _ <-]. by destruct s. Qed.
#[local] Hint Resolve execute_key_shrinks : keeps.

Lemma due_plan_shrinks plan : keeps shrinks (execute_due_plan (W := W) plan).
Proof.
  unfold execute_due_plan, ExecuteParamUpdatePlan, ClearParamUpdatePlan, haveParamUpdatePlan.
  keeps_tac; shrink_write.
Qed.

Lemma process_ballot_shrinks p threshold total claims b :
  keeps shrinks (process_ballot (W := W) p threshold total claims b).
Proof.
  unfold process_ballot, SetExchangeRateWithEvent, SetExchangeRate, EmitTypedEvent,
    IsPeriodLastBlock, AddHistoricPrice, SetHistoricPrice, CalcAndSetHistoricMedian,
    calcAndSetHistoricMedianDeviation, SetHistoricMedian, SetHistoricMedianDeviation,
    MaximumPriceStamps, historicPrices, IterateHistoricPrices, limited.
  keeps_tac; try shrink_write; apply keeps_walkM; [apply _|]; intros; keeps_tac.
Qed.

Lemma Reward_shrinks vp rdw targets winners :
  keeps shrinks (RewardBallotWinners k vp rdw targets winners).
Proof. apply keeps_oracle_same, RewardBallotWinners_frame. Qed.
#[local] Hint Resolve process_ballot_shrinks Reward_shrinks : keeps.

Lemma CalcPrices_shrinks p : keeps shrinks (CalcPrices k p).
Proof.
  unfold CalcPrices, ClearExchangeRates, OrganizeBallotByDenom,
    IterateAggregateExchangeRateVotes, VoteThreshold, GetValidatorRewardSet, count_misses,
    GetMissCounter, SetMissCounter, ClearBallots, IterateAggregateExchangeRatePrevotes,
    DeleteAggregateExchangeRatePrevote, DeleteAggregateExchangeRateVote.
  keeps_tac; try shrink_write; apply keeps_walkM; try apply _; intros; keeps_tac; shrink_write.
Qed.

Lemma SlashAndReset_shrinks : keeps shrinks (SlashAndResetMissCounters (W := W)).
Proof.
  unfold SlashAndResetMissCounters, PossibleWinsPerSlashWindow, SlashWindow, VotePeriod,
    MinValidPerWindow, SlashFraction, IterateMissCounters, evaluateAndSlashIfNeeded,
    DeleteMissCounter.
  keeps_tac. apply keeps_walkM; [apply _|]; intros. keeps_tac; shrink_write.
Qed.

Lemma PruneAllPrices_shrinks : keeps shrinks (PruneAllPrices (W := W)).
Proof.
  unfold PruneAllPrices, IsPeriodLastBlock, PruneHistoricPricesBeforeBlock,
    PruneMediansBeforeBlock, PruneMedianDeviationsBeforeBlock, IterateAllHistoricPrices,
    IterateAllMedianPrices, IterateAllMedianDeviationPrices, DeleteHistoricPrice,
    DeleteHistoricMedian, DeleteHistoricMedianDeviation.
  keeps_tac; apply keeps_walkM; try apply _; intros; keeps_tac; shrink_write.
Qed.

#[local] Hint Resolve due_plan_shrinks CalcPrices_shrinks SlashAndReset_shrinks
  PruneAllPrices_shrinks : keeps.

(** The end of a block adds no prevote, vote or plan. *)
Lemma EndBlocker_shrinks : keeps shrinks (EndBlocker k).
Proof.
  unfold EndBlocker. apply keeps_bind; [apply _| |intros plans].
  { intros s r s'. rewrite GetParamUpdatePlans_run. by intros [= _ <-]. }
  unfold GetParams, IsPeriodLastBlock, SetValidatorRewardSet.
  keeps_tac; shrink_write.
Qed.
End frame.

(** ** The invariant of reachable states *)

Section invariant.
Context {W : Type} `{StakingKeeper W} `{CoinsOps} `{!DistributionKeeper W} `{!BankKeeper W}.
Context `{AccountKeeper W} `{PriceOracle W} `{EventManager}.
Context `{Bech32Laws} `{DecOps} `{CoinLaws} `{YamlDenom} `{Float64} `{TmHash}.
Context (k : KeeperConf).
Implicit Types s : State W.

(** What a stored prevote is: under its voter, from a block of the past, with
    a hash in hexadecimal. *)
Definition prevote_ok (h : Z) (v : addr) (p : Types.AggregateExchangeRatePrevote) : Prop :=
  v ≠ "" ∧ pv_Voter p = ValAddress_String v ∧ 0 ≤ pv_SubmitBlock p ≤ h ∧
  ∃ hash, pv_Hash p = Hash_String hash.

Definition vote_ok (v : addr) (x : Types.AggregateExchangeRateVote) : Prop :=
  v ≠ "" ∧ vt_Voter x = ValAddress_String v ∧ parsed_coins (vt_ExchangeRates x).

Record wf s : Prop := {
  wf_height : 0 ≤ BlockHeight s < 2 ^ 63;
  wf_feeders : ∀ v f, FeederDelegations s !! v = Some f → v ≠ "" ∧ f ≠ "";
  wf_prevotes : ∀ v p, Prevotes s !! v = Some p → prevote_ok (BlockHeight s) v p;
  wf_votes : ∀ v x, Votes s !! v = Some x → vote_ok v x;
  wf_plans : plans_keyed s;
}.

(** Wellformedness looks at five fields, and goes down with the maps. *)
Lemma wf_shrinks s s' : wf s → shrinks s s' → wf s'.
Proof.
  intros [Hh Hf Hp Hv Hpl] (Eh & Ef & Sp & Sv & Spl). split.
  - by rewrite Eh.
  - by rewrite Ef.
  - intros v p Hl. rewrite Eh. apply Hp. by eapply lookup_weaken.
  - intros v x Hl. apply Hv. by eapply lookup_weaken.
  - intros h pl Hl. apply Hpl. by eapply lookup_weaken.
Qed.

Lemma wf_set_plan s plan changes :
  wf s → wf (set_ParamUpdatePlans <[Z.max 0 (plan_Height plan) :=
               mkPlan (plan_Keys plan) (plan_Height plan) changes]> s).
Proof.
  intros [Hh Hf Hp Hv Hpl]. split; try done.
  intros h pl. simpl. intros [[<- <-]|[_ Hl]]%lookup_insert_Some; [done|by apply Hpl].
Qed.

Lemma parsed_filter coins (P : DecCoin → Prop) `{∀ c, Decision (P c)} :
  parsed_coins coins → parsed_coins (filter P coins).
Proof.
  intros [Hp Hu Hn Ht Hco]. split.
  - by apply Forall_filter_2.
  - by apply Forall_filter_2.
  - clear Hp Hu Ht Hco. induction coins as [|c coins IH]; [constructor|]. rewrite filter_cons.
    cbn [map] in Hn. apply NoDup_cons in Hn as [Hni Hn]. case_decide; [|auto].
    cbn [map]. apply NoDup_cons. split; [|auto]. intros Hin. apply Hni.
    apply list_elem_of_fmap in Hin as (c' & -> & [_ ?]%list_elem_of_filter).
    by apply list_elem_of_fmap_2.
  - by apply Forall_filter_2.
  - by apply Forall_filter_2.
Qed.

(** The hypotheses of the vote handler's characterisation. *)
Lemma wf_submit s v p : wf s → Prevotes s !! v = Some p → 0 ≤ pv_SubmitBlock p < 2 ^ 63.
Proof. intros [? _ Hp _ _] Hl. destruct (Hp _ _ Hl) as (_ & _ & ? & _). lia. Qed.

(** ** Messages *)

Lemma Prevote_wf msg s s' : wf s → AggregateExchangeRatePrevote msg s = (Ok (), s') → wf s'.
Proof.
  intros [Hh Hf Hp Hv Hpl] (v & f & hash & Hval & _ & _ & _ & _ & ->)%Prevote_Ok.
  apply ValAddressFromBech32_nonempty in Hval. split; simpl; try done.
  intros v' p [[<- <-]|[_ Hl]]%lookup_insert_Some; [|by apply Hp].
  split_and!; simpl; [done|done|lia|lia|by exists hash].
Qed.

(** The writes of an accepted vote. *)
Lemma Vote_writes msg s s' :
  AggregateExchangeRateVote msg s = (Ok (), s') →
  ∃ v rates, ValAddressFromBech32 (mv_Validator msg) = Ok v ∧
    ParseExchangeRateDecCoins (mv_ExchangeRates msg) = Ok rates ∧
    s' = set_Prevotes (delete v)
           (set_Votes <[v := mkVote (accepted (paramSpace s) rates) (ValAddress_String v)]> s).
Proof.
  unfold AggregateExchangeRateVote. unfold mbind, M_bind, lift.
  destruct (ValAddressFromBech32 (mv_Validator msg)) as [v| |]; [|done..].
  destruct (AccAddressFromBech32 (mv_Feeder msg)) as [f| |]; [|done..].
  destruct (ValidateFeeder_cases f v s) as [[-> _]|[[e ->]| ->]]; [|done..].
  unfold GetParams, GetAggregateExchangeRatePrevote, gets, mbind, M_bind.
  destruct (Prevotes s !! v) as [p|]; [|done]. simpl.
  destruct (go_div _ _) as [a| |]; [|done..]. destruct (go_div _ _) as [b| |]; [|done..].
  destruct (negb _); [done|].
  destruct (ParseExchangeRateDecCoins _) as [rates| |]; simpl; [|done..].
  destruct (negb _); [done|]. intros [= <-]. by exists v, rates.
Qed.

Lemma Vote_wf msg s s' : wf s → AggregateExchangeRateVote msg s = (Ok (), s') → wf s'.
Proof.
  intros [Hh Hf Hp Hv Hpl] (v & rates & Hval & Hr & ->)%Vote_writes.
  apply ValAddressFromBech32_nonempty in Hval. apply Parse_parsed in Hr as [Hr _].
  split; simpl; try done.
  - intros v' p [_ Hl]%lookup_delete_Some. by apply Hp.
  - intros v' x [[<- <-]|[_ Hl]]%lookup_insert_Some; [|by apply Hv].
    split_and!; [done|done|]. by apply parsed_filter.
Qed.

Lemma Delegate_wf msg s s' : wf s → DelegateFeedConsent msg s = (Ok (), s') → wf s'.
Proof.
  intros [Hh Hf Hp Hv Hpl] (v & f & val & Hval & Hacc & _ & _ & ->)%Delegate_Ok.
  apply ValAddressFromBech32_nonempty in Hval. apply AccAddressFromBech32_nonempty in Hacc.
  split; simpl; try done.
  intros v' f' [[<- <-]|[_ Hl]]%lookup_insert_Some; [done|by eapply Hf].
Qed.

Lemma Schedule_wf plan s s' : wf s → ScheduleParamUpdatePlan plan s = (Ok (), s') → wf s'.
Proof. intros Hs (_ & _ & c & _ & ->)%Schedule_Ok. by apply wf_set_plan. Qed.

Lemma check_authority_Ok a s s' : check_authority k a s = (Ok (), s') → s' = s ∧ a = authority k.
Proof. rewrite check_authority_run. destruct (String.eqb_spec a (authority k)); [|done]. by intros [= <-]. Qed.

Lemma legacy_update_shrinks c key : keeps shrinks (legacy_update (W := W) c key).
Proof.
  unfold legacy_update. destruct (key_of_string key) as [[]|];
    unfold VotePeriod, MandatoryList, AcceptList, MedianStampPeriod, HistoricStampPeriod;
    keeps_tac; shrink_write.
Qed.
#[local] Hint Resolve legacy_update_shrinks : keeps.

Lemma Legacy_shrinks msg : keeps shrinks (LegacyGovUpdateParams (W := W) k msg).
Proof. unfold LegacyGovUpdateParams, check_authority. keeps_tac. Qed.

Lemma Cancel_shrinks msg : keeps shrinks (GovCancelUpdateParamPlan (W := W) k msg).
Proof.
  unfold GovCancelUpdateParamPlan, check_authority, ClearParamUpdatePlan, haveParamUpdatePlan.
  keeps_tac; shrink_write.
Qed.

(** Every accepted message keeps the state well-formed. *)
Lemma deliver_wf m s s' : wf s → deliver k m s = (Ok (), s') → wf s'.
Proof.
  intros Hs. destruct m as [m|m|m|m|m|m|m|m|m]; cbn [deliver].
  - by apply Prevote_wf.
  - by apply Vote_wf.
  - by apply Delegate_wf.
  - intros Hrun%Legacy_shrinks. by eapply wf_shrinks.
  - intros ([] & s1 & [-> _]%check_authority_Ok & Hrun)%M_bind_Ok. by eapply Schedule_wf.
  - intros ([] & s1 & [-> _]%check_authority_Ok & Hrun)%M_bind_Ok.
    apply M_bind_Ok in Hrun as (p & s1 & [= _ <-] & Hrun).
    apply M_bind_Ok in Hrun as (pl & s1 & Hpl & Hrun). injection Hpl as _ <-.
    apply M_bind_Ok in Hrun as (u & s1 & Hb & Hrun). injection Hb as _ <-.
    by eapply Schedule_wf.
  - intros ([] & s1 & [-> _]%check_authority_Ok & Hrun)%M_bind_Ok.
    apply M_bind_Ok in Hrun as (p & s1 & [= _ <-] & Hrun).
    apply M_bind_Ok in Hrun as (u & s1 & Hb & Hrun). injection Hb as _ <-.
    by eapply Schedule_wf.
  - intros ([] & s1 & [-> _]%check_authority_Ok & Hrun)%M_bind_Ok.
    apply M_bind_Ok in Hrun as (p & s1 & [= _ <-] & Hrun).
    apply M_bind_Ok in Hrun as (u & s1 & Hb & Hrun). injection Hb as _ <-.
    by eapply Schedule_wf.
  - intros Hrun%Cancel_shrinks. by eapply wf_shrinks.
Qed.

(** The next block: prevotes stay in the past. *)
Lemma wf_next_height s : wf s → BlockHeight s + 1 < 2 ^ 63 → wf (set_BlockHeight (λ h, h + 1) s).
Proof.
  intros [Hh Hf Hp Hv Hpl] Hn. split; simpl; try done; [lia|].
  intros v p Hl. destruct (Hp v p Hl) as (? & ? & ? & ?). split_and!; [done|done|lia|lia|done].
Qed.

Lemma step_wf s s' : wf s → step k s s' → wf s'.
Proof.
  intros Hs Hstep. destruct Hstep as [m s' Hrun|w|s' Hrun Hh].
  - by eapply deliver_wf.
  - by destruct Hs.
  - apply EndBlocker_shrinks in Hrun as Hsh. apply wf_next_height; [by eapply wf_shrinks|].
    by destruct Hsh as [-> _].
Qed.
Lemma reachable_wf s s' : wf s → reachable k s s' → wf s'.
Proof. intros Hs. induction 1 as [|s1 s2 s3 Hstep _ IH]; [done|]. apply IH. by eapply step_wf. Qed.
End invariant.

(** ** Commit and reveal *)

Section commit_reveal.
Context {W : Type} `{StakingKeeper W} `{CoinsOps} `{!DistributionKeeper W} `{!BankKeeper W}.
Context `{AccountKeeper W} `{PriceOracle W} `{EventManager}.
Context `{Bech32Laws} `{DecOps} `{CoinLaws} `{YamlDenom} `{Float64} `{TmHashLaws}.
Context (k : KeeperConf).
Implicit Types s : State W.

(** A vote whose hash was committed is accepted in the next period. *)
Lemma honest_reveal s s1 s2 v f salt rates parsed :
  v ≠ "" → f ≠ "" → ParseExchangeRateDecCoins rates = Ok parsed → wf s →
  deliver k (OPrevote (NewMsgAggregateExchangeRatePrevote (GetAggregateVoteHash salt rates v) f v)) s
    = (Ok (), s1) →
  wf s2 → Prevotes s2 !! v = Prevotes s1 !! v → may_feed s2 f v →
  0 < Types.VotePeriod (paramSpace s2) →
  next_period (Types.VotePeriod (paramSpace s2)) (BlockHeight s) (BlockHeight s2) →
  deliver k (OVote (NewMsgAggregateExchangeRateVote salt rates f v)) s2 =
    (Ok (), set_Prevotes (delete v)
       (set_Votes <[v := mkVote (accepted (paramSpace s2) parsed) (ValAddress_String v)]> s2)).
Proof.
  intros Hvn Hfn Hparse Hwf Hpre Hwf2 Hpend Hfeed Hvp Hnext.
  apply Prevote_Ok in Hpre as (v' & f' & hash & Hva & Hfa & _ & _ & Hhash & ->). simpl in *.
  rewrite ValAddress_roundtrip in Hva by done. injection Hva as <-.
  rewrite Hash_roundtrip in Hhash. injection Hhash as <-. rewrite lookup_insert_eq in Hpend.
  apply Vote_Ok; simpl; [done|apply Hwf2|intros ??; by apply wf_submit|].
  eexists v, f, _, parsed. rewrite ValAddress_roundtrip, AccAddress_roundtrip by done.
  rewrite Hpend. split_and!; try done; simpl. rewrite Z.max_r; [done|apply Hwf].
Qed.
End commit_reveal.

(** ** Denoms that no vote can carry *)

Section unpriced.
Context {W : Type} `{StakingKeeper W} `{CoinsOps} `{!DistributionKeeper W} `{!BankKeeper W}.
Context `{AccountKeeper W} `{PriceOracle W} `{EventManager}.
Context `{Bech32Laws} `{DecOps} `{CoinLaws} `{YamlDenom} `{Float64} `{TmHash}.
Context (k : KeeperConf) (d : string).
Implicit Types s : State W.

(** No vote is of [d], and denoms are in upper case. *)
Definition unvoted s : Prop :=
  ∀ v x, Votes s !! v = Some x →
    Forall (λ c, dc_Denom c ≠ d ∧ ToUpper (dc_Denom c) = dc_Denom c) (vt_ExchangeRates x).

(** Without votes of [d], none appear, and [d] stays without a rate. *)
Definition unpriced s s' : Prop :=
  unvoted s → unvoted s' ∧ (ExchangeRates s !! d = None → ExchangeRates s' !! d = None).

#[export] Instance unpriced_preorder : PreOrder unpriced.
Proof.
  split; [by intros s|]. intros s1 s2 s3 H12 H23 [Hu2 E1]%H12. destruct (H23 Hu2) as [? E2]. auto.
Qed.

Lemma unvoted_weaken s s' : Votes s' ⊆ Votes s → unvoted s → unvoted s'.
Proof. intros Hs Hu v x Hl. apply (Hu v). by eapply lookup_weaken. Qed.

Lemma oracle_same_unpriced {A} (m : M (State W) A) : keeps oracle_same m → keeps unpriced m.
Proof.
  intros Hm s r s' Hrun. apply Hm in Hrun. unfold oracle_same in Hrun. rewrite <-Hrun. by destruct s'.
Qed.

Lemma on_world_unpriced {A} (m : M W A) : keeps unpriced (on_world m).
Proof. apply oracle_same_unpriced, keeps_on_world. Qed.
#[local] Hint Resolve on_world_unpriced : keeps.

(** A write that adds no vote and no rate. *)
Ltac unpriced_write :=
  apply keeps_modify; intros [] Hunvoted; split; [|by auto];
  revert Hunvoted; apply unvoted_weaken; simpl;
  first [reflexivity|apply delete_subseteq|apply map_empty_subseteq].

Lemma due_plan_unpriced plan : keeps unpriced (execute_due_plan (W := W) plan).
Proof.
  unfold execute_due_plan, ExecuteParamUpdatePlan, ClearParamUpdatePlan, haveParamUpdatePlan.
  keeps_tac; try unpriced_write. intros s r s'. rewrite execute_key_run. intros [= _ <-]. by destruct s.
Qed.

Lemma process_ballot_unpriced p threshold total claims b :
  ToUpper (bd_Denom b) ≠ d → keeps unpriced (process_ballot (W := W) p threshold total claims b).
Proof.
  intros Hb. unfold process_ballot, SetExchangeRateWithEvent, SetExchangeRate, EmitTypedEvent,
    IsPeriodLastBlock, AddHistoricPrice, SetHistoricPrice, CalcAndSetHistoricMedian,
    calcAndSetHistoricMedianDeviation, SetHistoricMedian, SetHistoricMedianDeviation,
    MaximumPriceStamps, historicPrices, IterateHistoricPrices, limited.
  keeps_tac; try unpriced_write.
  1: { apply keeps_modify. intros [] Hu. split; [done|]. simpl. by rewrite lookup_insert_ne. }
  all: apply keeps_walkM; [apply _|]; intros; keeps_tac.
Qed.

(** The ballots are of denoms that were voted. *)
Lemma ballots_unvoted claims s s1 bs :
  OrganizeBallotByDenom claims s = (Ok bs, s1) → s1 = s ∧
  (unvoted s → ∀ b, b ∈ bs → ToUpper (bd_Denom b) ≠ d).
Proof.
  destruct (OrganizeBallot_run claims s) as (bs' & -> & _ & _ & Hin). intros [= <- <-].
  split; [done|]. intros Hu b [Hb _]%Hin. unfold ballot_for in Hb.
  destruct (concat _) as [|v l] eqn:Hc in Hb; [done|].
  assert (v ∈ concat (map (tally_votes claims (bd_Denom b)) (Walk (Votes s)))) as Hv
    by (rewrite Hc; by left).
  apply list_elem_of_In, in_concat in Hv as (vs & Hvs & Hv).
  apply in_map_iff in Hvs as ([a x] & <- & Hx%list_elem_of_In%elem_of_Walk).
  unfold tally_votes in Hv. destruct (claims !! _); [|done].
  apply list_elem_of_In, list_elem_of_fmap in Hv as (co & _ & [<- Hcin]%list_elem_of_filter).
  apply Hu in Hx. rewrite Forall_forall in Hx. by destruct (Hx co Hcin) as [? ->].
Qed.

Lemma Clear_unpriced : keeps unpriced (ClearExchangeRates (W := W)).
Proof. apply keeps_modify. by intros [] Hu. Qed.

Lemma CalcPrices_unpriced p : keeps unpriced (CalcPrices k p).
Proof.
  unfold CalcPrices. do 3 (apply keeps_bind; [apply _|keeps_tac|intros ?]).
  destruct a1 as [total claims]. cbv zeta.
  apply keeps_bind; [apply _|apply Clear_unpriced|intros _].
  apply keeps_bind_run; [apply _| |].
  { intros s r s' Hrun. destruct (OrganizeBallot_run claims s) as (bs & Hbs & _).
    rewrite Hbs in Hrun. by injection Hrun as _ <-. }
  intros s bs s1 [-> Hbs]%ballots_unvoted r s' Hrun Hu. specialize (Hbs Hu). revert Hu.
  match type of Hrun with ?m _ = _ => cut (keeps unpriced m); [by intros Hm; apply Hm in Hrun|] end.
  unfold VoteThreshold, GetValidatorRewardSet. do 3 (apply keeps_bind; [apply _|keeps_tac|intros ?]).
  apply keeps_bind; [apply _| |intros ?].
  { apply keeps_loopM_in; [apply _|]. intros. by apply process_ballot_unpriced, Hbs. }
  unfold count_misses, GetMissCounter, SetMissCounter, ClearBallots, IterateAggregateExchangeRatePrevotes,
    IterateAggregateExchangeRateVotes, DeleteAggregateExchangeRatePrevote, DeleteAggregateExchangeRateVote.
  keeps_tac; try unpriced_write;
    first [apply keeps_walkM; [apply _|]; intros; keeps_tac; unpriced_write
          |apply oracle_same_unpriced, RewardBallotWinners_frame].
Qed.

Lemma SlashAndReset_unpriced : keeps unpriced (SlashAndResetMissCounters (W := W)).
Proof.
  unfold SlashAndResetMissCounters, PossibleWinsPerSlashWindow, SlashWindow, VotePeriod,
    MinValidPerWindow, SlashFraction, IterateMissCounters, evaluateAndSlashIfNeeded,
    DeleteMissCounter.
  keeps_tac. apply keeps_walkM; [apply _|]; intros. keeps_tac; unpriced_write.
Qed.

Lemma PruneAllPrices_unpriced : keeps unpriced (PruneAllPrices (W := W)).
Proof.
  unfold PruneAllPrices, IsPeriodLastBlock, PruneHistoricPricesBeforeBlock,
    PruneMediansBeforeBlock, PruneMedianDeviationsBeforeBlock, IterateAllHistoricPrices,
    IterateAllMedianPrices, IterateAllMedianDeviationPrices, DeleteHistoricPrice,
    DeleteHistoricMedian, DeleteHistoricMedianDeviation.
  keeps_tac; apply keeps_walkM; try apply _; intros; keeps_tac; unpriced_write.
Qed.

#[local] Hint Resolve due_plan_unpriced CalcPrices_unpriced SlashAndReset_unpriced
  PruneAllPrices_unpriced : keeps.

Lemma EndBlocker_unpriced : keeps unpriced (EndBlocker k).
Proof.
  unfold EndBlocker. apply keeps_bind; [apply _| |intros plans].
  { intros s r s'. rewrite GetParamUpdatePlans_run. by intros [= _ <-]. }
  unfold GetParams, IsPeriodLastBlock, SetValidatorRewardSet.
  keeps_tac; unpriced_write.
Qed.

(** No message writes a rate. *)
Definition rates_same s s' : Prop := ExchangeRates s' = ExchangeRates s.
#[export] Instance rates_same_preorder : PreOrder rates_same.
Proof. split; [by intros ?|]. intros ??? Hab Hbc. unfold rates_same in *. congruence. Qed.

Lemma rates_write (f : State W → State W) :
  (∀ s, ExchangeRates (f s) = ExchangeRates s) → keeps rates_same (modify f).
Proof. intros Hf s r s' [= _ <-]. apply Hf. Qed.

Lemma Legacy_rates msg : keeps rates_same (LegacyGovUpdateParams (W := W) k msg).
Proof.
  unfold LegacyGovUpdateParams, check_authority, legacy_update, VotePeriod, MandatoryList, AcceptList,
    MedianStampPeriod, HistoricStampPeriod. keeps_tac; by apply rates_write.
Qed.

Lemma Schedule_rates plan : keeps rates_same (ScheduleParamUpdatePlan (W := W) plan).
Proof. unfold ScheduleParamUpdatePlan, ValidateParamChanges, GetParams. keeps_tac; by apply rates_write. Qed.
#[local] Hint Resolve Legacy_rates Schedule_rates : keeps.

Lemma deliver_rates m s s' : deliver k m s = (Ok (), s') → rates_same s s'.
Proof.
  destruct m as [m|m|m|m|m|m|m|m|m]; cbn [deliver].
  1: by intros (? & ? & ? & _ & _ & _ & _ & _ & ->)%Prevote_Ok.
  1: by intros (? & ? & _ & _ & ->)%Vote_writes.
  1: by intros (? & ? & ? & _ & _ & _ & _ & ->)%Delegate_Ok.
  all: match goal with |- ?m _ = _ → _ => cut (keeps rates_same m); [intros Hm Hrun; by eapply Hm|] end.
  all: unfold GovUpdateParams, GovAddDenoms, GovRemoveCurrencyPairProviders,
    GovRemoveCurrencyDeviationThresholds, GovCancelUpdateParamPlan, check_authority, GetParams,
    ClearParamUpdatePlan, haveParamUpdatePlan; keeps_tac; by apply rates_write.
Qed.

Lemma reachable_unpriced s s' :
  (∀ t, wf t → unvoted t) → wf s → reachable k s s' →
  ExchangeRates s !! d = None → ExchangeRates s' !! d = None.
Proof.
  intros Hu Hs. induction 1 as [|s s1 s2 Hstep _ IH]; [done|]. intros Hn.
  apply IH; [by eapply step_wf|]. destruct Hstep as [m s' Hrun|w|s' Hrun Hh]; [|done|].
  - apply deliver_rates in Hrun. unfold rates_same in Hrun. by rewrite Hrun.
  - apply EndBlocker_unpriced in Hrun as [_ He]; auto.
Qed.

Lemma wf_unvoted s : refused d → wf s → unvoted s.
Proof.
  intros Hd Hs v x Hl. apply (wf_votes s Hs) in Hl as (_ & _ & Hp).
  pose proof (parsed_not_refused _ _ Hp Hd) as Hni. destruct Hp as [_ Hup _ _ _].
  rewrite Forall_forall in *. intros c Hc. split; [|by apply Hup].
  intros <-. apply Hni. by apply list_elem_of_fmap_2.
Qed.
End unpriced.
