(* ===== verification/Genesis.v ===== *)
(** * Genesis: import and export of the oracle state

    [src/x/oracle/genesis.go] and [src/x/oracle/types/genesis.go].  The JSON
    decoding of the application state is the codec's. *)
From S2P Require Import Prelude Util GoStrings Dec Types Params Store Bech32 World State.
From S2P Require Import Subspace Keeper HistoricPrice.
Local Open Scope Z_scope.

Record FeederDelegation := mkFeederDelegation { fd_FeederAddress : string; fd_ValidatorAddress : string }.
Record MissCounter := mkMissCounter { mc_ValidatorAddress : string; mc_MissCounter : Z }.

Record GenesisState := mkGenesis {
  gs_Params : Params;
  gs_ExchangeRates : list DecCoin;
  gs_FeederDelegations : list FeederDelegation;
  gs_MissCounters : list MissCounter;
  gs_Prevotes : list AggregateExchangeRatePrevote;
  gs_Votes : list AggregateExchangeRateVote;
  gs_HistoricPrices : list PriceStamp;
  gs_Medians : list PriceStamp;
  gs_MedianDeviations : list PriceStamp;
}.

Definition NewGenesisState (params : Params) (rates : list DecCoin)
    (feederDelegations : list FeederDelegation) (missCounters : list MissCounter)
    (prevotes : list AggregateExchangeRatePrevote) (votes : list AggregateExchangeRateVote)
    (historicPrices medianPrices medianDeviationPrices : list PriceStamp) : GenesisState :=
  mkGenesis params rates feederDelegations missCounters prevotes votes historicPrices medianPrices
    medianDeviationPrices.

Definition DefaultGenesisState : GenesisState :=
  mkGenesis DefaultParams [] [] [] [] [] [] [] [].

Definition ValidateGenesis `{DecOps, YamlDenom} (data : GenesisState) : outcome () := Validate (gs_Params data).

Section genesis.
Context {W : Type} `{DecOps, Bech32, AccountKeeper W}.
Abbreviation K := (M (State W)) (only parsing).

(** [if err != nil { panic(err) }]. *)
Definition must {A} (o : outcome A) : K A :=
  lift (match o with Ok a => Ok a | _ => Panic end).

Definition init_delegation (d : FeederDelegation) : K () :=
  voter ← must (ValAddressFromBech32 (fd_ValidatorAddress d));
  feeder ← must (AccAddressFromBech32 (fd_FeederAddress d));
  SetFeederDelegation voter feeder.

Definition init_miss_counter (mc : MissCounter) : K () :=
  operator ← must (ValAddressFromBech32 (mc_ValidatorAddress mc));
  SetMissCounter operator (mc_MissCounter mc).

Definition init_prevote (ap : AggregateExchangeRatePrevote) : K () :=
  valAddr ← must (ValAddressFromBech32 (pv_Voter ap));
  SetAggregateExchangeRatePrevote valAddr ap.

Definition init_vote (av : AggregateExchangeRateVote) : K () :=
  valAddr ← must (ValAddressFromBech32 (vt_Voter av));
  SetAggregateExchangeRateVote valAddr av.

(** The loop body over stamps for the setter [set]. *)
Definition init_stamp (set : string → Z → LegacyDec → K ()) (p : PriceStamp) : K () :=
  set (dc_Denom (ps_ExchangeRate p)) (ps_BlockNum p) (dc_Amount (ps_ExchangeRate p)).

Definition InitGenesis (genState : GenesisState) : K () :=
  forM init_delegation (gs_FeederDelegations genState);;
  forM (λ ex, SetExchangeRate (dc_Denom ex) (dc_Amount ex)) (gs_ExchangeRates genState);;
  forM init_miss_counter (gs_MissCounters genState);;
  forM init_prevote (gs_Prevotes genState);;
  forM init_vote (gs_Votes genState);;
  forM (init_stamp SetHistoricPrice) (gs_HistoricPrices genState);;
  forM (init_stamp SetHistoricMedian) (gs_Medians genState);;
  forM (init_stamp SetHistoricMedianDeviation) (gs_MedianDeviations genState);;
  SetParams (gs_Params genState);;
  moduleAcc ← GetOracleAccount;
  match moduleAcc with None => panic | Some _ => mret () end.

Definition ExportGenesis : K GenesisState :=
  params ← GetParams;
  feederDelegations ← IterateFeederDelegations (λ valAddr feederAddr l,
    mret (false, l ++ [mkFeederDelegation (AccAddress_String feederAddr) (ValAddress_String valAddr)])) [];
  exchangeRates ← IterateExchangeRates (λ denom rate l, mret (false, l ++ [mkDecCoin denom rate])) [];
  missCounters ← IterateMissCounters (λ operator missCounter l,
    mret (false, l ++ [mkMissCounter (ValAddress_String operator) missCounter])) [];
  prevotes ← IterateAggregateExchangeRatePrevotes (λ _ prevote l, mret (false, l ++ [prevote])) [];
  votes ← IterateAggregateExchangeRateVotes (λ _ vote l, mret (false, l ++ [vote])) [];
  historicPrices ← IterateAllHistoricPrices (λ price l, mret (false, l ++ [price])) [];
  medianPrices ← IterateAllMedianPrices (λ price l, mret (false, l ++ [price])) [];
  medianDeviationPrices ← IterateAllMedianDeviationPrices (λ price l, mret (false, l ++ [price])) [];
  mret (NewGenesisState params exchangeRates feederDelegations missCounters prevotes votes
          historicPrices medianPrices medianDeviationPrices).
End genesis.

(** ** Lemmas *)

(** The exported document. *)
Definition exported `{Bech32} {W} (s : State W) : GenesisState :=
  {| gs_Params := paramSpace s;
     gs_ExchangeRates := map (λ e, mkDecCoin e.1 e.2) (Walk (ExchangeRates s));
     gs_FeederDelegations :=
       map (λ e, mkFeederDelegation (AccAddress_String e.2) (ValAddress_String e.1))
         (Walk (FeederDelegations s));
     gs_MissCounters := map (λ e, mkMissCounter (ValAddress_String e.1) e.2) (Walk (MissCounters s));
     gs_Prevotes := map snd (Walk (Prevotes s));
     gs_Votes := map snd (Walk (Votes s));
     gs_HistoricPrices := map (λ e, stamp e.1 e.2) (Walk (HistoricPrices s));
     gs_Medians := map (λ e, stamp e.1 e.2) (Walk (MedianPrices s));
     gs_MedianDeviations := map (λ e, stamp e.1 e.2) (Walk (MedianDeviations s)) |}.

Lemma ExportGenesis_run `{Bech32} {W} (s : State W) : ExportGenesis s = (Ok (exported s), s).
Proof.
  unfold ExportGenesis, GetParams. erewrite M_bind_run by done.
  unfold IterateFeederDelegations, IterateExchangeRates, IterateMissCounters,
    IterateAggregateExchangeRatePrevotes, IterateAggregateExchangeRateVotes,
    IterateAllHistoricPrices, IterateAllMedianPrices, IterateAllMedianDeviationPrices.
  unfold gets, mbind, M_bind.
  rewrite (walkM_collect (λ valAddr feederAddr,
    mkFeederDelegation (AccAddress_String feederAddr) (ValAddress_String valAddr))).
  rewrite (walkM_collect mkDecCoin).
  rewrite (walkM_collect (λ operator, mkMissCounter (ValAddress_String operator))).
  rewrite (walkM_collect (λ (_ : addr) (p : AggregateExchangeRatePrevote), p)).
  rewrite (walkM_collect (λ (_ : addr) (p : AggregateExchangeRateVote), p)).
  by rewrite !(walkM_collect stamp).
Qed.

(** Inserting the entries of [m] one by one. *)
Lemma foldl_insert_Walk {K V} `{Countable K, KeyOrder K} (m m0 : gmap K V) :
  foldl (λ m e, <[e.1 := e.2]> m) m0 (Walk m) = m ∪ m0.
Proof.
  rewrite <-(Walk_list_to_map m) at 2. pose proof (NoDup_Walk m) as Hnd. revert m0.
  induction (Walk m) as [|[k v] l IH]; intros m0; cbn [foldl list_to_map fst snd].
  - symmetry. apply map_empty_union.
  - apply NoDup_cons in Hnd as [Hk Hnd]. rewrite (IH Hnd). cbn. apply map_eq. intros k'.
    destruct (decide (k = k')) as [<-|Hne].
    + rewrite lookup_union. rewrite lookup_insert_eq.
      rewrite (not_elem_of_list_to_map_1 l k Hk). rewrite lookup_union, lookup_insert_eq.
      by destruct (m0 !! k).
    + by rewrite !lookup_union, !lookup_insert_ne.
Qed.

(** A loop over exported entries whose body is a pure update. *)
Lemma forM_map {S A E} (f : A → M S ()) (x : E → A) (g : E → S → S) (l : list E) s :
  (∀ e s, e ∈ l → f (x e) s = (Ok (), g e s)) →
  forM f (map x l) s = (Ok (), foldl (λ s e, g e s) s l).
Proof.
  revert s. induction l as [|e l IH]; intros s Hf; [done|]. cbn [map forM foldl].
  erewrite M_bind_run by (apply Hf; left). apply IH. intros ???. apply Hf. by right.
Qed.

(** The last block the import sees for each denom. *)
Definition last_blocks (m : gmap (string * Z) LegacyDec) (l : gmap string Z) : gmap string Z :=
  foldl (λ l e, <[e.1.1 := e.1.2]> l) l (Walk m).

(** The state after the import of what [s] exports, into [s0]. *)
Definition imported {W} (s s0 : State W) (w : W) : State W :=
  mkState (BlockHeight s0) (ExchangeRates s ∪ ExchangeRates s0)
    (FeederDelegations s ∪ FeederDelegations s0) (Prevotes s ∪ Prevotes s0) (Votes s ∪ Votes s0)
    (HistoricPrices s ∪ HistoricPrices s0) (MedianPrices s ∪ MedianPrices s0)
    (MedianDeviations s ∪ MedianDeviations s0)
    (last_blocks (HistoricPrices s) (LastHistoricPriceBlock s0)) (Averages s0)
    (MissCounters s ∪ MissCounters s0) (ValidatorRewardSet s0) (ParamUpdatePlans s0)
    (paramSpace s) (events s0) w.

(** The entries carry what the import reads back. *)
Record exportable `{Bech32} {W} (s : State W) : Prop := {
  exp_rates : ∀ d r, ExchangeRates s !! d = Some r → ToUpper d = d;
  exp_feeders : ∀ v f, FeederDelegations s !! v = Some f → v ≠ "" ∧ f ≠ "";
  exp_misses : ∀ v n, MissCounters s !! v = Some n → v ≠ "";
  exp_prevotes : ∀ v p, Prevotes s !! v = Some p → v ≠ "" ∧ pv_Voter p = ValAddress_String v;
  exp_votes : ∀ v p, Votes s !! v = Some p → v ≠ "" ∧ vt_Voter p = ValAddress_String v;
}.

(** A loop of inserts into one field [set] of the state. *)
Lemma fold_field {W K V} `{Countable K, KeyOrder K} (set : (gmap K V → gmap K V) → State W → State W)
    (m : gmap K V) (s : State W) :
  (∀ f g s, set f (set g s) = set (λ x, f (g x)) s) → (∀ f s, (∀ x, f x = x) → set f s = s) →
  (∀ f g s, (∀ x, f x = g x) → set f s = set g s) →
  foldl (λ s e, set <[e.1 := e.2]> s) s (Walk m) = set (λ m0, m ∪ m0) s.
Proof.
  intros Hcomp Hid Hext. transitivity (set (λ m0, foldl (λ m e, <[e.1 := e.2]> m) m0 (Walk m)) s).
  - revert s. induction (Walk m) as [|[k v] l IH]; intros s; cbn [foldl].
    + symmetry. by apply Hid.
    + by rewrite IH, Hcomp.
  - apply Hext. intros m0. apply foldl_insert_Walk.
Qed.

Ltac fold_field :=
  apply fold_field; [done|intros ? [] Hf; cbv -[union]; by rewrite Hf|intros ?? [] Hf; cbv -[union]; by rewrite Hf].

Section roundtrip.
Context {W : Type} `{DecOps} `{Bech32Laws} `{AccountKeeper W}.
Implicit Types s : State W.

Lemma fold_rates m s :
  foldl (λ s e, set_ExchangeRates <[e.1 := e.2]> s) s (Walk m) =
  set_ExchangeRates (λ m0, m ∪ m0) s.
Proof. fold_field. Qed.

Lemma fold_feeders m s :
  foldl (λ s e, set_FeederDelegations <[e.1 := e.2]> s) s (Walk m) =
  set_FeederDelegations (λ m0, m ∪ m0) s.
Proof. fold_field. Qed.

Lemma fold_misses m s :
  foldl (λ s e, set_MissCounters <[e.1 := e.2]> s) s (Walk m) =
  set_MissCounters (λ m0, m ∪ m0) s.
Proof. fold_field. Qed.

Lemma fold_prevotes m s :
  foldl (λ s e, set_Prevotes <[e.1 := e.2]> s) s (Walk m) =
  set_Prevotes (λ m0, m ∪ m0) s.
Proof. fold_field. Qed.

Lemma fold_votes m s :
  foldl (λ s e, set_Votes <[e.1 := e.2]> s) s (Walk m) =
  set_Votes (λ m0, m ∪ m0) s.
Proof. fold_field. Qed.

Lemma fold_medians m s :
  foldl (λ s e, set_MedianPrices <[e.1 := e.2]> s) s (Walk m) =
  set_MedianPrices (λ m0, m ∪ m0) s.
Proof. fold_field. Qed.

Lemma fold_deviations m s :
  foldl (λ s e, set_MedianDeviations <[e.1 := e.2]> s) s (Walk m) =
  set_MedianDeviations (λ m0, m ∪ m0) s.
Proof. fold_field. Qed.

Lemma fold_prices m s :
  foldl (λ s e, set_LastHistoricPriceBlock <[e.1.1 := e.1.2]>
                  (set_HistoricPrices <[e.1 := e.2]> s)) s (Walk m) =
  set_LastHistoricPriceBlock (last_blocks m)
    (set_HistoricPrices (λ m0, m ∪ m0) s).
Proof.
  transitivity (set_LastHistoricPriceBlock (last_blocks m)
    (set_HistoricPrices (λ m0, foldl (λ m e, <[e.1 := e.2]> m) m0 (Walk m)) s)).
  - unfold last_blocks. revert s. induction (Walk m) as [|[??] ? IH]; intros []; [done|apply IH].
  - f_equal. unfold set_HistoricPrices. by rewrite foldl_insert_Walk.
Qed.

(** Importing an export rebuilds the collections of the document. *)
Lemma InitGenesis_exported s s0 :
  exportable s → Forall (λ e, e.2 = Ok ()) (ParamSetPairs (paramSpace s)) →
  InitGenesis (exported s) s0 =
  let '(r, w) := GetModuleAccount ModuleName (world s0) in
  (match r with Ok (Some _) => Ok () | Ok None => Panic | Err e => Err e | Panic => Panic end,
   imported s s0 w).
Proof.
  intros [Hr Hf Hm Hpv Hvt] Hp. unfold InitGenesis, exported. simpl.
  erewrite M_bind_run.
  2:{ apply (forM_map _ _ (λ e, set_FeederDelegations <[e.1 := e.2]>)). intros [v f] s1 Hin.
      apply elem_of_Walk in Hin. destruct (Hf _ _ Hin).
      unfold init_delegation, must, mbind, M_bind, lift. simpl.
      by rewrite ValAddress_roundtrip, AccAddress_roundtrip. }
  erewrite M_bind_run.
  2:{ apply (forM_map _ _ (λ e, set_ExchangeRates <[e.1 := e.2]>)). intros [d r] s1 Hin.
      apply elem_of_Walk in Hin. unfold SetExchangeRate, modify. simpl. by rewrite (Hr _ _ Hin). }
  erewrite M_bind_run.
  2:{ apply (forM_map _ _ (λ e, set_MissCounters <[e.1 := e.2]>)). intros [v n] s1 Hin.
      apply elem_of_Walk in Hin. unfold init_miss_counter, must, mbind, M_bind, lift. simpl.
      by rewrite ValAddress_roundtrip by (by eapply Hm). }
  erewrite M_bind_run.
  2:{ apply (forM_map _ _ (λ e, set_Prevotes <[e.1 := e.2]>)). intros [v p] s1 Hin.
      apply elem_of_Walk in Hin. destruct (Hpv _ _ Hin) as [? Hv].
      unfold init_prevote, must, mbind, M_bind, lift. simpl. by rewrite Hv, ValAddress_roundtrip. }
  erewrite M_bind_run.
  2:{ apply (forM_map _ _ (λ e, set_Votes <[e.1 := e.2]>)). intros [v p] s1 Hin.
      apply elem_of_Walk in Hin. destruct (Hvt _ _ Hin) as [? Hv].
      unfold init_vote, must, mbind, M_bind, lift. simpl. by rewrite Hv, ValAddress_roundtrip. }
  erewrite M_bind_run by
    (apply (forM_map _ _ (λ e s, set_LastHistoricPriceBlock <[e.1.1 := e.1.2]>
                                   (set_HistoricPrices <[e.1 := e.2]> s)));
     intros [[d b] r] s1 _; reflexivity).
  erewrite M_bind_run by
    (apply (forM_map _ _ (λ e, set_MedianPrices <[e.1 := e.2]>)); intros [[d b] r] s1 _; reflexivity).
  erewrite M_bind_run by
    (apply (forM_map _ _ (λ e, set_MedianDeviations <[e.1 := e.2]>)); intros [[d b] r] s1 _; reflexivity).
  erewrite M_bind_run by (by apply SetParams_valid).
  rewrite fold_feeders, fold_rates, fold_misses, fold_prevotes, fold_votes, fold_prices,
    fold_medians, fold_deviations.
  unfold GetOracleAccount, on_world, mbind, M_bind.
  destruct s0 as [????????????????]. cbn -[last_blocks union].
  unfold imported, last_blocks. by destruct (GetModuleAccount _ _) as [[[a|]| |] w].
Qed.
End roundtrip.
