(* ===== verification/Abci.v ===== *)
(** * Abci: block proposals and vote extensions

    [src/x/oracle/abci/proposal.go], [voteextension.go] and [util.go].  The
    codec of commits, CometBFT's validation of vote extensions, the comparison of
    coin lists and the price feeder are code of other modules: the classes below.  A handler returns Go's pair of a response and an error. *)
From S2P Require Import Prelude Util GoStrings Dec Types Params Store Bech32 Votes World State.
From S2P Require Import Subspace Wire WireLemmas OracleProto.
Local Open Scope Z_scope.

(** CometBFT's [ExtendedVoteInfo] and [ExtendedCommitInfo]. *)
Record ExtendedVoteInfo := mkVoteInfo {
  BlockIdFlag : Z;
  Validator_Address : bytes;
  Validator_Power : Z;
  VoteExtension : bytes;
  ExtensionSignature : bytes;
}.
Record ExtendedCommitInfo := mkCommitInfo { ci_Round : Z; ci_Votes : list ExtendedVoteInfo }.
Definition BlockIDFlagCommit : Z := 2.

#[export] Instance VoteInfo_eq_dec : EqDecision ExtendedVoteInfo.
Proof. solve_decision. Defined.
#[export] Instance Commit_eq_dec : EqDecision ExtendedCommitInfo.
Proof. solve_decision. Defined.

(** ** What the handlers call *)

(** The codec of CometBFT's commits. *)
Class CommitCodec := {
  Commit_Marshal : ExtendedCommitInfo → outcome bytes;
  Commit_Unmarshal : bytes → outcome ExtendedCommitInfo;
}.

Class CommitCodecLaws (C : CommitCodec) : Prop :=
  Commit_roundtrip x bz : Commit_Marshal x = Ok bz → Commit_Unmarshal bz = Ok x.

(** The operator address of a consensus address, and CometBFT's check of the
    extensions' signatures and voting power at a height. *)
Class ConsensusKeeper (W : Type) := {
  ConsAddress_Unmarshal : bytes → outcome addr;
  GetValidatorByConsAddr : W → addr → outcome string;
  ValidateVoteExtensions : W → Z → ExtendedCommitInfo → outcome ();
}.

(** [sdk.DecCoins.Equal], which may panic. *)
Class CoinsEqual := DecCoins_Equal : list DecCoin → list DecCoin → outcome bool.
Class CoinsEqualLaws (C : CoinsEqual) : Prop := DecCoins_Equal_refl l : DecCoins_Equal l l = Ok true.

(** [oracle.GenerateExchangeRatesString(Oracle.GetPrices())]. *)
Class PriceStrings (W : Type) := ExchangeRatesString : W → outcome string.

Record response (A : Type) := mkResp { resp : option A; err : option error }.
Arguments mkResp {A}.
Arguments resp {A}.
Arguments err {A}.

Inductive ProposalStatus : Type := ACCEPT | REJECT.

#[export] Instance ProposalStatus_eq_dec : EqDecision ProposalStatus.
Proof. solve_decision. Defined.

(** ** [util.go] *)

(** [cp.Abci], [None] for nil, holds the height that enables extensions. *)
Definition VoteExtensionsEnabled (cp_Abci : option Z) (BlockHeight : Z) : bool :=
  match cp_Abci with
  | None => false
  | Some VoteExtensionsEnableHeight =>
      if VoteExtensionsEnableHeight =? 0 then false else
      if BlockHeight <=? 1 then false else
      VoteExtensionsEnableHeight <? BlockHeight
  end.

(** ** [proposal.go] *)

(** The order of [sort.Slice]: [¬ (b.Voter < a.Voter)].  Two votes of one voter
    come in some order that only depends on the votes. *)
Definition voter_le (a b : AggregateExchangeRateVote) : Prop := String.le (vt_Voter a) (vt_Voter b).

#[export] Instance voter_le_dec : RelDecision voter_le.
Proof. intros a b. unfold voter_le. apply _. Defined.
#[export] Instance voter_le_total : Total voter_le.
Proof. intros a b. apply (total String.le). Qed.
#[export] Instance voter_le_trans : Transitive voter_le.
Proof. intros a b c. unfold voter_le. apply transitivity. Qed.

Section proposal.
Context {W : Type} `{Bech32, ProtoMessage DecCoin, CommitCodec, ConsensusKeeper W, CoinsEqual}.

(** The loop body past the check of the flag. *)
Definition generate_vote (w : W) (vote : ExtendedVoteInfo) : outcome AggregateExchangeRateVote :=
  voteExt ← pb_Unmarshal (pb_empty : OracleVoteExtension) (VoteExtension vote);
  valConsAddr ← ConsAddress_Unmarshal (Validator_Address vote);
  operator ← GetValidatorByConsAddr w valConsAddr;
  valAddr ← ValAddressFromBech32 operator;
  Ok (NewAggregateExchangeRateVote (ve_ExchangeRates voteExt) valAddr).

Definition generate_step (w : W) (votes : list AggregateExchangeRateVote) (vote : ExtendedVoteInfo) :
    outcome (list AggregateExchangeRateVote) :=
  if negb (BlockIdFlag vote =? BlockIDFlagCommit) then Ok votes else
  exchangeRateVote ← generate_vote w vote;
  Ok (votes ++ [exchangeRateVote]).

Definition generateExchangeRateVotes (w : W) (ci : ExtendedCommitInfo) :
    outcome (list AggregateExchangeRateVote) :=
  votes ← foldM (generate_step w) (ci_Votes ci) [];
  Ok (merge_sort voter_le votes).

Fixpoint verify_loop (injectedVotes generatedVotes : list AggregateExchangeRateVote) : outcome () :=
  match injectedVotes with
  | [] => Ok ()
  | injectedVote :: injectedVotes' =>
      match generatedVotes with
      | [] => Panic
      | generatedVote :: generatedVotes' =>
          if negb (String.eqb (vt_Voter injectedVote) (vt_Voter generatedVote))
          then Err ErrNonEqualInjVotesRates else
          equal ← DecCoins_Equal (vt_ExchangeRates injectedVote) (vt_ExchangeRates generatedVote);
          if negb equal then Err ErrNonEqualInjVotesRates
          else verify_loop injectedVotes' generatedVotes'
      end
  end.

Definition verifyExchangeRateVotes (injectedVotes generatedVotes : list AggregateExchangeRateVote) :
    outcome () :=
  if negb (length injectedVotes =? length generatedVotes)%nat then Err ErrNonEqualInjVotesLen
  else verify_loop injectedVotes generatedVotes.

Fixpoint extractInjectedVoteExtensionTx (txs : list bytes) : outcome InjectedVoteExtensionTx :=
  match txs with
  | [] => Err (Errorf "failed to decode injected vote extension tx")
  | tx :: txs' =>
      match pb_Unmarshal (pb_empty : InjectedVoteExtensionTx) tx with
      | Ok injected => Ok injected
      | Err _ => extractInjectedVoteExtensionTx txs'
      | Panic => Panic
      end
  end.

(** [handleVoteExtensions] returns [rejectProposal()] with each error. *)
Definition handleVoteExtensions (w : W) (Height : Z) (txs : list bytes) : outcome () :=
  if (length txs <? 1)%nat then Err ErrNoCommitInfo else
  injectedTx ← extractInjectedVoteExtensionTx txs;
  extendedCommitInfo ← Commit_Unmarshal (ij_ExtendedCommitInfo injectedTx);
  ValidateVoteExtensions w Height extendedCommitInfo;;
  expectedVotes ← generateExchangeRateVotes w extendedCommitInfo;
  verifyExchangeRateVotes (ij_ExchangeRateVotes injectedTx) expectedVotes.

(** [enabled] is [VoteExtensionsEnabled(ctx)]; a nil request or a nil list of
    transactions is [None]. *)
Definition ProcessProposalHandler (enabled : bool) (w : W)
    (req : option (Z * option (list bytes))) : outcome (response ProposalStatus) :=
  match req with
  | None => Ok (mkResp None (Some (Errorf "process proposal received a nil request")))
  | Some (_, None) =>
      Ok (mkResp (Some REJECT) (Some (Errorf "process proposal received a request with nil Txs")))
  | Some (Height, Some txs) =>
      if enabled then
        match handleVoteExtensions w Height txs with
        | Ok _ => Ok (mkResp (Some ACCEPT) None)
        | Err e => Ok (mkResp (Some REJECT) (Some e))
        | Panic => Panic
        end
      else Ok (mkResp (Some ACCEPT) None)
  end.

(** The transaction injected in front of the others. *)
Definition inject (w : W) (LocalLastCommit : ExtendedCommitInfo) : outcome bytes :=
  exchangeRateVotes ← generateExchangeRateVotes w LocalLastCommit;
  extendedCommitInfoBz ← Commit_Marshal LocalLastCommit;
  match pb_Marshal (mkInjected exchangeRateVotes extendedCommitInfoBz) with
  | Ok bz => Ok bz
  | Err _ => Err ErrEncodeInjVoteExt
  | Panic => Panic
  end.

Definition PrepareProposalHandler (enabled : bool) (w : W)
    (req : option (Z * ExtendedCommitInfo * option (list bytes))) :
    outcome (response (list bytes)) :=
  match req with
  | None => Ok (mkResp None (Some (Errorf "prepare proposal received a nil request")))
  | Some (Height, LocalLastCommit, Txs) =>
      match ValidateVoteExtensions w Height LocalLastCommit with
      | Panic => Panic
      | Err e => Ok (mkResp (Some []) (Some e))
      | Ok _ =>
          match Txs with
          | None => Ok (mkResp (Some [])
                          (Some (Errorf "prepare proposal received a request with nil Txs")))
          | Some proposalTxs =>
              if enabled then
                match inject w LocalLastCommit with
                | Ok bz => Ok (mkResp (Some (bz :: proposalTxs)) None)
                | Err e => Ok (mkResp (Some []) (Some e))
                | Panic => Panic
                end
              else Ok (mkResp (Some proposalTxs) None)
          end
      end
  end.
End proposal.

(** ** [voteextension.go] *)

Section extension.
Context {W : Type} `{DecOps, CoinOps, ProtoMessage DecCoin, PriceOracle W, PriceStrings W}.

(** The handler below its [recover]; a nil price feeder pointer is a panic. *)
Definition ExtendVote (k : KeeperConf) (s : State W) (req : option Z) : outcome (response bytes) :=
  match req with
  | None => Ok (mkResp None (Some (Errorf "extend vote handler received a nil request")))
  | Some Height =>
      match PriceFeeder_ptr k with
      | None => Panic
      | Some _ =>
          if negb (Oracle_started (world s)) then
            Ok (mkResp (Some []) (Some (Errorf "price feeder oracle not set"))) else
          exchangeRatesStr ← ExchangeRatesString (world s);
          match ParseExchangeRateDecCoins exchangeRatesStr with
          | Panic => Panic
          | Err _ => Ok (mkResp (Some []) (Some ErrInvalidExchangeRate))
          | Ok exchangeRates =>
              acceptList ← (AcceptList s).1;
              let filteredDecCoins :=
                filter (λ c, DenomList_Contains acceptList (dc_Denom c) = true) exchangeRates in
              match pb_Marshal (mkVoteExt Height filteredDecCoins) with
              | Panic => Panic
              | Err e => Ok (mkResp (Some []) (Some e))
              | Ok bz => Ok (mkResp (Some bz) None)
              end
          end
      end
  end.

Definition recovered : error := Errorf "recovered application panic in ExtendVote: %v".

Definition ExtendVoteHandler (k : KeeperConf) (s : State W) (req : option Z) : response bytes :=
  match ExtendVote k s req with
  | Ok r => r
  | Err e => mkResp None (Some e)
  | Panic => mkResp (Some []) (Some recovered)
  end.

Definition VerifyVoteExtensionHandler (req : option (Z * bytes)) : outcome (response ProposalStatus) :=
  match req with
  | None => Ok (mkResp None (Some (Errorf "verify vote extension handler received a nil request")))
  | Some (Height, VoteExtension) =>
      if (length VoteExtension =? 0)%nat then Ok (mkResp (Some ACCEPT) None) else
      match pb_Unmarshal (pb_empty : OracleVoteExtension) VoteExtension with
      | Panic => Panic
      | Err e => Ok (mkResp (Some REJECT) (Some e))
      | Ok voteExt =>
          if negb (ve_Height voteExt =? Height) then
            Ok (mkResp (Some REJECT) (Some (Errorf "verify vote extension handler received vote extension height that doesn'tmatch request height")))
          else Ok (mkResp (Some ACCEPT) None)
      end
  end.
End extension.

(** ** Lemmas *)

Section facts.
Context {W : Type} `{Bech32} `{ProtoLaws DecCoin} `{CommitCodecLaws} `{ConsensusKeeper W} `{CoinsEqualLaws}.
Implicit Types w : W.

Definition committed (vote : ExtendedVoteInfo) : Prop := BlockIdFlag vote = BlockIDFlagCommit.

Lemma generate_loop w ci votes l :
  foldM (generate_step w) ci votes = Ok l ↔
  ∃ l', l = votes ++ l' ∧
    Forall2 (λ vi v, generate_vote w vi = Ok v) (filter committed ci) l'.
Proof.
  revert votes. induction ci as [|vi ci IH]; intros votes; cbn [foldM].
  - split; [intros [= ->]; exists []; by rewrite app_nil_r|].
    intros (l' & -> & ->%Forall2_nil_inv_l). by rewrite app_nil_r.
  - assert (generate_step w votes vi =
      if negb (BlockIdFlag vi =? BlockIDFlagCommit) then Ok votes
      else v ← generate_vote w vi; Ok (votes ++ [v])) as -> by done. rewrite filter_cons. unfold committed at 1.
    destruct (Z.eqb_spec (BlockIdFlag vi) BlockIDFlagCommit) as [He|He].
    + rewrite decide_True by done. cbn [negb].
      destruct (generate_vote w vi) as [v|e|] eqn:Hg; cbn [mbind outcome_bind].
      * rewrite IH. split.
        { intros (l' & -> & Hl). exists (v :: l'). rewrite <-app_assoc. split; [done|by constructor]. }
        { intros (l' & -> & Hl). apply Forall2_cons_inv_l in Hl as (v' & l2 & Hv & Hl & ->).
          rewrite Hg in Hv. injection Hv as <-. exists l2. by rewrite <-app_assoc. }
      * split; [done|]. intros (l' & _ & Hl). apply Forall2_cons_inv_l in Hl as (? & ? & Hv & _).
        by rewrite Hg in Hv.
      * split; [done|]. intros (l' & _ & Hl). apply Forall2_cons_inv_l in Hl as (? & ? & Hv & _).
        by rewrite Hg in Hv.
    + rewrite decide_False by done. cbn [negb mbind outcome_bind]. apply IH.
Qed.

(** The votes of a commit: one for each committed extension, in voter order. *)
Lemma generate_spec w ci votes :
  generateExchangeRateVotes w ci = Ok votes →
  StronglySorted voter_le votes ∧
  ∃ l, votes ≡ₚ l ∧ Forall2 (λ vi v, generate_vote w vi = Ok v) (filter committed (ci_Votes ci)) l.
Proof.
  unfold generateExchangeRateVotes. intros (l & Hl & [= <-])%bind_Ok.
  split; [apply StronglySorted_merge_sort; apply _|].
  exists l. split; [apply merge_sort_Permutation|].
  apply generate_loop in Hl as (l' & -> & ?). done.
Qed.

Definition same_vote (a b : AggregateExchangeRateVote) : Prop :=
  vt_Voter a = vt_Voter b ∧ DecCoins_Equal (vt_ExchangeRates a) (vt_ExchangeRates b) = Ok true.

Lemma verify_loop_Ok a b :
  length a = length b → verify_loop a b = Ok () ↔ Forall2 same_vote a b.
Proof.
  revert b. induction a as [|x a IH]; intros [|y b] Hlen; simpl; try done.
  unfold same_vote at 1. destruct (String.eqb_spec (vt_Voter x) (vt_Voter y)) as [Hv|Hv]; simpl.
  - rewrite Forall2_cons. destruct (DecCoins_Equal _ _) as [[]| |] eqn:Hc; simpl;
      [rewrite IH by (simpl in Hlen; lia); naive_solver|..];
      (split; [done|]; intros [[_ ?] _]; congruence).
  - rewrite Forall2_cons. split; [done|]. by intros [[? _] _].
Qed.

(** Votes are accepted exactly when they agree one by one. *)
Lemma verify_Ok a b : verifyExchangeRateVotes a b = Ok () ↔ Forall2 same_vote a b.
Proof.
  unfold verifyExchangeRateVotes. destruct (Nat.eqb_spec (length a) (length b)) as [Hl|Hl]; simpl.
  - by apply verify_loop_Ok.
  - split; [done|]. intros ?%Forall2_length. done.
Qed.

Lemma verify_refl a : verifyExchangeRateVotes a a = Ok ().
Proof.
  apply verify_Ok. induction a; constructor; [|done]. split; [done|]. apply DecCoins_Equal_refl.
Qed.

(** What an accepted block with extensions carries. *)
Lemma handle_Ok w h txs :
  handleVoteExtensions w h txs = Ok () ↔
  ∃ injected ci votes,
    extractInjectedVoteExtensionTx txs = Ok injected ∧
    Commit_Unmarshal (ij_ExtendedCommitInfo injected) = Ok ci ∧
    ValidateVoteExtensions w h ci = Ok () ∧
    generateExchangeRateVotes w ci = Ok votes ∧
    Forall2 same_vote (ij_ExchangeRateVotes injected) votes.
Proof.
  unfold handleVoteExtensions. destruct txs as [|tx txs].
  { cbn. split; [done|]. by intros (? & ? & ? & ? & _). }
  replace (length (tx :: txs) <? 1)%nat with false by done. split.
  - intros (inj & Hinj & Hrun)%bind_Ok. apply bind_Ok in Hrun as (ci & Hci & Hrun).
    apply bind_Ok in Hrun as ([] & Hv & Hrun). apply bind_Ok in Hrun as (votes & Hg & Hrun).
    apply verify_Ok in Hrun. by exists inj, ci, votes.
  - intros (inj & ci & votes & -> & Hci & Hv & Hg & Hf). cbn [mbind outcome_bind].
    rewrite Hci. cbn [mbind outcome_bind]. rewrite Hv. cbn [mbind outcome_bind].
    rewrite Hg. by apply verify_Ok.
Qed.

(** The rates of the committed extensions can be encoded again: their amounts
    are not nil. *)
Definition rates_encodable (ci : ExtendedCommitInfo) : Prop :=
  Forall (λ vi, ∀ ext, pb_Unmarshal (pb_empty : OracleVoteExtension) (VoteExtension vi) = Ok ext →
    Forall pb_ok (ve_ExchangeRates ext)) (filter committed (ci_Votes ci)).

Lemma generate_ok w ci votes :
  rates_encodable ci → generateExchangeRateVotes w ci = Ok votes → Forall pb_ok votes.
Proof.
  intros Hr Hg. apply generate_spec in Hg as (_ & l & Hp & Hl). rewrite Hp. clear Hp votes.
  unfold rates_encodable in Hr. induction Hl as [|vi v vis l Hv Hl IH]; [done|].
  apply Forall_cons in Hr as [Hvi Hr]. constructor; [|by apply IH].
  unfold generate_vote in Hv. apply bind_Ok in Hv as (ext & Hext & Hv).
  apply bind_Ok in Hv as (? & _ & Hv). apply bind_Ok in Hv as (? & _ & Hv).
  apply bind_Ok in Hv as (? & _ & [= <-]). by apply Hvi.
Qed.

(** The block a proposer prepares is accepted by validators in its state. *)
Lemma inject_accepted w h ci bz txs :
  rates_encodable ci → ValidateVoteExtensions w h ci = Ok () → inject w ci = Ok bz →
  handleVoteExtensions w h (bz :: txs) = Ok ().
Proof.
  intros Hr Hv (votes & Hg & Hi)%bind_Ok. apply bind_Ok in Hi as (cbz & Hc & Hi).
  destruct (pb_Marshal _) as [b| |] eqn:Hm; [|done..]. injection Hi as ->.
  apply pb_Marshal_Unmarshal in Hm; [|by eapply generate_ok]. apply handle_Ok.
  exists (mkInjected votes cbz), ci, votes. cbn [extractInjectedVoteExtensionTx]. rewrite Hm.
  split_and!; [done|by apply Commit_roundtrip|done|done|]. apply verify_Ok, verify_refl.
Qed.
End facts.

Section extension_facts.
Context {W : Type} `{DecOps} `{CoinLaws} `{ProtoLaws DecCoin} `{PriceOracle W, PriceStrings W}.
Implicit Types s : State W.

(** A vote extension that is sent: the feeder's rates restricted to the accept
    list, at the height asked for. *)
Lemma ExtendVote_Ok k s h bz :
  ExtendVoteHandler k s (Some h) = mkResp (Some bz) None →
  ∃ str coins,
    ExchangeRatesString (world s) = Ok str ∧ ParseExchangeRateDecCoins str = Ok coins ∧
    pb_Marshal (mkVoteExt h (filter
      (λ c, DenomList_Contains (Types.AcceptList (paramSpace s)) (dc_Denom c) = true) coins)) = Ok bz.
Proof.
  unfold ExtendVoteHandler, ExtendVote. destruct (PriceFeeder_ptr k); [|done].
  destruct (Oracle_started _); simpl; [|done].
  destruct (ExchangeRatesString _) as [str| |]; simpl; [|done..].
  destruct (ParseExchangeRateDecCoins str) as [coins| |] eqn:Hp; simpl; [|done..].
  destruct (pb_Marshal _) as [b| |] eqn:Hm; simpl; [|done..].
  intros [= ->]. by exists str, coins.
Qed.

(** The rates of the feeder's string can be encoded. *)
Context `{DecCodecLaws} `{!CoinWire, !ParsedWire}.

Lemma parsed_encodable coins : parsed_coins coins → Forall pb_ok coins.
Proof.
  intros [Hpos _ _ Hpar _]. rewrite Forall_forall in *. intros c Hc. apply coin_wire.
  destruct (Hpar c Hc) as [t Ht]. by apply (parsed_wire t); [|apply Hpos].
Qed.

Lemma Extend_Unmarshal k s h bz :
  is_i64 h → ExtendVoteHandler k s (Some h) = mkResp (Some bz) None →
  ∃ str coins, ExchangeRatesString (world s) = Ok str ∧ ParseExchangeRateDecCoins str = Ok coins ∧
    parsed_coins coins ∧ pb_Unmarshal pb_empty bz = Ok (mkVoteExt h (filter
      (λ c, DenomList_Contains (Types.AcceptList (paramSpace s)) (dc_Denom c) = true) coins)).
Proof.
  intros Hh (str & coins & Hs & Hp & Hm)%ExtendVote_Ok. exists str, coins.
  split; [done|]. split; [done|]. apply Parse_parsed in Hp as [Hp _].
  split; [done|]. apply pb_Marshal_Unmarshal in Hm; [done|].
  split; [done|]. apply Forall_filter_2. by apply parsed_encodable.
Qed.

Lemma Extend_Verify k s h bz :
  is_i64 h → ExtendVoteHandler k s (Some h) = mkResp (Some bz) None →
  VerifyVoteExtensionHandler (Some (h, bz)) = Ok (mkResp (Some ACCEPT) None).
Proof.
  intros Hh (str & coins & _ & _ & _ & Hm)%Extend_Unmarshal; [|done]. unfold VerifyVoteExtensionHandler.
  destruct (length bz =? 0)%nat; [done|]. rewrite Hm. simpl. by rewrite Z.eqb_refl.
Qed.
End extension_facts.
