(* ===== verification/GenesisProto.v ===== *)
(** * GenesisProto: the wire format of the genesis document

    [src/x/oracle/types/genesis.pb.go]. *)
From S2P Require Import Prelude Util Dec Types Wire WireLemmas OracleProto Genesis.
Local Open Scope Z_scope.

Section messages.
Context `{DecCodec} `{ProtoMessage DecCoin} `{CoinNil}.

(** [FeederDelegation] *)

Definition FeederDelegation_MarshalToSizedBuffer (m : FeederDelegation) : W :=
  put_string [0x12] (fd_ValidatorAddress m) ;; put_string [0xa] (fd_FeederAddress m).
Definition FeederDelegation_Size (m : FeederDelegation) : Z :=
  size_string 1 (fd_FeederAddress m) + size_string 1 (fd_ValidatorAddress m).
Definition FeederDelegation_field (n : Z) : option (field_reader FeederDelegation) :=
  if n =? 1 then
    Some (string_field "FeederAddress" (λ m v, mkFeederDelegation v (fd_ValidatorAddress m))) else
  if n =? 2 then
    Some (string_field "ValidatorAddress" (λ m v, mkFeederDelegation (fd_FeederAddress m) v)) else
  None.
#[export] Instance FeederDelegation_message : ProtoMessage FeederDelegation :=
  message "FeederDelegation" (mkFeederDelegation "" "")
    FeederDelegation_Size FeederDelegation_MarshalToSizedBuffer FeederDelegation_field.

(** [MissCounter] *)

Definition MissCounter_MarshalToSizedBuffer (m : MissCounter) : W :=
  put_varint [0x10] (mc_MissCounter m) ;; put_string [0xa] (mc_ValidatorAddress m).
Definition MissCounter_Size (m : MissCounter) : Z :=
  size_string 1 (mc_ValidatorAddress m) + size_varint 1 (mc_MissCounter m).
Definition MissCounter_field (n : Z) : option (field_reader MissCounter) :=
  if n =? 1 then
    Some (string_field "ValidatorAddress" (λ m v, mkMissCounter v (mc_MissCounter m))) else
  if n =? 2 then
    Some (varint_field "MissCounter" wrap_u64
      (λ m v, mkMissCounter (mc_ValidatorAddress m) v)) else
  None.
#[export] Instance MissCounter_message : ProtoMessage MissCounter :=
  message "MissCounter" (mkMissCounter "" 0)
    MissCounter_Size MissCounter_MarshalToSizedBuffer MissCounter_field.

(** [GenesisState] *)

Definition GenesisState_MarshalToSizedBuffer (m : GenesisState) : W :=
  put_messages [0x4a] (gs_MedianDeviations m) ;; put_messages [0x42] (gs_HistoricPrices m) ;;
  put_messages [0x3a] (gs_Medians m) ;; put_messages [0x32] (gs_Votes m) ;;
  put_messages [0x2a] (gs_Prevotes m) ;; put_messages [0x22] (gs_MissCounters m) ;;
  put_messages [0x1a] (gs_ExchangeRates m) ;; put_messages [0x12] (gs_FeederDelegations m) ;;
  put_message [0xa] (gs_Params m).
Definition GenesisState_Size (m : GenesisState) : Z :=
  size_delimited 1 (pb_Size (gs_Params m)) + size_messages 1 (gs_FeederDelegations m) +
  size_messages 1 (gs_ExchangeRates m) + size_messages 1 (gs_MissCounters m) +
  size_messages 1 (gs_Prevotes m) + size_messages 1 (gs_Votes m) +
  size_messages 1 (gs_Medians m) + size_messages 1 (gs_HistoricPrices m) +
  size_messages 1 (gs_MedianDeviations m).
Definition GenesisState_field (n : Z) : option (field_reader GenesisState) :=
  if n =? 1 then
    Some (message_field "Params" gs_Params
      (λ m v, mkGenesis v (gs_ExchangeRates m) (gs_FeederDelegations m) (gs_MissCounters m)
         (gs_Prevotes m) (gs_Votes m) (gs_HistoricPrices m) (gs_Medians m) (gs_MedianDeviations
         m))) else
  if n =? 2 then
    Some (messages_field "FeederDelegations" gs_FeederDelegations
      (λ m v, mkGenesis (gs_Params m) (gs_ExchangeRates m) v (gs_MissCounters m) (gs_Prevotes m)
         (gs_Votes m) (gs_HistoricPrices m) (gs_Medians m) (gs_MedianDeviations m))) else
  if n =? 3 then
    Some (messages_field "ExchangeRates" gs_ExchangeRates
      (λ m v, mkGenesis (gs_Params m) v (gs_FeederDelegations m) (gs_MissCounters m) (gs_Prevotes
         m) (gs_Votes m) (gs_HistoricPrices m) (gs_Medians m) (gs_MedianDeviations m))) else
  if n =? 4 then
    Some (messages_field "MissCounters" gs_MissCounters
      (λ m v, mkGenesis (gs_Params m) (gs_ExchangeRates m) (gs_FeederDelegations m) v (gs_Prevotes
         m) (gs_Votes m) (gs_HistoricPrices m) (gs_Medians m) (gs_MedianDeviations m))) else
  if n =? 5 then
    Some (messages_field "AggregateExchangeRatePrevotes" gs_Prevotes
      (λ m v, mkGenesis (gs_Params m) (gs_ExchangeRates m) (gs_FeederDelegations m)
         (gs_MissCounters m) v (gs_Votes m) (gs_HistoricPrices m) (gs_Medians m)
         (gs_MedianDeviations m))) else
  if n =? 6 then
    Some (messages_field "AggregateExchangeRateVotes" gs_Votes
      (λ m v, mkGenesis (gs_Params m) (gs_ExchangeRates m) (gs_FeederDelegations m)
         (gs_MissCounters m) (gs_Prevotes m) v (gs_HistoricPrices m) (gs_Medians m)
         (gs_MedianDeviations m))) else
  if n =? 7 then
    Some (messages_field "Medians" gs_Medians
      (λ m v, mkGenesis (gs_Params m) (gs_ExchangeRates m) (gs_FeederDelegations m)
         (gs_MissCounters m) (gs_Prevotes m) (gs_Votes m) (gs_HistoricPrices m) v
         (gs_MedianDeviations m))) else
  if n =? 8 then
    Some (messages_field "HistoricPrices" gs_HistoricPrices
      (λ m v, mkGenesis (gs_Params m) (gs_ExchangeRates m) (gs_FeederDelegations m)
         (gs_MissCounters m) (gs_Prevotes m) (gs_Votes m) v (gs_Medians m) (gs_MedianDeviations
         m))) else
  if n =? 9 then
    Some (messages_field "MedianDeviations" gs_MedianDeviations
      (λ m v, mkGenesis (gs_Params m) (gs_ExchangeRates m) (gs_FeederDelegations m)
         (gs_MissCounters m) (gs_Prevotes m) (gs_Votes m) (gs_HistoricPrices m) (gs_Medians m) v))
         else
  None.
#[export] Instance GenesisState_message : ProtoMessage GenesisState :=
  message "GenesisState" (mkGenesis pb_empty [] [] [] [] [] [] [] [])
    GenesisState_Size GenesisState_MarshalToSizedBuffer GenesisState_field.
End messages.

(** ** Reference encodings *)

Section laws.
Context `{DecCodecLaws} `{ProtoLaws DecCoin} `{CoinNil}.

Definition FeederDelegation_encode (m : FeederDelegation) : bytes :=
  enc_string [0xa] (fd_FeederAddress m) ++ enc_string [0x12] (fd_ValidatorAddress m).
Definition FeederDelegation_ok (m : FeederDelegation) : Prop :=
  True.
#[export] Instance FeederDelegation_laws : ProtoLaws FeederDelegation.
Proof.
  solve_message FeederDelegation_encode FeederDelegation_ok FeederDelegation_Size
    FeederDelegation_MarshalToSizedBuffer.
Defined.

Definition MissCounter_encode (m : MissCounter) : bytes :=
  enc_string [0xa] (mc_ValidatorAddress m) ++ enc_varint [0x10] (mc_MissCounter m).
Definition MissCounter_ok (m : MissCounter) : Prop :=
  is_u64 (mc_MissCounter m).
#[export] Instance MissCounter_laws : ProtoLaws MissCounter.
Proof.
  solve_message MissCounter_encode MissCounter_ok MissCounter_Size
    MissCounter_MarshalToSizedBuffer.
Defined.

Definition GenesisState_encode (m : GenesisState) : bytes :=
  enc_message [0xa] (gs_Params m) ++ enc_messages [0x12] (gs_FeederDelegations m) ++
  enc_messages [0x1a] (gs_ExchangeRates m) ++ enc_messages [0x22] (gs_MissCounters m) ++
  enc_messages [0x2a] (gs_Prevotes m) ++ enc_messages [0x32] (gs_Votes m) ++
  enc_messages [0x3a] (gs_Medians m) ++ enc_messages [0x42] (gs_HistoricPrices m) ++
  enc_messages [0x4a] (gs_MedianDeviations m).
Definition GenesisState_ok (m : GenesisState) : Prop :=
  pb_ok (gs_Params m) ∧ Forall pb_ok (gs_FeederDelegations m) ∧
  Forall pb_ok (gs_ExchangeRates m) ∧ Forall pb_ok (gs_MissCounters m) ∧
  Forall pb_ok (gs_Prevotes m) ∧ Forall pb_ok (gs_Votes m) ∧ Forall pb_ok (gs_Medians m) ∧
  Forall pb_ok (gs_HistoricPrices m) ∧ Forall pb_ok (gs_MedianDeviations m).
#[export] Instance GenesisState_laws : ProtoLaws GenesisState.
Proof.
  solve_message GenesisState_encode GenesisState_ok GenesisState_Size
    GenesisState_MarshalToSizedBuffer.
Defined.
End laws.
