(* ===== verification/TxProto.v ===== *)
(** * TxProto: the wire format of the messages of transactions

    [src/x/oracle/types/tx.pb.go].  The responses have no
    fields. *)
From S2P Require Import Prelude Util Dec Types Wire WireLemmas OracleProto Bech32 Votes Params Msgs.
Local Open Scope Z_scope.

Record MsgAggregateExchangeRatePrevoteResponse := mkMsgAggregateExchangeRatePrevoteResponse {}.
Record MsgAggregateExchangeRateVoteResponse := mkMsgAggregateExchangeRateVoteResponse {}.
Record MsgDelegateFeedConsentResponse := mkMsgDelegateFeedConsentResponse {}.
Record MsgLegacyGovUpdateParamsResponse := mkMsgLegacyGovUpdateParamsResponse {}.
Record MsgGovUpdateParamsResponse := mkMsgGovUpdateParamsResponse {}.
Record MsgGovAddDenomsResponse := mkMsgGovAddDenomsResponse {}.
Record MsgGovRemoveCurrencyPairProvidersResponse := mkMsgGovRemoveCurrencyPairProvidersResponse {}.
Record MsgGovRemoveCurrencyDeviationThresholdsResponse :=
  mkMsgGovRemoveCurrencyDeviationThresholdsResponse {}.
Record MsgGovCancelUpdateParamPlanResponse := mkMsgGovCancelUpdateParamPlanResponse {}.

Section messages.
Context `{DecCodec} `{ProtoMessage DecCoin} `{CoinNil}.

(** [MsgAggregateExchangeRatePrevote] *)

Definition MsgAggregateExchangeRatePrevote_MarshalToSizedBuffer (m : MsgAggregateExchangeRatePrevote) :
    W :=
  put_string [0x1a] (mp_Validator m) ;; put_string [0x12] (mp_Feeder m) ;;
  put_string [0xa] (mp_Hash m).
Definition MsgAggregateExchangeRatePrevote_Size (m : MsgAggregateExchangeRatePrevote) : Z :=
  size_string 1 (mp_Hash m) + size_string 1 (mp_Feeder m) + size_string 1 (mp_Validator m).
Definition MsgAggregateExchangeRatePrevote_field (n : Z) :
    option (field_reader MsgAggregateExchangeRatePrevote) :=
  if n =? 1 then
    Some (string_field "Hash" (λ m v, mkMsgPrevote v (mp_Feeder m) (mp_Validator m))) else
  if n =? 2 then
    Some (string_field "Feeder" (λ m v, mkMsgPrevote (mp_Hash m) v (mp_Validator m))) else
  if n =? 3 then
    Some (string_field "Validator" (λ m v, mkMsgPrevote (mp_Hash m) (mp_Feeder m) v)) else
  None.
#[export] Instance MsgAggregateExchangeRatePrevote_message :
    ProtoMessage MsgAggregateExchangeRatePrevote :=
  message "MsgAggregateExchangeRatePrevote" (mkMsgPrevote "" "" "")
    MsgAggregateExchangeRatePrevote_Size
    MsgAggregateExchangeRatePrevote_MarshalToSizedBuffer
    MsgAggregateExchangeRatePrevote_field.

(** [MsgAggregateExchangeRateVote] *)

Definition MsgAggregateExchangeRateVote_MarshalToSizedBuffer (m : MsgAggregateExchangeRateVote) :
    W :=
  put_string [0x22] (mv_Validator m) ;; put_string [0x1a] (mv_Feeder m) ;;
  put_string [0x12] (mv_ExchangeRates m) ;; put_string [0xa] (mv_Salt m).
Definition MsgAggregateExchangeRateVote_Size (m : MsgAggregateExchangeRateVote) : Z :=
  size_string 1 (mv_Salt m) + size_string 1 (mv_ExchangeRates m) + size_string 1 (mv_Feeder m) +
  size_string 1 (mv_Validator m).
Definition MsgAggregateExchangeRateVote_field (n : Z) :
    option (field_reader MsgAggregateExchangeRateVote) :=
  if n =? 1 then
    Some (string_field "Salt"
      (λ m v, mkMsgVote v (mv_ExchangeRates m) (mv_Feeder m) (mv_Validator m))) else
  if n =? 2 then
    Some (string_field "ExchangeRates"
      (λ m v, mkMsgVote (mv_Salt m) v (mv_Feeder m) (mv_Validator m))) else
  if n =? 3 then
    Some (string_field "Feeder"
      (λ m v, mkMsgVote (mv_Salt m) (mv_ExchangeRates m) v (mv_Validator m))) else
  if n =? 4 then
    Some (string_field "Validator"
      (λ m v, mkMsgVote (mv_Salt m) (mv_ExchangeRates m) (mv_Feeder m) v)) else
  None.
#[export] Instance MsgAggregateExchangeRateVote_message :
    ProtoMessage MsgAggregateExchangeRateVote :=
  message "MsgAggregateExchangeRateVote" (mkMsgVote "" "" "" "")
    MsgAggregateExchangeRateVote_Size
    MsgAggregateExchangeRateVote_MarshalToSizedBuffer
    MsgAggregateExchangeRateVote_field.

(** [MsgDelegateFeedConsent] *)

Definition MsgDelegateFeedConsent_MarshalToSizedBuffer (m : MsgDelegateFeedConsent) : W :=
  put_string [0x12] (md_Delegate m) ;; put_string [0xa] (md_Operator m).
Definition MsgDelegateFeedConsent_Size (m : MsgDelegateFeedConsent) : Z :=
  size_string 1 (md_Operator m) + size_string 1 (md_Delegate m).
Definition MsgDelegateFeedConsent_field (n : Z) : option (field_reader MsgDelegateFeedConsent) :=
  if n =? 1 then Some (string_field "Operator" (λ m v, mkMsgDelegate v (md_Delegate m))) else
  if n =? 2 then Some (string_field "Delegate" (λ m v, mkMsgDelegate (md_Operator m) v)) else
  None.
#[export] Instance MsgDelegateFeedConsent_message : ProtoMessage MsgDelegateFeedConsent :=
  message "MsgDelegateFeedConsent" (mkMsgDelegate "" "")
    MsgDelegateFeedConsent_Size
    MsgDelegateFeedConsent_MarshalToSizedBuffer
    MsgDelegateFeedConsent_field.

(** [MsgLegacyGovUpdateParams] *)

Definition MsgLegacyGovUpdateParams_MarshalToSizedBuffer (m : MsgLegacyGovUpdateParams) : W :=
  put_message [0x2a] (ml_Changes m) ;; put_strings [0x22] (ml_Keys m) ;;
  put_string [0x1a] (ml_Description m) ;; put_string [0x12] (ml_Title m) ;;
  put_string [0xa] (ml_Authority m).
Definition MsgLegacyGovUpdateParams_Size (m : MsgLegacyGovUpdateParams) : Z :=
  size_string 1 (ml_Authority m) + size_string 1 (ml_Title m) +
  size_string 1 (ml_Description m) + size_strings 1 (ml_Keys m) +
  size_delimited 1 (pb_Size (ml_Changes m)).
Definition MsgLegacyGovUpdateParams_field (n : Z) :
    option (field_reader MsgLegacyGovUpdateParams) :=
  if n =? 1 then
    Some (string_field "Authority"
      (λ m v, mkMsgLegacy v (ml_Title m) (ml_Description m) (ml_Keys m) (ml_Changes m))) else
  if n =? 2 then
    Some (string_field "Title"
      (λ m v, mkMsgLegacy (ml_Authority m) v (ml_Description m) (ml_Keys m) (ml_Changes m))) else
  if n =? 3 then
    Some (string_field "Description"
      (λ m v, mkMsgLegacy (ml_Authority m) (ml_Title m) v (ml_Keys m) (ml_Changes m))) else
  if n =? 4 then
    Some (strings_field "Keys" ml_Keys
      (λ m v, mkMsgLegacy (ml_Authority m) (ml_Title m) (ml_Description m) v (ml_Changes m))) else
  if n =? 5 then
    Some (message_field "Changes" ml_Changes
      (λ m v, mkMsgLegacy (ml_Authority m) (ml_Title m) (ml_Description m) (ml_Keys m) v)) else
  None.
#[export] Instance MsgLegacyGovUpdateParams_message : ProtoMessage MsgLegacyGovUpdateParams :=
  message "MsgLegacyGovUpdateParams" (mkMsgLegacy "" "" "" [] pb_empty)
    MsgLegacyGovUpdateParams_Size
    MsgLegacyGovUpdateParams_MarshalToSizedBuffer
    MsgLegacyGovUpdateParams_field.

(** [MsgGovUpdateParams] *)

Definition MsgGovUpdateParams_MarshalToSizedBuffer (m : MsgGovUpdateParams) : W :=
  put_message [0x22] (mu_Plan m) ;; put_string [0x1a] (mu_Description m) ;;
  put_string [0x12] (mu_Title m) ;; put_string [0xa] (mu_Authority m).
Definition MsgGovUpdateParams_Size (m : MsgGovUpdateParams) : Z :=
  size_string 1 (mu_Authority m) + size_string 1 (mu_Title m) +
  size_string 1 (mu_Description m) + size_delimited 1 (pb_Size (mu_Plan m)).
Definition MsgGovUpdateParams_field (n : Z) : option (field_reader MsgGovUpdateParams) :=
  if n =? 1 then
    Some (string_field "Authority"
      (λ m v, mkMsgUpdate v (mu_Title m) (mu_Description m) (mu_Plan m))) else
  if n =? 2 then
    Some (string_field "Title"
      (λ m v, mkMsgUpdate (mu_Authority m) v (mu_Description m) (mu_Plan m))) else
  if n =? 3 then
    Some (string_field "Description"
      (λ m v, mkMsgUpdate (mu_Authority m) (mu_Title m) v (mu_Plan m))) else
  if n =? 4 then
    Some (message_field "Plan" mu_Plan
      (λ m v, mkMsgUpdate (mu_Authority m) (mu_Title m) (mu_Description m) v)) else
  None.
#[export] Instance MsgGovUpdateParams_message : ProtoMessage MsgGovUpdateParams :=
  message "MsgGovUpdateParams" (mkMsgUpdate "" "" "" pb_empty)
    MsgGovUpdateParams_Size MsgGovUpdateParams_MarshalToSizedBuffer MsgGovUpdateParams_field.

(** [MsgGovAddDenoms] *)

Definition MsgGovAddDenoms_MarshalToSizedBuffer (m : MsgGovAddDenoms) : W :=
  put_messages [0x4a] (ma_CurrencyDeviationThresholds m) ;;
  put_messages [0x42] (ma_CurrencyPairProviders m) ;; put_dec_pointer [0x3a] (ma_RewardBand m) ;;
  put_bool [0x30] (ma_Mandatory m) ;; put_messages [0x2a] (ma_DenomList m) ;;
  put_varint [0x20] (ma_Height m) ;; put_string [0x1a] (ma_Description m) ;;
  put_string [0x12] (ma_Title m) ;; put_string [0xa] (ma_Authority m).
Definition MsgGovAddDenoms_Size (m : MsgGovAddDenoms) : Z :=
  size_string 1 (ma_Authority m) + size_string 1 (ma_Title m) +
  size_string 1 (ma_Description m) + size_varint 1 (ma_Height m) +
  size_messages 1 (ma_DenomList m) + size_bool 1 (ma_Mandatory m) +
  size_dec_pointer 1 (ma_RewardBand m) + size_messages 1 (ma_CurrencyPairProviders m) +
  size_messages 1 (ma_CurrencyDeviationThresholds m).
Definition MsgGovAddDenoms_field (n : Z) : option (field_reader MsgGovAddDenoms) :=
  if n =? 1 then
    Some (string_field "Authority"
      (λ m v, mkMsgAddDenoms v (ma_Title m) (ma_Description m) (ma_Height m) (ma_DenomList m)
         (ma_Mandatory m) (ma_RewardBand m) (ma_CurrencyPairProviders m)
         (ma_CurrencyDeviationThresholds m))) else
  if n =? 2 then
    Some (string_field "Title"
      (λ m v, mkMsgAddDenoms (ma_Authority m) v (ma_Description m) (ma_Height m) (ma_DenomList m)
         (ma_Mandatory m) (ma_RewardBand m) (ma_CurrencyPairProviders m)
         (ma_CurrencyDeviationThresholds m))) else
  if n =? 3 then
    Some (string_field "Description"
      (λ m v, mkMsgAddDenoms (ma_Authority m) (ma_Title m) v (ma_Height m) (ma_DenomList m)
         (ma_Mandatory m) (ma_RewardBand m) (ma_CurrencyPairProviders m)
         (ma_CurrencyDeviationThresholds m))) else
  if n =? 4 then
    Some (varint_field "Height" wrap_i64
      (λ m v, mkMsgAddDenoms (ma_Authority m) (ma_Title m) (ma_Description m) v (ma_DenomList m)
         (ma_Mandatory m) (ma_RewardBand m) (ma_CurrencyPairProviders m)
         (ma_CurrencyDeviationThresholds m))) else
  if n =? 5 then
    Some (messages_field "DenomList" ma_DenomList
      (λ m v, mkMsgAddDenoms (ma_Authority m) (ma_Title m) (ma_Description m) (ma_Height m) v
         (ma_Mandatory m) (ma_RewardBand m) (ma_CurrencyPairProviders m)
         (ma_CurrencyDeviationThresholds m))) else
  if n =? 6 then
    Some (bool_field "Mandatory"
      (λ m v, mkMsgAddDenoms (ma_Authority m) (ma_Title m) (ma_Description m) (ma_Height m)
         (ma_DenomList m) v (ma_RewardBand m) (ma_CurrencyPairProviders m)
         (ma_CurrencyDeviationThresholds m))) else
  if n =? 7 then
    Some (dec_pointer_field "RewardBand"
      (λ m v, mkMsgAddDenoms (ma_Authority m) (ma_Title m) (ma_Description m) (ma_Height m)
         (ma_DenomList m) (ma_Mandatory m) v (ma_CurrencyPairProviders m)
         (ma_CurrencyDeviationThresholds m))) else
  if n =? 8 then
    Some (messages_field "CurrencyPairProviders" ma_CurrencyPairProviders
      (λ m v, mkMsgAddDenoms (ma_Authority m) (ma_Title m) (ma_Description m) (ma_Height m)
         (ma_DenomList m) (ma_Mandatory m) (ma_RewardBand m) v (ma_CurrencyDeviationThresholds
         m))) else
  if n =? 9 then
    Some (messages_field "CurrencyDeviationThresholds" ma_CurrencyDeviationThresholds
      (λ m v, mkMsgAddDenoms (ma_Authority m) (ma_Title m) (ma_Description m) (ma_Height m)
         (ma_DenomList m) (ma_Mandatory m) (ma_RewardBand m) (ma_CurrencyPairProviders m) v)) else
  None.
#[export] Instance MsgGovAddDenoms_message : ProtoMessage MsgGovAddDenoms :=
  message "MsgGovAddDenoms" (mkMsgAddDenoms "" "" "" 0 [] false None [] [])
    MsgGovAddDenoms_Size MsgGovAddDenoms_MarshalToSizedBuffer MsgGovAddDenoms_field.

(** [MsgGovRemoveCurrencyPairProviders] *)

Definition MsgGovRemoveCurrencyPairProviders_MarshalToSizedBuffer (m : MsgGovRemoveCurrencyPairProviders) :
    W :=
  put_messages [0x2a] (mrp_CurrencyPairProviders m) ;; put_varint [0x20] (mrp_Height m) ;;
  put_string [0x1a] (mrp_Description m) ;; put_string [0x12] (mrp_Title m) ;;
  put_string [0xa] (mrp_Authority m).
Definition MsgGovRemoveCurrencyPairProviders_Size (m : MsgGovRemoveCurrencyPairProviders) : Z :=
  size_string 1 (mrp_Authority m) + size_string 1 (mrp_Title m) +
  size_string 1 (mrp_Description m) + size_varint 1 (mrp_Height m) +
  size_messages 1 (mrp_CurrencyPairProviders m).
Definition MsgGovRemoveCurrencyPairProviders_field (n : Z) :
    option (field_reader MsgGovRemoveCurrencyPairProviders) :=
  if n =? 1 then
    Some (string_field "Authority"
      (λ m v, mkMsgRemoveProviders v (mrp_Title m) (mrp_Description m) (mrp_Height m)
         (mrp_CurrencyPairProviders m))) else
  if n =? 2 then
    Some (string_field "Title"
      (λ m v, mkMsgRemoveProviders (mrp_Authority m) v (mrp_Description m) (mrp_Height m)
         (mrp_CurrencyPairProviders m))) else
  if n =? 3 then
    Some (string_field "Description"
      (λ m v, mkMsgRemoveProviders (mrp_Authority m) (mrp_Title m) v (mrp_Height m)
         (mrp_CurrencyPairProviders m))) else
  if n =? 4 then
    Some (varint_field "Height" wrap_i64
      (λ m v, mkMsgRemoveProviders (mrp_Authority m) (mrp_Title m) (mrp_Description m) v
         (mrp_CurrencyPairProviders m))) else
  if n =? 5 then
    Some (messages_field "CurrencyPairProviders" mrp_CurrencyPairProviders
      (λ m v, mkMsgRemoveProviders (mrp_Authority m) (mrp_Title m) (mrp_Description m) (mrp_Height
         m) v)) else
  None.
#[export] Instance MsgGovRemoveCurrencyPairProviders_message :
    ProtoMessage MsgGovRemoveCurrencyPairProviders :=
  message "MsgGovRemoveCurrencyPairProviders" (mkMsgRemoveProviders "" "" "" 0 [])
    MsgGovRemoveCurrencyPairProviders_Size
    MsgGovRemoveCurrencyPairProviders_MarshalToSizedBuffer
    MsgGovRemoveCurrencyPairProviders_field.

(** [MsgGovRemoveCurrencyDeviationThresholds] *)

Definition MsgGovRemoveCurrencyDeviationThresholds_MarshalToSizedBuffer (m : MsgGovRemoveCurrencyDeviationThresholds) :
    W :=
  put_strings [0x2a] (mrt_Currencies m) ;; put_varint [0x20] (mrt_Height m) ;;
  put_string [0x1a] (mrt_Description m) ;; put_string [0x12] (mrt_Title m) ;;
  put_string [0xa] (mrt_Authority m).
Definition MsgGovRemoveCurrencyDeviationThresholds_Size (m : MsgGovRemoveCurrencyDeviationThresholds) :
    Z :=
  size_string 1 (mrt_Authority m) + size_string 1 (mrt_Title m) +
  size_string 1 (mrt_Description m) + size_varint 1 (mrt_Height m) +
  size_strings 1 (mrt_Currencies m).
Definition MsgGovRemoveCurrencyDeviationThresholds_field (n : Z) :
    option (field_reader MsgGovRemoveCurrencyDeviationThresholds) :=
  if n =? 1 then
    Some (string_field "Authority"
      (λ m v, mkMsgRemoveThresholds v (mrt_Title m) (mrt_Description m) (mrt_Height m)
         (mrt_Currencies m))) else
  if n =? 2 then
    Some (string_field "Title"
      (λ m v, mkMsgRemoveThresholds (mrt_Authority m) v (mrt_Description m) (mrt_Height m)
         (mrt_Currencies m))) else
  if n =? 3 then
    Some (string_field "Description"
      (λ m v, mkMsgRemoveThresholds (mrt_Authority m) (mrt_Title m) v (mrt_Height m)
         (mrt_Currencies m))) else
  if n =? 4 then
    Some (varint_field "Height" wrap_i64
      (λ m v, mkMsgRemoveThresholds (mrt_Authority m) (mrt_Title m) (mrt_Description m) v
         (mrt_Currencies m))) else
  if n =? 5 then
    Some (strings_field "Currencies" mrt_Currencies
      (λ m v, mkMsgRemoveThresholds (mrt_Authority m) (mrt_Title m) (mrt_Description m)
         (mrt_Height m) v)) else
  None.
#[export] Instance MsgGovRemoveCurrencyDeviationThresholds_message :
    ProtoMessage MsgGovRemoveCurrencyDeviationThresholds :=
  message "MsgGovRemoveCurrencyDeviationThresholds" (mkMsgRemoveThresholds "" "" "" 0 [])
    MsgGovRemoveCurrencyDeviationThresholds_Size
    MsgGovRemoveCurrencyDeviationThresholds_MarshalToSizedBuffer
    MsgGovRemoveCurrencyDeviationThresholds_field.

(** [MsgGovCancelUpdateParamPlan] *)

Definition MsgGovCancelUpdateParamPlan_MarshalToSizedBuffer (m : MsgGovCancelUpdateParamPlan) : W :=
  put_varint [0x20] (mc_Height m) ;; put_string [0x1a] (mc_Description m) ;;
  put_string [0x12] (mc_Title m) ;; put_string [0xa] (mc_Authority m).
Definition MsgGovCancelUpdateParamPlan_Size (m : MsgGovCancelUpdateParamPlan) : Z :=
  size_string 1 (mc_Authority m) + size_string 1 (mc_Title m) +
  size_string 1 (mc_Description m) + size_varint 1 (mc_Height m).
Definition MsgGovCancelUpdateParamPlan_field (n : Z) :
    option (field_reader MsgGovCancelUpdateParamPlan) :=
  if n =? 1 then
    Some (string_field "Authority"
      (λ m v, mkMsgCancel v (mc_Title m) (mc_Description m) (mc_Height m))) else
  if n =? 2 then
    Some (string_field "Title"
      (λ m v, mkMsgCancel (mc_Authority m) v (mc_Description m) (mc_Height m))) else
  if n =? 3 then
    Some (string_field "Description"
      (λ m v, mkMsgCancel (mc_Authority m) (mc_Title m) v (mc_Height m))) else
  if n =? 4 then
    Some (varint_field "Height" wrap_i64
      (λ m v, mkMsgCancel (mc_Authority m) (mc_Title m) (mc_Description m) v)) else
  None.
#[export] Instance MsgGovCancelUpdateParamPlan_message : ProtoMessage MsgGovCancelUpdateParamPlan :=
  message "MsgGovCancelUpdateParamPlan" (mkMsgCancel "" "" "" 0)
    MsgGovCancelUpdateParamPlan_Size
    MsgGovCancelUpdateParamPlan_MarshalToSizedBuffer
    MsgGovCancelUpdateParamPlan_field.

(** *** Responses *)

(** [MsgAggregateExchangeRatePrevoteResponse] *)

Definition MsgAggregateExchangeRatePrevoteResponse_MarshalToSizedBuffer (m :
    MsgAggregateExchangeRatePrevoteResponse) : W := mret ().
Definition MsgAggregateExchangeRatePrevoteResponse_Size (m :
    MsgAggregateExchangeRatePrevoteResponse) : Z := 0.
Definition MsgAggregateExchangeRatePrevoteResponse_field (n : Z) :
    option (field_reader MsgAggregateExchangeRatePrevoteResponse) := None.
#[export] Instance MsgAggregateExchangeRatePrevoteResponse_message :
    ProtoMessage MsgAggregateExchangeRatePrevoteResponse :=
  message "MsgAggregateExchangeRatePrevoteResponse" mkMsgAggregateExchangeRatePrevoteResponse
    MsgAggregateExchangeRatePrevoteResponse_Size
    MsgAggregateExchangeRatePrevoteResponse_MarshalToSizedBuffer
    MsgAggregateExchangeRatePrevoteResponse_field.

(** [MsgAggregateExchangeRateVoteResponse] *)

Definition MsgAggregateExchangeRateVoteResponse_MarshalToSizedBuffer (m :
    MsgAggregateExchangeRateVoteResponse) : W := mret ().
Definition MsgAggregateExchangeRateVoteResponse_Size (m : MsgAggregateExchangeRateVoteResponse) :
    Z := 0.
Definition MsgAggregateExchangeRateVoteResponse_field (n : Z) :
    option (field_reader MsgAggregateExchangeRateVoteResponse) := None.
#[export] Instance MsgAggregateExchangeRateVoteResponse_message :
    ProtoMessage MsgAggregateExchangeRateVoteResponse :=
  message "MsgAggregateExchangeRateVoteResponse" mkMsgAggregateExchangeRateVoteResponse
    MsgAggregateExchangeRateVoteResponse_Size
    MsgAggregateExchangeRateVoteResponse_MarshalToSizedBuffer
    MsgAggregateExchangeRateVoteResponse_field.

(** [MsgDelegateFeedConsentResponse] *)

Definition MsgDelegateFeedConsentResponse_MarshalToSizedBuffer (m :
    MsgDelegateFeedConsentResponse) : W := mret ().
Definition MsgDelegateFeedConsentResponse_Size (m : MsgDelegateFeedConsentResponse) : Z := 0.
Definition MsgDelegateFeedConsentResponse_field (n : Z) :
    option (field_reader MsgDelegateFeedConsentResponse) := None.
#[export] Instance MsgDelegateFeedConsentResponse_message :
    ProtoMessage MsgDelegateFeedConsentResponse :=
  message "MsgDelegateFeedConsentResponse" mkMsgDelegateFeedConsentResponse
    MsgDelegateFeedConsentResponse_Size
    MsgDelegateFeedConsentResponse_MarshalToSizedBuffer
    MsgDelegateFeedConsentResponse_field.

(** [MsgLegacyGovUpdateParamsResponse] *)

Definition MsgLegacyGovUpdateParamsResponse_MarshalToSizedBuffer (m :
    MsgLegacyGovUpdateParamsResponse) : W := mret ().
Definition MsgLegacyGovUpdateParamsResponse_Size (m : MsgLegacyGovUpdateParamsResponse) : Z := 0.
Definition MsgLegacyGovUpdateParamsResponse_field (n : Z) :
    option (field_reader MsgLegacyGovUpdateParamsResponse) := None.
#[export] Instance MsgLegacyGovUpdateParamsResponse_message :
    ProtoMessage MsgLegacyGovUpdateParamsResponse :=
  message "MsgLegacyGovUpdateParamsResponse" mkMsgLegacyGovUpdateParamsResponse
    MsgLegacyGovUpdateParamsResponse_Size
    MsgLegacyGovUpdateParamsResponse_MarshalToSizedBuffer
    MsgLegacyGovUpdateParamsResponse_field.

(** [MsgGovUpdateParamsResponse] *)

Definition MsgGovUpdateParamsResponse_MarshalToSizedBuffer (m : MsgGovUpdateParamsResponse) :
    W := mret ().
Definition MsgGovUpdateParamsResponse_Size (m : MsgGovUpdateParamsResponse) : Z := 0.
Definition MsgGovUpdateParamsResponse_field (n : Z) :
    option (field_reader MsgGovUpdateParamsResponse) := None.
#[export] Instance MsgGovUpdateParamsResponse_message : ProtoMessage MsgGovUpdateParamsResponse :=
  message "MsgGovUpdateParamsResponse" mkMsgGovUpdateParamsResponse
    MsgGovUpdateParamsResponse_Size
    MsgGovUpdateParamsResponse_MarshalToSizedBuffer
    MsgGovUpdateParamsResponse_field.

(** [MsgGovAddDenomsResponse] *)

Definition MsgGovAddDenomsResponse_MarshalToSizedBuffer (m : MsgGovAddDenomsResponse) :
    W := mret ().
Definition MsgGovAddDenomsResponse_Size (m : MsgGovAddDenomsResponse) : Z := 0.
Definition MsgGovAddDenomsResponse_field (n : Z) :
    option (field_reader MsgGovAddDenomsResponse) := None.
#[export] Instance MsgGovAddDenomsResponse_message : ProtoMessage MsgGovAddDenomsResponse :=
  message "MsgGovAddDenomsResponse" mkMsgGovAddDenomsResponse
    MsgGovAddDenomsResponse_Size
    MsgGovAddDenomsResponse_MarshalToSizedBuffer
    MsgGovAddDenomsResponse_field.

(** [MsgGovRemoveCurrencyPairProvidersResponse] *)

Definition MsgGovRemoveCurrencyPairProvidersResponse_MarshalToSizedBuffer (m :
    MsgGovRemoveCurrencyPairProvidersResponse) : W := mret ().
Definition MsgGovRemoveCurrencyPairProvidersResponse_Size (m :
    MsgGovRemoveCurrencyPairProvidersResponse) : Z := 0.
Definition MsgGovRemoveCurrencyPairProvidersResponse_field (n : Z) :
    option (field_reader MsgGovRemoveCurrencyPairProvidersResponse) := None.
#[export] Instance MsgGovRemoveCurrencyPairProvidersResponse_message :
    ProtoMessage MsgGovRemoveCurrencyPairProvidersResponse :=
  message "MsgGovRemoveCurrencyPairProvidersResponse" mkMsgGovRemoveCurrencyPairProvidersResponse
    MsgGovRemoveCurrencyPairProvidersResponse_Size
    MsgGovRemoveCurrencyPairProvidersResponse_MarshalToSizedBuffer
    MsgGovRemoveCurrencyPairProvidersResponse_field.

(** [MsgGovRemoveCurrencyDeviationThresholdsResponse] *)

Definition MsgGovRemoveCurrencyDeviationThresholdsResponse_MarshalToSizedBuffer (m :
    MsgGovRemoveCurrencyDeviationThresholdsResponse) : W := mret ().
Definition MsgGovRemoveCurrencyDeviationThresholdsResponse_Size (m :
    MsgGovRemoveCurrencyDeviationThresholdsResponse) : Z := 0.
Definition MsgGovRemoveCurrencyDeviationThresholdsResponse_field (n : Z) :
    option (field_reader MsgGovRemoveCurrencyDeviationThresholdsResponse) := None.
#[export] Instance MsgGovRemoveCurrencyDeviationThresholdsResponse_message :
    ProtoMessage MsgGovRemoveCurrencyDeviationThresholdsResponse :=
    message
    "MsgGovRemoveCurrencyDeviationThresholdsResponse"
    mkMsgGovRemoveCurrencyDeviationThresholdsResponse
    MsgGovRemoveCurrencyDeviationThresholdsResponse_Size
    MsgGovRemoveCurrencyDeviationThresholdsResponse_MarshalToSizedBuffer
    MsgGovRemoveCurrencyDeviationThresholdsResponse_field.

(** [MsgGovCancelUpdateParamPlanResponse] *)

Definition MsgGovCancelUpdateParamPlanResponse_MarshalToSizedBuffer (m :
    MsgGovCancelUpdateParamPlanResponse) : W := mret ().
Definition MsgGovCancelUpdateParamPlanResponse_Size (m : MsgGovCancelUpdateParamPlanResponse) :
    Z := 0.
Definition MsgGovCancelUpdateParamPlanResponse_field (n : Z) :
    option (field_reader MsgGovCancelUpdateParamPlanResponse) := None.
#[export] Instance MsgGovCancelUpdateParamPlanResponse_message :
    ProtoMessage MsgGovCancelUpdateParamPlanResponse :=
  message "MsgGovCancelUpdateParamPlanResponse" mkMsgGovCancelUpdateParamPlanResponse
    MsgGovCancelUpdateParamPlanResponse_Size
    MsgGovCancelUpdateParamPlanResponse_MarshalToSizedBuffer
    MsgGovCancelUpdateParamPlanResponse_field.
End messages.

(** ** Reference encodings *)

Section laws.
Context `{DecCodecLaws} `{ProtoLaws DecCoin} `{CoinNil}.

Definition MsgAggregateExchangeRatePrevote_encode (m : MsgAggregateExchangeRatePrevote) : bytes :=
  enc_string [0xa] (mp_Hash m) ++ enc_string [0x12] (mp_Feeder m) ++
  enc_string [0x1a] (mp_Validator m).
Definition MsgAggregateExchangeRatePrevote_ok (m : MsgAggregateExchangeRatePrevote) : Prop :=
  True.
#[export] Instance MsgAggregateExchangeRatePrevote_laws : ProtoLaws MsgAggregateExchangeRatePrevote.
Proof.
  solve_message MsgAggregateExchangeRatePrevote_encode MsgAggregateExchangeRatePrevote_ok
    MsgAggregateExchangeRatePrevote_Size MsgAggregateExchangeRatePrevote_MarshalToSizedBuffer.
Defined.

Definition MsgAggregateExchangeRateVote_encode (m : MsgAggregateExchangeRateVote) : bytes :=
  enc_string [0xa] (mv_Salt m) ++ enc_string [0x12] (mv_ExchangeRates m) ++
  enc_string [0x1a] (mv_Feeder m) ++ enc_string [0x22] (mv_Validator m).
Definition MsgAggregateExchangeRateVote_ok (m : MsgAggregateExchangeRateVote) : Prop :=
  True.
#[export] Instance MsgAggregateExchangeRateVote_laws : ProtoLaws MsgAggregateExchangeRateVote.
Proof.
  solve_message MsgAggregateExchangeRateVote_encode MsgAggregateExchangeRateVote_ok
    MsgAggregateExchangeRateVote_Size MsgAggregateExchangeRateVote_MarshalToSizedBuffer.
Defined.

Definition MsgDelegateFeedConsent_encode (m : MsgDelegateFeedConsent) : bytes :=
  enc_string [0xa] (md_Operator m) ++ enc_string [0x12] (md_Delegate m).
Definition MsgDelegateFeedConsent_ok (m : MsgDelegateFeedConsent) : Prop :=
  True.
#[export] Instance MsgDelegateFeedConsent_laws : ProtoLaws MsgDelegateFeedConsent.
Proof.
  solve_message MsgDelegateFeedConsent_encode MsgDelegateFeedConsent_ok
    MsgDelegateFeedConsent_Size MsgDelegateFeedConsent_MarshalToSizedBuffer.
Defined.

Definition MsgLegacyGovUpdateParams_encode (m : MsgLegacyGovUpdateParams) : bytes :=
  enc_string [0xa] (ml_Authority m) ++ enc_string [0x12] (ml_Title m) ++
  enc_string [0x1a] (ml_Description m) ++ enc_strings [0x22] (ml_Keys m) ++
  enc_message [0x2a] (ml_Changes m).
Definition MsgLegacyGovUpdateParams_ok (m : MsgLegacyGovUpdateParams) : Prop :=
  pb_ok (ml_Changes m).
#[export] Instance MsgLegacyGovUpdateParams_laws : ProtoLaws MsgLegacyGovUpdateParams.
Proof.
  solve_message MsgLegacyGovUpdateParams_encode MsgLegacyGovUpdateParams_ok
    MsgLegacyGovUpdateParams_Size MsgLegacyGovUpdateParams_MarshalToSizedBuffer.
Defined.

Definition MsgGovUpdateParams_encode (m : MsgGovUpdateParams) : bytes :=
  enc_string [0xa] (mu_Authority m) ++ enc_string [0x12] (mu_Title m) ++
  enc_string [0x1a] (mu_Description m) ++ enc_message [0x22] (mu_Plan m).
Definition MsgGovUpdateParams_ok (m : MsgGovUpdateParams) : Prop :=
  pb_ok (mu_Plan m).
#[export] Instance MsgGovUpdateParams_laws : ProtoLaws MsgGovUpdateParams.
Proof.
  solve_message MsgGovUpdateParams_encode MsgGovUpdateParams_ok MsgGovUpdateParams_Size
    MsgGovUpdateParams_MarshalToSizedBuffer.
Defined.

Definition MsgGovAddDenoms_encode (m : MsgGovAddDenoms) : bytes :=
  enc_string [0xa] (ma_Authority m) ++ enc_string [0x12] (ma_Title m) ++
  enc_string [0x1a] (ma_Description m) ++ enc_varint [0x20] (ma_Height m) ++
  enc_messages [0x2a] (ma_DenomList m) ++ enc_bool [0x30] (ma_Mandatory m) ++
  enc_dec_pointer [0x3a] (ma_RewardBand m) ++ enc_messages [0x42] (ma_CurrencyPairProviders m) ++
  enc_messages [0x4a] (ma_CurrencyDeviationThresholds m).
Definition MsgGovAddDenoms_ok (m : MsgGovAddDenoms) : Prop :=
  is_i64 (ma_Height m) ∧ Forall pb_ok (ma_DenomList m) ∧ dec_pointer_ok (ma_RewardBand m) ∧
  Forall pb_ok (ma_CurrencyPairProviders m) ∧ Forall pb_ok (ma_CurrencyDeviationThresholds m).
#[export] Instance MsgGovAddDenoms_laws : ProtoLaws MsgGovAddDenoms.
Proof.
  solve_message MsgGovAddDenoms_encode MsgGovAddDenoms_ok MsgGovAddDenoms_Size
    MsgGovAddDenoms_MarshalToSizedBuffer.
Defined.

Definition MsgGovRemoveCurrencyPairProviders_encode (m : MsgGovRemoveCurrencyPairProviders) :
    bytes :=
  enc_string [0xa] (mrp_Authority m) ++ enc_string [0x12] (mrp_Title m) ++
  enc_string [0x1a] (mrp_Description m) ++ enc_varint [0x20] (mrp_Height m) ++
  enc_messages [0x2a] (mrp_CurrencyPairProviders m).
Definition MsgGovRemoveCurrencyPairProviders_ok (m : MsgGovRemoveCurrencyPairProviders) : Prop :=
  is_i64 (mrp_Height m) ∧ Forall pb_ok (mrp_CurrencyPairProviders m).
#[export] Instance MsgGovRemoveCurrencyPairProviders_laws :
    ProtoLaws MsgGovRemoveCurrencyPairProviders.
Proof.
  solve_message MsgGovRemoveCurrencyPairProviders_encode MsgGovRemoveCurrencyPairProviders_ok
    MsgGovRemoveCurrencyPairProviders_Size MsgGovRemoveCurrencyPairProviders_MarshalToSizedBuffer.
Defined.

Definition MsgGovRemoveCurrencyDeviationThresholds_encode (m : MsgGovRemoveCurrencyDeviationThresholds) :
    bytes :=
  enc_string [0xa] (mrt_Authority m) ++ enc_string [0x12] (mrt_Title m) ++
  enc_string [0x1a] (mrt_Description m) ++ enc_varint [0x20] (mrt_Height m) ++
  enc_strings [0x2a] (mrt_Currencies m).
Definition MsgGovRemoveCurrencyDeviationThresholds_ok (m : MsgGovRemoveCurrencyDeviationThresholds) :
    Prop :=
  is_i64 (mrt_Height m).
#[export] Instance MsgGovRemoveCurrencyDeviationThresholds_laws :
    ProtoLaws MsgGovRemoveCurrencyDeviationThresholds.
Proof.
  solve_message MsgGovRemoveCurrencyDeviationThresholds_encode
    MsgGovRemoveCurrencyDeviationThresholds_ok MsgGovRemoveCurrencyDeviationThresholds_Size
    MsgGovRemoveCurrencyDeviationThresholds_MarshalToSizedBuffer.
Defined.

Definition MsgGovCancelUpdateParamPlan_encode (m : MsgGovCancelUpdateParamPlan) : bytes :=
  enc_string [0xa] (mc_Authority m) ++ enc_string [0x12] (mc_Title m) ++
  enc_string [0x1a] (mc_Description m) ++ enc_varint [0x20] (mc_Height m).
Definition MsgGovCancelUpdateParamPlan_ok (m : MsgGovCancelUpdateParamPlan) : Prop :=
  is_i64 (mc_Height m).
#[export] Instance MsgGovCancelUpdateParamPlan_laws : ProtoLaws MsgGovCancelUpdateParamPlan.
Proof.
  solve_message MsgGovCancelUpdateParamPlan_encode MsgGovCancelUpdateParamPlan_ok
    MsgGovCancelUpdateParamPlan_Size MsgGovCancelUpdateParamPlan_MarshalToSizedBuffer.
Defined.

Definition MsgAggregateExchangeRatePrevoteResponse_encode (m :
    MsgAggregateExchangeRatePrevoteResponse) : bytes := [].
Definition MsgAggregateExchangeRatePrevoteResponse_ok (m :
    MsgAggregateExchangeRatePrevoteResponse) : Prop := True.
#[export] Instance MsgAggregateExchangeRatePrevoteResponse_laws :
    ProtoLaws MsgAggregateExchangeRatePrevoteResponse.
Proof.
  solve_empty_message MsgAggregateExchangeRatePrevoteResponse_encode
    MsgAggregateExchangeRatePrevoteResponse_ok.
Defined.

Definition MsgAggregateExchangeRateVoteResponse_encode (m :
    MsgAggregateExchangeRateVoteResponse) : bytes := [].
Definition MsgAggregateExchangeRateVoteResponse_ok (m : MsgAggregateExchangeRateVoteResponse) :
    Prop := True.
#[export] Instance MsgAggregateExchangeRateVoteResponse_laws :
    ProtoLaws MsgAggregateExchangeRateVoteResponse.
Proof.
  solve_empty_message MsgAggregateExchangeRateVoteResponse_encode
    MsgAggregateExchangeRateVoteResponse_ok.
Defined.

Definition MsgDelegateFeedConsentResponse_encode (m : MsgDelegateFeedConsentResponse) :
    bytes := [].
Definition MsgDelegateFeedConsentResponse_ok (m : MsgDelegateFeedConsentResponse) : Prop := True.
#[export] Instance MsgDelegateFeedConsentResponse_laws : ProtoLaws MsgDelegateFeedConsentResponse.
Proof.
  solve_empty_message MsgDelegateFeedConsentResponse_encode
    MsgDelegateFeedConsentResponse_ok.
Defined.

Definition MsgLegacyGovUpdateParamsResponse_encode (m : MsgLegacyGovUpdateParamsResponse) :
    bytes := [].
Definition MsgLegacyGovUpdateParamsResponse_ok (m : MsgLegacyGovUpdateParamsResponse) :
    Prop := True.
#[export] Instance MsgLegacyGovUpdateParamsResponse_laws :
    ProtoLaws MsgLegacyGovUpdateParamsResponse.
Proof.
  solve_empty_message MsgLegacyGovUpdateParamsResponse_encode
    MsgLegacyGovUpdateParamsResponse_ok.
Defined.

Definition MsgGovUpdateParamsResponse_encode (m : MsgGovUpdateParamsResponse) : bytes := [].
Definition MsgGovUpdateParamsResponse_ok (m : MsgGovUpdateParamsResponse) : Prop := True.
#[export] Instance MsgGovUpdateParamsResponse_laws : ProtoLaws MsgGovUpdateParamsResponse.
Proof. solve_empty_message MsgGovUpdateParamsResponse_encode MsgGovUpdateParamsResponse_ok. Defined.

Definition MsgGovAddDenomsResponse_encode (m : MsgGovAddDenomsResponse) : bytes := [].
Definition MsgGovAddDenomsResponse_ok (m : MsgGovAddDenomsResponse) : Prop := True.
#[export] Instance MsgGovAddDenomsResponse_laws : ProtoLaws MsgGovAddDenomsResponse.
Proof. solve_empty_message MsgGovAddDenomsResponse_encode MsgGovAddDenomsResponse_ok. Defined.

Definition MsgGovRemoveCurrencyPairProvidersResponse_encode (m :
    MsgGovRemoveCurrencyPairProvidersResponse) : bytes := [].
Definition MsgGovRemoveCurrencyPairProvidersResponse_ok (m :
    MsgGovRemoveCurrencyPairProvidersResponse) : Prop := True.
#[export] Instance MsgGovRemoveCurrencyPairProvidersResponse_laws :
    ProtoLaws MsgGovRemoveCurrencyPairProvidersResponse.
Proof.
  solve_empty_message MsgGovRemoveCurrencyPairProvidersResponse_encode
    MsgGovRemoveCurrencyPairProvidersResponse_ok.
Defined.

Definition MsgGovRemoveCurrencyDeviationThresholdsResponse_encode (m :
    MsgGovRemoveCurrencyDeviationThresholdsResponse) : bytes := [].
Definition MsgGovRemoveCurrencyDeviationThresholdsResponse_ok (m :
    MsgGovRemoveCurrencyDeviationThresholdsResponse) : Prop := True.
#[export] Instance MsgGovRemoveCurrencyDeviationThresholdsResponse_laws :
    ProtoLaws MsgGovRemoveCurrencyDeviationThresholdsResponse.
Proof.
  solve_empty_message MsgGovRemoveCurrencyDeviationThresholdsResponse_encode
    MsgGovRemoveCurrencyDeviationThresholdsResponse_ok.
Defined.

Definition MsgGovCancelUpdateParamPlanResponse_encode (m : MsgGovCancelUpdateParamPlanResponse) :
    bytes := [].
Definition MsgGovCancelUpdateParamPlanResponse_ok (m : MsgGovCancelUpdateParamPlanResponse) :
    Prop := True.
#[export] Instance MsgGovCancelUpdateParamPlanResponse_laws :
    ProtoLaws MsgGovCancelUpdateParamPlanResponse.
Proof.
  solve_empty_message MsgGovCancelUpdateParamPlanResponse_encode
    MsgGovCancelUpdateParamPlanResponse_ok.
Defined.
End laws.
