(* ===== verification/Codec.v ===== *)
(** * Codec: the messages of the service and the types of their bytes

    [_Msg_serviceDesc] and the registered types of
    [src/x/oracle/types/tx.pb.go], and the registrations of [types/codec.go]:
    the bytes of a transaction's message are marshaled by its type and read
    back by the type registered under its name.  [types/proposal.go], the old
    proposal interface of the governance messages, is at the end.  [ProtoTyped] instances say
    which integers a decoded value holds. *)
From S2P Require Import Prelude Util Dec Types Params Wire WireLemmas OracleProto Bech32 Votes Msgs.
From S2P Require Import TxProto Chain.
Local Open Scope Z_scope.

(** ** Types of decoded messages *)

Section typed.
Context `{DecCodec} `{ProtoMessage DecCoin} `{CoinNil}.

Definition Denom_typed (d : Denom) : Prop := is_u32 (Exponent d).
#[export] Instance Denom_proto_typed : ProtoTyped Denom.
Proof.
  refine {| pb_typed := Denom_typed |}; [split; simpl; lia|].
  intros m bz m'. apply unmarshal_typed. unfold Denom_typed. solve_typed.
Defined.

Definition Params_typed (p : Params) : Prop :=
  is_u64 (Types.VotePeriod p) ∧ is_u64 (Types.RewardDistributionWindow p) ∧
  is_u64 (Types.SlashWindow p) ∧ is_u64 (Types.HistoricStampPeriod p) ∧
  is_u64 (Types.MedianStampPeriod p) ∧ is_u64 (Types.MaximumPriceStamps p) ∧
  is_u64 (Types.MaximumMedianStamps p) ∧ is_u64 (Types.AveragingWindow p) ∧
  Forall pb_typed (Types.AcceptList p) ∧ Forall pb_typed (Types.MandatoryList p).
#[export] Instance Params_proto_typed : ProtoTyped Params.
Proof.
  refine {| pb_typed := Params_typed |}; [unfold Params_typed, is_u64; simpl; split_and!; done|].
  intros m bz m'. apply unmarshal_typed. unfold Params_typed. solve_typed.
Defined.

Definition ParamUpdatePlan_typed (p : ParamUpdatePlan) : Prop :=
  is_i64 (plan_Height p) ∧ pb_typed (plan_Changes p).
#[export] Instance ParamUpdatePlan_proto_typed : ProtoTyped ParamUpdatePlan.
Proof.
  refine {| pb_typed := ParamUpdatePlan_typed |}; [by split; [split|apply typed_empty]|].
  intros m bz m'. apply unmarshal_typed. unfold ParamUpdatePlan_typed. solve_typed.
Defined.
End typed.

(** ** The messages of the service *)

Section messages.
Context `{DecCodec} `{ProtoMessage DecCoin} `{CoinNil}.

(** The name under which [init] registers the type. *)
Definition type_name (m : omsg) : string :=
  match m with
  | OPrevote _ => "oracle.v1.MsgAggregateExchangeRatePrevote"
  | OVote _ => "oracle.v1.MsgAggregateExchangeRateVote"
  | ODelegate _ => "oracle.v1.MsgDelegateFeedConsent"
  | OLegacyUpdate _ => "oracle.v1.MsgLegacyGovUpdateParams"
  | OUpdate _ => "oracle.v1.MsgGovUpdateParams"
  | OAddDenoms _ => "oracle.v1.MsgGovAddDenoms"
  | ORemoveProviders _ => "oracle.v1.MsgGovRemoveCurrencyPairProviders"
  | ORemoveThresholds _ => "oracle.v1.MsgGovRemoveCurrencyDeviationThresholds"
  | OCancel _ => "oracle.v1.MsgGovCancelUpdateParamPlan"
  end.

Definition omsg_Size (m : omsg) : Z :=
  match m with
  | OPrevote m => pb_Size m | OVote m => pb_Size m | ODelegate m => pb_Size m
  | OLegacyUpdate m => pb_Size m | OUpdate m => pb_Size m | OAddDenoms m => pb_Size m
  | ORemoveProviders m => pb_Size m | ORemoveThresholds m => pb_Size m | OCancel m => pb_Size m
  end.

Definition omsg_Marshal (m : omsg) : outcome bytes :=
  match m with
  | OPrevote m => pb_Marshal m | OVote m => pb_Marshal m | ODelegate m => pb_Marshal m
  | OLegacyUpdate m => pb_Marshal m | OUpdate m => pb_Marshal m | OAddDenoms m => pb_Marshal m
  | ORemoveProviders m => pb_Marshal m | ORemoveThresholds m => pb_Marshal m
  | OCancel m => pb_Marshal m
  end.

Definition decode {A} `{ProtoMessage A} (wrap : A → omsg) (bz : bytes) : outcome omsg :=
  m ← pb_Unmarshal pb_empty bz; Ok (wrap m).

(** The handlers of the methods of the service decode the request of the
    method's type ([_Msg_GovUpdateParams_Handler] and the others). *)
Definition Msg_serviceDesc : list (string * (string * (bytes → outcome omsg))) := [
  ("AggregateExchangeRatePrevote", ("oracle.v1.MsgAggregateExchangeRatePrevote", decode OPrevote));
  ("AggregateExchangeRateVote", ("oracle.v1.MsgAggregateExchangeRateVote", decode OVote));
  ("DelegateFeedConsent", ("oracle.v1.MsgDelegateFeedConsent", decode ODelegate));
  ("LegacyGovUpdateParams", ("oracle.v1.MsgLegacyGovUpdateParams", decode OLegacyUpdate));
  ("GovUpdateParams", ("oracle.v1.MsgGovUpdateParams", decode OUpdate));
  ("GovAddDenoms", ("oracle.v1.MsgGovAddDenoms", decode OAddDenoms));
  ("GovRemoveCurrencyPairProviders",
    ("oracle.v1.MsgGovRemoveCurrencyPairProviders", decode ORemoveProviders));
  ("GovRemoveCurrencyDeviationThresholds",
    ("oracle.v1.MsgGovRemoveCurrencyDeviationThresholds", decode ORemoveThresholds));
  ("GovCancelUpdateParamPlan", ("oracle.v1.MsgGovCancelUpdateParamPlan", decode OCancel))]%string.

(** The message a transaction carries: the bytes of the type it names. *)
Definition omsg_Unmarshal (name : string) (bz : bytes) : outcome omsg :=
  match find (λ d, String.eqb name d.2.1) Msg_serviceDesc with
  | Some (_, (_, unmarshal)) => unmarshal bz
  | None => Err (Errorf "unable to resolve type URL %s")
  end.

(** The integers of a message that was decoded. *)
Definition omsg_typed (m : omsg) : Prop :=
  match m with
  | OPrevote _ | OVote _ | ODelegate _ => True
  | OLegacyUpdate m => pb_typed (ml_Changes m)
  | OUpdate m => pb_typed (mu_Plan m)
  | OAddDenoms m => is_i64 (ma_Height m) ∧ Forall pb_typed (ma_DenomList m)
  | ORemoveProviders m => is_i64 (mrp_Height m)
  | ORemoveThresholds m => is_i64 (mrt_Height m)
  | OCancel m => is_i64 (mc_Height m)
  end.

(** Every entry decodes the type that it names, and its result is typed. *)
Lemma serviceDesc_typed name method unmarshal bz m :
  In (method, (name, unmarshal)) Msg_serviceDesc → unmarshal bz = Ok m →
  type_name m = name ∧ omsg_typed m.
Proof.
  intros Hin. unfold Msg_serviceDesc in Hin. simpl in Hin.
  repeat destruct Hin as [Hin|Hin]; [..|done];
    injection Hin as <- <- <-; unfold decode;
    (destruct (pb_Unmarshal _ _) as [x| |] eqn:E; simpl; [|done..]); intros [= <-];
    (split; [reflexivity|]); simpl; try done.
  - refine (unmarshal_typed (λ m, pb_typed (ml_Changes m)) _ _ _ _ _ _ _ E); [|apply typed_empty].
    solve_typed.
  - refine (unmarshal_typed (λ m, pb_typed (mu_Plan m)) _ _ _ _ _ _ _ E); [|apply typed_empty].
    solve_typed.
  - refine (unmarshal_typed (λ m, is_i64 (ma_Height m) ∧ Forall pb_typed (ma_DenomList m))
      _ _ _ _ _ _ _ E); [|by repeat split]. solve_typed.
  - refine (unmarshal_typed (λ m, is_i64 (mrp_Height m)) _ _ _ _ _ _ _ E); [|done]. solve_typed.
  - refine (unmarshal_typed (λ m, is_i64 (mrt_Height m)) _ _ _ _ _ _ _ E); [|done]. solve_typed.
  - refine (unmarshal_typed (λ m, is_i64 (mc_Height m)) _ _ _ _ _ _ _ E); [|done]. solve_typed.
Qed.

Lemma omsg_Unmarshal_typed_aux name bz m :
  omsg_Unmarshal name bz = Ok m → type_name m = name ∧ omsg_typed m.
Proof.
  unfold omsg_Unmarshal. destruct (find _ _) as [[method [name' unmarshal]]|] eqn:Ef; [|done].
  intros E. apply find_some in Ef as [Hin Heq]. apply String.eqb_eq in Heq. simpl in Heq. subst.
  by eapply serviceDesc_typed.
Qed.
End messages.

Section laws.
Context `{DecCodecLaws} `{ProtoLaws DecCoin} `{CoinNil}.

(** The reference encoding of a message, and when it can be read back. *)
Definition omsg_encode (m : omsg) : bytes :=
  match m with
  | OPrevote m => pb_encode m | OVote m => pb_encode m | ODelegate m => pb_encode m
  | OLegacyUpdate m => pb_encode m | OUpdate m => pb_encode m | OAddDenoms m => pb_encode m
  | ORemoveProviders m => pb_encode m | ORemoveThresholds m => pb_encode m
  | OCancel m => pb_encode m
  end.

Definition omsg_ok (m : omsg) : Prop :=
  match m with
  | OPrevote m => pb_ok m | OVote m => pb_ok m | ODelegate m => pb_ok m
  | OLegacyUpdate m => pb_ok m | OUpdate m => pb_ok m | OAddDenoms m => pb_ok m
  | ORemoveProviders m => pb_ok m | ORemoveThresholds m => pb_ok m
  | OCancel m => pb_ok m
  end.

Lemma omsg_Marshal_encode m :
  omsg_Size m = len (omsg_encode m) ∧
  omsg_Marshal m = if 2 ^ 63 <=? omsg_Size m then Panic else Ok (omsg_encode m).
Proof.
  destruct m; cbn [omsg_Size omsg_Marshal omsg_encode]; rewrite pb_Marshal_encode, pb_Size_encode;
    done.
Qed.

Lemma decode_encode {A} `{ProtoLaws A} (wrap : A → omsg) (m : A) :
  pb_ok m → len (pb_encode m) < 2 ^ 63 → decode wrap (pb_encode m) = Ok (wrap m).
Proof. intros. unfold decode. by rewrite pb_Unmarshal_encode. Qed.

Lemma omsg_Unmarshal_encode m :
  omsg_ok m → len (omsg_encode m) < 2 ^ 63 → omsg_Unmarshal (type_name m) (omsg_encode m) = Ok m.
Proof. destruct m; apply decode_encode. Qed.

Lemma decode_total {A} `{ProtoLaws A} (wrap : A → omsg) bz :
  len bz < 2 ^ 63 → decode wrap bz ≠ Panic.
Proof. intros Hl. unfold decode. apply total_bind_Ok. by apply pb_Unmarshal_total. Qed.

Lemma omsg_Unmarshal_no_panic name bz : len bz < 2 ^ 63 → omsg_Unmarshal name bz ≠ Panic.
Proof.
  intros Hl. unfold omsg_Unmarshal, Msg_serviceDesc. simpl.
  repeat (case String.eqb; [by apply decode_total|]). done.
Qed.
End laws.

(** ** Registrations of [codec.go] *)

Definition RegisterInterfaces_Msg : list string := [
  "oracle.v1.MsgDelegateFeedConsent"; "oracle.v1.MsgAggregateExchangeRatePrevote";
  "oracle.v1.MsgAggregateExchangeRateVote"; "oracle.v1.MsgLegacyGovUpdateParams";
  "oracle.v1.MsgGovUpdateParams"; "oracle.v1.MsgGovAddDenoms";
  "oracle.v1.MsgGovRemoveCurrencyPairProviders";
  "oracle.v1.MsgGovRemoveCurrencyDeviationThresholds"]%string.

Definition RegisterInterfaces_Content : list string := [
  "oracle.v1.MsgLegacyGovUpdateParams"; "oracle.v1.MsgGovUpdateParams"; "oracle.v1.MsgGovAddDenoms";
  "oracle.v1.MsgGovRemoveCurrencyPairProviders";
  "oracle.v1.MsgGovRemoveCurrencyDeviationThresholds"]%string.

(** The names of the types in legacy Amino JSON, which hardware wallets sign. *)
Definition RegisterLegacyAminoCodec : list (string * string) := [
  ("oracle.v1.MsgAggregateExchangeRatePrevote", "dmchain/oracle/MsgAggregateExchangeRatePrevote");
  ("oracle.v1.MsgAggregateExchangeRateVote", "dmchain/oracle/MsgAggregateExchangeRateVote");
  ("oracle.v1.MsgDelegateFeedConsent", "dmchain/oracle/MsgDelegateFeedConsent");
  ("oracle.v1.MsgLegacyGovUpdateParams", "dmchain/oracle/MsgLegacyGovUpdateParams");
  ("oracle.v1.MsgGovUpdateParams", "dmchain/oracle/MsgGovUpdateParams");
  ("oracle.v1.MsgGovAddDenoms", "dmchain/oracle/MsgGovAddDenoms");
  ("oracle.v1.MsgGovRemoveCurrencyPairProviders",
    "dmchain/oracle/MsgGovRemoveCurrencyPairProviders");
  ("oracle.v1.MsgGovRemoveCurrencyDeviationThresholds",
    "dmchain/oracle/MsgGovRemoveCurrencyDeviationThresholds")]%string.

(** The only message without an Amino name is the one that cancels a plan. *)
Lemma amino_name_missing m :
  type_name m ∉ RegisterLegacyAminoCodec.*1 ↔ ∃ msg, m = OCancel msg.
Proof.
  split.
  - destruct m; intros Hn; [..|by eexists]; exfalso; apply Hn; simpl; set_solver.
  - intros [msg ->]. simpl. set_solver.
Qed.

(** ** Proposals of the old governance interface ([types/proposal.go]) *)

Definition RouterKey : string := ModuleName.

Record Content := mkContent {
  GetTitle : string; GetDescription : string; ProposalRoute : string; ProposalType : string }.

(** The YAML encoding of a message; an error of the encoder is ignored and
    leaves the empty text ([String] in [types/msgs.go]). *)
Class YamlMessages := { yaml_Marshal : omsg → outcome string }.

Definition omsg_String `{YamlMessages} (m : omsg) : outcome string :=
  match yaml_Marshal m with Ok out => Ok out | Err _ => Ok ""%string | Panic => Panic end.

(** The proposal types the SDK's gov package knows: registering one twice
    panics. *)
Class GovTypes (R : Type) := {
  RegisterProposalType : string → R → outcome R;
  gov_types : R → gset string;
}.
Class GovTypesLaws (R : Type) `{!GovTypes R} : Prop := {
  RegisterProposalType_new ty r : ty ∉ gov_types r →
    ∃ r', RegisterProposalType ty r = Ok r' ∧ gov_types r' = {[ty]} ∪ gov_types r;
  RegisterProposalType_again ty r : ty ∈ gov_types r → RegisterProposalType ty r = Panic;
}.

Section contents.
Context `{DecCodec} `{ProtoMessage DecCoin} `{CoinNil} `{YamlMessages} {R : Type} `{GovTypes R}.

(** The variables [proposalType...]: the texts of the empty messages. *)
Definition empty_contents : list omsg := [
  OLegacyUpdate pb_empty; OUpdate pb_empty; OCancel pb_empty; OAddDenoms pb_empty;
  ORemoveProviders pb_empty; ORemoveThresholds pb_empty].

Definition proposalTypes : outcome (list string) := mapM omsg_String empty_contents.

(** The initialisation of the package: the variables, then [init]. *)
Definition init_proposals (r : R) : outcome R :=
  tys ← proposalTypes; foldM (λ r ty, RegisterProposalType ty r) tys r.

(** The methods of [gov.Content] over the values of the variables. *)
Definition AsContent (tys : list string) (m : omsg) : option Content :=
  let content title description (i : nat) :=
    ty ← tys !! i; Some (mkContent title description RouterKey ty) in
  match m with
  | OLegacyUpdate m => content (ml_Title m) (ml_Description m) 0%nat
  | OUpdate m => content (mu_Title m) (mu_Description m) 1%nat
  | OCancel m => content (mc_Title m) (mc_Description m) 2%nat
  | OAddDenoms m => content (ma_Title m) (ma_Description m) 3%nat
  | ORemoveProviders m => content (mrp_Title m) (mrp_Description m) 4%nat
  | ORemoveThresholds m => content (mrt_Title m) (mrt_Description m) 5%nat
  | OPrevote _ | OVote _ | ODelegate _ => None
  end.
End contents.

Section contents_facts.
Context `{DecCodec} `{ProtoMessage DecCoin} `{CoinNil} `{YamlMessages} {R : Type} `{GovTypesLaws R}.

Lemma RegisterProposalTypes_iff tys r :
  (∃ r', foldM (λ r ty, RegisterProposalType ty r) tys r = Ok r') ↔
  NoDup tys ∧ ∀ ty, ty ∈ tys → ty ∉ gov_types r.
Proof.
  revert r. induction tys as [|ty tys IH]; intros r; simpl.
  { split; [|by eexists]. intros _. split; [constructor|set_solver]. }
  destruct (decide (ty ∈ gov_types r)) as [Hin|Hnew].
  { rewrite RegisterProposalType_again by done. simpl. split; [by intros [? ?]|].
    intros [_ Hn]. exfalso. apply (Hn ty); [left|done]. }
  destruct (RegisterProposalType_new ty r Hnew) as (r1 & -> & Htys). simpl.
  rewrite IH, NoDup_cons. setoid_rewrite Htys. set_solver.
Qed.

(** The node initialises when the six empty messages have different texts, none
    of which the gov package knows.  An encoding error gives the empty text, so
    two of them stop every node. *)
Theorem init_proposals_iff tys r :
  proposalTypes = Ok tys →
  (∃ r', init_proposals r = Ok r') ↔ NoDup tys ∧ ∀ ty, ty ∈ tys → ty ∉ gov_types r.
Proof. intros Htys. unfold init_proposals. rewrite Htys. apply RegisterProposalTypes_iff. Qed.

(** The messages with the methods of [gov.Content] are those that name an
    authority; the type that cancels a plan is one of them, though
    [RegisterInterfaces] leaves it out. *)
Lemma AsContent_gov tys m :
  length tys = 6%nat → is_Some (AsContent tys m) ↔ is_Some (gov_authority m).
Proof.
  intros Hl. assert (∀ i, (i < 6)%nat → is_Some (tys !! i)) as Hty.
  { intros i Hi. apply lookup_lt_is_Some. lia. }
  destruct m; simpl; [split; by intros [? ?]..| | | | | |];
    (split; [by eexists|intros _]; match goal with |- context [tys !! ?i] =>
      destruct (Hty i ltac:(lia)) as [ty ->] end; by eexists).
Qed.
End contents_facts.

(** Texts that carry the name of the message, and gov's own type. *)
#[local] Instance named_messages : YamlMessages := {| yaml_Marshal m := Ok (type_name m) |}.
#[local] Instance gov_set : GovTypes (gset string) := {|
  RegisterProposalType ty r := if decide (ty ∈ r) then Panic else Ok ({[ty]} ∪ r);
  gov_types r := r |}.
#[local] Instance gov_set_laws : GovTypesLaws (gset string).
Proof.
  split; intros ty r Hty; unfold RegisterProposalType, gov_types in *; simpl in *.
  - rewrite decide_False by done. by eexists.
  - by rewrite decide_True.
Qed.

Lemma init_proposals_iff_witness `{DecCodec} `{ProtoMessage DecCoin} `{CoinNil} :
  ∃ r, init_proposals {["Text"%string]} = Ok r.
Proof.
  assert (proposalTypes = Ok (type_name <$> empty_contents)) as Htys by reflexivity.
  apply (init_proposals_iff _ {["Text"%string]} Htys). split.
  - by apply (bool_decide_unpack (NoDup _)).
  - intros ty Hty. change (ty ∉@{gset string} {["Text"%string]}). simpl in Hty. set_solver.
Defined.
