(* ===== verification/Migrations.v ===== *)
(** * Migrations: the in-place migrations of the module

    [src/x/oracle/keeper/migrations.go] writes tables of the price feeder into
    the parameters and the set of rewarded validators as a list;
    [migrate_proposal.go] rewrites the governance proposals that hold parameter
    updates of the old format.  The proposal is a message of the SDK: its
    decoder, which leaves the decoded fields behind when it fails, and its
    encoder are a class; the messages inside are the code of TxProto. *)
From S2P Require Import Prelude Util Store Dec Types Params Wire WireLemmas OracleProto.
From S2P Require Import Bech32 Votes Msgs TxProto World State Subspace Keeper ParamPlan MsgServer Rewards.
Local Open Scope Z_scope.

(** ** [migrations.go] *)

Definition migrated_CurrencyPairProviders : list CurrencyPairProvider := [
   mkCurrencyPairProvider "USDT" "USD" []
     ["kraken"; "coinbase"; "crypto"; "gate"];
   mkCurrencyPairProvider "ATOM" "USDT" []
     ["okx"; "bitget"; "gate"];
   mkCurrencyPairProvider "ATOM" "USD" []
     ["kraken"];
   mkCurrencyPairProvider "ETH" "USDT" []
     ["okx"; "bitget"];
   mkCurrencyPairProvider "ETH" "USD" []
     ["kraken"];
   mkCurrencyPairProvider "BTC" "USDT" []
     ["okx"; "gate"; "bitget"];
   mkCurrencyPairProvider "BTC" "USD" []
     ["coinbase"];
   mkCurrencyPairProvider "OSMO" "USDT" []
     ["bitget"; "gate"; "huobi"];
   mkCurrencyPairProvider "OSMO" "ATOM" []
     ["osmosis"];
   mkCurrencyPairProvider "stATOM" "ATOM" []
     ["osmosis"; "crescent"];
   mkCurrencyPairProvider "stOSMO" "OSMO" []
     ["osmosis"];
   mkCurrencyPairProvider "DAI" "USDT" []
     ["okx"; "bitget"; "huobi"];
   mkCurrencyPairProvider "DAI" "USD" []
     ["kraken"];
   mkCurrencyPairProvider "JUNO" "USDT" []
     ["bitget"; "mexc"];
   mkCurrencyPairProvider "JUNO" "USD" []
     ["kraken"];
   mkCurrencyPairProvider "JUNO" "ATOM" []
     ["osmosis"];
   mkCurrencyPairProvider "stJUNO" "JUNO" []
     ["osmosis"];
   mkCurrencyPairProvider "SCRT" "USD" []
     ["kraken"];
   mkCurrencyPairProvider "SCRT" "USDT" []
     ["mexc"; "gate"];
   mkCurrencyPairProvider "WBTC" "USDT" []
     ["okx"; "bitget"; "crypto"];
   mkCurrencyPairProvider "USDC" "USDT" []
     ["okx"; "bitget"; "kraken"];
   mkCurrencyPairProvider "USDC" "USD" []
     ["kraken"];
   mkCurrencyPairProvider "IST" "OSMO" []
     ["osmosis"];
   mkCurrencyPairProvider "IST" "USDC" []
     ["crescent"];
   mkCurrencyPairProvider "BNB" "USDT" []
     ["mexc"; "bitget"; "okx"];
   mkCurrencyPairProvider "LUNA" "USDT" []
     ["okx"; "gate"; "huobi"; "bitget"];
   mkCurrencyPairProvider "DOT" "USD" []
     ["kraken"; "coinbase"; "crypto"];
   mkCurrencyPairProvider "DOT" "USDT" []
     ["gate"; "bitget"];
   mkCurrencyPairProvider "AXL" "USD" []
     ["coinbase"; "crypto"];
   mkCurrencyPairProvider "AXL" "OSMO" []
     ["osmosis"];
   mkCurrencyPairProvider "STARS" "ATOM" []
     ["osmosis"];
   mkCurrencyPairProvider "STARS" "OSMO" []
     ["osmosis"];
   mkCurrencyPairProvider "XRP" "USD" []
     ["kraken"; "coinbase"];
   mkCurrencyPairProvider "XRP" "USDT" []
     ["gate"; "mexc"; "bitget"];
   mkCurrencyPairProvider "USK" "USDC" []
     ["kujira"];
   mkCurrencyPairProvider "KUJI" "USDC" []
     ["kujira"];
   mkCurrencyPairProvider "MNTA" "USDC" []
     ["kujira"];
   mkCurrencyPairProvider "MATIC" "USDT" []
     ["mexc"; "bitget"];
   mkCurrencyPairProvider "MATIC" "USD" []
     ["coinbase"; "kraken"];
   mkCurrencyPairProvider "CMST" "OSMO" []
     ["osmosis"];
   mkCurrencyPairProvider "LINK" "USD" []
     ["crypto"; "kraken"];
   mkCurrencyPairProvider "SUSHI" "USDT" []
     ["okx"; "bitget"];
   mkCurrencyPairProvider "SUSHI" "USD" []
     ["coinbase"];
   mkCurrencyPairProvider "CMDX" "OSMO" []
     ["osmosis"];
   mkCurrencyPairProvider "CRV" "USDT" []
     ["okx"; "bitget"; "mexc"];
   mkCurrencyPairProvider "CRV" "USD" []
     ["coinbase"];
   mkCurrencyPairProvider "MKR" "USDT" []
     ["okx"; "bitget"; "crypto"];
   mkCurrencyPairProvider "MKR" "USD" []
     ["coinbase"];
   mkCurrencyPairProvider "SEI" "USDT" []
     ["bitget"];
   mkCurrencyPairProvider "SEI" "USD" []
     ["coinbase"; "kraken"; "crypto"];
   mkCurrencyPairProvider "INJ" "USDT" []
     ["bitget"; "mexc"; "crypto"];
   mkCurrencyPairProvider "INJ" "USD" []
     ["coinbase"];
   mkCurrencyPairProvider "RETH" "WETH" [
     mkPairAddressProvider "0xa4e0faA58465A2D369aa21B3e42d43374c6F9613" "eth-uniswap"]
     ["eth-uniswap"];
   mkCurrencyPairProvider "WETH" "USDC" [
     mkPairAddressProvider "0x88e6a0c2ddd26feeb64f039a2c41296fcb3f5640" "eth-uniswap"]
     ["eth-uniswap"];
   mkCurrencyPairProvider "CBETH" "WETH" [
     mkPairAddressProvider "0x840deeef2f115cf50da625f7368c24af6fe74410" "eth-uniswap"]
     ["eth-uniswap"]]%string.

Definition migrated_CurrencyDeviationThresholds : list CurrencyDeviationThreshold := [
   mkCurrencyDeviationThreshold "USDT" "1.5"; mkCurrencyDeviationThreshold "ATOM" "1.5";
   mkCurrencyDeviationThreshold "ETH" "2"; mkCurrencyDeviationThreshold "BTC" "2";
   mkCurrencyDeviationThreshold "OSMO" "2"; mkCurrencyDeviationThreshold "stATOM" "2";
   mkCurrencyDeviationThreshold "stOSMO" "2"; mkCurrencyDeviationThreshold "DAI" "2";
   mkCurrencyDeviationThreshold "JUNO" "2"; mkCurrencyDeviationThreshold "stJUNO" "2";
   mkCurrencyDeviationThreshold "SCRT" "2"; mkCurrencyDeviationThreshold "WBTC" "2";
   mkCurrencyDeviationThreshold "USDC" "1.5"; mkCurrencyDeviationThreshold "IST" "2";
   mkCurrencyDeviationThreshold "BNB" "2"; mkCurrencyDeviationThreshold "LUNA" "2";
   mkCurrencyDeviationThreshold "DOT" "2"; mkCurrencyDeviationThreshold "AXL" "2";
   mkCurrencyDeviationThreshold "STARS" "2"; mkCurrencyDeviationThreshold "XRP" "2";
   mkCurrencyDeviationThreshold "USK" "2"; mkCurrencyDeviationThreshold "KUJI" "2";
   mkCurrencyDeviationThreshold "MNTA" "2"; mkCurrencyDeviationThreshold "RETH" "2";
   mkCurrencyDeviationThreshold "WETH" "2"; mkCurrencyDeviationThreshold "CBETH" "2";
   mkCurrencyDeviationThreshold "CMST" "2"; mkCurrencyDeviationThreshold "CMDX" "2";
   mkCurrencyDeviationThreshold "MATIC" "2"; mkCurrencyDeviationThreshold "LINK" "2";
   mkCurrencyDeviationThreshold "SUSHI" "2"; mkCurrencyDeviationThreshold "CRV" "2";
   mkCurrencyDeviationThreshold "MKR" "2"; mkCurrencyDeviationThreshold "INJ" "2";
   mkCurrencyDeviationThreshold "SEI" "2"]%string.

Section migrator.
Context {W : Type} `{StakingKeeper W}.

Definition MigrateValidatorSet : M (State W) () := SetValidatorRewardSet.
Definition MigrateCurrencyPairProviders : M (State W) () :=
  SetCurrencyPairProviders migrated_CurrencyPairProviders.
Definition MigrateCurrencyDeviationThresholds : M (State W) () :=
  SetCurrencyDeviationThresholds migrated_CurrencyDeviationThresholds.
End migrator.

(** The two tables are about the same denoms, one threshold for each, no pair is
    listed twice and the addresses of a pair are of its providers. *)
Lemma migrated_tables_match :
  NoDup (map cdt_BaseDenom migrated_CurrencyDeviationThresholds) ∧
  Forall (λ c, cpp_BaseDenom c ∈ map cdt_BaseDenom migrated_CurrencyDeviationThresholds)
    migrated_CurrencyPairProviders ∧
  Forall (λ t, cdt_BaseDenom t ∈ map cpp_BaseDenom migrated_CurrencyPairProviders)
    migrated_CurrencyDeviationThresholds ∧
  NoDup (map (λ c, (cpp_BaseDenom c, cpp_QuoteDenom c)) migrated_CurrencyPairProviders) ∧
  Forall (λ c, Forall (λ a, AddressProvider a ∈ cpp_Providers c) (cpp_PairAddress c))
    migrated_CurrencyPairProviders.
Proof. split_and!; refine (bool_decide_unpack _ _); vm_compute; exact I. Qed.

(** ** [migrate_proposal.go] *)

(** [govv1.Proposal], as far as the migration touches it. *)
Class GovCodec (P : Type) := {
  prop_Messages : P → list Any;
  prop_set_Messages : list Any → P → P;
  prop_Unmarshal : bytes → P * option error;
  prop_Marshal : P → outcome bytes;
}.
Class GovCodecLaws (P : Type) `{GovCodec P} : Prop :=
  prop_Messages_set l p : prop_Messages (prop_set_Messages l p) = l.

Section proposals.
Context {P : Type} `{GovCodec P} `{DecCodec} `{ProtoMessage DecCoin} `{CoinNil}.

(** The new message; the height is a placeholder. *)
Definition new_update_message (old : MsgLegacyGovUpdateParams) : MsgGovUpdateParams :=
  mkMsgUpdate (ml_Authority old) (ml_Title old) (ml_Description old)
    (mkPlan (ml_Keys old) 0 (ml_Changes old)).

(** The body of the loop: the type URL stays. *)
Definition convert_message (msg : Any) : outcome Any :=
  oldUpdateParamMsg ← pb_Unmarshal (A := MsgLegacyGovUpdateParams) pb_empty (Value msg);
  value ← pb_Marshal (new_update_message oldUpdateParamMsg);
  Ok (mkAny (TypeUrl msg) value).

Definition convertProposal (prop : P) : outcome P :=
  msgs ← foldM (λ msgs msg, msg' ← convert_message msg; Ok (msgs ++ [msg'])) (prop_Messages prop) [];
  Ok (prop_set_Messages msgs prop).

(** One stored proposal: only one that cannot be decoded is converted. *)
Definition migrate_entry (key : string) (value : bytes) : M (gmap string bytes) () :=
  match prop_Unmarshal value with
  | (prop, Some _) =>
      newProp ← lift (convertProposal prop);
      bz ← lift (prop_Marshal newProp);
      modify <[key := bz]>
  | (_, None) => mret ()
  end.

Definition MigrateProposals : M (gmap string bytes) () :=
  propStore ← gets id;
  forM (λ e, migrate_entry e.1 e.2) (Walk propStore).

(** ** What a migration leaves *)

(** The value that replaces a stored one. *)
Definition migrated_value (value : bytes) : outcome bytes :=
  match prop_Unmarshal value with
  | (prop, Some _) => newProp ← convertProposal prop; prop_Marshal newProp
  | (_, None) => Ok value
  end.

Lemma migrate_entry_Ok key value s s' :
  s !! key = Some value → migrate_entry key value s = (Ok (), s') →
  ∃ bz, migrated_value value = Ok bz ∧ s' = <[key := bz]> s.
Proof.
  intros Hk. unfold migrate_entry, migrated_value.
  destruct (prop_Unmarshal value) as [prop [e|]]; [|intros [= <-]].
  - unfold lift, modify, mbind, M_bind, outcome_bind. destruct (convertProposal prop) as [p| |]; [|done..].
    destruct (prop_Marshal p) as [bz| |]; [|done..]. intros [= <-]. by exists bz.
  - exists value. split; [done|]. by rewrite insert_id.
Qed.

Lemma migrate_loop l s s' :
  NoDup l.*1 → (∀ key value, (key, value) ∈ l → s !! key = Some value) →
  forM (λ e, migrate_entry e.1 e.2) l s = (Ok (), s') →
  (∀ key value, (key, value) ∈ l → ∃ bz, migrated_value value = Ok bz ∧ s' !! key = Some bz) ∧
  (∀ key, key ∉ l.*1 → s' !! key = s !! key).
Proof.
  revert s. induction l as [|[key value] l IH]; intros s Hnd Hl Hrun; simpl in *.
  { injection Hrun as <-. split; [intros ?? []%not_elem_of_nil|done]. }
  apply NoDup_cons in Hnd as [Hni Hnd].
  apply M_bind_Ok in Hrun as ([] & s1 & Hone & Hrun).
  apply migrate_entry_Ok in Hone as (bz & Hv & ->); [|by apply Hl, list_elem_of_here].
  apply IH in Hrun as [Hin Hout]; [|done|].
  - split.
    + intros k v [[= -> ->]|Hk]%elem_of_cons; [|by apply Hin].
      exists bz. split; [done|]. rewrite Hout by done. apply lookup_insert_eq.
    + intros k [Hne Hk]%not_elem_of_cons. rewrite Hout by done. by rewrite lookup_insert_ne.
  - intros k v Hk. rewrite lookup_insert_ne; [by apply Hl, list_elem_of_further|].
    intros <-. apply Hni. by apply (list_elem_of_fmap_2 fst) in Hk.
Qed.
End proposals.

Section converted.
Context {P : Type} `{GovCodecLaws P} `{DecCodecLaws} `{ProtoLaws DecCoin} `{CoinNil}.

(** A message and what the conversion makes of it. *)
Definition converted (msg msg' : Any) : Prop :=
  TypeUrl msg' = TypeUrl msg ∧ ∃ old,
    pb_Unmarshal pb_empty (Value msg) = Ok old ∧
    pb_Marshal (new_update_message old) = Ok (Value msg') ∧
    (pb_ok old → pb_Unmarshal pb_empty (Value msg') = Ok (new_update_message old)).

Lemma new_update_message_ok old : pb_ok old → pb_ok (new_update_message old).
Proof. intros Hok. cbn. split; [|exact Hok]. unfold is_i64. simpl. lia. Qed.

Lemma convert_message_Ok msg msg' : convert_message msg = Ok msg' → converted msg msg'.
Proof.
  unfold convert_message. destruct (pb_Unmarshal _ _) as [old| |] eqn:Eo; simpl; [|done..].
  destruct (pb_Marshal _) as [value| |] eqn:Em; simpl; [|done..]. intros [= <-].
  split; [done|]. exists old. split_and!; [done|done|].
  intros Hok. eapply pb_Marshal_Unmarshal; [exact Em|]. by apply new_update_message_ok.
Qed.

Lemma convert_loop l msgs r :
  foldM (λ msgs msg, msg' ← convert_message msg; Ok (msgs ++ [msg'])) l msgs = Ok r →
  ∃ l', r = msgs ++ l' ∧ Forall2 converted l l'.
Proof.
  revert msgs. induction l as [|msg l IH]; intros msgs; simpl.
  { intros [= <-]. exists []. by rewrite app_nil_r. }
  destruct (convert_message msg) as [msg'| |] eqn:E; simpl; [|done..].
  intros (l' & -> & Hl)%IH. exists (msg' :: l'). rewrite <- app_assoc. split; [done|].
  constructor; [by apply convert_message_Ok|done].
Qed.

Lemma convertProposal_Ok prop prop' :
  convertProposal prop = Ok prop' → Forall2 converted (prop_Messages prop) (prop_Messages prop').
Proof.
  unfold convertProposal. destruct (foldM _ _ _) as [msgs| |] eqn:E; simpl; [|done..].
  intros [= <-]. apply convert_loop in E as (l' & -> & Hl). by rewrite prop_Messages_set.
Qed.

(** A message of the old format is converted whenever the new one fits. *)
Lemma convert_message_legacy url old :
  pb_ok old → pb_Size old < 2 ^ 63 → pb_Size (new_update_message old) < 2 ^ 63 →
  ∃ value, convert_message (mkAny url (pb_encode old)) = Ok (mkAny url value) ∧
    pb_Unmarshal pb_empty value = Ok (new_update_message old).
Proof.
  intros Hok Hs Hs'. exists (pb_encode (new_update_message old)).
  pose proof (pb_Size_encode old). pose proof (pb_Size_encode (new_update_message old)).
  unfold convert_message. cbn [Value TypeUrl].
  rewrite (pb_Unmarshal_encode old) by (done || congruence).
  cbn [mbind outcome_bind].
  rewrite pb_Marshal_encode, (proj2 (Z.leb_gt _ _)) by congruence. split; [done|].
  rewrite pb_Unmarshal_encode; [done|by apply new_update_message_ok|congruence].
Qed.

Lemma convert_legacy_list (l : list (string * MsgLegacyGovUpdateParams)) msgs :
  Forall (λ m, pb_ok m.2 ∧ pb_Size m.2 < 2 ^ 63 ∧ pb_Size (new_update_message m.2) < 2 ^ 63) l →
  ∃ l', foldM (λ msgs msg, msg' ← convert_message msg; Ok (msgs ++ [msg']))
          (map (λ m, mkAny m.1 (pb_encode m.2)) l) msgs = Ok (msgs ++ l') ∧
    Forall2 (λ m msg', TypeUrl msg' = m.1 ∧
      pb_Unmarshal pb_empty (Value msg') = Ok (new_update_message m.2)) l l'.
Proof.
  intros Hl. revert msgs. induction Hl as [|[url old] l (? & ? & ?) _ IH]; intros msgs.
  { exists []. by rewrite app_nil_r. }
  cbn [map foldM fst snd] in *.
  destruct (convert_message_legacy url old) as (value & -> & Hv); [done..|].
  cbn [mbind outcome_bind].
  destruct (IH (msgs ++ [mkAny url value])) as (l' & -> & Hl').
  exists (mkAny url value :: l'). rewrite <- app_assoc. split; [done|]. by constructor.
Qed.
End converted.
