(* ===== verification/Simulation.v ===== *)
(** * Simulation: the random genesis and operations of the fuzzer

    [src/x/oracle/simulations], [src/util/sim] and [src/util/coin].  The random
    source and the parameters of a simulation are classes, and so is the choice
    of accounts.  An operation ends in [GenAndDeliver], which pays the fees and
    hands the transaction to the SDK. *)
From S2P Require Import Prelude Util GoStrings Dec Types Params Store Bech32 Votes Msgs World State.
From S2P Require Import Subspace Keeper MsgServer Rewards EndBlock Chain Genesis.
Local Open Scope Z_scope.

(** [*rand.Rand]: a draw below [n]. *)
Class Rand (R : Type) := Intn : Z → M R Z.
Class RandLaws (R : Type) `{Rand R} : Prop :=
  Intn_range n r : 0 < n → ∃ v r', Intn n r = (Ok v, r') ∧ 0 ≤ v < n.

(** [simState.AppParams.GetOrGenerate]: a value given for the key, or the
    generator's. *)
Class AppParams (R : Type) := GetOrGenerate : ∀ A, string → M R A → M R A.

(** ** [genesis.go] *)

Section genesis.
Context {R : Type} `{DecOps} `{Rand R}.

(** [math.LegacyZeroDec().Add(math.LegacyNewDecWithPrec(int64(r.Intn(n)), 3))]. *)
Definition gen_thousandths (n : Z) : M R LegacyDec :=
  v ← Intn n; lift (or_panic (dec_Add LegacyZeroDec (LegacyNewDecWithPrec v 3))).

Definition GenVotePeriod : M R Z := v ← Intn 100; mret (SafeIntToUint64 (5 + v)).
Definition GenVoteThreshold : M R LegacyDec :=
  v ← Intn 33; lift (or_panic (dec_Add (LegacyNewDecWithPrec 34 2) (LegacyNewDecWithPrec v 2))).
Definition GenRewardBand : M R LegacyDec := gen_thousandths 100.
Definition GenRewardDistributionWindow : M R Z :=
  v ← Intn 100000; mret (SafeIntToUint64 (100 + v)).
Definition GenSlashFraction : M R LegacyDec := gen_thousandths 100.
Definition GenSlashWindow : M R Z := v ← Intn 100000; mret (SafeIntToUint64 (100 + v)).
Definition GenMinValidPerWindow : M R LegacyDec := gen_thousandths 500.
Definition GenHistoricStampPeriod : M R Z := v ← Intn 1000; mret (SafeIntToUint64 (100 + v)).
Definition GenMedianStampPeriod : M R Z := v ← Intn 100000; mret (SafeIntToUint64 (10001 + v)).
Definition GenMaximumPriceStamps : M R Z := v ← Intn 100; mret (SafeIntToUint64 (11 + v)).
Definition GenMaximumMedianStamps : M R Z := v ← Intn 100; mret (SafeIntToUint64 (11 + v)).

(** The loop over a list of denoms. *)
Definition gen_bands (denoms : list Denom) (rewardBands : list RewardBand) : M R (list RewardBand) :=
  loopM (λ rewardBands denom, rb ← GenRewardBand;
    mret (rewardBands ++ [mkRewardBand (SymbolDenom denom) rb])) denoms rewardBands.

Context `{AppParams R}.

Definition RandomizedGenState : M R GenesisState :=
  let oracleGenesis := DefaultGenesisState in
  votePeriod ← GetOrGenerate _ "vote_period" GenVotePeriod;
  voteThreshold ← GetOrGenerate _ "vote_threshold" GenVoteThreshold;
  rewardBands ← GetOrGenerate _ "reward_bands"
    (rewardBands ← gen_bands (Types.MandatoryList (gs_Params oracleGenesis)) [];
     gen_bands (Types.AcceptList (gs_Params oracleGenesis)) rewardBands);
  rewardDistributionWindow ← GetOrGenerate _ "reward_distribution_window" GenRewardDistributionWindow;
  slashFraction ← GetOrGenerate _ "slash_fraction" GenSlashFraction;
  slashWindow ← GetOrGenerate _ "slash_window" GenSlashWindow;
  minValidPerWindow ← GetOrGenerate _ "min_valid_per_window" GenMinValidPerWindow;
  historicStampPeriod ← GetOrGenerate _ "historic_stamp_period" GenHistoricStampPeriod;
  medianStampPeriod ← GetOrGenerate _ "median_stamp_period" GenMedianStampPeriod;
  maximumPriceStamps ← GetOrGenerate _ "maximum_price_stamps" GenMaximumPriceStamps;
  maximumMedianStamps ← GetOrGenerate _ "maximum_median_stamps" GenMaximumMedianStamps;
  mret (mkGenesis {|
      Types.VotePeriod := votePeriod;
      Types.VoteThreshold := voteThreshold;
      Types.RewardBands := rewardBands;
      Types.RewardDistributionWindow := rewardDistributionWindow;
      Types.AcceptList := [mkDenom DmDenom DmSymbol 0];
      Types.SlashFraction := slashFraction;
      Types.SlashWindow := slashWindow;
      Types.MinValidPerWindow := minValidPerWindow;
      Types.MandatoryList := [];
      Types.HistoricStampPeriod := historicStampPeriod;
      Types.MedianStampPeriod := medianStampPeriod;
      Types.MaximumPriceStamps := historicStampPeriod;
      Types.MaximumMedianStamps := historicStampPeriod;
      Types.CurrencyPairProviders := [];
      Types.CurrencyDeviationThresholds := [];
      Types.UsdcIbcDenom := "";
      Types.SlashingEnabled := false;
      Types.AveragingWindow := 0 |}
    [] [] [] [] [] [] [] []).
End genesis.

(** ** [operations.go] *)

(** An operation ends without a message, or delivers one from the account that
    was found. *)
Inductive OperationMsg : Type :=
  | NoOpMsg (comment : string)
  | Deliver (from : option addr) (msg : omsg).

(** [simtypes.RandomAcc], [RandomDecAmount] and [FindAccount]; the text of a
    decimal. *)
Class SimAccounts (R : Type) := {
  RandomAcc : list addr → M R addr;
  RandomDecAmount : LegacyDec → M R LegacyDec;
  FindAccount : list addr → addr → option addr;
  dec_String : LegacyDec → string;
}.

Section operations.
Context {R W : Type} `{DecOps} `{SimAccounts R} `{StakingKeeper W} `{Bech32} `{TmHash}.
(** The random source and the map from validators to the rates they committed
    to, which the operations share. *)
Abbreviation Op := (M (R * gmap string string)) (only parsing).

Definition on_rand {A} (m : M R A) : Op A := λ '(r, hashes),
  let '(res, r') := m r in (res, (r', hashes)).

Definition salt : string := "89b8164ca0b4b8703ae9ab25962f3dd6d1de5d656f5442971a93b2ca7893f654".
Definition acceptList : list string := [DmSymbol; USDSymbol].
Definition ojoPrice : LegacyDec := LegacyNewDecWithPrec 2571 2.

(** The order of the map iteration is lost in the sort. *)
Definition GenerateExchangeRatesString (prices : gmap string LegacyDec) : string :=
  Join "," (merge_sort String.le (map (λ e, e.1 +:+ ":" +:+ dec_String e.2)%string (map_to_list prices))).

(** [val == nil || !val.IsBonded() || err != nil]. *)
Definition bonded_validator (s : State W) (address : addr) : outcome bool :=
  match Validator (world s) address with
  | Ok (Some val) => Ok (IsBonded val)
  | Ok None | Err _ => Ok false
  | Panic => Panic
  end.

(** [feederAddr, _ := k.GetFeederDelegation(ctx, address)]. *)
Definition feeder_or_nil (s : State W) (address : addr) : outcome addr :=
  match (GetFeederDelegation address s).1 with
  | Ok a => Ok a
  | Err _ => Ok ""%string
  | Panic => Panic
  end.

Definition SimulateMsgAggregateExchangeRatePrevote (s : State W) (accs : list addr) : Op OperationMsg :=
  address ← lift (or_panic (accs !! 1%nat));
  bonded ← lift (bonded_validator s address);
  if negb bonded then mret (NoOpMsg "unable to find validator") else
  if bool_decide (is_Some (Prevotes s !! address))
  then mret (NoOpMsg "prevote already exists for this validator") else
  prices ← loopM (λ prices denom,
    amount ← on_rand (RandomDecAmount LegacyOneDec);
    price ← lift (or_panic (dec_Add ojoPrice amount));
    mret (<[denom := price]> prices)) acceptList ∅;
  let exchangeRatesStr := GenerateExchangeRatesString prices in
  let voteHash := GetAggregateVoteHash salt exchangeRatesStr address in
  feederAddr ← lift (feeder_or_nil s address);
  let msg := NewMsgAggregateExchangeRatePrevote voteHash feederAddr address in
  modify (λ '(r, hashes), (r, <[ValAddress_String address := exchangeRatesStr]> hashes));;
  mret (Deliver (FindAccount accs feederAddr) (OPrevote msg)).

Definition SimulateMsgAggregateExchangeRateVote (s : State W) (accs : list addr) : Op OperationMsg :=
  address ← on_rand (RandomAcc accs);
  bonded ← lift (bonded_validator s address);
  if negb bonded then mret (NoOpMsg "unable to find validator") else
  hashes ← gets snd;
  match hashes !! ValAddress_String address with
  | None => mret (NoOpMsg "vote hash does not exist")
  | Some exchangeRatesStr =>
      match Prevotes s !! address with
      | None => mret (NoOpMsg "prevote not found")
      | Some prevote =>
          let vp := Types.VotePeriod (paramSpace s) in
          now ← lift (go_div (SafeInt64ToUint64 (BlockHeight s)) vp);
          submitted ← lift (go_div (pv_SubmitBlock prevote) vp);
          if negb (wrap_u64 (now - submitted) =? 1)
          then mret (NoOpMsg "reveal period of submitted vote does not match with registered prevote")
          else
          feederAddr ← lift (feeder_or_nil s address);
          let msg := NewMsgAggregateExchangeRateVote salt exchangeRatesStr feederAddr address in
          mret (Deliver (FindAccount accs feederAddr) (OVote msg))
      end
  end.

Definition SimulateMsgDelegateFeedConsent (s : State W) (accs : list addr) : Op OperationMsg :=
  valAddress ← on_rand (RandomAcc accs);
  delegate ← on_rand (RandomAcc accs);
  match Validator (world s) valAddress with
  | Ok (Some _) =>
      match Validator (world s) delegate with
      | Ok None => mret (Deliver (Some valAddress) (ODelegate (NewMsgDelegateFeedConsent valAddress delegate)))
      | Ok (Some _) | Err _ => mret (NoOpMsg "unable to delegate to validator")
      | Panic => panic
      end
  | Ok None | Err _ => mret (NoOpMsg "unable to find validator")
  | Panic => panic
  end.

(** *** Weights *)

Definition DefaultWeightMsgSend : Z := 100.
Definition DefaultWeightMsgSetWithdrawAddress : Z := 50.
Definition OpWeightMsgAggregateExchangeRatePrevote : string :=
  "op_weight_msg_exchange_rate_aggregate_prevote".
Definition OpWeightMsgAggregateExchangeRateVote : string :=
  "op_weight_msg_exchange_rate_aggregate_vote".
Definition OpWeightMsgDelegateFeedConsent : string := "op_weight_msg_exchange_feed_consent".

(** The generators of the weights draw nothing. *)
Definition WeightedOperations `{AppParams R} :
    M R (list (Z * (State W → list addr → Op OperationMsg))) :=
  weightMsgAggregateExchangeRatePrevote ← GetOrGenerate _ OpWeightMsgAggregateExchangeRatePrevote
    (mret (DefaultWeightMsgSend * 2));
  weightMsgAggregateExchangeRateVote ← GetOrGenerate _ OpWeightMsgAggregateExchangeRateVote
    (mret (DefaultWeightMsgSend * 2));
  weightMsgDelegateFeedConsent ← GetOrGenerate _ OpWeightMsgDelegateFeedConsent
    (mret DefaultWeightMsgSetWithdrawAddress);
  mret [(weightMsgAggregateExchangeRatePrevote, SimulateMsgAggregateExchangeRatePrevote);
        (weightMsgAggregateExchangeRateVote, SimulateMsgAggregateExchangeRateVote);
        (weightMsgDelegateFeedConsent, SimulateMsgDelegateFeedConsent)].

(** The decimals are printed without separators. *)
Definition plain_decimals : Prop :=
  ∀ x, str_contains "," (dec_String x) = false ∧ str_contains ":" (dec_String x) = false.
End operations.

(** ** Lemmas *)

(** [draws m P]: the generator ends with a value in [P] whatever it draws. *)
Definition draws {R A} (m : M R A) (P : A → Prop) : Prop := ∀ r, ∃ a r', m r = (Ok a, r') ∧ P a.

Section draws.
Context {R : Type} `{DecLaws} `{RandLaws R}.

Lemma draws_ret {A} (a : A) (P : A → Prop) : P a → draws (R := R) (mret a) P.
Proof. intros HP r. by exists a, r. Qed.

Lemma draws_bind {A B} (m : M R A) (f : A → M R B) P Q :
  draws m P → (∀ a, P a → draws (f a) Q) → draws (m ≫= f) Q.
Proof.
  intros Hm Hf r. destruct (Hm r) as (a & r1 & E & Ha). destruct (Hf a Ha r1) as (b & r2 & E' & Hb).
  exists b, r2. unfold mbind, M_bind. by rewrite E, E'.
Qed.

Lemma draws_Intn n : 0 < n → draws (Intn n) (λ v, 0 ≤ v < n).
Proof. intros Hn r. by apply Intn_range. Qed.

(** A draw of an integer above a base. *)
Lemma draws_from base n : 0 ≤ base → 0 < n →
  draws (v ← Intn n; mret (SafeIntToUint64 (base + v))) (λ v, base ≤ v < base + n).
Proof.
  intros Hb Hn. eapply draws_bind; [by apply draws_Intn|]. intros v Hv. cbn beta in Hv. apply draws_ret.
  unfold SafeIntToUint64. destruct (Z.ltb_spec (base + v) 0); lia.
Qed.

(** Small sums do not overflow. *)
Lemma draws_Add a b P : 0 ≤ a + b < 2 ^ 99 → P (a + b) →
  draws (R := R) (lift (or_panic (dec_Add a b))) P.
Proof.
  intros Hr HP r. exists (a + b), r. split; [|done]. unfold lift. rewrite dec_Add_spec.
  unfold dec_checked. rewrite (proj2 (Z.ltb_lt _ _)); [done|]. pose proof dec_max_bits_big.
  rewrite Z.abs_eq by lia. apply Z.lt_le_trans with (2 ^ 99); [lia|]. apply Z.pow_le_mono_r; lia.
Qed.

Lemma draws_thousandths n : 0 < n ≤ 1000 →
  draws (gen_thousandths n) (λ d, 0 ≤ d < n * 10 ^ 15).
Proof.
  intros Hn. eapply draws_bind; [apply draws_Intn; lia|]. intros v Hv. cbn beta in Hv.
  unfold LegacyNewDecWithPrec, LegacyZeroDec. change (18 - 3) with 15.
  apply draws_Add; cbn beta; lia.
Qed.

Lemma draws_threshold :
  draws GenVoteThreshold (λ d, LegacyNewDecWithPrec 34 2 ≤ d ≤ LegacyNewDecWithPrec 66 2).
Proof.
  eapply draws_bind; [by apply draws_Intn|]. intros v Hv. cbn beta in Hv. unfold LegacyNewDecWithPrec.
  change (18 - 2) with 16. apply draws_Add; cbn beta; lia.
Qed.

Lemma draws_bands denoms bands :
  Forall (λ b, 0 ≤ rb_RewardBand b < LegacyOneDec) bands →
  draws (gen_bands denoms bands) (Forall (λ b, 0 ≤ rb_RewardBand b < LegacyOneDec)).
Proof.
  revert bands. induction denoms as [|d denoms IH]; intros bands Hb; [by apply draws_ret|].
  unfold gen_bands. cbn [loopM]. eapply (draws_bind _ _ (Forall _)); [|intros; by apply IH].
  eapply draws_bind; [by apply (draws_thousandths 100)|]. intros v Hv. cbn beta in Hv. apply draws_ret.
  apply Forall_app_2; [done|]. constructor; [|done]. simpl. unfold LegacyOneDec, precision. lia.
Qed.
End draws.

(** The ranges of the generated parameters. *)
Record in_ranges (p : Params) : Prop := {
  vote_period_range : 5 ≤ Types.VotePeriod p < 105;
  vote_threshold_range :
    LegacyNewDecWithPrec 34 2 ≤ Types.VoteThreshold p ≤ LegacyNewDecWithPrec 66 2;
  reward_bands_range : Forall (λ b, 0 ≤ rb_RewardBand b < LegacyOneDec) (Types.RewardBands p);
  reward_distribution_window_range : 100 ≤ Types.RewardDistributionWindow p < 100100;
  slash_fraction_range : 0 ≤ Types.SlashFraction p < 100 * 10 ^ 15;
  slash_window_range : 100 ≤ Types.SlashWindow p < 100100;
  min_valid_range : 0 ≤ Types.MinValidPerWindow p < 500 * 10 ^ 15;
  historic_stamp_period_range : 100 ≤ Types.HistoricStampPeriod p < 1100;
  median_stamp_period_range : 10001 ≤ Types.MedianStampPeriod p < 110001;
}.

Lemma RandomizedGenState_draws {R} `{DecLaws} `{RandLaws R} `{AppParams R} :
  (∀ A key (gen : M R A), GetOrGenerate A key gen = gen) →
  draws RandomizedGenState (λ g, ∃ p, g = mkGenesis p [] [] [] [] [] [] [] [] ∧ in_ranges p ∧
    Types.AveragingWindow p = 0 ∧ Types.MandatoryList p = []).
Proof.
  intros Hg. unfold RandomizedGenState. rewrite ?Hg.
  eapply draws_bind; [by apply (draws_from 5)|intros vp Hvp].
  eapply draws_bind; [apply draws_threshold|intros vt Hvt].
  eapply draws_bind.
  { eapply draws_bind; [by apply draws_bands|]. intros b Hb. by apply draws_bands. }
  intros bands Hb. rewrite ?Hg.
  eapply draws_bind; [by apply (draws_from 100)|intros rdw Hrdw]. rewrite ?Hg.
  eapply draws_bind; [by apply (draws_thousandths 100)|intros sf Hsf]. rewrite ?Hg.
  eapply draws_bind; [by apply (draws_from 100)|intros sw Hsw]. rewrite ?Hg.
  eapply draws_bind; [by apply (draws_thousandths 500)|intros mv Hmv]. rewrite ?Hg.
  eapply draws_bind; [by apply (draws_from 100)|intros hsp Hhsp]. rewrite ?Hg.
  eapply draws_bind; [by apply (draws_from 10001)|intros msp Hmsp]. rewrite ?Hg.
  eapply draws_bind; [by apply (draws_from 11)|intros mps Hmps]. rewrite ?Hg.
  eapply draws_bind; [by apply (draws_from 11)|intros mms Hmms].
  apply draws_ret. eexists. split; [reflexivity|]. split; [|done]. split; simpl in *; auto; lia.
Qed.

(** No genesis document without an averaging window is imported. *)
Lemma InitGenesis_no_window {W} `{DecOps, Bech32, AccountKeeper W} p (s : State W) :
  Types.AveragingWindow p = 0 → (InitGenesis (mkGenesis p [] [] [] [] [] [] [] []) s).1 = Panic.
Proof.
  intros Hw. unfold InitGenesis. cbn [gs_FeederDelegations gs_ExchangeRates gs_MissCounters gs_Prevotes
    gs_Votes gs_HistoricPrices gs_Medians gs_MedianDeviations gs_Params forM].
  unfold mbind, M_bind, mret, M_ret.
  assert ((SetParams p s).1 = Panic) as Hp.
  { apply SetParams_invalid. intros Hv. rewrite Forall_forall in Hv.
    specialize (Hv (KeyAveragingWindow, validateAveragingWindow (Types.AveragingWindow p))).
    assert (validateAveragingWindow (Types.AveragingWindow p) = Ok ()) as He.
    { apply Hv. unfold ParamSetPairs. set_solver. }
    by rewrite Hw in He. }
  destruct (SetParams p s) as [r s']. simpl in Hp. by subst r.
Qed.

(** ** Operations *)

Class SimAccountsLaws (R : Type) `{SimAccounts R} : Prop :=
  RandomAcc_in accs (r : R) a r' : RandomAcc accs r = (Ok a, r') → a ∈ accs.

Section operation_facts.
Context {R W : Type} `{StakingKeeper W} `{CoinsOps} `{!DistributionKeeper W} `{!BankKeeper W}.
Context `{AccountKeeper W} `{PriceOracle W} `{EventManager}.
Context `{Bech32Laws} `{DecOps} `{CoinLaws} `{YamlDenom} `{Float64} `{TmHashLaws}.
Context `{SimAccountsLaws R}.
Context (k : KeeperConf).
Implicit Types s : State W.

Lemma on_rand_Ok {A} (m : M R A) r hashes a rh :
  on_rand m (r, hashes) = (Ok a, rh) → ∃ r', m r = (Ok a, r') ∧ rh = (r', hashes).
Proof. unfold on_rand. destruct (m r) as [o r']. intros [= -> <-]. by exists r'. Qed.

Lemma bonded_validator_true s a :
  bonded_validator s a = Ok true → ∃ val, Validator (world s) a = Ok (Some val) ∧ IsBonded val = true.
Proof. unfold bonded_validator. destruct (Validator _ _) as [[val|]| |]; naive_solver. Qed.

Lemma feeder_or_nil_bonded s a :
  bonded_validator s a = Ok true → feeder_or_nil s a = Ok (feeder_of s a) ∧ may_feed s (feeder_of s a) a.
Proof.
  intros (val & Hv & Hb)%bonded_validator_true. unfold feeder_or_nil.
  rewrite GetFeederDelegation_run, Hv, Hb. split; [done|]. by exists val.
Qed.

(** The reveal an operation sends is of a pending prevote of the last period. *)
Lemma SimulateVote_Deliver s accs r hashes from msg rh :
  SimulateMsgAggregateExchangeRateVote s accs (r, hashes) = (Ok (Deliver from msg), rh) →
  ∃ v prevote rates now submitted, v ∈ accs ∧ may_feed s (feeder_of s v) v ∧
    hashes !! ValAddress_String v = Some rates ∧ Prevotes s !! v = Some prevote ∧
    go_div (SafeInt64ToUint64 (BlockHeight s)) (Types.VotePeriod (paramSpace s)) = Ok now ∧
    go_div (pv_SubmitBlock prevote) (Types.VotePeriod (paramSpace s)) = Ok submitted ∧
    wrap_u64 (now - submitted) = 1 ∧
    msg = OVote (NewMsgAggregateExchangeRateVote salt rates (feeder_of s v) v).
Proof.
  intros Hrun. apply M_bind_Ok in Hrun as (v & [r1 h1] & Hacc & Hrun).
  apply on_rand_Ok in Hacc as (r' & Hacc & [= -> ->]). apply RandomAcc_in in Hacc.
  apply M_bind_Ok in Hrun as ([] & st & Hb & Hrun); injection Hb as Hb <-; [|done]. cbn [negb] in Hrun.
  apply M_bind_Ok in Hrun as (hs & st & Hh & Hrun). injection Hh as <- <-. cbn [snd] in Hrun.
  destruct (hashes !! _) as [rates|] eqn:Hrates; [|done].
  destruct (Prevotes s !! v) as [prevote|] eqn:Hp; [|done].
  apply M_bind_Ok in Hrun as (now & st & Hn & Hrun). injection Hn as Hn <-.
  apply M_bind_Ok in Hrun as (submitted & st & Hs & Hrun). injection Hs as Hs <-.
  destruct (Z.eqb_spec (wrap_u64 (now - submitted)) 1) as [Hw|]; [|done]. cbn [negb] in Hrun.
  destruct (feeder_or_nil_bonded s v Hb) as [Hf Hm]. rewrite Hf in Hrun.
  injection Hrun as <- <- <-. by exists v, prevote, rates, now, submitted.
Qed.

(** The parts of the generated string. *)
Lemma Generate_fields prices d x :
  plain_decimals → (∀ e, is_Some (prices !! e) → str_contains "," e = false) → prices !! d = Some x →
  GenerateExchangeRatesString prices ≠ "" ∧
  (d +:+ String ":" (dec_String x))%string ∈ Split "," (GenerateExchangeRatesString prices).
Proof.
  intros Hdec Hp Hd. unfold GenerateExchangeRatesString.
  set (fields := map _ _).
  assert ((d +:+ String ":" (dec_String x))%string ∈ merge_sort String.le fields) as Hin.
  { rewrite merge_sort_Permutation. apply list_elem_of_fmap. exists (d, x).
    split; [done|]. by apply elem_of_map_to_list. }
  assert (Forall (λ f, str_contains "," f = false) (merge_sort String.le fields)) as Hc.
  { rewrite merge_sort_Permutation. apply Forall_forall.
    intros f ([e y] & -> & Hl%elem_of_map_to_list)%list_elem_of_fmap.
    cbn [fst snd]. rewrite !str_contains_app, Hp by done. by destruct (Hdec y) as [-> _]. }
  assert (merge_sort String.le fields ≠ []) as Hne by (intros E; rewrite E in Hin; by apply elem_of_nil in Hin).
  rewrite Split_Join by done. split; [|done].
  destruct (merge_sort String.le fields) as [|f [|g l]]; [done| |]; simpl.
  - apply list_elem_of_singleton in Hin as <-. by destruct d.
  - by destruct f.
Qed.

(** No string that validators committed to can be parsed. *)
Definition doomed (hashes : gmap string string) : Prop :=
  ∀ v rates, hashes !! v = Some rates → ∀ coins, ParseExchangeRateDecCoins rates ≠ Ok coins.

Definition stays_doomed (a b : R * gmap string string) : Prop := doomed a.2 → doomed b.2.
#[local] Instance stays_doomed_preorder : PreOrder stays_doomed.
Proof. unfold stays_doomed. split; [by intros ?|]. intros ???; auto. Qed.

Lemma on_rand_doomed {A} (m : M R A) : keeps stays_doomed (on_rand m).
Proof. intros [r h] o st. unfold on_rand. destruct (m r). intros [= _ <-] Hh. exact Hh. Qed.
#[local] Hint Resolve on_rand_doomed : keeps.

(** The prices an operation draws: one for each denom of the list. *)
Lemma drawn_prices (draw : M (R * gmap string string) LegacyDec) st (prices : gmap string LegacyDec) st' :
  loopM (λ prices denom, amount ← draw; price ← lift (or_panic (dec_Add ojoPrice amount));
           mret (<[denom := price]> prices)) acceptList ∅ st = (Ok prices, st') →
  is_Some (prices !! DmSymbol) ∧ ∀ e, is_Some (prices !! e) → str_contains "," e = false.
Proof.
  cbn [loopM acceptList]. intros Hrun.
  apply M_bind_Ok in Hrun as (m1 & s1 & H1' & Hrun). apply M_bind_Ok in Hrun as (m2 & s2 & H2' & Hrun).
  injection Hrun as <- <-.
  apply M_bind_Ok in H1' as (a & t1 & _ & H1'). apply M_bind_Ok in H1' as (x & t2 & _ & [= <- _]).
  apply M_bind_Ok in H2' as (b & t3 & _ & H2'). apply M_bind_Ok in H2' as (y & t4 & _ & [= <- _]).
  split; [exists x; by rewrite lookup_insert_ne, lookup_insert_eq|].
  intros e. rewrite !lookup_insert_is_Some', lookup_empty. intros [<-|[<-|[? ?]]]; done.
Qed.

Lemma SimulatePrevote_doomed s accs :
  plain_decimals → refused DmSymbol → keeps stays_doomed (SimulateMsgAggregateExchangeRatePrevote s accs).
Proof.
  intros Hdec Hd. unfold SimulateMsgAggregateExchangeRatePrevote.
  apply keeps_bind; [apply _|keeps_tac|intros v]. apply keeps_bind; [apply _|keeps_tac|intros b].
  destruct (negb b); [keeps_tac|]. destruct (bool_decide _); [keeps_tac|].
  apply keeps_bind_run; [apply _|keeps_tac|].
  intros st prices st1 [[x Hx] Hkeys]%drawn_prices r st' Hrun.
  destruct (Generate_fields prices DmSymbol x Hdec Hkeys Hx) as [Hne Hin].
  revert Hrun. cbv zeta. generalize (GetAggregateVoteHash salt (GenerateExchangeRatesString prices) v). intros h.
  revert st1 r st'. match goal with |- ∀ st1 r st', ?m st1 = _ → _ => change (keeps stays_doomed m) end.
  keeps_tac. apply keeps_modify. intros [r hs] Hh w rates. cbn [snd].
  intros [[_ <-]|[_ Hl]]%lookup_insert_Some; [|by eapply Hh].
  by apply (Parse_refused _ DmSymbol (dec_String x)); [..|apply Hdec|done|].
Qed.

(** A reveal whose rates cannot be parsed is refused. *)
Lemma SimulateVote_refused s accs r hashes from msg rh s' :
  doomed hashes →
  SimulateMsgAggregateExchangeRateVote s accs (r, hashes) = (Ok (Deliver from msg), rh) →
  deliver k msg s ≠ (Ok (), s').
Proof.
  intros Hh (v & p & rates & now & sub & _ & _ & Hr & _ & _ & _ & _ & ->)%SimulateVote_Deliver Hrun.
  apply Vote_writes in Hrun as (? & parsed & _ & Hp & _). by eapply Hh.
Qed.
End operation_facts.

(** ** [src/util/coin/math.go] *)

(** [sdk.Coin], [sdk.NewCoin], which panics on a coin that is not valid, and the
    roundings of [LegacyDec]; [LegacyMustNewDecFromStr] panics on an error. *)
Record Coin := mkCoin { coin_Denom : string; coin_Amount : Z }.
Class CoinRounding := {
  NewCoin : string → Z → outcome Coin;
  dec_Ceil : LegacyDec → option LegacyDec;
  dec_RoundInt : LegacyDec → option Z;
}.

Section builder.
Context `{DecOps} `{CoinRounding}.

(** The builder changes its coin in place and returns itself. *)
Definition NewDecBld (d : DecCoin) : DecCoin := d.
Definition Scale (f : Z) (d : DecCoin) : outcome DecCoin :=
  amount ← or_panic (dec_MulInt64 (dc_Amount d) f); Ok (mkDecCoin (dc_Denom d) amount).
Definition ScaleStr (f : string) (d : DecCoin) : outcome DecCoin :=
  x ← must_ok (LegacyNewDecFromStr f);
  amount ← or_panic (dec_Mul (dc_Amount d) x); Ok (mkDecCoin (dc_Denom d) amount).
Definition ToCoin (d : DecCoin) : outcome Coin :=
  up ← or_panic (dec_Ceil (dc_Amount d)); n ← or_panic (dec_RoundInt up); NewCoin (dc_Denom d) n.
Definition ToCoins (d : DecCoin) : outcome (list Coin) := c ← ToCoin d; Ok [c].
Definition ToDecCoins (d : DecCoin) : list DecCoin := [d].

(** ** [src/util/sim/deliver.go] *)

(** What [GenAndDeliver] asks of the bank and of the simulator of the SDK;
    [SafeSub] says whether a difference is negative. *)
Class SimDelivery (W : Type) := {
  SpendableCoins : W → addr → list Coin;
  SafeSub_hasNeg : list Coin → list Coin → bool;
  NewDecCoin : string → Z → outcome DecCoin;
  FundAccount : addr → list Coin → M W ();
  GenAndDeliverTx : omsg → addr → list Coin → M W ();
}.

(** Without an account, [GetAddress] is called on nil. *)
Context {W : Type} `{SimDelivery W}.

Definition fee_coins (gasLimit : Z) : outcome (list Coin) :=
  d ← NewDecCoin "ncheq" 10; d ← Scale (SafeUint64ToInt64 gasLimit) (NewDecBld d); ToCoins d.

(** [fmt.Errorf] around the error of a call. *)
Definition wrap_error {A} (text : string) (m : M W A) : M W A := λ w,
  match m w with (Err _, w') => (Err (Errorf text), w') | r => r end.

(** [true] for a message that was delivered. *)
Definition GenAndDeliver (GetAccount : W → addr → option addr) (msg : omsg) (simAccount : addr)
    (coinsSpentInMsg : list Coin) (gasLimit : Z) : M W bool :=
  let gasLimit := if gasLimit =? 0 then 10 else gasLimit in
  account ← gets (λ w, GetAccount w simAccount);
  address ← lift (or_panic account);
  spendable ← gets (λ w, SpendableCoins w address);
  if SafeSub_hasNeg spendable coinsSpentInMsg then mret false else
  fees ← lift (fee_coins gasLimit);
  (if SafeSub_hasNeg spendable fees then
     fund ← lift (fee_coins (wrap_u64 (gasLimit * 1000)));
     wrap_error "can't fund account [%s] to pay fees; [%w]" (FundAccount simAccount fund)
   else mret ());;
  GenAndDeliverTx msg simAccount fees;;
  mret true.
End builder.

(** ** [decoder.go] *)

(** The text of a decoded value: [MustUnmarshal] of the two protobuf messages of
    other packages, and Go's [%v]. *)
Class StoreText := {
  DecProto_text : bytes → outcome string;
  UInt64Value_text : bytes → outcome string;
  AccAddress_text : bytes → string;
  prevote_text : bytes → outcome string;
  vote_text : bytes → outcome string;
}.

Section decoder.
Context `{StoreText}.

Definition both_texts (text : bytes → outcome string) (a b : bytes) : outcome string :=
  x ← text a; y ← text b; Ok (x +:+ String "010" y)%string.

(** [kvA.Key[:1]] panics on an empty key. *)
Definition NewDecodeStore (kvA kvB : bytes * bytes) : outcome string :=
  match kvA.1 with
  | [] => Panic
  | p :: _ =>
      if decide ([p] = KeyPrefixExchangeRate) then both_texts DecProto_text kvA.2 kvB.2 else
      if decide ([p] = KeyPrefixFeederDelegation)
      then both_texts (λ v, Ok (AccAddress_text v)) kvA.2 kvB.2 else
      if decide ([p] = KeyPrefixMissCounter) then both_texts UInt64Value_text kvA.2 kvB.2 else
      if decide ([p] = KeyPrefixAggregateExchangeRatePrevote)
      then both_texts prevote_text kvA.2 kvB.2 else
      if decide ([p] = KeyPrefixAggregateExchangeRateVote) then both_texts vote_text kvA.2 kvB.2 else
      Panic
  end.

(** The prefixes of the collections that the decoder does not know. *)
Definition undecoded_prefixes : list bytes := [
  KeyPrefixMedian; KeyPrefixMedianDeviation; KeyPrefixHistoricPrice; KeyPrefixValidatorRewardSet;
  KeyPrefixParamUpdatePlan; KeyPrefixLastHistoricPriceBlock; KeyPrefixAverages].

(** A difference in one of these collections ends a simulation with a panic. *)
Lemma undecoded_panics p rest valueA kvB :
  p ∈ undecoded_prefixes → NewDecodeStore (p ++ rest, valueA) kvB = Panic.
Proof.
  intros Hp. repeat (apply elem_of_cons in Hp as [->|Hp]; [reflexivity|]). by apply elem_of_nil in Hp.
Qed.
End decoder.
