(* ===== verification/Query.v ===== *)
(** * Query: the gRPC queries of the oracle module

    [src/x/oracle/keeper/grpc_query.go].  A request pointer is an option.
    [sdk.DecCoins.Add] is the SDK's: the class [CoinsOps]. *)
From S2P Require Import Prelude Util GoStrings Dec Types Params Store Bech32 Votes World.
From S2P Require Import State Subspace Keeper HistoricPrice Averages Rewards.
Local Open Scope Z_scope.

Definition InvalidArgument : error := Sdk "codes.InvalidArgument".
Definition NotFound : error := Sdk "codes.NotFound".
Definition Internal : error := Sdk "codes.Internal".

Record QueryMedians := mkQueryMedians { qm_Denom : string; qm_NumStamps : Z }.
Record QueryWMARequest := mkQueryWMA {
  qw_Denom : string; qw_Strategy : string; qw_CustomWeights : list Z }.

Module Querier.
Section query.
Context {W : Type} `{DecOps, Bech32, CoinOps, CoinsOps, StakingKeeper W}.
Abbreviation K := (M (State W)) (only parsing).

(** [if req == nil] in front of each query. *)
Definition with_request {R A} (req : option R) (f : R → K A) : K A :=
  match req with None => throw InvalidArgument | Some req => f req end.

(** The address of a request. *)
Definition request_address (s : string) : K addr :=
  lift (match ValAddressFromBech32 s with Err _ => Err InvalidArgument | o => o end).

Definition Params (req : option ()) : K Types.Params := with_request req (λ _, GetParams).

Definition add_rate (denom : string) (rate : LegacyDec) (exchangeRates : DecCoins) : K DecCoins :=
  coin ← lift (NewDecCoinFromDec denom rate);
  lift (or_panic (DecCoins_Add exchangeRates coin)).

Definition ExchangeRates (req : option string) : K DecCoins :=
  with_request req (λ denom,
    if (0 <? String.length denom)%nat then
      exchangeRate ← GetExchangeRate denom;
      add_rate denom exchangeRate no_DecCoins
    else
      IterateExchangeRates (λ denom rate exchangeRates,
        exchangeRates ← add_rate denom rate exchangeRates; mret (false, exchangeRates)) no_DecCoins).

Definition ActiveExchangeRates (req : option ()) : K (list string) :=
  with_request req (λ _,
    IterateExchangeRates (λ denom _ denoms, mret (false, denoms ++ [denom])) []).

Definition FeederDelegation (req : option string) : K string :=
  with_request req (λ validatorAddr,
    valAddr ← request_address validatorAddr;
    feederAddr ← GetFeederDelegation valAddr;
    mret (AccAddress_String feederAddr)).

Definition MissCounter (req : option string) : K Z :=
  with_request req (λ validatorAddr,
    valAddr ← request_address validatorAddr; GetMissCounter valAddr).

(** A zero window or period is a division by zero. *)
Definition SlashWindow (req : option ()) : K Z :=
  with_request req (λ _,
    params ← GetParams;
    h ← gets BlockHeight;
    if (Types.SlashWindow params =? 0) || (Types.VotePeriod params =? 0) then panic else
    mret ((SafeInt64ToUint64 h mod Types.SlashWindow params) / Types.VotePeriod params)).

Definition AggregatePrevote (req : option string) : K AggregateExchangeRatePrevote :=
  with_request req (λ validatorAddr,
    valAddr ← request_address validatorAddr; GetAggregateExchangeRatePrevote valAddr).

Definition AggregatePrevotes (req : option ()) : K (list AggregateExchangeRatePrevote) :=
  with_request req (λ _,
    IterateAggregateExchangeRatePrevotes (λ _ prevote l, mret (false, l ++ [prevote])) []).

Definition AggregateVote (req : option string) : K AggregateExchangeRateVote :=
  with_request req (λ validatorAddr,
    valAddr ← request_address validatorAddr; GetAggregateExchangeRateVote valAddr).

Definition AggregateVotes (req : option ()) : K (list AggregateExchangeRateVote) :=
  with_request req (λ _,
    IterateAggregateExchangeRateVotes (λ _ vote l, mret (false, l ++ [vote])) []).

Definition Medians (req : option QueryMedians) : K (list PriceStamp) :=
  with_request req (λ req,
    medians ← (if (0 <? String.length (qm_Denom req))%nat then
        if qm_NumStamps req =? 0 then throw InvalidArgument else
        maximum ← MaximumMedianStamps;
        let numStamps := if SafeUint64ToUint32 maximum <? qm_NumStamps req
                         then SafeUint64ToUint32 maximum else qm_NumStamps req in
        HistoricMedians (qm_Denom req) numStamps
      else AllMedianPrices);
    mret (Sort medians)).

Definition MedianDeviations (req : option string) : K (list PriceStamp) :=
  with_request req (λ denom,
    medianDeviations ← (if (0 <? String.length denom)%nat then
        price ← HistoricMedianDeviation denom; mret [price]
      else AllMedianDeviationPrices);
    mret (Sort medianDeviations)).

Definition ValidatorRewardSet (req : option ()) : K (list string) :=
  with_request req (λ _, GetValidatorRewardSet).

Definition found {A} (a : option A) (e : error) : K A :=
  match a with Some a => mret a | None => throw e end.

Definition EMA (req : option string) : K LegacyDec :=
  with_request req (λ denom, price ← GetEMA denom; found price (Errorf "ema not present")).

Definition SMA (req : option string) : K LegacyDec :=
  with_request req (λ denom, price ← GetSMA denom; found price (Errorf "sma not present")).

Definition WMA (req : option QueryWMARequest) : K LegacyDec :=
  params ← GetParams;
  let averagingWindow := Types.AveragingWindow params in
  with_request req (λ req,
    if negb (IsValidWmaStrategy (qw_Strategy req)) then throw ErrInvalidWmaStrategy else
    if String.eqb (qw_Strategy req) WmaStrategyCustom then
      h ← gets BlockHeight;
      prices ← CalculateHistoricPrices (qw_Denom req) (wrap_u64 h);
      if (length prices =? 0)%nat then throw NotFound else
      if negb (Z.of_nat (length (qw_CustomWeights req)) =? averagingWindow)
      then throw InvalidArgument else
      lift (CalculateWMA prices (qw_Strategy req) (qw_CustomWeights req))
    else
      result ← GetWMA (qw_Denom req) (qw_Strategy req);
      found result NotFound).
End query.
End Querier.
