(* ===== verification/QueryProto.v ===== *)
(** * QueryProto: the wire format of the queries

    [src/x/oracle/types/query.pb.go]: the requests and the responses of the
    gRPC service, and [src/x/oracle/types/events.pb.go]: the typed events. *)
From S2P Require Import Prelude Util Dec Types Wire WireLemmas OracleProto Query.
Local Open Scope Z_scope.

Record QueryExchangeRates := mkQueryExchangeRates { QueryExchangeRates_Denom : string }.
Record QueryExchangeRatesResponse := mkQueryExchangeRatesResponse {
  QueryExchangeRatesResponse_ExchangeRates : list DecCoin;
}.
Record QueryActiveExchangeRates := mkQueryActiveExchangeRates {}.
Record QueryActiveExchangeRatesResponse := mkQueryActiveExchangeRatesResponse {
  QueryActiveExchangeRatesResponse_ActiveRates : list string;
}.
Record QueryFeederDelegation := mkQueryFeederDelegation {
  QueryFeederDelegation_ValidatorAddr : string;
}.
Record QueryFeederDelegationResponse := mkQueryFeederDelegationResponse {
  QueryFeederDelegationResponse_FeederAddr : string;
}.
Record QueryMissCounter := mkQueryMissCounter { QueryMissCounter_ValidatorAddr : string }.
Record QueryMissCounterResponse := mkQueryMissCounterResponse {
  QueryMissCounterResponse_MissCounter : Z;
}.
Record QuerySlashWindow := mkQuerySlashWindow {}.
Record QuerySlashWindowResponse := mkQuerySlashWindowResponse {
  QuerySlashWindowResponse_WindowProgress : Z;
}.
Record QueryAggregatePrevote := mkQueryAggregatePrevote {
  QueryAggregatePrevote_ValidatorAddr : string;
}.
Record QueryAggregatePrevoteResponse := mkQueryAggregatePrevoteResponse {
  QueryAggregatePrevoteResponse_AggregatePrevote : AggregateExchangeRatePrevote;
}.
Record QueryAggregatePrevotes := mkQueryAggregatePrevotes {}.
Record QueryAggregatePrevotesResponse := mkQueryAggregatePrevotesResponse {
  QueryAggregatePrevotesResponse_AggregatePrevotes : list AggregateExchangeRatePrevote;
}.
Record QueryAggregateVote := mkQueryAggregateVote { QueryAggregateVote_ValidatorAddr : string }.
Record QueryAggregateVoteResponse := mkQueryAggregateVoteResponse {
  QueryAggregateVoteResponse_AggregateVote : AggregateExchangeRateVote;
}.
Record QueryAggregateVotes := mkQueryAggregateVotes {}.
Record QueryAggregateVotesResponse := mkQueryAggregateVotesResponse {
  QueryAggregateVotesResponse_AggregateVotes : list AggregateExchangeRateVote;
}.
Record QueryParams := mkQueryParams {}.
Record QueryParamsResponse := mkQueryParamsResponse { QueryParamsResponse_Params : Types.Params }.
Record QueryMediansResponse := mkQueryMediansResponse {
  QueryMediansResponse_Medians : list PriceStamp;
}.
Record QueryMedianDeviations := mkQueryMedianDeviations { QueryMedianDeviations_Denom : string }.
Record QueryMedianDeviationsResponse := mkQueryMedianDeviationsResponse {
  QueryMedianDeviationsResponse_MedianDeviations : list PriceStamp;
}.
Record QueryValidatorRewardSet := mkQueryValidatorRewardSet {}.
Record QueryValidatorRewardSetResponse := mkQueryValidatorRewardSetResponse {
  QueryValidatorRewardSetResponse_Validators : RewardSet;
}.
Record QueryEMARequest := mkQueryEMARequest { QueryEMARequest_Denom : string }.
Record QueryEMAResponse := mkQueryEMAResponse { QueryEMAResponse_Price : LegacyDec }.
Record QueryWMAResponse := mkQueryWMAResponse { QueryWMAResponse_Price : LegacyDec }.
Record QuerySMARequest := mkQuerySMARequest { QuerySMARequest_Denom : string }.
Record QuerySMAResponse := mkQuerySMAResponse { QuerySMAResponse_Price : LegacyDec }.

Record EventDelegateFeedConsent := mkEventDelegateFeedConsent {
  EventDelegateFeedConsent_Operator : string;
  EventDelegateFeedConsent_Delegate : string;
}.
Record EventSetFxRate := mkEventSetFxRate {
  EventSetFxRate_Denom : string;
  EventSetFxRate_Rate : LegacyDec;
}.

Section messages.
Context `{DecCodec} `{ProtoMessage DecCoin} `{CoinNil}.

(** [QueryExchangeRates] *)

Definition QueryExchangeRates_MarshalToSizedBuffer (m : QueryExchangeRates) : W :=
  put_string [0xa] (QueryExchangeRates_Denom m).
Definition QueryExchangeRates_Size (m : QueryExchangeRates) : Z :=
  size_string 1 (QueryExchangeRates_Denom m).
Definition QueryExchangeRates_field (n : Z) : option (field_reader QueryExchangeRates) :=
  if n =? 1 then Some (string_field "Denom" (λ m v, mkQueryExchangeRates v)) else
  None.
#[export] Instance QueryExchangeRates_message : ProtoMessage QueryExchangeRates :=
  message "QueryExchangeRates" (mkQueryExchangeRates "")
    QueryExchangeRates_Size QueryExchangeRates_MarshalToSizedBuffer QueryExchangeRates_field.

(** [QueryExchangeRatesResponse] *)

Definition QueryExchangeRatesResponse_MarshalToSizedBuffer (m : QueryExchangeRatesResponse) : W :=
  put_messages [0xa] (QueryExchangeRatesResponse_ExchangeRates m).
Definition QueryExchangeRatesResponse_Size (m : QueryExchangeRatesResponse) : Z :=
  size_messages 1 (QueryExchangeRatesResponse_ExchangeRates m).
Definition QueryExchangeRatesResponse_field (n : Z) :
    option (field_reader QueryExchangeRatesResponse) :=
  if n =? 1 then
    Some (messages_field "ExchangeRates" QueryExchangeRatesResponse_ExchangeRates
      (λ m v, mkQueryExchangeRatesResponse v)) else
  None.
#[export] Instance QueryExchangeRatesResponse_message : ProtoMessage QueryExchangeRatesResponse :=
  message "QueryExchangeRatesResponse" (mkQueryExchangeRatesResponse [])
    QueryExchangeRatesResponse_Size
    QueryExchangeRatesResponse_MarshalToSizedBuffer
    QueryExchangeRatesResponse_field.

(** [QueryActiveExchangeRates] *)

Definition QueryActiveExchangeRates_MarshalToSizedBuffer (m : QueryActiveExchangeRates) : W := mret ().
Definition QueryActiveExchangeRates_Size (m : QueryActiveExchangeRates) : Z := 0.
Definition QueryActiveExchangeRates_field (n : Z) :
    option (field_reader QueryActiveExchangeRates) := None.
#[export] Instance QueryActiveExchangeRates_message : ProtoMessage QueryActiveExchangeRates :=
  message "QueryActiveExchangeRates" mkQueryActiveExchangeRates
    QueryActiveExchangeRates_Size
    QueryActiveExchangeRates_MarshalToSizedBuffer
    QueryActiveExchangeRates_field.

(** [QueryActiveExchangeRatesResponse] *)

Definition QueryActiveExchangeRatesResponse_MarshalToSizedBuffer (m : QueryActiveExchangeRatesResponse) :
    W :=
  put_strings [0xa] (QueryActiveExchangeRatesResponse_ActiveRates m).
Definition QueryActiveExchangeRatesResponse_Size (m : QueryActiveExchangeRatesResponse) : Z :=
  size_strings 1 (QueryActiveExchangeRatesResponse_ActiveRates m).
Definition QueryActiveExchangeRatesResponse_field (n : Z) :
    option (field_reader QueryActiveExchangeRatesResponse) :=
  if n =? 1 then
    Some (strings_field "ActiveRates" QueryActiveExchangeRatesResponse_ActiveRates
      (λ m v, mkQueryActiveExchangeRatesResponse v)) else
  None.
#[export] Instance QueryActiveExchangeRatesResponse_message :
    ProtoMessage QueryActiveExchangeRatesResponse :=
  message "QueryActiveExchangeRatesResponse" (mkQueryActiveExchangeRatesResponse [])
    QueryActiveExchangeRatesResponse_Size
    QueryActiveExchangeRatesResponse_MarshalToSizedBuffer
    QueryActiveExchangeRatesResponse_field.

(** [QueryFeederDelegation] *)

Definition QueryFeederDelegation_MarshalToSizedBuffer (m : QueryFeederDelegation) : W :=
  put_string [0xa] (QueryFeederDelegation_ValidatorAddr m).
Definition QueryFeederDelegation_Size (m : QueryFeederDelegation) : Z :=
  size_string 1 (QueryFeederDelegation_ValidatorAddr m).
Definition QueryFeederDelegation_field (n : Z) : option (field_reader QueryFeederDelegation) :=
  if n =? 1 then Some (string_field "ValidatorAddr" (λ m v, mkQueryFeederDelegation v)) else
  None.
#[export] Instance QueryFeederDelegation_message : ProtoMessage QueryFeederDelegation :=
  message "QueryFeederDelegation" (mkQueryFeederDelegation "")
    QueryFeederDelegation_Size
    QueryFeederDelegation_MarshalToSizedBuffer
    QueryFeederDelegation_field.

(** [QueryFeederDelegationResponse] *)

Definition QueryFeederDelegationResponse_MarshalToSizedBuffer (m : QueryFeederDelegationResponse) :
    W :=
  put_string [0xa] (QueryFeederDelegationResponse_FeederAddr m).
Definition QueryFeederDelegationResponse_Size (m : QueryFeederDelegationResponse) : Z :=
  size_string 1 (QueryFeederDelegationResponse_FeederAddr m).
Definition QueryFeederDelegationResponse_field (n : Z) :
    option (field_reader QueryFeederDelegationResponse) :=
  if n =? 1 then Some (string_field "FeederAddr" (λ m v, mkQueryFeederDelegationResponse v)) else
  None.
#[export] Instance QueryFeederDelegationResponse_message :
    ProtoMessage QueryFeederDelegationResponse :=
  message "QueryFeederDelegationResponse" (mkQueryFeederDelegationResponse "")
    QueryFeederDelegationResponse_Size
    QueryFeederDelegationResponse_MarshalToSizedBuffer
    QueryFeederDelegationResponse_field.

(** [QueryMissCounter] *)

Definition QueryMissCounter_MarshalToSizedBuffer (m : QueryMissCounter) : W :=
  put_string [0xa] (QueryMissCounter_ValidatorAddr m).
Definition QueryMissCounter_Size (m : QueryMissCounter) : Z :=
  size_string 1 (QueryMissCounter_ValidatorAddr m).
Definition QueryMissCounter_field (n : Z) : option (field_reader QueryMissCounter) :=
  if n =? 1 then Some (string_field "ValidatorAddr" (λ m v, mkQueryMissCounter v)) else
  None.
#[export] Instance QueryMissCounter_message : ProtoMessage QueryMissCounter :=
  message "QueryMissCounter" (mkQueryMissCounter "")
    QueryMissCounter_Size QueryMissCounter_MarshalToSizedBuffer QueryMissCounter_field.

(** [QueryMissCounterResponse] *)

Definition QueryMissCounterResponse_MarshalToSizedBuffer (m : QueryMissCounterResponse) : W :=
  put_varint [0x8] (QueryMissCounterResponse_MissCounter m).
Definition QueryMissCounterResponse_Size (m : QueryMissCounterResponse) : Z :=
  size_varint 1 (QueryMissCounterResponse_MissCounter m).
Definition QueryMissCounterResponse_field (n : Z) :
    option (field_reader QueryMissCounterResponse) :=
  if n =? 1 then
    Some (varint_field "MissCounter" wrap_u64 (λ m v, mkQueryMissCounterResponse v)) else
  None.
#[export] Instance QueryMissCounterResponse_message : ProtoMessage QueryMissCounterResponse :=
  message "QueryMissCounterResponse" (mkQueryMissCounterResponse 0)
    QueryMissCounterResponse_Size
    QueryMissCounterResponse_MarshalToSizedBuffer
    QueryMissCounterResponse_field.

(** [QuerySlashWindow] *)

Definition QuerySlashWindow_MarshalToSizedBuffer (m : QuerySlashWindow) : W := mret ().
Definition QuerySlashWindow_Size (m : QuerySlashWindow) : Z := 0.
Definition QuerySlashWindow_field (n : Z) : option (field_reader QuerySlashWindow) := None.
#[export] Instance QuerySlashWindow_message : ProtoMessage QuerySlashWindow :=
  message "QuerySlashWindow" mkQuerySlashWindow
    QuerySlashWindow_Size QuerySlashWindow_MarshalToSizedBuffer QuerySlashWindow_field.

(** [QuerySlashWindowResponse] *)

Definition QuerySlashWindowResponse_MarshalToSizedBuffer (m : QuerySlashWindowResponse) : W :=
  put_varint [0x8] (QuerySlashWindowResponse_WindowProgress m).
Definition QuerySlashWindowResponse_Size (m : QuerySlashWindowResponse) : Z :=
  size_varint 1 (QuerySlashWindowResponse_WindowProgress m).
Definition QuerySlashWindowResponse_field (n : Z) :
    option (field_reader QuerySlashWindowResponse) :=
  if n =? 1 then
    Some (varint_field "WindowProgress" wrap_u64 (λ m v, mkQuerySlashWindowResponse v)) else
  None.
#[export] Instance QuerySlashWindowResponse_message : ProtoMessage QuerySlashWindowResponse :=
  message "QuerySlashWindowResponse" (mkQuerySlashWindowResponse 0)
    QuerySlashWindowResponse_Size
    QuerySlashWindowResponse_MarshalToSizedBuffer
    QuerySlashWindowResponse_field.

(** [QueryAggregatePrevote] *)

Definition QueryAggregatePrevote_MarshalToSizedBuffer (m : QueryAggregatePrevote) : W :=
  put_string [0xa] (QueryAggregatePrevote_ValidatorAddr m).
Definition QueryAggregatePrevote_Size (m : QueryAggregatePrevote) : Z :=
  size_string 1 (QueryAggregatePrevote_ValidatorAddr m).
Definition QueryAggregatePrevote_field (n : Z) : option (field_reader QueryAggregatePrevote) :=
  if n =? 1 then Some (string_field "ValidatorAddr" (λ m v, mkQueryAggregatePrevote v)) else
  None.
#[export] Instance QueryAggregatePrevote_message : ProtoMessage QueryAggregatePrevote :=
  message "QueryAggregatePrevote" (mkQueryAggregatePrevote "")
    QueryAggregatePrevote_Size
    QueryAggregatePrevote_MarshalToSizedBuffer
    QueryAggregatePrevote_field.

(** [QueryAggregatePrevoteResponse] *)

Definition QueryAggregatePrevoteResponse_MarshalToSizedBuffer (m : QueryAggregatePrevoteResponse) :
    W :=
  put_message [0xa] (QueryAggregatePrevoteResponse_AggregatePrevote m).
Definition QueryAggregatePrevoteResponse_Size (m : QueryAggregatePrevoteResponse) : Z :=
  size_delimited 1 (pb_Size (QueryAggregatePrevoteResponse_AggregatePrevote m)).
Definition QueryAggregatePrevoteResponse_field (n : Z) :
    option (field_reader QueryAggregatePrevoteResponse) :=
  if n =? 1 then
    Some (message_field "AggregatePrevote" QueryAggregatePrevoteResponse_AggregatePrevote
      (λ m v, mkQueryAggregatePrevoteResponse v)) else
  None.
#[export] Instance QueryAggregatePrevoteResponse_message :
    ProtoMessage QueryAggregatePrevoteResponse :=
  message "QueryAggregatePrevoteResponse" (mkQueryAggregatePrevoteResponse pb_empty)
    QueryAggregatePrevoteResponse_Size
    QueryAggregatePrevoteResponse_MarshalToSizedBuffer
    QueryAggregatePrevoteResponse_field.

(** [QueryAggregatePrevotes] *)

Definition QueryAggregatePrevotes_MarshalToSizedBuffer (m : QueryAggregatePrevotes) : W := mret ().
Definition QueryAggregatePrevotes_Size (m : QueryAggregatePrevotes) : Z := 0.
Definition QueryAggregatePrevotes_field (n : Z) :
    option (field_reader QueryAggregatePrevotes) := None.
#[export] Instance QueryAggregatePrevotes_message : ProtoMessage QueryAggregatePrevotes :=
  message "QueryAggregatePrevotes" mkQueryAggregatePrevotes
    QueryAggregatePrevotes_Size
    QueryAggregatePrevotes_MarshalToSizedBuffer
    QueryAggregatePrevotes_field.

(** [QueryAggregatePrevotesResponse] *)

Definition QueryAggregatePrevotesResponse_MarshalToSizedBuffer (m : QueryAggregatePrevotesResponse) :
    W :=
  put_messages [0xa] (QueryAggregatePrevotesResponse_AggregatePrevotes m).
Definition QueryAggregatePrevotesResponse_Size (m : QueryAggregatePrevotesResponse) : Z :=
  size_messages 1 (QueryAggregatePrevotesResponse_AggregatePrevotes m).
Definition QueryAggregatePrevotesResponse_field (n : Z) :
    option (field_reader QueryAggregatePrevotesResponse) :=
  if n =? 1 then
    Some (messages_field "AggregatePrevotes" QueryAggregatePrevotesResponse_AggregatePrevotes
      (λ m v, mkQueryAggregatePrevotesResponse v)) else
  None.
#[export] Instance QueryAggregatePrevotesResponse_message :
    ProtoMessage QueryAggregatePrevotesResponse :=
  message "QueryAggregatePrevotesResponse" (mkQueryAggregatePrevotesResponse [])
    QueryAggregatePrevotesResponse_Size
    QueryAggregatePrevotesResponse_MarshalToSizedBuffer
    QueryAggregatePrevotesResponse_field.

(** [QueryAggregateVote] *)

Definition QueryAggregateVote_MarshalToSizedBuffer (m : QueryAggregateVote) : W :=
  put_string [0xa] (QueryAggregateVote_ValidatorAddr m).
Definition QueryAggregateVote_Size (m : QueryAggregateVote) : Z :=
  size_string 1 (QueryAggregateVote_ValidatorAddr m).
Definition QueryAggregateVote_field (n : Z) : option (field_reader QueryAggregateVote) :=
  if n =? 1 then Some (string_field "ValidatorAddr" (λ m v, mkQueryAggregateVote v)) else
  None.
#[export] Instance QueryAggregateVote_message : ProtoMessage QueryAggregateVote :=
  message "QueryAggregateVote" (mkQueryAggregateVote "")
    QueryAggregateVote_Size QueryAggregateVote_MarshalToSizedBuffer QueryAggregateVote_field.

(** [QueryAggregateVoteResponse] *)

Definition QueryAggregateVoteResponse_MarshalToSizedBuffer (m : QueryAggregateVoteResponse) : W :=
  put_message [0xa] (QueryAggregateVoteResponse_AggregateVote m).
Definition QueryAggregateVoteResponse_Size (m : QueryAggregateVoteResponse) : Z :=
  size_delimited 1 (pb_Size (QueryAggregateVoteResponse_AggregateVote m)).
Definition QueryAggregateVoteResponse_field (n : Z) :
    option (field_reader QueryAggregateVoteResponse) :=
  if n =? 1 then
    Some (message_field "AggregateVote" QueryAggregateVoteResponse_AggregateVote
      (λ m v, mkQueryAggregateVoteResponse v)) else
  None.
#[export] Instance QueryAggregateVoteResponse_message : ProtoMessage QueryAggregateVoteResponse :=
  message "QueryAggregateVoteResponse" (mkQueryAggregateVoteResponse pb_empty)
    QueryAggregateVoteResponse_Size
    QueryAggregateVoteResponse_MarshalToSizedBuffer
    QueryAggregateVoteResponse_field.

(** [QueryAggregateVotes] *)

Definition QueryAggregateVotes_MarshalToSizedBuffer (m : QueryAggregateVotes) : W := mret ().
Definition QueryAggregateVotes_Size (m : QueryAggregateVotes) : Z := 0.
Definition QueryAggregateVotes_field (n : Z) : option (field_reader QueryAggregateVotes) := None.
#[export] Instance QueryAggregateVotes_message : ProtoMessage QueryAggregateVotes :=
  message "QueryAggregateVotes" mkQueryAggregateVotes
    QueryAggregateVotes_Size QueryAggregateVotes_MarshalToSizedBuffer QueryAggregateVotes_field.

(** [QueryAggregateVotesResponse] *)

Definition QueryAggregateVotesResponse_MarshalToSizedBuffer (m : QueryAggregateVotesResponse) : W :=
  put_messages [0xa] (QueryAggregateVotesResponse_AggregateVotes m).
Definition QueryAggregateVotesResponse_Size (m : QueryAggregateVotesResponse) : Z :=
  size_messages 1 (QueryAggregateVotesResponse_AggregateVotes m).
Definition QueryAggregateVotesResponse_field (n : Z) :
    option (field_reader QueryAggregateVotesResponse) :=
  if n =? 1 then
    Some (messages_field "AggregateVotes" QueryAggregateVotesResponse_AggregateVotes
      (λ m v, mkQueryAggregateVotesResponse v)) else
  None.
#[export] Instance QueryAggregateVotesResponse_message : ProtoMessage QueryAggregateVotesResponse :=
  message "QueryAggregateVotesResponse" (mkQueryAggregateVotesResponse [])
    QueryAggregateVotesResponse_Size
    QueryAggregateVotesResponse_MarshalToSizedBuffer
    QueryAggregateVotesResponse_field.

(** [QueryParams] *)

Definition QueryParams_MarshalToSizedBuffer (m : QueryParams) : W := mret ().
Definition QueryParams_Size (m : QueryParams) : Z := 0.
Definition QueryParams_field (n : Z) : option (field_reader QueryParams) := None.
#[export] Instance QueryParams_message : ProtoMessage QueryParams :=
  message "QueryParams" mkQueryParams
    QueryParams_Size QueryParams_MarshalToSizedBuffer QueryParams_field.

(** [QueryParamsResponse] *)

Definition QueryParamsResponse_MarshalToSizedBuffer (m : QueryParamsResponse) : W :=
  put_message [0xa] (QueryParamsResponse_Params m).
Definition QueryParamsResponse_Size (m : QueryParamsResponse) : Z :=
  size_delimited 1 (pb_Size (QueryParamsResponse_Params m)).
Definition QueryParamsResponse_field (n : Z) : option (field_reader QueryParamsResponse) :=
  if n =? 1 then
    Some (message_field "Params" QueryParamsResponse_Params (λ m v, mkQueryParamsResponse v)) else
  None.
#[export] Instance QueryParamsResponse_message : ProtoMessage QueryParamsResponse :=
  message "QueryParamsResponse" (mkQueryParamsResponse pb_empty)
    QueryParamsResponse_Size QueryParamsResponse_MarshalToSizedBuffer QueryParamsResponse_field.

(** [QueryMedians] *)

Definition QueryMedians_MarshalToSizedBuffer (m : QueryMedians) : W :=
  put_varint [0x10] (qm_NumStamps m) ;; put_string [0xa] (qm_Denom m).
Definition QueryMedians_Size (m : QueryMedians) : Z :=
  size_string 1 (qm_Denom m) + size_varint 1 (qm_NumStamps m).
Definition QueryMedians_field (n : Z) : option (field_reader QueryMedians) :=
  if n =? 1 then Some (string_field "Denom" (λ m v, mkQueryMedians v (qm_NumStamps m))) else
  if n =? 2 then
    Some (varint_field "NumStamps" wrap_u32 (λ m v, mkQueryMedians (qm_Denom m) v)) else
  None.
#[export] Instance QueryMedians_message : ProtoMessage QueryMedians :=
  message "QueryMedians" (mkQueryMedians "" 0)
    QueryMedians_Size QueryMedians_MarshalToSizedBuffer QueryMedians_field.

(** [QueryMediansResponse] *)

Definition QueryMediansResponse_MarshalToSizedBuffer (m : QueryMediansResponse) : W :=
  put_messages [0xa] (QueryMediansResponse_Medians m).
Definition QueryMediansResponse_Size (m : QueryMediansResponse) : Z :=
  size_messages 1 (QueryMediansResponse_Medians m).
Definition QueryMediansResponse_field (n : Z) : option (field_reader QueryMediansResponse) :=
  if n =? 1 then
    Some (messages_field "Medians" QueryMediansResponse_Medians
      (λ m v, mkQueryMediansResponse v)) else
  None.
#[export] Instance QueryMediansResponse_message : ProtoMessage QueryMediansResponse :=
  message "QueryMediansResponse" (mkQueryMediansResponse [])
    QueryMediansResponse_Size QueryMediansResponse_MarshalToSizedBuffer QueryMediansResponse_field.

(** [QueryMedianDeviations] *)

Definition QueryMedianDeviations_MarshalToSizedBuffer (m : QueryMedianDeviations) : W :=
  put_string [0xa] (QueryMedianDeviations_Denom m).
Definition QueryMedianDeviations_Size (m : QueryMedianDeviations) : Z :=
  size_string 1 (QueryMedianDeviations_Denom m).
Definition QueryMedianDeviations_field (n : Z) : option (field_reader QueryMedianDeviations) :=
  if n =? 1 then Some (string_field "Denom" (λ m v, mkQueryMedianDeviations v)) else
  None.
#[export] Instance QueryMedianDeviations_message : ProtoMessage QueryMedianDeviations :=
  message "QueryMedianDeviations" (mkQueryMedianDeviations "")
    QueryMedianDeviations_Size
    QueryMedianDeviations_MarshalToSizedBuffer
    QueryMedianDeviations_field.

(** [QueryMedianDeviationsResponse] *)

Definition QueryMedianDeviationsResponse_MarshalToSizedBuffer (m : QueryMedianDeviationsResponse) :
    W :=
  put_messages [0xa] (QueryMedianDeviationsResponse_MedianDeviations m).
Definition QueryMedianDeviationsResponse_Size (m : QueryMedianDeviationsResponse) : Z :=
  size_messages 1 (QueryMedianDeviationsResponse_MedianDeviations m).
Definition QueryMedianDeviationsResponse_field (n : Z) :
    option (field_reader QueryMedianDeviationsResponse) :=
  if n =? 1 then
    Some (messages_field "MedianDeviations" QueryMedianDeviationsResponse_MedianDeviations
      (λ m v, mkQueryMedianDeviationsResponse v)) else
  None.
#[export] Instance QueryMedianDeviationsResponse_message :
    ProtoMessage QueryMedianDeviationsResponse :=
  message "QueryMedianDeviationsResponse" (mkQueryMedianDeviationsResponse [])
    QueryMedianDeviationsResponse_Size
    QueryMedianDeviationsResponse_MarshalToSizedBuffer
    QueryMedianDeviationsResponse_field.

(** [QueryValidatorRewardSet] *)

Definition QueryValidatorRewardSet_MarshalToSizedBuffer (m : QueryValidatorRewardSet) : W := mret ().
Definition QueryValidatorRewardSet_Size (m : QueryValidatorRewardSet) : Z := 0.
Definition QueryValidatorRewardSet_field (n : Z) :
    option (field_reader QueryValidatorRewardSet) := None.
#[export] Instance QueryValidatorRewardSet_message : ProtoMessage QueryValidatorRewardSet :=
  message "QueryValidatorRewardSet" mkQueryValidatorRewardSet
    QueryValidatorRewardSet_Size
    QueryValidatorRewardSet_MarshalToSizedBuffer
    QueryValidatorRewardSet_field.

(** [QueryValidatorRewardSetResponse] *)

Definition QueryValidatorRewardSetResponse_MarshalToSizedBuffer (m : QueryValidatorRewardSetResponse) :
    W :=
  put_message [0xa] (QueryValidatorRewardSetResponse_Validators m).
Definition QueryValidatorRewardSetResponse_Size (m : QueryValidatorRewardSetResponse) : Z :=
  size_delimited 1 (pb_Size (QueryValidatorRewardSetResponse_Validators m)).
Definition QueryValidatorRewardSetResponse_field (n : Z) :
    option (field_reader QueryValidatorRewardSetResponse) :=
  if n =? 1 then
    Some (message_field "Validators" QueryValidatorRewardSetResponse_Validators
      (λ m v, mkQueryValidatorRewardSetResponse v)) else
  None.
#[export] Instance QueryValidatorRewardSetResponse_message :
    ProtoMessage QueryValidatorRewardSetResponse :=
  message "QueryValidatorRewardSetResponse" (mkQueryValidatorRewardSetResponse pb_empty)
    QueryValidatorRewardSetResponse_Size
    QueryValidatorRewardSetResponse_MarshalToSizedBuffer
    QueryValidatorRewardSetResponse_field.

(** [QueryEMARequest] *)

Definition QueryEMARequest_MarshalToSizedBuffer (m : QueryEMARequest) : W :=
  put_string [0xa] (QueryEMARequest_Denom m).
Definition QueryEMARequest_Size (m : QueryEMARequest) : Z :=
  size_string 1 (QueryEMARequest_Denom m).
Definition QueryEMARequest_field (n : Z) : option (field_reader QueryEMARequest) :=
  if n =? 1 then Some (string_field "Denom" (λ m v, mkQueryEMARequest v)) else
  None.
#[export] Instance QueryEMARequest_message : ProtoMessage QueryEMARequest :=
  message "QueryEMARequest" (mkQueryEMARequest "")
    QueryEMARequest_Size QueryEMARequest_MarshalToSizedBuffer QueryEMARequest_field.

(** [QueryEMAResponse] *)

Definition QueryEMAResponse_MarshalToSizedBuffer (m : QueryEMAResponse) : W :=
  put_dec [0xa] (QueryEMAResponse_Price m).
Definition QueryEMAResponse_Size (m : QueryEMAResponse) : Z :=
  size_dec 1 (QueryEMAResponse_Price m).
Definition QueryEMAResponse_field (n : Z) : option (field_reader QueryEMAResponse) :=
  if n =? 1 then Some (dec_field "Price" QueryEMAResponse_Price (λ m v, mkQueryEMAResponse v)) else
  None.
#[export] Instance QueryEMAResponse_message : ProtoMessage QueryEMAResponse :=
  message "QueryEMAResponse" (mkQueryEMAResponse dec_nil)
    QueryEMAResponse_Size QueryEMAResponse_MarshalToSizedBuffer QueryEMAResponse_field.

(** [QueryWMARequest] *)

Definition QueryWMARequest_MarshalToSizedBuffer (m : QueryWMARequest) : W :=
  put_packed [0x1a] (qw_CustomWeights m) ;; put_string [0x12] (qw_Strategy m) ;;
  put_string [0xa] (qw_Denom m).
Definition QueryWMARequest_Size (m : QueryWMARequest) : Z :=
  size_string 1 (qw_Denom m) + size_string 1 (qw_Strategy m) + size_packed 1 (qw_CustomWeights m).
Definition QueryWMARequest_field (n : Z) : option (field_reader QueryWMARequest) :=
  if n =? 1 then
    Some (string_field "Denom" (λ m v, mkQueryWMA v (qw_Strategy m) (qw_CustomWeights m))) else
  if n =? 2 then
    Some (string_field "Strategy" (λ m v, mkQueryWMA (qw_Denom m) v (qw_CustomWeights m))) else
  if n =? 3 then
    Some (packed_field "CustomWeights" wrap_i64 qw_CustomWeights
      (λ m v, mkQueryWMA (qw_Denom m) (qw_Strategy m) v)) else
  None.
#[export] Instance QueryWMARequest_message : ProtoMessage QueryWMARequest :=
  message "QueryWMARequest" (mkQueryWMA "" "" [])
    QueryWMARequest_Size QueryWMARequest_MarshalToSizedBuffer QueryWMARequest_field.

(** [QueryWMAResponse] *)

Definition QueryWMAResponse_MarshalToSizedBuffer (m : QueryWMAResponse) : W :=
  put_dec [0xa] (QueryWMAResponse_Price m).
Definition QueryWMAResponse_Size (m : QueryWMAResponse) : Z :=
  size_dec 1 (QueryWMAResponse_Price m).
Definition QueryWMAResponse_field (n : Z) : option (field_reader QueryWMAResponse) :=
  if n =? 1 then Some (dec_field "Price" QueryWMAResponse_Price (λ m v, mkQueryWMAResponse v)) else
  None.
#[export] Instance QueryWMAResponse_message : ProtoMessage QueryWMAResponse :=
  message "QueryWMAResponse" (mkQueryWMAResponse dec_nil)
    QueryWMAResponse_Size QueryWMAResponse_MarshalToSizedBuffer QueryWMAResponse_field.

(** [QuerySMARequest] *)

Definition QuerySMARequest_MarshalToSizedBuffer (m : QuerySMARequest) : W :=
  put_string [0xa] (QuerySMARequest_Denom m).
Definition QuerySMARequest_Size (m : QuerySMARequest) : Z :=
  size_string 1 (QuerySMARequest_Denom m).
Definition QuerySMARequest_field (n : Z) : option (field_reader QuerySMARequest) :=
  if n =? 1 then Some (string_field "Denom" (λ m v, mkQuerySMARequest v)) else
  None.
#[export] Instance QuerySMARequest_message : ProtoMessage QuerySMARequest :=
  message "QuerySMARequest" (mkQuerySMARequest "")
    QuerySMARequest_Size QuerySMARequest_MarshalToSizedBuffer QuerySMARequest_field.

(** [QuerySMAResponse] *)

Definition QuerySMAResponse_MarshalToSizedBuffer (m : QuerySMAResponse) : W :=
  put_dec [0xa] (QuerySMAResponse_Price m).
Definition QuerySMAResponse_Size (m : QuerySMAResponse) : Z :=
  size_dec 1 (QuerySMAResponse_Price m).
Definition QuerySMAResponse_field (n : Z) : option (field_reader QuerySMAResponse) :=
  if n =? 1 then Some (dec_field "Price" QuerySMAResponse_Price (λ m v, mkQuerySMAResponse v)) else
  None.
#[export] Instance QuerySMAResponse_message : ProtoMessage QuerySMAResponse :=
  message "QuerySMAResponse" (mkQuerySMAResponse dec_nil)
    QuerySMAResponse_Size QuerySMAResponse_MarshalToSizedBuffer QuerySMAResponse_field.

(** [EventDelegateFeedConsent] *)

Definition EventDelegateFeedConsent_MarshalToSizedBuffer (m : EventDelegateFeedConsent) : W :=
  put_string [0x12] (EventDelegateFeedConsent_Delegate m) ;;
  put_string [0xa] (EventDelegateFeedConsent_Operator m).
Definition EventDelegateFeedConsent_Size (m : EventDelegateFeedConsent) : Z :=
  size_string 1 (EventDelegateFeedConsent_Operator m) +
  size_string 1 (EventDelegateFeedConsent_Delegate m).
Definition EventDelegateFeedConsent_field (n : Z) :
    option (field_reader EventDelegateFeedConsent) :=
  if n =? 1 then
    Some (string_field "Operator"
      (λ m v, mkEventDelegateFeedConsent v (EventDelegateFeedConsent_Delegate m))) else
  if n =? 2 then
    Some (string_field "Delegate"
      (λ m v, mkEventDelegateFeedConsent (EventDelegateFeedConsent_Operator m) v)) else
  None.
#[export] Instance EventDelegateFeedConsent_message : ProtoMessage EventDelegateFeedConsent :=
  message "EventDelegateFeedConsent" (mkEventDelegateFeedConsent "" "")
    EventDelegateFeedConsent_Size
    EventDelegateFeedConsent_MarshalToSizedBuffer
    EventDelegateFeedConsent_field.

(** [EventSetFxRate] *)

Definition EventSetFxRate_MarshalToSizedBuffer (m : EventSetFxRate) : W :=
  put_dec [0x12] (EventSetFxRate_Rate m) ;; put_string [0xa] (EventSetFxRate_Denom m).
Definition EventSetFxRate_Size (m : EventSetFxRate) : Z :=
  size_string 1 (EventSetFxRate_Denom m) + size_dec 1 (EventSetFxRate_Rate m).
Definition EventSetFxRate_field (n : Z) : option (field_reader EventSetFxRate) :=
  if n =? 1 then
    Some (string_field "Denom" (λ m v, mkEventSetFxRate v (EventSetFxRate_Rate m))) else
  if n =? 2 then
    Some (dec_field "Rate" EventSetFxRate_Rate
      (λ m v, mkEventSetFxRate (EventSetFxRate_Denom m) v)) else
  None.
#[export] Instance EventSetFxRate_message : ProtoMessage EventSetFxRate :=
  message "EventSetFxRate" (mkEventSetFxRate "" dec_nil)
    EventSetFxRate_Size EventSetFxRate_MarshalToSizedBuffer EventSetFxRate_field.
End messages.

(** ** Reference encodings *)

Section laws.
Context `{DecCodecLaws} `{ProtoLaws DecCoin} `{CoinNil}.

Definition QueryExchangeRates_encode (m : QueryExchangeRates) : bytes :=
  enc_string [0xa] (QueryExchangeRates_Denom m).
Definition QueryExchangeRates_ok (m : QueryExchangeRates) : Prop :=
  True.
#[export] Instance QueryExchangeRates_laws : ProtoLaws QueryExchangeRates.
Proof.
  solve_message QueryExchangeRates_encode QueryExchangeRates_ok QueryExchangeRates_Size
    QueryExchangeRates_MarshalToSizedBuffer.
Defined.

Definition QueryExchangeRatesResponse_encode (m : QueryExchangeRatesResponse) : bytes :=
  enc_messages [0xa] (QueryExchangeRatesResponse_ExchangeRates m).
Definition QueryExchangeRatesResponse_ok (m : QueryExchangeRatesResponse) : Prop :=
  Forall pb_ok (QueryExchangeRatesResponse_ExchangeRates m).
#[export] Instance QueryExchangeRatesResponse_laws : ProtoLaws QueryExchangeRatesResponse.
Proof.
  solve_message QueryExchangeRatesResponse_encode QueryExchangeRatesResponse_ok
    QueryExchangeRatesResponse_Size QueryExchangeRatesResponse_MarshalToSizedBuffer.
Defined.

Definition QueryActiveExchangeRates_encode (m : QueryActiveExchangeRates) : bytes := [].
Definition QueryActiveExchangeRates_ok (m : QueryActiveExchangeRates) : Prop := True.
#[export] Instance QueryActiveExchangeRates_laws : ProtoLaws QueryActiveExchangeRates.
Proof. solve_empty_message QueryActiveExchangeRates_encode QueryActiveExchangeRates_ok. Defined.

Definition QueryActiveExchangeRatesResponse_encode (m : QueryActiveExchangeRatesResponse) : bytes :=
  enc_strings [0xa] (QueryActiveExchangeRatesResponse_ActiveRates m).
Definition QueryActiveExchangeRatesResponse_ok (m : QueryActiveExchangeRatesResponse) : Prop :=
  True.
#[export] Instance QueryActiveExchangeRatesResponse_laws :
    ProtoLaws QueryActiveExchangeRatesResponse.
Proof.
  solve_message QueryActiveExchangeRatesResponse_encode QueryActiveExchangeRatesResponse_ok
    QueryActiveExchangeRatesResponse_Size QueryActiveExchangeRatesResponse_MarshalToSizedBuffer.
Defined.

Definition QueryFeederDelegation_encode (m : QueryFeederDelegation) : bytes :=
  enc_string [0xa] (QueryFeederDelegation_ValidatorAddr m).
Definition QueryFeederDelegation_ok (m : QueryFeederDelegation) : Prop :=
  True.
#[export] Instance QueryFeederDelegation_laws : ProtoLaws QueryFeederDelegation.
Proof.
  solve_message QueryFeederDelegation_encode QueryFeederDelegation_ok QueryFeederDelegation_Size
    QueryFeederDelegation_MarshalToSizedBuffer.
Defined.

Definition QueryFeederDelegationResponse_encode (m : QueryFeederDelegationResponse) : bytes :=
  enc_string [0xa] (QueryFeederDelegationResponse_FeederAddr m).
Definition QueryFeederDelegationResponse_ok (m : QueryFeederDelegationResponse) : Prop :=
  True.
#[export] Instance QueryFeederDelegationResponse_laws : ProtoLaws QueryFeederDelegationResponse.
Proof.
  solve_message QueryFeederDelegationResponse_encode QueryFeederDelegationResponse_ok
    QueryFeederDelegationResponse_Size QueryFeederDelegationResponse_MarshalToSizedBuffer.
Defined.

Definition QueryMissCounter_encode (m : QueryMissCounter) : bytes :=
  enc_string [0xa] (QueryMissCounter_ValidatorAddr m).
Definition QueryMissCounter_ok (m : QueryMissCounter) : Prop :=
  True.
#[export] Instance QueryMissCounter_laws : ProtoLaws QueryMissCounter.
Proof.
  solve_message QueryMissCounter_encode QueryMissCounter_ok QueryMissCounter_Size
    QueryMissCounter_MarshalToSizedBuffer.
Defined.

Definition QueryMissCounterResponse_encode (m : QueryMissCounterResponse) : bytes :=
  enc_varint [0x8] (QueryMissCounterResponse_MissCounter m).
Definition QueryMissCounterResponse_ok (m : QueryMissCounterResponse) : Prop :=
  is_u64 (QueryMissCounterResponse_MissCounter m).
#[export] Instance QueryMissCounterResponse_laws : ProtoLaws QueryMissCounterResponse.
Proof.
  solve_message QueryMissCounterResponse_encode QueryMissCounterResponse_ok
    QueryMissCounterResponse_Size QueryMissCounterResponse_MarshalToSizedBuffer.
Defined.

Definition QuerySlashWindow_encode (m : QuerySlashWindow) : bytes := [].
Definition QuerySlashWindow_ok (m : QuerySlashWindow) : Prop := True.
#[export] Instance QuerySlashWindow_laws : ProtoLaws QuerySlashWindow.
Proof. solve_empty_message QuerySlashWindow_encode QuerySlashWindow_ok. Defined.

Definition QuerySlashWindowResponse_encode (m : QuerySlashWindowResponse) : bytes :=
  enc_varint [0x8] (QuerySlashWindowResponse_WindowProgress m).
Definition QuerySlashWindowResponse_ok (m : QuerySlashWindowResponse) : Prop :=
  is_u64 (QuerySlashWindowResponse_WindowProgress m).
#[export] Instance QuerySlashWindowResponse_laws : ProtoLaws QuerySlashWindowResponse.
Proof.
  solve_message QuerySlashWindowResponse_encode QuerySlashWindowResponse_ok
    QuerySlashWindowResponse_Size QuerySlashWindowResponse_MarshalToSizedBuffer.
Defined.

Definition QueryAggregatePrevote_encode (m : QueryAggregatePrevote) : bytes :=
  enc_string [0xa] (QueryAggregatePrevote_ValidatorAddr m).
Definition QueryAggregatePrevote_ok (m : QueryAggregatePrevote) : Prop :=
  True.
#[export] Instance QueryAggregatePrevote_laws : ProtoLaws QueryAggregatePrevote.
Proof.
  solve_message QueryAggregatePrevote_encode QueryAggregatePrevote_ok QueryAggregatePrevote_Size
    QueryAggregatePrevote_MarshalToSizedBuffer.
Defined.

Definition QueryAggregatePrevoteResponse_encode (m : QueryAggregatePrevoteResponse) : bytes :=
  enc_message [0xa] (QueryAggregatePrevoteResponse_AggregatePrevote m).
Definition QueryAggregatePrevoteResponse_ok (m : QueryAggregatePrevoteResponse) : Prop :=
  pb_ok (QueryAggregatePrevoteResponse_AggregatePrevote m).
#[export] Instance QueryAggregatePrevoteResponse_laws : ProtoLaws QueryAggregatePrevoteResponse.
Proof.
  solve_message QueryAggregatePrevoteResponse_encode QueryAggregatePrevoteResponse_ok
    QueryAggregatePrevoteResponse_Size QueryAggregatePrevoteResponse_MarshalToSizedBuffer.
Defined.

Definition QueryAggregatePrevotes_encode (m : QueryAggregatePrevotes) : bytes := [].
Definition QueryAggregatePrevotes_ok (m : QueryAggregatePrevotes) : Prop := True.
#[export] Instance QueryAggregatePrevotes_laws : ProtoLaws QueryAggregatePrevotes.
Proof. solve_empty_message QueryAggregatePrevotes_encode QueryAggregatePrevotes_ok. Defined.

Definition QueryAggregatePrevotesResponse_encode (m : QueryAggregatePrevotesResponse) : bytes :=
  enc_messages [0xa] (QueryAggregatePrevotesResponse_AggregatePrevotes m).
Definition QueryAggregatePrevotesResponse_ok (m : QueryAggregatePrevotesResponse) : Prop :=
  Forall pb_ok (QueryAggregatePrevotesResponse_AggregatePrevotes m).
#[export] Instance QueryAggregatePrevotesResponse_laws : ProtoLaws QueryAggregatePrevotesResponse.
Proof.
  solve_message QueryAggregatePrevotesResponse_encode QueryAggregatePrevotesResponse_ok
    QueryAggregatePrevotesResponse_Size QueryAggregatePrevotesResponse_MarshalToSizedBuffer.
Defined.

Definition QueryAggregateVote_encode (m : QueryAggregateVote) : bytes :=
  enc_string [0xa] (QueryAggregateVote_ValidatorAddr m).
Definition QueryAggregateVote_ok (m : QueryAggregateVote) : Prop :=
  True.
#[export] Instance QueryAggregateVote_laws : ProtoLaws QueryAggregateVote.
Proof.
  solve_message QueryAggregateVote_encode QueryAggregateVote_ok QueryAggregateVote_Size
    QueryAggregateVote_MarshalToSizedBuffer.
Defined.

Definition QueryAggregateVoteResponse_encode (m : QueryAggregateVoteResponse) : bytes :=
  enc_message [0xa] (QueryAggregateVoteResponse_AggregateVote m).
Definition QueryAggregateVoteResponse_ok (m : QueryAggregateVoteResponse) : Prop :=
  pb_ok (QueryAggregateVoteResponse_AggregateVote m).
#[export] Instance QueryAggregateVoteResponse_laws : ProtoLaws QueryAggregateVoteResponse.
Proof.
  solve_message QueryAggregateVoteResponse_encode QueryAggregateVoteResponse_ok
    QueryAggregateVoteResponse_Size QueryAggregateVoteResponse_MarshalToSizedBuffer.
Defined.

Definition QueryAggregateVotes_encode (m : QueryAggregateVotes) : bytes := [].
Definition QueryAggregateVotes_ok (m : QueryAggregateVotes) : Prop := True.
#[export] Instance QueryAggregateVotes_laws : ProtoLaws QueryAggregateVotes.
Proof. solve_empty_message QueryAggregateVotes_encode QueryAggregateVotes_ok. Defined.

Definition QueryAggregateVotesResponse_encode (m : QueryAggregateVotesResponse) : bytes :=
  enc_messages [0xa] (QueryAggregateVotesResponse_AggregateVotes m).
Definition QueryAggregateVotesResponse_ok (m : QueryAggregateVotesResponse) : Prop :=
  Forall pb_ok (QueryAggregateVotesResponse_AggregateVotes m).
#[export] Instance QueryAggregateVotesResponse_laws : ProtoLaws QueryAggregateVotesResponse.
Proof.
  solve_message QueryAggregateVotesResponse_encode QueryAggregateVotesResponse_ok
    QueryAggregateVotesResponse_Size QueryAggregateVotesResponse_MarshalToSizedBuffer.
Defined.

Definition QueryParams_encode (m : QueryParams) : bytes := [].
Definition QueryParams_ok (m : QueryParams) : Prop := True.
#[export] Instance QueryParams_laws : ProtoLaws QueryParams.
Proof. solve_empty_message QueryParams_encode QueryParams_ok. Defined.

Definition QueryParamsResponse_encode (m : QueryParamsResponse) : bytes :=
  enc_message [0xa] (QueryParamsResponse_Params m).
Definition QueryParamsResponse_ok (m : QueryParamsResponse) : Prop :=
  pb_ok (QueryParamsResponse_Params m).
#[export] Instance QueryParamsResponse_laws : ProtoLaws QueryParamsResponse.
Proof.
  solve_message QueryParamsResponse_encode QueryParamsResponse_ok QueryParamsResponse_Size
    QueryParamsResponse_MarshalToSizedBuffer.
Defined.

Definition QueryMedians_encode (m : QueryMedians) : bytes :=
  enc_string [0xa] (qm_Denom m) ++ enc_varint [0x10] (qm_NumStamps m).
Definition QueryMedians_ok (m : QueryMedians) : Prop :=
  is_u32 (qm_NumStamps m).
#[export] Instance QueryMedians_laws : ProtoLaws QueryMedians.
Proof.
  solve_message QueryMedians_encode QueryMedians_ok QueryMedians_Size
    QueryMedians_MarshalToSizedBuffer.
Defined.

Definition QueryMediansResponse_encode (m : QueryMediansResponse) : bytes :=
  enc_messages [0xa] (QueryMediansResponse_Medians m).
Definition QueryMediansResponse_ok (m : QueryMediansResponse) : Prop :=
  Forall pb_ok (QueryMediansResponse_Medians m).
#[export] Instance QueryMediansResponse_laws : ProtoLaws QueryMediansResponse.
Proof.
  solve_message QueryMediansResponse_encode QueryMediansResponse_ok QueryMediansResponse_Size
    QueryMediansResponse_MarshalToSizedBuffer.
Defined.

Definition QueryMedianDeviations_encode (m : QueryMedianDeviations) : bytes :=
  enc_string [0xa] (QueryMedianDeviations_Denom m).
Definition QueryMedianDeviations_ok (m : QueryMedianDeviations) : Prop :=
  True.
#[export] Instance QueryMedianDeviations_laws : ProtoLaws QueryMedianDeviations.
Proof.
  solve_message QueryMedianDeviations_encode QueryMedianDeviations_ok QueryMedianDeviations_Size
    QueryMedianDeviations_MarshalToSizedBuffer.
Defined.

Definition QueryMedianDeviationsResponse_encode (m : QueryMedianDeviationsResponse) : bytes :=
  enc_messages [0xa] (QueryMedianDeviationsResponse_MedianDeviations m).
Definition QueryMedianDeviationsResponse_ok (m : QueryMedianDeviationsResponse) : Prop :=
  Forall pb_ok (QueryMedianDeviationsResponse_MedianDeviations m).
#[export] Instance QueryMedianDeviationsResponse_laws : ProtoLaws QueryMedianDeviationsResponse.
Proof.
  solve_message QueryMedianDeviationsResponse_encode QueryMedianDeviationsResponse_ok
    QueryMedianDeviationsResponse_Size QueryMedianDeviationsResponse_MarshalToSizedBuffer.
Defined.

Definition QueryValidatorRewardSet_encode (m : QueryValidatorRewardSet) : bytes := [].
Definition QueryValidatorRewardSet_ok (m : QueryValidatorRewardSet) : Prop := True.
#[export] Instance QueryValidatorRewardSet_laws : ProtoLaws QueryValidatorRewardSet.
Proof. solve_empty_message QueryValidatorRewardSet_encode QueryValidatorRewardSet_ok. Defined.

Definition QueryValidatorRewardSetResponse_encode (m : QueryValidatorRewardSetResponse) : bytes :=
  enc_message [0xa] (QueryValidatorRewardSetResponse_Validators m).
Definition QueryValidatorRewardSetResponse_ok (m : QueryValidatorRewardSetResponse) : Prop :=
  pb_ok (QueryValidatorRewardSetResponse_Validators m).
#[export] Instance QueryValidatorRewardSetResponse_laws : ProtoLaws QueryValidatorRewardSetResponse.
Proof.
  solve_message QueryValidatorRewardSetResponse_encode QueryValidatorRewardSetResponse_ok
    QueryValidatorRewardSetResponse_Size QueryValidatorRewardSetResponse_MarshalToSizedBuffer.
Defined.

Definition QueryEMARequest_encode (m : QueryEMARequest) : bytes :=
  enc_string [0xa] (QueryEMARequest_Denom m).
Definition QueryEMARequest_ok (m : QueryEMARequest) : Prop :=
  True.
#[export] Instance QueryEMARequest_laws : ProtoLaws QueryEMARequest.
Proof.
  solve_message QueryEMARequest_encode QueryEMARequest_ok QueryEMARequest_Size
    QueryEMARequest_MarshalToSizedBuffer.
Defined.

Definition QueryEMAResponse_encode (m : QueryEMAResponse) : bytes :=
  enc_dec [0xa] (QueryEMAResponse_Price m).
Definition QueryEMAResponse_ok (m : QueryEMAResponse) : Prop :=
  dec_ok (QueryEMAResponse_Price m).
#[export] Instance QueryEMAResponse_laws : ProtoLaws QueryEMAResponse.
Proof.
  solve_message QueryEMAResponse_encode QueryEMAResponse_ok QueryEMAResponse_Size
    QueryEMAResponse_MarshalToSizedBuffer.
Defined.

Definition QueryWMARequest_encode (m : QueryWMARequest) : bytes :=
  enc_string [0xa] (qw_Denom m) ++ enc_string [0x12] (qw_Strategy m) ++
  enc_packed [0x1a] (qw_CustomWeights m).
Definition QueryWMARequest_ok (m : QueryWMARequest) : Prop :=
  Forall is_i64 (qw_CustomWeights m).
#[export] Instance QueryWMARequest_laws : ProtoLaws QueryWMARequest.
Proof.
  solve_message QueryWMARequest_encode QueryWMARequest_ok QueryWMARequest_Size
    QueryWMARequest_MarshalToSizedBuffer.
Defined.

Definition QueryWMAResponse_encode (m : QueryWMAResponse) : bytes :=
  enc_dec [0xa] (QueryWMAResponse_Price m).
Definition QueryWMAResponse_ok (m : QueryWMAResponse) : Prop :=
  dec_ok (QueryWMAResponse_Price m).
#[export] Instance QueryWMAResponse_laws : ProtoLaws QueryWMAResponse.
Proof.
  solve_message QueryWMAResponse_encode QueryWMAResponse_ok QueryWMAResponse_Size
    QueryWMAResponse_MarshalToSizedBuffer.
Defined.

Definition QuerySMARequest_encode (m : QuerySMARequest) : bytes :=
  enc_string [0xa] (QuerySMARequest_Denom m).
Definition QuerySMARequest_ok (m : QuerySMARequest) : Prop :=
  True.
#[export] Instance QuerySMARequest_laws : ProtoLaws QuerySMARequest.
Proof.
  solve_message QuerySMARequest_encode QuerySMARequest_ok QuerySMARequest_Size
    QuerySMARequest_MarshalToSizedBuffer.
Defined.

Definition QuerySMAResponse_encode (m : QuerySMAResponse) : bytes :=
  enc_dec [0xa] (QuerySMAResponse_Price m).
Definition QuerySMAResponse_ok (m : QuerySMAResponse) : Prop :=
  dec_ok (QuerySMAResponse_Price m).
#[export] Instance QuerySMAResponse_laws : ProtoLaws QuerySMAResponse.
Proof.
  solve_message QuerySMAResponse_encode QuerySMAResponse_ok QuerySMAResponse_Size
    QuerySMAResponse_MarshalToSizedBuffer.
Defined.

Definition EventDelegateFeedConsent_encode (m : EventDelegateFeedConsent) : bytes :=
  enc_string [0xa] (EventDelegateFeedConsent_Operator m) ++
  enc_string [0x12] (EventDelegateFeedConsent_Delegate m).
Definition EventDelegateFeedConsent_ok (m : EventDelegateFeedConsent) : Prop :=
  True.
#[export] Instance EventDelegateFeedConsent_laws : ProtoLaws EventDelegateFeedConsent.
Proof.
  solve_message EventDelegateFeedConsent_encode EventDelegateFeedConsent_ok
    EventDelegateFeedConsent_Size EventDelegateFeedConsent_MarshalToSizedBuffer.
Defined.

Definition EventSetFxRate_encode (m : EventSetFxRate) : bytes :=
  enc_string [0xa] (EventSetFxRate_Denom m) ++ enc_dec [0x12] (EventSetFxRate_Rate m).
Definition EventSetFxRate_ok (m : EventSetFxRate) : Prop :=
  dec_ok (EventSetFxRate_Rate m).
#[export] Instance EventSetFxRate_laws : ProtoLaws EventSetFxRate.
Proof.
  solve_message EventSetFxRate_encode EventSetFxRate_ok EventSetFxRate_Size
    EventSetFxRate_MarshalToSizedBuffer.
Defined.
End laws.
