(* ===== verification/QueryService.v ===== *)
(** * QueryService: the gRPC service of the oracle's queries

    [_Query_serviceDesc] of [src/x/oracle/types/query.pb.go]: a method decodes
    its request from bytes, calls the querier and encodes its answer.  The
    state of a query is a branch that is dropped; here it is returned, to show
    that it did not change. *)
From S2P Require Import Prelude Util Dec Types Params Store Bech32 Votes World State Subspace Keeper.
From S2P Require Import HistoricPrice Averages Rewards Wire WireLemmas OracleProto Query QueryProto.
Local Open Scope Z_scope.

(** [sdk.DecCoins] is a slice of coins. *)
Class CoinsList `{CoinsOps} := DecCoins_list : DecCoins → list DecCoin.

(** A request and an answer of each method. *)
Inductive oquery : Type :=
  | QExchangeRates (r : QueryExchangeRates)
  | QActiveExchangeRates (r : QueryActiveExchangeRates)
  | QFeederDelegation (r : QueryFeederDelegation)
  | QMissCounter (r : QueryMissCounter)
  | QSlashWindow (r : QuerySlashWindow)
  | QAggregatePrevote (r : QueryAggregatePrevote)
  | QAggregatePrevotes (r : QueryAggregatePrevotes)
  | QAggregateVote (r : QueryAggregateVote)
  | QAggregateVotes (r : QueryAggregateVotes)
  | QParams (r : QueryParams)
  | QMedians (r : QueryMedians)
  | QMedianDeviations (r : QueryMedianDeviations)
  | QValidatorRewardSet (r : QueryValidatorRewardSet)
  | QEMA (r : QueryEMARequest)
  | QWMA (r : QueryWMARequest)
  | QSMA (r : QuerySMARequest).

Inductive oanswer : Type :=
  | AExchangeRates (a : QueryExchangeRatesResponse)
  | AActiveExchangeRates (a : QueryActiveExchangeRatesResponse)
  | AFeederDelegation (a : QueryFeederDelegationResponse)
  | AMissCounter (a : QueryMissCounterResponse)
  | ASlashWindow (a : QuerySlashWindowResponse)
  | AAggregatePrevote (a : QueryAggregatePrevoteResponse)
  | AAggregatePrevotes (a : QueryAggregatePrevotesResponse)
  | AAggregateVote (a : QueryAggregateVoteResponse)
  | AAggregateVotes (a : QueryAggregateVotesResponse)
  | AParams (a : QueryParamsResponse)
  | AMedians (a : QueryMediansResponse)
  | AMedianDeviations (a : QueryMedianDeviationsResponse)
  | AValidatorRewardSet (a : QueryValidatorRewardSetResponse)
  | AEMA (a : QueryEMAResponse)
  | AWMA (a : QueryWMAResponse)
  | ASMA (a : QuerySMAResponse).

(** The name of the method. *)
Definition query_method (q : oquery) : string :=
  match q with
  | QExchangeRates _ => "ExchangeRates"
  | QActiveExchangeRates _ => "ActiveExchangeRates"
  | QFeederDelegation _ => "FeederDelegation"
  | QMissCounter _ => "MissCounter"
  | QSlashWindow _ => "SlashWindow"
  | QAggregatePrevote _ => "AggregatePrevote"
  | QAggregatePrevotes _ => "AggregatePrevotes"
  | QAggregateVote _ => "AggregateVote"
  | QAggregateVotes _ => "AggregateVotes"
  | QParams _ => "Params"
  | QMedians _ => "Medians"
  | QMedianDeviations _ => "MedianDeviations"
  | QValidatorRewardSet _ => "ValidatorRewardSet"
  | QEMA _ => "EMA"
  | QWMA _ => "WMA"
  | QSMA _ => "SMA"
  end.
Definition answer_method (a : oanswer) : string :=
  match a with
  | AExchangeRates _ => "ExchangeRates"
  | AActiveExchangeRates _ => "ActiveExchangeRates"
  | AFeederDelegation _ => "FeederDelegation"
  | AMissCounter _ => "MissCounter"
  | ASlashWindow _ => "SlashWindow"
  | AAggregatePrevote _ => "AggregatePrevote"
  | AAggregatePrevotes _ => "AggregatePrevotes"
  | AAggregateVote _ => "AggregateVote"
  | AAggregateVotes _ => "AggregateVotes"
  | AParams _ => "Params"
  | AMedians _ => "Medians"
  | AMedianDeviations _ => "MedianDeviations"
  | AValidatorRewardSet _ => "ValidatorRewardSet"
  | AEMA _ => "EMA"
  | AWMA _ => "WMA"
  | ASMA _ => "SMA"
  end.

Section service.
Context {W : Type} `{DecOps, Bech32, CoinOps, !CoinsOps, !CoinsList, StakingKeeper W}.
Context `{!DecCodec} `{!ProtoMessage DecCoin} `{!CoinNil}.
Abbreviation K := (M (State W)) (only parsing).

Definition query_Marshal (q : oquery) : outcome bytes :=
  match q with
  | QExchangeRates r => pb_Marshal r
  | QActiveExchangeRates r => pb_Marshal r
  | QFeederDelegation r => pb_Marshal r
  | QMissCounter r => pb_Marshal r
  | QSlashWindow r => pb_Marshal r
  | QAggregatePrevote r => pb_Marshal r
  | QAggregatePrevotes r => pb_Marshal r
  | QAggregateVote r => pb_Marshal r
  | QAggregateVotes r => pb_Marshal r
  | QParams r => pb_Marshal r
  | QMedians r => pb_Marshal r
  | QMedianDeviations r => pb_Marshal r
  | QValidatorRewardSet r => pb_Marshal r
  | QEMA r => pb_Marshal r
  | QWMA r => pb_Marshal r
  | QSMA r => pb_Marshal r
  end.
Definition answer_Marshal (a : oanswer) : outcome bytes :=
  match a with
  | AExchangeRates a => pb_Marshal a
  | AActiveExchangeRates a => pb_Marshal a
  | AFeederDelegation a => pb_Marshal a
  | AMissCounter a => pb_Marshal a
  | ASlashWindow a => pb_Marshal a
  | AAggregatePrevote a => pb_Marshal a
  | AAggregatePrevotes a => pb_Marshal a
  | AAggregateVote a => pb_Marshal a
  | AAggregateVotes a => pb_Marshal a
  | AParams a => pb_Marshal a
  | AMedians a => pb_Marshal a
  | AMedianDeviations a => pb_Marshal a
  | AValidatorRewardSet a => pb_Marshal a
  | AEMA a => pb_Marshal a
  | AWMA a => pb_Marshal a
  | ASMA a => pb_Marshal a
  end.

(** [in := new(T); dec(in)] of the handlers, and the client's [Invoke]. *)
Definition decode_as {A B} `{ProtoMessage A} (wrap : A → B) (bz : bytes) : outcome B :=
  m ← pb_Unmarshal pb_empty bz; Ok (wrap m).

(** The method of a name: how its request and its answer are decoded. *)
Definition Query_serviceDesc : list (string * ((bytes → outcome oquery) * (bytes → outcome oanswer))) := [
  ("ExchangeRates", (decode_as QExchangeRates, decode_as AExchangeRates));
  ("ActiveExchangeRates", (decode_as QActiveExchangeRates, decode_as AActiveExchangeRates));
  ("FeederDelegation", (decode_as QFeederDelegation, decode_as AFeederDelegation));
  ("MissCounter", (decode_as QMissCounter, decode_as AMissCounter));
  ("SlashWindow", (decode_as QSlashWindow, decode_as ASlashWindow));
  ("AggregatePrevote", (decode_as QAggregatePrevote, decode_as AAggregatePrevote));
  ("AggregatePrevotes", (decode_as QAggregatePrevotes, decode_as AAggregatePrevotes));
  ("AggregateVote", (decode_as QAggregateVote, decode_as AAggregateVote));
  ("AggregateVotes", (decode_as QAggregateVotes, decode_as AAggregateVotes));
  ("Params", (decode_as QParams, decode_as AParams));
  ("Medians", (decode_as QMedians, decode_as AMedians));
  ("MedianDeviations", (decode_as QMedianDeviations, decode_as AMedianDeviations));
  ("ValidatorRewardSet", (decode_as QValidatorRewardSet, decode_as AValidatorRewardSet));
  ("EMA", (decode_as QEMA, decode_as AEMA));
  ("WMA", (decode_as QWMA, decode_as AWMA));
  ("SMA", (decode_as QSMA, decode_as ASMA))]%string.

Definition query_Unmarshal (method : string) (bz : bytes) : outcome oquery :=
  match find (λ d, String.eqb method d.1) Query_serviceDesc with
  | Some (_, (unmarshal, _)) => unmarshal bz
  | None => Err (Errorf "unknown method %s")
  end.
Definition answer_Unmarshal (method : string) (bz : bytes) : outcome oanswer :=
  match find (λ d, String.eqb method d.1) Query_serviceDesc with
  | Some (_, (_, unmarshal)) => unmarshal bz
  | None => Err (Errorf "unknown method %s")
  end.

(** [srv.(QueryServer).Method(ctx, in)]. *)
Definition answer (q : oquery) : K oanswer :=
  match q with
  | QExchangeRates r =>
      x ← Querier.ExchangeRates (Some (QueryExchangeRates_Denom r));
      mret (AExchangeRates (mkQueryExchangeRatesResponse (DecCoins_list x)))
  | QActiveExchangeRates _ =>
      x ← Querier.ActiveExchangeRates (Some ());
      mret (AActiveExchangeRates (mkQueryActiveExchangeRatesResponse x))
  | QFeederDelegation r =>
      x ← Querier.FeederDelegation (Some (QueryFeederDelegation_ValidatorAddr r));
      mret (AFeederDelegation (mkQueryFeederDelegationResponse x))
  | QMissCounter r =>
      x ← Querier.MissCounter (Some (QueryMissCounter_ValidatorAddr r));
      mret (AMissCounter (mkQueryMissCounterResponse x))
  | QSlashWindow _ =>
      x ← Querier.SlashWindow (Some ());
      mret (ASlashWindow (mkQuerySlashWindowResponse x))
  | QAggregatePrevote r =>
      x ← Querier.AggregatePrevote (Some (QueryAggregatePrevote_ValidatorAddr r));
      mret (AAggregatePrevote (mkQueryAggregatePrevoteResponse x))
  | QAggregatePrevotes _ =>
      x ← Querier.AggregatePrevotes (Some ());
      mret (AAggregatePrevotes (mkQueryAggregatePrevotesResponse x))
  | QAggregateVote r =>
      x ← Querier.AggregateVote (Some (QueryAggregateVote_ValidatorAddr r));
      mret (AAggregateVote (mkQueryAggregateVoteResponse x))
  | QAggregateVotes _ =>
      x ← Querier.AggregateVotes (Some ());
      mret (AAggregateVotes (mkQueryAggregateVotesResponse x))
  | QParams _ =>
      x ← Querier.Params (Some ());
      mret (AParams (mkQueryParamsResponse x))
  | QMedians r =>
      x ← Querier.Medians (Some r);
      mret (AMedians (mkQueryMediansResponse x))
  | QMedianDeviations r =>
      x ← Querier.MedianDeviations (Some (QueryMedianDeviations_Denom r));
      mret (AMedianDeviations (mkQueryMedianDeviationsResponse x))
  | QValidatorRewardSet _ =>
      x ← Querier.ValidatorRewardSet (Some ());
      mret (AValidatorRewardSet (mkQueryValidatorRewardSetResponse (mkRewardSet x)))
  | QEMA r =>
      x ← Querier.EMA (Some (QueryEMARequest_Denom r));
      mret (AEMA (mkQueryEMAResponse x))
  | QWMA r =>
      x ← Querier.WMA (Some r);
      mret (AWMA (mkQueryWMAResponse x))
  | QSMA r =>
      x ← Querier.SMA (Some (QuerySMARequest_Denom r));
      mret (ASMA (mkQuerySMAResponse x))
  end.

Definition serve (method : string) (bz : bytes) : K bytes :=
  q ← lift (query_Unmarshal method bz);
  a ← answer q;
  lift (answer_Marshal a).
End service.

(** ** Lemmas *)

Section laws.
Context {W : Type} `{DecOps, Bech32, CoinOps, !CoinsOps, !CoinsList, StakingKeeper W}.
Context `{DecCodecLaws} `{ProtoLaws DecCoin} `{!CoinNil}.
Implicit Types s : State W.

Definition query_encode (x : oquery) : bytes :=
  match x with
  | QExchangeRates m => pb_encode m
  | QActiveExchangeRates m => pb_encode m
  | QFeederDelegation m => pb_encode m
  | QMissCounter m => pb_encode m
  | QSlashWindow m => pb_encode m
  | QAggregatePrevote m => pb_encode m
  | QAggregatePrevotes m => pb_encode m
  | QAggregateVote m => pb_encode m
  | QAggregateVotes m => pb_encode m
  | QParams m => pb_encode m
  | QMedians m => pb_encode m
  | QMedianDeviations m => pb_encode m
  | QValidatorRewardSet m => pb_encode m
  | QEMA m => pb_encode m
  | QWMA m => pb_encode m
  | QSMA m => pb_encode m
  end.
Definition answer_encode (x : oanswer) : bytes :=
  match x with
  | AExchangeRates m => pb_encode m
  | AActiveExchangeRates m => pb_encode m
  | AFeederDelegation m => pb_encode m
  | AMissCounter m => pb_encode m
  | ASlashWindow m => pb_encode m
  | AAggregatePrevote m => pb_encode m
  | AAggregatePrevotes m => pb_encode m
  | AAggregateVote m => pb_encode m
  | AAggregateVotes m => pb_encode m
  | AParams m => pb_encode m
  | AMedians m => pb_encode m
  | AMedianDeviations m => pb_encode m
  | AValidatorRewardSet m => pb_encode m
  | AEMA m => pb_encode m
  | AWMA m => pb_encode m
  | ASMA m => pb_encode m
  end.

(** What can be read back. *)
Definition query_ok (x : oquery) : Prop :=
  match x with
  | QExchangeRates m => pb_ok m
  | QActiveExchangeRates m => pb_ok m
  | QFeederDelegation m => pb_ok m
  | QMissCounter m => pb_ok m
  | QSlashWindow m => pb_ok m
  | QAggregatePrevote m => pb_ok m
  | QAggregatePrevotes m => pb_ok m
  | QAggregateVote m => pb_ok m
  | QAggregateVotes m => pb_ok m
  | QParams m => pb_ok m
  | QMedians m => pb_ok m
  | QMedianDeviations m => pb_ok m
  | QValidatorRewardSet m => pb_ok m
  | QEMA m => pb_ok m
  | QWMA m => pb_ok m
  | QSMA m => pb_ok m
  end.
Definition answer_ok (x : oanswer) : Prop :=
  match x with
  | AExchangeRates m => pb_ok m
  | AActiveExchangeRates m => pb_ok m
  | AFeederDelegation m => pb_ok m
  | AMissCounter m => pb_ok m
  | ASlashWindow m => pb_ok m
  | AAggregatePrevote m => pb_ok m
  | AAggregatePrevotes m => pb_ok m
  | AAggregateVote m => pb_ok m
  | AAggregateVotes m => pb_ok m
  | AParams m => pb_ok m
  | AMedians m => pb_ok m
  | AMedianDeviations m => pb_ok m
  | AValidatorRewardSet m => pb_ok m
  | AEMA m => pb_ok m
  | AWMA m => pb_ok m
  | ASMA m => pb_ok m
  end.

Lemma decode_as_encode {A B} `{ProtoLaws A} (wrap : A → B) (m : A) :
  pb_ok m → len (pb_encode m) < 2 ^ 63 → decode_as wrap (pb_encode m) = Ok (wrap m).
Proof. intros. unfold decode_as. by rewrite pb_Unmarshal_encode. Qed.

Lemma query_Unmarshal_encode q :
  query_ok q → len (query_encode q) < 2 ^ 63 →
  query_Unmarshal (query_method q) (query_encode q) = Ok q.
Proof. destruct q; apply decode_as_encode. Qed.

Lemma answer_Unmarshal_encode a :
  answer_ok a → len (answer_encode a) < 2 ^ 63 →
  answer_Unmarshal (answer_method a) (answer_encode a) = Ok a.
Proof. destruct a; apply decode_as_encode. Qed.

Lemma query_Marshal_encode q :
  query_Marshal q = if 2 ^ 63 <=? len (query_encode q) then Panic else Ok (query_encode q).
Proof. destruct q; apply pb_Marshal_encode. Qed.

Lemma answer_Marshal_encode a :
  answer_Marshal a = if 2 ^ 63 <=? len (answer_encode a) then Panic else Ok (answer_encode a).
Proof. destruct a; apply pb_Marshal_encode. Qed.

(** The answer is the method's. *)
Lemma answer_of_method q s a s' : answer q s = (Ok a, s') → answer_method a = query_method q.
Proof. destruct q; cbn [answer]; by intros (x & s1 & _ & [= <- _])%M_bind_Ok. Qed.

(** No query writes. *)
Definition reads {A} (m : M (State W) A) : Prop := keeps eq m.

Lemma walk_reads {Key V A} (f : Key → V → A → M (State W) (bool * A)) l a :
  (∀ k v a, reads (f k v a)) → reads (walkM f l a).
Proof. intros Hf. apply keeps_walkM; [apply _|done]. Qed.

Lemma limited_reads {X A} (f : X → A → M (State W) (bool * A)) x st :
  (∀ x a, reads (f x a)) → reads (limited f x st).
Proof.
  intros Hf. destruct st as [n a]. unfold limited, reads.
  case_decide; [apply keeps_ret, _|]. apply keeps_bind; [apply _|apply Hf|].
  intros. apply keeps_ret, _.
Qed.

Lemma rate_reads (denom : string) rate coins : reads (Querier.add_rate denom rate coins).
Proof. unfold reads, Querier.add_rate. keeps_tac. Qed.
#[local] Hint Resolve rate_reads : keeps.
#[local] Hint Unfold reads : keeps.

Ltac reads_tac :=
  keeps_tac;
  repeat first [apply limited_reads; intros|apply walk_reads; intros|progress keeps_tac].

(** No query writes. *)
Lemma answer_reads q : reads (answer (W := W) q).
Proof.
  unfold reads. destruct q; cbn [answer]; apply keeps_bind; try apply _; intros; keeps_tac.
  all: unfold Querier.ExchangeRates, Querier.ActiveExchangeRates, Querier.FeederDelegation,
    Querier.MissCounter, Querier.SlashWindow, Querier.AggregatePrevote,
    Querier.AggregatePrevotes, Querier.AggregateVote, Querier.AggregateVotes,
    Querier.Params, Querier.Medians, Querier.MedianDeviations, Querier.ValidatorRewardSet,
    Querier.EMA, Querier.WMA, Querier.SMA, Querier.with_request, Querier.request_address,
    Querier.found.
  all: reads_tac.
Qed.
End laws.
