(* ===== verification/Multisig.v ===== *)
(** * Multisig: the multisig module

    [src/x/multisig/keeper] and [src/x/multisig/types].  The class
    [ProposalTable] is what the handlers call of the generated interface in
    [src/api/multisig/v1/state.cosmos_orm.go], with the laws of a table with a
    unique index; the end of the file has the generated code and its laws.  Hashing, the address codec and the
    bank are classes too.  The message router of the application sends a
    [MsgApproveAndDispatchMultisigProposal] to this module's own handler, so
    the dispatch is a recursive call: it takes fuel, and running out of it is
    the crash (stack or gas) of the Go program. *)
From S2P Require Import Prelude Util Store Wire.
Local Open Scope Z_scope.

Abbreviation addr := string (only parsing).

(** [MultisigProposalType]: an [int32] with three named values; a decoded
    message may hold any. *)
Abbreviation MultisigProposalType := Z (only parsing).
Definition MULTISIG_PROPOSAL_TYPE_UNSPECIFIED : Z := 0.
Definition MULTISIG_PROPOSAL_TYPE_TRANSFER_ONLY : Z := 1.
Definition MULTISIG_PROPOSAL_TYPE_EXCEPT_TRANSFER : Z := 2.

(** Byte slices are strings here. *)
Record MultisigAccountDetails := mkDetails {
  Signers : list addr;
  Threshold : Z;
  Permission : MultisigProposalType;
}.

Record Proposal := mkProposal {
  pr_Id : Z;
  pr_MultisigAddress : addr;
  pr_CallHash : string;
  pr_Depositor : addr;
  pr_Deposit : Z;
  pr_Approvals : list addr;
}.

Record Params := mkParams { SomeValue : bool }.

(** ** Messages *)

Record MsgUpdateParams := mkMsgUpdateParams { up_Authority : string; up_Params : Params }.
Record MsgCreateMultisigAccountParams := mkMsgCreate {
  cr_Authority : string; cr_Seed : Z; cr_Threshold : Z; cr_Signers : list addr;
  cr_Permission : MultisigProposalType }.
Record MsgAddMultisigSignerParams := mkMsgAddSigner {
  as_MultisigAddress : string; as_Signer : string; as_NewThreshold : Z }.
Record MsgCleanupMultisigAccountParams := mkMsgCleanupAccount { ca_MultisigAddress : string }.
Record MsgSetMultisigThresholdParams := mkMsgSetThreshold {
  st_MultisigAddress : string; st_Threshold : Z }.
Record MsgInitializeMultisigProposalParams := mkMsgInitialize {
  in_MultisigAddress : string; in_Proposer : string; in_Title : string; in_Description : string;
  in_Message : option Any }.
Record MsgApproveMultisigProposalParams := mkMsgApprove {
  ap_MultisigAddress : string; ap_ProposalId : Z; ap_Approver : string }.
Record MsgApproveAndDispatchMultisigProposalParams := mkMsgDispatch {
  di_MultisigAddress : string; di_ProposalId : Z; di_Approver : string; di_Message : option Any }.
Record MsgCancelMultisigProposalParams := mkMsgCancelProposal {
  cn_MultisigAddress : string; cn_ProposalId : Z; cn_Rejecter : string }.
Record MsgCleanupMultisigProposalParams := mkMsgCleanupProposal {
  cl_MultisigAddress : string; cl_ProposalId : Z; cl_Remover : string }.

(** ** What the module calls *)

Class AddressCodec := StringToBytes : string → outcome addr.
Class Blake2b := blake2b_Sum256 : string → string.
Class AccountPrefix := GetBech32AccountAddrPrefix : string.
Class MultisigBank (W : Type) := SendCoinsFromAccountToModule : addr → string → Z → M W ().

Class ProposalTable (T : Type) := {
  InsertReturningId : Proposal → M T Z;
  Table_Get : T → Z → outcome Proposal;
  GetByMultisigAddressCallHash : T → addr → string → outcome Proposal;
  Table_Update : Proposal → M T ();
  Table_Delete : Proposal → M T ();
}.

Definition ormerrors_NotFound : error := Sdk "orm NotFound".
Definition ormerrors_UniqueKeyViolation : error := Sdk "orm UniqueKeyViolation".

(** A lookup does not panic and returns a row with the key; a row whose pair of
    address and hash is taken is refused. *)
Class ProposalTableLaws (T : Type) `{!ProposalTable T} : Prop := {
  GetBy_no_panic (t : T) a h : GetByMultisigAddressCallHash t a h ≠ Panic;
  Get_no_panic (t : T) id : Table_Get t id ≠ Panic;
  Insert_taken (t : T) (p q : Proposal) :
    GetByMultisigAddressCallHash t (pr_MultisigAddress p) (pr_CallHash p) = Ok q →
    InsertReturningId p t = (Err ormerrors_UniqueKeyViolation, t);
}.

(** A table without rows. *)
Definition table_empty {T} `{ProposalTable T} (t : T) : Prop :=
  (∀ id, Table_Get t id = Err ormerrors_NotFound) ∧
  (∀ a h, GetByMultisigAddressCallHash t a h = Err ormerrors_NotFound).

(** ** State *)

Record MState (T W : Type) := mkMState {
  ms_Params : option Params;
  ms_Accounts : gmap addr MultisigAccountDetails;
  ms_Table : T;
  ms_Bank : W;
}.
Arguments mkMState {T W}.
Arguments ms_Params {T W}.
Arguments ms_Accounts {T W}.
Arguments ms_Table {T W}.
Arguments ms_Bank {T W}.

(** Sentinels of the SDK the handlers wrap. *)
Definition ErrInvalidSigner : error := Sdk "ErrInvalidSigner".
Definition ErrInvalidAddress : error := Sdk "ErrInvalidAddress".
Definition ErrInsufficientFee : error := Sdk "ErrInsufficientFee".
Definition ErrInsufficientFunds : error := Sdk "ErrInsufficientFunds".
Definition ErrUnknownAddress : error := Sdk "ErrUnknownAddress".
Definition ErrConflict : error := Sdk "ErrConflict".

(** The loop variable shadows the parameter: it is compared with itself. *)
Definition contains (signers : list addr) (signer : addr) : bool :=
  existsb (λ signer, String.eqb signer signer) signers.

(** [binary.BigEndian.PutUint32]. *)
Definition be_bytes4 (n : Z) : string :=
  let byte k := ascii_of_N (Z.to_N ((n / 256 ^ k) mod 256)) in
  String (byte 3) (String (byte 2) (String (byte 1) (String (byte 0) EmptyString))).

Definition DeriveMultisigAccountID `{Blake2b, AccountPrefix} (seed : Z) : addr :=
  let input := (GetBech32AccountAddrPrefix +:+ be_bytes4 seed)%string in
  let hash := blake2b_Sum256 input in
  String.substring 0 20 hash.

Section handlers.
Context {T W : Type} `{AddressCodec, Blake2b, AccountPrefix} `{MultisigBank W} `{ProposalTable T}.
Context (authority : string).
Abbreviation K := (M (MState T W)) (only parsing).

Definition set_account (a : addr) (d : MultisigAccountDetails) : K () :=
  modify (λ s, mkMState (ms_Params s) (<[a := d]> (ms_Accounts s)) (ms_Table s) (ms_Bank s)).

Definition on_table {A} (m : M T A) : K A := λ s,
  let '(r, t) := m (ms_Table s) in (r, mkMState (ms_Params s) (ms_Accounts s) t (ms_Bank s)).

Definition on_bank {A} (m : M W A) : K A := λ s,
  let '(r, w) := m (ms_Bank s) in (r, mkMState (ms_Params s) (ms_Accounts s) (ms_Table s) w).

(** [err != nil] on a call replaces the error by [e]. *)
Definition wrap_error {A} (o : outcome A) (e : error) : outcome A :=
  match o with Ok a => Ok a | Err _ => Err e | Panic => Panic end.

Definition UpdateParams (msg : MsgUpdateParams) : K () :=
  if negb (String.eqb authority (up_Authority msg)) then throw ErrInvalidSigner else
  modify (λ s, mkMState (Some (up_Params msg)) (ms_Accounts s) (ms_Table s) (ms_Bank s)).

Definition CreateMultisigAccount (msg : MsgCreateMultisigAccountParams) : K addr :=
  sender ← lift (wrap_error (StringToBytes (cr_Authority msg)) ErrInvalidAddress);
  if cr_Threshold msg <? 1 then throw ErrInsufficientFee else
  let n := Z.of_nat (length (cr_Signers msg)) in
  if (n <? 2) && (10 <? n) then throw ErrInsufficientFunds else
  let multisig_address := DeriveMultisigAccountID (cr_Seed msg) in
  m ← gets ms_Accounts;
  match m !! multisig_address with
  | Some _ => throw ErrUnknownAddress
  | None =>
      set_account multisig_address
        (mkDetails (cr_Signers msg ++ [sender]) (cr_Threshold msg) (cr_Permission msg));;
      mret multisig_address
  end.

Definition AddMultisigSigner (msg : MsgAddMultisigSignerParams) : K () :=
  multisig_address ← lift (wrap_error (StringToBytes (as_MultisigAddress msg)) ErrInvalidAddress);
  new_signer ← lift (wrap_error (StringToBytes (as_Signer msg)) ErrInvalidAddress);
  m ← gets ms_Accounts;
  match m !! multisig_address with
  | None => throw ErrConflict
  | Some details =>
      if contains (Signers details) new_signer then throw ErrConflict else
      threshold ← (if negb (as_NewThreshold msg =? 0) then
                     if as_NewThreshold msg <? 1 then throw ErrInsufficientFee
                     else mret (as_NewThreshold msg)
                   else mret (Threshold details));
      set_account multisig_address
        (mkDetails (Signers details ++ [new_signer]) threshold (Permission details))
  end.

(** The four unimplemented handlers. *)
Definition CleanupMultisigSigner (msg : MsgCleanupMultisigAccountParams) : K () := panic.
Definition SetThreshold (msg : MsgSetMultisigThresholdParams) : K () := panic.
Definition CancelMultisigProposal (msg : MsgCancelMultisigProposalParams) : K () := panic.
Definition CleanupMultisigProposal (msg : MsgCleanupMultisigProposalParams) : K () := panic.

(** The member check the three proposal handlers share. *)
Definition check_member (multisig_string signer_string : string) :
    K (addr * addr * MultisigAccountDetails) :=
  signer ← lift (wrap_error (StringToBytes signer_string) ErrInvalidAddress);
  multisig_address ← lift (wrap_error (StringToBytes multisig_string) ErrInvalidAddress);
  m ← gets ms_Accounts;
  match m !! multisig_address with
  | None => throw ErrConflict
  | Some details =>
      if negb (contains (Signers details) signer) then throw ErrConflict
      else mret (signer, multisig_address, details)
  end.

(** On an error of the lookup the nil proposal's [Id] is read. *)
Definition InitializeMultisigProposal (msg : MsgInitializeMultisigProposalParams) : K Z :=
  '(proposer, multisig_address, _) ← check_member (in_MultisigAddress msg) (in_Proposer msg);
  message ← lift (or_panic (in_Message msg));
  let call_hash := blake2b_Sum256 (String.string_of_list_ascii (Value message)) in
  t ← gets ms_Table;
  match GetByMultisigAddressCallHash t multisig_address call_hash with
  | Panic | Err _ => panic
  | Ok _ =>
      r ← on_table (λ t, let '(r, t') :=
            InsertReturningId (mkProposal 0 multisig_address call_hash proposer 10 [proposer]) t in
            (Ok r, t'));
      match r with
      | Panic => panic
      | Err _ => throw ErrConflict
      | Ok id =>
          on_bank (SendCoinsFromAccountToModule proposer "multisig" 10);;
          mret id
      end
  end.

(** The error of [Get] is not looked at: a missing proposal is a nil
    dereference.  The error of [Update] is dropped. *)
Definition ApproveMultisigProposal (msg : MsgApproveMultisigProposalParams) : K () :=
  '(approver, _, details) ← check_member (ap_MultisigAddress msg) (ap_Approver msg);
  t ← gets ms_Table;
  match Table_Get t (ap_ProposalId msg) with
  | Panic | Err _ => panic
  | Ok proposal =>
      if contains (pr_Approvals proposal) approver then mret () else
      if Z.of_nat (length (pr_Approvals proposal)) <? Threshold details then
        let proposal := mkProposal (pr_Id proposal) (pr_MultisigAddress proposal)
          (pr_CallHash proposal) (pr_Depositor proposal) (pr_Deposit proposal)
          (pr_Approvals proposal ++ [approver]) in
        r ← on_table (λ t, let '(r, t') := Table_Update proposal t in (Ok r, t'));
        match r with Panic => panic | _ => mret () end
      else mret ()
  end.

(** [DispatchActions]: [registered] says whether the router has a handler for
    the message.  A failing handler gives a nil result. *)
Definition DispatchActions (registered : bool) (handler : K string) : K (option string) :=
  if negb registered then mret None else λ s,
  match handler s with
  | (Ok data, s') => (Ok (Some data), s')
  | (Err _, s') => (Ok None, s')
  | (Panic, s') => (Panic, s')
  end.

Fixpoint ApproveAndDispatchMultisigProposal (fuel : nat) (registered : bool)
    (msg : MsgApproveAndDispatchMultisigProposalParams) : K string :=
  '(approver, multisig_address, details) ← check_member (di_MultisigAddress msg) (di_Approver msg);
  message ← lift (or_panic (di_Message msg));
  let call_hash := blake2b_Sum256 (String.string_of_list_ascii (Value message)) in
  t ← gets ms_Table;
  proposal ← lift (GetByMultisigAddressCallHash t multisig_address call_hash);
  if negb (di_ProposalId msg =? pr_Id proposal) then throw ErrConflict else
  let approvals_len := Z.of_nat (length (pr_Approvals proposal)) in
  let approvals_len :=
    if negb (contains (pr_Approvals proposal) approver) then approvals_len + 1 else approvals_len in
  if approvals_len <? Threshold details then throw ErrInsufficientFee else
  res ← DispatchActions registered
    match fuel with
    | O => panic
    | S fuel' => ApproveAndDispatchMultisigProposal fuel' registered msg
    end;
  on_table (λ t, let '(r, t') := Table_Delete proposal t in
    (match r with Panic => Panic | _ => Ok () end, t'));;
  match res with
  | None => panic
  | Some data => mret data
  end.

(** ** Genesis and queries *)

(** [Params.Validate] accepts every value. *)
Definition Params_Validate (p : Params) : outcome () := Ok ().

Definition InitGenesis (params : Params) : K () :=
  lift (Params_Validate params);;
  modify (λ s, mkMState (Some params) (ms_Accounts s) (ms_Table s) (ms_Bank s)).

Definition ExportGenesis : K Params :=
  p ← gets ms_Params;
  match p with Some p => mret p | None => panic end.

Definition Query_Params : K Params :=
  p ← gets ms_Params;
  match p with Some p => mret p | None => throw (Sdk "collections ErrNotFound") end.
End handlers.

(** ** Transactions and reachable states *)

Inductive mmsg : Type :=
  | MUpdate (m : MsgUpdateParams)
  | MCreate (m : MsgCreateMultisigAccountParams)
  | MAddSigner (m : MsgAddMultisigSignerParams)
  | MInitialize (m : MsgInitializeMultisigProposalParams)
  | MApprove (m : MsgApproveMultisigProposalParams)
  | MDispatch (m : MsgApproveAndDispatchMultisigProposalParams)
  | MCleanupAccount (m : MsgCleanupMultisigAccountParams)
  | MSetThreshold (m : MsgSetMultisigThresholdParams)
  | MCancel (m : MsgCancelMultisigProposalParams)
  | MCleanupProposal (m : MsgCleanupMultisigProposalParams).

Section reach.
Context {T W : Type} `{AddressCodec, Blake2b, AccountPrefix} `{MultisigBank W}.
Context `{ProposalTable T} `{!ProposalTableLaws T}.
Context (authority : string) (registered : bool) (fuel : nat).

Definition no_result {A} (r : outcome A * MState T W) : outcome () * MState T W :=
  (match r.1 with Ok _ => Ok () | Err e => Err e | Panic => Panic end, r.2).

Definition handle (m : mmsg) (s : MState T W) : outcome () * MState T W :=
  match m with
  | MUpdate m => UpdateParams authority m s
  | MCreate m => no_result (CreateMultisigAccount m s)
  | MAddSigner m => AddMultisigSigner m s
  | MInitialize m => no_result (InitializeMultisigProposal m s)
  | MApprove m => ApproveMultisigProposal m s
  | MDispatch m => no_result (ApproveAndDispatchMultisigProposal fuel registered m s)
  | MCleanupAccount m => CleanupMultisigSigner m s
  | MSetThreshold m => SetThreshold m s
  | MCancel m => CancelMultisigProposal m s
  | MCleanupProposal m => CleanupMultisigProposal m s
  end.

(** A transaction keeps its writes only when it succeeds. *)
Inductive tx : MState T W → mmsg → MState T W → Prop :=
  | tx_ok m s s' : handle m s = (Ok (), s') → tx s m s'
  | tx_fail m s : (handle m s).1 ≠ Ok () → tx s m s.

Inductive reachable (s0 : MState T W) : MState T W → Prop :=
  | reach_refl : reachable s0 s0
  | reach_tx s m s' : reachable s0 s → tx s m s' → reachable s0 s'.

(** Every account has a signer and a positive threshold. *)
Definition accounts_ok (s : MState T W) : Prop :=
  ∀ a d, ms_Accounts s !! a = Some d → Signers d ≠ [] ∧ 1 ≤ Threshold d.

Lemma contains_nonempty signers signer : contains signers signer = bool_decide (signers ≠ []).
Proof. destruct signers; [done|]. simpl. by rewrite String.eqb_refl. Qed.

Lemma check_member_state ma sg s r s' : check_member (T := T) (W := W) ma sg s = (r, s') → s' = s.
Proof.
  unfold check_member, lift, gets, mbind, M_bind.
  destruct (wrap_error (StringToBytes sg) _); [|by intros [= _ <-]..].
  destruct (wrap_error (StringToBytes ma) _); [|by intros [= _ <-]..].
  destruct (_ !! _); [|by intros [= _ <-]]. destruct (negb _); by intros [= _ <-].
Qed.

(** The call succeeds for no input and no state. *)
Definition never_Ok {A} (m : M (MState T W) A) : Prop := ∀ s a s', m s ≠ (Ok a, s').

Lemma never_Ok_bind {A B} (m : M (MState T W) A) (f : A → M (MState T W) B) :
  (∀ a s s', m s = (Ok a, s') → ∀ b s'', f a s' ≠ (Ok b, s'')) → never_Ok (m ≫= f).
Proof. intros Hf s b s' (a & s1 & Hm & Hb)%M_bind_Ok. by eapply Hf. Qed.

(** Opening a proposal: a new call is a nil dereference, an open one is
    refused by the unique index. *)
Lemma Initialize_never msg : never_Ok (InitializeMultisigProposal msg).
Proof.
  unfold InitializeMultisigProposal. apply never_Ok_bind. intros [[proposer ma] details] s s1 _.
  apply never_Ok_bind. intros value s2 s3 _. unfold gets, mbind, M_bind. intros b s''.
  destruct (GetByMultisigAddressCallHash _ _ _) as [p|e|] eqn:Hget; [|done..].
  unfold on_table.
  by erewrite Insert_taken.
Qed.

(** Dispatching never succeeds, whatever the table holds and however deep the
    recursion goes. *)
Lemma Dispatch_never n reg msg : never_Ok (ApproveAndDispatchMultisigProposal n reg msg).
Proof.
  induction n as [|n IH]; cbn [ApproveAndDispatchMultisigProposal];
    apply never_Ok_bind; intros [[approver ma] details] sa sb _;
    apply never_Ok_bind; intros value sc sd _; apply never_Ok_bind; intros t se sf _;
    apply never_Ok_bind; intros proposal sg sh _;
    (destruct (negb _); [done|]); (destruct (_ <? Threshold _); [done|]);
    apply never_Ok_bind; intros res s5 s6 Hres;
    apply never_Ok_bind; intros [] si sj _; destruct res as [data|]; try done; intros ? ? _;
    unfold DispatchActions in Hres; destruct reg; try done; simpl in Hres.
  destruct (ApproveAndDispatchMultisigProposal n true msg s5) as [[d| |] s8] eqn:Hd; try done.
  by apply IH in Hd.
Qed.

(** Creating an account: the branches in order. *)
Lemma Create_Ok msg (s : MState T W) a s' :
  CreateMultisigAccount msg s = (Ok a, s') ↔
  ∃ sender, StringToBytes (cr_Authority msg) = Ok sender ∧ 1 ≤ cr_Threshold msg ∧
    a = DeriveMultisigAccountID (cr_Seed msg) ∧ ms_Accounts s !! a = None ∧
    s' = mkMState (ms_Params s)
           (<[a := mkDetails (cr_Signers msg ++ [sender]) (cr_Threshold msg) (cr_Permission msg)]>
              (ms_Accounts s)) (ms_Table s) (ms_Bank s).
Proof.
  unfold CreateMultisigAccount. unfold mbind at 1, M_bind at 1. unfold lift.
  destruct (StringToBytes _) as [sender| |]; simpl; [|split; [done|naive_solver]..].
  destruct (Z.ltb_spec (cr_Threshold msg) 1); [split; [done|naive_solver lia]|].
  assert ((Z.of_nat (length (cr_Signers msg)) <? 2) && (10 <? Z.of_nat (length (cr_Signers msg))) = false) as ->.
  { destruct (Z.ltb_spec (Z.of_nat (length (cr_Signers msg))) 2); [|done]. simpl.
    apply Z.ltb_ge. lia. }
  unfold gets, mbind, M_bind. destruct (ms_Accounts s !! _) eqn:Hm; [split; [done|naive_solver]|].
  simpl. split.
  - intros [= <- <-]. by exists sender.
  - intros (? & [= <-] & ? & -> & ? & ->). done.
Qed.

(** Members cannot be added: the account's signers are never empty. *)
Lemma AddSigner_never msg (s : MState T W) s' : accounts_ok s → AddMultisigSigner msg s ≠ (Ok (), s').
Proof.
  intros Hs. unfold AddMultisigSigner. unfold mbind at 1, M_bind at 1. unfold lift.
  destruct (wrap_error _ _); [|done..]. unfold mbind at 1, M_bind at 1. unfold lift.
  destruct (wrap_error _ _); [|done..]. unfold gets, mbind at 1, M_bind at 1.
  destruct (ms_Accounts s !! _) as [d|] eqn:Hd; [|done].
  rewrite contains_nonempty, bool_decide_eq_true_2; [done|]. by destruct (Hs _ _ Hd).
Qed.

(** No approval goes through on an empty table. *)
Lemma Approve_empty msg (s : MState T W) s' : table_empty (ms_Table s) → ApproveMultisigProposal msg s ≠ (Ok (), s').
Proof.
  intros [Hget _]. unfold ApproveMultisigProposal. intros (x & s1 & Hc & Hrun)%M_bind_Ok.
  apply check_member_state in Hc as ->. destruct x as [[approver ma] details].
  unfold gets, mbind, M_bind in Hrun. by rewrite Hget in Hrun.
Qed.

(** A transaction keeps the accounts well-formed, and an empty table empty. *)
Lemma tx_invariant s m s' :
  tx s m s' → accounts_ok s → table_empty (ms_Table s) →
  accounts_ok s' ∧ ms_Table s' = ms_Table s.
Proof.
  intros [m' s1 s2 Hok|m' s1 _] Hacc Hempty; [|done]. destruct m' as [m'|m'|m'|m'|m'|m'|m'|m'|m'|m']; simpl in Hok; try done.
  - unfold UpdateParams in Hok. destruct (negb _); [done|]. by injection Hok as <-.
  - destruct (CreateMultisigAccount m' s1) as [[a| |] s3] eqn:Hc; [|done..]. injection Hok as <-.
    apply Create_Ok in Hc as (sender & _ & Hth & _ & _ & ->). split; [|done].
    intros a' d'. simpl. intros [[<- <-]|[? Hd]]%lookup_insert_Some; [|by eapply Hacc].
    split; [|done]. simpl. by destruct (cr_Signers m').
  - by apply AddSigner_never in Hok.
  - destruct (InitializeMultisigProposal m' s1) as [[a| |] s3] eqn:Hc; [|done..].
    by apply Initialize_never in Hc.
  - by apply Approve_empty in Hok.
  - destruct (ApproveAndDispatchMultisigProposal _ _ _ s1) as [[a| |] s3] eqn:Hc; [|done..].
    by apply Dispatch_never in Hc.
Qed.
End reach.

(** ** A concrete table, codec, hash and bank for the witnesses *)

Definition MapTable : Type := gmap Z Proposal * Z.

Definition find_call (t : MapTable) (a : addr) (h : string) : option Proposal :=
  match filter (λ e, pr_MultisigAddress e.2 = a ∧ pr_CallHash e.2 = h) (Walk t.1) with
  | (_, p) :: _ => Some p
  | [] => None
  end.

#[export] Instance map_table : ProposalTable MapTable := {|
  InsertReturningId p t :=
    match find_call t (pr_MultisigAddress p) (pr_CallHash p) with
    | Some _ => (Err ormerrors_UniqueKeyViolation, t)
    | None =>
        let id := t.2 + 1 in
        (Ok id, (<[id := mkProposal id (pr_MultisigAddress p) (pr_CallHash p) (pr_Depositor p)
                           (pr_Deposit p) (pr_Approvals p)]> t.1, id))
    end;
  Table_Get t id := match t.1 !! id with Some p => Ok p | None => Err ormerrors_NotFound end;
  GetByMultisigAddressCallHash t a h :=
    match find_call t a h with Some p => Ok p | None => Err ormerrors_NotFound end;
  Table_Update p t := (Ok (), (<[pr_Id p := p]> t.1, t.2));
  Table_Delete p t := (Ok (), (delete (pr_Id p) t.1, t.2));
|}.

#[export] Instance map_table_laws : ProposalTableLaws MapTable.
Proof.
  split; simpl.
  - intros t a h. by destruct (find_call _ _ _).
  - intros t id. by destruct (_ !! _).
  - intros t p q. by destruct (find_call _ _ _).
Qed.

Definition plain_codec : AddressCodec := λ s,
  match s with EmptyString => Err (Errorf "empty address") | _ => Ok s end.
Definition plain_hash : Blake2b := λ s, s.
Definition plain_prefix : AccountPrefix := "dm".
Definition free_bank : MultisigBank () := λ _ _ _ w, (Ok (), w).

(** ** The generated table of proposals

    [state.cosmos_orm.go]: the typed wrappers over the ORM library, which is the
    class [AutoIncrementTable].  The table they make is a [ProposalTable], so
    the promises of that class follow from those of the library; [MapTable] is
    a table of the library to evaluate on. *)

(** The values of an index key: [[]interface{}]. *)
Inductive orm_value : Type :=
  | ValueUint64 (z : Z)
  | ValueBytes (bz : string).
#[export] Instance orm_value_eq_dec : EqDecision orm_value.
Proof. solve_decision. Defined.

(** [ormtable.AutoIncrementTable] for the descriptor of [Proposal] in
    [state.proto]: a lookup answers whether it found a row and the row; index 0
    is the primary key.  [IsUniqueIndex] is the type assertion on an index. *)
Class AutoIncrementTable (T : Type) := {
  tbl_Insert : Proposal → M T ();
  tbl_InsertReturningPKey : Proposal → M T Z;
  tbl_LastInsertedSequence : T → outcome Z;
  tbl_Update : Proposal → M T ();
  tbl_Save : Proposal → M T ();
  tbl_Delete : Proposal → M T ();
  IsUniqueIndex : Z → bool;
  idx_Has : Z → list orm_value → T → outcome bool;
  idx_Get : Z → list orm_value → T → outcome (option Proposal);
  idx_List : Z → list orm_value → T → outcome (list Proposal);
  idx_ListRange : Z → list orm_value → list orm_value → T → outcome (list Proposal);
  idx_DeleteBy : Z → list orm_value → M T ();
  idx_DeleteRange : Z → list orm_value → list orm_value → M T ();
}.

(** *** Index keys *)

Inductive ProposalIndexKey : Type :=
  | ProposalIdIndexKey (vs : list orm_value)
  | ProposalMultisigAddressCallHashIndexKey (vs : list orm_value)
  | ProposalDepositorIndexKey (vs : list orm_value).

Definition IndexKey_id (x : ProposalIndexKey) : Z :=
  match x with
  | ProposalIdIndexKey _ => 0
  | ProposalMultisigAddressCallHashIndexKey _ => 1
  | ProposalDepositorIndexKey _ => 2
  end.
Definition IndexKey_values (x : ProposalIndexKey) : list orm_value :=
  match x with
  | ProposalIdIndexKey vs | ProposalMultisigAddressCallHashIndexKey vs
  | ProposalDepositorIndexKey vs => vs
  end.

(** The methods with a value receiver return a copy with the values set. *)
Definition WithId (id : Z) : ProposalIndexKey := ProposalIdIndexKey [ValueUint64 id].
Definition WithMultisigAddress (multisig_address : string) : ProposalIndexKey :=
  ProposalMultisigAddressCallHashIndexKey [ValueBytes multisig_address].
Definition WithMultisigAddressCallHash (multisig_address call_hash : string) : ProposalIndexKey :=
  ProposalMultisigAddressCallHashIndexKey [ValueBytes multisig_address; ValueBytes call_hash].
Definition WithDepositor (depositor : string) : ProposalIndexKey :=
  ProposalDepositorIndexKey [ValueBytes depositor].

(** *** The table *)

Section table.
Context {T : Type} `{AutoIncrementTable T}.

Definition proposalTable_Insert (proposal : Proposal) : M T () := tbl_Insert proposal.
Definition proposalTable_Update (proposal : Proposal) : M T () := tbl_Update proposal.
Definition proposalTable_Save (proposal : Proposal) : M T () := tbl_Save proposal.
Definition proposalTable_Delete (proposal : Proposal) : M T () := tbl_Delete proposal.
Definition proposalTable_InsertReturningId (proposal : Proposal) : M T Z :=
  tbl_InsertReturningPKey proposal.
Definition proposalTable_LastInsertedSequence (t : T) : outcome Z := tbl_LastInsertedSequence t.

Definition found_row (r : outcome (option Proposal)) : outcome Proposal :=
  found ← r; match found with Some p => Ok p | None => Err ormerrors_NotFound end.

Definition proposalTable_Has (t : T) (id : Z) : outcome bool := idx_Has 0 [ValueUint64 id] t.
Definition proposalTable_Get (t : T) (id : Z) : outcome Proposal :=
  found_row (idx_Get 0 [ValueUint64 id] t).

(** [GetIndexByID(i).(ormtable.UniqueIndex)]. *)
Definition unique_index (i : Z) : outcome () := if IsUniqueIndex i then Ok () else Panic.

Definition proposalTable_HasByMultisigAddressCallHash (t : T) (multisig_address call_hash : string) :
    outcome bool :=
  unique_index 1;; idx_Has 1 [ValueBytes multisig_address; ValueBytes call_hash] t.
Definition proposalTable_GetByMultisigAddressCallHash (t : T) (multisig_address call_hash : string) :
    outcome Proposal :=
  unique_index 1;; found_row (idx_Get 1 [ValueBytes multisig_address; ValueBytes call_hash] t).

Definition proposalTable_List (t : T) (prefixKey : ProposalIndexKey) : outcome (list Proposal) :=
  idx_List (IndexKey_id prefixKey) (IndexKey_values prefixKey) t.
(** The index is that of the first key, whatever the second is. *)
Definition proposalTable_ListRange (t : T) (from to : ProposalIndexKey) : outcome (list Proposal) :=
  idx_ListRange (IndexKey_id from) (IndexKey_values from) (IndexKey_values to) t.
Definition proposalTable_DeleteBy (prefixKey : ProposalIndexKey) : M T () :=
  idx_DeleteBy (IndexKey_id prefixKey) (IndexKey_values prefixKey).
Definition proposalTable_DeleteRange (from to : ProposalIndexKey) : M T () :=
  idx_DeleteRange (IndexKey_id from) (IndexKey_values from) (IndexKey_values to).

(** [NewProposalTable] and [NewStateStore] over the table of a schema, which
    may have none. *)
Definition NewProposalTable (table : option T) : outcome T :=
  match table with Some t => Ok t | None => Err (Sdk "orm TableNotFound") end.
Definition NewStateStore (table : option T) : outcome T :=
  proposalTable ← NewProposalTable table; Ok proposalTable.

(** The table of the keeper: [k.OrmDB.ProposalTable()]. *)
#[export] Instance proposalTable : ProposalTable T | 100 := {|
  InsertReturningId := proposalTable_InsertReturningId;
  Table_Get := proposalTable_Get;
  GetByMultisigAddressCallHash := proposalTable_GetByMultisigAddressCallHash;
  Table_Update := proposalTable_Update;
  Table_Delete := proposalTable_Delete;
|}.
End table.

(** *** What the library promises *)

(** A lookup does not panic; [Has] says whether [Get] finds a row; the index
    over address and hash is unique, and a row whose key it holds is refused. *)
Class AutoIncrementTableLaws (T : Type) `{!AutoIncrementTable T} : Prop := {
  idx_Get_no_panic i vs t : idx_Get i vs t ≠ Panic;
  idx_Has_Get i vs t : idx_Has i vs t = (r ← idx_Get i vs t; Ok (bool_decide (is_Some r)));
  index_unique : IsUniqueIndex 1 = true;
  InsertReturningPKey_taken (t : T) p q :
    idx_Get 1 [ValueBytes (pr_MultisigAddress p); ValueBytes (pr_CallHash p)] t = Ok (Some q) →
    tbl_InsertReturningPKey p t = (Err ormerrors_UniqueKeyViolation, t);
}.

Section table_laws.
Context {T : Type} `{AutoIncrementTableLaws T}.

Lemma found_row_Ok r p : found_row r = Ok p ↔ r = Ok (Some p).
Proof. unfold found_row. destruct r as [[q|]| |]; cbn; naive_solver. Qed.

Lemma found_row_no_panic r : r ≠ Panic → found_row r ≠ Panic.
Proof. by destruct r as [[q|]| |]. Qed.

(** The generated table keeps the promises that the handlers rely on. *)
#[export] Instance proposalTable_laws : ProposalTableLaws T.
Proof.
  split; cbn; intros t.
  - intros a h. unfold proposalTable_GetByMultisigAddressCallHash, unique_index.
    rewrite index_unique. apply found_row_no_panic, idx_Get_no_panic.
  - intros id. apply found_row_no_panic, idx_Get_no_panic.
  - intros p q. unfold proposalTable_GetByMultisigAddressCallHash, unique_index.
    rewrite index_unique. cbn [mbind outcome_bind]. rewrite found_row_Ok.
    apply InsertReturningPKey_taken.
Qed.

(** A row is there exactly when it can be got. *)
Lemma Has_Get t id b :
  proposalTable_Has t id = Ok b →
  if b then ∃ p, proposalTable_Get t id = Ok p else proposalTable_Get t id = Err ormerrors_NotFound.
Proof.
  unfold proposalTable_Has, proposalTable_Get. rewrite idx_Has_Get.
  destruct (idx_Get 0 _ t) as [[p|]| |]; cbn; intros [= <-]; [by exists p|done].
Qed.

Lemma HasBy_GetBy t a h b :
  proposalTable_HasByMultisigAddressCallHash t a h = Ok b →
  if b then ∃ p, proposalTable_GetByMultisigAddressCallHash t a h = Ok p
  else proposalTable_GetByMultisigAddressCallHash t a h = Err ormerrors_NotFound.
Proof.
  unfold proposalTable_HasByMultisigAddressCallHash, proposalTable_GetByMultisigAddressCallHash.
  unfold unique_index. rewrite index_unique. cbn [mbind outcome_bind]. rewrite idx_Has_Get.
  destruct (idx_Get 1 _ t) as [[p|]| |]; cbn; intros [= <-]; [by exists p|done].
Qed.
End table_laws.

(** *** A table to evaluate on *)

(** The values of a row under an index. *)
Definition row_key (i : Z) (p : Proposal) : list orm_value :=
  if i =? 0 then [ValueUint64 (pr_Id p)] else
  if i =? 1 then [ValueBytes (pr_MultisigAddress p); ValueBytes (pr_CallHash p)] else
  [ValueBytes (pr_Depositor p)].

Definition rows_at (i : Z) (vs : list orm_value) (t : MapTable) : list Proposal :=
  filter (λ p, take (length vs) (row_key i p) = vs) (map snd (Walk t.1)).

Definition with_id (p : Proposal) (id : Z) : Proposal :=
  mkProposal id (pr_MultisigAddress p) (pr_CallHash p) (pr_Depositor p) (pr_Deposit p) (pr_Approvals p).

Definition map_insert (p : Proposal) : M MapTable Z := λ t,
  match head (rows_at 1 (row_key 1 p) t) with
  | Some _ => (Err ormerrors_UniqueKeyViolation, t)
  | None => let id := t.2 + 1 in (Ok id, (<[id := with_id p id]> t.1, id))
  end.
Definition map_update (p : Proposal) : M MapTable () := λ t, (Ok (), (<[pr_Id p := p]> t.1, t.2)).
Definition map_delete (l : list Proposal) : M MapTable () := λ t,
  (Ok (), (foldr (λ p, delete (pr_Id p)) t.1 l, t.2)).

(** The module uses no ranges, and this table has none. *)
Definition no_ranges : error := Errorf "ranges are not supported".

#[export] Instance map_orm : AutoIncrementTable MapTable := {|
  tbl_Insert p := map_insert p;; mret ();
  tbl_InsertReturningPKey := map_insert;
  tbl_LastInsertedSequence t := Ok t.2;
  tbl_Update := map_update;
  tbl_Save p := if pr_Id p =? 0 then map_insert p;; mret () else map_update p;
  tbl_Delete p := map_delete [p];
  IsUniqueIndex i := i <=? 1;
  idx_Has i vs t := Ok (bool_decide (is_Some (head (rows_at i vs t))));
  idx_Get i vs t := Ok (head (rows_at i vs t));
  idx_List i vs t := Ok (rows_at i vs t);
  idx_ListRange _ _ _ _ := Err no_ranges;
  idx_DeleteBy i vs := λ t, map_delete (rows_at i vs t) t;
  idx_DeleteRange _ _ _ := throw no_ranges;
|}.

#[export] Instance map_orm_laws : AutoIncrementTableLaws MapTable.
Proof.
  split; cbn; try done.
  intros t p q [= Hq]. unfold map_insert.
  change (row_key 1 p) with [ValueBytes (pr_MultisigAddress p); ValueBytes (pr_CallHash p)].
  by rewrite Hq.
Qed.

(** Two proposals, the second refused by the unique index. *)
Example orm_inserts :
  let p := mkProposal 0 "a" "h" "d" 5 [] in
  let t1 := (proposalTable_InsertReturningId p (∅, 0)).2 in
  (proposalTable_InsertReturningId p (∅, 0)).1 = Ok 1 ∧
  proposalTable_Get t1 1 = Ok (with_id p 1) ∧
  proposalTable_GetByMultisigAddressCallHash t1 "a" "h" = Ok (with_id p 1) ∧
  proposalTable_List t1 (WithMultisigAddress "a") = Ok [with_id p 1] ∧
  (proposalTable_InsertReturningId p t1).1 = Err ormerrors_UniqueKeyViolation ∧
  proposalTable_Get (proposalTable_DeleteBy (WithDepositor "d") t1).2 1 = Err ormerrors_NotFound.
Proof. by vm_compute. Qed.
