(* ===== verification/MultisigProto.v ===== *)
(** * MultisigProto: the wire format of the multisig module

    [src/x/multisig/types/tx.pb.go], [state.pb.go], [genesis.pb.go] and
    [query.pb.go].  [Any] is code of the SDK: a message whose laws are a
    hypothesis. *)
From S2P Require Import Prelude Util Wire WireLemmas Multisig.
Local Open Scope Z_scope.

Record MsgUpdateParamsResponse := mkMsgUpdateParamsResponse {}.
Record MsgCreateMultisigAccountResponse := mkMsgCreateMultisigAccountResponse {
  MsgCreateMultisigAccountResponse_MultisigAddress : string;
}.
Record MsgAddMultisigSignerResponse := mkMsgAddMultisigSignerResponse {}.
Record MsgCleanupMultisigAccountResponse := mkMsgCleanupMultisigAccountResponse {}.
Record MsgSetMultisigThresholdResponse := mkMsgSetMultisigThresholdResponse {}.
Record MsgInitializeMultisigResponse := mkMsgInitializeMultisigResponse {
  MsgInitializeMultisigResponse_ProposalId : Z;
}.
Record MsgApproveMultisigProposalResponse := mkMsgApproveMultisigProposalResponse {}.
Record MsgApproveAndDispatchMultisigProposalResponse := mkMsgApproveAndDispatchMultisigProposalResponse {
  MsgApproveAndDispatchMultisigProposalResponse_TransactionHash : string;
}.
Record MsgCancelMultisigProposalResponse := mkMsgCancelMultisigProposalResponse {}.
Record MsgCleanupMultisigProposalResponse := mkMsgCleanupMultisigProposalResponse {}.
Record QueryParamsRequest := mkQueryParamsRequest {}.
Record QueryParamsResponse := mkQueryParamsResponse { QueryParamsResponse_Params : option Params }.
Record GenesisState := mkGenesisState { GenesisState_Params : Params }.

Section messages.
Context `{ProtoMessage Any}.

(** [Params] *)

Definition Params_MarshalToSizedBuffer (m : Params) : W :=
  put_bool [0x10] (SomeValue m).
Definition Params_Size (m : Params) : Z :=
  size_bool 1 (SomeValue m).
Definition Params_field (n : Z) : option (field_reader Params) :=
  if n =? 2 then Some (bool_field "SomeValue" (λ m v, mkParams v)) else
  None.
#[export] Instance Params_message : ProtoMessage Params :=
  message "Params" (mkParams false)
    Params_Size Params_MarshalToSizedBuffer Params_field.

(** [MultisigAccountDetails] *)

Definition MultisigAccountDetails_MarshalToSizedBuffer (m : MultisigAccountDetails) : W :=
  put_varint [0x18] (Permission m) ;; put_varint [0x10] (Threshold m) ;;
  put_bytestrings [0xa] (Signers m).
Definition MultisigAccountDetails_Size (m : MultisigAccountDetails) : Z :=
  size_bytestrings 1 (Signers m) + size_varint 1 (Threshold m) + size_varint 1 (Permission m).
Definition MultisigAccountDetails_field (n : Z) : option (field_reader MultisigAccountDetails) :=
  if n =? 1 then
    Some (bytestrings_field "Signers" Signers
      (λ m v, mkDetails v (Threshold m) (Permission m))) else
  if n =? 2 then
    Some (varint_field "Threshold" wrap_u32 (λ m v, mkDetails (Signers m) v (Permission m))) else
  if n =? 3 then
    Some (varint_field "Permission" wrap_i32 (λ m v, mkDetails (Signers m) (Threshold m) v)) else
  None.
#[export] Instance MultisigAccountDetails_message : ProtoMessage MultisigAccountDetails :=
  message "MultisigAccountDetails" (mkDetails [] 0 0)
    MultisigAccountDetails_Size
    MultisigAccountDetails_MarshalToSizedBuffer
    MultisigAccountDetails_field.

(** [Proposal] *)

Definition Proposal_MarshalToSizedBuffer (m : Proposal) : W :=
  put_bytestrings [0x32] (pr_Approvals m) ;; put_varint [0x28] (pr_Deposit m) ;;
  put_bytestring [0x22] (pr_Depositor m) ;; put_bytestring [0x1a] (pr_CallHash m) ;;
  put_bytestring [0x12] (pr_MultisigAddress m) ;; put_varint [0x8] (pr_Id m).
Definition Proposal_Size (m : Proposal) : Z :=
  size_varint 1 (pr_Id m) + size_bytestring 1 (pr_MultisigAddress m) +
  size_bytestring 1 (pr_CallHash m) + size_bytestring 1 (pr_Depositor m) +
  size_varint 1 (pr_Deposit m) + size_bytestrings 1 (pr_Approvals m).
Definition Proposal_field (n : Z) : option (field_reader Proposal) :=
  if n =? 1 then
    Some (varint_field "Id" wrap_u64
      (λ m v, mkProposal v (pr_MultisigAddress m) (pr_CallHash m) (pr_Depositor m) (pr_Deposit m)
         (pr_Approvals m))) else
  if n =? 2 then
    Some (bytestring_field "MultisigAddress"
      (λ m v, mkProposal (pr_Id m) v (pr_CallHash m) (pr_Depositor m) (pr_Deposit m) (pr_Approvals
         m))) else
  if n =? 3 then
    Some (bytestring_field "CallHash"
      (λ m v, mkProposal (pr_Id m) (pr_MultisigAddress m) v (pr_Depositor m) (pr_Deposit m)
         (pr_Approvals m))) else
  if n =? 4 then
    Some (bytestring_field "Depositor"
      (λ m v, mkProposal (pr_Id m) (pr_MultisigAddress m) (pr_CallHash m) v (pr_Deposit m)
         (pr_Approvals m))) else
  if n =? 5 then
    Some (varint_field "Deposit" wrap_u64
      (λ m v, mkProposal (pr_Id m) (pr_MultisigAddress m) (pr_CallHash m) (pr_Depositor m) v
         (pr_Approvals m))) else
  if n =? 6 then
    Some (bytestrings_field "Approvals" pr_Approvals
      (λ m v, mkProposal (pr_Id m) (pr_MultisigAddress m) (pr_CallHash m) (pr_Depositor m)
         (pr_Deposit m) v)) else
  None.
#[export] Instance Proposal_message : ProtoMessage Proposal :=
  message "Proposal" (mkProposal 0 "" "" "" 0 [])
    Proposal_Size Proposal_MarshalToSizedBuffer Proposal_field.

(** [MsgUpdateParams] *)

Definition MsgUpdateParams_MarshalToSizedBuffer (m : MsgUpdateParams) : W :=
  put_message [0x12] (up_Params m) ;; put_string [0xa] (up_Authority m).
Definition MsgUpdateParams_Size (m : MsgUpdateParams) : Z :=
  size_string 1 (up_Authority m) + size_delimited 1 (pb_Size (up_Params m)).
Definition MsgUpdateParams_field (n : Z) : option (field_reader MsgUpdateParams) :=
  if n =? 1 then Some (string_field "Authority" (λ m v, mkMsgUpdateParams v (up_Params m))) else
  if n =? 2 then
    Some (message_field "Params" up_Params (λ m v, mkMsgUpdateParams (up_Authority m) v)) else
  None.
#[export] Instance MsgUpdateParams_message : ProtoMessage MsgUpdateParams :=
  message "MsgUpdateParams" (mkMsgUpdateParams "" pb_empty)
    MsgUpdateParams_Size MsgUpdateParams_MarshalToSizedBuffer MsgUpdateParams_field.

(** [MsgCreateMultisigAccountParams] *)

Definition MsgCreateMultisigAccountParams_MarshalToSizedBuffer (m : MsgCreateMultisigAccountParams) :
    W :=
  put_varint [0x28] (cr_Permission m) ;; put_bytestrings [0x22] (cr_Signers m) ;;
  put_varint [0x18] (cr_Threshold m) ;; put_varint [0x10] (cr_Seed m) ;;
  put_string [0xa] (cr_Authority m).
Definition MsgCreateMultisigAccountParams_Size (m : MsgCreateMultisigAccountParams) : Z :=
  size_string 1 (cr_Authority m) + size_varint 1 (cr_Seed m) + size_varint 1 (cr_Threshold m) +
  size_bytestrings 1 (cr_Signers m) + size_varint 1 (cr_Permission m).
Definition MsgCreateMultisigAccountParams_field (n : Z) :
    option (field_reader MsgCreateMultisigAccountParams) :=
  if n =? 1 then
    Some (string_field "Authority"
      (λ m v, mkMsgCreate v (cr_Seed m) (cr_Threshold m) (cr_Signers m) (cr_Permission m))) else
  if n =? 2 then
    Some (varint_field "Seed" wrap_u32
      (λ m v, mkMsgCreate (cr_Authority m) v (cr_Threshold m) (cr_Signers m) (cr_Permission m)))
         else
  if n =? 3 then
    Some (varint_field "Threshold" wrap_u32
      (λ m v, mkMsgCreate (cr_Authority m) (cr_Seed m) v (cr_Signers m) (cr_Permission m))) else
  if n =? 4 then
    Some (bytestrings_field "Signers" cr_Signers
      (λ m v, mkMsgCreate (cr_Authority m) (cr_Seed m) (cr_Threshold m) v (cr_Permission m))) else
  if n =? 5 then
    Some (varint_field "Permission" wrap_i32
      (λ m v, mkMsgCreate (cr_Authority m) (cr_Seed m) (cr_Threshold m) (cr_Signers m) v)) else
  None.
#[export] Instance MsgCreateMultisigAccountParams_message :
    ProtoMessage MsgCreateMultisigAccountParams :=
  message "MsgCreateMultisigAccountParams" (mkMsgCreate "" 0 0 [] 0)
    MsgCreateMultisigAccountParams_Size
    MsgCreateMultisigAccountParams_MarshalToSizedBuffer
    MsgCreateMultisigAccountParams_field.

(** [MsgAddMultisigSignerParams] *)

Definition MsgAddMultisigSignerParams_MarshalToSizedBuffer (m : MsgAddMultisigSignerParams) : W :=
  put_varint [0x18] (as_NewThreshold m) ;; put_string [0x12] (as_Signer m) ;;
  put_string [0xa] (as_MultisigAddress m).
Definition MsgAddMultisigSignerParams_Size (m : MsgAddMultisigSignerParams) : Z :=
  size_string 1 (as_MultisigAddress m) + size_string 1 (as_Signer m) +
  size_varint 1 (as_NewThreshold m).
Definition MsgAddMultisigSignerParams_field (n : Z) :
    option (field_reader MsgAddMultisigSignerParams) :=
  if n =? 1 then
    Some (string_field "MultisigAddress"
      (λ m v, mkMsgAddSigner v (as_Signer m) (as_NewThreshold m))) else
  if n =? 2 then
    Some (string_field "Signer"
      (λ m v, mkMsgAddSigner (as_MultisigAddress m) v (as_NewThreshold m))) else
  if n =? 3 then
    Some (varint_field "NewThreshold" wrap_u32
      (λ m v, mkMsgAddSigner (as_MultisigAddress m) (as_Signer m) v)) else
  None.
#[export] Instance MsgAddMultisigSignerParams_message : ProtoMessage MsgAddMultisigSignerParams :=
  message "MsgAddMultisigSignerParams" (mkMsgAddSigner "" "" 0)
    MsgAddMultisigSignerParams_Size
    MsgAddMultisigSignerParams_MarshalToSizedBuffer
    MsgAddMultisigSignerParams_field.

(** [MsgCleanupMultisigAccountParams] *)

Definition MsgCleanupMultisigAccountParams_MarshalToSizedBuffer (m : MsgCleanupMultisigAccountParams) :
    W :=
  put_string [0xa] (ca_MultisigAddress m).
Definition MsgCleanupMultisigAccountParams_Size (m : MsgCleanupMultisigAccountParams) : Z :=
  size_string 1 (ca_MultisigAddress m).
Definition MsgCleanupMultisigAccountParams_field (n : Z) :
    option (field_reader MsgCleanupMultisigAccountParams) :=
  if n =? 1 then Some (string_field "MultisigAddress" (λ m v, mkMsgCleanupAccount v)) else
  None.
#[export] Instance MsgCleanupMultisigAccountParams_message :
    ProtoMessage MsgCleanupMultisigAccountParams :=
  message "MsgCleanupMultisigAccountParams" (mkMsgCleanupAccount "")
    MsgCleanupMultisigAccountParams_Size
    MsgCleanupMultisigAccountParams_MarshalToSizedBuffer
    MsgCleanupMultisigAccountParams_field.

(** [MsgSetMultisigThresholdParams] *)

Definition MsgSetMultisigThresholdParams_MarshalToSizedBuffer (m : MsgSetMultisigThresholdParams) :
    W :=
  put_varint [0x10] (st_Threshold m) ;; put_string [0xa] (st_MultisigAddress m).
Definition MsgSetMultisigThresholdParams_Size (m : MsgSetMultisigThresholdParams) : Z :=
  size_string 1 (st_MultisigAddress m) + size_varint 1 (st_Threshold m).
Definition MsgSetMultisigThresholdParams_field (n : Z) :
    option (field_reader MsgSetMultisigThresholdParams) :=
  if n =? 1 then
    Some (string_field "MultisigAddress" (λ m v, mkMsgSetThreshold v (st_Threshold m))) else
  if n =? 2 then
    Some (varint_field "Threshold" wrap_u32
      (λ m v, mkMsgSetThreshold (st_MultisigAddress m) v)) else
  None.
#[export] Instance MsgSetMultisigThresholdParams_message :
    ProtoMessage MsgSetMultisigThresholdParams :=
  message "MsgSetMultisigThresholdParams" (mkMsgSetThreshold "" 0)
    MsgSetMultisigThresholdParams_Size
    MsgSetMultisigThresholdParams_MarshalToSizedBuffer
    MsgSetMultisigThresholdParams_field.

(** [MsgInitializeMultisigProposalParams] *)

Definition MsgInitializeMultisigProposalParams_MarshalToSizedBuffer (m : MsgInitializeMultisigProposalParams) :
    W :=
  put_option [0x2a] (in_Message m) ;; put_string [0x22] (in_Description m) ;;
  put_string [0x1a] (in_Title m) ;; put_string [0x12] (in_Proposer m) ;;
  put_string [0xa] (in_MultisigAddress m).
Definition MsgInitializeMultisigProposalParams_Size (m : MsgInitializeMultisigProposalParams) : Z :=
  size_string 1 (in_MultisigAddress m) + size_string 1 (in_Proposer m) +
  size_string 1 (in_Title m) + size_string 1 (in_Description m) + size_option 1 (in_Message m).
Definition MsgInitializeMultisigProposalParams_field (n : Z) :
    option (field_reader MsgInitializeMultisigProposalParams) :=
  if n =? 1 then
    Some (string_field "MultisigAddress"
      (λ m v, mkMsgInitialize v (in_Proposer m) (in_Title m) (in_Description m) (in_Message m)))
         else
  if n =? 2 then
    Some (string_field "Proposer"
      (λ m v, mkMsgInitialize (in_MultisigAddress m) v (in_Title m) (in_Description m) (in_Message
         m))) else
  if n =? 3 then
    Some (string_field "Title"
      (λ m v, mkMsgInitialize (in_MultisigAddress m) (in_Proposer m) v (in_Description m)
         (in_Message m))) else
  if n =? 4 then
    Some (string_field "Description"
      (λ m v, mkMsgInitialize (in_MultisigAddress m) (in_Proposer m) (in_Title m) v (in_Message
         m))) else
  if n =? 5 then
    Some (option_field "Message" in_Message
      (λ m v, mkMsgInitialize (in_MultisigAddress m) (in_Proposer m) (in_Title m) (in_Description
         m) v)) else
  None.
#[export] Instance MsgInitializeMultisigProposalParams_message :
    ProtoMessage MsgInitializeMultisigProposalParams :=
  message "MsgInitializeMultisigProposalParams" (mkMsgInitialize "" "" "" "" None)
    MsgInitializeMultisigProposalParams_Size
    MsgInitializeMultisigProposalParams_MarshalToSizedBuffer
    MsgInitializeMultisigProposalParams_field.

(** [MsgApproveMultisigProposalParams] *)

Definition MsgApproveMultisigProposalParams_MarshalToSizedBuffer (m : MsgApproveMultisigProposalParams) :
    W :=
  put_string [0x1a] (ap_Approver m) ;; put_varint [0x10] (ap_ProposalId m) ;;
  put_string [0xa] (ap_MultisigAddress m).
Definition MsgApproveMultisigProposalParams_Size (m : MsgApproveMultisigProposalParams) : Z :=
  size_string 1 (ap_MultisigAddress m) + size_varint 1 (ap_ProposalId m) +
  size_string 1 (ap_Approver m).
Definition MsgApproveMultisigProposalParams_field (n : Z) :
    option (field_reader MsgApproveMultisigProposalParams) :=
  if n =? 1 then
    Some (string_field "MultisigAddress"
      (λ m v, mkMsgApprove v (ap_ProposalId m) (ap_Approver m))) else
  if n =? 2 then
    Some (varint_field "ProposalId" wrap_u64
      (λ m v, mkMsgApprove (ap_MultisigAddress m) v (ap_Approver m))) else
  if n =? 3 then
    Some (string_field "Approver"
      (λ m v, mkMsgApprove (ap_MultisigAddress m) (ap_ProposalId m) v)) else
  None.
#[export] Instance MsgApproveMultisigProposalParams_message :
    ProtoMessage MsgApproveMultisigProposalParams :=
  message "MsgApproveMultisigProposalParams" (mkMsgApprove "" 0 "")
    MsgApproveMultisigProposalParams_Size
    MsgApproveMultisigProposalParams_MarshalToSizedBuffer
    MsgApproveMultisigProposalParams_field.

(** [MsgApproveAndDispatchMultisigProposalParams] *)

Definition MsgApproveAndDispatchMultisigProposalParams_MarshalToSizedBuffer (m : MsgApproveAndDispatchMultisigProposalParams) :
    W :=
  put_option [0x2a] (di_Message m) ;; put_string [0x1a] (di_Approver m) ;;
  put_varint [0x10] (di_ProposalId m) ;; put_string [0xa] (di_MultisigAddress m).
Definition MsgApproveAndDispatchMultisigProposalParams_Size (m : MsgApproveAndDispatchMultisigProposalParams) :
    Z :=
  size_string 1 (di_MultisigAddress m) + size_varint 1 (di_ProposalId m) +
  size_string 1 (di_Approver m) + size_option 1 (di_Message m).
Definition MsgApproveAndDispatchMultisigProposalParams_field (n : Z) :
    option (field_reader MsgApproveAndDispatchMultisigProposalParams) :=
  if n =? 1 then
    Some (string_field "MultisigAddress"
      (λ m v, mkMsgDispatch v (di_ProposalId m) (di_Approver m) (di_Message m))) else
  if n =? 2 then
    Some (varint_field "ProposalId" wrap_u64
      (λ m v, mkMsgDispatch (di_MultisigAddress m) v (di_Approver m) (di_Message m))) else
  if n =? 3 then
    Some (string_field "Approver"
      (λ m v, mkMsgDispatch (di_MultisigAddress m) (di_ProposalId m) v (di_Message m))) else
  if n =? 5 then
    Some (option_field "Message" di_Message
      (λ m v, mkMsgDispatch (di_MultisigAddress m) (di_ProposalId m) (di_Approver m) v)) else
  None.
#[export] Instance MsgApproveAndDispatchMultisigProposalParams_message :
    ProtoMessage MsgApproveAndDispatchMultisigProposalParams :=
  message "MsgApproveAndDispatchMultisigProposalParams" (mkMsgDispatch "" 0 "" None)
    MsgApproveAndDispatchMultisigProposalParams_Size
    MsgApproveAndDispatchMultisigProposalParams_MarshalToSizedBuffer
    MsgApproveAndDispatchMultisigProposalParams_field.

(** [MsgCancelMultisigProposalParams] *)

Definition MsgCancelMultisigProposalParams_MarshalToSizedBuffer (m : MsgCancelMultisigProposalParams) :
    W :=
  put_string [0x1a] (cn_Rejecter m) ;; put_varint [0x10] (cn_ProposalId m) ;;
  put_string [0xa] (cn_MultisigAddress m).
Definition MsgCancelMultisigProposalParams_Size (m : MsgCancelMultisigProposalParams) : Z :=
  size_string 1 (cn_MultisigAddress m) + size_varint 1 (cn_ProposalId m) +
  size_string 1 (cn_Rejecter m).
Definition MsgCancelMultisigProposalParams_field (n : Z) :
    option (field_reader MsgCancelMultisigProposalParams) :=
  if n =? 1 then
    Some (string_field "MultisigAddress"
      (λ m v, mkMsgCancelProposal v (cn_ProposalId m) (cn_Rejecter m))) else
  if n =? 2 then
    Some (varint_field "ProposalId" wrap_u64
      (λ m v, mkMsgCancelProposal (cn_MultisigAddress m) v (cn_Rejecter m))) else
  if n =? 3 then
    Some (string_field "Rejecter"
      (λ m v, mkMsgCancelProposal (cn_MultisigAddress m) (cn_ProposalId m) v)) else
  None.
#[export] Instance MsgCancelMultisigProposalParams_message :
    ProtoMessage MsgCancelMultisigProposalParams :=
  message "MsgCancelMultisigProposalParams" (mkMsgCancelProposal "" 0 "")
    MsgCancelMultisigProposalParams_Size
    MsgCancelMultisigProposalParams_MarshalToSizedBuffer
    MsgCancelMultisigProposalParams_field.

(** [MsgCleanupMultisigProposalParams] *)

Definition MsgCleanupMultisigProposalParams_MarshalToSizedBuffer (m : MsgCleanupMultisigProposalParams) :
    W :=
  put_string [0x1a] (cl_Remover m) ;; put_varint [0x10] (cl_ProposalId m) ;;
  put_string [0xa] (cl_MultisigAddress m).
Definition MsgCleanupMultisigProposalParams_Size (m : MsgCleanupMultisigProposalParams) : Z :=
  size_string 1 (cl_MultisigAddress m) + size_varint 1 (cl_ProposalId m) +
  size_string 1 (cl_Remover m).
Definition MsgCleanupMultisigProposalParams_field (n : Z) :
    option (field_reader MsgCleanupMultisigProposalParams) :=
  if n =? 1 then
    Some (string_field "MultisigAddress"
      (λ m v, mkMsgCleanupProposal v (cl_ProposalId m) (cl_Remover m))) else
  if n =? 2 then
    Some (varint_field "ProposalId" wrap_u64
      (λ m v, mkMsgCleanupProposal (cl_MultisigAddress m) v (cl_Remover m))) else
  if n =? 3 then
    Some (string_field "Remover"
      (λ m v, mkMsgCleanupProposal (cl_MultisigAddress m) (cl_ProposalId m) v)) else
  None.
#[export] Instance MsgCleanupMultisigProposalParams_message :
    ProtoMessage MsgCleanupMultisigProposalParams :=
  message "MsgCleanupMultisigProposalParams" (mkMsgCleanupProposal "" 0 "")
    MsgCleanupMultisigProposalParams_Size
    MsgCleanupMultisigProposalParams_MarshalToSizedBuffer
    MsgCleanupMultisigProposalParams_field.

(** [MsgUpdateParamsResponse] *)

Definition MsgUpdateParamsResponse_MarshalToSizedBuffer (m : MsgUpdateParamsResponse) : W := mret ().
Definition MsgUpdateParamsResponse_Size (m : MsgUpdateParamsResponse) : Z := 0.
Definition MsgUpdateParamsResponse_field (n : Z) :
    option (field_reader MsgUpdateParamsResponse) := None.
#[export] Instance MsgUpdateParamsResponse_message : ProtoMessage MsgUpdateParamsResponse :=
  message "MsgUpdateParamsResponse" mkMsgUpdateParamsResponse
    MsgUpdateParamsResponse_Size
    MsgUpdateParamsResponse_MarshalToSizedBuffer
    MsgUpdateParamsResponse_field.

(** [MsgCreateMultisigAccountResponse] *)

Definition MsgCreateMultisigAccountResponse_MarshalToSizedBuffer (m : MsgCreateMultisigAccountResponse) :
    W :=
  put_string [0xa] (MsgCreateMultisigAccountResponse_MultisigAddress m).
Definition MsgCreateMultisigAccountResponse_Size (m : MsgCreateMultisigAccountResponse) : Z :=
  size_string 1 (MsgCreateMultisigAccountResponse_MultisigAddress m).
Definition MsgCreateMultisigAccountResponse_field (n : Z) :
    option (field_reader MsgCreateMultisigAccountResponse) :=
  if n =? 1 then
    Some (string_field "MultisigAddress" (λ m v, mkMsgCreateMultisigAccountResponse v)) else
  None.
#[export] Instance MsgCreateMultisigAccountResponse_message :
    ProtoMessage MsgCreateMultisigAccountResponse :=
  message "MsgCreateMultisigAccountResponse" (mkMsgCreateMultisigAccountResponse "")
    MsgCreateMultisigAccountResponse_Size
    MsgCreateMultisigAccountResponse_MarshalToSizedBuffer
    MsgCreateMultisigAccountResponse_field.

(** [MsgAddMultisigSignerResponse] *)

Definition MsgAddMultisigSignerResponse_MarshalToSizedBuffer (m : MsgAddMultisigSignerResponse) : W := mret ().
Definition MsgAddMultisigSignerResponse_Size (m : MsgAddMultisigSignerResponse) : Z := 0.
Definition MsgAddMultisigSignerResponse_field (n : Z) :
    option (field_reader MsgAddMultisigSignerResponse) := None.
#[export] Instance MsgAddMultisigSignerResponse_message :
    ProtoMessage MsgAddMultisigSignerResponse :=
  message "MsgAddMultisigSignerResponse" mkMsgAddMultisigSignerResponse
    MsgAddMultisigSignerResponse_Size
    MsgAddMultisigSignerResponse_MarshalToSizedBuffer
    MsgAddMultisigSignerResponse_field.

(** [MsgCleanupMultisigAccountResponse] *)

Definition MsgCleanupMultisigAccountResponse_MarshalToSizedBuffer (m : MsgCleanupMultisigAccountResponse) : W := mret ().
Definition MsgCleanupMultisigAccountResponse_Size (m : MsgCleanupMultisigAccountResponse) : Z := 0.
Definition MsgCleanupMultisigAccountResponse_field (n : Z) :
    option (field_reader MsgCleanupMultisigAccountResponse) := None.
#[export] Instance MsgCleanupMultisigAccountResponse_message :
    ProtoMessage MsgCleanupMultisigAccountResponse :=
  message "MsgCleanupMultisigAccountResponse" mkMsgCleanupMultisigAccountResponse
    MsgCleanupMultisigAccountResponse_Size
    MsgCleanupMultisigAccountResponse_MarshalToSizedBuffer
    MsgCleanupMultisigAccountResponse_field.

(** [MsgSetMultisigThresholdResponse] *)

Definition MsgSetMultisigThresholdResponse_MarshalToSizedBuffer (m : MsgSetMultisigThresholdResponse) : W := mret ().
Definition MsgSetMultisigThresholdResponse_Size (m : MsgSetMultisigThresholdResponse) : Z := 0.
Definition MsgSetMultisigThresholdResponse_field (n : Z) :
    option (field_reader MsgSetMultisigThresholdResponse) := None.
#[export] Instance MsgSetMultisigThresholdResponse_message :
    ProtoMessage MsgSetMultisigThresholdResponse :=
  message "MsgSetMultisigThresholdResponse" mkMsgSetMultisigThresholdResponse
    MsgSetMultisigThresholdResponse_Size
    MsgSetMultisigThresholdResponse_MarshalToSizedBuffer
    MsgSetMultisigThresholdResponse_field.

(** [MsgInitializeMultisigResponse] *)

Definition MsgInitializeMultisigResponse_MarshalToSizedBuffer (m : MsgInitializeMultisigResponse) :
    W :=
  put_varint [0x8] (MsgInitializeMultisigResponse_ProposalId m).
Definition MsgInitializeMultisigResponse_Size (m : MsgInitializeMultisigResponse) : Z :=
  size_varint 1 (MsgInitializeMultisigResponse_ProposalId m).
Definition MsgInitializeMultisigResponse_field (n : Z) :
    option (field_reader MsgInitializeMultisigResponse) :=
  if n =? 1 then
    Some (varint_field "ProposalId" wrap_u64 (λ m v, mkMsgInitializeMultisigResponse v)) else
  None.
#[export] Instance MsgInitializeMultisigResponse_message :
    ProtoMessage MsgInitializeMultisigResponse :=
  message "MsgInitializeMultisigResponse" (mkMsgInitializeMultisigResponse 0)
    MsgInitializeMultisigResponse_Size
    MsgInitializeMultisigResponse_MarshalToSizedBuffer
    MsgInitializeMultisigResponse_field.

(** [MsgApproveMultisigProposalResponse] *)

Definition MsgApproveMultisigProposalResponse_MarshalToSizedBuffer (m : MsgApproveMultisigProposalResponse) : W := mret ().
Definition MsgApproveMultisigProposalResponse_Size (m : MsgApproveMultisigProposalResponse) : Z := 0.
Definition MsgApproveMultisigProposalResponse_field (n : Z) :
    option (field_reader MsgApproveMultisigProposalResponse) := None.
#[export] Instance MsgApproveMultisigProposalResponse_message :
    ProtoMessage MsgApproveMultisigProposalResponse :=
  message "MsgApproveMultisigProposalResponse" mkMsgApproveMultisigProposalResponse
    MsgApproveMultisigProposalResponse_Size
    MsgApproveMultisigProposalResponse_MarshalToSizedBuffer
    MsgApproveMultisigProposalResponse_field.

(** [MsgApproveAndDispatchMultisigProposalResponse] *)

Definition MsgApproveAndDispatchMultisigProposalResponse_MarshalToSizedBuffer (m : MsgApproveAndDispatchMultisigProposalResponse) :
    W :=
  put_string [0xa] (MsgApproveAndDispatchMultisigProposalResponse_TransactionHash m).
Definition MsgApproveAndDispatchMultisigProposalResponse_Size (m : MsgApproveAndDispatchMultisigProposalResponse) :
    Z :=
  size_string 1 (MsgApproveAndDispatchMultisigProposalResponse_TransactionHash m).
Definition MsgApproveAndDispatchMultisigProposalResponse_field (n : Z) :
    option (field_reader MsgApproveAndDispatchMultisigProposalResponse) :=
  if n =? 1 then
    Some (string_field "TransactionHash"
      (λ m v, mkMsgApproveAndDispatchMultisigProposalResponse v)) else
  None.
#[export] Instance MsgApproveAndDispatchMultisigProposalResponse_message :
    ProtoMessage MsgApproveAndDispatchMultisigProposalResponse :=
  message "MsgApproveAndDispatchMultisigProposalResponse" (mkMsgApproveAndDispatchMultisigProposalResponse "")
    MsgApproveAndDispatchMultisigProposalResponse_Size
    MsgApproveAndDispatchMultisigProposalResponse_MarshalToSizedBuffer
    MsgApproveAndDispatchMultisigProposalResponse_field.

(** [MsgCancelMultisigProposalResponse] *)

Definition MsgCancelMultisigProposalResponse_MarshalToSizedBuffer (m : MsgCancelMultisigProposalResponse) : W := mret ().
Definition MsgCancelMultisigProposalResponse_Size (m : MsgCancelMultisigProposalResponse) : Z := 0.
Definition MsgCancelMultisigProposalResponse_field (n : Z) :
    option (field_reader MsgCancelMultisigProposalResponse) := None.
#[export] Instance MsgCancelMultisigProposalResponse_message :
    ProtoMessage MsgCancelMultisigProposalResponse :=
  message "MsgCancelMultisigProposalResponse" mkMsgCancelMultisigProposalResponse
    MsgCancelMultisigProposalResponse_Size
    MsgCancelMultisigProposalResponse_MarshalToSizedBuffer
    MsgCancelMultisigProposalResponse_field.

(** [MsgCleanupMultisigProposalResponse] *)

Definition MsgCleanupMultisigProposalResponse_MarshalToSizedBuffer (m : MsgCleanupMultisigProposalResponse) : W := mret ().
Definition MsgCleanupMultisigProposalResponse_Size (m : MsgCleanupMultisigProposalResponse) : Z := 0.
Definition MsgCleanupMultisigProposalResponse_field (n : Z) :
    option (field_reader MsgCleanupMultisigProposalResponse) := None.
#[export] Instance MsgCleanupMultisigProposalResponse_message :
    ProtoMessage MsgCleanupMultisigProposalResponse :=
  message "MsgCleanupMultisigProposalResponse" mkMsgCleanupMultisigProposalResponse
    MsgCleanupMultisigProposalResponse_Size
    MsgCleanupMultisigProposalResponse_MarshalToSizedBuffer
    MsgCleanupMultisigProposalResponse_field.

(** [QueryParamsRequest] *)

Definition QueryParamsRequest_MarshalToSizedBuffer (m : QueryParamsRequest) : W := mret ().
Definition QueryParamsRequest_Size (m : QueryParamsRequest) : Z := 0.
Definition QueryParamsRequest_field (n : Z) : option (field_reader QueryParamsRequest) := None.
#[export] Instance QueryParamsRequest_message : ProtoMessage QueryParamsRequest :=
  message "QueryParamsRequest" mkQueryParamsRequest
    QueryParamsRequest_Size QueryParamsRequest_MarshalToSizedBuffer QueryParamsRequest_field.

(** [QueryParamsResponse] *)

Definition QueryParamsResponse_MarshalToSizedBuffer (m : QueryParamsResponse) : W :=
  put_option [0xa] (QueryParamsResponse_Params m).
Definition QueryParamsResponse_Size (m : QueryParamsResponse) : Z :=
  size_option 1 (QueryParamsResponse_Params m).
Definition QueryParamsResponse_field (n : Z) : option (field_reader QueryParamsResponse) :=
  if n =? 1 then
    Some (option_field "Params" QueryParamsResponse_Params (λ m v, mkQueryParamsResponse v)) else
  None.
#[export] Instance QueryParamsResponse_message : ProtoMessage QueryParamsResponse :=
  message "QueryParamsResponse" (mkQueryParamsResponse None)
    QueryParamsResponse_Size QueryParamsResponse_MarshalToSizedBuffer QueryParamsResponse_field.

(** [GenesisState] *)

Definition GenesisState_MarshalToSizedBuffer (m : GenesisState) : W :=
  put_message [0xa] (GenesisState_Params m).
Definition GenesisState_Size (m : GenesisState) : Z :=
  size_delimited 1 (pb_Size (GenesisState_Params m)).
Definition GenesisState_field (n : Z) : option (field_reader GenesisState) :=
  if n =? 1 then Some (message_field "Params" GenesisState_Params (λ m v, mkGenesisState v)) else
  None.
#[export] Instance GenesisState_message : ProtoMessage GenesisState :=
  message "GenesisState" (mkGenesisState pb_empty)
    GenesisState_Size GenesisState_MarshalToSizedBuffer GenesisState_field.
End messages.

(** ** Reference encodings *)

Section laws.
Context `{ProtoLaws Any}.

Definition Params_encode (m : Params) : bytes :=
  enc_bool [0x10] (SomeValue m).
Definition Params_ok (m : Params) : Prop :=
  True.
#[export] Instance Params_laws : ProtoLaws Params.
Proof. solve_message Params_encode Params_ok Params_Size Params_MarshalToSizedBuffer. Defined.

Definition MultisigAccountDetails_encode (m : MultisigAccountDetails) : bytes :=
  enc_bytestrings [0xa] (Signers m) ++ enc_varint [0x10] (Threshold m) ++
  enc_varint [0x18] (Permission m).
Definition MultisigAccountDetails_ok (m : MultisigAccountDetails) : Prop :=
  is_u32 (Threshold m) ∧ is_i32 (Permission m).
#[export] Instance MultisigAccountDetails_laws : ProtoLaws MultisigAccountDetails.
Proof.
  solve_message MultisigAccountDetails_encode MultisigAccountDetails_ok
    MultisigAccountDetails_Size MultisigAccountDetails_MarshalToSizedBuffer.
Defined.

Definition Proposal_encode (m : Proposal) : bytes :=
  enc_varint [0x8] (pr_Id m) ++ enc_bytestring [0x12] (pr_MultisigAddress m) ++
  enc_bytestring [0x1a] (pr_CallHash m) ++ enc_bytestring [0x22] (pr_Depositor m) ++
  enc_varint [0x28] (pr_Deposit m) ++ enc_bytestrings [0x32] (pr_Approvals m).
Definition Proposal_ok (m : Proposal) : Prop :=
  is_u64 (pr_Id m) ∧ is_u64 (pr_Deposit m).
#[export] Instance Proposal_laws : ProtoLaws Proposal.
Proof.
  solve_message Proposal_encode Proposal_ok Proposal_Size Proposal_MarshalToSizedBuffer.
Defined.

Definition MsgUpdateParams_encode (m : MsgUpdateParams) : bytes :=
  enc_string [0xa] (up_Authority m) ++ enc_message [0x12] (up_Params m).
Definition MsgUpdateParams_ok (m : MsgUpdateParams) : Prop :=
  pb_ok (up_Params m).
#[export] Instance MsgUpdateParams_laws : ProtoLaws MsgUpdateParams.
Proof.
  solve_message MsgUpdateParams_encode MsgUpdateParams_ok MsgUpdateParams_Size
    MsgUpdateParams_MarshalToSizedBuffer.
Defined.

Definition MsgCreateMultisigAccountParams_encode (m : MsgCreateMultisigAccountParams) : bytes :=
  enc_string [0xa] (cr_Authority m) ++ enc_varint [0x10] (cr_Seed m) ++
  enc_varint [0x18] (cr_Threshold m) ++ enc_bytestrings [0x22] (cr_Signers m) ++
  enc_varint [0x28] (cr_Permission m).
Definition MsgCreateMultisigAccountParams_ok (m : MsgCreateMultisigAccountParams) : Prop :=
  is_u32 (cr_Seed m) ∧ is_u32 (cr_Threshold m) ∧ is_i32 (cr_Permission m).
#[export] Instance MsgCreateMultisigAccountParams_laws : ProtoLaws MsgCreateMultisigAccountParams.
Proof.
  solve_message MsgCreateMultisigAccountParams_encode MsgCreateMultisigAccountParams_ok
    MsgCreateMultisigAccountParams_Size MsgCreateMultisigAccountParams_MarshalToSizedBuffer.
Defined.

Definition MsgAddMultisigSignerParams_encode (m : MsgAddMultisigSignerParams) : bytes :=
  enc_string [0xa] (as_MultisigAddress m) ++ enc_string [0x12] (as_Signer m) ++
  enc_varint [0x18] (as_NewThreshold m).
Definition MsgAddMultisigSignerParams_ok (m : MsgAddMultisigSignerParams) : Prop :=
  is_u32 (as_NewThreshold m).
#[export] Instance MsgAddMultisigSignerParams_laws : ProtoLaws MsgAddMultisigSignerParams.
Proof.
  solve_message MsgAddMultisigSignerParams_encode MsgAddMultisigSignerParams_ok
    MsgAddMultisigSignerParams_Size MsgAddMultisigSignerParams_MarshalToSizedBuffer.
Defined.

Definition MsgCleanupMultisigAccountParams_encode (m : MsgCleanupMultisigAccountParams) : bytes :=
  enc_string [0xa] (ca_MultisigAddress m).
Definition MsgCleanupMultisigAccountParams_ok (m : MsgCleanupMultisigAccountParams) : Prop :=
  True.
#[export] Instance MsgCleanupMultisigAccountParams_laws : ProtoLaws MsgCleanupMultisigAccountParams.
Proof.
  solve_message MsgCleanupMultisigAccountParams_encode MsgCleanupMultisigAccountParams_ok
    MsgCleanupMultisigAccountParams_Size MsgCleanupMultisigAccountParams_MarshalToSizedBuffer.
Defined.

Definition MsgSetMultisigThresholdParams_encode (m : MsgSetMultisigThresholdParams) : bytes :=
  enc_string [0xa] (st_MultisigAddress m) ++ enc_varint [0x10] (st_Threshold m).
Definition MsgSetMultisigThresholdParams_ok (m : MsgSetMultisigThresholdParams) : Prop :=
  is_u32 (st_Threshold m).
#[export] Instance MsgSetMultisigThresholdParams_laws : ProtoLaws MsgSetMultisigThresholdParams.
Proof.
  solve_message MsgSetMultisigThresholdParams_encode MsgSetMultisigThresholdParams_ok
    MsgSetMultisigThresholdParams_Size MsgSetMultisigThresholdParams_MarshalToSizedBuffer.
Defined.

Definition MsgInitializeMultisigProposalParams_encode (m : MsgInitializeMultisigProposalParams) :
    bytes :=
  enc_string [0xa] (in_MultisigAddress m) ++ enc_string [0x12] (in_Proposer m) ++
  enc_string [0x1a] (in_Title m) ++ enc_string [0x22] (in_Description m) ++
  enc_option [0x2a] (in_Message m).
Definition MsgInitializeMultisigProposalParams_ok (m : MsgInitializeMultisigProposalParams) :
    Prop :=
  option_ok (in_Message m).
#[export] Instance MsgInitializeMultisigProposalParams_laws :
    ProtoLaws MsgInitializeMultisigProposalParams.
Proof.
  solve_message MsgInitializeMultisigProposalParams_encode MsgInitializeMultisigProposalParams_ok
    MsgInitializeMultisigProposalParams_Size
    MsgInitializeMultisigProposalParams_MarshalToSizedBuffer.
Defined.

Definition MsgApproveMultisigProposalParams_encode (m : MsgApproveMultisigProposalParams) : bytes :=
  enc_string [0xa] (ap_MultisigAddress m) ++ enc_varint [0x10] (ap_ProposalId m) ++
  enc_string [0x1a] (ap_Approver m).
Definition MsgApproveMultisigProposalParams_ok (m : MsgApproveMultisigProposalParams) : Prop :=
  is_u64 (ap_ProposalId m).
#[export] Instance MsgApproveMultisigProposalParams_laws :
    ProtoLaws MsgApproveMultisigProposalParams.
Proof.
  solve_message MsgApproveMultisigProposalParams_encode MsgApproveMultisigProposalParams_ok
    MsgApproveMultisigProposalParams_Size MsgApproveMultisigProposalParams_MarshalToSizedBuffer.
Defined.

Definition MsgApproveAndDispatchMultisigProposalParams_encode (m : MsgApproveAndDispatchMultisigProposalParams) :
    bytes :=
  enc_string [0xa] (di_MultisigAddress m) ++ enc_varint [0x10] (di_ProposalId m) ++
  enc_string [0x1a] (di_Approver m) ++ enc_option [0x2a] (di_Message m).
Definition MsgApproveAndDispatchMultisigProposalParams_ok (m : MsgApproveAndDispatchMultisigProposalParams) :
    Prop :=
  is_u64 (di_ProposalId m) ∧ option_ok (di_Message m).
#[export] Instance MsgApproveAndDispatchMultisigProposalParams_laws :
    ProtoLaws MsgApproveAndDispatchMultisigProposalParams.
Proof.
  solve_message MsgApproveAndDispatchMultisigProposalParams_encode
    MsgApproveAndDispatchMultisigProposalParams_ok
    MsgApproveAndDispatchMultisigProposalParams_Size
    MsgApproveAndDispatchMultisigProposalParams_MarshalToSizedBuffer.
Defined.

Definition MsgCancelMultisigProposalParams_encode (m : MsgCancelMultisigProposalParams) : bytes :=
  enc_string [0xa] (cn_MultisigAddress m) ++ enc_varint [0x10] (cn_ProposalId m) ++
  enc_string [0x1a] (cn_Rejecter m).
Definition MsgCancelMultisigProposalParams_ok (m : MsgCancelMultisigProposalParams) : Prop :=
  is_u64 (cn_ProposalId m).
#[export] Instance MsgCancelMultisigProposalParams_laws : ProtoLaws MsgCancelMultisigProposalParams.
Proof.
  solve_message MsgCancelMultisigProposalParams_encode MsgCancelMultisigProposalParams_ok
    MsgCancelMultisigProposalParams_Size MsgCancelMultisigProposalParams_MarshalToSizedBuffer.
Defined.

Definition MsgCleanupMultisigProposalParams_encode (m : MsgCleanupMultisigProposalParams) : bytes :=
  enc_string [0xa] (cl_MultisigAddress m) ++ enc_varint [0x10] (cl_ProposalId m) ++
  enc_string [0x1a] (cl_Remover m).
Definition MsgCleanupMultisigProposalParams_ok (m : MsgCleanupMultisigProposalParams) : Prop :=
  is_u64 (cl_ProposalId m).
#[export] Instance MsgCleanupMultisigProposalParams_laws :
    ProtoLaws MsgCleanupMultisigProposalParams.
Proof.
  solve_message MsgCleanupMultisigProposalParams_encode MsgCleanupMultisigProposalParams_ok
    MsgCleanupMultisigProposalParams_Size MsgCleanupMultisigProposalParams_MarshalToSizedBuffer.
Defined.

Definition MsgUpdateParamsResponse_encode (m : MsgUpdateParamsResponse) : bytes := [].
Definition MsgUpdateParamsResponse_ok (m : MsgUpdateParamsResponse) : Prop := True.
#[export] Instance MsgUpdateParamsResponse_laws : ProtoLaws MsgUpdateParamsResponse.
Proof. solve_empty_message MsgUpdateParamsResponse_encode MsgUpdateParamsResponse_ok. Defined.

Definition MsgCreateMultisigAccountResponse_encode (m : MsgCreateMultisigAccountResponse) : bytes :=
  enc_string [0xa] (MsgCreateMultisigAccountResponse_MultisigAddress m).
Definition MsgCreateMultisigAccountResponse_ok (m : MsgCreateMultisigAccountResponse) : Prop :=
  True.
#[export] Instance MsgCreateMultisigAccountResponse_laws :
    ProtoLaws MsgCreateMultisigAccountResponse.
Proof.
  solve_message MsgCreateMultisigAccountResponse_encode MsgCreateMultisigAccountResponse_ok
    MsgCreateMultisigAccountResponse_Size MsgCreateMultisigAccountResponse_MarshalToSizedBuffer.
Defined.

Definition MsgAddMultisigSignerResponse_encode (m : MsgAddMultisigSignerResponse) : bytes := [].
Definition MsgAddMultisigSignerResponse_ok (m : MsgAddMultisigSignerResponse) : Prop := True.
#[export] Instance MsgAddMultisigSignerResponse_laws : ProtoLaws MsgAddMultisigSignerResponse.
Proof. solve_empty_message MsgAddMultisigSignerResponse_encode MsgAddMultisigSignerResponse_ok. Defined.

Definition MsgCleanupMultisigAccountResponse_encode (m : MsgCleanupMultisigAccountResponse) : bytes := [].
Definition MsgCleanupMultisigAccountResponse_ok (m : MsgCleanupMultisigAccountResponse) : Prop := True.
#[export] Instance MsgCleanupMultisigAccountResponse_laws :
    ProtoLaws MsgCleanupMultisigAccountResponse.
Proof. solve_empty_message MsgCleanupMultisigAccountResponse_encode MsgCleanupMultisigAccountResponse_ok. Defined.

Definition MsgSetMultisigThresholdResponse_encode (m : MsgSetMultisigThresholdResponse) : bytes := [].
Definition MsgSetMultisigThresholdResponse_ok (m : MsgSetMultisigThresholdResponse) : Prop := True.
#[export] Instance MsgSetMultisigThresholdResponse_laws : ProtoLaws MsgSetMultisigThresholdResponse.
Proof. solve_empty_message MsgSetMultisigThresholdResponse_encode MsgSetMultisigThresholdResponse_ok. Defined.

Definition MsgInitializeMultisigResponse_encode (m : MsgInitializeMultisigResponse) : bytes :=
  enc_varint [0x8] (MsgInitializeMultisigResponse_ProposalId m).
Definition MsgInitializeMultisigResponse_ok (m : MsgInitializeMultisigResponse) : Prop :=
  is_u64 (MsgInitializeMultisigResponse_ProposalId m).
#[export] Instance MsgInitializeMultisigResponse_laws : ProtoLaws MsgInitializeMultisigResponse.
Proof.
  solve_message MsgInitializeMultisigResponse_encode MsgInitializeMultisigResponse_ok
    MsgInitializeMultisigResponse_Size MsgInitializeMultisigResponse_MarshalToSizedBuffer.
Defined.

Definition MsgApproveMultisigProposalResponse_encode (m : MsgApproveMultisigProposalResponse) : bytes := [].
Definition MsgApproveMultisigProposalResponse_ok (m : MsgApproveMultisigProposalResponse) : Prop := True.
#[export] Instance MsgApproveMultisigProposalResponse_laws :
    ProtoLaws MsgApproveMultisigProposalResponse.
Proof. solve_empty_message MsgApproveMultisigProposalResponse_encode MsgApproveMultisigProposalResponse_ok. Defined.

Definition MsgApproveAndDispatchMultisigProposalResponse_encode (m : MsgApproveAndDispatchMultisigProposalResponse) :
    bytes :=
  enc_string [0xa] (MsgApproveAndDispatchMultisigProposalResponse_TransactionHash m).
Definition MsgApproveAndDispatchMultisigProposalResponse_ok (m : MsgApproveAndDispatchMultisigProposalResponse) :
    Prop :=
  True.
#[export] Instance MsgApproveAndDispatchMultisigProposalResponse_laws :
    ProtoLaws MsgApproveAndDispatchMultisigProposalResponse.
Proof.
  solve_message MsgApproveAndDispatchMultisigProposalResponse_encode
    MsgApproveAndDispatchMultisigProposalResponse_ok
    MsgApproveAndDispatchMultisigProposalResponse_Size
    MsgApproveAndDispatchMultisigProposalResponse_MarshalToSizedBuffer.
Defined.

Definition MsgCancelMultisigProposalResponse_encode (m : MsgCancelMultisigProposalResponse) : bytes := [].
Definition MsgCancelMultisigProposalResponse_ok (m : MsgCancelMultisigProposalResponse) : Prop := True.
#[export] Instance MsgCancelMultisigProposalResponse_laws :
    ProtoLaws MsgCancelMultisigProposalResponse.
Proof. solve_empty_message MsgCancelMultisigProposalResponse_encode MsgCancelMultisigProposalResponse_ok. Defined.

Definition MsgCleanupMultisigProposalResponse_encode (m : MsgCleanupMultisigProposalResponse) : bytes := [].
Definition MsgCleanupMultisigProposalResponse_ok (m : MsgCleanupMultisigProposalResponse) : Prop := True.
#[export] Instance MsgCleanupMultisigProposalResponse_laws :
    ProtoLaws MsgCleanupMultisigProposalResponse.
Proof. solve_empty_message MsgCleanupMultisigProposalResponse_encode MsgCleanupMultisigProposalResponse_ok. Defined.

Definition QueryParamsRequest_encode (m : QueryParamsRequest) : bytes := [].
Definition QueryParamsRequest_ok (m : QueryParamsRequest) : Prop := True.
#[export] Instance QueryParamsRequest_laws : ProtoLaws QueryParamsRequest.
Proof. solve_empty_message QueryParamsRequest_encode QueryParamsRequest_ok. Defined.

Definition QueryParamsResponse_encode (m : QueryParamsResponse) : bytes :=
  enc_option [0xa] (QueryParamsResponse_Params m).
Definition QueryParamsResponse_ok (m : QueryParamsResponse) : Prop :=
  option_ok (QueryParamsResponse_Params m).
#[export] Instance QueryParamsResponse_laws : ProtoLaws QueryParamsResponse.
Proof.
  solve_message QueryParamsResponse_encode QueryParamsResponse_ok QueryParamsResponse_Size
    QueryParamsResponse_MarshalToSizedBuffer.
Defined.

Definition GenesisState_encode (m : GenesisState) : bytes :=
  enc_message [0xa] (GenesisState_Params m).
Definition GenesisState_ok (m : GenesisState) : Prop :=
  pb_ok (GenesisState_Params m).
#[export] Instance GenesisState_laws : ProtoLaws GenesisState.
Proof.
  solve_message GenesisState_encode GenesisState_ok GenesisState_Size
    GenesisState_MarshalToSizedBuffer.
Defined.
End laws.
