(* ===== verification/Client.v ===== *)
(** * Client: the commands of both modules

    [src/x/oracle/client/cli/tx.go] and [query.go], and, in the Module
    [MultisigCommands], [src/x/multisig/client/cli] with the message and the
    documents of [src/x/multisig/types].  The [RunE] of each command, from its
    arguments and flags to the message it hands to
    [tx.GenerateOrBroadcastTxCLI] or the answer it prints.  The client contexts
    of the SDK are parameters: the address they resolve, for the key named by
    the first argument where the command sets the flag, and the stub of the
    query client. *)
From S2P Require Import Prelude Util GoStrings Dec Types Params Store Bech32 Votes World State.
From S2P Require Import Subspace Keeper HistoricPrice Averages Rewards Wire WireLemmas OracleProto.
From S2P Require Import Query QueryProto QueryService Multisig MultisigProto Msgs Chain.
Local Open Scope Z_scope.

(** ** Transactions of the oracle *)

Section client.
Context `{Bech32} `{DecOps} `{CoinOps} `{TmHash}.
(** [client.GetClientTxContext] and [GetFromAddress]; [Some key] after
    [cmd.Flags().Set(flags.FlagFrom, key)]. *)
Context (GetFromAddress : option string → outcome addr).

Definition arg (args : list string) (n : nat) : string := nth n args "".

(** [cobra.ExactArgs(n)] and [cobra.MinimumNArgs(n)]. *)
Definition ExactArgs (n : nat) (args : list string) : outcome () :=
  fail_if (negb (length args =? n)%nat) (Errorf "accepts %d arg(s), received %d").
Definition MinimumNArgs (n : nat) (args : list string) : outcome () :=
  fail_if (length args <? n)%nat (Errorf "requires at least %d arg(s), only received %d").

Definition GetCmdDelegateFeedConsent (args : list string) : outcome omsg :=
  ExactArgs 2 args;;
  from ← GetFromAddress (Some (arg args 0));
  feederAddr ← AccAddressFromBech32 (arg args 1);
  let msg := NewMsgDelegateFeedConsent from feederAddr in
  Delegate_ValidateBasic msg;; Ok (ODelegate msg).

(** The validator is the [n]th argument, or the sender without one. *)
Definition validator_arg (args : list string) (n : nat) (from : addr) : outcome addr :=
  if (n <? length args)%nat then ValAddressFromBech32 (arg args n) else Ok from.

Definition GetCmdAggregateExchangeRatePrevote (args : list string) : outcome omsg :=
  MinimumNArgs 1 args;;
  from ← GetFromAddress None;
  hash ← AggregateVoteHashFromHexString (arg args 0);
  valAddress ← validator_arg args 1 from;
  let msg := NewMsgAggregateExchangeRatePrevote hash from valAddress in
  Prevote_ValidateBasic msg;; Ok (OPrevote msg).

Definition GetCmdAggregateExchangeRateVote (args : list string) : outcome omsg :=
  MinimumNArgs 2 args;;
  from ← GetFromAddress None;
  valAddress ← validator_arg args 2 from;
  let msg := NewMsgAggregateExchangeRateVote (arg args 0) (arg args 1) from valAddress in
  Vote_ValidateBasic msg;; Ok (OVote msg).
End client.

Section client_facts.
Context `{Bech32Laws} `{GovLimits} `{DecOps} `{CoinLaws} `{TmHashLaws}.
Context (GetFromAddress : option string → outcome addr).

(** The two commands of a feeder, with the same last arguments. *)
Lemma prevote_command salt rates rest from v :
  GetFromAddress None = Ok from → from ≠ "" → v ≠ "" → validator_arg ("" :: rest) 1 from = Ok v →
  GetCmdAggregateExchangeRatePrevote GetFromAddress
    (Hash_String (GetAggregateVoteHash salt rates v) :: rest) =
  Ok (OPrevote (NewMsgAggregateExchangeRatePrevote (GetAggregateVoteHash salt rates v) from v)).
Proof.
  intros Hfrom Hf Hv Ha. unfold GetCmdAggregateExchangeRatePrevote. cbn [MinimumNArgs].
  unfold MinimumNArgs, fail_if. cbn [length Nat.ltb Nat.leb arg nth mbind outcome_bind].
  rewrite Hfrom, Hash_roundtrip. cbn [mbind outcome_bind].
  change (validator_arg (Hash_String (GetAggregateVoteHash salt rates v) :: rest) 1 from)
    with (validator_arg ("" :: rest) 1 from). rewrite Ha.
  cbn [mbind outcome_bind]. by rewrite honest_prevote_valid.
Qed.

Lemma vote_command salt rates rest from v :
  GetFromAddress None = Ok from → validator_arg ("" :: rest) 1 from = Ok v →
  Vote_ValidateBasic (NewMsgAggregateExchangeRateVote salt rates from v) = Ok () →
  GetCmdAggregateExchangeRateVote GetFromAddress (salt :: rates :: rest) =
  Ok (OVote (NewMsgAggregateExchangeRateVote salt rates from v)).
Proof.
  intros Hfrom Ha Hb. unfold GetCmdAggregateExchangeRateVote, MinimumNArgs, fail_if.
  cbn [length Nat.ltb Nat.leb arg nth mbind outcome_bind]. rewrite Hfrom.
  cbn [mbind outcome_bind].
  change (validator_arg (salt :: rates :: rest) 2 from) with (validator_arg ("" :: rest) 1 from).
  rewrite Ha. cbn [mbind outcome_bind]. by rewrite Hb.
Qed.
End client_facts.

(** ** Queries of the oracle *)

(** [cobra.NoArgs] and [cobra.RangeArgs(0, 1)]; a command without [Args] takes
    any. *)
Definition NoArgs (args : list string) : outcome () :=
  fail_if (negb (length args =? 0)%nat) (Errorf "unknown command %q for %q").
Definition RangeArgs (min max : nat) (args : list string) : outcome () :=
  fail_if ((length args <? min)%nat || (max <? length args)%nat)
    (Errorf "accepts between %d and %d arg(s), received %d").

(** The flags of [wma], with their defaults. *)
Record WMAFlags := mkWMAFlags { fl_strategy : string; fl_weights : string }.
Definition default_WMAFlags : WMAFlags := mkWMAFlags "BALANCED" "".

(** The loop over [strings.Split(weightsStr, ",")]. *)
Definition parse_weights (weightsStr : string) : outcome (list Z) :=
  if String.eqb weightsStr "" then Ok [] else
  foldM (λ weights w, val ← ParseInt (GoStrings.TrimSpace w); Ok (weights ++ [val]))
    (Split "," weightsStr) [].

Section oracle.
Context {S : Type} `{Bech32, DecOps}.
(** [client.GetClientQueryContext(cmd)]. *)
Context (GetClientQueryContext : outcome ()).
(** [types.NewQueryClient(clientCtx)]. *)
Context (queryClient : oquery → M S oanswer).
(** [clientCtx.PrintProto]: the text on the standard output, or an error. *)
Context {Text : Type} (PrintProto : oanswer → outcome Text).

Definition PrintOrErr (resp : M S oanswer) : M S Text := res ← resp; lift (PrintProto res).

(** The check of the arguments, the context, then the body. *)
Definition command (check : outcome ()) (body : M S Text) : M S Text :=
  lift check;; lift GetClientQueryContext;; body.

Definition GetCmdQueryParams (args : list string) : M S Text :=
  command (NoArgs args) (PrintOrErr (queryClient (QParams mkQueryParams))).

(** [query.ValidatorAddr], empty without an argument. *)
Definition optional_validator (args : list string) : outcome string :=
  match args with
  | [] => Ok ""%string
  | a :: _ => validator ← ValAddressFromBech32 a; Ok (ValAddress_String validator)
  end.

Definition GetCmdQueryAggregateVote (args : list string) : M S Text :=
  command (RangeArgs 0 1 args) (
    validator ← lift (optional_validator args);
    PrintOrErr (queryClient (QAggregateVote (mkQueryAggregateVote validator)))).

Definition GetCmdQueryAggregatePrevote (args : list string) : M S Text :=
  command (RangeArgs 0 1 args) (
    validator ← lift (optional_validator args);
    PrintOrErr (queryClient (QAggregatePrevote (mkQueryAggregatePrevote validator)))).

Definition GetCmdQueryExchangeRates (args : list string) : M S Text :=
  command (NoArgs args) (PrintOrErr (queryClient (QExchangeRates (mkQueryExchangeRates "")))).

Definition GetCmdQueryExchangeRate (args : list string) : M S Text :=
  command (ExactArgs 1 args)
    (PrintOrErr (queryClient (QExchangeRates (mkQueryExchangeRates (arg args 0))))).

Definition GetCmdQueryFeederDelegation (args : list string) : M S Text :=
  command (ExactArgs 1 args) (
    lift (ValAddressFromBech32 (arg args 0));;
    PrintOrErr (queryClient (QFeederDelegation (mkQueryFeederDelegation (arg args 0))))).

Definition GetCmdQueryMissCounter (args : list string) : M S Text :=
  command (ExactArgs 1 args) (
    lift (ValAddressFromBech32 (arg args 0));;
    PrintOrErr (queryClient (QMissCounter (mkQueryMissCounter (arg args 0))))).

Definition GetCmdQuerySlashWindow (args : list string) : M S Text :=
  command (Ok ()) (PrintOrErr (queryClient (QSlashWindow mkQuerySlashWindow))).

Definition CmdQueryEMA (args : list string) : M S Text :=
  command (ExactArgs 1 args)
    (PrintOrErr (queryClient (QEMA (mkQueryEMARequest (ToUpper (arg args 0)))))).

Definition CmdQueryWMA (flags : WMAFlags) (args : list string) : M S Text :=
  command (ExactArgs 1 args) (
    weights ← lift (parse_weights (fl_weights flags));
    PrintOrErr (queryClient (QWMA (mkQueryWMA (arg args 0) (fl_strategy flags) weights)))).

Definition CmdQuerySMA (args : list string) : M S Text :=
  command (ExactArgs 1 args)
    (PrintOrErr (queryClient (QSMA (mkQuerySMARequest (ToUpper (arg args 0)))))).
End oracle.

Section facts.
Context {W : Type} `{DecOps, CoinOps, !CoinsOps, !CoinsList, StakingKeeper W} `{Bech32Laws}.
Context {Text : Type} (PrintProto : oanswer → outcome Text).
Implicit Types s : State W.

(** Weights that were printed, with or without spaces, are read back. *)
Theorem weights_parsed (l : list Z) :
  Forall (λ z, - 2 ^ 63 ≤ z < 2 ^ 63) l → parse_weights (GoStrings.Join "," (map pretty l)) = Ok l.
Proof.
  intros Hl. unfold parse_weights. destruct (String.eqb_spec (GoStrings.Join "," (map pretty l)) "") as [He|Hn].
  { destruct Hl as [|z l Hz Hl]; [done|]. exfalso.
    assert (∀ z : Z, (pretty z : string) ≠ ""%string) as Hne.
    { intros [|p|p]; [done| |done]. destruct (pretty_N_head (N.pos p)) as (d & t & _ & Ht).
      change (pretty (N.pos p) ≠ ""%string). by rewrite Ht. }
    destruct l; cbn [map GoStrings.Join] in He; [by apply Hne in He|].
    by destruct (pretty z). }
  rewrite Split_Join.
  - assert (∀ l0, foldM (λ weights w, val ← ParseInt (GoStrings.TrimSpace w); Ok (weights ++ [val]))
      (map pretty l) l0 = Ok (l0 ++ l)) as Hf; [|by rewrite Hf].
    clear Hn. induction Hl as [|z l Hz _ IH]; intros l0; cbn [map foldM]; [by rewrite app_nil_r|].
    rewrite TrimSpace_pretty, ParseInt_pretty by done. cbn [mbind outcome_bind].
    rewrite IH. by rewrite <- (assoc_L (++)).
  - by destruct l.
  - apply Forall_map, Forall_true. intros z. apply str_all_no, pretty_Z_all; [|done].
    intros d. by destruct d as [|[[[[]|[]|]|[[]|[]|]|]|[[[]|[]|]|[[]|[]|]|]|]].
Qed.

(** The help of [aggregate-votes] says that it lists the outstanding votes
    without an argument; the query needs a validator, so the command never
    prints anything.  The same holds for the prevotes. *)
Theorem votes_never_listed ctx s e :
  ValAddressFromBech32 "" = Err e →
  (∃ e', (GetCmdQueryAggregateVote ctx answer PrintProto [] s).1 = Err e') ∨ ctx = Panic.
Proof.
  intros He. unfold GetCmdQueryAggregateVote, command, RangeArgs, fail_if. cbn [length Nat.ltb Nat.leb orb].
  destruct ctx as [[]|e'|]; [|by left; exists e'|by right]. left. exists InvalidArgument.
  unfold PrintOrErr, answer, Querier.AggregateVote, Querier.with_request, Querier.request_address.
  unfold optional_validator, lift, mbind, M_bind. cbn [QueryAggregateVote_ValidatorAddr].
  by rewrite He.
Qed.

(** [ema] and [sma] ask for the symbol in upper case. *)
Theorem ema_any_case s denom :
  CmdQueryEMA (Ok ()) answer PrintProto [denom] s =
  CmdQueryEMA (Ok ()) answer PrintProto [ToUpper denom] s.
Proof. unfold CmdQueryEMA. cbn [arg nth]. by rewrite ToUpper_idemp. Qed.

End facts.

(** ** The multisig module *)

Module MultisigCommands.
Section multisig.
Context `{Bech32}.

(** [src/x/multisig/types/msgs.go], [genesis.go] and [params.go]. *)
Definition NewMsgUpdateParams (sender : addr) (someValue : bool) : Multisig.MsgUpdateParams :=
  mkMsgUpdateParams (AccAddress_String sender) (Multisig.mkParams someValue).
Definition MsgUpdateParams_Route : string := "multisig".
Definition MsgUpdateParams_Type : string := "update_params".
(** The error is dropped: a nil address signs. *)
Definition MsgUpdateParams_GetSigners (msg : Multisig.MsgUpdateParams) : outcome (list addr) :=
  match AccAddressFromBech32 (up_Authority msg) with
  | Ok a => Ok [a]
  | Err _ => Ok [""%string]
  | Panic => Panic
  end.
Definition MsgUpdateParams_Validate (msg : Multisig.MsgUpdateParams) : outcome () :=
  AccAddressFromBech32 (up_Authority msg);; Params_Validate (up_Params msg).

Definition DefaultParams : Multisig.Params := Multisig.mkParams true.
Definition DefaultGenesis : MultisigProto.GenesisState := mkGenesisState DefaultParams.
Definition GenesisState_Validate (gs : MultisigProto.GenesisState) : outcome () :=
  Params_Validate (GenesisState_Params gs).

(** [src/x/multisig/client/cli]. *)
Definition GetCmdParams {S : Type} (GetClientQueryContext : outcome ())
    (queryClient : MultisigProto.QueryParamsRequest → M S MultisigProto.QueryParamsResponse)
    {Text : Type} (PrintProto : MultisigProto.QueryParamsResponse → outcome Text)
    (args : list string) : M S Text :=
  lift (ExactArgs 0 args);; lift GetClientQueryContext;;
  res ← queryClient mkQueryParamsRequest; lift (PrintProto res).

Definition CmdMsgUpdateParams (GetFromAddress : outcome addr) (args : list string) :
    outcome Multisig.MsgUpdateParams :=
  ExactArgs 1 args;;
  senderAddress ← GetFromAddress;
  someValue ← ParseBool (arg args 0);
  let msg := mkMsgUpdateParams (AccAddress_String senderAddress) (Multisig.mkParams someValue) in
  MsgUpdateParams_Validate msg;; Ok msg.
End multisig.
End MultisigCommands.

Section multisig_facts.
Context `{Bech32Laws}.

(** [update-params] builds the message of its sender. *)
Theorem update_params_built sender (b : bool) :
  sender ≠ ""%string →
  MultisigCommands.CmdMsgUpdateParams (Ok sender) [if b then "true"%string else "false"%string] =
  Ok (MultisigCommands.NewMsgUpdateParams sender b).
Proof.
  intros Hs. unfold MultisigCommands.CmdMsgUpdateParams.
  assert (ParseBool (if b then "true"%string else "false"%string) = Ok b) as Hb by by destruct b.
  cbn [mbind outcome_bind arg nth]. rewrite Hb. cbn [mbind outcome_bind].
  unfold MultisigCommands.MsgUpdateParams_Validate. cbn [up_Authority up_Params].
  by rewrite AccAddress_roundtrip.
Qed.
End multisig_facts.

(** ** [src/cmd/simd/testnet.go] *)

Module Testnet.

(** [net.ParseIP(ip).To4()] on the dotted form: four decimal numbers of a byte
    without leading zeros.  A text with a colon is an IPv6 address, whose four
    bytes are those of [v6]. *)
Definition parse_octet (s : string) : option Z :=
  match s with
  | String "0" (String _ _) | EmptyString => None
  | _ => match ParseUint s 8 with Ok n => Some n | _ => None end
  end.
Definition ParseIP_To4 (v6 : string → option (list Z)) (ip : string) : option (list Z) :=
  if str_contains ":" ip then v6 ip else
  match parse_octet <$> Split "." ip with
  | [Some a; Some b; Some c; Some d] => Some [a; b; c; d]
  | _ => None
  end.
Definition IP_String (ipv4 : list Z) : string := Join "." (pretty <$> ipv4).

(** [ipv4[3]++] on a byte. *)
Fixpoint bump (n : nat) (ipv4 : list Z) : list Z :=
  match n with
  | O => ipv4
  | S n => bump n (alter (λ b, (b + 1) mod 256) 3%nat ipv4)
  end.

Definition calculateIP (v6 : string → option (list Z)) (ip : string) (i : Z) : outcome string :=
  match ParseIP_To4 v6 ip with
  | None => Err (Errorf "%v: non ipv4 address")
  | Some ipv4 => Ok (IP_String (bump (Z.to_nat i) ipv4))
  end.

(** The configuration of CometBFT and of the server, as far as it is changed. *)
Record Config := mkConfig {
  RootDir : string; Moniker : string; RPC_ListenAddress : string; P2P_ListenAddress : string;
  AddrBookStrict : bool; PexReactor : bool; AllowDuplicateIP : bool;
}.
Record AppToml := mkAppToml { MinGasPrices : string; API_Address : string; GRPC_Address : string }.

Record initArgs := mkInitArgs {
  algo : string; chainID : string; keyringBackend : string; minGasPrices : string;
  nodeDaemonHome : string; nodeDirPrefix : string; numValidators : Z; outputDir : string;
  startingIPAddress : string; singleMachine : bool;
}.

(** What the loop collects of a node: its address has [coins]. *)
Record node (PubKey : Type) := mkNode {
  nodeID : string; valPubKey : PubKey; account : addr; coins : list (string * Z); genFile : string;
}.
Arguments mkNode {PubKey}.

(** The machine, the keyring and the libraries of the SDK. *)
Class Host (W PubKey : Type) := {
  filepath_Join : list string → string;
  MkdirAll : string → M W ();
  RemoveAll : string → M W ();
  WriteFile : string → bytes → M W ();
  ExternalIP : M W string;
  ParseIPv6 : string → option (list Z);
  random_Str : Z → M W string;
  InitializeNodeValidatorFiles : Config → M W (string * PubKey);
  GenesisFile : Config → string;
  keyring_New : string → string → M W ();
  NewSigningAlgoFromString : string → outcome ();
  GenerateSaveCoinKey : string → string → M W (addr * string);
  MarshalSecret : string → outcome bytes;
  TokensFromConsensusPower : Z → Z;
  DefaultBondDenom : string;
  ValAddress_BytesToString : addr → outcome string;
  (** [NewMsgCreateValidator], signed with the memo and encoded *)
  NewMsgCreateValidator : string → PubKey → string * Z → string → outcome ();
  SignedTx : string → string → string → M W bytes;
  WriteConfigFile : string → AppToml → M W ();
  SaveGenesis : string → list (node PubKey) → string → M W ();
  GenesisFromFile : string → M W ();
  GenAppStateFromConfig : Config → string → string → PubKey → M W bytes;
  ExportGenesisFileWithTime : string → string → bytes → M W ();
}.

Section testnet.
Context {W PubKey : Type} `{!Host W PubKey}.

Definition getIP (i : Z) (startingIPAddr : string) : M W string :=
  if String.eqb startingIPAddr "" then ExternalIP else lift (calculateIP ParseIPv6 startingIPAddr i).

Definition writeFile (name dir : string) (contents : bytes) : M W () := λ w,
  let file := filepath_Join [dir; name] in
  match MkdirAll dir w with
  | (Err _, w') => (Err (Errorf "could not create directory %q: %w"), w')
  | (Ok _, w') => WriteFile file contents w'
  | r => r
  end.

(** An error that removes what was written. *)
Definition or_remove {A} (dir : string) (m : M W A) : M W A := λ w,
  match m w with
  | (Err e, w') => match RemoveAll dir w' with
                   | (Panic, w'') => (Panic, w'') | (_, w'') => (Err e, w'') end
  | r => r
  end.

Definition rpcPort : Z := 26657.
Definition apiPort : Z := 1317.
Definition grpcPort : Z := 9090.
Definition port_offset (args : initArgs) (i : Z) : Z := if singleMachine args then i else 0.
Definition p2p_start (args : initArgs) : Z := if singleMachine args then 16656 else 26656.
Definition listen (port : Z) : string := "tcp://0.0.0.0:" +:+ pretty port.

(** The name and the directory of a node, and that of the first transactions. *)
Definition node_name (args : initArgs) (i : Z) : string := nodeDirPrefix args +:+ pretty i.
Definition node_dir (args : initArgs) (i : Z) : string :=
  filepath_Join [outputDir args; node_name args i; nodeDaemonHome args].
Definition gentxs_dir (args : initArgs) : string := filepath_Join [outputDir args; "gentxs"%string].
Definition node_memo (args : initArgs) (i : Z) (id ip : string) : string :=
  id +:+ "@" +:+ ip +:+ ":" +:+ pretty (p2p_start args + port_offset args i).

(** The configuration is one object for all nodes. *)
Definition init_config (args : initArgs) (i : Z) (c : Config) : Config :=
  let c := if singleMachine args
    then mkConfig (RootDir c) (Moniker c) (RPC_ListenAddress c) (P2P_ListenAddress c) false false true
    else c in
  mkConfig (node_dir args i) (node_name args i) (listen 26657) (P2P_ListenAddress c)
    (AddrBookStrict c) (PexReactor c) (AllowDuplicateIP c).
Definition node_toml (args : initArgs) (i : Z) : AppToml :=
  mkAppToml (minGasPrices args) (listen (apiPort + port_offset args i))
    ("0.0.0.0:" +:+ pretty (grpcPort + port_offset args i)).
Definition node_coins : list (string * Z) := [
  ("testtoken"%string, TokensFromConsensusPower 1000); (DefaultBondDenom, TokensFromConsensusPower 500)].
Definition self_delegation : string * Z := (DefaultBondDenom, TokensFromConsensusPower 100).

(** One iteration of the loop over the validators. *)
Definition init_node (args : initArgs) (i : Z) (st : Config * list (node PubKey)) :
    M W (Config * list (node PubKey)) :=
  let '(c, nodes) := st in
  let c := init_config args i c in
  let name := node_name args i in let dir := node_dir args i in
  or_remove (outputDir args) (MkdirAll (filepath_Join [dir; "config"%string]));;
  ip ← or_remove (outputDir args) (getIP i (startingIPAddress args));
  '(id, pubKey) ← or_remove (outputDir args) (InitializeNodeValidatorFiles c);
  let memo := node_memo args i id ip in
  keyring_New (keyringBackend args) dir;;
  lift (NewSigningAlgoFromString (algo args));;
  '(a, secret) ← or_remove (outputDir args) (GenerateSaveCoinKey name (algo args));
  cliPrint ← lift (MarshalSecret secret);
  writeFile "key_seed.json" dir cliPrint;;
  valStr ← lift (ValAddress_BytesToString a);
  lift (NewMsgCreateValidator valStr pubKey self_delegation name);;
  txBz ← SignedTx (chainID args) memo name;
  writeFile (name +:+ ".json") (gentxs_dir args) txBz;;
  WriteConfigFile (filepath_Join [dir; "config"%string; "app.toml"%string]) (node_toml args i);;
  mret (c, nodes ++ [mkNode id pubKey a node_coins (GenesisFile c)]).

(** One iteration of [collectGenFiles]: the state of the first node is that of
    all. *)
Definition collect_config (args : initArgs) (rpcPortStart p2pPortStart i : Z) (c : Config) : Config :=
  mkConfig (node_dir args i) (node_name args i) (listen (rpcPortStart + port_offset args i))
    (listen (p2pPortStart + port_offset args i)) (AddrBookStrict c) (PexReactor c) (AllowDuplicateIP c).
Definition collect_node (args : initArgs) (rpcPortStart p2pPortStart : Z)
    (st : Config * option bytes) (e : Z * node PubKey) : M W (Config * option bytes) :=
  let '(c, appState) := st in let '(i, n) := e in
  let c := collect_config args rpcPortStart p2pPortStart i c in
  GenesisFromFile (GenesisFile c);;
  nodeAppState ← GenAppStateFromConfig c (gentxs_dir args) (nodeID _ n) (valPubKey _ n);
  let appState := match appState with None => nodeAppState | Some s => s end in
  ExportGenesisFileWithTime (GenesisFile c) (chainID args) appState;;
  mret (c, Some appState).

Definition initGenFiles (chainID : string) (nodes : list (node PubKey)) : M W () :=
  forM (λ n, SaveGenesis chainID nodes (genFile _ n)) nodes.

Definition initTestnetFiles (nodeConfig : Config) (args : initArgs) : M W () :=
  args ← (if String.eqb (chainID args) ""
    then s ← random_Str 6;
         mret (mkInitArgs (algo args) ("chain-" +:+ s) (keyringBackend args) (minGasPrices args)
           (nodeDaemonHome args) (nodeDirPrefix args) (numValidators args) (outputDir args)
           (startingIPAddress args) (singleMachine args))
    else mret args);
  let indices := Z.of_nat <$> seq 0 (Z.to_nat (numValidators args)) in
  '(c, nodes) ← loopM (λ st i, init_node args i st) indices (nodeConfig, []);
  initGenFiles (chainID args) nodes;;
  let p2pPortStart := if decide (indices = []) then 26656 else p2p_start args in
  loopM (collect_node args rpcPort p2pPortStart) (zip indices nodes) (c, None);;
  mret ().
End testnet.

(** *** What the network looks like *)

Lemma bump_last n a b c d : bump n [a; b; c; d] = [a; b; c; (d + Z.of_nat n) mod 256] ∨ n = O.
Proof.
  destruct n as [|n]; [by right|left]. revert d. induction n as [|n IH]; intros d; [done|].
  cbn [bump alter list_alter] in IH |- *. rewrite IH, Zplus_mod_idemp_l. do 4 f_equal.
  f_equal. lia.
Qed.

(** The addresses of the nodes stay in the block of the first one: the last
    number wraps around, so that the node 256 places later has the address of
    the first again. *)
Theorem node_addresses v6 ip i a b c d :
  ParseIP_To4 v6 ip = Some [a; b; c; d] → 0 ≤ d < 256 → 0 ≤ i →
  calculateIP v6 ip i = Ok (IP_String [a; b; c; (d + i) mod 256]).
Proof.
  intros Hip Hd Hi. unfold calculateIP. rewrite Hip.
  destruct (bump_last (Z.to_nat i) a b c d) as [-> | Hz]; [by rewrite Z2Nat.id|].
  rewrite Hz. assert (i = 0) as -> by lia. rewrite Z.add_0_r, Z.mod_small by lia. done.
Qed.

(** On one machine no two of the services of up to 7566 nodes share a port. *)
Definition node_ports (args : initArgs) (i : Z) : list Z :=
  (λ port, port + port_offset args i) <$> [p2p_start args; rpcPort; apiPort; grpcPort].

Theorem single_host_ports args i j p :
  singleMachine args = true → 0 ≤ i < 7566 → 0 ≤ j < 7566 → i ≠ j →
  p ∈ node_ports args i → p ∉ node_ports args j.
Proof.
  intros Hs Hi Hj Hij. unfold node_ports, port_offset, p2p_start. rewrite Hs. cbn.
  rewrite !elem_of_cons, !elem_of_nil. unfold rpcPort, apiPort, grpcPort. lia.
Qed.
End Testnet.
