(* ===== verification/Modules.v ===== *)
(** * Modules: the two application modules

    [src/x/oracle/module.go] and [depinject.go], and [src/x/multisig/module.go]:
    the genesis documents as JSON, the blocks, and the keeper that dependency
    injection builds.  The JSON codec of the SDK is a class.  The registration
    of types, services, routes and commands is in Codec, QueryService, Gateway
    and Client. *)
From S2P Require Import Prelude Util GoStrings Dec Types Params Store Bech32 Ballot Votes World State.
From S2P Require Import Subspace Keeper HistoricPrice ParamPlan Rewards EndBlock Wire Multisig.
From S2P Require Import MultisigProto Client Genesis.
Local Open Scope Z_scope.

(** [codec.JSONCodec] for a document. *)
Class JSONCodec (A : Type) := {
  MarshalJSON : A → outcome bytes;
  UnmarshalJSON : bytes → outcome A;
}.
Class JSONLaws (A : Type) `{!JSONCodec A} : Prop :=
  JSON_roundtrip (a : A) bz : MarshalJSON a = Ok bz → UnmarshalJSON bz = Ok a.

(** [ValidatorUpdate]: no module returns one. *)
Inductive ValidatorUpdate : Type := mkValidatorUpdate (power : Z).

Module OracleModule.
Section module.
Context {W : Type} `{StakingKeeper W} `{CoinsOps} `{!DistributionKeeper W} `{!BankKeeper W}.
Context `{AccountKeeper W} `{PriceOracle W} `{EventManager}.
Context `{Bech32} `{DecOps} `{CoinOps} `{YamlDenom} `{Float64} `{!JSONCodec Genesis.GenesisState}.
Abbreviation K := (M (State W)) (only parsing).

Definition Name : string := ModuleName.
Definition ConsensusVersion : Z := 1.

(** The other fields of the document are empty. *)
Definition DefaultGenesis : outcome bytes := must_ok (MarshalJSON DefaultGenesisState).

Definition ValidateGenesis (message : bytes) : outcome () :=
  data ← UnmarshalJSON message; Validate (gs_Params data).

Definition InitGenesis (message : bytes) : K (list ValidatorUpdate) :=
  genesisState ← lift (must_ok (UnmarshalJSON message));
  Genesis.InitGenesis genesisState;; mret [].

Definition ExportGenesis : K bytes :=
  genState ← Genesis.ExportGenesis; lift (must_ok (MarshalJSON genState)).

Definition BeginBlock : K () := mret ().

(** An error of the end blocker is a panic of the module. *)
Definition EndBlock (k : KeeperConf) : K (list ValidatorUpdate) :=
  must_run (EndBlocker k);; mret [].

(** [ProvideModule]: [govAddr] is the address of the governance module. *)
Definition ProvideModule (w : W) (govAddr : string) : outcome KeeperConf :=
  NewKeeper w govAddr ModuleName true govAddr.
End module.
End OracleModule.

Module MultisigModule.
Section module.
Context {T W : Type} `{!JSONCodec MultisigProto.GenesisState}.
Abbreviation K := (M (MState T W)) (only parsing).

Definition DefaultGenesis : outcome bytes := must_ok (MarshalJSON MultisigCommands.DefaultGenesis).

Definition ValidateGenesis (message : bytes) : outcome () :=
  data ← UnmarshalJSON message; Params_Validate (GenesisState_Params data).

(** The parameters are set before the keeper validates them, and again after. *)
Definition InitGenesis (message : bytes) : K (list ValidatorUpdate) :=
  genesisState ← lift (must_ok (UnmarshalJSON message));
  modify (λ s, mkMState (Some (GenesisState_Params genesisState)) (ms_Accounts s) (ms_Table s) (ms_Bank s));;
  must_run (Multisig.InitGenesis (GenesisState_Params genesisState));;
  mret [].

Definition ExportGenesis : K bytes :=
  params ← Multisig.ExportGenesis;
  lift (must_ok (MarshalJSON (mkGenesisState params))).
End module.
End MultisigModule.

(** ** What the modules do *)

Section oracle_facts.
Context {W : Type} `{StakingKeeper W} `{CoinsOps} `{!DistributionKeeper W} `{!BankKeeper W}.
Context `{AccountKeeper W} `{PriceOracle W} `{EventManager}.
Context `{Bech32Laws} `{DecLaws} `{CoinOps} `{YamlDenom} `{Float64} `{JSONLaws Genesis.GenesisState}.
Implicit Types s : State W.

(** A block of the module ends, or panics; it never returns an error. *)
Theorem EndBlock_no_error k s e : (OracleModule.EndBlock k s).1 ≠ Err e.
Proof.
  unfold OracleModule.EndBlock, must_run, mbind, M_bind. by destruct (EndBlocker k s) as [[]].
Qed.

(** With the keeper that dependency injection provides, every block panics. *)
Theorem provided_module_panics w gov k s :
  OracleModule.ProvideModule w gov = Ok k → (OracleModule.EndBlock k s).1 = Panic.
Proof.
  unfold OracleModule.ProvideModule, NewKeeper. destruct (GetModuleAddress w ModuleName); [|done].
  intros [= Hk]. unfold OracleModule.EndBlock, must_run, mbind, M_bind.
  pose proof (EndBlocker_nil k s) as Hn. rewrite <- Hk in Hn at 1. specialize (Hn eq_refl).
  destruct (EndBlocker k s) as [[[]| |] s1]; [by destruct Hn|done..].
Qed.

(** The document that a state exports restores it through its JSON. *)
Theorem json_genesis_restores s s0 bz a w :
  exportable s → Forall (λ e, e.2 = Ok ()) (ParamSetPairs (paramSpace s)) →
  GetModuleAccount ModuleName (world s0) = (Ok (Some a), w) →
  (OracleModule.ExportGenesis s).1 = Ok bz →
  OracleModule.InitGenesis bz s0 = (Ok [], imported s s0 w).
Proof.
  intros He Hp Ha Hbz. unfold OracleModule.ExportGenesis in Hbz.
  rewrite (M_bind_run _ _ _ _ _ (ExportGenesis_run s)) in Hbz. cbn in Hbz.
  destruct (MarshalJSON (exported s)) as [bz'| |] eqn:Hm; [|done..]. injection Hbz as ->.
  unfold OracleModule.InitGenesis. rewrite (JSON_roundtrip _ _ Hm).
  rewrite (M_bind_run _ _ _ (exported s) s0) by done.
  by rewrite (M_bind_run _ _ _ () (imported s s0 w)) by (by rewrite InitGenesis_exported, Ha).
Qed.
End oracle_facts.

Section multisig_facts.
Context {T W : Type} `{JSONLaws MultisigProto.GenesisState}.
Implicit Types s : MState T W.

Theorem multisig_genesis_restores s s0 bz p :
  ms_Params s = Some p → (MultisigModule.ExportGenesis s).1 = Ok bz →
  MultisigModule.ValidateGenesis bz = Ok () ∧
  MultisigModule.InitGenesis bz s0 =
    (Ok [], mkMState (Some p) (ms_Accounts s0) (ms_Table s0) (ms_Bank s0)).
Proof.
  intros Hp Hbz. unfold MultisigModule.ExportGenesis in Hbz.
  assert (Multisig.ExportGenesis s = (Ok p, s)) as He.
  { unfold Multisig.ExportGenesis, gets, mbind, M_bind. by rewrite Hp. }
  rewrite (M_bind_run _ _ _ _ _ He) in Hbz. cbn in Hbz.
  destruct (MarshalJSON (mkGenesisState p)) as [bz'| |] eqn:Hm; [|done..]. injection Hbz as ->.
  unfold MultisigModule.ValidateGenesis, MultisigModule.InitGenesis.
  by rewrite (JSON_roundtrip _ _ Hm).
Qed.
End multisig_facts.
