(* ===== verification/Gateway.v ===== *)
(** * Gateway: the HTTP gateway of the queries

    [query.pb.gw.go] of [src/x/oracle/types]: for each method of the query
    service, the pattern of its path, the function that makes its request from
    the path and the form, and the registration of its handler on a
    multiplexer; the Module [MultisigGateway] has the one route of
    [src/x/multisig/types/query.pb.gw.go].  A [request_] function and
    its [local_request_] twin differ in what they call, the stub of a client or
    the server itself: [call] stands for either.

    The runtime of grpc-gateway is a parameter: [GatewayRuntime] has the
    functions the generated code calls, [GatewayLaws] what they promise.  The
    metadata of a call is left out, and a reply is the runtime's function that
    writes it, with its argument. *)
From S2P Require Import Prelude Util GoStrings Dec Types Params Store Bech32 Votes World State.
From S2P Require Import Subspace Keeper HistoricPrice Averages Rewards Wire WireLemmas OracleProto.
From S2P Require Import Query QueryProto QueryService Multisig MultisigProto.
Local Open Scope Z_scope.

(** The parts of [net/http.Request] that the runtime reads: the keys of the
    form come in the order in which the loop over the map takes them. *)
Record http_Request := mkRequest {
  http_Method : string;
  http_Path : string;
  http_Header : list (string * list string);
  http_ParseForm : outcome (list (string * list string));
}.

(** [pathParams]: the captured components by name. *)
Abbreviation path_params := (gmap string string) (only parsing).

(** [utilities.DoubleArray]: a set of sequences of names. *)
Record DoubleArray := mkDoubleArray {
  da_Encoding : list (string * Z); da_Base : list Z; da_Check : list Z }.

(** The fields of a request that a form can set, by the names of their struct
    tags: the original one and the one of JSON. *)
Inductive form_field (A : Type) : Type :=
  | FieldString (set : string → A → A)
  | FieldUint32 (set : Z → A → A)
  | FieldInt64s (set : list Z → A → A).
Arguments FieldString {A}.
Arguments FieldUint32 {A}.
Arguments FieldInt64s {A}.
Definition form_fields (A : Type) : Type := list ((string * string) * form_field A).

Class GatewayRuntime := {
  Pattern : Type;
  (** [NewPattern(version, ops, pool, verb, AssumeColonVerbOpt(b))]. *)
  NewPattern : Z → list Z → list string → string → bool → option Pattern;
  Match : Pattern → list string → option path_params;
  (** [ServeMux], for handlers of a type. *)
  ServeMux : Type → Type;
  NewServeMux {H} : ServeMux H;
  Handle {H} : ServeMux H → string → Pattern → H → ServeMux H;
  (** The handler that [ServeHTTP] calls, and its parameters. *)
  find_handler {H} : ServeMux H → http_Request → option (H * path_params);
  runtime_String : string → outcome string;
  HasCommonPrefix : DoubleArray → list string → bool;
  PopulateQueryParameters {A} :
    form_fields A → A → list (string * list string) → DoubleArray → outcome A;
  AnnotateContext : http_Request → outcome ();
  AnnotateIncomingContext : http_Request → outcome ();
}.

(** What a handler writes to the [ResponseWriter], and what the multiplexer
    writes when no handler matches. *)
Inductive http_Reply (Msg : Type) : Type :=
  | ForwardResponseMessage (m : Msg)
  | HTTPError (e : error)
  | NoRoute.
Arguments ForwardResponseMessage {Msg}.
Arguments HTTPError {Msg}.
Arguments NoRoute {Msg}.

(** The messages that the two services answer with. *)
Inductive gateway_msg : Type :=
  | OracleAnswer (a : oanswer)
  | MultisigParams (a : MultisigProto.QueryParamsResponse).

(** [if err != nil] after a call whose error becomes a value. *)
Definition on_result {S A B} (m : M S A) (failed : error → M S B) (done_ : A → M S B) : M S B :=
  λ s, match m s with
       | (Ok a, s') => done_ a s'
       | (Err e, s') => failed e s'
       | (Panic, s') => (Panic, s')
       end.

Section gateway.
Context `{GatewayRuntime} {S : Type}.

Definition HandlerFunc : Type := http_Request → path_params → M S (http_Reply gateway_msg).

Definition MustPattern (version : Z) (ops : list Z) (pool : list string) (verb : string)
    (assumeColonVerb : bool) : outcome Pattern :=
  or_panic (NewPattern version ops pool verb assumeColonVerb).

(** [val, ok = pathParams[name]] and its conversion. *)
Definition path_param (name : string) (pathParams : path_params) : outcome string :=
  match pathParams !! name with
  | None => Err InvalidArgument
  | Some val => match runtime_String val with Err _ => Err InvalidArgument | o => o end
  end.

(** [req.ParseForm()] and [PopulateQueryParameters]. *)
Definition form_params {A} (fields : form_fields A) (protoReq : A) (req : http_Request)
    (filter : DoubleArray) : outcome A :=
  match http_ParseForm req with
  | Ok form =>
      match PopulateQueryParameters fields protoReq form filter with
      | Err _ => Err InvalidArgument
      | o => o
      end
  | Err _ => Err InvalidArgument
  | Panic => Panic
  end.

(** A handler: [annotate] makes the context of the call, [wrap] is the type of
    the reply. *)
Definition handler {A} (wrap : A → gateway_msg) (annotate : http_Request → outcome ())
    (request : http_Request → path_params → M S A) : HandlerFunc := λ req pathParams,
  on_result (lift (annotate req)) (λ e, mret (HTTPError e)) (λ _,
    on_result (request req pathParams) (λ e, mret (HTTPError e)) (λ resp,
      mret (ForwardResponseMessage (wrap resp)))).

(** ** The oracle *)

(** The struct tags of the requests with a form ([query.pb.go]). *)
Definition QueryMedians_fields : form_fields QueryMedians := [
  (("denom", "denom"), FieldString (λ x m, mkQueryMedians x (qm_NumStamps m)));
  (("num_stamps", "numStamps"), FieldUint32 (λ x m, mkQueryMedians (qm_Denom m) x))]%string.
Definition QueryMedianDeviations_fields : form_fields QueryMedianDeviations := [
  (("denom", "denom"), FieldString (λ x _, mkQueryMedianDeviations x))]%string.
Definition QueryWMARequest_fields : form_fields QueryWMARequest := [
  (("denom", "denom"),
    FieldString (λ x m, mkQueryWMA x (qw_Strategy m) (qw_CustomWeights m)));
  (("strategy", "strategy"),
    FieldString (λ x m, mkQueryWMA (qw_Denom m) x (qw_CustomWeights m)));
  (("custom_weights", "customWeights"),
    FieldInt64s (λ x m, mkQueryWMA (qw_Denom m) (qw_Strategy m) x))]%string.

Definition filter_Query_Medians_0 : DoubleArray := mkDoubleArray [] [] [].
Definition filter_Query_MedianDeviations_0 : DoubleArray := mkDoubleArray [] [] [].
Definition filter_Query_WMA_0 : DoubleArray :=
  mkDoubleArray [("denom", 0); ("strategy", 1)]%string [1; 1; 2; 0; 0] [0; 1; 1; 2; 3].

Section oracle.
(** A method of [QueryClient], or of [QueryServer]. *)
Context (call : oquery → M S oanswer).

Definition request_Query_ExchangeRates_0 (_ : http_Request) (pathParams : path_params) : M S oanswer :=
  denom ← lift (path_param "denom" pathParams); call (QExchangeRates (mkQueryExchangeRates denom)).

Definition request_Query_ActiveExchangeRates_0 (_ : http_Request) (pathParams : path_params) : M S oanswer :=
  call (QActiveExchangeRates mkQueryActiveExchangeRates).

Definition request_Query_FeederDelegation_0 (_ : http_Request) (pathParams : path_params) : M S oanswer :=
  validatorAddr ← lift (path_param "validator_addr" pathParams); call (QFeederDelegation (mkQueryFeederDelegation validatorAddr)).

Definition request_Query_MissCounter_0 (_ : http_Request) (pathParams : path_params) : M S oanswer :=
  validatorAddr ← lift (path_param "validator_addr" pathParams); call (QMissCounter (mkQueryMissCounter validatorAddr)).

Definition request_Query_SlashWindow_0 (_ : http_Request) (pathParams : path_params) : M S oanswer :=
  call (QSlashWindow mkQuerySlashWindow).

Definition request_Query_AggregatePrevote_0 (_ : http_Request) (pathParams : path_params) : M S oanswer :=
  validatorAddr ← lift (path_param "validator_addr" pathParams); call (QAggregatePrevote (mkQueryAggregatePrevote validatorAddr)).

Definition request_Query_AggregatePrevotes_0 (_ : http_Request) (pathParams : path_params) : M S oanswer :=
  call (QAggregatePrevotes mkQueryAggregatePrevotes).

Definition request_Query_AggregateVote_0 (_ : http_Request) (pathParams : path_params) : M S oanswer :=
  validatorAddr ← lift (path_param "validator_addr" pathParams); call (QAggregateVote (mkQueryAggregateVote validatorAddr)).

Definition request_Query_AggregateVotes_0 (_ : http_Request) (pathParams : path_params) : M S oanswer :=
  call (QAggregateVotes mkQueryAggregateVotes).

Definition request_Query_Params_0 (_ : http_Request) (pathParams : path_params) : M S oanswer :=
  call (QParams mkQueryParams).

Definition request_Query_Medians_0 (req : http_Request) (pathParams : path_params) : M S oanswer :=
  protoReq ← lift (form_params QueryMedians_fields (mkQueryMedians "" 0) req filter_Query_Medians_0);
  call (QMedians protoReq).

Definition request_Query_MedianDeviations_0 (req : http_Request) (pathParams : path_params) : M S oanswer :=
  protoReq ← lift (form_params QueryMedianDeviations_fields (mkQueryMedianDeviations "") req filter_Query_MedianDeviations_0);
  call (QMedianDeviations protoReq).

Definition request_Query_ValidatorRewardSet_0 (_ : http_Request) (pathParams : path_params) : M S oanswer :=
  call (QValidatorRewardSet mkQueryValidatorRewardSet).

Definition request_Query_EMA_0 (_ : http_Request) (pathParams : path_params) : M S oanswer :=
  denom ← lift (path_param "denom" pathParams); call (QEMA (mkQueryEMARequest denom)).

Definition request_Query_WMA_0 (req : http_Request) (pathParams : path_params) : M S oanswer :=
  denom ← lift (path_param "denom" pathParams);
  strategy ← lift (path_param "strategy" pathParams);
  protoReq ← lift (form_params QueryWMARequest_fields (mkQueryWMA denom strategy []) req filter_Query_WMA_0);
  call (QWMA protoReq).

Definition request_Query_SMA_0 (_ : http_Request) (pathParams : path_params) : M S oanswer :=
  denom ← lift (path_param "denom" pathParams); call (QSMA (mkQuerySMARequest denom)).
End oracle.

Definition pattern_Query_ExchangeRates_0 : outcome Pattern :=
  MustPattern 1 [2; 0; 2; 1; 2; 2; 2; 3; 1; 0; 4; 1; 5; 4]
    ["oracle"; "v1"; "denoms"; "exchange_rates"; "denom"] "" false.
Definition pattern_Query_ActiveExchangeRates_0 : outcome Pattern :=
  MustPattern 1 [2; 0; 2; 1; 2; 2; 2; 3]
    ["oracle"; "v1"; "denoms"; "active_exchange_rates"] "" false.
Definition pattern_Query_FeederDelegation_0 : outcome Pattern :=
  MustPattern 1 [2; 0; 2; 1; 2; 2; 1; 0; 4; 1; 5; 3; 2; 4]
    ["oracle"; "v1"; "validators"; "validator_addr"; "feeder"] "" false.
Definition pattern_Query_MissCounter_0 : outcome Pattern :=
  MustPattern 1 [2; 0; 2; 1; 2; 2; 1; 0; 4; 1; 5; 3; 2; 4]
    ["oracle"; "v1"; "validators"; "validator_addr"; "miss"] "" false.
Definition pattern_Query_SlashWindow_0 : outcome Pattern :=
  MustPattern 1 [2; 0; 2; 1; 2; 2]
    ["oracle"; "v1"; "slash_window"] "" false.
Definition pattern_Query_AggregatePrevote_0 : outcome Pattern :=
  MustPattern 1 [2; 0; 2; 1; 2; 2; 1; 0; 4; 1; 5; 3; 2; 4]
    ["oracle"; "v1"; "validators"; "validator_addr"; "aggregate_prevote"] "" false.
Definition pattern_Query_AggregatePrevotes_0 : outcome Pattern :=
  MustPattern 1 [2; 0; 2; 1; 2; 2; 2; 3]
    ["oracle"; "v1"; "validators"; "aggregate_prevotes"] "" false.
Definition pattern_Query_AggregateVote_0 : outcome Pattern :=
  MustPattern 1 [2; 0; 2; 1; 2; 2; 1; 0; 4; 1; 5; 3; 2; 4]
    ["oracle"; "v1"; "valdiators"; "validator_addr"; "aggregate_vote"] "" false.
Definition pattern_Query_AggregateVotes_0 : outcome Pattern :=
  MustPattern 1 [2; 0; 2; 1; 2; 2; 2; 3]
    ["oracle"; "v1"; "validators"; "aggregate_votes"] "" false.
Definition pattern_Query_Params_0 : outcome Pattern :=
  MustPattern 1 [2; 0; 2; 1; 2; 2]
    ["oracle"; "v1"; "params"] "" false.
Definition pattern_Query_Medians_0 : outcome Pattern :=
  MustPattern 1 [2; 0; 2; 1; 2; 2; 2; 3]
    ["historacle"; "v1"; "denoms"; "medians"] "" false.
Definition pattern_Query_MedianDeviations_0 : outcome Pattern :=
  MustPattern 1 [2; 0; 2; 1; 2; 2; 2; 3]
    ["historacle"; "v1"; "denoms"; "median_deviations"] "" false.
Definition pattern_Query_ValidatorRewardSet_0 : outcome Pattern :=
  MustPattern 1 [2; 0; 2; 1; 2; 2; 2; 3]
    ["oracle"; "v1"; "valdiators"; "validator_reward_set"] "" false.
Definition pattern_Query_EMA_0 : outcome Pattern :=
  MustPattern 1 [2; 0; 2; 1; 2; 2; 1; 0; 4; 1; 5; 3]
    ["oracle"; "v1"; "ema"; "denom"] "" false.
Definition pattern_Query_WMA_0 : outcome Pattern :=
  MustPattern 1 [2; 0; 2; 1; 2; 2; 1; 0; 4; 1; 5; 3; 1; 0; 4; 1; 5; 4]
    ["oracle"; "v1"; "wma"; "denom"; "strategy"] "" false.
Definition pattern_Query_SMA_0 : outcome Pattern :=
  MustPattern 1 [2; 0; 2; 1; 2; 2; 1; 0; 4; 1; 5; 3]
    ["oracle"; "v1"; "sma"; "denom"] "" false.

Definition oracle_routes (call : oquery → M S oanswer) :
    list (outcome Pattern * (http_Request → path_params → M S oanswer)) := [
  (pattern_Query_ExchangeRates_0, request_Query_ExchangeRates_0 call);
  (pattern_Query_ActiveExchangeRates_0, request_Query_ActiveExchangeRates_0 call);
  (pattern_Query_FeederDelegation_0, request_Query_FeederDelegation_0 call);
  (pattern_Query_MissCounter_0, request_Query_MissCounter_0 call);
  (pattern_Query_SlashWindow_0, request_Query_SlashWindow_0 call);
  (pattern_Query_AggregatePrevote_0, request_Query_AggregatePrevote_0 call);
  (pattern_Query_AggregatePrevotes_0, request_Query_AggregatePrevotes_0 call);
  (pattern_Query_AggregateVote_0, request_Query_AggregateVote_0 call);
  (pattern_Query_AggregateVotes_0, request_Query_AggregateVotes_0 call);
  (pattern_Query_Params_0, request_Query_Params_0 call);
  (pattern_Query_Medians_0, request_Query_Medians_0 call);
  (pattern_Query_MedianDeviations_0, request_Query_MedianDeviations_0 call);
  (pattern_Query_ValidatorRewardSet_0, request_Query_ValidatorRewardSet_0 call);
  (pattern_Query_EMA_0, request_Query_EMA_0 call);
  (pattern_Query_WMA_0, request_Query_WMA_0 call);
  (pattern_Query_SMA_0, request_Query_SMA_0 call)].

(** [mux.Handle("GET", pattern, handler)] for each route. *)
Definition register {A} (wrap : A → gateway_msg) (annotate : http_Request → outcome ())
    (routes : list (outcome Pattern * (http_Request → path_params → M S A)))
    (mux : ServeMux HandlerFunc) : outcome (ServeMux HandlerFunc) :=
  foldM (λ mux '(pattern, request),
    p ← pattern; Ok (Handle mux "GET" p (handler wrap annotate request))) routes mux.

Definition RegisterQueryHandlerServer (mux : ServeMux HandlerFunc) (server : oquery → M S oanswer) :
    outcome (ServeMux HandlerFunc) :=
  register OracleAnswer AnnotateIncomingContext (oracle_routes server) mux.

Definition RegisterQueryHandlerClient (mux : ServeMux HandlerFunc) (client : oquery → M S oanswer) :
    outcome (ServeMux HandlerFunc) :=
  register OracleAnswer AnnotateContext (oracle_routes client) mux.

(** [mux.ServeHTTP]. *)
Definition ServeHTTP (mux : ServeMux HandlerFunc) (req : http_Request) : M S (http_Reply gateway_msg) :=
  match find_handler mux req with
  | Some (h, pathParams) => h req pathParams
  | None => mret NoRoute
  end.
End gateway.

(** ** The multisig module *)

Module MultisigGateway.
Section gateway.
Context `{GatewayRuntime} {S : Type}.

Section multisig.
Context (call : MultisigProto.QueryParamsRequest → M S MultisigProto.QueryParamsResponse).

Definition request_Query_Params_0 (_ : http_Request) (pathParams : path_params) :
    M S MultisigProto.QueryParamsResponse :=
  call mkQueryParamsRequest.
End multisig.

Definition pattern_Query_Params_0 : outcome Pattern :=
  MustPattern 1 [2; 0; 2; 1; 2; 2] ["multisig"; "v1"; "params"] "" false.

Definition RegisterQueryHandlerServer (mux : ServeMux (HandlerFunc (S := S)))
    (server : MultisigProto.QueryParamsRequest → M S MultisigProto.QueryParamsResponse) :
    outcome (ServeMux (HandlerFunc (S := S))) :=
  register MultisigParams AnnotateIncomingContext
    [(pattern_Query_Params_0, request_Query_Params_0 server)] mux.

Definition RegisterQueryHandlerClient (mux : ServeMux (HandlerFunc (S := S)))
    (client : MultisigProto.QueryParamsRequest → M S MultisigProto.QueryParamsResponse) :
    outcome (ServeMux (HandlerFunc (S := S))) :=
  register MultisigParams AnnotateContext
    [(pattern_Query_Params_0, request_Query_Params_0 client)] mux.
End gateway.
End MultisigGateway.

(** ** The client of the oracle's queries *)

Section client.
Context {S : Type} `{DecOps} `{!DecCodec} `{!ProtoMessage DecCoin} `{!CoinNil}.

(** [NewQueryClient(cc)]: [Invoke] carries the bytes of the request to the
    method of that name and the bytes of the answer back. *)
Definition NewQueryClient (Invoke : string → bytes → M S bytes) (q : oquery) : M S oanswer :=
  bz ← lift (query_Marshal q);
  reply ← Invoke ("/oracle.v1.Query/" +:+ query_method q) bz;
  lift (answer_Unmarshal (query_method q) reply).

(** [RegisterQueryHandler(ctx, mux, conn)]. *)
Definition RegisterQueryHandler `{GatewayRuntime} (mux : ServeMux (HandlerFunc (S := S)))
    (Invoke : string → bytes → M S bytes) : outcome (ServeMux (HandlerFunc (S := S))) :=
  RegisterQueryHandlerClient mux (NewQueryClient Invoke).
End client.

(** ** What the runtime promises *)

(** A template of [google.api.http]: literals and captured components. *)
Inductive segment : Type :=
  | Literal (s : string)
  | Variable_ (name : string).

(** The program of a template: [OpLitPush i] is [2; i], and a variable of one
    component is [OpPush 0; OpConcatN 1; OpCapture i], that is
    [1; 0; 4; 1; 5; i]. *)
Fixpoint template (ops : list Z) (pool : list string) : option (list segment) :=
  match ops with
  | [] => Some []
  | 2 :: i :: ops' =>
      s ← pool !! Z.to_nat i; t ← template ops' pool; Some (Literal s :: t)
  | 1 :: 0 :: 4 :: 1 :: 5 :: i :: ops' =>
      s ← pool !! Z.to_nat i; t ← template ops' pool; Some (Variable_ s :: t)
  | _ => None
  end.

Fixpoint segments_match (t : list segment) (comps : list string) : option path_params :=
  match t, comps with
  | [], [] => Some ∅
  | Literal s :: t', c :: comps' => if String.eqb s c then segments_match t' comps' else None
  | Variable_ x :: t', c :: comps' => <[x:=c]> <$> segments_match t' comps'
  | _, _ => None
  end.

(** A path, and a component that the runtime takes as it is. *)
Definition path_of (comps : list string) : string := String "/"%char (GoStrings.Join "/"%char comps).
Definition path_component (c : string) : Prop :=
  c ≠ ""%string ∧ str_contains "/"%char c = false ∧ str_contains ":"%char c = false.
#[export] Instance path_component_dec c : Decision (path_component c).
Proof. unfold path_component. apply _. Defined.

(** Values of a form and their texts. *)
Inductive form_value : Type :=
  | ValueString (s : string)
  | ValueUint32 (z : Z)
  | ValueInt64s (l : list Z).
Definition value_texts (v : form_value) : list string :=
  match v with
  | ValueString s => [s]
  | ValueUint32 z => [pretty z]
  | ValueInt64s l => map pretty l
  end.
Definition value_ok (v : form_value) : Prop :=
  match v with
  | ValueString _ => True
  | ValueUint32 z => is_u32 z
  | ValueInt64s l => l ≠ [] ∧ Forall (λ z, - 2 ^ 63 ≤ z < 2 ^ 63) l
  end.
Definition form_texts (vals : list (string * form_value)) : list (string * list string) :=
  map (λ v, (v.1, value_texts v.2)) vals.

Definition find_field {A} (fields : form_fields A) (name : string) : option (form_field A) :=
  snd <$> find (λ f, String.eqb f.1.1 name || String.eqb f.1.2 name) fields.
Definition set_value {A} (f : form_field A) (v : form_value) (m : A) : option A :=
  match f, v with
  | FieldString set, ValueString s => Some (set s m)
  | FieldUint32 set, ValueUint32 z => Some (set z m)
  | FieldInt64s set, ValueInt64s l => Some (set l m)
  | _, _ => None
  end.
Fixpoint set_values {A} (fields : form_fields A) (vals : list (string * form_value)) (m : A) : option A :=
  match vals with
  | [] => Some m
  | (name, v) :: vals' => f ← find_field fields name; m' ← set_value f v m; set_values fields vals' m'
  end.

(** The names of fields have no dots and no brackets, which the runtime reads
    as paths into a message. *)
Definition plain_name (name : string) : Prop :=
  str_contains "."%char name = false ∧ str_contains "["%char name = false.

Section laws.
Context `{GatewayRuntime}.

Definition registered {H} (regs : list (string * Pattern * H)) : ServeMux H :=
  foldl (λ mux r, Handle mux r.1.1 r.1.2 r.2) NewServeMux regs.

(** The handlers that a path matches, with what it captures. *)
Definition matching {H} (regs : list (string * Pattern * H)) (method : string) (comps : list string) :
    list (H * path_params) :=
  omap (λ r, if String.eqb r.1.1 method then (r.2,.) <$> Match r.1.2 comps else None) regs.

Class GatewayLaws : Prop := {
  NewPattern_template ops pool t :
    template ops pool = Some t → ∃ p, NewPattern 1 ops pool "" false = Some p ∧
      ∀ comps, Forall path_component comps → Match p comps = segments_match t comps;
  find_handler_one {H} (regs : list (string * Pattern * H)) req comps x :
    http_Path req = path_of comps → comps ≠ [] → Forall path_component comps →
    matching regs (http_Method req) comps = [x] → find_handler (registered regs) req = Some x;
  find_handler_none {H} (regs : list (string * Pattern * H)) req comps :
    http_Path req = path_of comps → comps ≠ [] → Forall path_component comps →
    http_Method req = "GET"%string → matching regs "GET" comps = [] →
    find_handler (registered regs) req = None;
  runtime_String_id s : runtime_String s = Ok s;
  HasCommonPrefix_empty seq : HasCommonPrefix (mkDoubleArray [] [] []) seq = false;
  HasCommonPrefix_two a b x seq : a ≠ b →
    HasCommonPrefix (mkDoubleArray [(a, 0); (b, 1)] [1; 1; 2; 0; 0] [0; 1; 1; 2; 3]) (x :: seq) =
    bool_decide (x = a ∨ x = b);
  PopulateQueryParameters_values {A} (fields : form_fields A) m vals filter m' :
    NoDup vals.*1 → Forall (λ v, plain_name v.1 ∧ value_ok v.2) vals →
    Forall (λ v, HasCommonPrefix filter [v.1] = false) vals →
    set_values fields vals m = Some m' →
    PopulateQueryParameters fields m (form_texts vals) filter = Ok m';
}.
End laws.
