(* ===== verification/OracleTwins.v ===== *)
(** * OracleTwins: the oracle's messages in both generated codes

    For every message of the oracle, the struct of [src/api/oracle/v1] with the
    contents of the one of [src/x/oracle/types], and that their encodings are
    the same.  [DecCoin] is code of the SDK on either side. *)
From S2P Require Import Prelude Util Dec Wire WireLemmas Pulsar PulsarLemmas ApiOracle ApiTx ApiQuery ApiTwin Types Bech32 Votes Params Msgs State Genesis OracleProto GenesisProto TxProto Query QueryProto.
Local Open Scope Z_scope.

Section twins.
Context `{DecCodecLaws, !DecText} `{ProtoLaws DecCoin} `{CoinNil}.
Context `{PulsarRuntimeLaws} `{CosmosApiLaws} `{!ApiTwin DecCoin v1beta1_DecCoin}.

Definition Denom_to_api (m : Denom) : ApiOracle.Denom :=
  ApiOracle.mkDenom (BaseDenom m) (SymbolDenom m) (Exponent m) [].
#[export] Instance Denom_twin : ApiTwin Denom ApiOracle.Denom.
Proof.
  solve_twin Denom_to_api OracleProto.Denom_encode OracleProto.Denom_ok ApiOracle.Denom_encode
    ApiOracle.Denom_ok.
Defined.

Definition RewardBand_to_api (m : RewardBand) : ApiOracle.RewardBand :=
  ApiOracle.mkRewardBand (rb_SymbolDenom m) (api_dec (rb_RewardBand m)) [].
#[export] Instance RewardBand_twin : ApiTwin RewardBand ApiOracle.RewardBand.
Proof.
  solve_twin RewardBand_to_api OracleProto.RewardBand_encode OracleProto.RewardBand_ok
    ApiOracle.RewardBand_encode ApiOracle.RewardBand_ok.
Defined.

Definition PairAddressProvider_to_api (m : PairAddressProvider) : ApiOracle.PairAddressProvider :=
  ApiOracle.mkPairAddressProvider (Address m) (AddressProvider m) [].
#[export] Instance PairAddressProvider_twin :
    ApiTwin PairAddressProvider ApiOracle.PairAddressProvider.
Proof.
  solve_twin PairAddressProvider_to_api OracleProto.PairAddressProvider_encode
    OracleProto.PairAddressProvider_ok ApiOracle.PairAddressProvider_encode
    ApiOracle.PairAddressProvider_ok.
Defined.

Definition CurrencyPairProviders_to_api (m : CurrencyPairProvider) :
    ApiOracle.CurrencyPairProviders :=
  ApiOracle.mkCurrencyPairProviders (cpp_BaseDenom m) (cpp_QuoteDenom m) (api_list
    (cpp_PairAddress m)) (cpp_Providers m) [].
#[export] Instance CurrencyPairProviders_twin :
    ApiTwin CurrencyPairProvider ApiOracle.CurrencyPairProviders.
Proof.
  solve_twin CurrencyPairProviders_to_api OracleProto.CurrencyPairProviders_encode
    OracleProto.CurrencyPairProviders_ok ApiOracle.CurrencyPairProviders_encode
    ApiOracle.CurrencyPairProviders_ok.
Defined.

Definition CurrencyDeviationThreshold_to_api (m : CurrencyDeviationThreshold) :
    ApiOracle.CurrencyDeviationThreshold :=
  ApiOracle.mkCurrencyDeviationThreshold (cdt_BaseDenom m) (cdt_Threshold m) [].
#[export] Instance CurrencyDeviationThreshold_twin :
    ApiTwin CurrencyDeviationThreshold ApiOracle.CurrencyDeviationThreshold.
Proof.
  solve_twin CurrencyDeviationThreshold_to_api OracleProto.CurrencyDeviationThreshold_encode
    OracleProto.CurrencyDeviationThreshold_ok ApiOracle.CurrencyDeviationThreshold_encode
    ApiOracle.CurrencyDeviationThreshold_ok.
Defined.

Definition Params_to_api (m : Params) : ApiOracle.Params :=
  ApiOracle.mkParams (Types.VotePeriod m) (api_dec (Types.VoteThreshold m)) (api_list
    (Types.RewardBands m)) (Types.RewardDistributionWindow m) (api_list (Types.AcceptList m))
    (api_dec (Types.SlashFraction m)) (Types.SlashWindow m) (api_dec (Types.MinValidPerWindow m))
    (api_list (Types.MandatoryList m)) (Types.HistoricStampPeriod m) (Types.MedianStampPeriod m)
    (Types.MaximumPriceStamps m) (Types.MaximumMedianStamps m) (api_list
    (Types.CurrencyPairProviders m)) (api_list (Types.CurrencyDeviationThresholds m))
    (Types.UsdcIbcDenom m) (Types.SlashingEnabled m) (Types.AveragingWindow m) [].
#[export] Instance Params_twin : ApiTwin Params ApiOracle.Params.
Proof.
  solve_twin Params_to_api OracleProto.Params_encode OracleProto.Params_ok ApiOracle.Params_encode
    ApiOracle.Params_ok.
Defined.

Definition ParamUpdatePlan_to_api (m : ParamUpdatePlan) : ApiOracle.ParamUpdatePlan :=
  ApiOracle.mkParamUpdatePlan (plan_Keys m) (plan_Height m) (Some (to_api (plan_Changes m))) [].
#[export] Instance ParamUpdatePlan_twin : ApiTwin ParamUpdatePlan ApiOracle.ParamUpdatePlan.
Proof.
  solve_twin ParamUpdatePlan_to_api OracleProto.ParamUpdatePlan_encode
    OracleProto.ParamUpdatePlan_ok ApiOracle.ParamUpdatePlan_encode ApiOracle.ParamUpdatePlan_ok.
Defined.

Definition AggregateExchangeRatePrevote_to_api (m : AggregateExchangeRatePrevote) :
    ApiOracle.AggregateExchangeRatePrevote :=
  ApiOracle.mkAggregateExchangeRatePrevote (pv_Hash m) (pv_Voter m) (pv_SubmitBlock m) [].
#[export] Instance AggregateExchangeRatePrevote_twin :
    ApiTwin AggregateExchangeRatePrevote ApiOracle.AggregateExchangeRatePrevote.
Proof.
  solve_twin AggregateExchangeRatePrevote_to_api OracleProto.AggregateExchangeRatePrevote_encode
    OracleProto.AggregateExchangeRatePrevote_ok ApiOracle.AggregateExchangeRatePrevote_encode
    ApiOracle.AggregateExchangeRatePrevote_ok.
Defined.

Definition AggregateExchangeRateVote_to_api (m : AggregateExchangeRateVote) :
    ApiOracle.AggregateExchangeRateVote :=
  ApiOracle.mkAggregateExchangeRateVote (api_list (vt_ExchangeRates m)) (vt_Voter m) [].
#[export] Instance AggregateExchangeRateVote_twin :
    ApiTwin AggregateExchangeRateVote ApiOracle.AggregateExchangeRateVote.
Proof.
  solve_twin AggregateExchangeRateVote_to_api OracleProto.AggregateExchangeRateVote_encode
    OracleProto.AggregateExchangeRateVote_ok ApiOracle.AggregateExchangeRateVote_encode
    ApiOracle.AggregateExchangeRateVote_ok.
Defined.

Definition PriceStamp_to_api (m : PriceStamp) : ApiOracle.PriceStamp :=
  ApiOracle.mkPriceStamp (api_pointer coin_nil (ps_ExchangeRate m)) (ps_BlockNum m) [].
#[export] Instance PriceStamp_twin : ApiTwin PriceStamp ApiOracle.PriceStamp.
Proof.
  solve_twin PriceStamp_to_api OracleProto.PriceStamp_encode OracleProto.PriceStamp_ok
    ApiOracle.PriceStamp_encode ApiOracle.PriceStamp_ok.
Defined.

Definition ValidatorRewardSet_to_api (m : RewardSet) : ApiOracle.ValidatorRewardSet :=
  ApiOracle.mkValidatorRewardSet (ValidatorSet m) [].
#[export] Instance ValidatorRewardSet_twin : ApiTwin RewardSet ApiOracle.ValidatorRewardSet.
Proof.
  solve_twin ValidatorRewardSet_to_api OracleProto.ValidatorRewardSet_encode
    OracleProto.ValidatorRewardSet_ok ApiOracle.ValidatorRewardSet_encode
    ApiOracle.ValidatorRewardSet_ok.
Defined.

Definition OracleVoteExtension_to_api (m : OracleVoteExtension) : ApiOracle.OracleVoteExtension :=
  ApiOracle.mkOracleVoteExtension (ve_Height m) (api_list (ve_ExchangeRates m)) [].
#[export] Instance OracleVoteExtension_twin :
    ApiTwin OracleVoteExtension ApiOracle.OracleVoteExtension.
Proof.
  solve_twin OracleVoteExtension_to_api OracleProto.OracleVoteExtension_encode
    OracleProto.OracleVoteExtension_ok ApiOracle.OracleVoteExtension_encode
    ApiOracle.OracleVoteExtension_ok.
Defined.

Definition InjectedVoteExtensionTx_to_api (m : InjectedVoteExtensionTx) :
    ApiOracle.InjectedVoteExtensionTx :=
  ApiOracle.mkInjectedVoteExtensionTx (api_list (ij_ExchangeRateVotes m)) (ij_ExtendedCommitInfo
    m) [].
#[export] Instance InjectedVoteExtensionTx_twin :
    ApiTwin InjectedVoteExtensionTx ApiOracle.InjectedVoteExtensionTx.
Proof.
  solve_twin InjectedVoteExtensionTx_to_api OracleProto.InjectedVoteExtensionTx_encode
    OracleProto.InjectedVoteExtensionTx_ok ApiOracle.InjectedVoteExtensionTx_encode
    ApiOracle.InjectedVoteExtensionTx_ok.
Defined.

Definition FeederDelegation_to_api (m : FeederDelegation) : ApiOracle.FeederDelegation :=
  ApiOracle.mkFeederDelegation (fd_FeederAddress m) (fd_ValidatorAddress m) [].
#[export] Instance FeederDelegation_twin : ApiTwin FeederDelegation ApiOracle.FeederDelegation.
Proof.
  solve_twin FeederDelegation_to_api GenesisProto.FeederDelegation_encode
    GenesisProto.FeederDelegation_ok ApiOracle.FeederDelegation_encode
    ApiOracle.FeederDelegation_ok.
Defined.

Definition MissCounter_to_api (m : MissCounter) : ApiOracle.MissCounter :=
  ApiOracle.mkMissCounter (mc_ValidatorAddress m) (mc_MissCounter m) [].
#[export] Instance MissCounter_twin : ApiTwin MissCounter ApiOracle.MissCounter.
Proof.
  solve_twin MissCounter_to_api GenesisProto.MissCounter_encode GenesisProto.MissCounter_ok
    ApiOracle.MissCounter_encode ApiOracle.MissCounter_ok.
Defined.

Definition GenesisState_to_api (m : GenesisState) : ApiOracle.GenesisState :=
  ApiOracle.mkGenesisState (Some (to_api (gs_Params m))) (api_list (gs_FeederDelegations m))
    (api_list (gs_ExchangeRates m)) (api_list (gs_MissCounters m)) (api_list (gs_Prevotes m))
    (api_list (gs_Votes m)) (api_list (gs_Medians m)) (api_list (gs_HistoricPrices m)) (api_list
    (gs_MedianDeviations m)) [].
#[export] Instance GenesisState_twin : ApiTwin GenesisState ApiOracle.GenesisState.
Proof.
  solve_twin GenesisState_to_api GenesisProto.GenesisState_encode GenesisProto.GenesisState_ok
    ApiOracle.GenesisState_encode ApiOracle.GenesisState_ok.
Defined.

Definition MsgAggregateExchangeRatePrevote_to_api (m : MsgAggregateExchangeRatePrevote) :
    ApiTx.MsgAggregateExchangeRatePrevote :=
  ApiTx.mkMsgAggregateExchangeRatePrevote (mp_Hash m) (mp_Feeder m) (mp_Validator m) [].
#[export] Instance MsgAggregateExchangeRatePrevote_twin :
    ApiTwin MsgAggregateExchangeRatePrevote ApiTx.MsgAggregateExchangeRatePrevote.
Proof.
  solve_twin MsgAggregateExchangeRatePrevote_to_api TxProto.MsgAggregateExchangeRatePrevote_encode
    TxProto.MsgAggregateExchangeRatePrevote_ok ApiTx.MsgAggregateExchangeRatePrevote_encode
    ApiTx.MsgAggregateExchangeRatePrevote_ok.
Defined.

Definition MsgAggregateExchangeRateVote_to_api (m : MsgAggregateExchangeRateVote) :
    ApiTx.MsgAggregateExchangeRateVote :=
  ApiTx.mkMsgAggregateExchangeRateVote (mv_Salt m) (mv_ExchangeRates m) (mv_Feeder m)
    (mv_Validator m) [].
#[export] Instance MsgAggregateExchangeRateVote_twin :
    ApiTwin MsgAggregateExchangeRateVote ApiTx.MsgAggregateExchangeRateVote.
Proof.
  solve_twin MsgAggregateExchangeRateVote_to_api TxProto.MsgAggregateExchangeRateVote_encode
    TxProto.MsgAggregateExchangeRateVote_ok ApiTx.MsgAggregateExchangeRateVote_encode
    ApiTx.MsgAggregateExchangeRateVote_ok.
Defined.

Definition MsgDelegateFeedConsent_to_api (m : MsgDelegateFeedConsent) :
    ApiTx.MsgDelegateFeedConsent :=
  ApiTx.mkMsgDelegateFeedConsent (md_Operator m) (md_Delegate m) [].
#[export] Instance MsgDelegateFeedConsent_twin :
    ApiTwin MsgDelegateFeedConsent ApiTx.MsgDelegateFeedConsent.
Proof.
  solve_twin MsgDelegateFeedConsent_to_api TxProto.MsgDelegateFeedConsent_encode
    TxProto.MsgDelegateFeedConsent_ok ApiTx.MsgDelegateFeedConsent_encode
    ApiTx.MsgDelegateFeedConsent_ok.
Defined.

Definition MsgLegacyGovUpdateParams_to_api (m : MsgLegacyGovUpdateParams) :
    ApiTx.MsgLegacyGovUpdateParams :=
  ApiTx.mkMsgLegacyGovUpdateParams (ml_Authority m) (ml_Title m) (ml_Description m) (ml_Keys m)
    (Some (to_api (ml_Changes m))) [].
#[export] Instance MsgLegacyGovUpdateParams_twin :
    ApiTwin MsgLegacyGovUpdateParams ApiTx.MsgLegacyGovUpdateParams.
Proof.
  solve_twin MsgLegacyGovUpdateParams_to_api TxProto.MsgLegacyGovUpdateParams_encode
    TxProto.MsgLegacyGovUpdateParams_ok ApiTx.MsgLegacyGovUpdateParams_encode
    ApiTx.MsgLegacyGovUpdateParams_ok.
Defined.

Definition MsgGovUpdateParams_to_api (m : MsgGovUpdateParams) : ApiTx.MsgGovUpdateParams :=
  ApiTx.mkMsgGovUpdateParams (mu_Authority m) (mu_Title m) (mu_Description m) (Some (to_api
    (mu_Plan m))) [].
#[export] Instance MsgGovUpdateParams_twin : ApiTwin MsgGovUpdateParams ApiTx.MsgGovUpdateParams.
Proof.
  solve_twin MsgGovUpdateParams_to_api TxProto.MsgGovUpdateParams_encode
    TxProto.MsgGovUpdateParams_ok ApiTx.MsgGovUpdateParams_encode ApiTx.MsgGovUpdateParams_ok.
Defined.

Definition MsgGovAddDenoms_to_api (m : MsgGovAddDenoms) : ApiTx.MsgGovAddDenoms :=
  ApiTx.mkMsgGovAddDenoms (ma_Authority m) (ma_Title m) (ma_Description m) (ma_Height m) (api_list
    (ma_DenomList m)) (ma_Mandatory m) (api_dec_pointer (ma_RewardBand m)) (api_list
    (ma_CurrencyPairProviders m)) (api_list (ma_CurrencyDeviationThresholds m)) [].
#[export] Instance MsgGovAddDenoms_twin : ApiTwin MsgGovAddDenoms ApiTx.MsgGovAddDenoms.
Proof.
  solve_twin MsgGovAddDenoms_to_api TxProto.MsgGovAddDenoms_encode TxProto.MsgGovAddDenoms_ok
    ApiTx.MsgGovAddDenoms_encode ApiTx.MsgGovAddDenoms_ok.
Defined.

Definition MsgGovRemoveCurrencyPairProviders_to_api (m : MsgGovRemoveCurrencyPairProviders) :
    ApiTx.MsgGovRemoveCurrencyPairProviders :=
  ApiTx.mkMsgGovRemoveCurrencyPairProviders (mrp_Authority m) (mrp_Title m) (mrp_Description m)
    (mrp_Height m) (api_list (mrp_CurrencyPairProviders m)) [].
#[export] Instance MsgGovRemoveCurrencyPairProviders_twin :
    ApiTwin MsgGovRemoveCurrencyPairProviders ApiTx.MsgGovRemoveCurrencyPairProviders.
Proof.
  solve_twin MsgGovRemoveCurrencyPairProviders_to_api
    TxProto.MsgGovRemoveCurrencyPairProviders_encode TxProto.MsgGovRemoveCurrencyPairProviders_ok
    ApiTx.MsgGovRemoveCurrencyPairProviders_encode ApiTx.MsgGovRemoveCurrencyPairProviders_ok.
Defined.

Definition MsgGovRemoveCurrencyDeviationThresholds_to_api (m : MsgGovRemoveCurrencyDeviationThresholds) : ApiTx.MsgGovRemoveCurrencyDeviationThresholds :=
  ApiTx.mkMsgGovRemoveCurrencyDeviationThresholds (mrt_Authority m) (mrt_Title m) (mrt_Description
    m) (mrt_Height m) (mrt_Currencies m) [].
#[export] Instance MsgGovRemoveCurrencyDeviationThresholds_twin :
    ApiTwin MsgGovRemoveCurrencyDeviationThresholds ApiTx.MsgGovRemoveCurrencyDeviationThresholds.
Proof.
  solve_twin MsgGovRemoveCurrencyDeviationThresholds_to_api
    TxProto.MsgGovRemoveCurrencyDeviationThresholds_encode
    TxProto.MsgGovRemoveCurrencyDeviationThresholds_ok
    ApiTx.MsgGovRemoveCurrencyDeviationThresholds_encode
    ApiTx.MsgGovRemoveCurrencyDeviationThresholds_ok.
Defined.

Definition MsgGovCancelUpdateParamPlan_to_api (m : MsgGovCancelUpdateParamPlan) :
    ApiTx.MsgGovCancelUpdateParamPlan :=
  ApiTx.mkMsgGovCancelUpdateParamPlan (mc_Authority m) (mc_Title m) (mc_Description m) (mc_Height
    m) [].
#[export] Instance MsgGovCancelUpdateParamPlan_twin :
    ApiTwin MsgGovCancelUpdateParamPlan ApiTx.MsgGovCancelUpdateParamPlan.
Proof.
  solve_twin MsgGovCancelUpdateParamPlan_to_api TxProto.MsgGovCancelUpdateParamPlan_encode
    TxProto.MsgGovCancelUpdateParamPlan_ok ApiTx.MsgGovCancelUpdateParamPlan_encode
    ApiTx.MsgGovCancelUpdateParamPlan_ok.
Defined.

Definition MsgAggregateExchangeRatePrevoteResponse_to_api (m : MsgAggregateExchangeRatePrevoteResponse) : ApiTx.MsgAggregateExchangeRatePrevoteResponse :=
  ApiTx.mkMsgAggregateExchangeRatePrevoteResponse [].
#[export] Instance MsgAggregateExchangeRatePrevoteResponse_twin :
    ApiTwin MsgAggregateExchangeRatePrevoteResponse ApiTx.MsgAggregateExchangeRatePrevoteResponse.
Proof.
  solve_twin MsgAggregateExchangeRatePrevoteResponse_to_api
    TxProto.MsgAggregateExchangeRatePrevoteResponse_encode
    TxProto.MsgAggregateExchangeRatePrevoteResponse_ok
    ApiTx.MsgAggregateExchangeRatePrevoteResponse_encode
    ApiTx.MsgAggregateExchangeRatePrevoteResponse_ok.
Defined.

Definition MsgAggregateExchangeRateVoteResponse_to_api (m : MsgAggregateExchangeRateVoteResponse) :
    ApiTx.MsgAggregateExchangeRateVoteResponse :=
  ApiTx.mkMsgAggregateExchangeRateVoteResponse [].
#[export] Instance MsgAggregateExchangeRateVoteResponse_twin :
    ApiTwin MsgAggregateExchangeRateVoteResponse ApiTx.MsgAggregateExchangeRateVoteResponse.
Proof.
  solve_twin MsgAggregateExchangeRateVoteResponse_to_api
    TxProto.MsgAggregateExchangeRateVoteResponse_encode
    TxProto.MsgAggregateExchangeRateVoteResponse_ok
    ApiTx.MsgAggregateExchangeRateVoteResponse_encode
    ApiTx.MsgAggregateExchangeRateVoteResponse_ok.
Defined.

Definition MsgDelegateFeedConsentResponse_to_api (m : MsgDelegateFeedConsentResponse) :
    ApiTx.MsgDelegateFeedConsentResponse :=
  ApiTx.mkMsgDelegateFeedConsentResponse [].
#[export] Instance MsgDelegateFeedConsentResponse_twin :
    ApiTwin MsgDelegateFeedConsentResponse ApiTx.MsgDelegateFeedConsentResponse.
Proof.
  solve_twin MsgDelegateFeedConsentResponse_to_api TxProto.MsgDelegateFeedConsentResponse_encode
    TxProto.MsgDelegateFeedConsentResponse_ok ApiTx.MsgDelegateFeedConsentResponse_encode
    ApiTx.MsgDelegateFeedConsentResponse_ok.
Defined.

Definition MsgLegacyGovUpdateParamsResponse_to_api (m : MsgLegacyGovUpdateParamsResponse) :
    ApiTx.MsgLegacyGovUpdateParamsResponse :=
  ApiTx.mkMsgLegacyGovUpdateParamsResponse [].
#[export] Instance MsgLegacyGovUpdateParamsResponse_twin :
    ApiTwin MsgLegacyGovUpdateParamsResponse ApiTx.MsgLegacyGovUpdateParamsResponse.
Proof.
  solve_twin MsgLegacyGovUpdateParamsResponse_to_api
    TxProto.MsgLegacyGovUpdateParamsResponse_encode TxProto.MsgLegacyGovUpdateParamsResponse_ok
    ApiTx.MsgLegacyGovUpdateParamsResponse_encode ApiTx.MsgLegacyGovUpdateParamsResponse_ok.
Defined.

Definition MsgGovUpdateParamsResponse_to_api (m : MsgGovUpdateParamsResponse) :
    ApiTx.MsgGovUpdateParamsResponse :=
  ApiTx.mkMsgGovUpdateParamsResponse [].
#[export] Instance MsgGovUpdateParamsResponse_twin :
    ApiTwin MsgGovUpdateParamsResponse ApiTx.MsgGovUpdateParamsResponse.
Proof.
  solve_twin MsgGovUpdateParamsResponse_to_api TxProto.MsgGovUpdateParamsResponse_encode
    TxProto.MsgGovUpdateParamsResponse_ok ApiTx.MsgGovUpdateParamsResponse_encode
    ApiTx.MsgGovUpdateParamsResponse_ok.
Defined.

Definition MsgGovAddDenomsResponse_to_api (m : MsgGovAddDenomsResponse) :
    ApiTx.MsgGovAddDenomsResponse :=
  ApiTx.mkMsgGovAddDenomsResponse [].
#[export] Instance MsgGovAddDenomsResponse_twin :
    ApiTwin MsgGovAddDenomsResponse ApiTx.MsgGovAddDenomsResponse.
Proof.
  solve_twin MsgGovAddDenomsResponse_to_api TxProto.MsgGovAddDenomsResponse_encode
    TxProto.MsgGovAddDenomsResponse_ok ApiTx.MsgGovAddDenomsResponse_encode
    ApiTx.MsgGovAddDenomsResponse_ok.
Defined.

Definition MsgGovRemoveCurrencyPairProvidersResponse_to_api (m : MsgGovRemoveCurrencyPairProvidersResponse) : ApiTx.MsgGovRemoveCurrencyPairProvidersResponse :=
  ApiTx.mkMsgGovRemoveCurrencyPairProvidersResponse [].
#[export] Instance MsgGovRemoveCurrencyPairProvidersResponse_twin :
    ApiTwin MsgGovRemoveCurrencyPairProvidersResponse ApiTx.MsgGovRemoveCurrencyPairProvidersResponse.
Proof.
  solve_twin MsgGovRemoveCurrencyPairProvidersResponse_to_api
    TxProto.MsgGovRemoveCurrencyPairProvidersResponse_encode
    TxProto.MsgGovRemoveCurrencyPairProvidersResponse_ok
    ApiTx.MsgGovRemoveCurrencyPairProvidersResponse_encode
    ApiTx.MsgGovRemoveCurrencyPairProvidersResponse_ok.
Defined.

Definition MsgGovRemoveCurrencyDeviationThresholdsResponse_to_api (m : MsgGovRemoveCurrencyDeviationThresholdsResponse) : ApiTx.MsgGovRemoveCurrencyDeviationThresholdsResponse :=
  ApiTx.mkMsgGovRemoveCurrencyDeviationThresholdsResponse [].
#[export] Instance MsgGovRemoveCurrencyDeviationThresholdsResponse_twin :
    ApiTwin MsgGovRemoveCurrencyDeviationThresholdsResponse ApiTx.MsgGovRemoveCurrencyDeviationThresholdsResponse.
Proof.
  solve_twin MsgGovRemoveCurrencyDeviationThresholdsResponse_to_api
    TxProto.MsgGovRemoveCurrencyDeviationThresholdsResponse_encode
    TxProto.MsgGovRemoveCurrencyDeviationThresholdsResponse_ok
    ApiTx.MsgGovRemoveCurrencyDeviationThresholdsResponse_encode
    ApiTx.MsgGovRemoveCurrencyDeviationThresholdsResponse_ok.
Defined.

Definition MsgGovCancelUpdateParamPlanResponse_to_api (m : MsgGovCancelUpdateParamPlanResponse) :
    ApiTx.MsgGovCancelUpdateParamPlanResponse :=
  ApiTx.mkMsgGovCancelUpdateParamPlanResponse [].
#[export] Instance MsgGovCancelUpdateParamPlanResponse_twin :
    ApiTwin MsgGovCancelUpdateParamPlanResponse ApiTx.MsgGovCancelUpdateParamPlanResponse.
Proof.
  solve_twin MsgGovCancelUpdateParamPlanResponse_to_api
    TxProto.MsgGovCancelUpdateParamPlanResponse_encode
    TxProto.MsgGovCancelUpdateParamPlanResponse_ok
    ApiTx.MsgGovCancelUpdateParamPlanResponse_encode ApiTx.MsgGovCancelUpdateParamPlanResponse_ok.
Defined.

Definition QueryExchangeRates_to_api (m : QueryExchangeRates) : ApiQuery.QueryExchangeRates :=
  ApiQuery.mkQueryExchangeRates (QueryExchangeRates_Denom m) [].
#[export] Instance QueryExchangeRates_twin :
    ApiTwin QueryExchangeRates ApiQuery.QueryExchangeRates.
Proof.
  solve_twin QueryExchangeRates_to_api QueryProto.QueryExchangeRates_encode
    QueryProto.QueryExchangeRates_ok ApiQuery.QueryExchangeRates_encode
    ApiQuery.QueryExchangeRates_ok.
Defined.

Definition QueryExchangeRatesResponse_to_api (m : QueryExchangeRatesResponse) :
    ApiQuery.QueryExchangeRatesResponse :=
  ApiQuery.mkQueryExchangeRatesResponse (api_list (QueryExchangeRatesResponse_ExchangeRates m)) [].
#[export] Instance QueryExchangeRatesResponse_twin :
    ApiTwin QueryExchangeRatesResponse ApiQuery.QueryExchangeRatesResponse.
Proof.
  solve_twin QueryExchangeRatesResponse_to_api QueryProto.QueryExchangeRatesResponse_encode
    QueryProto.QueryExchangeRatesResponse_ok ApiQuery.QueryExchangeRatesResponse_encode
    ApiQuery.QueryExchangeRatesResponse_ok.
Defined.

Definition QueryActiveExchangeRates_to_api (m : QueryActiveExchangeRates) :
    ApiQuery.QueryActiveExchangeRates :=
  ApiQuery.mkQueryActiveExchangeRates [].
#[export] Instance QueryActiveExchangeRates_twin :
    ApiTwin QueryActiveExchangeRates ApiQuery.QueryActiveExchangeRates.
Proof.
  solve_twin QueryActiveExchangeRates_to_api QueryProto.QueryActiveExchangeRates_encode
    QueryProto.QueryActiveExchangeRates_ok ApiQuery.QueryActiveExchangeRates_encode
    ApiQuery.QueryActiveExchangeRates_ok.
Defined.

Definition QueryActiveExchangeRatesResponse_to_api (m : QueryActiveExchangeRatesResponse) :
    ApiQuery.QueryActiveExchangeRatesResponse :=
  ApiQuery.mkQueryActiveExchangeRatesResponse (QueryActiveExchangeRatesResponse_ActiveRates m) [].
#[export] Instance QueryActiveExchangeRatesResponse_twin :
    ApiTwin QueryActiveExchangeRatesResponse ApiQuery.QueryActiveExchangeRatesResponse.
Proof.
  solve_twin QueryActiveExchangeRatesResponse_to_api
    QueryProto.QueryActiveExchangeRatesResponse_encode
    QueryProto.QueryActiveExchangeRatesResponse_ok
    ApiQuery.QueryActiveExchangeRatesResponse_encode ApiQuery.QueryActiveExchangeRatesResponse_ok.
Defined.

Definition QueryFeederDelegation_to_api (m : QueryFeederDelegation) :
    ApiQuery.QueryFeederDelegation :=
  ApiQuery.mkQueryFeederDelegation (QueryFeederDelegation_ValidatorAddr m) [].
#[export] Instance QueryFeederDelegation_twin :
    ApiTwin QueryFeederDelegation ApiQuery.QueryFeederDelegation.
Proof.
  solve_twin QueryFeederDelegation_to_api QueryProto.QueryFeederDelegation_encode
    QueryProto.QueryFeederDelegation_ok ApiQuery.QueryFeederDelegation_encode
    ApiQuery.QueryFeederDelegation_ok.
Defined.

Definition QueryFeederDelegationResponse_to_api (m : QueryFeederDelegationResponse) :
    ApiQuery.QueryFeederDelegationResponse :=
  ApiQuery.mkQueryFeederDelegationResponse (QueryFeederDelegationResponse_FeederAddr m) [].
#[export] Instance QueryFeederDelegationResponse_twin :
    ApiTwin QueryFeederDelegationResponse ApiQuery.QueryFeederDelegationResponse.
Proof.
  solve_twin QueryFeederDelegationResponse_to_api QueryProto.QueryFeederDelegationResponse_encode
    QueryProto.QueryFeederDelegationResponse_ok ApiQuery.QueryFeederDelegationResponse_encode
    ApiQuery.QueryFeederDelegationResponse_ok.
Defined.

Definition QueryMissCounter_to_api (m : QueryMissCounter) : ApiQuery.QueryMissCounter :=
  ApiQuery.mkQueryMissCounter (QueryMissCounter_ValidatorAddr m) [].
#[export] Instance QueryMissCounter_twin : ApiTwin QueryMissCounter ApiQuery.QueryMissCounter.
Proof.
  solve_twin QueryMissCounter_to_api QueryProto.QueryMissCounter_encode
    QueryProto.QueryMissCounter_ok ApiQuery.QueryMissCounter_encode ApiQuery.QueryMissCounter_ok.
Defined.

Definition QueryMissCounterResponse_to_api (m : QueryMissCounterResponse) :
    ApiQuery.QueryMissCounterResponse :=
  ApiQuery.mkQueryMissCounterResponse (QueryMissCounterResponse_MissCounter m) [].
#[export] Instance QueryMissCounterResponse_twin :
    ApiTwin QueryMissCounterResponse ApiQuery.QueryMissCounterResponse.
Proof.
  solve_twin QueryMissCounterResponse_to_api QueryProto.QueryMissCounterResponse_encode
    QueryProto.QueryMissCounterResponse_ok ApiQuery.QueryMissCounterResponse_encode
    ApiQuery.QueryMissCounterResponse_ok.
Defined.

Definition QuerySlashWindow_to_api (m : QuerySlashWindow) : ApiQuery.QuerySlashWindow :=
  ApiQuery.mkQuerySlashWindow [].
#[export] Instance QuerySlashWindow_twin : ApiTwin QuerySlashWindow ApiQuery.QuerySlashWindow.
Proof.
  solve_twin QuerySlashWindow_to_api QueryProto.QuerySlashWindow_encode
    QueryProto.QuerySlashWindow_ok ApiQuery.QuerySlashWindow_encode ApiQuery.QuerySlashWindow_ok.
Defined.

Definition QuerySlashWindowResponse_to_api (m : QuerySlashWindowResponse) :
    ApiQuery.QuerySlashWindowResponse :=
  ApiQuery.mkQuerySlashWindowResponse (QuerySlashWindowResponse_WindowProgress m) [].
#[export] Instance QuerySlashWindowResponse_twin :
    ApiTwin QuerySlashWindowResponse ApiQuery.QuerySlashWindowResponse.
Proof.
  solve_twin QuerySlashWindowResponse_to_api QueryProto.QuerySlashWindowResponse_encode
    QueryProto.QuerySlashWindowResponse_ok ApiQuery.QuerySlashWindowResponse_encode
    ApiQuery.QuerySlashWindowResponse_ok.
Defined.

Definition QueryAggregatePrevote_to_api (m : QueryAggregatePrevote) :
    ApiQuery.QueryAggregatePrevote :=
  ApiQuery.mkQueryAggregatePrevote (QueryAggregatePrevote_ValidatorAddr m) [].
#[export] Instance QueryAggregatePrevote_twin :
    ApiTwin QueryAggregatePrevote ApiQuery.QueryAggregatePrevote.
Proof.
  solve_twin QueryAggregatePrevote_to_api QueryProto.QueryAggregatePrevote_encode
    QueryProto.QueryAggregatePrevote_ok ApiQuery.QueryAggregatePrevote_encode
    ApiQuery.QueryAggregatePrevote_ok.
Defined.

Definition QueryAggregatePrevoteResponse_to_api (m : QueryAggregatePrevoteResponse) :
    ApiQuery.QueryAggregatePrevoteResponse :=
  ApiQuery.mkQueryAggregatePrevoteResponse (Some (to_api
    (QueryAggregatePrevoteResponse_AggregatePrevote m))) [].
#[export] Instance QueryAggregatePrevoteResponse_twin :
    ApiTwin QueryAggregatePrevoteResponse ApiQuery.QueryAggregatePrevoteResponse.
Proof.
  solve_twin QueryAggregatePrevoteResponse_to_api QueryProto.QueryAggregatePrevoteResponse_encode
    QueryProto.QueryAggregatePrevoteResponse_ok ApiQuery.QueryAggregatePrevoteResponse_encode
    ApiQuery.QueryAggregatePrevoteResponse_ok.
Defined.

Definition QueryAggregatePrevotes_to_api (m : QueryAggregatePrevotes) :
    ApiQuery.QueryAggregatePrevotes :=
  ApiQuery.mkQueryAggregatePrevotes [].
#[export] Instance QueryAggregatePrevotes_twin :
    ApiTwin QueryAggregatePrevotes ApiQuery.QueryAggregatePrevotes.
Proof.
  solve_twin QueryAggregatePrevotes_to_api QueryProto.QueryAggregatePrevotes_encode
    QueryProto.QueryAggregatePrevotes_ok ApiQuery.QueryAggregatePrevotes_encode
    ApiQuery.QueryAggregatePrevotes_ok.
Defined.

Definition QueryAggregatePrevotesResponse_to_api (m : QueryAggregatePrevotesResponse) :
    ApiQuery.QueryAggregatePrevotesResponse :=
  ApiQuery.mkQueryAggregatePrevotesResponse (api_list
    (QueryAggregatePrevotesResponse_AggregatePrevotes m)) [].
#[export] Instance QueryAggregatePrevotesResponse_twin :
    ApiTwin QueryAggregatePrevotesResponse ApiQuery.QueryAggregatePrevotesResponse.
Proof.
  solve_twin QueryAggregatePrevotesResponse_to_api
    QueryProto.QueryAggregatePrevotesResponse_encode QueryProto.QueryAggregatePrevotesResponse_ok
    ApiQuery.QueryAggregatePrevotesResponse_encode ApiQuery.QueryAggregatePrevotesResponse_ok.
Defined.

Definition QueryAggregateVote_to_api (m : QueryAggregateVote) : ApiQuery.QueryAggregateVote :=
  ApiQuery.mkQueryAggregateVote (QueryAggregateVote_ValidatorAddr m) [].
#[export] Instance QueryAggregateVote_twin :
    ApiTwin QueryAggregateVote ApiQuery.QueryAggregateVote.
Proof.
  solve_twin QueryAggregateVote_to_api QueryProto.QueryAggregateVote_encode
    QueryProto.QueryAggregateVote_ok ApiQuery.QueryAggregateVote_encode
    ApiQuery.QueryAggregateVote_ok.
Defined.

Definition QueryAggregateVoteResponse_to_api (m : QueryAggregateVoteResponse) :
    ApiQuery.QueryAggregateVoteResponse :=
  ApiQuery.mkQueryAggregateVoteResponse (Some (to_api (QueryAggregateVoteResponse_AggregateVote
    m))) [].
#[export] Instance QueryAggregateVoteResponse_twin :
    ApiTwin QueryAggregateVoteResponse ApiQuery.QueryAggregateVoteResponse.
Proof.
  solve_twin QueryAggregateVoteResponse_to_api QueryProto.QueryAggregateVoteResponse_encode
    QueryProto.QueryAggregateVoteResponse_ok ApiQuery.QueryAggregateVoteResponse_encode
    ApiQuery.QueryAggregateVoteResponse_ok.
Defined.

Definition QueryAggregateVotes_to_api (m : QueryAggregateVotes) : ApiQuery.QueryAggregateVotes :=
  ApiQuery.mkQueryAggregateVotes [].
#[export] Instance QueryAggregateVotes_twin :
    ApiTwin QueryAggregateVotes ApiQuery.QueryAggregateVotes.
Proof.
  solve_twin QueryAggregateVotes_to_api QueryProto.QueryAggregateVotes_encode
    QueryProto.QueryAggregateVotes_ok ApiQuery.QueryAggregateVotes_encode
    ApiQuery.QueryAggregateVotes_ok.
Defined.

Definition QueryAggregateVotesResponse_to_api (m : QueryAggregateVotesResponse) :
    ApiQuery.QueryAggregateVotesResponse :=
  ApiQuery.mkQueryAggregateVotesResponse (api_list (QueryAggregateVotesResponse_AggregateVotes m))
    [].
#[export] Instance QueryAggregateVotesResponse_twin :
    ApiTwin QueryAggregateVotesResponse ApiQuery.QueryAggregateVotesResponse.
Proof.
  solve_twin QueryAggregateVotesResponse_to_api QueryProto.QueryAggregateVotesResponse_encode
    QueryProto.QueryAggregateVotesResponse_ok ApiQuery.QueryAggregateVotesResponse_encode
    ApiQuery.QueryAggregateVotesResponse_ok.
Defined.

Definition QueryParams_to_api (m : QueryParams) : ApiQuery.QueryParams :=
  ApiQuery.mkQueryParams [].
#[export] Instance QueryParams_twin : ApiTwin QueryParams ApiQuery.QueryParams.
Proof.
  solve_twin QueryParams_to_api QueryProto.QueryParams_encode QueryProto.QueryParams_ok
    ApiQuery.QueryParams_encode ApiQuery.QueryParams_ok.
Defined.

Definition QueryParamsResponse_to_api (m : QueryParamsResponse) : ApiQuery.QueryParamsResponse :=
  ApiQuery.mkQueryParamsResponse (Some (to_api (QueryParamsResponse_Params m))) [].
#[export] Instance QueryParamsResponse_twin :
    ApiTwin QueryParamsResponse ApiQuery.QueryParamsResponse.
Proof.
  solve_twin QueryParamsResponse_to_api QueryProto.QueryParamsResponse_encode
    QueryProto.QueryParamsResponse_ok ApiQuery.QueryParamsResponse_encode
    ApiQuery.QueryParamsResponse_ok.
Defined.

Definition QueryMedians_to_api (m : QueryMedians) : ApiQuery.QueryMedians :=
  ApiQuery.mkQueryMedians (qm_Denom m) (qm_NumStamps m) [].
#[export] Instance QueryMedians_twin : ApiTwin QueryMedians ApiQuery.QueryMedians.
Proof.
  solve_twin QueryMedians_to_api QueryProto.QueryMedians_encode QueryProto.QueryMedians_ok
    ApiQuery.QueryMedians_encode ApiQuery.QueryMedians_ok.
Defined.

Definition QueryMediansResponse_to_api (m : QueryMediansResponse) :
    ApiQuery.QueryMediansResponse :=
  ApiQuery.mkQueryMediansResponse (api_list (QueryMediansResponse_Medians m)) [].
#[export] Instance QueryMediansResponse_twin :
    ApiTwin QueryMediansResponse ApiQuery.QueryMediansResponse.
Proof.
  solve_twin QueryMediansResponse_to_api QueryProto.QueryMediansResponse_encode
    QueryProto.QueryMediansResponse_ok ApiQuery.QueryMediansResponse_encode
    ApiQuery.QueryMediansResponse_ok.
Defined.

Definition QueryMedianDeviations_to_api (m : QueryMedianDeviations) :
    ApiQuery.QueryMedianDeviations :=
  ApiQuery.mkQueryMedianDeviations (QueryMedianDeviations_Denom m) [].
#[export] Instance QueryMedianDeviations_twin :
    ApiTwin QueryMedianDeviations ApiQuery.QueryMedianDeviations.
Proof.
  solve_twin QueryMedianDeviations_to_api QueryProto.QueryMedianDeviations_encode
    QueryProto.QueryMedianDeviations_ok ApiQuery.QueryMedianDeviations_encode
    ApiQuery.QueryMedianDeviations_ok.
Defined.

Definition QueryMedianDeviationsResponse_to_api (m : QueryMedianDeviationsResponse) :
    ApiQuery.QueryMedianDeviationsResponse :=
  ApiQuery.mkQueryMedianDeviationsResponse (api_list
    (QueryMedianDeviationsResponse_MedianDeviations m)) [].
#[export] Instance QueryMedianDeviationsResponse_twin :
    ApiTwin QueryMedianDeviationsResponse ApiQuery.QueryMedianDeviationsResponse.
Proof.
  solve_twin QueryMedianDeviationsResponse_to_api QueryProto.QueryMedianDeviationsResponse_encode
    QueryProto.QueryMedianDeviationsResponse_ok ApiQuery.QueryMedianDeviationsResponse_encode
    ApiQuery.QueryMedianDeviationsResponse_ok.
Defined.

Definition QueryValidatorRewardSet_to_api (m : QueryValidatorRewardSet) :
    ApiQuery.QueryValidatorRewardSet :=
  ApiQuery.mkQueryValidatorRewardSet [].
#[export] Instance QueryValidatorRewardSet_twin :
    ApiTwin QueryValidatorRewardSet ApiQuery.QueryValidatorRewardSet.
Proof.
  solve_twin QueryValidatorRewardSet_to_api QueryProto.QueryValidatorRewardSet_encode
    QueryProto.QueryValidatorRewardSet_ok ApiQuery.QueryValidatorRewardSet_encode
    ApiQuery.QueryValidatorRewardSet_ok.
Defined.

Definition QueryValidatorRewardSetResponse_to_api (m : QueryValidatorRewardSetResponse) :
    ApiQuery.QueryValidatorRewardSetResponse :=
  ApiQuery.mkQueryValidatorRewardSetResponse (Some (to_api
    (QueryValidatorRewardSetResponse_Validators m))) [].
#[export] Instance QueryValidatorRewardSetResponse_twin :
    ApiTwin QueryValidatorRewardSetResponse ApiQuery.QueryValidatorRewardSetResponse.
Proof.
  solve_twin QueryValidatorRewardSetResponse_to_api
    QueryProto.QueryValidatorRewardSetResponse_encode
    QueryProto.QueryValidatorRewardSetResponse_ok ApiQuery.QueryValidatorRewardSetResponse_encode
    ApiQuery.QueryValidatorRewardSetResponse_ok.
Defined.

Definition QueryEMARequest_to_api (m : QueryEMARequest) : ApiQuery.QueryEMARequest :=
  ApiQuery.mkQueryEMARequest (QueryEMARequest_Denom m) [].
#[export] Instance QueryEMARequest_twin : ApiTwin QueryEMARequest ApiQuery.QueryEMARequest.
Proof.
  solve_twin QueryEMARequest_to_api QueryProto.QueryEMARequest_encode
    QueryProto.QueryEMARequest_ok ApiQuery.QueryEMARequest_encode ApiQuery.QueryEMARequest_ok.
Defined.

Definition QueryEMAResponse_to_api (m : QueryEMAResponse) : ApiQuery.QueryEMAResponse :=
  ApiQuery.mkQueryEMAResponse (api_dec (QueryEMAResponse_Price m)) [].
#[export] Instance QueryEMAResponse_twin : ApiTwin QueryEMAResponse ApiQuery.QueryEMAResponse.
Proof.
  solve_twin QueryEMAResponse_to_api QueryProto.QueryEMAResponse_encode
    QueryProto.QueryEMAResponse_ok ApiQuery.QueryEMAResponse_encode ApiQuery.QueryEMAResponse_ok.
Defined.

Definition QueryWMARequest_to_api (m : QueryWMARequest) : ApiQuery.QueryWMARequest :=
  ApiQuery.mkQueryWMARequest (qw_Denom m) (qw_Strategy m) (qw_CustomWeights m) [].
#[export] Instance QueryWMARequest_twin : ApiTwin QueryWMARequest ApiQuery.QueryWMARequest.
Proof.
  solve_twin QueryWMARequest_to_api QueryProto.QueryWMARequest_encode
    QueryProto.QueryWMARequest_ok ApiQuery.QueryWMARequest_encode ApiQuery.QueryWMARequest_ok.
Defined.

Definition QueryWMAResponse_to_api (m : QueryWMAResponse) : ApiQuery.QueryWMAResponse :=
  ApiQuery.mkQueryWMAResponse (api_dec (QueryWMAResponse_Price m)) [].
#[export] Instance QueryWMAResponse_twin : ApiTwin QueryWMAResponse ApiQuery.QueryWMAResponse.
Proof.
  solve_twin QueryWMAResponse_to_api QueryProto.QueryWMAResponse_encode
    QueryProto.QueryWMAResponse_ok ApiQuery.QueryWMAResponse_encode ApiQuery.QueryWMAResponse_ok.
Defined.

Definition QuerySMARequest_to_api (m : QuerySMARequest) : ApiQuery.QuerySMARequest :=
  ApiQuery.mkQuerySMARequest (QuerySMARequest_Denom m) [].
#[export] Instance QuerySMARequest_twin : ApiTwin QuerySMARequest ApiQuery.QuerySMARequest.
Proof.
  solve_twin QuerySMARequest_to_api QueryProto.QuerySMARequest_encode
    QueryProto.QuerySMARequest_ok ApiQuery.QuerySMARequest_encode ApiQuery.QuerySMARequest_ok.
Defined.

Definition QuerySMAResponse_to_api (m : QuerySMAResponse) : ApiQuery.QuerySMAResponse :=
  ApiQuery.mkQuerySMAResponse (api_dec (QuerySMAResponse_Price m)) [].
#[export] Instance QuerySMAResponse_twin : ApiTwin QuerySMAResponse ApiQuery.QuerySMAResponse.
Proof.
  solve_twin QuerySMAResponse_to_api QueryProto.QuerySMAResponse_encode
    QueryProto.QuerySMAResponse_ok ApiQuery.QuerySMAResponse_encode ApiQuery.QuerySMAResponse_ok.
Defined.

Definition EventDelegateFeedConsent_to_api (m : EventDelegateFeedConsent) :
    ApiOracle.EventDelegateFeedConsent :=
  ApiOracle.mkEventDelegateFeedConsent (EventDelegateFeedConsent_Operator m)
    (EventDelegateFeedConsent_Delegate m) [].
#[export] Instance EventDelegateFeedConsent_twin :
    ApiTwin EventDelegateFeedConsent ApiOracle.EventDelegateFeedConsent.
Proof.
  solve_twin EventDelegateFeedConsent_to_api QueryProto.EventDelegateFeedConsent_encode
    QueryProto.EventDelegateFeedConsent_ok ApiOracle.EventDelegateFeedConsent_encode
    ApiOracle.EventDelegateFeedConsent_ok.
Defined.

Definition EventSetFxRate_to_api (m : EventSetFxRate) : ApiOracle.EventSetFxRate :=
  ApiOracle.mkEventSetFxRate (EventSetFxRate_Denom m) (api_dec (EventSetFxRate_Rate m)) [].
#[export] Instance EventSetFxRate_twin : ApiTwin EventSetFxRate ApiOracle.EventSetFxRate.
Proof.
  solve_twin EventSetFxRate_to_api QueryProto.EventSetFxRate_encode QueryProto.EventSetFxRate_ok
    ApiOracle.EventSetFxRate_encode ApiOracle.EventSetFxRate_ok.
Defined.
End twins.
