(* ===== verification/MultisigTwins.v ===== *)
(** * MultisigTwins: the multisig module's messages in both generated codes

    For every message of the multisig module, the struct of
    [src/api/multisig/v1] with the contents of the one of
    [src/x/multisig/types], and that their encodings are the same. *)
From S2P Require Import Prelude Util Dec Wire WireLemmas Pulsar PulsarLemmas ApiMultisig ApiTwin Multisig MultisigProto.
Local Open Scope Z_scope.

Section twins.
Context `{ProtoLaws Any} `{PulsarRuntimeLaws} `{CosmosApiLaws} `{!ApiTwin Any anypb_Any}.

Definition Params_to_api (m : Params) : ApiMultisig.Params :=
  ApiMultisig.mkParams (SomeValue m) [].
#[export] Instance Params_twin : ApiTwin Params ApiMultisig.Params.
Proof.
  solve_twin Params_to_api MultisigProto.Params_encode MultisigProto.Params_ok
    ApiMultisig.Params_encode ApiMultisig.Params_ok.
Defined.

Definition MultisigAccountDetails_to_api (m : MultisigAccountDetails) :
    ApiMultisig.MultisigAccountDetails :=
  ApiMultisig.mkMultisigAccountDetails (api_bytestrings (Signers m)) (Threshold m) (Permission m)
    [].
#[export] Instance MultisigAccountDetails_twin :
    ApiTwin MultisigAccountDetails ApiMultisig.MultisigAccountDetails.
Proof.
  solve_twin MultisigAccountDetails_to_api MultisigProto.MultisigAccountDetails_encode
    MultisigProto.MultisigAccountDetails_ok ApiMultisig.MultisigAccountDetails_encode
    ApiMultisig.MultisigAccountDetails_ok.
Defined.

Definition Proposal_to_api (m : Proposal) : ApiMultisig.Proposal :=
  ApiMultisig.mkProposal (pr_Id m) (api_bytestring (pr_MultisigAddress m)) (api_bytestring
    (pr_CallHash m)) (api_bytestring (pr_Depositor m)) (pr_Deposit m) (api_bytestrings
    (pr_Approvals m)) [].
#[export] Instance Proposal_twin : ApiTwin Proposal ApiMultisig.Proposal.
Proof.
  solve_twin Proposal_to_api MultisigProto.Proposal_encode MultisigProto.Proposal_ok
    ApiMultisig.Proposal_encode ApiMultisig.Proposal_ok.
Defined.

Definition MsgUpdateParams_to_api (m : MsgUpdateParams) : ApiMultisig.MsgUpdateParams :=
  ApiMultisig.mkMsgUpdateParams (up_Authority m) (Some (to_api (up_Params m))) [].
#[export] Instance MsgUpdateParams_twin : ApiTwin MsgUpdateParams ApiMultisig.MsgUpdateParams.
Proof.
  solve_twin MsgUpdateParams_to_api MultisigProto.MsgUpdateParams_encode
    MultisigProto.MsgUpdateParams_ok ApiMultisig.MsgUpdateParams_encode
    ApiMultisig.MsgUpdateParams_ok.
Defined.

Definition MsgCreateMultisigAccountParams_to_api (m : MsgCreateMultisigAccountParams) :
    ApiMultisig.MsgCreateMultisigAccountParams :=
  ApiMultisig.mkMsgCreateMultisigAccountParams (cr_Authority m) (cr_Seed m) (cr_Threshold m)
    (api_bytestrings (cr_Signers m)) (cr_Permission m) [].
#[export] Instance MsgCreateMultisigAccountParams_twin :
    ApiTwin MsgCreateMultisigAccountParams ApiMultisig.MsgCreateMultisigAccountParams.
Proof.
  solve_twin MsgCreateMultisigAccountParams_to_api
    MultisigProto.MsgCreateMultisigAccountParams_encode
    MultisigProto.MsgCreateMultisigAccountParams_ok
    ApiMultisig.MsgCreateMultisigAccountParams_encode
    ApiMultisig.MsgCreateMultisigAccountParams_ok.
Defined.

Definition MsgAddMultisigSignerParams_to_api (m : MsgAddMultisigSignerParams) :
    ApiMultisig.MsgAddMultisigSignerParams :=
  ApiMultisig.mkMsgAddMultisigSignerParams (as_MultisigAddress m) (as_Signer m) (as_NewThreshold
    m) [].
#[export] Instance MsgAddMultisigSignerParams_twin :
    ApiTwin MsgAddMultisigSignerParams ApiMultisig.MsgAddMultisigSignerParams.
Proof.
  solve_twin MsgAddMultisigSignerParams_to_api MultisigProto.MsgAddMultisigSignerParams_encode
    MultisigProto.MsgAddMultisigSignerParams_ok ApiMultisig.MsgAddMultisigSignerParams_encode
    ApiMultisig.MsgAddMultisigSignerParams_ok.
Defined.

Definition MsgCleanupMultisigAccountParams_to_api (m : MsgCleanupMultisigAccountParams) :
    ApiMultisig.MsgCleanupMultisigAccountParams :=
  ApiMultisig.mkMsgCleanupMultisigAccountParams (ca_MultisigAddress m) [].
#[export] Instance MsgCleanupMultisigAccountParams_twin :
    ApiTwin MsgCleanupMultisigAccountParams ApiMultisig.MsgCleanupMultisigAccountParams.
Proof.
  solve_twin MsgCleanupMultisigAccountParams_to_api
    MultisigProto.MsgCleanupMultisigAccountParams_encode
    MultisigProto.MsgCleanupMultisigAccountParams_ok
    ApiMultisig.MsgCleanupMultisigAccountParams_encode
    ApiMultisig.MsgCleanupMultisigAccountParams_ok.
Defined.

Definition MsgSetMultisigThresholdParams_to_api (m : MsgSetMultisigThresholdParams) :
    ApiMultisig.MsgSetMultisigThresholdParams :=
  ApiMultisig.mkMsgSetMultisigThresholdParams (st_MultisigAddress m) (st_Threshold m) [].
#[export] Instance MsgSetMultisigThresholdParams_twin :
    ApiTwin MsgSetMultisigThresholdParams ApiMultisig.MsgSetMultisigThresholdParams.
Proof.
  solve_twin MsgSetMultisigThresholdParams_to_api
    MultisigProto.MsgSetMultisigThresholdParams_encode
    MultisigProto.MsgSetMultisigThresholdParams_ok
    ApiMultisig.MsgSetMultisigThresholdParams_encode ApiMultisig.MsgSetMultisigThresholdParams_ok.
Defined.

Definition MsgInitializeMultisigProposalParams_to_api (m : MsgInitializeMultisigProposalParams) :
    ApiMultisig.MsgInitializeMultisigProposalParams :=
  ApiMultisig.mkMsgInitializeMultisigProposalParams (in_MultisigAddress m) (in_Proposer m)
    (in_Title m) (in_Description m) (to_api <$> (in_Message m)) [].
#[export] Instance MsgInitializeMultisigProposalParams_twin :
    ApiTwin MsgInitializeMultisigProposalParams ApiMultisig.MsgInitializeMultisigProposalParams.
Proof.
  solve_twin MsgInitializeMultisigProposalParams_to_api
    MultisigProto.MsgInitializeMultisigProposalParams_encode
    MultisigProto.MsgInitializeMultisigProposalParams_ok
    ApiMultisig.MsgInitializeMultisigProposalParams_encode
    ApiMultisig.MsgInitializeMultisigProposalParams_ok.
Defined.

Definition MsgApproveMultisigProposalParams_to_api (m : MsgApproveMultisigProposalParams) :
    ApiMultisig.MsgApproveMultisigProposalParams :=
  ApiMultisig.mkMsgApproveMultisigProposalParams (ap_MultisigAddress m) (ap_ProposalId m)
    (ap_Approver m) [].
#[export] Instance MsgApproveMultisigProposalParams_twin :
    ApiTwin MsgApproveMultisigProposalParams ApiMultisig.MsgApproveMultisigProposalParams.
Proof.
  solve_twin MsgApproveMultisigProposalParams_to_api
    MultisigProto.MsgApproveMultisigProposalParams_encode
    MultisigProto.MsgApproveMultisigProposalParams_ok
    ApiMultisig.MsgApproveMultisigProposalParams_encode
    ApiMultisig.MsgApproveMultisigProposalParams_ok.
Defined.

Definition MsgApproveAndDispatchMultisigProposalParams_to_api (m : MsgApproveAndDispatchMultisigProposalParams) : ApiMultisig.MsgApproveAndDispatchMultisigProposalParams :=
  ApiMultisig.mkMsgApproveAndDispatchMultisigProposalParams (di_MultisigAddress m) (di_ProposalId
    m) (di_Approver m) (to_api <$> (di_Message m)) [].
#[export] Instance MsgApproveAndDispatchMultisigProposalParams_twin :
    ApiTwin MsgApproveAndDispatchMultisigProposalParams ApiMultisig.MsgApproveAndDispatchMultisigProposalParams.
Proof.
  solve_twin MsgApproveAndDispatchMultisigProposalParams_to_api
    MultisigProto.MsgApproveAndDispatchMultisigProposalParams_encode
    MultisigProto.MsgApproveAndDispatchMultisigProposalParams_ok
    ApiMultisig.MsgApproveAndDispatchMultisigProposalParams_encode
    ApiMultisig.MsgApproveAndDispatchMultisigProposalParams_ok.
Defined.

Definition MsgCancelMultisigProposalParams_to_api (m : MsgCancelMultisigProposalParams) :
    ApiMultisig.MsgCancelMultisigProposalParams :=
  ApiMultisig.mkMsgCancelMultisigProposalParams (cn_MultisigAddress m) (cn_ProposalId m)
    (cn_Rejecter m) [].
#[export] Instance MsgCancelMultisigProposalParams_twin :
    ApiTwin MsgCancelMultisigProposalParams ApiMultisig.MsgCancelMultisigProposalParams.
Proof.
  solve_twin MsgCancelMultisigProposalParams_to_api
    MultisigProto.MsgCancelMultisigProposalParams_encode
    MultisigProto.MsgCancelMultisigProposalParams_ok
    ApiMultisig.MsgCancelMultisigProposalParams_encode
    ApiMultisig.MsgCancelMultisigProposalParams_ok.
Defined.

Definition MsgCleanupMultisigProposalParams_to_api (m : MsgCleanupMultisigProposalParams) :
    ApiMultisig.MsgCleanupMultisigProposalParams :=
  ApiMultisig.mkMsgCleanupMultisigProposalParams (cl_MultisigAddress m) (cl_ProposalId m)
    (cl_Remover m) [].
#[export] Instance MsgCleanupMultisigProposalParams_twin :
    ApiTwin MsgCleanupMultisigProposalParams ApiMultisig.MsgCleanupMultisigProposalParams.
Proof.
  solve_twin MsgCleanupMultisigProposalParams_to_api
    MultisigProto.MsgCleanupMultisigProposalParams_encode
    MultisigProto.MsgCleanupMultisigProposalParams_ok
    ApiMultisig.MsgCleanupMultisigProposalParams_encode
    ApiMultisig.MsgCleanupMultisigProposalParams_ok.
Defined.

Definition MsgUpdateParamsResponse_to_api (m : MsgUpdateParamsResponse) :
    ApiMultisig.MsgUpdateParamsResponse :=
  ApiMultisig.mkMsgUpdateParamsResponse [].
#[export] Instance MsgUpdateParamsResponse_twin :
    ApiTwin MsgUpdateParamsResponse ApiMultisig.MsgUpdateParamsResponse.
Proof.
  solve_twin MsgUpdateParamsResponse_to_api MultisigProto.MsgUpdateParamsResponse_encode
    MultisigProto.MsgUpdateParamsResponse_ok ApiMultisig.MsgUpdateParamsResponse_encode
    ApiMultisig.MsgUpdateParamsResponse_ok.
Defined.

Definition MsgCreateMultisigAccountResponse_to_api (m : MsgCreateMultisigAccountResponse) :
    ApiMultisig.MsgCreateMultisigAccountResponse :=
  ApiMultisig.mkMsgCreateMultisigAccountResponse (MsgCreateMultisigAccountResponse_MultisigAddress
    m) [].
#[export] Instance MsgCreateMultisigAccountResponse_twin :
    ApiTwin MsgCreateMultisigAccountResponse ApiMultisig.MsgCreateMultisigAccountResponse.
Proof.
  solve_twin MsgCreateMultisigAccountResponse_to_api
    MultisigProto.MsgCreateMultisigAccountResponse_encode
    MultisigProto.MsgCreateMultisigAccountResponse_ok
    ApiMultisig.MsgCreateMultisigAccountResponse_encode
    ApiMultisig.MsgCreateMultisigAccountResponse_ok.
Defined.

Definition MsgAddMultisigSignerResponse_to_api (m : MsgAddMultisigSignerResponse) :
    ApiMultisig.MsgAddMultisigSignerResponse :=
  ApiMultisig.mkMsgAddMultisigSignerResponse [].
#[export] Instance MsgAddMultisigSignerResponse_twin :
    ApiTwin MsgAddMultisigSignerResponse ApiMultisig.MsgAddMultisigSignerResponse.
Proof.
  solve_twin MsgAddMultisigSignerResponse_to_api MultisigProto.MsgAddMultisigSignerResponse_encode
    MultisigProto.MsgAddMultisigSignerResponse_ok ApiMultisig.MsgAddMultisigSignerResponse_encode
    ApiMultisig.MsgAddMultisigSignerResponse_ok.
Defined.

Definition MsgCleanupMultisigAccountResponse_to_api (m : MsgCleanupMultisigAccountResponse) :
    ApiMultisig.MsgCleanupMultisigAccountResponse :=
  ApiMultisig.mkMsgCleanupMultisigAccountResponse [].
#[export] Instance MsgCleanupMultisigAccountResponse_twin :
    ApiTwin MsgCleanupMultisigAccountResponse ApiMultisig.MsgCleanupMultisigAccountResponse.
Proof.
  solve_twin MsgCleanupMultisigAccountResponse_to_api
    MultisigProto.MsgCleanupMultisigAccountResponse_encode
    MultisigProto.MsgCleanupMultisigAccountResponse_ok
    ApiMultisig.MsgCleanupMultisigAccountResponse_encode
    ApiMultisig.MsgCleanupMultisigAccountResponse_ok.
Defined.

Definition MsgSetMultisigThresholdResponse_to_api (m : MsgSetMultisigThresholdResponse) :
    ApiMultisig.MsgSetMultisigThresholdResponse :=
  ApiMultisig.mkMsgSetMultisigThresholdResponse [].
#[export] Instance MsgSetMultisigThresholdResponse_twin :
    ApiTwin MsgSetMultisigThresholdResponse ApiMultisig.MsgSetMultisigThresholdResponse.
Proof.
  solve_twin MsgSetMultisigThresholdResponse_to_api
    MultisigProto.MsgSetMultisigThresholdResponse_encode
    MultisigProto.MsgSetMultisigThresholdResponse_ok
    ApiMultisig.MsgSetMultisigThresholdResponse_encode
    ApiMultisig.MsgSetMultisigThresholdResponse_ok.
Defined.

Definition MsgInitializeMultisigResponse_to_api (m : MsgInitializeMultisigResponse) :
    ApiMultisig.MsgInitializeMultisigResponse :=
  ApiMultisig.mkMsgInitializeMultisigResponse (MsgInitializeMultisigResponse_ProposalId m) [].
#[export] Instance MsgInitializeMultisigResponse_twin :
    ApiTwin MsgInitializeMultisigResponse ApiMultisig.MsgInitializeMultisigResponse.
Proof.
  solve_twin MsgInitializeMultisigResponse_to_api
    MultisigProto.MsgInitializeMultisigResponse_encode
    MultisigProto.MsgInitializeMultisigResponse_ok
    ApiMultisig.MsgInitializeMultisigResponse_encode ApiMultisig.MsgInitializeMultisigResponse_ok.
Defined.

Definition MsgApproveMultisigProposalResponse_to_api (m : MsgApproveMultisigProposalResponse) :
    ApiMultisig.MsgApproveMultisigProposalResponse :=
  ApiMultisig.mkMsgApproveMultisigProposalResponse [].
#[export] Instance MsgApproveMultisigProposalResponse_twin :
    ApiTwin MsgApproveMultisigProposalResponse ApiMultisig.MsgApproveMultisigProposalResponse.
Proof.
  solve_twin MsgApproveMultisigProposalResponse_to_api
    MultisigProto.MsgApproveMultisigProposalResponse_encode
    MultisigProto.MsgApproveMultisigProposalResponse_ok
    ApiMultisig.MsgApproveMultisigProposalResponse_encode
    ApiMultisig.MsgApproveMultisigProposalResponse_ok.
Defined.

Definition MsgApproveAndDispatchMultisigProposalResponse_to_api (m : MsgApproveAndDispatchMultisigProposalResponse) : ApiMultisig.MsgApproveAndDispatchMultisigProposalResponse :=
  ApiMultisig.mkMsgApproveAndDispatchMultisigProposalResponse
    (MsgApproveAndDispatchMultisigProposalResponse_TransactionHash m) [].
#[export] Instance MsgApproveAndDispatchMultisigProposalResponse_twin :
    ApiTwin MsgApproveAndDispatchMultisigProposalResponse ApiMultisig.MsgApproveAndDispatchMultisigProposalResponse.
Proof.
  solve_twin MsgApproveAndDispatchMultisigProposalResponse_to_api
    MultisigProto.MsgApproveAndDispatchMultisigProposalResponse_encode
    MultisigProto.MsgApproveAndDispatchMultisigProposalResponse_ok
    ApiMultisig.MsgApproveAndDispatchMultisigProposalResponse_encode
    ApiMultisig.MsgApproveAndDispatchMultisigProposalResponse_ok.
Defined.

Definition MsgCancelMultisigProposalResponse_to_api (m : MsgCancelMultisigProposalResponse) :
    ApiMultisig.MsgCancelMultisigProposalResponse :=
  ApiMultisig.mkMsgCancelMultisigProposalResponse [].
#[export] Instance MsgCancelMultisigProposalResponse_twin :
    ApiTwin MsgCancelMultisigProposalResponse ApiMultisig.MsgCancelMultisigProposalResponse.
Proof.
  solve_twin MsgCancelMultisigProposalResponse_to_api
    MultisigProto.MsgCancelMultisigProposalResponse_encode
    MultisigProto.MsgCancelMultisigProposalResponse_ok
    ApiMultisig.MsgCancelMultisigProposalResponse_encode
    ApiMultisig.MsgCancelMultisigProposalResponse_ok.
Defined.

Definition MsgCleanupMultisigProposalResponse_to_api (m : MsgCleanupMultisigProposalResponse) :
    ApiMultisig.MsgCleanupMultisigProposalResponse :=
  ApiMultisig.mkMsgCleanupMultisigProposalResponse [].
#[export] Instance MsgCleanupMultisigProposalResponse_twin :
    ApiTwin MsgCleanupMultisigProposalResponse ApiMultisig.MsgCleanupMultisigProposalResponse.
Proof.
  solve_twin MsgCleanupMultisigProposalResponse_to_api
    MultisigProto.MsgCleanupMultisigProposalResponse_encode
    MultisigProto.MsgCleanupMultisigProposalResponse_ok
    ApiMultisig.MsgCleanupMultisigProposalResponse_encode
    ApiMultisig.MsgCleanupMultisigProposalResponse_ok.
Defined.

Definition QueryParamsRequest_to_api (m : QueryParamsRequest) : ApiMultisig.QueryParamsRequest :=
  ApiMultisig.mkQueryParamsRequest [].
#[export] Instance QueryParamsRequest_twin :
    ApiTwin QueryParamsRequest ApiMultisig.QueryParamsRequest.
Proof.
  solve_twin QueryParamsRequest_to_api MultisigProto.QueryParamsRequest_encode
    MultisigProto.QueryParamsRequest_ok ApiMultisig.QueryParamsRequest_encode
    ApiMultisig.QueryParamsRequest_ok.
Defined.

Definition QueryParamsResponse_to_api (m : QueryParamsResponse) :
    ApiMultisig.QueryParamsResponse :=
  ApiMultisig.mkQueryParamsResponse (to_api <$> (QueryParamsResponse_Params m)) [].
#[export] Instance QueryParamsResponse_twin :
    ApiTwin QueryParamsResponse ApiMultisig.QueryParamsResponse.
Proof.
  solve_twin QueryParamsResponse_to_api MultisigProto.QueryParamsResponse_encode
    MultisigProto.QueryParamsResponse_ok ApiMultisig.QueryParamsResponse_encode
    ApiMultisig.QueryParamsResponse_ok.
Defined.

Definition GenesisState_to_api (m : GenesisState) : ApiMultisig.GenesisState :=
  ApiMultisig.mkGenesisState (Some (to_api (GenesisState_Params m))) [].
#[export] Instance GenesisState_twin : ApiTwin GenesisState ApiMultisig.GenesisState.
Proof.
  solve_twin GenesisState_to_api MultisigProto.GenesisState_encode MultisigProto.GenesisState_ok
    ApiMultisig.GenesisState_encode ApiMultisig.GenesisState_ok.
Defined.
End twins.
