(* ===== verification/Grpc.v ===== *)
(** * Grpc: what the gRPC code of the generated API is made of

    The [_grpc.pb.go] files under [src/api] declare, for each service, a client
    whose methods invoke a connection, the interface of a server, one handler
    per method and the description of the service.  The connection, the
    interceptors and the server that looks up a method are code of gRPC:
    [ClientConn] is a parameter, and [ServedBy] says how a connection that
    reaches a server behaves.  GrpcOracle and GrpcMultisig have the services. *)
From S2P Require Import Prelude Util Dec Wire WireLemmas Pulsar PulsarLemmas ApiTwin.
Local Open Scope Z_scope.

Section grpc.
Context {S : Type}.

(** [grpc.ClientConnInterface]: [Invoke(ctx, method, in, out)] fills [out]. *)
Class ClientConn :=
  cc_Invoke : ∀ {In Out : Type}, ProtoMethods In → ProtoMethods Out → string → option In → Out → M S Out.

(** [grpc.UnaryServerInterceptor], given the full name of the method, its
    handler and the request. *)
Definition UnaryServerInterceptor : Type :=
  ∀ In Out : Type, string → (option In → M S Out) → option In → M S Out.

(** A method of a client. *)
Definition client_method {In Out} `{ClientConn} `{ProtoMethods In, ProtoMethods Out}
    (FullMethodName : string) (in_ : option In) : M S Out :=
  cc_Invoke _ _ FullMethodName in_ api_new.

(** A handler: [dec] fills the new request. *)
Definition unary_handler {In Out} `{ProtoMethods In} (FullMethodName : string)
    (method : option In → M S Out) (dec : In → M S In)
    (interceptor : option UnaryServerInterceptor) : M S Out :=
  in_ ← dec api_new;
  match interceptor with
  | None => method (Some in_)
  | Some i => i In Out FullMethodName method (Some in_)
  end.

(** [status.Errorf(codes.Unimplemented, ...)]. *)
Definition unimplemented {In Out} (name : string) (in_ : option In) : M S Out :=
  lift (Err (Errorf ("method " +:+ name +:+ " not implemented"))).

(** [grpc.MethodDesc] and [grpc.ServiceDesc]. *)
Record MethodDesc (Server : Type) := mkMethodDesc {
  MethodName : string;
  Request : Type;
  Reply : Type;
  Request_methods : ProtoMethods Request;
  Reply_methods : ProtoMethods Reply;
  Handler : Server → (Request → M S Request) → option UnaryServerInterceptor → M S Reply;
}.
Record ServiceDesc (Server : Type) := mkServiceDesc {
  ServiceName : string;
  Methods : list (MethodDesc Server);
}.
End grpc.
Arguments ClientConn : clear implicits.
Arguments UnaryServerInterceptor : clear implicits.
Arguments MethodDesc : clear implicits.
Arguments ServiceDesc : clear implicits.
Arguments mkMethodDesc {S Server} _ {Request Reply Request_methods Reply_methods} _.
Arguments mkServiceDesc {S Server}.
Arguments MethodName {S Server}.
Arguments Methods {S Server}.
Arguments ServiceName {S Server}.

Definition full_method (service method : string) : string := "/" +:+ service +:+ "/" +:+ method.

Section served.
Context {S : Type} `{PulsarRuntime} `{!ClientConn S}.

(** A connection to a server: the request is marshalled, [transport] answers
    its bytes for the method of the service, the reply is unmarshalled. *)
Class ServedBy (service : string) (transport : string → bytes → M S bytes) := {
  cc_Invoke_served {In Out} `{ProtoMethods In, ProtoMethods Out} method (in_ : option In) s :
    cc_Invoke _ _ (full_method service method) in_ api_new s =
      (req ← lift (options_Marshal api_marshal in_);
       reply ← transport method req;
       lift (options_Unmarshal (A := Out) _ false reply api_new)) s
}.
End served.

(** ** A client of a node

    The client links the generated API, the node the code under [src/x]. *)
Section twins.
Context {S : Type} `{PulsarRuntimeLaws} `{!ClientConn S} `{!ServedBy service transport}.
Context {Q Q' A A' : Type} `{ApiTwin Q Q'} `{ApiTwin A A'}.

Lemma client_method_twin method (q : Q) (a : A) s s' :
  len (pb_encode q) < 2 ^ 63 → pb_ok a → len (pb_encode a) < 2 ^ 63 →
  transport method (pb_encode q) s = (Ok (pb_encode a), s') →
  client_method (full_method service method) (Some (to_api q)) s = (Ok (to_api a), s').
Proof.
  intros Hq Hok Ha Ht. unfold client_method. rewrite cc_Invoke_served.
  rewrite options_Marshal_bytes by (simpl; by rewrite to_api_encode). unfold lift, mbind, M_bind.
  simpl. rewrite to_api_encode, Ht. f_equal.
  apply options_Unmarshal_new. rewrite <- to_api_encode.
  apply api_unmarshal_encode; [by apply to_api_ok|by rewrite to_api_encode].
Qed.

Lemma client_method_error method (q : Q) e s s' :
  len (pb_encode q) < 2 ^ 63 → transport method (pb_encode q) s = (Err e, s') →
  client_method (Out := A') (full_method service method) (Some (to_api q)) s = (Err e, s').
Proof.
  intros Hq Ht. unfold client_method. rewrite cc_Invoke_served.
  rewrite options_Marshal_bytes by (simpl; by rewrite to_api_encode). unfold lift, mbind, M_bind.
  simpl. by rewrite to_api_encode, Ht.
Qed.
End twins.
