(* ===== verification/GrpcOracle.v ===== *)
(** * GrpcOracle: the services of the oracle in the generated API

    [src/api/oracle/v1/query_grpc.pb.go] and [tx_grpc.pb.go].  For each service: the names of its
    methods, the interface of a server and the server that implements none of
    it, the client, the handlers and the description of the service. *)
From S2P Require Import Prelude Util Dec Wire Pulsar ApiOracle ApiTx ApiQuery Grpc.
Local Open Scope Z_scope.

Section services.
Context {S : Type} `{PulsarRuntime} `{CosmosApi} `{!ClientConn S}.

(** ** [oracle.v1.Query] *)

Definition Query_ExchangeRates_FullMethodName : string := "/oracle.v1.Query/ExchangeRates".
Definition Query_ActiveExchangeRates_FullMethodName :
    string := "/oracle.v1.Query/ActiveExchangeRates".
Definition Query_FeederDelegation_FullMethodName : string := "/oracle.v1.Query/FeederDelegation".
Definition Query_MissCounter_FullMethodName : string := "/oracle.v1.Query/MissCounter".
Definition Query_SlashWindow_FullMethodName : string := "/oracle.v1.Query/SlashWindow".
Definition Query_AggregatePrevote_FullMethodName : string := "/oracle.v1.Query/AggregatePrevote".
Definition Query_AggregatePrevotes_FullMethodName : string := "/oracle.v1.Query/AggregatePrevotes".
Definition Query_AggregateVote_FullMethodName : string := "/oracle.v1.Query/AggregateVote".
Definition Query_AggregateVotes_FullMethodName : string := "/oracle.v1.Query/AggregateVotes".
Definition Query_Params_FullMethodName : string := "/oracle.v1.Query/Params".
Definition Query_Medians_FullMethodName : string := "/oracle.v1.Query/Medians".
Definition Query_MedianDeviations_FullMethodName : string := "/oracle.v1.Query/MedianDeviations".
Definition Query_ValidatorRewardSet_FullMethodName :
    string := "/oracle.v1.Query/ValidatorRewardSet".
Definition Query_EMA_FullMethodName : string := "/oracle.v1.Query/EMA".
Definition Query_WMA_FullMethodName : string := "/oracle.v1.Query/WMA".
Definition Query_SMA_FullMethodName : string := "/oracle.v1.Query/SMA".

Record QueryServer := mkQueryServer {
  QueryServer_ExchangeRates : option QueryExchangeRates → M S QueryExchangeRatesResponse;
  QueryServer_ActiveExchangeRates : option QueryActiveExchangeRates → M S
    QueryActiveExchangeRatesResponse;
  QueryServer_FeederDelegation : option QueryFeederDelegation → M S QueryFeederDelegationResponse;
  QueryServer_MissCounter : option QueryMissCounter → M S QueryMissCounterResponse;
  QueryServer_SlashWindow : option QuerySlashWindow → M S QuerySlashWindowResponse;
  QueryServer_AggregatePrevote : option QueryAggregatePrevote → M S QueryAggregatePrevoteResponse;
  QueryServer_AggregatePrevotes : option QueryAggregatePrevotes → M S QueryAggregatePrevotesResponse;
  QueryServer_AggregateVote : option QueryAggregateVote → M S QueryAggregateVoteResponse;
  QueryServer_AggregateVotes : option QueryAggregateVotes → M S QueryAggregateVotesResponse;
  QueryServer_Params : option QueryParams → M S QueryParamsResponse;
  QueryServer_Medians : option QueryMedians → M S QueryMediansResponse;
  QueryServer_MedianDeviations : option QueryMedianDeviations → M S QueryMedianDeviationsResponse;
  QueryServer_ValidatorRewardSet : option QueryValidatorRewardSet → M S
    QueryValidatorRewardSetResponse;
  QueryServer_EMA : option QueryEMARequest → M S QueryEMAResponse;
  QueryServer_WMA : option QueryWMARequest → M S QueryWMAResponse;
  QueryServer_SMA : option QuerySMARequest → M S QuerySMAResponse;
}.
Definition UnimplementedQueryServer : QueryServer := {|
  QueryServer_ExchangeRates := unimplemented "ExchangeRates";
  QueryServer_ActiveExchangeRates := unimplemented "ActiveExchangeRates";
  QueryServer_FeederDelegation := unimplemented "FeederDelegation";
  QueryServer_MissCounter := unimplemented "MissCounter";
  QueryServer_SlashWindow := unimplemented "SlashWindow";
  QueryServer_AggregatePrevote := unimplemented "AggregatePrevote";
  QueryServer_AggregatePrevotes := unimplemented "AggregatePrevotes";
  QueryServer_AggregateVote := unimplemented "AggregateVote";
  QueryServer_AggregateVotes := unimplemented "AggregateVotes";
  QueryServer_Params := unimplemented "Params";
  QueryServer_Medians := unimplemented "Medians";
  QueryServer_MedianDeviations := unimplemented "MedianDeviations";
  QueryServer_ValidatorRewardSet := unimplemented "ValidatorRewardSet";
  QueryServer_EMA := unimplemented "EMA";
  QueryServer_WMA := unimplemented "WMA";
  QueryServer_SMA := unimplemented "SMA";
|}.

Definition queryClient_ExchangeRates (in_ : option QueryExchangeRates) :
    M S QueryExchangeRatesResponse :=
  client_method Query_ExchangeRates_FullMethodName in_.
Definition queryClient_ActiveExchangeRates (in_ : option QueryActiveExchangeRates) :
    M S QueryActiveExchangeRatesResponse :=
  client_method Query_ActiveExchangeRates_FullMethodName in_.
Definition queryClient_FeederDelegation (in_ : option QueryFeederDelegation) :
    M S QueryFeederDelegationResponse :=
  client_method Query_FeederDelegation_FullMethodName in_.
Definition queryClient_MissCounter (in_ : option QueryMissCounter) :
    M S QueryMissCounterResponse :=
  client_method Query_MissCounter_FullMethodName in_.
Definition queryClient_SlashWindow (in_ : option QuerySlashWindow) :
    M S QuerySlashWindowResponse :=
  client_method Query_SlashWindow_FullMethodName in_.
Definition queryClient_AggregatePrevote (in_ : option QueryAggregatePrevote) :
    M S QueryAggregatePrevoteResponse :=
  client_method Query_AggregatePrevote_FullMethodName in_.
Definition queryClient_AggregatePrevotes (in_ : option QueryAggregatePrevotes) :
    M S QueryAggregatePrevotesResponse :=
  client_method Query_AggregatePrevotes_FullMethodName in_.
Definition queryClient_AggregateVote (in_ : option QueryAggregateVote) :
    M S QueryAggregateVoteResponse :=
  client_method Query_AggregateVote_FullMethodName in_.
Definition queryClient_AggregateVotes (in_ : option QueryAggregateVotes) :
    M S QueryAggregateVotesResponse :=
  client_method Query_AggregateVotes_FullMethodName in_.
Definition queryClient_Params (in_ : option QueryParams) : M S QueryParamsResponse :=
  client_method Query_Params_FullMethodName in_.
Definition queryClient_Medians (in_ : option QueryMedians) : M S QueryMediansResponse :=
  client_method Query_Medians_FullMethodName in_.
Definition queryClient_MedianDeviations (in_ : option QueryMedianDeviations) :
    M S QueryMedianDeviationsResponse :=
  client_method Query_MedianDeviations_FullMethodName in_.
Definition queryClient_ValidatorRewardSet (in_ : option QueryValidatorRewardSet) :
    M S QueryValidatorRewardSetResponse :=
  client_method Query_ValidatorRewardSet_FullMethodName in_.
Definition queryClient_EMA (in_ : option QueryEMARequest) : M S QueryEMAResponse :=
  client_method Query_EMA_FullMethodName in_.
Definition queryClient_WMA (in_ : option QueryWMARequest) : M S QueryWMAResponse :=
  client_method Query_WMA_FullMethodName in_.
Definition queryClient_SMA (in_ : option QuerySMARequest) : M S QuerySMAResponse :=
  client_method Query_SMA_FullMethodName in_.

Definition _Query_ExchangeRates_Handler (srv : QueryServer) :
    (QueryExchangeRates → M S QueryExchangeRates) → option (UnaryServerInterceptor S) →
    M S QueryExchangeRatesResponse :=
  unary_handler Query_ExchangeRates_FullMethodName (QueryServer_ExchangeRates srv).
Definition _Query_ActiveExchangeRates_Handler (srv : QueryServer) :
    (QueryActiveExchangeRates → M S QueryActiveExchangeRates) → option (UnaryServerInterceptor S) →
    M S QueryActiveExchangeRatesResponse :=
  unary_handler Query_ActiveExchangeRates_FullMethodName (QueryServer_ActiveExchangeRates srv).
Definition _Query_FeederDelegation_Handler (srv : QueryServer) :
    (QueryFeederDelegation → M S QueryFeederDelegation) → option (UnaryServerInterceptor S) →
    M S QueryFeederDelegationResponse :=
  unary_handler Query_FeederDelegation_FullMethodName (QueryServer_FeederDelegation srv).
Definition _Query_MissCounter_Handler (srv : QueryServer) :
    (QueryMissCounter → M S QueryMissCounter) → option (UnaryServerInterceptor S) →
    M S QueryMissCounterResponse :=
  unary_handler Query_MissCounter_FullMethodName (QueryServer_MissCounter srv).
Definition _Query_SlashWindow_Handler (srv : QueryServer) :
    (QuerySlashWindow → M S QuerySlashWindow) → option (UnaryServerInterceptor S) →
    M S QuerySlashWindowResponse :=
  unary_handler Query_SlashWindow_FullMethodName (QueryServer_SlashWindow srv).
Definition _Query_AggregatePrevote_Handler (srv : QueryServer) :
    (QueryAggregatePrevote → M S QueryAggregatePrevote) → option (UnaryServerInterceptor S) →
    M S QueryAggregatePrevoteResponse :=
  unary_handler Query_AggregatePrevote_FullMethodName (QueryServer_AggregatePrevote srv).
Definition _Query_AggregatePrevotes_Handler (srv : QueryServer) :
    (QueryAggregatePrevotes → M S QueryAggregatePrevotes) → option (UnaryServerInterceptor S) →
    M S QueryAggregatePrevotesResponse :=
  unary_handler Query_AggregatePrevotes_FullMethodName (QueryServer_AggregatePrevotes srv).
Definition _Query_AggregateVote_Handler (srv : QueryServer) :
    (QueryAggregateVote → M S QueryAggregateVote) → option (UnaryServerInterceptor S) →
    M S QueryAggregateVoteResponse :=
  unary_handler Query_AggregateVote_FullMethodName (QueryServer_AggregateVote srv).
Definition _Query_AggregateVotes_Handler (srv : QueryServer) :
    (QueryAggregateVotes → M S QueryAggregateVotes) → option (UnaryServerInterceptor S) →
    M S QueryAggregateVotesResponse :=
  unary_handler Query_AggregateVotes_FullMethodName (QueryServer_AggregateVotes srv).
Definition _Query_Params_Handler (srv : QueryServer) :
    (QueryParams → M S QueryParams) → option (UnaryServerInterceptor S) →
    M S QueryParamsResponse :=
  unary_handler Query_Params_FullMethodName (QueryServer_Params srv).
Definition _Query_Medians_Handler (srv : QueryServer) :
    (QueryMedians → M S QueryMedians) → option (UnaryServerInterceptor S) →
    M S QueryMediansResponse :=
  unary_handler Query_Medians_FullMethodName (QueryServer_Medians srv).
Definition _Query_MedianDeviations_Handler (srv : QueryServer) :
    (QueryMedianDeviations → M S QueryMedianDeviations) → option (UnaryServerInterceptor S) →
    M S QueryMedianDeviationsResponse :=
  unary_handler Query_MedianDeviations_FullMethodName (QueryServer_MedianDeviations srv).
Definition _Query_ValidatorRewardSet_Handler (srv : QueryServer) :
    (QueryValidatorRewardSet → M S QueryValidatorRewardSet) → option (UnaryServerInterceptor S) →
    M S QueryValidatorRewardSetResponse :=
  unary_handler Query_ValidatorRewardSet_FullMethodName (QueryServer_ValidatorRewardSet srv).
Definition _Query_EMA_Handler (srv : QueryServer) :
    (QueryEMARequest → M S QueryEMARequest) → option (UnaryServerInterceptor S) →
    M S QueryEMAResponse :=
  unary_handler Query_EMA_FullMethodName (QueryServer_EMA srv).
Definition _Query_WMA_Handler (srv : QueryServer) :
    (QueryWMARequest → M S QueryWMARequest) → option (UnaryServerInterceptor S) →
    M S QueryWMAResponse :=
  unary_handler Query_WMA_FullMethodName (QueryServer_WMA srv).
Definition _Query_SMA_Handler (srv : QueryServer) :
    (QuerySMARequest → M S QuerySMARequest) → option (UnaryServerInterceptor S) →
    M S QuerySMAResponse :=
  unary_handler Query_SMA_FullMethodName (QueryServer_SMA srv).

Definition Query_ServiceDesc : ServiceDesc S QueryServer := mkServiceDesc "oracle.v1.Query" [
  mkMethodDesc "ExchangeRates" _Query_ExchangeRates_Handler;
  mkMethodDesc "ActiveExchangeRates" _Query_ActiveExchangeRates_Handler;
  mkMethodDesc "FeederDelegation" _Query_FeederDelegation_Handler;
  mkMethodDesc "MissCounter" _Query_MissCounter_Handler;
  mkMethodDesc "SlashWindow" _Query_SlashWindow_Handler;
  mkMethodDesc "AggregatePrevote" _Query_AggregatePrevote_Handler;
  mkMethodDesc "AggregatePrevotes" _Query_AggregatePrevotes_Handler;
  mkMethodDesc "AggregateVote" _Query_AggregateVote_Handler;
  mkMethodDesc "AggregateVotes" _Query_AggregateVotes_Handler;
  mkMethodDesc "Params" _Query_Params_Handler;
  mkMethodDesc "Medians" _Query_Medians_Handler;
  mkMethodDesc "MedianDeviations" _Query_MedianDeviations_Handler;
  mkMethodDesc "ValidatorRewardSet" _Query_ValidatorRewardSet_Handler;
  mkMethodDesc "EMA" _Query_EMA_Handler;
  mkMethodDesc "WMA" _Query_WMA_Handler;
  mkMethodDesc "SMA" _Query_SMA_Handler].

(** ** [oracle.v1.Msg] *)

Definition Msg_AggregateExchangeRatePrevote_FullMethodName :
    string := "/oracle.v1.Msg/AggregateExchangeRatePrevote".
Definition Msg_AggregateExchangeRateVote_FullMethodName :
    string := "/oracle.v1.Msg/AggregateExchangeRateVote".
Definition Msg_DelegateFeedConsent_FullMethodName : string := "/oracle.v1.Msg/DelegateFeedConsent".
Definition Msg_LegacyGovUpdateParams_FullMethodName :
    string := "/oracle.v1.Msg/LegacyGovUpdateParams".
Definition Msg_GovUpdateParams_FullMethodName : string := "/oracle.v1.Msg/GovUpdateParams".
Definition Msg_GovAddDenoms_FullMethodName : string := "/oracle.v1.Msg/GovAddDenoms".
Definition Msg_GovRemoveCurrencyPairProviders_FullMethodName :
    string := "/oracle.v1.Msg/GovRemoveCurrencyPairProviders".
Definition Msg_GovRemoveCurrencyDeviationThresholds_FullMethodName :
    string := "/oracle.v1.Msg/GovRemoveCurrencyDeviationThresholds".
Definition Msg_GovCancelUpdateParamPlan_FullMethodName :
    string := "/oracle.v1.Msg/GovCancelUpdateParamPlan".

Record MsgServer := mkMsgServer {
  MsgServer_AggregateExchangeRatePrevote : option MsgAggregateExchangeRatePrevote → M S
    MsgAggregateExchangeRatePrevoteResponse;
  MsgServer_AggregateExchangeRateVote : option MsgAggregateExchangeRateVote → M S
    MsgAggregateExchangeRateVoteResponse;
  MsgServer_DelegateFeedConsent : option MsgDelegateFeedConsent → M S MsgDelegateFeedConsentResponse;
  MsgServer_LegacyGovUpdateParams : option MsgLegacyGovUpdateParams → M S
    MsgLegacyGovUpdateParamsResponse;
  MsgServer_GovUpdateParams : option MsgGovUpdateParams → M S MsgGovUpdateParamsResponse;
  MsgServer_GovAddDenoms : option MsgGovAddDenoms → M S MsgGovAddDenomsResponse;
  MsgServer_GovRemoveCurrencyPairProviders : option MsgGovRemoveCurrencyPairProviders → M S
    MsgGovRemoveCurrencyPairProvidersResponse;
  MsgServer_GovRemoveCurrencyDeviationThresholds : option MsgGovRemoveCurrencyDeviationThresholds →
    M S MsgGovRemoveCurrencyDeviationThresholdsResponse;
  MsgServer_GovCancelUpdateParamPlan : option MsgGovCancelUpdateParamPlan → M S
    MsgGovCancelUpdateParamPlanResponse;
}.
Definition UnimplementedMsgServer : MsgServer := {|
  MsgServer_AggregateExchangeRatePrevote := unimplemented "AggregateExchangeRatePrevote";
  MsgServer_AggregateExchangeRateVote := unimplemented "AggregateExchangeRateVote";
  MsgServer_DelegateFeedConsent := unimplemented "DelegateFeedConsent";
  MsgServer_LegacyGovUpdateParams := unimplemented "LegacyGovUpdateParams";
  MsgServer_GovUpdateParams := unimplemented "GovUpdateParams";
  MsgServer_GovAddDenoms := unimplemented "GovAddDenoms";
  MsgServer_GovRemoveCurrencyPairProviders := unimplemented "GovRemoveCurrencyPairProviders";
  MsgServer_GovRemoveCurrencyDeviationThresholds := unimplemented
      "GovRemoveCurrencyDeviationThresholds";
  MsgServer_GovCancelUpdateParamPlan := unimplemented "GovCancelUpdateParamPlan";
|}.

Definition msgClient_AggregateExchangeRatePrevote (in_ : option MsgAggregateExchangeRatePrevote) :
    M S MsgAggregateExchangeRatePrevoteResponse :=
  client_method Msg_AggregateExchangeRatePrevote_FullMethodName in_.
Definition msgClient_AggregateExchangeRateVote (in_ : option MsgAggregateExchangeRateVote) :
    M S MsgAggregateExchangeRateVoteResponse :=
  client_method Msg_AggregateExchangeRateVote_FullMethodName in_.
Definition msgClient_DelegateFeedConsent (in_ : option MsgDelegateFeedConsent) :
    M S MsgDelegateFeedConsentResponse :=
  client_method Msg_DelegateFeedConsent_FullMethodName in_.
Definition msgClient_LegacyGovUpdateParams (in_ : option MsgLegacyGovUpdateParams) :
    M S MsgLegacyGovUpdateParamsResponse :=
  client_method Msg_LegacyGovUpdateParams_FullMethodName in_.
Definition msgClient_GovUpdateParams (in_ : option MsgGovUpdateParams) :
    M S MsgGovUpdateParamsResponse :=
  client_method Msg_GovUpdateParams_FullMethodName in_.
Definition msgClient_GovAddDenoms (in_ : option MsgGovAddDenoms) : M S MsgGovAddDenomsResponse :=
  client_method Msg_GovAddDenoms_FullMethodName in_.
Definition msgClient_GovRemoveCurrencyPairProviders (in_ : option MsgGovRemoveCurrencyPairProviders) : M S MsgGovRemoveCurrencyPairProvidersResponse :=
  client_method Msg_GovRemoveCurrencyPairProviders_FullMethodName in_.
Definition msgClient_GovRemoveCurrencyDeviationThresholds (in_ : option MsgGovRemoveCurrencyDeviationThresholds) : M S MsgGovRemoveCurrencyDeviationThresholdsResponse :=
  client_method Msg_GovRemoveCurrencyDeviationThresholds_FullMethodName in_.
Definition msgClient_GovCancelUpdateParamPlan (in_ : option MsgGovCancelUpdateParamPlan) :
    M S MsgGovCancelUpdateParamPlanResponse :=
  client_method Msg_GovCancelUpdateParamPlan_FullMethodName in_.

Definition _Msg_AggregateExchangeRatePrevote_Handler (srv : MsgServer) :
    (MsgAggregateExchangeRatePrevote → M S MsgAggregateExchangeRatePrevote) → option (UnaryServerInterceptor S) →
    M S MsgAggregateExchangeRatePrevoteResponse :=
  unary_handler Msg_AggregateExchangeRatePrevote_FullMethodName
    (MsgServer_AggregateExchangeRatePrevote srv).
Definition _Msg_AggregateExchangeRateVote_Handler (srv : MsgServer) :
    (MsgAggregateExchangeRateVote → M S MsgAggregateExchangeRateVote) → option (UnaryServerInterceptor S) →
    M S MsgAggregateExchangeRateVoteResponse :=
  unary_handler Msg_AggregateExchangeRateVote_FullMethodName (MsgServer_AggregateExchangeRateVote
    srv).
Definition _Msg_DelegateFeedConsent_Handler (srv : MsgServer) :
    (MsgDelegateFeedConsent → M S MsgDelegateFeedConsent) → option (UnaryServerInterceptor S) →
    M S MsgDelegateFeedConsentResponse :=
  unary_handler Msg_DelegateFeedConsent_FullMethodName (MsgServer_DelegateFeedConsent srv).
Definition _Msg_LegacyGovUpdateParams_Handler (srv : MsgServer) :
    (MsgLegacyGovUpdateParams → M S MsgLegacyGovUpdateParams) → option (UnaryServerInterceptor S) →
    M S MsgLegacyGovUpdateParamsResponse :=
  unary_handler Msg_LegacyGovUpdateParams_FullMethodName (MsgServer_LegacyGovUpdateParams srv).
Definition _Msg_GovUpdateParams_Handler (srv : MsgServer) :
    (MsgGovUpdateParams → M S MsgGovUpdateParams) → option (UnaryServerInterceptor S) →
    M S MsgGovUpdateParamsResponse :=
  unary_handler Msg_GovUpdateParams_FullMethodName (MsgServer_GovUpdateParams srv).
Definition _Msg_GovAddDenoms_Handler (srv : MsgServer) :
    (MsgGovAddDenoms → M S MsgGovAddDenoms) → option (UnaryServerInterceptor S) →
    M S MsgGovAddDenomsResponse :=
  unary_handler Msg_GovAddDenoms_FullMethodName (MsgServer_GovAddDenoms srv).
Definition _Msg_GovRemoveCurrencyPairProviders_Handler (srv : MsgServer) :
    (MsgGovRemoveCurrencyPairProviders → M S MsgGovRemoveCurrencyPairProviders) → option (UnaryServerInterceptor S) →
    M S MsgGovRemoveCurrencyPairProvidersResponse :=
  unary_handler Msg_GovRemoveCurrencyPairProviders_FullMethodName
    (MsgServer_GovRemoveCurrencyPairProviders srv).
Definition _Msg_GovRemoveCurrencyDeviationThresholds_Handler (srv : MsgServer) :
    (MsgGovRemoveCurrencyDeviationThresholds → M S MsgGovRemoveCurrencyDeviationThresholds) → option (UnaryServerInterceptor S) →
    M S MsgGovRemoveCurrencyDeviationThresholdsResponse :=
  unary_handler Msg_GovRemoveCurrencyDeviationThresholds_FullMethodName
    (MsgServer_GovRemoveCurrencyDeviationThresholds srv).
Definition _Msg_GovCancelUpdateParamPlan_Handler (srv : MsgServer) :
    (MsgGovCancelUpdateParamPlan → M S MsgGovCancelUpdateParamPlan) → option (UnaryServerInterceptor S) →
    M S MsgGovCancelUpdateParamPlanResponse :=
  unary_handler Msg_GovCancelUpdateParamPlan_FullMethodName (MsgServer_GovCancelUpdateParamPlan
    srv).

Definition Msg_ServiceDesc : ServiceDesc S MsgServer := mkServiceDesc "oracle.v1.Msg" [
  mkMethodDesc "AggregateExchangeRatePrevote" _Msg_AggregateExchangeRatePrevote_Handler;
  mkMethodDesc "AggregateExchangeRateVote" _Msg_AggregateExchangeRateVote_Handler;
  mkMethodDesc "DelegateFeedConsent" _Msg_DelegateFeedConsent_Handler;
  mkMethodDesc "LegacyGovUpdateParams" _Msg_LegacyGovUpdateParams_Handler;
  mkMethodDesc "GovUpdateParams" _Msg_GovUpdateParams_Handler;
  mkMethodDesc "GovAddDenoms" _Msg_GovAddDenoms_Handler;
  mkMethodDesc "GovRemoveCurrencyPairProviders" _Msg_GovRemoveCurrencyPairProviders_Handler;
  mkMethodDesc "GovRemoveCurrencyDeviationThresholds"
      _Msg_GovRemoveCurrencyDeviationThresholds_Handler;
  mkMethodDesc "GovCancelUpdateParamPlan" _Msg_GovCancelUpdateParamPlan_Handler].
End services.
