(* ===== verification/GrpcMultisig.v ===== *)
(** * GrpcMultisig: the services of the multisig module in the generated API

    [src/api/multisig/v1/query_grpc.pb.go] and [tx_grpc.pb.go].  For each service: the names of its
    methods, the interface of a server and the server that implements none of
    it, the client, the handlers and the description of the service. *)
From S2P Require Import Prelude Util Dec Wire Pulsar ApiMultisig Grpc.
Local Open Scope Z_scope.

Section services.
Context {S : Type} `{PulsarRuntime} `{CosmosApi} `{!ClientConn S}.

(** ** [multisig.v1.Query] *)

Definition Query_Params_FullMethodName : string := "/multisig.v1.Query/Params".

Record QueryServer := mkQueryServer {
  QueryServer_Params : option QueryParamsRequest → M S QueryParamsResponse;
}.
Definition UnimplementedQueryServer : QueryServer := {|
  QueryServer_Params := unimplemented "Params";
|}.

Definition queryClient_Params (in_ : option QueryParamsRequest) : M S QueryParamsResponse :=
  client_method Query_Params_FullMethodName in_.

Definition _Query_Params_Handler (srv : QueryServer) :
    (QueryParamsRequest → M S QueryParamsRequest) → option (UnaryServerInterceptor S) →
    M S QueryParamsResponse :=
  unary_handler Query_Params_FullMethodName (QueryServer_Params srv).

Definition Query_ServiceDesc : ServiceDesc S QueryServer := mkServiceDesc "multisig.v1.Query" [
  mkMethodDesc "Params" _Query_Params_Handler].

(** ** [multisig.v1.Msg] *)

Definition Msg_UpdateParams_FullMethodName : string := "/multisig.v1.Msg/UpdateParams".
Definition Msg_CreateMultisigAccount_FullMethodName :
    string := "/multisig.v1.Msg/CreateMultisigAccount".
Definition Msg_AddMultisigSigner_FullMethodName : string := "/multisig.v1.Msg/AddMultisigSigner".
Definition Msg_CleanupMultisigSigner_FullMethodName :
    string := "/multisig.v1.Msg/CleanupMultisigSigner".
Definition Msg_SetThreshold_FullMethodName : string := "/multisig.v1.Msg/SetThreshold".
Definition Msg_InitializeMultisigProposal_FullMethodName :
    string := "/multisig.v1.Msg/InitializeMultisigProposal".
Definition Msg_ApproveMultisigProposal_FullMethodName :
    string := "/multisig.v1.Msg/ApproveMultisigProposal".
Definition Msg_ApproveAndDispatchMultisigProposal_FullMethodName :
    string := "/multisig.v1.Msg/ApproveAndDispatchMultisigProposal".
Definition Msg_CancelMultisigProposal_FullMethodName :
    string := "/multisig.v1.Msg/CancelMultisigProposal".
Definition Msg_CleanupMultisigProposal_FullMethodName :
    string := "/multisig.v1.Msg/CleanupMultisigProposal".

Record MsgServer := mkMsgServer {
  MsgServer_UpdateParams : option MsgUpdateParams → M S MsgUpdateParamsResponse;
  MsgServer_CreateMultisigAccount : option MsgCreateMultisigAccountParams → M S
    MsgCreateMultisigAccountResponse;
  MsgServer_AddMultisigSigner : option MsgAddMultisigSignerParams → M S MsgAddMultisigSignerResponse;
  MsgServer_CleanupMultisigSigner : option MsgCleanupMultisigAccountParams → M S
    MsgCleanupMultisigAccountResponse;
  MsgServer_SetThreshold : option MsgSetMultisigThresholdParams → M S
    MsgSetMultisigThresholdResponse;
  MsgServer_InitializeMultisigProposal : option MsgInitializeMultisigProposalParams → M S
    MsgInitializeMultisigResponse;
  MsgServer_ApproveMultisigProposal : option MsgApproveMultisigProposalParams → M S
    MsgApproveMultisigProposalResponse;
  MsgServer_ApproveAndDispatchMultisigProposal : option MsgApproveAndDispatchMultisigProposalParams
    → M S MsgApproveAndDispatchMultisigProposalResponse;
  MsgServer_CancelMultisigProposal : option MsgCancelMultisigProposalParams → M S
    MsgCancelMultisigProposalResponse;
  MsgServer_CleanupMultisigProposal : option MsgCleanupMultisigProposalParams → M S
    MsgCleanupMultisigProposalResponse;
}.
Definition UnimplementedMsgServer : MsgServer := {|
  MsgServer_UpdateParams := unimplemented "UpdateParams";
  MsgServer_CreateMultisigAccount := unimplemented "CreateMultisigAccount";
  MsgServer_AddMultisigSigner := unimplemented "AddMultisigSigner";
  MsgServer_CleanupMultisigSigner := unimplemented "CleanupMultisigSigner";
  MsgServer_SetThreshold := unimplemented "SetThreshold";
  MsgServer_InitializeMultisigProposal := unimplemented "InitializeMultisigProposal";
  MsgServer_ApproveMultisigProposal := unimplemented "ApproveMultisigProposal";
  MsgServer_ApproveAndDispatchMultisigProposal := unimplemented "ApproveAndDispatchMultisigProposal";
  MsgServer_CancelMultisigProposal := unimplemented "CancelMultisigProposal";
  MsgServer_CleanupMultisigProposal := unimplemented "CleanupMultisigProposal";
|}.

Definition msgClient_UpdateParams (in_ : option MsgUpdateParams) : M S MsgUpdateParamsResponse :=
  client_method Msg_UpdateParams_FullMethodName in_.
Definition msgClient_CreateMultisigAccount (in_ : option MsgCreateMultisigAccountParams) :
    M S MsgCreateMultisigAccountResponse :=
  client_method Msg_CreateMultisigAccount_FullMethodName in_.
Definition msgClient_AddMultisigSigner (in_ : option MsgAddMultisigSignerParams) :
    M S MsgAddMultisigSignerResponse :=
  client_method Msg_AddMultisigSigner_FullMethodName in_.
Definition msgClient_CleanupMultisigSigner (in_ : option MsgCleanupMultisigAccountParams) :
    M S MsgCleanupMultisigAccountResponse :=
  client_method Msg_CleanupMultisigSigner_FullMethodName in_.
Definition msgClient_SetThreshold (in_ : option MsgSetMultisigThresholdParams) :
    M S MsgSetMultisigThresholdResponse :=
  client_method Msg_SetThreshold_FullMethodName in_.
Definition msgClient_InitializeMultisigProposal (in_ : option MsgInitializeMultisigProposalParams) :
    M S MsgInitializeMultisigResponse :=
  client_method Msg_InitializeMultisigProposal_FullMethodName in_.
Definition msgClient_ApproveMultisigProposal (in_ : option MsgApproveMultisigProposalParams) :
    M S MsgApproveMultisigProposalResponse :=
  client_method Msg_ApproveMultisigProposal_FullMethodName in_.
Definition msgClient_ApproveAndDispatchMultisigProposal (in_ : option MsgApproveAndDispatchMultisigProposalParams) : M S MsgApproveAndDispatchMultisigProposalResponse :=
  client_method Msg_ApproveAndDispatchMultisigProposal_FullMethodName in_.
Definition msgClient_CancelMultisigProposal (in_ : option MsgCancelMultisigProposalParams) :
    M S MsgCancelMultisigProposalResponse :=
  client_method Msg_CancelMultisigProposal_FullMethodName in_.
Definition msgClient_CleanupMultisigProposal (in_ : option MsgCleanupMultisigProposalParams) :
    M S MsgCleanupMultisigProposalResponse :=
  client_method Msg_CleanupMultisigProposal_FullMethodName in_.

Definition _Msg_UpdateParams_Handler (srv : MsgServer) :
    (MsgUpdateParams → M S MsgUpdateParams) → option (UnaryServerInterceptor S) →
    M S MsgUpdateParamsResponse :=
  unary_handler Msg_UpdateParams_FullMethodName (MsgServer_UpdateParams srv).
Definition _Msg_CreateMultisigAccount_Handler (srv : MsgServer) :
    (MsgCreateMultisigAccountParams → M S MsgCreateMultisigAccountParams) → option (UnaryServerInterceptor S) →
    M S MsgCreateMultisigAccountResponse :=
  unary_handler Msg_CreateMultisigAccount_FullMethodName (MsgServer_CreateMultisigAccount srv).
Definition _Msg_AddMultisigSigner_Handler (srv : MsgServer) :
    (MsgAddMultisigSignerParams → M S MsgAddMultisigSignerParams) → option (UnaryServerInterceptor S) →
    M S MsgAddMultisigSignerResponse :=
  unary_handler Msg_AddMultisigSigner_FullMethodName (MsgServer_AddMultisigSigner srv).
Definition _Msg_CleanupMultisigSigner_Handler (srv : MsgServer) :
    (MsgCleanupMultisigAccountParams → M S MsgCleanupMultisigAccountParams) → option (UnaryServerInterceptor S) →
    M S MsgCleanupMultisigAccountResponse :=
  unary_handler Msg_CleanupMultisigSigner_FullMethodName (MsgServer_CleanupMultisigSigner srv).
Definition _Msg_SetThreshold_Handler (srv : MsgServer) :
    (MsgSetMultisigThresholdParams → M S MsgSetMultisigThresholdParams) → option (UnaryServerInterceptor S) →
    M S MsgSetMultisigThresholdResponse :=
  unary_handler Msg_SetThreshold_FullMethodName (MsgServer_SetThreshold srv).
Definition _Msg_InitializeMultisigProposal_Handler (srv : MsgServer) :
    (MsgInitializeMultisigProposalParams → M S MsgInitializeMultisigProposalParams) → option (UnaryServerInterceptor S) →
    M S MsgInitializeMultisigResponse :=
  unary_handler Msg_InitializeMultisigProposal_FullMethodName
    (MsgServer_InitializeMultisigProposal srv).
Definition _Msg_ApproveMultisigProposal_Handler (srv : MsgServer) :
    (MsgApproveMultisigProposalParams → M S MsgApproveMultisigProposalParams) → option (UnaryServerInterceptor S) →
    M S MsgApproveMultisigProposalResponse :=
  unary_handler Msg_ApproveMultisigProposal_FullMethodName (MsgServer_ApproveMultisigProposal srv).
Definition _Msg_ApproveAndDispatchMultisigProposal_Handler (srv : MsgServer) :
    (MsgApproveAndDispatchMultisigProposalParams → M S MsgApproveAndDispatchMultisigProposalParams) → option (UnaryServerInterceptor S) →
    M S MsgApproveAndDispatchMultisigProposalResponse :=
  unary_handler Msg_ApproveAndDispatchMultisigProposal_FullMethodName
    (MsgServer_ApproveAndDispatchMultisigProposal srv).
Definition _Msg_CancelMultisigProposal_Handler (srv : MsgServer) :
    (MsgCancelMultisigProposalParams → M S MsgCancelMultisigProposalParams) → option (UnaryServerInterceptor S) →
    M S MsgCancelMultisigProposalResponse :=
  unary_handler Msg_CancelMultisigProposal_FullMethodName (MsgServer_CancelMultisigProposal srv).
Definition _Msg_CleanupMultisigProposal_Handler (srv : MsgServer) :
    (MsgCleanupMultisigProposalParams → M S MsgCleanupMultisigProposalParams) → option (UnaryServerInterceptor S) →
    M S MsgCleanupMultisigProposalResponse :=
  unary_handler Msg_CleanupMultisigProposal_FullMethodName (MsgServer_CleanupMultisigProposal srv).

Definition Msg_ServiceDesc : ServiceDesc S MsgServer := mkServiceDesc "multisig.v1.Msg" [
  mkMethodDesc "UpdateParams" _Msg_UpdateParams_Handler;
  mkMethodDesc "CreateMultisigAccount" _Msg_CreateMultisigAccount_Handler;
  mkMethodDesc "AddMultisigSigner" _Msg_AddMultisigSigner_Handler;
  mkMethodDesc "CleanupMultisigSigner" _Msg_CleanupMultisigSigner_Handler;
  mkMethodDesc "SetThreshold" _Msg_SetThreshold_Handler;
  mkMethodDesc "InitializeMultisigProposal" _Msg_InitializeMultisigProposal_Handler;
  mkMethodDesc "ApproveMultisigProposal" _Msg_ApproveMultisigProposal_Handler;
  mkMethodDesc "ApproveAndDispatchMultisigProposal" _Msg_ApproveAndDispatchMultisigProposal_Handler;
  mkMethodDesc "CancelMultisigProposal" _Msg_CancelMultisigProposal_Handler;
  mkMethodDesc "CleanupMultisigProposal" _Msg_CleanupMultisigProposal_Handler].
End services.
