(* ===== verification/ApiSample.v ===== *)
(** * ApiSample: a concrete runtime for the generated API

    The parameters of Pulsar, instantiated: the functions of [runtime] are those
    that the code under [src/x] has for itself, the [options] call the closures
    of the message; [DecCoin] and [Any] of the SDK's API have the two fields of
    their messages. *)
From S2P Require Import Prelude Util Dec Types Wire WireLemmas Pulsar PulsarLemmas ApiTwin OracleProto WireSample.
Local Open Scope Z_scope.

(** ** Messages of the SDK *)

Section messages.
Context `{PulsarRuntime}.

(** [SampleDecCoin] *)

Record SampleDecCoin := mkSampleDecCoin {
  SampleDecCoin_Denom : string;
  SampleDecCoin_Amount : string;
  SampleDecCoin_unknownFields : bytes;
}.
Definition SampleDecCoin_size : size_closure SampleDecCoin := closure_size (λ x,
  api_size_string 1 (SampleDecCoin_Denom x) + api_size_string 1 (SampleDecCoin_Amount x) +
  len (SampleDecCoin_unknownFields x)).
Definition SampleDecCoin_marshal : marshal_closure SampleDecCoin :=
    closure_marshal SampleDecCoin_size (λ x,
  put_copy (SampleDecCoin_unknownFields x) ;; api_put_string [0x12] (SampleDecCoin_Amount x) ;;
  api_put_string [0xa] (SampleDecCoin_Denom x)).
Definition SampleDecCoin_field (discard : bool) (n : Z) : option (field_reader SampleDecCoin) :=
  if n =? 1 then Some (string_field "Denom"
    (λ x v, mkSampleDecCoin v (SampleDecCoin_Amount x) (SampleDecCoin_unknownFields x))) else
  if n =? 2 then Some (string_field "Amount"
    (λ x v, mkSampleDecCoin (SampleDecCoin_Denom x) v (SampleDecCoin_unknownFields x))) else
  None.
Definition SampleDecCoin_unknown (x : SampleDecCoin) (bz : bytes) : SampleDecCoin :=
  mkSampleDecCoin (SampleDecCoin_Denom x) (SampleDecCoin_Amount x) (SampleDecCoin_unknownFields x
    ++ bz).
Definition SampleDecCoin_unmarshal : unmarshal_closure SampleDecCoin :=
  closure_unmarshal "SampleDecCoin" SampleDecCoin_field SampleDecCoin_unknown.
#[export] Instance SampleDecCoin_methods : ProtoMethods SampleDecCoin := {|
  api_new := mkSampleDecCoin "" "" [];
  api_size := SampleDecCoin_size;
  api_marshal := SampleDecCoin_marshal;
  api_unmarshal := SampleDecCoin_unmarshal;
|}.

(** [SampleAny] *)

Record SampleAny := mkSampleAny {
  SampleAny_TypeUrl : string;
  SampleAny_Value : bytes;
  SampleAny_unknownFields : bytes;
}.
Definition SampleAny_size : size_closure SampleAny := closure_size (λ x,
  api_size_string 1 (SampleAny_TypeUrl x) + api_size_bytes 1 (SampleAny_Value x) +
  len (SampleAny_unknownFields x)).
Definition SampleAny_marshal : marshal_closure SampleAny := closure_marshal SampleAny_size (λ x,
  put_copy (SampleAny_unknownFields x) ;; api_put_bytes [0x12] (SampleAny_Value x) ;;
  api_put_string [0xa] (SampleAny_TypeUrl x)).
Definition SampleAny_field (discard : bool) (n : Z) : option (field_reader SampleAny) :=
  if n =? 1 then Some (string_field "TypeUrl"
    (λ x v, mkSampleAny v (SampleAny_Value x) (SampleAny_unknownFields x))) else
  if n =? 2 then Some (bytes_field "Value"
    (λ x v, mkSampleAny (SampleAny_TypeUrl x) v (SampleAny_unknownFields x))) else
  None.
Definition SampleAny_unknown (x : SampleAny) (bz : bytes) : SampleAny :=
  mkSampleAny (SampleAny_TypeUrl x) (SampleAny_Value x) (SampleAny_unknownFields x ++ bz).
Definition SampleAny_unmarshal : unmarshal_closure SampleAny :=
  closure_unmarshal "SampleAny" SampleAny_field SampleAny_unknown.
#[export] Instance SampleAny_methods : ProtoMethods SampleAny := {|
  api_new := mkSampleAny "" [] [];
  api_size := SampleAny_size;
  api_marshal := SampleAny_marshal;
  api_unmarshal := SampleAny_unmarshal;
|}.
End messages.

Section laws.
Context `{PulsarRuntimeLaws}.

Definition SampleDecCoin_encode (x : SampleDecCoin) : bytes :=
  enc_string [0xa] (SampleDecCoin_Denom x) ++ enc_string [0x12] (SampleDecCoin_Amount x) ++
  SampleDecCoin_unknownFields x.
Definition SampleDecCoin_ok (discard : bool) (x : SampleDecCoin) : Prop :=
  kept_fields SampleDecCoin_field discard (SampleDecCoin_unknownFields x).
#[export] Instance SampleDecCoin_laws : ApiLaws SampleDecCoin.
Proof.
  solve_api_message SampleDecCoin_encode SampleDecCoin_ok SampleDecCoin_field
    SampleDecCoin_unknown.
Defined.

Definition SampleAny_encode (x : SampleAny) : bytes :=
  enc_string [0xa] (SampleAny_TypeUrl x) ++ enc_bytes [0x12] (SampleAny_Value x) ++
  SampleAny_unknownFields x.
Definition SampleAny_ok (discard : bool) (x : SampleAny) : Prop :=
  kept_fields SampleAny_field discard (SampleAny_unknownFields x).
#[export] Instance SampleAny_laws : ApiLaws SampleAny.
Proof.
  solve_api_message SampleAny_encode SampleAny_ok SampleAny_field SampleAny_unknown.
Defined.
End laws.

(** ** The runtime *)

#[export] Instance sample_runtime : PulsarRuntime := {|
  runtime_Sov := sov;
  runtime_EncodeVarint d i v :=
    match encodeVarint v (d, i) with
    | (Ok _, s) => Ok s
    | (Err e, _) => Err e
    | (Panic, _) => Panic
    end;
  runtime_Skip := skip;
  options_Size A size x := size x;
  options_Marshal A marshal x := out ← marshal x None; Ok (default [] out);
  options_Unmarshal A methods discard bz x :=
    r ← api_unmarshal discard (Some x) bz; Ok (default x r);
|}.

(** ** [skip] goes over a field *)

Lemma varint_loop_skip conv fuel shift v c x c' :
  varint_loop conv fuel shift v c = Ok (x, c') → skip_varint fuel shift c = Ok c'.
Proof.
  revert shift v c. induction fuel as [|fuel IH]; intros shift v c; simpl;
    (destruct (64 <=? shift); [done|]); (destruct (_ <=? _); [done|]); [done|].
  destruct (byte_at c); simpl; [|done..].
  destruct (byte_val _ <? 128); [by intros [= _ <-]|apply IH].
Qed.

Lemma skip_varint_spec v pre tail :
  is_u64 v → let c := at_ pre (varint v ++ tail) in
  skip_varint (length (dAtA c)) 0 c = Ok (at_ (pre ++ varint v) tail).
Proof. intros Hv. eapply varint_loop_skip, (read_varint_spec wrap_u64); auto with wire. Qed.

(** The switch over the wire type, past the tag. *)
Lemma skip_switch_raw n bz tail :
  raw_field n bz → ∃ w body, 0 ≤ w < 8 ∧ bz = varint (8 * n + w) ++ body ∧
    ∀ pre, len pre + len body + len tail < 2 ^ 63 →
      skip_switch w 0 (at_ pre (body ++ tail)) = Ok (0, at_ (pre ++ body) tail).
Proof.
  intros [v Hv|b Hb|b|b Hb].
  - exists 0, (varint v). split_and!; [lia..|by rewrite Z.add_0_r|]. intros pre Hl.
    unfold skip_switch. cbn [Z.eqb]. by rewrite skip_varint_spec.
  - exists 1, b. split_and!; [lia..|done|]. intros pre Hl. unfold skip_switch. cbn [Z.eqb Pos.eqb].
    pose proof (len_nonneg tail). assert (len b = 8) as E by (unfold len; by rewrite Hb).
    rewrite <- E, advance_at by lia. done.
  - exists 2, (varint (len b) ++ b). split_and!; [lia..|done|]. intros pre.
    rewrite <- app_assoc, !len_app. intros Hl. pose proof (len_nonneg pre).
    pose proof (len_nonneg b). pose proof (len_nonneg tail). pose proof (len_nonneg (varint (len b))).
    unfold skip_switch. cbn [Z.eqb Pos.eqb].
    rewrite read_varint_spec by (auto with wire; unfold is_u64; lia). cbn [mbind outcome_bind].
    rewrite wrap_i64_id by (unfold is_i64; lia). rewrite (proj2 (Z.ltb_ge _ _)) by done.
    rewrite advance_at by (rewrite len_app; lia). by rewrite <- app_assoc.
  - exists 5, b. split_and!; [lia..|done|]. intros pre Hl. unfold skip_switch. cbn [Z.eqb Pos.eqb].
    pose proof (len_nonneg tail). assert (len b = 4) as E by (unfold len; by rewrite Hb).
    rewrite <- E, advance_at by lia. done.
Qed.

Lemma skip_raw n bz tail :
  is_field_number n → raw_field n bz → len (bz ++ tail) < 2 ^ 63 → skip (bz ++ tail) = Ok (len bz).
Proof.
  intros Hn Hr Hl. destruct (skip_switch_raw n bz tail Hr) as (w & body & Hw & -> & Hs).
  rewrite !len_app in Hl.
  set (t := varint (8 * n + w)) in *. pose proof (len_nonneg t). pose proof (len_nonneg body).
  assert (is_u64 (8 * n + w)) as Hu by (unfold is_field_number, is_u64 in *; lia).
  assert (t ≠ []) as Ht by apply varint_nonempty, Hu.
  rewrite <- app_assoc. unfold skip. change (mkCursor 0 ?b) with (at_ [] b).
  destruct (length (t ++ body ++ tail)) eqn:E.
  { by apply nil_length_inv, app_nil in E as [-> _]. }
  cbn [skip_loop]. rewrite at_inside_nonempty by (by intros [-> _]%app_nil). cbn [negb].
  unfold t at 1. rewrite read_varint_spec by auto with wire. fold t. cbn [mbind outcome_bind].
  rewrite wrap_u64_id by done. destruct (tag_parts n w Hn Hw) as (_ & -> & _).
  rewrite Hs by (simpl; lia). cbn [mbind outcome_bind].
  change (iNdEx (at_ (([] ++ t) ++ body) tail)) with (len (t ++ body)).
  by rewrite (proj2 (Z.ltb_ge _ _)) by (rewrite len_app; lia).
Qed.

#[export] Instance sample_runtime_laws : PulsarRuntimeLaws.
Proof.
  constructor.
  - intros v [? _]. symmetry. by apply length_varint.
  - intros v Hv junk out Hl Hj. unfold rt_varint. cbn [runtime_EncodeVarint sample_runtime].
    by rewrite writes_encodeVarint by done.
  - apply skip_raw.
  - apply skip_total.
  - done.
  - intros A marshal x e Hm. destruct (Hm None) as (out & Ho & He). simpl. rewrite Ho. simpl. by f_equal.
  - intros A M discard bz b Hb. simpl. by rewrite Hb.
  - intros A M discard bz x Ht. simpl. specialize (Ht (Some x)). by destruct (api_unmarshal _ _ _).
Qed.

#[export] Instance sample_cosmos : CosmosApi := {|
  v1beta1_DecCoin := SampleDecCoin;
  anypb_Any := SampleAny;
|}.
#[export] Instance sample_cosmos_laws : CosmosApiLaws.
Proof. split; [exact SampleDecCoin_laws|exact SampleAny_laws]. Defined.

(** ** Twins *)

#[export] Instance text_codec_nonempty : DecText.
Proof.
  constructor. intros d E. cbn [dec_text text_codec] in E.
  apply (f_equal String.string_of_list_ascii) in E.
  rewrite String.string_of_list_ascii_of_string in E. cbn in E.
  pose proof (text_Z_text (if d =? nil_number then 0 else d)) as H. by rewrite E in H.
Qed.

Definition DecCoin_to_api (m : DecCoin) : SampleDecCoin :=
  mkSampleDecCoin (dc_Denom m) (api_dec (dc_Amount m)) [].
#[export] Instance DecCoin_twin : ApiTwin DecCoin v1beta1_DecCoin.
Proof. solve_twin DecCoin_to_api DecCoin_encode DecCoin_ok SampleDecCoin_encode SampleDecCoin_ok. Defined.

Definition Any_to_api (m : Any) : SampleAny := mkSampleAny (TypeUrl m) (Value m) [].
#[export] Instance Any_twin : ApiTwin Any anypb_Any.
Proof. solve_twin Any_to_api Any_encode Any_ok SampleAny_encode SampleAny_ok. Defined.
