(* ===== verification/MultisigService.v ===== *)
(** * MultisigService: the messages of the multisig module in a transaction

    [_Msg_serviceDesc] and the registered types of
    [src/x/multisig/types/tx.pb.go], and [RegisterInterfaces] of [codec.go]: a
    message is marshaled by its type and read by the type registered under its
    name, then handled. *)
From S2P Require Import Prelude Util Store Wire WireLemmas Multisig MultisigProto.
Local Open Scope Z_scope.

Section messages.
Context `{ProtoMessage Any}.

Definition mtype_name (m : mmsg) : string :=
  match m with
  | MUpdate _ => "multisig.v1.MsgUpdateParams"
  | MCreate _ => "multisig.v1.MsgCreateMultisigAccountParams"
  | MAddSigner _ => "multisig.v1.MsgAddMultisigSignerParams"
  | MInitialize _ => "multisig.v1.MsgInitializeMultisigProposalParams"
  | MApprove _ => "multisig.v1.MsgApproveMultisigProposalParams"
  | MDispatch _ => "multisig.v1.MsgApproveAndDispatchMultisigProposalParams"
  | MCleanupAccount _ => "multisig.v1.MsgCleanupMultisigAccountParams"
  | MSetThreshold _ => "multisig.v1.MsgSetMultisigThresholdParams"
  | MCancel _ => "multisig.v1.MsgCancelMultisigProposalParams"
  | MCleanupProposal _ => "multisig.v1.MsgCleanupMultisigProposalParams"
  end.

Definition mmsg_Marshal (m : mmsg) : outcome bytes :=
  match m with
  | MUpdate m => pb_Marshal m
  | MCreate m => pb_Marshal m
  | MAddSigner m => pb_Marshal m
  | MInitialize m => pb_Marshal m
  | MApprove m => pb_Marshal m
  | MDispatch m => pb_Marshal m
  | MCleanupAccount m => pb_Marshal m
  | MSetThreshold m => pb_Marshal m
  | MCancel m => pb_Marshal m
  | MCleanupProposal m => pb_Marshal m
  end.

Definition mdecode {A} `{ProtoMessage A} (wrap : A → mmsg) (bz : bytes) : outcome mmsg :=
  m ← pb_Unmarshal pb_empty bz; Ok (wrap m).

Definition multisig_serviceDesc : list (string * (string * (bytes → outcome mmsg))) := [
  ("UpdateParams", ("multisig.v1.MsgUpdateParams", mdecode MUpdate));
  ("CreateMultisigAccount", ("multisig.v1.MsgCreateMultisigAccountParams", mdecode MCreate));
  ("AddMultisigSigner", ("multisig.v1.MsgAddMultisigSignerParams", mdecode MAddSigner));
  ("CleanupMultisigSigner", ("multisig.v1.MsgCleanupMultisigAccountParams", mdecode MCleanupAccount));
  ("SetThreshold", ("multisig.v1.MsgSetMultisigThresholdParams", mdecode MSetThreshold));
  ("InitializeMultisigProposal",
    ("multisig.v1.MsgInitializeMultisigProposalParams", mdecode MInitialize));
  ("ApproveMultisigProposal", ("multisig.v1.MsgApproveMultisigProposalParams", mdecode MApprove));
  ("ApproveAndDispatchMultisigProposal",
    ("multisig.v1.MsgApproveAndDispatchMultisigProposalParams", mdecode MDispatch));
  ("CancelMultisigProposal", ("multisig.v1.MsgCancelMultisigProposalParams", mdecode MCancel));
  ("CleanupMultisigProposal",
    ("multisig.v1.MsgCleanupMultisigProposalParams", mdecode MCleanupProposal))]%string.

Definition mmsg_Unmarshal (name : string) (bz : bytes) : outcome mmsg :=
  match find (λ d, String.eqb name d.2.1) multisig_serviceDesc with
  | Some (_, (_, unmarshal)) => unmarshal bz
  | None => Err (Errorf "unable to resolve type URL %s")
  end.

(** The integers of a message that was decoded. *)
Definition mmsg_typed (m : mmsg) : Prop :=
  match m with
  | MCreate m => is_u32 (cr_Seed m) ∧ is_u32 (cr_Threshold m) ∧ is_i32 (cr_Permission m)
  | MAddSigner m => is_u32 (as_NewThreshold m)
  | MApprove m => is_u64 (ap_ProposalId m)
  | MDispatch m => is_u64 (di_ProposalId m)
  | MSetThreshold m => is_u32 (st_Threshold m)
  | MCancel m => is_u64 (cn_ProposalId m)
  | MCleanupProposal m => is_u64 (cl_ProposalId m)
  | MUpdate _ | MInitialize _ | MCleanupAccount _ => True
  end.

Lemma multisig_serviceDesc_typed name method unmarshal bz m :
  In (method, (name, unmarshal)) multisig_serviceDesc → unmarshal bz = Ok m →
  mtype_name m = name ∧ mmsg_typed m.
Proof.
  intros Hin. unfold multisig_serviceDesc in Hin. simpl in Hin.
  repeat destruct Hin as [Hin|Hin]; [..|done];
    injection Hin as <- <- <-; unfold mdecode;
    (destruct (pb_Unmarshal _ _) as [x| |] eqn:E; simpl; [|done..]); intros [= <-];
    (split; [reflexivity|]); simpl; try done.
  - refine (unmarshal_typed (λ m, is_u32 (cr_Seed m) ∧ is_u32 (cr_Threshold m) ∧ is_i32 (cr_Permission m))
      _ _ _ _ _ _ _ E); [|done]. solve_typed.
  - refine (unmarshal_typed (λ m, is_u32 (as_NewThreshold m)) _ _ _ _ _ _ _ E); [|done]. solve_typed.
  - refine (unmarshal_typed (λ m, is_u32 (st_Threshold m)) _ _ _ _ _ _ _ E); [|done]. solve_typed.
  - refine (unmarshal_typed (λ m, is_u64 (ap_ProposalId m)) _ _ _ _ _ _ _ E); [|done]. solve_typed.
  - refine (unmarshal_typed (λ m, is_u64 (di_ProposalId m)) _ _ _ _ _ _ _ E); [|done]. solve_typed.
  - refine (unmarshal_typed (λ m, is_u64 (cn_ProposalId m)) _ _ _ _ _ _ _ E); [|done]. solve_typed.
  - refine (unmarshal_typed (λ m, is_u64 (cl_ProposalId m)) _ _ _ _ _ _ _ E); [|done]. solve_typed.
Qed.

Lemma mmsg_Unmarshal_typed name bz m :
  mmsg_Unmarshal name bz = Ok m → mtype_name m = name ∧ mmsg_typed m.
Proof.
  unfold mmsg_Unmarshal. destruct (find _ _) as [[method [name' unmarshal]]|] eqn:Ef; [|done].
  intros E. apply find_some in Ef as [Hin Heq]. apply String.eqb_eq in Heq. simpl in Heq. subst.
  by eapply multisig_serviceDesc_typed.
Qed.
End messages.

Section laws.
Context `{ProtoLaws Any}.

Definition mmsg_encode (m : mmsg) : bytes :=
  match m with
  | MUpdate m => pb_encode m
  | MCreate m => pb_encode m
  | MAddSigner m => pb_encode m
  | MInitialize m => pb_encode m
  | MApprove m => pb_encode m
  | MDispatch m => pb_encode m
  | MCleanupAccount m => pb_encode m
  | MSetThreshold m => pb_encode m
  | MCancel m => pb_encode m
  | MCleanupProposal m => pb_encode m
  end.

Definition mmsg_ok (m : mmsg) : Prop :=
  match m with
  | MUpdate m => pb_ok m
  | MCreate m => pb_ok m
  | MAddSigner m => pb_ok m
  | MInitialize m => pb_ok m
  | MApprove m => pb_ok m
  | MDispatch m => pb_ok m
  | MCleanupAccount m => pb_ok m
  | MSetThreshold m => pb_ok m
  | MCancel m => pb_ok m
  | MCleanupProposal m => pb_ok m
  end.

Lemma mmsg_Marshal_encode m :
  mmsg_Marshal m = if 2 ^ 63 <=? len (mmsg_encode m) then Panic else Ok (mmsg_encode m).
Proof. destruct m; apply pb_Marshal_encode. Qed.

Lemma mdecode_encode {A} `{ProtoLaws A} (wrap : A → mmsg) (m : A) :
  pb_ok m → len (pb_encode m) < 2 ^ 63 → mdecode wrap (pb_encode m) = Ok (wrap m).
Proof. intros. unfold mdecode. by rewrite pb_Unmarshal_encode. Qed.

Lemma mmsg_Unmarshal_encode m :
  mmsg_ok m → len (mmsg_encode m) < 2 ^ 63 → mmsg_Unmarshal (mtype_name m) (mmsg_encode m) = Ok m.
Proof. destruct m; apply mdecode_encode. Qed.

Lemma mdecode_total {A} `{ProtoLaws A} (wrap : A → mmsg) bz :
  len bz < 2 ^ 63 → mdecode wrap bz ≠ Panic.
Proof. intros Hl. unfold mdecode. apply total_bind_Ok. by apply pb_Unmarshal_total. Qed.

Lemma mmsg_Unmarshal_total name bz : len bz < 2 ^ 63 → mmsg_Unmarshal name bz ≠ Panic.
Proof.
  intros Hl. unfold mmsg_Unmarshal, multisig_serviceDesc. simpl.
  repeat (case String.eqb; [by apply mdecode_total|]). done.
Qed.
End laws.
