(* ===== verification/App.v ===== *)
(** * App: the ante handler, its message filter and the price feeder's options

    [src/app/decorators/msg_filter_template.go], [src/app/ante.go],
    [src/app/upgrades.go] with [upgrades/noop], and
    [src/pricefeeder].  The decorators that the SDK and its modules
    build are named, not defined; the conversions of [spf13/cast], the upgrade
    keeper, the libraries of the price feeder and the decoding of the messages
    inside an [authz.MsgExec] are parameters. *)
From S2P Require Import Prelude Util Types.
Local Open Scope Z_scope.

(** ** The message filter *)

(** An [sdk.Msg]: its protobuf name, and what [GetMessages] answers on an
    [*authz.MsgExec], the only type whose messages are looked into; [None] is
    its error. *)
Inductive sdk_msg : Type :=
  | plain_msg (name : string)
  | MsgExec (GetMessages : option (list sdk_msg)).

Definition MsgExec_name : string := "cosmos.authz.v1beta1.MsgExec".
Definition MessageName (m : sdk_msg) : string :=
  match m with plain_msg name => name | MsgExec _ => MsgExec_name end.

(** [MsgFilterDecorator]: the blocked types, by name. *)
Record MsgFilterDecorator := mkFilter { blockedTypes : list sdk_msg }.
Definition FilterDecorator (blockedMsgTypes : list sdk_msg) : MsgFilterDecorator :=
  mkFilter blockedMsgTypes.

Section filter.
Context (mfd : MsgFilterDecorator).

(** One iteration of the outer loop: whether it returns true. *)
Fixpoint disallowed (msg : sdk_msg) : bool :=
  match msg with
  | MsgExec (Some msgs) => (fix loop (l : list sdk_msg) : bool :=
      match l with [] => false | m :: l' => if disallowed m then true else loop l' end) msgs
  | MsgExec _ => true
  | plain_msg _ => false
  end ||
  existsb (λ blockedType, String.eqb (MessageName msg) (MessageName blockedType)) (blockedTypes mfd).

Fixpoint HasDisallowedMessage (msgs : list sdk_msg) : bool :=
  match msgs with
  | [] => false
  | msg :: msgs' => if disallowed msg then true else HasDisallowedMessage msgs'
  end.

(** The rest of the ante chain is an argument. *)
Definition AnteHandle {Ctx Tx} (GetMsgs : Tx → list sdk_msg) (ctx : Ctx) (tx : Tx) (simulate : bool)
    (next : Ctx → Tx → bool → outcome Ctx) : outcome Ctx :=
  if HasDisallowedMessage (GetMsgs tx)
  then Err (Errorf "tx contains unsupported message types at height %d")
  else next ctx tx simulate.

(** [inside m msgs]: [m] is one of the messages of a transaction, or is executed
    by one of them, at any depth. *)
Inductive inside (m : sdk_msg) : list sdk_msg → Prop :=
  | inside_here msgs : m ∈ msgs → inside m msgs
  | inside_exec nested msgs : MsgExec (Some nested) ∈ msgs → inside m nested → inside m msgs.

(** What the filter looks for. *)
Definition blocked (m : sdk_msg) : Prop :=
  MessageName m ∈ map MessageName (blockedTypes mfd) ∨ m = MsgExec None.

Lemma disallowed_exec nested :
  disallowed (MsgExec (Some nested)) =
  HasDisallowedMessage nested ||
  existsb (λ b, String.eqb MsgExec_name (MessageName b)) (blockedTypes mfd).
Proof. reflexivity. Qed.

Lemma HasDisallowed_existsb msgs : HasDisallowedMessage msgs = existsb disallowed msgs.
Proof. induction msgs as [|m msgs IH]; simpl; [done|]. rewrite IH. by destruct (disallowed m). Qed.

Lemma blocked_name m :
  existsb (λ b, String.eqb (MessageName m) (MessageName b)) (blockedTypes mfd) = true ↔
  MessageName m ∈ map MessageName (blockedTypes mfd).
Proof.
  rewrite existsb_exists. split.
  - intros (b & Hb & He%String.eqb_eq). rewrite He. apply list_elem_of_fmap_2. by apply list_elem_of_In.
  - intros (b & He & Hb)%list_elem_of_fmap. exists b. split; [by apply list_elem_of_In|].
    rewrite He. apply String.eqb_refl.
Qed.

Lemma inside_disallowed m msgs : inside m msgs → blocked m → HasDisallowedMessage msgs = true.
Proof.
  intros Hin Hb. induction Hin as [msgs Hm|nested msgs Hm _ IH];
    rewrite HasDisallowed_existsb, existsb_exists.
  - exists m. split; [by apply list_elem_of_In|]. destruct Hb as [Hb| ->]; [|done].
    apply blocked_name in Hb. destruct m; cbn [disallowed]; by rewrite Hb, orb_true_r.
  - exists (MsgExec (Some nested)). split; [by apply list_elem_of_In|].
    by rewrite disallowed_exec, IH.
Qed.

(** Induction on a message, with a hypothesis for each nested message. *)
Lemma sdk_msg_nested_ind (P : sdk_msg → Prop) :
  (∀ name, P (plain_msg name)) → P (MsgExec None) →
  (∀ nested, Forall P nested → P (MsgExec (Some nested))) → ∀ m, P m.
Proof.
  intros Hp Hn He. fix IH 1. intros [name|[nested|]]; [apply Hp| |apply Hn]. apply He.
  induction nested as [|m nested IHn]; constructor; [apply IH|exact IHn].
Qed.

Lemma inside_subset m l l' : inside m l → (∀ x, x ∈ l → x ∈ l') → inside m l'.
Proof. intros [l1 Hm|nested l1 Hm Hin] Hs; [apply inside_here|eapply inside_exec]; eauto. Qed.

Lemma disallowed_inside m : disallowed m = true → ∃ m', inside m' [m] ∧ blocked m'.
Proof.
  induction m as [name| |nested IH] using sdk_msg_nested_ind.
  - intros Hd. exists (plain_msg name). split; [apply inside_here, list_elem_of_here|].
    left. by apply blocked_name.
  - intros _. exists (MsgExec None). split; [apply inside_here, list_elem_of_here|by right].
  - rewrite disallowed_exec, orb_true_iff. intros [Hd|Hd].
    + rewrite HasDisallowed_existsb, existsb_exists in Hd. destruct Hd as (m & Hin & Hd).
      rewrite Forall_forall in IH. apply list_elem_of_In in Hin.
      destruct (IH m Hin Hd) as (m' & Hi & Hb). exists m'. split; [|done].
      apply (inside_exec m' nested); [apply list_elem_of_here|]. apply (inside_subset m' [m]); [done|].
      by intros x ->%list_elem_of_singleton.
    + exists (MsgExec (Some nested)). split; [apply inside_here, list_elem_of_here|].
      left. by apply blocked_name.
Qed.
End filter.

(** ** [NewAnteHandler] *)

(** Whether each of the pointers and interfaces of the options is set. *)
Record HandlerOptions := mkOptions {
  has_AccountKeeper : bool; has_BankKeeper : bool;
  has_SignModeHandler : bool; has_CircuitKeeper : bool;
}.

Inductive AnteDecorator : Type :=
  | NewSetUpContextDecorator | NewCircuitBreakerDecorator | NewExtensionOptionsDecorator
  | NewValidateBasicDecorator | NewTxTimeoutHeightDecorator | NewValidateMemoDecorator
  | NewConsumeGasForTxSizeDecorator | NewDeductFeeDecorator | NewSetPubKeyDecorator
  | NewValidateSigCountDecorator | NewSigGasConsumeDecorator | NewSigVerificationDecorator
  | NewIncrementSequenceDecorator | NewRedundantRelayDecorator.

Definition anteDecorators : list AnteDecorator := [
  NewSetUpContextDecorator; NewCircuitBreakerDecorator; NewExtensionOptionsDecorator;
  NewValidateBasicDecorator; NewTxTimeoutHeightDecorator; NewValidateMemoDecorator;
  NewConsumeGasForTxSizeDecorator; NewDeductFeeDecorator; NewSetPubKeyDecorator;
  NewValidateSigCountDecorator; NewSigGasConsumeDecorator; NewSigVerificationDecorator;
  NewIncrementSequenceDecorator; NewRedundantRelayDecorator].

(** [sdk.ChainAnteDecorators] of the list is the handler. *)
Definition NewAnteHandler (options : HandlerOptions) : outcome (list AnteDecorator) :=
  fail_if (negb (has_AccountKeeper options)) (Errorf "account keeper is required for ante builder");;
  fail_if (negb (has_BankKeeper options)) (Errorf "bank keeper is required for ante builder");;
  fail_if (negb (has_SignModeHandler options)) (Errorf "sign mode handler is required for ante builder");;
  fail_if (negb (has_CircuitKeeper options)) (Errorf "circuit keeper is required for ante builder");;
  Ok anteDecorators.

(** ** Upgrades *)

Section upgrades.
Context {VersionMap : Type}.

(** The handler of an upgrade runs on the module versions. *)
Record Upgrade := mkUpgrade {
  UpgradeName : string;
  CreateUpgradeHandler : VersionMap → outcome VersionMap;
  StoreUpgrades : list string * list string;
}.

(** [noop.NewUpgrade]: the module manager runs the migrations of the modules. *)
Definition noop_NewUpgrade (RunMigrations : VersionMap → outcome VersionMap) (semver : string) : Upgrade :=
  mkUpgrade semver RunMigrations ([], []).

(** The upgrade keeper and the store loader of the application. *)
Record UpgradeSetup := mkSetup {
  us_Upgrades : list Upgrade;
  us_handlers : gmap string (VersionMap → outcome VersionMap);
  us_loader : option (Z * (list string * list string));
}.

(** [info] is what [ReadUpgradeInfoFromDisk] returned: the name and the height. *)
Definition RegisterUpgradeHandlers (RunMigrations : VersionMap → outcome VersionMap)
    (version : string) (info : outcome (string * Z)) (IsSkipHeight : Z → bool) : M UpgradeSetup () :=
  modify (λ a, if decide (us_Upgrades a = []) then
    mkSetup (us_Upgrades a ++ [noop_NewUpgrade RunMigrations version]) (us_handlers a) (us_loader a)
    else a);;
  upgrades ← gets us_Upgrades;
  forM (λ upgrade, modify (λ a, mkSetup (us_Upgrades a)
    (<[UpgradeName upgrade := CreateUpgradeHandler upgrade]> (us_handlers a)) (us_loader a))) upgrades;;
  '(name, height) ← match info with Ok i => mret i | _ => panic end;
  if IsSkipHeight height : bool then mret () else
  match find (λ upgrade, String.eqb name (UpgradeName upgrade)) upgrades with
  | Some upgrade =>
      modify (λ a, mkSetup (us_Upgrades a) (us_handlers a) (Some (height, StoreUpgrades upgrade)))
  | None => mret ()
  end.
End upgrades.

(** ** The options of the price feeder *)

Definition FlagConfigPath : string := "pricefeeder.config_path".
Definition FlagLogLevel : string := "pricefeeder.log_level".
Definition FlagEnablePriceFeeder : string := "pricefeeder.enable".

Record AppConfig := mkAppConfig { ConfigPath : string; LogLevel : string; Enable : bool }.

Definition AppConfig_ValidateBasic (c : AppConfig) : option error :=
  if String.eqb (ConfigPath c) "" then Some (Errorf "path to price feeder config must be set") else None.

(** [cast.ToStringE] and [cast.ToBoolE] on the dynamic values of the options:
    a value comes back with an error too. *)
Class Cast (V : Type) := {
  ToStringE : V → string * option error;
  ToBoolE : V → bool * option error;
}.

Section config.
Context {V : Type} `{Cast V}.

(** The configuration that is read so far comes back with an error. *)
Definition ReadConfigFromAppOpts (Get : string → option V) : AppConfig * option error :=
  let cfg := mkAppConfig "" "" false in
  let read_path cfg := match Get FlagConfigPath with
    | Some v => let '(x, err) := ToStringE v in (mkAppConfig x (LogLevel cfg) (Enable cfg), err)
    | None => (cfg, None) end in
  let read_level cfg := match Get FlagLogLevel with
    | Some v => let '(x, err) := ToStringE v in (mkAppConfig (ConfigPath cfg) x (Enable cfg), err)
    | None => (cfg, None) end in
  let read_enable cfg := match Get FlagEnablePriceFeeder with
    | Some v => let '(x, err) := ToBoolE v in (mkAppConfig (ConfigPath cfg) (LogLevel cfg) x, err)
    | None => (cfg, None) end in
  match read_path cfg with
  | (cfg, Some err) => (cfg, Some err)
  | (cfg, None) =>
      match read_level cfg with
      | (cfg, Some err) => (cfg, Some err)
      | (cfg, None) =>
          match read_enable cfg with
          | (cfg, Some err) => (cfg, Some err)
          | (cfg, None) => (cfg, AppConfig_ValidateBasic cfg)
          end
      end
  end.

(** An option that is there converts to [x]; one that is not leaves the zero
    value. *)
Definition read_as {B} (convert : V → B * option error) (zero : B) (o : option V) (x : B) : Prop :=
  match o with Some v => convert v = (x, None) | None => x = zero end.

(** A configuration is read exactly when every option that is set converts and
    the path of the feeder's own configuration is not empty. *)
Lemma ReadConfig_Ok Get cfg :
  ReadConfigFromAppOpts Get = (cfg, None) ↔
  read_as ToStringE "" (Get FlagConfigPath) (ConfigPath cfg) ∧
  read_as ToStringE "" (Get FlagLogLevel) (LogLevel cfg) ∧
  read_as ToBoolE false (Get FlagEnablePriceFeeder) (Enable cfg) ∧ ConfigPath cfg ≠ "".
Proof.
  unfold ReadConfigFromAppOpts, read_as, AppConfig_ValidateBasic.
  destruct (Get FlagConfigPath) as [vp|], (Get FlagLogLevel) as [vl|],
    (Get FlagEnablePriceFeeder) as [ve|];
    repeat match goal with
    | |- context [ToStringE ?v] => destruct (ToStringE v) as [? []]
    | |- context [ToBoolE ?v] => destruct (ToBoolE v) as [? []]
    end; simpl; repeat case (String.eqb_spec _ ""); destruct cfg; simpl; naive_solver.
Qed.
End config.

(** ** The start of the price feeder *)

(** The configuration of the feeder, its oracle and its server come from other
    repositories. *)
Class FeederLib (O Cfg Providers Deviations Metrics : Type) := {
  zerolog_ParseLevel : string → outcome ();
  LoadConfigFromFlags : string → string → outcome Cfg;
  time_ParseDuration : string → outcome Z;
  ProviderTimeout : Cfg → string;
  WriteTimeout : Cfg → string;
  ReadTimeout : Cfg → string;
  CreatePairProviders : list CurrencyPairProvider → Providers;
  CreateDeviations : list CurrencyDeviationThreshold → outcome Deviations;
  oracle_New : Providers → Z → Deviations → Cfg → O;
  IsTelemetryEnabled : bool;
  telemetry_New : Cfg → outcome Metrics;
  DisableTelemetry : Cfg → Cfg;
}.

(** What ends the wait of the server: a signal, with the answer of its shutdown,
    or an error of its own. *)
Inductive server_end : Type :=
  | ctx_Done (shutdown : option error)
  | srv_Err (err : error).

Section feeder.
Context {O Cfg Providers Deviations Metrics : Type}.
Context `{!FeederLib O Cfg Providers Deviations Metrics}.

Definition startPriceFeeder (cfg : Cfg) (oracle : option O) (metrics : option Metrics)
    (ended : server_end) : outcome () :=
  time_ParseDuration (WriteTimeout cfg);;
  time_ParseDuration (ReadTimeout cfg);;
  match ended with
  | ctx_Done None => Ok ()
  | ctx_Done (Some err) | srv_Err err => Err err
  end.

(** The state is the pointer [pf.Oracle]. *)
Definition SetOracle (o : O) : M (option O) () := λ _, (Ok (), Some o).
Definition GetOracle : M (option O) (option O) := gets id.

Definition Start (appConfig : AppConfig) (oracleParams : Params) (ended : server_end) :
    M (option O) () :=
  lift (zerolog_ParseLevel (LogLevel appConfig));;
  cfg ← lift (LoadConfigFromFlags (ConfigPath appConfig) "");
  providerTimeout ← lift match time_ParseDuration (ProviderTimeout cfg) with
    | Err _ => Err (Errorf "failed to parse provider timeout: %w") | r => r end;
  let providers := CreatePairProviders (CurrencyPairProviders oracleParams) in
  deviations ← lift (CreateDeviations (CurrencyDeviationThresholds oracleParams));
  SetOracle (oracle_New providers providerTimeout deviations cfg);;
  '(cfg, metrics) ← (if IsTelemetryEnabled then mret (DisableTelemetry cfg, None)
    else metrics ← lift (telemetry_New cfg); mret (cfg, Some metrics));
  oracle ← GetOracle;
  lift (startPriceFeeder cfg oracle metrics ended).

(** An oracle is there after the start of the feeder, or the start failed before
    it and left the pointer; a start that returns without an error was ended by
    a signal. *)
Lemma Start_oracle appConfig oracleParams ended o r o' :
  Start appConfig oracleParams ended o = (r, o') →
  (is_Some o' ∨ o' = o ∧ r ≠ Ok ()) ∧ (r = Ok () → is_Some o' ∧ ended = ctx_Done None).
Proof.
  unfold Start, startPriceFeeder, SetOracle, GetOracle, gets, lift, mbind, M_bind, mret, M_ret,
    outcome_bind.
  repeat (case_match; simplify_eq; cbn); intros; simplify_eq;
    (split; [first [left; by eexists|by right]|intros Hr; first [discriminate Hr|by split; [eexists|]]]).
Qed.
End feeder.
