(* ===== verification/Application.v ===== *)
(** * Application: the chain application and its start

    [src/app/app.go], [src/app/params/prefix.go] and [src/cmd/simd]: the tables
    of the application (account permissions, store keys, subspaces, the orders
    of the modules), its construction and the commands that construct it.

    The construction is almost only calls of the SDK and of ibc-go, in an order
    and with arguments that this code chooses: such a call is a [Step] with the
    name of the function and its arguments, and the class [Sdk] runs it.  What
    the repository itself contributes runs as it is modelled: [initParamsKeeper],
    the two [NewKeeper], [RegisterUpgradeHandlers] and [NewAnteHandler]. *)
From S2P Require Chain Codec.
From S2P Require Import Multisig.
From S2P Require Import Prelude Util Types Bech32 World State Keeper App.
Local Open Scope Z_scope.

(** ** Constants of other packages *)

(** The module and account names that the application uses. *)
Inductive SdkName : Type :=
  | FeeCollectorName | BondedPoolName | NotBondedPoolName | baseapp_Paramspace
  | authtypes_ModuleName | banktypes_ModuleName | stakingtypes_ModuleName
  | slashingtypes_ModuleName | minttypes_ModuleName | distrtypes_ModuleName
  | govtypes_ModuleName | crisistypes_ModuleName | evidencetypes_ModuleName
  | genutiltypes_ModuleName | authz_ModuleName | feegrant_ModuleName | group_ModuleName
  | nft_ModuleName | paramstypes_ModuleName | upgradetypes_ModuleName | vestingtypes_ModuleName
  | consensusparamtypes_ModuleName | circuittypes_ModuleName | capabilitytypes_ModuleName
  | ibcexported_ModuleName | ibctransfertypes_ModuleName | ibcfeetypes_ModuleName
  | icatypes_ModuleName | icahosttypes_SubModuleName | icacontrollertypes_SubModuleName
  | ibctm_ModuleName.

(** The keys of their stores. *)
Inductive SdkKey : Type :=
  | authtypes_StoreKey | banktypes_StoreKey | stakingtypes_StoreKey | crisistypes_StoreKey
  | minttypes_StoreKey | distrtypes_StoreKey | slashingtypes_StoreKey | govtypes_StoreKey
  | paramstypes_StoreKey | consensusparamtypes_StoreKey | upgradetypes_StoreKey
  | feegrant_StoreKey | evidencetypes_StoreKey | circuittypes_StoreKey | authzkeeper_StoreKey
  | nftkeeper_StoreKey | group_StoreKey | capabilitytypes_StoreKey | ibcexported_StoreKey
  | ibctransfertypes_StoreKey | ibcfeetypes_StoreKey | icahosttypes_StoreKey
  | icacontrollertypes_StoreKey.

#[export] Instance SdkName_eq_dec : EqDecision SdkName.
Proof. solve_decision. Defined.
#[export] Instance SdkKey_eq_dec : EqDecision SdkKey.
Proof. solve_decision. Defined.

(** Their values, and the parts of the address prefixes. *)
Class Names := {
  name_of : SdkName → string;
  key_of : SdkKey → string;
  TStoreKey : string;
  MemStoreKey : string;
  PrefixPublic : string;
  PrefixValidator : string;
  PrefixOperator : string;
  PrefixConsensus : string;
}.

Definition multisig_ModuleName : string := "multisig".

(** A name, or a key, is used by one package only. *)
Class NamesLaws (N : Names) : Prop := {
  name_of_inj :: Inj (=) (=) name_of;
  key_of_inj :: Inj (=) (=) key_of;
  name_of_own n : name_of n ∉ [ModuleName; multisig_ModuleName; ""];
  key_of_own k : key_of k ∉ [ModuleName; multisig_ModuleName];
}.

Declare Scope app_scope.
Notation "# n" := (name_of n) (at level 5, n at level 1, format "# n") : app_scope.
Local Open Scope app_scope.

Section tables.
Context `{Names}.

(** ** Constants of the application *)

Definition appName : string := "dmchain".
Definition NodeDir : string := ".dm".
Definition CoinType : Z := 118.
Definition Bech32Prefix : string := "dm".
Definition Bech32PrefixAccAddr : string := Bech32Prefix.
Definition Bech32PrefixAccPub : string := Bech32Prefix +:+ PrefixPublic.
Definition Bech32PrefixValAddr : string := Bech32Prefix +:+ PrefixValidator +:+ PrefixOperator.
Definition Bech32PrefixValPub : string :=
  Bech32Prefix +:+ PrefixValidator +:+ PrefixOperator +:+ PrefixPublic.
Definition Bech32PrefixConsAddr : string := Bech32Prefix +:+ PrefixValidator +:+ PrefixConsensus.
Definition Bech32PrefixConsPub : string :=
  Bech32Prefix +:+ PrefixValidator +:+ PrefixConsensus +:+ PrefixPublic.

(** ** Account permissions *)

(** [authtypes.Minter], [Burner] and [Staking]. *)
Inductive Permission : Type := Minter | Burner | Staking.

Definition maccPerms : gmap string (list Permission) := list_to_map [
  (#FeeCollectorName, []);
  (#distrtypes_ModuleName, []);
  (#minttypes_ModuleName, [Minter]);
  (#BondedPoolName, [Burner; Staking]);
  (#NotBondedPoolName, [Burner; Staking]);
  (#govtypes_ModuleName, [Burner]);
  (#nft_ModuleName, []);
  (#ibctransfertypes_ModuleName, [Minter; Burner]);
  (#ibcfeetypes_ModuleName, []);
  (#icatypes_ModuleName, []);
  (multisig_ModuleName, [])].

(** The copy is made entry by entry. *)
Definition GetMaccPerms : gmap string (list Permission) :=
  map_fold (λ k v dupMaccPerms, <[k := v]> dupMaccPerms) ∅ maccPerms.

(** [module_address] is [authtypes.NewModuleAddress(acc).String()]. *)
Definition BlockedAddresses (module_address : string → string) : gmap string bool :=
  delete (module_address #govtypes_ModuleName)
    (map_fold (λ acc _ modAccAddrs, <[module_address acc := true]> modAccAddrs) ∅ GetMaccPerms).

(** ** Store keys *)

Definition kv_store_names : list string := (key_of <$> [
  authtypes_StoreKey; banktypes_StoreKey; stakingtypes_StoreKey; crisistypes_StoreKey;
  minttypes_StoreKey; distrtypes_StoreKey; slashingtypes_StoreKey; govtypes_StoreKey;
  paramstypes_StoreKey; consensusparamtypes_StoreKey; upgradetypes_StoreKey; feegrant_StoreKey;
  evidencetypes_StoreKey; circuittypes_StoreKey; authzkeeper_StoreKey; nftkeeper_StoreKey;
  group_StoreKey; capabilitytypes_StoreKey; ibcexported_StoreKey; ibctransfertypes_StoreKey;
  ibcfeetypes_StoreKey; icahosttypes_StoreKey; icacontrollertypes_StoreKey]) ++
  [multisig_ModuleName; ModuleName].

(** A key is a pointer to a struct that holds its name; the constructors of the
    SDK answer the map from each name to a key of that name. *)
Definition NewKeys (names : list string) : gmap string string :=
  list_to_map ((λ n, (n, n)) <$> names).

Definition keys : gmap string string := NewKeys kv_store_names.
Definition tkeys : gmap string string := NewKeys [TStoreKey].
Definition memKeys : gmap string string := NewKeys [MemStoreKey].

Definition GetKey (storeKey : string) : option string := keys !! storeKey.
Definition GetTKey (storeKey : string) : option string := tkeys !! storeKey.
Definition GetMemKey (storeKey : string) : option string := memKeys !! storeKey.

(** [order] is the order in which the loop over the map meets the keys. *)
Definition GetStoreKeys (order : list string) : list string := merge_sort String.le order.

(** ** The orders of the modules *)

Definition SetOrderPreBlockers : list string := [ #upgradetypes_ModuleName].

(** The modules that come last in every order. *)
Definition SetOrderBeginBlockers : list string := [
  #minttypes_ModuleName; #distrtypes_ModuleName; #slashingtypes_ModuleName;
  #evidencetypes_ModuleName; #stakingtypes_ModuleName; #genutiltypes_ModuleName;
  #authz_ModuleName;
  #capabilitytypes_ModuleName; #ibctransfertypes_ModuleName; #ibcexported_ModuleName;
  #icatypes_ModuleName; #ibcfeetypes_ModuleName; multisig_ModuleName; ModuleName].

Definition SetOrderEndBlockers : list string := [
  #crisistypes_ModuleName; #govtypes_ModuleName; #stakingtypes_ModuleName;
  #genutiltypes_ModuleName; #feegrant_ModuleName; #group_ModuleName;
  #capabilitytypes_ModuleName; #ibctransfertypes_ModuleName; #ibcexported_ModuleName;
  #icatypes_ModuleName; #ibcfeetypes_ModuleName; multisig_ModuleName; ModuleName].

Definition genesisModuleOrder : list string := [
  #capabilitytypes_ModuleName;
  #authtypes_ModuleName; #banktypes_ModuleName; #distrtypes_ModuleName;
  #stakingtypes_ModuleName; #slashingtypes_ModuleName; #govtypes_ModuleName;
  #minttypes_ModuleName; #crisistypes_ModuleName; #genutiltypes_ModuleName;
  #evidencetypes_ModuleName; #authz_ModuleName; #feegrant_ModuleName; #nft_ModuleName;
  #group_ModuleName; #paramstypes_ModuleName; #upgradetypes_ModuleName;
  #vestingtypes_ModuleName; #consensusparamtypes_ModuleName; #circuittypes_ModuleName;
  #ibctransfertypes_ModuleName; #ibcexported_ModuleName; #icatypes_ModuleName;
  #ibcfeetypes_ModuleName; multisig_ModuleName; ModuleName].
End tables.

(** ** Subspaces of parameters *)

(** The parameter keeper of the SDK: [Subspace] panics on an empty or a taken
    name; a key table is one of those of ibc-go. *)
Inductive KeyTable : Type :=
  | ibcclient_with_connection | ibctransfer_KeyTable | icacontroller_KeyTable | icahost_KeyTable.

Class ParamsKeeper (PK : Type) := {
  NewParamsKeeper : option string → option string → PK;
  NewSubspace : string → PK → outcome PK;
  WithKeyTable : string → KeyTable → PK → PK;
  (** the table of a subspace that is there *)
  FindSubspace : PK → string → option (option KeyTable);
}.
Class ParamsKeeperLaws (PK : Type) `{!ParamsKeeper PK} : Prop := {
  FindSubspace_new key tkey n : FindSubspace (NewParamsKeeper key tkey) n = None;
  NewSubspace_fresh pk n : n ≠ "" → FindSubspace pk n = None →
    ∃ pk', NewSubspace n pk = Ok pk' ∧ FindSubspace pk' n = Some None ∧
      ∀ n', n' ≠ n → FindSubspace pk' n' = FindSubspace pk n';
  WithKeyTable_find pk n t n' : FindSubspace pk n = Some None →
    FindSubspace (WithKeyTable n t pk) n' = if decide (n' = n) then Some (Some t) else FindSubspace pk n';
}.

Section subspaces.
Context `{Names} {PK : Type} `{!ParamsKeeper PK}.

(** The subspaces in the order of their creation, with their tables. *)
Definition subspace_names : list (string * option KeyTable) := [
  (#baseapp_Paramspace, None);
  (#authtypes_ModuleName, None); (#banktypes_ModuleName, None); (#stakingtypes_ModuleName, None);
  (#minttypes_ModuleName, None); (#distrtypes_ModuleName, None);
  (#slashingtypes_ModuleName, None); (#govtypes_ModuleName, None); (#crisistypes_ModuleName, None);
  (#ibcexported_ModuleName, Some ibcclient_with_connection);
  (#ibctransfertypes_ModuleName, Some ibctransfer_KeyTable);
  (#icacontrollertypes_SubModuleName, Some icacontroller_KeyTable);
  (#icahosttypes_SubModuleName, Some icahost_KeyTable);
  (multisig_ModuleName, None); (ModuleName, None)].

Definition add_subspace (pk : PK) (e : string * option KeyTable) : outcome PK :=
  pk ← NewSubspace e.1 pk;
  mret match e.2 with Some t => WithKeyTable e.1 t pk | None => pk end.

Definition initParamsKeeper (key tkey : option string) : outcome PK :=
  foldM add_subspace subspace_names (NewParamsKeeper key tkey).

(** The second result is ignored: an unknown name gives the zero subspace. *)
Definition GetSubspace (pk : PK) (moduleName : string) : string * bool :=
  match FindSubspace pk moduleName with
  | Some _ => (moduleName, true)
  | None => (""%string, false)
  end.
End subspaces.

(** ** Steps of the construction *)

(** The keepers of [ChainApp]. *)
Inductive KeeperField : Type :=
  | AccountKeeper | BankKeeper | CapabilityKeeper | StakingKeeper | SlashingKeeper | MintKeeper
  | DistrKeeper | GovKeeper | CrisisKeeper | UpgradeKeeper | ParamsKeeper_field | AuthzKeeper
  | EvidenceKeeper | FeeGrantKeeper | GroupKeeper | NFTKeeper | ConsensusParamsKeeper
  | CircuitKeeper | IBCKeeper | IBCFeeKeeper | ICAControllerKeeper | ICAHostKeeper
  | TransferKeeper | MultisigKeeper | OracleKeeper.

#[export] Instance KeeperField_eq_dec : EqDecision KeeperField.
Proof. solve_decision. Defined.

(** What a call is given.  [Of k what] is a part or a method of a keeper, such
    as [IBCKeeper.ChannelKeeper]; a key that is not in its map is nil. *)
Inductive Arg : Type :=
  | Nil | Const (name : string) | Str (s : string) | Num (n : Z) | Nums (l : gset Z) | Flag (b : bool)
  | Strs (l : list string) | Args (l : list Arg)
  | Keeper (k : KeeperField) | Of (k : KeeperField) (what : string)
  | StoreKey (key : option string) | KVStoreService (key : option string)
  | Subspace (s : string * bool) | Scoped (moduleName : string)
  | Perms (p : gmap string (list Permission)) | Addrs (a : gmap string bool)
  | Bech32Codec (prefix : string).

(** [Build] makes a keeper and stores it in its field; [Call] and [Must] are the
    other calls; [Must] is one whose error panics. *)
Inductive Step : Type :=
  | Build (field : KeeperField) (function : string) (args : list Arg)
  | Call (function : string) (args : list Arg)
  | Must (function : string) (args : list Arg).

(** The SDK over the state of the process: a call without an error returns or
    panics. *)
Class Sdk (W : Type) := {
  sdk_call : string → list Arg → W → option W;
  sdk_try : string → list Arg → M W ();
  config_prefix : W → string * string * string;
  SnapshotManager_set : W → bool;
  MkdirTemp : string → string → M W string;
}.

Section steps.
Context {W : Type} `{Sdk W}.

Definition sdk_run (function : string) (args : list Arg) : M W () := λ w,
  match sdk_call function args w with Some w' => (Ok (), w') | None => (Panic, w) end.

Definition run_step (s : Step) : M W () :=
  match s with
  | Build _ f args | Call f args => sdk_run f args
  | Must f args => must_run (sdk_try f args)
  end.

Definition GetBech32AccountAddrPrefix : M W string := gets (λ w, (config_prefix w).1.1).
Definition GetBech32ValidatorAddrPrefix : M W string := gets (λ w, (config_prefix w).1.2).
Definition GetBech32ConsensusAddrPrefix : M W string := gets (λ w, (config_prefix w).2).
End steps.

(** The values of the options after their casts. *)
Record AppOptions := mkAppOptions {
  InvCheckPeriod : Z;
  UnsafeSkipUpgrades : list Z;
  Home : string;
  telemetry_enabled : bool;
  SkipGenesisInvariants : bool;
}.

(** ** The parts of [NewChainApp] *)

Section parts.
Context `{Names} {PK : Type} `{!ParamsKeeper PK}.
(** [authtypes.NewModuleAddress(name).String()], and the prefixes that the
    configuration holds. *)
Context (module_address : string → string) (acc val cons : string).
Context (paramsKeeper : PK) (appOpts : AppOptions).

Definition authority_arg : Arg := Str (module_address #govtypes_ModuleName).
Definition service (k : SdkKey) : Arg := KVStoreService (GetKey (key_of k)).
Definition raw_key (k : SdkKey) : Arg := StoreKey (GetKey (key_of k)).
Definition space (n : string) : Arg := Subspace (GetSubspace paramsKeeper n).
Definition appCodec : Arg := Const "appCodec".
Definition MsgServiceRouter : Arg := Const "app.MsgServiceRouter()".

(** Before the keepers. *)
Definition base_steps (baseAppOptions : list Arg) : list Step := [
  Must "types.NewInterfaceRegistryWithOptions" [Bech32Codec acc; Bech32Codec val];
  Call "codec.NewProtoCodec" [Const "interfaceRegistry"];
  Call "codec.NewLegacyAmino" [];
  Call "authtx.NewTxConfig" [appCodec; Const "authtx.DefaultSignModes"];
  Call "std.RegisterLegacyAminoCodec" [Const "legacyAmino"];
  Call "std.RegisterInterfaces" [Const "interfaceRegistry"];
  Call "baseapp.NewBaseApp" [Str appName; Const "logger"; Const "db"; Const "txConfig.TxDecoder()";
    Args (baseAppOptions ++ [Const "baseapp.SetOptimisticExecution()"])];
  Call "bApp.SetCommitMultiStoreTracer" [Const "traceStore"];
  Call "bApp.SetVersion" [Const "version.Version"];
  Call "bApp.SetInterfaceRegistry" [Const "interfaceRegistry"];
  Call "bApp.SetTxEncoder" [Const "txConfig.TxEncoder()"];
  Call "storetypes.NewKVStoreKeys" [Strs kv_store_names];
  Call "storetypes.NewTransientStoreKeys" [Strs [TStoreKey]];
  Call "storetypes.NewMemoryStoreKeys" [Strs [MemStoreKey]];
  Must "bApp.RegisterStreamingServices" [Const "appOpts"; Strs kv_store_names]].

Definition consensus_steps : list Step := [
  Build ConsensusParamsKeeper "consensusparamkeeper.NewKeeper"
    [appCodec; service consensusparamtypes_StoreKey; authority_arg; Const "runtime.EventService{}"];
  Call "bApp.SetParamStore" [Of ConsensusParamsKeeper "ParamsStore"];
  Build CapabilityKeeper "capabilitykeeper.NewKeeper"
    [appCodec; raw_key capabilitytypes_StoreKey; StoreKey (GetMemKey MemStoreKey)];
  Call "app.CapabilityKeeper.ScopeToModule" [Keeper CapabilityKeeper; Str #ibcexported_ModuleName];
  Call "app.CapabilityKeeper.ScopeToModule" [Keeper CapabilityKeeper; Str #icahosttypes_SubModuleName];
  Call "app.CapabilityKeeper.ScopeToModule"
    [Keeper CapabilityKeeper; Str #icacontrollertypes_SubModuleName];
  Call "app.CapabilityKeeper.ScopeToModule"
    [Keeper CapabilityKeeper; Str #ibctransfertypes_ModuleName];
  Call "app.CapabilityKeeper.Seal" [Keeper CapabilityKeeper]].

Definition account_steps : list Step := [
  Build AccountKeeper "authkeeper.NewAccountKeeper"
    [appCodec; service authtypes_StoreKey; Const "authtypes.ProtoBaseAccount"; Perms maccPerms;
     Bech32Codec acc; Str acc; authority_arg];
  Build BankKeeper "bankkeeper.NewBaseKeeper"
    [appCodec; service banktypes_StoreKey; Keeper AccountKeeper;
     Addrs (BlockedAddresses module_address); authority_arg; Const "logger"];
  Must "tx.NewTxConfigWithOptions"
    [appCodec; Const "tx.DefaultSignModes"; Const "signingtype.SignMode_SIGN_MODE_TEXTUAL";
     Of BankKeeper "NewBankKeeperCoinMetadataQueryFn"];
  Build StakingKeeper "stakingkeeper.NewKeeper"
    [appCodec; service stakingtypes_StoreKey; Keeper AccountKeeper; Keeper BankKeeper;
     authority_arg; Bech32Codec val; Bech32Codec cons];
  Build MintKeeper "mintkeeper.NewKeeper"
    [appCodec; service minttypes_StoreKey; Keeper StakingKeeper; Keeper AccountKeeper;
     Keeper BankKeeper; Str #FeeCollectorName; authority_arg];
  Build DistrKeeper "distrkeeper.NewKeeper"
    [appCodec; service distrtypes_StoreKey; Keeper AccountKeeper; Keeper BankKeeper;
     Keeper StakingKeeper; Str #FeeCollectorName; authority_arg];
  Build SlashingKeeper "slashingkeeper.NewKeeper"
    [appCodec; Const "legacyAmino"; service slashingtypes_StoreKey; Keeper StakingKeeper;
     authority_arg];
  Build CrisisKeeper "crisiskeeper.NewKeeper"
    [appCodec; service crisistypes_StoreKey; Num (InvCheckPeriod appOpts); Keeper BankKeeper;
     Str #FeeCollectorName; authority_arg; Of AccountKeeper "AddressCodec()"];
  Build FeeGrantKeeper "feegrantkeeper.NewKeeper"
    [appCodec; service feegrant_StoreKey; Keeper AccountKeeper];
  Build CircuitKeeper "circuitkeeper.NewKeeper"
    [appCodec; service circuittypes_StoreKey; authority_arg; Of AccountKeeper "AddressCodec()"];
  Call "app.BaseApp.SetCircuitBreaker" [Keeper CircuitKeeper];
  Build AuthzKeeper "authzkeeper.NewKeeper"
    [service authzkeeper_StoreKey; appCodec; MsgServiceRouter; Keeper AccountKeeper];
  Build GroupKeeper "groupkeeper.NewKeeper"
    [raw_key group_StoreKey; appCodec; MsgServiceRouter; Keeper AccountKeeper;
     Args [Const "group.DefaultConfig()"; Num 10000]]].

(** The heights come from a map, as the set of its keys. *)
Definition skipUpgradeHeights : gset Z := list_to_set (UnsafeSkipUpgrades appOpts).

Definition govern_steps : list Step := [
  Build UpgradeKeeper "upgradekeeper.NewKeeper"
    [Nums skipUpgradeHeights; service upgradetypes_StoreKey; appCodec; Str (Home appOpts);
     Const "app.BaseApp"; authority_arg];
  Build IBCKeeper "ibckeeper.NewKeeper"
    [appCodec; raw_key ibcexported_StoreKey; space #ibcexported_ModuleName; Keeper StakingKeeper;
     Keeper UpgradeKeeper; Scoped #ibcexported_ModuleName; authority_arg];
  Call "app.StakingKeeper.SetHooks"
    [Keeper StakingKeeper; Of DistrKeeper "Hooks()"; Of SlashingKeeper "Hooks()"];
  Call "govv1beta1.NewRouter" [];
  Call "govRouter.AddRoute" [Const "govtypes.RouterKey"; Const "govv1beta1.ProposalHandler"];
  Call "govRouter.AddRoute"
    [Const "paramproposal.RouterKey"; Of ParamsKeeper_field "NewParamChangeProposalHandler"];
  Build GovKeeper "govkeeper.NewKeeper"
    [appCodec; service govtypes_StoreKey; Keeper AccountKeeper; Keeper BankKeeper;
     Keeper StakingKeeper; Keeper DistrKeeper; MsgServiceRouter;
     Args [Const "govtypes.DefaultConfig()"; Num 20000]; authority_arg];
  Call "govKeeper.SetLegacyRouter" [Keeper GovKeeper; Const "govRouter"];
  Call "govKeeper.SetHooks" [Keeper GovKeeper; Args []];
  Build NFTKeeper "nftkeeper.NewKeeper"
    [service nftkeeper_StoreKey; appCodec; Keeper AccountKeeper; Keeper BankKeeper];
  Build EvidenceKeeper "evidencekeeper.NewKeeper"
    [appCodec; service evidencetypes_StoreKey; Keeper StakingKeeper; Keeper SlashingKeeper;
     Of AccountKeeper "AddressCodec()"; Const "runtime.ProvideCometInfoService()"]].
End parts.

(** ** The keepers of both modules *)

(** [multisigkeeper.NewKeeper]: unlike the keeper of the oracle it stores what
    it is given.  [module_db] is what [ormdb.NewModuleDB] answers on the schema,
    with the table of proposals, and [schema] the result of [sb.Build]. *)
Record MultisigKeeperConf (T : Type) := mkMultisigKeeper {
  mk_ac : Arg; mk_router : Arg; mk_logger : string;
  mk_OrmDB : T; mk_authority : string; mk_BankKeeper : Arg;
}.
Arguments mkMultisigKeeper {T}.

Definition multisig_NewKeeper {T} (module_db : outcome (option T)) (schema : outcome ())
    (gov_authority : string) (ac router : Arg) (authority : string) (bankKeeper : Arg) :
    outcome (MultisigKeeperConf T) :=
  let authority := if String.eqb authority "" then gov_authority else authority in
  match module_db with
  | Ok db => match NewStateStore db with
      | Ok store => match schema with
          | Ok _ => Ok (mkMultisigKeeper ac router ("x/" +:+ multisig_ModuleName) store authority
              bankKeeper)
          | _ => Panic end
      | _ => Panic end
  | _ => Panic
  end.

(** The account keeper of the SDK knows the address of a module account exactly
    when the permissions have an entry for its name. *)
Class AuthKeeper (AK : Type) := NewAccountKeeper : gmap string (list Permission) → string → string → AK.
Class AuthKeeperLaws (AK : Type) `{!AuthKeeper AK, !World.AccountKeeper AK} : Prop :=
  GetModuleAddress_perms perms prefix authority name :
    is_Some (GetModuleAddress (NewAccountKeeper perms prefix authority) name) ↔
    is_Some (perms !! name).

Section more_parts.
Context `{Names} {PK : Type} `{!ParamsKeeper PK}.
Context (module_address : string → string) (paramsKeeper : PK) (appOpts : AppOptions).
Abbreviation authority_arg := (authority_arg module_address) (only parsing).
Abbreviation space := (space paramsKeeper) (only parsing).

Definition channel_args : list Arg := [Of IBCKeeper "ChannelKeeper"; Of IBCKeeper "PortKeeper"].

Definition ibc_steps : list Step := [
  Build IBCFeeKeeper "ibcfeekeeper.NewKeeper"
    ([appCodec; raw_key ibcfeetypes_StoreKey; Of IBCKeeper "ChannelKeeper"] ++ channel_args ++
     [Keeper AccountKeeper; Keeper BankKeeper]);
  Build TransferKeeper "ibctransferkeeper.NewKeeper"
    ([appCodec; raw_key ibctransfertypes_StoreKey; space #ibctransfertypes_ModuleName;
      Keeper IBCFeeKeeper] ++ channel_args ++
     [Keeper AccountKeeper; Keeper BankKeeper; Scoped #ibctransfertypes_ModuleName; authority_arg]);
  Build ICAHostKeeper "icahostkeeper.NewKeeper"
    ([appCodec; raw_key icahosttypes_StoreKey; space #icahosttypes_SubModuleName;
      Keeper IBCFeeKeeper] ++ channel_args ++
     [Keeper AccountKeeper; Scoped #icahosttypes_SubModuleName; MsgServiceRouter; authority_arg]);
  Call "app.ICAHostKeeper.WithQueryRouter" [Keeper ICAHostKeeper; Const "app.GRPCQueryRouter()"];
  Build ICAControllerKeeper "icacontrollerkeeper.NewKeeper"
    ([appCodec; raw_key icacontrollertypes_StoreKey; space #icacontrollertypes_SubModuleName;
      Keeper IBCFeeKeeper] ++ channel_args ++
     [Scoped #icacontrollertypes_SubModuleName; MsgServiceRouter; authority_arg]);
  Call "transfer.NewIBCModule" [Keeper TransferKeeper];
  Call "ibcfee.NewIBCMiddleware" [Const "transferStack"; Keeper IBCFeeKeeper];
  Call "icacontroller.NewIBCMiddleware" [Nil; Keeper ICAControllerKeeper];
  Call "ibcfee.NewIBCMiddleware" [Const "icaControllerStack"; Keeper IBCFeeKeeper];
  Call "icahost.NewIBCModule" [Keeper ICAHostKeeper];
  Call "ibcfee.NewIBCMiddleware" [Const "icaHostStack"; Keeper IBCFeeKeeper];
  Call "porttypes.NewRouter" [];
  Call "ibcRouter.AddRoute" [Str #ibctransfertypes_ModuleName; Const "transferStack"];
  Call "ibcRouter.AddRoute" [Str #icacontrollertypes_SubModuleName; Const "icaControllerStack"];
  Call "ibcRouter.AddRoute" [Str #icahosttypes_SubModuleName; Const "icaHostStack"];
  Call "app.IBCKeeper.SetRouter" [Keeper IBCKeeper; Const "ibcRouter"]].

(** The modules in the order in which the manager is given them. *)
Definition module_steps : list Step := [
  Call "genutil.NewAppModule" [Keeper AccountKeeper; Keeper StakingKeeper; Const "app"; Const "txConfig"];
  Call "auth.NewAppModule" [appCodec; Keeper AccountKeeper; Const "authsims.RandomGenesisAccounts";
    space #authtypes_ModuleName];
  Call "vesting.NewAppModule" [Keeper AccountKeeper; Keeper BankKeeper];
  Call "bank.NewAppModule" [appCodec; Keeper BankKeeper; Keeper AccountKeeper; space #banktypes_ModuleName];
  Call "feegrantmodule.NewAppModule" [appCodec; Keeper AccountKeeper; Keeper BankKeeper;
    Keeper FeeGrantKeeper; Const "interfaceRegistry"];
  Call "gov.NewAppModule" [appCodec; Keeper GovKeeper; Keeper AccountKeeper; Keeper BankKeeper;
    space #govtypes_ModuleName];
  Call "mint.NewAppModule" [appCodec; Keeper MintKeeper; Keeper AccountKeeper; Nil;
    space #minttypes_ModuleName];
  Call "slashing.NewAppModule" [appCodec; Keeper SlashingKeeper; Keeper AccountKeeper;
    Keeper BankKeeper; Keeper StakingKeeper; space #slashingtypes_ModuleName; Const "interfaceRegistry"];
  Call "distr.NewAppModule" [appCodec; Keeper DistrKeeper; Keeper AccountKeeper; Keeper BankKeeper;
    Keeper StakingKeeper; space #distrtypes_ModuleName];
  Call "staking.NewAppModule" [appCodec; Keeper StakingKeeper; Keeper AccountKeeper; Keeper BankKeeper;
    space #stakingtypes_ModuleName];
  Call "upgrade.NewAppModule" [Keeper UpgradeKeeper; Of AccountKeeper "AddressCodec()"];
  Call "evidence.NewAppModule" [Keeper EvidenceKeeper];
  Call "params.NewAppModule" [Keeper ParamsKeeper_field];
  Call "authzmodule.NewAppModule" [appCodec; Keeper AuthzKeeper; Keeper AccountKeeper;
    Keeper BankKeeper; Const "interfaceRegistry"];
  Call "groupmodule.NewAppModule" [appCodec; Keeper GroupKeeper; Keeper AccountKeeper;
    Keeper BankKeeper; Const "interfaceRegistry"];
  Call "nftmodule.NewAppModule" [appCodec; Keeper NFTKeeper; Keeper AccountKeeper; Keeper BankKeeper;
    Const "interfaceRegistry"];
  Call "consensus.NewAppModule" [appCodec; Keeper ConsensusParamsKeeper];
  Call "circuit.NewAppModule" [appCodec; Keeper CircuitKeeper];
  Call "capability.NewAppModule" [appCodec; Keeper CapabilityKeeper; Flag false];
  Call "ibc.NewAppModule" [Keeper IBCKeeper];
  Call "transfer.NewAppModule" [Keeper TransferKeeper];
  Call "ibcfee.NewAppModule" [Keeper IBCFeeKeeper];
  Call "ica.NewAppModule" [Keeper ICAControllerKeeper; Keeper ICAHostKeeper];
  Call "ibctm.NewAppModule" [];
  Call "crisis.NewAppModule" [Keeper CrisisKeeper; Flag (SkipGenesisInvariants appOpts);
    space #crisistypes_ModuleName];
  Call "multisig.NewAppModule" [appCodec; Keeper MultisigKeeper];
  Call "oracle.NewAppModule" [appCodec; Keeper OracleKeeper; Keeper AccountKeeper; Keeper BankKeeper];
  Call "module.NewManager" []].

Definition manager_steps : list Step := [
  Call "module.NewBasicManagerFromManager" [Const "app.ModuleManager"; Str #genutiltypes_ModuleName;
    Const "genutiltypes.DefaultMessageValidator"];
  Call "app.BasicModuleManager.RegisterLegacyAminoCodec" [Const "legacyAmino"];
  Call "app.BasicModuleManager.RegisterInterfaces" [Const "interfaceRegistry"];
  Call "app.ModuleManager.SetOrderPreBlockers" [Strs SetOrderPreBlockers];
  Call "app.ModuleManager.SetOrderBeginBlockers" [Strs SetOrderBeginBlockers];
  Call "app.ModuleManager.SetOrderEndBlockers" [Strs SetOrderEndBlockers];
  Call "app.ModuleManager.SetOrderInitGenesis" [Strs genesisModuleOrder];
  Call "app.ModuleManager.SetOrderExportGenesis" [Strs genesisModuleOrder];
  Call "app.ModuleManager.RegisterInvariants" [Keeper CrisisKeeper];
  Call "module.NewConfigurator" [appCodec; MsgServiceRouter; Const "app.GRPCQueryRouter()"];
  Must "app.ModuleManager.RegisterServices" [Const "app.configurator"]].

Definition service_steps : list Step := [
  Call "autocliv1.RegisterQueryServer" [Const "app.GRPCQueryRouter()"; Const "app.ModuleManager.Modules"];
  Must "runtimeservices.NewReflectionService" [];
  Call "reflectionv1.RegisterReflectionServiceServer"
    [Const "app.GRPCQueryRouter()"; Const "reflectionSvc"];
  Call "auth.NewAppModule" [appCodec; Keeper AccountKeeper; Const "authsims.RandomGenesisAccounts";
    space #authtypes_ModuleName];
  Call "module.NewSimulationManagerFromAppModules" [Const "app.ModuleManager.Modules";
    Str #authtypes_ModuleName];
  Call "app.sm.RegisterStoreDecoders" [];
  Call "app.SetPrepareProposal" [Keeper OracleKeeper; Keeper StakingKeeper];
  Call "app.SetProcessProposal" [Keeper OracleKeeper; Keeper StakingKeeper];
  Call "app.SetExtendVoteHandler" [Keeper OracleKeeper];
  Call "app.SetVerifyVoteExtensionHandler" [Keeper OracleKeeper];
  Call "app.MountKVStores" [Strs kv_store_names];
  Call "app.MountTransientStores" [Strs [TStoreKey]];
  Call "app.MountMemoryStores" [Strs [MemStoreKey]];
  Call "app.SetInitChainer" [Const "app.InitChainer"];
  Call "app.SetPreBlocker" [Const "app.PreBlocker"];
  Call "app.SetBeginBlocker" [Const "app.BeginBlocker"];
  Call "app.SetEndBlocker" [Const "app.EndBlocker"]].
End more_parts.

(** ** [NewChainApp] *)

Record ChainApp (PK AK T : Type) := mkChainApp {
  ca_ParamsKeeper : PK;
  ca_AccountKeeper : AK;
  ca_OracleKeeper : KeeperConf;
  ca_MultisigKeeper : MultisigKeeperConf T;
  ca_anteHandler : list AnteDecorator;
}.
Arguments mkChainApp {PK AK T}.

(** What the upgrade keeper answers during [RegisterUpgradeHandlers], and what
    the ORM library answers on the schema of the multisig module. *)
Class Surroundings (T VersionMap : Type) := {
  RunMigrations : VersionMap → outcome VersionMap;
  app_version : string;
  upgrade_info : outcome (string * Z);
  IsSkipHeight : Z → bool;
  module_db : outcome (option T);
  multisig_schema : outcome ();
}.

Section chain_app.
Context {W PK AK T VM : Type} `{Sdk W} `{Names} `{!ParamsKeeper PK} `{!AuthKeeper AK}.
Context `{!World.AccountKeeper AK} `{!Surroundings T VM} (module_address : string → string).
Abbreviation govAddr := (module_address #govtypes_ModuleName) (only parsing).

Definition setPostHandler : M W () :=
  must_run (sdk_try "posthandler.NewPostHandler" []);;
  sdk_run "app.SetPostHandler" [Const "postHandler"].

Definition load (loadLatest : bool) : M W () :=
  if loadLatest then
    must_run (sdk_try "app.LoadLatestVersion" []);; sdk_run "app.BaseApp.NewUncachedContext" [Flag true]
  else mret ().

Definition finish (loadLatest : bool) : M W (list AnteDecorator) :=
  anteHandler ← must_run (lift (NewAnteHandler (mkOptions true true true true)));
  sdk_run "app.SetAnteHandler" [Const "anteHandler"];;
  manager ← gets SnapshotManager_set;
  (if manager : bool then must_run (sdk_try "manager.RegisterExtensions" []) else mret ());;
  setPostHandler;;
  must_run (sdk_try "proto.MergedRegistry" []);;
  ignore_error (sdk_try "msgservice.ValidateProtoAnnotations" [Const "protoFiles"]);;
  load loadLatest;;
  mret anteHandler.

Definition NewChainApp (loadLatest : bool) (appOpts : AppOptions) (baseAppOptions : list Arg) :
    M W (ChainApp PK AK T) :=
  acc ← GetBech32AccountAddrPrefix; val ← GetBech32ValidatorAddrPrefix;
  forM run_step (base_steps acc val baseAppOptions);;
  paramsKeeper ← lift (initParamsKeeper (GetKey (key_of paramstypes_StoreKey)) (GetTKey TStoreKey));
  forM run_step (consensus_steps module_address);;
  acc ← GetBech32AccountAddrPrefix; val ← GetBech32ValidatorAddrPrefix;
  cons ← GetBech32ConsensusAddrPrefix;
  forM run_step (account_steps module_address acc val cons appOpts);;
  let accountKeeper := NewAccountKeeper maccPerms acc govAddr in
  forM run_step (govern_steps module_address paramsKeeper appOpts);;
  oracleKeeper ← lift (NewKeeper accountKeeper govAddr #distrtypes_ModuleName
    (telemetry_enabled appOpts) govAddr);
  multisigKeeper ← lift (multisig_NewKeeper module_db multisig_schema govAddr
    (Of AccountKeeper "AddressCodec()") MsgServiceRouter govAddr (Keeper BankKeeper));
  forM run_step (ibc_steps module_address paramsKeeper);;
  forM run_step (module_steps paramsKeeper appOpts);;
  forM run_step manager_steps;;
  lift (RegisterUpgradeHandlers RunMigrations app_version upgrade_info IsSkipHeight
    (mkSetup [] ∅ None)).1;;
  forM run_step (service_steps paramsKeeper);;
  anteHandler ← finish loadLatest;
  mret (mkChainApp paramsKeeper accountKeeper oracleKeeper multisigKeeper anteHandler).

(** ** The commands of [src/cmd/simd] that construct the application *)

(** [simtestutil.NewAppOptionsWithFlagHome(tempDir())]: every other option has
    its zero value. *)
Definition home_options (home : string) : AppOptions := mkAppOptions 0 [] home false false.

Definition tempDir : M W string :=
  dir ← must_run (MkdirTemp "" "simd");
  sdk_run "os.RemoveAll" [Str dir];; mret dir.

(** What follows builds the commands around the temporary application. *)
Definition NewRootCmd (commands : ChainApp PK AK T → M W ()) : M W () :=
  sdk_run "cfg.SetBech32PrefixForAccount" [Str Bech32PrefixAccAddr; Str Bech32PrefixAccPub];;
  sdk_run "cfg.SetBech32PrefixForValidator" [Str Bech32PrefixValAddr; Str Bech32PrefixValPub];;
  sdk_run "cfg.SetBech32PrefixForConsensusNode" [Str Bech32PrefixConsAddr; Str Bech32PrefixConsPub];;
  sdk_run "cfg.Seal" [];;
  dir ← tempDir;
  tempApp ← NewChainApp false (home_options dir) [];
  commands tempApp.

(** An error of the command is the exit status 1. *)
Definition exit_status (Execute : M W ()) : M W Z := λ s,
  match Execute s with
  | (Ok _, s') => (Ok 0, s') | (Err _, s') => (Ok 1, s') | (Panic, s') => (Panic, s')
  end.
Definition main (commands : ChainApp PK AK T → M W ()) (Execute : M W ()) : M W Z :=
  NewRootCmd commands;; exit_status Execute.

Definition newApp (appOpts : AppOptions) (DefaultBaseappOptions : list Arg) : M W (ChainApp PK AK T) :=
  NewChainApp true appOpts DefaultBaseappOptions.

(** [home] is the option when it is a string; [is_viper] the type of the
    options.  [nil] is given as the only option of the base application. *)
Definition appExport {X} (home : option string) (is_viper : bool) (appOpts : AppOptions) (height : Z)
    (ExportAppStateAndValidators : ChainApp PK AK T → M W X) : M W X :=
  match home with
  | None | Some EmptyString => throw (Errorf "application home is not set")
  | Some _ =>
      if negb is_viper then throw (Errorf "appOpts is not viper.Viper") else
      let appOpts := mkAppOptions 1 (UnsafeSkipUpgrades appOpts) (Home appOpts)
        (telemetry_enabled appOpts) (SkipGenesisInvariants appOpts) in
      chainApp ← NewChainApp (height =? -1) appOpts [Nil];
      (if negb (height =? -1) then sdk_try "app.LoadVersion" [Num height] else mret ());;
      ExportAppStateAndValidators chainApp
  end.
End chain_app.

(** ** Blocks and genesis *)

Section blocks.
Context {W : Type}.

(** [sync.Once]: done after the first call, even one that panics. *)
Definition once_Do (f : M W ()) : M (bool * W) () := λ '(done, w),
  if done : bool then (Ok (), (true, w)) else let '(r, w') := f w in (r, (true, w')).
Definition on_world {A} (m : M W A) : M (bool * W) A := λ '(done, w),
  let '(r, w') := m w in (r, (done, w')).

(** The migration of the consensus parameters, when there are none. *)
Definition migrate_once (Params MigrateParams : M W ()) : M W () := λ w,
  match Params w with
  | (Err _, w') => must_run MigrateParams w'
  | r => r
  end.

Definition FinalizeBlock {Req Resp} (Params MigrateParams : M W ()) (BaseApp_FinalizeBlock : Req → M W Resp)
    (req : Req) : M (bool * W) Resp :=
  once_Do (migrate_once Params MigrateParams);; on_world (BaseApp_FinalizeBlock req).

Definition InitChainer {Gen Resp} (Unmarshal : bytes → outcome Gen) (SetModuleVersionMap : M W ())
    (InitGenesis : Gen → M W Resp) (AppStateBytes : bytes) : M W Resp :=
  genesisState ← must_run (lift (Unmarshal AppStateBytes));
  must_run SetModuleVersionMap;;
  InitGenesis genesisState.
End blocks.

(** The modules of [AutoCliOpts]: those with a name that are application
    modules, the last one of a name. *)
Definition AutoCliOpts_modules {Module} (HasName : Module → option string)
    (IsAppModule : Module → bool) (Modules : list Module) : gmap string Module :=
  foldl (λ modules m,
    match HasName m with
    | Some moduleName => if IsAppModule m then <[moduleName := m]> modules else modules
    | None => modules
    end) ∅ Modules.

Section routes.
Context {W : Type} `{Sdk W}.
Definition RegisterAPIRoutes : M W () := forM run_step [
  Call "authtx.RegisterGRPCGatewayRoutes" [Const "clientCtx"; Const "apiSvr.GRPCGatewayRouter"];
  Call "cmtservice.RegisterGRPCGatewayRoutes" [Const "clientCtx"; Const "apiSvr.GRPCGatewayRouter"];
  Call "nodeservice.RegisterGRPCGatewayRoutes" [Const "clientCtx"; Const "apiSvr.GRPCGatewayRouter"];
  Call "app.BasicModuleManager.RegisterGRPCGatewayRoutes"
    [Const "clientCtx"; Const "apiSvr.GRPCGatewayRouter"];
  Must "server.RegisterSwaggerAPI" [Const "clientCtx"; Const "apiSvr.Router"; Const "apiConfig.Swagger"]].
End routes.

(** ** What the tables say *)

Section table_facts.
Context `{NamesLaws}.

Lemma name_of_ne_own n : name_of n ≠ ModuleName ∧ name_of n ≠ multisig_ModuleName ∧ name_of n ≠ "".
Proof. pose proof (name_of_own n) as Hn. set_solver. Qed.

(** Lists of names and keys without repetition, decided on the constructors. *)
Lemma NoDup_names (l : list SdkName) own :
  NoDup l → NoDup own → (∀ s, s ∈ own → s ∈ [multisig_ModuleName; ModuleName]) →
  NoDup ((name_of <$> l) ++ own).
Proof.
  intros Hl Ho Hs. apply NoDup_app. split; [by apply (NoDup_fmap_2 _)|]. split; [|done].
  intros s (n & -> & _)%list_elem_of_fmap Hin%Hs. pose proof (name_of_ne_own n). set_solver.
Qed.

Lemma kv_store_names_NoDup : NoDup kv_store_names.
Proof.
  unfold kv_store_names. apply NoDup_app. split; [|split].
  - apply (NoDup_fmap_2 _). by apply (bool_decide_unpack _).
  - intros s (k & -> & _)%list_elem_of_fmap Hin. pose proof (key_of_own k). set_solver.
  - by apply (bool_decide_unpack _).
Qed.

Lemma NewKeys_lookup names n : NewKeys names !! n = if decide (n ∈ names) then Some n else None.
Proof.
  unfold NewKeys. induction names as [|m names IH]; [done|]. cbn.
  destruct (decide (n = m)) as [->|Hn].
  - rewrite lookup_insert_eq. rewrite decide_True; [done|]. apply list_elem_of_here.
  - rewrite lookup_insert_ne, IH by done.
    repeat case_decide; [done|set_solver|set_solver|done].
Qed.

(** Every key of the code is in the map of the keys that are mounted. *)
Lemma GetKey_mounted k : GetKey (key_of k) = Some (key_of k).
Proof.
  unfold GetKey, keys. rewrite NewKeys_lookup, decide_True; [done|].
  unfold kv_store_names. apply elem_of_app. left. apply list_elem_of_fmap_2.
  by destruct k; apply (bool_decide_unpack _).
Qed.

(** Whatever the order in which the map is walked, the keys come out sorted. *)
Lemma GetStoreKeys_sorted order :
  order ≡ₚ kv_store_names →
  StronglySorted String.le (GetStoreKeys order) ∧ GetStoreKeys order ≡ₚ kv_store_names ∧
  ∀ order', order' ≡ₚ kv_store_names → GetStoreKeys order' = GetStoreKeys order.
Proof.
  intros Ho. unfold GetStoreKeys. split; [apply StronglySorted_merge_sort; apply _|].
  split; [by rewrite merge_sort_Permutation|]. intros order' Ho'.
  apply (StronglySorted_unique String.le); [apply StronglySorted_merge_sort; apply _..|].
  by rewrite !merge_sort_Permutation, Ho, Ho'.
Qed.

Lemma list_to_map_absent {A} (l : list (string * A)) n :
  Forall (λ e, e.1 ≠ n) l → (list_to_map l : gmap string A) !! n = None.
Proof.
  intros Hl. apply not_elem_of_list_to_map_1. intros (e & -> & Hin)%list_elem_of_fmap.
  rewrite Forall_forall in Hl. by apply (Hl e Hin).
Qed.

(** The permissions have no entry for the oracle. *)
Lemma maccPerms_oracle : maccPerms !! ModuleName = None.
Proof.
  apply list_to_map_absent.
  repeat (apply Forall_cons_2; [first [apply name_of_ne_own|discriminate]|]). by apply Forall_nil_2.
Qed.

Lemma GetMaccPerms_copy : GetMaccPerms = maccPerms.
Proof.
  unfold GetMaccPerms. induction maccPerms as [|k v m Hk Hf IH] using map_first_key_ind; [done|].
  by rewrite map_fold_insert_first_key, IH.
Qed.
End table_facts.

Section subspace_facts.
Context `{NamesLaws} {PK : Type} `{ParamsKeeperLaws PK}.

Lemma add_subspaces l (pk : PK) :
  NoDup l.*1 → Forall (λ e, e.1 ≠ "" ∧ FindSubspace pk e.1 = None) l →
  ∃ pk', foldM add_subspace l pk = Ok pk' ∧ ∀ n, FindSubspace pk' n =
    match (list_to_map l : gmap string (option KeyTable)) !! n with
    | Some t => Some t | None => FindSubspace pk n end.
Proof.
  revert pk. induction l as [|[n t] l IH]; intros pk; [by eauto|].
  intros [Hn Hnd]%NoDup_cons [[Hne Hf] Hl]%Forall_cons. cbn in Hn, Hne, Hf.
  destruct (NewSubspace_fresh pk n Hne Hf) as (pk1 & Hnew & Hfind & Hother).
  set (pk2 := match t with Some t => WithKeyTable n t pk1 | None => pk1 end).
  assert (∀ n', FindSubspace pk2 n' = if decide (n' = n) then Some t else FindSubspace pk n') as Hpk2.
  { intros n'. unfold pk2. destruct t as [t|]; [rewrite WithKeyTable_find by done|];
      (destruct (decide (n' = n)) as [->|]; [done|by apply Hother]). }
  destruct (IH pk2 Hnd) as (pk' & Hrun & Hall).
  { rewrite Forall_forall in Hl |- *. intros e He. destruct (Hl e He) as [? He']. split; [done|].
    rewrite Hpk2, decide_False; [done|]. intros <-. apply Hn. by apply list_elem_of_fmap_2. }
  exists pk'. split; [cbn; unfold add_subspace; cbn; by rewrite Hnew; cbn; fold pk2|].
  intros n'. rewrite Hall, Hpk2. cbn [list_to_map foldr uncurry].
  destruct (decide (n' = n)) as [->|Hn'].
  - rewrite lookup_insert_eq. by rewrite not_elem_of_list_to_map_1.
  - by rewrite lookup_insert_ne.
Qed.

Lemma subspace_names_ok :
  NoDup subspace_names.*1 ∧ Forall (λ e, e.1 ≠ "") subspace_names.
Proof.
  split.
  - apply (NoDup_names [baseapp_Paramspace; authtypes_ModuleName; banktypes_ModuleName;
      stakingtypes_ModuleName; minttypes_ModuleName; distrtypes_ModuleName; slashingtypes_ModuleName;
      govtypes_ModuleName; crisistypes_ModuleName; ibcexported_ModuleName;
      ibctransfertypes_ModuleName; icacontrollertypes_SubModuleName; icahosttypes_SubModuleName]
      [multisig_ModuleName; ModuleName]); [by apply (bool_decide_unpack _)..|done].
  - unfold subspace_names.
    repeat (apply Forall_cons_2; [first [apply name_of_ne_own|discriminate]|]). by apply Forall_nil_2.
Qed.

(** The parameter keeper is always built, with exactly these subspaces. *)
Lemma initParamsKeeper_Ok key tkey :
  ∃ pk, initParamsKeeper key tkey = Ok pk ∧
    ∀ n, FindSubspace pk n = (list_to_map subspace_names : gmap string (option KeyTable)) !! n.
Proof.
  destruct subspace_names_ok as [Hnd Hne].
  destruct (add_subspaces subspace_names (NewParamsKeeper key tkey) Hnd) as (pk & Hrun & Hf).
  { eapply Forall_impl; [exact Hne|]. intros e He. split; [done|]. apply FindSubspace_new. }
  exists pk. split; [done|]. intros n. rewrite Hf, FindSubspace_new. by destruct (list_to_map _ !! n).
Qed.

Lemma GetSubspace_found pk key tkey n :
  initParamsKeeper key tkey = Ok pk → n ∈ subspace_names.*1 → GetSubspace pk n = (n, true).
Proof.
  intros Hpk Hn. destruct (initParamsKeeper_Ok key tkey) as (pk' & Hpk' & Hf).
  rewrite Hpk in Hpk'. injection Hpk' as <-. unfold GetSubspace. rewrite Hf.
  apply list_elem_of_fmap in Hn as ([n' t] & -> & Hin).
  rewrite (elem_of_list_to_map_1 _ _ t); [done| |done]. apply subspace_names_ok.
Qed.
End subspace_facts.

(** ** The wiring *)

(** Every keeper in [a] is one of [built], its keys are there and its subspaces
    are known. *)
Fixpoint arg_known (built : list KeeperField) (a : Arg) : Prop :=
  match a with
  | Keeper k | Of k _ => k ∈ built
  | StoreKey key | KVStoreService key => is_Some key
  | Subspace s => s.2 = true
  | Args l => (fix all (l : list Arg) : Prop :=
      match l with [] => True | a :: l' => arg_known built a ∧ all l' end) l
  | _ => True
  end.

Definition step_args (s : Step) : list Arg :=
  match s with Build _ _ args | Call _ args | Must _ args => args end.
Definition step_builds (s : Step) : list KeeperField :=
  match s with Build k _ _ => [k] | _ => [] end.

Fixpoint wired (built : list KeeperField) (steps : list Step) : Prop :=
  match steps with
  | [] => True
  | s :: steps' => Forall (arg_known built) (step_args s) ∧ wired (step_builds s ++ built) steps'
  end.

(** The steps of [NewChainApp] in their order; the keepers of both modules are
    built by their own [NewKeeper]. *)
Section wiring.
Context `{Names} {PK : Type} `{!ParamsKeeper PK}.
Context (module_address : string → string) (acc val cons : string) (paramsKeeper : PK).
Context (appOpts : AppOptions).

Definition own_keeper_steps : list Step := [
  Build OracleKeeper "oraclekeeper.NewKeeper"
    [appCodec; KVStoreService (GetKey ModuleName); space paramsKeeper ModuleName; Keeper AccountKeeper;
     Keeper BankKeeper; Keeper DistrKeeper; Keeper StakingKeeper; Str #distrtypes_ModuleName;
     Flag (telemetry_enabled appOpts); authority_arg module_address];
  Build MultisigKeeper "multisigkeeper.NewKeeper"
    [appCodec; Of AccountKeeper "AddressCodec()"; MsgServiceRouter;
     KVStoreService (GetKey multisig_ModuleName); Const "logger"; authority_arg module_address;
     Keeper BankKeeper]].

Definition construction : list Step :=
  consensus_steps module_address ++ account_steps module_address acc val cons appOpts ++
  govern_steps module_address paramsKeeper appOpts ++ own_keeper_steps ++
  ibc_steps module_address paramsKeeper ++ module_steps paramsKeeper appOpts ++
  manager_steps ++ service_steps paramsKeeper.
End wiring.

Section wiring_facts.
Context `{NamesLaws} {PK : Type} `{ParamsKeeperLaws PK}.

Lemma own_key_mounted n : n ∈ [multisig_ModuleName; ModuleName] → is_Some (GetKey n).
Proof.
  intros Hn. unfold GetKey, keys. rewrite NewKeys_lookup, decide_True; [eauto|].
  unfold kv_store_names. set_solver.
Qed.

Lemma MemKey_mounted : is_Some (GetMemKey MemStoreKey).
Proof. unfold GetMemKey, memKeys. rewrite NewKeys_lookup, decide_True; [eauto|set_solver]. Qed.

Lemma wired_Build built k f args steps :
  Forall (arg_known built) args → wired (k :: built) steps → wired built (Build k f args :: steps).
Proof. done. Qed.
Lemma wired_Call built f args steps :
  Forall (arg_known built) args → wired built steps → wired built (Call f args :: steps).
Proof. done. Qed.
Lemma wired_Must built f args steps :
  Forall (arg_known built) args → wired built steps → wired built (Must f args :: steps).
Proof. done. Qed.

Lemma known_service built k : arg_known built (service k).
Proof. unfold service. cbn [arg_known]. rewrite GetKey_mounted. by eexists. Qed.
Lemma known_raw_key built k : arg_known built (raw_key k).
Proof. unfold raw_key. cbn [arg_known]. rewrite GetKey_mounted. by eexists. Qed.
Lemma known_space built pk key tkey n :
  initParamsKeeper key tkey = Ok pk → n ∈ subspace_names.*1 → arg_known built (space pk n).
Proof. intros Hpk Hn. unfold space. cbn [arg_known]. by rewrite (GetSubspace_found pk key tkey). Qed.

Ltac known Hpk :=
  lazymatch goal with
  | |- arg_known ?b (Keeper ?k) => change (k ∈ b); by apply (bool_decide_unpack _)
  | |- arg_known ?b (Of ?k _) => change (k ∈ b); by apply (bool_decide_unpack _)
  | |- arg_known _ (service _) => apply known_service
  | |- arg_known _ (raw_key _) => apply known_raw_key
  | |- arg_known _ (space _ _) => apply (known_space _ _ _ _ _ Hpk); unfold subspace_names; cbn [fmap list_fmap fst]; set_solver
  | |- arg_known _ (StoreKey (GetMemKey _)) => exact MemKey_mounted
  | |- arg_known _ (KVStoreService _) => apply own_key_mounted; by apply (bool_decide_unpack _)
  | |- arg_known _ (Args _) => by repeat split
  | |- _ => exact I
  end.
Ltac wire Hpk := repeat
  lazymatch goal with
  | |- wired _ (Build _ _ _ :: _) => apply wired_Build
  | |- wired _ (Call _ _ :: _) => apply wired_Call
  | |- wired _ (Must _ _ :: _) => apply wired_Must
  | |- wired _ [] => exact I
  | |- Forall _ (_ :: _) => apply Forall_cons_2; [known Hpk|]
  | |- Forall _ [] => apply Forall_nil_2
  end.

Lemma construction_wired module_address acc val cons pk key tkey appOpts :
  initParamsKeeper key tkey = Ok pk →
  wired [ParamsKeeper_field] (construction module_address acc val cons pk appOpts).
Proof.
  intros Hpk. unfold construction, consensus_steps, account_steps, govern_steps, own_keeper_steps,
    ibc_steps, module_steps, manager_steps, service_steps, channel_args. cbn [app].
  wire Hpk.
Qed.
End wiring_facts.

(** Every keeper of [ChainApp] is built once, and nothing is given to a
    constructor, a module or a router that is not there yet: a keeper that is
    still the zero value, a nil store key or the zero subspace of a module whose
    parameters are not registered. *)
Theorem wiring_complete `{NamesLaws} {PK : Type} `{ParamsKeeperLaws PK}
    module_address acc val cons (pk : PK) key tkey appOpts :
  initParamsKeeper key tkey = Ok pk →
  let steps := construction module_address acc val cons pk appOpts in
  wired [ParamsKeeper_field] steps ∧
  NoDup (ParamsKeeper_field :: (steps ≫= step_builds)) ∧
  ∀ field, field ∈ ParamsKeeper_field :: (steps ≫= step_builds).
Proof.
  intros Hpk steps. split; [by eapply construction_wired|]. subst steps.
  assert ((construction module_address acc val cons pk appOpts ≫= step_builds) =
    [ConsensusParamsKeeper; CapabilityKeeper; AccountKeeper; BankKeeper; StakingKeeper; MintKeeper;
     DistrKeeper; SlashingKeeper; CrisisKeeper; FeeGrantKeeper; CircuitKeeper; AuthzKeeper;
     GroupKeeper; UpgradeKeeper; IBCKeeper; GovKeeper; NFTKeeper; EvidenceKeeper; OracleKeeper;
     MultisigKeeper; IBCFeeKeeper; TransferKeeper; ICAHostKeeper; ICAControllerKeeper]) as ->
    by reflexivity.
  split; [by apply (bool_decide_unpack _)|]. intros []; by apply (bool_decide_unpack _).
Qed.

(** The names of the routes of the old governance router. *)
Definition legacy_route (step : Step) : option Arg :=
  match step with
  | Call f (r :: _) => if String.eqb f "govRouter.AddRoute" then Some r else None
  | _ => None
  end.
Definition legacy_routes (steps : list Step) : list Arg := omap legacy_route steps.

(** A message of the oracle that is the content of an old proposal names the
    route of its module, for which no handler is added: gov can never execute
    it that way, and only the messages of the service change the parameters. *)
Theorem contents_have_no_route `{Names} {PK : Type} `{!ParamsKeeper PK}
    module_address acc val cons (pk : PK) appOpts (route : Arg → string) tys m c :
  route (Const "govtypes.RouterKey") = "gov"%string →
  route (Const "paramproposal.RouterKey") = "params"%string →
  Codec.AsContent tys m = Some c →
  Codec.ProposalRoute c ∉
    route <$> legacy_routes (construction module_address acc val cons pk appOpts).
Proof.
  intros Hgov Hparams Hc.
  assert (legacy_routes (construction module_address acc val cons pk appOpts) =
    [Const "govtypes.RouterKey"; Const "paramproposal.RouterKey"]) as -> by reflexivity.
  assert (Codec.ProposalRoute c = Codec.RouterKey) as ->.
  { unfold Codec.AsContent in Hc. destruct m; try done; destruct (tys !! _); by simplify_eq/=. }
  rewrite !fmap_cons, Hgov, Hparams. by apply (bool_decide_unpack (_ ∉ _)).
Qed.

(** ** The orders *)

Section orders.
Context `{NamesLaws}.

Definition app_orders : list (list string) :=
  [SetOrderPreBlockers; SetOrderBeginBlockers; SetOrderEndBlockers; genesisModuleOrder].

(** No order names a module twice, and each module with a step in a block has a
    place in the order of the genesis. *)
Lemma orders_ok order : order ∈ app_orders → NoDup order ∧ order ⊆ genesisModuleOrder.
Proof.
  assert (∀ (l l' : list SdkName) own own', NoDup l → NoDup own → l ⊆ l' → own ⊆ own' →
    own' ⊆ [multisig_ModuleName; ModuleName] →
    NoDup ((name_of <$> l) ++ own) ∧ (name_of <$> l) ++ own ⊆ (name_of <$> l') ++ own') as Hgen.
  { intros l l' own own' Hl Ho Hll' Hoo' Ho'. split.
    - apply NoDup_names; [done..|]. intros s Hs. by apply Ho', Hoo'.
    - intros s [(n & -> & Hn)%list_elem_of_fmap|Hs]%elem_of_app; apply elem_of_app.
      + left. apply list_elem_of_fmap_2. by apply Hll'.
      + right. by apply Hoo'. }
  set (own := [multisig_ModuleName; ModuleName]).
  set (gen := [capabilitytypes_ModuleName; authtypes_ModuleName; banktypes_ModuleName;
    distrtypes_ModuleName; stakingtypes_ModuleName; slashingtypes_ModuleName; govtypes_ModuleName;
    minttypes_ModuleName; crisistypes_ModuleName; genutiltypes_ModuleName; evidencetypes_ModuleName;
    authz_ModuleName; feegrant_ModuleName; nft_ModuleName; group_ModuleName; paramstypes_ModuleName;
    upgradetypes_ModuleName; vestingtypes_ModuleName; consensusparamtypes_ModuleName;
    circuittypes_ModuleName; ibctransfertypes_ModuleName; ibcexported_ModuleName; icatypes_ModuleName;
    ibcfeetypes_ModuleName]).
  intros [->|[->|[->|[->|[]%elem_of_nil]%elem_of_cons]%elem_of_cons]%elem_of_cons]%elem_of_cons.
  - apply (Hgen [upgradetypes_ModuleName] gen [] own); by apply (bool_decide_unpack _).
  - apply (Hgen [minttypes_ModuleName; distrtypes_ModuleName; slashingtypes_ModuleName;
      evidencetypes_ModuleName; stakingtypes_ModuleName; genutiltypes_ModuleName; authz_ModuleName;
      capabilitytypes_ModuleName; ibctransfertypes_ModuleName; ibcexported_ModuleName;
      icatypes_ModuleName; ibcfeetypes_ModuleName] gen own own); by apply (bool_decide_unpack _).
  - apply (Hgen [crisistypes_ModuleName; govtypes_ModuleName; stakingtypes_ModuleName;
      genutiltypes_ModuleName; feegrant_ModuleName; group_ModuleName; capabilitytypes_ModuleName;
      ibctransfertypes_ModuleName; ibcexported_ModuleName; icatypes_ModuleName;
      ibcfeetypes_ModuleName] gen own own); by apply (bool_decide_unpack _).
  - apply (Hgen gen gen own own); by apply (bool_decide_unpack _).
Qed.
End orders.


(** ** Blocked addresses *)

Lemma fold_addresses {A} (f : string → string) (m : gmap string A) a :
  is_Some ((map_fold (λ k _ addrs, <[f k := true]> addrs) ∅ m : gmap string bool) !! a) ↔
  ∃ k, is_Some (m !! k) ∧ f k = a.
Proof.
  induction m as [|k v m Hk Hf IH] using map_first_key_ind.
  - rewrite map_fold_empty, lookup_empty, is_Some_alt. split; [done|].
    intros (k & [v Hk] & _). by rewrite lookup_empty in Hk.
  - rewrite map_fold_insert_first_key by done. rewrite lookup_insert_is_Some, IH. split.
    + intros [<-|[_ (k' & Hk' & <-)]]; [exists k; by rewrite lookup_insert_eq|].
      exists k'. split; [|done]. rewrite lookup_insert_is_Some. destruct (decide (k = k')); [by left|by right].
    + intros (k' & Hk' & <-). rewrite lookup_insert_is_Some in Hk'.
      destruct (decide (f k = f k')) as [|Hne]; [by left|right].
      split; [done|]. exists k'. split; [|done]. destruct Hk' as [->|[_ ?]]; [by destruct Hne|done].
Qed.

(** The bank refuses coins for exactly the accounts of the permissions, but the
    account of the governance module. *)
Lemma BlockedAddresses_spec `{Names} module_address a :
  is_Some (BlockedAddresses module_address !! a) ↔
  a ≠ module_address #govtypes_ModuleName ∧ ∃ n, is_Some (maccPerms !! n) ∧ module_address n = a.
Proof.
  unfold BlockedAddresses. rewrite lookup_delete_is_Some, fold_addresses, GetMaccPerms_copy. naive_solver.
Qed.

(** ** The start of the node *)

(** A call that returns or panics. *)
Definition no_error {S A} (m : M S A) : Prop := ∀ s e, (m s).1 ≠ Err e.

Lemma no_error_ret {S A} (a : A) : no_error (mret a : M S A).
Proof. done. Qed.
Lemma no_error_bind {S A B} (m : M S A) (f : A → M S B) :
  no_error m → (∀ a, no_error (f a)) → no_error (m ≫= f).
Proof.
  intros Hm Hf s e. unfold mbind, M_bind. specialize (Hm s).
  destruct (m s) as [[a|e'|] s']; [apply Hf| |done]. by destruct (Hm e').
Qed.
Lemma no_error_must {S A} (m : M S A) : no_error (must_run m).
Proof. intros s e. unfold must_run. by destruct (m s) as [[]]. Qed.
Lemma no_error_gets {S A} (f : S → A) : no_error (gets f).
Proof. done. Qed.

(** The outcome of a sequence of such calls whose last one panics. *)
Lemma bind_panics {S A B} (m : M S A) (f : A → M S B) :
  no_error m → (∀ a s, (f a s).1 = Panic) → ∀ s, ((m ≫= f) s).1 = Panic.
Proof.
  intros Hm Hf s. unfold mbind, M_bind. specialize (Hm s).
  destruct (m s) as [[a|e|] s']; [apply Hf|by destruct (Hm e)|done].
Qed.
Lemma panic_bind {S A B} (m : M S A) (f : A → M S B) s : (m s).1 = Panic → ((m ≫= f) s).1 = Panic.
Proof. unfold mbind, M_bind. by destruct (m s) as [[]]. Qed.

Section start.
Context {W PK AK T VM : Type} `{Sdk W} `{NamesLaws} `{ParamsKeeperLaws PK}.
Context `{AuthKeeperLaws AK} `{!Surroundings T VM} (module_address : string → string).

Lemma no_error_run f args : no_error (sdk_run f args : M W ()).
Proof. intros s e. unfold sdk_run. by destruct (sdk_call f args s). Qed.
Lemma no_error_step s : no_error (run_step s : M W ()).
Proof. destruct s; cbn [run_step]; [apply no_error_run..|apply no_error_must]. Qed.
Lemma no_error_steps l : no_error (forM run_step l : M W ()).
Proof.
  induction l as [|s l IH]; [done|]. cbn [forM]. apply no_error_bind; [apply no_error_step|done].
Qed.

(** The oracle's keeper cannot be built over the account keeper. *)
Lemma oracle_keeper_panics prefix gov distr telemetry auth :
  NewKeeper (NewAccountKeeper maccPerms prefix gov : AK) gov distr telemetry auth = Panic.
Proof.
  unfold NewKeeper. destruct (GetModuleAddress _ _) eqn:Ha; [|done].
  pose proof (proj1 (GetModuleAddress_perms maccPerms prefix gov ModuleName)) as Hp.
  rewrite Ha, maccPerms_oracle, is_Some_alt in Hp. by destruct (Hp ltac:(by eexists)).
Qed.

Lemma NewChainApp_panics loadLatest appOpts options w :
  (NewChainApp (PK := PK) (AK := AK) module_address loadLatest appOpts options w).1 = Panic.
Proof.
  unfold NewChainApp. revert w.
  do 2 (apply bind_panics; [apply no_error_gets|]; intros ?).
  apply bind_panics; [apply no_error_steps|]. intros _.
  destruct (initParamsKeeper_Ok (PK := PK) (GetKey (key_of paramstypes_StoreKey)) (GetTKey TStoreKey))
    as (pk & -> & _).
  apply bind_panics; [done|]. intros ?.
  apply bind_panics; [apply no_error_steps|]. intros _.
  do 3 (apply bind_panics; [apply no_error_gets|]; intros ?).
  do 2 (apply bind_panics; [apply no_error_steps|]; intros _).
  intros w. apply panic_bind. cbn. apply oracle_keeper_panics.
Qed.

(** C10: Whatever the machine, the SDK, the options and the data do, constructing the
    application panics, because its account permissions have no entry for the
    oracle module and the oracle's keeper asks for the module's address.  So the
    root command of the binary panics before it has read an argument, the server
    cannot start the application, and an export ends in an error or a panic. *)
Theorem node_never_starts w loadLatest appOpts options commands Execute :
  (NewChainApp (PK := PK) (AK := AK) module_address loadLatest appOpts options w).1 = Panic ∧
  (main (PK := PK) (AK := AK) module_address commands Execute w).1 = Panic ∧
  (newApp (PK := PK) (AK := AK) module_address appOpts options w).1 = Panic ∧
  ∀ X home is_viper height (export : ChainApp PK AK T → M W X) x,
    (appExport module_address home is_viper appOpts height export w).1 ≠ Ok x.
Proof.
  split; [apply NewChainApp_panics|]. split; [|split; [apply NewChainApp_panics|]].
  - unfold main. apply panic_bind. unfold NewRootCmd. revert w.
    do 4 (apply bind_panics; [apply no_error_run|]; intros _).
    apply bind_panics; [|intros ?].
    { unfold tempDir. apply no_error_bind; [apply no_error_must|]. intros ?.
      apply no_error_bind; [apply no_error_run|done]. }
    intros w. apply panic_bind, NewChainApp_panics.
  - intros X home is_viper height export x. unfold appExport.
    destruct home as [[|c home]|]; [done| |done]. destruct is_viper; [|done]. cbn [negb].
    set (opts := mkAppOptions _ _ _ _ _).
    by rewrite (panic_bind _ _ w (NewChainApp_panics (height =? -1) opts [Nil] w)).
Qed.
End start.

(** ** Blocks *)

(** The consensus parameters are migrated before the first block only, and not
    when there are some; every block is then the block of the base application. *)
Lemma FinalizeBlock_once {W Req Resp} (Params Migrate : M W ()) (block : Req → M W Resp) req done w :
  let '(r, (done', w')) := FinalizeBlock Params Migrate block req (done, w) in
  done' = true ∧ (done = true → (r, w') = block req w) ∧
  (∀ w1, Params w = (Ok (), w1) → done = false → (r, w') = block req w1).
Proof.
  unfold FinalizeBlock, once_Do, on_world, migrate_once, must_run, mbind, M_bind.
  destruct done; [by destruct (block req w) as [[]]|].
  destruct (Params w) as [[[]|e|] w1].
  - destruct (block req w1) as [[]] eqn:Hb; (split; [done|]; split; [done|]; intros ? [= <-]; by rewrite Hb).
  - destruct (Migrate w1) as [[[]|e'|] w2]; [destruct (block req w2) as [[]]|..]; done.
  - done.
Qed.

(** ** The address prefixes of [app/params] *)

Definition AccountAddressPrefix : string := "dm".
Definition AccountPubKeyPrefix : string := AccountAddressPrefix +:+ "pub".
Definition ValidatorAddressPrefix : string := AccountAddressPrefix +:+ "valoper".
Definition ValidatorPubKeyPrefix : string := AccountAddressPrefix +:+ "valoperpub".
Definition ConsNodeAddressPrefix : string := AccountAddressPrefix +:+ "valcons".
Definition ConsNodePubKeyPrefix : string := AccountAddressPrefix +:+ "valconspub".

Definition SetAddressConfig {W} `{Sdk W} : M W () :=
  sdk_run "config.SetBech32PrefixForAccount" [Str AccountAddressPrefix; Str AccountPubKeyPrefix];;
  sdk_run "config.SetBech32PrefixForValidator" [Str ValidatorAddressPrefix; Str ValidatorPubKeyPrefix];;
  sdk_run "config.SetBech32PrefixForConsensusNode" [Str ConsNodeAddressPrefix; Str ConsNodePubKeyPrefix];;
  sdk_run "config.Seal" [].

(** ** Concrete packages *)

Definition sample_name (n : SdkName) : string :=
  match n with
  | FeeCollectorName => "fee_collector" | BondedPoolName => "bonded_tokens_pool"
  | NotBondedPoolName => "not_bonded_tokens_pool" | baseapp_Paramspace => "baseapp"
  | authtypes_ModuleName => "auth" | banktypes_ModuleName => "bank"
  | stakingtypes_ModuleName => "staking" | slashingtypes_ModuleName => "slashing"
  | minttypes_ModuleName => "mint" | distrtypes_ModuleName => "distribution"
  | govtypes_ModuleName => "gov" | crisistypes_ModuleName => "crisis"
  | evidencetypes_ModuleName => "evidence" | genutiltypes_ModuleName => "genutil"
  | authz_ModuleName => "authz" | feegrant_ModuleName => "feegrant" | group_ModuleName => "group"
  | nft_ModuleName => "nft" | paramstypes_ModuleName => "params" | upgradetypes_ModuleName => "upgrade"
  | vestingtypes_ModuleName => "vesting" | consensusparamtypes_ModuleName => "consensus"
  | circuittypes_ModuleName => "circuit" | capabilitytypes_ModuleName => "capability"
  | ibcexported_ModuleName => "ibc" | ibctransfertypes_ModuleName => "transfer"
  | ibcfeetypes_ModuleName => "feeibc" | icatypes_ModuleName => "interchainaccounts"
  | icahosttypes_SubModuleName => "icahost" | icacontrollertypes_SubModuleName => "icacontroller"
  | ibctm_ModuleName => "07-tendermint"
  end.
Definition sample_key (k : SdkKey) : string :=
  match k with
  | authtypes_StoreKey => "acc" | banktypes_StoreKey => "bank" | stakingtypes_StoreKey => "staking"
  | crisistypes_StoreKey => "crisis" | minttypes_StoreKey => "mint"
  | distrtypes_StoreKey => "distribution" | slashingtypes_StoreKey => "slashing"
  | govtypes_StoreKey => "gov" | paramstypes_StoreKey => "params"
  | consensusparamtypes_StoreKey => "consensus" | upgradetypes_StoreKey => "upgrade"
  | feegrant_StoreKey => "feegrant" | evidencetypes_StoreKey => "evidence"
  | circuittypes_StoreKey => "circuit" | authzkeeper_StoreKey => "authz" | nftkeeper_StoreKey => "nft"
  | group_StoreKey => "group" | capabilitytypes_StoreKey => "capability"
  | ibcexported_StoreKey => "ibc" | ibctransfertypes_StoreKey => "transfer"
  | ibcfeetypes_StoreKey => "feeibc" | icahosttypes_StoreKey => "icahost"
  | icacontrollertypes_StoreKey => "icacontroller"
  end.

Definition sample_names : Names := {|
  name_of := sample_name; key_of := sample_key;
  TStoreKey := "transient_params"; MemStoreKey := "memory_capability";
  PrefixPublic := "pub"; PrefixValidator := "val"; PrefixOperator := "oper"; PrefixConsensus := "cons";
|}.

#[export] Instance sample_names_laws : NamesLaws sample_names.
Proof.
  split.
  - intros [] [] Heq; first [reflexivity|discriminate Heq].
  - intros [] [] Heq; first [reflexivity|discriminate Heq].
  - intros []; by apply (bool_decide_unpack _).
  - intros []; by apply (bool_decide_unpack _).
Qed.

(** Both configurations of the prefixes agree. *)
Lemma prefixes_agree :
  (@Bech32PrefixAccPub sample_names, @Bech32PrefixValAddr sample_names,
   @Bech32PrefixValPub sample_names, @Bech32PrefixConsAddr sample_names,
   @Bech32PrefixConsPub sample_names) =
  (AccountPubKeyPrefix, ValidatorAddressPrefix, ValidatorPubKeyPrefix, ConsNodeAddressPrefix,
   ConsNodePubKeyPrefix).
Proof. reflexivity. Qed.

(** Parameters and permissions as maps. *)
#[export] Instance sample_params_keeper : ParamsKeeper (gmap string (option KeyTable)) := {|
  NewParamsKeeper _ _ := ∅;
  NewSubspace n pk := if decide (n = ""%string ∨ is_Some (pk !! n)) then Panic else Ok (<[n := None]> pk);
  WithKeyTable n t pk := <[n := Some t]> pk;
  FindSubspace pk n := pk !! n;
|}.
#[export] Instance sample_params_keeper_laws : ParamsKeeperLaws (gmap string (option KeyTable)).
Proof.
  split; cbn.
  - intros _ _ n. apply lookup_empty.
  - intros pk n Hn Hf. exists (<[n := None]> pk). rewrite decide_False.
    2:{ rewrite Hf, is_Some_alt. naive_solver. }
    split; [done|]. split; [apply lookup_insert_eq|]. intros n' Hn'. by rewrite lookup_insert_ne.
  - intros pk n t n' _. case_decide as Hd; [subst; apply lookup_insert_eq|by apply lookup_insert_ne].
Qed.

#[export] Instance sample_auth : AuthKeeper (gmap string (list Permission)) := λ perms _ _, perms.
#[export] Instance sample_auth_account : World.AccountKeeper (gmap string (list Permission)) := {|
  GetModuleAddress perms name := (λ _, name) <$> perms !! name;
  GetModuleAccount name := gets (λ perms, (λ _, name) <$> perms !! name);
|}.
#[export] Instance sample_auth_laws : AuthKeeperLaws (gmap string (list Permission)).
Proof. intros perms prefix authority name. cbn. apply fmap_is_Some. Qed.

(** An SDK where every call succeeds. *)
#[export] Instance sample_sdk : Sdk nat := {|
  sdk_call _ _ w := Some (S w);
  sdk_try _ _ w := (Ok (), S w);
  config_prefix _ := ("dm", "dmvaloper", "dmvalcons")%string;
  SnapshotManager_set _ := false;
  MkdirTemp _ _ w := (Ok "/tmp/simd1"%string, S w);
|}.
#[export] Instance sample_surroundings : Surroundings () () := {|
  RunMigrations := Ok; app_version := "v1"; upgrade_info := Ok (""%string, 0); IsSkipHeight _ := false;
  module_db := Ok (Some ()); multisig_schema := Ok ();
|}.

Lemma node_never_starts_witness :
  (@NewChainApp nat _ (gmap string (list Permission)) () () _ sample_names sample_params_keeper _ _ _
    (λ n, n) true (home_options "/root") [] 0%nat).1 = Panic ∧
  (@main nat _ (gmap string (list Permission)) () () _ sample_names sample_params_keeper _ _ _
    (λ n, n) (λ _, mret ()) (mret ()) 0%nat).1 = Panic.
Proof.
  destruct (@node_never_starts nat (gmap string (option KeyTable)) (gmap string (list Permission)) () ()
    _ sample_names _ _ _ _ _ _ _ (λ n, n) 0%nat true (home_options "/root") [] (λ _, mret ()) (mret ()))
    as (Happ & Hmain & _).
  split; [exact Happ|exact Hmain].
Defined.

Lemma wiring_complete_witness :
  ∃ pk : gmap string (option KeyTable),
    @initParamsKeeper sample_names _ sample_params_keeper (Some "params"%string) (Some "transient_params"%string)
      = Ok pk ∧
    @wired [ParamsKeeper_field]
      (@construction sample_names _ sample_params_keeper (λ n, n) "dm" "dmvaloper" "dmvalcons" pk
        (home_options "/root")).
Proof.
  destruct (@initParamsKeeper_Ok sample_names _ _ sample_params_keeper _ (Some "params"%string)
    (Some "transient_params"%string)) as (pk & Hpk & _).
  exists pk. split; [exact Hpk|].
  exact (proj1 (@wiring_complete sample_names _ _ sample_params_keeper _ (λ n, n) "dm" "dmvaloper"
    "dmvalcons" pk _ _ (home_options "/root") Hpk)).
Defined.

Lemma contents_have_no_route_witness :
  let m := Chain.OCancel (Msgs.mkMsgCancel "authority" "title" "description" 7) in
  ∃ c, Codec.AsContent ["0"; "1"; "2"; "3"; "4"; "5"]%string m = Some c ∧ Codec.ProposalRoute c ∉
    [ "gov"; "params"]%string.
Proof.
  eexists. split; [reflexivity|].
  set (route := λ a : Arg, match a with
    | Const n => if String.eqb n "govtypes.RouterKey" then "gov"%string else "params"%string
    | _ => ""%string end).
  exact (@contents_have_no_route sample_names (gmap string (option KeyTable)) sample_params_keeper
    (λ n, n) "dm" "dmvaloper" "dmvalcons" (NewParamsKeeper None None) (home_options "/root") route
    ["0"; "1"; "2"; "3"; "4"; "5"]%string
    (Chain.OCancel (Msgs.mkMsgCancel "authority" "title" "description" 7)) _ eq_refl eq_refl eq_refl).
Defined.
