(* ===== verification/Export.v ===== *)
(** * Export: the state of the application for a new genesis

    [src/app/export.go]: [ExportAppStateAndValidators] and the preparation for a
    chain that starts again at height zero.  The keepers it walks and writes are
    those of the SDK: classes over the state [W] of the process, where a
    collection is walked by [Iterate] and a row is stored by [SetRow]. *)
From S2P Require Import Prelude Util Types.
Local Open Scope Z_scope.

(** ** Data of the SDK, with the fields that the export reads or writes *)

Record Validator := mkValidator {
  v_OperatorAddress : string;
  v_UnbondingHeight : Z;
  v_Jailed : bool;
  v_rest : string;
}.
Record Delegation := mkDelegation { DelegatorAddress : string; ValidatorAddress : string }.

(** An entry of a redelegation or of an unbonding delegation; both records are
    a key and a list of entries. *)
Record Entry := mkEntry { CreationHeight : Z; e_rest : string }.
Record Redelegation := mkRedelegation { red_key : string; red_Entries : list Entry }.
Record UnbondingDelegation := mkUnbonding { ubd_key : string; ubd_Entries : list Entry }.
Record ValidatorSigningInfo := mkSigningInfo {
  si_addr : string; StartHeight : Z; si_rest : string;
}.

(** A collection of rows, walked in order until the callback stops. *)
Class Collection (W A : Type) := {
  rows : W → list A;
  row_key : A → string;
  Iterate : (A → M W bool) → M W ();
  SetRow : A → M W ();
}.

(** The walk of [rows], taken when it starts. *)
Fixpoint walk {W A} (l : list A) (cb : A → M W bool) : M W () :=
  match l with
  | [] => mret ()
  | a :: l' => stop ← cb a; if stop : bool then mret () else walk l' cb
  end.

(** [SetRow] writes the row of a key and nothing else of the collection. *)
Class CollectionLaws (W A : Type) `{!Collection W A} : Prop := {
  Iterate_walk cb w : Iterate cb w = walk (rows w) cb w;
  rows_NoDup w : NoDup (row_key <$> rows w);
  SetRow_rows (a : A) w w' : row_key a ∈ row_key <$> rows w → SetRow a w = (Ok (), w') →
    rows w' = (λ b, if decide (row_key b = row_key a) then a else b) <$> rows w;
}.

(** The other methods of the keepers; [Z] is the height of the context.  [DC] is
    [sdk.DecCoins]; the addition of its coins can panic. *)
Class ExportKeepers (W DC : Type) := {
  AssertInvariants : M W ();
  ValAddressFromBech32 : string → outcome addr;
  AccAddressFromBech32 : string → outcome addr;
  ValAddress_String : addr → string;
  ValidatorAddressCodec : string → outcome addr;
  WithdrawValidatorCommission : Z → addr → M W ();
  GetAllDelegations : W → outcome (list Delegation);
  WithdrawDelegationRewards : Z → addr → addr → M W ();
  DeleteAllValidatorSlashEvents : Z → W → W;
  DeleteAllValidatorHistoricalRewards : Z → W → W;
  GetValidatorOutstandingRewardsCoins : addr → W → outcome DC;
  FeePool_Get : W → outcome DC;
  FeePool_Set : DC → M W ();
  DecCoins_Add : DC → DC → option DC;
  AfterValidatorCreated : Z → addr → M W ();
  BeforeDelegationCreated : Z → addr → addr → M W ();
  AfterDelegationModified : Z → addr → addr → M W ();
  (** the addresses in the keys of a reverse walk of the validators *)
  validator_addresses : W → list addr;
  GetValidator : addr → W → outcome Validator;
  iter_Close : M W ();
  ApplyAndReturnValidatorSetUpdates : M W ();
}.

(** ** [prepForZeroHeightGenesis] *)

Section prepare.
Context {W DC : Type} `{!ExportKeepers W DC}.
Context `{!Collection W Validator, !Collection W Redelegation}.
Context `{!Collection W UnbondingDelegation, !Collection W ValidatorSigningInfo}.

(** A read whose error panics. *)
Definition must_get {A} (f : W → outcome A) : M W A := λ w, (must_ok (f w), w).

(** [log.Fatal] ends the process, as a panic does. *)
Definition allow_list (jailAllowedAddrs : list string) : outcome (gset string) :=
  foldM (λ (allowedAddrsMap : gset string) addr,
    must_ok (ValAddressFromBech32 addr);; mret ({[addr]} ∪ allowedAddrsMap)) jailAllowedAddrs ∅.

(** The error of the withdrawal is ignored; the calls of the callback panic on
    an error. *)
Definition withdraw_commission (h : Z) (val : Validator) : M W bool :=
  valBz ← lift (must_ok (ValidatorAddressCodec (v_OperatorAddress val)));
  ignore_error (WithdrawValidatorCommission h valBz);;
  mret false.

Definition withdraw_rewards (h : Z) (delegation : Delegation) : M W () :=
  valAddr ← lift (must_ok (ValAddressFromBech32 (ValidatorAddress delegation)));
  delAddr ← lift (must_ok (AccAddressFromBech32 (DelegatorAddress delegation)));
  must_run (WithdrawDelegationRewards h delAddr valAddr).

Definition reinitialize_validator (h : Z) (val : Validator) : M W bool :=
  valBz ← lift (must_ok (ValidatorAddressCodec (v_OperatorAddress val)));
  scraps ← must_get (GetValidatorOutstandingRewardsCoins valBz);
  feePool ← must_get FeePool_Get;
  feePool ← lift (or_panic (DecCoins_Add feePool scraps));
  must_run (FeePool_Set feePool);;
  must_run (AfterValidatorCreated h valBz);;
  mret false.

Definition reinitialize_delegation (h : Z) (del : Delegation) : M W () :=
  valAddr ← lift (must_ok (ValAddressFromBech32 (ValidatorAddress del)));
  delAddr ← lift (must_ok (AccAddressFromBech32 (DelegatorAddress del)));
  must_run (BeforeDelegationCreated h delAddr valAddr);;
  must_run (AfterDelegationModified h delAddr valAddr).

(** The state of fees and distribution, at height [h]. *)
Definition reset_distribution (h : Z) : M W () :=
  must_run (Iterate (withdraw_commission h));;
  dels ← must_get GetAllDelegations;
  forM (withdraw_rewards h) dels;;
  modify (DeleteAllValidatorSlashEvents h);;
  modify (DeleteAllValidatorHistoricalRewards h);;
  must_run (Iterate (reinitialize_validator h));;
  forM (reinitialize_delegation h) dels.

Definition zero_entries (l : list Entry) : list Entry := (λ e, mkEntry 0 (e_rest e)) <$> l.
Definition zero_redelegation (red : Redelegation) : Redelegation :=
  mkRedelegation (red_key red) (zero_entries (red_Entries red)).
Definition zero_unbonding (ubd : UnbondingDelegation) : UnbondingDelegation :=
  mkUnbonding (ubd_key ubd) (zero_entries (ubd_Entries ubd)).
Definition zero_signing_info (info : ValidatorSigningInfo) : ValidatorSigningInfo :=
  mkSigningInfo (si_addr info) 0 (si_rest info).

(** The callbacks that store a changed row and go on. *)
Definition store_changed {A} `{!Collection W A} (change : A → A) (a : A) : M W bool :=
  must_run (SetRow (change a));; mret false.

Definition reset_validator (applyAllowedAddrs : bool) (allowed : gset string) (addr : addr) : M W () :=
  validator ← must_get (GetValidator addr);
  let jailed := if applyAllowedAddrs && negb (bool_decide (ValAddress_String addr ∈ allowed))
                then true else v_Jailed validator in
  must_run (SetRow (mkValidator (v_OperatorAddress validator) 0 jailed (v_rest validator))).

(** The error of [Close] is logged and ends the preparation there. *)
Definition if_closed (close rest : M W ()) : M W () := λ w,
  match close w with (Ok _, w') => rest w' | (Err _, w') => (Ok (), w') | r => r end.

Definition prepForZeroHeightGenesis (jailAllowedAddrs : list string) : M W () :=
  must_run AssertInvariants;;
  let applyAllowedAddrs := 0 <? Z.of_nat (length jailAllowedAddrs) in
  allowedAddrsMap ← lift (allow_list jailAllowedAddrs);
  reset_distribution 0;;
  must_run (Iterate (store_changed zero_redelegation));;
  must_run (Iterate (store_changed zero_unbonding));;
  addresses ← gets validator_addresses;
  forM (reset_validator applyAllowedAddrs allowedAddrsMap) addresses;;
  if_closed iter_Close (
    must_run ApplyAndReturnValidatorSetUpdates;;
    must_run (Iterate (store_changed zero_signing_info))).

(** ** [ExportAppStateAndValidators] *)

Record ExportedApp (CP GV : Type) := mkExported {
  AppState : bytes; Validators : list GV; Height : Z; ConsensusParams : CP;
}.
Arguments mkExported {CP GV}.

Definition ExportAppStateAndValidators {Gen CP GV} (LastBlockHeight : W → Z)
    (ExportGenesisForModules : list string → M W Gen) (MarshalIndent : Gen → outcome bytes)
    (WriteValidators : M W (list GV)) (GetConsensusParams : W → CP)
    (forZeroHeight : bool) (jailAllowedAddrs modulesToExport : list string) :
    M W (ExportedApp CP GV) :=
  last ← gets LastBlockHeight;
  height ← (if forZeroHeight then prepForZeroHeightGenesis jailAllowedAddrs;; mret 0
            else mret (wrap_i64 (last + 1)));
  genState ← ExportGenesisForModules modulesToExport;
  appState ← lift (MarshalIndent genState);
  validators ← WriteValidators;
  params ← gets GetConsensusParams;
  mret (mkExported appState validators height params).
End prepare.

(** ** What the preparation leaves *)

Lemma must_run_Ok {S A} (m : M S A) s a s' : must_run m s = (Ok a, s') → m s = (Ok a, s').
Proof. unfold must_run. destruct (m s) as [[]]; by intros [= -> ->]. Qed.

(** The first row of a key replaces every row of it. *)
Lemma replace_other {A} (key : A → string) a (l : list A) :
  key a ∉ key <$> l → (λ b, if decide (key b = key a) then a else b) <$> l = l.
Proof.
  intros Ha. rewrite <- (list_fmap_id l) at 2. apply list_fmap_ext. intros i b Hb. cbn.
  rewrite decide_False; [done|]. intros Heq. apply Ha. rewrite <- Heq.
  apply list_elem_of_fmap_2. by eapply list_elem_of_lookup_2.
Qed.

Section collection.
Context {W A : Type} `{CollectionLaws W A}.

Lemma store_changed_Ok (change : A → A) a w stop w' :
  store_changed change a w = (Ok stop, w') → stop = false ∧ SetRow (change a) w = (Ok (), w').
Proof.
  intros ([] & w1 & Hs%must_run_Ok & [= <- <-])%M_bind_Ok. done.
Qed.

Lemma walk_store (change : A → A) l1 l2 w w' :
  (∀ a, row_key (change a) = row_key a) →
  rows w = (change <$> l1) ++ l2 → walk l2 (store_changed change) w = (Ok (), w') →
  rows w' = change <$> (l1 ++ l2).
Proof.
  intros Hkey. revert l1 w. induction l2 as [|a l2 IH]; intros l1 w Hrows.
  - intros [= <-]. by rewrite Hrows, !app_nil_r.
  - cbn [walk]. intros (stop & w1 & [-> Hset]%store_changed_Ok & Hwalk)%M_bind_Ok.
    rewrite cons_middle, app_assoc. apply (IH (l1 ++ [a]) w1); [|done].
    apply SetRow_rows in Hset.
    2:{ rewrite Hrows, Hkey, fmap_app. apply elem_of_app. right. left. }
    pose proof (rows_NoDup w) as Hnd. rewrite Hrows, fmap_app, fmap_cons in Hnd.
    apply NoDup_app in Hnd as (_ & Hdisj & [Ha _]%NoDup_cons).
    rewrite Hset, Hrows, !fmap_app, fmap_cons, <- app_assoc. cbn [fmap list_fmap app].
    rewrite decide_True by (by rewrite Hkey). rewrite replace_other; [|].
    + f_equal. f_equal. apply replace_other. by rewrite Hkey.
    + rewrite Hkey. intros Hin. by apply (Hdisj _ Hin), elem_of_cons; left.
Qed.

(** A walk that stores each row changed changes every row. *)
Lemma Iterate_store (change : A → A) w w' :
  (∀ a, row_key (change a) = row_key a) →
  must_run (Iterate (store_changed change)) w = (Ok (), w') → rows w' = change <$> rows w.
Proof.
  intros Hkey Hrun%must_run_Ok. rewrite Iterate_walk in Hrun.
  by apply (walk_store change [] (rows w) w).
Qed.
End collection.

(** Whatever a call returns, it leaves the rows of [A] as they are. *)
Definition keeps_rows (A : Type) {W B} `{!Collection W A} (m : M W B) : Prop :=
  ∀ w r w', m w = (r, w') → rows (A := A) w' = rows w.

Section keeps.
Context {W A : Type} `{!Collection W A}.

Lemma keeps_rows_bind {B C} (m : M W B) (f : B → M W C) :
  keeps_rows A m → (∀ b, keeps_rows A (f b)) → keeps_rows A (m ≫= f).
Proof.
  intros Hm Hf w r w'. unfold mbind, M_bind. destruct (m w) as [[b|e|] w1] eqn:E.
  - intros Hr. by rewrite (Hf _ _ _ _ Hr), (Hm _ _ _ E).
  - intros [= _ <-]. by rewrite (Hm _ _ _ E).
  - intros [= _ <-]. by rewrite (Hm _ _ _ E).
Qed.
Lemma keeps_rows_must {B} (m : M W B) : keeps_rows A m → keeps_rows A (must_run m).
Proof.
  intros Hm w r w'. unfold must_run. destruct (m w) as [r1 w1] eqn:E. intros [= _ <-]. by eapply Hm.
Qed.
Lemma keeps_rows_same {B} (m : M W B) : (∀ w, (m w).2 = w) → keeps_rows A m.
Proof. intros Hm w r w' E. specialize (Hm w). rewrite E in Hm. by cbn in Hm; subst. Qed.
Lemma keeps_rows_forM {B} (f : B → M W ()) l : (∀ b, keeps_rows A (f b)) → keeps_rows A (forM f l).
Proof.
  intros Hf. induction l as [|b l IH]; cbn [forM]; [by apply keeps_rows_same|].
  by apply keeps_rows_bind.
Qed.
Lemma keeps_rows_store {B} `{CollectionLaws W B} (change : B → B) :
  (∀ b : B, keeps_rows A (SetRow b)) → keeps_rows A (must_run (Iterate (store_changed change))).
Proof.
  intros Hs. apply keeps_rows_must. intros w r w'. rewrite Iterate_walk. generalize (rows w) as l.
  intros l. revert w r w'. induction l as [|b l IH]; cbn [walk]; [by apply keeps_rows_same|].
  apply keeps_rows_bind; [|intros []; [by apply keeps_rows_same|exact IH]].
  apply keeps_rows_bind; [apply keeps_rows_must, Hs|by intros; apply keeps_rows_same].
Qed.
End keeps.

Section prepared.
Context {W DC : Type} `{!ExportKeepers W DC}.
Context `{!Collection W Validator, !Collection W Redelegation}.
Context `{!Collection W UnbondingDelegation, !Collection W ValidatorSigningInfo}.

(** The modules have stores of their own: what the distribution and crisis
    modules and the update of the validator set do leaves redelegations,
    unbonding delegations and signing infos, and a row of one collection is
    written without touching the others. *)
Class OwnStores (A : Type) `{!Collection W A} : Prop := {
  AssertInvariants_keeps : keeps_rows A AssertInvariants;
  distribution_keeps h : keeps_rows A (reset_distribution h);
  SetValidator_keeps (v : Validator) : keeps_rows A (SetRow v);
  Close_keeps : keeps_rows A iter_Close;
  Apply_keeps : keeps_rows A ApplyAndReturnValidatorSetUpdates;
}.
Context `{!CollectionLaws W Redelegation, !CollectionLaws W UnbondingDelegation}.
Context `{!CollectionLaws W ValidatorSigningInfo}.
Context `{!OwnStores Redelegation, !OwnStores UnbondingDelegation, !OwnStores ValidatorSigningInfo}.
Context (red_ubd : ∀ r : Redelegation, keeps_rows UnbondingDelegation (SetRow r)).
Context (red_info : ∀ r : Redelegation, keeps_rows ValidatorSigningInfo (SetRow r)).
Context (ubd_red : ∀ u : UnbondingDelegation, keeps_rows Redelegation (SetRow u)).
Context (ubd_info : ∀ u : UnbondingDelegation, keeps_rows ValidatorSigningInfo (SetRow u)).
Context (info_red : ∀ i : ValidatorSigningInfo, keeps_rows Redelegation (SetRow i)).
Context (info_ubd : ∀ i : ValidatorSigningInfo, keeps_rows UnbondingDelegation (SetRow i)).
Context (red_keyed : ∀ r : Redelegation, row_key (zero_redelegation r) = row_key r).
Context (ubd_keyed : ∀ u : UnbondingDelegation, row_key (zero_unbonding u) = row_key u).
Context (info_keyed : ∀ i : ValidatorSigningInfo, row_key (zero_signing_info i) = row_key i).
Context (closes : ∀ w, (iter_Close w).1 = Ok ()).

Lemma reset_validator_keeps (A : Type) `{!Collection W A, !OwnStores A} apply allowed l :
  keeps_rows A (forM (reset_validator apply allowed) l).
Proof.
  apply keeps_rows_forM. intros a. unfold reset_validator.
  apply keeps_rows_bind; [by apply keeps_rows_same|]. intros v.
  apply keeps_rows_must, SetValidator_keeps.
Qed.

(** A preparation that succeeds keeps every redelegation, unbonding delegation
    and signing info, with all their heights at zero. *)
Theorem heights_are_zero jailAllowedAddrs w w' :
  prepForZeroHeightGenesis jailAllowedAddrs w = (Ok (), w') →
  rows w' = zero_redelegation <$> rows w ∧
  rows w' = zero_unbonding <$> rows w ∧
  rows w' = zero_signing_info <$> rows w.
Proof.
  unfold prepForZeroHeightGenesis, if_closed.
  intros ([] & w1 & Hinv & Hrun)%M_bind_Ok. apply M_bind_Ok in Hrun as (allowed & w2 & [= _ <-] & Hrun).
  apply M_bind_Ok in Hrun as ([] & w3 & Hdist & Hrun). apply M_bind_Ok in Hrun as ([] & w4 & Hred & Hrun).
  apply M_bind_Ok in Hrun as ([] & w5 & Hubd & Hrun). apply M_bind_Ok in Hrun as (addrs & w6 & [= <- <-] & Hrun).
  apply M_bind_Ok in Hrun as ([] & w7 & Hval & Hrun). pose proof (closes w7) as Hc.
  destruct (iter_Close w7) as [rc w8] eqn:Hclose. cbn in Hc. subst rc.
  apply M_bind_Ok in Hrun as ([] & w9 & Happ & Hinfo).
  assert (∀ A (C : Collection W A), OwnStores A → rows w3 = rows w ∧ rows w9 = rows w5) as Hown.
  { intros A C HA. split.
    - rewrite (distribution_keeps _ _ _ _ Hdist). by apply (keeps_rows_must _ AssertInvariants_keeps) in Hinv.
    - rewrite (keeps_rows_must _ Apply_keeps _ _ _ Happ), (Close_keeps _ _ _ Hclose).
      by apply (reset_validator_keeps A) in Hval. }
  split; [|split].
  - rewrite (keeps_rows_store (A := Redelegation) _ info_red _ _ _ Hinfo).
    rewrite (proj2 (Hown _ _ _)), (keeps_rows_store (A := Redelegation) _ ubd_red _ _ _ Hubd).
    by rewrite (Iterate_store _ _ _ red_keyed Hred), (proj1 (Hown _ _ _)).
  - rewrite (keeps_rows_store (A := UnbondingDelegation) _ info_ubd _ _ _ Hinfo), (proj2 (Hown _ _ _)).
    rewrite (Iterate_store _ _ _ ubd_keyed Hubd).
    by rewrite (keeps_rows_store (A := UnbondingDelegation) _ red_ubd _ _ _ Hred), (proj1 (Hown _ _ _)).
  - rewrite (Iterate_store _ _ _ info_keyed Hinfo), (proj2 (Hown _ _ _)).
    rewrite (keeps_rows_store (A := ValidatorSigningInfo) _ ubd_info _ _ _ Hubd).
    by rewrite (keeps_rows_store (A := ValidatorSigningInfo) _ red_info _ _ _ Hred), (proj1 (Hown _ _ _)).
Qed.
End prepared.

(** ** Validators *)

Section validators.
Context {W DC : Type} `{!ExportKeepers W DC} `{CollectionLaws W Validator}.
Context (key_at : addr → string) (key_at_inj : Inj (=) (=) key_at).
Context (GetValidator_row : ∀ a w v,
  GetValidator a w = Ok v → v ∈ rows w ∧ row_key v = key_at a).
Context (keyed_by_operator : ∀ o h h' j j' r,
  row_key (mkValidator o h j r) = row_key (mkValidator o h' j' r)).
Context (apply_list : bool) (allowed : gset string).

(** The row of the address has no height, and is jailed when a list of allowed
    addresses is given that does not have it. *)
Definition reset_at (a : addr) (w : W) : Prop :=
  ∀ v, v ∈ rows w → row_key v = key_at a →
    v_UnbondingHeight v = 0 ∧
    (apply_list = true → ValAddress_String a ∉ allowed → v_Jailed v = true).

Lemma reset_validator_rows a w w' :
  reset_validator apply_list allowed a w = (Ok (), w') →
  reset_at a w' ∧ ∀ b, reset_at b w → reset_at b w'.
Proof.
  intros (v & w1 & Hget & Hset%must_run_Ok)%M_bind_Ok. unfold must_get in Hget.
  destruct (GetValidator a w) as [v'| |] eqn:Hv; [|done..]. injection Hget as <- <-.
  destruct (GetValidator_row a w v' Hv) as [Hin Hkey].
  set (jailed := if apply_list && _ then true else _) in Hset.
  set (new := mkValidator (v_OperatorAddress v') 0 jailed (v_rest v')) in Hset.
  assert (row_key new = key_at a) as Hnew.
  { rewrite <- Hkey. destruct v'. apply keyed_by_operator. }
  apply SetRow_rows in Hset; [|rewrite Hnew, <- Hkey; by apply list_elem_of_fmap_2].
  assert (reset_at a w') as Ha.
  { intros u Hu Hku. rewrite Hset in Hu. apply list_elem_of_fmap in Hu as (u' & Hu & _).
    destruct (decide (row_key u' = row_key new)) as [|Hne]; [|congruence]. subst u.
    split; [done|]. intros Happ Hall. cbn. unfold jailed. rewrite Happ. cbn.
    by rewrite bool_decide_eq_false_2. }
  split; [done|]. intros b Hb. destruct (decide (b = a)) as [->|Hba]; [done|].
  intros u Hu Hku. rewrite Hset in Hu. apply list_elem_of_fmap in Hu as (u' & Hu & Hin').
  destruct (decide (row_key u' = row_key new)); [|by subst; apply Hb].
  subst u. rewrite Hnew in Hku. by apply key_at_inj in Hku.
Qed.

(** The loop over the validators resets each of them. *)
Theorem validators_reset l w w' :
  forM (reset_validator apply_list allowed) l w = (Ok (), w') →
  Forall (λ a, reset_at a w') l.
Proof.
  assert (∀ l w w', forM (reset_validator apply_list allowed) l w = (Ok (), w') →
    Forall (λ a, reset_at a w') l ∧ ∀ b, reset_at b w → reset_at b w') as Hgen.
  { clear l w w'. induction l as [|a l IH]; intros w w'; cbn [forM]; [by intros [= <-]|].
    intros ([] & w1 & [Ha Hkeep]%reset_validator_rows & Hl)%M_bind_Ok.
    destruct (IH _ _ Hl) as [Hall Hkeep']. split; [by apply Forall_cons_2; [apply Hkeep'|]|].
    intros b Hb. by apply Hkeep', Hkeep. }
  intros Hrun. by apply (Hgen l w w').
Qed.
End validators.

(** ** The exported document *)

(** A document for height zero says height zero, any other one the height at
    which the chain goes on. *)
Lemma exported_height {W DC Gen CP GV} `{!ExportKeepers W DC} `{!Collection W Validator}
    `{!Collection W Redelegation, !Collection W UnbondingDelegation, !Collection W ValidatorSigningInfo}
    last export marshal write params zero jail modules (w w' : W) (doc : ExportedApp CP GV) :
  ExportAppStateAndValidators (Gen := Gen) last export marshal write params zero jail modules w =
    (Ok doc, w') →
  Height _ _ doc = if zero then 0 else wrap_i64 (last w + 1).
Proof.
  unfold ExportAppStateAndValidators. intros (h & w1 & [= <- <-] & Hrun)%M_bind_Ok.
  apply M_bind_Ok in Hrun as (height & w2 & Hh & Hrun).
  apply M_bind_Ok in Hrun as (gen & w3 & _ & Hrun). apply M_bind_Ok in Hrun as (st & w4 & _ & Hrun).
  apply M_bind_Ok in Hrun as (vals & w5 & _ & Hrun). apply M_bind_Ok in Hrun as (cp & w6 & _ & [= <- _]).
  cbn. destruct zero; [|by injection Hh as <- _].
  by apply M_bind_Ok in Hh as ([] & w7 & _ & [= <- _]).
Qed.

(** ** A concrete store *)

(** Rows in a list, the first of each key. *)
Section first_rows.
Context {A : Type} (key : A → string).

Fixpoint first_rows (l : list A) : list A :=
  match l with
  | [] => []
  | a :: l' => a :: base.filter (λ b, key b ≠ key a) (first_rows l')
  end.
Definition replace_row (a b : A) : A := if decide (key b = key a) then a else b.

Lemma replace_row_key a b : key (replace_row a b) = key b.
Proof. unfold replace_row. by case_decide. Qed.
Lemma first_rows_replace a l : first_rows (replace_row a <$> l) = replace_row a <$> first_rows l.
Proof.
  induction l as [|b l IH]; [done|]. cbn [fmap list_fmap first_rows]. rewrite IH. f_equal.
  rewrite replace_row_key. generalize (first_rows l) as k. clear IH. induction k as [|c k IH]; [done|].
  cbn [fmap list_fmap]. rewrite !filter_cons, replace_row_key. case_decide; cbn [fmap list_fmap]; by rewrite IH.
Qed.
Lemma first_rows_NoDup l : NoDup (key <$> first_rows l).
Proof.
  induction l as [|a l IH]; [constructor|]. cbn [first_rows fmap list_fmap]. constructor.
  - intros (b & Hb & [Hne _]%list_elem_of_filter)%list_elem_of_fmap. by destruct Hne.
  - eapply sublist_NoDup; [exact IH|]. apply fmap_sublist, sublist_filter.
Qed.
End first_rows.

Record SampleStore := mkSampleStore {
  s_validators : list Validator; s_reds : list Redelegation;
  s_ubds : list UnbondingDelegation; s_infos : list ValidatorSigningInfo;
}.

(** A collection over one of the lists. *)
Definition list_collection {A} (key : A → string) (get : SampleStore → list A)
    (set : list A → SampleStore → SampleStore) : Collection SampleStore A := {|
  rows w := first_rows key (get w);
  row_key := key;
  Iterate cb := λ w, walk (first_rows key (get w)) cb w;
  SetRow a := modify (λ w, set (replace_row key a <$> get w) w);
|}.
Lemma list_collection_laws {A} (key : A → string) get set :
  (∀ l w, get (set l w) = l) →
  @CollectionLaws SampleStore A (list_collection key get set).
Proof.
  intros Hgs. split; cbn.
  - done.
  - intros w. apply first_rows_NoDup.
  - intros a w w' _ [= <-]. by rewrite Hgs, first_rows_replace.
Qed.

#[export] Instance sample_validators : Collection SampleStore Validator :=
  list_collection v_OperatorAddress s_validators
    (λ l w, mkSampleStore l (s_reds w) (s_ubds w) (s_infos w)).
#[export] Instance sample_reds : Collection SampleStore Redelegation :=
  list_collection red_key s_reds (λ l w, mkSampleStore (s_validators w) l (s_ubds w) (s_infos w)).
#[export] Instance sample_ubds : Collection SampleStore UnbondingDelegation :=
  list_collection ubd_key s_ubds (λ l w, mkSampleStore (s_validators w) (s_reds w) l (s_infos w)).
#[export] Instance sample_infos : Collection SampleStore ValidatorSigningInfo :=
  list_collection si_addr s_infos (λ l w, mkSampleStore (s_validators w) (s_reds w) (s_ubds w) l).
#[export] Instance sample_reds_laws : CollectionLaws SampleStore Redelegation.
Proof. by apply list_collection_laws. Qed.
#[export] Instance sample_ubds_laws : CollectionLaws SampleStore UnbondingDelegation.
Proof. by apply list_collection_laws. Qed.
#[export] Instance sample_infos_laws : CollectionLaws SampleStore ValidatorSigningInfo.
Proof. by apply list_collection_laws. Qed.

(** Keepers of a chain without rewards. *)
#[export] Instance sample_keepers : ExportKeepers SampleStore Z := {|
  AssertInvariants := mret ();
  ValAddressFromBech32 := Ok; AccAddressFromBech32 := Ok; ValAddress_String := id;
  ValidatorAddressCodec := Ok;
  WithdrawValidatorCommission _ _ := throw (Sdk "distribution ErrNoValidatorCommission");
  GetAllDelegations _ := Ok [mkDelegation "alice" "val1"];
  WithdrawDelegationRewards _ _ _ := mret ();
  DeleteAllValidatorSlashEvents _ := id; DeleteAllValidatorHistoricalRewards _ := id;
  GetValidatorOutstandingRewardsCoins _ _ := Ok 0; FeePool_Get _ := Ok 0; FeePool_Set _ := mret ();
  DecCoins_Add x y := Some (x + y);
  AfterValidatorCreated _ _ := mret (); BeforeDelegationCreated _ _ _ := mret ();
  AfterDelegationModified _ _ _ := mret ();
  validator_addresses w := v_OperatorAddress <$> s_validators w;
  GetValidator a w := match find (λ v, String.eqb (v_OperatorAddress v) a) (s_validators w) with
    | Some v => Ok v | None => Err (Sdk "staking ErrNoValidatorFound") end;
  iter_Close := mret (); ApplyAndReturnValidatorSetUpdates := mret ();
|}.

Definition sample_store : SampleStore := mkSampleStore
  [mkValidator "val1" 12 false ""; mkValidator "val2" 30 false ""]
  [mkRedelegation "alice" [mkEntry 7 "x"; mkEntry 9 "y"]] [mkUnbonding "bob" [mkEntry 4 "z"]]
  [mkSigningInfo "cons1" 5 ""].

(** Only the first validator is allowed. *)
Example prepared_store :
  prepForZeroHeightGenesis ["val1"%string] sample_store = (Ok (), mkSampleStore
    [mkValidator "val1" 0 false ""; mkValidator "val2" 0 true ""]
    [mkRedelegation "alice" [mkEntry 0 "x"; mkEntry 0 "y"]] [mkUnbonding "bob" [mkEntry 0 "z"]]
    [mkSigningInfo "cons1" 0 ""]).
Proof. by vm_compute. Qed.

(** Every call of the sample leaves the state. *)
Definition still {B} (m : M SampleStore B) : Prop := ∀ w, (m w).2 = w.
Lemma still_bind {B C} (m : M SampleStore B) (f : B → M SampleStore C) :
  still m → (∀ b, still (f b)) → still (m ≫= f).
Proof.
  intros Hm Hf w. unfold mbind, M_bind. specialize (Hm w). destruct (m w) as [[b|e|] w1]; cbn in Hm; subst;
    [apply Hf|done..].
Qed.
Lemma still_must {B} (m : M SampleStore B) : still m → still (must_run m).
Proof. intros Hm w. unfold must_run. specialize (Hm w). by destruct (m w). Qed.
Lemma still_forM {B} (f : B → M SampleStore ()) l : (∀ b, still (f b)) → still (forM f l).
Proof. intros Hf. induction l as [|b l IH]; cbn [forM]; [done|]. by apply still_bind. Qed.
Lemma still_walk (f : Validator → M SampleStore bool) : (∀ v, still (f v)) → still (Iterate f).
Proof.
  intros Hf w. cbn. generalize (first_rows v_OperatorAddress (s_validators w)) as l. intros l. revert w.
  induction l as [|v l IH]; [done|]. cbn [walk]. apply still_bind; [done|]. by intros [].
Qed.

Lemma sample_distribution h : still (reset_distribution h).
Proof.
  unfold reset_distribution.
  repeat first
    [ apply still_bind; [|intros ?] | apply still_must, still_walk; intros ?
    | apply still_forM; intros ? | apply still_must; done | done ].
Qed.

Lemma sample_own A `{!Collection SampleStore A} :
  (∀ v : Validator, keeps_rows A (SetRow (W := SampleStore) v)) → OwnStores (W := SampleStore) (DC := Z) A.
Proof.
  intros Hv. split; [by apply keeps_rows_same| |exact Hv|by apply keeps_rows_same..].
  intros h. apply keeps_rows_same, sample_distribution.
Qed.

Ltac other_row := intros ? ? ? ? [= _ <-]; reflexivity.
#[export] Instance own_reds : OwnStores (W := SampleStore) (DC := Z) Redelegation.
Proof. apply sample_own. other_row. Qed.
#[export] Instance own_ubds : OwnStores (W := SampleStore) (DC := Z) UnbondingDelegation.
Proof. apply sample_own. other_row. Qed.
#[export] Instance own_infos : OwnStores (W := SampleStore) (DC := Z) ValidatorSigningInfo.
Proof. apply sample_own. other_row. Qed.

Definition prepared : SampleStore := (prepForZeroHeightGenesis [] sample_store).2.
Lemma heights_are_zero_witness :
  rows prepared = zero_redelegation <$> rows sample_store ∧
  rows prepared = zero_unbonding <$> rows sample_store ∧
  rows prepared = zero_signing_info <$> rows sample_store.
Proof.
  apply (heights_are_zero (W := SampleStore) (DC := Z)) with (jailAllowedAddrs := []);
    first [other_row | reflexivity | by vm_compute].
Defined.
