(* ===== verification/Liveness.v ===== *)
(** * Liveness: price computations that cannot be stopped

    First a tally against a minority of arbitrary votes: when the arithmetic of
    a ballot cannot panic, where the rates of an honest majority are bounded and
    the other votes are any decimals.  Then the claims, the ballots and the
    stamps of one computation, up to the distribution of the rewards: with
    parameters that are set up for it, a minority of the power cannot make a
    step of it fail. *)
From S2P Require Import Prelude Util GoStrings Dec Types Params Store Bech32 Ballot Votes World.
From S2P Require Import State Subspace Keeper HistoricPrice Rewards EndBlock Chain.
Local Open Scope Z_scope.

Section totality.
Context `{DecLaws} `{!SqrtLaws}.

(** The range of a decimal. *)
Definition dec_range (z : Z) : Prop := Z.abs z < 2 ^ dec_max_bits.

Lemma dec_checked_range z : dec_range z → dec_checked z = Some z.
Proof. intros Hz. unfold dec_checked. by rewrite (proj2 (Z.ltb_lt _ _)). Qed.

Lemma dec_checked_in_range z c : dec_checked z = Some c → dec_range c.
Proof.
  intros Hc. pose proof (dec_checked_Some _ _ Hc) as ->. unfold dec_checked in Hc. unfold dec_range.
  by destruct (Z.ltb_spec (Z.abs z) (2 ^ dec_max_bits)).
Qed.

Lemma dec_range_big : 2 ^ 100 ≤ 2 ^ dec_max_bits.
Proof. pose proof dec_max_bits_big. apply Z.pow_le_mono_r; lia. Qed.

Lemma dec_range_0 : dec_range 0.
Proof. unfold dec_range. pose proof dec_max_bits_big. apply Z.pow_pos_nonneg; lia. Qed.

(** ** The standard deviation *)

(** The sum stays a decimal, and a vote at the median is never dropped. *)
Lemma deviation_step_range median sum n v :
  dec_range sum → dec_range (deviation_step median (sum, n) v).1.
Proof.
  intros Hs. unfold deviation_step. destruct (dec_Sub _ _) as [dv|]; simpl; [|done].
  destruct (dec_Mul dv dv) as [sq|]; simpl; [|done].
  destruct (dec_Add sum sq) eqn:Ha; simpl; [|done].
  rewrite dec_Add_spec in Ha. by eapply dec_checked_in_range.
Qed.

Lemma deviation_step_median sum n v :
  dec_range sum → deviation_step (vft_ExchangeRate v) (sum, n) v = (sum, n).
Proof.
  intros Hs. unfold deviation_step.
  rewrite dec_Sub_spec, Z.sub_diag, dec_checked_zero. cbn [mbind option_bind].
  rewrite dec_Mul_zero_l. cbn [mbind option_bind].
  by rewrite dec_Add_spec, Z.add_0_r, dec_checked_range.
Qed.

Lemma deviation_loop_range median pb sum n :
  dec_range sum →
  let r := foldl (deviation_step median) (sum, n) pb in
  dec_range r.1 ∧ n - Z.of_nat (length pb) ≤ r.2 ∧
  (median ∈ map vft_ExchangeRate pb → n - Z.of_nat (length pb) < r.2).
Proof.
  revert sum n. induction pb as [|v pb IH]; intros sum n Hs; cbn [foldl length map].
  { simpl. split_and!; [done|lia|]. by intros ?%elem_of_nil. }
  pose proof (deviation_step_range median sum n v Hs) as Hs'.
  assert (n - 1 ≤ (deviation_step median (sum, n) v).2 ≤ n) as Hn.
  { unfold deviation_step. destruct (_ ≫= _); simpl; lia. }
  destruct (deviation_step median (sum, n) v) as [sum' n'] eqn:Hstep. simpl in Hs', Hn.
  destruct (IH sum' n' Hs') as (? & ? & Hin). split_and!; [done|lia|].
  intros [->|?%Hin]%elem_of_cons; [|lia].
  rewrite deviation_step_median in Hstep by done. injection Hstep as -> ->. lia.
Qed.

(** The deviation of a sorted ballot with power always exists. *)
Lemma StandardDeviation_total pb :
  IsSorted pb = true → powers_ok pb → pb ≠ [] →
  ∃ r, StandardDeviation pb = Ok r ∧ 0 ≤ r ∧
    (r ≤ precision ∨ r * r ≤ 4 * 2 ^ dec_max_bits * precision).
Proof.
  intros Hs Hp Hne. destruct (WeightedMedian_total pb Hs) as (m & Hm & _).
  destruct (WeightedMedian_halves pb m Hs Hp Hne Hm) as (_ & _ & Hin).
  destruct (deviation_loop_range m pb LegacyZeroDec (Z.of_nat (length pb)) dec_range_0) as (Hr & _ & Hn).
  specialize (Hn Hin).
  destruct (deviation_loop_nonneg m pb LegacyZeroDec (Z.of_nat (length pb))) as [Hpos _]; [done|lia|].
  assert (∃ a, StandardDeviation pb = dec_ApproxSqrt a ∧ 0 ≤ a < 2 ^ dec_max_bits) as (a & Ha & Hb).
  { unfold StandardDeviation. rewrite decide_False by (destruct pb; simpl; [done|lia]).
    rewrite Hm. cbn [mbind outcome_bind]. destruct (foldl _ _ _) as [sum n]. simpl in *.
    rewrite dec_QuoInt64_spec by lia. exists (Z.quot sum n). split; [done|].
    unfold dec_range in Hr. split; [apply Z.quot_pos; lia|].
    rewrite Z.quot_div_nonneg by lia. apply (Z.le_lt_trans _ sum); [|lia].
    apply Z.div_le_upper_bound; nia. }
  destruct (dec_ApproxSqrt_total a Hb) as (r & Hsq). exists r. rewrite Ha. split_and!; [done| |].
  - eapply dec_ApproxSqrt_nonneg; [|done]. lia.
  - apply dec_ApproxSqrt_le in Hsq as [?|Hsq]; [by left|right|lia].
    etrans; [exact Hsq|]. unfold precision. lia.
Qed.

(** ** Votes within the majority's range *)

Lemma power_sum_split (P : VoteForTally → Prop) `{∀ v, Decision (P v)} pb :
  power_sum pb = power_sum (filter P pb) + power_sum (filter (λ v, ¬ P v) pb).
Proof.
  induction pb as [|v pb IH]; [done|]. rewrite !filter_cons. cbn [power_sum foldr]. fold (power_sum pb).
  rewrite IH. destruct (decide (P v)).
  - rewrite (decide_False (P := ¬ P v)) by tauto. cbn [power_sum foldr]. unfold power_sum. lia.
  - rewrite (decide_True (P := ¬ P v)) by done. cbn [power_sum foldr]. unfold power_sum. lia.
Qed.

(** The votes outside [P] hold less than half of the power, rounded down. *)
Definition minority (P : VoteForTally → Prop) `{∀ v, Decision (P v)} (pb : ExchangeRateBallot) : Prop :=
  power_sum (filter (λ v, ¬ P v) pb) < Z.quot (power_sum pb) 2.

Lemma majority_median (P : VoteForTally → Prop) `{∀ v, Decision (P v)} pb m lo hi :
  IsSorted pb = true → powers_ok pb → minority P pb →
  (∀ v, v ∈ pb → P v → lo ≤ vft_ExchangeRate v ≤ hi) →
  WeightedMedian pb = Ok m → lo ≤ m ≤ hi.
Proof.
  unfold minority. intros Hs Hp Hmin Hrange Hm. pose proof (proj1 Hp) as Hnn.
  assert (pb ≠ []) as Hne by (by intros ->).
  destruct (WeightedMedian_halves pb m Hs Hp Hne Hm) as (Hbelow & Hupto & _).
  pose proof (power_sum_split P pb) as Hsplit.
  assert (Z.quot (power_sum pb) 2 * 2 ≤ power_sum pb) as Hhalf.
  { rewrite Z.quot_div_nonneg; [|by apply power_sum_nonneg|lia].
    pose proof (Z.mul_div_le (power_sum pb) 2). lia. }
  split; apply Z.nlt_ge; intros Hlt.
  - pose proof (power_sum_filter_le (λ v, vft_ExchangeRate v ≤ m) (λ v, ¬ P v) pb Hnn) as Hle.
    assert (∀ v, v ∈ pb → vft_ExchangeRate v ≤ m → ¬ P v) as Hsub by (intros v Hin ? HP; apply (Hrange v Hin) in HP; lia).
    specialize (Hle Hsub). lia.
  - pose proof (power_sum_filter_le P (λ v, vft_ExchangeRate v < m) pb Hnn) as Hle.
    assert (∀ v, v ∈ pb → P v → vft_ExchangeRate v < m) as Hsub by (intros v Hin HP; apply (Hrange v Hin) in HP; lia).
    specialize (Hle Hsub). lia.
Qed.

(** ** The tally *)

Lemma deviation_small r :
  0 ≤ r → r ≤ precision ∨ r * r ≤ 4 * 2 ^ dec_max_bits * precision → r * 2 ≤ 2 ^ dec_max_bits.
Proof.
  intros Hr Hor. pose proof dec_max_bits_big as Hb.
  assert (2 ^ dec_max_bits = 2 ^ (dec_max_bits - 64) * 2 ^ 64) as He
    by (rewrite <- Z.pow_add_r by lia; f_equal; lia).
  assert (2 ^ 36 ≤ 2 ^ (dec_max_bits - 64)) by (apply Z.pow_le_mono_r; lia).
  unfold precision in *. set (q := 2 ^ (dec_max_bits - 64)) in *. rewrite He in *.
  destruct Hor as [Hle|Hle]; [lia|]. nia.
Qed.

(** The product with half of a band of at most one. *)
Lemma half_band_spread m band :
  0 ≤ m → m * 4 ≤ 2 ^ dec_max_bits → 0 ≤ band ≤ precision →
  ∃ c, dec_Mul m (Z.quot band 2) = Some c ∧ 0 ≤ c ∧ c * 2 ≤ m + 1.
Proof.
  intros Hm Hmax Hband. destruct (dec_Mul_spec m (Z.quot band 2)) as (c & Hc & ->). exists c.
  assert (0 ≤ Z.quot band 2 * 2 ≤ precision) as Hhalf.
  { rewrite Z.quot_div_nonneg by lia. pose proof (Z.mul_div_le band 2). pose proof (Z.div_pos band 2). lia. }
  set (h := Z.quot band 2) in *. assert (0 ≤ m * h * 2 ≤ m * precision) by nia.
  unfold precision in *. assert (0 ≤ c ∧ c * 2 ≤ m + 1) as [? ?] by lia.
  split; [|done]. apply dec_checked_range. unfold dec_range.
  pose proof dec_range_big. lia.
Qed.

Lemma wins_total median spread v :
  Z.abs median * 4 ≤ 2 ^ dec_max_bits → 0 ≤ spread → spread * 2 ≤ 2 ^ dec_max_bits →
  ∃ w, wins median spread v = Ok w.
Proof.
  intros Hm Hs Hs2. unfold wins.
  pose proof dec_range_big.
  rewrite dec_Sub_spec, dec_checked_range by (unfold dec_range; lia). cbn [mbind outcome_bind or_panic].
  destruct (_ <=? _); [|by eexists].
  rewrite dec_Add_spec, dec_checked_range by (unfold dec_range; lia). by eexists.
Qed.

Lemma foldM_total {A B} (f : B → A → outcome B) l b :
  (∀ b a, a ∈ l → ∃ b', f b a = Ok b') → ∃ b', foldM f l b = Ok b'.
Proof.
  revert b. induction l as [|a l IH]; intros b Hf; cbn [foldM]; [by eexists|].
  destruct (Hf b a) as [b1 ->]; [by left|]. cbn [mbind outcome_bind]. apply IH.
  intros. apply Hf. by right.
Qed.
End totality.

Section tally.
Context `{Bech32} `{DecLaws} `{!SqrtLaws}.

Lemma Tally_total (P : VoteForTally → Prop) `{∀ v, Decision (P v)} pb band claims inc lo hi :
  IsSorted pb = true → powers_ok pb → minority P pb →
  (∀ v, v ∈ pb → P v → lo ≤ vft_ExchangeRate v ≤ hi) →
  0 ≤ lo → hi * 4 ≤ 2 ^ dec_max_bits → 0 ≤ band ≤ precision →
  ∃ m claims', Tally pb band claims inc = Ok (m, claims') ∧ lo ≤ m ≤ hi.
Proof.
  intros Hs Hp Hmin Hr Hlo Hhi Hband.
  assert (pb ≠ []) as Hne by (by intros ->).
  destruct (WeightedMedian_total pb Hs) as (m & Hm & _).
  pose proof (majority_median P pb m lo hi Hs Hp Hmin Hr Hm) as Hbetween.
  destruct (StandardDeviation_total pb Hs Hp Hne) as (sd & Hsd & Hsd0 & Hsd1).
  apply deviation_small in Hsd1; [|done].
  destruct (half_band_spread m band) as (c & Hc & Hc0 & Hc1); [lia..|done|].
  destruct (foldM_total (λ claims v, w ← wins m (Z.max c sd) v;
    Ok (if w : bool then credit inc claims v else claims)) pb claims) as [claims' Hloop].
  { intros cl v _. destruct (wins_total m (Z.max c sd) v) as [w ->]; [|lia| |by eexists].
    - lia.
    - pose proof dec_range_big. lia. }
  exists m, claims'. split; [|done]. unfold Tally. rewrite Hm, Hsd. cbn [mbind outcome_bind].
  rewrite dec_QuoInt64_spec by done. cbn [or_panic mbind outcome_bind]. rewrite Hc.
  cbn [or_panic mbind outcome_bind]. by rewrite Hloop.
Qed.
End tally.

(** ** Stamped medians *)

Section median.
Context `{DecLaws} `{!SqrtLaws}.

(** Prices whose squared differences are decimals. *)
Definition price_bound (hi : LegacyDec) : Prop := 0 ≤ hi ∧ hi * hi * 4 ≤ 2 ^ dec_max_bits * precision.

Lemma price_bound_quarter hi : price_bound hi → hi * 4 ≤ 2 ^ dec_max_bits.
Proof.
  intros [Hhi Hsq]. pose proof dec_range_big.
  unfold precision in *. set (B := 2 ^ dec_max_bits) in *. nia.
Qed.

Lemma Median_total ds hi :
  ds ≠ [] → Forall (λ d, 0 ≤ d ≤ hi) ds → hi * 4 ≤ 2 ^ dec_max_bits →
  ∃ m, Median ds = Ok m ∧ 0 ≤ m ≤ hi.
Proof.
  intros Hne Hds Hhi. pose proof dec_range_big. enough (∃ m, Median ds = Ok m) as [m Hm].
  { exists m. split; [done|]. by eapply Median_bounds in Hm. }
  assert (Hin : ∀ i, (i < length ds)%nat → ∃ d, sort_decs ds !! i = Some d ∧ 0 ≤ d ≤ hi).
  { intros i Hi. destruct (lookup_lt_is_Some_2 (sort_decs ds) i) as [d Hd].
    { by rewrite sort_decs_length. }
    exists d. split; [done|]. rewrite Forall_forall in Hds. by apply Hds, (sort_decs_elem _ i). }
  unfold Median. rewrite sort_decs_length.
  assert (0 < length ds)%nat as Hl by (destruct ds; simpl; [done|lia]).
  pose proof (Nat.div_lt (length ds) 2 Hl ltac:(lia)).
  rewrite decide_False by lia. case_decide as Hev.
  - destruct (Hin (length ds / 2 - 1)%nat) as (a & -> & Ha); [lia|].
    destruct (Hin (length ds / 2)%nat) as (b & -> & Hb); [lia|]. cbn [or_panic mbind outcome_bind].
    rewrite dec_Add_spec, dec_checked_range by (unfold dec_range; lia). cbn [or_panic mbind outcome_bind].
    rewrite dec_QuoInt64_spec by done. by eexists.
  - destruct (Hin (length ds / 2)%nat) as (b & -> & Hb); [lia|]. by eexists.
Qed.

(** A fold whose accumulator grows by at most [q] at each element. *)
Lemma foldM_sum {A} (f : Z → A → outcome Z) l v0 q S :
  (∀ v a, a ∈ l → 0 ≤ v → v + q ≤ S → ∃ v', f v a = Ok v' ∧ 0 ≤ v' ≤ v + q) →
  0 ≤ q → 0 ≤ v0 → v0 + Z.of_nat (length l) * q ≤ S →
  ∃ v', foldM f l v0 = Ok v' ∧ 0 ≤ v' ≤ S.
Proof.
  intros Hf Hq. revert v0. induction l as [|a l IH]; intros v0 Hv; cbn [length foldM].
  { intros ?. exists v0. split; [done|lia]. }
  intros Hs. destruct (Hf v0 a) as (v1 & -> & ?); [by left|done|nia|]. cbn [mbind outcome_bind].
  apply IH; [|lia|nia]. intros. apply Hf; [by right|done..].
Qed.

Lemma MedianDeviation_total median ds hi :
  ds ≠ [] → Forall (λ d, 0 ≤ d ≤ hi) ds → 0 ≤ median ≤ hi → price_bound hi →
  ∃ r, MedianDeviation median ds = Ok r.
Proof.
  intros Hne Hds Hm Hb. pose proof (price_bound_quarter hi Hb) as Hq4. destruct Hb as [Hhi Hsq].
  pose proof dec_range_big.
  unfold MedianDeviation. assert (0 < Z.of_nat (length ds)) as Hn by (destruct ds; simpl; [done|lia]).
  rewrite decide_False by lia. set (n := Z.of_nat (length ds)) in *.
  set (B := 2 ^ dec_max_bits) in *. set (S := B / 2). set (q := S / n).
  assert (0 ≤ S ∧ S * 2 ≤ B) as [HS0 HS] by (subst S; pose proof (Z.mul_div_le B 2); pose proof (Z.div_pos B 2); lia).
  assert (0 ≤ q) by (apply Z.div_pos; lia).
  match goal with |- context [foldM ?f _ _] => set (step := f) end.
  destruct (foldM_sum step ds LegacyZeroDec q S) as (v & -> & Hv); [|done|done| |].
  - intros v d Hd Hv0 Hvq. subst step. simpl. rewrite Forall_forall in Hds. specialize (Hds d Hd).
    rewrite dec_Sub_spec, dec_checked_range by (unfold dec_range; fold B; lia).
    cbn [or_panic mbind outcome_bind]. rewrite dec_Power_two.
    set (a := Z.abs (d - median)). assert (0 ≤ a ≤ hi) as Ha by (subst a; lia).
    destruct (dec_Mul_spec a a) as (c & Hc & ->).
    assert (0 ≤ a * a ≤ hi * hi) as Haa by nia.
    assert (0 ≤ c ∧ c * 4 ≤ B + 2) as [Hc0 Hc4] by (unfold precision in *; lia).
    rewrite dec_checked_range by (unfold dec_range; fold B; lia).
    cbn [or_panic mbind outcome_bind]. rewrite dec_QuoInt64_spec by lia.
    cbn [or_panic mbind outcome_bind]. rewrite Z.quot_div_nonneg by lia.
    assert (0 ≤ c / n ≤ q) as Ht.
    { split; [apply Z.div_pos; lia|]. apply Z.div_le_mono; [lia|]. subst S. apply Z.div_le_lower_bound; lia. }
    rewrite dec_Add_spec, dec_checked_range by (unfold dec_range; fold B; lia).
    eexists. split; [done|]. lia.
  - unfold LegacyZeroDec. fold n. subst q. rewrite Z.add_0_l. apply Z.mul_div_le. lia.
  - cbn [mbind outcome_bind]. apply dec_ApproxSqrt_total. fold B. lia.
Qed.

Lemma CalcMedian_total {W} denom (s : State W) hi b r :
  price_bound hi → 0 < Types.MaximumPriceStamps (paramSpace s) →
  (∀ b r, HistoricPrices s !! (denom, b) = Some r → 0 ≤ r ≤ hi) →
  HistoricPrices s !! (denom, b) = Some r →
  ∃ f g, CalcAndSetHistoricMedian denom s = (Ok (), set_MedianDeviations f (set_MedianPrices g s)).
Proof.
  intros Hb Hn Hall Hl. unfold CalcAndSetHistoricMedian, MaximumPriceStamps, gets, mbind, M_bind.
  rewrite <- (Z2Nat.id (Types.MaximumPriceStamps _)) by lia. rewrite historicPrices_run.
  set (ds := map snd _).
  assert (ds ≠ []) as Hne.
  { subst ds. intros Hnil%map_eq_nil. revert Hnil. eapply newest_nonempty; [exact Hl|lia]. }
  assert (Forall (λ d, 0 ≤ d ≤ hi) ds) as Hds.
  { apply Forall_forall. intros x ([[d' b'] x'] & -> & [Hk Hd']%newest_elem)%list_elem_of_fmap.
    simpl in *. subst d'. by eapply Hall. }
  destruct (Median_total ds hi Hne Hds) as (m & Hm & Hmb); [by apply price_bound_quarter|].
  unfold lift. rewrite Hm. cbn [or_panic].
  unfold SetHistoricMedian, calcAndSetHistoricMedianDeviation, modify, lift, gets, mbind, M_bind.
  destruct (MedianDeviation_total m (sort_decs ds) hi) as [dev Hdev]; [| |done|done|].
  { intros Hnil. apply Hne, length_zero_iff_nil. rewrite <- sort_decs_length. by rewrite Hnil. }
  { apply Forall_forall. intros x Hx. rewrite sort_decs_perm in Hx. rewrite Forall_forall in Hds. auto. }
  simpl. rewrite Hdev. by do 2 eexists.
Qed.
End median.

(** ** Claims *)

Section claims.
Context `{Bech32}.

(** Every claim is of the validator whose address is its key. *)
Definition claims_keyed (claims : gmap string Claim) : Prop :=
  ∀ key c, claims !! key = Some c → ValAddress_String (cl_Recipient c) = key.

(** The claims of the same validators. *)
Definition same_validators (claims claims' : gmap string Claim) : Prop :=
  cl_Recipient <$> claims = cl_Recipient <$> claims'.

#[export] Instance same_validators_preorder : PreOrder same_validators.
Proof. split; [by intros c|]. intros a b c. unfold same_validators. congruence. Qed.

Lemma same_validators_lookup claims claims' key :
  same_validators claims claims' → is_Some (claims !! key) → is_Some (claims' !! key).
Proof.
  intros Hs. apply (f_equal (lookup key)) in Hs. rewrite !lookup_fmap in Hs. intros [c Hc].
  rewrite Hc in Hs. by destruct (claims' !! key).
Qed.

Lemma same_validators_keyed claims claims' :
  same_validators claims claims' → claims_keyed claims → claims_keyed claims'.
Proof.
  intros Hs Hk key c' Hc'. apply (f_equal (lookup key)) in Hs. rewrite !lookup_fmap, Hc' in Hs.
  destruct (claims !! key) as [c|] eqn:Hc; [|done]. simpl in Hs. injection Hs as <-. by apply Hk.
Qed.

Lemma credit_same inc claims v :
  is_Some (claims !! ValAddress_String (vft_Voter v)) → same_validators claims (credit inc claims v).
Proof.
  intros [c Hc]. unfold same_validators, credit. rewrite fmap_insert, Hc. simpl.
  symmetry. apply insert_id. by rewrite lookup_fmap, Hc.
Qed.

Lemma Tally_same `{DecOps} pb band claims inc m claims' :
  Tally pb band claims inc = Ok (m, claims') →
  (∀ v, v ∈ pb → is_Some (claims !! ValAddress_String (vft_Voter v))) →
  same_validators claims claims'.
Proof.
  unfold Tally. intros (median & _ & Ht)%bind_Ok Hvoters.
  apply bind_Ok in Ht as (sd & _ & Ht). apply bind_Ok in Ht as (half & _ & Ht).
  apply bind_Ok in Ht as (spread & _ & Ht). apply bind_Ok in Ht as (cs & Hloop & [= _ <-]).
  eapply (foldM_ind _ (same_validators claims)); [done| |exact Hloop].
  intros v c1 c2 Hin Hc1 Hstep. apply bind_Ok in Hstep as (w & _ & [= <-]).
  destruct w; [|done]. etransitivity; [exact Hc1|]. apply credit_same.
  eapply same_validators_lookup; [exact Hc1|]. by apply Hvoters.
Qed.

(** The slices are long enough for the claims. *)
Lemma ClaimMapToSlices_total claims rewardSet :
  claims_keyed claims →
  ∃ cs, ClaimMapToSlices (map snd (map_to_list claims)) rewardSet = Ok cs.
Proof.
  intros Hk. rewrite ClaimMapToSlices_spec. cbv zeta. rewrite decide_True; [by eexists|].
  rewrite <- (length_map (λ c, ValAddress_String (cl_Recipient c))).
  apply submseteq_length, NoDup_submseteq.
  - pose proof (NoDup_fst_map_to_list claims) as Hnd. unfold rewarded.
    assert (∀ e, e ∈ map_to_list claims → ValAddress_String (cl_Recipient e.2) = e.1) as He.
    { intros [key c] Hin%elem_of_map_to_list. by apply Hk. }
    revert Hnd He. induction (map_to_list claims) as [|e l IH]; intros Hnd He; [constructor|].
    cbn [fmap list_fmap map] in *. apply NoDup_cons in Hnd as [Hni Hnd]. rewrite filter_cons.
    assert (Hl : ∀ e, e ∈ l → ValAddress_String (cl_Recipient e.2) = e.1) by (intros; apply He; by right).
    case_decide; [|by apply IH]. cbn [map]. apply NoDup_cons. split; [|by apply IH].
    intros (c & Heq & [_ Hc]%list_elem_of_filter)%list_elem_of_fmap.
    apply list_elem_of_fmap in Hc as (e' & -> & Hin'). apply Hni, list_elem_of_fmap. exists e'.
    split; [|done]. rewrite <- (Hl e' Hin'), <- Heq. symmetry. apply He. by left.
  - intros x (c & -> & [Hc _]%list_elem_of_filter)%list_elem_of_fmap. done.
Qed.
End claims.

(** ** One ballot *)

(** A denom of one of the two lists, and a ballot that is counted. *)
Definition listed (p : Params) (d : string) : Prop :=
  DenomList_Contains (Types.MandatoryList p) d = true ∨ DenomList_Contains (Types.AcceptList p) d = true.

Definition counted (p : Params) (threshold total : Z) (b : BallotDenom) : Prop :=
  listed p (bd_Denom b) ∧
  threshold ≤ Z.quot (wrap_i64 (Power (bd_Ballot b) * MaxVoteThresholdMultiplier)) total.

(** Parameters that a computation can run with: each listed denom has a band,
    and medians are stamped at blocks where prices are. *)
Record computable (p : Params) : Prop := {
  cp_band d : listed p d → ∃ band, GetBandFromDenom (Types.RewardBands p) d = Ok band ∧ 0 ≤ band ≤ precision;
  cp_historic : 0 < Types.HistoricStampPeriod p;
  cp_median : 0 < Types.MedianStampPeriod p;
  cp_multiple : Types.MedianStampPeriod p mod Types.HistoricStampPeriod p = 0;
  cp_stamps : 0 < Types.MaximumPriceStamps p;
  cp_threshold : 0 ≤ Types.VoteThreshold p ≤ precision;
}.

Lemma GetBandFromDenom_fold rbl d d' :
  ToUpper d = ToUpper d' → GetBandFromDenom rbl d = GetBandFromDenom rbl d'.
Proof.
  intros Hd. induction rbl as [|rb rbl IH]; [done|]. cbn [GetBandFromDenom]. rewrite IH.
  by rewrite <- (EqualFold_ToUpper_l d), Hd, EqualFold_ToUpper_l.
Qed.

(** It is enough to look at the symbols of the lists. *)
Lemma listed_bands p (Q : LegacyDec → Prop) :
  (∀ x, x ∈ Types.MandatoryList p ++ Types.AcceptList p →
    ∃ band, GetBandFromDenom (Types.RewardBands p) (SymbolDenom x) = Ok band ∧ Q band) →
  ∀ d, listed p d → ∃ band, GetBandFromDenom (Types.RewardBands p) d = Ok band ∧ Q band.
Proof.
  intros Hx d [(x & Hin & Heq)%DenomList_Contains_spec|(x & Hin & Heq)%DenomList_Contains_spec];
    rewrite <- (GetBandFromDenom_fold _ _ _ Heq); apply Hx, elem_of_app; [by left|by right].
Qed.

Section ballot.
Context {W : Type} `{StakingKeeper W} `{CoinsOps} `{!DistributionKeeper W} `{!BankKeeper W}.
Context `{AccountKeeper W} `{PriceOracle W} `{EventManager}.
Context `{Bech32} `{DecLaws} `{!SqrtLaws} `{CoinOps} `{YamlDenom} `{Float64}.
Context (events_emitted : ∀ e, EmitTypedEvent_result e = Ok ()).
Context (lo hi : string → LegacyDec) (top : LegacyDec) (top_bound : price_bound top).
Context (band_lo : ∀ d, 0 ≤ lo d) (band_hi : ∀ d, hi d ≤ top).
Context (P : VoteForTally → Prop) `{!∀ v, Decision (P v)}.
Implicit Types s : State W.

(** The votes of [P] have rates in the range of the denom, and the others are
    a minority. *)
Definition sound_ballot (b : BallotDenom) : Prop :=
  IsSorted (bd_Ballot b) = true ∧ powers_ok (bd_Ballot b) ∧ minority P (bd_Ballot b) ∧
  ∀ v, v ∈ bd_Ballot b → P v → lo (bd_Denom b) ≤ vft_ExchangeRate v ≤ hi (bd_Denom b).

Definition stamps_ok s : Prop := ∀ key r, HistoricPrices s !! key = Some r → 0 ≤ r ≤ top.

(** What the loop leaves alone. *)
Definition loop_frame s s' : Prop :=
  paramSpace s' = paramSpace s ∧ BlockHeight s' = BlockHeight s ∧
  (stamps_ok s → stamps_ok s').

#[export] Instance loop_frame_preorder : PreOrder loop_frame.
Proof. split; [by intros s|]. intros s1 s2 s3 (? & ? & ?) (? & ? & ?). split_and!; [congruence..|auto]. Qed.

Lemma period_divides h m n : 0 < n → 0 < m → m mod n = 0 → h mod m = 0 → h mod n = 0.
Proof.
  intros Hn Hm Hd Hh. apply Z.mod_divide in Hd as [a ->]; [|lia]. apply Z.mod_divide in Hh as [b ->]; [|lia].
  apply Z.mod_divide; [lia|]. exists (b * a). lia.
Qed.

Lemma stamps_total (claims : gmap string Claim) p d m s :
  computable p → paramSpace s = p → 0 ≤ BlockHeight s < 2 ^ 63 → stamps_ok s → 0 ≤ m ≤ top →
  ∃ s', (historic ← IsPeriodLastBlock (Types.HistoricStampPeriod p);
         (if historic : bool then AddHistoricPrice d m else mret ());;
         median ← IsPeriodLastBlock (Types.MedianStampPeriod p);
         (if median : bool then CalcAndSetHistoricMedian d else mret ());;
         mret claims) s = (Ok claims, s') ∧
    loop_frame s s' ∧ ExchangeRates s' = ExchangeRates s.
Proof.
  intros [_ Hhp Hmp Hmul Hst _] Hp Hh Hs Hm. subst p.
  erewrite M_bind_run by by apply IsPeriodLastBlock_run.
  set (s1 := if (BlockHeight s + 1) mod Types.HistoricStampPeriod (paramSpace s) =? 0
             then set_LastHistoricPriceBlock <[d := BlockHeight s]>
                    (set_HistoricPrices <[(d, BlockHeight s) := m]> s) else s).
  assert (BlockHeight s1 = BlockHeight s ∧ paramSpace s1 = paramSpace s ∧
    ExchangeRates s1 = ExchangeRates s ∧ stamps_ok s1) as (Eh & Ep & Ee & Es).
  { subst s1. destruct (_ =? 0); [|done]. split_and!; [done..|].
    intros key r. simpl. rewrite lookup_insert_Some. intros [[_ <-]|[_ ?]]; [done|by eapply Hs]. }
  erewrite M_bind_run.
  2:{ instantiate (1 := s1). instantiate (1 := ()). subst s1. destruct (_ =? 0); [|done].
      unfold AddHistoricPrice, SetHistoricPrice, gets, modify, mbind, M_bind.
      rewrite SafeInt64ToUint64_spec, Z.max_r by lia. done. }
  erewrite M_bind_run by (apply IsPeriodLastBlock_run; [by rewrite Eh|done]). rewrite Eh.
  destruct (Z.eqb_spec ((BlockHeight s + 1) mod Types.MedianStampPeriod (paramSpace s)) 0) as [Hmed|].
  - assert (HistoricPrices s1 !! (d, BlockHeight s) = Some m) as Hl.
    { subst s1. rewrite (proj2 (Z.eqb_eq _ _)).
      - simpl. by rewrite lookup_insert_eq.
      - by apply (period_divides _ (Types.MedianStampPeriod (paramSpace s))). }
    destruct (CalcMedian_total d s1 top (BlockHeight s) m) as (f & g & Hrun); [done|by rewrite Ep| |done|].
    { intros b r. apply Es. }
    erewrite M_bind_run by exact Hrun. eexists. split; [done|]. split; [|done].
    split_and!; [done..|]. intros _. exact Es.
  - erewrite M_bind_run by done. exists s1. split; [done|]. by split.
Qed.

Lemma process_ballot_total p threshold total claims b s :
  computable p → paramSpace s = p → 0 ≤ BlockHeight s < 2 ^ 63 → stamps_ok s → total ≠ 0 →
  sound_ballot b → (∀ v, v ∈ bd_Ballot b → is_Some (claims !! ValAddress_String (vft_Voter v))) →
  ∃ claims' s', process_ballot p threshold total claims b s = (Ok claims', s') ∧
    same_validators claims claims' ∧ loop_frame s s' ∧
    (∀ d, d ≠ ToUpper (bd_Denom b) → ExchangeRates s' !! d = ExchangeRates s !! d) ∧
    (counted p threshold total b →
     ∃ m, ExchangeRates s' !! ToUpper (bd_Denom b) = Some m ∧ lo (bd_Denom b) ≤ m ≤ hi (bd_Denom b)) ∧
    (¬ counted p threshold total b → s' = s).
Proof.
  intros Hp Hps Hh Hs Ht Hb Hvoters. destruct Hb as (Hsorted & Hpow & Hmin & Hrange). unfold process_ballot.
  set (inc := DenomList_Contains (Types.MandatoryList p) (bd_Denom b)).
  set (acc := DenomList_Contains (Types.AcceptList p) (bd_Denom b)).
  destruct (negb inc && negb acc) eqn:Hl.
  { apply andb_true_iff in Hl as [Hi%negb_true_iff Ha%negb_true_iff].
    exists claims, s. split_and!; [done..| |done]. intros [[?|?] _]; unfold inc, acc in *; congruence. }
  assert (listed p (bd_Denom b)) as Hlisted.
  { apply andb_false_iff in Hl as [?%negb_false_iff|?%negb_false_iff]; [by left|by right]. }
  unfold go_div. rewrite (proj2 (Z.eqb_neq total 0)) by done.
  erewrite M_bind_run by done.
  destruct (Z.ltb_spec (Z.quot (wrap_i64 (Power (bd_Ballot b) * MaxVoteThresholdMultiplier)) total) threshold).
  { exists claims, s. split_and!; [done..| |done]. intros [_ ?]. lia. }
  destruct (cp_band p Hp _ Hlisted) as (band & Hband & Hbr). rewrite Hband. erewrite M_bind_run by done.
  destruct (Tally_total P (bd_Ballot b) band claims inc (lo (bd_Denom b)) (hi (bd_Denom b)))
    as (m & claims' & Htally & Hm); [done..| |done|].
  { pose proof (price_bound_quarter top top_bound). specialize (band_hi (bd_Denom b)). lia. }
  rewrite Htally. erewrite M_bind_run by done. cbv beta iota.
  erewrite M_bind_run.
  2:{ unfold SetExchangeRateWithEvent, SetExchangeRate, EmitTypedEvent, lift, modify, mbind, M_bind.
      rewrite events_emitted. reflexivity. }
  edestruct (stamps_total claims' p (bd_Denom b) m) as (s' & Hrun & Hframe & He);
    [done|..|rewrite Hrun]; [done..| |].
  { specialize (band_lo (bd_Denom b)). specialize (band_hi (bd_Denom b)). lia. }
  exists claims', s'. split_and!; [done|by eapply Tally_same| | | |].
  - etransitivity; [|exact Hframe]. done.
  - intros d Hd. rewrite He. simpl. by rewrite lookup_insert_ne.
  - intros _. exists m. rewrite He. simpl. by rewrite lookup_insert_eq.
  - intros Hnot. by destruct Hnot.
Qed.

(** ** All ballots *)

Definition ready (claims : gmap string Claim) (b : BallotDenom) : Prop :=
  sound_ballot b ∧ ToUpper (bd_Denom b) = bd_Denom b ∧
  ∀ v, v ∈ bd_Ballot b → is_Some (claims !! ValAddress_String (vft_Voter v)).

(** The rates of the ballots [bs]: of the counted ones, in their range. *)
Definition rated p threshold total (bs : list BallotDenom) s s' : Prop :=
  (∀ d, d ∉ map bd_Denom bs → ExchangeRates s' !! d = ExchangeRates s !! d) ∧
  ∀ b, b ∈ bs →
    (counted p threshold total b →
     ∃ m, ExchangeRates s' !! bd_Denom b = Some m ∧ lo (bd_Denom b) ≤ m ≤ hi (bd_Denom b)) ∧
    (¬ counted p threshold total b → ExchangeRates s' !! bd_Denom b = ExchangeRates s !! bd_Denom b).

Lemma ballots_total p threshold total bs claims s :
  computable p → paramSpace s = p → 0 ≤ BlockHeight s < 2 ^ 63 → stamps_ok s → total ≠ 0 →
  Forall (ready claims) bs → NoDup (map bd_Denom bs) →
  ∃ claims' s', loopM (process_ballot p threshold total) bs claims s = (Ok claims', s') ∧
    same_validators claims claims' ∧ loop_frame s s' ∧ rated p threshold total bs s s'.
Proof.
  intros Hp Hps Hh Hs Ht. revert claims s Hps Hh Hs.
  induction bs as [|b bs IH]; intros claims s Hps Hh Hs Hready Hnd; cbn [loopM].
  { exists claims, s. split_and!; [done..|]. split; [done|]. intros b Hb. by apply elem_of_nil in Hb. }
  apply Forall_cons in Hready as [(Hb & Hup & Hv) Hready].
  cbn [map] in Hnd. apply NoDup_cons in Hnd as [Hni Hnd].
  destruct (process_ballot_total p threshold total claims b s) as (c1 & s1 & Hrun & Hc1 & Hf1 & Ho & Hr & Hn);
    [done..|]. rewrite Hup in Ho, Hr.
  erewrite M_bind_run by exact Hrun. pose proof Hf1 as (Ep & Eh & Es).
  destruct (IH c1 s1) as (c2 & s2 & -> & Hc2 & Hf2 & Hout & Hin); [congruence|by rewrite Eh|auto| |done|].
  { eapply Forall_impl; [exact Hready|]. intros b' (? & ? & Hv'). split_and!; [done..|].
    intros v Hin. eapply same_validators_lookup; [exact Hc1|auto]. }
  exists c2, s2. split_and!; [done|by etransitivity|by etransitivity|]. split.
  - intros d [Hne Hd]%not_elem_of_cons. by rewrite Hout, Ho.
  - intros b' [->|Hb']%elem_of_cons; [|destruct (Hin b' Hb') as [Hyes Hno]; split; [done|]].
    + rewrite Hout by done. split; [done|]. by intros ->%Hn.
    + intros Hnc. rewrite Hno by done. apply Ho. intros Heq. apply Hni. rewrite <- Heq.
      by apply list_elem_of_fmap_2.
Qed.
End ballot.

(** ** The whole computation *)

Lemma power_sum_perm (pb pb' : ExchangeRateBallot) : pb ≡ₚ pb' → power_sum pb = power_sum pb'.
Proof. induction 1; simpl; lia. Qed.

Lemma powers_ok_perm (pb pb' : ExchangeRateBallot) : pb ≡ₚ pb' → powers_ok pb → powers_ok pb'.
Proof. intros Hp [? ?]. split; [by rewrite <- Hp|]. by rewrite <- (power_sum_perm _ _ Hp). Qed.

Lemma minority_perm (P : VoteForTally → Prop) `{!∀ v, Decision (P v)} (pb pb' : ExchangeRateBallot) :
  pb ≡ₚ pb' → minority P pb → minority P pb'.
Proof.
  intros Hp. unfold minority. rewrite (power_sum_perm _ _ Hp).
  by rewrite (power_sum_perm (filter (λ v, ¬ P v) pb) (filter (λ v, ¬ P v) pb')) by (by rewrite Hp).
Qed.

Section computation.
Context {W : Type} `{StakingKeeper W} `{CoinsOps} `{!DistributionKeeper W} `{!BankKeeper W}.
Context `{AccountKeeper W} `{PriceOracle W} `{EventManager}.
Context `{Bech32Laws} `{DecLaws} `{!SqrtLaws} `{CoinLaws} `{YamlDenom} `{Float64} `{TmHash}.
Context (k : KeeperConf).
Implicit Types s : State W.

(** The operators write their addresses as the codec does. *)
Definition canonical (vals : list ValidatorI) : Prop :=
  ∀ v a, v ∈ vals → ValAddressFromBech32 (GetOperator v) = Ok a → ValAddress_String a = GetOperator v.

Lemma claims_of_keyed pr vals total claims :
  canonical vals → foldM (claim_of pr) vals (0, ∅) = Ok (total, claims) → claims_keyed claims.
Proof.
  intros Hcan Hrun. change (claims_keyed (total, claims).2).
  eapply (foldM_ind _ (λ st, claims_keyed st.2)); [| |exact Hrun].
  - intros key c Hl. simpl in Hl. by rewrite lookup_empty in Hl.
  - intros v [t cl] [t' cl'] Hin Hcl Hstep. unfold claim_of in Hstep.
    apply bind_Ok in Hstep as (a & Ha & [= _ <-]). intros key c. simpl.
    rewrite lookup_insert_Some. intros [[<- <-]|[_ Hc]]; [by apply Hcan|by apply Hcl].
Qed.

(** A vote of a ballot is of a validator with a claim, on an upper-case denom. *)
Lemma ballot_vote s claims d v :
  wf s → v ∈ ballot_for claims s d →
  ToUpper d = d ∧ is_Some (claims !! ValAddress_String (vft_Voter v)).
Proof.
  intros Hs (a & x & claim & c & Hx & Hc & Hin & <- & ->)%elem_of_ballot_for.
  destruct (wf_votes s Hs a x Hx) as (_ & Hvoter & [_ Hup _ _ _]). split.
  - rewrite Forall_forall in Hup. by apply Hup.
  - simpl. rewrite <- Hvoter. by eexists.
Qed.

Definition unpaid s s' : Prop := set_MissCounters (λ _, MissCounters s) s' = s.

#[export] Instance unpaid_preorder : PreOrder unpaid.
Proof. split; [by intros []|]. intros a b c. unfold unpaid. intros <- <-. by destruct c. Qed.

Lemma misses_total n claims s :
  ∃ s', forM (count_misses n) claims s = (Ok (), s') ∧ unpaid s s'.
Proof.
  revert s. induction claims as [|c claims IH]; intros s; cbn [forM]; [by exists s; destruct s|].
  assert (∃ s1, count_misses n c s = (Ok (), s1) ∧ unpaid s s1) as (s1 & Hrun & H1s).
  { unfold count_misses. destruct (_ =? 0); [by exists s; destruct s|].
    eexists. split; [reflexivity|by destruct s]. }
  erewrite M_bind_run by exact Hrun. destruct (IH s1) as (s2 & -> & ?). exists s2.
  split; [done|by etransitivity].
Qed.

(** The threshold of the parameters, in hundredths. *)
Definition vote_threshold (p : Params) : Z := Z.quot (Types.VoteThreshold p * MaxVoteThresholdMultiplier) precision.

Lemma threshold_run p :
  0 ≤ Types.VoteThreshold p ≤ precision →
  (scaled ← or_panic (dec_MulInt64 (Types.VoteThreshold p) MaxVoteThresholdMultiplier);
   or_panic (dec_TruncateInt64 scaled)) = Ok (vote_threshold p).
Proof.
  intros Ht. pose proof dec_range_big. unfold MaxVoteThresholdMultiplier in *.
  rewrite dec_MulInt64_spec, dec_checked_range by (unfold dec_range, precision in *; lia).
  cbn [or_panic mbind outcome_bind]. rewrite dec_TruncateInt64_spec. cbv zeta.
  change (Z.quot (Types.VoteThreshold p * 100) precision) with (vote_threshold p).
  assert (0 ≤ vote_threshold p ≤ 100) as Hq.
  { unfold vote_threshold. rewrite Z.quot_div_nonneg by (unfold precision, MaxVoteThresholdMultiplier in *; lia).
    split; [apply Z.div_pos|apply Z.div_le_upper_bound]; unfold precision, MaxVoteThresholdMultiplier in *; lia. }
  by rewrite (proj2 (Z.leb_le _ _)), (proj2 (Z.ltb_lt _ _)) by lia.
Qed.
End computation.
