(* ===== verification/Sample.v ===== *)
(** * Sample: concrete surroundings for the witnesses

    A staking module over a list of validators that records whom it slashed
    and jailed, a bank that grants every transfer, and the concrete codecs of
    the other files.  Nothing of the development depends on this file but the
    witnesses, which evaluate on it. *)
From S2P Require Import Prelude Util GoStrings Dec Types Params Bech32 Ballot Votes World State.
From S2P Require Import Subspace Keeper Rewards.
Local Open Scope Z_scope.

Record Sample := mkSample { sm_vals : list (addr * ValidatorI); sm_slashed : list addr }.

#[export] Existing Instance FixedDec.
#[export] Existing Instance TagBech32.
#[export] Existing Instance RegexCoins.
#[export] Existing Instance PadHash.
#[export] Existing Instance pos_Denom.

Definition find_val (w : Sample) (a : addr) : option ValidatorI :=
  match filter (λ e, e.1 = a) (sm_vals w) with e :: _ => Some e.2 | [] => None end.

#[export] Instance sample_staking : StakingKeeper Sample := {|
  Validator w a := Ok (find_val w a);
  GetBondedValidatorsByPower w := Ok (map snd (sm_vals w));
  PowerReduction w := 1000000;
  ValidatorUpdateDelay := 1;
  Slash a _ _ _ w := (Ok (), mkSample (sm_vals w) (sm_slashed w ++ [a]));
  Jail a w := (Ok (), w);
|}.

#[export] Instance sample_coins : CoinsOps := {|
  Coins := list (string * Z);
  DecCoins := list DecCoin;
  no_Coins := [];
  no_DecCoins := [];
  DecCoins_Add l c := Some (l ++ [c]);
  DecCoins_MulDec l d :=
    Some (map (λ c, mkDecCoin (dc_Denom c) (dc_Amount c * d / precision)) l);
  DecCoins_TruncateDecimal l :=
    if bool_decide (Forall (λ c, 0 ≤ dc_Amount c) l)
    then Some (map (λ c, (dc_Denom c, dc_Amount c / precision)) l) else None;
  NewDecCoinsFromCoins l := map (λ c, mkDecCoin c.1 (c.2 * precision)) l;
  Coins_IsZero l := bool_decide (Forall (λ c, c.2 = 0) l);
  Coins_Add l l' := Some (l ++ l');
|}.

#[export] Instance sample_distribution : DistributionKeeper Sample := {|
  AllocateTokensToValidator _ _ w := (Ok (), w);
|}.

#[export] Instance sample_bank : BankKeeper Sample := {|
  GetBalance _ _ _ := 0;
  SendCoinsFromModuleToModule _ _ _ w := (Ok (), w);
|}.

#[export] Instance sample_accounts : AccountKeeper Sample := {|
  GetModuleAddress _ m := Some m;
  GetModuleAccount m w := (Ok (Some m), w);
|}.

#[export] Instance sample_oracle : PriceOracle Sample := {|
  Oracle_started _ := false;
  Oracle_tick _ _ w := w;
|}.

#[export] Instance sample_events : EventManager := λ _, Ok ().

#[export] Instance sample_floats : Float64 := {|
  F := Z;
  F_of_int64 z := z;
  F_add := Z.add;
  F_sub := Z.sub;
  F_div := Z.quot;
  math_Log _ := 0;
  IsNaN _ := false;
  IsInf _ := false;
  FormatFloat _ := "1"%string;
|}.

(** A bonded validator with address [a] and consensus power [p]. *)
Definition sample_val (a : addr) (p : Z) : addr * ValidatorI :=
  (a, {| GetOperator := ValAddress_String a; IsBonded := true; IsJailed := false;
         GetConsAddr := Ok a; GetConsensusPower := λ _, p |}).

(** Two validators, [x] with power 60 and [y] with power 40. *)
Definition sample_world : Sample := mkSample [sample_val "x" 60; sample_val "y" 40] [].

Definition sample_state (h : Z) : State Sample :=
  mkState h ∅ ∅ ∅ ∅ ∅ ∅ ∅ ∅ ∅ ∅ None ∅ DefaultParams [] sample_world.

Definition sample_conf : KeeperConf :=
  mkKeeperConf "gov" "" false (Some (mkPriceFeeder false)) true true true true true.
