(* ===== verification/VotingTheorems.v ===== *)
(** * VotingTheorems: the commit-reveal protocol and the chain's invariant

    What the transactions of validators and of governance can do to the oracle
    state, over the step relation of [Chain]. *)
From S2P Require Import Prelude Util GoStrings Dec Types Params Bech32 Ballot Votes Msgs World State.
From S2P Require Import Subspace Keeper ParamPlan MsgServer Rewards EndBlock Chain Client Sample.
Local Open Scope Z_scope.

Section voting.
Context {W : Type} `{StakingKeeper W} `{CoinsOps} `{!DistributionKeeper W} `{!BankKeeper W}.
Context `{AccountKeeper W} `{PriceOracle W} `{EventManager}.
Context `{Bech32Laws} `{DecOps} `{CoinLaws} `{YamlDenom} `{Float64} `{TmHashLaws}.
Context (k : KeeperConf).
Implicit Types s : State W.

(** C1: in a well-formed state a vote message succeeds exactly when it comes
    from the feeder of a bonded validator, reveals the validator's pending
    prevote in the voting period right after it, its rates parse and its hash
    is the committed one; the prevote is then replaced by a vote with the
    rates of accepted denoms, and nothing else changes. *)
Theorem commit_reveal msg s s' :
  wf s → 0 < Types.VotePeriod (paramSpace s) →
  deliver k (OVote msg) s = (Ok (), s') ↔
  ∃ v f prevote rates, ValAddressFromBech32 (mv_Validator msg) = Ok v ∧
    AccAddressFromBech32 (mv_Feeder msg) = Ok f ∧ may_feed s f v ∧
    Prevotes s !! v = Some prevote ∧
    next_period (Types.VotePeriod (paramSpace s)) (pv_SubmitBlock prevote) (BlockHeight s) ∧
    ParseExchangeRateDecCoins (mv_ExchangeRates msg) = Ok rates ∧
    pv_Hash prevote = Hash_String (GetAggregateVoteHash (mv_Salt msg) (mv_ExchangeRates msg) v) ∧
    s' = set_Prevotes (delete v)
           (set_Votes <[v := mkVote (accepted (paramSpace s) rates) (ValAddress_String v)]> s).
Proof.
  intros Hwf Hvp. apply Vote_Ok; [done|apply Hwf|]. intros v p. by apply wf_submit.
Qed.

(** C2: however transactions, blocks and the other modules interleave, the
    state stays well-formed: prevotes and votes are stored under the address
    of their voter, a prevote is from a block of the past with a hexadecimal
    hash, a vote's rates are positive with distinct upper-case denoms, no
    delegation involves a nil address and every plan is under its height. *)
Theorem reachable_wellformed s s' : wf s → reachable k s s' → wf s'.
Proof. apply reachable_wf. Qed.

(** C9: a transaction changes the parameters or the scheduled plans only if it
    is a governance message that names the keeper's authority. *)
Theorem only_authority_changes_params m s s' :
  deliver k m s = (Ok (), s') →
  paramSpace s' ≠ paramSpace s ∨ ParamUpdatePlans s' ≠ ParamUpdatePlans s →
  gov_authority m = Some (authority k).
Proof.
  intros Hrun Hdiff. destruct m as [m|m|m|m|m|m|m|m|m]; cbn [deliver gov_authority] in *.
  - apply Prevote_Ok in Hrun as (? & ? & ? & _ & _ & _ & _ & _ & ->). by destruct Hdiff.
  - apply Vote_writes in Hrun as (? & ? & _ & _ & ->). by destruct Hdiff.
  - apply Delegate_Ok in Hrun as (? & ? & ? & _ & _ & _ & _ & ->). by destruct Hdiff.
  - by apply M_bind_Ok in Hrun as ([] & s1 & [_ <-]%check_authority_Ok & _).
  - by apply M_bind_Ok in Hrun as ([] & s1 & [_ <-]%check_authority_Ok & _).
  - by apply M_bind_Ok in Hrun as ([] & s1 & [_ <-]%check_authority_Ok & _).
  - by apply M_bind_Ok in Hrun as ([] & s1 & [_ <-]%check_authority_Ok & _).
  - by apply M_bind_Ok in Hrun as ([] & s1 & [_ <-]%check_authority_Ok & _).
  - by apply M_bind_Ok in Hrun as ([] & s1 & [_ <-]%check_authority_Ok & _).
Qed.

(** A reveal cannot be replayed: after an accepted vote every further vote
    for that validator finds no prevote, and the state does not change. *)
Theorem vote_not_replayable msg msg' v f s s' :
  deliver k (OVote msg) s = (Ok (), s') →
  ValAddressFromBech32 (mv_Validator msg) = Ok v → ValAddressFromBech32 (mv_Validator msg') = Ok v →
  AccAddressFromBech32 (mv_Feeder msg') = Ok f → may_feed s' f v →
  deliver k (OVote msg') s' = (Err ErrNoAggregatePrevote, s').
Proof.
  intros (v' & rates & Hv & _ & Hs')%Vote_writes Hv1 Hv2 Hf Hm.
  rewrite Hv1 in Hv. injection Hv as <-. eapply Vote_no_prevote; [done..|].
  rewrite Hs'. apply lookup_delete_eq.
Qed.

(** A prevote succeeds exactly when it comes from the feeder of a bonded
    validator without a pending prevote and its hash is hexadecimal; it then
    stores the commitment with the current height. *)
Theorem prevote_accepted msg s s' :
  wf s →
  deliver k (OPrevote msg) s = (Ok (), s') ↔
  ∃ v f hash, ValAddressFromBech32 (mp_Validator msg) = Ok v ∧
    AccAddressFromBech32 (mp_Feeder msg) = Ok f ∧ may_feed s f v ∧ Prevotes s !! v = None ∧
    AggregateVoteHashFromHexString (mp_Hash msg) = Ok hash ∧
    s' = set_Prevotes <[v := mkPrevote (Hash_String hash) (ValAddress_String v) (BlockHeight s)]> s.
Proof.
  intros [[Hh _] _ _ _ _]. cbn [deliver]. rewrite Prevote_Ok. by rewrite Z.max_r.
Qed.

Lemma bit_len_le z n : Z.abs z < 2 ^ n → bit_len z ≤ n.
Proof.
  intros Hz. assert (0 ≤ n).
  { destruct (decide (n < 0)) as [Hn|]; [rewrite (Z.pow_neg_r 2 n Hn) in Hz|]; lia. }
  unfold bit_len. case_decide; [done|].
  assert (Z.log2 (Z.abs z) < n); [|lia]. apply Z.log2_lt_pow2; lia.
Qed.

(** What stateless validation asks of a vote: a salt of 64 hexadecimal digits,
    and rates of 1 to 4096 characters that parse to decimals of 255 bits before
    the scale. *)
Lemma honest_vote_valid v f salt rates parsed hash :
  v ≠ "" → f ≠ "" → String.length salt = 64%nat → AggregateVoteHashFromHexString salt = Ok hash →
  rates ≠ "" → (String.length rates ≤ 4096)%nat → ParseExchangeRateDecCoins rates = Ok parsed →
  (∀ c, c ∈ parsed → Z.abs (dc_Amount c) < 2 ^ (255 + LegacyDecimalPrecisionBits)) →
  Vote_ValidateBasic (NewMsgAggregateExchangeRateVote salt rates f v) = Ok ().
Proof.
  intros Hv Hf Hlen Hsalt Hne Hmax Hparse Hbits. unfold Vote_ValidateBasic. simpl.
  assert (String.length rates ≠ 0%nat) as Hnz by (destruct rates; [done|discriminate]).
  rewrite AccAddress_roundtrip, ValAddress_roundtrip by done. cbn -[foldM].
  rewrite (bool_decide_eq_false_2 _ Hnz). cbn -[foldM].
  rewrite (proj2 (Z.ltb_ge _ _)) by lia. rewrite Hparse. cbn -[foldM].
  assert (foldM (λ _ c, fail_if (255 + LegacyDecimalPrecisionBits <? bit_len (dc_Amount c))
    ErrInvalidExchangeRate) parsed () = Ok ()) as ->.
  - clear Hparse. induction parsed as [|c parsed IH]; [done|]. cbn [foldM].
    rewrite (proj2 (Z.ltb_ge _ _)); [apply IH; intros c' Hc'; apply Hbits; by right|].
    assert (Z.abs (dc_Amount c) < 2 ^ (255 + LegacyDecimalPrecisionBits)) as Hc by (apply Hbits; by left).
    by apply bit_len_le.
  - simpl. by rewrite bool_decide_eq_true_2, Hsalt by done.
Qed.

(** C8: an honest feeder gets through: for a salt of 64 hexadecimal digits and
    rates of at most 4096 characters that parse to decimals of at most 255
    bits before the scale, the prevote built from the hash of the vote and the vote itself pass
    stateless validation, and once that prevote has been accepted, the vote is
    accepted in any later state where the prevote is still pending, the voting
    period is the next one and the feeder still feeds for the bonded
    validator. *)
Theorem honest_feeder s s1 s2 v f salt rates parsed hash :
  v ≠ "" → f ≠ "" → String.length salt = 64%nat → AggregateVoteHashFromHexString salt = Ok hash →
  rates ≠ "" → (String.length rates ≤ 4096)%nat → ParseExchangeRateDecCoins rates = Ok parsed →
  (∀ c, c ∈ parsed → Z.abs (dc_Amount c) < 2 ^ (255 + LegacyDecimalPrecisionBits)) →
  Prevote_ValidateBasic
    (NewMsgAggregateExchangeRatePrevote (GetAggregateVoteHash salt rates v) f v) = Ok () ∧
  Vote_ValidateBasic (NewMsgAggregateExchangeRateVote salt rates f v) = Ok () ∧
  (wf s →
   deliver k (OPrevote (NewMsgAggregateExchangeRatePrevote (GetAggregateVoteHash salt rates v) f v)) s
     = (Ok (), s1) →
   wf s2 → Prevotes s2 !! v = Prevotes s1 !! v → may_feed s2 f v →
   0 < Types.VotePeriod (paramSpace s2) →
   next_period (Types.VotePeriod (paramSpace s2)) (BlockHeight s) (BlockHeight s2) →
   deliver k (OVote (NewMsgAggregateExchangeRateVote salt rates f v)) s2 =
     (Ok (), set_Prevotes (delete v)
        (set_Votes <[v := mkVote (accepted (paramSpace s2) parsed) (ValAddress_String v)]> s2))).
Proof.
  intros. split_and!; [by apply honest_prevote_valid|by eapply honest_vote_valid|].
  intros. by apply (honest_reveal k s s1).
Qed.

(** The two commands of the client, given the same salt, rates and further
    arguments, build a commitment and its reveal: when the sender's address
    resolves and the reveal is valid, both commands end with a message, and once
    the first message has been accepted the second is accepted in the next
    voting period. *)
Theorem client_commit_reveal `{GovLimits} ctx rest from v salt rates parsed s :
  ctx None = Ok from → from ≠ "" → v ≠ "" → validator_arg ("" :: rest) 1 from = Ok v →
  Vote_ValidateBasic (NewMsgAggregateExchangeRateVote salt rates from v) = Ok () →
  ParseExchangeRateDecCoins rates = Ok parsed → wf s →
  ∃ prevote vote,
    GetCmdAggregateExchangeRatePrevote ctx
      (Hash_String (GetAggregateVoteHash salt rates v) :: rest) = Ok prevote ∧
    GetCmdAggregateExchangeRateVote ctx (salt :: rates :: rest) = Ok vote ∧
    ∀ s1 s2, deliver k prevote s = (Ok (), s1) →
      wf s2 → Prevotes s2 !! v = Prevotes s1 !! v → may_feed s2 from v →
      0 < Types.VotePeriod (paramSpace s2) →
      next_period (Types.VotePeriod (paramSpace s2)) (BlockHeight s) (BlockHeight s2) →
      deliver k vote s2 =
        (Ok (), set_Prevotes (delete v)
           (set_Votes <[v := mkVote (accepted (paramSpace s2) parsed) (ValAddress_String v)]> s2)).
Proof.
  intros Hc Hf Hv Ha Hb Hparse Hwf.
  exists (OPrevote (NewMsgAggregateExchangeRatePrevote (GetAggregateVoteHash salt rates v) from v)),
    (OVote (NewMsgAggregateExchangeRateVote salt rates from v)).
  split; [by apply prevote_command|]. split; [by apply vote_command|].
  intros s1 s2 Hpre Hwf2 Hpend Hfeed Hvp Hnext. by apply (honest_reveal k s s1).
Qed.
End voting.

(** ** Witnesses *)

(** Block 12: [x] commits to rates of the two default denoms; block 25: it
    reveals them. *)
Definition rates_text : string := "USDT:2,USDC:1".
Definition prevote_msg : MsgAggregateExchangeRatePrevote :=
  NewMsgAggregateExchangeRatePrevote (GetAggregateVoteHash "a" rates_text "x") "x" "x".
Definition vote_msg : MsgAggregateExchangeRateVote :=
  NewMsgAggregateExchangeRateVote "a" rates_text "x" "x".
Definition committed_state : State Sample :=
  (deliver sample_conf (OPrevote prevote_msg) (sample_state 12)).2.
Definition reveal_state : State Sample := set_BlockHeight (λ _, 25) committed_state.
Definition voted_state : State Sample := (deliver sample_conf (OVote vote_msg) reveal_state).2.

Lemma sample_wf h : 0 ≤ h < 2 ^ 63 → wf (sample_state h).
Proof. intros Hh. split; [done|..]; intros ?? Hl; by destruct (lookup_empty_Some _ _ Hl). Qed.

Lemma reveal_wf : wf reveal_state.
Proof.
  assert (wf committed_state) as [_ Hf Hp Hv Hpl].
  { eapply (deliver_wf sample_conf (OPrevote prevote_msg)); [by apply (sample_wf 12)|]. by vm_compute. }
  split; try done. intros v p Hl. destruct (Hp v p Hl) as (? & ? & [? Hle] & ?).
  change (BlockHeight committed_state) with 12 in Hle. change (BlockHeight reveal_state) with 25.
  split_and!; try done; lia.
Qed.

Lemma vote_run : deliver sample_conf (OVote vote_msg) reveal_state = (Ok (), voted_state).
Proof. by vm_compute. Qed.

Lemma sample_feeds h : may_feed (set_BlockHeight (λ _, h) committed_state) "x" "x".
Proof. exists (sample_val "x" 60).2. by vm_compute. Qed.

Lemma commit_reveal_witness :
  ∃ prevote, Prevotes reveal_state !! "x"%string = Some prevote ∧ next_period 10 (pv_SubmitBlock prevote) 25.
Proof.
  destruct (proj1 (commit_reveal sample_conf vote_msg reveal_state voted_state reveal_wf
    ltac:(by vm_compute)) vote_run) as (v & f & p & rates & Hv & _ & _ & Hp & Hn & _).
  injection Hv as <-. exists p. split; [exact Hp|exact Hn].
Defined.

Lemma reachable_wellformed_witness : wf voted_state.
Proof.
  apply (reachable_wellformed sample_conf reveal_state); [exact reveal_wf|].
  apply rtc_once. apply (step_tx sample_conf _ (OVote vote_msg)). exact vote_run.
Defined.

Definition remove_msg : MsgGovRemoveCurrencyDeviationThresholds :=
  mkMsgRemoveThresholds "gov" "t" "d" 100 ["USDT"%string].

Lemma only_authority_changes_params_witness :
  gov_authority (ORemoveThresholds remove_msg) = Some (authority sample_conf).
Proof.
  apply (only_authority_changes_params sample_conf _ (sample_state 12)
    (deliver sample_conf (ORemoveThresholds remove_msg) (sample_state 12)).2).
  - by vm_compute.
  - right. intros Heq. apply (f_equal (λ m : gmap Z ParamUpdatePlan, bool_decide (is_Some (m !! 100)))) in Heq.
    vm_compute in Heq. discriminate Heq.
Defined.

Lemma vote_not_replayable_witness :
  deliver sample_conf (OVote vote_msg) voted_state = (Err ErrNoAggregatePrevote, voted_state).
Proof.
  apply (vote_not_replayable sample_conf vote_msg vote_msg "x" "x" reveal_state voted_state vote_run
    eq_refl eq_refl eq_refl).
  exists (sample_val "x" 60).2. by vm_compute.
Defined.

Lemma prevote_accepted_witness :
  ∃ hash, AggregateVoteHashFromHexString (mp_Hash prevote_msg) = Ok hash.
Proof.
  destruct (proj1 (prevote_accepted sample_conf prevote_msg (sample_state 12) committed_state
    (sample_wf 12 ltac:(lia))) ltac:(by vm_compute)) as (v & f & hash & _ & _ & _ & _ & Hh & _).
  exists hash. exact Hh.
Defined.

(** A salt of 64 digits, and the commitment and the reveal with it. *)
Definition long_salt : string :=
  "0cf33fb528b388660c3a42c3f3250e983395290b75fef255050fb5bc48a6025f".
Definition honest_prevote : MsgAggregateExchangeRatePrevote :=
  NewMsgAggregateExchangeRatePrevote (GetAggregateVoteHash long_salt rates_text "x") "x" "x".
Definition honest_vote : MsgAggregateExchangeRateVote :=
  NewMsgAggregateExchangeRateVote long_salt rates_text "x" "x".
Definition honest_committed : State Sample :=
  (deliver sample_conf (OPrevote honest_prevote) (sample_state 12)).2.
Definition honest_reveal_state : State Sample := set_BlockHeight (λ _, 25) honest_committed.

Lemma honest_committed_wf : wf honest_reveal_state.
Proof.
  assert (wf honest_committed) as [_ Hf Hp Hv Hpl].
  { apply (deliver_wf sample_conf (OPrevote honest_prevote) (sample_state 12)); [|by vm_compute].
    apply sample_wf. lia. }
  split; try done. intros v p Hl. destruct (Hp v p Hl) as (? & ? & [? Hle] & ?).
  change (BlockHeight honest_committed) with 12 in Hle. change (BlockHeight honest_reveal_state) with 25.
  split_and!; try done; lia.
Qed.

Lemma honest_feeder_witness :
  Prevote_ValidateBasic honest_prevote = Ok () ∧ Vote_ValidateBasic honest_vote = Ok () ∧
  (deliver sample_conf (OVote honest_vote) honest_reveal_state).1 = Ok ().
Proof.
  destruct (honest_feeder sample_conf (sample_state 12) honest_committed honest_reveal_state "x" "x"
    long_salt rates_text [mkDecCoin "USDT" (2 * precision); mkDecCoin "USDC" precision]
    (match AggregateVoteHashFromHexString long_salt with Ok h => h | _ => [] end)) as (Hp & Hv & Hd).
  - discriminate.
  - discriminate.
  - done.
  - by vm_compute.
  - discriminate.
  - apply Nat.leb_le. by vm_compute.
  - by vm_compute.
  - intros c Hc. apply elem_of_cons in Hc as [->|Hc]; [by vm_compute|].
    apply elem_of_cons in Hc as [->|Hc]; [by vm_compute|by apply elem_of_nil in Hc].
  - split; [exact Hp|split; [exact Hv|]]. unfold honest_vote. rewrite Hd; [done|..].
    + apply sample_wf. lia.
    + by vm_compute.
    + exact honest_committed_wf.
    + reflexivity.
    + clear. exists (sample_val "x" 60).2. by vm_compute.
    + clear. by vm_compute.
    + clear. by vm_compute.
Defined.

#[local] Existing Instance DefaultGovLimits.

(** The commands of [x] with a salt of 64 digits. *)
Lemma client_commit_reveal_witness : ∃ prevote vote,
  GetCmdAggregateExchangeRatePrevote (λ _, Ok "x"%string)
    [Hash_String (GetAggregateVoteHash long_salt rates_text "x")] = Ok prevote ∧
  GetCmdAggregateExchangeRateVote (λ _, Ok "x"%string) [long_salt; rates_text] = Ok vote.
Proof.
  destruct (client_commit_reveal sample_conf (λ _, Ok "x"%string) [] "x" "x" long_salt rates_text
    [mkDecCoin "USDT" (2 * precision); mkDecCoin "USDC" precision] (sample_state 12))
    as (prevote & vote & Hp & Hv & _).
  - done.
  - discriminate.
  - discriminate.
  - done.
  - by vm_compute.
  - by vm_compute.
  - apply sample_wf. lia.
  - exists prevote, vote. split; [exact Hp|exact Hv].
Defined.
