(* ===== verification/ParamsTheorems.v ===== *)
(** * ParamsTheorems: how governance changes the parameters

    The life of a parameter update plan, from its message to the block that
    executes it, and what the plans built by the denom messages do. *)
From S2P Require Import Prelude Util GoStrings Dec Types Params Store Bech32 Votes Msgs World State.
From S2P Require Import Subspace Keeper ParamPlan MsgServer Rewards EndBlock Chain Sample.
Local Open Scope Z_scope.

Section plans.
Context {W : Type} `{DecOps} `{YamlDenom}.
Implicit Types s : State W.

(** The state after the plan stored at its height has run. *)
Definition after_plan (plan : ParamUpdatePlan) s : State W :=
  set_ParamUpdatePlans (delete (Z.max 0 (plan_Height plan)))
    (set_events (λ l, l ++ [EventParamUpdate])
       (set_paramSpace (plan_effect (plan_Keys plan) (plan_Changes plan)) s)).

Lemma after_plan_params plan s :
  paramSpace (after_plan plan s) = plan_effect (plan_Keys plan) (plan_Changes plan) (paramSpace s).
Proof. done. Qed.

Lemma execute_stored plan s :
  ParamUpdatePlans s !! Z.max 0 (plan_Height plan) = Some plan →
  ExecuteParamUpdatePlan plan s = (Ok (), after_plan plan s).
Proof. intros Hp. rewrite ExecuteParamUpdatePlan_run. cbv zeta. by rewrite Hp. Qed.

Lemma due_skip plan s : plan_Height plan ≠ BlockHeight s → execute_due_plan plan s = (Ok (), s).
Proof.
  intros Hne. unfold execute_due_plan, gets, ShouldExecute. unfold mbind, M_bind.
  by rewrite (proj2 (Z.eqb_neq _ _)).
Qed.

Lemma due_skip_all (l : list (Z * ParamUpdatePlan)) s :
  Forall (λ e, plan_Height e.2 ≠ BlockHeight s) l →
  forM execute_due_plan (map snd l) s = (Ok (), s).
Proof.
  induction 1 as [|[h p] l Hp Hl IH]; [done|]. cbn [map snd forM].
  erewrite M_bind_run by (by apply due_skip). apply IH.
Qed.

(** The loop over plans sorted in any way with distinct keys. *)
Lemma due_loop (l : list (Z * ParamUpdatePlan)) s :
  0 < BlockHeight s → NoDup l.*1 →
  (∀ h p, (h, p) ∈ l → h = Z.max 0 (plan_Height p) ∧ ParamUpdatePlans s !! h = Some p) →
  forM execute_due_plan (map snd l) s =
  (Ok (), match list_to_map (M := gmap Z ParamUpdatePlan) l !! BlockHeight s with
          | Some plan => after_plan plan s
          | None => s
          end).
Proof.
  intros Hh. induction l as [|[h p] l IH]; intros Hnd Hin; [done|].
  cbn [map snd list_to_map fst]. cbn in Hnd. apply NoDup_cons in Hnd as [Hni Hnd].
  destruct (Hin h p) as [Hhp Hsp]; [by left|]. cbn [forM].
  destruct (decide (plan_Height p = BlockHeight s)) as [Hd|Hd].
  - assert (h = BlockHeight s) as Hhe by lia. cbn. rewrite Hhe, lookup_insert_eq.
    erewrite M_bind_run.
    2:{ unfold execute_due_plan, gets, ShouldExecute. unfold mbind at 1, M_bind at 1.
        rewrite (proj2 (Z.eqb_eq _ _) Hd). apply execute_stored. by rewrite <-Hhp. }
    apply due_skip_all. apply Forall_forall. intros [h' p'] Hin'. simpl. intros Heq.
    destruct (Hin h' p') as [Hh' _]; [by right|]. apply Hni. apply list_elem_of_fmap.
    exists (h', p'). simpl. split; [lia|done].
  - erewrite M_bind_run by (by apply due_skip). cbn. rewrite lookup_insert_ne by lia.
    apply IH; [done|]. intros h' p' ?. apply Hin. by right.
Qed.

(** C13: refinement of the plan loop of [EndBlocker] to its specification: when
    every plan is under its height, the loop executes exactly the plan of the
    current height, if there is one: the listed parameters take the plan's
    values with both denom lists in upper case, an event is emitted and the
    plan is removed; every other plan stays and nothing else changes. *)
Theorem due_plans s :
  0 < BlockHeight s → plans_keyed s →
  forM execute_due_plan (map snd (Walk (ParamUpdatePlans s))) s =
  (Ok (), match ParamUpdatePlans s !! BlockHeight s with
          | Some plan => after_plan plan s
          | None => s
          end).
Proof.
  intros Hh Hk. rewrite due_loop; [by rewrite Walk_list_to_map|done|apply NoDup_Walk|].
  intros h p Hin%elem_of_Walk. split; [by apply Hk|done].
Qed.

(** C12: a plan is scheduled exactly when its height is not in the past and the
    parameters it would give pass validation; until then the parameters do
    not change, and executing the stored plan on unchanged parameters gives
    valid parameters whose listed fields are the plan's. *)
Theorem scheduled_plan plan s :
  ((ScheduleParamUpdatePlan plan s).1 = Ok () ↔
   BlockHeight s ≤ plan_Height plan ∧
   Validate (plan_effect (plan_Keys plan) (plan_Changes plan) (paramSpace s)) = Ok ()) ∧
  ∀ s1, ScheduleParamUpdatePlan plan s = (Ok (), s1) →
    paramSpace s1 = paramSpace s ∧
    ∃ stored, ParamUpdatePlans s1 = <[Z.max 0 (plan_Height plan) := stored]> (ParamUpdatePlans s) ∧
      ∀ s2, ParamUpdatePlans s2 !! Z.max 0 (plan_Height plan) = Some stored →
        ∃ s3, ExecuteParamUpdatePlan stored s2 = (Ok (), s3) ∧
          paramSpace s3 = plan_effect (plan_Keys plan) (plan_Changes plan) (paramSpace s2) ∧
          ParamUpdatePlans s3 = delete (Z.max 0 (plan_Height plan)) (ParamUpdatePlans s2) ∧
          (paramSpace s2 = paramSpace s → Validate (paramSpace s3) = Ok ()).
Proof.
  split.
  { destruct (ScheduleParamUpdatePlan_run plan s) as (c & _ & ->).
    destruct (Z.ltb_spec (plan_Height plan) (BlockHeight s)); [split; [done|lia]|].
    destruct (Validate _) as [[]| |]; simpl; split; try done; by intros []. }
  intros s1 (_ & Hv & c & Hc & ->)%Schedule_Ok. split; [done|].
  eexists. split; [reflexivity|]. intros s2 Hs2. eexists.
  split; [by apply execute_stored|]. unfold after_plan. cbn [paramSpace plan_Keys plan_Changes].
  simpl. rewrite (plan_effect_normalized _ c _ _ Hc). split_and!; [done|done|]. by intros ->.
Qed.
End plans.

Section denoms.
Context {W : Type} `{StakingKeeper W} `{EventManager}.
Context `{Bech32} `{DecOps} `{YamlDenom} `{CoinOps} `{TmHash}.
Context (ms : KeeperConf).
Implicit Types s : State W.

(** C32: the denoms of an accepted [GovAddDenoms] are supported once its plan
    is executed on the parameters it was built from: each is on the accept
    list, on the mandatory list when the message says so, and has a reward
    band. *)
Theorem added_denoms_supported msg s s1 :
  GovAddDenoms ms msg s = (Ok (), s1) →
  ∃ plan, ParamUpdatePlans s1 !! Z.max 0 (ma_Height msg) = Some plan ∧
    ∀ s2, paramSpace s2 = paramSpace s →
      ParamUpdatePlans s2 !! Z.max 0 (ma_Height msg) = Some plan →
      ∃ s3, ExecuteParamUpdatePlan plan s2 = (Ok (), s3) ∧ Validate (paramSpace s3) = Ok () ∧
        Forall (supported (ma_Mandatory msg) (paramSpace s3)) (ma_DenomList msg).
Proof.
  intros (_ & plan & Hp & Hh & Hv & Hs)%GovAddDenoms_Ok. exists plan. split; [done|].
  intros s2 Hps Hp2. rewrite <-Hh in Hp2. eexists. split; [by apply execute_stored|].
  unfold after_plan. simpl. by rewrite Hps.
Qed.

(** Executing the plan of an accepted [GovRemoveCurrencyPairProviders], in
    whatever state, leaves of the providers the message saw exactly the pairs
    that match no pair of the message, in their order. *)
Theorem removed_providers msg s s1 :
  GovRemoveCurrencyPairProviders ms msg s = (Ok (), s1) →
  ∃ plan, ParamUpdatePlans s1 !! Z.max 0 (mrp_Height msg) = Some plan ∧
    ∀ s2, ParamUpdatePlans s2 !! Z.max 0 (mrp_Height msg) = Some plan →
      ∃ s3, ExecuteParamUpdatePlan plan s2 = (Ok (), s3) ∧
        Types.CurrencyPairProviders (paramSpace s3) =
        filter (λ c, existsb (λ pair, String.eqb (cpp_BaseDenom c) (cpp_BaseDenom pair)
                                    && String.eqb (cpp_QuoteDenom c) (cpp_QuoteDenom pair))
                       (mrp_CurrencyPairProviders msg) = false)
          (Types.CurrencyPairProviders (paramSpace s)).
Proof.
  unfold GovRemoveCurrencyPairProviders. unfold mbind at 1, M_bind at 1. rewrite check_authority_run.
  destruct (String.eqb _ _); [|done]. unfold GetParams, gets, lift. unfold mbind, M_bind.
  destruct (plan_ValidateBasic _); [|done..].
  intros (_ & _ & c & Hc & ->)%Schedule_Ok. eexists. simpl. rewrite lookup_insert_eq.
  split; [done|]. intros s2 Hs2. eexists. split; [by apply execute_stored|].
  rewrite after_plan_params. cbn [plan_Keys plan_Changes].
  rewrite (plan_effect_normalized _ c _ _ Hc), effect_CurrencyPairProviders.
  rewrite decide_True by set_solver. apply foldl_RemovePair_cpp.
Qed.
End denoms.

(** ** Witnesses *)

(** Two plans that are valid on the default parameters. *)
Definition vote_period_plan : ParamUpdatePlan :=
  mkPlan ["VotePeriod"%string] 100
    (with_VotePeriod 30 DefaultParams).
Definition stamp_period_plan : ParamUpdatePlan :=
  mkPlan ["HistoricStampPeriod"%string] 200
    (with_HistoricStampPeriod 20 DefaultParams).

(** The two plans scheduled, and executed at their heights. *)
Definition first_plan : State Sample := (ScheduleParamUpdatePlan vote_period_plan (sample_state 12)).2.
Definition both_plans : State Sample := (ScheduleParamUpdatePlan stamp_period_plan first_plan).2.
Definition first_done : State Sample :=
  (execute_due_plan vote_period_plan (set_BlockHeight (λ _, 100) both_plans)).2.
Definition both_done : State Sample :=
  (execute_due_plan stamp_period_plan (set_BlockHeight (λ _, 200) first_done)).2.

(** Scheduling checks each plan against the parameters of its own day: two
    plans that are both accepted on the default parameters (a vote period of 30
    and a historic stamp period of 20) leave parameters that [Validate] refuses,
    although both run without an error. *)
Theorem plans_interleave :
  ∃ s1 s2 s3 s4 : State Sample,
    Validate DefaultParams = Ok () ∧
    ScheduleParamUpdatePlan vote_period_plan (sample_state 12) = (Ok (), s1) ∧
    ScheduleParamUpdatePlan stamp_period_plan s1 = (Ok (), s2) ∧
    execute_due_plan vote_period_plan (set_BlockHeight (λ _, 100) s2) = (Ok (), s3) ∧
    execute_due_plan stamp_period_plan (set_BlockHeight (λ _, 200) s3) = (Ok (), s4) ∧
    Validate (paramSpace s4) = Err ErrInvalidParamValue.
Proof. exists first_plan, both_plans, first_done, both_done. split_and!; by vm_compute. Qed.

Definition sample_providers_msg : MsgGovRemoveCurrencyPairProviders :=
  mkMsgRemoveProviders "gov" "t" "d" 100 [mkCurrencyPairProvider "DM" "USDT" [] []].
Definition sample_denoms_msg : MsgGovAddDenoms :=
  mkMsgAddDenoms "gov" "t" "d" 100 [mkDenom "uatom" "ATOM" 6] true None [] [].

Lemma first_plan_run : ScheduleParamUpdatePlan vote_period_plan (sample_state 12) = (Ok (), first_plan).
Proof. by vm_compute. Qed.

Lemma scheduled_plan_witness : paramSpace first_plan = DefaultParams.
Proof.
  destruct (scheduled_plan vote_period_plan (sample_state 12)) as [_ Hs].
  exact (proj1 (Hs first_plan first_plan_run)).
Defined.

Definition scheduled_state : State Sample := set_BlockHeight (λ _, 100) first_plan.

Lemma due_plans_witness :
  (forM execute_due_plan (map snd (Walk (ParamUpdatePlans scheduled_state))) scheduled_state).1 = Ok ().
Proof.
  rewrite due_plans; [reflexivity|by vm_compute|]. intros h plan Hl.
  assert (ParamUpdatePlans scheduled_state = {[100 := vote_period_plan]}) as Heq by (by vm_compute).
  rewrite Heq in Hl. apply lookup_singleton_Some in Hl as [<- <-]. reflexivity.
Defined.

Definition denoms_state : State Sample := (GovAddDenoms sample_conf sample_denoms_msg (sample_state 12)).2.

Lemma added_denoms_supported_witness : ∃ plan, ParamUpdatePlans denoms_state !! 100 = Some plan.
Proof.
  destruct (added_denoms_supported sample_conf sample_denoms_msg (sample_state 12) denoms_state
    ltac:(by vm_compute)) as (plan & Hp & _). exists plan. exact Hp.
Defined.

Definition providers_state : State Sample :=
  (GovRemoveCurrencyPairProviders sample_conf sample_providers_msg (sample_state 12)).2.

Lemma removed_providers_witness : ∃ plan, ParamUpdatePlans providers_state !! 100 = Some plan.
Proof.
  destruct (removed_providers sample_conf sample_providers_msg (sample_state 12) providers_state
    ltac:(by vm_compute)) as (plan & Hp & _). exists plan. exact Hp.
Defined.

Lemma Validate_valid_witness : valid_params DefaultParams.
Proof. apply (proj1 (proj1 (Validate_valid DefaultParams))). by vm_compute. Defined.
