(* ===== verification/TallyTheorems.v ===== *)
(** * TallyTheorems: from votes to rates, claims, rewards and slashing

    What the end of a voting period and of a slash window do. *)
From S2P Require Import Prelude Util GoStrings Dec Types Params Store Bech32 Ballot Votes.
From S2P Require Import World State Subspace Keeper HistoricPrice ParamPlan Rewards EndBlock Chain.
From S2P Require Import MsgServer Liveness Sample VotingTheorems.
Local Open Scope Z_scope.

(** ** Tallying one ballot *)

Section tally.
Context `{Bech32} `{DecLaws}.

(** Within [spread] of the median, or an abstention. *)
Definition winner (median spread : LegacyDec) (v : VoteForTally) : Prop :=
  median - spread ≤ vft_ExchangeRate v ≤ median + spread ∨ vft_ExchangeRate v ≤ 0.

#[export] Instance winner_dec median spread v : Decision (winner median spread v).
Proof. unfold winner. apply _. Defined.

Lemma wins_spec median spread v w :
  wins median spread v = Ok w → w = bool_decide (winner median spread v).
Proof.
  unfold wins. intros (lo & Hlo%or_panic_Ok%dec_Sub_Some & Hw)%bind_Ok.
  apply bind_Ok in Hw as (within & Hwithin & [= <-]). subst lo. unfold winner.
  destruct (Z.leb_spec (median - spread) (vft_ExchangeRate v)) as [Hle|Hgt].
  - apply bind_Ok in Hwithin as (hi & Hhi%or_panic_Ok%dec_Add_Some & [= <-]). subst hi.
    destruct (Z.leb_spec (vft_ExchangeRate v) (median + spread)), (Z.ltb_spec 0 (vft_ExchangeRate v));
      simpl; symmetry; first [apply bool_decide_eq_true; lia|apply bool_decide_eq_false; lia].
  - injection Hwithin as <-. destruct (Z.ltb_spec 0 (vft_ExchangeRate v)); simpl; symmetry;
      first [apply bool_decide_eq_true; lia|apply bool_decide_eq_false; lia].
Qed.

Lemma tally_loop inc median spread ballot claims claims' :
  foldM (λ claims v, w ← wins median spread v;
           Ok (if w : bool then credit inc claims v else claims)) ballot claims = Ok claims' →
  claims' = foldl (credit inc) claims (filter (winner median spread) ballot).
Proof.
  revert claims. induction ballot as [|v ballot IH]; intros claims; cbn [foldM].
  - by intros [= <-].
  - intros (claims1 & Hv & Hrest)%bind_Ok. apply bind_Ok in Hv as (w & ->%wins_spec & [= <-]).
    apply IH in Hrest as ->. rewrite filter_cons.
    destruct (decide (winner median spread v)) as [Hw|Hw].
    + by rewrite (bool_decide_eq_true_2 _ Hw).
    + by rewrite (bool_decide_eq_false_2 _ Hw).
Qed.

(** C4: a tally gives the weighted median of the ballot and credits exactly the
    votes within the reward spread of it, or not positive: the spread is the
    larger of the standard deviation and the median times half the reward
    band (rounded to the nearest unit), and is never negative for a
    non-negative deviation.  An unsorted ballot is an error. *)
Theorem tally_credits_winners ballot band claims inc m claims' :
  Tally ballot band claims inc = Ok (m, claims') →
  IsSorted ballot = true ∧ WeightedMedian ballot = Ok m ∧
  ∃ deviation product,
    StandardDeviation ballot = Ok deviation ∧ 0 ≤ deviation ∧
    2 * Z.abs (product * precision - m * Z.quot band 2) ≤ precision ∧
    claims' = foldl (credit inc) claims (filter (winner m (Z.max product deviation)) ballot).
Proof.
  unfold Tally. intros (median & Hm & Ht)%bind_Ok.
  apply bind_Ok in Ht as (sd & Hsd & Ht). apply bind_Ok in Ht as (half & Hhalf%or_panic_Ok & Ht).
  rewrite dec_QuoInt64_spec in Hhalf by done. injection Hhalf as <-.
  apply bind_Ok in Ht as (x & Hx%or_panic_Ok & Ht). apply bind_Ok in Ht as (cs & Hloop & [= <- <-]).
  split; [|split; [done|]].
  { destruct (IsSorted ballot) eqn:Hs; [done|]. by rewrite WeightedMedian_unsorted in Hm. }
  destruct (dec_Mul_spec median (Z.quot band 2)) as (c & Hc & Heq).
  rewrite Heq in Hx. apply dec_checked_Some in Hx as ->.
  exists sd, c. split_and!; [done|by eapply StandardDeviation_nonneg|done|by apply tally_loop].
Qed.
End tally.

(** C5: the weighted median of a sorted ballot splits its power: the votes below
    the median hold at most half of the total power, the votes up to it at least
    half, and the median is the rate of a vote. *)
Theorem weighted_median_splits_power pb :
  IsSorted pb = true → powers_ok pb → pb ≠ [] →
  ∃ r, WeightedMedian pb = Ok r ∧ r ∈ map vft_ExchangeRate pb ∧
    power_sum (filter (λ v, vft_ExchangeRate v < r) pb) ≤ Z.quot (power_sum pb) 2 ∧
    Z.quot (power_sum pb) 2 ≤ power_sum (filter (λ v, vft_ExchangeRate v ≤ r) pb).
Proof.
  intros Hs Hp Hne. destruct (WeightedMedian_total pb Hs) as (r & Hr & _). exists r.
  destruct (WeightedMedian_halves pb r Hs Hp Hne Hr) as (? & ? & ?). done.
Qed.

(** ** Ballots *)

Section ballots.
Context {W : Type} `{Bech32Laws} `{DecOps} `{CoinOps}.
Implicit Types s : State W.

(** C3: the ballots of a voting period: one for each denom that a validator
    with a claim voted on, in the order of the denoms and without duplicates,
    each sorted, and each a permutation of the votes on that denom of the
    validators with a claim, counted as often as the stored votes list them,
    with the power of the voter's claim. *)
Theorem organized_ballots claims s :
  ∃ bs, OrganizeBallotByDenom claims s = (Ok bs, s) ∧
    StronglySorted denom_le bs ∧ NoDup (map bd_Denom bs) ∧
    (∀ d, d ∈ map bd_Denom bs ↔
      ∃ a x, Votes s !! a = Some x ∧ is_Some (claims !! vt_Voter x) ∧
        d ∈ map dc_Denom (vt_ExchangeRates x)) ∧
    ∀ b, b ∈ bs → IsSorted (bd_Ballot b) = true ∧
      bd_Ballot b ≡ₚ concat (map (λ '(a, x),
        match claims !! vt_Voter x with
        | Some claim =>
            map (λ c, NewVoteForTally (dc_Amount c) (bd_Denom b) a (cl_Power claim))
              (filter (λ c, dc_Denom c = bd_Denom b) (vt_ExchangeRates x))
        | None => []
        end) (map_to_list (Votes s))).
Proof.
  destruct (OrganizeBallot_run claims s) as (bs & Hrun & Hs & Hnd & Hbs). exists bs.
  split_and!; [done..| |].
  - intros d. rewrite list_elem_of_fmap. split.
    + intros (b & -> & [Hne _]%Hbs).
      destruct (ballot_for claims s (bd_Denom b)) as [|v l] eqn:Heq; [done|].
      assert (v ∈ ballot_for claims s (bd_Denom b)) as Hv by (rewrite Heq; left).
      apply elem_of_ballot_for in Hv as (a & x & claim & c & Hx & Hc & Hin & Hd & _).
      exists a, x. split_and!; [done|by eexists|]. rewrite <-Hd. by apply list_elem_of_fmap_2.
    + intros (a & x & Hx & [claim Hc] & (c & -> & Hin)%list_elem_of_fmap).
      exists (mkBallotDenom (sort_ballot (ballot_for claims s (dc_Denom c))) (dc_Denom c)).
      split; [done|]. apply Hbs. split; [|done]. simpl. intros Hnil.
      assert (NewVoteForTally (dc_Amount c) (dc_Denom c) a (cl_Power claim) ∈
        ballot_for claims s (dc_Denom c)) as Hv.
      { apply elem_of_ballot_for. by exists a, x, claim, c. }
      rewrite Hnil in Hv. by apply not_elem_of_nil in Hv.
  - intros b [_ Hb]%Hbs. rewrite Hb. split; [apply sort_ballot_IsSorted|].
    rewrite sort_ballot_perm. unfold ballot_for. rewrite Walk_perm. apply reflexive_eq. f_equal.
    apply map_ext. intros [a x]. unfold tally_votes. cbn [fst snd].
    destruct (claims !! vt_Voter x); [|done]. apply map_ext_in.
    intros ? [<- _]%list_elem_of_In%list_elem_of_filter. done.
Qed.
End ballots.

(** ** The end of a voting period *)

Section prices.
Context {W : Type} `{StakingKeeper W} `{CoinsOps} `{!DistributionKeeper W} `{!BankKeeper W}.
Context `{AccountKeeper W} `{PriceOracle W} `{EventManager}.
Context `{Bech32} `{DecOps} `{CoinOps} `{YamlDenom} `{Float64}.
Context (k : KeeperConf).
Implicit Types s : State W.

(** What becomes of a prevote at the end of a period of votes: one that is
    dropped could not be revealed in any later block, and one that is kept can
    be revealed in the next block, or was submitted in the last block of the
    period before. *)
Lemma prevotes_at_period_end vp submit h :
  0 < vp → submit ≤ h → (h + 1) mod vp = 0 →
  (submit + vp < h → ∀ h', h < h' → ¬ next_period vp submit h') ∧
  (h ≤ submit + vp → next_period vp submit (h + 1) ∨ submit + vp = h).
Proof.
  intros Hvp Hle Hmod. unfold next_period.
  pose proof (Z.div_mod (h + 1) vp ltac:(lia)) as Hh. rewrite Hmod in Hh.
  set (n := (h + 1) / vp) in *. split.
  - intros Hold h' Hlater Hnext.
    assert (submit / vp < n - 1) by (apply Z.div_lt_upper_bound; nia).
    assert (n ≤ h' / vp) by (apply Z.div_le_lower_bound; nia). lia.
  - intros Hkept. destruct (decide (submit + vp = h)); [by right|left].
    assert (submit / vp = n - 1); [|lia].
    symmetry. apply (Z.div_unique_pos _ _ _ (submit - vp * (n - 1))); nia.
Qed.

(** C6: a completed price computation in a well-formed state leaves no vote,
    keeps exactly the prevotes submitted at most a voting period before the
    block, leaves exchange rates only for denoms of the accept or the
    mandatory list, and does not touch the parameters.  In the last block of
    a period, where the chain computes the prices, no prevote that is dropped
    could be revealed in a later block, and a prevote that is kept can be
    revealed in the next block, unless it was submitted in the very last block
    of the period before: such a prevote is past its reveal period, and still
    kept for one more period. *)
Theorem prices_computed p s s' :
  wf s → 0 ≤ Types.VotePeriod p < 2 ^ 63 →
  CalcPrices k p s = (Ok (), s') →
  Votes s' = ∅ ∧
  (∀ v, Prevotes s' !! v =
     match Prevotes s !! v with
     | Some prevote => if decide (BlockHeight s ≤ pv_SubmitBlock prevote + Types.VotePeriod p)
                       then Some prevote else None
     | None => None
     end) ∧
  (∀ d, is_Some (ExchangeRates s' !! d) →
     DenomList_Contains (Types.MandatoryList p) d = true ∨
     DenomList_Contains (Types.AcceptList p) d = true) ∧
  paramSpace s' = paramSpace s ∧
  (IsPeriodLastBlock (Types.VotePeriod p) s = (Ok true, s) →
   ∀ v prevote, Prevotes s !! v = Some prevote →
     (Prevotes s' !! v = None →
        ∀ h, BlockHeight s < h → ¬ next_period (Types.VotePeriod p) (pv_SubmitBlock prevote) h) ∧
     (is_Some (Prevotes s' !! v) →
        next_period (Types.VotePeriod p) (pv_SubmitBlock prevote) (BlockHeight s + 1) ∨
        pv_SubmitBlock prevote + Types.VotePeriod p = BlockHeight s)).
Proof.
  intros Hwf Hvp (Hv & Hp & Hr & Hps)%CalcPrices_Ok.
  assert (∀ v, Prevotes s' !! v =
     match Prevotes s !! v with
     | Some prevote => if decide (BlockHeight s ≤ pv_SubmitBlock prevote + Types.VotePeriod p)
                       then Some prevote else None
     | None => None
     end) as Hkept.
  { intros v. rewrite Hp. unfold still_pending. rewrite map_lookup_filter.
    destruct (Prevotes s !! v) as [prevote|] eqn:Hl; [|done]. simpl.
    pose proof (wf_height _ Hwf). destruct (wf_prevotes _ Hwf _ _ Hl) as (_ & _ & ? & _).
    rewrite Z.max_r, wrap_u64_id by (unfold is_u64; lia).
    unfold guard. repeat case_decide; try done; lia. }
  split_and!; [done..|]. intros Hlast v prevote Hl.
  destruct (decide (Types.VotePeriod p = 0)) as [Hz|Hpos].
  { rewrite Hz, IsPeriodLastBlock_zero in Hlast. discriminate Hlast. }
  rewrite IsPeriodLastBlock_run in Hlast by (pose proof (wf_height _ Hwf); lia).
  injection Hlast as Hmod%Z.eqb_eq.
  destruct (wf_prevotes _ Hwf _ _ Hl) as (_ & _ & ? & _).
  destruct (prevotes_at_period_end (Types.VotePeriod p) (pv_SubmitBlock prevote) (BlockHeight s))
    as [Hgone Hstay]; [lia..|].
  rewrite Hkept, Hl. case_decide as Hd; split.
  - done.
  - intros _. by apply Hstay.
  - intros _. apply Hgone. lia.
  - by intros [].
Qed.

(** One listed denom with enough support and no reward band stops the
    whole price computation with [ErrNoRewardBand], which halts the chain. *)
Theorem missing_band_is_fatal p threshold total claims b support s :
  DenomList_Contains (Types.MandatoryList p) (bd_Denom b) = true ∨
  DenomList_Contains (Types.AcceptList p) (bd_Denom b) = true →
  GetBandFromDenom (Types.RewardBands p) (bd_Denom b) = Err ErrNoRewardBand →
  go_div (wrap_i64 (Power (bd_Ballot b) * MaxVoteThresholdMultiplier)) total = Ok support →
  threshold ≤ support →
  ∀ bs, loopM (process_ballot p threshold total) (b :: bs) claims s = (Err ErrNoRewardBand, s).
Proof.
  intros Hl Hb Hs Ht bs. cbn [loopM]. apply M_bind_Err. unfold process_ballot.
  replace (negb _ && negb _) with false.
  - erewrite M_bind_run by (by rewrite Hs). rewrite (proj2 (Z.ltb_ge support threshold)) by done.
    apply M_bind_Err. by rewrite Hb.
  - destruct Hl as [-> | ->]; [done|]. by rewrite andb_comm.
Qed.

(** The keeper that [NewKeeper] builds, whatever its arguments, has no
    price feeder, and with it no block ends successfully. *)
Theorem new_keeper_halts w gov distr telemetry auth s :
  NewKeeper w gov distr telemetry auth = Ok k → (EndBlocker k s).1 ≠ Ok ().
Proof.
  unfold NewKeeper. destruct (GetModuleAddress w ModuleName); [|done]. intros [= Hk].
  apply EndBlocker_nil. by rewrite <-Hk.
Qed.
End prices.

(** ** A minority cannot stop the computation *)

Section minority.
Context {W : Type} `{StakingKeeper W} `{CoinsOps} `{!DistributionKeeper W} `{!BankKeeper W}.
Context `{AccountKeeper W} `{PriceOracle W} `{EventManager}.
Context `{Bech32Laws} `{DecLaws} `{!SqrtLaws} `{CoinLaws} `{YamlDenom} `{Float64} `{TmHash}.
Context (k : KeeperConf).
Implicit Types s : State W.

(** The ballot of [d], and whether the computation counts it. *)
Definition ballot_of (claims : gmap string Claim) s (d : string) : BallotDenom :=
  mkBallotDenom (sort_ballot (ballot_for claims s d)) d.

(** The votes on [d]: their powers fit, those of [P] are in the range of [d],
    and the others are a minority. *)
Definition sound_votes (lo hi : string → LegacyDec) (P : VoteForTally → Prop)
    `{!∀ v, Decision (P v)} (d : string) (pb : ExchangeRateBallot) : Prop :=
  powers_ok pb ∧ minority P pb ∧ ∀ v, v ∈ pb → P v → lo d ≤ vft_ExchangeRate v ≤ hi d.

Lemma organized_ready lo hi P `{!∀ v, Decision (P v)} claims s bs :
  wf s → (∀ d, ballot_for claims s d ≠ [] → sound_votes lo hi P d (ballot_for claims s d)) →
  (∀ b, b ∈ bs ↔ ballot_for claims s (bd_Denom b) ≠ [] ∧
                 bd_Ballot b = sort_ballot (ballot_for claims s (bd_Denom b))) →
  Forall (ready lo hi P claims) bs.
Proof.
  intros Hs Hsound Hbs. apply Forall_forall. intros b [Hne Heq]%Hbs.
  destruct (Hsound _ Hne) as (Hpow & Hmin & Hr).
  pose proof (sort_ballot_perm (ballot_for claims s (bd_Denom b))) as Hperm. rewrite <- Heq in Hperm.
  split_and!.
  - split_and!; [by rewrite Heq; apply sort_ballot_IsSorted|by eapply powers_ok_perm|by eapply minority_perm|].
    intros v Hv. apply Hr. by rewrite <- Hperm.
  - destruct (ballot_for claims s (bd_Denom b)) as [|v l] eqn:Hb; [done|].
    assert (v ∈ ballot_for claims s (bd_Denom b)) as Hv by (rewrite Hb; by left).
    by apply ballot_vote in Hv as [? _].
  - intros v Hv. rewrite Hperm in Hv. by eapply ballot_vote.
Qed.

(** C7: no minority can stop or bend a price computation.  The validators of [P]
    vote for rates in a range of each denom, the others for anything, and hold
    less than half of the power of each ballot (rounded down).  With parameters
    that name a band for each listed denom and stamp medians where prices are
    stamped, the computation gets to the distribution of the rewards, and then
    a denom has a rate exactly when its ballot reached the threshold, which is
    in the range of its honest rates; the price stamps stay bounded. *)
Theorem minority_cannot_stop_prices lo hi top P `{!∀ v, Decision (P v)} s vals total claims :
  let p := paramSpace s in
  (∀ e, EmitTypedEvent_result e = Ok ()) →
  price_bound top → (∀ d, 0 ≤ lo d) → (∀ d, hi d ≤ top) →
  wf s → computable p → stamps_ok top s →
  GetBondedValidatorsByPower (world s) = Ok vals → canonical vals →
  foldM (claim_of (PowerReduction (world s))) vals (0, ∅) = Ok (total, claims) → total ≠ 0 →
  (∀ d, ballot_for claims s d ≠ [] → sound_votes lo hi P d (ballot_for claims s d)) →
  ∃ targets winners s1,
    CalcPrices k p s =
      (RewardBallotWinners k (SafeUint64ToInt64 (Types.VotePeriod p))
         (SafeUint64ToInt64 (Types.RewardDistributionWindow p)) targets winners;;
       ClearBallots (Types.VotePeriod p)) s1 ∧
    stamps_ok top s1 ∧
    ∀ d, if decide (ballot_for claims s d = []) then ExchangeRates s1 !! d = None else
         (counted p (vote_threshold p) total (ballot_of claims s d) →
          ∃ m, ExchangeRates s1 !! d = Some m ∧ lo d ≤ m ≤ hi d) ∧
         (¬ counted p (vote_threshold p) total (ballot_of claims s d) → ExchangeRates s1 !! d = None).
Proof.
  intros p Hev Htop Hlo Hhi Hs Hp Hst Hvals Hcan Hclaims Htot Hsound. unfold CalcPrices.
  erewrite M_bind_run by done. rewrite Hvals. erewrite M_bind_run by done.
  rewrite Hclaims. erewrite M_bind_run by done. cbv beta iota. erewrite M_bind_run by done.
  set (s0 := set_ExchangeRates (λ _, ∅) s).
  destruct (OrganizeBallot_run claims s0) as (bs & Hrun & _ & Hnd & Hbs).
  erewrite M_bind_run by exact Hrun. erewrite M_bind_run by done.
  pose proof (threshold_run p (cp_threshold p Hp)) as Hth.
  apply bind_Ok in Hth as (scaled & Hsc & Htr).
  change (Types.VoteThreshold (paramSpace s0)) with (Types.VoteThreshold p). rewrite Hsc.
  erewrite M_bind_run by done. rewrite Htr. erewrite M_bind_run by done.
  destruct (ballots_total Hev lo hi top Htop Hlo Hhi P p (vote_threshold p) total bs claims s0)
    as (claims' & s1 & Hloop & Hsame & (Ep & Eh & Es) & Hout & Hin); try done.
  { exact (wf_height s Hs). }
  { by eapply organized_ready. }
  erewrite M_bind_run by exact Hloop. erewrite M_bind_run by done.
  destruct (ClaimMapToSlices_total claims' (default [] (ValidatorRewardSet s1))) as [[cs rws] Hcs].
  { eapply same_validators_keyed; [exact Hsame|by eapply claims_of_keyed]. }
  rewrite Hcs. erewrite M_bind_run by done. cbv beta iota.
  destruct (misses_total (Z.of_nat (length (Types.MandatoryList p))) cs s1) as (s2 & Hmiss & Hs2).
  erewrite M_bind_run by exact Hmiss. do 3 eexists. split; [reflexivity|].
  assert (ExchangeRates s2 = ExchangeRates s1 ∧ HistoricPrices s2 = HistoricPrices s1) as [He Hh]
    by (rewrite <- Hs2; by destruct s2).
  split; [unfold stamps_ok; rewrite Hh; by apply Es|]. intros d. rewrite He.
  case_decide as Hd.
  - rewrite Hout; [done|]. intros (b & -> & [Hne _]%Hbs)%list_elem_of_fmap. by apply Hne.
  - destruct (Hin (ballot_of claims s d)) as [Hyes Hno]; [by apply Hbs|]. split; [exact Hyes|].
    intros Hnc%Hno. exact Hnc.
Qed.
(** A ballot in a block that stamps no price leaves the stamped prices alone,
    and needs one of its denom when the block stamps a median. *)
Lemma process_ballot_unstamped p threshold total claims b claims' s s' :
  0 ≤ BlockHeight s < 2 ^ 63 → 0 < Types.HistoricStampPeriod p →
  (BlockHeight s + 1) mod Types.HistoricStampPeriod p ≠ 0 →
  0 ≤ Types.MaximumPriceStamps (paramSpace s) →
  process_ballot p threshold total claims b s = (Ok claims', s') →
  HistoricPrices s' = HistoricPrices s ∧ BlockHeight s' = BlockHeight s ∧
  paramSpace s' = paramSpace s ∧
  (counted p threshold total b → 0 < Types.MedianStampPeriod p →
   (BlockHeight s + 1) mod Types.MedianStampPeriod p = 0 →
   ∃ block price, HistoricPrices s !! (bd_Denom b, block) = Some price).
Proof.
  intros Hh Hhp Hno Hmax. unfold process_ballot.
  destruct (negb _ && negb _) eqn:Hlisted.
  { intros [= <- <-]. split_and!; [done..|]. intros [[Hl|Hl] _]; rewrite Hl in Hlisted; simpl in Hlisted;
      by rewrite ?andb_false_r in Hlisted. }
  intros (support & Hsupport & Hrun)%M_bind_lift_Ok.
  destruct (Z.ltb_spec support threshold) as [Hlt|Hge].
  { injection Hrun as <- <-. split_and!; [done..|]. intros [_ Hc]. exfalso.
    unfold go_div in Hsupport. destruct (total =? 0); [done|]. injection Hsupport as <-. lia. }
  apply M_bind_lift_Ok in Hrun as (band & _ & Hrun).
  apply M_bind_lift_Ok in Hrun as ([rate cs] & _ & Hrun). cbv beta iota in Hrun.
  apply M_bind_Ok in Hrun as ([] & s1 & Hset & Hrun).
  assert (HistoricPrices s1 = HistoricPrices s ∧ BlockHeight s1 = BlockHeight s ∧
    paramSpace s1 = paramSpace s) as (E1 & E2 & E3).
  { apply M_bind_Ok in Hset as ([] & s0 & [= <-] & Hev).
    by apply M_bind_lift_Ok in Hev as (? & _ & [= <-]). }
  rewrite <-E1, <-E2, <-E3 in *.
  apply M_bind_Ok in Hrun as (historic & s2 & Hhist & Hrun).
  rewrite IsPeriodLastBlock_run in Hhist by done. injection Hhist as <- <-.
  rewrite (proj2 (Z.eqb_neq _ _) Hno) in Hrun.
  apply M_bind_Ok in Hrun as ([] & s2 & [= <-] & Hrun).
  apply M_bind_Ok in Hrun as (median & s2 & Hmed & Hrun).
  assert (s2 = s1) as -> by (apply M_bind_Ok in Hmed as (? & ? & [= <- <-] & Hmed);
    apply M_bind_lift_Ok in Hmed as (? & _ & [= _ <-]); done).
  apply M_bind_Ok in Hrun as ([] & s3 & Hstamp & [= <- <-]).
  destruct median.
  - apply CalcAndSetHistoricMedian_Ok in Hstamp as (m & dev & Hm & _ & ->); [|done].
    split_and!; [done..|]. intros _ _ _.
    destruct (newest (HistoricPrices s1) (bd_Denom b) _) as [|[[d n] r] l] eqn:Hn; [done|].
    exists n, r. pose proof (newest_elem (HistoricPrices s1) (bd_Denom b)
      (Z.to_nat (Types.MaximumPriceStamps (paramSpace s1))) (d, n) r) as [Hl Hd]; [|by rewrite <-Hd].
    rewrite Hn. by left.
  - injection Hstamp as <-. split_and!; [done..|]. intros _ Hpos Hmod. exfalso.
    rewrite IsPeriodLastBlock_run in Hmed by done. rewrite Hmod in Hmed. done.
Qed.

Lemma ballots_unstamped p threshold total bs claims claims' b s s' :
  0 ≤ BlockHeight s < 2 ^ 63 → 0 < Types.HistoricStampPeriod p → 0 < Types.MedianStampPeriod p →
  (BlockHeight s + 1) mod Types.HistoricStampPeriod p ≠ 0 →
  (BlockHeight s + 1) mod Types.MedianStampPeriod p = 0 →
  0 ≤ Types.MaximumPriceStamps (paramSpace s) →
  loopM (process_ballot p threshold total) bs claims s = (Ok claims', s') →
  b ∈ bs → counted p threshold total b →
  ∃ block price, HistoricPrices s !! (bd_Denom b, block) = Some price.
Proof.
  intros Hh Hhp Hmp Hno Hmed Hmax Hloop Hb Hc. revert claims s Hh Hno Hmed Hmax Hloop.
  induction bs as [|b' bs IH]; intros claims s Hh Hno Hmed Hmax Hloop; [by apply not_elem_of_nil in Hb|].
  cbn [loopM] in Hloop. apply M_bind_Ok in Hloop as (claims1 & s1 & Hstep & Hloop).
  apply process_ballot_unstamped in Hstep as (E1 & E2 & E3 & Hfound); [|done..].
  apply elem_of_cons in Hb as [->|Hb]; [by apply Hfound|].
  rewrite <-E1. rewrite <-E2 in Hh, Hno, Hmed. rewrite <-E3 in Hmax. by eapply IH.
Qed.

(** C11: medians stamped where prices are not stop the chain: in the last block
    of a median period that is not the last of a historic period, when the
    ballot of a listed denom without a stamped price reaches the threshold, no
    price computation succeeds, whatever the rest of the state.  [Validate]
    asks that both periods are multiples of the vote period and not that one
    is of the other, so it accepts parameters that have such blocks. *)
Theorem misaligned_medians_halt s d vals total claims :
  let p := paramSpace s in
  0 ≤ BlockHeight s < 2 ^ 63 → 0 ≤ Types.VoteThreshold p ≤ precision →
  0 < Types.HistoricStampPeriod p → 0 < Types.MedianStampPeriod p → 0 ≤ Types.MaximumPriceStamps p →
  (BlockHeight s + 1) mod Types.MedianStampPeriod p = 0 →
  (BlockHeight s + 1) mod Types.HistoricStampPeriod p ≠ 0 →
  GetBondedValidatorsByPower (world s) = Ok vals →
  foldM (claim_of (PowerReduction (world s))) vals (0, ∅) = Ok (total, claims) →
  ballot_for claims s d ≠ [] → counted p (vote_threshold p) total (ballot_of claims s d) →
  (∀ block, HistoricPrices s !! (d, block) = None) →
  (CalcPrices k p s).1 ≠ Ok ().
Proof.
  intros p Hh Hth Hhp Hmp Hmax Hmed Hno Hvals Hclaims Hne Hcounted Hnone Hok.
  destruct (CalcPrices k p s) as [r s'] eqn:Hrun. simpl in Hok. subst r. unfold CalcPrices in Hrun.
  apply M_bind_Ok in Hrun as (w & s1 & [= <- <-] & Hrun). rewrite Hvals in Hrun.
  apply M_bind_lift_Ok in Hrun as (? & [= <-] & Hrun). rewrite Hclaims in Hrun.
  apply M_bind_lift_Ok in Hrun as (? & [= <-] & Hrun). cbv beta iota in Hrun.
  apply M_bind_Ok in Hrun as ([] & s1 & [= <-] & Hrun). set (s0 := set_ExchangeRates _ s) in Hrun.
  destruct (OrganizeBallot_run claims s0) as (bs & Hbs & _ & _ & Hin).
  apply M_bind_Ok in Hrun as (? & ? & Hbs' & Hrun). rewrite Hbs in Hbs'. injection Hbs' as <- <-.
  apply M_bind_Ok in Hrun as (vt & s1 & [= <- <-] & Hrun).
  pose proof (threshold_run p Hth) as Hthr. apply bind_Ok in Hthr as (scaled & Hsc & Htr).
  change (Types.VoteThreshold (paramSpace s)) with (Types.VoteThreshold p) in Hrun.
  rewrite Hsc in Hrun. apply M_bind_lift_Ok in Hrun as (? & [= <-] & Hrun).
  rewrite Htr in Hrun. apply M_bind_lift_Ok in Hrun as (? & [= <-] & Hrun).
  apply M_bind_Ok in Hrun as (claims' & s1 & Hloop & _).
  assert (ballot_of claims s d ∈ bs) as Hb by (by apply Hin).
  destruct (ballots_unstamped p (vote_threshold p) total bs claims claims' (ballot_of claims s d) s0 s1)
    as (block & price & Hl); [done..|].
  change (HistoricPrices s !! (d, block) = Some price) in Hl. by rewrite Hnone in Hl.
Qed.
End minority.

(** ** The end of a slash window *)

Section slashing.
Context {W : Type} `{StakingKeeper W} `{DecLaws}.
Implicit Types s : State W.

(** C14: at the end of a slash window a known validator is slashed and then
    jailed exactly when it is bonded, not jailed, slashing is enabled and the
    share of its mandatory wins is below the minimum; the test is exact in
    spite of the truncated division.  Nothing of the oracle state changes. *)
Theorem slashed_when_below_minimum operator misses possible minRate dh sf pr v s :
  0 < possible < 2 ^ 62 → 0 ≤ misses < 2 ^ 62 → 0 < minRate →
  Validator (world s) operator = Ok (Some v) →
  evaluateAndSlashIfNeeded operator misses possible minRate dh sf pr s =
  if decide ((possible - misses) * precision < minRate * possible) then
    if IsBonded v && negb (IsJailed v) && Types.SlashingEnabled (paramSpace s) then
      let '(r, w) := slash_call v dh sf pr (world s) in (r, set_world (λ _, w) s)
    else (Ok (), s)
  else (Ok (), s).
Proof.
  intros Hp Hm Hmin Hv. rewrite evaluate_run by lia. rewrite Hv.
  pose proof (offends_spec possible misses minRate Hp Hm Hmin) as Ho.
  case_decide as Hd.
  - rewrite (proj2 (Z.ltb_lt _ _)) by tauto. done.
  - rewrite (proj2 (Z.ltb_ge _ _)); [done|]. apply Z.le_ngt. tauto.
Qed.

(** A completed pass over the miss counters removes all of them and
    changes nothing else of the oracle state. *)
Theorem miss_counters_reset s s' :
  SlashAndResetMissCounters s = (Ok (), s') →
  MissCounters s' = ∅ ∧ s' = set_world (λ _, world s') (set_MissCounters (λ _, ∅) s).
Proof. intros [w ->]%SlashAndReset_Ok. by split. Qed.

(** With an empty mandatory list, which validation allows, the first
    miss counter makes the end of the slash window panic on a division by
    zero. *)
Theorem empty_mandatory_list_panics s :
  0 < Types.VotePeriod (paramSpace s) < 2 ^ 63 → 0 ≤ Types.SlashWindow (paramSpace s) < 2 ^ 63 →
  Types.MandatoryList (paramSpace s) = [] → MissCounters s ≠ ∅ →
  (SlashAndResetMissCounters s).1 = Panic.
Proof. intros. by rewrite SlashAndReset_no_mandatory. Qed.
End slashing.

(** ** Denoms the coin constructor refuses *)

Section refused.
Context {W : Type} `{StakingKeeper W} `{CoinsOps} `{!DistributionKeeper W} `{!BankKeeper W}.
Context `{AccountKeeper W} `{PriceOracle W} `{EventManager}.
Context `{Bech32Laws} `{DecOps} `{CoinLaws} `{YamlDenom} `{Float64} `{TmHash}.
Context (k : KeeperConf).
Implicit Types s : State W.

(** C17: a denom that the SDK's coin constructor refuses is never voted and
    never priced: whatever messages, blocks and changes of other modules follow
    a state without a rate for it, no pending vote names it and its rate is
    unknown, even when it is on the accept or the mandatory list. *)
Theorem refused_denom_never_priced s s' d :
  refused (ToUpper d) → wf s → reachable k s s' → ExchangeRates s !! ToUpper d = None →
  (∀ v x, Votes s' !! v = Some x → d ∉ map dc_Denom (vt_ExchangeRates x)) ∧
  (GetExchangeRate d s').1 = Err ErrUnknownDenom.
Proof.
  intros Hd Hs Hr Hn. split.
  - intros v x Hl Hin. apply (reachable_wf k s s' Hs) in Hr.
    apply (wf_votes s' Hr) in Hl as (_ & _ & Hp). apply (parsed_not_refused _ _ Hp Hd).
    apply list_elem_of_fmap in Hin as (c & -> & Hin). destruct Hp as [_ Hup _ _ _].
    rewrite Forall_forall in Hup. rewrite (Hup c Hin). by apply list_elem_of_fmap_2.
  - apply (reachable_unpriced k (ToUpper d)) in Hr; [|intros t; by apply wf_unvoted|done|done].
    unfold GetExchangeRate, gets, mbind, M_bind. by rewrite Hr.
Qed.
End refused.

(** ** Witnesses *)

(** Three votes of power 30, 40 and 30: the median is the middle one, and the
    third vote is out of the spread of a 2% band. *)
Definition sample_ballot : ExchangeRateBallot :=
  [NewVoteForTally (precision * 99 / 100) "USDT" "x" 30; NewVoteForTally precision "USDT" "y" 40;
   NewVoteForTally (precision * 2) "USDT" "z" 30].
Definition sample_claims : gmap string Claim :=
  {["vx"%string := NewClaim 30 0 0 "x"; "vy"%string := NewClaim 40 0 0 "y";
    "vz"%string := NewClaim 30 0 0 "z"]}.
Definition sample_band : LegacyDec := precision * 2 / 100.
Definition tallied_claims : gmap string Claim :=
  {["vx"%string := NewClaim 30 30 1 "x"; "vy"%string := NewClaim 40 40 1 "y";
    "vz"%string := NewClaim 30 0 0 "z"]}.

Lemma tally_credits_winners_witness :
  Tally sample_ballot sample_band sample_claims true = Ok (precision, tallied_claims) ∧
  WeightedMedian sample_ballot = Ok precision.
Proof.
  assert (Tally sample_ballot sample_band sample_claims true = Ok (precision, tallied_claims)) as Ht
    by (by vm_compute).
  split; [exact Ht|].
  exact (proj1 (proj2 (tally_credits_winners sample_ballot sample_band sample_claims true _ _ Ht))).
Defined.

Lemma weighted_median_splits_power_witness : ∃ r, WeightedMedian sample_ballot = Ok r.
Proof.
  destruct (weighted_median_splits_power sample_ballot) as (r & Hr & _).
  - by vm_compute.
  - split; [by repeat constructor|by vm_compute].
  - discriminate.
  - exists r. exact Hr.
Defined.

Definition period_end : State Sample := set_BlockHeight (λ _, 29) voted_state.
Definition priced_state : State Sample := (CalcPrices sample_conf DefaultParams period_end).2.

Lemma voted_wf : wf voted_state.
Proof. eapply (deliver_wf sample_conf (OVote vote_msg)); [exact reveal_wf|exact vote_run]. Qed.

Lemma period_end_wf : wf period_end.
Proof.
  destruct voted_wf as [_ Hf _ Hv Hpl]. split; try done.
Qed.

Lemma prices_computed_witness : Votes priced_state = ∅ ∧ Votes period_end ≠ ∅.
Proof.
  split.
  - refine (proj1 (prices_computed sample_conf DefaultParams period_end priced_state period_end_wf _ _)).
    + by vm_compute.
    + by vm_compute.
  - intros Hv. apply (f_equal (λ m : gmap addr Types.AggregateExchangeRateVote,
      bool_decide (is_Some (m !! "x"%string)))) in Hv. vm_compute in Hv. discriminate Hv.
Defined.

Lemma refused_denom_never_priced_witness :
  (GetExchangeRate DmSymbol committed_state).1 = Err ErrUnknownDenom.
Proof.
  apply (refused_denom_never_priced sample_conf (sample_state 12) committed_state DmSymbol).
  - by intros amount c.
  - apply (sample_wf 12). lia.
  - apply rtc_once, (step_tx _ _ (OPrevote prevote_msg)). by vm_compute.
  - reflexivity.
Defined.

(** A ballot on a mandatory denom, and parameters without bands. *)
Definition bandless_params : Params := with_RewardBands [] DefaultParams.

Lemma missing_band_is_fatal_witness :
  loopM (process_ballot bandless_params 50 100) [mkBallotDenom sample_ballot "USDT"] ∅ period_end =
  (Err ErrNoRewardBand, period_end).
Proof.
  apply (missing_band_is_fatal bandless_params 50 100 ∅ (mkBallotDenom sample_ballot "USDT") 100).
  - by left.
  - reflexivity.
  - by vm_compute.
  - lia.
Defined.

Lemma new_keeper_halts_witness :
  (EndBlocker (mkKeeperConf "gov" "" false None false false false false false) (sample_state 12)).1 ≠ Ok ().
Proof.
  apply (new_keeper_halts _ sample_world "gov" "distribution" true "" (sample_state 12)). reflexivity.
Defined.

Definition slashing_state : State Sample :=
  set_paramSpace (with_SlashingEnabled true) (set_MissCounters <["x"%string := 99]> (sample_state 12)).

Lemma slashed_when_below_minimum_witness :
  sm_slashed (world (evaluateAndSlashIfNeeded "x" 99 100 (precision * 5 / 100) 10 1 1 slashing_state).2)
  = ["x"%string].
Proof.
  rewrite (slashed_when_below_minimum "x" 99 100 (precision * 5 / 100) 10 1 1
    (sample_val "x" 60).2 slashing_state).
  - by vm_compute.
  - lia.
  - lia.
  - by vm_compute.
  - by vm_compute.
Defined.

Definition slashed_state : State Sample := (SlashAndResetMissCounters slashing_state).2.

Lemma slash_run : SlashAndResetMissCounters slashing_state = (Ok (), slashed_state).
Proof. by vm_compute. Qed.

Lemma miss_counters_reset_witness : MissCounters slashed_state = ∅.
Proof. exact (proj1 (miss_counters_reset slashing_state slashed_state slash_run)). Defined.

Lemma empty_mandatory_list_panics_witness :
  (SlashAndResetMissCounters (set_paramSpace (with_MandatoryList []) slashing_state)).1 = Panic.
Proof.
  apply empty_mandatory_list_panics.
  - by vm_compute.
  - by vm_compute.
  - reflexivity.
  - intros Hm. apply (f_equal (λ m : gmap addr Z, bool_decide (is_Some (m !! "x"%string)))) in Hm.
    vm_compute in Hm. discriminate Hm.
Defined.

(** The validator [x], with 60 of 100, reveals two rates. *)
Lemma default_computable : computable DefaultParams.
Proof.
  split; [|by vm_compute..| |by vm_compute|split; by vm_compute].
  - apply listed_bands. intros x Hx. vm_compute in Hx.
    repeat (apply elem_of_cons in Hx as [->|Hx]; [eexists; split; [by vm_compute|split; by vm_compute]|]).
    by apply elem_of_nil in Hx.
  - by vm_compute.
Qed.

Definition sample_vals : list ValidatorI := map snd (sm_vals sample_world).
Definition period_claims : gmap string Claim :=
  {["vx"%string := NewClaim 60 0 0 "x"; "vy"%string := NewClaim 40 0 0 "y"]}.
Definition market_lo (_ : string) : LegacyDec := precision.
Definition market_hi (_ : string) : LegacyDec := 2 * precision.

Lemma period_ballots d :
  ballot_for period_claims period_end d ≠ [] →
  sound_votes market_lo market_hi (λ v, vft_Voter v = "x"%string) d
    (ballot_for period_claims period_end d).
Proof.
  intros Hne. assert (d = "USDT"%string ∨ d = "USDC"%string) as Hd.
  { destruct (ballot_for period_claims period_end d) as [|v l] eqn:Hb; [done|].
    assert (v ∈ ballot_for period_claims period_end d) as Hv by (rewrite Hb; by left).
    clear Hb Hne. apply elem_of_ballot_for in Hv as (a & x & claim & c & Hx & _ & Hin & <- & _).
    assert ((a, x) ∈ Walk (Votes period_end)) as Hw by (by apply elem_of_Walk).
    clear Hx. vm_compute in Hw. apply elem_of_cons in Hw as [[= -> ->]|Hw]; [|by apply elem_of_nil in Hw].
    simpl in Hin. apply elem_of_cons in Hin as [->|Hin]; [by left|].
    apply elem_of_cons in Hin as [->|Hin]; [by right|by apply elem_of_nil in Hin]. }
  clear Hne. destruct Hd as [-> | ->]; (split_and!;
    [split; [by repeat constructor|by vm_compute]|by vm_compute|]);
    intros v Hv _; vm_compute in Hv;
    (apply elem_of_cons in Hv as [->|Hv]; [split; by vm_compute|by apply elem_of_nil in Hv]).
Qed.

Lemma minority_cannot_stop_prices_witness : ∃ targets winners s1,
  CalcPrices sample_conf DefaultParams period_end =
    (RewardBallotWinners sample_conf 10 (Types.RewardDistributionWindow DefaultParams) targets winners;;
     ClearBallots 10) s1 ∧
  ∃ m, ExchangeRates s1 !! "USDT"%string = Some m ∧ precision ≤ m ≤ 2 * precision.
Proof.
  destruct (minority_cannot_stop_prices sample_conf market_lo market_hi (2 * precision)
    (λ v, vft_Voter v = "x"%string) period_end sample_vals 100 period_claims)
    as (targets & winners & s1 & Hrun & _ & Hd).
  - done.
  - split; by vm_compute.
  - by intros.
  - by intros.
  - exact period_end_wf.
  - exact default_computable.
  - intros key r Hl. by vm_compute in Hl.
  - done.
  - intros v a Hv. vm_compute in Hv.
    apply elem_of_cons in Hv as [->|Hv]; [by intros [= <-]|].
    apply elem_of_cons in Hv as [->|Hv]; [by intros [= <-]|by apply elem_of_nil in Hv].
  - by vm_compute.
  - done.
  - exact period_ballots.
  - exists targets, winners, s1. split; [exact Hrun|]. specialize (Hd "USDT"%string).
    rewrite decide_False in Hd by (by vm_compute).
    apply (proj1 Hd). split; [right; by vm_compute|by vm_compute].
Defined.

Definition misaligned_params : Params :=
  with_HistoricStampPeriod 20 (with_MedianStampPeriod 30 DefaultParams).
Definition misaligned_state : State Sample := set_paramSpace (λ _, misaligned_params) period_end.
(** [Validate] accepts the two periods, the first median of the two voted
    denoms halts the chain, and with the default periods the same block ends. *)
Lemma misaligned_medians_halt_witness :
  Validate misaligned_params = Ok () ∧
  (CalcPrices sample_conf misaligned_params misaligned_state).1 ≠ Ok () ∧
  (EndBlocker sample_conf misaligned_state).1 = Err ErrEmptyList ∧
  (EndBlocker sample_conf period_end).1 = Ok ().
Proof.
  split_and!.
  - by vm_compute.
  - apply (misaligned_medians_halt sample_conf misaligned_state "USDT" sample_vals 100 period_claims).
    + by vm_compute.
    + by vm_compute.
    + by vm_compute.
    + by vm_compute.
    + by vm_compute.
    + by vm_compute.
    + by vm_compute.
    + done.
    + by vm_compute.
    + by vm_compute.
    + split; [right; by vm_compute|by vm_compute].
    + by intros block.
  - by vm_compute.
  - by vm_compute.
Defined.
