(* ===== verification/RewardTheorems.v ===== *)
(** * RewardTheorems: what a period pays out

    The theorem about [RewardBallotWinners] of
    [src/x/oracle/keeper/reward.go]: the coins it allocates to the winners of
    a period are covered by the balances they are taken from.  [CoinsLaws] and
    [Float64Laws] state what the arithmetic of the SDK's coins and of Go's
    floating point numbers has to satisfy; the second section discharges them
    for a small instance, and the witness evaluates on it. *)
From S2P Require Import Prelude Util GoStrings Dec Types Params Store Bech32 Ballot Votes World State.
From S2P Require Import Subspace Keeper Rewards Sample.
Local Open Scope Z_scope.

(** [AmountOf] of the SDK's coins, and how the operations act on the amounts
    of the values they build. *)
Class CoinsLaws (C : CoinsOps) := {
  DecCoins_AmountOf : DecCoins → string → Z;
  Coins_AmountOf : Coins → string → Z;
  no_DecCoins_amount d : DecCoins_AmountOf no_DecCoins d = 0;
  no_Coins_amount d : Coins_AmountOf no_Coins d = 0;
  DecCoins_Add_amount l c l' d :
    DecCoins_Add l c = Some l' →
    DecCoins_AmountOf l' d =
      DecCoins_AmountOf l d + (if decide (dc_Denom c = d) then dc_Amount c else 0);
  (** [Mul] rounds to the nearest. *)
  DecCoins_MulDec_amount l x l' d :
    DecCoins_MulDec l x = Some l' →
    2 * Z.abs (DecCoins_AmountOf l' d * precision - DecCoins_AmountOf l d * x) ≤ precision;
  (** [NewCoin] panics on a negative amount. *)
  DecCoins_TruncateDecimal_amount l c d :
    DecCoins_TruncateDecimal l = Some c →
    0 ≤ Coins_AmountOf c d ∧ Coins_AmountOf c d = DecCoins_AmountOf l d / precision;
  Coins_Add_amount c1 c2 c d :
    Coins_Add c1 c2 = Some c →
    Coins_AmountOf c d = Coins_AmountOf c1 d + Coins_AmountOf c2 d;
}.

(** What IEEE 754 and [math.Log] say about signs: the logarithm of one plus an
    integer is at least zero, the infinity of [Log 0], or not a number. *)
Class Float64Laws `{Float64} `{DecOps} := {
  F_nonneg : F → Prop;
  F_le1 : F → Prop;
  F_NegInf : F → Prop;
  Log_nonneg z :
    0 ≤ z < 2 ^ 63 → F_nonneg (math_Log (F_add (F_of_int64 z) (F_of_int64 1)));
  Log_negative z :
    - 2 ^ 63 ≤ z < 0 →
    let l := math_Log (F_add (F_of_int64 z) (F_of_int64 1)) in F_NegInf l ∨ IsNaN l = true;
  div_nonneg a b : F_nonneg a → F_nonneg b → F_nonneg (F_div a b) ∨ IsNaN (F_div a b) = true;
  div_NegInf a b : F_nonneg a → F_NegInf b → F_nonneg (F_div a b) ∨ IsNaN (F_div a b) = true;
  div_NaN a b : IsNaN b = true → IsNaN (F_div a b) = true;
  one_sub_nonneg a : F_nonneg a → F_le1 (F_sub (F_of_int64 1) a);
  one_sub_NaN a : IsNaN a = true → IsNaN (F_sub (F_of_int64 1) a) = true;
  zero_le1 : F_le1 (F_of_int64 0);
  FormatFloat_le1 f d : F_le1 f → LegacyNewDecFromStr (FormatFloat f) = Ok d → d ≤ precision;
}.

(** ** The arithmetic of one reward *)

(** [n] winners with a share of at most [1/n] of [A] each. *)
Lemma share_bound A n factor share x c :
  0 < n → 0 ≤ A → factor ≤ precision → share = Z.quot factor n →
  2 * Z.abs (x * precision - A * share) ≤ precision → c = x / precision →
  2 * n * c * precision ≤ 2 * A + n.
Proof.
  intros Hn HA Hf Hshare Hx Hc. assert (0 < precision) as HP by done.
  assert (n * share ≤ precision) as Hns.
  { subst share. destruct (decide (0 ≤ factor)).
    - rewrite Z.quot_div_nonneg by lia. pose proof (Z.mul_div_le factor n Hn). lia.
    - assert (Z.quot factor n ≤ 0) by (apply Z.quot_le_upper_bound; lia). nia. }
  pose proof (Z.mul_div_le x precision HP) as Hcx. rewrite <-Hc in Hcx.
  generalize dependent precision. intros P. intros.
  assert (2 * c * P * P ≤ 2 * (A * share) + P) as H1 by nia.
  assert (A * (n * share) ≤ A * P) as H2 by nia.
  assert ((2 * n * c * P) * P ≤ (2 * A + n) * P) as H3.
  { replace (2 * n * c * P * P) with (n * (2 * c * P * P)) by ring.
    etrans; [apply Z.mul_le_mono_nonneg_l; [lia|exact H1]|]. lia. }
  by apply Z.mul_le_mono_pos_r in H3.
Qed.

(** What [n] such rewards add up to, when the pool holds [B]. *)
Lemma total_bound A B D n :
  A ≤ B * precision → 0 < n < 2 * precision →
  2 * n * D * precision ≤ n * (2 * A + n) → D ≤ B.
Proof.
  intros HA Hn HD. assert (2 * D * precision ≤ 2 * A + n) as H1.
  { apply (Z.mul_le_mono_pos_l _ _ n); [lia|]. lia. }
  assert (0 < precision) by done. nia.
Qed.

Section rewards.
Context {W : Type} `{StakingKeeper W} `{C : CoinsOps} `{!DistributionKeeper W} `{!BankKeeper W}.
Context `{AccountKeeper W} `{O : DecOps} `{!DecLaws O} `{N : CoinOps} `{!CoinLaws N} `{Float64}.
Context `{!CoinsLaws C} `{!Float64Laws}.
Implicit Types s : State W.

Lemma CalculateRewardFactor_le1 missCount m sm :
  0 ≤ sm ≤ missCount → missCount < 2 ^ 63 → F_le1 (CalculateRewardFactor missCount m sm).
Proof.
  intros Hsm Hmc. unfold CalculateRewardFactor.
  rewrite (wrap_i64_id (missCount - sm)) by (unfold is_i64; lia).
  pose proof (wrap_i64_range (m - sm)) as Hb. set (b := wrap_i64 (m - sm)) in *.
  pose proof (Log_nonneg (missCount - sm) ltac:(lia)) as Hk.
  set (key := math_Log _) in *. set (base := math_Log (F_add (F_of_int64 b) _)).
  assert (F_nonneg (F_div key base) ∨ IsNaN (F_div key base) = true) as [Hq|Hq].
  { destruct (decide (0 ≤ b)).
    - apply div_nonneg; [done|]. apply Log_nonneg. unfold is_i64 in Hb. lia.
    - destruct (Log_negative b ltac:(unfold is_i64 in Hb; lia)); [by apply div_NegInf|].
      right. by apply div_NaN. }
  - destruct (IsNaN _ || IsInf _); [apply zero_le1|by apply one_sub_nonneg].
  - rewrite (one_sub_NaN _ Hq). apply zero_le1.
Qed.

(** ** The pools *)

Section pools.
Context (s : State W) (acc : addr).
Hypothesis (Hacc : GetModuleAccount ModuleName (world s) = (Ok (Some acc), world s)).
Hypothesis (Hbal : ∀ d, 0 ≤ GetBalance (world s) acc d).

Lemma GetRewardPool_run d : GetRewardPool d s = (Ok (GetBalance (world s) acc d), s).
Proof.
  unfold GetRewardPool. erewrite M_bind_run; [|unfold on_world; by rewrite Hacc].
  by destruct s.
Qed.

Lemma add_period_reward_run ratio pr d pr' s' :
  0 ≤ ratio ≤ precision → add_period_reward ratio pr d s = (Ok pr', s') →
  s' = s ∧ ∀ d', DecCoins_AmountOf pr d' ≤ DecCoins_AmountOf pr' d' ≤
    DecCoins_AmountOf pr d' + if decide (d = d') then GetBalance (world s) acc d * precision else 0.
Proof.
  intros Hratio. unfold add_period_reward. erewrite M_bind_run by apply GetRewardPool_run.
  pose proof (Hbal d) as Hd. set (B := GetBalance _ _ _) in *.
  destruct (Z.eqb_spec B 0) as [->|HB].
  { intros [= -> ->]. split; [done|]. intros d'. case_decide; lia. }
  intros (amount & Ha & Hrun)%M_bind_or_panic_Ok.
  destruct (dec_Mul_spec (LegacyNewDec B) ratio) as (a & Hround & Hmul).
  rewrite Hmul in Ha. apply dec_checked_Some in Ha as <-.
  assert (amount = B * ratio) as ->.
  { unfold LegacyNewDec in Hround. unfold precision in *. lia. }
  apply M_bind_lift_Ok in Hrun as (c & Hc & Hrun). unfold lift in Hrun.
  injection Hrun as Hrun ->. apply or_panic_Ok in Hrun.
  apply NewDecCoinFromDec_Ok in Hc as ->. split; [done|]. intros d'.
  rewrite (DecCoins_Add_amount _ _ _ d' Hrun). cbn [dc_Denom dc_Amount]. case_decide; nia.
Qed.

(** The rewards of the period, when no denom is listed twice. *)
Lemma period_rewards_run ratio denoms pr pr' s' :
  0 ≤ ratio ≤ precision → NoDup denoms →
  loopM (add_period_reward ratio) denoms pr s = (Ok pr', s') →
  s' = s ∧ ∀ d, DecCoins_AmountOf pr d ≤ DecCoins_AmountOf pr' d ≤
    DecCoins_AmountOf pr d + if decide (d ∈ denoms) then GetBalance (world s) acc d * precision else 0.
Proof.
  intros Hratio. revert pr. induction denoms as [|d denoms IH]; intros pr Hnd; cbn [loopM].
  { intros [= -> ->]. split; [done|]. intros d. rewrite decide_False by apply not_elem_of_nil. lia. }
  apply NoDup_cons in Hnd as [Hni Hnd].
  intros (pr1 & s1 & [-> Hone]%add_period_reward_run & Hrun)%M_bind_Ok; [|done].
  apply IH in Hrun as [-> Hrest]; [|done]. split; [done|]. intros d'.
  specialize (Hone d'). specialize (Hrest d'). pose proof (Hbal d') as Hd.
  assert (0 ≤ GetBalance (world s) acc d' * precision) by (unfold precision; lia).
  destruct (decide (d = d')) as [<-|Hne].
  - rewrite decide_False in Hrest by done. rewrite decide_True by by left. lia.
  - destruct (decide (d' ∈ denoms)); [rewrite decide_True by (by right); lia|].
    rewrite decide_False by (intros [?|?]%elem_of_cons; congruence). lia.
Qed.
End pools.

(** ** The winners *)

Definition misses s (c : Claim) : Z := default 0 (MissCounters s !! cl_Recipient c).

Lemma smallest_run winners sm s s' :
  (∀ c, c ∈ winners → 0 ≤ misses s c) →
  smallestMissCountInBallot winners s = (Ok sm, s') →
  s' = s ∧ 0 ≤ sm ∧ ∀ c, c ∈ winners → sm ≤ SafeUint64ToInt64 (misses s c).
Proof.
  intros Hpos. unfold smallestMissCountInBallot. destruct winners as [|c0 l]; [done|].
  intros (m0 & s0 & Hm0 & Hrun)%M_bind_Ok. unfold GetMissCounter, gets in Hm0.
  injection Hm0 as Hm0 <-. cbn beta in Hm0.
  apply M_bind_Ok in Hrun as (m & s1 & Hloop & Hrun). injection Hrun as <- <-.
  assert (∀ l m0 m s1, 0 ≤ m0 → (∀ c, c ∈ l → 0 ≤ misses s c) →
    loopM (λ missCount winner,
        count ← GetMissCounter (cl_Recipient winner);
        mret (if count <? missCount then count else missCount)) l m0 s = (Ok m, s1) →
    s1 = s ∧ 0 ≤ m ≤ m0 ∧ ∀ c, c ∈ l → m ≤ misses s c) as Hmin.
  { clear. induction l as [|c l IH]; intros m0 m s1 Hm0 Hl; cbn [loopM].
    { intros [= -> ->]. split; [done|]. split; [lia|]. by intros c ?%not_elem_of_nil. }
    erewrite M_bind_run; [|done]. cbn beta. fold (misses s c).
    pose proof (Hl c ltac:(by left)).
    intros (-> & Hb & Hin)%IH; [|destruct (Z.ltb_spec (misses s c) m0); lia|set_solver].
    split; [done|]. destruct (Z.ltb_spec (misses s c) m0);
      (split; [lia|]); intros c' [->|Hc']%elem_of_cons; auto; lia. }
  fold (misses s c0) in Hm0. pose proof (Hpos c0 ltac:(by left)).
  apply Hmin in Hloop as (-> & Hb & Hin); [|lia|set_solver]. split; [done|].
  rewrite SafeUint64ToInt64_spec. unfold MaxInt64. split; [lia|].
  intros c [->|Hc]%elem_of_cons; rewrite SafeUint64ToInt64_spec; unfold MaxInt64; [lia|].
  specialize (Hin c Hc). lia.
Qed.

(** Every turn of the loop adds at most one share of the period's rewards. *)
Lemma reward_winners_run winners targets n sm pr dist D s s' :
  0 < n → 0 ≤ sm → (∀ c, c ∈ winners → sm ≤ SafeUint64ToInt64 (misses s c)) →
  (∀ d, 0 ≤ DecCoins_AmountOf pr d) →
  reward_winners winners targets n sm pr dist s = (Ok (Some D), s') →
  ∀ d, Coins_AmountOf dist d ≤ Coins_AmountOf D d ∧
    2 * n * (Coins_AmountOf D d - Coins_AmountOf dist d) * precision ≤
      Z.of_nat (length winners) * (2 * DecCoins_AmountOf pr d + n).
Proof.
  intros Hn Hsm0. revert dist s. induction winners as [|w winners IH]; intros dist s Hsm Hpr.
  { intros [= <- <-] d. cbn [length]. split; [done|]. lia. }
  assert (∀ s1 dist1, MissCounters s1 = MissCounters s →
    reward_winners winners targets n sm pr dist1 s1 = (Ok (Some D), s') →
    ∀ d, Coins_AmountOf dist1 d ≤ Coins_AmountOf D d ∧
    2 * n * (Coins_AmountOf D d - Coins_AmountOf dist1 d) * precision ≤
      Z.of_nat (length winners) * (2 * DecCoins_AmountOf pr d + n)) as Hrest.
  { intros s1 dist1 Hs1. apply IH; [|done]. intros c Hc. unfold misses. rewrite Hs1.
    apply Hsm. by right. }
  assert (∀ d, 0 ≤ 2 * DecCoins_AmountOf pr d + n) as Hslack by (intros d; specialize (Hpr d); lia).
  assert (reward_winners winners targets n sm pr dist s = (Ok (Some D), s') →
    ∀ d, Coins_AmountOf dist d ≤ Coins_AmountOf D d ∧
    2 * n * (Coins_AmountOf D d - Coins_AmountOf dist d) * precision ≤
      Z.of_nat (length (w :: winners)) * (2 * DecCoins_AmountOf pr d + n)) as Hskip.
  { intros Hrun d. destruct (Hrest s dist eq_refl Hrun d). cbn [length].
    specialize (Hslack d). split; [done|]. lia. }
  cbn [reward_winners]. erewrite M_bind_run; [|done].
  destruct (Validator _ _) as [[val|]|e|]; [|done|done|done].
  unfold GetMissCounter. erewrite M_bind_run; [|done]. cbn beta. fold (misses s w).
  unfold SlashWindow, VotePeriod. erewrite M_bind_run; [|done]. erewrite M_bind_run; [|done].
  intros (windows & _ & Hrun)%M_bind_lift_Ok.
  set (factor := CalculateRewardFactor _ _ _) in Hrun.
  assert (F_le1 factor) as Hfac.
  { apply CalculateRewardFactor_le1; [split; [done|apply Hsm; by left]|].
    rewrite SafeUint64ToInt64_spec. unfold MaxInt64. lia. }
  destruct (NewDecFromFloat factor) as [rewardDec| |] eqn:Hdec; [|done|done].
  apply (FormatFloat_le1 _ _ Hfac) in Hdec.
  apply M_bind_or_panic_Ok in Hrun as (share & Hshare & Hrun).
  rewrite dec_QuoInt64_spec in Hshare by lia. injection Hshare as Hshare.
  apply M_bind_or_panic_Ok in Hrun as (scaled & Hscaled & Hrun).
  apply M_bind_or_panic_Ok in Hrun as (coins & Hcoins & Hrun).
  destruct (Coins_IsZero coins); [by apply Hskip|].
  apply M_bind_Ok in Hrun as (r & s5 & Halloc & Hrun).
  apply keeps_on_world in Halloc. destruct r; [|done|done].
  apply M_bind_or_panic_Ok in Hrun as (dist1 & Hdist & Hrun). intros d.
  destruct (Hrest s5 dist1 ltac:(by rewrite <-Halloc; destruct s5) Hrun d) as [Hle Hsum].
  rewrite (Coins_Add_amount _ _ _ d Hdist) in Hle, Hsum.
  destruct (DecCoins_TruncateDecimal_amount _ _ d Hcoins) as [Hc0 Hc].
  pose proof (share_bound _ _ _ _ _ _ Hn (Hpr d) Hdec (eq_sym Hshare)
    (DecCoins_MulDec_amount _ _ _ d Hscaled) Hc) as Hone.
  cbn [length]. split; [lia|]. lia.
Qed.

(** C15: The rewards of a vote period are covered by the pools they are taken
    from.  Whenever [RewardBallotWinners] gets through its loop over the
    winners, the coins it is about to move to the distribution module are, in
    every denom, at least zero and at most the balance of the oracle's module
    account.  It holds whatever floating point logarithms the reward factors
    are made of, because a factor that is a number is at most one; the period
    is not longer than the distribution window, no denom is rewarded twice,
    and there are fewer than 2*10^18 winners. *)
Theorem rewards_within_pool vp rdw targets winners s s' acc D :
  0 < vp ≤ rdw → NoDup (prependOjoIfUnique targets) →
  Z.of_nat (length winners) < 2 * precision →
  (∀ a n, MissCounters s !! a = Some n → is_u64 n) →
  GetModuleAccount ModuleName (world s) = (Ok (Some acc), world s) →
  (∀ d, 0 ≤ GetBalance (world s) acc d) →
  allocate_rewards vp rdw targets winners s = (Ok (Some D), s') →
  ∀ d, 0 ≤ Coins_AmountOf D d ≤ GetBalance (world s) acc d.
Proof.
  intros Hvp Hnd Hlen Hu64 Hacc Hbal Hrun d. unfold allocate_rewards in Hrun.
  apply M_bind_or_panic_Ok in Hrun as (ratio & Hratio & Hrun).
  rewrite dec_QuoInt64_spec in Hratio by lia. injection Hratio as <-.
  apply M_bind_Ok in Hrun as (pr & s1 & Hpr & Hrun).
  apply (period_rewards_run s acc Hacc Hbal) in Hpr as [-> Hpr]; [|clear Hrun|done].
  2: { apply quot_between; unfold LegacyNewDec; [lia|]. unfold precision. lia. }
  apply M_bind_Ok in Hrun as (sm & s2 & Hsm & Hrun).
  apply smallest_run in Hsm as (-> & Hsm0 & Hsm).
  2: { intros c _. unfold misses. destruct (MissCounters s !! _) eqn:Hc; [|done].
       by apply Hu64 in Hc as []. }
  destruct winners as [|w winners]; [injection Hrun as <- _|].
  { rewrite no_Coins_amount. split; [done|apply Hbal]. }
  eapply reward_winners_run with (d := d) in Hrun; [|cbn [length]; lia|done|done|].
  2: { intros d'. specialize (Hpr d'). rewrite no_DecCoins_amount in Hpr. lia. }
  destruct Hrun as [Hle Hsum]. rewrite no_Coins_amount in Hle, Hsum. split; [done|].
  eapply total_bound; [|split; [|exact Hlen]|rewrite Z.sub_0_r in Hsum; exact Hsum].
  - specialize (Hpr d). specialize (Hbal d). rewrite no_DecCoins_amount in Hpr.
    destruct (decide _); [lia|]. unfold precision. lia.
  - cbn [length]. lia.
Qed.
End rewards.

(** ** A small instance of the laws *)

(** Coins merged by denom, as the SDK keeps them. *)
#[local] Instance merged_coins : CoinsOps := {|
  Coins := gmap string Z;
  DecCoins := gmap string Z;
  no_Coins := ∅;
  no_DecCoins := ∅;
  DecCoins_Add l c := Some (<[dc_Denom c := default 0 (l !! dc_Denom c) + dc_Amount c]> l);
  DecCoins_MulDec l x := Some ((λ a, div_round (a * x) precision) <$> l);
  DecCoins_TruncateDecimal l :=
    if bool_decide (map_Forall (λ _ a, 0 ≤ a) l) then Some ((λ a, a / precision) <$> l) else None;
  NewDecCoinsFromCoins l := (λ a, a * precision) <$> l;
  Coins_IsZero l := bool_decide (map_Forall (λ _ a, a = 0) l);
  Coins_Add l l' := Some (union_with (λ a b, Some (a + b)) l l');
|}.

Definition merged_amount (l : gmap string Z) (d : string) : Z := default 0 (l !! d).

#[local] Instance merged_coins_laws : CoinsLaws merged_coins.
Proof.
  refine (Build_CoinsLaws merged_coins merged_amount merged_amount _ _ _ _ _ _);
    unfold merged_amount; cbn; intros.
  - done.
  - done.
  - simplify_eq. destruct (decide (dc_Denom c = d)) as [<-|Hne].
    + by rewrite lookup_insert_eq.
    + rewrite lookup_insert_ne by done. lia.
  - simplify_eq. rewrite lookup_fmap. destruct (l !! d) as [a|]; cbn.
    + by apply div_round_nearest.
    + done.
  - case_bool_decide as Hall; simplify_eq. rewrite lookup_fmap.
    destruct (l !! d) as [a|] eqn:Ha; cbn; [|done]. split; [|done].
    apply Z.div_pos; [|done]. by eapply (Hall d).
  - simplify_eq. rewrite lookup_union_with. destruct (c1 !! d), (c2 !! d); cbn; lia.
Defined.

(** Whole numbers, an infinity and not-a-number. *)
Inductive SampleFloat : Type := num (z : Z) | neg_inf | not_a_number.

#[local] Instance whole_floats : Float64 := {|
  F := SampleFloat;
  F_of_int64 := num;
  F_add a b := match a, b with num x, num y => num (x + y) | _, _ => not_a_number end;
  F_sub a b := match a, b with num x, num y => num (x - y) | _, _ => not_a_number end;
  F_div a b :=
    match a, b with
    | num x, num y => if y =? 0 then not_a_number else num (Z.quot x y)
    | num _, neg_inf => num 0
    | _, _ => not_a_number
    end;
  math_Log a :=
    match a with
    | num x => if x <? 0 then not_a_number else if x =? 0 then neg_inf else num (Z.log2 x)
    | _ => a
    end;
  IsNaN a := if a is not_a_number then true else false;
  IsInf a := if a is neg_inf then true else false;
  FormatFloat a :=
    match a with
    | num x => if x <? 0 then "-1"%string else if x =? 0 then "0"%string else "1"%string
    | neg_inf => "-Inf"%string
    | not_a_number => "NaN"%string
    end;
|}.

#[local] Instance whole_floats_laws : Float64Laws.
Proof.
  refine {| F_nonneg a := if a is num x then 0 ≤ x else False;
            F_le1 a := if a is num x then x ≤ 1 else False;
            F_NegInf a := a = neg_inf |}; cbn -[Z.log2 Z.quot].
  - intros z Hz. rewrite (proj2 (Z.ltb_ge _ _)), (proj2 (Z.eqb_neq _ _)) by lia. apply Z.log2_nonneg.
  - intros z Hz. destruct (Z.ltb_spec (z + 1) 0); [by right|].
    rewrite (proj2 (Z.eqb_eq _ _)) by lia. by left.
  - intros [x| |] [y| |] Hx Hy; try done. destruct (Z.eqb_spec y 0); [by right|].
    left. apply Z.quot_pos; lia.
  - intros [x| |] ? ? ->; try done. by left.
  - by intros [] [].
  - intros []; [lia|done|done].
  - by intros [].
  - lia.
  - intros [x| |] d; [|done|done]. intros Hx Hd.
    destruct (x <? 0); [|destruct (x =? 0)]; vm_compute in Hd; injection Hd as <-; done.
Qed.

#[local] Instance pool_bank : BankKeeper Sample := {|
  GetBalance _ _ _ := 1000;
  SendCoinsFromModuleToModule _ _ _ w := (Ok (), w);
|}.

#[local] Instance merged_distribution : DistributionKeeper Sample := {|
  AllocateTokensToValidator _ _ w := (Ok (), w);
|}.

Definition reward_winner (a : addr) : Claim := mkClaim 1 1 1 a.

Definition reward_state : State Sample := set_MissCounters (λ _, {["y" := 5]}) (sample_state 10).

Definition reward_run : outcome (option Coins) * State Sample :=
  allocate_rewards 1 2 ["uatom"%string] [reward_winner "x"; reward_winner "y"] reward_state.

Definition reward_paid : Coins :=
  match reward_run.1 with Ok (Some D) => D | _ => no_Coins end.

Example reward_run_paid :
  allocate_rewards 1 2 ["uatom"%string] [reward_winner "x"; reward_winner "y"] reward_state =
  (Ok (Some reward_paid), reward_run.2).
Proof. vm_compute. reflexivity. Qed.

Example reward_pools d : 0 ≤ GetBalance (world reward_state) "oracle"%string d.
Proof. cbn. lia. Qed.

Example reward_counters a n : MissCounters reward_state !! a = Some n → is_u64 n.
Proof. cbn. by intros [<- <-]%lookup_singleton_Some. Qed.

Example rewards_within_pool_witness :
  Coins_AmountOf reward_paid "uatom"%string = 500 ∧
  0 ≤ Coins_AmountOf reward_paid "uatom"%string ≤ 1000.
Proof.
  split; [vm_compute; reflexivity|].
  pose proof (rewards_within_pool (W := Sample) 1 2 ["uatom"%string]
           [reward_winner "x"; reward_winner "y"] reward_state reward_run.2 "oracle"%string
           reward_paid) as Hpaid.
  specialize (Hpaid ltac:(lia) ltac:(apply (bool_decide_unpack _); vm_compute; exact I)).
  specialize (Hpaid ltac:(vm_compute; reflexivity) reward_counters eq_refl).
  specialize (Hpaid reward_pools reward_run_paid "uatom"%string).
  exact Hpaid.
Defined.
