(* ===== verification/PriceTheorems.v ===== *)
(** * PriceTheorems: stamps, medians and moving averages

    What is kept of past prices, what the statistics over them are, and where
    the code reads another collection than the one it writes. *)
From S2P Require Import Prelude Util GoStrings Dec Types Params Store Bech32 Votes World State.
From S2P Require Import Subspace Keeper HistoricPrice Averages Rewards Query Sample.
Local Open Scope Z_scope.

Section stamps.
Context {W : Type} `{DecLaws}.
Implicit Types s : State W.

(** Every stamp of [denom] is from the last block of a period [p]. *)
Definition stamped_at (p : Z) (denom : string) (h : Z) (m : gmap (string * Z) LegacyDec) : Prop :=
  ∀ b, is_Some (m !! (denom, b)) → 1 ≤ b ≤ h ∧ (b + 1) mod p = 0.

(** C33: retention: when prices are stamped at the last blocks of historic
    stamp periods, pruning at such a block leaves at most
    [MaximumPriceStamps] of them for a denom, and pruning at the last block
    of a median period leaves at most [MaximumMedianStamps] medians and
    deviations. *)
Theorem stamps_bounded denom s :
  let p := paramSpace s in
  let h := BlockHeight s in
  0 ≤ h < 2 ^ 63 → 0 < Types.HistoricStampPeriod p → 0 < Types.MedianStampPeriod p →
  is_u64 (Types.HistoricStampPeriod p * Types.MaximumPriceStamps p) →
  is_u64 (Types.MedianStampPeriod p * Types.MaximumMedianStamps p) →
  0 ≤ Types.MaximumPriceStamps p → 0 ≤ Types.MaximumMedianStamps p →
  (h + 1) mod Types.HistoricStampPeriod p = 0 →
  stamped_at (Types.HistoricStampPeriod p) denom h (HistoricPrices s) →
  stamped_at (Types.MedianStampPeriod p) denom h (MedianPrices s) →
  stamped_at (Types.MedianStampPeriod p) denom h (MedianDeviations s) →
  ∃ s', PruneAllPrices s = (Ok (), s') ∧
    Z.of_nat (length (blocks_of (HistoricPrices s') denom)) ≤ Types.MaximumPriceStamps p ∧
    ((h + 1) mod Types.MedianStampPeriod p = 0 →
     Z.of_nat (length (blocks_of (MedianPrices s') denom)) ≤ Types.MaximumMedianStamps p ∧
     Z.of_nat (length (blocks_of (MedianDeviations s') denom)) ≤ Types.MaximumMedianStamps p).
Proof.
  intros p h Hh Hp1 Hp2 Hu1 Hu2 Hn1 Hn2 Hper Hst Hm Hd.
  eexists. split; [by apply PruneAllPrices_run|]. fold p h.
  rewrite (proj2 (Z.eqb_eq _ _) Hper). split.
  - destruct (_ =? 0); by apply pruned_length.
  - intros Hmed. rewrite (proj2 (Z.eqb_eq _ _) Hmed). split; by apply pruned_length.
Qed.

Lemma newest_bounds s denom n lo hi :
  (∀ b r, HistoricPrices s !! (denom, b) = Some r → lo ≤ r ≤ hi) →
  Forall (λ r, lo ≤ r ≤ hi) (map snd (newest (HistoricPrices s) denom n)).
Proof.
  intros Hb. apply Forall_forall. intros r ([[d b] r'] & -> & [Hk Hd]%newest_elem)%list_elem_of_fmap.
  simpl in *. subst d. by eapply Hb.
Qed.

(** C34: stamping a median stores, for the current block, statistics of the
    newest stamped prices of the denom, at most [MaximumPriceStamps] of them:
    the median is the middle of the sorted prices, or the mean of the two
    middle ones rounded toward zero when their number is even, and lies
    between their bounds; the deviation is the root of the mean of the squared
    distances to it and is not negative.  Nothing else changes. *)
Theorem median_stamped denom s s' lo hi :
  0 ≤ Types.MaximumPriceStamps (paramSpace s) → 0 ≤ BlockHeight s →
  (∀ b r, HistoricPrices s !! (denom, b) = Some r → lo ≤ r ≤ hi) →
  CalcAndSetHistoricMedian denom s = (Ok (), s') →
  ∃ stamps prices squares median deviation,
    newest_stamps (HistoricPrices s) denom (Z.to_nat (Types.MaximumPriceStamps (paramSpace s))) stamps ∧
    prices ≡ₚ map snd stamps ∧ prices ≠ [] ∧ StronglySorted Z.le prices ∧ middle prices median ∧
    Forall2 (λ d sq, dec_Mul (Z.abs (d - median)) (Z.abs (d - median)) = Some sq) prices squares ∧
    dec_ApproxSqrt (foldr (λ sq v, Z.quot sq (Z.of_nat (length prices)) + v) 0 squares)
      = Ok deviation ∧
    lo ≤ median ≤ hi ∧ 0 ≤ deviation ∧
    s' = set_MedianDeviations <[(denom, BlockHeight s) := deviation]>
           (set_MedianPrices <[(denom, BlockHeight s) := median]> s).
Proof.
  intros Hn Hh Hb Hrun. apply CalcAndSetHistoricMedian_Ok in Hrun as (m & d & Hm & Hd & ->); [|done].
  set (n := Z.to_nat _) in *. set (l := newest (HistoricPrices s) denom n) in *.
  rewrite Z.max_r by done. destruct (MedianDeviation_root _ _ _ Hd) as (squares & Hsq & Hroot).
  destruct (Median_middle _ _ Hm) as [Hne Hmid].
  exists (map (λ e, (e.1.2, e.2)) l), (sort_decs (map snd l)), squares, m, d. split_and!; try done.
  - apply newest_newest.
  - by rewrite sort_decs_perm, map_map.
  - intros Hnil. apply Hne, Permutation_nil. by rewrite <-Hnil, sort_decs_perm.
  - apply sort_decs_sorted.
  - eapply Median_bounds in Hm as [??]; [done|]. by apply (newest_bounds s denom n).
  - eapply Median_bounds in Hm as [??]; [done|]. by apply (newest_bounds s denom n).
  - by eapply MedianDeviation_nonneg.
Qed.

(** [HistoricMedians] reads the price stamps: its answer is the newest
    historic prices, whatever medians are stored. *)
Theorem historic_medians_are_prices denom n f s :
  (HistoricMedians denom (Z.of_nat n) (set_MedianPrices f s)).1 =
  Ok (map (λ e, NewPriceStamp e.2 e.1.1 e.1.2) (newest (HistoricPrices s) denom n)).
Proof. by rewrite HistoricMedians_run. Qed.

(** So [WithinHistoricMedianDeviation] compares the newest price with
    itself: when it answers, and deviations are not negative, it says yes. *)
Theorem within_deviation_always denom s b s' :
  (∀ k d, MedianDeviations s !! k = Some d → 0 ≤ d) →
  WithinHistoricMedianDeviation denom s = (Ok b, s') → b = true.
Proof.
  intros Hd (dev & Hdev & ->)%Within_run. apply Z.leb_le. unfold HistoricMedianDeviation in Hdev.
  apply M_bind_Ok in Hdev as (h & s1 & [= _ <-] & Hdev).
  apply M_bind_Ok in Hdev as (p & s1 & [= _ <-] & Hdev).
  apply M_bind_Ok in Hdev as (r & s1 & Hr & Hdev). injection Hr as _ <-.
  apply M_bind_Ok in Hdev as (m & s1 & [= <- <-] & Hdev).
  destruct (MedianDeviations s !! _) as [d|] eqn:Hl; [|done]. injection Hdev as <- _.
  simpl. by eapply Hd.
Qed.
End stamps.

(** ** Moving averages *)

Section averages.
Context `{DecLaws}.

Lemma sum_Z_upper ws c : Forall (λ w, 0 ≤ w ≤ c) ws → 0 ≤ sum_Z ws ≤ Z.of_nat (length ws) * c.
Proof.
  induction 1 as [|w ws Hw _ IH]; cbn [length sum_Z foldr]; [lia|]. fold (sum_Z ws).
  rewrite Nat2Z.inj_succ. nia.
Qed.

(** Weights the four strategies give, with a total that is a divisor. *)
Definition good_weights (strategy : string) (custom : list Z) (n : nat) : Prop :=
  (strategy = WmaStrategyOldest ∧ Z.of_nat n < 2 ^ 31) ∨
  (strategy = WmaStrategyRecent ∧ Z.of_nat n < 2 ^ 31) ∨
  (strategy = WmaStrategyBalanced ∧ (n ≤ 31)%nat) ∨
  (strategy = WmaStrategyCustom ∧ length custom = n ∧ Forall (λ w, 0 ≤ w) custom ∧
   0 < sum_Z custom < 2 ^ 63).

Lemma weights_by_index (f : nat → Z) n c :
  (0 < n)%nat → (∀ i, (i < n)%nat → 0 ≤ f i ≤ c) → 0 < f 0%nat → Z.of_nat n * c < 2 ^ 63 →
  let ws := map f (seq 0 n) in
  length ws = n ∧ Forall (λ w, 0 ≤ w) ws ∧ 0 < sum_Z ws < 2 ^ 63.
Proof.
  intros Hn Hf H0 Hc ws.
  assert (Hall : Forall (λ w, 0 ≤ w ≤ c) ws).
  { apply Forall_forall. intros w (i & -> & Hi%elem_of_seq)%list_elem_of_fmap. apply Hf. lia. }
  assert (Hlen : length ws = n) by (unfold ws; by rewrite length_map, length_seq).
  pose proof (sum_Z_upper ws c Hall) as Hs. rewrite Hlen in Hs. split_and!; [done| | |lia].
  - eapply Forall_impl; [exact Hall|]. by intros w [? _].
  - unfold ws. destruct n as [|n]; [lia|]. cbn [seq map sum_Z foldr].
    fold (sum_Z (map f (seq 1 n))).
    assert (0 ≤ sum_Z (map f (seq 1 n))); [|lia].
    apply (sum_Z_upper _ c), Forall_forall. intros w (i & -> & Hi%elem_of_seq)%list_elem_of_fmap.
    apply Hf. lia.
Qed.

(** C37: a weighted moving average lies between the bounds of its prices: for
    the oldest and recent strategies up to 2^31 prices, for the balanced one
    up to 31, and for custom weights that are not negative and whose total is
    positive and fits 64 bits. *)
Theorem wma_between prices strategy custom lo hi r :
  good_weights strategy custom (length prices) → prices ≠ [] →
  Forall (λ p, lo ≤ p ≤ hi) prices → CalculateWMA prices strategy custom = Ok r → lo ≤ r ≤ hi.
Proof.
  intros Hg Hne Hp Hr. assert (Hn : (0 < length prices)%nat) by (destruct prices; simpl; [done|lia]).
  assert (∃ ws, wma_weights strategy custom (length prices) = Some ws ∧
    length ws = length prices ∧ Forall (λ w, 0 ≤ w) ws ∧ 0 < sum_Z ws < 2 ^ 63)
    as (ws & Hw & Hlen & Hnn & Hsum).
  { destruct Hg as [[-> Hb]|[[-> Hb]|[[-> Hb]|(-> & Hlen & Hnn & Hs)]]].
    - eexists. split; [reflexivity|]. apply (weights_by_index _ _ (Z.of_nat (length prices))); try lia; nia.
    - eexists. split; [reflexivity|]. apply (weights_by_index _ _ (Z.of_nat (length prices))); try lia; nia.
    - eexists. split; [reflexivity|]. apply (weights_by_index balanced_weight _ 10); [done| |done|lia].
      intros i Hi. unfold balanced_weight. repeat case_decide; lia.
    - exists custom. unfold wma_weights. simpl. by rewrite decide_True. }
  by eapply CalculateWMA_bounds.
Qed.

(** The balanced weights of 51 prices add up to zero: the average of 51
    prices panics, whatever they are. *)
Theorem balanced_51_panics prices :
  length prices = 51%nat → CalculateWMA prices WmaStrategyBalanced [] = Panic.
Proof.
  intros Hn. unfold CalculateWMA. rewrite Hn. simpl.
  destruct (foldM weigh _ _) as [[wsum wt]|e|] eqn:Hloop; simpl; [| |done].
  - apply weigh_loop in Hloop as [_ Hwt]. rewrite snd_zip in Hwt by (rewrite Hn; simpl; lia).
    vm_compute in Hwt. subst wt. by rewrite dec_QuoInt64_zero.
  - by apply weigh_not_Err in Hloop.
Qed.
End averages.

Section stored_averages.
Context {W : Type} `{DecOps}.
Implicit Types s : State W.

(** Every write but the one under the plain ["wma"] key. *)
Definition wma_same (denom : string) s s' : Prop :=
  Averages s' !! (denom, AvgTypeWMA) = Averages s !! (denom, AvgTypeWMA).

#[export] Instance wma_same_preorder denom : PreOrder (wma_same denom).
Proof. split; [by intros s|]. intros s1 s2 s3. unfold wma_same. congruence. Qed.

Lemma SetAverage_same denom d t v : t ≠ AvgTypeWMA → keeps (wma_same denom) (SetAverage (W := W) d t v).
Proof.
  intros Ht. apply keeps_modify. intros s. unfold wma_same. simpl.
  rewrite lookup_insert_ne; [done|]. by intros [= _ ?].
Qed.

(** Averages are written under the key of their strategy and read under a
    key without it: neither computing the averages nor storing one changes
    what [GetWMA] finds for any strategy. *)
Theorem stored_wma_unreadable denom d strategy strategy' v s :
  (GetWMA denom strategy (ComputeAverages d s).2).1 = (GetWMA denom strategy s).1 ∧
  (GetWMA denom strategy (SetWMA d strategy' v s).2).1 = (GetWMA denom strategy s).1.
Proof.
  split.
  - destruct (ComputeAverages d s) as [r s'] eqn:Hrun. unfold GetWMA, GetAverage, gets. simpl. f_equal.
    enough (keeps (wma_same denom) (ComputeAverages (W := W) d)) as Hk by (by eapply Hk).
    unfold ComputeAverages, CalculateHistoricPrices, GetParams, GetEMA, GetAverage, SetSMA, SetEMA.
    keeps_tac; by apply SetAverage_same.
  - unfold GetWMA, GetAverage, SetWMA, SetAverage, gets, modify. simpl. f_equal.
    rewrite lookup_insert_ne; [done|]. by intros [=].
Qed.
End stored_averages.

Section queries.
Context {W : Type} `{DecOps}.
Implicit Types s : State W.

(** The custom average query checks the number of weights against the
    averaging window and not against the prices found: with a shorter history
    a well-formed request panics. *)
Theorem short_history_query_panics denom weights s prices :
  CalculateHistoricPrices denom (wrap_u64 (BlockHeight s)) s = (Ok prices, s) →
  prices ≠ [] → (length prices < length weights)%nat →
  Z.of_nat (length weights) = Types.AveragingWindow (paramSpace s) →
  (Querier.WMA (Some (mkQueryWMA denom WmaStrategyCustom weights)) s).1 = Panic.
Proof.
  intros Hp Hne Hlt Hw. unfold Querier.WMA, GetParams, gets. unfold mbind at 1, M_bind at 1.
  cbn [Querier.with_request qw_Strategy qw_Denom qw_CustomWeights].
  change (negb (IsValidWmaStrategy WmaStrategyCustom)) with false.
  change (String.eqb WmaStrategyCustom WmaStrategyCustom) with true. cbv beta iota.
  unfold mbind at 1, M_bind at 1.
  rewrite (M_bind_run _ _ _ _ _ Hp). destruct prices as [|p prices]; [done|].
  cbn [length Nat.eqb]. rewrite (proj2 (Z.eqb_eq _ _) Hw). unfold lift, CalculateWMA. simpl.
  assert (wma_weights WmaStrategyCustom weights (S (length prices)) = None) as ->; [|done].
  unfold wma_weights. cbn -[decide]. rewrite decide_False; [done|]. simpl in Hlt. lia.
Qed.
End queries.

(** ** Witnesses *)

(** Block 1799, the last of a median period of the default parameters, with two
    stamps of one denom. *)
Definition stamped_state : State Sample :=
  set_HistoricPrices (λ _, {[("USDT"%string, 29) := precision; ("USDT"%string, 59) := 2 * precision]})
    (sample_state 1799).

Lemma stamped_prices b r : HistoricPrices stamped_state !! ("USDT"%string, b) = Some r →
  (b = 29 ∧ r = precision) ∨ (b = 59 ∧ r = 2 * precision).
Proof.
  change (HistoricPrices stamped_state) with
    ({[("USDT"%string, 29) := precision; ("USDT"%string, 59) := 2 * precision]} : gmap (string * Z) Z).
  intros [[[= <-] <-]|[_ [[= <-] <-]%lookup_singleton_Some]]%lookup_insert_Some; auto.
Qed.

Lemma no_stamps (p h : Z) (m : gmap (string * Z) Z) : m = ∅ → stamped_at p "USDT" h m.
Proof. intros -> b. rewrite lookup_empty. by intros []. Qed.

Lemma stamps_bounded_witness :
  ∃ s', PruneAllPrices stamped_state = (Ok (), s') ∧
    Z.of_nat (length (blocks_of (HistoricPrices s') "USDT")) ≤ 60.
Proof.
  destruct (stamps_bounded "USDT" stamped_state) as (s' & Hs' & Hl & _).
  - by vm_compute.
  - by vm_compute.
  - by vm_compute.
  - by vm_compute.
  - by vm_compute.
  - by vm_compute.
  - by vm_compute.
  - by vm_compute.
  - intros b [r [[-> _]|[-> _]]%stamped_prices]; by vm_compute.
  - by apply no_stamps.
  - by apply no_stamps.
  - exists s'. split; [exact Hs'|exact Hl].
Defined.

Definition median_state : State Sample := (CalcAndSetHistoricMedian "USDT" stamped_state).2.

Lemma median_run : CalcAndSetHistoricMedian "USDT" stamped_state = (Ok (), median_state).
Proof. by vm_compute. Qed.

Lemma median_stamped_witness : ∃ median, precision ≤ median ≤ 2 * precision.
Proof.
  destruct (median_stamped "USDT" stamped_state median_state precision (2 * precision))
    as (_ & _ & _ & median & _ & _ & _ & _ & _ & _ & _ & _ & Hm & _).
  - by vm_compute.
  - by vm_compute.
  - intros b r [[_ ->]|[_ ->]]%stamped_prices; by vm_compute.
  - exact median_run.
  - exists median. exact Hm.
Defined.

(** The deviation stamped at block 1799 is read during the next period. *)
Definition next_period_state : State Sample := set_BlockHeight (λ _, 1850) median_state.

Lemma within_run :
  WithinHistoricMedianDeviation "USDT" next_period_state =
  (Ok true, (WithinHistoricMedianDeviation "USDT" next_period_state).2).
Proof. by vm_compute. Qed.

Lemma stored_deviations : MedianDeviations next_period_state = {[("USDT"%string, 1799) := precision / 2]}.
Proof. by vm_compute. Qed.

Lemma within_deviation_always_witness :
  (WithinHistoricMedianDeviation "USDT" next_period_state).1 = Ok true ∧ true = true.
Proof.
  split; [by rewrite within_run|].
  refine (within_deviation_always "USDT" next_period_state true _ _ within_run).
  intros k d Hd. rewrite stored_deviations in Hd. apply lookup_singleton_Some in Hd as [_ <-].
  by vm_compute.
Defined.

Lemma historic_medians_are_prices_witness :
  (HistoricMedians "USDT" 2 (set_MedianPrices (λ _, ∅) median_state)).1 =
  Ok [mkPriceStamp (mkDecCoin "USDT" (2 * precision)) 59; mkPriceStamp (mkDecCoin "USDT" precision) 29].
Proof. exact (historic_medians_are_prices "USDT" 2 (λ _, ∅) median_state). Defined.

Lemma wma_between_witness :
  CalculateWMA [3; 1; 2] WmaStrategyOldest [] = Ok 2 ∧ 1 ≤ 2 ≤ 3.
Proof.
  assert (CalculateWMA [3; 1; 2] WmaStrategyOldest [] = Ok 2) as Hr by (by vm_compute).
  split; [exact Hr|]. apply (wma_between [3; 1; 2] WmaStrategyOldest []).
  - left. by vm_compute.
  - discriminate.
  - repeat constructor; lia.
  - exact Hr.
Defined.

Lemma balanced_51_panics_witness :
  CalculateWMA (replicate 51 precision) WmaStrategyBalanced [] = Panic.
Proof. apply balanced_51_panics. reflexivity. Defined.

(** One stamp on record, and three weights as the averaging window asks. *)
Definition short_state : State Sample :=
  set_LastHistoricPriceBlock (λ _, {["USDT"%string := 29]})
    (set_HistoricPrices (λ _, {[("USDT"%string, 29) := precision]}) (sample_state 40)).

Lemma short_history_query_panics_witness :
  (Querier.WMA (Some (mkQueryWMA "USDT" WmaStrategyCustom [1; 1; 1])) short_state).1 = Panic.
Proof.
  apply (short_history_query_panics "USDT" [1; 1; 1] short_state [precision]).
  - by vm_compute.
  - discriminate.
  - simpl. lia.
  - by vm_compute.
Defined.
