(* ===== verification/InterfaceTheorems.v ===== *)
(** * InterfaceTheorems: proposals, vote extensions, genesis and encodings

    What holds across the boundary of the module: between the validators that
    prepare and check a block, between an exported and an imported state, and
    the witnesses of the round trips stated in [Votes], [Keys] and [Ballot]. *)
From S2P Require Import Prelude Util GoStrings Dec Types Params Store Bech32 Ballot Votes World.
From S2P Require Import State Subspace Keeper Rewards Wire WireLemmas OracleProto WireSample.
From S2P Require Import Genesis Abci Sample.
Local Open Scope Z_scope.

(** ** Block proposals *)

Section proposals.
Context {W : Type} `{Bech32} `{ProtoLaws DecCoin} `{CommitCodecLaws} `{ConsensusKeeper W} `{CoinsEqualLaws}.
Implicit Types w : W.

(** C18: a block that an honest proposer prepares is accepted by every validator
    in the same state, with vote extensions enabled or not: the generated
    protobuf code reads back the votes it wrote, when the rates of the committed
    extensions have amounts. *)
Theorem prepared_block_accepted enabled w h ci txs txs' :
  rates_encodable ci →
  PrepareProposalHandler enabled w (Some (h, ci, Some txs)) = Ok (mkResp (Some txs') None) →
  ProcessProposalHandler enabled w (Some (h, Some txs')) = Ok (mkResp (Some ACCEPT) None).
Proof.
  intros Hr. unfold PrepareProposalHandler, ProcessProposalHandler.
  destruct (ValidateVoteExtensions w h ci) as [[]| |] eqn:Hv; [|done..].
  destruct enabled; [|done]. destruct (inject w ci) as [bz| |] eqn:Hi; [|done..].
  intros [= <-]. by rewrite (inject_accepted w h ci bz txs Hr Hv Hi).
Qed.

(** C19: a block is accepted with extensions enabled only if its first decodable
    transaction carries a commit that CometBFT's check accepts, and its votes
    agree one by one, in the order of the voters, with the votes of the
    committed extensions of that commit: none is missing, added or altered. *)
Theorem accepted_block_votes w h txs e :
  ProcessProposalHandler true w (Some (h, Some txs)) = Ok (mkResp (Some ACCEPT) e) →
  ∃ injected ci votes l,
    extractInjectedVoteExtensionTx txs = Ok injected ∧
    Commit_Unmarshal (ij_ExtendedCommitInfo injected) = Ok ci ∧
    ValidateVoteExtensions w h ci = Ok () ∧
    Forall2 same_vote (ij_ExchangeRateVotes injected) votes ∧
    StronglySorted voter_le votes ∧ votes ≡ₚ l ∧
    Forall2 (λ vi v, generate_vote w vi = Ok v) (filter committed (ci_Votes ci)) l.
Proof.
  unfold ProcessProposalHandler. destruct (handleVoteExtensions w h txs) as [[]| |] eqn:Hh; [|done..].
  intros _. apply handle_Ok in Hh as (inj & ci & votes & Hx & Hc & Hv & Hg & Hf).
  apply generate_spec in Hg as [Hs (l & Hp & Hl)]. by exists inj, ci, votes, l.
Qed.
End proposals.

Section extensions.
Context {W : Type} `{DecOps} `{CoinLaws} `{DecCodecLaws} `{ProtoLaws DecCoin} `{PriceOracle W, PriceStrings W}.
Context `{!CoinWire, !ParsedWire}.
Implicit Types s : State W.

(** C20: an extension that is sent carries the height it was asked for and the
    rates that the price feeder's string parses to, restricted to the denoms of
    the accept list and in their order, all of them positive, and every
    validator accepts it at that height. *)
Theorem sent_extension k s h bz :
  is_i64 h → ExtendVoteHandler k s (Some h) = mkResp (Some bz) None →
  VerifyVoteExtensionHandler (Some (h, bz)) = Ok (mkResp (Some ACCEPT) None) ∧
  ∃ str parsed, ExchangeRatesString (world s) = Ok str ∧
    ParseExchangeRateDecCoins str = Ok parsed ∧
    pb_Unmarshal pb_empty bz = Ok (mkVoteExt h (filter
      (λ c, DenomList_Contains (Types.AcceptList (paramSpace s)) (dc_Denom c) = true) parsed)) ∧
    Forall (λ c, 0 < dc_Amount c) parsed.
Proof.
  intros Hh Hx. split; [by eapply Extend_Verify|].
  apply Extend_Unmarshal in Hx as (str & coins & Hs & Hp & [Hpos _ _ _] & Hm); [|done].
  by exists str, coins.
Qed.
End extensions.

(** ** Genesis *)

Section genesis.
Context {W : Type} `{DecOps, YamlDenom} `{Bech32Laws} `{AccountKeeper W}.
Implicit Types s : State W.

(** A state before genesis: the exported collections are empty. *)
Definition fresh s : Prop :=
  ExchangeRates s = ∅ ∧ FeederDelegations s = ∅ ∧ MissCounters s = ∅ ∧ Prevotes s = ∅ ∧
  Votes s = ∅ ∧ HistoricPrices s = ∅ ∧ MedianPrices s = ∅ ∧ MedianDeviations s = ∅.

(** C30: round trip: importing into a fresh state what a state exports restores
    its parameters and its eight collections, the exchange rates, the feeder
    delegations, the miss counters, the pending prevotes and votes and the
    three kinds of price stamps, so exporting again gives the same document;
    the reward set, the scheduled plans and the moving averages are not part
    of it and are lost. *)
Theorem genesis_roundtrip s s0 a w :
  exportable s → Forall (λ e, e.2 = Ok ()) (ParamSetPairs (paramSpace s)) →
  fresh s0 → GetModuleAccount ModuleName (world s0) = (Ok (Some a), w) →
  ∃ g s1, ExportGenesis s = (Ok g, s) ∧ InitGenesis g s0 = (Ok (), s1) ∧
    paramSpace s1 = paramSpace s ∧ ExchangeRates s1 = ExchangeRates s ∧
    FeederDelegations s1 = FeederDelegations s ∧ MissCounters s1 = MissCounters s ∧
    Prevotes s1 = Prevotes s ∧ Votes s1 = Votes s ∧ HistoricPrices s1 = HistoricPrices s ∧
    MedianPrices s1 = MedianPrices s ∧ MedianDeviations s1 = MedianDeviations s ∧
    ExportGenesis s1 = (Ok g, s1) ∧
    ValidatorRewardSet s1 = ValidatorRewardSet s0 ∧ ParamUpdatePlans s1 = ParamUpdatePlans s0 ∧
    Averages s1 = Averages s0.
Proof.
  intros He Hp (E1 & E2 & E3 & E4 & E5 & E6 & E7 & E8) Ha.
  exists (exported s), (imported s s0 w). split; [apply ExportGenesis_run|].
  split; [by rewrite InitGenesis_exported, Ha|]. rewrite ExportGenesis_run.
  unfold exported, imported. simpl. rewrite E1, E2, E3, E4, E5, E6, E7, E8, !map_union_empty. done.
Qed.
End genesis.

(** ** A concrete codec

    Messages are encoded by stdpp's [encode], a binary number, whose digits are
    packed into bytes; the last byte counts the digits of the one before. *)

Fixpoint pos_bits (p : positive) : list bool :=
  match p with
  | xH => []
  | xO p' => false :: pos_bits p'
  | xI p' => true :: pos_bits p'
  end.

Definition bits_pos (l : list bool) : positive :=
  foldr (λ (b : bool) p, if b then xI p else xO p) xH l.

Definition small_byte (n : nat) : ascii := ascii_of_nat n.

Fixpoint pack (l : list bool) : bytes :=
  match l with
  | b0 :: b1 :: b2 :: b3 :: b4 :: b5 :: b6 :: b7 :: l' => Ascii b0 b1 b2 b3 b4 b5 b6 b7 :: pack l'
  | _ =>
      let bit i := default false (l !! i) in
      [Ascii (bit 0) (bit 1) (bit 2) (bit 3) (bit 4) (bit 5) (bit 6) (bit 7);
       small_byte (length l)]%nat
  end.

Definition byte_bits (c : ascii) : list bool :=
  let '(Ascii b0 b1 b2 b3 b4 b5 b6 b7) := c in [b0; b1; b2; b3; b4; b5; b6; b7].

Fixpoint unpack (bz : bytes) : option (list bool) :=
  match bz with
  | [] => None
  | c :: bz' =>
      match bz' with
      | [] => None
      | [n] => Some (take (nat_of_ascii n) (byte_bits c))
      | _ => l ← unpack bz'; Some (byte_bits c ++ l)
      end
  end.

Lemma pack_two l : ∃ c d bz, pack l = c :: d :: bz.
Proof.
  assert (∀ n l, (length l ≤ n)%nat → ∃ c d bz, pack l = c :: d :: bz) as H; [|by eapply H].
  induction n as [|n IH]; intros l' Hl;
    (destruct l' as [|b0 [|b1 [|b2 [|b3 [|b4 [|b5 [|b6 [|b7 l']]]]]]]]; [by eexists _, _, _..|]).
  - simpl in Hl. lia.
  - destruct (IH l') as (c & d & bz & Heq); [simpl in Hl; lia|]. cbn [pack]. rewrite Heq. eauto.
Qed.

Lemma unpack_pack l : unpack (pack l) = Some l.
Proof.
  assert (∀ n l, (length l ≤ n)%nat → unpack (pack l) = Some l) as H; [|by eapply H].
  induction n as [|n IH]; intros l' Hl;
    (destruct l' as [|b0 [|b1 [|b2 [|b3 [|b4 [|b5 [|b6 [|b7 l']]]]]]]]; [reflexivity..|]).
  - simpl in Hl. lia.
  - cbn [pack unpack]. destruct (pack_two l') as (c & d & bz & Heq).
    assert (unpack (pack l') = Some l') as Hu by (apply IH; simpl in Hl; lia).
    rewrite Heq in *. by rewrite Hu.
Qed.

Definition pos_bytes (p : positive) : bytes := pack (pos_bits p).
Definition bytes_pos (bz : bytes) : option positive := bits_pos <$> unpack bz.

Lemma bytes_pos_bytes p : bytes_pos (pos_bytes p) = Some p.
Proof.
  unfold bytes_pos, pos_bytes. rewrite unpack_pack. simpl. f_equal.
  by induction p as [p IH|p IH|]; simpl; rewrite ?IH.
Qed.

#[export] Instance VoteInfo_countable : Countable ExtendedVoteInfo.
Proof.
  apply (inj_countable' (λ v, (BlockIdFlag v, Validator_Address v, Validator_Power v,
      VoteExtension v, ExtensionSignature v))
    (λ '(f, a, p, e, g), mkVoteInfo f a p e g)). by intros [].
Defined.
#[export] Instance Commit_countable : Countable ExtendedCommitInfo.
Proof.
  apply (inj_countable' (λ c, (ci_Round c, ci_Votes c)) (λ t, mkCommitInfo t.1 t.2)). by intros [].
Defined.

Definition digits_Marshal {A} `{Countable A} (x : A) : outcome bytes := Ok (pos_bytes (encode x)).
Definition digits_Unmarshal {A} `{Countable A} (bz : bytes) : outcome A :=
  match bytes_pos bz ≫= decode with Some x => Ok x | None => Err (Errorf "proto") end.

Lemma digits_roundtrip {A} `{Countable A} (x : A) bz :
  digits_Marshal x = Ok bz → digits_Unmarshal bz = Ok x.
Proof.
  intros [= <-]. unfold digits_Unmarshal. rewrite bytes_pos_bytes. simpl. by rewrite decode_encode.
Qed.

#[export] Instance digits_codec : CommitCodec := {|
  Commit_Marshal := digits_Marshal;
  Commit_Unmarshal := digits_Unmarshal;
|}.

#[export] Instance digits_codec_laws : CommitCodecLaws digits_codec.
Proof. intros x bz. exact (digits_roundtrip x bz). Qed.

#[export] Instance sample_consensus : ConsensusKeeper Sample := {|
  ConsAddress_Unmarshal bz := Ok (String.string_of_list_ascii bz);
  GetValidatorByConsAddr w a :=
    match find_val w a with Some v => Ok (GetOperator v) | None => Err (Errorf "no validator") end;
  ValidateVoteExtensions _ _ _ := Ok ();
|}.

#[export] Instance exact_coins : CoinsEqual := λ l l', Ok (bool_decide (l = l')).
#[export] Instance exact_coins_laws : CoinsEqualLaws exact_coins.
Proof. intros l. unfold DecCoins_Equal, exact_coins. by rewrite bool_decide_eq_true_2. Qed.

#[export] Instance sample_prices : PriceStrings Sample := λ _, Ok "USDT:2,ATOM:9"%string.
Definition started_oracle : PriceOracle Sample := {| Oracle_started _ := true; Oracle_tick _ _ w := w |}.

(** ** Witnesses *)

Definition sample_extension : response bytes :=
  ExtendVoteHandler (H2 := started_oracle) sample_conf (sample_state 40) (Some 40).
Definition sample_bytes : bytes := pb_encode (mkVoteExt 40 [mkDecCoin "USDT" (2 * precision)]).

Lemma extension_run : sample_extension = mkResp (Some sample_bytes) None.
Proof. vm_cast_no_check (eq_refl (mkResp (Some sample_bytes) None)). Qed.

Lemma sent_extension_witness :
  VerifyVoteExtensionHandler (Some (40, sample_bytes)) = Ok (mkResp (Some ACCEPT) None) ∧
  ∃ str parsed, ParseExchangeRateDecCoins str = Ok parsed ∧ Forall (λ c, 0 < dc_Amount c) parsed.
Proof.
  destruct (sent_extension (H5 := started_oracle) sample_conf (sample_state 40) 40 sample_bytes
    ltac:(split; [discriminate|reflexivity]) extension_run) as (Hv & str & parsed & _ & Hp & _ & Hpos).
  split; [exact Hv|]. exists str, parsed. split; [exact Hp|exact Hpos].
Defined.

(** A committed extension of validator [x] with a rate, and an absent one. *)
Definition sample_commit : ExtendedCommitInfo :=
  mkCommitInfo 0
    [mkVoteInfo 2 ["x"%char] 6 sample_bytes ["s"%char]; mkVoteInfo 1 ["y"%char] 4 [] []].

Lemma sample_rates : rates_encodable sample_commit.
Proof.
  constructor; [|constructor]. intros ext Hext.
  assert (pb_Unmarshal (pb_empty : OracleVoteExtension) sample_bytes =
    Ok (mkVoteExt 40 [mkDecCoin "USDT" (2 * precision)])) as E by (vm_compute; reflexivity).
  change (pb_Unmarshal pb_empty sample_bytes = Ok ext) in Hext.
  rewrite E in Hext. injection Hext as <-. constructor; [|constructor]. discriminate.
Qed.

Definition sample_proposal : list bytes :=
  match PrepareProposalHandler true sample_world (Some (41, sample_commit, Some [])) with
  | Ok r => default [] (resp r) | _ => [] end.

Lemma proposal_run :
  PrepareProposalHandler true sample_world (Some (41, sample_commit, Some [])) =
  Ok (mkResp (Some sample_proposal) None).
Proof. vm_cast_no_check (eq_refl (Ok (mkResp (Some sample_proposal) None))). Qed.

Lemma proposal_accepted :
  ProcessProposalHandler true sample_world (Some (41, Some sample_proposal)) =
  Ok (mkResp (Some ACCEPT) None).
Proof. vm_cast_no_check (eq_refl (Ok (mkResp (Some ACCEPT) None))). Qed.

Lemma prepared_block_accepted_witness :
  ProcessProposalHandler true sample_world (Some (41, Some sample_proposal)) =
  Ok (mkResp (Some ACCEPT) None).
Proof. exact (prepared_block_accepted true sample_world 41 sample_commit [] sample_proposal sample_rates proposal_run). Defined.

Lemma accepted_block_votes_witness :
  ∃ injected, extractInjectedVoteExtensionTx sample_proposal = Ok injected.
Proof.
  destruct (accepted_block_votes sample_world 41 sample_proposal None proposal_accepted)
    as (injected & ci & votes & l & Hx & _). exists injected. exact Hx.
Defined.

(** A state with one entry in each of five collections. *)
Definition export_state : State Sample :=
  set_ExchangeRates (λ _, {["USDT"%string := precision]})
    (set_FeederDelegations (λ _, {["x"%string := "f"%string]})
       (set_MissCounters (λ _, {["y"%string := 3]})
          (set_Votes (λ _, {["x"%string := mkVote [mkDecCoin "USDT" precision] "vx"]})
             (set_Prevotes (λ _, {["y"%string := mkPrevote "00" "vy" 30]}) (sample_state 40))))).

Lemma genesis_roundtrip_witness :
  ∃ g s1, InitGenesis g (sample_state 0) = (Ok (), s1) ∧ Votes s1 = Votes export_state ∧
    ExportGenesis s1 = (Ok g, s1).
Proof.
  destruct (genesis_roundtrip export_state (sample_state 0) "oracle" sample_world)
    as (g & s1 & _ & Hi & _ & _ & _ & _ & _ & Hv & _ & _ & _ & He & _).
  - split.
    + intros d r Hl. destruct (proj1 (lookup_singleton_Some "USDT"%string d precision r) Hl) as [<- _].
      reflexivity.
    + intros v f Hl. destruct (proj1 (lookup_singleton_Some "x"%string v "f"%string f) Hl) as [<- <-].
      split; discriminate.
    + intros v n Hl. destruct (proj1 (lookup_singleton_Some "y"%string v 3 n) Hl) as [<- _]. discriminate.
    + intros v p Hl.
      destruct (proj1 (lookup_singleton_Some "y"%string v (mkPrevote "00" "vy" 30) p) Hl) as [<- <-].
      split; [discriminate|reflexivity].
    + intros v p Hl.
      destruct (proj1 (lookup_singleton_Some "x"%string v
        (mkVote [mkDecCoin "USDT" precision] "vx") p) Hl) as [<- <-].
      split; [discriminate|reflexivity].
  - repeat constructor.
  - repeat split.
  - reflexivity.
  - exists g, s1. split; [exact Hi|split; [exact Hv|exact He]].
Defined.

Lemma Parse_feed_witness :
  ParseExchangeRateDecCoins "usdt:2,Atom:9.5" =
  Ok [mkDecCoin "USDT" (2 * precision); mkDecCoin "ATOM" (95 * precision / 10)].
Proof.
  apply (Parse_feed [("usdt"%string, "2"%string, 2 * precision);
                     ("Atom"%string, "9.5"%string, 95 * precision / 10)]).
  - discriminate.
  - repeat constructor.
  - refine (@bool_decide_unpack _ (decide _) _). by vm_compute.
Defined.

Lemma Parse_key_witness :
  ParseDenomAndBlockFromKey
    (ConcatBytes 0 [KeyPrefixMedian; byte_slice "ATOM"; UintWithNullPrefix 77]) KeyPrefixMedian =
  Ok ("ATOM"%string, 77).
Proof. apply (Parse_key KeyPrefixMedian "ATOM" 77). split; lia. Defined.

Lemma BallotMapToSlice_unique_witness :
  BallotMapToSlice [("B"%string, []); ("A"%string, [])] = BallotMapToSlice [("A"%string, []); ("B"%string, [])].
Proof.
  apply BallotMapToSlice_unique.
  - refine (@bool_decide_unpack _ (decide _) _). by vm_compute.
  - apply perm_swap.
Defined.
