(* ===== verification/MultisigTheorems.v ===== *)
(** * MultisigTheorems: what the multisig module can and cannot do

    The reachable states of the module over every message, and the handlers
    that cannot succeed. *)
From S2P Require Import Prelude Util Store Wire WireLemmas WireSample Multisig MultisigProto MultisigService.
Local Open Scope Z_scope.

Section multisig.
Context {T W : Type} `{AddressCodec, Blake2b, AccountPrefix} `{MultisigBank W}.
Context `{ProposalTable T} `{!ProposalTableLaws T}.
Context (authority : string) (registered : bool) (fuel : nat).
Implicit Types s : MState T W.

(** C39: from a state without proposals whose accounts have a signer and a
    positive threshold, every reachable state has such accounts and still no
    proposal, and in it no message that adds a signer, opens, approves or
    dispatches a proposal succeeds: the module can only create accounts and
    change its parameters. *)
Theorem multisig_inert s0 s :
  accounts_ok s0 → table_empty (ms_Table s0) → reachable authority registered fuel s0 s →
  accounts_ok s ∧ ms_Table s = ms_Table s0 ∧
  (∀ m s', handle authority registered fuel m s = (Ok (), s') →
     (∃ p, m = MUpdate p) ∨ (∃ p, m = MCreate p)).
Proof.
  intros Hacc Hempty Hr. assert (accounts_ok s ∧ ms_Table s = ms_Table s0) as [Ha Ht].
  { induction Hr as [|s m s' _ [IHa IHt] Htx]; [done|].
    apply tx_invariant in Htx as [? Ht]; [|done|by rewrite IHt]. split; [done|congruence]. }
  split_and!; [done|done|]. intros m s' Hok.
  destruct m as [m|m|m|m|m|m|m|m|m|m]; cbn [handle] in Hok; try done; [left; by exists m|right; by exists m|..].
  - by apply AddSigner_never in Hok.
  - destruct (InitializeMultisigProposal m s) as [[a| |] s3] eqn:Hc; [|done..].
    by apply Initialize_never in Hc.
  - apply Approve_empty in Hok; [done|]. by rewrite Ht.
  - destruct (ApproveAndDispatchMultisigProposal _ _ _ s) as [[a| |] s3] eqn:Hc; [|done..].
    by apply Dispatch_never in Hc.
Qed.

(** C40: neither opening nor dispatching a proposal ever succeeds, whatever the
    table holds, however deep the router re-enters the handler: an unknown
    call is a nil dereference, a known one is refused by the unique index, and
    a dispatch only calls itself until it fails. *)
Theorem proposals_never_succeed init disp n s :
  (∀ id s', InitializeMultisigProposal (T := T) (W := W) init s ≠ (Ok id, s')) ∧
  (∀ data s', ApproveAndDispatchMultisigProposal (T := T) (W := W) n registered disp s ≠ (Ok data, s')).
Proof. split; intros ??; [apply Initialize_never|apply Dispatch_never]. Qed.

(** C38: creating an account, on every branch: an invalid sender, a threshold
    below one and a used seed are refused in this order, without a write; any
    number of signers is accepted, and the sender is added to them. *)
Theorem account_created msg s :
  let a := DeriveMultisigAccountID (cr_Seed msg) in
  CreateMultisigAccount msg s =
  match StringToBytes (cr_Authority msg) with
  | Panic => (Panic, s)
  | Err _ => (Err ErrInvalidAddress, s)
  | Ok sender =>
      if cr_Threshold msg <? 1 then (Err ErrInsufficientFee, s) else
      match ms_Accounts s !! a with
      | Some _ => (Err ErrUnknownAddress, s)
      | None =>
          (Ok a, mkMState (ms_Params s)
             (<[a := mkDetails (cr_Signers msg ++ [sender]) (cr_Threshold msg) (cr_Permission msg)]>
                (ms_Accounts s)) (ms_Table s) (ms_Bank s))
      end
  end.
Proof.
  intros a. unfold CreateMultisigAccount. unfold mbind at 1, M_bind at 1. unfold lift.
  destruct (StringToBytes _) as [sender| |]; simpl; [|done..].
  destruct (cr_Threshold msg <? 1); [done|].
  assert ((Z.of_nat (length (cr_Signers msg)) <? 2) && (10 <? Z.of_nat (length (cr_Signers msg))) = false) as ->.
  { destruct (Z.ltb_spec (Z.of_nat (length (cr_Signers msg))) 2); [|done]. apply Z.ltb_ge. lia. }
  unfold gets, mbind, M_bind. by destruct (ms_Accounts s !! _).
Qed.

(** The member check of the proposal handlers accepts every valid address
    for every account with a signer: it compares each signer with itself. *)
Theorem member_check_vacuous multisig_string signer_string a m details s :
  StringToBytes signer_string = Ok a → StringToBytes multisig_string = Ok m →
  ms_Accounts s !! m = Some details → Signers details ≠ [] →
  check_member multisig_string signer_string s = (Ok (a, m, details), s).
Proof.
  intros Ha Hm Hd Hs. unfold check_member, lift, gets, mbind, M_bind. rewrite Ha, Hm. simpl.
  rewrite Hd. by rewrite contains_nonempty, bool_decide_eq_true_2.
Qed.
End multisig.

Section delivered.
Context `{ProtoLaws Any}.

(** A message of the multisig module whose integers fit their fields is read
    back from its own bytes by the type of its name; any other bytes, of a
    length a slice can have, are read as an error or as a message of the type
    that was named whose integers are in range, and never panic. *)
Theorem multisig_message_roundtrip m name bz :
  (∀ bz', mmsg_ok m → mmsg_Marshal m = Ok bz' → mmsg_Unmarshal (mtype_name m) bz' = Ok m) ∧
  (len bz < 2 ^ 63 →
   match mmsg_Unmarshal name bz with
   | Ok m' => mtype_name m' = name ∧ mmsg_typed m'
   | Err _ => True
   | Panic => False
   end).
Proof.
  split.
  - intros bz' Hok. rewrite mmsg_Marshal_encode.
    destruct (Z.leb_spec (2 ^ 63) (len (mmsg_encode m))); [done|]. intros [= <-].
    by apply mmsg_Unmarshal_encode.
  - intros Hl. destruct (mmsg_Unmarshal name bz) eqn:Hm; [|done|].
    + by apply mmsg_Unmarshal_typed in Hm.
    + by apply mmsg_Unmarshal_total in Hm.
Qed.
End delivered.

(** ** Witnesses *)

Lemma multisig_message_roundtrip_witness :
  mmsg_Unmarshal "multisig.v1.MsgSetMultisigThresholdParams" (map to_byte [10; 1; 109; 16; 3])
  = Ok (MSetThreshold (mkMsgSetThreshold "m" 3)).
Proof.
  refine (proj1 (multisig_message_roundtrip (MSetThreshold (mkMsgSetThreshold "m" 3)) "" []) _ _ _).
  - hnf. vm_compute. split; congruence.
  - by vm_compute.
Defined.

#[local] Existing Instances plain_codec plain_hash plain_prefix free_bank.

Definition empty_multisig : MState MapTable () := mkMState (Some (mkParams true)) ∅ (∅, 0) ().
Definition create_msg : MsgCreateMultisigAccountParams :=
  {| cr_Authority := "alice"; cr_Seed := 7; cr_Threshold := 1; cr_Signers := [];
     cr_Permission := MULTISIG_PROPOSAL_TYPE_TRANSFER_ONLY |}.
Definition created_multisig : MState MapTable () := (CreateMultisigAccount create_msg empty_multisig).2.

Lemma multisig_inert_witness : accounts_ok created_multisig.
Proof.
  refine (proj1 (multisig_inert "gov" true 10 empty_multisig created_multisig _ _ _)).
  - intros a d Hl. by destruct (lookup_empty_Some _ _ Hl).
  - split; reflexivity.
  - apply (reach_tx _ _ _ _ empty_multisig (MCreate create_msg)); [apply reach_refl|].
    apply tx_ok. by vm_compute.
Defined.

Lemma proposals_never_succeed_witness :
  InitializeMultisigProposal (T := MapTable) (W := ())
    (mkMsgInitialize "m" "p" "" "" None) empty_multisig
  ≠ (Ok 1, empty_multisig).
Proof.
  exact (proj1 (proposals_never_succeed true _
    (mkMsgDispatch "m" 1 "p" None)
    0 empty_multisig) 1 empty_multisig).
Defined.

Lemma member_check_vacuous_witness :
  (check_member (DeriveMultisigAccountID 7) "mallory" created_multisig).1 =
  Ok ("mallory"%string, DeriveMultisigAccountID 7,
      mkDetails ["alice"%string] 1 MULTISIG_PROPOSAL_TYPE_TRANSFER_ONLY).
Proof.
  rewrite (member_check_vacuous (DeriveMultisigAccountID 7) "mallory" "mallory"
    (DeriveMultisigAccountID 7) (mkDetails ["alice"%string] 1 MULTISIG_PROPOSAL_TYPE_TRANSFER_ONLY)
    created_multisig); try (by vm_compute); discriminate.
Defined.
