(* ===== verification/ProtoTheorems.v ===== *)
(** * ProtoTheorems: the protobuf code of messages, stored values and votes

    What the generated code guarantees to the module: its in-place writers are
    a reference encoding, its readers read it back, end on every input, and
    return integers of their types. *)
From S2P Require Import Prelude Util GoStrings Dec Types Params Bech32 Ballot Votes Msgs World State.
From S2P Require Import Wire WireLemmas OracleProto TxProto WireSample Rewards EndBlock Chain.
From S2P Require Import Codec Abci HistoricPrice Query QueryProto QueryService Sample VotingTheorems.
Local Open Scope Z_scope.

Section proto.
Context `{DecCodecLaws} `{ProtoLaws DecCoin} `{CoinNil}.

(** C16: the bytes that [Marshal] makes of any of the nine messages, whose
    integers fit their types and whose decimals are read back from their text,
    which a nil one is not, are read back as that message by the type that is
    registered under its name. *)
Theorem message_roundtrip m bz :
  omsg_ok m → omsg_Marshal m = Ok bz → omsg_Unmarshal (type_name m) bz = Ok m.
Proof.
  destruct (omsg_Marshal_encode m) as [Hs ->]. destruct (Z.leb_spec (2 ^ 63) (omsg_Size m)); [done|].
  intros Hok [= <-]. apply omsg_Unmarshal_encode; [done|lia].
Qed.

(** C21: [Marshal], which fills a buffer of [Size] bytes from its end, writes the
    whole buffer with the fields in the order of their numbers and never fails,
    unless the message has 2^63 bytes or more, where [make] panics. *)
Theorem marshal_is_reference m :
  omsg_Size m = len (omsg_encode m) ∧
  omsg_Marshal m = if 2 ^ 63 <=? omsg_Size m then Panic else Ok (omsg_encode m).
Proof. apply omsg_Marshal_encode. Qed.

(** C22: reading a transaction's message ends with a message or an error
    whatever the bytes and the type name are: every byte that is indexed and
    every slice that is taken lies within the input, where anything else would
    be a panic, and no loop runs forever; the same holds of the vote extension
    of another validator and of an injected transaction. *)
Theorem decoding_terminates name bz :
  len bz < 2 ^ 63 →
  omsg_Unmarshal name bz ≠ Panic ∧
  pb_Unmarshal (A := OracleVoteExtension) pb_empty bz ≠ Panic ∧
  pb_Unmarshal (A := InjectedVoteExtensionTx) pb_empty bz ≠ Panic.
Proof.
  intros Hl. split_and!; [by apply omsg_Unmarshal_no_panic|by apply pb_Unmarshal_total..].
Qed.

(** C23: a message that was read is of the type it was asked for, and its
    integers are in the range of their fields, those of the parameters of a plan
    and of every denom included, whatever the bytes were. *)
Theorem decoded_in_range name bz m :
  omsg_Unmarshal name bz = Ok m → type_name m = name ∧ omsg_typed m.
Proof. apply omsg_Unmarshal_typed_aux. Qed.
End proto.

(** ** Values of the store *)

Section stored.
Context {W : Type} `{StakingKeeper W} `{CoinsOps} `{!DistributionKeeper W} `{!BankKeeper W}.
Context `{AccountKeeper W} `{PriceOracle W} `{EventManager}.
Context `{Bech32Laws} `{DecOps} `{CoinLaws} `{YamlDenom} `{Float64} `{TmHashLaws}.
Context `{DecCodecLaws} `{ProtoLaws DecCoin} `{!CoinWire, !ParsedWire}.
Context (k : KeeperConf).

Lemma stored_value {A} `{ProtoLaws A} (x : A) :
  pb_ok x → pb_Size x < 2 ^ 63 → ∃ bz, pb_Marshal x = Ok bz ∧ pb_Unmarshal pb_empty bz = Ok x.
Proof.
  intros Hok Hs. exists (pb_encode x). rewrite pb_Marshal_encode, <- pb_Size_encode.
  rewrite (proj2 (Z.leb_gt _ _)) by lia. split; [done|].
  apply pb_Unmarshal_encode; [done|]. by rewrite <- pb_Size_encode.
Qed.

(** In every state that transactions and blocks lead to, each stored prevote
    and each stored vote is a value that the collections' codec writes and reads
    back unchanged. *)
Theorem stored_votes_survive (s s' : State W) v :
  wf s → reachable k s s' →
  (∀ p, Prevotes s' !! v = Some p → pb_Size p < 2 ^ 63 →
    ∃ bz, pb_Marshal p = Ok bz ∧ pb_Unmarshal pb_empty bz = Ok p) ∧
  (∀ x, Votes s' !! v = Some x → pb_Size x < 2 ^ 63 →
    ∃ bz, pb_Marshal x = Ok bz ∧ pb_Unmarshal pb_empty bz = Ok x).
Proof.
  intros Hs Hr. destruct (reachable_wf k s s' Hs Hr) as [Hh _ Hp Hv _]. split; intros x Hl.
  - apply stored_value. destruct (Hp v x Hl) as (_ & _ & ? & _).
    change (is_u64 (pv_SubmitBlock x)). unfold is_u64. lia.
  - apply stored_value. destruct (Hv v x Hl) as (_ & _ & ?). by apply parsed_encodable.
Qed.
End stored.

(** ** Queries *)

Section served.
Context {W : Type} `{DecOps, Bech32, CoinOps, !CoinsOps, !CoinsList, StakingKeeper W}.
Context `{DecCodecLaws} `{ProtoLaws DecCoin} `{!CoinNil}.
Implicit Types s : State W.

Lemma serve_reads method bz : reads (serve (W := W) method bz).
Proof. unfold reads, serve. keeps_tac. apply answer_reads. Qed.

(** C24: the gRPC service of the queries never writes, whatever the method and the
    bytes are; a query that a client encoded is answered as the querier answers
    it: its error and its panic are passed on, and the bytes of its answer are
    read by the client as that answer, when its integers and amounts fit their
    fields. *)
Theorem query_served q s method bz :
  query_ok q → len (query_encode q) < 2 ^ 63 →
  (serve method bz s).2 = s ∧
  match (answer q s).1 with
  | Ok a =>
      len (answer_encode a) < 2 ^ 63 →
      ∃ reply, serve (query_method q) (query_encode q) s = (Ok reply, s) ∧
        (answer_ok a → answer_Unmarshal (query_method q) reply = Ok a)
  | Err e => serve (query_method q) (query_encode q) s = (Err e, s)
  | Panic => serve (query_method q) (query_encode q) s = (Panic, s)
  end.
Proof.
  intros Hq Hl. split.
  { destruct (serve method bz s) as [r s'] eqn:Hs. by apply serve_reads in Hs as <-. }
  unfold serve, lift. rewrite query_Unmarshal_encode by done.
  destruct (answer q s) as [r s'] eqn:Ha. pose proof Ha as ->%answer_reads.
  unfold mbind, M_bind. rewrite Ha. destruct r as [a|e|]; [|done..].
  intros Hlen. exists (answer_encode a). rewrite answer_Marshal_encode, (proj2 (Z.leb_gt _ _)) by done.
  split; [done|]. intros Hok. rewrite <- (answer_of_method _ _ _ _ Ha).
  by apply answer_Unmarshal_encode.
Qed.
End served.

(** ** Witnesses *)

Definition delegate_msg : MsgDelegateFeedConsent := mkMsgDelegate "x" "y".

Lemma message_roundtrip_witness :
  omsg_Unmarshal "oracle.v1.MsgDelegateFeedConsent"
    (map to_byte [10; 1; 120; 18; 1; 121]) = Ok (ODelegate delegate_msg).
Proof. apply (message_roundtrip (ODelegate delegate_msg)); [exact I|by vm_compute]. Defined.

(** A group that is never closed, and an unknown name. *)
Lemma decoding_terminates_witness :
  omsg_Unmarshal "oracle.v1.MsgDelegateFeedConsent" (map to_byte [27; 27; 27]) ≠ Panic ∧
  omsg_Unmarshal "oracle.v1.MsgDelegateFeedConsent" (map to_byte [27; 27; 27]) = Err ErrUnexpectedEOF.
Proof.
  split; [|by vm_compute]. by apply (decoding_terminates "oracle.v1.MsgDelegateFeedConsent").
Defined.

(** A height written with more bits than it has. *)
Lemma decoded_in_range_witness : ∃ m,
  omsg_Unmarshal "oracle.v1.MsgGovCancelUpdateParamPlan"
    (map to_byte [32; 255; 255; 255; 255; 255; 255; 255; 255; 255; 127]) = Ok m ∧ omsg_typed m.
Proof.
  eexists. split; [by vm_compute|].
  eapply (decoded_in_range "oracle.v1.MsgGovCancelUpdateParamPlan"
    (map to_byte [32; 255; 255; 255; 255; 255; 255; 255; 255; 255; 127])). by vm_compute.
Defined.

Lemma stored_votes_survive_witness : ∃ x bz,
  Votes voted_state !! "x"%string = Some x ∧ pb_Marshal x = Ok bz ∧ pb_Unmarshal pb_empty bz = Ok x.
Proof.
  assert (is_Some (Votes voted_state !! "x"%string)) as [x Hx].
  { destruct (Votes voted_state !! "x"%string) eqn:E; [by eexists|]. by vm_compute in E. }
  exists x. destruct (stored_votes_survive sample_conf reveal_state voted_state "x") as [_ Hv].
  - apply reveal_wf.
  - apply rtc_once. apply (step_tx sample_conf _ (OVote vote_msg)). exact vote_run.
  - destruct (Hv x Hx) as (bz & ? & ?); [|by exists bz].
    vm_compute in Hx. injection Hx as <-. by vm_compute.
Defined.

#[local] Instance sample_coins_list : CoinsList := id.

Definition slash_window_reply : oanswer := ASlashWindow (mkQuerySlashWindowResponse 2).

Lemma query_served_witness : ∃ reply,
  serve "SlashWindow" [] (sample_state 25) = (Ok reply, sample_state 25) ∧
  answer_Unmarshal "SlashWindow" reply = Ok slash_window_reply.
Proof.
  destruct (query_served (QSlashWindow mkQuerySlashWindow) (sample_state 25) "SlashWindow" [])
    as [_ Hs]; [exact I|by vm_compute|].
  destruct Hs as (reply & ? & Hr); [by vm_compute|].
  exists reply. split; [done|]. apply Hr. hnf. split; vm_compute; congruence.
Defined.
