(* ===== verification/MigrationTheorems.v ===== *)
(** * MigrationTheorems: what an in-place migration leaves in the store

    The rewriting of stored governance proposals, for any codec of the SDK's
    proposals, and the tables of the price feeder; a concrete codec of proposals
    for the witnesses. *)
From S2P Require Import Prelude Util Store Dec Types Params Wire WireLemmas OracleProto WireSample.
From S2P Require Import Bech32 Votes Msgs TxProto World State Subspace Keeper ParamPlan MsgServer.
From S2P Require Import Rewards Chain Codec Migrations Sample.
Local Open Scope Z_scope.

Section proposals.
Context {P : Type} `{GovCodecLaws P} `{DecCodecLaws} `{ProtoLaws DecCoin} `{CoinNil}.

(** A migration that succeeds leaves every proposal that could be decoded
    as it was, rewrites each of the others message by message, the type URL
    kept and the update in its new format with the same authority, title,
    description, keys and changes, and adds or removes none; the order of the
    store's iterator does not matter. *)
Theorem migrated_store (s s' : gmap string bytes) key :
  MigrateProposals s = (Ok (), s') →
  match s !! key with
  | None => s' !! key = None
  | Some value => ∃ bz, s' !! key = Some bz ∧
      match prop_Unmarshal value with
      | (_, None) => bz = value
      | (prop, Some _) => ∃ prop', prop_Marshal prop' = Ok bz ∧
          Forall2 converted (prop_Messages prop) (prop_Messages prop')
      end
  end.
Proof.
  intros Hrun. apply (migrate_loop (Walk s)) in Hrun as [Hin Hout];
    [|apply NoDup_Walk|intros k v; apply elem_of_Walk].
  destruct (s !! key) as [value|] eqn:Hk.
  - apply elem_of_Walk in Hk. destruct (Hin key value Hk) as (bz & Hv & ->). exists bz.
    split; [done|]. unfold migrated_value in Hv.
    destruct (prop_Unmarshal value) as [prop [e|]]; [|by injection Hv].
    destruct (convertProposal prop) as [prop'| |] eqn:Ec; [|done..].
    exists prop'. split; [done|]. by apply convertProposal_Ok.
  - rewrite Hout; [done|]. intros Hk'. apply list_elem_of_fmap in Hk' as ([k v] & -> & Hin').
    apply elem_of_Walk in Hin'. cbn [fst] in Hk. congruence.
Qed.

(** A proposal that only holds updates of the old format is converted, and
    each of its messages decodes in the new format to the update that it was. *)
Theorem legacy_proposal_converted prop (l : list (string * MsgLegacyGovUpdateParams)) :
  prop_Messages prop = map (λ m, mkAny m.1 (pb_encode m.2)) l →
  Forall (λ m, pb_ok m.2 ∧ pb_Size m.2 < 2 ^ 63 ∧ pb_Size (new_update_message m.2) < 2 ^ 63) l →
  ∃ prop', convertProposal prop = Ok prop' ∧
    Forall2 (λ m msg, TypeUrl msg = m.1 ∧
      pb_Unmarshal pb_empty (Value msg) = Ok (new_update_message m.2)) l (prop_Messages prop').
Proof.
  intros Hm Hl. destruct (convert_legacy_list l [] Hl) as (l' & Hf & Hl').
  exists (prop_set_Messages l' prop). unfold convertProposal. rewrite Hm, Hf.
  split; [done|]. by rewrite prop_Messages_set.
Qed.
End proposals.

Section update.
Context {W : Type} `{StakingKeeper W} `{CoinsOps} `{!DistributionKeeper W} `{!BankKeeper W}.
Context `{AccountKeeper W} `{PriceOracle W} `{EventManager}.
Context `{Bech32} `{DecOps} `{CoinOps} `{YamlDenom} `{Float64} `{TmHash} `{GovLimits}.

(** C36: the placeholder height of a converted update is never replaced: neither
    the stateless check nor, after the first block, the handler accepts it, so
    a converted proposal that passes changes nothing. *)
Theorem converted_update_refused k old (s : State W) :
  0 < BlockHeight s →
  Update_ValidateBasic (new_update_message old) ≠ Ok () ∧
  ∃ e, deliver k (OUpdate (new_update_message old)) s = (Err e, s).
Proof.
  intros Hh. split.
  - unfold Update_ValidateBasic. by destruct (ValidateProposal _ _ _) as [[]| |].
  - cbn [deliver]. unfold GovUpdateParams, mbind, M_bind. rewrite check_authority_run.
    destruct (String.eqb _ _); [|by eexists]. unfold ScheduleParamUpdatePlan, gets, mbind, M_bind.
    simpl. rewrite (proj2 (Z.ltb_lt _ _) Hh). by eexists.
Qed.
End update.

Section tables.
Context {W : Type} `{DecOps} `{YamlDenom}.

(** The tables that the migrations write pass the checks of the parameter
    store, hold one threshold per denom for exactly the denoms that have
    providers and no pair twice, and touch no other parameter: valid parameters
    stay valid. *)
Theorem migrated_tables_valid (s s1 s2 : State W) :
  MigrateCurrencyPairProviders s = (Ok (), s1) →
  MigrateCurrencyDeviationThresholds s1 = (Ok (), s2) →
  paramSpace s2 = with_CurrencyDeviationThresholds migrated_CurrencyDeviationThresholds
    (with_CurrencyPairProviders migrated_CurrencyPairProviders (paramSpace s)) ∧
  Validate (paramSpace s2) = Validate (paramSpace s) ∧
  validateCurrencyPairProviders migrated_CurrencyPairProviders = Ok () ∧
  validateCurrencyDeviationThresholds migrated_CurrencyDeviationThresholds = Ok () ∧
  NoDup (map cdt_BaseDenom migrated_CurrencyDeviationThresholds) ∧
  Forall (λ c, cpp_BaseDenom c ∈ map cdt_BaseDenom migrated_CurrencyDeviationThresholds)
    migrated_CurrencyPairProviders.
Proof.
  intros [= <-] [= <-]. destruct migrated_tables_match as (? & ? & _).
  split_and!; [by destruct s|by destruct s as []|by vm_compute..|done|done].
Qed.
End tables.

(** ** A concrete codec of proposals

    The messages of a proposal as field 2 of a protobuf message; decoding them
    resolves the type URLs, as the SDK's codec does after it has read the
    proposal. *)
#[export] Instance sample_proposal : ProtoMessage (list Any) :=
  message "Proposal" [] (size_messages 1) (put_messages [0x12])
    (λ n, if n =? 2 then Some (messages_field "Messages" id (λ _ v, v)) else None).

Definition resolves (msg : Any) : bool :=
  match omsg_Unmarshal (String.substring 1 (String.length (TypeUrl msg) - 1) (TypeUrl msg)) (Value msg) with
  | Ok _ => true
  | _ => false
  end.

#[export] Instance sample_gov : GovCodec (list Any) := {|
  prop_Messages l := l;
  prop_set_Messages l _ := l;
  prop_Unmarshal bz :=
    match pb_Unmarshal pb_empty bz with
    | Ok l => (l, if forallb resolves l then None else Some (Errorf "no concrete type registered"))
    | Err e => ([], Some e)
    | Panic => ([], Some ErrUnexpectedEOF)
    end;
  prop_Marshal := pb_Marshal;
|}.
#[export] Instance sample_gov_laws : GovCodecLaws (list Any).
Proof. by intros l p. Qed.

(** ** Witnesses *)

#[local] Existing Instance DefaultGovLimits.

Definition sample_changes : Params := with_VotePeriod 5 DefaultParams.
Definition legacy_msg : MsgLegacyGovUpdateParams :=
  mkMsgLegacy "gov" "t" "d" ["VotePeriod"%string] sample_changes.
Definition update_url : string := "/oracle.v1.MsgGovUpdateParams".
Definition legacy_any : Any := mkAny update_url (pb_encode legacy_msg).
Definition or_empty (o : outcome bytes) : bytes := match o with Ok bz => bz | _ => [] end.

(** A store with a proposal of the old format, and a current one. *)
Definition old_store : gmap string bytes :=
  <["1"%string := or_empty (prop_Marshal [legacy_any])]>
    (<["2"%string := or_empty (prop_Marshal ([] : list Any))]> ∅).
Definition new_store : gmap string bytes := (MigrateProposals old_store).2.

Lemma new_store_run : MigrateProposals old_store = (Ok (), new_store).
Proof.
  assert ((MigrateProposals old_store).1 = Ok ()) as Hr by (vm_compute; reflexivity).
  unfold new_store. destruct (MigrateProposals old_store) as [r s]. cbn [fst snd] in *. by rewrite Hr.
Qed.

Lemma migrated_store_witness :
  (prop_Unmarshal (or_empty (prop_Marshal [legacy_any]))).2 ≠ None ∧
  ∃ bz, new_store !! "1"%string = Some bz ∧ (prop_Unmarshal bz).2 = None.
Proof.
  pose proof (migrated_store old_store new_store "1" new_store_run) as Hm.
  split; [vm_compute; discriminate|].
  assert (old_store !! "1"%string = Some (or_empty (prop_Marshal [legacy_any]))) as Ho
    by apply lookup_insert_eq.
  rewrite Ho in Hm. destruct Hm as (bz & Hbz & _). exists bz. split; [exact Hbz|].
  assert (option_map (λ bz, bool_decide ((prop_Unmarshal bz).2 = None)) (new_store !! "1"%string) = Some true)
    as Hd by (vm_compute; reflexivity).
  rewrite Hbz in Hd. injection Hd as Hd. by apply bool_decide_eq_true in Hd.
Defined.

Lemma legacy_proposal_converted_witness : ∃ prop',
  convertProposal [legacy_any] = Ok prop' ∧
  Forall2 (λ m msg, TypeUrl msg = m.1 ∧
    pb_Unmarshal pb_empty (Value msg) = Ok (new_update_message m.2)) [(update_url, legacy_msg)]
    (prop_Messages prop').
Proof.
  apply (legacy_proposal_converted [legacy_any] [(update_url, legacy_msg)]); [done|].
  constructor; [|done]. split_and!; [|by vm_compute..].
  cbn. repeat constructor; by vm_compute.
Defined.

Lemma converted_update_refused_witness :
  Update_ValidateBasic (new_update_message legacy_msg) ≠ Ok ().
Proof.
  apply (converted_update_refused sample_conf legacy_msg (sample_state 12)). by vm_compute.
Defined.

Lemma migrated_tables_valid_witness :
  Validate (paramSpace (MigrateCurrencyDeviationThresholds (MigrateCurrencyPairProviders (sample_state 12)).2).2)
  = Validate (paramSpace (sample_state 12)).
Proof.
  apply (migrated_tables_valid (sample_state 12) (MigrateCurrencyPairProviders (sample_state 12)).2); done.
Defined.
