(* ===== verification/SystemTheorems.v ===== *)
(** * SystemTheorems: around the modules

    The message filter of the ante chain, the options of the price feeder and
    the simulation's genesis and operations. *)
From S2P Require Import Prelude Util GoStrings Dec Types Params Bech32 Ballot Votes Msgs World State.
From S2P Require Import Subspace Keeper MsgServer Rewards EndBlock Chain Genesis Simulation App.
From S2P Require Import Sample WireSample VotingTheorems.
Local Open Scope Z_scope.

(** The filter rejects a transaction exactly when one of its messages, or of
    the messages that an authorization executes at any depth, has a blocked type
    or cannot be decoded; every other transaction goes on to the rest of the
    chain unchanged. *)
Theorem filter_rejects {Ctx Tx} mfd (GetMsgs : Tx → list sdk_msg) (ctx : Ctx) (tx : Tx) simulate next :
  (HasDisallowedMessage mfd (GetMsgs tx) = true ↔ ∃ m, inside m (GetMsgs tx) ∧ blocked mfd m) ∧
  ((¬ ∃ m, inside m (GetMsgs tx) ∧ blocked mfd m) →
    AnteHandle mfd GetMsgs ctx tx simulate next = next ctx tx simulate).
Proof.
  assert (HasDisallowedMessage mfd (GetMsgs tx) = true ↔
    ∃ m, inside m (GetMsgs tx) ∧ blocked mfd m) as Hiff.
  { split; [|intros (m & ? & ?); by eapply inside_disallowed].
    rewrite HasDisallowed_existsb, existsb_exists. intros (m & Hin & (m' & Hi & Hb)%disallowed_inside).
    exists m'. split; [|done]. apply (inside_subset m' [m]); [done|].
    intros x ->%list_elem_of_singleton. by apply list_elem_of_In. }
  split; [done|]. intros Hn. unfold AnteHandle.
  destruct (HasDisallowedMessage _ _); [|done]. by destruct Hn; apply Hiff.
Qed.

(** The simulation always generates a genesis document, with parameters in
    these ranges, and the module never imports it: the averaging window is left
    at zero, which the parameter store refuses. *)
Theorem simulated_genesis_panics {R W} `{DecLaws} `{RandLaws R} `{AppParams R} `{Bech32}
    `{AccountKeeper W} (r : R) :
  (∀ A key (gen : M R A), GetOrGenerate A key gen = gen) →
  ∃ g r', RandomizedGenState r = (Ok g, r') ∧ in_ranges (gs_Params g) ∧
    ∀ s : State W, (InitGenesis g s).1 = Panic.
Proof.
  intros Hg. destruct (RandomizedGenState_draws Hg r) as (g & r' & Hr & p & -> & Hp & Hw & _).
  exists (mkGenesis p [] [] [] [] [] [] [] []), r'. split; [done|]. split; [done|].
  intros s. by apply InitGenesis_no_window.
Qed.

Section operations.
Context {R W : Type} `{StakingKeeper W} `{CoinsOps} `{!DistributionKeeper W} `{!BankKeeper W}.
Context `{AccountKeeper W} `{PriceOracle W} `{EventManager}.
Context `{Bech32Laws} `{DecOps} `{CoinLaws} `{YamlDenom} `{Float64} `{TmHashLaws}.
Context `{SimAccountsLaws R}.
Context (k : KeeperConf).
Implicit Types s : State W.

(** The rates that the fuzzer's operations commit to contain the native
    symbol, so when the coin constructor refuses that symbol no run of them
    records a string that can be parsed, and no reveal that they send is
    accepted. *)
Theorem simulated_reveals_refused s accs :
  plain_decimals → refused DmSymbol →
  (∀ r hashes res r' hashes',
    SimulateMsgAggregateExchangeRatePrevote s accs (r, hashes) = (res, (r', hashes')) →
    doomed hashes → doomed hashes') ∧
  (∀ r hashes from msg rh s', doomed hashes →
    SimulateMsgAggregateExchangeRateVote s accs (r, hashes) = (Ok (Deliver from msg), rh) →
    deliver k msg s ≠ (Ok (), s')).
Proof.
  intros Hdec Hd. split.
  - intros r hashes res r' hashes' Hrun. exact (SimulatePrevote_doomed s accs Hdec Hd _ _ _ Hrun).
  - intros r hashes from msg rh s'. by apply SimulateVote_refused.
Qed.
End operations.

(** ** Witnesses *)

(** A source that draws the same number, below every bound. *)
#[export] Instance sample_rand : Rand Z := λ n r, (Ok (r mod n), r).
#[export] Instance sample_rand_laws : RandLaws Z.
Proof. intros n r Hn. exists (r mod n), r. split; [done|]. by apply Z.mod_pos_bound. Qed.
#[export] Instance sample_app_params : AppParams Z := λ A key gen, gen.

Lemma filter_rejects_witness :
  AnteHandle (FilterDecorator [plain_msg "cosmos.bank.v1beta1.MsgSend"]) id ()
    [MsgExec (Some [plain_msg "oracle.v1.MsgDelegateFeedConsent"])] false (λ ctx _ _, Ok ctx) = Ok ().
Proof.
  apply (filter_rejects (FilterDecorator [plain_msg "cosmos.bank.v1beta1.MsgSend"]) id ()
    [MsgExec (Some [plain_msg "oracle.v1.MsgDelegateFeedConsent"])] false (λ ctx _ _, Ok ctx)).
  intros Hd.
  apply (filter_rejects (FilterDecorator [plain_msg "cosmos.bank.v1beta1.MsgSend"]) id ()
    [MsgExec (Some [plain_msg "oracle.v1.MsgDelegateFeedConsent"])] false (λ ctx _ _, Ok ctx)) in Hd.
  vm_compute in Hd. discriminate Hd.
Defined.

Lemma simulated_genesis_panics_witness :
  ∃ g : GenesisState, ∀ s : State Sample, (InitGenesis g s).1 = Panic.
Proof.
  destruct (simulated_genesis_panics (R := Z) (W := Sample) 7) as (g & r' & _ & _ & Hp); [done|].
  exists g. exact Hp.
Defined.

(** Two accounts; every decimal has the same text. *)
#[export] Instance sample_sim_accounts : SimAccounts Z := {|
  RandomAcc accs r := (or_panic (accs !! Z.to_nat r), r);
  RandomDecAmount _ r := (Ok 0, r);
  FindAccount accs a := if decide (a ∈ accs) then Some a else None;
  dec_String _ := "25.710000000000000000"%string;
|}.
#[export] Instance sample_sim_accounts_laws : SimAccountsLaws Z.
Proof.
  intros accs r a r'. simpl. intros [= Ha <-]. destruct (accs !! Z.to_nat r) eqn:E; [|done].
  injection Ha as <-. by eapply list_elem_of_lookup_2.
Qed.

Definition sim_accs : list addr := ["y"%string; "x"%string].
Definition sim_rates : string := "DM:25.710000000000000000,USD:25.710000000000000000".
Definition sim_msg : omsg := OPrevote (NewMsgAggregateExchangeRatePrevote
  (GetAggregateVoteHash salt sim_rates "x") "x" "x").
Definition sim_hashes : gmap string string := <["vx"%string := sim_rates]> ∅.
Definition sim_reveal : State Sample :=
  set_BlockHeight (λ _, 25) (deliver sample_conf sim_msg (sample_state 12)).2.

Lemma DM_refused : refused DmSymbol.
Proof. by intros amount c. Qed.

(** The prevote of the native symbol's rate is accepted, its reveal is not. *)
Lemma simulated_reveals_refused_witness :
  (deliver sample_conf sim_msg (sample_state 12)).1 = Ok () ∧
  ∀ s', deliver sample_conf (OVote (NewMsgAggregateExchangeRateVote salt sim_rates "x" "x")) sim_reveal
    ≠ (Ok (), s').
Proof.
  split; [by vm_compute|]. intros s'.
  assert (plain_decimals (R := Z)) as Hdec by (intros x; by vm_compute).
  refine (proj2 (simulated_reveals_refused sample_conf sim_reveal sim_accs Hdec DM_refused) 1 sim_hashes
    (Some "x"%string) _ (1, sim_hashes) s' _ _).
  - refine (proj1 (simulated_reveals_refused sample_conf (sample_state 12) sim_accs Hdec DM_refused) 1 ∅
      (Ok (Deliver (Some "x"%string) sim_msg)) 1 sim_hashes _ _); [by vm_compute|].
    intros v rates Hl. by apply lookup_empty_Some in Hl.
  - by vm_compute.
Defined.
