(* ===== verification/ApiTheorems.v ===== *)
(** * ApiTheorems: what the generated API promises to its users

    A client links the structs and the stubs of [src/api], a node the code
    under [src/x]: every struct of the API survives its own encoding and no
    input breaks its reader, both codes agree on the bytes of every message of
    a transaction, and a stub that reaches a node returns what its querier
    answered. *)
From S2P Require Import Prelude Util Dec Wire WireLemmas Pulsar PulsarLemmas ApiOracle ApiTx ApiQuery ApiMultisig ApiTwin Grpc GrpcOracle.
From S2P Require Import Types Params Store Bech32 Votes Msgs World State Subspace Keeper HistoricPrice Averages Rewards EndBlock Chain Genesis.
From S2P Require Import OracleProto GenesisProto TxProto Codec Query QueryProto QueryService OracleTwins.
From S2P Require Import Multisig MultisigProto MultisigService MultisigTwins WireSample ApiSample Sample.
Local Open Scope Z_scope.

(** ** Every message *)

Record ApiMessage := mkApiMessage {
  api_type : Type;
  api_type_methods :: ProtoMethods api_type;
  api_type_encode : api_type → bytes;
  api_type_ok : bool → api_type → Prop;
}.
Definition api_message (A : Type) `{ApiLaws A} : ApiMessage :=
  {| api_type := A; api_type_encode := api_encode; api_type_ok := api_ok |}.

Section messages.
Context `{PulsarRuntimeLaws} `{CosmosApiLaws}.

Definition oraclev1_messages : list ApiMessage := [
  api_message ApiOracle.RewardBand; api_message ApiOracle.Denom;
  api_message ApiOracle.PairAddressProvider; api_message ApiOracle.CurrencyPairProviders;
  api_message ApiOracle.CurrencyDeviationThreshold; api_message ApiOracle.Params;
  api_message ApiOracle.AggregateExchangeRatePrevote;
  api_message ApiOracle.AggregateExchangeRateVote; api_message ApiOracle.PriceStamp;
  api_message ApiOracle.ValidatorRewardSet; api_message ApiOracle.ParamUpdatePlan;
  api_message ApiOracle.OracleVoteExtension; api_message ApiOracle.InjectedVoteExtensionTx;
  api_message ApiOracle.EventDelegateFeedConsent; api_message ApiOracle.EventSetFxRate;
  api_message ApiOracle.FeederDelegation; api_message ApiOracle.MissCounter;
  api_message ApiOracle.GenesisState; api_message ApiOracle.Module; api_message ApiTx.MsgAggregateExchangeRatePrevote;
  api_message ApiTx.MsgAggregateExchangeRatePrevoteResponse;
  api_message ApiTx.MsgAggregateExchangeRateVote;
  api_message ApiTx.MsgAggregateExchangeRateVoteResponse;
  api_message ApiTx.MsgDelegateFeedConsent; api_message ApiTx.MsgDelegateFeedConsentResponse;
  api_message ApiTx.MsgLegacyGovUpdateParams; api_message ApiTx.MsgLegacyGovUpdateParamsResponse;
  api_message ApiTx.MsgGovUpdateParams; api_message ApiTx.MsgGovUpdateParamsResponse;
  api_message ApiTx.MsgGovAddDenoms; api_message ApiTx.MsgGovAddDenomsResponse;
  api_message ApiTx.MsgGovRemoveCurrencyPairProviders;
  api_message ApiTx.MsgGovRemoveCurrencyPairProvidersResponse;
  api_message ApiTx.MsgGovRemoveCurrencyDeviationThresholds;
  api_message ApiTx.MsgGovRemoveCurrencyDeviationThresholdsResponse;
  api_message ApiTx.MsgGovCancelUpdateParamPlan;
  api_message ApiTx.MsgGovCancelUpdateParamPlanResponse; api_message ApiQuery.QueryExchangeRates;
  api_message ApiQuery.QueryExchangeRatesResponse; api_message ApiQuery.QueryActiveExchangeRates;
  api_message ApiQuery.QueryActiveExchangeRatesResponse;
  api_message ApiQuery.QueryFeederDelegation; api_message ApiQuery.QueryFeederDelegationResponse;
  api_message ApiQuery.QueryMissCounter; api_message ApiQuery.QueryMissCounterResponse;
  api_message ApiQuery.QuerySlashWindow; api_message ApiQuery.QuerySlashWindowResponse;
  api_message ApiQuery.QueryAggregatePrevote; api_message ApiQuery.QueryAggregatePrevoteResponse;
  api_message ApiQuery.QueryAggregatePrevotes;
  api_message ApiQuery.QueryAggregatePrevotesResponse; api_message ApiQuery.QueryAggregateVote;
  api_message ApiQuery.QueryAggregateVoteResponse; api_message ApiQuery.QueryAggregateVotes;
  api_message ApiQuery.QueryAggregateVotesResponse; api_message ApiQuery.QueryParams;
  api_message ApiQuery.QueryParamsResponse; api_message ApiQuery.QueryMedians;
  api_message ApiQuery.QueryMediansResponse; api_message ApiQuery.QueryMedianDeviations;
  api_message ApiQuery.QueryMedianDeviationsResponse;
  api_message ApiQuery.QueryValidatorRewardSet;
  api_message ApiQuery.QueryValidatorRewardSetResponse; api_message ApiQuery.QueryEMARequest;
  api_message ApiQuery.QueryEMAResponse; api_message ApiQuery.QueryWMARequest;
  api_message ApiQuery.QueryWMAResponse; api_message ApiQuery.QuerySMARequest;
  api_message ApiQuery.QuerySMAResponse].
Definition multisigv1_messages : list ApiMessage := [
  api_message ApiMultisig.Params; api_message ApiMultisig.GenesisState;
  api_message ApiMultisig.MultisigAccountDetails; api_message ApiMultisig.Proposal;
  api_message ApiMultisig.QueryParamsRequest; api_message ApiMultisig.QueryParamsResponse;
  api_message ApiMultisig.MsgUpdateParams; api_message ApiMultisig.MsgUpdateParamsResponse;
  api_message ApiMultisig.MsgCreateMultisigAccountParams;
  api_message ApiMultisig.MsgCreateMultisigAccountResponse;
  api_message ApiMultisig.MsgAddMultisigSignerParams;
  api_message ApiMultisig.MsgAddMultisigSignerResponse;
  api_message ApiMultisig.MsgCleanupMultisigAccountParams;
  api_message ApiMultisig.MsgCleanupMultisigAccountResponse;
  api_message ApiMultisig.MsgSetMultisigThresholdParams;
  api_message ApiMultisig.MsgSetMultisigThresholdResponse;
  api_message ApiMultisig.MsgInitializeMultisigProposalParams;
  api_message ApiMultisig.MsgInitializeMultisigResponse;
  api_message ApiMultisig.MsgApproveMultisigProposalParams;
  api_message ApiMultisig.MsgApproveMultisigProposalResponse;
  api_message ApiMultisig.MsgApproveAndDispatchMultisigProposalParams;
  api_message ApiMultisig.MsgApproveAndDispatchMultisigProposalResponse;
  api_message ApiMultisig.MsgCancelMultisigProposalParams;
  api_message ApiMultisig.MsgCancelMultisigProposalResponse;
  api_message ApiMultisig.MsgCleanupMultisigProposalParams;
  api_message ApiMultisig.MsgCleanupMultisigProposalResponse; api_message ApiMultisig.Module].

Definition codec_ok (T : ApiMessage) : Prop := ∀ (x : api_type T) discard,
  (len (api_type_encode T x) < 2 ^ 63 →
   api_size (Some x) = len (api_type_encode T x) ∧
   (∀ Buf, api_marshal (Some x) Buf = Ok (Some (default [] Buf ++ api_type_encode T x))) ∧
   (api_type_ok T discard x →
    api_unmarshal discard (Some api_new) (api_type_encode T x) = Ok (Some x))) ∧
  (∀ bz, len bz < 2 ^ 63 → api_unmarshal discard (Some x) bz ≠ Panic).

Lemma api_message_codec (A : Type) `{ApiLaws A} : codec_ok (api_message A).
Proof.
  intros x discard. split; [|intros bz; apply api_unmarshal_total]. intros Hl. cbn in *.
  split_and!; [by apply api_size_encode|intros; by apply api_marshal_encode|].
  intros Hok. by apply api_unmarshal_encode.
Qed.

(** C28: for each of the 96 structs of the generated API, [size] is the length of
    one encoding and [marshal] appends it to the buffer it is given, when that
    length is one a slice can have.  [unmarshal] of the encoding into a new
    struct gives the struct back when it holds what an encoding can carry: its
    integers are in the range of their types, its lists of messages hold no nil
    pointer, the embedded messages are such structs too, and its unknown bytes
    are fields with numbers the struct does not know, or there are none under
    [DiscardUnknown], which would drop them.  No bytes, read into any struct,
    make [unmarshal] panic: every index and slice expression of the decoder
    stays inside the slice. *)
Theorem api_messages_survive T :
  In T (oraclev1_messages ++ multisigv1_messages) → codec_ok T.
Proof.
  revert T. apply List.Forall_forall. unfold oraclev1_messages, multisigv1_messages.
  cbn [app]. repeat (constructor; [apply api_message_codec|]). constructor.
Qed.
End messages.

(** ** Transactions *)

Section transactions.
Context `{DecCodecLaws, !DecText} `{ProtoLaws DecCoin} `{CoinNil} `{ProtoLaws Any}.
Context `{PulsarRuntimeLaws} `{CosmosApiLaws}.
Context `{!ApiTwin DecCoin v1beta1_DecCoin} `{!ApiTwin Any anypb_Any}.

(** The API writes the bytes of a message, and reads them. *)
Definition api_agrees {A B} `{ApiTwin A B} (m : A) (bz : bytes) : Prop :=
  api_marshal (Some (to_api m)) None = Ok (Some bz) ∧
  ∀ discard, api_unmarshal discard (Some api_new) bz = Ok (Some (to_api m)).

Definition omsg_agrees (m : omsg) (bz : bytes) : Prop :=
  match m with
  | OPrevote m => api_agrees m bz
  | OVote m => api_agrees m bz
  | ODelegate m => api_agrees m bz
  | OLegacyUpdate m => api_agrees m bz
  | OUpdate m => api_agrees m bz
  | OAddDenoms m => api_agrees m bz
  | ORemoveProviders m => api_agrees m bz
  | ORemoveThresholds m => api_agrees m bz
  | OCancel m => api_agrees m bz
  end.
Definition mmsg_agrees (m : mmsg) (bz : bytes) : Prop :=
  match m with
  | MUpdate m => api_agrees m bz
  | MCreate m => api_agrees m bz
  | MAddSigner m => api_agrees m bz
  | MInitialize m => api_agrees m bz
  | MApprove m => api_agrees m bz
  | MDispatch m => api_agrees m bz
  | MCleanupAccount m => api_agrees m bz
  | MSetThreshold m => api_agrees m bz
  | MCancel m => api_agrees m bz
  | MCleanupProposal m => api_agrees m bz
  end.

Lemma twin_agrees {A B} `{ApiTwin A B} (m : A) bz :
  pb_ok m → pb_Marshal m = Ok bz → api_agrees m bz.
Proof. intros Hok Hm. split; [by apply twin_marshal|intros; by apply twin_unmarshal]. Qed.

(** C25: the two generated codes agree on every message of a transaction: for
    the nine messages of the oracle and the ten of the multisig module, the
    bytes that the node's code makes of a message are those that the API makes
    of the struct with the same contents; each side reads the bytes of the
    other, the node by the type that is registered under the name of the
    message. *)
Theorem generated_codes_agree (m : omsg) (mm : mmsg) bz :
  (omsg_ok m → omsg_Marshal m = Ok bz →
   omsg_agrees m bz ∧ omsg_Unmarshal (type_name m) bz = Ok m) ∧
  (mmsg_ok mm → mmsg_Marshal mm = Ok bz →
   mmsg_agrees mm bz ∧ mmsg_Unmarshal (mtype_name mm) bz = Ok mm).
Proof.
  split; intros Hok Hm; split.
  - destruct m; by apply twin_agrees.
  - rewrite (proj2 (omsg_Marshal_encode m)), (proj1 (omsg_Marshal_encode m)) in Hm.
    destruct (Z.leb_spec (2 ^ 63) (len (omsg_encode m))); [done|]. injection Hm as <-.
    by apply omsg_Unmarshal_encode.
  - destruct mm; by apply twin_agrees.
  - rewrite mmsg_Marshal_encode in Hm.
    destruct (Z.leb_spec (2 ^ 63) (len (mmsg_encode mm))); [done|]. injection Hm as <-.
    by apply mmsg_Unmarshal_encode.
Qed.
End transactions.

(** ** Queries *)

Section queries.
Context {W : Type} `{DecOps, Bech32, CoinOps, !CoinsOps, !CoinsList, StakingKeeper W}.
Context `{DecCodecLaws, !DecText} `{ProtoLaws DecCoin} `{!CoinNil}.
Context `{PulsarRuntimeLaws} `{CosmosApiLaws} `{!ApiTwin DecCoin v1beta1_DecCoin}.
Context `{!ClientConn (State W)} `{!ServedBy "oracle.v1.Query" serve}.
Implicit Types s : State W.

(** The stub of the method of a query returns the answer. *)
Definition stub_returns (q : oquery) (a : oanswer) s : Prop :=
  match q, a with
  | QExchangeRates q, AExchangeRates a =>
      queryClient_ExchangeRates (Some (to_api q)) s = (Ok (to_api a), s)
  | QActiveExchangeRates q, AActiveExchangeRates a =>
      queryClient_ActiveExchangeRates (Some (to_api q)) s = (Ok (to_api a), s)
  | QFeederDelegation q, AFeederDelegation a =>
      queryClient_FeederDelegation (Some (to_api q)) s = (Ok (to_api a), s)
  | QMissCounter q, AMissCounter a =>
      queryClient_MissCounter (Some (to_api q)) s = (Ok (to_api a), s)
  | QSlashWindow q, ASlashWindow a =>
      queryClient_SlashWindow (Some (to_api q)) s = (Ok (to_api a), s)
  | QAggregatePrevote q, AAggregatePrevote a =>
      queryClient_AggregatePrevote (Some (to_api q)) s = (Ok (to_api a), s)
  | QAggregatePrevotes q, AAggregatePrevotes a =>
      queryClient_AggregatePrevotes (Some (to_api q)) s = (Ok (to_api a), s)
  | QAggregateVote q, AAggregateVote a =>
      queryClient_AggregateVote (Some (to_api q)) s = (Ok (to_api a), s)
  | QAggregateVotes q, AAggregateVotes a =>
      queryClient_AggregateVotes (Some (to_api q)) s = (Ok (to_api a), s)
  | QParams q, AParams a => queryClient_Params (Some (to_api q)) s = (Ok (to_api a), s)
  | QMedians q, AMedians a => queryClient_Medians (Some (to_api q)) s = (Ok (to_api a), s)
  | QMedianDeviations q, AMedianDeviations a =>
      queryClient_MedianDeviations (Some (to_api q)) s = (Ok (to_api a), s)
  | QValidatorRewardSet q, AValidatorRewardSet a =>
      queryClient_ValidatorRewardSet (Some (to_api q)) s = (Ok (to_api a), s)
  | QEMA q, AEMA a => queryClient_EMA (Some (to_api q)) s = (Ok (to_api a), s)
  | QWMA q, AWMA a => queryClient_WMA (Some (to_api q)) s = (Ok (to_api a), s)
  | QSMA q, ASMA a => queryClient_SMA (Some (to_api q)) s = (Ok (to_api a), s)
  | _, _ => False
  end.

(** C26: a client that links the generated API and reaches a node gets what the
    querier answers: for each of the sixteen methods, the stub marshals the
    request, the node decodes it, runs the querier and encodes the answer, and
    the struct that the stub returns has the contents of that answer, without
    any change to the state. *)
Theorem client_gets_answer q s a :
  query_ok q → len (query_encode q) < 2 ^ 63 → (answer q s).1 = Ok a →
  answer_ok a → len (answer_encode a) < 2 ^ 63 → stub_returns q a s.
Proof.
  intros Hq Hql Ha Hok Hal.
  assert (answer q s = (Ok a, s)) as Hans.
  { destruct (answer q s) as [r s'] eqn:E. simpl in Ha. subst r. by pose proof E as <-%answer_reads. }
  assert (serve (query_method q) (query_encode q) s = (Ok (answer_encode a), s)) as Hs.
  { unfold serve, lift. rewrite query_Unmarshal_encode by done. unfold mbind, M_bind.
    by rewrite Hans, answer_Marshal_encode, (proj2 (Z.leb_gt _ _)). }
  pose proof (answer_of_method _ _ _ _ Hans) as Hm.
  destruct q; destruct a; try discriminate Hm;
    by apply (client_method_twin (service := "oracle.v1.Query") (transport := serve)).
Qed.
End queries.

(** ** Witnesses *)

(** A message with a field 9 that the struct does not know. *)
Definition newer_consent : ApiTx.MsgDelegateFeedConsent :=
  ApiTx.mkMsgDelegateFeedConsent "x" "y" (map to_byte [72; 1]).

Lemma newer_consent_ok : ApiTx.MsgDelegateFeedConsent_ok false newer_consent.
Proof.
  change (unknown_fields (ApiTx.MsgDelegateFeedConsent_field false)
    ((varint (8 * 9) ++ varint 1) ++ [])).
  apply (unknown_cons _ 9); [|by constructor|done|constructor]. unfold is_field_number. lia.
Defined.

Lemma api_messages_survive_witness :
  In (api_message ApiTx.MsgDelegateFeedConsent) (oraclev1_messages ++ multisigv1_messages) ∧
  api_unmarshal false (Some api_new) (map to_byte [10; 1; 120; 18; 1; 121; 72; 1]) =
    Ok (Some newer_consent).
Proof.
  assert (In (api_message ApiTx.MsgDelegateFeedConsent) (oraclev1_messages ++ multisigv1_messages))
    as Hin.
  { cbn [app oraclev1_messages multisigv1_messages]. repeat first [left; reflexivity | right]. }
  split; [done|].
  destruct (api_messages_survive _ Hin newer_consent false) as [Hc _].
  destruct Hc as (_ & _ & Hr); [by vm_compute|]. exact (Hr newer_consent_ok).
Defined.

Definition consent : MsgDelegateFeedConsent := mkMsgDelegate "x" "y".

Lemma generated_codes_agree_witness :
  omsg_agrees (ODelegate consent) (map to_byte [10; 1; 120; 18; 1; 121]).
Proof.
  refine (proj1 (proj1 (generated_codes_agree (ODelegate consent)
    (MSetThreshold (mkMsgSetThreshold "m" 3)) _) _ _)); [exact I|by vm_compute].
Defined.

(** A connection to a node: the name of the method follows the service's. *)
#[local] Instance sample_coins_list : CoinsList := id.
#[local] Instance node_connection : ClientConn (State Sample) := λ In Out _ _ full in_ out,
  req ← lift (options_Marshal api_marshal in_);
  reply ← serve (String.string_of_list_ascii (drop 17 (String.list_ascii_of_string full))) req;
  lift (options_Unmarshal _ false reply out).
#[local] Instance node_served : ServedBy "oracle.v1.Query" serve.
Proof.
  constructor. intros In Out HI HO method in_ s. unfold cc_Invoke, node_connection.
  assert (String.string_of_list_ascii (drop 17 (String.list_ascii_of_string
    (full_method "oracle.v1.Query" method))) = method) as ->; [|done].
  cbn. apply String.string_of_list_ascii_of_string.
Qed.

Lemma client_gets_answer_witness :
  queryClient_SlashWindow (Some (ApiQuery.mkQuerySlashWindow [])) (sample_state 25) =
    (Ok (ApiQuery.mkQuerySlashWindowResponse 2 []), sample_state 25).
Proof.
  refine (client_gets_answer (QSlashWindow mkQuerySlashWindow) (sample_state 25)
    (ASlashWindow (mkQuerySlashWindowResponse 2)) _ _ _ _ _).
  - exact I.
  - by vm_compute.
  - by vm_compute.
  - hnf. split; vm_compute; congruence.
  - by vm_compute.
Defined.
