(* ===== verification/ReflectTheorems.v ===== *)
(** * ReflectTheorems: what the reflection of the generated API promises

    The protobuf library reads and writes the structs of [src/api] through
    [protoreflect].  The theorem says, for each of the 96 structs, that these
    methods describe the struct that the closures [size] and [marshal] encode:
    a copy and an encoding made through them are the message and its bytes. *)
From S2P Require Import Prelude Util Wire WireLemmas Pulsar PulsarLemmas Reflect ReflectLemmas ApiOracle ApiTx ApiQuery ApiMultisig ReflectOracle ReflectTx ReflectQuery ReflectMultisig.
From S2P Require Import WireSample ApiSample ReflectSample.
Local Open Scope Z_scope.

Record ReflectedMessage `{ProtoReflect} := mkReflectedMessage {
  rm_type : Type;
  rm_methods :: ProtoMethods rm_type;
  rm_laws :: ApiLaws rm_type;
  rm_reflect :: MessageReflect rm_type;
  rm_table :: ReflectTable rm_type;
}.
Definition reflected (X : Type) `{ReflectTable X} : ReflectedMessage := {| rm_type := X |}.

Section messages.
Context `{PulsarRuntimeLaws} `{CosmosApiLaws} `{ProtoReflectLaws}.
Context `{!OracleValues, !TxValues, !QueryValues, !MultisigValues}.
Context `{!OracleValuesLaws, !TxValuesLaws, !QueryValuesLaws, !MultisigValuesLaws}.

Definition oracle_reflected : list ReflectedMessage := [
  reflected ApiOracle.RewardBand; reflected ApiOracle.Denom;
  reflected ApiOracle.PairAddressProvider; reflected ApiOracle.CurrencyPairProviders;
  reflected ApiOracle.CurrencyDeviationThreshold; reflected ApiOracle.Params;
  reflected ApiOracle.AggregateExchangeRatePrevote; reflected ApiOracle.AggregateExchangeRateVote;
  reflected ApiOracle.PriceStamp; reflected ApiOracle.ValidatorRewardSet;
  reflected ApiOracle.ParamUpdatePlan; reflected ApiOracle.OracleVoteExtension;
  reflected ApiOracle.InjectedVoteExtensionTx; reflected ApiOracle.EventDelegateFeedConsent;
  reflected ApiOracle.EventSetFxRate; reflected ApiOracle.FeederDelegation;
  reflected ApiOracle.MissCounter; reflected ApiOracle.GenesisState; reflected ApiOracle.Module;
  reflected ApiTx.MsgAggregateExchangeRatePrevote;
  reflected ApiTx.MsgAggregateExchangeRatePrevoteResponse;
  reflected ApiTx.MsgAggregateExchangeRateVote;
  reflected ApiTx.MsgAggregateExchangeRateVoteResponse; reflected ApiTx.MsgDelegateFeedConsent;
  reflected ApiTx.MsgDelegateFeedConsentResponse; reflected ApiTx.MsgLegacyGovUpdateParams;
  reflected ApiTx.MsgLegacyGovUpdateParamsResponse; reflected ApiTx.MsgGovUpdateParams;
  reflected ApiTx.MsgGovUpdateParamsResponse; reflected ApiTx.MsgGovAddDenoms;
  reflected ApiTx.MsgGovAddDenomsResponse; reflected ApiTx.MsgGovRemoveCurrencyPairProviders;
  reflected ApiTx.MsgGovRemoveCurrencyPairProvidersResponse;
  reflected ApiTx.MsgGovRemoveCurrencyDeviationThresholds;
  reflected ApiTx.MsgGovRemoveCurrencyDeviationThresholdsResponse;
  reflected ApiTx.MsgGovCancelUpdateParamPlan; reflected ApiTx.MsgGovCancelUpdateParamPlanResponse;
  reflected ApiQuery.QueryExchangeRates; reflected ApiQuery.QueryExchangeRatesResponse;
  reflected ApiQuery.QueryActiveExchangeRates; reflected ApiQuery.QueryActiveExchangeRatesResponse;
  reflected ApiQuery.QueryFeederDelegation; reflected ApiQuery.QueryFeederDelegationResponse;
  reflected ApiQuery.QueryMissCounter; reflected ApiQuery.QueryMissCounterResponse;
  reflected ApiQuery.QuerySlashWindow; reflected ApiQuery.QuerySlashWindowResponse;
  reflected ApiQuery.QueryAggregatePrevote; reflected ApiQuery.QueryAggregatePrevoteResponse;
  reflected ApiQuery.QueryAggregatePrevotes; reflected ApiQuery.QueryAggregatePrevotesResponse;
  reflected ApiQuery.QueryAggregateVote; reflected ApiQuery.QueryAggregateVoteResponse;
  reflected ApiQuery.QueryAggregateVotes; reflected ApiQuery.QueryAggregateVotesResponse;
  reflected ApiQuery.QueryParams; reflected ApiQuery.QueryParamsResponse;
  reflected ApiQuery.QueryMedians; reflected ApiQuery.QueryMediansResponse;
  reflected ApiQuery.QueryMedianDeviations; reflected ApiQuery.QueryMedianDeviationsResponse;
  reflected ApiQuery.QueryValidatorRewardSet; reflected ApiQuery.QueryValidatorRewardSetResponse;
  reflected ApiQuery.QueryEMARequest; reflected ApiQuery.QueryEMAResponse;
  reflected ApiQuery.QueryWMARequest; reflected ApiQuery.QueryWMAResponse;
  reflected ApiQuery.QuerySMARequest; reflected ApiQuery.QuerySMAResponse].
Definition multisig_reflected : list ReflectedMessage := [
  reflected ApiMultisig.Params; reflected ApiMultisig.GenesisState;
  reflected ApiMultisig.MultisigAccountDetails; reflected ApiMultisig.Proposal;
  reflected ApiMultisig.QueryParamsRequest; reflected ApiMultisig.QueryParamsResponse;
  reflected ApiMultisig.MsgUpdateParams; reflected ApiMultisig.MsgUpdateParamsResponse;
  reflected ApiMultisig.MsgCreateMultisigAccountParams;
  reflected ApiMultisig.MsgCreateMultisigAccountResponse;
  reflected ApiMultisig.MsgAddMultisigSignerParams;
  reflected ApiMultisig.MsgAddMultisigSignerResponse;
  reflected ApiMultisig.MsgCleanupMultisigAccountParams;
  reflected ApiMultisig.MsgCleanupMultisigAccountResponse;
  reflected ApiMultisig.MsgSetMultisigThresholdParams;
  reflected ApiMultisig.MsgSetMultisigThresholdResponse;
  reflected ApiMultisig.MsgInitializeMultisigProposalParams;
  reflected ApiMultisig.MsgInitializeMultisigResponse;
  reflected ApiMultisig.MsgApproveMultisigProposalParams;
  reflected ApiMultisig.MsgApproveMultisigProposalResponse;
  reflected ApiMultisig.MsgApproveAndDispatchMultisigProposalParams;
  reflected ApiMultisig.MsgApproveAndDispatchMultisigProposalResponse;
  reflected ApiMultisig.MsgCancelMultisigProposalParams;
  reflected ApiMultisig.MsgCancelMultisigProposalResponse;
  reflected ApiMultisig.MsgCleanupMultisigProposalParams;
  reflected ApiMultisig.MsgCleanupMultisigProposalResponse;
  reflected ApiMultisig.Module].

(** The contract of the methods of one struct. *)
Definition reflect_ok (T : ReflectedMessage) : Prop := ∀ (x : rm_type T),
  (fields_ok x → clone x = Ok x) ∧
  (∀ bz, len (api_encode x) < 2 ^ 63 → api_marshal (Some x) None = Ok (Some bz) →
    reflect_bytes x = Ok bz) ∧
  (∀ fd, fd ∈ Descriptor (X := rm_type T) → field_contract fd x) ∧
  (∀ fd v, FullName fd ∉ map FullName (Descriptor (X := rm_type T)) →
    Has (Some x) fd = Panic ∧ Clear (Some x) fd = Panic ∧ Get (Some x) fd = Panic ∧
    Set_ (Some x) fd v = Panic ∧ Mutable (Some x) fd = Panic ∧
    NewField (X := rm_type T) fd = Panic).

Lemma reflected_ok (X : Type) `{!MessageReflect X, !ProtoMethods X, !ApiLaws X, !ReflectTable X} :
  reflect_ok (reflected X).
Proof.
  intros x. cbn in *. split_and!.
  - apply clone_spec.
  - intros bz Hl. rewrite (api_marshal_encode x None) by done. intros [= <-].
    by apply reflect_bytes_spec.
  - intros fd Hfd. rewrite table_descriptor in Hfd. apply list_elem_of_fmap in Hfd as (s & -> & Hs). by apply field_contract_spec.
  - intros fd v. apply foreign_field.
Qed.

(** C29: for each of the 96 structs of the generated API the reflection methods
    agree with the struct and its closures.  When the fields of 32-bit types
    hold numbers of 32 bits, a new message into which the populated fields that
    [Range] visits are written with [Set], and the unknown fields with
    [SetUnknown], is the message itself; writing these fields one after the
    other in the wire format of protobuf gives the bytes that the closure
    [marshal] gives, when they fit into a slice.  [Set], [Clear] and [Mutable]
    of a field leave every other field alone; [Clear] makes it read as in a new
    message; [NewField] is the zero value of a scalar, an empty list, which
    [Set] to is [Clear], or an empty message; [Mutable] panics on a scalar, and
    gives the value that [Get] gives of a populated list or message, whose
    struct it leaves unchanged, and [NewField] otherwise, already set in the
    struct.  A descriptor of another message makes every method panic. *)
Theorem reflection_agrees T : In T (oracle_reflected ++ multisig_reflected) → reflect_ok T.
Proof.
  revert T. apply List.Forall_forall. unfold oracle_reflected, multisig_reflected.
  cbn [app]. repeat (apply List.Forall_cons; [apply reflected_ok|]). apply List.Forall_nil.
Qed.
End messages.

(** ** A message *)

(** A threshold of two pairs, with a field of a later version. *)
Definition sample_pair : ApiOracle.CurrencyPairProviders :=
  ApiOracle.mkCurrencyPairProviders "ATOM" ""
    [Some (ApiOracle.mkPairAddressProvider "a" "b" []); None] ["kraken"%string; ""%string]
    (map to_byte [72; 1]).

Lemma reflection_agrees_witness :
  In (reflected ApiOracle.CurrencyPairProviders) (oracle_reflected ++ multisig_reflected) ∧
  clone sample_pair = Ok sample_pair ∧
  reflect_bytes sample_pair = Ok (map to_byte
    [10; 4; 65; 84; 79; 77; 26; 6; 10; 1; 97; 18; 1; 98; 26; 0; 34; 6; 107; 114; 97; 107; 101; 110;
     34; 0; 72; 1]).
Proof.
  assert (In (reflected ApiOracle.CurrencyPairProviders) (oracle_reflected ++ multisig_reflected))
    as Hin.
  { cbn [app oracle_reflected multisig_reflected]. repeat first [left; reflexivity | right]. }
  split; [done|]. destruct (reflection_agrees _ Hin sample_pair) as (Hclone & Hbytes & _ & _).
  split; [apply Hclone; repeat constructor|]. apply Hbytes; by vm_compute.
Defined.
