(* ===== verification/GatewayTheorems.v ===== *)
(** * GatewayTheorems: what the gateway answers

    The paths that [query.proto] documents, the multiplexer of both modules,
    and the theorem that a request of a path is answered as the querier answers
    the query it spells; with a small runtime on which its witness evaluates. *)
From S2P Require Import Prelude Util GoStrings Dec Types Params Store Bech32 Votes World State.
From S2P Require Import Subspace Keeper HistoricPrice Averages Rewards Wire WireLemmas OracleProto.
From S2P Require Import WireSample Query QueryProto QueryService Multisig MultisigProto Gateway Sample.
Local Open Scope Z_scope.

(** ** The documented paths *)

Definition query_path (q : oquery) : list string :=
  match q with
  | QExchangeRates r => ["oracle"; "v1"; "denoms"; "exchange_rates"; QueryExchangeRates_Denom r]
  | QActiveExchangeRates _ => ["oracle"; "v1"; "denoms"; "active_exchange_rates"]
  | QFeederDelegation r =>
      ["oracle"; "v1"; "validators"; QueryFeederDelegation_ValidatorAddr r; "feeder"]
  | QMissCounter r => ["oracle"; "v1"; "validators"; QueryMissCounter_ValidatorAddr r; "miss"]
  | QSlashWindow _ => ["oracle"; "v1"; "slash_window"]
  | QAggregatePrevote r =>
      ["oracle"; "v1"; "validators"; QueryAggregatePrevote_ValidatorAddr r; "aggregate_prevote"]
  | QAggregatePrevotes _ => ["oracle"; "v1"; "validators"; "aggregate_prevotes"]
  | QAggregateVote r =>
      ["oracle"; "v1"; "valdiators"; QueryAggregateVote_ValidatorAddr r; "aggregate_vote"]
  | QAggregateVotes _ => ["oracle"; "v1"; "validators"; "aggregate_votes"]
  | QParams _ => ["oracle"; "v1"; "params"]
  | QMedians _ => ["historacle"; "v1"; "denoms"; "medians"]
  | QMedianDeviations _ => ["historacle"; "v1"; "denoms"; "median_deviations"]
  | QValidatorRewardSet _ => ["oracle"; "v1"; "valdiators"; "validator_reward_set"]
  | QEMA r => ["oracle"; "v1"; "ema"; QueryEMARequest_Denom r]
  | QWMA r => ["oracle"; "v1"; "wma"; qw_Denom r; qw_Strategy r]
  | QSMA r => ["oracle"; "v1"; "sma"; QuerySMARequest_Denom r]
  end%string.

(** The parameters that do not come from the path, where a request has some. *)
Definition query_form (q : oquery) : option (list (string * form_value)) :=
  match q with
  | QMedians r =>
      Some [("denom", ValueString (qm_Denom r)); ("num_stamps", ValueUint32 (qm_NumStamps r))]
  | QMedianDeviations r => Some [("denom", ValueString (QueryMedianDeviations_Denom r))]
  | QWMA r =>
      Some (match qw_CustomWeights r with
            | [] => []
            | l => [("custom_weights", ValueInt64s l)]
            end)
  | _ => None
  end%string.

(** A GET request of the path of a query, with its form in any order. *)
Definition asks (q : oquery) (req : http_Request) : Prop :=
  http_Method req = "GET"%string ∧ http_Path req = path_of (query_path q) ∧
  Forall path_component (query_path q) ∧
  match query_form q with
  | None => True
  | Some vals =>
      Forall (λ v, value_ok v.2) vals ∧
      ∃ form, http_ParseForm req = Ok form ∧ form ≡ₚ form_texts vals
  end.

(** What the gateway makes of the result of a query. *)
Definition http_result (r : outcome oanswer) : outcome (http_Reply gateway_msg) :=
  match r with
  | Ok a => Ok (ForwardResponseMessage (OracleAnswer a))
  | Err e => Ok (HTTPError e)
  | Panic => Panic
  end.

(** ** Routing *)

Section routing.
Context `{GatewayLaws}.

Definition matches_template (pattern : outcome Pattern) (t : list segment) : Prop :=
  ∃ p, pattern = Ok p ∧ ∀ comps, Forall path_component comps → Match p comps = segments_match t comps.

Lemma MustPattern_template ops pool t :
  template ops pool = Some t → matches_template (MustPattern 1 ops pool "" false) t.
Proof.
  intros (p & Hp & Hm)%NewPattern_template. exists p. split; [|done].
  unfold MustPattern. by rewrite Hp.
Qed.

(** The handlers of a table of templates that a path matches. *)
Definition choose {A} (table : list (list segment * A)) (comps : list string) :
    list (A * path_params) :=
  omap (λ r, (r.2,.) <$> segments_match r.1 comps) table.

Lemma matching_app {A} (regs regs' : list (string * Pattern * A)) method comps :
  matching (regs ++ regs') method comps = matching regs method comps ++ matching regs' method comps.
Proof. apply omap_app. Qed.

Lemma register_matching {S A} wrap annotate (routes : list (_ * (_ → _ → M S A))) ts regs0 :
  Forall2 (λ r t, matches_template r.1 t) routes ts →
  ∃ regs, register wrap annotate routes (registered regs0) = Ok (registered (regs0 ++ regs)) ∧
    ∀ comps, Forall path_component comps →
      matching regs "GET" comps =
      choose (zip ts (map (λ r, handler wrap annotate r.2) routes)) comps.
Proof.
  intros Hts. revert regs0.
  induction Hts as [|[pattern request] t routes ts (p & Hp & Hm) _ IH]; intros regs0.
  - exists []. by rewrite app_nil_r.
  - set (entry := ("GET"%string, p, handler wrap annotate request)).
    destruct (IH (regs0 ++ [entry])) as (regs & Hr & Hc).
    exists (entry :: regs). simpl in Hp. subst pattern. split.
    + rewrite cons_middle, (assoc_L (++)), <- Hr.
      unfold register. cbn [foldM mbind outcome_bind]. unfold registered.
      by rewrite foldl_app.
    + intros comps Hok. unfold matching, choose in *. cbn [omap list_omap map zip zip_with].
      rewrite Hc by done. unfold entry. cbn [fst snd String.eqb]. rewrite Hm by done. done.
Qed.
End routing.

(** The templates of [query.proto], in the order of the registration. *)
Definition oracle_templates : list (list segment) :=
  let v1 := [Literal "oracle"; Literal "v1"] in
  let of_validator (directory method : string) :=
    v1 ++ [Literal directory; Variable_ "validator_addr"; Literal method] in [
  v1 ++ [Literal "denoms"; Literal "exchange_rates"; Variable_ "denom"];
  v1 ++ [Literal "denoms"; Literal "active_exchange_rates"];
  of_validator "validators" "feeder";
  of_validator "validators" "miss";
  v1 ++ [Literal "slash_window"];
  of_validator "validators" "aggregate_prevote";
  v1 ++ [Literal "validators"; Literal "aggregate_prevotes"];
  of_validator "valdiators" "aggregate_vote";
  v1 ++ [Literal "validators"; Literal "aggregate_votes"];
  v1 ++ [Literal "params"];
  [Literal "historacle"; Literal "v1"; Literal "denoms"; Literal "medians"];
  [Literal "historacle"; Literal "v1"; Literal "denoms"; Literal "median_deviations"];
  v1 ++ [Literal "valdiators"; Literal "validator_reward_set"];
  v1 ++ [Literal "ema"; Variable_ "denom"];
  v1 ++ [Literal "wma"; Variable_ "denom"; Variable_ "strategy"];
  v1 ++ [Literal "sma"; Variable_ "denom"]].

Definition multisig_template : list segment :=
  [Literal "multisig"; Literal "v1"; Literal "params"].

Lemma segments_match_length t comps :
  length t ≠ length comps → segments_match t comps = None.
Proof.
  revert comps. induction t as [|[s|x] t IH]; intros [|c comps] Hl; cbn in *; try done.
  - rewrite IH by lia. by destruct (String.eqb s c).
  - by rewrite IH by lia.
Qed.

Lemma choose_skip {A} t (a : A) table comps :
  segments_match t comps = None → choose ((t, a) :: table) comps = choose table comps.
Proof. intros Ht. unfold choose. cbn [omap list_omap fst snd]. by rewrite Ht. Qed.

Lemma choose_take {A} t (a : A) table comps params l :
  segments_match t comps = Some params → choose table comps = l →
  choose ((t, a) :: table) comps = (a, params) :: l.
Proof. intros Ht Hl. unfold choose. cbn [omap list_omap fst snd]. rewrite Ht. by f_equal. Qed.

(** A path against a table of templates. *)
Ltac no_match := first [by apply segments_match_length|reflexivity].
Ltac route_tac :=
  repeat first [rewrite choose_skip by no_match|eapply choose_take; [reflexivity|]]; reflexivity.

Section requests.
Context `{GatewayLaws} {S : Type}.
Context (call : oquery → M S oanswer).

Lemma oracle_routes_templates :
  Forall2 (λ r t, matches_template r.1 t) (oracle_routes call) oracle_templates.
Proof. repeat constructor; apply MustPattern_template; reflexivity. Qed.

Lemma path_param_found name (params : path_params) v :
  params !! name = Some v → path_param name params = Ok v.
Proof. intros Hv. unfold path_param. by rewrite Hv, runtime_String_id. Qed.

Lemma with_path {A} name (params : path_params) v (f : string → M S A) s :
  params !! name = Some v → (x ← lift (path_param name params); f x) s = f v s.
Proof. intros Hv. unfold lift, mbind, M_bind. by rewrite (path_param_found _ _ v). Qed.

Lemma with_form {A B} (m : outcome A) a (f : A → M S B) s :
  m = Ok a → (x ← lift m; f x) s = f a s.
Proof. by intros ->. Qed.

Lemma form_params_ok {A} (fields : form_fields A) m req filter form vals m' :
  http_ParseForm req = Ok form → form ≡ₚ form_texts vals → NoDup vals.*1 →
  Forall (λ v, plain_name v.1 ∧ value_ok v.2) vals →
  Forall (λ v, HasCommonPrefix filter [v.1] = false) vals →
  (∀ vals', vals' ≡ₚ vals → set_values fields vals' m = Some m') →
  form_params fields m req filter = Ok m'.
Proof.
  intros Hf Hp Hnd Hok Hfilter Hset. unfold form_params. rewrite Hf.
  apply Permutation_map_inv in Hp as (vals' & -> & Hv).
  rewrite (PopulateQueryParameters_values _ _ vals' _ m'); [done|..].
  - by rewrite <- Hv.
  - by rewrite <- Hv.
  - by rewrite <- Hv.
  - by apply Hset.
Qed.

Lemma medians_params r req :
  asks (QMedians r) req →
  form_params QueryMedians_fields (mkQueryMedians "" 0) req filter_Query_Medians_0 = Ok r.
Proof.
  intros (_ & _ & _ & Hv & form & Hf & Hp). destruct r as [denom n]. cbn in Hv, Hp.
  apply Forall_cons in Hv as [_ [Hn _]%Forall_cons].
  apply (form_params_ok _ _ _ _ form
    [("denom", ValueString denom); ("num_stamps", ValueUint32 n)]%string); [done..| | | |].
  - repeat constructor; set_solver.
  - repeat constructor; apply Hn.
  - repeat constructor; apply HasCommonPrefix_empty.
  - intros vals' Hperm. symmetry in Hperm.
    by apply Permutation_length_2_inv in Hperm as [->| ->].
Qed.

Lemma deviations_params r req :
  asks (QMedianDeviations r) req →
  form_params QueryMedianDeviations_fields (mkQueryMedianDeviations "") req
    filter_Query_MedianDeviations_0 = Ok r.
Proof.
  intros (_ & _ & _ & _ & form & Hf & Hp). destruct r as [denom]. cbn in Hp.
  apply (form_params_ok _ _ _ _ form [("denom", ValueString denom)]%string); [done..| | | |].
  - repeat constructor; set_solver.
  - repeat constructor.
  - repeat constructor; apply HasCommonPrefix_empty.
  - intros vals' Hperm. symmetry in Hperm. by apply Permutation_length_1_inv in Hperm as ->.
Qed.

Lemma wma_params r req :
  asks (QWMA r) req →
  form_params QueryWMARequest_fields (mkQueryWMA (qw_Denom r) (qw_Strategy r) []) req
    filter_Query_WMA_0 = Ok r.
Proof.
  intros (_ & _ & _ & Hv & form & Hf & Hp). destruct r as [denom strategy weights]. cbn in Hv, Hp.
  destruct weights as [|w weights].
  - apply (form_params_ok _ _ _ _ form []); [done..| | | |]; try by constructor.
    intros vals' Hperm. by apply Permutation_nil_r in Hperm as ->.
  - apply Forall_cons in Hv as [Hw _].
    apply (form_params_ok _ _ _ _ form [("custom_weights", ValueInt64s (w :: weights))]%string);
      [done..| | | |].
    + repeat constructor; set_solver.
    + constructor; [|constructor]. split; [done|exact Hw].
    + constructor; [|constructor]. unfold filter_Query_WMA_0. by rewrite HasCommonPrefix_two.
    + intros vals' Hperm. symmetry in Hperm. by apply Permutation_length_1_inv in Hperm as ->.
Qed.

(** The only route of the oracle that the path of a query matches calls the
    method of the query with that query. *)
Lemma choose_query annotate q req :
  asks q req →
  ∃ request params,
    choose (zip oracle_templates
              (map (λ r, handler OracleAnswer annotate r.2) (oracle_routes call))) (query_path q) =
      [(handler OracleAnswer annotate request, params)] ∧
    ∀ s, request req params s = call q s.
Proof.
  intros Hq.
  destruct q as [r|r|r|r|r|r|r|r|r|r|r|r|r|r|r|r]; eexists _, _;
    (split; [cbn [oracle_routes oracle_templates map zip zip_with fst snd]; route_tac|]); intros s.
  all: try by destruct r.
  all: try by (etrans; [apply with_path; by simpl_map|by destruct r]).
  - unfold request_Query_Medians_0. by rewrite (with_form _ r) by by apply medians_params.
  - unfold request_Query_MedianDeviations_0. by rewrite (with_form _ r) by by apply deviations_params.
  - unfold request_Query_WMA_0. rewrite !(with_path _ _ (qw_Denom r)) by by simpl_map.
    rewrite (with_path _ _ (qw_Strategy r)) by by simpl_map.
    by rewrite (with_form _ r) by by apply wma_params.
Qed.

(** Both modules register their routes on one multiplexer. *)
Lemma both_registered annotate (mcall : MultisigProto.QueryParamsRequest → M S MultisigProto.QueryParamsResponse) :
  ∃ mux regs, (mux ← register OracleAnswer annotate (oracle_routes call) NewServeMux;
      register MultisigParams annotate
        [(MultisigGateway.pattern_Query_Params_0, MultisigGateway.request_Query_Params_0 mcall)] mux) =
    Ok mux ∧ mux = registered regs ∧
    ∀ comps, Forall path_component comps →
      matching regs "GET" comps =
      choose (zip oracle_templates
        (map (λ r, handler OracleAnswer annotate r.2) (oracle_routes call))) comps ++
      choose [(multisig_template,
        handler MultisigParams annotate (MultisigGateway.request_Query_Params_0 mcall))] comps.
Proof.
  destruct (register_matching OracleAnswer annotate _ _ [] oracle_routes_templates)
    as (regs & Hr & Hm).
  edestruct (register_matching MultisigParams annotate
    [(MultisigGateway.pattern_Query_Params_0, MultisigGateway.request_Query_Params_0 mcall)]
    [multisig_template] regs) as (regs' & Hr' & Hm').
  { repeat constructor. by apply MustPattern_template. }
  eexists _, (regs ++ regs'). change NewServeMux with (registered (@nil (string * Pattern * HandlerFunc (S := S)))).
  rewrite Hr. cbn [mbind outcome_bind app]. rewrite Hr'. split; [done|]. split; [done|].
  intros comps Hc. rewrite matching_app, Hm, Hm' by done. done.
Qed.

(** A request of the path of a query. *)
Lemma serve_query annotate mcall mux q req s :
  (mux ← register OracleAnswer annotate (oracle_routes call) NewServeMux;
   register MultisigParams annotate
     [(MultisigGateway.pattern_Query_Params_0, MultisigGateway.request_Query_Params_0 mcall)] mux) =
    Ok mux →
  asks q req → annotate req = Ok () →
  ServeHTTP mux req s = let '(r, s') := call q s in (http_result r, s').
Proof.
  intros Hmux Hq Ha. destruct (both_registered annotate mcall) as (mux' & regs & Hr & -> & Hm).
  rewrite Hr in Hmux. injection Hmux as <-.
  destruct (choose_query annotate q req Hq) as (request & params & Hc & Hrun).
  destruct Hq as (Hmethod & Hpath & Hok & _).
  unfold ServeHTTP. rewrite (find_handler_one _ _ _ (handler OracleAnswer annotate request, params) Hpath).
  - unfold handler, on_result, lift. rewrite Ha, Hrun. by destruct (call q s) as [[a|e|] s'].
  - by destruct q.
  - done.
  - rewrite Hmethod, Hm, Hc by done. by destruct q.
Qed.

(** A path of no route. *)
Lemma serve_nothing annotate mcall mux comps req s :
  (mux ← register OracleAnswer annotate (oracle_routes call) NewServeMux;
   register MultisigParams annotate
     [(MultisigGateway.pattern_Query_Params_0, MultisigGateway.request_Query_Params_0 mcall)] mux) =
    Ok mux →
  http_Method req = "GET"%string → http_Path req = path_of comps → comps ≠ [] →
  Forall path_component comps →
  Forall (λ t, segments_match t comps = None) (multisig_template :: oracle_templates) →
  ServeHTTP mux req s = (Ok NoRoute, s).
Proof.
  intros Hmux Hmethod Hpath Hne Hok Hnone.
  destruct (both_registered annotate mcall) as (mux' & regs & Hr & -> & Hm).
  rewrite Hr in Hmux. injection Hmux as <-. unfold ServeHTTP.
  rewrite (find_handler_none regs req comps); [done..|].
  apply Forall_cons in Hnone as [Hms Hor]. rewrite Hm, choose_skip by done. rewrite app_nil_r.
  generalize (map (λ r, handler OracleAnswer annotate r.2) (oracle_routes call)).
  clear -Hor. induction Hor as [|t ts Ht _ IH]; intros [|h hs]; [done..|].
  cbn [zip zip_with]. by rewrite choose_skip.
Qed.
End requests.

(** ** The theorem *)

Section answers.
Context {W : Type} `{DecOps, Bech32, CoinOps, !CoinsOps, !CoinsList, StakingKeeper W}.
Context `{DecCodecLaws} `{ProtoLaws DecCoin} `{!CoinNil} `{GatewayLaws}.
Implicit Types s : State W.

(** The stub of a client over a connection to the service. *)
Lemma client_answer (Invoke : string → bytes → M (State W) bytes) q s :
  (∀ method bz, Invoke ("/oracle.v1.Query/" +:+ method) bz = serve method bz) →
  query_ok q → len (query_encode q) < 2 ^ 63 →
  (∀ a, (answer q s).1 = Ok a → answer_ok a ∧ len (answer_encode a) < 2 ^ 63) →
  NewQueryClient Invoke q s = answer q s.
Proof.
  intros Hc Hq Hlen Ha. unfold NewQueryClient.
  rewrite query_Marshal_encode, (proj2 (Z.leb_gt _ _)), (M_bind_run _ _ _ (query_encode q) s), Hc by done.
  unfold serve, lift, mbind, M_bind. rewrite query_Unmarshal_encode by done.
  destruct (answer q s) as [[a|e|] s'] eqn:Hs; [|done..].
  destruct (Ha a) as [Hok Hl]; [done|].
  rewrite answer_Marshal_encode, (proj2 (Z.leb_gt _ _)) by done.
  rewrite <- (answer_of_method _ _ _ _ Hs). by rewrite answer_Unmarshal_encode.
Qed.

(** C27: the HTTP gateway, with the routes of both modules on one multiplexer:
    the registrations succeed, and a GET request of the documented path of a
    query, with the rest of its parameters in the form, writes what the querier
    answers that query: its value is forwarded, its error is an HTTP error, and
    the state stays as it was.  This holds with the server registered and, when
    the messages fit their fields, with a client whose connection reaches the
    service.  The aggregate vote of a validator is not served under the
    directory of the other queries of validators. *)
Theorem gateway_answers mcall (Invoke : string → bytes → M (State W) bytes) :
  (∀ method bz, Invoke ("/oracle.v1.Query/" +:+ method) bz = serve method bz) →
  ∃ mux cmux,
    (mux ← RegisterQueryHandlerServer NewServeMux answer;
     MultisigGateway.RegisterQueryHandlerServer mux mcall) = Ok mux ∧
    (mux ← RegisterQueryHandler NewServeMux Invoke;
     MultisigGateway.RegisterQueryHandlerClient mux mcall) = Ok cmux ∧
    (∀ q req s, asks q req →
      (AnnotateIncomingContext req = Ok () → ServeHTTP mux req s = (http_result (answer q s).1, s)) ∧
      (AnnotateContext req = Ok () → query_ok q → len (query_encode q) < 2 ^ 63 →
       (∀ a, (answer q s).1 = Ok a → answer_ok a ∧ len (answer_encode a) < 2 ^ 63) →
       ServeHTTP cmux req s = (http_result (answer q s).1, s))) ∧
    (∀ v req s, path_component v → http_Method req = "GET"%string →
      http_Path req = path_of ["oracle"; "v1"; "validators"; v; "aggregate_vote"] →
      ServeHTTP mux req s = (Ok NoRoute, s)).
Proof.
  intros Hc.
  destruct (both_registered answer AnnotateIncomingContext mcall) as (mux & regs & Hr & _).
  destruct (both_registered (NewQueryClient Invoke) AnnotateContext mcall) as (cmux & cregs & Hcr & _).
  exists mux, cmux. split; [exact Hr|]. split; [exact Hcr|]. split.
  - intros q req s Hq. split.
    + intros Ha. rewrite (serve_query _ _ _ _ q req s Hr) by done.
      destruct (answer q s) as [r s'] eqn:E. by apply answer_reads in E as <-.
    + intros Ha Hok Hlen Hans. rewrite (serve_query _ _ _ _ q req s Hcr), client_answer by done.
      destruct (answer q s) as [r s'] eqn:E. by apply answer_reads in E as <-.
  - intros v req s Hv Hm Hp. apply (serve_nothing _ _ _ _ _ req s Hr Hm Hp); [done| |].
    + repeat (apply Forall_cons_2; [first [exact Hv|by apply (bool_decide_unpack _)]|]).
      by apply Forall_nil.
    + repeat (apply Forall_cons_2; [no_match|]). by apply Forall_nil.
Qed.
End answers.

(** ** A runtime to evaluate on *)

Definition first_match {H} (regs : list (string * list segment * H)) (req : http_Request) :
    option (H * path_params) :=
  match http_Path req with
  | String "/"%char path =>
      head (omap (λ r, if String.eqb r.1.1 (http_Method req)
                       then (r.2,.) <$> segments_match r.1.2 (GoStrings.Split "/"%char path) else None) regs)
  | _ => None
  end.

Definition one_text (texts : list string) : outcome string :=
  match texts with [t] => Ok t | _ => Err (Errorf "too many values") end.

Definition populate_field {A} (f : form_field A) (texts : list string) (m : A) : outcome A :=
  match f with
  | FieldString set => t ← one_text texts; Ok (set t m)
  | FieldUint32 set => t ← one_text texts; z ← ParseUint t 32; Ok (set z m)
  | FieldInt64s set => l ← foldM (λ l t, z ← ParseInt t; Ok (l ++ [z])) texts []; Ok (set l m)
  end.

Definition filter_names (filter : DoubleArray) (seq : list string) : bool :=
  match seq with
  | x :: _ => bool_decide (x ∈ (da_Encoding filter).*1)
  | [] => false
  end.

Definition sample_populate {A} (fields : form_fields A) (m : A) (form : list (string * list string))
    (filter : DoubleArray) : outcome A :=
  foldM (λ m '(name, texts),
    if filter_names filter [name] then Ok m else
    match find_field fields name with
    | None => Ok m
    | Some f => populate_field f texts m
    end) form m.

#[local] Instance sample_gateway : GatewayRuntime := {|
  Pattern := list segment;
  NewPattern version ops pool verb _ := template ops pool;
  Match := segments_match;
  ServeMux H := list (string * list segment * H);
  NewServeMux _ := [];
  Handle _ mux method p h := mux ++ [(method, p, h)];
  find_handler _ := first_match;
  runtime_String s := Ok s;
  HasCommonPrefix := filter_names;
  PopulateQueryParameters _ := sample_populate;
  AnnotateContext _ := Ok ();
  AnnotateIncomingContext _ := Ok ();
|}.

Lemma foldM_ParseInt (l l0 : list Z) :
  Forall (λ z, - 2 ^ 63 ≤ z < 2 ^ 63) l →
  foldM (λ l t, z ← ParseInt t; Ok (l ++ [z])) (map pretty l) l0 = Ok (l0 ++ l).
Proof.
  intros Hl. revert l0. induction Hl as [|z l Hz _ IH]; intros l0; cbn [map foldM].
  - by rewrite app_nil_r.
  - rewrite ParseInt_pretty by done. cbn [mbind outcome_bind].
    rewrite IH. by rewrite <- (assoc_L (++)).
Qed.

Lemma populate_field_ok {A} (f : form_field A) v m m' :
  value_ok v → set_value f v m = Some m' → populate_field f (value_texts v) m = Ok m'.
Proof.
  intros Hv Hs. destruct f, v; cbn in *; try done; injection Hs as <-.
  - done.
  - by rewrite ParseUint_pretty.
  - destruct Hv as [_ Hl]. by rewrite foldM_ParseInt.
Qed.

Lemma sample_populate_ok {A} (fields : form_fields A) m vals filter m' :
  Forall (λ v, plain_name v.1 ∧ value_ok v.2) vals →
  Forall (λ v, filter_names filter [v.1] = false) vals →
  set_values fields vals m = Some m' →
  sample_populate fields m (form_texts vals) filter = Ok m'.
Proof.
  intros Hok. revert m. induction Hok as [|[name v] vals [_ Hv] _ IH]; intros m Hf Hs.
  - by injection Hs as ->.
  - apply Forall_cons in Hf as [Hname Hf]. cbn [fst snd] in *. cbn [set_values] in Hs.
    destruct (find_field fields name) as [f|] eqn:Ef; [|done]. cbn in Hs.
    destruct (set_value f v m) as [m1|] eqn:Em; [|done]. cbn in Hs.
    unfold sample_populate. cbn [form_texts map foldM fst snd]. rewrite Hname, Ef.
    rewrite (populate_field_ok _ _ _ m1) by done. by apply IH.
Qed.

Lemma first_match_spec {H} (regs : list (string * list segment * H)) req comps :
  http_Path req = path_of comps → comps ≠ [] → Forall path_component comps →
  first_match regs req = head (matching regs (http_Method req) comps).
Proof.
  intros Hp Hne Hok. unfold first_match. rewrite Hp. unfold path_of.
  rewrite Split_Join; [done..|].
  eapply Forall_impl; [exact Hok|]. by intros c (_ & Hc & _).
Qed.

Lemma sample_registered {H} (regs : list (string * list segment * H)) : registered regs = regs.
Proof.
  unfold registered. cbn [NewServeMux sample_gateway].
  assert (∀ l0, foldl (λ mux r, Handle mux r.1.1 r.1.2 r.2) l0 regs = l0 ++ regs) as Hl.
  { induction regs as [|[[method p] h] regs IH]; intros l0; cbn [foldl]; [by rewrite app_nil_r|].
    rewrite IH. by cbn [Handle sample_gateway fst snd]; rewrite <- (assoc_L (++)). }
  apply Hl.
Qed.

#[local] Instance sample_gateway_laws : GatewayLaws.
Proof.
  split.
  - intros ops pool t Ht. by exists t.
  - intros H regs req comps x Hp Hne Hok Hm. cbn [find_handler sample_gateway].
    by rewrite sample_registered, (first_match_spec _ _ comps), Hm.
  - intros H regs req comps Hp Hne Hok Hg Hm. cbn [find_handler sample_gateway].
    by rewrite sample_registered, (first_match_spec _ _ comps), Hg, Hm.
  - done.
  - by intros [].
  - intros a b x seq _. cbn. apply bool_decide_ext. set_solver.
  - intros A fields m vals filter m' _ Hok Hf Hs. by apply sample_populate_ok.
Qed.

#[local] Instance sample_coins_list : CoinsList := id.

Definition sample_mcall (_ : MultisigProto.QueryParamsRequest) :
    M (State Sample) MultisigProto.QueryParamsResponse := panic.

(** A connection to the service, by the name of the method. *)
Fixpoint str_drop (n : nat) (s : string) : string :=
  match n, s with Datatypes.S n', String _ s' => str_drop n' s' | _, _ => s end.
Definition sample_invoke (full : string) (bz : bytes) : M (State Sample) bytes :=
  serve (str_drop 17 full) bz.

Definition miss_query : oquery := QMissCounter (mkQueryMissCounter "vx").
Definition miss_request : http_Request :=
  mkRequest "GET" "/oracle/v1/validators/vx/miss" [] (Ok []).
Definition medians_query : oquery := QMedians (mkQueryMedians "ATOM" 0).
Definition medians_request : http_Request :=
  mkRequest "GET" "/historacle/v1/denoms/medians" [] (Ok [("num_stamps", ["0"]); ("denom", ["ATOM"])]%string).
Definition vote_request : http_Request :=
  mkRequest "GET" "/oracle/v1/validators/vx/aggregate_vote" [] (Ok []).

(** The two servers answer a request with a path parameter, refuse one whose
    form asks for no stamps, and do not know the path of a vote. *)
Lemma gateway_answers_witness : ∃ mux cmux,
  (mux ← RegisterQueryHandlerServer NewServeMux (answer (W := Sample));
   MultisigGateway.RegisterQueryHandlerServer mux sample_mcall) = Ok mux ∧
  (mux ← RegisterQueryHandler NewServeMux sample_invoke;
   MultisigGateway.RegisterQueryHandlerClient mux sample_mcall) = Ok cmux ∧
  ServeHTTP mux miss_request (sample_state 25) =
    (Ok (ForwardResponseMessage (OracleAnswer (AMissCounter (mkQueryMissCounterResponse 0)))),
     sample_state 25) ∧
  ServeHTTP cmux miss_request (sample_state 25) =
    (Ok (ForwardResponseMessage (OracleAnswer (AMissCounter (mkQueryMissCounterResponse 0)))),
     sample_state 25) ∧
  ServeHTTP mux medians_request (sample_state 25) = (Ok (HTTPError InvalidArgument), sample_state 25) ∧
  ServeHTTP mux vote_request (sample_state 25) = (Ok NoRoute, sample_state 25).
Proof.
  destruct (gateway_answers sample_mcall sample_invoke) as (mux & cmux & Hm & Hc & Hq & Hn);
    [done|].
  assert (asks miss_query miss_request) as Hmiss.
  { split; [done|]. split; [done|]. split; [by apply (bool_decide_unpack _)|done]. }
  assert (asks medians_query medians_request) as Hmed.
  { split; [done|]. split; [done|]. split; [by apply (bool_decide_unpack _)|]. split.
    - repeat apply Forall_cons_2; [done|by split|by apply Forall_nil].
    - eexists. split; [reflexivity|]. apply perm_swap. }
  exists mux, cmux. split; [exact Hm|]. split; [exact Hc|]. split; [|split; [|split]].
  - exact (proj1 (Hq _ _ (sample_state 25) Hmiss) eq_refl).
  - refine (proj2 (Hq _ _ (sample_state 25) Hmiss) eq_refl I _ _); [by vm_compute|].
    intros a Ha. vm_compute in Ha. injection Ha as <-. split; [split; vm_compute; congruence|by vm_compute].
  - exact (proj1 (Hq _ _ (sample_state 25) Hmed) eq_refl).
  - apply (Hn "vx"%string); [by apply (bool_decide_unpack _)|reflexivity..].
Defined.
